(* ===== verification/_CoqProject ===== *)
-Q . S2P
Prelude.v
GoStrings.v
Prog.v
Api.v
Heap.v
DeepCopy.v
Kube.v
Builder.v
Monitoring.v
GameServerObjects.v
Sftp.v
GameServerCtl.v
FleetCtl.v
GoTime.v
ActionCtl.v
SnapshotCtl.v
Webhook.v
Auth.v
Rbac.v
Operator.v
Tenant.v
AuditLog.v
ControlPlane.v
Startup.v
Rcon.v
Scan.v
Players.v
Console.v
Agent.v
AgentMessages.v
AgentRpc.v
AgentServer.v
Registrar.v
Json.v
GenTypes.v
GenClient.v
SdkClient.v
ApiJson.v
ApiViews.v
ApiBodies.v
ApiExamples.v
ClientServer.v
EndToEnd.v
Operations.v
CloudTypes.v
CloudClient.v
CloudOps.v
CloudSpec.v
RegistrarApi.v
Ctl.v
CtlSpec.v
CtlConsole.v
CtlMain.v
FakeClient.v
GoTests.v
GoApiTests.v
GoControllerTests.v
