(* ===== verification/Prelude.v ===== *)
(** * minato: a verified model of a Kubernetes game-server platform

    minato runs game servers on Kubernetes. Its parts, and the files that model
    them:

    - the custom resources ([api/operator/v1]): [Api]; their generated deep
      copies over a heap of Go values, [Heap] and [DeepCopy];
    - the operator, one controller per resource ([internal/controllers]):
      [GameServerCtl] over the object builders [Builder] and [GameServerObjects],
      the SFTP credentials [Sftp] and the metrics and ServiceMonitors
      [Monitoring]; [FleetCtl] for fleets; [ActionCtl] for action executions and
      their clean-up; [SnapshotCtl] for snapshots;
    - its admission webhooks ([internal/webhook]): [Webhook]; and the process that
      puts them together ([cmd/operator]): [Operator];
    - the control plane, an HTTP API in front of the custom resources
      ([cmd/controlplane], [internal/controlplane]): authentication [Auth], route
      and namespace guards [Rbac], tenant provisioning [Tenant], the audit log
      [AuditLog], the handlers, routes and middleware stack [ControlPlane], and
      the process from its environment to its end, [Startup];
    - its console sessions, the two relays of a websocket and an agent's stream
      and the channels between them, as a step relation: [Console];
    - the agent SDK: the RCON clients ([sdk/agent/rcon]), [Rcon], and what they read
      off a game's answers, [Players] with [Scan]; the action catalogs and the
      executor, lifecycle steps and the agent's server
      ([sdk/agent/{actions,lifecycle,server}]): [Agent]; the messages and stubs of
      the agent's RPC ([api/agent/v1]), [AgentMessages] and [AgentRpc]; and how the
      agent's server starts and shuts down, [AgentServer];
    - the registrar, which announces a cluster to minato-cloud ([cmd/registrar]):
      [Registrar];
    - the clients of the control plane: the generated one ([sdk/controlplane/gen]),
      [GenTypes] and [GenClient], and the Go SDK on top of it
      ([sdk/controlplane]), [SdkClient];
    - the JSON between them: [Json], the documents of the custom resources
      [ApiJson], what a client sees of the server's documents [ApiViews], what the
      server reads in a client's bodies [ApiBodies], a concrete JSON text
      [ApiExamples]; and client and server put together, [ClientServer] behind the
      server's guards and [EndToEnd] with its whole middleware; [Operations] runs
      every operation of the generated client against the generated server;
    - the client of minato-cloud ([internal/cloudapi]), [CloudTypes],
      [CloudClient] and [CloudOps], against the document of the cloud's API,
      [CloudSpec], which [RegistrarApi] also compares the registrar with;
    - the command line tool ([cmd/minato-ctl]): its commands, [Ctl] and [CtlSpec]; its
      interactive console, put together with the control plane's, [CtlConsole]; and
      its tree of commands and process, [CtlMain];
    - the repository's unit tests, run on the model: [FakeClient], a cluster in
      memory that answers a program's calls; [GoTests] for what needs none,
      [GoApiTests] for the control plane and [GoControllerTests] for the controllers.

    [Prelude], [GoStrings], [GoTime] and [Prog] hold what they share: machine
    integers, Go maps, slices and sorting; the functions of Go's [strings],
    [strconv] and [fmt] the code uses; [time.ParseDuration]; and programs.
    [Kube] holds the Kubernetes objects and every call to the outside.

    ** How code is modelled

    A function that only computes is a Rocq function. A function that talks to
    the API server, an agent, the clock, the random source, the event recorder,
    the metrics registry, the audit log or a connection is a [Prog.prog]: a
    tree of calls, each continued by the answer it gets. [Prog.runs p t o] says
    that some answers make [p] perform the calls [t] and end in [o], a value
    ([Done]) or a panic ([Crash]). No law restricts the answers, so a theorem
    about all runs holds whatever the API server answers, and in particular
    whatever other controllers do between two calls; a theorem that needs the
    API server to behave says so (for instance [Kube.faithful]: a read
    gives the object asked for; [Kube.always_given] follows a program under such
    an assumption). A program has no loop but the structural ones over lists
    ([for_each], [for_fold]), so every run ends.

    - [error] results are [option gerr] or a sum with [gerr]; [%w] keeps the
      reason of an API error ([Kube.wrapf]).
    - [int32]/[int64] arithmetic wraps ([wrap32], [wrap64]) where the code can
      reach the bounds; slice expressions give [None], a panic, out of range.
    - A quantity is its value in billionths, an instant a [Z] of nanoseconds.
    - An object the code mutates in place is passed along and returned. What the API
      client writes back into an object it is given (resource version,
      defaults) is left out; the code does not read it before the next [Get].
    - A handler of the control plane reads its path parameters from the request
      ([rq_Param]), where the generated wrapper puts them.
    - Logging is left out. A map whose iteration order matters is handled as the
      code does: sorted ([sort_strings]), or with the order as a parameter.
    - [fmt]'s [%q], case mapping and white space are those of ASCII.

    Names are the source's; where two components use the same name, one carries a prefix
    ([ae_Reconcile], [fleet_Reconcile], [snap_Reconcile], [fleet_updateStatus]).
    A long handler is cut into consecutive definitions ([reconcile_profile],
    [reconcile_children], [reconcile_status], ...), each a part of its body.

    ** What is a parameter

    Third-party code is a type class, with its documented laws when a theorem
    needs them and a concrete instance in the witnesses: finalizers
    ([FinalizerOps]), quantities ([QuantityParser]), cron schedules
    ([CronParser]), [sort.Slice] ([SortSlice]), bcrypt ([Bcrypt]), the JSON of
    key entries and bodies ([EntryJSON], [Decode], [Encode]), RFC 3339
    ([RFC3339]), the router and the binding of path parameters ([Router]), the
    templates and decoders of the agent's catalogs ([Template], [CatalogDecode]), the
    RPC library and its encoding ([Grpc], [WellKnown]), the run time's allocation
    and order of maps and the Kubernetes types' own copies ([Runtime],
    [KubeTypes]), the flags the logging library adds ([ZapFlags]).

    Between client and server the JSON trees and the struct tags are modelled, so that
    [Decode] and [Encode] have instances; what remains a parameter is the text of a tree
    ([JsonText]: a printed tree of valid UTF-8 parses back), the documents of the embedded
    Kubernetes types ([KubeJSON]), the building of URLs ([Url]), the transport that
    carries a request ([Transport]), and that chi routes what matches one pattern
    ([RouterTotal]). The command line adds indented text ([IndentJSON]), the
    formatting of dates and times ([DateFormat], [ClockFormat]), [url.Parse]
    ([UrlParse]) and the parsing of its arguments ([Cobra]).

    ** What is proved

    - Control plane. [access_control]: end to end, every call a request leads
      to after its authentication is one its user may make ([may]);
      [process_writes_authorized]: the handler of a process started in any
      environment writes nothing but what is granted to the user the process's
      own chain authenticated in that run. [RouteGuard_policy]
      reads the policy off the paths; [namespace_access_correct],
      [api_key_authentication], [api_key_round_trip], [Middleware_correct] and
      [BuildChain_fails_open] describe identities and their scope;
      [lists_filtered], [patch_endpoints_correct] and
      [fleet_writes_nonnegative] the endpoints; [console_refines_relays],
      [console_no_leak] and [console_writers] a console session under every
      interleaving; [server_audit] the log;
      [EnsureNamespace_correct] and [network_policy_isolates] tenants.
    - Operator. It starts complete or not at all, with the options its command line
      asks for ([operator_starts_complete]), and by default it exposes nothing
      unauthenticated ([secure_by_default]).
      A deep copy of a resource is of its type, equal to it
      ([deep_copy_typed]) and shares nothing with it ([deep_copy_isolated]), which is
      why the controllers' models may pass objects as values.
    - GameServer controller. It never deletes the world of a live server, removes
      its finalizer only after its children are gone, applies exactly the children
      the builders describe, writes only the server's own objects, live or deleted
      ([reconcile_frame]), replicates pull secrets without touching a user's
      ([pull_secrets_safe]), scales down only when
      stopped or idle, and always comes back to a ready server.
    - Fleets: which servers a scale-down takes, how many a scale-up creates, which
      servers a rolling update writes and what it merges into them, and that with
      the default strategy it changes nothing. Actions: the state machine of an
      execution, which executions the mode of a new one excludes, clean-up. Snapshots: when one is due, what retention deletes.
    - Builders: environment precedence, pod layout, service ports. Webhook: what
      an admitted profile guarantees.
    - RCON: codec round trip, totality on any bytes, the session; what the player
      counts are ([minecraft_standard], [source_count]).
    - Agent: an action binds and runs as its catalog entry says
      ([Execute_correct]), and the catalog read from the environment is the one declared
      ([CatalogFromEnv_correct]). A call of a client's stub is at most one call of the
      agent's method ([rpc_reaches_agent]), a panic of a unary method is an error of
      its caller only ([recoverInterceptor_correct]), and a shutdown ends unless it
      waits for a call without a deadline, leaving at most the handlers of calls it
      cancelled ([shutdown_ends]).
    - Registrar: it registers before it beats, backs off up to 32 seconds, and
      registers again after a heartbeat answered 404 ([registrar_protocol]); what it
      sends are operations of the cloud's API with the values of its configuration
      ([registrar_follows_api]).
    - Clients. [sdk_reads] (the SFTP credentials among them) and [sdk_writes]: a method of the SDK run against the
      control plane has the same runs as the specification, the calls on
      the object it names followed by that object's view (equality of runs is an
      equivalence the proofs rewrite with); [sdk_through_server]: what the
      audit log, the authentication and the guards add to that;
      [created_server_round_trip]: what of a
      server given to the SDK is shown when it is read back. [ApiViews] also shows
      which fields a client never sees. [client_server_agree]: every operation of the
      generated client is the server's of the same name;
      [cloud_client_follows_api]: every operation of the cloud's client is the
      document's, with its parameters and the schema of its body (the schemas of
      the answers are not compared). Command line: whatever its arguments, the process stays
      with the tenant they name ([process_scoped]), a login stores the credential the cloud
      accepted, unless the environment has another ([login_verified]); the console tool ends when its connection and
      its input do ([console_session_ends]), and passes on the words typed and the
      agent's messages in order ([console_end_to_end]).

    Each property has a witness that runs the definitions on a concrete
    cluster ([Kube.answer]) or connection ([Rcon.conn]).

    ** Fuel and bounds

    [Rbac.HasPermission] follows [Extends] without a bound in the code; its
    model has fuel, and the theorem gives the fuel that suffices for a role table
    without cycles (and shows that a cycle never returns). [GoTime.parse_groups]
    has the length of its input as fuel, and [parse_groups_fuel] shows that more
    changes nothing.

    The step relations bound their own steps: [Console.fuel],
    [CtlConsole.session_fuel] and [AgentServer.fuel] say how many the program can
    take before it needs its surroundings again.

    ** What is not modelled

    Third-party machinery around the code: chi's logger, recoverer, timeout and size limit;
    cobra's parsing of arguments and the layout of tables in [cmd/minato-ctl]. Generated
    code nothing in the repository reaches: the default methods and error types of the
    generated server, the descriptor the generated messages register for
    reflection, the [Status] and [StatusCode] methods of the generated responses. Charts
    and manifests, which are not code. Of the tests, those run on the model are
    the ones the test files name; the others start a listener or a process (consoles, RCON
    and agent servers, the clients against an HTTP test server), or test what is a
    parameter here. *)

From stdpp Require Export base tactics option list list_numbers gmap strings sorting pretty.
From Stdlib Require Export ZArith Lia.

#[global] Open Scope string_scope.
#[global] Open Scope list_scope.
#[global] Open Scope Z_scope.

(** ** Tactics and hint databases of the development *)

Create HintDb minato discriminated.
#[export] Hint Constants Opaque : minato.
#[export] Hint Variables Transparent : minato.
Create Rewrite HintDb minato_simpl.

(** [cases_in H]: destruct the scrutinee of the outermost [match] of [H]. *)
Ltac cases_in H :=
  match type of H with
  | context [match ?x with _ => _ end] => destruct x eqn:?; simplify_eq/=
  end.

(** [go_cases]: split every [match]/[if] of the goal, clearing the branches
    that contradict the hypotheses. *)
Ltac go_cases := repeat (case_match; simplify_eq/=; try done).

(** [crush]: the closing tactic of routine cases. *)
Ltac crush := simplify_eq/=; eauto with minato; try done; try lia; try congruence.

(** ** Machine integers *)

(** Go's [int32] and [int64] conversions wrap around. *)
Definition wrap32 (z : Z) : Z := (z + 2147483648) mod 4294967296 - 2147483648.
Definition wrap64 (z : Z) : Z :=
  (z + 9223372036854775808) mod 18446744073709551616 - 9223372036854775808.

Definition is_int32 (z : Z) : Prop := -2147483648 <= z <= 2147483647.
Definition is_int64 (z : Z) : Prop :=
  -9223372036854775808 <= z <= 9223372036854775807.

Lemma wrap32_id z : is_int32 z → wrap32 z = z.
Proof.
  unfold is_int32, wrap32. intros H. rewrite Z.mod_small by lia. lia.
Qed.

Lemma wrap32_range z : is_int32 (wrap32 z).
Proof.
  unfold is_int32, wrap32.
  pose proof (Z.mod_pos_bound (z + 2147483648) 4294967296 ltac:(lia)). lia.
Qed.

Lemma wrap64_id z : is_int64 z → wrap64 z = z.
Proof.
  unfold is_int64, wrap64. intros H. rewrite Z.mod_small by lia. lia.
Qed.

#[export] Hint Resolve wrap32_range : minato.

(** ** Time

    A [time.Duration] is an [int64] count of nanoseconds; an instant is a
    count of nanoseconds since the Unix epoch.  [time.Time.Sub] saturates. *)
Definition second : Z := 1000000000.
Definition minute : Z := 60 * second.
Definition hour : Z := 60 * minute.

Definition time_sub (a b : Z) : Z :=
  Z.max (-9223372036854775808) (Z.min 9223372036854775807 (a - b)).

(** [time.Duration(s) * time.Second] on [int64]. *)
Definition seconds (s : Z) : Z := wrap64 (s * second).

Lemma seconds_int32 s : is_int32 s → seconds s = s * second.
Proof.
  unfold is_int32, seconds. intros H. apply wrap64_id.
  unfold is_int64, second. lia.
Qed.

(** ** Go maps

    A Go [map[string]T] is [nil] or a finite map.  Reading a [nil] map yields
    the zero value; writing to it panics. *)
Abbreviation gomap A := (option (gmap string A)).

Definition gm_lookup {A} (m : gomap A) (k : string) : option A := m ≫= (.!! k).
Definition gm_get (m : gomap string) (k : string) : string :=
  default "" (gm_lookup m k).
(** [m[k] = v]; [None] is the panic of an assignment to a [nil] map. *)
Definition gm_set {A} (k : string) (v : A) (m : gomap A) : option (gomap A) :=
  match m with None => None | Some m => Some (Some (<[k:=v]> m)) end.
(** [if m == nil { m = make(...) }]. *)
Definition gm_make {A} (m : gomap A) : gmap string A := default ∅ m.
(** [maps.Copy(dst, src)] on a non-nil [dst]: entries of [src] win. *)
Definition gm_copy {A} (dst : gmap string A) (src : gomap A) : gmap string A :=
  gm_make src ∪ dst.

Lemma gm_copy_lookup {A} (dst : gmap string A) src k :
  gm_copy dst src !! k = match gm_lookup src k with Some v => Some v | None => dst !! k end.
Proof.
  unfold gm_copy, gm_make, gm_lookup. destruct src as [m|]; simpl.
  - rewrite lookup_union. destruct (m !! k), (dst !! k); done.
  - by rewrite (left_id_L ∅ (∪)).
Qed.

#[export] Hint Rewrite @gm_copy_lookup : minato_simpl.

(** ** Slices *)


Lemma bind_singleton {A B} (f : A → B) l : (l ≫= λ x, [f x]) = f <$> l.
Proof. induction l as [|x l IH]; [done|]. by rewrite bind_cons, fmap_cons, IH. Qed.

(** [s[len(s)-1] = x]. *)
Definition set_last {A} (x : A) (l : list A) : list A :=
  <[pred (length l) := x]> l.

(** [s[:n]] of a slice whose capacity is its length; [None] is the panic. *)
Definition slice_to {A} (n : Z) (l : list A) : option (list A) :=
  if decide (0 <= n <= Z.of_nat (length l)) then Some (take (Z.to_nat n) l) else None.

Lemma slice_to_Some {A} n (l l' : list A) :
  slice_to n l = Some l' ↔ 0 <= n <= Z.of_nat (length l) ∧ l' = take (Z.to_nat n) l.
Proof. unfold slice_to. case_decide; naive_solver. Qed.

(** [for i := a; i < b; i++]. *)
Definition range_from (a b : Z) : list Z := seqZ a (b - a).

Lemma elem_of_range_from a b i : i ∈ range_from a b ↔ a <= i < b.
Proof. unfold range_from. rewrite elem_of_seqZ. lia. Qed.

(** First element satisfying a boolean test (a [for] loop with [break]). *)
Fixpoint find_first {A} (f : A → bool) (l : list A) : option A :=
  match l with
  | [] => None
  | x :: l => if f x then Some x else find_first f l
  end.

Lemma find_first_Some {A} (f : A → bool) l x :
  find_first f l = Some x → x ∈ l ∧ f x = true.
Proof.
  induction l as [|y l IH]; simpl; [done|].
  destruct (f y) eqn:E; intros ?; simplify_eq; [set_solver|]. set_solver.
Qed.

Lemma find_first_None {A} (f : A → bool) l :
  find_first f l = None ↔ ∀ x, x ∈ l → f x = false.
Proof.
  induction l as [|y l IH]; simpl; [set_solver|].
  destruct (f y) eqn:E; split.
  - done.
  - intros H. rewrite (H y) in E by set_solver. done.
  - intros H x. rewrite elem_of_cons. intros [->|?]; [done|]. by apply IH.
  - intros H. apply IH. set_solver.
Qed.

(** The first match: everything before it fails the test. *)
Lemma find_first_split {A} (f : A → bool) l x :
  find_first f l = Some x ↔
  ∃ pre post, l = pre ++ x :: post ∧ Forall (λ y, f y = false) pre ∧ f x = true.
Proof.
  induction l as [|y l IH]; simpl.
  - split; [done|]. by intros ([|??] & ? & ? & _).
  - destruct (f y) eqn:E.
    + split; [intros [= ->]; by exists [], l|].
      intros ([|z pre] & post & [= -> ->] & Hp & _); [done|]. inversion_clear Hp. congruence.
    + rewrite IH. split.
      * intros (pre & post & -> & ? & ?). exists (y :: pre), post. by split_and!; [|constructor|].
      * intros ([|z pre] & post & [= -> ->] & Hp & Hx); [congruence|]. inversion_clear Hp. eauto.
Qed.

Lemma existsb_elem_of {A} (f : A → bool) l :
  existsb f l = true ↔ ∃ x, x ∈ l ∧ f x = true.
Proof.
  rewrite existsb_exists. setoid_rewrite list_elem_of_In. done.
Qed.

(** ** Sorting

    [sort.Slice] sorts with a strict "less" test, permutes the slice and is
    not stable: only its documented contract is used, so every theorem about
    a sorted slice holds for each sorting algorithm. *)
Class SortSlice := {
  sort_slice : ∀ {A : Type}, (A → A → bool) → list A → list A;
  sort_slice_perm : ∀ {A : Type} (less : A → A → bool) l, sort_slice less l ≡ₚ l;
  (** for a strict weak order, no element is less than an earlier one *)
  sort_slice_sorted : ∀ {A : Type} (less : A → A → bool) l,
    (∀ x y, less x y = true → less y x = false) →
    (∀ x y z, less x y = false → less y z = false → less x z = false) →
    StronglySorted (λ x y, less y x = false) (sort_slice less l);
}.

Lemma StronglySorted_weaken {A} (R S : A → A → Prop) l :
  (∀ x y, R x y → S x y) → StronglySorted R l → StronglySorted S l.
Proof.
  intros H. induction 1 as [|x l Hl IH Hx]; constructor; [done|].
  eapply Forall_impl; [done|]. auto.
Qed.

(** Insertion sort meets the contract. *)
Fixpoint insert_less {A} (less : A → A → bool) (x : A) (l : list A) : list A :=
  match l with
  | [] => [x]
  | y :: l => if less y x then y :: insert_less less x l else x :: y :: l
  end.
Fixpoint insertion_sort {A} (less : A → A → bool) (l : list A) : list A :=
  match l with
  | [] => []
  | x :: l => insert_less less x (insertion_sort less l)
  end.

Lemma insert_less_perm {A} (less : A → A → bool) x l : insert_less less x l ≡ₚ x :: l.
Proof.
  induction l as [|y l IH]; simpl; [done|].
  destruct (less y x); [|done]. rewrite IH. apply Permutation_swap.
Qed.

Lemma insertion_sort_perm {A} (less : A → A → bool) l : insertion_sort less l ≡ₚ l.
Proof. induction l as [|x l IH]; simpl; [done|]. by rewrite insert_less_perm, IH. Qed.

Lemma insert_less_sorted {A} (less : A → A → bool) x l :
  (∀ x y, less x y = true → less y x = false) →
  (∀ x y z, less x y = false → less y z = false → less x z = false) →
  StronglySorted (λ x y, less y x = false) l →
  StronglySorted (λ x y, less y x = false) (insert_less less x l).
Proof.
  intros Hasym Htr. induction 1 as [|y l Hl IH Hy]; simpl.
  - by repeat constructor.
  - destruct (less y x) eqn:E.
    + constructor; [done|]. rewrite insert_less_perm. constructor; [|done]. auto.
    + constructor; [by constructor|]. constructor; [done|].
      eapply Forall_impl; [done|]. intros z Hz; simpl in *. eauto.
Qed.

Lemma insertion_sort_sorted {A} (less : A → A → bool) l :
  (∀ x y, less x y = true → less y x = false) →
  (∀ x y z, less x y = false → less y z = false → less x z = false) →
  StronglySorted (λ x y, less y x = false) (insertion_sort less l).
Proof.
  intros Hasym Htr. induction l as [|x l IH]; simpl; [constructor|].
  by apply insert_less_sorted.
Qed.

Definition insertion_SortSlice : SortSlice := {|
  sort_slice := @insertion_sort;
  sort_slice_perm := @insertion_sort_perm;
  sort_slice_sorted := @insertion_sort_sorted;
|}.

(** [sort.Strings]: bytewise lexicographic order is total and antisymmetric,
    so the result does not depend on the algorithm. *)
Definition sort_strings (l : list string) : list string := merge_sort String.le l.

Lemma sort_strings_perm l : sort_strings l ≡ₚ l.
Proof. apply merge_sort_Permutation. Qed.

Lemma sort_strings_unique l1 l2 : l1 ≡ₚ l2 → sort_strings l1 = sort_strings l2.
Proof.
  intros H. apply (StronglySorted_unique String.le).
  - apply StronglySorted_merge_sort; apply _.
  - apply StronglySorted_merge_sort; apply _.
  - by rewrite !sort_strings_perm.
Qed.
