(* ===== verification/GoStrings.v ===== *)
(** * GoStrings: the part of Go's [strings] package the program uses

    Go strings are byte strings, modelled by [string] (a list of 8-bit
    characters).  Case mapping and white space are those of ASCII: for bytes
    above 127 Go consults the Unicode tables, which no code path of the
    modelled components depends on. *)

From Stdlib Require Import Ascii String.
From S2P Require Import Prelude.

#[global] Arguments String.append !_ _ / : simpl nomatch.

Declare Scope gostr_scope.
Infix "=s" := String.eqb (at level 70, no associativity) : gostr_scope.
Notation "a <>s b" := (negb (String.eqb a b)) (at level 70, no associativity) : gostr_scope.
#[global] Open Scope gostr_scope.

Lemma eqs_true a b : (a =s b) = true ↔ a = b.
Proof. apply String.eqb_eq. Qed.
Lemma eqs_false a b : (a =s b) = false ↔ a ≠ b.
Proof. apply String.eqb_neq. Qed.
Lemma eqs_refl a : (a =s a) = true.
Proof. by apply eqs_true. Qed.

(** [case_eqs]: split on the string tests of the goal and hypotheses. *)
Ltac case_eqs :=
  repeat match goal with
  | |- context [String.eqb ?a ?b] => destruct (String.eqb_spec a b); simplify_eq/=
  | H : context [String.eqb ?a ?b] |- _ => destruct (String.eqb_spec a b); simplify_eq/=
  end.

#[export] Hint Rewrite eqs_refl : minato_simpl.

(** ** Substrings *)

Fixpoint str_drop (n : nat) (s : string) : string :=
  match n, s with
  | O, _ => s
  | S n, String _ s => str_drop n s
  | S _, EmptyString => ""
  end.

Fixpoint str_take (n : nat) (s : string) : string :=
  match n, s with
  | S n, String c s => String c (str_take n s)
  | _, _ => ""
  end.

Lemma str_app_nil_r s : s +:+ "" = s.
Proof. induction s; simpl; congruence. Qed.

Lemma str_app_assoc a b c : a +:+ (b +:+ c) = (a +:+ b) +:+ c.
Proof. induction a; simpl; congruence. Qed.

Lemma str_length_app a b :
  String.length (a +:+ b) = (String.length a + String.length b)%nat.
Proof. induction a; simpl; congruence. Qed.

Lemma str_app_inj_l a b c : a +:+ b = a +:+ c → b = c.
Proof. induction a; simpl; intros; simplify_eq; auto. Qed.

Lemma str_app_inj_len a b c d :
  String.length a = String.length c → a +:+ b = c +:+ d → a = c ∧ b = d.
Proof.
  revert c. induction a as [|x a IH]; intros [|y c]; simpl; intros; simplify_eq; [done|].
  edestruct IH; eauto. naive_solver.
Qed.

Lemma str_take_app a b : str_take (String.length a) (a +:+ b) = a.
Proof. induction a; simpl; [by destruct b|congruence]. Qed.

Lemma str_drop_app a b : str_drop (String.length a) (a +:+ b) = b.
Proof. by induction a. Qed.

Lemma str_take_drop n s : str_take n s +:+ str_drop n s = s.
Proof. revert s. induction n; intros [|c s]; simpl; try done. by rewrite IHn. Qed.

Lemma str_length_take n s :
  (n <= String.length s)%nat → String.length (str_take n s) = n.
Proof. revert s. induction n; intros [|c s]; simpl; intros; auto with lia. Qed.

Definition HasPrefix (s p : string) : bool := String.prefix p s.

Lemma HasPrefix_spec s p : HasPrefix s p = true ↔ ∃ r, s = p +:+ r.
Proof.
  unfold HasPrefix. revert s. induction p as [|c p IH]; intros s; simpl.
  - split; [|by destruct s]. exists s. done.
  - destruct s as [|d s]; [split; [done|]; by intros [r ?]|]. simpl.
    destruct (ascii_dec c d) as [->|Hne].
    + rewrite IH. split; intros [r ?]; exists r; simplify_eq/=; done.
    + split; [done|]. intros [r ?]. simplify_eq.
Qed.

Definition TrimPrefix (s p : string) : string :=
  if HasPrefix s p then str_drop (String.length p) s else s.

Lemma TrimPrefix_app p s : TrimPrefix (p +:+ s) p = s.
Proof.
  unfold TrimPrefix. replace (HasPrefix (p +:+ s) p) with true.
  - apply str_drop_app.
  - symmetry. apply HasPrefix_spec. eauto.
Qed.

(** [strings.CutPrefix]. *)
Definition CutPrefix (s p : string) : option string :=
  if HasPrefix s p then Some (str_drop (String.length p) s) else None.

Definition HasSuffix (s p : string) : bool :=
  Nat.leb (String.length p) (String.length s)
  && (str_drop (String.length s - String.length p) s =s p).

Lemma HasSuffix_spec s p : HasSuffix s p = true ↔ ∃ r, s = r +:+ p.
Proof.
  unfold HasSuffix. rewrite andb_true_iff, Nat.leb_le, eqs_true. split.
  - intros [Hle Hd]. exists (str_take (String.length s - String.length p) s).
    rewrite <-Hd at 2. by rewrite str_take_drop.
  - intros [r ->]. rewrite str_length_app. split; [lia|].
    replace (String.length r + String.length p - String.length p)%nat
      with (String.length r) by lia. apply str_drop_app.
Qed.

Definition TrimSuffix (s p : string) : string :=
  if HasSuffix s p then str_take (String.length s - String.length p) s else s.

Lemma TrimSuffix_app r p : TrimSuffix (r +:+ p) p = r.
Proof.
  unfold TrimSuffix. replace (HasSuffix (r +:+ p) p) with true.
  - rewrite str_length_app.
    replace (String.length r + String.length p - String.length p)%nat
      with (String.length r) by lia. apply str_take_app.
  - symmetry. apply HasSuffix_spec. eauto.
Qed.

(** [strings.Contains]. *)
Fixpoint Contains (s sub : string) : bool :=
  HasPrefix s sub ||
  match s with EmptyString => false | String _ s => Contains s sub end.

Lemma Contains_spec s sub : Contains s sub = true ↔ ∃ a b, s = a +:+ sub +:+ b.
Proof.
  induction s as [|c s IH]; cbn [Contains]; rewrite orb_true_iff, HasPrefix_spec.
  - split.
    + intros [[r ?]|?]; [|done]. by exists "", r.
    + intros (a & b & H). left. exists b. destruct a; [done|]. discriminate.
  - rewrite IH. split.
    + intros [[r ->]|(a & b & ->)]; [by exists "", r|]. by exists (String c a), b.
    + intros ([|d a] & b & H); simplify_eq/=; [left; eauto|right; eauto].
Qed.

(** ** Characters *)

Definition byte_of (c : ascii) : nat := nat_of_ascii c.

Definition is_space (c : ascii) : bool :=
  match byte_of c with
  | 9%nat | 10%nat | 11%nat | 12%nat | 13%nat | 32%nat => true
  | _ => false
  end.

Definition lower_ascii (c : ascii) : ascii :=
  let n := byte_of c in
  if Nat.leb 65 n && Nat.leb n 90 then ascii_of_nat (n + 32) else c.
Definition upper_ascii (c : ascii) : ascii :=
  let n := byte_of c in
  if Nat.leb 97 n && Nat.leb n 122 then ascii_of_nat (n - 32) else c.

Fixpoint str_map (f : ascii → ascii) (s : string) : string :=
  match s with EmptyString => "" | String c s => String (f c) (str_map f s) end.

Definition ToLower : string → string := str_map lower_ascii.
Definition ToUpper : string → string := str_map upper_ascii.

Lemma lower_ascii_idem c : lower_ascii (lower_ascii c) = lower_ascii c.
Proof. by destruct c as [[] [] [] [] [] [] [] []]. Qed.

Lemma lower_upper_ascii c : lower_ascii (upper_ascii c) = lower_ascii c.
Proof. by destruct c as [[] [] [] [] [] [] [] []]. Qed.

Lemma upper_lower_ascii c : upper_ascii (lower_ascii c) = upper_ascii c.
Proof. by destruct c as [[] [] [] [] [] [] [] []]. Qed.

Lemma ToLower_idem s : ToLower (ToLower s) = ToLower s.
Proof. unfold ToLower. induction s; simpl; [done|]. by rewrite lower_ascii_idem, IHs. Qed.

(** [strings.ReplaceAll(s, old, new)] for one-character strings. *)
Definition replace_char (old new : ascii) : string → string :=
  str_map (λ c, if Ascii.eqb c old then new else c).

Fixpoint str_forall (P : ascii → bool) (s : string) : bool :=
  match s with EmptyString => true | String c s => P c && str_forall P s end.

Lemma str_forall_app P a b : str_forall P (a +:+ b) = str_forall P a && str_forall P b.
Proof. induction a; simpl; [done|]. by rewrite IHa, andb_assoc. Qed.

(** ** Trimming *)

Fixpoint trim_left (P : ascii → bool) (s : string) : string :=
  match s with
  | String c s' => if P c then trim_left P s' else s
  | EmptyString => ""
  end.

Fixpoint trim_right (P : ascii → bool) (s : string) : string :=
  match s with
  | EmptyString => ""
  | String c s' =>
      match trim_right P s' with
      | EmptyString => if P c then "" else String c ""
      | r => String c r
      end
  end.

Definition trim (P : ascii → bool) (s : string) : string := trim_right P (trim_left P s).

Definition TrimSpace : string → string := trim is_space.
(** [strings.Trim(s, cutset)] for a one-character cut set. *)
Definition TrimChar (c : ascii) : string → string := trim (Ascii.eqb c).

Lemma trim_left_none P s :
  (∀ c r, s = String c r → P c = false) → trim_left P s = s.
Proof. destruct s as [|c s]; simpl; [done|]. intros H. by rewrite (H c s). Qed.

Lemma trim_right_forall P s : str_forall (λ c, negb (P c)) s = true → trim_right P s = s.
Proof.
  induction s as [|c s IH]; simpl; [done|].
  rewrite andb_true_iff, negb_true_iff. intros [Hc Hs]. rewrite IH by done.
  destruct s; [by rewrite Hc|done].
Qed.

Lemma trim_forall P s : str_forall (λ c, negb (P c)) s = true → trim P s = s.
Proof.
  intros H. unfold trim. rewrite trim_left_none; [by apply trim_right_forall|].
  intros c r ->. simpl in H. apply andb_true_iff in H as [?%negb_true_iff _]. done.
Qed.

(** ** Splitting and joining *)

(** [strings.Split(s, sep)] for a one-character separator. *)
Fixpoint Split (sep : ascii) (s : string) : list string :=
  match s with
  | EmptyString => [""]
  | String c s =>
      if Ascii.eqb c sep then "" :: Split sep s
      else match Split sep s with
           | h :: t => String c h :: t
           | [] => [String c ""]
           end
  end.

Fixpoint Join (sep : string) (l : list string) : string :=
  match l with
  | [] => ""
  | [s] => s
  | s :: l => s +:+ sep +:+ Join sep l
  end.

(** [strings.SplitN(s, sep, 2)]: the two halves around the first [sep]. *)
Fixpoint cut_fuel (fuel : nat) (s sep : string) : option (string * string) :=
  if HasPrefix s sep then Some ("", str_drop (String.length sep) s)
  else match fuel, s with
       | S fuel, String c s =>
           match cut_fuel fuel s sep with
           | Some (a, b) => Some (String c a, b)
           | None => None
           end
       | _, _ => None
       end.
Definition Cut (s sep : string) : option (string * string) :=
  cut_fuel (String.length s) s sep.

Definition no_char (c : ascii) (s : string) : bool := str_forall (λ d, negb (Ascii.eqb d c)) s.

Lemma Split_not_nil sep s : Split sep s ≠ [].
Proof.
  destruct s as [|c s]; simpl; [done|].
  destruct (Ascii.eqb c sep), (Split sep s); done.
Qed.

Lemma Join_Split sep s : Join (String sep "") (Split sep s) = s.
Proof.
  induction s as [|c s IH]; [done|]. cbn [Split].
  pose proof (Split_not_nil sep s).
  destruct (Ascii.eqb_spec c sep) as [->|Hne].
  - destruct (Split sep s); [done|]. cbn [Join] in *. by rewrite <-IH.
  - destruct (Split sep s) as [|h [|h' t]]; [done|..]; simpl in *; by rewrite <-IH.
Qed.

Lemma Split_no_char sep s p : p ∈ Split sep s → no_char sep p = true.
Proof.
  revert p. induction s as [|c s IH]; intros p; cbn [Split].
  - intros ->%list_elem_of_singleton. done.
  - pose proof (Split_not_nil sep s).
    destruct (Ascii.eqb_spec c sep) as [->|Hne]; rewrite ?elem_of_cons.
    + intros [->|?]; [done|auto].
    + destruct (Split sep s) as [|h t]; [done|].
      rewrite elem_of_cons. intros [->|?]; [|apply IH; set_solver].
      unfold no_char; cbn [str_forall].
      apply andb_true_iff. split; [by apply negb_true_iff, Ascii.eqb_neq|].
      apply IH. set_solver.
Qed.

Lemma Split_app sep a b :
  no_char sep a = true → Split sep (a +:+ String sep b) = a :: Split sep b.
Proof.
  unfold no_char. induction a as [|c a IH]; simpl; [by rewrite Ascii.eqb_refl|].
  rewrite andb_true_iff. intros [->%negb_true_iff Ha]. by rewrite IH.
Qed.

Lemma Split_single sep a : no_char sep a = true → Split sep a = [a].
Proof.
  unfold no_char. induction a as [|c a IH]; simpl; [done|].
  rewrite andb_true_iff. intros [->%negb_true_iff Ha]. by rewrite IH.
Qed.

Lemma Split_Join sep l :
  l ≠ [] → Forall (λ p, no_char sep p = true) l → Split sep (Join (String sep "") l) = l.
Proof.
  induction l as [|a [|b l] IH]; intros Hne Hl; [done| |].
  - inversion_clear Hl. by apply Split_single.
  - inversion_clear Hl.
    change (Join (String sep "") (a :: b :: l))
      with (a +:+ String sep (Join (String sep "") (b :: l))).
    rewrite Split_app by done. f_equal. by apply IH.
Qed.

Lemma length_Split_pos sep s : (0 < length (Split sep s))%nat.
Proof. pose proof (Split_not_nil sep s). destruct (Split sep s); simpl; [done|lia]. Qed.

(** [strings.Fields]: maximal runs of non-space characters. *)
Fixpoint fields_go (cur : string) (s : string) : list string :=
  match s with
  | EmptyString => if cur =s "" then [] else [cur]
  | String c s =>
      if is_space c then
        (if cur =s "" then fields_go "" s else cur :: fields_go "" s)
      else fields_go (cur +:+ String c "") s
  end.
Definition Fields : string → list string := fields_go "".

Lemma fields_go_nonempty cur s f : f ∈ fields_go cur s → f ≠ "".
Proof.
  revert cur. induction s as [|c s IH]; intros cur; simpl.
  - case_eqs; set_solver.
  - destruct (is_space c); [|apply IH].
    case_eqs; [apply IH|]. rewrite elem_of_cons. intros [->|?]; [done|by eapply IH].
Qed.

(** ** Numbers *)

Definition digit_val (c : ascii) : option Z :=
  let n := byte_of c in
  if Nat.leb 48 n && Nat.leb n 57 then Some (Z.of_nat n - 48) else None.

Fixpoint digits_val (acc : Z) (s : string) : option Z :=
  match s with
  | EmptyString => Some acc
  | String c s => match digit_val c with
                  | Some d => digits_val (10 * acc + d) s
                  | None => None
                  end
  end.

(** [strconv.Atoi]: an optional sign and decimal digits, in the range of
    [int] (64 bits). *)
Definition digits_nonempty (s : string) : option Z :=
  if s =s "" then None else digits_val 0 s.

Definition Atoi (s : string) : option Z :=
  let signed :=
    match s with
    | EmptyString => None
    | String c r =>
        if Ascii.eqb c "-" then Z.opp <$> digits_nonempty r
        else if Ascii.eqb c "+" then digits_nonempty r
        else digits_val 0 s
    end in
  match signed with
  | Some z => if (-9223372036854775808 <=? z) && (z <=? 9223372036854775807)
              then Some z else None
  | None => None
  end.

Lemma Atoi_range s z : Atoi s = Some z → is_int64 z.
Proof.
  unfold Atoi, is_int64. intros H. case_match; [|done].
  case_match; simplify_eq. lia.
Qed.

(** [fmt.Sprintf("%d", z)]. *)
Definition itoa (z : Z) : string := pretty z.

#[export] Instance itoa_inj : Inj (=) (=) itoa.
Proof. apply pretty_Z_inj. Qed.

(** ** Quoting *)

Definition dquote : ascii := "034"%char.
Definition newline : string := String "010"%char "".

(** [%q] on ASCII text: quotes, backslashes and control characters are
    escaped; other bytes are kept. *)
Definition hex_digit (n : N) : ascii :=
  if (n <? 10)%N then ascii_of_N (48 + n) else ascii_of_N (87 + n).
Definition quote_char (c : ascii) : string :=
  let n := N_of_ascii c in
  if bool_decide (c = dquote) then String "\" (String dquote "")
  else if bool_decide (c = "\"%char) then "\\"
  else if (n =? 7)%N then "\a" else if (n =? 8)%N then "\b"
  else if (n =? 12)%N then "\f" else if (n =? 10)%N then "\n"
  else if (n =? 13)%N then "\r" else if (n =? 9)%N then "\t"
  else if (n =? 11)%N then "\v"
  else if (n <? 32)%N || (n =? 127)%N
       then "\x" +:+ String (hex_digit (n / 16)) (String (hex_digit (n mod 16)) "")
  else String c "".
Fixpoint quote_body (s : string) : string :=
  match s with
  | "" => ""
  | String c s => quote_char c +:+ quote_body s
  end.
Definition quoted (s : string) : string := String dquote (s +:+ String dquote "").
Definition fmt_q (s : string) : string := quoted (quote_body s).
