(* ===== verification/Prog.v ===== *)
(** * Prog: programs that call the outside world

    A Go function that talks to the API server, an agent, the clock or any
    other code that is not part of the repository is a [prog E A]: a tree of
    calls [e : E X], each continued by the answer [x : X] it gets.  Nothing is
    assumed about the answers, so a theorem about all runs of a [prog] holds
    whatever the API server, the agents and concurrent controllers do. *)

From S2P Require Import Prelude.

Section Prog.
Context {E : Type → Type}.

Inductive prog (A : Type) : Type :=
| Ret (a : A)
| Call {X : Type} (e : E X) (k : X → prog A)
| Panic (msg : string).
Arguments Ret {_} _.
Arguments Call {_ _} _ _.
Arguments Panic {_} _.

(** One call and its answer. *)
Inductive event : Type :=
| Ev {X : Type} (e : E X) (x : X).

Inductive outcome (A : Type) : Type :=
| Done (a : A)
| Crash (msg : string).
Arguments Done {_} _.
Arguments Crash {_} _.

Fixpoint bind {A B} (p : prog A) (f : A → prog B) : prog B :=
  match p with
  | Ret a => f a
  | Call e k => Call e (λ x, bind (k x) f)
  | Panic m => Panic m
  end.

Definition call {X} (e : E X) : prog X := Call e Ret.

(** ** Runs *)

(** [runs p t o]: some answers of the environment make [p] perform the calls
    [t] and end with outcome [o]. *)
Fixpoint runs {A} (p : prog A) (t : list event) (o : outcome A) : Prop :=
  match p with
  | Ret a => t = [] ∧ o = Done a
  | Panic m => t = [] ∧ o = Crash m
  | Call e k => ∃ x t', t = Ev e x :: t' ∧ runs (k x) t' o
  end.

(** Every run ends: with a handler for the calls, [exec] computes the run. *)
Fixpoint exec {A S} (h : ∀ X, E X → S → X * S) (p : prog A) (s : S)
  : list event * outcome A * S :=
  match p with
  | Ret a => ([], Done a, s)
  | Panic m => ([], Crash m, s)
  | Call e k =>
      let '(x, s) := h _ e s in
      let '(t, o, s) := exec h (k x) s in (Ev e x :: t, o, s)
  end.

Lemma exec_runs {A S} (h : ∀ X, E X → S → X * S) (p : prog A) s t o s' :
  exec h p s = (t, o, s') → runs p t o.
Proof.
  revert s t o s'. induction p as [a|X e k IH|m]; intros s t o s'; simpl.
  - by intros [= <- <- <-].
  - destruct (h X e s) as [x s1]. destruct (exec h (k x) s1) as [[t1 o1] s2] eqn:Ex.
    intros [= <- <- <-]. eauto.
  - by intros [= <- <- <-].
Qed.

Lemma exec_result_runs {A S} (h : ∀ X, E X → S → X * S) (p : prog A) s :
  runs p (exec h p s).1.1 (exec h p s).1.2.
Proof. destruct (exec h p s) as [[t o] s'] eqn:Ex. by eapply exec_runs. Qed.

(** ** Partial-correctness triples over runs *)

Definition post {A} (p : prog A) (Φ : list event → outcome A → Prop) : Prop :=
  ∀ t o, runs p t o → Φ t o.

Lemma runs_bind {A B} (p : prog A) (f : A → prog B) t o :
  runs (bind p f) t o ↔
  (∃ m, runs p t (Crash m) ∧ o = Crash m) ∨
  (∃ a t1 t2, t = t1 ++ t2 ∧ runs p t1 (Done a) ∧ runs (f a) t2 o).
Proof.
  revert t. induction p as [a|X e k IH|m]; intros t; simpl.
  - split; [intros H; right; by exists a, [], t|].
    intros [(?&(?&?)&?)|(?&?&?&->&(->&?)&?)]; by simplify_eq.
  - split.
    + intros (x & t' & -> & [(m & ? & ->)|(a & t1 & t2 & -> & ? & ?)]%IH).
      * left. exists m. split; [by exists x, t'|done].
      * right. exists a, (Ev e x :: t1), t2. split; [done|]. split; [by exists x, t1|done].
    + intros [(m & (x & t' & -> & ?) & ->)|(a & ? & t2 & -> & (x & t1 & -> & ?) & ?)].
      * exists x, t'. split; [done|]. apply IH. left. by exists m.
      * exists x, (t1 ++ t2). split; [done|]. apply IH. right. by exists a, t1, t2.
  - split; [intros [-> ->]; eauto|].
    intros [(?&(->&?)&->)|(?&?&?&->&(->&?)&?)]; by simplify_eq.
Qed.

Lemma runs_bind_Done {A B} (p : prog A) (f : A → prog B) t b :
  runs (bind p f) t (Done b) →
  ∃ a t1 t2, t = t1 ++ t2 ∧ runs p t1 (Done a) ∧ runs (f a) t2 (Done b).
Proof. intros [(m & _ & [=])|H]%runs_bind; done. Qed.

Lemma post_bind {A B} (p : prog A) (f : A → prog B) Φ :
  post p (λ t1 o1, match o1 with
                   | Done a => post (f a) (λ t2 o, Φ (t1 ++ t2) o)
                   | Crash m => Φ t1 (Crash m)
                   end) →
  post (bind p f) Φ.
Proof.
  intros H t o [(m & Hr & ->)|(a & t1 & t2 & -> & H1 & H2)]%runs_bind.
  - by apply H in Hr.
  - apply H in H1. by apply H1.
Qed.

Lemma post_ret {A} (a : A) (Φ : list event → outcome A → Prop) :
  Φ [] (Done a) → post (Ret a) Φ.
Proof. intros H t o [-> ->]. done. Qed.

Lemma post_call {A X} (e : E X) (k : X → prog A) (Φ : list event → outcome A → Prop) :
  (∀ x, post (k x) (λ t o, Φ (Ev e x :: t) o)) → post (Call e k) Φ.
Proof. intros H t o (x & t' & -> & Hr). by apply H. Qed.

Lemma post_mono {A} (p : prog A) (Φ Ψ : list event → outcome A → Prop) :
  (∀ t o, Φ t o → Ψ t o) → post p Φ → post p Ψ.
Proof. unfold post. eauto. Qed.

(** ** Safety of calls *)

(** Every call of every run satisfies [Q]. *)
Fixpoint always {A} (Q : ∀ X, E X → Prop) (p : prog A) : Prop :=
  match p with
  | Ret _ | Panic _ => True
  | Call e k => Q _ e ∧ ∀ x, always Q (k x)
  end.

Definition ev_sat (Q : ∀ X, E X → Prop) (v : event) : Prop :=
  match v with @Ev X e _ => Q X e end.

Lemma always_runs {A} Q (p : prog A) t o :
  always Q p → runs p t o → Forall (ev_sat Q) t.
Proof.
  revert t. induction p as [a|X e k IH|m]; intros t; simpl.
  - intros _ [-> _]. done.
  - intros [HQ Hk] (x & t' & -> & Hr). constructor; [done|]. by eapply IH.
  - intros _ [-> _]. done.
Qed.

Lemma always_bind {A B} Q (p : prog A) (f : A → prog B) :
  always Q p → (∀ a, always Q (f a)) → always Q (bind p f).
Proof. induction p as [a|X e k IH|m]; simpl; naive_solver. Qed.

Lemma always_mono {A} (Q R : ∀ X, E X → Prop) (p : prog A) :
  (∀ X e, Q X e → R X e) → always Q p → always R p.
Proof. intros H. induction p; simpl; naive_solver. Qed.

(** Every result of every run satisfies [Φ]. *)
Fixpoint ret_sat {A} (Φ : A → Prop) (p : prog A) : Prop :=
  match p with
  | Ret a => Φ a
  | Call e k => ∀ x, ret_sat Φ (k x)
  | Panic _ => True
  end.

Lemma ret_sat_runs {A} Φ (p : prog A) t a : ret_sat Φ p → runs p t (Done a) → Φ a.
Proof.
  revert t. induction p as [b|X e k IH|m]; intros t; simpl.
  - by intros ? [_ [= ->]].
  - intros Hk (x & t' & -> & Hr). by eapply IH.
  - by intros _ [_ ?].
Qed.

Lemma ret_sat_bind {A B} Φ Ψ (p : prog A) (f : A → prog B) :
  ret_sat Φ p → (∀ a, Φ a → ret_sat Ψ (f a)) → ret_sat Ψ (bind p f).
Proof. induction p as [a|X e k IH|m]; simpl; naive_solver. Qed.

Lemma ret_sat_mono {A} (Φ Ψ : A → Prop) (p : prog A) :
  (∀ a, Φ a → Ψ a) → ret_sat Φ p → ret_sat Ψ p.
Proof. intros H. induction p; simpl; naive_solver. Qed.

Lemma ret_sat_True {A} (p : prog A) : ret_sat (λ _, True) p.
Proof. induction p; simpl; auto. Qed.

Lemma always_bind_ret {A B} Q Φ (p : prog A) (f : A → prog B) :
  always Q p → ret_sat Φ p → (∀ a, Φ a → always Q (f a)) → always Q (bind p f).
Proof. induction p as [a|X e k IH|m]; simpl; naive_solver. Qed.

(** No run crashes. *)
Fixpoint no_panic {A} (p : prog A) : Prop :=
  match p with
  | Ret _ => True
  | Call e k => ∀ x, no_panic (k x)
  | Panic _ => False
  end.

Lemma no_panic_runs {A} (p : prog A) t o : no_panic p → runs p t o → ∃ a, o = Done a.
Proof.
  revert t. induction p as [a|X e k IH|m]; intros t; simpl.
  - intros _ [_ ->]. eauto.
  - intros Hk (x & t' & -> & Hr). by eapply IH.
  - done.
Qed.

Lemma no_panic_bind {A B} (p : prog A) (f : A → prog B) :
  no_panic p → (∀ a, no_panic (f a)) → no_panic (bind p f).
Proof. induction p as [a|X e k IH|m]; simpl; naive_solver. Qed.

(** ** Loops *)

(** A [for ... range] loop whose body may return from the function. *)
Fixpoint for_each {A R} (l : list A) (body : A → prog (option R)) : prog (option R) :=
  match l with
  | [] => Ret None
  | x :: l => bind (body x) (λ r, match r with
                                  | Some r => Ret (Some r)
                                  | None => for_each l body
                                  end)
  end.

(** A loop whose body never returns early and threads a state. *)
Fixpoint for_fold {A S} (l : list A) (body : A → S → prog S) (s : S) : prog S :=
  match l with
  | [] => Ret s
  | x :: l => bind (body x s) (for_fold l body)
  end.

Lemma always_for_each {A R} Q (l : list A) (body : A → prog (option R)) :
  (∀ x, x ∈ l → always Q (body x)) → always Q (for_each l body).
Proof.
  induction l as [|x l IH]; simpl; [done|]. intros H.
  apply always_bind; [apply H; set_solver|].
  intros [r|]; simpl; [done|]. apply IH. set_solver.
Qed.

Lemma no_panic_for_each {A R} (l : list A) (body : A → prog (option R)) :
  (∀ x, x ∈ l → no_panic (body x)) → no_panic (for_each l body).
Proof.
  induction l as [|x l IH]; simpl; [done|]. intros H.
  apply no_panic_bind; [apply H; set_solver|].
  intros [r|]; simpl; [done|]. apply IH. set_solver.
Qed.

Lemma for_each_runs_elem {A R} (l : list A) (body : A → prog (option R)) t x :
  runs (for_each l body) t (Done None) → x ∈ l → ∃ t', runs (body x) t' (Done None).
Proof.
  revert t. induction l as [|y l IH]; intros t; cbn [for_each]; [set_solver|].
  intros (a & t1 & t2 & -> & H1 & H2)%runs_bind_Done. destruct a; [by destruct H2|].
  rewrite elem_of_cons. intros [->|Hx]; [eauto|by eapply IH].
Qed.

Lemma ret_sat_for_each {A R} (l : list A) (body : A → prog (option R)) :
  (∀ x, x ∈ l → ret_sat (λ r, r = None) (body x)) → ret_sat (λ r, r = None) (for_each l body).
Proof.
  induction l as [|x l IH]; simpl; [done|]. intros H.
  eapply ret_sat_bind; [apply H; set_solver|]. intros a ->. apply IH. set_solver.
Qed.

Lemma always_for_fold {A S} Q (l : list A) (body : A → S → prog S) s :
  (∀ x s, x ∈ l → always Q (body x s)) → always Q (for_fold l body s).
Proof.
  revert s. induction l as [|x l IH]; intros s H; simpl; [done|].
  apply always_bind; [apply H; set_solver|]. intros s'. apply IH. set_solver.
Qed.

Lemma no_panic_for_fold {A S} (l : list A) (body : A → S → prog S) s :
  (∀ x s, x ∈ l → no_panic (body x s)) → no_panic (for_fold l body s).
Proof.
  revert s. induction l as [|x l IH]; intros s H; simpl; [done|].
  apply no_panic_bind; [apply H; set_solver|]. intros s'. apply IH. set_solver.
Qed.
End Prog.

Arguments prog : clear implicits.
Arguments event : clear implicits.
Arguments outcome : clear implicits.
Arguments Ret {_ _} _.
Arguments Call {_ _ _} _ _.
Arguments Panic {_ _} _.
Arguments Done {_} _.
Arguments Crash {_} _.
Arguments Ev {_ _} _ _.

Declare Scope prog_scope.
Notation "'let*' x := m 'in' k" := (bind m (λ x, k))
  (at level 10, x name, m at level 100, k at level 200)
  : prog_scope.
Notation "'let*' ' p := m 'in' k" := (bind m (λ x, match x with p => k end))
  (at level 10, p pattern, m at level 100, k at level 200)
  : prog_scope.
Notation "m ;;; k" := (bind m (λ _, k))
  (at level 100, right associativity) : prog_scope.
#[global] Open Scope prog_scope.

(** [safe_calls]: prove [always]/[no_panic] of a program by following its
    structure; the goals left are the conditions on single calls. *)
Ltac safe_step :=
  match goal with
  | |- always _ (bind _ _) => apply always_bind; [|intros ?]
  | |- no_panic (bind _ _) => apply no_panic_bind; [|intros ?]
  | |- always _ (for_each _ _) => apply always_for_each; intros ? ?
  | |- no_panic (for_each _ _) => apply no_panic_for_each; intros ? ?
  | |- always _ (for_fold _ _ _) => apply always_for_fold; intros ? ? ?
  | |- no_panic (for_fold _ _ _) => apply no_panic_for_fold; intros ? ? ?
  | |- always _ (Ret _) => exact I
  | |- no_panic (Ret _) => exact I
  | |- always _ (call _) => split; [|intros ?; exact I]
  | |- no_panic (call _) => intros ?; exact I
  | |- always _ (Call _ _) => split; [|intros ?]
  | |- no_panic (Call _ _) => intros ?
  | |- always _ (Panic _) => exact I
  | |- no_panic (Panic _) => exfalso
  | |- always _ (match ?x with _ => _ end) => destruct x eqn:?
  | |- no_panic (match ?x with _ => _ end) => destruct x eqn:?
  | |- always _ _ => solve [eauto with minato]
  | |- no_panic _ => solve [eauto with minato]
  end.
(** The same for [ret_sat]: the goals left are about returned values. *)
Ltac ret_step :=
  match goal with
  | |- ret_sat _ (bind _ _) =>
      first [eapply ret_sat_bind; [solve [eauto with minato]|intros ? ?]
            |apply (ret_sat_bind (λ _, True)); [apply ret_sat_True|intros ? _]]
  | |- ret_sat _ (Call _ _) => intros ?
  | |- ret_sat _ (call _) => intros ?
  | |- ret_sat _ (Panic _) => exact I
  | |- ret_sat _ (match ?x with _ => _ end) => destruct x eqn:?
  | |- ret_sat _ (Ret _) => cbn [ret_sat]
  end.
Ltac ret_calls := cbv zeta; repeat ret_step.
Ltac safe_calls := cbv zeta; repeat safe_step.

(** [run_steps H]: unfold a hypothesis [runs p t o] along the calls of [p]. *)
Ltac run_step H :=
  lazymatch type of H with
  | runs (bind _ _) _ (Done _) =>
      apply runs_bind_Done in H;
      let a := fresh "a" in let t1 := fresh "t" in
      let t2 := fresh "t" in let H1 := fresh "Hrun" in
      destruct H as (a & t1 & t2 & -> & H1 & H)
  | runs (bind _ _) _ _ =>
      apply runs_bind in H;
      let m := fresh "m" in let a := fresh "a" in let t1 := fresh "t" in
      let t2 := fresh "t" in let H1 := fresh "Hrun" in
      destruct H as [(m & H1 & ->)|(a & t1 & t2 & -> & H1 & H)]
  | runs (Ret _) _ _ => destruct H as [-> ->]
  | runs (call _) _ _ =>
      let x := fresh "x" in
      destruct H as (x & ? & -> & [-> ?]); simplify_eq
  | runs (match ?x with _ => _ end) _ _ => destruct x eqn:?
  end.
