(* ===== verification/Api.v ===== *)
(** * Api: the custom resources ([api/operator/v1]) and their methods

    Every record has the fields of the Go struct it models, under the same
    names prefixed by the struct's.  The Kubernetes types the structs embed
    ([metav1.ObjectMeta], [metav1.Condition], [corev1.ResourceRequirements],
    ...) are given with the fields the program reads or writes.

    - [int32]/[int64] fields are [Z];
    - a pointer field is an [option];
    - a map field is a [gomap] where the program tells [nil] from empty;
    - an instant ([metav1.Time]) is a [Z] of nanoseconds. *)

From S2P Require Import Prelude GoStrings.

(** ** Kubernetes data *)

Record ObjectMeta := {
  om_Name : string;
  om_Namespace : string;
  om_Labels : gomap string;
  om_Annotations : gomap string;
  om_Generation : Z;
  om_CreationTimestamp : Z;
  (** [nil] (zero) for an object that is not being deleted *)
  om_DeletionTimestamp : option Z;
  om_Finalizers : list string;
  (** the controller owner reference: kind and name *)
  om_Controller : option (string * string);
}.

Definition new_meta (name ns : string) (labels : gomap string) : ObjectMeta := {|
  om_Name := name; om_Namespace := ns; om_Labels := labels; om_Annotations := None;
  om_Generation := 0; om_CreationTimestamp := 0; om_DeletionTimestamp := None;
  om_Finalizers := []; om_Controller := None |}.

Definition meta_set_Finalizers (fs : list string) (m : ObjectMeta) : ObjectMeta := {|
  om_Name := om_Name m; om_Namespace := om_Namespace m; om_Labels := om_Labels m;
  om_Annotations := om_Annotations m; om_Generation := om_Generation m;
  om_CreationTimestamp := om_CreationTimestamp m;
  om_DeletionTimestamp := om_DeletionTimestamp m; om_Finalizers := fs;
  om_Controller := om_Controller m |}.

Definition meta_set_Controller (c : string * string) (m : ObjectMeta) : ObjectMeta := {|
  om_Name := om_Name m; om_Namespace := om_Namespace m; om_Labels := om_Labels m;
  om_Annotations := om_Annotations m; om_Generation := om_Generation m;
  om_CreationTimestamp := om_CreationTimestamp m;
  om_DeletionTimestamp := om_DeletionTimestamp m; om_Finalizers := om_Finalizers m;
  om_Controller := Some c |}.

Definition meta_set_maps (labels annotations : gomap string) (m : ObjectMeta) : ObjectMeta := {|
  om_Name := om_Name m; om_Namespace := om_Namespace m; om_Labels := labels;
  om_Annotations := annotations; om_Generation := om_Generation m;
  om_CreationTimestamp := om_CreationTimestamp m;
  om_DeletionTimestamp := om_DeletionTimestamp m; om_Finalizers := om_Finalizers m;
  om_Controller := om_Controller m |}.

Definition meta_set_Namespace (ns : string) (m : ObjectMeta) : ObjectMeta := {|
  om_Name := om_Name m; om_Namespace := ns; om_Labels := om_Labels m;
  om_Annotations := om_Annotations m; om_Generation := om_Generation m;
  om_CreationTimestamp := om_CreationTimestamp m;
  om_DeletionTimestamp := om_DeletionTimestamp m; om_Finalizers := om_Finalizers m;
  om_Controller := om_Controller m |}.

(** [metav1.ConditionStatus]. *)
Inductive ConditionStatus := ConditionTrue | ConditionFalse | ConditionUnknown.
#[export] Instance ConditionStatus_eq_dec : EqDecision ConditionStatus.
Proof. solve_decision. Defined.

Record Condition := {
  cond_Type : string;
  cond_Status : ConditionStatus;
  cond_Reason : string;
  cond_Message : string;
  cond_ObservedGeneration : Z;
  cond_LastTransitionTime : Z;
}.

(** A [resource.Quantity] is its value in billionths, the finest the format
    has. *)
Definition Quantity := Z.
Definition nano : Z := 1000000000.

Record ResourceRequirements := {
  rr_Requests : gmap string Quantity;
  rr_Limits : gmap string Quantity;
}.
Definition no_resources : ResourceRequirements := {| rr_Requests := ∅; rr_Limits := ∅ |}.

Record TopologySpreadConstraint := {
  tsc_MaxSkew : Z;
  tsc_TopologyKey : string;
  tsc_WhenUnsatisfiable : string;
}.

(** ** GameProfile ([gameprofile_types.go]) *)

Record AgentSpec := { agent_Image : string; agent_Version : string }.

Record PortSpec := {
  port_Name : string;
  port_ContainerPort : Z;
  port_Protocol : string;
  port_Exposed : option bool;
}.

Definition ExposedPort (p : PortSpec) : bool :=
  match port_Exposed p with None => true | Some b => b end.

Record EnvironmentSpec := {
  env_Key : string;
  env_Default : string;
  env_Required : bool;
  env_Description : string;
}.

Record StorageSpec := {
  st_MountPath : string;
  st_SizeDefault : string;
  st_SizeMin : string;
  st_SizeMax : string;
}.

Record CapabilitiesSpec := {
  cap_Files : bool;
  cap_SFTP : bool;
  cap_Backup : bool;
  cap_RestoreFromSnapshot : bool;
}.

Record AgentMetricsSpec := { am_Port : Z; am_Path : string }.
Record ServiceMonitorSpec := { sms_Enabled : bool; sms_Interval : string }.
Record ObservabilitySpec := {
  obs_AgentMetrics : option AgentMetricsSpec;
  obs_ServiceMonitor : option ServiceMonitorSpec;
}.

Record ResourcesSpec := {
  rs_ResourceRequirements : ResourceRequirements;
  rs_Tiers : gmap string ResourceRequirements;
  rs_Default : string;
}.

Definition ForTier (s : ResourcesSpec) (tier : string) : ResourceRequirements :=
  if bool_decide (0 < Z.of_nat (size (rs_Tiers s))) then
    let name := if tier =s "" then rs_Default s else tier in
    match rs_Tiers s !! name with
    | Some requirements => requirements
    | None => rs_ResourceRequirements s
    end
  else rs_ResourceRequirements s.

(** *** Actions ([actionexecution_types.go]) *)

Inductive ActionConcurrency :=
| ActionConcurrencyAllow
| ActionConcurrencySerialize
| ActionConcurrencyExclusive
(** any other value of the string type, "" included *)
| ActionConcurrencyOther (s : string).
#[export] Instance ActionConcurrency_eq_dec : EqDecision ActionConcurrency.
Proof. solve_decision. Defined.

Record ActionParamSchema := {
  aps_Type : string;
  aps_Required : bool;
  aps_Description : string;
  aps_Default : string;
}.

Record ActionDecl := {
  ad_Name : string;
  ad_Description : string;
  (** the map's entries in the order a [range] loop happens to visit them *)
  ad_Params : list (string * ActionParamSchema);
  ad_Returns : string;
  ad_Concurrency : ActionConcurrency;
  ad_Timeout : string;
}.

Record GameProfileSpec := {
  gp_DisplayName : string;
  gp_Category : string;
  gp_Icon : string;
  gp_Description : string;
  gp_Image : string;
  gp_ImagePullPolicy : string;
  gp_Ports : list PortSpec;
  gp_Environment : list EnvironmentSpec;
  gp_Resources : ResourcesSpec;
  gp_Storage : StorageSpec;
  gp_Agent : AgentSpec;
  gp_Actions : list ActionDecl;
  gp_Capabilities : option CapabilitiesSpec;
  gp_Observability : option ObservabilitySpec;
}.

Record GameProfile := {
  gp_Meta : ObjectMeta;
  gp_Spec : GameProfileSpec;
  gp_Conditions : list Condition;
}.

(** ** GameServer ([gameserver_types.go]) *)

Record LifecycleSpec := {
  lc_IdleTimeoutSeconds : Z;
  lc_AutoStart : option bool;
}.

Definition AutoStartEnabled (s : LifecycleSpec) : bool :=
  match lc_AutoStart s with None => true | Some b => b end.

Record SnapshotRef := { sr_Name : string; sr_Namespace : string }.

Record GameServerStorage := {
  gst_Size : string;
  gst_StorageClass : string;
  gst_SnapshotRef : option SnapshotRef;
}.

Record GameServerSpec := {
  gs_Profile : string;
  gs_Tier : string;
  gs_Env : gomap string;
  gs_Storage : GameServerStorage;
  gs_Lifecycle : LifecycleSpec;
  gs_PriorityClassName : string;
  gs_TopologySpreadConstraints : list TopologySpreadConstraint;
  gs_LoadBalancerIP : string;
}.

Record Endpoint := { ep_Name : string; ep_Address : string; ep_Port : Z }.

Record GameServerStatus := {
  gss_State : string;
  gss_AgentVersion : string;
  gss_Players : Z;
  gss_PlayerCapacity : Z;
  gss_LastActivity : option Z;
  gss_Endpoints : list Endpoint;
  gss_Conditions : list Condition;
}.

Record GameServer := {
  gs_Meta : ObjectMeta;
  gs_Spec : GameServerSpec;
  gs_Status : GameServerStatus;
}.

(** ** ActionExecution *)

Record TargetRef := {
  tr_APIVersion : string;
  tr_Kind : string;
  tr_Name : string;
  tr_Namespace : string;
}.

Record ActionExecutionSpec := {
  ae_TargetRef : TargetRef;
  ae_ActionName : string;
  ae_Params : gomap string;
  ae_Caller : string;
}.

(** [ActionExecutionState] is a string type; "" is the state of a resource the
    controller has not seen. *)
Inductive ActionExecutionState :=
| ActionExecutionNew
| ActionExecutionPending
| ActionExecutionRunning
| ActionExecutionSucceeded
| ActionExecutionFailed
| ActionExecutionTimedOut
| ActionExecutionRejected.
#[export] Instance ActionExecutionState_eq_dec : EqDecision ActionExecutionState.
Proof. solve_decision. Defined.

Definition state_string (s : ActionExecutionState) : string :=
  match s with
  | ActionExecutionNew => ""
  | ActionExecutionPending => "Pending"
  | ActionExecutionRunning => "Running"
  | ActionExecutionSucceeded => "Succeeded"
  | ActionExecutionFailed => "Failed"
  | ActionExecutionTimedOut => "TimedOut"
  | ActionExecutionRejected => "Rejected"
  end.

#[export] Instance state_string_inj : Inj (=) (=) state_string.
Proof. by intros [] []. Qed.

Record ActionExecutionStatus := {
  aes_State : ActionExecutionState;
  aes_StartedAt : option Z;
  aes_EndedAt : option Z;
  aes_AgentResponse : string;
  aes_Error : string;
  aes_Conditions : list Condition;
}.

Record ActionExecution := {
  ae_Meta : ObjectMeta;
  ae_Spec : ActionExecutionSpec;
  ae_Status : ActionExecutionStatus;
}.

(** ** GameServerFleet ([gameserverfleet_types.go]) *)

Record RollingUpdateSpec := {
  ru_MaxUnavailable : option Z;
  ru_MaxSurge : option Z;
  ru_DrainTimeoutSeconds : Z;
}.

Record FleetUpdateStrategy := {
  us_Type : string;
  us_RollingUpdate : option RollingUpdateSpec;
}.

Record GameServerTemplateMetadata := {
  tm_Labels : gomap string;
  tm_Annotations : gomap string;
}.

Record FleetGameServerSpec := { fgs_Env : gomap string }.

Record GameServerTemplateSpec := {
  tpl_Metadata : GameServerTemplateMetadata;
  tpl_Spec : FleetGameServerSpec;
}.

Record GameServerFleetSpec := {
  fl_Profile : string;
  fl_Replicas : Z;
  fl_Template : GameServerTemplateSpec;
  fl_UpdateStrategy : FleetUpdateStrategy;
  fl_PriorityClassName : string;
  fl_TopologySpreadConstraints : list TopologySpreadConstraint;
}.

Record GameServerFleetStatus := {
  fls_Replicas : Z;
  fls_ReadyReplicas : Z;
  fls_UpdatedReplicas : Z;
  fls_Conditions : list Condition;
}.

Record GameServerFleet := {
  fl_Meta : ObjectMeta;
  fl_Spec : GameServerFleetSpec;
  fl_Status : GameServerFleetStatus;
}.

(** ** GameSnapshot ([gamesnapshot_types.go]) *)

Record SnapshotRetention := { ret_Count : Z; ret_Duration : string }.

Record GameSnapshotSpec := {
  sn_GameServerRef : string;
  sn_Schedule : string;
  sn_Retention : SnapshotRetention;
}.

Record SnapshotEntry := {
  se_Name : string;
  se_CreatedAt : Z;
  se_VolumeSnapshotRef : string;
  se_SizeBytes : Z;
}.
#[export] Instance SnapshotEntry_eq_dec : EqDecision SnapshotEntry.
Proof. solve_decision. Defined.

Record GameSnapshotStatus := {
  sns_Snapshots : list SnapshotEntry;
  sns_LastSnapshotAt : option Z;
  sns_Conditions : list Condition;
}.

Record GameSnapshot := {
  sn_Meta : ObjectMeta;
  sn_Spec : GameSnapshotSpec;
  sn_Status : GameSnapshotStatus;
}.

(** ** Facts about the methods *)

Lemma ForTier_spec s tier :
  ForTier s tier =
    match rs_Tiers s !! (if tier =s "" then rs_Default s else tier) with
    | Some r => r
    | None => rs_ResourceRequirements s
    end.
Proof.
  unfold ForTier. case_bool_decide as H; [done|].
  replace (rs_Tiers s) with (∅ : gmap string ResourceRequirements); [by rewrite lookup_empty|].
  symmetry. apply map_size_empty_iff. lia.
Qed.
