(* ===== verification/Heap.v ===== *)
(** * Heap: Go values, their types and the heap they share

    What the generated deep copies of [api/operator/v1] need of Go: pointers,
    slices and maps are references to cells of a heap, so assigning a struct
    ([*out = *in]) copies the references and not what they refer to.

    - [gval] is a Go value, [cell] what a location of the heap holds, [gty] a
      Go type; an interior pointer ([&out.Spec]) is not a value here: a
      [DeepCopyInto(out)] is a function from [*in] to the value it leaves in
      [*out];
    - [read T σ v] is the tree that [v], of type [T], unfolds to in the heap
      [σ], and [None] when [v] is not a value of that type there: two values
      are deeply equal when they read as the same tree;
    - [HM] is the monad of computations on the heap, and the operations below
      are the statements the generated code is made of;
    - [Copies T c] is the contract of a deep copy: it cannot fail on a value
      of its type, leaves the heap it found as it was, and what it returns
      reads as the same tree in the part of the heap it added.

    The locations [new] returns and the order in which [range] visits a map
    are those of the run time, any that satisfy the laws of [Runtime].  A type
    of the Kubernetes libraries ([TExt]) is read and copied by that library,
    under the laws of [KubeTypes]. *)

From S2P Require Import Prelude.

(** ** Values, cells, types and trees *)

Notation loc := positive (only parsing).

Inductive gval :=
| VStr (s : string)
| VBool (b : bool)
| VInt (z : Z)
| VPtr (p : option loc)
(** the array, the offset of the first element and the length *)
| VSlice (s : option (loc * nat * nat))
| VMap (m : option loc)
(** the fields in the order of the declaration *)
| VStruct (fields : list (string * gval)).

Inductive cell :=
| CVar (v : gval)
| CArr (vs : list gval)
| CMap (m : gmap string gval).

Notation heap := (gmap loc cell).

Inductive gty :=
| TString
| TBool
(** a signed integer of that many bits *)
| TInt (bits : Z)
| TPtr (T : gty)
| TSlice (T : gty)
(** keys are strings in every map of the package *)
| TMap (T : gty)
| TStruct (fields : list (string * gty))
(** a type of the Kubernetes libraries, by its name *)
| TExt (name : string).

Inductive tree :=
| RStr (s : string)
| RBool (b : bool)
| RInt (z : Z)
| RNil
| RPtr (t : tree)
| RSlice (ts : list tree)
| RMap (ts : gmap string tree)
| RStruct (ts : list (string * tree))
(** a value of a library's type, by the information it carries *)
| RExt (s : string).

Definition int_fits (bits z : Z) : bool := (- 2 ^ (bits - 1) <=? z) && (z <? 2 ^ (bits - 1)).

(** ** Computations on the heap *)

Definition HM (A : Type) : Type := heap → option (A * heap).

#[export] Instance HM_ret : MRet HM := λ A a σ, Some (a, σ).
#[export] Instance HM_bind : MBind HM := λ A B k m σ,
  match m σ with Some (a, σ1) => k a σ1 | None => None end.

(** a nil dereference, or a value of another type than the code's: Go panics
    or does not compile *)
Definition stuck {A} : HM A := λ _, None.

Definition load (l : loc) : HM cell := λ σ, (λ c, (c, σ)) <$> σ !! l.
Definition store (l : loc) (c : cell) : HM unit := λ σ,
  match σ !! l with Some _ => Some (tt, <[l := c]> σ) | None => None end.

Definition load_var (l : loc) : HM gval :=
  c ← load l; match c with CVar v => mret v | _ => stuck end.
Definition load_arr (l : loc) : HM (list gval) :=
  c ← load l; match c with CArr vs => mret vs | _ => stuck end.
Definition load_map (l : loc) : HM (gmap string gval) :=
  c ← load l; match c with CMap m => mret m | _ => stuck end.

(** *** Fields of a struct value *)

Fixpoint get_field (n : string) (fs : list (string * gval)) : option gval :=
  match fs with
  | [] => None
  | (n', v) :: fs => if String.eqb n n' then Some v else get_field n fs
  end.

Fixpoint set_field (n : string) (v : gval) (fs : list (string * gval)) : list (string * gval) :=
  match fs with
  | [] => []
  | (n', w) :: fs => if String.eqb n n' then (n', v) :: fs else (n', w) :: set_field n v fs
  end.

Definition field (n : string) (v : gval) : HM gval :=
  match v with
  | VStruct fs => match get_field n fs with Some w => mret w | None => stuck end
  | _ => stuck
  end.

Definition update (n : string) (w v : gval) : HM gval :=
  match v with VStruct fs => mret (VStruct (set_field n w fs)) | _ => stuck end.

Definition is_nil (v : gval) : bool :=
  match v with VPtr None | VSlice None | VMap None => true | _ => false end.

(** ** The run time and the Kubernetes libraries *)

Class Runtime := {
  new_loc : heap → loc;
  new_loc_fresh : ∀ σ, σ !! new_loc σ = None;
  range_map : gmap string gval → list (string * gval);
  range_map_perm : ∀ m, range_map m ≡ₚ map_to_list m;
}.

(** [ext_read n σ v]: the information of the value [v] of the type [n];
    [ext_copy n]: its [DeepCopyInto]; [ext_zero n]: its zero value.  The laws
    are the documented contract of a deep copy, and that reading a value
    depends on what it refers to only. *)
Class KubeTypes := {
  ext_read : string → heap → gval → option string;
  ext_zero : string → gval;
  ext_copy : string → gval → HM gval;
  ext_read_mono : ∀ n σ τ v s, σ ⊆ τ → ext_read n σ v = Some s → ext_read n τ v = Some s;
  ext_copy_law : ∀ n σ v s, ext_read n σ v = Some s →
    ∃ w δ, ext_copy n v σ = Some (w, σ ∪ δ) ∧ σ ##ₘ δ ∧ ext_read n δ w = Some s;
}.

Section Ops.
Context `{Runtime}.

(** [new(T)], a variable or a composite value: [zero] is what the cell first
    holds. *)
Definition alloc (c : cell) : HM loc := λ σ, Some (new_loc σ, <[new_loc σ := c]> σ).

(** ** The statements of the generated code *)

(** [*out = *in], then the body *)
Definition copy_into (body : gval → gval → HM gval) (inp : gval) : HM gval := body inp inp.

(** [if in.F != nil { ... }]: the branch that is not taken leaves the field as
    [*out = *in] set it *)
Definition non_nil (c : gval → HM gval) (v : gval) : HM gval :=
  if is_nil v then mret v else c v.

(** a statement that computes [out.F] from [in.F] *)
Definition with_field (n : string) (c : gval → HM gval) (inp out : gval) : HM gval :=
  v ← field n inp; w ← c v; update n w out.

(** [for key, val := range *in { ( *out)[key] = c(val) }] *)
Fixpoint map_loop (c : gval → HM gval) (l : loc) (kvs : list (string * gval)) : HM unit :=
  match kvs with
  | [] => mret tt
  | (key, val) :: kvs =>
      w ← c val;
      m ← load_map l;
      _ ← store l (CMap (<[key := w]> m));
      map_loop c l kvs
  end.

(** [*out = make(map[string]T, len( *in)); for key, val := range *in {...}] *)
Definition make_map (c : gval → HM gval) (v : gval) : HM gval :=
  match v with
  | VMap (Some src) =>
      l ← alloc (CMap ∅);
      m ← load_map src;
      _ ← map_loop c l (range_map m);
      mret (VMap (Some l))
  | _ => stuck
  end.

(** [for i := range *in { ( *in)[i].DeepCopyInto(&( *out)[i]) }] *)
Fixpoint slice_loop (c : gval → HM gval) (l : loc) (i : nat) (vs : list gval) : HM unit :=
  match vs with
  | [] => mret tt
  | v :: vs =>
      w ← c v;
      ws ← load_arr l;
      _ ← store l (CArr (<[i := w]> ws));
      slice_loop c l (S i) vs
  end.

(** [*out = make([]T, len( *in))], then the loop *)
Definition make_slice (zero : gval) (c : gval → HM gval) (v : gval) : HM gval :=
  match v with
  | VSlice (Some (src, off, n)) =>
      l ← alloc (CArr (replicate n zero));
      vs ← load_arr src;
      _ ← slice_loop c l 0 (take n (drop off vs));
      mret (VSlice (Some (l, 0%nat, n)))
  | _ => stuck
  end.

(** [*out = make([]T, len( *in)); copy( *out, *in)] *)
Definition make_copy (zero : gval) (v : gval) : HM gval :=
  match v with
  | VSlice (Some (src, off, n)) =>
      l ← alloc (CArr (replicate n zero));
      vs ← load_arr src;
      _ ← store l (CArr (take n (drop off vs)));
      mret (VSlice (Some (l, 0%nat, n)))
  | _ => stuck
  end.

(** [*out = new(T); ( *in).DeepCopyInto( *out)]; with [c] the assignment,
    [**out = **in] *)
Definition make_ptr (zero : gval) (c : gval → HM gval) (v : gval) : HM gval :=
  match v with
  | VPtr (Some src) =>
      l ← alloc (CVar zero);
      x ← load_var src;
      w ← c x;
      _ ← store l (CVar w);
      mret (VPtr (Some l))
  | _ => stuck
  end.

(** The body of every [DeepCopy]:
    [if in == nil { return nil }; out := new(T); in.DeepCopyInto(out); return out]. *)
Definition deep_copy (zero : gval) (into : gval → HM gval) (inp : gval) : HM gval :=
  if is_nil inp then mret (VPtr None) else make_ptr zero into inp.

(** The body of every [DeepCopyObject]: a nil interface for a nil copy. *)
Definition deep_copy_object (dc : gval → HM gval) (inp : gval) : HM (option gval) :=
  c ← dc inp; if is_nil c then mret None else mret (Some c).

(** [*val.DeepCopy()], [val] the loop's variable *)
Definition copy_of_var (dc : gval → HM gval) (val : gval) : HM gval :=
  l ← alloc (CVar val);
  p ← dc (VPtr (Some l));
  match p with VPtr (Some q) => load_var q | _ => stuck end.

End Ops.

(** ** Reading values of a type *)

(** all the entries of [m] through [f], when it is defined on each *)
Definition map_traverse {A B} (f : A → option B) (m : gmap string A) : option (gmap string B) :=
  if forallb (λ kv, bool_decide (is_Some (f kv.2))) (map_to_list m) then Some (omap f m) else None.

(** [T] holds no reference: an assignment copies all of it *)
Fixpoint flat (T : gty) : bool :=
  match T with
  | TString | TBool | TInt _ => true
  | TStruct fs => forallb (λ f, flat f.2) fs
  | TPtr _ | TSlice _ | TMap _ | TExt _ => false
  end.

Fixpoint field_ty (n : string) (fs : list (string * gty)) : option gty :=
  match fs with
  | [] => None
  | (n', T) :: fs => if String.eqb n n' then Some T else field_ty n fs
  end.

Section Read.
Context `{KubeTypes}.

(** What [new(T)] and [make([]T, n)] fill their cells with. *)
Fixpoint zero_of (T : gty) : gval :=
  match T with
  | TString => VStr ""
  | TBool => VBool false
  | TInt _ => VInt 0
  | TPtr _ => VPtr None
  | TSlice _ => VSlice None
  | TMap _ => VMap None
  | TStruct fs => VStruct ((λ f, (f.1, zero_of f.2)) <$> fs)
  | TExt n => ext_zero n
  end.

Section Fields.
Variable (rd : gty → gval → option tree).

Fixpoint read_fields (fs : list (string * gty)) (vs : list (string * gval))
    : option (list (string * tree)) :=
  match fs, vs with
  | [], [] => Some []
  | (n, T) :: fs, (n', v) :: vs =>
      if String.eqb n n' then
        match rd T v, read_fields fs vs with
        | Some t, Some ts => Some ((n, t) :: ts)
        | _, _ => None
        end
      else None
  | _, _ => None
  end.

End Fields.

Fixpoint read (T : gty) (σ : heap) (v : gval) {struct T} : option tree :=
  match T, v with
  | TString, VStr s => Some (RStr s)
  | TBool, VBool b => Some (RBool b)
  | TInt bits, VInt z => if int_fits bits z then Some (RInt z) else None
  | TPtr _, VPtr None | TSlice _, VSlice None | TMap _, VMap None => Some RNil
  | TPtr U, VPtr (Some l) =>
      match σ !! l with Some (CVar w) => RPtr <$> read U σ w | _ => None end
  | TSlice U, VSlice (Some (l, off, n)) =>
      match σ !! l with
      | Some (CArr vs) =>
          if (off + n <=? length vs)%nat then RSlice <$> mapM (read U σ) (take n (drop off vs))
          else None
      | _ => None
      end
  | TMap U, VMap (Some l) =>
      match σ !! l with Some (CMap m) => RMap <$> map_traverse (read U σ) m | _ => None end
  | TStruct fs, VStruct vs => RStruct <$> read_fields (λ U, read U σ) fs vs
  | TExt n, _ => RExt <$> ext_read n σ v
  | _, _ => None
  end.

(** [v] is a value of type [T] in the heap [σ] *)
Definition well_typed (T : gty) (σ : heap) (v : gval) : Prop := is_Some (read T σ v).

(** The contract of a deep copy. *)
Definition Copies (T : gty) (c : gval → HM gval) : Prop := ∀ σ v t,
  read T σ v = Some t →
  ∃ w δ, c v σ = Some (w, σ ∪ δ) ∧ σ ##ₘ δ ∧ read T δ w = Some t.

End Read.

(** ** Lemmas *)

Section GtyInd.
Variables (P : gty → Prop)
  (HStr : P TString) (HBool : P TBool) (HInt : ∀ b, P (TInt b))
  (HPtr : ∀ T, P T → P (TPtr T)) (HSlice : ∀ T, P T → P (TSlice T))
  (HMap : ∀ T, P T → P (TMap T))
  (HStruct : ∀ fs, Forall (λ f, P f.2) fs → P (TStruct fs))
  (HExt : ∀ n, P (TExt n)).

Fixpoint gty_nested_ind (T : gty) : P T :=
  match T with
  | TString => HStr
  | TBool => HBool
  | TInt b => HInt b
  | TPtr U => HPtr U (gty_nested_ind U)
  | TSlice U => HSlice U (gty_nested_ind U)
  | TMap U => HMap U (gty_nested_ind U)
  | TStruct fs => HStruct fs
      ((fix go (fs : list (string * gty)) : Forall (λ f, P f.2) fs :=
          match fs with
          | [] => Forall_nil_2 _
          | f :: fs => Forall_cons_2 _ f fs (gty_nested_ind f.2) (go fs)
          end) fs)
  | TExt n => HExt n
  end.

End GtyInd.

Lemma map_traverse_Some {A B} (f : A → option B) m ts :
  map_traverse f m = Some ts ↔
    (∀ k v, m !! k = Some v → is_Some (ts !! k)) ∧
    (∀ k t, ts !! k = Some t → ∃ v, m !! k = Some v ∧ f v = Some t).
Proof.
  unfold map_traverse. split.
  - destruct (forallb _ _) eqn:E; [|done]. intros [= <-].
    rewrite forallb_forall in E. split.
    + intros k v Hk. rewrite lookup_omap, Hk. simpl.
      specialize (E (k, v)). rewrite bool_decide_eq_true in E. apply E.
      by apply list_elem_of_In, elem_of_map_to_list.
    + intros k t. rewrite lookup_omap. destruct (m !! k) as [v|]; simpl; naive_solver.
  - intros [H1 H2].
    replace (forallb _ _) with true.
    + f_equal. apply map_eq. intros k. rewrite lookup_omap.
      destruct (ts !! k) as [t|] eqn:Et.
      * by destruct (H2 k t Et) as (v & -> & Hv).
      * destruct (m !! k) as [v|] eqn:Ev; [|done].
        destruct (H1 k v Ev) as [? ?]. congruence.
    + symmetry. apply forallb_forall. intros [k v] Hin.
      apply bool_decide_eq_true. apply list_elem_of_In, elem_of_map_to_list in Hin. simpl.
      destruct (H1 k v Hin) as [t Ht]. destruct (H2 k t Ht) as (v' & Hv' & ?).
      assert (v' = v) as -> by congruence. eauto.
Qed.

(** *** The heap a computation adds *)

(** one cell [l], the copy's, is being filled; [δ] is the rest of the new part *)
Lemma fill_store (σ δ : heap) l c0 c :
  σ !! l = None → <[l := c]> (<[l := c0]> σ ∪ δ) = <[l := c]> σ ∪ δ.
Proof. intros. by rewrite insert_union_l, insert_insert_eq. Qed.

Lemma fill_done (σ δ : heap) l c :
  σ !! l = None → <[l := c]> σ ##ₘ δ →
  <[l := c]> σ ∪ δ = σ ∪ <[l := c]> δ ∧ σ ##ₘ <[l := c]> δ.
Proof.
  intros Hl [? ?]%map_disjoint_insert_l. split.
  - by rewrite <- insert_union_l, insert_union_r.
  - by apply map_disjoint_insert_r.
Qed.

Lemma fill_disjoint (σ δ : heap) l c c' : <[l := c]> σ ##ₘ δ → <[l := c']> σ ##ₘ δ.
Proof. rewrite !map_disjoint_insert_l. done. Qed.

Lemma fill_subseteq (σ δ : heap) l c : σ !! l = None → <[l := c]> σ ##ₘ δ → σ ⊆ <[l := c]> σ ∪ δ.
Proof. intros. transitivity (<[l := c]> σ); [by apply insert_subseteq|apply map_union_subseteq_l]. Qed.

(** *** [read] *)

Section ReadLemmas.
Context `{KubeTypes}.

Lemma mapM_mono {A B} (f g : A → option B) l ts :
  (∀ x t, f x = Some t → g x = Some t) → mapM f l = Some ts → mapM g l = Some ts.
Proof. rewrite !mapM_Some. intros Hfg HF. eapply Forall2_impl; eauto. Qed.

Lemma map_traverse_mono {A B} (f g : A → option B) m ts :
  (∀ x t, f x = Some t → g x = Some t) → map_traverse f m = Some ts → map_traverse g m = Some ts.
Proof. rewrite !map_traverse_Some. naive_solver. Qed.

Lemma read_fields_mono (rd rd' : gty → gval → option tree) fs vs ts :
  Forall (λ f, ∀ v t, rd f.2 v = Some t → rd' f.2 v = Some t) fs →
  read_fields rd fs vs = Some ts → read_fields rd' fs vs = Some ts.
Proof.
  intros HF. revert vs ts. induction HF as [|[n T] fs Hf _ IH]; intros [|[n' v] vs] ts; simpl; try done.
  simpl in Hf. destruct (String.eqb n n'); [|done].
  destruct (rd T v) as [t|] eqn:E; [|done]. rewrite (Hf _ _ E).
  destruct (read_fields rd fs vs) as [ts'|] eqn:E'; [|done]. by rewrite (IH _ _ E').
Qed.

Lemma read_mono T σ τ v t : σ ⊆ τ → read T σ v = Some t → read T τ v = Some t.
Proof.
  intros Hsub. revert v t. induction T as [| | |T IH|T IH|T IH|fs IH|n] using gty_nested_ind;
    intros v t; simpl; try by destruct v.
  - destruct v as [| | |[l|]| | |]; try done.
    destruct (σ !! l) as [[w| |]|] eqn:E; try done.
    rewrite (lookup_weaken _ _ _ _ E Hsub), !fmap_Some. naive_solver.
  - destruct v as [| | | |[[[l off] n]|]| |]; try done.
    destruct (σ !! l) as [[|vs|]|] eqn:E; try done.
    rewrite (lookup_weaken _ _ _ _ E Hsub). case_match; [|done].
    rewrite !fmap_Some. intros (ts & Hts & ->).
    exists ts. split; [by apply (mapM_mono _ _ _ _ IH)|done].
  - destruct v as [| | | | |[l|]|]; try done.
    destruct (σ !! l) as [[| |m]|] eqn:E; try done.
    rewrite (lookup_weaken _ _ _ _ E Hsub), !fmap_Some.
    intros (ts & Hts & ->).
    exists ts. split; [by apply (map_traverse_mono _ _ _ _ IH)|done].
  - destruct v as [| | | | | |vs]; try done. rewrite !fmap_Some.
    intros (ts & Hts & ->).
    exists ts. split; [|done].
    by apply (read_fields_mono (λ U, read U σ) (λ U, read U τ) _ _ _ IH).
  - rewrite !fmap_Some. intros (s & Hs & ->). eauto using ext_read_mono.
Qed.

Lemma read_union_l T σ δ v t : read T σ v = Some t → read T (σ ∪ δ) v = Some t.
Proof. apply read_mono, map_union_subseteq_l. Qed.

Lemma read_union_r T σ δ v t : σ ##ₘ δ → read T δ v = Some t → read T (σ ∪ δ) v = Some t.
Proof. intros. eapply read_mono; [by apply map_union_subseteq_r|done]. Qed.

Lemma flat_read T σ τ v t : flat T = true → read T σ v = Some t → read T τ v = Some t.
Proof.
  revert v t. induction T as [| | |T IH|T IH|T IH|fs IH|n] using gty_nested_ind;
    intros v t; simpl; try done.
  rewrite forallb_forall. intros Hfl. destruct v as [| | | | | |vs]; try done.
  rewrite !fmap_Some. intros (ts & Hts & ->). exists ts. split; [|done].
  eapply read_fields_mono; [|exact Hts].
  rewrite Forall_forall in IH |- *. intros f Hin v t.
  apply (IH f Hin), Hfl. by apply list_elem_of_In.
Qed.

End ReadLemmas.

(** *** Steps of a computation *)

Lemma hm_bind {A B} (m : HM A) (k : A → HM B) σ a σ1 :
  m σ = Some (a, σ1) → (m ≫= k) σ = k a σ1.
Proof. intros E. unfold mbind, HM_bind. by rewrite E. Qed.

Lemma load_var_Some l v σ : load l σ = Some (CVar v, σ) → load_var l σ = Some (v, σ).
Proof. intros E. unfold load_var. by rewrite (hm_bind _ _ _ _ _ E). Qed.

Lemma load_arr_Some l vs σ : load l σ = Some (CArr vs, σ) → load_arr l σ = Some (vs, σ).
Proof. intros E. unfold load_arr. by rewrite (hm_bind _ _ _ _ _ E). Qed.

Lemma load_map_Some l m σ : load l σ = Some (CMap m, σ) → load_map l σ = Some (m, σ).
Proof. intros E. unfold load_map. by rewrite (hm_bind _ _ _ _ _ E). Qed.

(** runs the first statement, whose result is [H] *)
Ltac hm_step H := rewrite (hm_bind _ _ _ _ _ H); cbv beta.

(** ** Each statement keeps the contract *)

Section Statements.
Context `{Runtime, KubeTypes}.

Lemma copies_assign T : flat T = true → Copies T (λ v, mret v).
Proof.
  intros Hf σ v t Ht. exists v, ∅. rewrite map_union_empty. split_and!.
  - done.
  - apply map_disjoint_empty_r.
  - by eapply flat_read.
Qed.

Lemma copies_ext n : Copies (TExt n) (ext_copy n).
Proof.
  intros σ v t. simpl. rewrite fmap_Some. intros (s & Hs & ->).
  destruct (ext_copy_law n σ v s Hs) as (w & δ & ? & ? & Hr). exists w, δ. by rewrite Hr.
Qed.

(** A copy in a heap in which the cell [l] is being filled. *)
Lemma copies_in_fill T c σ δ l k v t :
  Copies T c → read T σ v = Some t → σ !! l = None → <[l := k]> σ ##ₘ δ →
  ∃ w ε, c v (<[l := k]> σ ∪ δ) = Some (w, <[l := k]> σ ∪ ε) ∧ δ ⊆ ε ∧
         <[l := k]> σ ##ₘ ε ∧ read T ε w = Some t.
Proof.
  intros Hc Hr Hl Hd.
  destruct (Hc (<[l := k]> σ ∪ δ) v t) as (w & ε & Hcv & Hdis & Hw).
  { eapply read_mono; [by apply fill_subseteq|done]. }
  apply map_disjoint_union_l in Hdis as [Hd1 Hd2].
  exists w, (δ ∪ ε). rewrite <- map_union_assoc in Hcv. split_and!; [done| | |].
  - apply map_union_subseteq_l.
  - by apply map_disjoint_union_r.
  - by apply read_union_r.
Qed.

Lemma load_in_fill σ δ l k j c :
  σ !! l = None → σ !! j = Some c → load j (<[l := k]> σ ∪ δ) = Some (c, <[l := k]> σ ∪ δ).
Proof.
  intros Hl Hj. unfold load.
  erewrite lookup_union_Some_l; [done|]. rewrite lookup_insert_ne; [done|congruence].
Qed.

Lemma load_filled σ δ l k : load l (<[l := k]> σ ∪ δ) = Some (k, <[l := k]> σ ∪ δ).
Proof. unfold load. erewrite lookup_union_Some_l; [done|]. apply lookup_insert_eq. Qed.

Lemma store_filled σ δ l k k' :
  σ !! l = None → store l k' (<[l := k]> σ ∪ δ) = Some (tt, <[l := k']> σ ∪ δ).
Proof.
  intros Hl. unfold store. erewrite lookup_union_Some_l; [|apply lookup_insert_eq].
  by rewrite fill_store.
Qed.

Lemma alloc_fill σ k : alloc k σ = Some (new_loc σ, <[new_loc σ := k]> σ ∪ ∅).
Proof. unfold alloc. by rewrite map_union_empty. Qed.

Lemma fill_start σ k : σ !! new_loc σ = None ∧ <[new_loc σ := k]> σ ##ₘ ∅.
Proof. split; [apply new_loc_fresh|apply map_disjoint_empty_r]. Qed.

(** *** Pointers *)

Lemma make_ptr_copies zero T c l : Copies T c →
  ∀ σ t, read (TPtr T) σ (VPtr (Some l)) = Some t →
  ∃ q δ, make_ptr zero c (VPtr (Some l)) σ = Some (VPtr (Some q), σ ∪ δ) ∧ σ ##ₘ δ ∧
         read (TPtr T) δ (VPtr (Some q)) = Some t.
Proof.
  intros Hc σ t. simpl. destruct (σ !! l) as [[x| |]|] eqn:El; try done.
  rewrite fmap_Some. intros (u & Hu & ->).
  destruct (fill_start σ (CVar zero)) as [Hf Hd].
  destruct (copies_in_fill T c σ ∅ _ (CVar zero) x u Hc Hu Hf Hd) as (w & ε & Hcx & _ & Hε & Hw).
  destruct (fill_done σ ε _ (CVar w) Hf (fill_disjoint _ _ _ _ _ Hε)) as [Heq Hdis].
  exists (new_loc σ), (<[new_loc σ := CVar w]> ε). split_and!; [|done|].
  - unfold make_ptr. hm_step (alloc_fill σ (CVar zero)).
    hm_step (load_var_Some _ _ _ (load_in_fill σ ∅ _ (CVar zero) l _ Hf El)).
    hm_step Hcx. hm_step (store_filled σ ε _ (CVar zero) (CVar w) Hf). by rewrite Heq.
  - rewrite lookup_insert_eq, fmap_Some. exists u. split; [|done].
    eapply read_mono; [|exact Hw]. apply insert_subseteq.
    apply map_disjoint_insert_l in Hε. tauto.
Qed.

Lemma nil_pointer_copies T c : (∀ σ, c (VPtr None) σ = Some (VPtr None, σ)) →
  ∀ σ t, read (TPtr T) σ (VPtr None) = Some t →
  ∃ w δ, c (VPtr None) σ = Some (w, σ ∪ δ) ∧ σ ##ₘ δ ∧ read (TPtr T) δ w = Some t.
Proof.
  intros Hc σ t Ht. exists (VPtr None), ∅. rewrite Hc, map_union_empty.
  split_and!; [done|apply map_disjoint_empty_r|done].
Qed.

Lemma copies_ptr zero T c : Copies T c → Copies (TPtr T) (non_nil (make_ptr zero c)).
Proof.
  intros Hc σ [| | |[l|]| | |] t Ht; try done.
  - destruct (make_ptr_copies zero T c l Hc σ t Ht) as (q & δ & ? & ? & ?).
    by exists (VPtr (Some q)), δ.
  - by apply nil_pointer_copies.
Qed.

Lemma copies_deep_copy zero T c : Copies T c → Copies (TPtr T) (deep_copy zero c).
Proof.
  intros Hc σ [| | |[l|]| | |] t Ht; try done.
  - destruct (make_ptr_copies zero T c l Hc σ t Ht) as (q & δ & ? & ? & ?).
    by exists (VPtr (Some q)), δ.
  - by apply nil_pointer_copies.
Qed.

Lemma copies_non_nil_deep_copy zero T c :
  Copies T c → Copies (TPtr T) (non_nil (deep_copy zero c)).
Proof.
  intros Hc σ [| | |[l|]| | |] t Ht; try done.
  - by apply copies_deep_copy.
  - by apply nil_pointer_copies.
Qed.

(** [*val.DeepCopy()] of a loop variable copies its value: the variable and
    the pointer's cell are garbage of the new part *)
Lemma copies_of_var zero T c : Copies T c → Copies T (copy_of_var (deep_copy zero c)).
Proof.
  intros Hc σ v t Ht. unfold copy_of_var, mbind, HM_bind. simpl.
  set (l := new_loc σ). set (σ1 := <[l := CVar v]> σ).
  assert (Hl : σ !! l = None) by apply new_loc_fresh.
  assert (Hr : read (TPtr T) σ1 (VPtr (Some l)) = Some (RPtr t)).
  { simpl. unfold σ1. rewrite lookup_insert_eq.
    rewrite (read_mono _ σ _ v t); [done|by apply insert_subseteq|done]. }
  destruct (make_ptr_copies zero T c l Hc σ1 _ Hr) as (q & δ & Hm & Hd & Hq).
  change (deep_copy zero c (VPtr (Some l)) σ1) with (make_ptr zero c (VPtr (Some l)) σ1).
  rewrite Hm.
  simpl in Hq. destruct (δ !! q) as [[w| |]|] eqn:Eq; try done.
  apply fmap_Some in Hq as (u & Hu & [= <-]).
  assert (Hdl : δ !! l = None ∧ σ ##ₘ δ) by by apply map_disjoint_insert_l in Hd.
  destruct Hdl as [Hdl Hd'].
  exists w, (<[l := CVar v]> δ). split_and!.
  - unfold load_var, mbind, HM_bind, load. rewrite (lookup_union_Some_r _ _ _ _ Hd Eq). simpl.
    unfold σ1. rewrite <- insert_union_l, insert_union_r; [done|done].
  - by apply map_disjoint_insert_r.
  - eapply read_mono; [by apply insert_subseteq|done].
Qed.

(** *** Slices *)

Lemma slice_loop_copies T c l : Copies T c → ∀ σ, σ !! l = None →
  ∀ vs ts arr i δ,
  mapM (read T σ) vs = Some ts → <[l := CArr arr]> σ ##ₘ δ → length arr = (i + length vs)%nat →
  ∃ ws ε, slice_loop c l i vs (<[l := CArr arr]> σ ∪ δ) =
            Some (tt, <[l := CArr (take i arr ++ ws)]> σ ∪ ε) ∧
          δ ⊆ ε ∧ <[l := CArr arr]> σ ##ₘ ε ∧ mapM (read T ε) ws = Some ts ∧
          length ws = length vs.
Proof.
  intros Hc σ Hl vs. induction vs as [|v vs IH]; intros ts arr i δ Hts Hd Hlen.
  - simpl in Hts. injection Hts as <-. exists [], δ.
    rewrite app_nil_r, take_ge by (simpl in Hlen; lia). done.
  - apply mapM_Some, Forall2_cons_inv_l in Hts as (t & ts' & Ht & Hts' & ->).
    apply mapM_Some in Hts'.
    destruct (copies_in_fill T c σ δ l (CArr arr) v t Hc Ht Hl Hd) as (w & δ1 & Hcv & Hs1 & Hd1 & Hw).
    simpl in Hlen.
    destruct (IH ts' (<[i := w]> arr) (S i) δ1 Hts' (fill_disjoint _ _ _ _ _ Hd1)) as
      (ws & ε & Hloop & Hs2 & Hd2 & Hws & Hlws).
    { rewrite length_insert. lia. }
    exists (w :: ws), ε. split_and!.
    + simpl slice_loop. hm_step Hcv. hm_step (load_arr_Some _ _ _ (load_filled σ δ1 l (CArr arr))).
      hm_step (store_filled σ δ1 l (CArr arr) (CArr (<[i := w]> arr)) Hl).
      rewrite Hloop, (take_S_r _ _ w) by (apply list_lookup_insert_eq; lia).
      rewrite take_insert_ge by lia. by rewrite <- app_assoc.
    + by etrans.
    + by eapply fill_disjoint.
    + apply mapM_Some. constructor; [by eapply read_mono|by apply mapM_Some].
    + simpl. lia.
Qed.

Lemma read_slice T σ l off n t : read (TSlice T) σ (VSlice (Some (l, off, n))) = Some t →
  ∃ vs ts, σ !! l = Some (CArr vs) ∧ (off + n <= length vs)%nat ∧
    mapM (read T σ) (take n (drop off vs)) = Some ts ∧ t = RSlice ts.
Proof.
  simpl. destruct (σ !! l) as [[|vs|]|]; try done. case_match eqn:E; [|done].
  apply Nat.leb_le in E. rewrite fmap_Some. naive_solver.
Qed.

Lemma slice_copied T σ ε l ws ts : σ !! l = None → <[l := CArr ws]> σ ##ₘ ε →
  mapM (read T ε) ws = Some ts →
  ∃ δ, <[l := CArr ws]> σ ∪ ε = σ ∪ δ ∧ σ ##ₘ δ ∧
       read (TSlice T) δ (VSlice (Some (l, 0%nat, length ws))) = Some (RSlice ts).
Proof.
  intros Hl Hd Hws. destruct (fill_done σ ε l (CArr ws) Hl Hd) as [Heq Hdis].
  exists (<[l := CArr ws]> ε). split_and!; [done..|]. simpl.
  rewrite lookup_insert_eq. simpl. rewrite (leb_correct _ _ (le_n _)).
  rewrite drop_0, take_ge by lia. rewrite fmap_Some. exists ts. split; [|done].
  eapply mapM_mono; [|exact Hws]. intros x t. apply read_mono. apply insert_subseteq.
  apply map_disjoint_insert_l in Hd. tauto.
Qed.

Lemma nil_slice_copies T σ t : read (TSlice T) σ (VSlice None) = Some t →
  ∃ w δ, Some (VSlice None, σ) = Some (w, σ ∪ δ) ∧ σ ##ₘ δ ∧ read (TSlice T) δ w = Some t.
Proof.
  intros Ht. exists (VSlice None), ∅. rewrite map_union_empty.
  split_and!; [done|apply map_disjoint_empty_r|done].
Qed.

Lemma copies_slice zero T c : Copies T c → Copies (TSlice T) (non_nil (make_slice zero c)).
Proof.
  intros Hc σ [| | | |[[[src off] n]|]| |] t Ht; try done; [|by apply nil_slice_copies].
  apply read_slice in Ht as (vs & ts & Hsrc & Hlen & Hts & ->).
  destruct (fill_start σ (CArr (replicate n zero))) as [Hf Hd].
  assert (Hn : length (take n (drop off vs)) = n) by (rewrite length_take, length_drop; lia).
  destruct (slice_loop_copies T c (new_loc σ) Hc σ Hf _ ts (replicate n zero) 0 ∅ Hts Hd) as
    (ws & ε & Hloop & _ & Hε & Hws & Hlws).
  { rewrite length_replicate. lia. }
  destruct (slice_copied T σ ε (new_loc σ) ws ts Hf (fill_disjoint _ _ _ _ _ Hε) Hws) as
    (δ & Heq & Hdis & Hr).
  exists (VSlice (Some (new_loc σ, 0%nat, n))), δ. rewrite Hlws, Hn in Hr. split_and!; [|done..].
  unfold non_nil, make_slice; cbv beta iota delta [is_nil].
  hm_step (alloc_fill σ (CArr (replicate n zero))).
  hm_step (load_arr_Some _ _ _ (load_in_fill σ ∅ _ (CArr (replicate n zero)) src _ Hf Hsrc)).
  rewrite take_0 in Hloop. hm_step Hloop. unfold mret, HM_ret. by rewrite app_nil_l, Heq.
Qed.

Lemma copies_copy zero T : flat T = true → Copies (TSlice T) (non_nil (make_copy zero)).
Proof.
  intros Hfl σ [| | | |[[[src off] n]|]| |] t Ht; try done; [|by apply nil_slice_copies].
  apply read_slice in Ht as (vs & ts & Hsrc & Hlen & Hts & ->).
  destruct (fill_start σ (CArr (replicate n zero))) as [Hf Hd].
  assert (Hn : length (take n (drop off vs)) = n) by (rewrite length_take, length_drop; lia).
  destruct (slice_copied T σ ∅ (new_loc σ) (take n (drop off vs)) ts Hf
              (fill_disjoint _ _ _ _ _ Hd)) as (δ & Heq & Hdis & Hr).
  { eapply mapM_mono; [|exact Hts]. intros x t. by apply flat_read. }
  exists (VSlice (Some (new_loc σ, 0%nat, n))), δ. rewrite Hn in Hr. split_and!; [|done..].
  unfold non_nil, make_copy. cbv beta iota delta [is_nil].
  hm_step (alloc_fill σ (CArr (replicate n zero))).
  hm_step (load_arr_Some _ _ _ (load_in_fill σ ∅ _ (CArr (replicate n zero)) src _ Hf Hsrc)).
  hm_step (store_filled σ ∅ _ (CArr (replicate n zero)) (CArr (take n (drop off vs))) Hf).
  by rewrite Heq.
Qed.

(** *** Maps *)

(** the entries of [m] are copies of entries of [ts]; those of [ts] not in [m]
    are still to come ([ks]) *)
Definition map_progress (T : gty) (ε : heap) (ts : gmap string tree) (ks : list string)
    (m : gmap string gval) : Prop :=
  (∀ k w, m !! k = Some w → is_Some (ts !! k)) ∧
  (∀ k t, ts !! k = Some t → k ∈ ks ∨ ∃ w, m !! k = Some w ∧ read T ε w = Some t).

Lemma map_progress_step T δ ε ts k ks m w t :
  δ ⊆ ε → ts !! k = Some t → read T ε w = Some t →
  map_progress T δ ts (k :: ks) m → map_progress T ε ts ks (<[k := w]> m).
Proof.
  intros Hs Ht Hw [H1 H2]. split.
  - intros k' w'. rewrite lookup_insert_Some. naive_solver.
  - intros k' t' Hk'. destruct (decide (k = k')) as [<-|Hne].
    + right. exists w. rewrite lookup_insert_eq. split; [done|congruence].
    + rewrite lookup_insert_ne by done.
      destruct (H2 k' t' Hk') as [Hin|(w' & ? & ?)]; [left; set_solver|].
      right. exists w'. split; [done|]. by eapply read_mono.
Qed.

Lemma map_loop_copies T c l ts : Copies T c → ∀ σ, σ !! l = None →
  ∀ kvs m δ,
  Forall (λ kv, ∃ t, ts !! kv.1 = Some t ∧ read T σ kv.2 = Some t) kvs →
  <[l := CMap m]> σ ##ₘ δ → map_progress T δ ts (kvs.*1) m →
  ∃ m' ε, map_loop c l kvs (<[l := CMap m]> σ ∪ δ) = Some (tt, <[l := CMap m']> σ ∪ ε) ∧
          <[l := CMap m']> σ ##ₘ ε ∧ map_progress T ε ts [] m'.
Proof.
  intros Hc σ Hl kvs. induction kvs as [|[k v] kvs IH]; intros m δ HF Hd Hp.
  - by exists m, δ.
  - apply Forall_cons in HF as [(t & Ht & Hv) HF]. simpl in Ht, Hv.
    destruct (copies_in_fill T c σ δ l (CMap m) v t Hc Hv Hl Hd) as (w & δ1 & Hcv & Hs1 & Hd1 & Hw).
    destruct (IH (<[k := w]> m) δ1 HF (fill_disjoint _ _ _ _ _ Hd1)) as (m' & ε & Hloop & ? & ?).
    { by eapply map_progress_step. }
    exists m', ε. split_and!; [|done..].
    simpl map_loop. hm_step Hcv. hm_step (load_map_Some _ _ _ (load_filled σ δ1 l (CMap m))).
    hm_step (store_filled σ δ1 l (CMap m) (CMap (<[k := w]> m)) Hl). apply Hloop.
Qed.

Lemma read_map T σ l t : read (TMap T) σ (VMap (Some l)) = Some t →
  ∃ m ts, σ !! l = Some (CMap m) ∧ map_traverse (read T σ) m = Some ts ∧ t = RMap ts.
Proof.
  simpl. destruct (σ !! l) as [[| |m]|]; try done. rewrite fmap_Some. naive_solver.
Qed.

Lemma map_copied T σ ε l m ts : σ !! l = None → <[l := CMap m]> σ ##ₘ ε →
  map_progress T ε ts [] m →
  ∃ δ, <[l := CMap m]> σ ∪ ε = σ ∪ δ ∧ σ ##ₘ δ ∧
       read (TMap T) δ (VMap (Some l)) = Some (RMap ts).
Proof.
  intros Hl Hd [H1 H2]. destruct (fill_done σ ε l (CMap m) Hl Hd) as [Heq Hdis].
  exists (<[l := CMap m]> ε). split_and!; [done..|]. simpl.
  rewrite lookup_insert_eq, fmap_Some. exists ts. split; [|done].
  apply map_traverse_Some. split; [done|]. intros k t Ht.
  destruct (H2 k t Ht) as [Hn|(w & ? & Hw)]; [by apply not_elem_of_nil in Hn|].
  exists w. split; [done|]. eapply read_mono; [|exact Hw]. apply insert_subseteq.
  apply map_disjoint_insert_l in Hd. tauto.
Qed.

Lemma copies_map T c : Copies T c → Copies (TMap T) (non_nil (make_map c)).
Proof.
  intros Hc σ [| | | | |[src|]|] t Ht; try done.
  - apply read_map in Ht as (m & ts & Hsrc & Hts & ->).
    apply map_traverse_Some in Hts as [Hts1 Hts2].
    destruct (fill_start σ (CMap ∅)) as [Hf Hd].
    destruct (map_loop_copies T c (new_loc σ) ts Hc σ Hf (range_map m) ∅ ∅) as
      (m' & ε & Hloop & Hε & Hp); [|done|split|].
    + rewrite range_map_perm. apply Forall_forall. intros [k v] Hin%elem_of_map_to_list. simpl.
      destruct (Hts1 k v Hin) as [t Ht]. destruct (Hts2 k t Ht) as (v' & ? & ?). naive_solver.
    + intros k w. by rewrite lookup_empty.
    + intros k t Ht. left. rewrite range_map_perm. destruct (Hts2 k t Ht) as (v & Hv & _).
      apply list_elem_of_fmap. exists (k, v). by rewrite elem_of_map_to_list.
    + destruct (map_copied T σ ε (new_loc σ) m' ts Hf Hε Hp) as (δ & Heq & Hdis & Hr).
      exists (VMap (Some (new_loc σ))), δ. split_and!; [|done..].
      unfold non_nil, make_map. cbv beta iota delta [is_nil]. hm_step (alloc_fill σ (CMap ∅)).
      hm_step (load_map_Some _ _ _ (load_in_fill σ ∅ _ (CMap ∅) src _ Hf Hsrc)).
      hm_step Hloop. by rewrite Heq.
  - exists (VMap None), ∅. rewrite map_union_empty.
    split_and!; [done|apply map_disjoint_empty_r|done].
Qed.

(** *** Structs *)

(** [out] in the middle of a [DeepCopyInto]: the fields in [done] are copies,
    read in the new part [δ]; the others are as [*out = *in] left them *)
Fixpoint partial (done : list string) (σ δ : heap) (fs : list (string * gty))
    (ins outs : list (string * gval)) (ts : list (string * tree)) : Prop :=
  match fs, ins, outs, ts with
  | [], [], [], [] => True
  | (n, T) :: fs, (n1, v) :: ins, (n2, w) :: outs, (n3, t) :: ts =>
      n1 = n ∧ n2 = n ∧ n3 = n ∧ read T σ v = Some t ∧
      (if bool_decide (n ∈ done) then read T δ w = Some t else w = v) ∧
      partial done σ δ fs ins outs ts
  | _, _, _, _ => False
  end.

(** the statements that are left, from such a point on *)
Definition Stmts (fs : list (string * gty)) (done : list string)
    (k : gval → gval → HM gval) : Prop :=
  ∀ σ δ ins outs ts, σ ##ₘ δ → partial done σ δ fs ins outs ts →
  ∃ w ε, k (VStruct ins) (VStruct outs) (σ ∪ δ) = Some (w, σ ∪ ε) ∧ σ ##ₘ ε ∧
         read (TStruct fs) ε w = Some (RStruct ts).

Lemma partial_start σ δ fs ins ts :
  read_fields (λ U, read U σ) fs ins = Some ts → partial [] σ δ fs ins ins ts.
Proof.
  revert ins ts. induction fs as [|[n T] fs IH]; intros [|[n' v] ins] ts; simpl; try done.
  - by intros [= <-].
  - destruct (String.eqb n n') eqn:E; [|done]. apply String.eqb_eq in E as ->.
    destruct (read T σ v) as [t|] eqn:Et; [|done].
    destruct (read_fields _ fs ins) as [ts'|] eqn:Ef; [|done]. intros [= <-]. eauto 10.
Qed.

Lemma partial_end done σ δ fs ins outs ts :
  forallb (λ f, bool_decide (f.1 ∈ done) || flat f.2) fs = true →
  partial done σ δ fs ins outs ts → read_fields (λ U, read U δ) fs outs = Some ts.
Proof.
  revert ins outs ts.
  induction fs as [|[n T] fs IH]; intros [|[n1 v] ins] [|[n2 w] outs] [|[n3 t] ts]; simpl; try done.
  rewrite andb_true_iff. intros [Hf Hfs] (-> & -> & -> & Ht & Hw & Hp).
  rewrite String.eqb_refl, (IH _ _ _ Hfs Hp).
  case_bool_decide; simpl in Hf; [by rewrite Hw|]. subst w. by rewrite (flat_read _ _ δ _ _ Hf Ht).
Qed.

Lemma partial_grow done n σ δ ε fs ins outs ts :
  δ ⊆ ε → n ∉ fs.*1 → partial done σ δ fs ins outs ts → partial (n :: done) σ ε fs ins outs ts.
Proof.
  intros Hs. revert ins outs ts.
  induction fs as [|[m T] fs IH]; intros [|[n1 v] ins] [|[n2 w] outs] [|[n3 t] ts]; simpl; try done.
  rewrite not_elem_of_cons. intros [Hne Hn] (-> & -> & -> & Ht & Hw & Hp).
  split_and!; [done..| |by apply IH].
  rewrite (bool_decide_ext (m ∈ n :: done) (m ∈ done)) by set_solver.
  case_bool_decide; [by eapply read_mono|done].
Qed.

(** the statement for the field [n] *)
Lemma partial_step done n T σ δ fs ins outs ts :
  NoDup fs.*1 → field_ty n fs = Some T → partial done σ δ fs ins outs ts →
  ∃ v t, get_field n ins = Some v ∧ read T σ v = Some t ∧
    ∀ w ε, δ ⊆ ε → read T ε w = Some t →
           partial (n :: done) σ ε fs ins (set_field n w outs) ts.
Proof.
  revert ins outs ts.
  induction fs as [|[m U] fs IH]; intros [|[n1 v] ins] [|[n2 w] outs] [|[n3 t] ts]; simpl; try done.
  rewrite NoDup_cons. intros [Hm Hnd] Hty (-> & -> & -> & Ht & Hw & Hp).
  destruct (String.eqb n m) eqn:E.
  - apply String.eqb_eq in E as ->. injection Hty as ->. exists v, t. split_and!; [done..|].
    intros w' ε Hs Hw'. simpl. split_and!; [done..| |by eapply partial_grow].
    rewrite bool_decide_eq_true_2; [done|set_solver].
  - destruct (IH ins outs ts Hnd Hty Hp) as (v' & t' & Hv' & Ht' & Hk).
    exists v', t'. split_and!; [done..|]. intros w' ε Hs Hw'. simpl.
    split_and!; [done..| |by apply Hk].
    apply String.eqb_neq in E.
    rewrite (bool_decide_ext (m ∈ n :: done) (m ∈ done)) by set_solver.
    case_bool_decide; [by eapply read_mono|done].
Qed.

Lemma stmts_field fs done n T c (k : gval → gval → HM gval) :
  Copies T c → field_ty n fs = Some T → NoDup fs.*1 → Stmts fs (n :: done) k →
  Stmts fs done (λ inp out, out ← with_field n c inp out; k inp out).
Proof.
  intros Hc Hty Hnd Hk σ δ ins outs ts Hd Hp.
  destruct (partial_step done n T σ δ fs ins outs ts Hnd Hty Hp) as (v & t & Hv & Ht & Hw).
  destruct (Hc (σ ∪ δ) v t (read_union_l _ _ _ _ _ Ht)) as (w & δ1 & Hcv & Hd1 & Hr).
  apply map_disjoint_union_l in Hd1 as [Hd1 Hd2].
  destruct (Hk σ (δ ∪ δ1) ins (set_field n w outs) ts) as (u & ε & Hrun & ? & ?).
  - by apply map_disjoint_union_r.
  - apply Hw; [apply map_union_subseteq_l|by apply read_union_r].
  - exists u, ε. split_and!; [|done..]. rewrite <- Hrun.
    assert (Hf : with_field n c (VStruct ins) (VStruct outs) (σ ∪ δ) =
                 Some (VStruct (set_field n w outs), σ ∪ (δ ∪ δ1))).
    { unfold with_field, field. rewrite Hv. hm_step (eq_refl : HM_ret _ v (σ ∪ δ) = Some (v, σ ∪ δ)).
      hm_step Hcv. by rewrite map_union_assoc. }
    by hm_step Hf.
Qed.

Lemma stmts_end fs done :
  forallb (λ f, bool_decide (f.1 ∈ done) || flat f.2) fs = true →
  Stmts fs done (λ inp out, mret out).
Proof.
  intros Hf σ δ ins outs ts Hd Hp. exists (VStruct outs), δ. split_and!; [done..|].
  simpl. by rewrite (partial_end done σ δ fs ins outs ts Hf Hp).
Qed.

Lemma copies_struct fs k : Stmts fs [] k → Copies (TStruct fs) (copy_into k).
Proof.
  intros Hk σ [| | | | | |vs] t Ht; try done. simpl in Ht.
  apply fmap_Some in Ht as (ts & Hts & ->).
  destruct (Hk σ ∅ vs vs ts) as (w & ε & Hrun & ? & ?).
  - apply map_disjoint_empty_r.
  - by apply partial_start.
  - rewrite map_union_empty in Hrun. by exists w, ε.
Qed.

(** ** What the contract gives *)

(** [τ] keeps every cell of [σ] *)
Lemma original_isolated T σ δ τ v t :
  read T σ v = Some t → (∀ l, is_Some (σ !! l) → τ !! l = (σ ∪ δ) !! l) → read T τ v = Some t.
Proof.
  intros Hr Hk. eapply read_mono; [|exact Hr]. apply map_subseteq_spec. intros l c Hl.
  rewrite Hk by eauto. by apply lookup_union_Some_l.
Qed.

Lemma copy_isolated T σ δ τ w t : σ ##ₘ δ →
  read T δ w = Some t → (∀ l, σ !! l = None → τ !! l = (σ ∪ δ) !! l) → read T τ w = Some t.
Proof.
  intros Hd Hr Hk. eapply read_mono; [|exact Hr]. apply map_subseteq_spec. intros l c Hl.
  rewrite Hk by by apply (map_disjoint_Some_r σ δ l c).
  by apply lookup_union_Some_r.
Qed.

(** A copy ends, is deeply equal to the original and leaves the heap as it was. *)
Lemma copies_equal T c σ v t : Copies T c → read T σ v = Some t →
  ∃ w τ, c v σ = Some (w, τ) ∧ read T τ w = Some t ∧ σ ⊆ τ.
Proof.
  intros Hc Ht. destruct (Hc σ v t Ht) as (w & δ & Hrun & Hd & Hw).
  exists w, (σ ∪ δ). split_and!; [done|by apply read_union_r|apply map_union_subseteq_l].
Qed.

(** Whatever is then written to one of the two, the other reads as before. *)
Lemma copies_isolated T c σ v t : Copies T c → read T σ v = Some t →
  ∃ w τ, c v σ = Some (w, τ) ∧
    (∀ τ', (∀ l, is_Some (σ !! l) → τ' !! l = τ !! l) → read T τ' v = Some t) ∧
    (∀ τ', (∀ l, σ !! l = None → τ' !! l = τ !! l) → read T τ' w = Some t).
Proof.
  intros Hc Ht. destruct (Hc σ v t Ht) as (w & δ & Hrun & Hd & Hw).
  exists w, (σ ∪ δ). split_and!; [done|intros τ' Hk..].
  - by eapply original_isolated.
  - by apply (copy_isolated T σ δ).
Qed.

End Statements.
