(* ===== verification/DeepCopy.v ===== *)
(** * DeepCopy: the deep copies of the custom resources ([zz_generated.deepcopy.go])

    Every struct of [api/operator/v1] as a Go type ([T...], in the order of its
    declaration), and its [DeepCopyInto], [DeepCopy] and, for the resources and
    their lists, [DeepCopyObject], statement by statement: a statement for a
    field is a [with_field], with what it does to the field's value.

    The controllers take objects from the client's cache, which all of them
    share, and change copies of them ([updated := server.DeepCopy()] in
    [gameserverfleet_controller.go], [stsCopy := sts.DeepCopy()] in
    [gameserver_controller.go]); the other files of this development therefore
    model these objects as plain values.  That this is sound is what the
    theorems show: a copy never fails on a value of its type, is deeply equal
    to the original, and no write through one of them is seen through the
    other. *)

From S2P Require Import Prelude Heap.

(** ** The types *)

(** [metav1.TypeMeta] *)
Definition TTypeMeta : gty := TStruct [("Kind", TString); ("APIVersion", TString)].

Definition TActionParamSchema : gty := TStruct [
  ("Type", TString);
  ("Required", TBool);
  ("Description", TString);
  ("Default", TString)].

Definition TActionDecl : gty := TStruct [
  ("Name", TString);
  ("Description", TString);
  ("Params", TMap TActionParamSchema);
  ("Returns", TString);
  ("Concurrency", TString);
  ("Timeout", TString)].

Definition TTargetRef : gty := TStruct [
  ("APIVersion", TString);
  ("Kind", TString);
  ("Name", TString);
  ("Namespace", TString)].

Definition TActionExecutionSpec : gty := TStruct [
  ("TargetRef", TTargetRef);
  ("ActionName", TString);
  ("Params", TMap TString);
  ("Caller", TString)].

Definition TActionExecutionStatus : gty := TStruct [
  ("State", TString);
  ("StartedAt", TPtr (TExt "Time"));
  ("EndedAt", TPtr (TExt "Time"));
  ("AgentResponse", TString);
  ("Error", TString);
  ("Conditions", TSlice (TExt "Condition"))].

Definition TActionExecution : gty := TStruct [
  ("TypeMeta", TTypeMeta);
  ("ObjectMeta", TExt "ObjectMeta");
  ("Spec", TActionExecutionSpec);
  ("Status", TActionExecutionStatus)].

Definition TActionExecutionList : gty := TStruct [
  ("TypeMeta", TTypeMeta);
  ("ListMeta", TExt "ListMeta");
  ("Items", TSlice TActionExecution)].

Definition TAgentSpec : gty := TStruct [
  ("Image", TString);
  ("Version", TString)].

Definition TPortSpec : gty := TStruct [
  ("Name", TString);
  ("ContainerPort", TInt 32);
  ("Protocol", TString);
  ("Exposed", TPtr TBool)].

Definition TEnvironmentSpec : gty := TStruct [
  ("Key", TString);
  ("Default", TString);
  ("Required", TBool);
  ("Description", TString)].

Definition TStorageSpec : gty := TStruct [
  ("MountPath", TString);
  ("SizeDefault", TString);
  ("SizeMin", TString);
  ("SizeMax", TString)].

Definition TCapabilitiesSpec : gty := TStruct [
  ("Files", TBool);
  ("SFTP", TBool);
  ("Backup", TBool);
  ("RestoreFromSnapshot", TBool)].

Definition TAgentMetricsSpec : gty := TStruct [
  ("Port", TInt 32);
  ("Path", TString)].

Definition TServiceMonitorSpec : gty := TStruct [
  ("Enabled", TBool);
  ("Interval", TString)].

Definition TObservabilitySpec : gty := TStruct [
  ("AgentMetrics", TPtr TAgentMetricsSpec);
  ("ServiceMonitor", TPtr TServiceMonitorSpec)].

Definition TResourcesSpec : gty := TStruct [
  ("ResourceRequirements", TExt "ResourceRequirements");
  ("Tiers", TMap (TExt "ResourceRequirements"));
  ("Default", TString)].

Definition TGameProfileSpec : gty := TStruct [
  ("DisplayName", TString);
  ("Category", TString);
  ("Icon", TString);
  ("Description", TString);
  ("Image", TString);
  ("ImagePullPolicy", TString);
  ("Ports", TSlice TPortSpec);
  ("Environment", TSlice TEnvironmentSpec);
  ("Resources", TResourcesSpec);
  ("Storage", TStorageSpec);
  ("Agent", TAgentSpec);
  ("Actions", TSlice TActionDecl);
  ("Capabilities", TPtr TCapabilitiesSpec);
  ("Observability", TPtr TObservabilitySpec)].

Definition TGameProfileStatus : gty := TStruct [
  ("Conditions", TSlice (TExt "Condition"))].

Definition TGameProfile : gty := TStruct [
  ("TypeMeta", TTypeMeta);
  ("ObjectMeta", TExt "ObjectMeta");
  ("Spec", TGameProfileSpec);
  ("Status", TGameProfileStatus)].

Definition TGameProfileList : gty := TStruct [
  ("TypeMeta", TTypeMeta);
  ("ListMeta", TExt "ListMeta");
  ("Items", TSlice TGameProfile)].

Definition TLifecycleSpec : gty := TStruct [
  ("IdleTimeoutSeconds", TInt 32);
  ("AutoStart", TPtr TBool)].

Definition TSnapshotRef : gty := TStruct [
  ("Name", TString);
  ("Namespace", TString)].

Definition TGameServerStorage : gty := TStruct [
  ("Size", TString);
  ("StorageClass", TString);
  ("SnapshotRef", TPtr TSnapshotRef)].

Definition TGameServerSpec : gty := TStruct [
  ("Profile", TString);
  ("Tier", TString);
  ("Env", TMap TString);
  ("Storage", TGameServerStorage);
  ("Lifecycle", TLifecycleSpec);
  ("PriorityClassName", TString);
  ("TopologySpreadConstraints", TSlice (TExt "TopologySpreadConstraint"));
  ("LoadBalancerIP", TString)].

Definition TEndpoint : gty := TStruct [
  ("Name", TString);
  ("Address", TString);
  ("Port", TInt 32)].

Definition TGameServerStatus : gty := TStruct [
  ("State", TString);
  ("AgentVersion", TString);
  ("Players", TInt 32);
  ("PlayerCapacity", TInt 32);
  ("LastActivity", TPtr (TExt "Time"));
  ("Endpoints", TSlice TEndpoint);
  ("Conditions", TSlice (TExt "Condition"))].

Definition TGameServer : gty := TStruct [
  ("TypeMeta", TTypeMeta);
  ("ObjectMeta", TExt "ObjectMeta");
  ("Spec", TGameServerSpec);
  ("Status", TGameServerStatus)].

Definition TGameServerList : gty := TStruct [
  ("TypeMeta", TTypeMeta);
  ("ListMeta", TExt "ListMeta");
  ("Items", TSlice TGameServer)].

Definition TRollingUpdateSpec : gty := TStruct [
  ("MaxUnavailable", TPtr (TInt 32));
  ("MaxSurge", TPtr (TInt 32));
  ("DrainTimeoutSeconds", TInt 32)].

Definition TFleetUpdateStrategy : gty := TStruct [
  ("Type", TString);
  ("RollingUpdate", TPtr TRollingUpdateSpec)].

Definition TGameServerTemplateMetadata : gty := TStruct [
  ("Labels", TMap TString);
  ("Annotations", TMap TString)].

Definition TFleetGameServerSpec : gty := TStruct [
  ("Env", TMap TString)].

Definition TGameServerTemplateSpec : gty := TStruct [
  ("Metadata", TGameServerTemplateMetadata);
  ("Spec", TFleetGameServerSpec)].

Definition TGameServerFleetSpec : gty := TStruct [
  ("Profile", TString);
  ("Replicas", TInt 32);
  ("Template", TGameServerTemplateSpec);
  ("UpdateStrategy", TFleetUpdateStrategy);
  ("PriorityClassName", TString);
  ("TopologySpreadConstraints", TSlice (TExt "TopologySpreadConstraint"))].

Definition TGameServerFleetStatus : gty := TStruct [
  ("Replicas", TInt 32);
  ("ReadyReplicas", TInt 32);
  ("UpdatedReplicas", TInt 32);
  ("Conditions", TSlice (TExt "Condition"))].

Definition TGameServerFleet : gty := TStruct [
  ("TypeMeta", TTypeMeta);
  ("ObjectMeta", TExt "ObjectMeta");
  ("Spec", TGameServerFleetSpec);
  ("Status", TGameServerFleetStatus)].

Definition TGameServerFleetList : gty := TStruct [
  ("TypeMeta", TTypeMeta);
  ("ListMeta", TExt "ListMeta");
  ("Items", TSlice TGameServerFleet)].

Definition TSnapshotRetention : gty := TStruct [
  ("Count", TInt 64);
  ("Duration", TString)].

Definition TGameSnapshotSpec : gty := TStruct [
  ("GameServerRef", TString);
  ("Schedule", TString);
  ("Retention", TSnapshotRetention)].

Definition TSnapshotEntry : gty := TStruct [
  ("Name", TString);
  ("CreatedAt", TExt "Time");
  ("VolumeSnapshotRef", TString);
  ("SizeBytes", TInt 64)].

Definition TGameSnapshotStatus : gty := TStruct [
  ("Snapshots", TSlice TSnapshotEntry);
  ("LastSnapshotAt", TPtr (TExt "Time"));
  ("Conditions", TSlice (TExt "Condition"))].

Definition TGameSnapshot : gty := TStruct [
  ("TypeMeta", TTypeMeta);
  ("ObjectMeta", TExt "ObjectMeta");
  ("Spec", TGameSnapshotSpec);
  ("Status", TGameSnapshotStatus)].

Definition TGameSnapshotList : gty := TStruct [
  ("TypeMeta", TTypeMeta);
  ("ListMeta", TExt "ListMeta");
  ("Items", TSlice TGameSnapshot)].

(** ** The copies *)

Section Copies.
Context `{Runtime, KubeTypes}.

Definition ActionParamSchema_DeepCopyInto : gval → HM gval := copy_into (λ inp out,
  mret out).

Definition ActionParamSchema_DeepCopy : gval → HM gval :=
  deep_copy (zero_of TActionParamSchema) ActionParamSchema_DeepCopyInto.

Definition ActionDecl_DeepCopyInto : gval → HM gval := copy_into (λ inp out,
  out ← with_field "Params" (non_nil (make_map (λ val, mret val))) inp out;
  mret out).

Definition ActionDecl_DeepCopy : gval → HM gval :=
  deep_copy (zero_of TActionDecl) ActionDecl_DeepCopyInto.

Definition TargetRef_DeepCopyInto : gval → HM gval := copy_into (λ inp out,
  mret out).

Definition TargetRef_DeepCopy : gval → HM gval :=
  deep_copy (zero_of TTargetRef) TargetRef_DeepCopyInto.

Definition ActionExecutionSpec_DeepCopyInto : gval → HM gval := copy_into (λ inp out,
  out ← with_field "TargetRef" (λ v, mret v) inp out;
  out ← with_field "Params" (non_nil (make_map (λ val, mret val))) inp out;
  mret out).

Definition ActionExecutionSpec_DeepCopy : gval → HM gval :=
  deep_copy (zero_of TActionExecutionSpec) ActionExecutionSpec_DeepCopyInto.

Definition ActionExecutionStatus_DeepCopyInto : gval → HM gval := copy_into (λ inp out,
  out ← with_field "StartedAt" (non_nil (deep_copy (zero_of (TExt "Time")) (ext_copy "Time"))) inp out;
  out ← with_field "EndedAt" (non_nil (deep_copy (zero_of (TExt "Time")) (ext_copy "Time"))) inp out;
  out ← with_field "Conditions" (non_nil (make_slice (zero_of (TExt "Condition")) (ext_copy "Condition"))) inp out;
  mret out).

Definition ActionExecutionStatus_DeepCopy : gval → HM gval :=
  deep_copy (zero_of TActionExecutionStatus) ActionExecutionStatus_DeepCopyInto.

Definition ActionExecution_DeepCopyInto : gval → HM gval := copy_into (λ inp out,
  out ← with_field "TypeMeta" (λ v, mret v) inp out;
  out ← with_field "ObjectMeta" (ext_copy "ObjectMeta") inp out;
  out ← with_field "Spec" ActionExecutionSpec_DeepCopyInto inp out;
  out ← with_field "Status" ActionExecutionStatus_DeepCopyInto inp out;
  mret out).

Definition ActionExecution_DeepCopy : gval → HM gval :=
  deep_copy (zero_of TActionExecution) ActionExecution_DeepCopyInto.

Definition ActionExecution_DeepCopyObject : gval → HM (option gval) :=
  deep_copy_object ActionExecution_DeepCopy.

Definition ActionExecutionList_DeepCopyInto : gval → HM gval := copy_into (λ inp out,
  out ← with_field "TypeMeta" (λ v, mret v) inp out;
  out ← with_field "ListMeta" (ext_copy "ListMeta") inp out;
  out ← with_field "Items" (non_nil (make_slice (zero_of TActionExecution) ActionExecution_DeepCopyInto)) inp out;
  mret out).

Definition ActionExecutionList_DeepCopy : gval → HM gval :=
  deep_copy (zero_of TActionExecutionList) ActionExecutionList_DeepCopyInto.

Definition ActionExecutionList_DeepCopyObject : gval → HM (option gval) :=
  deep_copy_object ActionExecutionList_DeepCopy.

Definition AgentSpec_DeepCopyInto : gval → HM gval := copy_into (λ inp out,
  mret out).

Definition AgentSpec_DeepCopy : gval → HM gval :=
  deep_copy (zero_of TAgentSpec) AgentSpec_DeepCopyInto.

Definition PortSpec_DeepCopyInto : gval → HM gval := copy_into (λ inp out,
  out ← with_field "Exposed" (non_nil (make_ptr (zero_of TBool) (λ v, mret v))) inp out;
  mret out).

Definition PortSpec_DeepCopy : gval → HM gval :=
  deep_copy (zero_of TPortSpec) PortSpec_DeepCopyInto.

Definition EnvironmentSpec_DeepCopyInto : gval → HM gval := copy_into (λ inp out,
  mret out).

Definition EnvironmentSpec_DeepCopy : gval → HM gval :=
  deep_copy (zero_of TEnvironmentSpec) EnvironmentSpec_DeepCopyInto.

Definition StorageSpec_DeepCopyInto : gval → HM gval := copy_into (λ inp out,
  mret out).

Definition StorageSpec_DeepCopy : gval → HM gval :=
  deep_copy (zero_of TStorageSpec) StorageSpec_DeepCopyInto.

Definition CapabilitiesSpec_DeepCopyInto : gval → HM gval := copy_into (λ inp out,
  mret out).

Definition CapabilitiesSpec_DeepCopy : gval → HM gval :=
  deep_copy (zero_of TCapabilitiesSpec) CapabilitiesSpec_DeepCopyInto.

Definition AgentMetricsSpec_DeepCopyInto : gval → HM gval := copy_into (λ inp out,
  mret out).

Definition AgentMetricsSpec_DeepCopy : gval → HM gval :=
  deep_copy (zero_of TAgentMetricsSpec) AgentMetricsSpec_DeepCopyInto.

Definition ServiceMonitorSpec_DeepCopyInto : gval → HM gval := copy_into (λ inp out,
  mret out).

Definition ServiceMonitorSpec_DeepCopy : gval → HM gval :=
  deep_copy (zero_of TServiceMonitorSpec) ServiceMonitorSpec_DeepCopyInto.

Definition ObservabilitySpec_DeepCopyInto : gval → HM gval := copy_into (λ inp out,
  out ← with_field "AgentMetrics" (non_nil (make_ptr (zero_of TAgentMetricsSpec) (λ v, mret v))) inp out;
  out ← with_field "ServiceMonitor" (non_nil (make_ptr (zero_of TServiceMonitorSpec) (λ v, mret v))) inp out;
  mret out).

Definition ObservabilitySpec_DeepCopy : gval → HM gval :=
  deep_copy (zero_of TObservabilitySpec) ObservabilitySpec_DeepCopyInto.

Definition ResourcesSpec_DeepCopyInto : gval → HM gval := copy_into (λ inp out,
  out ← with_field "ResourceRequirements" (ext_copy "ResourceRequirements") inp out;
  out ← with_field "Tiers" (non_nil (make_map (copy_of_var (deep_copy (zero_of (TExt "ResourceRequirements")) (ext_copy "ResourceRequirements"))))) inp out;
  mret out).

Definition ResourcesSpec_DeepCopy : gval → HM gval :=
  deep_copy (zero_of TResourcesSpec) ResourcesSpec_DeepCopyInto.

Definition GameProfileSpec_DeepCopyInto : gval → HM gval := copy_into (λ inp out,
  out ← with_field "Ports" (non_nil (make_slice (zero_of TPortSpec) PortSpec_DeepCopyInto)) inp out;
  out ← with_field "Environment" (non_nil (make_copy (zero_of TEnvironmentSpec))) inp out;
  out ← with_field "Resources" ResourcesSpec_DeepCopyInto inp out;
  out ← with_field "Storage" (λ v, mret v) inp out;
  out ← with_field "Agent" (λ v, mret v) inp out;
  out ← with_field "Actions" (non_nil (make_slice (zero_of TActionDecl) ActionDecl_DeepCopyInto)) inp out;
  out ← with_field "Capabilities" (non_nil (make_ptr (zero_of TCapabilitiesSpec) (λ v, mret v))) inp out;
  out ← with_field "Observability" (non_nil (make_ptr (zero_of TObservabilitySpec) ObservabilitySpec_DeepCopyInto)) inp out;
  mret out).

Definition GameProfileSpec_DeepCopy : gval → HM gval :=
  deep_copy (zero_of TGameProfileSpec) GameProfileSpec_DeepCopyInto.

Definition GameProfileStatus_DeepCopyInto : gval → HM gval := copy_into (λ inp out,
  out ← with_field "Conditions" (non_nil (make_slice (zero_of (TExt "Condition")) (ext_copy "Condition"))) inp out;
  mret out).

Definition GameProfileStatus_DeepCopy : gval → HM gval :=
  deep_copy (zero_of TGameProfileStatus) GameProfileStatus_DeepCopyInto.

Definition GameProfile_DeepCopyInto : gval → HM gval := copy_into (λ inp out,
  out ← with_field "TypeMeta" (λ v, mret v) inp out;
  out ← with_field "ObjectMeta" (ext_copy "ObjectMeta") inp out;
  out ← with_field "Spec" GameProfileSpec_DeepCopyInto inp out;
  out ← with_field "Status" GameProfileStatus_DeepCopyInto inp out;
  mret out).

Definition GameProfile_DeepCopy : gval → HM gval :=
  deep_copy (zero_of TGameProfile) GameProfile_DeepCopyInto.

Definition GameProfile_DeepCopyObject : gval → HM (option gval) :=
  deep_copy_object GameProfile_DeepCopy.

Definition GameProfileList_DeepCopyInto : gval → HM gval := copy_into (λ inp out,
  out ← with_field "TypeMeta" (λ v, mret v) inp out;
  out ← with_field "ListMeta" (ext_copy "ListMeta") inp out;
  out ← with_field "Items" (non_nil (make_slice (zero_of TGameProfile) GameProfile_DeepCopyInto)) inp out;
  mret out).

Definition GameProfileList_DeepCopy : gval → HM gval :=
  deep_copy (zero_of TGameProfileList) GameProfileList_DeepCopyInto.

Definition GameProfileList_DeepCopyObject : gval → HM (option gval) :=
  deep_copy_object GameProfileList_DeepCopy.

Definition LifecycleSpec_DeepCopyInto : gval → HM gval := copy_into (λ inp out,
  out ← with_field "AutoStart" (non_nil (make_ptr (zero_of TBool) (λ v, mret v))) inp out;
  mret out).

Definition LifecycleSpec_DeepCopy : gval → HM gval :=
  deep_copy (zero_of TLifecycleSpec) LifecycleSpec_DeepCopyInto.

Definition SnapshotRef_DeepCopyInto : gval → HM gval := copy_into (λ inp out,
  mret out).

Definition SnapshotRef_DeepCopy : gval → HM gval :=
  deep_copy (zero_of TSnapshotRef) SnapshotRef_DeepCopyInto.

Definition GameServerStorage_DeepCopyInto : gval → HM gval := copy_into (λ inp out,
  out ← with_field "SnapshotRef" (non_nil (make_ptr (zero_of TSnapshotRef) (λ v, mret v))) inp out;
  mret out).

Definition GameServerStorage_DeepCopy : gval → HM gval :=
  deep_copy (zero_of TGameServerStorage) GameServerStorage_DeepCopyInto.

Definition GameServerSpec_DeepCopyInto : gval → HM gval := copy_into (λ inp out,
  out ← with_field "Env" (non_nil (make_map (λ val, mret val))) inp out;
  out ← with_field "Storage" GameServerStorage_DeepCopyInto inp out;
  out ← with_field "Lifecycle" LifecycleSpec_DeepCopyInto inp out;
  out ← with_field "TopologySpreadConstraints" (non_nil (make_slice (zero_of (TExt "TopologySpreadConstraint")) (ext_copy "TopologySpreadConstraint"))) inp out;
  mret out).

Definition GameServerSpec_DeepCopy : gval → HM gval :=
  deep_copy (zero_of TGameServerSpec) GameServerSpec_DeepCopyInto.

Definition Endpoint_DeepCopyInto : gval → HM gval := copy_into (λ inp out,
  mret out).

Definition Endpoint_DeepCopy : gval → HM gval :=
  deep_copy (zero_of TEndpoint) Endpoint_DeepCopyInto.

Definition GameServerStatus_DeepCopyInto : gval → HM gval := copy_into (λ inp out,
  out ← with_field "LastActivity" (non_nil (deep_copy (zero_of (TExt "Time")) (ext_copy "Time"))) inp out;
  out ← with_field "Endpoints" (non_nil (make_copy (zero_of TEndpoint))) inp out;
  out ← with_field "Conditions" (non_nil (make_slice (zero_of (TExt "Condition")) (ext_copy "Condition"))) inp out;
  mret out).

Definition GameServerStatus_DeepCopy : gval → HM gval :=
  deep_copy (zero_of TGameServerStatus) GameServerStatus_DeepCopyInto.

Definition GameServer_DeepCopyInto : gval → HM gval := copy_into (λ inp out,
  out ← with_field "TypeMeta" (λ v, mret v) inp out;
  out ← with_field "ObjectMeta" (ext_copy "ObjectMeta") inp out;
  out ← with_field "Spec" GameServerSpec_DeepCopyInto inp out;
  out ← with_field "Status" GameServerStatus_DeepCopyInto inp out;
  mret out).

Definition GameServer_DeepCopy : gval → HM gval :=
  deep_copy (zero_of TGameServer) GameServer_DeepCopyInto.

Definition GameServer_DeepCopyObject : gval → HM (option gval) :=
  deep_copy_object GameServer_DeepCopy.

Definition GameServerList_DeepCopyInto : gval → HM gval := copy_into (λ inp out,
  out ← with_field "TypeMeta" (λ v, mret v) inp out;
  out ← with_field "ListMeta" (ext_copy "ListMeta") inp out;
  out ← with_field "Items" (non_nil (make_slice (zero_of TGameServer) GameServer_DeepCopyInto)) inp out;
  mret out).

Definition GameServerList_DeepCopy : gval → HM gval :=
  deep_copy (zero_of TGameServerList) GameServerList_DeepCopyInto.

Definition GameServerList_DeepCopyObject : gval → HM (option gval) :=
  deep_copy_object GameServerList_DeepCopy.

Definition RollingUpdateSpec_DeepCopyInto : gval → HM gval := copy_into (λ inp out,
  out ← with_field "MaxUnavailable" (non_nil (make_ptr (zero_of (TInt 32)) (λ v, mret v))) inp out;
  out ← with_field "MaxSurge" (non_nil (make_ptr (zero_of (TInt 32)) (λ v, mret v))) inp out;
  mret out).

Definition RollingUpdateSpec_DeepCopy : gval → HM gval :=
  deep_copy (zero_of TRollingUpdateSpec) RollingUpdateSpec_DeepCopyInto.

Definition FleetUpdateStrategy_DeepCopyInto : gval → HM gval := copy_into (λ inp out,
  out ← with_field "RollingUpdate" (non_nil (make_ptr (zero_of TRollingUpdateSpec) RollingUpdateSpec_DeepCopyInto)) inp out;
  mret out).

Definition FleetUpdateStrategy_DeepCopy : gval → HM gval :=
  deep_copy (zero_of TFleetUpdateStrategy) FleetUpdateStrategy_DeepCopyInto.

Definition GameServerTemplateMetadata_DeepCopyInto : gval → HM gval := copy_into (λ inp out,
  out ← with_field "Labels" (non_nil (make_map (λ val, mret val))) inp out;
  out ← with_field "Annotations" (non_nil (make_map (λ val, mret val))) inp out;
  mret out).

Definition GameServerTemplateMetadata_DeepCopy : gval → HM gval :=
  deep_copy (zero_of TGameServerTemplateMetadata) GameServerTemplateMetadata_DeepCopyInto.

Definition FleetGameServerSpec_DeepCopyInto : gval → HM gval := copy_into (λ inp out,
  out ← with_field "Env" (non_nil (make_map (λ val, mret val))) inp out;
  mret out).

Definition FleetGameServerSpec_DeepCopy : gval → HM gval :=
  deep_copy (zero_of TFleetGameServerSpec) FleetGameServerSpec_DeepCopyInto.

Definition GameServerTemplateSpec_DeepCopyInto : gval → HM gval := copy_into (λ inp out,
  out ← with_field "Metadata" GameServerTemplateMetadata_DeepCopyInto inp out;
  out ← with_field "Spec" FleetGameServerSpec_DeepCopyInto inp out;
  mret out).

Definition GameServerTemplateSpec_DeepCopy : gval → HM gval :=
  deep_copy (zero_of TGameServerTemplateSpec) GameServerTemplateSpec_DeepCopyInto.

Definition GameServerFleetSpec_DeepCopyInto : gval → HM gval := copy_into (λ inp out,
  out ← with_field "Template" GameServerTemplateSpec_DeepCopyInto inp out;
  out ← with_field "UpdateStrategy" FleetUpdateStrategy_DeepCopyInto inp out;
  out ← with_field "TopologySpreadConstraints" (non_nil (make_slice (zero_of (TExt "TopologySpreadConstraint")) (ext_copy "TopologySpreadConstraint"))) inp out;
  mret out).

Definition GameServerFleetSpec_DeepCopy : gval → HM gval :=
  deep_copy (zero_of TGameServerFleetSpec) GameServerFleetSpec_DeepCopyInto.

Definition GameServerFleetStatus_DeepCopyInto : gval → HM gval := copy_into (λ inp out,
  out ← with_field "Conditions" (non_nil (make_slice (zero_of (TExt "Condition")) (ext_copy "Condition"))) inp out;
  mret out).

Definition GameServerFleetStatus_DeepCopy : gval → HM gval :=
  deep_copy (zero_of TGameServerFleetStatus) GameServerFleetStatus_DeepCopyInto.

Definition GameServerFleet_DeepCopyInto : gval → HM gval := copy_into (λ inp out,
  out ← with_field "TypeMeta" (λ v, mret v) inp out;
  out ← with_field "ObjectMeta" (ext_copy "ObjectMeta") inp out;
  out ← with_field "Spec" GameServerFleetSpec_DeepCopyInto inp out;
  out ← with_field "Status" GameServerFleetStatus_DeepCopyInto inp out;
  mret out).

Definition GameServerFleet_DeepCopy : gval → HM gval :=
  deep_copy (zero_of TGameServerFleet) GameServerFleet_DeepCopyInto.

Definition GameServerFleet_DeepCopyObject : gval → HM (option gval) :=
  deep_copy_object GameServerFleet_DeepCopy.

Definition GameServerFleetList_DeepCopyInto : gval → HM gval := copy_into (λ inp out,
  out ← with_field "TypeMeta" (λ v, mret v) inp out;
  out ← with_field "ListMeta" (ext_copy "ListMeta") inp out;
  out ← with_field "Items" (non_nil (make_slice (zero_of TGameServerFleet) GameServerFleet_DeepCopyInto)) inp out;
  mret out).

Definition GameServerFleetList_DeepCopy : gval → HM gval :=
  deep_copy (zero_of TGameServerFleetList) GameServerFleetList_DeepCopyInto.

Definition GameServerFleetList_DeepCopyObject : gval → HM (option gval) :=
  deep_copy_object GameServerFleetList_DeepCopy.

Definition SnapshotRetention_DeepCopyInto : gval → HM gval := copy_into (λ inp out,
  mret out).

Definition SnapshotRetention_DeepCopy : gval → HM gval :=
  deep_copy (zero_of TSnapshotRetention) SnapshotRetention_DeepCopyInto.

Definition GameSnapshotSpec_DeepCopyInto : gval → HM gval := copy_into (λ inp out,
  out ← with_field "Retention" (λ v, mret v) inp out;
  mret out).

Definition GameSnapshotSpec_DeepCopy : gval → HM gval :=
  deep_copy (zero_of TGameSnapshotSpec) GameSnapshotSpec_DeepCopyInto.

Definition SnapshotEntry_DeepCopyInto : gval → HM gval := copy_into (λ inp out,
  out ← with_field "CreatedAt" (ext_copy "Time") inp out;
  mret out).

Definition SnapshotEntry_DeepCopy : gval → HM gval :=
  deep_copy (zero_of TSnapshotEntry) SnapshotEntry_DeepCopyInto.

Definition GameSnapshotStatus_DeepCopyInto : gval → HM gval := copy_into (λ inp out,
  out ← with_field "Snapshots" (non_nil (make_slice (zero_of TSnapshotEntry) SnapshotEntry_DeepCopyInto)) inp out;
  out ← with_field "LastSnapshotAt" (non_nil (deep_copy (zero_of (TExt "Time")) (ext_copy "Time"))) inp out;
  out ← with_field "Conditions" (non_nil (make_slice (zero_of (TExt "Condition")) (ext_copy "Condition"))) inp out;
  mret out).

Definition GameSnapshotStatus_DeepCopy : gval → HM gval :=
  deep_copy (zero_of TGameSnapshotStatus) GameSnapshotStatus_DeepCopyInto.

Definition GameSnapshot_DeepCopyInto : gval → HM gval := copy_into (λ inp out,
  out ← with_field "TypeMeta" (λ v, mret v) inp out;
  out ← with_field "ObjectMeta" (ext_copy "ObjectMeta") inp out;
  out ← with_field "Spec" (λ v, mret v) inp out;
  out ← with_field "Status" GameSnapshotStatus_DeepCopyInto inp out;
  mret out).

Definition GameSnapshot_DeepCopy : gval → HM gval :=
  deep_copy (zero_of TGameSnapshot) GameSnapshot_DeepCopyInto.

Definition GameSnapshot_DeepCopyObject : gval → HM (option gval) :=
  deep_copy_object GameSnapshot_DeepCopy.

Definition GameSnapshotList_DeepCopyInto : gval → HM gval := copy_into (λ inp out,
  out ← with_field "TypeMeta" (λ v, mret v) inp out;
  out ← with_field "ListMeta" (ext_copy "ListMeta") inp out;
  out ← with_field "Items" (non_nil (make_slice (zero_of TGameSnapshot) GameSnapshot_DeepCopyInto)) inp out;
  mret out).

Definition GameSnapshotList_DeepCopy : gval → HM gval :=
  deep_copy (zero_of TGameSnapshotList) GameSnapshotList_DeepCopyInto.

Definition GameSnapshotList_DeepCopyObject : gval → HM (option gval) :=
  deep_copy_object GameSnapshotList_DeepCopy.

(** Every type of the package with its [DeepCopy]. *)
Definition deep_copies : list (string * gty * (gval → HM gval)) := [
  ("ActionParamSchema", TActionParamSchema, ActionParamSchema_DeepCopy);
  ("ActionDecl", TActionDecl, ActionDecl_DeepCopy);
  ("TargetRef", TTargetRef, TargetRef_DeepCopy);
  ("ActionExecutionSpec", TActionExecutionSpec, ActionExecutionSpec_DeepCopy);
  ("ActionExecutionStatus", TActionExecutionStatus, ActionExecutionStatus_DeepCopy);
  ("ActionExecution", TActionExecution, ActionExecution_DeepCopy);
  ("ActionExecutionList", TActionExecutionList, ActionExecutionList_DeepCopy);
  ("AgentSpec", TAgentSpec, AgentSpec_DeepCopy);
  ("PortSpec", TPortSpec, PortSpec_DeepCopy);
  ("EnvironmentSpec", TEnvironmentSpec, EnvironmentSpec_DeepCopy);
  ("StorageSpec", TStorageSpec, StorageSpec_DeepCopy);
  ("CapabilitiesSpec", TCapabilitiesSpec, CapabilitiesSpec_DeepCopy);
  ("AgentMetricsSpec", TAgentMetricsSpec, AgentMetricsSpec_DeepCopy);
  ("ServiceMonitorSpec", TServiceMonitorSpec, ServiceMonitorSpec_DeepCopy);
  ("ObservabilitySpec", TObservabilitySpec, ObservabilitySpec_DeepCopy);
  ("ResourcesSpec", TResourcesSpec, ResourcesSpec_DeepCopy);
  ("GameProfileSpec", TGameProfileSpec, GameProfileSpec_DeepCopy);
  ("GameProfileStatus", TGameProfileStatus, GameProfileStatus_DeepCopy);
  ("GameProfile", TGameProfile, GameProfile_DeepCopy);
  ("GameProfileList", TGameProfileList, GameProfileList_DeepCopy);
  ("LifecycleSpec", TLifecycleSpec, LifecycleSpec_DeepCopy);
  ("SnapshotRef", TSnapshotRef, SnapshotRef_DeepCopy);
  ("GameServerStorage", TGameServerStorage, GameServerStorage_DeepCopy);
  ("GameServerSpec", TGameServerSpec, GameServerSpec_DeepCopy);
  ("Endpoint", TEndpoint, Endpoint_DeepCopy);
  ("GameServerStatus", TGameServerStatus, GameServerStatus_DeepCopy);
  ("GameServer", TGameServer, GameServer_DeepCopy);
  ("GameServerList", TGameServerList, GameServerList_DeepCopy);
  ("RollingUpdateSpec", TRollingUpdateSpec, RollingUpdateSpec_DeepCopy);
  ("FleetUpdateStrategy", TFleetUpdateStrategy, FleetUpdateStrategy_DeepCopy);
  ("GameServerTemplateMetadata", TGameServerTemplateMetadata, GameServerTemplateMetadata_DeepCopy);
  ("FleetGameServerSpec", TFleetGameServerSpec, FleetGameServerSpec_DeepCopy);
  ("GameServerTemplateSpec", TGameServerTemplateSpec, GameServerTemplateSpec_DeepCopy);
  ("GameServerFleetSpec", TGameServerFleetSpec, GameServerFleetSpec_DeepCopy);
  ("GameServerFleetStatus", TGameServerFleetStatus, GameServerFleetStatus_DeepCopy);
  ("GameServerFleet", TGameServerFleet, GameServerFleet_DeepCopy);
  ("GameServerFleetList", TGameServerFleetList, GameServerFleetList_DeepCopy);
  ("SnapshotRetention", TSnapshotRetention, SnapshotRetention_DeepCopy);
  ("GameSnapshotSpec", TGameSnapshotSpec, GameSnapshotSpec_DeepCopy);
  ("SnapshotEntry", TSnapshotEntry, SnapshotEntry_DeepCopy);
  ("GameSnapshotStatus", TGameSnapshotStatus, GameSnapshotStatus_DeepCopy);
  ("GameSnapshot", TGameSnapshot, GameSnapshot_DeepCopy);
  ("GameSnapshotList", TGameSnapshotList, GameSnapshotList_DeepCopy)].

(** The resources and their lists, with their [DeepCopyObject]. *)
Definition deep_copy_objects : list (string * gty * (gval → HM (option gval))) := [
  ("ActionExecution", TActionExecution, ActionExecution_DeepCopyObject);
  ("ActionExecutionList", TActionExecutionList, ActionExecutionList_DeepCopyObject);
  ("GameProfile", TGameProfile, GameProfile_DeepCopyObject);
  ("GameProfileList", TGameProfileList, GameProfileList_DeepCopyObject);
  ("GameServer", TGameServer, GameServer_DeepCopyObject);
  ("GameServerList", TGameServerList, GameServerList_DeepCopyObject);
  ("GameServerFleet", TGameServerFleet, GameServerFleet_DeepCopyObject);
  ("GameServerFleetList", TGameServerFleetList, GameServerFleetList_DeepCopyObject);
  ("GameSnapshot", TGameSnapshot, GameSnapshot_DeepCopyObject);
  ("GameSnapshotList", TGameSnapshotList, GameSnapshotList_DeepCopyObject)].

End Copies.

(** ** Each copy keeps the contract *)

Create HintDb copies discriminated.
#[export] Hint Constants Opaque : copies.
#[export] Hint Resolve copies_assign copies_ext copies_ptr copies_deep_copy
  copies_non_nil_deep_copy copies_of_var copies_slice copies_copy copies_map : copies.
#[export] Hint Extern 1 (flat _ = true) => reflexivity : copies.

Lemma nodup_check (l : list string) : bool_decide (NoDup l) = true → NoDup l.
Proof. apply bool_decide_eq_true_1. Qed.

(** a [DeepCopyInto] body: each statement by the contract of what it calls;
    the fields that no statement copies hold no reference *)
Ltac copies_body :=
  apply copies_struct;
  repeat (eapply stmts_field;
          [ | reflexivity | apply nodup_check; vm_compute; reflexivity | ];
          [ solve [eauto 6 with copies] | ]);
  apply stmts_end; reflexivity.

(** the place of a name in the table *)
Fixpoint name_index {A B} (n : string) (l : list (string * A * B)) : nat :=
  match l with [] => 0 | e :: l => if String.eqb n e.1.1 then 0 else S (name_index n l) end.

Ltac in_table :=
  lazymatch goal with
  | |- (?n, ?T, ?f) ∈ ?tab =>
      let i := eval lazy in (name_index n tab) in
      apply (list_elem_of_lookup_2 tab i); reflexivity
  end.

Section Proofs.
Context `{Runtime, KubeTypes}.

Lemma ActionParamSchema_copies : Copies TActionParamSchema ActionParamSchema_DeepCopyInto.
Proof. copies_body. Qed.
#[local] Hint Resolve ActionParamSchema_copies : copies.

Lemma ActionDecl_copies : Copies TActionDecl ActionDecl_DeepCopyInto.
Proof. copies_body. Qed.
#[local] Hint Resolve ActionDecl_copies : copies.

Lemma TargetRef_copies : Copies TTargetRef TargetRef_DeepCopyInto.
Proof. copies_body. Qed.
#[local] Hint Resolve TargetRef_copies : copies.

Lemma ActionExecutionSpec_copies : Copies TActionExecutionSpec ActionExecutionSpec_DeepCopyInto.
Proof. copies_body. Qed.
#[local] Hint Resolve ActionExecutionSpec_copies : copies.

Lemma ActionExecutionStatus_copies : Copies TActionExecutionStatus ActionExecutionStatus_DeepCopyInto.
Proof. copies_body. Qed.
#[local] Hint Resolve ActionExecutionStatus_copies : copies.

Lemma ActionExecution_copies : Copies TActionExecution ActionExecution_DeepCopyInto.
Proof. copies_body. Qed.
#[local] Hint Resolve ActionExecution_copies : copies.

Lemma ActionExecutionList_copies : Copies TActionExecutionList ActionExecutionList_DeepCopyInto.
Proof. copies_body. Qed.
#[local] Hint Resolve ActionExecutionList_copies : copies.

Lemma AgentSpec_copies : Copies TAgentSpec AgentSpec_DeepCopyInto.
Proof. copies_body. Qed.
#[local] Hint Resolve AgentSpec_copies : copies.

Lemma PortSpec_copies : Copies TPortSpec PortSpec_DeepCopyInto.
Proof. copies_body. Qed.
#[local] Hint Resolve PortSpec_copies : copies.

Lemma EnvironmentSpec_copies : Copies TEnvironmentSpec EnvironmentSpec_DeepCopyInto.
Proof. copies_body. Qed.
#[local] Hint Resolve EnvironmentSpec_copies : copies.

Lemma StorageSpec_copies : Copies TStorageSpec StorageSpec_DeepCopyInto.
Proof. copies_body. Qed.
#[local] Hint Resolve StorageSpec_copies : copies.

Lemma CapabilitiesSpec_copies : Copies TCapabilitiesSpec CapabilitiesSpec_DeepCopyInto.
Proof. copies_body. Qed.
#[local] Hint Resolve CapabilitiesSpec_copies : copies.

Lemma AgentMetricsSpec_copies : Copies TAgentMetricsSpec AgentMetricsSpec_DeepCopyInto.
Proof. copies_body. Qed.
#[local] Hint Resolve AgentMetricsSpec_copies : copies.

Lemma ServiceMonitorSpec_copies : Copies TServiceMonitorSpec ServiceMonitorSpec_DeepCopyInto.
Proof. copies_body. Qed.
#[local] Hint Resolve ServiceMonitorSpec_copies : copies.

Lemma ObservabilitySpec_copies : Copies TObservabilitySpec ObservabilitySpec_DeepCopyInto.
Proof. copies_body. Qed.
#[local] Hint Resolve ObservabilitySpec_copies : copies.

Lemma ResourcesSpec_copies : Copies TResourcesSpec ResourcesSpec_DeepCopyInto.
Proof. copies_body. Qed.
#[local] Hint Resolve ResourcesSpec_copies : copies.

Lemma GameProfileSpec_copies : Copies TGameProfileSpec GameProfileSpec_DeepCopyInto.
Proof. copies_body. Qed.
#[local] Hint Resolve GameProfileSpec_copies : copies.

Lemma GameProfileStatus_copies : Copies TGameProfileStatus GameProfileStatus_DeepCopyInto.
Proof. copies_body. Qed.
#[local] Hint Resolve GameProfileStatus_copies : copies.

Lemma GameProfile_copies : Copies TGameProfile GameProfile_DeepCopyInto.
Proof. copies_body. Qed.
#[local] Hint Resolve GameProfile_copies : copies.

Lemma GameProfileList_copies : Copies TGameProfileList GameProfileList_DeepCopyInto.
Proof. copies_body. Qed.
#[local] Hint Resolve GameProfileList_copies : copies.

Lemma LifecycleSpec_copies : Copies TLifecycleSpec LifecycleSpec_DeepCopyInto.
Proof. copies_body. Qed.
#[local] Hint Resolve LifecycleSpec_copies : copies.

Lemma SnapshotRef_copies : Copies TSnapshotRef SnapshotRef_DeepCopyInto.
Proof. copies_body. Qed.
#[local] Hint Resolve SnapshotRef_copies : copies.

Lemma GameServerStorage_copies : Copies TGameServerStorage GameServerStorage_DeepCopyInto.
Proof. copies_body. Qed.
#[local] Hint Resolve GameServerStorage_copies : copies.

Lemma GameServerSpec_copies : Copies TGameServerSpec GameServerSpec_DeepCopyInto.
Proof. copies_body. Qed.
#[local] Hint Resolve GameServerSpec_copies : copies.

Lemma Endpoint_copies : Copies TEndpoint Endpoint_DeepCopyInto.
Proof. copies_body. Qed.
#[local] Hint Resolve Endpoint_copies : copies.

Lemma GameServerStatus_copies : Copies TGameServerStatus GameServerStatus_DeepCopyInto.
Proof. copies_body. Qed.
#[local] Hint Resolve GameServerStatus_copies : copies.

Lemma GameServer_copies : Copies TGameServer GameServer_DeepCopyInto.
Proof. copies_body. Qed.
#[local] Hint Resolve GameServer_copies : copies.

Lemma GameServerList_copies : Copies TGameServerList GameServerList_DeepCopyInto.
Proof. copies_body. Qed.
#[local] Hint Resolve GameServerList_copies : copies.

Lemma RollingUpdateSpec_copies : Copies TRollingUpdateSpec RollingUpdateSpec_DeepCopyInto.
Proof. copies_body. Qed.
#[local] Hint Resolve RollingUpdateSpec_copies : copies.

Lemma FleetUpdateStrategy_copies : Copies TFleetUpdateStrategy FleetUpdateStrategy_DeepCopyInto.
Proof. copies_body. Qed.
#[local] Hint Resolve FleetUpdateStrategy_copies : copies.

Lemma GameServerTemplateMetadata_copies : Copies TGameServerTemplateMetadata GameServerTemplateMetadata_DeepCopyInto.
Proof. copies_body. Qed.
#[local] Hint Resolve GameServerTemplateMetadata_copies : copies.

Lemma FleetGameServerSpec_copies : Copies TFleetGameServerSpec FleetGameServerSpec_DeepCopyInto.
Proof. copies_body. Qed.
#[local] Hint Resolve FleetGameServerSpec_copies : copies.

Lemma GameServerTemplateSpec_copies : Copies TGameServerTemplateSpec GameServerTemplateSpec_DeepCopyInto.
Proof. copies_body. Qed.
#[local] Hint Resolve GameServerTemplateSpec_copies : copies.

Lemma GameServerFleetSpec_copies : Copies TGameServerFleetSpec GameServerFleetSpec_DeepCopyInto.
Proof. copies_body. Qed.
#[local] Hint Resolve GameServerFleetSpec_copies : copies.

Lemma GameServerFleetStatus_copies : Copies TGameServerFleetStatus GameServerFleetStatus_DeepCopyInto.
Proof. copies_body. Qed.
#[local] Hint Resolve GameServerFleetStatus_copies : copies.

Lemma GameServerFleet_copies : Copies TGameServerFleet GameServerFleet_DeepCopyInto.
Proof. copies_body. Qed.
#[local] Hint Resolve GameServerFleet_copies : copies.

Lemma GameServerFleetList_copies : Copies TGameServerFleetList GameServerFleetList_DeepCopyInto.
Proof. copies_body. Qed.
#[local] Hint Resolve GameServerFleetList_copies : copies.

Lemma SnapshotRetention_copies : Copies TSnapshotRetention SnapshotRetention_DeepCopyInto.
Proof. copies_body. Qed.
#[local] Hint Resolve SnapshotRetention_copies : copies.

Lemma GameSnapshotSpec_copies : Copies TGameSnapshotSpec GameSnapshotSpec_DeepCopyInto.
Proof. copies_body. Qed.
#[local] Hint Resolve GameSnapshotSpec_copies : copies.

Lemma SnapshotEntry_copies : Copies TSnapshotEntry SnapshotEntry_DeepCopyInto.
Proof. copies_body. Qed.
#[local] Hint Resolve SnapshotEntry_copies : copies.

Lemma GameSnapshotStatus_copies : Copies TGameSnapshotStatus GameSnapshotStatus_DeepCopyInto.
Proof. copies_body. Qed.
#[local] Hint Resolve GameSnapshotStatus_copies : copies.

Lemma GameSnapshot_copies : Copies TGameSnapshot GameSnapshot_DeepCopyInto.
Proof. copies_body. Qed.
#[local] Hint Resolve GameSnapshot_copies : copies.

Lemma GameSnapshotList_copies : Copies TGameSnapshotList GameSnapshotList_DeepCopyInto.
Proof. copies_body. Qed.
#[local] Hint Resolve GameSnapshotList_copies : copies.

Lemma deep_copies_correct :
  Forall (λ e, Copies (TPtr e.1.2) e.2) deep_copies.
Proof.
  repeat first [apply Forall_nil_2 | apply Forall_cons_2]; cbn [fst snd];
    apply copies_deep_copy; auto with copies nocore.
Qed.

(** C12: *Deep copies are total, typed and equal.*  For every type of the API
    package: on a pointer that is a value of its type — every struct it reaches
    with its declared fields, every integer within its width, nil pointers,
    maps and slices included — [DeepCopy] ends without a panic, and what it
    returns is a value of the same type, deeply equal to the original, in a
    heap that keeps every cell there was; the original still is what it was. *)
Theorem deep_copy_typed name T dc σ v t :
  (name, T, dc) ∈ deep_copies → read (TPtr T) σ v = Some t →
  ∃ w τ, dc v σ = Some (w, τ) ∧ well_typed (TPtr T) τ w ∧ read (TPtr T) τ w = Some t ∧
         σ ⊆ τ ∧ read (TPtr T) τ v = Some t.
Proof.
  intros Hin Ht.
  destruct (copies_equal _ _ σ v t (proj1 (Forall_forall _ _) deep_copies_correct _ Hin) Ht)
    as (w & τ & ? & Hw & ?).
  exists w, τ. split_and!; [done|by eexists|done..|by eapply read_mono].
Qed.

(** C11: *Deep copies share nothing.*  After a [DeepCopy] of any type of the
    package, whatever the program writes to cells that were there before (the
    original, the cache it came from) leaves the copy as it is, and whatever
    it writes to cells the copy made leaves the original as it is. *)
Theorem deep_copy_isolated name T dc σ v t :
  (name, T, dc) ∈ deep_copies → read (TPtr T) σ v = Some t →
  ∃ w τ, dc v σ = Some (w, τ) ∧
    (∀ τ', (∀ l, is_Some (σ !! l) → τ' !! l = τ !! l) → read (TPtr T) τ' v = Some t) ∧
    (∀ τ', (∀ l, σ !! l = None → τ' !! l = τ !! l) → read (TPtr T) τ' w = Some t).
Proof.
  intros Hin Ht. apply (copies_isolated _ _ σ v t); [|done].
  by apply (proj1 (Forall_forall _ _) deep_copies_correct _ Hin).
Qed.

Lemma deep_copy_objects_copy :
  Forall (λ e, ∃ dc, (e.1, dc) ∈ deep_copies ∧ e.2 = deep_copy_object dc) deep_copy_objects.
Proof.
  repeat first [apply Forall_nil_2 | apply Forall_cons_2]; cbn [fst snd];
    (eexists; split; cycle 1; [reflexivity|in_table]).
Qed.

(** [DeepCopyObject] is [DeepCopy] behind the interface: a nil interface for a
    nil pointer and for no other, and the copy otherwise. *)
Theorem DeepCopyObject_correct name T dco σ v t :
  (name, T, dco) ∈ deep_copy_objects → read (TPtr T) σ v = Some t →
  ∃ o τ, dco v σ = Some (o, τ) ∧ σ ⊆ τ ∧
    match o with
    | None => t = RNil
    | Some w => t ≠ RNil ∧ read (TPtr T) τ w = Some t
    end.
Proof.
  intros Hin Ht.
  destruct (proj1 (Forall_forall _ _) deep_copy_objects_copy _ Hin) as (dc & Hdc & Heq).
  cbn [fst snd] in Hdc, Heq. subst dco.
  destruct (copies_equal _ _ σ v t (proj1 (Forall_forall _ _) deep_copies_correct _ Hdc) Ht)
    as (w & τ & Hrun & Hw & Hs).
  unfold deep_copy_object. rewrite (hm_bind _ _ _ _ _ Hrun). cbn [fst snd] in Hw.
  destruct w as [| | |[l|]| | |]; try done; cbn.
  - exists (Some (VPtr (Some l))), τ. split_and!; [reflexivity|exact Hs| |exact Hw].
    cbn in Hw. destruct (τ !! l) as [[x| |]|]; try done. destruct (read T τ x); naive_solver.
  - exists None, τ. split_and!; [reflexivity|exact Hs|]. by injection Hw.
Qed.

End Proofs.

(** ** A concrete heap

    A run time that takes the first unused location, and libraries whose
    values are strings or pointers to one. *)

Module Concrete.

#[global] Program Instance runtime : Runtime := {
  new_loc σ := fresh (dom σ); range_map := map_to_list }.
Next Obligation. intros σ. apply not_elem_of_dom, is_fresh. Qed.
Next Obligation. done. Qed.

Definition kube_read (n : string) (σ : heap) (v : gval) : option string :=
  match v with
  | VStr s => Some s
  | VPtr (Some l) => match σ !! l with Some (CVar (VStr s)) => Some s | _ => None end
  | _ => None
  end.

Definition kube_copy (n : string) (v : gval) : HM gval :=
  match v with VPtr _ => non_nil (make_ptr (VStr "") (λ v, mret v)) v | _ => mret v end.

Lemma kube_read_mono n σ τ v s : σ ⊆ τ → kube_read n σ v = Some s → kube_read n τ v = Some s.
Proof.
  intros Hs. destruct v as [| | |[l|]| | |]; try done. simpl.
  destruct (σ !! l) as [c|] eqn:E; [|done]. by rewrite (lookup_weaken _ _ _ _ E Hs).
Qed.

Lemma kube_copy_law n σ v s : kube_read n σ v = Some s →
  ∃ w δ, kube_copy n v σ = Some (w, σ ∪ δ) ∧ σ ##ₘ δ ∧ kube_read n δ w = Some s.
Proof.
  destruct v as [s'| | |[l|]| | |]; try done; simpl.
  - intros [= ->]. exists (VStr s), ∅. rewrite map_union_empty.
    split_and!; [done|apply map_disjoint_empty_r|done].
  - destruct (σ !! l) as [[[s'| | | | | |]| |]|] eqn:E; try done. intros [= ->].
    assert (Hq : σ !! new_loc σ = None) by apply new_loc_fresh.
    exists (VPtr (Some (new_loc σ))), {[new_loc σ := CVar (VStr s)]}. split_and!.
    + change (make_ptr (VStr "") (λ v, mret v) (VPtr (Some l)) σ =
              Some (VPtr (Some (new_loc σ)), σ ∪ {[new_loc σ := CVar (VStr s)]})).
      unfold make_ptr. hm_step (alloc_fill σ (CVar (VStr ""))).
      hm_step (load_var_Some _ _ _ (load_in_fill σ ∅ _ (CVar (VStr "")) l _ Hq E)).
      hm_step (eq_refl : HM_ret _ (VStr s) (<[new_loc σ := CVar (VStr "")]> σ ∪ ∅) = Some (VStr s, _)).
      hm_step (store_filled σ ∅ _ (CVar (VStr "")) (CVar (VStr s)) Hq).
      by rewrite map_union_empty, insert_union_singleton_r.
    + by apply map_disjoint_singleton_r_2.
    + simpl. by rewrite lookup_singleton_eq.
Qed.

#[global] Instance kube : KubeTypes := {
  ext_read := kube_read; ext_zero _ := VStr ""; ext_copy := kube_copy;
  ext_read_mono := kube_read_mono; ext_copy_law := kube_copy_law }.

(** A server with an environment, a snapshot reference, an endpoint and a
    condition, at location 1. *)
Definition server_spec : gval := VStruct [
  ("Profile", VStr "minecraft"); ("Tier", VStr ""); ("Env", VMap (Some 2%positive));
  ("Storage", VStruct [("Size", VStr "10Gi"); ("StorageClass", VStr "");
                       ("SnapshotRef", VPtr (Some 3%positive))]);
  ("Lifecycle", VStruct [("IdleTimeoutSeconds", VInt 600); ("AutoStart", VPtr (Some 4%positive))]);
  ("PriorityClassName", VStr ""); ("TopologySpreadConstraints", VSlice None);
  ("LoadBalancerIP", VStr "")].

Definition server_status : gval := VStruct [
  ("State", VStr "Running"); ("AgentVersion", VStr "1"); ("Players", VInt 3);
  ("PlayerCapacity", VInt 20); ("LastActivity", VPtr (Some 5%positive));
  ("Endpoints", VSlice (Some (6%positive, 1%nat, 1%nat)));
  ("Conditions", VSlice (Some (7%positive, 0%nat, 1%nat)))].

Definition server_heap : heap := list_to_map [
  (1%positive, CVar (VStruct [
     ("TypeMeta", VStruct [("Kind", VStr "GameServer"); ("APIVersion", VStr "v1")]);
     ("ObjectMeta", VPtr (Some 8%positive)); ("Spec", server_spec); ("Status", server_status)]));
  (2%positive, CMap {["MOTD" := VStr "hi"; "EULA" := VStr "true"]});
  (3%positive, CVar (VStruct [("Name", VStr "nightly"); ("Namespace", VStr "")]));
  (4%positive, CVar (VBool true));
  (5%positive, CVar (VStr "12:00"));
  (6%positive, CArr [VStruct [("Name", VStr "x"); ("Address", VStr "x"); ("Port", VInt 1)];
                     VStruct [("Name", VStr "game"); ("Address", VStr "10.0.0.1"); ("Port", VInt 25565)]]);
  (7%positive, CArr [VStr "Ready"]);
  (8%positive, CVar (VStr "survival"))].

Definition server_tree : tree :=
  default RNil (read (TPtr TGameServer) server_heap (VPtr (Some 1%positive))).

Lemma server_reads : read (TPtr TGameServer) server_heap (VPtr (Some 1%positive)) = Some server_tree.
Proof. reflexivity. Qed.

Lemma server_in_table : ("GameServer", TGameServer, GameServer_DeepCopy) ∈ deep_copies.
Proof. in_table. Qed.

(** The copy runs, and a write to the original's environment is not seen in it. *)
Example copy_of_server_env :
  (λ r, match r with
        | (w, τ) => read (TPtr TGameServer) (<[2%positive := CMap ∅]> τ) w
        end) <$> GameServer_DeepCopy (VPtr (Some 1%positive)) server_heap = Some (Some server_tree).
Proof. vm_compute. reflexivity. Qed.

End Concrete.

Lemma deep_copy_typed_witness :
  read (TPtr TGameServer) Concrete.server_heap (VPtr (Some 1%positive)) = Some Concrete.server_tree ∧
  ∃ w τ, GameServer_DeepCopy (VPtr (Some 1%positive)) Concrete.server_heap = Some (w, τ) ∧
         well_typed (TPtr TGameServer) τ w ∧ read (TPtr TGameServer) τ w = Some Concrete.server_tree ∧
         Concrete.server_heap ⊆ τ ∧
         read (TPtr TGameServer) τ (VPtr (Some 1%positive)) = Some Concrete.server_tree.
Proof.
  split; [apply Concrete.server_reads|].
  apply (deep_copy_typed "GameServer" TGameServer); [apply Concrete.server_in_table|apply Concrete.server_reads].
Defined.

Lemma deep_copy_isolated_witness :
  read (TPtr TGameServer) Concrete.server_heap (VPtr (Some 1%positive)) = Some Concrete.server_tree ∧
  ∃ w τ, GameServer_DeepCopy (VPtr (Some 1%positive)) Concrete.server_heap = Some (w, τ) ∧
    (∀ τ', (∀ l, is_Some (Concrete.server_heap !! l) → τ' !! l = τ !! l) →
       read (TPtr TGameServer) τ' (VPtr (Some 1%positive)) = Some Concrete.server_tree) ∧
    (∀ τ', (∀ l, Concrete.server_heap !! l = None → τ' !! l = τ !! l) →
       read (TPtr TGameServer) τ' w = Some Concrete.server_tree).
Proof.
  split; [apply Concrete.server_reads|].
  apply (deep_copy_isolated "GameServer" TGameServer); [apply Concrete.server_in_table|apply Concrete.server_reads].
Defined.
