(* ===== verification/Kube.v ===== *)
(** * Kube: the calls the operator and the control plane make

    The API server, the agents, the clock, the random source, the event
    recorder and the metrics registry are not part of the repository.  Each
    call to them is a constructor of [op]; its answer is whatever the
    environment chooses.  Logging is left out: it has no effect the program
    reads.

    [FinalizerOps] and the other classes are the third-party functions that
    compute on values in memory, with the documented facts the program relies
    on; each has a concrete instance used by the witnesses. *)

From Stdlib Require Import Eqdep_dec.
From S2P Require Import Prelude GoStrings Prog Api.

(** ** Errors

    An API error carries a machine-readable reason; [fmt.Errorf("...: %w")]
    keeps the reason and prefixes the message. *)
Inductive reason := RNotFound | RAlreadyExists | RNoMatch | RUnknown.
#[export] Instance reason_eq_dec : EqDecision reason.
Proof. solve_decision. Defined.

Record gerr := { ge_reason : reason; ge_msg : string }.

Definition errorf (msg : string) : gerr := {| ge_reason := RUnknown; ge_msg := msg |}.
Definition wrapf (prefix : string) (e : gerr) : gerr :=
  {| ge_reason := ge_reason e; ge_msg := prefix +:+ ": " +:+ ge_msg e |}.
Definition wrap_err (prefix : string) (e : option gerr) : option gerr := wrapf prefix <$> e.
Definition IsNotFound (e : gerr) : bool := bool_decide (ge_reason e = RNotFound).
Definition IsAlreadyExists (e : gerr) : bool := bool_decide (ge_reason e = RAlreadyExists).
Definition IsNoMatchError (e : gerr) : bool := bool_decide (ge_reason e = RNoMatch).

(** [err != nil && !ignore(err)]: the error that remains, if any. *)
Definition unless (ignore : gerr → bool) (e : option gerr) : option gerr :=
  match e with Some e => if ignore e then None else Some e | None => None end.

(** [ctrl.Result]: only [RequeueAfter] is used. *)
Definition Result := Z.
Definition no_requeue : Result := 0.

(** ** Workload objects *)

Record EnvVar := { ev_Name : string; ev_Value : string }.
#[export] Instance EnvVar_eq_dec : EqDecision EnvVar.
Proof. solve_decision. Defined.
Record ContainerPort := { cp_Name : string; cp_ContainerPort : Z; cp_Protocol : string }.
Record VolumeMount := { vm_Name : string; vm_MountPath : string; vm_ReadOnly : bool }.
Record SecurityContext := {
  sc_RunAsNonRoot : bool;
  sc_RunAsUser : Z;
  sc_RunAsGroup : Z;
  sc_AllowPrivilegeEscalation : bool;
  sc_ReadOnlyRootFilesystem : bool;
  sc_DropCapabilities : list string;
  sc_SeccompProfile : string;
}.
Record Container := {
  ct_Name : string;
  ct_Image : string;
  ct_Command : list string;
  ct_Ports : list ContainerPort;
  ct_WorkingDir : string;
  ct_Env : list EnvVar;
  ct_Resources : ResourceRequirements;
  ct_SecurityContext : option SecurityContext;
  ct_ReadinessTCPPort : option Z;
  ct_VolumeMounts : list VolumeMount;
}.
Inductive VolumeSource :=
| PersistentVolumeClaim (claim : string)
| SecretVolume (secret : string) (items : list (string * string))
| EmptyDir.
Record Volume := { vol_Name : string; vol_Source : VolumeSource }.
Record PodSecurityContext := {
  psc_FSGroup : option Z;
  psc_FSGroupChangePolicy : option string;
}.
Record PodSpec := {
  ps_Containers : list Container;
  ps_Volumes : list Volume;
  ps_SecurityContext : option PodSecurityContext;
  ps_ImagePullSecrets : list string;
  ps_PriorityClassName : string;
  ps_TopologySpreadConstraints : list TopologySpreadConstraint;
}.

Record StatefulSet := {
  sts_Meta : ObjectMeta;
  sts_Replicas : option Z;
  sts_Selector : gmap string string;
  sts_ServiceName : string;
  sts_TemplateLabels : gmap string string;
  sts_TemplateSpec : PodSpec;
  sts_ReadyReplicas : Z;
}.
Definition sts_set_Replicas (n : Z) (s : StatefulSet) : StatefulSet := {|
  sts_Meta := sts_Meta s; sts_Replicas := Some n; sts_Selector := sts_Selector s;
  sts_ServiceName := sts_ServiceName s; sts_TemplateLabels := sts_TemplateLabels s;
  sts_TemplateSpec := sts_TemplateSpec s; sts_ReadyReplicas := sts_ReadyReplicas s |}.

Inductive TargetPort := PortNumber (n : Z) | PortNamed (s : string).
Record ServicePort := {
  sp_Name : string;
  sp_Port : Z;
  sp_TargetPort : TargetPort;
  sp_Protocol : string;
}.
Record LoadBalancerIngress := { lbi_IP : string; lbi_Hostname : string }.
Record Service := {
  svc_Meta : ObjectMeta;
  svc_Type : string;
  svc_ClusterIP : string;
  svc_Selector : gmap string string;
  svc_Ports : list ServicePort;
  svc_PublishNotReadyAddresses : bool;
  svc_LoadBalancerIP : string;
  svc_Ingress : list LoadBalancerIngress;
}.
Record PVC := {
  pvc_Meta : ObjectMeta;
  pvc_AccessModes : list string;
  pvc_StorageRequest : Quantity;
  pvc_StorageClassName : option string;
  (** API group, kind, name *)
  pvc_DataSource : option (string * string * string);
}.
Record Secret := {
  sec_Meta : ObjectMeta;
  sec_Type : string;
  sec_Data : gmap string string;
}.
Record SMEndpoint := { sme_Port : string; sme_Path : string; sme_Interval : string }.
Record ServiceMonitor := {
  sm_Meta : ObjectMeta;
  sm_Selector : gmap string string;
  sm_Endpoints : list SMEndpoint;
}.

(** The answer of [unstructured.Nested*]: found, missing, or of another type. *)
Inductive nested (A : Type) := NFound (a : A) | NMissing | NBadType.
Arguments NFound {_} _.
Arguments NMissing {_}.
Arguments NBadType {_}.

(** A VolumeSnapshot, with the answers its accessors give. *)
Record VolumeSnapshot := {
  vs_Meta : ObjectMeta;
  vs_SourcePVC : string;
  vs_readyToUse : nested bool;
  vs_restoreSize : nested Z;
  (** [NestedSlice(..., "status", "error")] *)
  vs_error_slice : nested (list string);
  (** [NestedString(..., "status", "error", "message")] *)
  vs_error_message : nested string;
}.

Record Namespace_ := { nsp_Meta : ObjectMeta }.
Record ResourceQuota := { rq_Meta : ObjectMeta; rq_Hard : gmap string Quantity }.
Record NetworkPolicyPort := { npp_Protocol : string; npp_Port : Z }.
Record NetworkPolicyRule := {
  (** [kubernetes.io/metadata.name] of the peer namespaces; [] = any peer *)
  npr_Peers : list string;
  npr_Ports : list NetworkPolicyPort;
}.
Record NetworkPolicy := {
  np_Meta : ObjectMeta;
  (** match labels; empty = every pod of the namespace *)
  np_PodSelector : gmap string string;
  np_PolicyTypes : list string;
  np_Ingress : list NetworkPolicyRule;
  np_Egress : list NetworkPolicyRule;
}.
Record CustomResourceDefinition := { crd_Meta : ObjectMeta }.

(** ** Kinds *)

Inductive kind :=
| KGameServer | KGameProfile | KFleet | KExec | KSnap
| KSts | KSvc | KPvc | KSecret | KServiceMonitor | KCrd | KVolumeSnapshot
| KNamespace | KQuota | KNetpol.
#[export] Instance kind_eq_dec : EqDecision kind.
Proof. solve_decision. Defined.

Definition obj (k : kind) : Type :=
  match k with
  | KGameServer => GameServer
  | KGameProfile => GameProfile
  | KFleet => GameServerFleet
  | KExec => ActionExecution
  | KSnap => GameSnapshot
  | KSts => StatefulSet
  | KSvc => Service
  | KPvc => PVC
  | KSecret => Secret
  | KServiceMonitor => ServiceMonitor
  | KCrd => CustomResourceDefinition
  | KVolumeSnapshot => VolumeSnapshot
  | KNamespace => Namespace_
  | KQuota => ResourceQuota
  | KNetpol => NetworkPolicy
  end.

(** ** Agent protocol *)

Inductive ActionState := ACTION_STATE_FAILED | ACTION_STATE_REJECTED | ACTION_STATE_OTHER.
Record ExecuteActionResponse := {
  ear_State : ActionState;
  ear_Error : string;
  (** [Result.String()] *)
  ear_Result : string;
}.

(** ** OpenID Connect

    A verified ID token: its standard claims, if they decode, and the value of
    any other claim. *)
Record oidcClaims := {
  oc_Sub : string;
  oc_Email : string;
  oc_Name : string;
  oc_PreferredUsername : string;
}.
Inductive claim_value :=
| ClaimString (s : string)
(** the elements that are strings, [None] for the others *)
| ClaimList (l : list (option string))
| ClaimOther.
Record IDToken := {
  idt_claims : option oidcClaims;
  (** the claims as a map, if they decode *)
  idt_all : option (string → option claim_value);
}.

(** ** Audit events ([audit.Event]); the error is never set *)

Record Event := {
  evt_Timestamp : Z;
  evt_Level : string;
  evt_User : string;
  evt_Role : string;
  evt_Action : string;
  evt_Resource : string;
  evt_Method : string;
  evt_Path : string;
  evt_ClientIP : string;
  evt_UserAgent : string;
  evt_Result : string;
}.

(** ** Calls *)

Inductive op : Type → Type :=
(* API server; a cluster-scoped object has namespace "" *)
| Get (k : kind) (ns name : string) : op (obj k + gerr)
| ListObjs (k : kind) (ns : option string) (labels : list (string * string))
    : op (list (obj k) + gerr)
| ListByField (k : kind) (ns : string) (field value : string) : op (list (obj k) + gerr)
| Create (k : kind) (o : obj k) : op (option gerr)
| Update (k : kind) (o : obj k) : op (option gerr)
| StatusUpdate (k : kind) (o : obj k) : op (option gerr)
(* server-side apply with forced ownership *)
| Apply (k : kind) (o : obj k) : op (option gerr)
| CreateOrUpdate (k : kind) (o : obj k) : op (option gerr)
| Delete (k : kind) (ns name : string) : op (option gerr)
(* [controllerutil.SetControllerReference]: may refuse *)
| SetOwner (owner : string * string) (k : kind) (o : obj k) : op (option gerr)
(* agents *)
| GrpcDial (addr : string) : op (option gerr)
| AgentHealthCheck (addr : string) (timeout : Z) : op (bool + gerr)
| AgentInfo (addr : string) (timeout : Z) : op (string + gerr)
| AgentGetPlayers (addr : string) (timeout : Z) : op (Z * Z + gerr)
| AgentPrepareShutdown (addr : string) (timeout : Z) (timeoutSeconds : Z) (reason : string)
    : op (option gerr)
| AgentExecuteAction (addr : string) (timeout : Z) (name : string)
    (params : gomap string) (id : string) : op (ExecuteActionResponse + gerr)
(* OpenID Connect provider *)
| OidcDiscover (issuer : string) : op (option gerr)
| OidcVerify (issuer clientID raw : string) : op (IDToken + gerr)
(* clock, randomness, hashing *)
| Now : op Z
| RandInt (max : Z) : op (Z + gerr)
| RandBytes (n : Z) : op (string + gerr)
| BcryptGenerate (password : string) : op (string + gerr)
(* event recorder and metrics registry *)
| RecordEvent (about : string * string) (etype reason msg : string) : op unit
| GaugeDeletePartial (gauge : string) (labels : list (string * string)) : op unit
| GaugeSet (gauge : string) (labels : list (string * string)) (v : Z) : op unit
| CounterInc (counter : string) (labels : list (string * string)) : op unit
(* the audit log *)
| AuditWrite (e : Event) : op unit
(* the console: the WebSocket to the caller, the stream to the agent, and the
   first error one of the two copying goroutines reports *)
| WsUpgrade : op (option (option (Z * string) * gerr))  (* the answer sent, if any *)
| WsWriteJSON (type data : string) : op (option gerr)
| AgentConsole (addr : string) : op (option gerr)
| ConsolePump (addr : string) : op gerr.

Abbreviation M := (prog op).

(** [NamespacedName] of an object. *)
Definition obj_meta (k : kind) : obj k → ObjectMeta :=
  match k with
  | KGameServer => gs_Meta | KGameProfile => gp_Meta | KFleet => fl_Meta
  | KExec => ae_Meta | KSnap => sn_Meta | KSts => sts_Meta | KSvc => svc_Meta
  | KPvc => pvc_Meta | KSecret => sec_Meta | KServiceMonitor => sm_Meta
  | KCrd => crd_Meta | KVolumeSnapshot => vs_Meta | KNamespace => nsp_Meta
  | KQuota => rq_Meta | KNetpol => np_Meta
  end.

(** The object with its metadata changed by [f]. *)
Definition obj_map_meta (f : ObjectMeta → ObjectMeta) (k : kind) : obj k → obj k :=
  match k with
  | KGameServer => λ o, {| gs_Meta := f (gs_Meta o);
      gs_Spec := gs_Spec o; gs_Status := gs_Status o |}
  | KGameProfile => λ o, {| gp_Meta := f (gp_Meta o);
      gp_Spec := gp_Spec o; gp_Conditions := gp_Conditions o |}
  | KFleet => λ o, {| fl_Meta := f (fl_Meta o);
      fl_Spec := fl_Spec o; fl_Status := fl_Status o |}
  | KExec => λ o, {| ae_Meta := f (ae_Meta o);
      ae_Spec := ae_Spec o; ae_Status := ae_Status o |}
  | KSnap => λ o, {| sn_Meta := f (sn_Meta o);
      sn_Spec := sn_Spec o; sn_Status := sn_Status o |}
  | KSts => λ o, {| sts_Meta := f (sts_Meta o);
      sts_Replicas := sts_Replicas o; sts_Selector := sts_Selector o;
      sts_ServiceName := sts_ServiceName o; sts_TemplateLabels :=
      sts_TemplateLabels o; sts_TemplateSpec := sts_TemplateSpec o;
      sts_ReadyReplicas := sts_ReadyReplicas o |}
  | KSvc => λ o, {| svc_Meta := f (svc_Meta o);
      svc_Type := svc_Type o; svc_ClusterIP := svc_ClusterIP o; svc_Selector :=
      svc_Selector o; svc_Ports := svc_Ports o; svc_PublishNotReadyAddresses :=
      svc_PublishNotReadyAddresses o; svc_LoadBalancerIP := svc_LoadBalancerIP
      o; svc_Ingress := svc_Ingress o |}
  | KPvc => λ o, {| pvc_Meta := f (pvc_Meta o);
      pvc_AccessModes := pvc_AccessModes o; pvc_StorageRequest :=
      pvc_StorageRequest o; pvc_StorageClassName := pvc_StorageClassName o;
      pvc_DataSource := pvc_DataSource o |}
  | KSecret => λ o, {| sec_Meta := f (sec_Meta o);
      sec_Type := sec_Type o; sec_Data := sec_Data o |}
  | KServiceMonitor => λ o, {| sm_Meta := f (sm_Meta o);
      sm_Selector := sm_Selector o; sm_Endpoints := sm_Endpoints o |}
  | KCrd => λ o, {| crd_Meta := f (crd_Meta o) |}
  | KVolumeSnapshot => λ o, {| vs_Meta := f (vs_Meta o);
      vs_SourcePVC := vs_SourcePVC o; vs_readyToUse := vs_readyToUse o;
      vs_restoreSize := vs_restoreSize o; vs_error_slice := vs_error_slice o;
      vs_error_message := vs_error_message o |}
  | KNamespace => λ o, {| nsp_Meta := f (nsp_Meta o) |}
  | KQuota => λ o, {| rq_Meta := f (rq_Meta o);
      rq_Hard := rq_Hard o |}
  | KNetpol => λ o, {| np_Meta := f (np_Meta o);
      np_PodSelector := np_PodSelector o; np_PolicyTypes := np_PolicyTypes o; np_Ingress := np_Ingress o; np_Egress
      := np_Egress o |}
  end.

Lemma obj_meta_map_meta f k (o : obj k) : obj_meta k (obj_map_meta f k o) = f (obj_meta k o).
Proof. by destruct k. Qed.
#[export] Hint Rewrite obj_meta_map_meta : minato_simpl.

(** The answer of an event that reads an object of kind [k]; two events that
    are the same read have the same answer. *)
Definition get_answer (k : kind) (v : event op) : option (obj k + gerr) :=
  match v with
  | Ev e x =>
      match e in op X return X → option (obj k + gerr) with
      | Get k' _ _ => λ x,
          match decide (k' = k) with
          | left E => Some (eq_rect k' (λ k, (obj k + gerr)%type) x k E)
          | right _ => None
          end
      | _ => λ _, None
      end x
  end.

Lemma get_answer_Get k ns n x : get_answer k (Ev (Get k ns n) x) = Some x.
Proof.
  simpl. destruct (decide (k = k)) as [E|]; [|done].
  by rewrite <-(eq_rect_eq_dec kind_eq_dec (λ k, (obj k + gerr)%type) x E).
Qed.

Lemma Ev_Get_inj k ns n x ns' n' y t t' :
  Ev (Get k ns n) x :: t = Ev (Get k ns' n') y :: t' → x = y ∧ t = t'.
Proof.
  intros H. assert (get_answer k <$> head (Ev (Get k ns n) x :: t)
                    = get_answer k <$> head (Ev (Get k ns' n') y :: t')) as E by by rewrite H.
  cbn [head fmap option_fmap option_map] in E. rewrite !get_answer_Get in E.
  split; [by simplify_eq|]. by apply (f_equal tail) in H.
Qed.

Lemma runs_Get {A} k ns n (f : obj k + gerr → M A) x t o :
  runs (Call (Get k ns n) f) (Ev (Get k ns n) x :: t) o → runs (f x) t o.
Proof. intros (y & t' & [-> ->]%Ev_Get_inj & H). done. Qed.

(** The writes to the API server among the calls of a run. *)
Inductive write :=
| WCreate (k : kind) (o : obj k)
| WUpdate (k : kind) (o : obj k)
| WStatusUpdate (k : kind) (o : obj k)
| WApply (k : kind) (o : obj k)
| WCreateOrUpdate (k : kind) (o : obj k)
| WDelete (k : kind) (ns name : string).

Definition write_of {X} (e : op X) : option write :=
  match e with
  | Create k o => Some (WCreate k o)
  | Update k o => Some (WUpdate k o)
  | StatusUpdate k o => Some (WStatusUpdate k o)
  | Apply k o => Some (WApply k o)
  | CreateOrUpdate k o => Some (WCreateOrUpdate k o)
  | Delete k ns n => Some (WDelete k ns n)
  | _ => None
  end.
Definition ev_write (v : event op) : option write := match v with Ev e _ => write_of e end.
Definition writes (t : list (event op)) : list write := omap ev_write t.

(** The namespace a write goes to. *)
Definition write_ns (w : write) : string :=
  match w with
  | WCreate k o | WUpdate k o | WStatusUpdate k o | WApply k o | WCreateOrUpdate k o =>
      om_Namespace (obj_meta k o)
  | WDelete _ ns _ => ns
  end.

Lemma writes_app t1 t2 : writes (t1 ++ t2) = writes t1 ++ writes t2.
Proof. apply omap_app. Qed.

(** Every write of every run satisfies [P]. *)
Definition w_sat (P : write → Prop) (X : Type) (e : op X) : Prop :=
  from_option P True (write_of e).
Definition always_w {A} (P : write → Prop) (p : M A) : Prop := always (w_sat P) p.

Lemma always_w_runs {A} P (p : M A) t o :
  always_w P p → runs p t o → Forall P (writes t).
Proof.
  intros H Hr. assert (Forall (ev_sat (w_sat P)) t) as Ht by by eapply always_runs.
  clear H Hr. unfold writes. induction Ht as [|[X e x] t Hv Ht IH]; [done|].
  cbn [omap list_omap]. unfold w_sat in Hv; simpl in *. destruct (write_of e); [|done].
  by constructor.
Qed.

Lemma always_w_mono {A} (P Q : write → Prop) (p : M A) :
  (∀ w, P w → Q w) → always_w P p → always_w Q p.
Proof.
  intros H. apply always_mono. intros X e. unfold w_sat. destruct (write_of e); simpl; auto.
Qed.

(** A loop that ran to its end wrote what its iterations write. *)
Lemma for_each_writes {A R} (l : list A) (body : A → M (option R)) (w : A → list write) t :
  (∀ x t, x ∈ l → runs (body x) t (Done None) → writes t = w x) →
  runs (for_each l body) t (Done None) → writes t = l ≫= w.
Proof.
  revert t. induction l as [|x l IH]; intros t Hw; cbn [for_each].
  - by intros [-> _].
  - intros H. run_step H. destruct a; [by destruct H|].
    rewrite writes_app. cbn. rewrite (Hw x _ (list_elem_of_here _ _) Hrun). f_equal.
    apply IH; [|done]. intros y u Hy. apply Hw. by right.
Qed.

(** A program that never writes to the API server. *)
Definition no_writes {A} (p : M A) : Prop := always_w (λ _, False) p.
Lemma no_writes_always {A} P (p : M A) : no_writes p → always (w_sat P) p.
Proof. by apply always_w_mono. Qed.
#[export] Hint Resolve no_writes_always : minato.

(** What the API server answers to a read is the object that was asked for. *)
Definition faithful (X : Type) (e : op X) : X → Prop :=
  match e in op X return X → Prop with
  | Get k ns n => λ x,
      match x with
      | inl o => om_Namespace (obj_meta k o) = ns ∧ om_Name (obj_meta k o) = n
      | inr _ => True
      end
  | _ => λ _, True
  end.

(** ** Calls under an assumption on the answers *)

Section Given.
Context (G : ∀ X, op X → X → Prop) (Q : ∀ X, op X → Prop).

(** Every call satisfies [Q] as long as the answers so far satisfy [G]. *)
Fixpoint always_given {A} (p : M A) : Prop :=
  match p with
  | Ret _ | Panic _ => True
  | Call e k => Q _ e ∧ ∀ x, G _ e x → always_given (k x)
  end.

Definition ev_given (v : event op) : Prop := match v with @Ev _ X e x => G X e x end.

Lemma always_given_runs {A} (p : M A) t o :
  always_given p → runs p t o → Forall ev_given t → Forall (ev_sat Q) t.
Proof.
  revert t. induction p as [a|X e k IH|m]; intros t; cbn [always_given].
  - by intros _ [-> _].
  - intros [HQ Hk] (x & t' & -> & Hr) Hg. inversion_clear Hg as [|? ? Hx Ht].
    constructor; [done|]. by eapply IH; [apply Hk| |].
  - by intros _ [-> _].
Qed.

Lemma always_given_bind {A B} (p : M A) (f : A → M B) :
  always_given p → (∀ a, always_given (f a)) → always_given (bind p f).
Proof. induction p as [a|X e k IH|m]; cbn [always_given bind]; naive_solver. Qed.

Lemma always_given_bind_ret {A B} Φ (p : M A) (f : A → M B) :
  always_given p → ret_sat Φ p → (∀ a, Φ a → always_given (f a)) → always_given (bind p f).
Proof. induction p as [a|X e k IH|m]; cbn [always_given bind ret_sat]; naive_solver. Qed.

Lemma always_given_call {X B} (e : op X) (f : X → M B) :
  Q _ e → (∀ x, G _ e x → always_given (f x)) → always_given (bind (call e) f).
Proof. intros H Hf. split; [done|]. intros x Hx. by apply Hf. Qed.
Lemma always_given_always {A} (p : M A) : always Q p → always_given p.
Proof. induction p as [a|X e k IH|m]; cbn [always always_given]; naive_solver. Qed.

Lemma always_given_for_each {A R} (l : list A) (body : A → M (option R)) :
  (∀ x, x ∈ l → always_given (body x)) → always_given (for_each l body).
Proof.
  induction l as [|x l IH]; cbn [for_each]; [done|]. intros H.
  apply always_given_bind; [apply H; set_solver|].
  intros [r|]; [done|]. apply IH. set_solver.
Qed.
End Given.

Lemma always_given_mono G (Q R : ∀ X, op X → Prop) {A} (p : M A) :
  (∀ X e, Q X e → R X e) → always_given G Q p → always_given G R p.
Proof. intros H. induction p as [a|X e k IH|m]; cbn [always_given]; naive_solver. Qed.

Lemma always_given_anything Q {A} (p : M A) :
  always_given (λ _ _ _, True) Q p → always Q p.
Proof. induction p as [a|X e k IH|m]; cbn [always always_given]; naive_solver. Qed.

(** Under the assumption, every write satisfies [P]. *)
Definition given_w {A} (P : write → Prop) (p : M A) : Prop := always_given faithful (w_sat P) p.

Lemma given_w_runs {A} P (p : M A) t o :
  given_w P p → runs p t o → Forall (ev_given faithful) t → Forall P (writes t).
Proof.
  intros H Hr Hg. eapply always_given_runs in H; [|done..]. clear Hr Hg.
  unfold writes. induction H as [|[X e x] t Hv Ht IH]; [done|].
  cbn [omap list_omap]. unfold w_sat in Hv; simpl in *. destruct (write_of e); [|done].
  by constructor.
Qed.

Lemma given_w_always {A} (P Q : write → Prop) (p : M A) :
  always_w P p → (∀ w, P w → Q w) → given_w Q p.
Proof. intros Hp H. by eapply always_given_always, always_w_mono. Qed.

(** Follows a program: the goals left are the conditions on single calls. *)
Ltac given_step :=
  match goal with
  | |- always_given _ _ (bind (call _) _) => apply always_given_call; [|intros ? ?]
  | |- always_given _ _ (bind _ _) => apply always_given_bind; [|intros ?]
  | |- always_given _ _ (call _) => split; [|intros ? ?; exact I]
  | |- always_given _ _ (Ret _) => exact I
  | |- always_given _ _ (Panic _) => exact I
  | |- always_given _ _ (match ?x with _ => _ end) => destruct x eqn:?
  end.
Ltac given_calls := cbv zeta; repeat given_step.

(** ** Third-party functions on values *)

Class FinalizerOps := {
  ContainsFinalizer : string → ObjectMeta → bool;
  AddFinalizer : string → ObjectMeta → ObjectMeta;
  RemoveFinalizer : string → ObjectMeta → ObjectMeta;
  Contains_Add : ∀ f m, ContainsFinalizer f (AddFinalizer f m) = true;
  Contains_Remove : ∀ f m, ContainsFinalizer f (RemoveFinalizer f m) = false;
  Add_same_object : ∀ f m, om_Name (AddFinalizer f m) = om_Name m
    ∧ om_Namespace (AddFinalizer f m) = om_Namespace m;
  Remove_same_object : ∀ f m, om_Name (RemoveFinalizer f m) = om_Name m
    ∧ om_Namespace (RemoveFinalizer f m) = om_Namespace m;
}.

#[export] Hint Rewrite @Contains_Add @Contains_Remove : minato_simpl.

(** The finalizers as the set kept in [metadata.finalizers]. *)
Program Definition list_FinalizerOps : FinalizerOps := {|
  ContainsFinalizer f m := existsb (String.eqb f) (om_Finalizers m);
  AddFinalizer f m :=
    if existsb (String.eqb f) (om_Finalizers m) then m
    else meta_set_Finalizers (om_Finalizers m ++ [f]) m;
  RemoveFinalizer f m := meta_set_Finalizers (filter (λ g, g ≠ f) (om_Finalizers m)) m;
|}.
Next Obligation.
  intros f m; simpl. destruct (existsb (String.eqb f) (om_Finalizers m)) eqn:E; [done|]; simpl.
  rewrite existsb_app, E; simpl. by rewrite eqs_refl.
Qed.
Next Obligation.
  intros f m; simpl. apply not_true_iff_false. rewrite existsb_elem_of.
  setoid_rewrite eqs_true. intros (g & Hg & <-). apply list_elem_of_filter in Hg. naive_solver.
Qed.
Next Obligation. intros f m; simpl. by destruct (existsb _ _). Qed.
Next Obligation. done. Qed.

(** [resource.ParseQuantity]. *)
Class QuantityParser := ParseQuantity : string → option Quantity.

(** ** Shared helpers *)

(** The controller sets itself as the owner of [o] unless the library refuses
    (the object already has another controller). *)
Definition SetControllerReference (owner : string * string) (k : kind) (o : obj k)
  : M (obj k + gerr) :=
  let* e := call (SetOwner owner k o) in
  match e with
  | None => Ret (inl (obj_map_meta (meta_set_Controller owner) k o))
  | Some e => Ret (inr e)
  end.

Lemma SetControllerReference_no_panic owner k o : no_panic (SetControllerReference owner k o).
Proof. intros [e|]; exact I. Qed.
Lemma SetControllerReference_always (Q : ∀ X, op X → Prop) owner k o :
  Q _ (SetOwner owner k o) → always Q (SetControllerReference owner k o).
Proof. intros H. split; [done|]. intros [e|]; exact I. Qed.
Lemma SetControllerReference_always_bind {A} (Q : ∀ X, op X → Prop) owner k o
    (f : obj k + gerr → M A) :
  Q _ (SetOwner owner k o) → (∀ e, always Q (f (inr e))) →
  always Q (f (inl (obj_map_meta (meta_set_Controller owner) k o))) →
  always Q (bind (SetControllerReference owner k o) f).
Proof. intros H He Ho. split; [done|]. intros [e|]; [apply He|apply Ho]. Qed.
#[export] Hint Resolve SetControllerReference_no_panic : minato.
#[global] Arguments SetControllerReference : simpl never.

(** [if err := m; err != nil { return err }]. *)
Notation "m ?;; k" :=
  (bind m (λ e, match e with Some e => Ret (Some e) | None => k end))
  (at level 100, right associativity) : prog_scope.


(** Run a list of effects whose answers are ignored. *)
Definition effect {X} (e : op X) : M unit := let* _ := call e in Ret tt.

Lemma always_effect Q {X} (e : op X) : Q _ e → always Q (effect e).
Proof. intros H. split; [done|]. intros x. exact I. Qed.
Lemma no_panic_effect {X} (e : op X) : no_panic (effect e).
Proof. intros x. exact I. Qed.
#[export] Hint Resolve no_panic_effect : minato.

Lemma effect_no_writes {X} (e : op X) : write_of e = None → no_writes (effect e).
Proof. intros H. apply always_effect. unfold w_sat. by rewrite H. Qed.

(** [writes_safe]: prove [always_w P p] along the structure of [p]; the goals
    left are the conditions on single writes. *)
Ltac writes_safe :=
  unfold no_writes, always_w; cbv zeta;
  repeat first
    [ match goal with
      | |- w_sat _ _ (SetOwner _ _ _) => exact I
      | |- always _ (bind (SetControllerReference _ _ _) _) =>
          apply SetControllerReference_always_bind; [exact I|intros ?|]
      | |- always _ (effect _) =>
          solve [apply no_writes_always, effect_no_writes; reflexivity]
      end
    | safe_step ];
  try (unfold w_sat; cbn [write_of from_option]; try exact I; try done).

(** ** A concrete environment, for the witnesses

    Reads answer what [gets] and [lists] say, writes succeed, agents are healthy
    and empty, and the clock shows [now]. *)
Definition answer (gets : ∀ k, string → string → obj k + gerr) (lists : ∀ k, list (obj k))
    (now : Z) (X : Type) (e : op X) : X :=
  match e in op X return X with
  | Get k ns n => gets k ns n
  | ListObjs k _ _ => inl (lists k)
  | ListByField k _ _ _ => inl (lists k)
  | Create _ _ | Update _ _ | StatusUpdate _ _ | Apply _ _ | CreateOrUpdate _ _
  | Delete _ _ _ | SetOwner _ _ _ | GrpcDial _ | AgentPrepareShutdown _ _ _ _
  | OidcDiscover _ => None
  | OidcVerify _ _ _ => inr (errorf "invalid token")
  | WsUpgrade | WsWriteJSON _ _ | AgentConsole _ => None
  | ConsolePump _ => errorf "websocket: close 1000 (normal)"
  | AgentHealthCheck _ _ => inl true
  | AgentInfo _ _ => inl "1.0.0"
  | AgentGetPlayers _ _ => inl (0, 20)
  | AgentExecuteAction _ _ _ _ _ =>
      inl {| ear_State := ACTION_STATE_OTHER; ear_Error := ""; ear_Result := "ok" |}
  | Now => now
  | RandInt _ => inl 7
  | RandBytes _ => inl "0123456789abcdef"
  | BcryptGenerate _ => inl "$2a$10$hash"
  | RecordEvent _ _ _ _ | GaugeDeletePartial _ _ | GaugeSet _ _ _ | CounterInc _ _
  | AuditWrite _ => tt
  end.

(** Empty cluster: every read fails with not found. *)
Definition no_objects (k : kind) (ns n : string) : obj k + gerr :=
  inr {| ge_reason := RNotFound; ge_msg := "not found" |}.
Definition no_lists (k : kind) : list (obj k) := [].

(** One object added to the answers. *)
Definition with_obj (k0 : kind) (o : obj k0)
    (gets : ∀ k, string → string → obj k + gerr) (k : kind) (ns n : string) : obj k + gerr :=
  match decide (k0 = k) with
  | left E => inl (eq_rect k0 obj o k E)
  | right _ => gets k ns n
  end.
Definition with_list (k0 : kind) (l : list (obj k0)) (lists : ∀ k, list (obj k)) (k : kind)
  : list (obj k) :=
  match decide (k0 = k) with
  | left E => eq_rect k0 (λ k, list (obj k)) l k E
  | right _ => lists k
  end.

Fixpoint run_trace {A} (ans : ∀ X, op X → X) (p : M A) : list (event op) :=
  match p with
  | Ret _ | Panic _ => []
  | Call e k => Ev e (ans _ e) :: run_trace ans (k (ans _ e))
  end.
Fixpoint run_outcome {A} (ans : ∀ X, op X → X) (p : M A) : outcome A :=
  match p with
  | Ret a => Done a
  | Panic m => Crash m
  | Call e k => run_outcome ans (k (ans _ e))
  end.

Lemma run_runs {A} ans (p : M A) : runs p (run_trace ans p) (run_outcome ans p).
Proof. induction p as [a|X e k IH|m]; simpl; [done| |done]. by eexists _, _. Qed.

Lemma run_runs_cons {A} ans (p : M A) v :
  head (run_trace ans p) = Some v → runs p (v :: tail (run_trace ans p)) (run_outcome ans p).
Proof.
  intros H. replace (v :: tail _) with (run_trace ans p); [apply run_runs|].
  destruct (run_trace ans p); by simplify_eq/=.
Qed.
