(* ===== verification/Builder.v ===== *)
(** * Builder: pod specification of a game server ([internal/controllers/builder])

    [podspec.go] builds the game and agent containers from the profile and the
    server's overrides; [sftp.go] adds the optional SFTP sidecar. *)

From S2P Require Import Prelude GoStrings Api Kube.

(** ** Constants *)
Definition GameContainerName := "minato-game".
Definition AgentContainerName := "minato-agent".
Definition DataVolumeName := "data".
Definition AgentGRPCPort : Z := 9876.
Definition AgentPortName := "agent".

Definition SFTPContainerName := "minato-sftp".
Definition SFTPPortName := "sftp".
Definition SFTPPort : Z := 2022.
Definition SFTPUsername := "minato".
Definition SFTPImage := "drakkan/sftpgo:v2.6.6-alpine".
Definition sftpCredentialsVolumeName := "sftp-credentials".
Definition sftpConfigVolumeName := "sftpgo-config".
Definition sftpCredentialsMountPath := "/etc/sftpgo-secrets".
Definition sftpConfigMountPath := "/etc/sftpgo".
Definition SFTPUsersKey := "users.json".
Definition SFTPPasswordKey := "password".
Definition SFTPUsernameKey := "username".

Definition ProtocolTCP := "TCP".
Definition ProtocolUDP := "UDP".

(** ** [sftp.go] *)

Definition SFTPEnabled (profile : GameProfile) : bool :=
  match gp_Capabilities (gp_Spec profile) with
  | Some c => cap_SFTP c
  | None => false
  end.

Definition SFTPSecretName (serverName : string) : string :=
  "minato-" +:+ serverName +:+ "-sftp".

Lemma SFTPSecretName_inj a b : SFTPSecretName a = SFTPSecretName b → a = b.
Proof.
  unfold SFTPSecretName. intros H%str_app_inj_l.
  assert (TrimSuffix (a +:+ "-sftp") "-sftp" = TrimSuffix (b +:+ "-sftp") "-sftp") as H'
    by by rewrite H.
  by rewrite !TrimSuffix_app in H'.
Qed.

Definition milli : Z := nano / 1000.
Definition Mi : Z := 1048576 * nano.
Definition Gi : Z := 1073741824 * nano.

Definition buildSFTPContainer (profile : GameProfile) (server : GameServer) : Container := {|
  ct_Name := SFTPContainerName;
  ct_Image := SFTPImage;
  ct_Command := ["sftpgo"; "serve"; "--loaddata-from";
                 sftpCredentialsMountPath +:+ "/" +:+ SFTPUsersKey];
  ct_Ports := [{| cp_Name := SFTPPortName; cp_ContainerPort := SFTPPort;
                  cp_Protocol := ProtocolTCP |}];
  ct_WorkingDir := sftpConfigMountPath;
  ct_Env := [
    {| ev_Name := "SFTPGO_DATA_PROVIDER__DRIVER"; ev_Value := "memory" |};
    {| ev_Name := "SFTPGO_SFTPD__BINDINGS__0__PORT"; ev_Value := itoa SFTPPort |};
    {| ev_Name := "SFTPGO_HTTPD__BINDINGS__0__PORT"; ev_Value := "0" |};
    {| ev_Name := "SFTPGO_TELEMETRY__ENABLED"; ev_Value := "false" |}];
  ct_Resources := {|
    rr_Requests := {["cpu" := 10 * milli; "memory" := 32 * Mi]};
    rr_Limits := {["cpu" := 200 * milli; "memory" := 128 * Mi]} |};
  ct_SecurityContext := Some {|
    sc_RunAsNonRoot := true; sc_RunAsUser := 1000; sc_RunAsGroup := 1000;
    sc_AllowPrivilegeEscalation := false; sc_ReadOnlyRootFilesystem := true;
    sc_DropCapabilities := ["ALL"]; sc_SeccompProfile := "RuntimeDefault" |};
  ct_ReadinessTCPPort := Some SFTPPort;
  ct_VolumeMounts := [
    {| vm_Name := DataVolumeName;
       vm_MountPath := st_MountPath (gp_Storage (gp_Spec profile)); vm_ReadOnly := false |};
    {| vm_Name := sftpCredentialsVolumeName;
       vm_MountPath := sftpCredentialsMountPath; vm_ReadOnly := true |};
    {| vm_Name := sftpConfigVolumeName;
       vm_MountPath := sftpConfigMountPath; vm_ReadOnly := false |}];
|}.

Definition applySFTPSidecar (podSpec : PodSpec) (profile : GameProfile) (server : GameServer)
  : PodSpec := {|
  ps_Containers := ps_Containers podSpec ++ [buildSFTPContainer profile server];
  ps_Volumes := ps_Volumes podSpec ++ [
    {| vol_Name := sftpCredentialsVolumeName;
       vol_Source := SecretVolume (SFTPSecretName (om_Name (gs_Meta server)))
                       [(SFTPUsersKey, SFTPUsersKey)] |};
    {| vol_Name := sftpConfigVolumeName; vol_Source := EmptyDir |}];
  ps_SecurityContext := Some {|
    psc_FSGroup := Some 1000; psc_FSGroupChangePolicy := Some "OnRootMismatch" |};
  ps_ImagePullSecrets := ps_ImagePullSecrets podSpec;
  ps_PriorityClassName := ps_PriorityClassName podSpec;
  ps_TopologySpreadConstraints := ps_TopologySpreadConstraints podSpec;
|}.

(** ** [podspec.go] *)

Definition ResolveGameResources (profile : GameProfile) (server : GameServer)
  : ResourceRequirements :=
  ForTier (gp_Resources (gp_Spec profile)) (gs_Tier (gs_Spec server)).

(** The profile's defaults: entries that are required or have a default. *)
Fixpoint profile_env (items : list EnvironmentSpec) (values : gmap string string)
  : gmap string string :=
  match items with
  | [] => values
  | item :: items =>
      profile_env items
        (if env_Required item || (env_Default item <>s "")
         then <[env_Key item := env_Default item]> values else values)
  end.

Definition env_values (profile : GameProfile) (server : GameServer) : gmap string string :=
  gm_copy (profile_env (gp_Environment (gp_Spec profile)) ∅) (gs_Env (gs_Spec server)).

Definition buildGameEnv (profile : GameProfile) (server : GameServer) : list EnvVar :=
  let values := env_values profile server in
  let ordered := sort_strings (elements (dom values)) in
  (λ key, {| ev_Name := key; ev_Value := default "" (values !! key) |}) <$> ordered.

Definition port_protocol (p : PortSpec) : string :=
  if port_Protocol p =s "" then ProtocolTCP else port_Protocol p.

Definition buildGamePorts (profile : GameProfile) : list ContainerPort :=
  (λ port, {| cp_Name := port_Name port; cp_ContainerPort := port_ContainerPort port;
              cp_Protocol := port_protocol port |})
  <$> gp_Ports (gp_Spec profile).

Definition buildDataVolumeMounts (profile : GameProfile) : list VolumeMount :=
  [{| vm_Name := DataVolumeName;
      vm_MountPath := st_MountPath (gp_Storage (gp_Spec profile)); vm_ReadOnly := false |}].

Definition plain_container (name image : string) (ports : list ContainerPort)
    (env : list EnvVar) (res : ResourceRequirements) (mounts : list VolumeMount) : Container := {|
  ct_Name := name; ct_Image := image; ct_Command := []; ct_Ports := ports;
  ct_WorkingDir := ""; ct_Env := env; ct_Resources := res; ct_SecurityContext := None;
  ct_ReadinessTCPPort := None; ct_VolumeMounts := mounts |}.

(** The variables that tell the agent which server it serves. *)
Definition agent_identity_env (server : GameServer) : list EnvVar := [
  {| ev_Name := "minato_GAMESERVER_NAME"; ev_Value := om_Name (gs_Meta server) |};
  {| ev_Name := "minato_GAMESERVER_NAMESPACE"; ev_Value := om_Namespace (gs_Meta server) |};
  {| ev_Name := "minato_GAME_CONTAINER"; ev_Value := GameContainerName |}].

Definition BuildGameServerPodSpecWithPullSecrets (profile : GameProfile) (server : GameServer)
    (pullSecrets : list string) : PodSpec + gerr :=
  let spec := gp_Spec profile in
  if st_MountPath (gp_Storage spec) =s "" then inr (errorf "storage.mountPath is required")
  else if gp_Image spec =s "" then inr (errorf "image is required")
  else if agent_Image (gp_Agent spec) =s "" then inr (errorf "agent.image is required")
  else
    let gameEnv := buildGameEnv profile server in
    let gameContainer :=
      plain_container GameContainerName (gp_Image spec) (buildGamePorts profile) gameEnv
        (ResolveGameResources profile server) (buildDataVolumeMounts profile) in
    let agentContainer :=
      plain_container AgentContainerName (agent_Image (gp_Agent spec))
        [{| cp_Name := AgentPortName; cp_ContainerPort := AgentGRPCPort;
            cp_Protocol := ProtocolTCP |}]
        (gameEnv ++ agent_identity_env server)
        no_resources (buildDataVolumeMounts profile) in
    let podSpec := {|
      ps_Containers := [gameContainer; agentContainer]; ps_Volumes := [];
      ps_SecurityContext := None; ps_ImagePullSecrets := []; ps_PriorityClassName := "";
      ps_TopologySpreadConstraints := [] |} in
    let podSpec :=
      if SFTPEnabled profile then applySFTPSidecar podSpec profile server else podSpec in
    inl {|
      ps_Containers := ps_Containers podSpec;
      ps_Volumes := ps_Volumes podSpec;
      ps_SecurityContext := ps_SecurityContext podSpec;
      ps_ImagePullSecrets := ps_ImagePullSecrets podSpec ++ pullSecrets;
      ps_PriorityClassName :=
        if gs_PriorityClassName (gs_Spec server) <>s ""
        then gs_PriorityClassName (gs_Spec server) else ps_PriorityClassName podSpec;
      ps_TopologySpreadConstraints :=
        if bool_decide (0 < Z.of_nat (length (gs_TopologySpreadConstraints (gs_Spec server))))
        then gs_TopologySpreadConstraints (gs_Spec server)
        else ps_TopologySpreadConstraints podSpec;
    |}.

Definition BuildGameServerPodSpec (profile : GameProfile) (server : GameServer) : PodSpec + gerr :=
  BuildGameServerPodSpecWithPullSecrets profile server [].

(** ** The environment of the containers *)

(** The value Kubernetes gives a variable listed several times: the last. *)
Definition env_lookup (env : list EnvVar) (key : string) : option string :=
  foldl (λ acc e, if ev_Name e =s key then Some (ev_Value e) else acc) None env.

Lemma env_lookup_snoc env e key :
  env_lookup (env ++ [e]) key =
    if ev_Name e =s key then Some (ev_Value e) else env_lookup env key.
Proof. unfold env_lookup. by rewrite foldl_app. Qed.

Lemma env_lookup_map (values : gmap string string) keys key :
  env_lookup ((λ k, {| ev_Name := k; ev_Value := default "" (values !! k) |}) <$> keys) key =
    if bool_decide (key ∈ keys) then Some (default "" (values !! key)) else None.
Proof.
  induction keys as [|k keys IH] using rev_ind; [done|].
  rewrite fmap_app; simpl. rewrite env_lookup_snoc; simpl.
  case_eqs; [by rewrite bool_decide_eq_true_2 by set_solver|].
  rewrite IH. do 2 case_bool_decide; set_solver.
Qed.

Lemma sorted_keys_elem (values : gmap string string) key :
  key ∈ sort_strings (elements (dom values)) ↔ is_Some (values !! key).
Proof. rewrite sort_strings_perm, elem_of_elements. apply elem_of_dom. Qed.

Lemma buildGameEnv_lookup profile server key :
  env_lookup (buildGameEnv profile server) key = env_values profile server !! key.
Proof.
  unfold buildGameEnv. rewrite env_lookup_map.
  case_bool_decide as H; rewrite sorted_keys_elem in H.
  - destruct H as [v Hv]. by rewrite Hv.
  - destruct (_ !! key) eqn:E; [|done]. destruct H. eauto.
Qed.

Lemma profile_env_lookup items values key :
  profile_env items values !! key =
    match find_first (λ item, (env_Key item =s key)
                              && (env_Required item || (env_Default item <>s "")))
            (reverse items) with
    | Some item => Some (env_Default item)
    | None => values !! key
    end.
Proof.
  revert values. induction items as [|item items IH]; intros values; [done|].
  cbn [profile_env]. rewrite IH, reverse_cons. clear IH.
  induction (reverse items) as [|x l IHl]; simpl.
  - destruct (env_Required item || (env_Default item <>s "")) eqn:E; simpl.
    + rewrite andb_true_r. destruct (String.eqb_spec (env_Key item) key) as [->|?].
      * by rewrite lookup_insert_eq.
      * by rewrite lookup_insert_ne.
    + by rewrite andb_false_r.
  - destruct (_ && _); [done|]. apply IHl.
Qed.

Lemma buildGameEnv_names profile server :
  ev_Name <$> buildGameEnv profile server
  = sort_strings (elements (dom (env_values profile server))).
Proof.
  unfold buildGameEnv. rewrite <-list_fmap_compose. apply list_fmap_id.
Qed.

(** ** Properties *)

(** the environment of the game container is the server's override where it
    has one, else the default of the last profile entry of that key that is
    required or has a default; it lists each key once, in sorted order, whatever
    order Go's map iteration produced. *)
Theorem game_env_correct profile server key :
  env_lookup (buildGameEnv profile server) key =
    match gm_lookup (gs_Env (gs_Spec server)) key with
    | Some v => Some v
    | None =>
        env_Default <$>
          find_first (λ item, (env_Key item =s key)
                              && (env_Required item || (env_Default item <>s "")))
            (reverse (gp_Environment (gp_Spec profile)))
    end
  ∧ StronglySorted String.le (ev_Name <$> buildGameEnv profile server)
  ∧ NoDup (ev_Name <$> buildGameEnv profile server).
Proof.
  split; [|split].
  - rewrite buildGameEnv_lookup. unfold env_values. rewrite gm_copy_lookup.
    destruct (gm_lookup _ key); [done|]. rewrite profile_env_lookup.
    by destruct (find_first _ _).
  - rewrite buildGameEnv_names. apply StronglySorted_merge_sort; apply _.
  - rewrite buildGameEnv_names, sort_strings_perm. apply NoDup_elements.
Qed.

(** The containers every pod of a server has, in order. *)
Lemma BuildGameServerPodSpec_containers profile server pullSecrets pod :
  BuildGameServerPodSpecWithPullSecrets profile server pullSecrets = inl pod →
  ps_Containers pod =
    plain_container GameContainerName (gp_Image (gp_Spec profile)) (buildGamePorts profile)
      (buildGameEnv profile server) (ResolveGameResources profile server)
      (buildDataVolumeMounts profile)
    :: plain_container AgentContainerName (agent_Image (gp_Agent (gp_Spec profile)))
        [{| cp_Name := AgentPortName; cp_ContainerPort := AgentGRPCPort;
            cp_Protocol := ProtocolTCP |}]
        (buildGameEnv profile server ++ agent_identity_env server)
        no_resources (buildDataVolumeMounts profile)
    :: (if SFTPEnabled profile then [buildSFTPContainer profile server] else []).
Proof.
  unfold BuildGameServerPodSpecWithPullSecrets. intros H.
  repeat case_match; simplify_eq/=; done.
Qed.

(** C29: a pod specification that is built has the game container and the agent
    sidecar, plus the SFTP sidecar exactly when the profile enables it; every
    container mounts the world volume at the profile's mount path, and the
    variables that tell the agent which server it serves cannot be overridden
    by the profile or the server. *)
Theorem pod_spec_correct profile server pullSecrets pod :
  BuildGameServerPodSpecWithPullSecrets profile server pullSecrets = inl pod →
  ct_Name <$> ps_Containers pod =
    [GameContainerName; AgentContainerName]
      ++ (if SFTPEnabled profile then [SFTPContainerName] else [])
  ∧ Forall (λ c, ∃ m, m ∈ ct_VolumeMounts c ∧ vm_Name m = DataVolumeName
                      ∧ vm_MountPath m = st_MountPath (gp_Storage (gp_Spec profile)))
      (ps_Containers pod)
  ∧ (∃ agent, ps_Containers pod !! 1%nat = Some agent
      ∧ ∀ e, e ∈ agent_identity_env server →
             env_lookup (ct_Env agent) (ev_Name e) = Some (ev_Value e))
  ∧ ps_ImagePullSecrets pod = pullSecrets.
Proof.
  intros H. pose proof (BuildGameServerPodSpec_containers _ _ _ _ H) as Hc.
  rewrite Hc. split; [by destruct (SFTPEnabled profile)|]. split; [|split].
  - repeat constructor; [eexists; split; [apply list_elem_of_here|done]..|].
    destruct (SFTPEnabled profile); repeat constructor.
    eexists; split; [apply list_elem_of_here|done].
  - eexists; split; [done|]. intros e. simpl. unfold env_lookup. rewrite foldl_app.
    unfold agent_identity_env. rewrite !elem_of_cons.
    by intros [->|[->|[->|?%elem_of_nil]]].
  - unfold BuildGameServerPodSpecWithPullSecrets in H.
    repeat case_match; simplify_eq/=; done.
Qed.

(** *** Witnesses *)

Definition ex_profile : GameProfile := {|
  gp_Meta := new_meta "paper" "" None;
  gp_Spec := {|
    gp_DisplayName := "Paper"; gp_Category := ""; gp_Icon := ""; gp_Description := "";
    gp_Image := "paper:1"; gp_ImagePullPolicy := "";
    gp_Ports := [
      {| port_Name := "game"; port_ContainerPort := 25565; port_Protocol := ""; port_Exposed := None |};
      {| port_Name := "query"; port_ContainerPort := 25565; port_Protocol := "UDP"; port_Exposed := Some true |};
      {| port_Name := "rcon"; port_ContainerPort := 25575; port_Protocol := "TCP"; port_Exposed := Some false |}];
    gp_Environment := [
      {| env_Key := "EULA"; env_Default := "true"; env_Required := true; env_Description := "" |}];
    gp_Resources := {| rs_ResourceRequirements := no_resources; rs_Tiers := ∅; rs_Default := "" |};
    gp_Storage := {| st_MountPath := "/data"; st_SizeDefault := "10Gi"; st_SizeMin := ""; st_SizeMax := "" |};
    gp_Agent := {| agent_Image := "agent:1"; agent_Version := "1" |};
    gp_Actions := [];
    gp_Capabilities := Some {| cap_Files := false; cap_SFTP := true; cap_Backup := false;
                               cap_RestoreFromSnapshot := false |};
    gp_Observability := None |};
  gp_Conditions := [] |}.

Definition ex_server : GameServer := {|
  gs_Meta := new_meta "smp" "tenant-a" None;
  gs_Spec := {|
    gs_Profile := "paper"; gs_Tier := "";
    gs_Env := Some {["minato_GAMESERVER_NAME" := "spoofed"]};
    gs_Storage := {| gst_Size := ""; gst_StorageClass := ""; gst_SnapshotRef := None |};
    gs_Lifecycle := {| lc_IdleTimeoutSeconds := 600; lc_AutoStart := None |};
    gs_PriorityClassName := ""; gs_TopologySpreadConstraints := []; gs_LoadBalancerIP := "" |};
  gs_Status := {|
    gss_State := ""; gss_AgentVersion := ""; gss_Players := 0; gss_PlayerCapacity := 0;
    gss_LastActivity := None; gss_Endpoints := []; gss_Conditions := [] |} |}.

Lemma pod_spec_correct_witness :
  ∃ pod, BuildGameServerPodSpecWithPullSecrets ex_profile ex_server ["pull"] = inl pod
         ∧ ct_Name <$> ps_Containers pod = ["minato-game"; "minato-agent"; "minato-sftp"].
Proof.
  eexists. split; [reflexivity|].
  exact (proj1 (pod_spec_correct ex_profile ex_server ["pull"] _ eq_refl)).
Defined.
