(* ===== verification/Monitoring.v ===== *)
(** * Monitoring: operator metrics, Prometheus detection and ServiceMonitors

    [internal/controllers/{metrics,prometheus_detection,servicemonitor}.go].
    The detection state is a package variable of the program: it is an explicit
    [Detection] passed in and returned (the mutex makes each call atomic). *)

From S2P Require Import Prelude GoStrings Prog Api Kube Builder.

(** ** Game server states ([gameserver_controller.go]) *)
Definition stateProvisioning := "Provisioning".
Definition stateRunning := "Running".
Definition stateIdle := "Idle".
Definition stateStopped := "Stopped".
Definition stateError := "Error".

(** ** [metrics.go] *)

Definition gameServersGauge := "minato_gameservers".
Definition playersOnlineGauge := "minato_players_online".
Definition playerCapacityGauge := "minato_player_capacity".
Definition actionExecutionsTotal := "minato_action_executions_total".

Definition deleteGameServerMetrics (namespace name : string) : M unit :=
  effect (GaugeDeletePartial gameServersGauge [("namespace", namespace); ("server", name)]) ;;;
  effect (GaugeDeletePartial playersOnlineGauge [("namespace", namespace); ("server", name)]) ;;;
  effect (GaugeDeletePartial playerCapacityGauge [("namespace", namespace); ("server", name)]).

Definition recordGameServerMetrics (server : GameServer) : M unit :=
  let ns := om_Namespace (gs_Meta server) in
  let name := om_Name (gs_Meta server) in
  let state := if gss_State (gs_Status server) =s "" then stateProvisioning
               else gss_State (gs_Status server) in
  deleteGameServerMetrics ns name ;;;
  effect (GaugeSet gameServersGauge
    [("namespace", ns); ("profile", gs_Profile (gs_Spec server)); ("server", name);
     ("state", state)] 1) ;;;
  effect (GaugeSet playersOnlineGauge [("namespace", ns); ("server", name)]
    (gss_Players (gs_Status server))) ;;;
  effect (GaugeSet playerCapacityGauge [("namespace", ns); ("server", name)]
    (gss_PlayerCapacity (gs_Status server))).

Definition observeActionExecution (action result : string) : M unit :=
  effect (CounterInc actionExecutionsTotal [("action", action); ("result", result)]).

(** ** [prometheus_detection.go] *)

Definition prometheusDetectionCacheDuration : Z := 5 * minute.

Record Detection := {
  prometheusDetected : bool;
  (** the zero [time.Time] is [None] *)
  prometheusLastChecked : option Z;
}.

Definition ResetPrometheusDetection : Detection :=
  {| prometheusDetected := false; prometheusLastChecked := None |}.

Definition IsPrometheusOperatorDetected (d : Detection) : bool := prometheusDetected d.

(** [time.Since]: of the zero time it saturates. *)
Definition time_since (now : Z) (t : option Z) : Z :=
  match t with Some t => time_sub now t | None => 9223372036854775807 end.

Definition DetectPrometheusOperator (d : Detection) : M (Detection * bool) :=
  let* now := call Now in
  if time_since now (prometheusLastChecked d) <? prometheusDetectionCacheDuration
  then Ret (d, prometheusDetected d)
  else
    let* now := call Now in
    let* r := call (Get KCrd "" "servicemonitors.monitoring.coreos.com") in
    match r with
    | inr _ =>
        (* not found and any other error are both reported as not installed *)
        Ret ({| prometheusDetected := false; prometheusLastChecked := Some now |}, false)
    | inl _ =>
        Ret ({| prometheusDetected := true; prometheusLastChecked := Some now |}, true)
    end.

(** ** [servicemonitor.go] *)

Definition agentMetricsPortName := "metrics".

Definition serviceMonitorEnabled (profile : GameProfile) : bool :=
  match gp_Observability (gp_Spec profile) with
  | None => false
  | Some o =>
      match obs_ServiceMonitor o with
      | None => false
      | Some s => sms_Enabled s
      end
  end.

Definition agentMetricsSpec (profile : GameProfile) : option AgentMetricsSpec :=
  match gp_Observability (gp_Spec profile) with
  | None => None
  | Some o => obs_AgentMetrics o
  end.

Definition svc_set_Ports (ports : list ServicePort) (s : Service) : Service := {|
  svc_Meta := svc_Meta s; svc_Type := svc_Type s; svc_ClusterIP := svc_ClusterIP s;
  svc_Selector := svc_Selector s; svc_Ports := ports;
  svc_PublishNotReadyAddresses := svc_PublishNotReadyAddresses s;
  svc_LoadBalancerIP := svc_LoadBalancerIP s; svc_Ingress := svc_Ingress s |}.

Definition addAgentMetricsPort (svc : Service) (profile : GameProfile) : Service :=
  match agentMetricsSpec profile with
  | None => svc
  | Some spec =>
      if am_Port spec <=? 0 then svc
      else if existsb (λ p, sp_Name p =s agentMetricsPortName) (svc_Ports svc) then svc
      else svc_set_Ports
             (svc_Ports svc ++ [{| sp_Name := agentMetricsPortName; sp_Port := am_Port spec;
                                   sp_TargetPort := PortNumber (am_Port spec);
                                   sp_Protocol := ProtocolTCP |}]) svc
  end.

(** Dereferences both observability pointers: [None] is the panic. *)
Definition buildServiceMonitorSpec (profile : GameProfile) (labelsMap : gmap string string)
  : option (gmap string string * list SMEndpoint) :=
  spec ← agentMetricsSpec profile;
  obs ← gp_Observability (gp_Spec profile);
  sm ← obs_ServiceMonitor obs;
  let path := if am_Path spec =s "" then "/metrics" else am_Path spec in
  Some (labelsMap, [{| sme_Port := agentMetricsPortName; sme_Path := path;
                       sme_Interval := sms_Interval sm |}]).

Definition reconcileServiceMonitor (recorder : bool) (d : Detection) (server : GameServer)
    (profile : GameProfile) (labelsMap : gmap string string)
  : M (Detection * option gerr) :=
  let name := om_Name (gs_Meta server) in
  let ns := om_Namespace (gs_Meta server) in
  if negb (serviceMonitorEnabled profile) then
    let* e := call (Delete KServiceMonitor ns name) in
    Ret (d, unless IsNoMatchError (unless IsNotFound e))
  else
    let* '(d, found) := DetectPrometheusOperator d in
    if negb found then
      (if recorder
       then effect (RecordEvent (ns, name) "Warning" "PrometheusOperatorNotDetected"
              ("GameProfile " +:+ om_Name (gp_Meta profile) +:+
               " enables serviceMonitor but the Prometheus Operator is not installed; skipping ServiceMonitor creation"))
       else Ret tt) ;;;
      Ret (d, None)
    else
      match agentMetricsSpec profile with
      | None => Ret (d, None)
      | Some spec =>
          if am_Port spec <=? 0 then Ret (d, None)
          else
            match buildServiceMonitorSpec profile labelsMap with
            | None => Panic "nil pointer dereference"
            | Some (selector, endpoints) =>
                let sm := {| sm_Meta := new_meta name ns (Some labelsMap);
                             sm_Selector := selector; sm_Endpoints := endpoints |} in
                let* r := SetControllerReference ("GameServer", name) KServiceMonitor sm in
                match r with
                | inr e => Ret (d, Some e)
                | inl sm =>
                    let* e := call (CreateOrUpdate KServiceMonitor sm) in Ret (d, e)
                end
            end
      end.

(** ** Facts *)

(** The observability pointers are never dereferenced when nil. *)
Lemma buildServiceMonitorSpec_defined profile spec labelsMap :
  serviceMonitorEnabled profile = true → agentMetricsSpec profile = Some spec →
  is_Some (buildServiceMonitorSpec profile labelsMap).
Proof.
  unfold serviceMonitorEnabled, buildServiceMonitorSpec. intros H ->. simpl.
  destruct (gp_Observability (gp_Spec profile)) as [o|]; simpl; [|done].
  destruct (obs_ServiceMonitor o); [eauto|done].
Qed.

Lemma DetectPrometheusOperator_no_panic d : no_panic (DetectPrometheusOperator d).
Proof. unfold DetectPrometheusOperator. safe_calls. Qed.
#[export] Hint Resolve DetectPrometheusOperator_no_panic : minato.

Lemma reconcileServiceMonitor_no_panic recorder d server profile labelsMap :
  no_panic (reconcileServiceMonitor recorder d server profile labelsMap).
Proof.
  unfold reconcileServiceMonitor. destruct (serviceMonitorEnabled profile) eqn:E; cbn [negb]; [|safe_calls].
  safe_calls. eapply eq_None_not_Some; eauto using buildServiceMonitorSpec_defined.
Qed.
#[export] Hint Resolve reconcileServiceMonitor_no_panic : minato.

Lemma deleteGameServerMetrics_no_writes ns name : no_writes (deleteGameServerMetrics ns name).
Proof. unfold deleteGameServerMetrics. writes_safe. Qed.
Lemma recordGameServerMetrics_no_writes server : no_writes (recordGameServerMetrics server).
Proof.
  unfold recordGameServerMetrics. writes_safe.
Qed.
Lemma deleteGameServerMetrics_no_panic ns name : no_panic (deleteGameServerMetrics ns name).
Proof. unfold deleteGameServerMetrics. safe_calls. Qed.
#[export] Hint Resolve deleteGameServerMetrics_no_writes recordGameServerMetrics_no_writes
  deleteGameServerMetrics_no_panic : minato.

(** What [reconcileServiceMonitor] may write: the monitor named after the
    server, in the server's namespace. *)
Lemma reconcileServiceMonitor_writes recorder d server profile labelsMap :
  always_w (λ w,
    w = WDelete KServiceMonitor (om_Namespace (gs_Meta server)) (om_Name (gs_Meta server))
    ∨ ∃ sm, w = WCreateOrUpdate KServiceMonitor sm
            ∧ om_Name (sm_Meta sm) = om_Name (gs_Meta server)
            ∧ om_Namespace (sm_Meta sm) = om_Namespace (gs_Meta server)
            ∧ om_Controller (sm_Meta sm) = Some ("GameServer", om_Name (gs_Meta server)))
    (reconcileServiceMonitor recorder d server profile labelsMap).
Proof.
  unfold reconcileServiceMonitor, DetectPrometheusOperator. writes_safe.
  - by left.
  - right. by eexists.
Qed.
