(* ===== verification/GameServerObjects.v ===== *)
(** * GameServerObjects: the child objects of a game server

    The builders of [internal/controllers/gameserver_controller.go] (labels,
    StatefulSet, services, claim), the readiness test and the condition list. *)

From S2P Require Import Prelude GoStrings Prog Api Kube Builder Monitoring.

Definition buildGameServerLabels (server : GameServer) (profile : GameProfile)
  : gmap string string :=
  {["app.kubernetes.io/name" := "minato";
    "minato.io/gameserver" := om_Name (gs_Meta server);
    "minato.io/profile" := om_Name (gp_Meta profile)]}.

Definition buildStatefulSet (server : GameServer) (podSpec : PodSpec)
    (labelsMap : gmap string string) : StatefulSet :=
  let name := om_Name (gs_Meta server) in
  {| sts_Meta := new_meta name (om_Namespace (gs_Meta server)) (Some labelsMap);
     sts_Replicas := Some 1;
     sts_Selector := labelsMap;
     sts_ServiceName := name;
     sts_TemplateLabels := labelsMap;
     sts_TemplateSpec := {|
       ps_Containers := ps_Containers podSpec;
       ps_Volumes := ps_Volumes podSpec ++ [
         {| vol_Name := DataVolumeName; vol_Source := PersistentVolumeClaim name |}];
       ps_SecurityContext := ps_SecurityContext podSpec;
       ps_ImagePullSecrets := ps_ImagePullSecrets podSpec;
       ps_PriorityClassName := ps_PriorityClassName podSpec;
       ps_TopologySpreadConstraints := ps_TopologySpreadConstraints podSpec |};
     sts_ReadyReplicas := 0 |}.

Definition buildHeadlessService (server : GameServer) (labelsMap : gmap string string)
  : Service := {|
  svc_Meta := new_meta (om_Name (gs_Meta server)) (om_Namespace (gs_Meta server)) (Some labelsMap);
  svc_Type := "ClusterIP";
  svc_ClusterIP := "None";
  svc_Selector := labelsMap;
  svc_Ports := [{| sp_Name := "placeholder"; sp_Port := 1; sp_TargetPort := PortNumber 1;
                   sp_Protocol := ProtocolTCP |}];
  svc_PublishNotReadyAddresses := true;
  svc_LoadBalancerIP := "";
  svc_Ingress := [];
|}.

Definition protoPort_seen (seen : list (Z * string)) (key : Z * string) : bool :=
  bool_decide (key ∈ seen).

(** The loop over the profile's ports: the pairs seen and the service ports. *)
Fixpoint game_ports (ps : list PortSpec) (seen : list (Z * string)) (ports : list ServicePort)
  : list (Z * string) * list ServicePort :=
  match ps with
  | [] => (seen, ports)
  | p :: ps =>
      if negb (ExposedPort p) then game_ports ps seen ports
      else
        let protocol := if port_Protocol p =s "" then ProtocolTCP else port_Protocol p in
        let key := (port_ContainerPort p, protocol) in
        if protoPort_seen seen key then game_ports ps seen ports
        else game_ports ps (key :: seen)
               (ports ++ [{| sp_Name := port_Name p; sp_Port := port_ContainerPort p;
                             sp_TargetPort := PortNumber (port_ContainerPort p);
                             sp_Protocol := protocol |}])
  end.

Definition buildGameService (server : GameServer) (profile : GameProfile)
    (labelsMap : gmap string string) (dnsZone : string) : Service :=
  let '(seen, ports) := game_ports (gp_Ports (gp_Spec profile)) [] [] in
  let ports :=
    if SFTPEnabled profile && negb (protoPort_seen seen (SFTPPort, ProtocolTCP))
    then ports ++ [{| sp_Name := SFTPPortName; sp_Port := SFTPPort;
                      sp_TargetPort := PortNumber SFTPPort; sp_Protocol := ProtocolTCP |}]
    else ports in
  let meta := new_meta (om_Name (gs_Meta server) +:+ "-game") (om_Namespace (gs_Meta server))
                (Some labelsMap) in
  {| svc_Meta :=
       if dnsZone <>s ""
       then meta_set_maps (om_Labels meta)
              (Some {["external-dns.alpha.kubernetes.io/hostname"
                      := om_Name (gs_Meta server) +:+ "." +:+ dnsZone]}) meta
       else meta;
     svc_Type := "LoadBalancer";
     svc_ClusterIP := "";
     svc_Selector := labelsMap;
     svc_Ports := ports;
     svc_PublishNotReadyAddresses := false;
     svc_LoadBalancerIP := gs_LoadBalancerIP (gs_Spec server);
     svc_Ingress := [] |}.

Definition buildAgentService (server : GameServer) (labelsMap : gmap string string)
  : Service := {|
  svc_Meta := new_meta (om_Name (gs_Meta server) +:+ "-agent") (om_Namespace (gs_Meta server))
                (Some labelsMap);
  svc_Type := "ClusterIP";
  svc_ClusterIP := "";
  svc_Selector := labelsMap;
  svc_Ports := [{| sp_Name := AgentPortName; sp_Port := AgentGRPCPort;
                   sp_TargetPort := PortNamed AgentPortName; sp_Protocol := ProtocolTCP |}];
  svc_PublishNotReadyAddresses := false;
  svc_LoadBalancerIP := "";
  svc_Ingress := [];
|}.

(** The size of the claim: the server's, else the profile's default, else 1Gi. *)
Definition pvc_quantity `{!QuantityParser} (server : GameServer) (profile : GameProfile)
  : Quantity :=
  let quantity :=
    match ParseQuantity (st_SizeDefault (gp_Storage (gp_Spec profile))) with
    | Some q => q
    | None => Gi
    end in
  if gst_Size (gs_Storage (gs_Spec server)) <>s "" then
    match ParseQuantity (gst_Size (gs_Storage (gs_Spec server))) with
    | Some q => q
    | None => quantity
    end
  else quantity.

Definition buildPVC `{!QuantityParser} (server : GameServer) (profile : GameProfile) : PVC :=
  let storage := gs_Storage (gs_Spec server) in
  let ns := om_Namespace (gs_Meta server) in
  let meta := new_meta (om_Name (gs_Meta server)) ns None in
  let '(meta, source) :=
    match gst_SnapshotRef storage with
    | None => (meta, None)
    | Some ref =>
        let snapNamespace := if sr_Namespace ref =s "" then ns else sr_Namespace ref in
        (if snapNamespace <>s ns
         then meta_set_maps (om_Labels meta)
                (Some (<["minato.io/snapshot-namespace" := snapNamespace]>
                         (gm_make (om_Annotations meta)))) meta
         else meta,
         Some ("snapshot.storage.k8s.io", "VolumeSnapshot", sr_Name ref))
    end in
  {| pvc_Meta := meta;
     pvc_AccessModes := ["ReadWriteOnce"];
     pvc_StorageRequest := pvc_quantity server profile;
     pvc_StorageClassName :=
       if gst_StorageClass storage <>s "" then Some (gst_StorageClass storage) else None;
     pvc_DataSource := source |}.

Definition stsReady (sts : StatefulSet) : bool :=
  match sts_Replicas sts with
  | None => false
  | Some replicas => replicas <=? sts_ReadyReplicas sts
  end.

Definition boolToConditionStatus (value : bool) : ConditionStatus :=
  if value then ConditionTrue else ConditionFalse.

Fixpoint setCondition (conditions : list Condition) (condition : Condition) : list Condition :=
  match conditions with
  | [] => [condition]
  | existing :: rest =>
      if cond_Type existing =s cond_Type condition then condition :: rest
      else existing :: setCondition rest condition
  end.

(** The condition of a type. *)
Definition condition_of (ty : string) (l : list Condition) : option Condition :=
  find_first (λ c, cond_Type c =s ty) l.

(** ** Lemmas *)

Definition sp_key (p : ServicePort) : Z * string := (sp_Port p, sp_Protocol p).
Definition port_key (p : PortSpec) : Z * string := (port_ContainerPort p, port_protocol p).
Definition exposed_keys (ps : list PortSpec) : list (Z * string) :=
  port_key <$> filter (λ p, ExposedPort p = true) ps.

Lemma game_ports_spec ps : ∀ seen ports seen' ports',
  game_ports ps seen ports = (seen', ports') →
  NoDup (sp_key <$> ports) → (∀ k, k ∈ seen ↔ k ∈ sp_key <$> ports) →
  NoDup (sp_key <$> ports') ∧ (∀ k, k ∈ seen' ↔ k ∈ sp_key <$> ports')
  ∧ (∀ k, k ∈ sp_key <$> ports' ↔ k ∈ sp_key <$> ports ∨ k ∈ exposed_keys ps).
Proof.
  induction ps as [|p ps IH]; intros seen ports seen' ports'; cbn [game_ports].
  - intros [= <- <-] Hnd Hseen. unfold exposed_keys; simpl. set_solver.
  - unfold exposed_keys. destruct (ExposedPort p) eqn:E; cbn [negb].
    2:{ intros H Hnd Hs. destruct (IH _ _ _ _ H Hnd Hs) as (?&?&Hk).
        split_and!; [done..|]. intros k. rewrite Hk. unfold exposed_keys.
        by rewrite (filter_cons_False (λ p, ExposedPort p = true)) by (by rewrite E). }
    rewrite (filter_cons_True (λ p, ExposedPort p = true)) by done.
    rewrite fmap_cons. fold (port_protocol p). fold (port_key p). fold (exposed_keys ps).
    unfold protoPort_seen. case_bool_decide as Hin.
    + intros H Hnd Hs. destruct (IH _ _ _ _ H Hnd Hs) as (?&?&Hk).
      split_and!; [done..|]. intros k. rewrite Hk, elem_of_cons.
      rewrite Hs in Hin. naive_solver.
    + intros H Hnd Hs.
      assert (∀ pr, sp_key <$> (ports ++ [pr]) = (sp_key <$> ports) ++ [sp_key pr]) as Happ
        by (intros; by rewrite fmap_app).
      destruct (IH _ _ _ _ H) as (?&?&Hk).
      * rewrite Happ. apply NoDup_app. split_and!; [done| |apply NoDup_singleton].
        intros k Hk Hk'%list_elem_of_singleton. subst. apply Hs in Hk. done.
      * intros k. rewrite Happ, elem_of_cons, elem_of_app, list_elem_of_singleton, Hs.
        unfold sp_key at 3. simpl. tauto.
      * split_and!; [done..|]. intros k.
        rewrite Hk, Happ, elem_of_app, list_elem_of_singleton, elem_of_cons.
        unfold sp_key at 2. simpl. unfold port_key, port_protocol. tauto.
Qed.

Lemma setCondition_types l c :
  cond_Type <$> setCondition l c =
    if bool_decide (cond_Type c ∈ cond_Type <$> l) then cond_Type <$> l
    else (cond_Type <$> l) ++ [cond_Type c].
Proof.
  induction l as [|x l IH]; cbn [setCondition]; [done|].
  destruct (String.eqb_spec (cond_Type x) (cond_Type c)) as [E|E]; rewrite !fmap_cons.
  - rewrite E. rewrite bool_decide_eq_true_2; [done|]. by left.
  - rewrite IH. do 2 case_bool_decide; [done|set_solver|set_solver|done].
Qed.

Lemma condition_of_setCondition l c ty :
  condition_of ty (setCondition l c) = if ty =s cond_Type c then Some c else condition_of ty l.
Proof.
  unfold condition_of. induction l as [|x l IH]; simpl.
  - by rewrite String.eqb_sym.
  - destruct (String.eqb_spec (cond_Type x) (cond_Type c)) as [E|E]; simpl.
    + rewrite E, (String.eqb_sym ty). by destruct (String.eqb_spec (cond_Type c) ty).
    + destruct (String.eqb_spec (cond_Type x) ty) as [<-|?]; [|done].
      destruct (String.eqb_spec (cond_Type x) (cond_Type c)); [done|]. by rewrite ?eqs_refl.
Qed.

(** ** Properties *)

(** setting a condition leaves exactly one condition of that type, with the
    new contents, and changes no condition of another type; a list with one
    condition per type stays so. *)
Theorem setCondition_correct l c ty :
  condition_of ty (setCondition l c) =
    (if ty =s cond_Type c then Some c else condition_of ty l)
  ∧ (NoDup (cond_Type <$> l) → NoDup (cond_Type <$> setCondition l c)).
Proof.
  split; [apply condition_of_setCondition|].
  intros H. rewrite setCondition_types. case_bool_decide; [done|].
    apply NoDup_app. split_and!; [done|set_solver|apply NoDup_singleton].
Qed.

(** the player-facing service has one port per exposed (port, protocol) pair of the
    profile, plus the SFTP port when the profile enables SFTP, and no
    pair twice: Kubernetes refuses a service with a duplicate pair. *)
Theorem game_service_ports server profile labels zone :
  let ports := svc_Ports (buildGameService server profile labels zone) in
  NoDup (sp_key <$> ports)
  ∧ ∀ k, k ∈ sp_key <$> ports ↔
         k ∈ exposed_keys (gp_Ports (gp_Spec profile))
         ∨ (SFTPEnabled profile = true ∧ k = (SFTPPort, ProtocolTCP)).
Proof.
  unfold buildGameService.
  destruct (game_ports _ [] []) as [seen ports] eqn:E.
  destruct (game_ports_spec _ _ _ _ _ E) as (Hnd & Hseen & Hk);
    [constructor|set_solver|]. cbn [svc_Ports].
  unfold protoPort_seen. destruct (SFTPEnabled profile); cbn [andb];
    [case_bool_decide as Hin; cbn [negb]|].
  - split; [done|]. intros k. rewrite Hk. rewrite Hseen, Hk in Hin. set_solver.
  - rewrite fmap_app. change (sp_key <$> [_]) with [(SFTPPort, ProtocolTCP)]. split.
    + apply NoDup_app. split_and!; [done| |apply NoDup_singleton].
      intros k H1 H2%list_elem_of_singleton. subst. by apply Hin, Hseen.
    + intros k. rewrite elem_of_app, Hk, list_elem_of_singleton. set_solver.
  - split; [done|]. intros k. rewrite Hk. set_solver.
Qed.

(** the world volume claim takes the server's size when it parses, else the
    profile's default when it parses, else 1Gi; it restores from the snapshot
    the server names and records the snapshot's namespace exactly when that
    differs from the server's. *)
Theorem buildPVC_correct `{!QuantityParser} server profile :
  let pvc := buildPVC server profile in
  let storage := gs_Storage (gs_Spec server) in
  let ns := om_Namespace (gs_Meta server) in
  pvc_StorageRequest pvc =
    default (default Gi (ParseQuantity (st_SizeDefault (gp_Storage (gp_Spec profile)))))
      (if gst_Size storage =s "" then None else ParseQuantity (gst_Size storage))
  ∧ om_Name (pvc_Meta pvc) = om_Name (gs_Meta server) ∧ om_Namespace (pvc_Meta pvc) = ns
  ∧ (pvc_DataSource pvc = None ↔ gst_SnapshotRef storage = None)
  ∧ (∀ ref, gst_SnapshotRef storage = Some ref →
      pvc_DataSource pvc = Some ("snapshot.storage.k8s.io", "VolumeSnapshot", sr_Name ref)
      ∧ gm_lookup (om_Annotations (pvc_Meta pvc)) "minato.io/snapshot-namespace" =
          if (sr_Namespace ref =s "") || (sr_Namespace ref =s ns) then None
          else Some (sr_Namespace ref)).
Proof.
  unfold buildPVC, pvc_quantity. cbv zeta.
  destruct (gst_SnapshotRef _) as [ref|] eqn:Eref; cbn.
  2:{ split_and!; [|done..]. case_eqs; by repeat case_match. }
  split_and!.
  - case_eqs; by repeat case_match.
  - by case_match.
  - by case_match.
  - done.
  - intros ? [= ->]. split; [done|]. case_eqs; simpl; try done.
    all: rewrite ?lookup_insert_eq; congruence.
Qed.
