(* ===== verification/Sftp.v ===== *)
(** * Sftp: per-server SFTP credentials ([internal/controllers/sftp.go]) *)

From Stdlib Require Import Ascii String.
From S2P Require Import Prelude GoStrings Prog Api Kube Builder.

(** ** [builder/sftp.go] *)
Definition SFTPUsersJSON (mountPath passwordHash : string) : string :=
  Join newline [
    "{";
    "  " +:+ quoted "version" +:+ ": 17,";
    "  " +:+ quoted "users" +:+ ": [";
    "    {";
    "      " +:+ quoted "status" +:+ ": 1,";
    "      " +:+ quoted "username" +:+ ": " +:+ fmt_q SFTPUsername +:+ ",";
    "      " +:+ quoted "password" +:+ ": " +:+ fmt_q passwordHash +:+ ",";
    "      " +:+ quoted "home_dir" +:+ ": " +:+ fmt_q mountPath +:+ ",";
    "      " +:+ quoted "permissions" +:+ ": {" +:+ quoted "/" +:+ ": [" +:+ quoted "*" +:+ "]}";
    "    }";
    "  ]";
    "}";
    ""].

(** ** [sftp.go] *)

Definition sftpPasswordLength : Z := 32.
Definition sftpPasswordAlphabet : string :=
  "abcdefghijklmnopqrstuvwxyzABCDEFGHIJKLMNOPQRSTUVWXYZ0123456789".

(** The loop that fills [out[i..]]; indexing past the alphabet panics. *)
Fixpoint password_loop (n : nat) (out : string) : M (string + gerr) :=
  match n with
  | O => Ret (inl out)
  | S n =>
      let* r := call (RandInt (Z.of_nat (String.length sftpPasswordAlphabet))) in
      match r with
      | inr e => Ret (inr (wrapf "generate sftp password" e))
      | inl i =>
          if (0 <=? i) && (i <? Z.of_nat (String.length sftpPasswordAlphabet)) then
            match String.get (Z.to_nat i) sftpPasswordAlphabet with
            | Some c => password_loop n (out +:+ String c "")
            | None => Panic "index out of range"
            end
          else Panic "index out of range"
      end
  end.

Definition generateSFTPPassword : M (string + gerr) :=
  password_loop (Z.to_nat sftpPasswordLength) "".

Definition ensureSFTPSecret (server : GameServer) (profile : GameProfile) : M (option gerr) :=
  let ns := om_Namespace (gs_Meta server) in
  let name := SFTPSecretName (om_Name (gs_Meta server)) in
  let* existing := call (Get KSecret ns name) in
  match existing with
  | inl _ => Ret None
  | inr e =>
      if negb (IsNotFound e) then Ret (Some e)
      else
        let* r := generateSFTPPassword in
        match r with
        | inr e => Ret (Some e)
        | inl password =>
            let* r := call (BcryptGenerate password) in
            match r with
            | inr e => Ret (Some (wrapf "hash sftp password" e))
            | inl passwordHash =>
                let secret := {|
                  sec_Meta := new_meta name ns (Some
                    {["app.kubernetes.io/name" := "minato";
                      "minato.io/gameserver" := om_Name (gs_Meta server)]});
                  sec_Type := "Opaque";
                  sec_Data := {[
                    SFTPUsernameKey := SFTPUsername;
                    SFTPPasswordKey := password;
                    SFTPUsersKey :=
                      SFTPUsersJSON (st_MountPath (gp_Storage (gp_Spec profile))) passwordHash]}
                |} in
                let* r := SetControllerReference ("GameServer", om_Name (gs_Meta server))
                            KSecret secret in
                match r with
                | inr e => Ret (Some e)
                | inl secret =>
                    let* e := call (Create KSecret secret) in
                    match unless IsAlreadyExists e with
                    | Some e =>
                        Ret (Some (wrapf ("create sftp secret " +:+ ns +:+ "/" +:+ name) e))
                    | None => Ret None
                    end
                end
            end
        end
  end.

(** ** Lemmas *)

Definition in_alphabet (c : ascii) : bool :=
  existsb (Ascii.eqb c) (list_ascii_of_string sftpPasswordAlphabet).

Lemma get_in_alphabet i c : String.get i sftpPasswordAlphabet = Some c → in_alphabet c = true.
Proof.
  unfold in_alphabet. generalize sftpPasswordAlphabet. intros s. revert i.
  induction s as [|d s IH]; intros [|i]; simpl; try done.
  - intros [= ->]. by rewrite Ascii.eqb_refl.
  - intros H%IH. by rewrite H, orb_true_r.
Qed.

Lemma password_loop_runs n : ∀ out (t : list (event op)) o,
  runs (password_loop n out) t o → str_forall in_alphabet out = true →
  ∀ p, o = Done (inl p) →
    str_forall in_alphabet p = true ∧ String.length p = (String.length out + n)%nat.
Proof.
  induction n as [|n IH]; intros out t o; cbn [password_loop].
  - intros [-> ->] H p [= ->]. split; [done|lia].
  - intros (r & t' & -> & Hr) Hout p Ho. cbn [bind] in Hr. destruct r as [i|e].
    2:{ destruct Hr as [-> ->]. done. }
    destruct (_ && _); [|destruct Hr as [-> ->]; done].
    destruct (String.get _ _) as [c|] eqn:Ec; [|destruct Hr as [-> ->]; done].
    eapply IH in Hr as [? Hl]; [| |done].
    + split; [done|]. rewrite Hl, str_length_app. simpl. lia.
    + rewrite str_forall_app, Hout. simpl. by rewrite (get_in_alphabet _ _ Ec).
Qed.

Lemma password_loop_writes P n out : always_w P (password_loop n out).
Proof.
  revert out. induction n as [|n IH]; intros out; [done|]. split; [done|]. intros [i|e]; [|done].
  cbn [bind]. unfold always_w in IH. safe_calls.
Qed.

(** ** Properties *)

(** the SFTP secret is written at most once and never rotated: if it
    exists, or its existence cannot be established, nothing is written; what is
    created is the secret of this server, holding a 32-character alphanumeric
    password, and no write but that creation is made. *)
Theorem ensureSFTPSecret_never_rotates server profile existing t o :
  runs (ensureSFTPSecret server profile)
    (Ev (Get KSecret (om_Namespace (gs_Meta server)) (SFTPSecretName (om_Name (gs_Meta server))))
       existing :: t) o →
  Forall (λ w,
    (∃ err, existing = inr err ∧ IsNotFound err = true)
    ∧ ∃ s p, w = WCreate KSecret s
      ∧ om_Name (sec_Meta s) = SFTPSecretName (om_Name (gs_Meta server))
      ∧ om_Namespace (sec_Meta s) = om_Namespace (gs_Meta server)
      ∧ sec_Data s !! SFTPPasswordKey = Some p
      ∧ String.length p = 32%nat ∧ str_forall in_alphabet p = true) (writes t).
Proof.
  unfold ensureSFTPSecret. cbn [call bind]. intros H%runs_Get.
  destruct existing as [?|err]; [destruct H as [-> _]; constructor|].
  destruct (IsNotFound err) eqn:Enf; cbn [negb] in H; [|destruct H as [-> _]; constructor].
  run_step H; [by eapply always_w_runs; [apply password_loop_writes|]|].
  rewrite writes_app. apply Forall_app.
  split; [by eapply always_w_runs; [apply password_loop_writes|]|].
  destruct a as [password|e]; [|destruct H as [-> _]; constructor].
  destruct (password_loop_runs _ _ _ _ Hrun eq_refl password eq_refl) as [Halpha Hlen].
  eapply always_w_runs in H; [exact H|]. clear H. split; [done|]. intros [hash|e]; [|done].
  cbn [bind]. apply SetControllerReference_always_bind; [done|done|].
  split; [|intros e; by destruct (unless _ e)].
  split; [by exists err|]. by eexists _, password.
Qed.

Lemma ensureSFTPSecret_never_rotates_witness :
  let t := tail (run_trace (answer no_objects no_lists 0) (ensureSFTPSecret ex_server ex_profile)) in
  Forall (λ w, ∃ s p, w = WCreate KSecret s ∧ sec_Data s !! SFTPPasswordKey = Some p
                      ∧ String.length p = 32%nat) (writes t)
  ∧ writes t ≠ [].
Proof.
  split; [|done].
  eapply Forall_impl; [exact (ensureSFTPSecret_never_rotates ex_server ex_profile
    (no_objects KSecret "" "") _ _
    (run_runs_cons (answer no_objects no_lists 0) (ensureSFTPSecret ex_server ex_profile) _
       eq_refl))|].
  simpl. intros w (_ & s & p & -> & _ & _ & ? & ? & _). eauto.
Defined.
