(* ===== verification/GameServerCtl.v ===== *)
(** * GameServerCtl: the GameServer controller
    ([internal/controllers/gameserver_controller.go])

    [Reconcile] is the whole handler; its steps are separate definitions in the
    order the code runs them.  Each returns the error that ends the reconcile,
    if any.  The server object the code mutates in place is passed along
    explicitly. *)

From S2P Require Import Prelude GoStrings Prog Api Kube Builder Monitoring GameServerObjects Sftp.

Definition gameServerFinalizer := "minato.io/gameserver-finalizer".
Definition agentHealthCheckPeriod : Z := 30 * second.
Definition healthCheckTimeout : Z := 5 * second.
Definition shutdownTimeout : Z := 30 * second.

Record GameServerReconciler := {
  gsr_OperatorNamespace : string;
  gsr_ImagePullSecrets : list string;
  gsr_ExternalDNSZone : string;
  (** the event recorder is not nil *)
  gsr_Recorder : bool;
}.

(** ** The server being reconciled *)

Definition gs_set_Meta (m : ObjectMeta) (s : GameServer) : GameServer :=
  {| gs_Meta := m; gs_Spec := gs_Spec s; gs_Status := gs_Status s |}.
Definition gs_set_Status (st : GameServerStatus) (s : GameServer) : GameServer :=
  {| gs_Meta := gs_Meta s; gs_Spec := gs_Spec s; gs_Status := st |}.

Definition gs_ns (s : GameServer) : string := om_Namespace (gs_Meta s).
Definition gs_name (s : GameServer) : string := om_Name (gs_Meta s).

Definition ready_condition (server : GameServer) (ty : string) (st : ConditionStatus)
    (reason message : string) (now : Z) : Condition := {|
  cond_Type := ty; cond_Status := st; cond_Reason := reason; cond_Message := message;
  cond_ObservedGeneration := om_Generation (gs_Meta server);
  cond_LastTransitionTime := now |}.

(** ** Pull secrets *)

Definition replicated_from := "minato.io/replicated-from".

Definition sec_set_content (src dst : Secret) : Secret :=
  {| sec_Meta := sec_Meta dst; sec_Type := sec_Type src; sec_Data := sec_Data src |}.

Definition ensure_pull_secret (operatorNs namespace name : string) : M (option gerr) :=
  let* src := call (Get KSecret operatorNs name) in
  match src with
  | inr e => Ret (Some (wrapf ("get pull secret " +:+ operatorNs +:+ "/" +:+ name) e))
  | inl src =>
      let* dst := call (Get KSecret namespace name) in
      match dst with
      | inr e =>
          if IsNotFound e then
            let* e := call (Create KSecret {|
              sec_Meta := new_meta name namespace (Some {[replicated_from := operatorNs]});
              sec_Type := sec_Type src; sec_Data := sec_Data src |}) in
            Ret (wrap_err ("replicate pull secret to " +:+ namespace) (unless IsAlreadyExists e))
          else Ret (Some e)
      | inl dst =>
          if gm_get (om_Labels (sec_Meta dst)) replicated_from =s "" then Ret None
          else
            let* e := call (Update KSecret (sec_set_content src dst)) in
            Ret (wrap_err ("refresh pull secret in " +:+ namespace) e)
      end
  end.

Definition ensureImagePullSecrets (r : GameServerReconciler) (namespace : string)
  : M (option gerr) :=
  if bool_decide (gsr_ImagePullSecrets r = []) || (gsr_OperatorNamespace r =s "")
     || (namespace =s gsr_OperatorNamespace r)
  then Ret None
  else for_each (gsr_ImagePullSecrets r)
         (ensure_pull_secret (gsr_OperatorNamespace r) namespace).

(** ** Status *)

Definition setProfileMissingCondition (server : GameServer) (err : gerr) : M GameServer :=
  let st := gs_Status server in
  let server := gs_set_Status {|
    gss_State := stateError; gss_AgentVersion := "";
    gss_Players := gss_Players st; gss_PlayerCapacity := gss_PlayerCapacity st;
    gss_LastActivity := gss_LastActivity st; gss_Endpoints := gss_Endpoints st;
    gss_Conditions := setCondition (gss_Conditions st)
      (ready_condition server "Ready" ConditionFalse "ProfileNotFound"
         ("profile not found: " +:+ ge_msg err) 0) |} server in
  effect (StatusUpdate KGameServer server) ;;; Ret server.

Definition stopped_status (server : GameServer) (now : Z) : GameServerStatus :=
  let st := gs_Status server in {|
    gss_State := stateStopped; gss_AgentVersion := ""; gss_Players := 0;
    gss_PlayerCapacity := gss_PlayerCapacity st; gss_LastActivity := gss_LastActivity st;
    gss_Endpoints := [];
    gss_Conditions := setCondition (gss_Conditions st)
      (ready_condition server "Ready" ConditionFalse "AutoStartDisabled"
         "server is stopped: spec.lifecycle.autoStart is false" now) |}.

Definition updateStoppedStatus (server : GameServer) : M (GameServer * option gerr) :=
  let* now := call Now in
  let server := gs_set_Status (stopped_status server now) server in
  let* e := call (StatusUpdate KGameServer server) in Ret (server, e).

Definition server_endpoints (profile : GameProfile) (address : string) : list Endpoint :=
  ((λ p, {| ep_Name := port_Name p; ep_Address := address; ep_Port := port_ContainerPort p |})
     <$> filter (λ p, ExposedPort p = true) (gp_Ports (gp_Spec profile)))
  ++ (if SFTPEnabled profile
      then [{| ep_Name := SFTPPortName; ep_Address := address; ep_Port := SFTPPort |}] else []).

Definition resolveEndpoints (r : GameServerReconciler) (server : GameServer)
    (profile : GameProfile) : M (list Endpoint) :=
  let* address :=
    (if gsr_ExternalDNSZone r <>s "" then Ret (gs_name server +:+ "." +:+ gsr_ExternalDNSZone r)
     else
       let* got := call (Get KSvc (gs_ns server) (gs_name server +:+ "-game")) in
       match got with
       | inr _ => Ret ""
       | inl svc =>
           match svc_Ingress svc with
           | [] => Ret ""
           | ingress :: _ =>
               Ret (if lbi_IP ingress =s "" then lbi_Hostname ingress else lbi_IP ingress)
           end
       end) in
  if address =s "" then Ret [] else Ret (server_endpoints profile address).

Definition running_status (server : GameServer) (ready : bool) (endpoints : list Endpoint)
    (now : Z) : GameServerStatus :=
  let st := gs_Status server in {|
    gss_State := if ready then stateRunning else stateProvisioning;
    gss_AgentVersion := ""; gss_Players := gss_Players st;
    gss_PlayerCapacity := gss_PlayerCapacity st; gss_LastActivity := gss_LastActivity st;
    gss_Endpoints := endpoints;
    gss_Conditions :=
      setCondition
        (setCondition (gss_Conditions st)
           (ready_condition server "Ready" (boolToConditionStatus ready) "StatefulSetReady" "" now))
        (ready_condition server "AgentReachable" ConditionUnknown "NotProbed"
           "agent reachability not yet implemented" now) |}.

Definition updateStatus (r : GameServerReconciler) (server : GameServer) (profile : GameProfile)
    (ready : bool) : M (GameServer * option gerr) :=
  let* now := call Now in
  let* endpoints := resolveEndpoints r server profile in
  let server := gs_set_Status (running_status server ready endpoints now) server in
  let* e := call (StatusUpdate KGameServer server) in Ret (server, e).

(** ** Deletion *)

Definition delete_child (k : kind) (ns name : string) : M (option gerr) :=
  let* e := call (Delete k ns name) in Ret (unless IsNotFound e).

Definition cleanupResources (server : GameServer) : M (option gerr) :=
  let ns := gs_ns server in
  let name := gs_name server in
  delete_child KSts ns name ?;;
  delete_child KSvc ns name ?;;
  delete_child KSvc ns (name +:+ "-agent") ?;;
  delete_child KSvc ns (name +:+ "-game") ?;;
  delete_child KPvc ns name ?;;
  delete_child KSecret ns (SFTPSecretName name) ?;;
  (deleteGameServerMetrics ns name ;;; Ret None).

(** ** Agent *)

Definition agentAddress (server : GameServer) : string :=
  gs_name server +:+ "-agent." +:+ gs_ns server +:+ ".svc.cluster.local:" +:+ itoa AgentGRPCPort.

Definition dialAgent (server : GameServer) : M (string + gerr) :=
  let addr := agentAddress server in
  let* e := call (GrpcDial addr) in
  Ret (match e with None => inl addr | Some e => inr e end).

Definition checkAgentHealth (server : GameServer) : M (string * bool) :=
  let* conn := dialAgent server in
  match conn with
  | inr _ => Ret ("", false)
  | inl conn =>
      let* resp := call (AgentHealthCheck conn healthCheckTimeout) in
      match resp with
      | inr _ => Ret ("", false)
      | inl ready =>
          let* info := call (AgentInfo conn healthCheckTimeout) in
          match info with
          | inr _ => Ret ("", ready)
          | inl version => Ret (version, ready)
          end
      end
  end.

Definition updateAgentStatus (server : GameServer) (version : string) (healthy : bool)
  : M (GameServer * option gerr) :=
  let* now := call Now in
  let st := gs_Status server in
  let condition :=
    if healthy
    then ready_condition server "AgentReachable" ConditionTrue "AgentHealthy"
           "agent is reachable and healthy" now
    else ready_condition server "AgentReachable" ConditionFalse "AgentUnhealthy"
           "agent is not healthy" now in
  let server := gs_set_Status {|
    gss_State := gss_State st; gss_AgentVersion := version; gss_Players := gss_Players st;
    gss_PlayerCapacity := gss_PlayerCapacity st; gss_LastActivity := gss_LastActivity st;
    gss_Endpoints := gss_Endpoints st;
    gss_Conditions := setCondition (gss_Conditions st) condition |} server in
  let* e := call (StatusUpdate KGameServer server) in Ret (server, e).

Definition getPlayerCount (server : GameServer) : M (Z * Z + gerr) :=
  let* conn := dialAgent server in
  match conn with
  | inr e => Ret (inr e)
  | inl conn => call (AgentGetPlayers conn healthCheckTimeout)
  end.

Definition callAgentShutdown (server : GameServer) : M (option gerr) :=
  let* conn := dialAgent server in
  match conn with
  | inr e => Ret (Some e)
  | inl conn =>
      call (AgentPrepareShutdown conn shutdownTimeout (wrap32 (shutdownTimeout / second))
              "idle timeout")
  end.

(** ** Idle timeout *)

Definition gss_set_players (players capacity : Z) (st : GameServerStatus) : GameServerStatus := {|
  gss_State := gss_State st; gss_AgentVersion := gss_AgentVersion st; gss_Players := players;
  gss_PlayerCapacity := capacity; gss_LastActivity := gss_LastActivity st;
  gss_Endpoints := gss_Endpoints st; gss_Conditions := gss_Conditions st |}.
Definition gss_set_activity (state : string) (at_ : option Z) (st : GameServerStatus)
  : GameServerStatus := {|
  gss_State := state; gss_AgentVersion := gss_AgentVersion st; gss_Players := gss_Players st;
  gss_PlayerCapacity := gss_PlayerCapacity st; gss_LastActivity := at_;
  gss_Endpoints := gss_Endpoints st; gss_Conditions := gss_Conditions st |}.

(** Returns the mutated server, the requeue delay and the error. *)
Definition checkIdleTimeout (server : GameServer) (sts : StatefulSet)
  : M (GameServer * (Z * option gerr)) :=
  if bool_decide (sts_Replicas sts = Some 0) then Ret (server, (0, None))
  else
    let* got := getPlayerCount server in
    match got with
    | inr _ => Ret (server, (0, None))
    | inl (players, capacity) =>
        let server := gs_set_Status (gss_set_players players capacity (gs_Status server)) server in
        let st := gs_Status server in
        if 0 <? players then
          let* now := call Now in
          let server := gs_set_Status (gss_set_activity stateRunning (Some now) st) server in
          let* e := call (StatusUpdate KGameServer server) in Ret (server, (0, e))
        else
          let timeout := seconds (lc_IdleTimeoutSeconds (gs_Lifecycle (gs_Spec server))) in
          match gss_LastActivity st with
          | Some last =>
              let* now := call Now in
              let idleDuration := time_sub now last in
              if timeout <=? idleDuration then
                callAgentShutdown server ;;;
                let* e := call (Update KSts (sts_set_Replicas 0 sts)) in
                match e with
                | Some e => Ret (server, (0, Some (wrapf "failed to scale StatefulSet to 0" e)))
                | None =>
                    let server :=
                      gs_set_Status (gss_set_activity stateIdle (gss_LastActivity st) st) server in
                    let* e := call (StatusUpdate KGameServer server) in Ret (server, (0, e))
                end
              else Ret (server, (0, None))
          | None =>
              let* now := call Now in
              let server := gs_set_Status (gss_set_activity (gss_State st) (Some now) st) server in
              let* e := call (StatusUpdate KGameServer server) in
              match e with
              | Some e => Ret (server, (0, Some e))
              | None => Ret (server, (timeout, None))
              end
          end
    end.

(** ** Reconcile *)

Section Reconcile.
Context `{Hfin : !FinalizerOps, Hqty : !QuantityParser}.

Definition owner_of (server : GameServer) : string * string := ("GameServer", gs_name server).

(** Set the owner reference, then apply with forced ownership. *)
Definition apply_owned (server : GameServer) (k : kind) (o : obj k) : M (option gerr) :=
  let* o := SetControllerReference (owner_of server) k o in
  match o with
  | inr e => Ret (Some e)
  | inl o => call (Apply k o)
  end.

Definition child_sts (server : GameServer) (podSpec : PodSpec) (labelsMap : gmap string string)
    (stopping : bool) : StatefulSet :=
  let sts := buildStatefulSet server podSpec labelsMap in
  if stopping then sts_set_Replicas 0 sts else sts.

(** Step 3: the children, in the order they are applied. *)
Definition reconcile_children (r : GameServerReconciler) (server : GameServer)
    (profile : GameProfile) (podSpec : PodSpec) (labelsMap : gmap string string)
    (stopping : bool) : M (option gerr) :=
  apply_owned server KSts (child_sts server podSpec labelsMap stopping) ?;;
  apply_owned server KSvc (buildHeadlessService server labelsMap) ?;;
  apply_owned server KSvc (addAgentMetricsPort (buildAgentService server labelsMap) profile) ?;;
  apply_owned server KSvc (buildGameService server profile labelsMap (gsr_ExternalDNSZone r)) ?;;
  apply_owned server KPvc (buildPVC server profile).

(** The lifecycle gate: drain a running server that is to be stopped. *)
Definition stop_gate (r : GameServerReconciler) (server : GameServer) : M (option gerr) :=
  let* currentSts := call (Get KSts (gs_ns server) (gs_name server)) in
  match currentSts with
  | inr e => Ret (unless IsNotFound (Some e))
  | inl currentSts =>
      match sts_Replicas currentSts with
      | Some replicas =>
          if (0 <? replicas) && stsReady currentSts then
            callAgentShutdown server ;;;
            (if gsr_Recorder r
             then effect (RecordEvent (gs_ns server, gs_name server) "Normal" "AutoStartDisabled"
                    "stopping server: spec.lifecycle.autoStart is false")
             else Ret tt) ;;;
            Ret None
          else Ret None
      | None => Ret None
      end
  end.

(** Steps 4 and 6: status, agent health and idle timeout. *)
Definition reconcile_ready (server : GameServer) (currentSts : StatefulSet)
  : M (Result * option gerr) :=
  let* '(agentVersion, agentHealthy) := checkAgentHealth server in
  let* '(server, _) := updateAgentStatus server agentVersion agentHealthy in
  if 0 <? lc_IdleTimeoutSeconds (gs_Lifecycle (gs_Spec server)) then
    let* '(server, (requeueAfter, _)) := checkIdleTimeout server currentSts in
    recordGameServerMetrics server ;;;
    if 0 <? requeueAfter then Ret (requeueAfter, None) else Ret (agentHealthCheckPeriod, None)
  else Ret (agentHealthCheckPeriod, None).

Definition reconcile_status (r : GameServerReconciler) (server : GameServer)
    (profile : GameProfile) (stopping : bool) : M (Result * option gerr) :=
  let* currentSts := call (Get KSts (gs_ns server) (gs_name server)) in
  match currentSts with
  | inr e => Ret (no_requeue, Some e)
  | inl currentSts =>
      if stopping then
        let* '(server, e) := updateStoppedStatus server in
        match e with
        | Some e => Ret (no_requeue, Some e)
        | None => recordGameServerMetrics server ;;; Ret (no_requeue, None)
        end
      else
        let ready := stsReady currentSts in
        let* '(server, e) := updateStatus r server profile ready in
        match e with
        | Some e => Ret (no_requeue, Some e)
        | None =>
            recordGameServerMetrics server ;;;
            if ready then reconcile_ready server currentSts else Ret (no_requeue, None)
        end
  end.

(** The secrets and the gate that come before the children. *)
Definition reconcile_before (r : GameServerReconciler) (server : GameServer)
    (profile : GameProfile) (stopping : bool) : M (option gerr) :=
  (if SFTPEnabled profile
   then let* e := ensureSFTPSecret server profile in Ret (wrap_err "ensure sftp secret" e)
   else Ret None) ?;;
  (if stopping then stop_gate r server else Ret None).

Definition reconcile_profile (r : GameServerReconciler) (d : Detection) (server : GameServer)
    (profile : GameProfile) : M (Detection * (Result * option gerr)) :=
  let* e := ensureImagePullSecrets r (gs_ns server) in
  match wrap_err "ensure image pull secrets" e with
  | Some e => Ret (d, (no_requeue, Some e))
  | None =>
      match BuildGameServerPodSpecWithPullSecrets profile server (gsr_ImagePullSecrets r) with
      | inr e =>
          setProfileMissingCondition server e ;;; Ret (d, (no_requeue, Some e))
      | inl podSpec =>
          let labelsMap := buildGameServerLabels server profile in
          let stopping := negb (AutoStartEnabled (gs_Lifecycle (gs_Spec server))) in
          let* e :=
            reconcile_before r server profile stopping ?;;
            reconcile_children r server profile podSpec labelsMap stopping in
          match e with
          | Some e => Ret (d, (no_requeue, Some e))
          | None =>
              let* '(d, e) :=
                reconcileServiceMonitor (gsr_Recorder r) d server profile labelsMap in
              match e with
              | Some e => Ret (d, (no_requeue, Some e))
              | None =>
                  let* res := reconcile_status r server profile stopping in Ret (d, res)
              end
          end
      end
  end.

(** A server that is not being deleted and has the finalizer. *)
Definition reconcile_live (r : GameServerReconciler) (d : Detection) (server : GameServer)
  : M (Detection * (Result * option gerr)) :=
  let* profile := call (Get KGameProfile "" (gs_Profile (gs_Spec server))) in
  match profile with
  | inr e =>
      if IsNotFound e
      then setProfileMissingCondition server e ;;; Ret (d, (no_requeue, None))
      else Ret (d, (no_requeue, Some e))
  | inl profile => reconcile_profile r d server profile
  end.

(** A server being deleted. *)
Definition reconcile_deleted (server : GameServer) : M (option gerr) :=
  if ContainsFinalizer gameServerFinalizer (gs_Meta server) then
    cleanupResources server ?;;
    call (Update KGameServer
            (gs_set_Meta (RemoveFinalizer gameServerFinalizer (gs_Meta server)) server))
  else Ret None.

Definition Reconcile (r : GameServerReconciler) (d : Detection) (namespace name : string)
  : M (Detection * (Result * option gerr)) :=
  let* server := call (Get KGameServer namespace name) in
  match server with
  | inr e => Ret (d, (no_requeue, unless IsNotFound (Some e)))
  | inl server =>
      match om_DeletionTimestamp (gs_Meta server) with
      | None =>
          if ContainsFinalizer gameServerFinalizer (gs_Meta server)
          then reconcile_live r d server
          else
            let* e := call (Update KGameServer
              (gs_set_Meta (AddFinalizer gameServerFinalizer (gs_Meta server)) server)) in
            Ret (d, (no_requeue, e))
      | Some _ =>
          let* e := reconcile_deleted server in Ret (d, (no_requeue, e))
      end
  end.
End Reconcile.

(** ** What a reconcile may write *)

Section Writes.
Context `{Hfin : !FinalizerOps, Hqty : !QuantityParser}.

(** The writes allowed for a server that is not being deleted: only its own
    objects, by name and namespace; its spec and identity are never changed;
    the only object that may be deleted is its ServiceMonitor. *)
Definition live_write (server : GameServer) (w : write) : Prop :=
  let ns := gs_ns server in
  let name := gs_name server in
  let auto := AutoStartEnabled (gs_Lifecycle (gs_Spec server)) in
  match w with
  | WDelete k ns' name' => k = KServiceMonitor ∧ ns' = ns ∧ name' = name
  | WCreateOrUpdate k o =>
      k = KServiceMonitor ∧ om_Namespace (obj_meta k o) = ns ∧ om_Name (obj_meta k o) = name
  | WStatusUpdate k o =>
      match k return obj k → Prop with
      | KGameServer => λ s, gs_Meta s = gs_Meta server ∧ gs_Spec s = gs_Spec server
      | _ => λ _, False
      end o
  | WCreate k o => k = KSecret ∧ om_Namespace (obj_meta k o) = ns
  | WUpdate k o =>
      match k return obj k → Prop with
      | KGameServer => λ s,
          gs_Spec s = gs_Spec server ∧ gs_Status s = gs_Status server
          ∧ ContainsFinalizer gameServerFinalizer (gs_Meta s) = true
      | KSts => λ s,
          auto = true ∧ 0 < lc_IdleTimeoutSeconds (gs_Lifecycle (gs_Spec server))
          ∧ sts_Replicas s = Some 0
      | KSecret => λ s, gm_get (om_Labels (sec_Meta s)) replicated_from ≠ ""
      | _ => λ _, False
      end o
  | WApply k o =>
      om_Namespace (obj_meta k o) = ns
      ∧ om_Controller (obj_meta k o) = Some (owner_of server)
      ∧ match k return obj k → Prop with
        | KSts => λ s, om_Name (sts_Meta s) = name
                       ∧ sts_Replicas s = Some (if auto then 1 else 0)
        | KSvc => λ s, om_Name (svc_Meta s) ∈ [name; name +:+ "-agent"; name +:+ "-game"]
        | KPvc => λ p, om_Name (pvc_Meta p) = name
        | _ => λ _, False
        end o
  end.

(** The one write of a replicated pull secret: the secret [name] of [ns], with
    the content of [src], which was read from the operator's namespace. *)
Definition pull_write (opNs ns name : string) (t : list (event op)) (w : write) : Prop :=
  ∃ src, Ev (Get KSecret opNs name) (inl src) ∈ t
    ∧ ((∃ err, Ev (Get KSecret ns name) (inr err) ∈ t ∧ IsNotFound err = true
          ∧ w = WCreate KSecret {|
              sec_Meta := new_meta name ns (Some {[replicated_from := opNs]});
              sec_Type := sec_Type src; sec_Data := sec_Data src |})
       ∨ ∃ dst s, Ev (Get KSecret ns name) (inl dst) ∈ t
           ∧ gm_get (om_Labels (sec_Meta dst)) replicated_from ≠ ""
           ∧ w = WUpdate KSecret s ∧ sec_Meta s = sec_Meta dst
           ∧ sec_Type s = sec_Type src ∧ sec_Data s = sec_Data src).

Lemma pull_write_app opNs ns name t1 t t2 w :
  pull_write opNs ns name t w → pull_write opNs ns name (t1 ++ t ++ t2) w.
Proof.
  intros (src & Hs & H). exists src. rewrite !elem_of_app. split; [auto|].
  destruct H as [(err & ? & H)|(dst & s & ? & H)];
    [left; exists err|right; exists dst, s]; rewrite !elem_of_app; auto.
Qed.

Lemma ensure_pull_secret_writes opNs ns name t o :
  runs (ensure_pull_secret opNs ns name) t o → Forall (pull_write opNs ns name t) (writes t).
Proof.
  intros ([src|e] & t1 & -> & H); cbn [bind] in H; [|destruct H as [-> _]; constructor].
  destruct H as ([dst|e] & t2 & -> & H); cbn [bind] in H.
  - destruct (String.eqb_spec (gm_get (om_Labels (sec_Meta dst)) replicated_from) "") as [|Hm];
      [destruct H as [-> _]; constructor|].
    destruct H as (x & t3 & -> & -> & _). repeat constructor.
    exists src. split; [set_solver|]. right. exists dst, (sec_set_content src dst).
    split_and!; [set_solver|done..].
  - destruct (IsNotFound e) eqn:En; [|destruct H as [-> _]; constructor].
    destruct H as (x & t3 & -> & -> & _). repeat constructor.
    exists src. split; [set_solver|]. left. exists e. split_and!; [set_solver|done..].
Qed.

Lemma for_each_pull_writes opNs ns l t o :
  runs (for_each l (ensure_pull_secret opNs ns)) t o →
  Forall (λ w, ∃ name, name ∈ l ∧ pull_write opNs ns name t w) (writes t).
Proof.
  revert t. induction l as [|name l IH]; intros t H; [destruct H as [-> _]; constructor|].
  cbn [for_each] in H. run_step H.
  - eapply Forall_impl; [by eapply ensure_pull_secret_writes|]. intros w Hw.
    exists name. split; [set_solver|done].
  - rewrite writes_app. apply Forall_app. split.
    + eapply Forall_impl; [by eapply ensure_pull_secret_writes|]. intros w Hw.
      exists name. split; [set_solver|]. by apply (pull_write_app _ _ _ [] t0 t1).
    + destruct a; [destruct H as [-> _]; constructor|].
      eapply Forall_impl; [by apply IH|]. intros w (n & Hn & Hw).
      exists n. split; [set_solver|].
      apply (pull_write_app _ _ _ t0 t1 []) in Hw. by rewrite app_nil_r in Hw.
Qed.

Lemma ensure_pull_secret_own G opNs ns name :
  always_given G (w_sat (λ w,
    (∃ s, w = WCreate KSecret s ∧ om_Name (sec_Meta s) = name ∧ om_Namespace (sec_Meta s) = ns)
    ∨ ∃ s dst, w = WUpdate KSecret s ∧ G _ (Get KSecret ns name) (inl dst)
        ∧ sec_Meta s = sec_Meta dst ∧ gm_get (om_Labels (sec_Meta dst)) replicated_from ≠ ""))
    (ensure_pull_secret opNs ns name).
Proof.
  unfold ensure_pull_secret. given_calls; try exact I.
  - right. eexists _, _. split_and!; [done..|]. by apply String.eqb_neq.
  - left. by eexists.
Qed.

Lemma ensureImagePullSecrets_own G r ns :
  always_given G (w_sat (λ w,
    ns ≠ gsr_OperatorNamespace r ∧ ∃ name, name ∈ gsr_ImagePullSecrets r ∧
    ((∃ s, w = WCreate KSecret s ∧ om_Name (sec_Meta s) = name ∧ om_Namespace (sec_Meta s) = ns)
    ∨ ∃ s dst, w = WUpdate KSecret s ∧ G _ (Get KSecret ns name) (inl dst)
        ∧ sec_Meta s = sec_Meta dst ∧ gm_get (om_Labels (sec_Meta dst)) replicated_from ≠ "")))
    (ensureImagePullSecrets r ns).
Proof.
  unfold ensureImagePullSecrets. destruct (_ || _ || _) eqn:E; [done|].
  apply orb_false_iff in E as [_ E]. apply String.eqb_neq in E.
  apply always_given_for_each. intros name Hn.
  eapply always_given_mono; [|apply ensure_pull_secret_own].
  intros X e. unfold w_sat. destruct (write_of e); [|done]. simpl. eauto.
Qed.

Lemma ensureSFTPSecret_writes server profile :
  always_w (λ w, ∃ s, w = WCreate KSecret s
      ∧ om_Name (sec_Meta s) = SFTPSecretName (gs_name server)
      ∧ om_Namespace (sec_Meta s) = gs_ns server
      ∧ om_Controller (sec_Meta s) = Some ("GameServer", gs_name server))
    (ensureSFTPSecret server profile).
Proof.
  unfold ensureSFTPSecret, generateSFTPPassword. writes_safe.
  - apply password_loop_writes.
  - by eexists.
Qed.

Lemma checkAgentHealth_no_writes server : no_writes (checkAgentHealth server).
Proof. unfold checkAgentHealth, dialAgent. writes_safe. Qed.
Lemma getPlayerCount_no_writes server : no_writes (getPlayerCount server).
Proof. unfold getPlayerCount, dialAgent. writes_safe. Qed.
Lemma callAgentShutdown_no_writes server : no_writes (callAgentShutdown server).
Proof. unfold callAgentShutdown, dialAgent. writes_safe. Qed.
Lemma resolveEndpoints_no_writes r server profile : no_writes (resolveEndpoints r server profile).
Proof. unfold resolveEndpoints. writes_safe. Qed.
Lemma stop_gate_no_writes r server : no_writes (stop_gate r server).
Proof.
  unfold stop_gate. writes_safe; apply no_writes_always, callAgentShutdown_no_writes.
Qed.
End Writes.

#[export] Hint Resolve checkAgentHealth_no_writes getPlayerCount_no_writes
  callAgentShutdown_no_writes resolveEndpoints_no_writes stop_gate_no_writes : minato.

(** The identity and the spec of the server are never changed. *)
Definition same_server (server server' : GameServer) : Prop :=
  gs_Meta server' = gs_Meta server ∧ gs_Spec server' = gs_Spec server.

Lemma same_server_refl s : same_server s s.
Proof. done. Qed.
Lemma same_server_trans s1 s2 s3 : same_server s1 s2 → same_server s2 s3 → same_server s1 s3.
Proof. unfold same_server. naive_solver congruence. Qed.

(** [status_writes server p]: [p] writes nothing but the status of [server]. *)
Definition status_write (server : GameServer) (w : write) : Prop :=
  ∃ s, w = WStatusUpdate KGameServer s ∧ same_server server s.

Lemma updateStatus_same r server profile ready :
  ret_sat (λ x, same_server server x.1) (updateStatus r server profile ready)
  ∧ always_w (status_write server) (updateStatus r server profile ready).
Proof.
  split; unfold updateStatus; [ret_calls; done|]. writes_safe. by eexists.
Qed.

Lemma updateStoppedStatus_same server :
  ret_sat (λ x, same_server server x.1) (updateStoppedStatus server)
  ∧ always_w (status_write server) (updateStoppedStatus server).
Proof.
  split; unfold updateStoppedStatus; [ret_calls; done|]. writes_safe. by eexists.
Qed.

Lemma updateAgentStatus_same server v h :
  ret_sat (λ x, same_server server x.1) (updateAgentStatus server v h)
  ∧ always_w (status_write server) (updateAgentStatus server v h).
Proof.
  split; unfold updateAgentStatus; [ret_calls; done|]. writes_safe. by eexists.
Qed.

Lemma setProfileMissingCondition_writes server e :
  always_w (status_write server) (setProfileMissingCondition server e).
Proof.
  apply always_bind; [apply always_effect; by eexists|done].
Qed.

Lemma checkIdleTimeout_writes server sts :
  always_w (λ w, status_write server w ∨ w = WUpdate KSts (sts_set_Replicas 0 sts))
    (checkIdleTimeout server sts).
Proof.
  unfold checkIdleTimeout. writes_safe; try (left; by eexists). by right.
Qed.

Lemma checkIdleTimeout_same server sts :
  ret_sat (λ x, same_server server x.1) (checkIdleTimeout server sts).
Proof. unfold checkIdleTimeout. ret_calls; done. Qed.

Lemma reconcile_ready_writes server sts :
  always_w (λ w, status_write server w
    ∨ (0 < lc_IdleTimeoutSeconds (gs_Lifecycle (gs_Spec server))
       ∧ w = WUpdate KSts (sts_set_Replicas 0 sts)))
    (reconcile_ready server sts).
Proof.
  unfold reconcile_ready. apply always_bind; [auto with minato|]. intros [v h].
  destruct (updateAgentStatus_same server v h) as [Hs Hw].
  eapply always_bind_ret; [|exact Hs|].
  - eapply always_w_mono, Hw. auto.
  - intros [s e] [Hm Hsp]; cbn [fst] in *. rewrite <-Hsp.
    destruct (0 <? _) eqn:Ez; [|done]. apply Z.ltb_lt in Ez.
    apply always_bind.
    + eapply always_w_mono, checkIdleTimeout_writes.
      intros w [(s' & -> & [? ?])|?]; [left; eexists; split; [done|]|by right].
      split; congruence.
    + intros [s' [rq e']]. apply always_bind; [auto with minato|]. intros _. by case_match.
Qed.

Lemma reconcile_status_writes G r server profile stopping :
  always_given G (w_sat (λ w, status_write server w
    ∨ (stopping = false ∧ 0 < lc_IdleTimeoutSeconds (gs_Lifecycle (gs_Spec server))
       ∧ ∃ sts, G _ (Get KSts (gs_ns server) (gs_name server)) (inl sts)
           ∧ w = WUpdate KSts (sts_set_Replicas 0 sts))))
    (reconcile_status r server profile stopping).
Proof.
  split; [done|]. intros [sts|e] HG; [|done]. cbn [bind].
  apply always_given_always. destruct stopping.
  - destruct (updateStoppedStatus_same server) as [Hs Hw].
    eapply always_bind_ret; [|exact Hs|].
    + eapply always_w_mono, Hw. auto.
    + intros [s [e|]] _; [done|]. apply always_bind; [auto with minato|done].
  - cbv zeta. destruct (updateStatus_same r server profile (stsReady sts)) as [Hs Hw].
    eapply always_bind_ret; [|exact Hs|].
    + eapply always_w_mono, Hw. auto.
    + intros [s [e|]] [Hm Hsp]; [done|]; cbn [fst] in *.
      apply always_bind; [auto with minato|]. intros _.
      destruct (stsReady sts); [|done].
      eapply always_w_mono, reconcile_ready_writes. intros w [(s' & -> & [? ?])|[? ->]].
      * left. eexists. split; [done|]. split; congruence.
      * right. rewrite <-Hsp. eauto.
Qed.

Section Live.
Context `{Hfin : !FinalizerOps, Hqty : !QuantityParser}.

Lemma apply_owned_writes server k o :
  always_w (λ w, w = WApply k (obj_map_meta (meta_set_Controller (owner_of server)) k o))
    (apply_owned server k o).
Proof. unfold apply_owned. writes_safe. Qed.

(** [apply_owned] of a namespaced object built for the server is allowed. *)
Lemma apply_owned_live server k o :
  live_write server (WApply k (obj_map_meta (meta_set_Controller (owner_of server)) k o)) →
  always_w (λ w, live_write server w ∧ ∃ k o, w = WApply k o) (apply_owned server k o).
Proof. intros H. eapply always_w_mono, apply_owned_writes. intros ? ->. eauto. Qed.

Lemma addAgentMetricsPort_Meta svc profile :
  svc_Meta (addAgentMetricsPort svc profile) = svc_Meta svc.
Proof. unfold addAgentMetricsPort. by repeat case_match. Qed.

Lemma buildGameService_Meta server profile labelsMap zone :
  om_Name (svc_Meta (buildGameService server profile labelsMap zone)) = gs_name server +:+ "-game"
  ∧ om_Namespace (svc_Meta (buildGameService server profile labelsMap zone)) = gs_ns server.
Proof. unfold buildGameService. destruct (game_ports _ _ _). cbn [svc_Meta]. by case_match. Qed.

Lemma buildPVC_Meta server profile :
  om_Name (pvc_Meta (buildPVC server profile)) = gs_name server
  ∧ om_Namespace (pvc_Meta (buildPVC server profile)) = gs_ns server.
Proof. unfold buildPVC. cbv zeta. destruct (gst_SnapshotRef _); [|done]. cbn. by case_match. Qed.

Lemma reconcile_children_writes r server profile podSpec labelsMap :
  always_w (λ w, live_write server w ∧ ∃ k o, w = WApply k o)
    (reconcile_children r server profile podSpec labelsMap
       (negb (AutoStartEnabled (gs_Lifecycle (gs_Spec server))))).
Proof.
  unfold reconcile_children.
  apply always_bind; [apply apply_owned_live|intros [e|]; [done|]].
  { unfold child_sts. destruct (AutoStartEnabled _) eqn:E; cbn [live_write negb]; by rewrite E. }
  apply always_bind; [apply apply_owned_live|intros [e|]; [done|]].
  { cbn. split_and!; [done..|]. set_solver. }
  apply always_bind; [apply apply_owned_live|intros [e|]; [done|]].
  { cbn. rewrite addAgentMetricsPort_Meta. split_and!; [done..|]. set_solver. }
  apply always_bind; [apply apply_owned_live|intros [e|]; [done|]].
  { destruct (buildGameService_Meta server profile labelsMap (gsr_ExternalDNSZone r)).
    cbn. split_and!; [done..|]. set_solver. }
  apply apply_owned_live.
  destruct (buildPVC_Meta server profile). by cbn.
Qed.

Lemma status_write_live server w : status_write server w → live_write server w.
Proof. by intros (s & -> & ? & ?). Qed.

(** The writes of a live server's reconcile, one part at a time. *)
Lemma reconcile_live_given G (P : write → Prop) r d server :
  always_given G (w_sat P) (ensureImagePullSecrets r (gs_ns server)) →
  (∀ w, status_write server w → P w) →
  (∀ profile, always_given G (w_sat P) (ensureSFTPSecret server profile)) →
  (∀ w, live_write server w → (∃ k o, w = WApply k o) → P w) →
  (∀ profile labels, always_given G (w_sat P)
     (reconcileServiceMonitor (gsr_Recorder r) d server profile labels)) →
  (∀ profile, always_given G (w_sat P)
     (reconcile_status r server profile (negb (AutoStartEnabled (gs_Lifecycle (gs_Spec server)))))) →
  always_given G (w_sat P) (reconcile_live r d server).
Proof.
  intros Hpull Hst Hsftp Hch Hmon Hstat.
  assert (∀ e, always_given G (w_sat P) (setProfileMissingCondition server e)) as Hmiss.
  { intros e. eapply always_given_always, always_w_mono, setProfileMissingCondition_writes. done. }
  split; [done|]. intros [profile|e] _; cbn [bind].
  2:{ destruct (IsNotFound e); [|done]. by apply always_given_bind; [|done]. }
  unfold reconcile_profile. apply always_given_bind; [done|].
  intros e0. destruct (wrap_err _ e0); [done|].
  destruct (BuildGameServerPodSpecWithPullSecrets _ _ _) as [podSpec|e].
  2:{ by apply always_given_bind; [|done]. }
  cbv zeta. apply always_given_bind; [|intros [e|]; [done|]].
  { apply always_given_bind; [|intros [e|]; [done|]].
    2:{ eapply always_given_always, always_w_mono, reconcile_children_writes. naive_solver. }
    apply always_given_bind; [|intros [e|]; [done|]].
    - destruct (SFTPEnabled profile); [|done]. by apply always_given_bind; [|done].
    - destruct (negb _); [|done].
      apply always_given_always, no_writes_always, stop_gate_no_writes. }
  apply always_given_bind; [done|].
  intros [d' [e|]]; [done|]. by apply always_given_bind; [|done].
Qed.

Lemma reconcile_live_writes r d server :
  always_w (live_write server) (reconcile_live r d server).
Proof.
  apply always_given_anything, reconcile_live_given.
  - eapply always_given_mono; [|apply ensureImagePullSecrets_own].
    intros X e. unfold w_sat. destruct (write_of e); [|done]. simpl.
    intros (_ & name & _ & [(s & -> & _ & ?)|(s & dst & -> & _ & Hm & ?)]); [done|].
    cbn. by rewrite Hm.
  - by intros w (s & -> & ? & ?).
  - intros profile. apply always_given_always.
    eapply always_w_mono, ensureSFTPSecret_writes. by intros ? (s & -> & _ & ? & _).
  - done.
  - intros profile labels. apply always_given_always.
    eapply always_w_mono, reconcileServiceMonitor_writes.
    intros ? [->|(sm & -> & ? & ? & _)]; by cbn.
  - intros profile. eapply always_given_mono; [|apply reconcile_status_writes].
    intros X e. unfold w_sat. destruct (write_of e); [|done]. simpl.
    intros [(s & -> & ? & ?)|(Hs & ? & sts & _ & ->)]; [done|]. cbn.
    by apply negb_false_iff in Hs.
Qed.

(** *** The objects of a server *)

(** The children of a server, by kind and name. *)
Definition own_names (server : GameServer) : list (kind * string) :=
  let name := gs_name server in
  [(KSts, name); (KSvc, name); (KSvc, name +:+ "-agent"); (KSvc, name +:+ "-game");
   (KPvc, name)].

(** A write to an object of the server: by name, in its namespace. *)
Inductive own_write (r : GameServerReconciler) (server : GameServer) : write → Prop :=
| own_finalizer m :
    m ∈ [AddFinalizer gameServerFinalizer (gs_Meta server);
         RemoveFinalizer gameServerFinalizer (gs_Meta server)] →
    own_write r server (WUpdate KGameServer (gs_set_Meta m server))
| own_status s :
    gs_Meta s = gs_Meta server → gs_Spec s = gs_Spec server →
    own_write r server (WStatusUpdate KGameServer s)
| own_child k o :
    (k, om_Name (obj_meta k o)) ∈ own_names server →
    om_Namespace (obj_meta k o) = gs_ns server →
    om_Controller (obj_meta k o) = Some ("GameServer", gs_name server) →
    own_write r server (WApply k o)
| own_scale sts :
    om_Name (sts_Meta sts) = gs_name server → om_Namespace (sts_Meta sts) = gs_ns server →
    own_write r server (WUpdate KSts (sts_set_Replicas 0 sts))
| own_monitor sm :
    om_Name (sm_Meta sm) = gs_name server → om_Namespace (sm_Meta sm) = gs_ns server →
    om_Controller (sm_Meta sm) = Some ("GameServer", gs_name server) →
    own_write r server (WCreateOrUpdate KServiceMonitor sm)
| own_sftp s :
    om_Name (sec_Meta s) = SFTPSecretName (gs_name server) →
    om_Namespace (sec_Meta s) = gs_ns server →
    om_Controller (sec_Meta s) = Some ("GameServer", gs_name server) →
    own_write r server (WCreate KSecret s)
| own_pull_secret w s :
    w = WCreate KSecret s
    ∨ (w = WUpdate KSecret s ∧ gm_get (om_Labels (sec_Meta s)) replicated_from ≠ "") →
    om_Name (sec_Meta s) ∈ gsr_ImagePullSecrets r →
    om_Namespace (sec_Meta s) = gs_ns server → gs_ns server ≠ gsr_OperatorNamespace r →
    own_write r server w
| own_delete k name :
    (k, name) ∈ (KServiceMonitor, gs_name server)
                :: (KSecret, SFTPSecretName (gs_name server)) :: own_names server →
    own_write r server (WDelete k (gs_ns server) name).

Lemma own_write_ns r server w : own_write r server w → write_ns w = gs_ns server.
Proof.
  destruct 1 as [m Hm|s Hm| | | | |w s Hw| ]; cbn [write_ns obj_meta]; try done.
  - cbn. rewrite !elem_of_cons in Hm. destruct Hm as [->|[->|Hm%elem_of_nil]]; [..|done].
    + apply Add_same_object.
    + apply Remove_same_object.
  - by rewrite Hm.
  - by destruct Hw as [->|[-> _]].
Qed.

Lemma live_apply_own r server k o :
  live_write server (WApply k o) → own_write r server (WApply k o).
Proof.
  intros (Hns & Hc & Hk). apply own_child; [|done|done].
  unfold own_names. destruct k; cbv beta iota delta [obj_meta] in Hk |- *; try done.
  - destruct Hk as [-> _]. left.
  - rewrite !elem_of_cons in Hk. rewrite !elem_of_cons.
    by destruct Hk as [->|[->|[->|Hk%elem_of_nil]]]; auto 8.
  - rewrite Hk, !elem_of_cons. by auto 10.
Qed.

Lemma reconcile_live_own r d server :
  given_w (own_write r server) (reconcile_live r d server).
Proof.
  apply reconcile_live_given.
  - eapply always_given_mono; [|apply ensureImagePullSecrets_own].
    intros X e. unfold w_sat. destruct (write_of e); [|done]. simpl.
    intros (Hne & name & Hin & [(s & -> & Hn & Hns)|(s & dst & -> & [Hns Hn] & Hm & Hl)]).
    + eapply own_pull_secret; [by left| |done|done]. by rewrite Hn.
    + cbn in Hns, Hn. eapply own_pull_secret; [right| | |]; rewrite ?Hm; [done| |done|done].
      by rewrite Hn.
  - intros w (s & -> & ? & ?). by constructor.
  - intros profile. eapply given_w_always; [apply ensureSFTPSecret_writes|].
    intros ? (s & -> & ? & ? & ?). by apply own_sftp.
  - intros w Hw (k & o & ->). by apply live_apply_own.
  - intros profile labels. eapply given_w_always; [apply reconcileServiceMonitor_writes|].
    intros ? [->|(sm & -> & ? & ? & ?)]; [|by apply own_monitor]. apply own_delete. set_solver.
  - intros profile. eapply always_given_mono; [|apply reconcile_status_writes].
    intros X e. unfold w_sat. destruct (write_of e); [|done]. simpl.
    intros [(s & -> & ? & ?)|(_ & _ & sts & [? ?] & ->)]; by constructor.
Qed.

Lemma reconcile_deleted_own r server :
  always_w (own_write r server) (reconcile_deleted server).
Proof.
  unfold reconcile_deleted, cleanupResources, delete_child. writes_safe.
  all: first [by apply no_writes_always, deleteGameServerMetrics_no_writes
             |apply own_delete; set_solver|apply own_finalizer; set_solver].
Qed.

Lemma Reconcile_own r d ns name server t o :
  runs (Reconcile r d ns name) (Ev (Get KGameServer ns name) (inl server) :: t) o →
  Forall (ev_given faithful) t → Forall (own_write r server) (writes t).
Proof.
  intros H%(runs_Get KGameServer) Hg. cbn [bind] in H.
  eapply given_w_runs; [|exact H|exact Hg]. destruct (om_DeletionTimestamp _).
  - eapply given_w_always; [|by intros ? Hw; exact Hw].
    apply always_bind; [apply reconcile_deleted_own|done].
  - destruct (ContainsFinalizer _ _); [apply reconcile_live_own|].
    split; [|done]. apply own_finalizer. set_solver.
Qed.

Lemma Reconcile_live_writes r d ns name server t o :
  runs (Reconcile r d ns name) (Ev (Get KGameServer ns name) (inl server) :: t) o →
  om_DeletionTimestamp (gs_Meta server) = None → Forall (live_write server) (writes t).
Proof.
  intros H%(runs_Get KGameServer) Hdel. cbn [bind] in H. rewrite Hdel in H.
  eapply always_w_runs; [|exact H]. destruct (ContainsFinalizer _ _).
  - apply reconcile_live_writes.
  - split; [|done]. cbn. by rewrite Contains_Add.
Qed.

(** C4: while a game server is not being deleted, a reconcile deletes nothing but
    the ServiceMonitor named after it, whatever the API server and the agent
    answer: the world volume, the StatefulSet, the services and the secrets of
    a live server are never removed. *)
Theorem live_server_never_deletes_data r d ns name server t o :
  runs (Reconcile r d ns name) (Ev (Get KGameServer ns name) (inl server) :: t) o →
  om_DeletionTimestamp (gs_Meta server) = None →
  ∀ k ns' name', WDelete k ns' name' ∈ writes t →
    k = KServiceMonitor ∧ ns' = gs_ns server ∧ name' = gs_name server.
Proof.
  intros H Hdel k ns' name' Hin.
  by apply (proj1 (Forall_forall _ _) (Reconcile_live_writes _ _ _ _ _ _ _ H Hdel)) in Hin.
Qed.

(** C7: a reconcile of a live server applies its StatefulSet with 0 replicas exactly
    when the server's lifecycle says not to start it, with 1 replica otherwise,
    and any other change it makes to a StatefulSet scales it to 0, which only
    the idle timeout of a server that may run does. *)
Theorem live_server_replicas r d ns name server t o :
  runs (Reconcile r d ns name) (Ev (Get KGameServer ns name) (inl server) :: t) o →
  om_DeletionTimestamp (gs_Meta server) = None →
  let auto := AutoStartEnabled (gs_Lifecycle (gs_Spec server)) in
  (∀ s, WApply KSts s ∈ writes t → sts_Replicas s = Some (if auto then 1 else 0))
  ∧ (∀ s, WUpdate KSts s ∈ writes t →
       auto = true ∧ 0 < lc_IdleTimeoutSeconds (gs_Lifecycle (gs_Spec server))
       ∧ sts_Replicas s = Some 0)
  ∧ ∀ s, WCreate KSts s ∉ writes t.
Proof.
  intros H Hdel auto. pose proof (Reconcile_live_writes _ _ _ _ _ _ _ H Hdel) as Hw.
  rewrite Forall_forall in Hw. split_and!; intros s Hin%Hw; clear Hw; cbn in Hin; naive_solver.
Qed.

(** C8: a reconcile, of a live or of a deleted server, writes only the server's
    own objects, each of them by name and in the server's namespace: the server
    itself (its status, or its finalizer, with the same spec and identity), the
    five children, the ServiceMonitor, the SFTP secret, and the configured pull
    secrets, which are only refreshed where they were replicated and never in
    the operator's own namespace.  What it applies is owned by the server. *)
Theorem reconcile_frame r d ns name server t o :
  runs (Reconcile r d ns name) (Ev (Get KGameServer ns name) (inl server) :: t) o →
  Forall (ev_given faithful) t →
  Forall (λ w, own_write r server w ∧ write_ns w = gs_ns server) (writes t).
Proof.
  intros H Hg. eapply Forall_impl; [by eapply Reconcile_own|].
  intros w Hw. split; [done|]. by eapply own_write_ns.
Qed.

(** C10: image pull secrets are replicated safely.  The operator's own namespace is
    never written to; every write is of a configured name and carries the
    content of the operator's secret of that name.  It is created, marked as a
    replica, only when the namespace was found to have none; it is refreshed,
    with its metadata kept, only when the one found there has that mark, so a
    user's own secret of the same name is never overwritten. *)
Theorem pull_secrets_safe r ns t o :
  runs (ensureImagePullSecrets r ns) t o →
  Forall (λ w,
    ns ≠ gsr_OperatorNamespace r ∧
    ∃ name src, name ∈ gsr_ImagePullSecrets r
      ∧ Ev (Get KSecret (gsr_OperatorNamespace r) name) (inl src) ∈ t
      ∧ ((∃ err, Ev (Get KSecret ns name) (inr err) ∈ t ∧ IsNotFound err = true
            ∧ w = WCreate KSecret {|
                sec_Meta := new_meta name ns
                              (Some {["minato.io/replicated-from" := gsr_OperatorNamespace r]});
                sec_Type := sec_Type src; sec_Data := sec_Data src |})
         ∨ ∃ dst s, Ev (Get KSecret ns name) (inl dst) ∈ t
             ∧ gm_get (om_Labels (sec_Meta dst)) "minato.io/replicated-from" ≠ ""
             ∧ w = WUpdate KSecret s ∧ sec_Meta s = sec_Meta dst
             ∧ sec_Type s = sec_Type src ∧ sec_Data s = sec_Data src))
    (writes t).
Proof.
  unfold ensureImagePullSecrets. destruct (_ || _ || _) eqn:E; [intros [-> _]; constructor|].
  apply orb_false_iff in E as [_ E]. apply String.eqb_neq in E. intros H.
  eapply Forall_impl; [by eapply for_each_pull_writes|].
  intros w (name & Hn & src & Hs & Hw). split; [done|]. by exists name, src.
Qed.
End Live.

(** ** The finalizer protocol *)

(** The deletions of a clean-up, in order. *)
Definition cleanup_deletes (server : GameServer) : list write :=
  let ns := gs_ns server in
  let name := gs_name server in
  [WDelete KSts ns name; WDelete KSvc ns name; WDelete KSvc ns (name +:+ "-agent");
   WDelete KSvc ns (name +:+ "-game"); WDelete KPvc ns name;
   WDelete KSecret ns (SFTPSecretName name)].

Definition delete_ok (v : event op) : Prop :=
  match v with
  | Ev e x =>
      match e in op X return X → Prop with
      | Delete _ _ _ => λ x, unless IsNotFound x = None
      | _ => λ _, True
      end x
  end.

Lemma delete_child_runs k ns n t o :
  runs (delete_child k ns n) t o →
  ∃ x, t = [Ev (Delete k ns n) x] ∧ o = Done (unless IsNotFound x).
Proof. intros (x & t' & -> & [-> ->]). eauto. Qed.

(** One step of the clean-up: it fails, or the deletion was acknowledged. *)
Lemma cleanup_step k ns n (rest : M (option gerr)) ds t o :
  runs (delete_child k ns n ?;; rest) t o →
  (∀ t o, runs rest t o →
     (o = Done None ∧ writes t = ds ∧ Forall delete_ok t)
     ∨ ∃ e, o = Done (Some e) ∧ writes t `prefix_of` ds) →
  (o = Done None ∧ writes t = WDelete k ns n :: ds ∧ Forall delete_ok t)
  ∨ ∃ e, o = Done (Some e) ∧ writes t `prefix_of` WDelete k ns n :: ds.
Proof.
  intros H Hrest. run_step H; [apply delete_child_runs in Hrun as (x & _ & ?); done|].
  apply delete_child_runs in Hrun as (x & -> & [= ->]).
  destruct (unless IsNotFound x) as [e|] eqn:Ex.
  - destruct H as [-> ->]. right. exists e. split; [done|]. by exists ds.
  - destruct (Hrest _ _ H) as [(-> & <- & Hok)|(e & -> & [l Hl])].
    + left. split_and!; [done..|]. by constructor.
    + right. exists e. split; [done|]. exists l. rewrite Hl. done.
Qed.

Lemma cleanupResources_runs server t o :
  runs (cleanupResources server) t o →
  (o = Done None ∧ writes t = cleanup_deletes server ∧ Forall delete_ok t)
  ∨ ∃ e, o = Done (Some e) ∧ writes t `prefix_of` cleanup_deletes server.
Proof.
  unfold cleanupResources, cleanup_deletes. intros H.
  do 6 (eapply cleanup_step; [exact H|]; clear t o H; intros t o H).
  left. run_step H; [|].
  - destruct (no_panic_runs _ _ _ (deleteGameServerMetrics_no_panic _ _) Hrun) as [? ?]. done.
  - destruct H as [-> ->]. rewrite (app_nil_r t0). split; [done|].
    unfold deleteGameServerMetrics, effect in Hrun. cbn in Hrun.
    destruct Hrun as (?&?&->&?&?&->&?&?&->&->&?). split; [done|]. by repeat constructor.
Qed.

(** ** Completeness of a successful reconcile *)

Section Complete.
Context `{Hfin : !FinalizerOps, Hqty : !QuantityParser}.

(** C5: the finalizer protocol.  When a server is deleted its finalizer is removed only
    after the deletion of each child (StatefulSet, three services, volume claim,
    SFTP secret) was acknowledged or reported missing; a failed deletion ends
    the reconcile with that error and the finalizer in place, so it is retried;
    a reconcile without error has deleted everything and removed it. *)
Theorem finalizer_protocol r d ns name server t d' q e :
  runs (Reconcile r d ns name) (Ev (Get KGameServer ns name) (inl server) :: t) (Done (d', (q, e))) →
  om_DeletionTimestamp (gs_Meta server) ≠ None →
  ContainsFinalizer gameServerFinalizer (gs_Meta server) = true →
  (∃ s, writes t = cleanup_deletes server ++ [WUpdate KGameServer s] ∧ Forall delete_ok t
        ∧ ContainsFinalizer gameServerFinalizer (gs_Meta s) = false
        ∧ gs_Spec s = gs_Spec server ∧ gs_Status s = gs_Status server)
  ∨ (e ≠ None ∧ writes t `prefix_of` cleanup_deletes server).
Proof.
  intros H%(runs_Get KGameServer) Hdel Hf. cbn [bind] in H.
  destruct (om_DeletionTimestamp _) eqn:E; [clear Hdel|done].
  run_step H. destruct H as [-> [= -> -> ->]]. rewrite app_nil_r.
  unfold reconcile_deleted in Hrun. rewrite Hf in Hrun.
  run_step Hrun.
  destruct (cleanupResources_runs _ _ _ Hrun0) as [([= ->] & Hw & Hok)|(e & [= ->] & Hw)].
  - destruct Hrun as (x & ? & -> & [-> [= ->]]). left. eexists.
    rewrite writes_app, Hw. split_and!; [done| |apply Contains_Remove|done|done].
    apply Forall_app. split; [done|]. by repeat constructor.
  - destruct Hrun as [-> [= ->]]. right. by rewrite app_nil_r.
Qed.

(** A successful run of [apply_owned] applied the object. *)
Lemma apply_owned_done server k o t :
  runs (apply_owned server k o) t (Done None) →
  WApply k (obj_map_meta (meta_set_Controller (owner_of server)) k o) ∈ writes t.
Proof.
  intros ([e|] & t1 & -> & H); [by destruct H|].
  destruct H as (x & ? & -> & [-> [= ->]]). set_solver.
Qed.

Lemma seq_err_done (p q : M (option gerr)) t :
  runs (p ?;; q) t (Done None) →
  ∃ t1 t2, t = t1 ++ t2 ∧ runs p t1 (Done None) ∧ runs q t2 (Done None).
Proof.
  intros [(m & _ & ?)|(a & t1 & t2 & -> & Hp & Hq)]%runs_bind; [done|].
  destruct a; [by destruct Hq|]. eauto 6.
Qed.

(** The children of a server, as they are applied. *)
Definition children (r : GameServerReconciler) (server : GameServer) (profile : GameProfile)
    (podSpec : PodSpec) (stopping : bool) : list write :=
  let labels := buildGameServerLabels server profile in
  let own k o := WApply k (obj_map_meta (meta_set_Controller (owner_of server)) k o) in
  [own KSts (child_sts server podSpec labels stopping);
   own KSvc (buildHeadlessService server labels);
   own KSvc (addAgentMetricsPort (buildAgentService server labels) profile);
   own KSvc (buildGameService server profile labels (gsr_ExternalDNSZone r));
   own KPvc (buildPVC server profile)].

Lemma reconcile_children_done r server profile podSpec stopping t :
  runs (reconcile_children r server profile podSpec (buildGameServerLabels server profile) stopping)
    t (Done None) →
  ∀ w, w ∈ children r server profile podSpec stopping → w ∈ writes t.
Proof.
  unfold reconcile_children. intros H w Hw.
  apply seq_err_done in H as (t1 & t2 & -> & H1%apply_owned_done & H).
  apply seq_err_done in H as (t3 & t4 & -> & H2%apply_owned_done & H).
  apply seq_err_done in H as (t5 & t6 & -> & H3%apply_owned_done & H).
  apply seq_err_done in H as (t7 & t8 & -> & H4%apply_owned_done & H5%apply_owned_done).
  rewrite !writes_app, !elem_of_app. unfold children in Hw. rewrite !elem_of_cons in Hw.
  destruct Hw as [->|[->|[->|[->|[->|Hw%elem_of_nil]]]]]; auto 10. done.
Qed.

Lemma reconcile_status_stopped r server profile t q :
  runs (reconcile_status r server profile true) t (Done (q, None)) →
  q = no_requeue
  ∧ ∃ now, WStatusUpdate KGameServer (gs_set_Status (stopped_status server now) server) ∈ writes t.
Proof.
  intros ([sts|e] & t1 & -> & H); [|by destruct H].
  cbn [bind call] in H. destruct H as (now & t2 & -> & H). cbn [bind] in H.
  destruct H as ([e|] & t3 & -> & H); cbn [bind] in H; [by destruct H|].
  run_step H. destruct H as [-> [= ->]]. split; [done|]. exists now. set_solver.
Qed.

(** C6: a reconcile that resolved the profile and ends without an error has applied all five
    children exactly as built from the profile and the server; if the server
    is to be stopped, it has also reported it stopped, with no players and no
    endpoints, and asks for no requeue. *)
Theorem reconcile_complete r d server profile t d' q :
  runs (reconcile_profile r d server profile) t (Done (d', (q, None))) →
  let stopping := negb (AutoStartEnabled (gs_Lifecycle (gs_Spec server))) in
  ∃ podSpec,
    BuildGameServerPodSpecWithPullSecrets profile server (gsr_ImagePullSecrets r) = inl podSpec
    ∧ (∀ w, w ∈ children r server profile podSpec stopping → w ∈ writes t)
    ∧ (stopping = true → q = no_requeue
       ∧ ∃ s, WStatusUpdate KGameServer s ∈ writes t ∧ gss_State (gs_Status s) = stateStopped
              ∧ gss_Endpoints (gs_Status s) = [] ∧ gss_Players (gs_Status s) = 0).
Proof.
  intros H stopping. unfold reconcile_profile in H.
  run_step H. destruct (wrap_err _ a); [by destruct H as [_ [=]]|].
  destruct (BuildGameServerPodSpecWithPullSecrets _ _ _) as [podSpec|e].
  2:{ run_step H. by destruct H as [_ [=]]. }
  exists podSpec. split; [done|]. cbv zeta in H. fold stopping in H.
  run_step H. destruct a0 as [e|]; [by destruct H as [_ [=]]|].
  apply seq_err_done in Hrun0 as (u & v & -> & _ & Hch).
  run_step H. destruct a0 as [d2 [e|]]; [by destruct H as [_ [=]]|].
  run_step H. destruct H as [-> H]; simplify_eq. split.
  - intros w Hw. rewrite !writes_app, !elem_of_app.
    pose proof (reconcile_children_done _ _ _ _ _ _ Hch w Hw). auto.
  - intros Hs. rewrite Hs in Hrun1.
    apply reconcile_status_stopped in Hrun1 as [-> [now Hin]]. split; [done|].
    exists (gs_set_Status (stopped_status server now) server).
    rewrite !writes_app, !elem_of_app. split; [by auto 10|done].
Qed.
End Complete.

(** ** Idle timeout and agent checks *)

(** C9: the idle timeout scales a server down only if it was not scaled down
    already, its agent just reported no players, and at least the configured
    number of seconds has passed since the last recorded activity; the only
    change made to the StatefulSet is the replica count. *)
Theorem idle_scale_down_justified server sts t o s :
  runs (checkIdleTimeout server sts) t o → WUpdate KSts s ∈ writes t →
  s = sts_set_Replicas 0 sts ∧ sts_Replicas sts ≠ Some 0
  ∧ (∃ players capacity,
       Ev (AgentGetPlayers (agentAddress server) healthCheckTimeout) (inl (players, capacity)) ∈ t
       ∧ players <= 0)
  ∧ ∃ last now, gss_LastActivity (gs_Status server) = Some last ∧ Ev Now now ∈ t
      ∧ seconds (lc_IdleTimeoutSeconds (gs_Lifecycle (gs_Spec server))) <= time_sub now last.
Proof.
  unfold checkIdleTimeout. intros H Hin. case_bool_decide as Hr.
  { destruct H as [-> _]. by apply elem_of_nil in Hin. }
  unfold getPlayerCount, dialAgent in H. cbn in H.
  destruct H as ([e|] & t1 & -> & H); cbn in H.
  { destruct H as [-> _]. by apply elem_of_nil in Hin. }
  destruct H as ([[players capacity]|e] & t2 & -> & H); cbn [bind] in H; cbn in Hin.
  2:{ destruct H as [-> _]. by apply elem_of_nil in Hin. }
  cbv zeta in H. destruct (0 <? players) eqn:Ep.
  { cbn in H. destruct H as (? & ? & -> & ? & ? & -> & -> & _). cbn in Hin.
    apply list_elem_of_singleton in Hin. done. }
  apply Z.ltb_ge in Ep. cbn [gs_Status gs_set_Status gss_set_players gss_LastActivity] in H.
  destruct (gss_LastActivity (gs_Status server)) as [last|] eqn:El.
  2:{ cbn in H. destruct H as (now & ? & -> & r & ? & -> & H). cbn in Hin.
      destruct r; destruct H as [-> _]; by apply list_elem_of_singleton in Hin. }
  cbn [bind call] in H. destruct H as (now & t3 & -> & H).
  destruct (_ <=? time_sub now last) eqn:Ei.
  2:{ destruct H as [-> _]. by apply elem_of_nil in Hin. }
  apply Z.leb_le in Ei. split_and!; [|done|exists players, capacity; split; [set_solver|done]|].
  2:{ exists last, now. split_and!; [done|set_solver|done]. }
  clear -H Hin. cbn in Hin.
  assert (Forall (λ w, w = WUpdate KSts (sts_set_Replicas 0 sts) ∨ ∃ s, w = WStatusUpdate KGameServer s)
            (writes t3)) as Hall.
  { eapply always_w_runs, H. writes_safe; [by left|by right; eexists]. }
  rewrite Forall_forall in Hall. apply Hall in Hin as [?|[? ?]]; by simplify_eq.
Qed.

Lemma server_endpoints_ports profile address :
  (λ e, (ep_Name e, ep_Port e)) <$> server_endpoints profile address
  = omap (λ p, if ExposedPort p then Some (port_Name p, port_ContainerPort p) else None)
      (gp_Ports (gp_Spec profile))
    ++ (if SFTPEnabled profile then [("sftp", 2022)] else []).
Proof.
  unfold server_endpoints. rewrite fmap_app, <-list_fmap_compose.
  f_equal; [|by destruct (SFTPEnabled profile)].
  induction (gp_Ports (gp_Spec profile)) as [|p ports IH]; [done|].
  rewrite filter_cons. cbn [omap list_omap]. destruct (ExposedPort p) eqn:E; cbn.
  - rewrite decide_True by done. cbn. by rewrite <-IH.
  - by rewrite decide_False by done.
Qed.

Lemma server_endpoints_address profile address e :
  e ∈ server_endpoints profile address → ep_Address e = address.
Proof.
  unfold server_endpoints. rewrite elem_of_app, list_elem_of_fmap.
  intros [(p & -> & _)|He]; [done|]. destruct (SFTPEnabled profile); [|by apply elem_of_nil in He].
  by apply list_elem_of_singleton in He as ->.
Qed.

(** a server is never advertised without an address: the endpoints are
    empty, or one per exposed port of the profile (plus SFTP when enabled), all
    at one non-empty address, which is the DNS name when a zone is configured
    and otherwise the first ingress of the game service. *)
Theorem endpoints_correct r server profile t eps :
  runs (resolveEndpoints r server profile) t (Done eps) →
  eps = []
  ∨ ∃ address, address ≠ "" ∧ (∀ e, e ∈ eps → ep_Address e = address)
      ∧ ((λ e, (ep_Name e, ep_Port e)) <$> eps
         = omap (λ p, if ExposedPort p then Some (port_Name p, port_ContainerPort p) else None)
             (gp_Ports (gp_Spec profile))
           ++ (if SFTPEnabled profile then [("sftp", 2022)] else []))
      ∧ if gsr_ExternalDNSZone r =s "" then
          ∃ svc ingress rest,
            Ev (Get KSvc (gs_ns server) (gs_name server +:+ "-game")) (inl svc) ∈ t
            ∧ svc_Ingress svc = ingress :: rest
            ∧ address = (if lbi_IP ingress =s "" then lbi_Hostname ingress else lbi_IP ingress)
        else address = gs_name server +:+ "." +:+ gsr_ExternalDNSZone r.
Proof.
  unfold resolveEndpoints. intros H. run_step H.
  destruct (String.eqb_spec a "") as [?|Ha]; [destruct H as [_ [= ->]]; by left|].
  destruct H as [-> [= ->]]. right. exists a. split; [done|].
  split; [intros e; apply server_endpoints_address|]. split; [apply server_endpoints_ports|].
  destruct (gsr_ExternalDNSZone r =s "") eqn:Ez; cbn in Hrun; rewrite ?Ez in Hrun; cbn in Hrun.
  - destruct Hrun as ([svc|e] & t1 & -> & Hr); cbn [bind] in Hr; [|by destruct Hr as [_ [= ->]]].
    destruct (svc_Ingress svc) as [|ingress rest] eqn:Ei; [by destruct Hr as [_ [= ->]]|].
    destruct Hr as [-> [= ->]]. exists svc, ingress, rest. split_and!; [set_solver|done..].
  - by destruct Hrun as [_ [= ->]].
Qed.

(** a ready server is always visited again: whatever the agent and the API
    server answer, that part of the reconcile ends without error and without
    crashing, and asks for a requeue after a positive delay. *)
Theorem ready_server_requeued server sts t o :
  runs (reconcile_ready server sts) t o → ∃ q, o = Done (q, None) ∧ 0 < q.
Proof.
  intros H.
  assert (no_panic (reconcile_ready server sts)) as Hnp.
  { unfold reconcile_ready, checkAgentHealth, updateAgentStatus, checkIdleTimeout, getPlayerCount,
      callAgentShutdown, dialAgent, recordGameServerMetrics. safe_calls. }
  destruct (no_panic_runs _ _ _ Hnp H) as [[q e] ->].
  eapply (ret_sat_runs (λ x, ∃ q, Done x = Done (q, None) ∧ 0 < q)), H.
  unfold reconcile_ready. ret_calls.
  - eexists. split; [done|]. by apply Z.ltb_lt.
  - by eexists.
  - by eexists.
Qed.

(** ** Witnesses *)

Definition ex_reconciler : GameServerReconciler := {|
  gsr_OperatorNamespace := "minato-system"; gsr_ImagePullSecrets := ["regcred"];
  gsr_ExternalDNSZone := ""; gsr_Recorder := true |}.
Definition ex_quantities : QuantityParser := λ s, if s =s "10Gi" then Some (10 * Gi) else None.

Definition with_lifecycle (idle : Z) (auto : option bool) (s : GameServer) : GameServer :=
  let sp := gs_Spec s in {|
  gs_Meta := gs_Meta s; gs_Status := gs_Status s;
  gs_Spec := {|
    gs_Profile := gs_Profile sp; gs_Tier := gs_Tier sp; gs_Env := gs_Env sp;
    gs_Storage := gs_Storage sp;
    gs_Lifecycle := {| lc_IdleTimeoutSeconds := idle; lc_AutoStart := auto |};
    gs_PriorityClassName := gs_PriorityClassName sp;
    gs_TopologySpreadConstraints := gs_TopologySpreadConstraints sp;
    gs_LoadBalancerIP := gs_LoadBalancerIP sp |} |}.

(** A server with its finalizer, to be stopped or not, deleted or not. *)
Definition ex_live : GameServer :=
  gs_set_Meta (meta_set_Finalizers [gameServerFinalizer] (gs_Meta ex_server)) ex_server.
Definition ex_stopped : GameServer := with_lifecycle 600 (Some false) ex_live.
Definition ex_deleted : GameServer :=
  gs_set_Meta {|
    om_Name := "smp"; om_Namespace := "tenant-a"; om_Labels := None; om_Annotations := None;
    om_Generation := 2; om_CreationTimestamp := 0; om_DeletionTimestamp := Some 5;
    om_Finalizers := [gameServerFinalizer]; om_Controller := None |} ex_server.

Definition ex_pod : PodSpec := {|
  ps_Containers := []; ps_Volumes := []; ps_SecurityContext := None; ps_ImagePullSecrets := [];
  ps_PriorityClassName := ""; ps_TopologySpreadConstraints := [] |}.
Definition ex_sts : StatefulSet := {|
  sts_Meta := new_meta "smp" "tenant-a" None; sts_Replicas := Some 1; sts_Selector := ∅;
  sts_ServiceName := "smp"; sts_TemplateLabels := ∅; sts_TemplateSpec := ex_pod;
  sts_ReadyReplicas := 1 |}.
Definition ex_secret : Secret := {|
  sec_Meta := new_meta "regcred" "minato-system" (Some {[replicated_from := "minato-system"]});
  sec_Type := "kubernetes.io/dockerconfigjson"; sec_Data := ∅ |}.

Definition ex_env (server : GameServer) : ∀ X, op X → X :=
  answer (with_obj KGameServer server (with_obj KGameProfile ex_profile
           (with_obj KSts ex_sts (with_obj KSecret ex_secret no_objects)))) no_lists 1000.
Definition ex_prog (server : GameServer) : M (Detection * (Result * option gerr)) :=
  @Reconcile list_FinalizerOps ex_quantities ex_reconciler ResetPrometheusDetection "tenant-a" "smp".
Definition ex_trace (server : GameServer) : list (event op) :=
  tail (run_trace (ex_env server) (ex_prog server)).

Lemma ex_runs server :
  runs (ex_prog server) (Ev (Get KGameServer "tenant-a" "smp") (inl server) :: ex_trace server)
    (run_outcome (ex_env server) (ex_prog server)).
Proof. by apply run_runs_cons. Qed.

Lemma live_server_never_deletes_data_witness :
  length (writes (ex_trace ex_live)) = 10%nat
  ∧ ∀ k ns' name', WDelete k ns' name' ∈ writes (ex_trace ex_live) → k = KServiceMonitor.
Proof.
  split; [vm_compute; reflexivity|]. intros k ns' name' H.
  exact (proj1 (live_server_never_deletes_data _ _ _ _ ex_live _ _ (ex_runs ex_live) eq_refl
                  k ns' name' H)).
Defined.

Lemma live_server_replicas_witness :
  ∃ s, WApply KSts s ∈ writes (ex_trace ex_stopped) ∧ sts_Replicas s = Some 0.
Proof.
  eexists. assert (WApply KSts _ ∈ writes (ex_trace ex_stopped)) as H
    by (eapply (list_elem_of_lookup_2 _ 1); reflexivity).
  split; [exact H|].
  exact (proj1 (live_server_replicas _ _ _ _ ex_stopped _ _ (ex_runs ex_stopped) eq_refl) _ H).
Defined.

(** The same objects, each found under its own name only. *)
Definition ex_named (k : kind) (ns n : string) : obj k + gerr :=
  let found := with_obj KGameServer ex_live (with_obj KGameProfile ex_profile
                 (with_obj KSts ex_sts (with_obj KSecret ex_secret no_objects))) k ns n in
  match found with
  | inl o => if (om_Namespace (obj_meta k o) =s ns) && (om_Name (obj_meta k o) =s n)
             then inl o else no_objects k ns n
  | inr e => inr e
  end.
Definition ex_own_env : ∀ X, op X → X := answer ex_named no_lists 1000.
Definition ex_own_trace : list (event op) := tail (run_trace ex_own_env (ex_prog ex_live)).

(** A run in this environment is faithful, whatever it reads. *)
Lemma run_faithful {A} (p : M A) : Forall (ev_given faithful) (run_trace ex_own_env p).
Proof.
  induction p as [a|X e k IH|m]; cbn [run_trace]; [constructor| |constructor].
  constructor; [|apply IH]. destruct e; try exact I. cbn. unfold ex_named.
  destruct (with_obj _ _ _ _ _ _) as [o|err]; [|exact I].
  destruct (String.eqb_spec (om_Namespace (obj_meta k0 o)) ns); cbn [andb]; [|exact I].
  destruct (String.eqb_spec (om_Name (obj_meta k0 o)) name); [by split|exact I].
Qed.

Lemma reconcile_frame_witness :
  length (writes ex_own_trace) = 11%nat
  ∧ Forall (λ w, write_ns w = "tenant-a") (writes ex_own_trace).
Proof.
  split; [vm_compute; reflexivity|].
  eapply Forall_impl; [eapply (reconcile_frame ex_reconciler _ "tenant-a" "smp" ex_live)|].
  - exact (run_runs_cons ex_own_env (ex_prog ex_live) _ eq_refl).
  - apply (Forall_tail _ (run_trace ex_own_env (ex_prog ex_live))). apply run_faithful.
  - intros w [_ H]. exact H.
Defined.

Lemma pull_secrets_safe_witness :
  let t := run_trace (ex_env ex_live) (ensureImagePullSecrets ex_reconciler "tenant-a") in
  Forall (λ w, ∃ name src, name ∈ ["regcred"]
    ∧ Ev (Get KSecret "minato-system" name) (inl src) ∈ t) (writes t) ∧ writes t ≠ [].
Proof.
  split; [|done].
  eapply Forall_impl; [exact (pull_secrets_safe ex_reconciler "tenant-a" _ _
                                (run_runs (ex_env ex_live) _))|].
  intros w (_ & name & src & Hn & Hs & _). by exists name, src.
Defined.

Lemma finalizer_protocol_witness :
  ∃ s, writes (ex_trace ex_deleted) = cleanup_deletes ex_deleted ++ [WUpdate KGameServer s]
       ∧ Forall delete_ok (ex_trace ex_deleted).
Proof.
  pose proof (@finalizer_protocol list_FinalizerOps ex_quantities ex_reconciler
    ResetPrometheusDetection "tenant-a" "smp" ex_deleted _ _ _ _ (ex_runs ex_deleted)
    ltac:(done) eq_refl) as [(s & H & Hok & _)|[H _]]; [by exists s|by destruct H].
Defined.

Lemma reconcile_complete_witness :
  let t := run_trace (ex_env ex_stopped) (@reconcile_profile ex_quantities ex_reconciler
             ResetPrometheusDetection ex_stopped ex_profile) in
  ∃ s, WStatusUpdate KGameServer s ∈ writes t ∧ gss_State (gs_Status s) = "Stopped".
Proof.
  destruct (@reconcile_complete ex_quantities ex_reconciler ResetPrometheusDetection ex_stopped
    ex_profile _ _ _ (run_runs (ex_env ex_stopped) _)) as (podSpec & _ & _ & H).
  destruct (H eq_refl) as (_ & s & ? & ? & _). by exists s.
Defined.

(** A server idle since the instant 0, seen 1000 seconds later. *)
Definition ex_idle : GameServer :=
  gs_set_Status (gss_set_activity stateRunning (Some 0) (gs_Status ex_live)) ex_live.
Definition ex_later : ∀ X, op X → X := answer no_objects no_lists (1000 * second).

Lemma idle_scale_down_justified_witness :
  let t := run_trace ex_later (checkIdleTimeout ex_idle ex_sts) in
  WUpdate KSts (sts_set_Replicas 0 ex_sts) ∈ writes t
  ∧ ∃ last now, gss_LastActivity (gs_Status ex_idle) = Some last ∧ Ev Now now ∈ t
      ∧ seconds 600 <= time_sub now last.
Proof.
  intros t. assert (WUpdate KSts (sts_set_Replicas 0 ex_sts) ∈ writes t) as H
    by (eapply (list_elem_of_lookup_2 _ 0); reflexivity).
  split; [exact H|].
  exact (proj2 (proj2 (proj2 (idle_scale_down_justified ex_idle ex_sts t _ _
    (run_runs ex_later _) H)))).
Defined.

Lemma endpoints_correct_witness :
  let r := {| gsr_OperatorNamespace := ""; gsr_ImagePullSecrets := [];
              gsr_ExternalDNSZone := "play.example"; gsr_Recorder := false |} in
  ∃ eps, run_outcome ex_later (resolveEndpoints r ex_live ex_profile) = Done eps
  ∧ length eps = 3%nat ∧ ∀ e, e ∈ eps → ep_Address e = "smp.play.example".
Proof.
  intros r. eexists. split; [reflexivity|]. split; [reflexivity|].
  destruct (endpoints_correct r ex_live ex_profile _ _ (run_runs ex_later _))
    as [H|(address & _ & Hall & _ & Ha)]; [discriminate H|].
  cbn in Ha. rewrite <-Ha. exact Hall.
Defined.

Lemma ready_server_requeued_witness :
  ∃ q, run_outcome ex_later (reconcile_ready ex_idle ex_sts) = Done (q, None) ∧ 0 < q.
Proof. exact (ready_server_requeued ex_idle ex_sts _ _ (run_runs ex_later _)). Defined.
