(* ===== verification/FleetCtl.v ===== *)
(** * FleetCtl: the GameServerFleet controller
    ([internal/controllers/gameserverfleet_controller.go]) *)

From S2P Require Import Prelude GoStrings Prog Api Kube Builder Monitoring GameServerObjects Sftp GameServerCtl.

Definition gameServerFleetFinalizer := "minato.io/gameserverfleet-finalizer".
Definition fleetLabel := "minato.io/fleet".
Definition fleetGenerationLabel := "minato.io/fleet-generation".
Definition defaultDrainTimeoutSeconds : Z := 30.

Definition fleet_ns (f : GameServerFleet) : string := om_Namespace (fl_Meta f).
Definition fleet_name (f : GameServerFleet) : string := om_Name (fl_Meta f).
Definition fleet_generation (f : GameServerFleet) : string := itoa (om_Generation (fl_Meta f)).
Definition fl_set_Meta (m : ObjectMeta) (f : GameServerFleet) : GameServerFleet :=
  {| fl_Meta := m; fl_Spec := fl_Spec f; fl_Status := fl_Status f |}.

(** ** Building servers *)

Definition fleet_server_name (fleet : GameServerFleet) (index : Z) : string :=
  fleet_name fleet +:+ "-" +:+ itoa index.

Definition buildGameServer (fleet : GameServerFleet) (index : Z) : GameServer :=
  let spec := fl_Spec fleet in
  let tpl := fl_Template spec in
  let labels : gmap string string := {[
    "app.kubernetes.io/name" := "minato";
    fleetLabel := fleet_name fleet;
    "minato.io/profile" := fl_Profile spec;
    "minato.io/managed-by" := "gameserverfleet";
    fleetGenerationLabel := fleet_generation fleet]} in
  let labels := gm_copy labels (tm_Labels (tpl_Metadata tpl)) in
  let annotations := gm_copy ∅ (tm_Annotations (tpl_Metadata tpl)) in
  {| gs_Meta := meta_set_maps (Some labels) (Some annotations)
                  (new_meta (fleet_server_name fleet index) (fleet_ns fleet) None);
     gs_Spec := {|
       gs_Profile := fl_Profile spec; gs_Tier := "";
       gs_Env := fgs_Env (tpl_Spec tpl);
       gs_Storage := {| gst_Size := ""; gst_StorageClass := ""; gst_SnapshotRef := None |};
       gs_Lifecycle := {| lc_IdleTimeoutSeconds := 0; lc_AutoStart := None |};
       gs_PriorityClassName := fl_PriorityClassName spec;
       gs_TopologySpreadConstraints := fl_TopologySpreadConstraints spec;
       gs_LoadBalancerIP := "" |};
     gs_Status := {|
       gss_State := ""; gss_AgentVersion := ""; gss_Players := 0; gss_PlayerCapacity := 0;
       gss_LastActivity := None; gss_Endpoints := []; gss_Conditions := [] |} |}.

(** ** Scale-down selection *)

Definition str_ltb (a b : string) : bool := negb (String.leb b a).

Definition players_of (s : GameServer) : Z := gss_Players (gs_Status s).
Definition created_of (s : GameServer) : Z := om_CreationTimestamp (gs_Meta s).

Definition delete_less (a b : GameServer) : bool :=
  if negb (players_of a =? players_of b) then players_of a <? players_of b
  else if negb (created_of a =? created_of b) then created_of a <? created_of b
  else str_ltb (gs_name a) (gs_name b).

(** [None] is the panic of slicing with a bound out of range. *)
Definition selectServersToDelete `{!SortSlice} (servers : list GameServer)
    (desiredReplicas : Z) (updateStrategy : string) : option (list GameServer) :=
  if updateStrategy =s "OnDelete" then Some []
  else
    let sorted := sort_slice delete_less servers in
    let excess := wrap32 (wrap32 (Z.of_nat (length sorted)) - desiredReplicas) in
    if excess <=? 0 then Some [] else slice_to excess sorted.

(** ** Drain *)

Definition warnDrainFailed (recorder : bool) (server : GameServer) (reason : string) (e : gerr)
  : M unit :=
  if recorder
  then effect (RecordEvent (gs_ns server, gs_name server) "Warning" reason
         ("graceful agent shutdown failed, deleting anyway: " +:+ ge_msg e))
  else Ret tt.

Definition drain_timeout (fleet : GameServerFleet) : Z :=
  match us_RollingUpdate (fl_UpdateStrategy (fl_Spec fleet)) with
  | Some ru => if 0 <? ru_DrainTimeoutSeconds ru then ru_DrainTimeoutSeconds ru
               else defaultDrainTimeoutSeconds
  | None => defaultDrainTimeoutSeconds
  end.

Definition drainServer (recorder : bool) (fleet : GameServerFleet) (server : GameServer)
  : M unit :=
  let st := gs_Status server in
  if (gss_State st <>s "Running") || (gss_AgentVersion st =s "") then Ret tt
  else
    let timeoutSeconds := drain_timeout fleet in
    let* conn := dialAgent server in
    match conn with
    | inr e => warnDrainFailed recorder server "AgentDialFailed" e
    | inl conn =>
        let* e := call (AgentPrepareShutdown conn (seconds timeoutSeconds) timeoutSeconds
                          "fleet scale-down") in
        match e with
        | Some e => warnDrainFailed recorder server "AgentShutdownFailed" e
        | None => Ret tt
        end
    end.

(** ** Rolling update *)

Definition outdated (fleet : GameServerFleet) (s : GameServer) : bool :=
  gm_get (om_Labels (gs_Meta s)) fleetGenerationLabel <>s fleet_generation fleet.

Definition update_less (a b : GameServer) : bool :=
  if negb (players_of a =? players_of b) then players_of a <? players_of b
  else created_of a <? created_of b.

Definition max_unavailable (fleet : GameServerFleet) : Z :=
  match us_RollingUpdate (fl_UpdateStrategy (fl_Spec fleet)) with
  | Some ru => default 1 (ru_MaxUnavailable ru)
  | None => 1
  end.

(** The server with the fleet template merged in; [None] is the panic of the
    write to a nil label map. *)
Definition updated_server (fleet : GameServerFleet) (server : GameServer) : option GameServer :=
  let spec := gs_Spec server in
  let tpl := fl_Template (fl_Spec fleet) in
  labels ← gm_set fleetGenerationLabel (fleet_generation fleet) (om_Labels (gs_Meta server));
  let env := gm_copy (gm_make (gs_Env spec)) (fgs_Env (tpl_Spec tpl)) in
  let labels := gm_copy (gm_make labels) (tm_Labels (tpl_Metadata tpl)) in
  let annotations := gm_copy (gm_make (om_Annotations (gs_Meta server)))
                       (tm_Annotations (tpl_Metadata tpl)) in
  Some {|
    gs_Meta := meta_set_maps (Some labels) (Some annotations) (gs_Meta server);
    gs_Spec := {|
      gs_Profile := fl_Profile (fl_Spec fleet); gs_Tier := gs_Tier spec; gs_Env := Some env;
      gs_Storage := gs_Storage spec; gs_Lifecycle := gs_Lifecycle spec;
      gs_PriorityClassName := gs_PriorityClassName spec;
      gs_TopologySpreadConstraints := gs_TopologySpreadConstraints spec;
      gs_LoadBalancerIP := gs_LoadBalancerIP spec |};
    gs_Status := gs_Status server |}.

Definition update_one (fleet : GameServerFleet) (server : GameServer) : M (option unit) :=
  match updated_server fleet server with
  | None => Panic "assignment to entry in nil map"
  | Some updated => call (Update KGameServer updated) ;;; Ret None
  end.

(** The servers the loop reaches. *)
Definition servers_in_slots (availableSlots : Z) (l : list GameServer) : list GameServer :=
  take (Z.to_nat (Z.min availableSlots (wrap32 (Z.of_nat (length l))))) l.

Definition handleRollingUpdate `{!SortSlice} (fleet : GameServerFleet)
    (servers : list GameServer) : M unit :=
  let updatingCount := wrap32 (Z.of_nat (length (filter (λ s, outdated fleet s = true) servers))) in
  let serversToUpdate :=
    sort_slice update_less (filter (λ s, outdated fleet s = true) servers) in
  let availableSlots := wrap32 (max_unavailable fleet - updatingCount) in
  for_each (servers_in_slots availableSlots serversToUpdate) (update_one fleet) ;;; Ret tt.

(** ** Status *)

Definition fleet_status (fleet : GameServerFleet) (servers : list GameServer) (now : Z)
  : GameServerFleetStatus :=
  let ready := wrap32 (Z.of_nat (length
                 (filter (λ s, gss_State (gs_Status s) = "Running") servers))) in
  let updated := wrap32 (Z.of_nat (length
                 (filter (λ s, outdated fleet s = false) servers))) in
  let replicas := wrap32 (Z.of_nat (length servers)) in
  let desired := fl_Replicas (fl_Spec fleet) in
  let '(status, reason, message) :=
    if updated <? replicas then
      (ConditionFalse, "Updating", itoa updated +:+ "/" +:+ itoa desired +:+ " replicas updated")
    else if negb (replicas =? desired) then
      (ConditionFalse, "Scaling",
       "scaling " +:+ itoa replicas +:+ " -> " +:+ itoa desired +:+ " replicas")
    else
      (ConditionTrue, "Reconciled", itoa ready +:+ "/" +:+ itoa desired +:+ " replicas ready") in
  {| fls_Replicas := replicas; fls_ReadyReplicas := ready; fls_UpdatedReplicas := updated;
     fls_Conditions := setCondition (fls_Conditions (fl_Status fleet)) {|
       cond_Type := "Ready"; cond_Status := status; cond_Reason := reason;
       cond_Message := message; cond_ObservedGeneration := om_Generation (fl_Meta fleet);
       cond_LastTransitionTime := now |} |}.

Definition fleet_updateStatus (fleet : GameServerFleet) (servers : list GameServer)
  : M (option gerr) :=
  let* now := call Now in
  call (StatusUpdate KFleet {| fl_Meta := fl_Meta fleet; fl_Spec := fl_Spec fleet;
                               fl_Status := fleet_status fleet servers now |}).

(** ** Reconcile *)

Section Fleet.
Context `{Hfin : !FinalizerOps, Hsort : !SortSlice}.

Definition list_fleet_servers (fleet : GameServerFleet) : M (list GameServer + gerr) :=
  call (ListObjs KGameServer (Some (fleet_ns fleet)) [(fleetLabel, fleet_name fleet)]).

Definition delete_server (server : GameServer) : M (option gerr) :=
  let* e := call (Delete KGameServer (gs_ns server) (gs_name server)) in
  Ret (unless IsNotFound e).

Definition cleanupFleet (fleet : GameServerFleet) : M (option gerr) :=
  let* servers := list_fleet_servers fleet in
  match servers with
  | inr e => Ret (Some e)
  | inl servers => for_each servers delete_server
  end.

Definition create_server (fleet : GameServerFleet) (i : Z) : M (option gerr) :=
  let* server := SetControllerReference ("GameServerFleet", fleet_name fleet) KGameServer
                   (buildGameServer fleet i) in
  match server with
  | inr e => Ret (Some e)
  | inl server => call (Create KGameServer server)
  end.

Definition drain_and_delete (recorder : bool) (fleet : GameServerFleet) (server : GameServer)
  : M (option gerr) :=
  drainServer recorder fleet server ;;; delete_server server.

Definition update_strategy (fleet : GameServerFleet) : string :=
  let t := us_Type (fl_UpdateStrategy (fl_Spec fleet)) in
  if t =s "" then "RollingUpdate" else t.

(** Scale up, or scale down: at most one of the two loops runs. *)
Definition scale (recorder : bool) (fleet : GameServerFleet) (servers : list GameServer)
  : M (option gerr) :=
  let desired := fl_Replicas (fl_Spec fleet) in
  let current := wrap32 (Z.of_nat (length servers)) in
  (if current <? desired
   then for_each (range_from current desired) (create_server fleet)
   else Ret None) ?;;
  (if desired <? current
   then
     match selectServersToDelete servers desired (update_strategy fleet) with
     | None => Panic "slice bounds out of range"
     | Some toDelete => for_each toDelete (drain_and_delete recorder fleet)
     end
   else Ret None).

Definition fleet_live (recorder : bool) (fleet : GameServerFleet) : M (option gerr) :=
  let* servers := list_fleet_servers fleet in
  match servers with
  | inr e => Ret (Some e)
  | inl servers =>
      scale recorder fleet servers ?;;
      ((if update_strategy fleet =s "RollingUpdate"
        then handleRollingUpdate fleet servers else Ret tt) ;;;
       fleet_updateStatus fleet servers ;;; Ret None)
  end.

Definition fleet_Reconcile (recorder : bool) (namespace name : string)
  : M (Result * option gerr) :=
  let* fleet := call (Get KFleet namespace name) in
  match fleet with
  | inr e => Ret (no_requeue, unless IsNotFound (Some e))
  | inl fleet =>
      let has := ContainsFinalizer gameServerFleetFinalizer (fl_Meta fleet) in
      match om_DeletionTimestamp (fl_Meta fleet) with
      | None =>
          let* e :=
            if negb has
            then call (Update KFleet
                   (fl_set_Meta (AddFinalizer gameServerFleetFinalizer (fl_Meta fleet)) fleet))
            else fleet_live recorder fleet in
          Ret (no_requeue, e)
      | Some _ =>
          let* e :=
            if has
            then cleanupFleet fleet ?;;
                 call (Update KFleet
                   (fl_set_Meta (RemoveFinalizer gameServerFleetFinalizer (fl_Meta fleet)) fleet))
            else Ret None in
          Ret (no_requeue, e)
      end
  end.
End Fleet.

(** ** Lemmas *)

(** The order in which servers are given up. *)
Definition delete_le (a b : GameServer) : Prop :=
  players_of a < players_of b
  ∨ (players_of a = players_of b
     ∧ (created_of a < created_of b
        ∨ (created_of a = created_of b ∧ String.le (gs_name a) (gs_name b)))).

Lemma delete_less_false a b : delete_less b a = false ↔ delete_le a b.
Proof.
  unfold delete_less, delete_le, str_ltb, String.le.
  destruct (Z.eqb_spec (players_of b) (players_of a)); cbn [negb];
    [|rewrite Z.ltb_ge; intuition lia].
  destruct (Z.eqb_spec (created_of b) (created_of a)); cbn [negb];
    [|rewrite Z.ltb_ge; intuition lia].
  rewrite negb_false_iff. unfold is_true.
  destruct (String.leb (gs_name a) (gs_name b)); simpl; intuition (try lia; try congruence).
Qed.

Lemma delete_le_total a b : delete_le a b ∨ delete_le b a.
Proof.
  unfold delete_le. destruct (total String.le (gs_name a) (gs_name b));
    destruct (Z.lt_trichotomy (players_of a) (players_of b)) as [|[]];
    destruct (Z.lt_trichotomy (created_of a) (created_of b)) as [|[]]; intuition lia.
Qed.

Lemma delete_le_trans a b c : delete_le a b → delete_le b c → delete_le a c.
Proof.
  unfold delete_le. intros Hab Hbc.
  assert (String.le (gs_name a) (gs_name b) → String.le (gs_name b) (gs_name c) →
          String.le (gs_name a) (gs_name c)) by (intros; by etrans). intuition lia.
Qed.

Lemma sorted_deletions `{Hsort : !SortSlice} servers :
  StronglySorted delete_le (sort_slice delete_less servers).
Proof.
  eapply StronglySorted_weaken; [|apply sort_slice_sorted].
  - intros x y. by rewrite delete_less_false.
  - intros x y Hxy. destruct (delete_less y x) eqn:E; [|done].
    assert (delete_le x y ∨ delete_le y x) as [H1%delete_less_false|H1%delete_less_false]
      by apply delete_le_total; congruence.
  - intros x y z H1%delete_less_false H2%delete_less_false. apply delete_less_false.
    by eapply delete_le_trans.
Qed.

(** The order in which servers are updated. *)
Definition update_le (a b : GameServer) : Prop :=
  players_of a < players_of b ∨ (players_of a = players_of b ∧ created_of a <= created_of b).

Lemma update_less_false a b : update_less b a = false ↔ update_le a b.
Proof.
  unfold update_less, update_le.
  destruct (Z.eqb_spec (players_of b) (players_of a)); cbn [negb]; rewrite Z.ltb_ge; intuition lia.
Qed.

Lemma sorted_updates `{Hsort : !SortSlice} servers :
  StronglySorted update_le (sort_slice update_less servers).
Proof.
  eapply StronglySorted_weaken; [|apply sort_slice_sorted].
  - intros x y. by rewrite update_less_false.
  - intros x y. rewrite update_less_false. unfold update_less, update_le.
    destruct (Z.eqb_spec (players_of x) (players_of y)); cbn [negb]; rewrite Z.ltb_lt; lia.
  - intros x y z. rewrite !update_less_false. unfold update_le. lia.
Qed.

Lemma delete_server_runs s t :
  runs (delete_server s) t (Done None) → writes t = [WDelete KGameServer (gs_ns s) (gs_name s)].
Proof. by intros (x & t' & -> & [-> _]). Qed.

Lemma drainServer_no_writes rec fleet s : no_writes (drainServer rec fleet s).
Proof. unfold drainServer, dialAgent, warnDrainFailed. writes_safe. Qed.

Lemma no_writes_runs {A} (p : M A) t o : no_writes p → runs p t o → writes t = [].
Proof.
  intros H Hr. assert (Forall (λ _, False) (writes t)) as Hf by by eapply always_w_runs.
  by destruct Hf.
Qed.

(** ** Properties *)

Section FleetProps.
Context `{Hfin : !FinalizerOps, Hsort : !SortSlice}.

(** Slicing past the end of the sorted list: the type of [spec.replicas] allows
    a negative number. *)
Lemma select_negative servers desired strategy :
  desired < 0 → Z.of_nat (length servers) - desired <= 2147483647 → strategy ≠ "OnDelete" →
  selectServersToDelete servers desired strategy = None.
Proof.
  intros Hd Hr Hs. unfold selectServersToDelete. apply eqs_false in Hs. rewrite Hs. cbv zeta.
  assert (length (sort_slice delete_less servers) = length servers) as Hl
    by by rewrite sort_slice_perm.
  rewrite Hl, (wrap32_id (Z.of_nat _)) by (unfold is_int32; lia).
  rewrite wrap32_id by (unfold is_int32; lia).
  destruct (Z.leb_spec (Z.of_nat (length servers) - desired) 0); [lia|].
  unfold slice_to. rewrite decide_False; [done|]. rewrite Hl. lia.
Qed.

(** C27: scale-down chooses nothing under the strategy OnDelete.  Otherwise, for a
    desired count that is not negative, it chooses exactly the excess, and no
    server it keeps would have been a better choice: a deleted server has no
    more players than any kept one, among equal players it is no younger, and
    ties are broken by name.  (docs/architecture/controller-flow.md says the
    oldest servers are deleted first: in the code the players come before the
    age.)  A negative count, which the type of spec.replicas allows, crashes. *)
Theorem selectServersToDelete_correct servers desired strategy :
  is_int32 (Z.of_nat (length servers)) →
  Z.of_nat (length servers) - desired <= 2147483647 → desired <= 2147483647 →
  if decide (strategy = "OnDelete") then selectServersToDelete servers desired strategy = Some []
  else if decide (0 <= desired) then
    ∃ deleted kept,
      selectServersToDelete servers desired strategy = Some deleted
      ∧ deleted ++ kept ≡ₚ servers
      ∧ Z.of_nat (length deleted) = Z.max 0 (Z.of_nat (length servers) - desired)
      ∧ ∀ d k, d ∈ deleted → k ∈ kept → delete_le d k
  else selectServersToDelete servers desired strategy = None.
Proof.
  intros Hlen Hr Hm. destruct (decide (strategy = "OnDelete")) as [->|Hs]; [done|].
  destruct (decide (0 <= desired)) as [Hd|Hd]; [|apply select_negative; lia || done].
  unfold selectServersToDelete. apply eqs_false in Hs. rewrite Hs. cbv zeta.
  assert (length (sort_slice delete_less servers) = length servers) as Hl
    by by rewrite sort_slice_perm.
  rewrite Hl, (wrap32_id (Z.of_nat _)) by done.
  rewrite wrap32_id by (unfold is_int32 in *; lia).
  destruct (Z.leb_spec (Z.of_nat (length servers) - desired) 0) as [He|He].
  - exists [], servers. split_and!; [done..|simpl; lia|set_solver].
  - set (n := Z.of_nat (length servers) - desired).
    exists (take (Z.to_nat n) (sort_slice delete_less servers)),
           (drop (Z.to_nat n) (sort_slice delete_less servers)).
    split_and!.
    + apply slice_to_Some. rewrite Hl. split; [lia|done].
    + rewrite take_drop. apply sort_slice_perm.
    + rewrite length_take, Hl. lia.
    + pose proof (sorted_deletions servers) as Hsrt.
      rewrite <-(take_drop (Z.to_nat n) (sort_slice delete_less servers)) in Hsrt.
      intros d k Hd1 Hk. by apply (StronglySorted_app_1_elem_of delete_le _ _ d k Hsrt).
Qed.

(** the type of [spec.replicas] allows a negative number, and the scale-down
    then slices past the end of the list: the reconcile of such a fleet
    crashes. *)
Theorem negative_replicas_crash servers desired strategy :
  desired < 0 → Z.of_nat (length servers) - desired <= 2147483647 → strategy ≠ "OnDelete" →
  selectServersToDelete servers desired strategy = None.
Proof. apply select_negative. Qed.

(** scaling a fleet makes the number of servers right: when it ends without
    error, it has created the missing servers, named after the fleet and the
    indices from the current count on, or deleted exactly the selected ones, or
    (the count being right, or the strategy being OnDelete) changed nothing. *)
Theorem scale_correct recorder fleet servers t :
  is_int32 (Z.of_nat (length servers)) →
  runs (scale recorder fleet servers) t (Done None) →
  let desired := fl_Replicas (fl_Spec fleet) in
  let current := Z.of_nat (length servers) in
  writes t =
    if current <? desired then
      (λ i, WCreate KGameServer
        (obj_map_meta (meta_set_Controller ("GameServerFleet", fleet_name fleet)) KGameServer
           (buildGameServer fleet i))) <$> range_from current desired
    else if desired <? current then
      match selectServersToDelete servers desired (update_strategy fleet) with
      | Some l => (λ s, WDelete KGameServer (gs_ns s) (gs_name s)) <$> l
      | None => []
      end
    else [].
Proof.
  intros Hlen H desired current. unfold scale in H. rewrite wrap32_id in H by done.
  cbv zeta in H. apply seq_err_done in H as (t1 & t2 & -> & H1 & H2). rewrite writes_app.
  fold desired current in H1, H2.
  destruct (current <? desired) eqn:Ec.
  - apply Z.ltb_lt in Ec. destruct (Z.ltb_spec desired current); [lia|].
    destruct H2 as [-> _]. rewrite app_nil_r.
    apply (for_each_writes _ _ (λ i, [WCreate KGameServer
        (obj_map_meta (meta_set_Controller ("GameServerFleet", fleet_name fleet)) KGameServer
           (buildGameServer fleet i))])) in H1.
    + rewrite H1. cbn [writes omap list_omap]. by rewrite ?app_nil_r, bind_singleton.
    + intros i u _ ([e|] & u' & -> & Hu); [by destruct Hu|].
      by destruct Hu as (x & u & -> & [-> _]).
  - destruct H1 as [-> _]. simpl. destruct (desired <? current); [|by destruct H2 as [-> _]].
    destruct (selectServersToDelete _ _ _) as [l|]; [|by destruct H2].
    apply (for_each_writes _ _ (λ s, [WDelete KGameServer (gs_ns s) (gs_name s)])) in H2.
    + by rewrite H2, bind_singleton.
    + intros s u _ Hu. unfold drain_and_delete in Hu. run_step Hu. rewrite writes_app.
      by rewrite (no_writes_runs _ _ _ (drainServer_no_writes _ _ _) Hrun), (delete_server_runs _ _ Hu).
Qed.

(** The names created by a scale-up are distinct. *)
Lemma fleet_server_name_inj fleet i j :
  fleet_server_name fleet i = fleet_server_name fleet j → i = j.
Proof. unfold fleet_server_name. intros H%str_app_inj_l%str_app_inj_l. by apply itoa_inj. Qed.

(** The number of servers that lag behind the fleet's generation. *)
Definition count_outdated (fleet : GameServerFleet) (servers : list GameServer) : Z :=
  Z.of_nat (length (filter (λ s, outdated fleet s = true) servers)).

Lemma length_filter_le_Z (P : GameServer → Prop) `{∀ x, Decision (P x)} l :
  Z.of_nat (length (filter P l)) <= Z.of_nat (length l).
Proof. pose proof (length_filter P l). lia. Qed.

Lemma update_one_runs fleet s t :
  runs (update_one fleet s) t (Done None) →
  ∃ u, updated_server fleet s = Some u ∧ writes t = [WUpdate KGameServer u].
Proof.
  unfold update_one. destruct (updated_server fleet s) as [u|]; [|by intros [_ ?]].
  intros (x & t' & -> & [-> _]). by exists u.
Qed.

Lemma update_one_None fleet s : ret_sat (λ r, r = None) (update_one fleet s).
Proof. unfold update_one. destruct (updated_server fleet s); [by intros ?|done]. Qed.

(** The server a rolling update writes for [s]: the profile is the fleet's, the
    template's variables, labels and annotations are laid over those of the
    server, which is marked with the fleet's generation (under the template's
    labels); everything else is as it was. *)
Record merged (fleet : GameServerFleet) (s u : GameServer) : Prop := {
  merged_Profile : gs_Profile (gs_Spec u) = fl_Profile (fl_Spec fleet);
  merged_Env k : gm_lookup (gs_Env (gs_Spec u)) k
    = match gm_lookup (fgs_Env (tpl_Spec (fl_Template (fl_Spec fleet)))) k with
      | Some v => Some v
      | None => gm_lookup (gs_Env (gs_Spec s)) k
      end;
  merged_Labels k : gm_lookup (om_Labels (gs_Meta u)) k
    = match gm_lookup (tm_Labels (tpl_Metadata (fl_Template (fl_Spec fleet)))) k with
      | Some v => Some v
      | None => if k =s "minato.io/fleet-generation" then Some (itoa (om_Generation (fl_Meta fleet)))
                else gm_lookup (om_Labels (gs_Meta s)) k
      end;
  merged_Annotations k : gm_lookup (om_Annotations (gs_Meta u)) k
    = match gm_lookup (tm_Annotations (tpl_Metadata (fl_Template (fl_Spec fleet)))) k with
      | Some v => Some v
      | None => gm_lookup (om_Annotations (gs_Meta s)) k
      end;
  merged_Meta : gs_Meta u
    = meta_set_maps (om_Labels (gs_Meta u)) (om_Annotations (gs_Meta u)) (gs_Meta s);
  merged_Spec : gs_Spec u = {|
    gs_Profile := gs_Profile (gs_Spec u); gs_Tier := gs_Tier (gs_Spec s);
    gs_Env := gs_Env (gs_Spec u); gs_Storage := gs_Storage (gs_Spec s);
    gs_Lifecycle := gs_Lifecycle (gs_Spec s);
    gs_PriorityClassName := gs_PriorityClassName (gs_Spec s);
    gs_TopologySpreadConstraints := gs_TopologySpreadConstraints (gs_Spec s);
    gs_LoadBalancerIP := gs_LoadBalancerIP (gs_Spec s) |};
  merged_Status : gs_Status u = gs_Status s;
}.

Lemma gm_lookup_copy {A} (m : gmap string A) src k :
  gm_lookup (Some (gm_copy m src)) k = match gm_lookup src k with Some v => Some v | None => m !! k end.
Proof. apply gm_copy_lookup. Qed.
Lemma gm_make_lookup {A} (m : gomap A) k : gm_make m !! k = gm_lookup m k.
Proof. by destruct m; [|apply lookup_empty]. Qed.

Lemma updated_server_merged fleet s u : updated_server fleet s = Some u → merged fleet s u.
Proof.
  unfold updated_server, gm_set. destruct (om_Labels (gs_Meta s)) as [labels|] eqn:El; [|done].
  intros [= <-]. constructor; try done; intros k;
    cbn [gs_Spec gs_Env gs_Meta om_Labels om_Annotations meta_set_maps];
    rewrite gm_lookup_copy, ?gm_make_lookup; [done| |done].
  rewrite El. destruct (gm_lookup _ k); [done|]. cbn. unfold fleetGenerationLabel.
  destruct (String.eqb_spec k "minato.io/fleet-generation") as [->|Hne];
    [by rewrite lookup_insert_eq|by rewrite lookup_insert_ne].
Qed.

(** The updates a run makes: one per server in the slots. *)
Lemma update_loop_runs fleet l t :
  runs (for_each l (update_one fleet)) t (Done None) →
  Forall2 (λ s w, ∃ u, w = WUpdate KGameServer u ∧ merged fleet s u) l (writes t).
Proof.
  revert t. induction l as [|s l IH]; intros t; cbn [for_each]; [by intros [-> _]|].
  intros H. run_step H. destruct a; [by destruct H|].
  apply update_one_runs in Hrun as (u & Hu & Hw). rewrite writes_app, Hw. constructor.
  - exists u. split; [done|]. by apply updated_server_merged.
  - by apply IH.
Qed.

Lemma outdated_split fleet servers :
  Z.of_nat (length (filter (λ s, outdated fleet s = false) servers))
  = Z.of_nat (length servers) - count_outdated fleet servers.
Proof.
  unfold count_outdated. induction servers as [|s l IH]; [done|].
  rewrite !filter_cons. destruct (outdated fleet s); simpl; lia.
Qed.

Lemma count_outdated_0 fleet servers :
  count_outdated fleet servers = 0 ↔ Forall (λ s, outdated fleet s = false) servers.
Proof.
  unfold count_outdated. induction servers as [|s l IH]; [by split|].
  rewrite filter_cons, Forall_cons, <-IH. destruct (outdated fleet s); simpl; [|naive_solver].
  split; [lia|]. by intros [? _].
Qed.

(** C28: a rolling update writes exactly as many servers as the budget leaves after
    all the outdated ones are counted against it.  They are outdated servers,
    and none that is left out comes before them: those with fewer players are
    taken first, and among these the older ones.  Each is written once, with
    the fleet's template merged into it, and nothing else is written. *)
Theorem rolling_update_budget fleet servers t :
  is_int32 (Z.of_nat (length servers)) → 0 <= max_unavailable fleet <= 2147483647 →
  runs (handleRollingUpdate fleet servers) t (Done tt) →
  let n := count_outdated fleet servers in
  ∃ chosen rest,
    chosen ++ rest ≡ₚ filter (λ s, outdated fleet s = true) servers
    ∧ Z.of_nat (length chosen) = Z.max 0 (Z.min (max_unavailable fleet - n) n)
    ∧ (∀ c r, c ∈ chosen → r ∈ rest → update_le c r)
    ∧ Forall2 (λ s w, ∃ u, w = WUpdate KGameServer u ∧ merged fleet s u) chosen (writes t).
Proof.
  intros Hlen Hmax H n. unfold handleRollingUpdate in H. cbv zeta in H. run_step H.
  destruct H as [-> _]. rewrite app_nil_r.
  assert (a = None) as ->.
  { eapply (ret_sat_runs (λ r, r = None)), Hrun. apply ret_sat_for_each.
    intros s _. apply update_one_None. }
  pose proof (length_filter_le_Z (λ s, outdated fleet s = true) servers) as Hf.
  fold (count_outdated fleet servers) in Hrun, Hf. fold n in Hrun, Hf.
  assert (0 <= n) by (unfold n, count_outdated; lia).
  rewrite (wrap32_id n), wrap32_id in Hrun by (unfold is_int32 in *; lia).
  set (lst := sort_slice update_less _) in Hrun.
  assert (Z.of_nat (length lst) = n) as Hl by (unfold lst; by rewrite sort_slice_perm).
  unfold servers_in_slots in Hrun.
  rewrite Hl, (wrap32_id n) in Hrun by (unfold is_int32 in *; lia).
  set (m := Z.to_nat _) in Hrun.
  exists (take m lst), (drop m lst). split_and!.
  - rewrite take_drop. apply sort_slice_perm.
  - rewrite length_take. lia.
  - intros c r Hc Hr. eapply (StronglySorted_app_1_elem_of update_le); [|done..].
    rewrite take_drop. apply sorted_updates.
  - by apply update_loop_runs.
Qed.

(** with the default strategy a rolling update never progresses: as long as at
    least one server is outdated the budget is used up and no server is
    updated, in any run. *)
Theorem default_rolling_update_stalls fleet servers t o :
  is_int32 (Z.of_nat (length servers)) →
  us_RollingUpdate (fl_UpdateStrategy (fl_Spec fleet)) = None →
  0 < count_outdated fleet servers →
  runs (handleRollingUpdate fleet servers) t o → writes t = [] ∧ o = Done tt.
Proof.
  intros Hlen Hru Hn H. unfold handleRollingUpdate in H. cbv zeta in H.
  pose proof (length_filter_le_Z (λ s, outdated fleet s = true) servers) as Hf.
  fold (count_outdated fleet servers) in H, Hf.
  set (n := count_outdated fleet servers) in *.
  assert (max_unavailable fleet = 1) as Hm by (unfold max_unavailable; by rewrite Hru).
  rewrite Hm, (wrap32_id n), wrap32_id in H by (unfold is_int32 in *; lia).
  unfold servers_in_slots in H.
  replace (Z.to_nat (Z.min (1 - n) _)) with 0%nat in H by lia.
  cbn in H. by destruct H as [-> ->].
Qed.

(** the fleet's status counts its servers: ready ones are those in state
    Running, updated ones those carrying the fleet's generation, both at most
    the number of servers, and the fleet is reported Ready exactly when the
    count is the desired one and every server is up to date. *)
Theorem fleet_status_correct fleet servers now :
  is_int32 (Z.of_nat (length servers)) →
  let st := fleet_status fleet servers now in
  fls_Replicas st = Z.of_nat (length servers)
  ∧ fls_ReadyReplicas st
    = Z.of_nat (length (filter (λ s, gss_State (gs_Status s) = "Running") servers))
  ∧ fls_UpdatedReplicas st = Z.of_nat (length servers) - count_outdated fleet servers
  ∧ fls_ReadyReplicas st <= fls_Replicas st
  ∧ ∃ c, condition_of "Ready" (fls_Conditions st) = Some c
      ∧ (cond_Status c = ConditionTrue ↔
           Z.of_nat (length servers) = fl_Replicas (fl_Spec fleet)
           ∧ Forall (λ s, outdated fleet s = false) servers).
Proof.
  intros Hlen st.
  set (n := Z.of_nat (length servers)). pose proof (outdated_split fleet servers) as Hsplit.
  pose proof (length_filter_le_Z (λ s, gss_State (gs_Status s) = "Running") servers) as Hr.
  assert (fls_Replicas st = n ∧ fls_ReadyReplicas st
    = Z.of_nat (length (filter (λ s, gss_State (gs_Status s) = "Running") servers))
    ∧ fls_UpdatedReplicas st = n - count_outdated fleet servers) as (E1 & E2 & E3).
  { unfold st, fleet_status. cbv zeta.
    destruct (if _ <? _ then _ else _) as [[? ?] ?]. cbn [fls_Replicas fls_ReadyReplicas fls_UpdatedReplicas].
    unfold is_int32, count_outdated in *. rewrite !wrap32_id by (unfold is_int32; lia).
    split_and!; [done..|lia]. }
  split_and!; [done..|rewrite E1, E2; lia|].
  unfold st, fleet_status in E1, E3 |- *. cbv zeta in *.
  set (upd := wrap32 (Z.of_nat (length (filter (λ s, outdated fleet s = false) servers)))) in *.
  set (rep := wrap32 (Z.of_nat (length servers))) in *.
  destruct (upd <? rep) eqn:Eu; [|destruct (rep =? fl_Replicas (fl_Spec fleet)) eqn:Er];
    cbn [negb] in *; cbn [fls_Conditions fls_Replicas fls_UpdatedReplicas] in *;
    (eexists; split; [rewrite condition_of_setCondition; reflexivity|]); cbn [cond_Status].
  - split; [done|]. intros [_ Hall%count_outdated_0]. lia.
  - split; [intros _|done]. split; [lia|]. apply count_outdated_0. unfold count_outdated in *. lia.
  - split; [done|]. intros [? _]. lia.
Qed.
End FleetProps.

(** ** Witnesses *)

Definition ex_fleet (replicas : Z) (strategy : FleetUpdateStrategy) : GameServerFleet := {|
  fl_Meta := {|
    om_Name := "lobby"; om_Namespace := "tenant-a"; om_Labels := None; om_Annotations := None;
    om_Generation := 2; om_CreationTimestamp := 0; om_DeletionTimestamp := None;
    om_Finalizers := [gameServerFleetFinalizer]; om_Controller := None |};
  fl_Spec := {|
    fl_Profile := "paper"; fl_Replicas := replicas;
    fl_Template := {| tpl_Metadata := {| tm_Labels := None; tm_Annotations := None |};
                      tpl_Spec := {| fgs_Env := Some {["MOTD" := "hi"]} |} |};
    fl_UpdateStrategy := strategy; fl_PriorityClassName := ""; fl_TopologySpreadConstraints := [] |};
  fl_Status := {| fls_Replicas := 0; fls_ReadyReplicas := 0; fls_UpdatedReplicas := 0;
                  fls_Conditions := [] |} |}.

Definition ex_default : FleetUpdateStrategy := {| us_Type := ""; us_RollingUpdate := None |}.
Definition ex_rolling (n : Z) : FleetUpdateStrategy := {|
  us_Type := "RollingUpdate";
  us_RollingUpdate := Some {| ru_MaxUnavailable := Some n; ru_MaxSurge := None;
                              ru_DrainTimeoutSeconds := 0 |} |}.

(** A member of the fleet's previous generation. *)
Definition ex_member (name : string) (players : Z) : GameServer := {|
  gs_Meta := new_meta name "tenant-a"
    (Some {[fleetLabel := "lobby"; fleetGenerationLabel := "1"]});
  gs_Spec := gs_Spec ex_server;
  gs_Status := {|
    gss_State := "Running"; gss_AgentVersion := "1"; gss_Players := players;
    gss_PlayerCapacity := 20; gss_LastActivity := None; gss_Endpoints := [];
    gss_Conditions := [] |} |}.
Definition ex_members : list GameServer :=
  [ex_member "lobby-0" 3; ex_member "lobby-1" 0; ex_member "lobby-2" 5].

Lemma selectServersToDelete_correct_witness :
  @selectServersToDelete insertion_SortSlice ex_members 2 "RollingUpdate"
    = Some [ex_member "lobby-1" 0]
  ∧ ∃ deleted kept,
    @selectServersToDelete insertion_SortSlice ex_members 2 "RollingUpdate" = Some deleted
    ∧ deleted ++ kept ≡ₚ ex_members ∧ ∀ d k, d ∈ deleted → k ∈ kept → delete_le d k.
Proof.
  split; [reflexivity|].
  destruct (@selectServersToDelete_correct insertion_SortSlice ex_members 2 "RollingUpdate")
    as (d & k & ? & ? & _ & ?).
  - unfold is_int32. simpl. lia.
  - simpl. lia.
  - lia.
  - by exists d, k.
Defined.

Lemma negative_replicas_crash_witness :
  @selectServersToDelete insertion_SortSlice ex_members (-1) "RollingUpdate" = None.
Proof. apply (@negative_replicas_crash insertion_SortSlice); [lia|simpl; lia|discriminate]. Defined.

Lemma scale_correct_witness :
  let t := run_trace ex_later (@scale insertion_SortSlice true (ex_fleet 2 ex_default) ex_members) in
  writes t = [WDelete KGameServer "tenant-a" "lobby-1"].
Proof.
  intros t. unfold t.
  rewrite (@scale_correct insertion_SortSlice true (ex_fleet 2 ex_default) ex_members
    (run_trace ex_later _)); [reflexivity|unfold is_int32; simpl; lia|].
  exact (run_runs ex_later (@scale insertion_SortSlice true (ex_fleet 2 ex_default) ex_members)).
Defined.

Lemma rolling_update_budget_witness :
  let fleet := ex_fleet 3 (ex_rolling 5) in
  let t := run_trace ex_later (@handleRollingUpdate insertion_SortSlice fleet ex_members) in
  length (writes t) = 2%nat
  ∧ ∃ chosen, Forall2 (λ s w, ∃ u, w = WUpdate KGameServer u ∧ merged fleet s u) chosen (writes t).
Proof.
  intros fleet t. split; [reflexivity|].
  destruct (@rolling_update_budget insertion_SortSlice fleet ex_members t
    ltac:(split; vm_compute; discriminate) ltac:(split; vm_compute; discriminate)
    (run_runs ex_later (@handleRollingUpdate insertion_SortSlice fleet ex_members)))
    as (chosen & rest & _ & _ & _ & H).
  exists chosen. exact H.
Defined.

Lemma default_rolling_update_stalls_witness :
  writes (run_trace ex_later
    (@handleRollingUpdate insertion_SortSlice (ex_fleet 3 ex_default) ex_members)) = [].
Proof.
  apply (@default_rolling_update_stalls insertion_SortSlice (ex_fleet 3 ex_default) ex_members _
    (run_outcome ex_later (@handleRollingUpdate insertion_SortSlice (ex_fleet 3 ex_default) ex_members))).
  - unfold is_int32. simpl. lia.
  - reflexivity.
  - reflexivity.
  - apply run_runs.
Defined.

Lemma fleet_status_correct_witness :
  fls_UpdatedReplicas (fleet_status (ex_fleet 3 ex_default) ex_members 7) = 0.
Proof.
  rewrite (proj1 (proj2 (proj2 (fleet_status_correct (ex_fleet 3 ex_default) ex_members 7
    ltac:(unfold is_int32; simpl; lia))))). reflexivity.
Defined.
