(* ===== verification/GoTime.v ===== *)
(** * GoTime: [time.ParseDuration]

    The Go standard library's parser of durations such as "1h30m" or "1.5s":
    the scanner, its unit table, its overflow checks on [uint64], and the one
    floating-point product with which it scales a fraction, on the binary64
    numbers of [SpecFloat]. *)

From Stdlib Require Import Ascii String SpecFloat.
From S2P Require Import Prelude GoStrings.

Definition two63 : Z := 9223372036854775808.

Definition is_digit (c : ascii) : bool := match digit_val c with Some _ => true | None => false end.

(** ** Integers and fractions *)

(** [leadingInt]: the number and the rest; [None] on overflow. *)
Fixpoint leadingInt (x : Z) (s : string) : option (Z * string) :=
  match s with
  | "" => Some (x, "")
  | String c r =>
      match digit_val c with
      | None => Some (x, s)
      | Some d =>
          if two63 / 10 <? x then None
          else let x := x * 10 + d in
               if two63 <? x then None else leadingInt x r
      end
  end.

(** [leadingFraction]: digits past the range are dropped; [k] is the number of
    digits kept, the scale being [10^k]. *)
Fixpoint leadingFraction (x : Z) (k : Z) (overflow : bool) (s : string) : Z * Z * string :=
  match s with
  | "" => (x, k, "")
  | String c r =>
      match digit_val c with
      | None => (x, k, s)
      | Some d =>
          if overflow then leadingFraction x k true r
          else if (two63 - 1) / 10 <? x then leadingFraction x k true r
          else let y := x * 10 + d in
               if two63 <? y then leadingFraction x k true r
               else leadingFraction y (k + 1) false r
      end
  end.

(** ** Floating point *)

Definition float_of_Z (z : Z) : spec_float := binary_normalize 53 1024 z 0 false.
Definition float_mul : spec_float → spec_float → spec_float := SFmul 53 1024.
Definition float_div : spec_float → spec_float → spec_float := SFdiv 53 1024.
(** [uint64(f)] of a non-negative finite number below [2^64]. *)
Definition float_trunc (f : spec_float) : Z :=
  match f with
  | S754_finite false m e => Z.shiftl (Zpos m) e
  | _ => 0
  end.

(** [uint64(float64(f) * (float64(unit) / scale))]. *)
Definition scale_fraction (f unit_ k : Z) : Z :=
  float_trunc (float_mul (float_of_Z f) (float_div (float_of_Z unit_) (float_of_Z (10 ^ k)))).

(** ** Units *)

Definition unitMap (u : string) : option Z :=
  if u =s "ns" then Some 1
  else if (u =s "us") || (u =s "µs") || (u =s "μs") then Some 1000
  else if u =s "ms" then Some 1000000
  else if u =s "s" then Some second
  else if u =s "m" then Some minute
  else if u =s "h" then Some hour
  else None.

(** The longest prefix with neither a digit nor a point, and the rest. *)
Fixpoint take_unit (s : string) : string * string :=
  match s with
  | "" => ("", "")
  | String c r =>
      if Ascii.eqb c "." || is_digit c then ("", s)
      else let '(u, r) := take_unit r in (String c u, r)
  end.

(** ** The parser *)

(** One "number unit" group: its value in nanoseconds and the rest. *)
Definition parse_group (s : string) : option (Z * string) :=
  match s with
  | "" => None
  | String c _ =>
      if negb (Ascii.eqb c "." || is_digit c) then None
      else
        match leadingInt 0 s with
        | None => None
        | Some (v, s1) =>
            let pre := negb (Nat.eqb (String.length s1) (String.length s)) in
            let '(f, k, post, s2) :=
              match s1 with
              | String d r =>
                  if Ascii.eqb d "." then
                    let '(f, k, s2) := leadingFraction 0 0 false r in
                    (f, k, negb (Nat.eqb (String.length s2) (String.length r)), s2)
                  else (0, 0, false, s1)
              | "" => (0, 0, false, s1)
              end in
            if negb pre && negb post then None
            else
              let '(u, s3) := take_unit s2 in
              if u =s "" then None
              else
                match unitMap u with
                | None => None
                | Some unit_ =>
                    if two63 / unit_ <? v then None
                    else
                      let v := v * unit_ in
                      if 0 <? f then
                        let v := v + scale_fraction f unit_ k in
                        if two63 <? v then None else Some (v, s3)
                      else Some (v, s3)
                end
        end
  end.

Fixpoint parse_groups (fuel : nat) (d : Z) (s : string) : option Z :=
  if s =s "" then Some d
  else match fuel with
       | O => None
       | S fuel =>
           match parse_group s with
           | None => None
           | Some (v, s) =>
               let d := d + v in if two63 <? d then None else parse_groups fuel d s
           end
       end.

(** [None] is an error. *)
Definition ParseDuration (s : string) : option Z :=
  let '(neg, s) :=
    match s with
    | String c r => if Ascii.eqb c "-" then (true, r)
                    else if Ascii.eqb c "+" then (false, r) else (false, s)
    | "" => (false, s)
    end in
  if s =s "0" then Some 0
  else if s =s "" then None
  else
    match parse_groups (String.length s) 0 s with
    | None => None
    | Some d =>
        if neg then Some (- d)
        else if two63 - 1 <? d then None else Some d
    end.

(** ** Facts *)

Lemma digit_val_range c d : digit_val c = Some d → 0 <= d <= 9.
Proof.
  unfold digit_val. destruct (_ && _) eqn:E; [|done]. intros [= <-].
  apply andb_true_iff in E as [?%Nat.leb_le ?%Nat.leb_le]. lia.
Qed.

Lemma leadingInt_length x s v r :
  leadingInt x s = Some (v, r) → 0 <= x →
  (String.length r <= String.length s)%nat ∧ 0 <= v.
Proof.
  revert x. induction s as [|c s IH]; intros x; cbn [leadingInt].
  - intros [= <- <-]. simpl. lia.
  - destruct (digit_val c) as [d|] eqn:Ed; [|intros [= <- <-]; simpl; lia].
    apply digit_val_range in Ed.
    destruct (_ <? x); [done|]. cbv zeta. destruct (two63 <? _); [done|].
    intros H Hx. apply IH in H as [? ?]; [simpl; lia|lia].
Qed.

Lemma leadingFraction_length s : ∀ x k o,
  (String.length (leadingFraction x k o s).2 <= String.length s)%nat.
Proof.
  induction s as [|c s IH]; intros x k o; cbn [leadingFraction]; [done|].
  destruct (digit_val c) as [d|]; [|done].
  assert (∀ x k o, (String.length (leadingFraction x k o s).2 <= String.length (String c s))%nat)
    as IH' by (intros; etrans; [apply IH|cbn [String.length]; lia]).
  cbv zeta. by repeat case_match.
Qed.

Lemma take_unit_length s :
  (String.length (take_unit s).1 + String.length (take_unit s).2 = String.length s)%nat.
Proof.
  induction s as [|c s IH]; cbn [take_unit]; [done|].
  destruct (_ || _); [done|]. destruct (take_unit s) as [u r]. simpl in *. lia.
Qed.

(** A group consumes at least one character: the loop of the parser ends. *)
Lemma parse_group_length s v r :
  parse_group s = Some (v, r) → (String.length r < String.length s)%nat.
Proof.
  unfold parse_group. destruct s as [|c s']; [done|]. destruct (negb (_ || _)); [done|].
  set (s := String c s'). destruct (leadingInt 0 s) as [[i s1]|] eqn:Ei; [|done].
  apply leadingInt_length in Ei as [Hi _]; [|lia]. cbv zeta.
  set (q := match s1 with "" => _ | String d r0 => _ end).
  assert (String.length q.2 <= String.length s1)%nat as Hq.
  { subst q. destruct s1 as [|d r0]; [simpl; lia|]. destruct (Ascii.eqb d "."); [|simpl; lia].
    pose proof (leadingFraction_length r0 0 0 false).
    destruct (leadingFraction 0 0 false r0) as [[f k] s2]. simpl in *. lia. }
  destruct q as [[[f k] post] s2]. destruct (_ && _); [done|].
  pose proof (take_unit_length s2) as Hu. destruct (take_unit s2) as [u s3]. simpl in Hq, Hu.
  destruct (String.eqb_spec u "") as [|Hne]; [done|].
  assert (0 < String.length u)%nat by (destruct u; [done|simpl; lia]).
  destruct (unitMap u) as [un|]; [|done]. destruct (_ <? i); [done|].
  destruct (0 <? f); [destruct (_ <? _); [done|]|]; intros [= _ <-]; lia.
Qed.

(** Enough fuel: the result does not depend on it. *)
Lemma parse_groups_fuel n m d s :
  (String.length s <= n)%nat → (String.length s <= m)%nat →
  parse_groups n d s = parse_groups m d s.
Proof.
  revert m d s. induction n as [|n IH]; intros m d s Hn Hm.
  - destruct s; [|simpl in Hn; lia]. by destruct m.
  - destruct m as [|m]; [destruct s; [done|simpl in Hm; lia]|]. cbn [parse_groups].
    destruct (s =s ""); [done|]. destruct (parse_group s) as [[v r]|] eqn:E; [|done].
    apply parse_group_length in E. cbv zeta. destruct (_ <? _); [done|]. apply IH; lia.
Qed.

Lemma float_trunc_nonneg f : 0 <= float_trunc f.
Proof. destruct f as [| | |[]]; simpl; try lia. apply Z.shiftl_nonneg. lia. Qed.

Lemma parse_group_range s v r : parse_group s = Some (v, r) → 0 <= v <= two63.
Proof.
  unfold parse_group. destruct s as [|c s']; [done|]. destruct (negb (_ || _)); [done|].
  set (s := String c s'). destruct (leadingInt 0 s) as [[i s1]|] eqn:Ei; [|done].
  apply leadingInt_length in Ei as [_ Hi]; [|lia]. cbv zeta.
  destruct (match s1 with "" => _ | String d r0 => _ end) as [[[f k] post] s2].
  destruct (_ && _); [done|]. destruct (take_unit s2) as [u s3].
  destruct (u =s ""); [done|]. destruct (unitMap u) as [un|] eqn:Eu; [|done].
  assert (0 < un) as Hun.
  { unfold unitMap, hour, minute, second in Eu. repeat case_match; simplify_eq; lia. }
  destruct (Z.ltb_spec (two63 / un) i) as [|Hv]; [done|].
  assert (i * un <= two63) by (pose proof (Z.mul_div_le two63 un Hun); nia).
  destruct (0 <? f).
  - destruct (Z.ltb_spec two63 (i * un + scale_fraction f un k)); [done|]. intros [= <- <-].
    pose proof (float_trunc_nonneg (float_mul (float_of_Z f)
      (float_div (float_of_Z un) (float_of_Z (10 ^ k))))).
    unfold scale_fraction in *. nia.
  - intros [= <- <-]. nia.
Qed.

Lemma parse_groups_range n : ∀ d s z,
  parse_groups n d s = Some z → 0 <= d <= two63 → 0 <= z <= two63.
Proof.
  induction n as [|n IH]; intros d s z; cbn [parse_groups]; destruct (s =s "");
    [intros [= <-]; tauto|done|intros [= <-]; tauto|].
  destruct (parse_group s) as [[v r]|] eqn:E; [|done]. cbv zeta.
  apply parse_group_range in E. destruct (Z.ltb_spec two63 (d + v)); [done|].
  intros Hz Hd. eapply IH; [done|lia].
Qed.

(** A duration that parses fits [int64]. *)
Lemma ParseDuration_range s z : ParseDuration s = Some z → is_int64 z.
Proof.
  unfold ParseDuration, is_int64. destruct (match s with "" => _ | String c r => _ end) as [neg r].
  destruct (r =s "0"); [intros [= <-]; lia|]. destruct (r =s ""); [done|].
  destruct (parse_groups _ 0 r) as [d|] eqn:E; [|done].
  apply parse_groups_range in E; [|unfold two63; lia]. unfold two63 in *.
  destruct neg; [intros [= <-]; lia|]. destruct (Z.ltb_spec (9223372036854775808 - 1) d); [done|].
  intros [= <-]. lia.
Qed.

Example ParseDuration_ex :
  (ParseDuration <$> ["1h30m"; "1.5s"; "-2m"; "300ms"; "0.3s"; "1d"; ""; "5"; "9223372036854775808ns"])
  = [Some (hour + 30 * minute); Some 1500000000; Some (-120 * second); Some 300000000;
     Some 300000000; None; None; None; None].
Proof. vm_compute. reflexivity. Qed.
