(* ===== verification/ActionCtl.v ===== *)
(** * ActionCtl: the ActionExecution controller and its clean-up task
    ([internal/controllers/actionexecution_{controller,cleanup}.go]) *)

From S2P Require Import Prelude GoStrings GoTime Prog Api Kube Builder Monitoring GameServerObjects.

Definition defaultActionTimeout : Z := 5 * minute.

Definition ae_name (e : ActionExecution) : string := om_Name (ae_Meta e).
Definition ae_state (e : ActionExecution) : ActionExecutionState := aes_State (ae_Status e).
Definition ae_set_Status (st : ActionExecutionStatus) (e : ActionExecution) : ActionExecution :=
  {| ae_Meta := ae_Meta e; ae_Spec := ae_Spec e; ae_Status := st |}.
Definition ae_set_State (s : ActionExecutionState) (e : ActionExecution) : ActionExecution :=
  let st := ae_Status e in
  ae_set_Status {| aes_State := s; aes_StartedAt := aes_StartedAt st; aes_EndedAt := aes_EndedAt st;
    aes_AgentResponse := aes_AgentResponse st; aes_Error := aes_Error st;
    aes_Conditions := aes_Conditions st |} e.

Definition is_terminal (s : ActionExecutionState) : bool :=
  match s with
  | ActionExecutionSucceeded | ActionExecutionFailed | ActionExecutionTimedOut
  | ActionExecutionRejected => true
  | _ => false
  end.

(** ** The decision procedures *)

(** The error names the first missing parameter in the order of the loop. *)
Fixpoint validate_params (params : gomap string) (decl : list (string * ActionParamSchema))
  : option string :=
  match decl with
  | [] => None
  | (name, param) :: decl =>
      if aps_Required param then
        match gm_lookup params name with
        | Some _ => validate_params params decl
        | None => Some ("required param " +:+ fmt_q name +:+ " missing")
        end
      else validate_params params decl
  end.
Definition validateParams (exec : ActionExecution) (decl : ActionDecl) : option string :=
  validate_params (ae_Params (ae_Spec exec)) (ad_Params decl).

Fixpoint concurrency_verdict (exec : ActionExecution) (server : GameServer) (decl : ActionDecl)
    (others : list ActionExecution) : bool * string :=
  match others with
  | [] => (true, "")
  | other :: others =>
      if ae_name other =s ae_name exec then concurrency_verdict exec server decl others
      else if negb (bool_decide (ae_state other = ActionExecutionRunning))
      then concurrency_verdict exec server decl others
      else if tr_Name (ae_TargetRef (ae_Spec other)) <>s om_Name (gs_Meta server)
      then concurrency_verdict exec server decl others
      else
        match ad_Concurrency decl with
        | ActionConcurrencyExclusive =>
            (false, "exclusive action blocked by running execution " +:+ fmt_q (ae_name other))
        | ActionConcurrencySerialize =>
            if ae_ActionName (ae_Spec other) =s ae_ActionName (ae_Spec exec)
            then (false, "serialized action blocked by running execution "
                           +:+ fmt_q (ae_name other))
            else concurrency_verdict exec server decl others
        | _ => concurrency_verdict exec server decl others
        end
  end.

Definition checkConcurrency (exec : ActionExecution) (server : GameServer) (decl : ActionDecl)
  : M (bool * string) :=
  let* l := call (ListObjs KExec (Some (om_Namespace (gs_Meta server))) []) in
  match l with
  | inr e => Ret (false, "failed to list action executions: " +:+ ge_msg e)
  | inl others => Ret (concurrency_verdict exec server decl others)
  end.

Definition action_timeout (decl : ActionDecl) : Z :=
  if ad_Timeout decl <>s "" then
    match ParseDuration (ad_Timeout decl) with
    | Some d => d
    | None => defaultActionTimeout
    end
  else defaultActionTimeout.

(** ** Status and dispatch *)

Definition state_status (exec : ActionExecution) (state : ActionExecutionState)
    (result errMsg : string) (now : Z) : ActionExecutionStatus :=
  let st := ae_Status exec in {|
  aes_State := state;
  aes_StartedAt := if bool_decide (state = ActionExecutionRunning) then Some now
                   else aes_StartedAt st;
  aes_EndedAt := if is_terminal state then Some now else aes_EndedAt st;
  aes_AgentResponse := result;
  aes_Error := errMsg;
  aes_Conditions := setCondition (aes_Conditions st) {|
    cond_Type := state_string state; cond_Status := ConditionTrue;
    cond_Reason := state_string state; cond_Message := errMsg;
    cond_ObservedGeneration := om_Generation (ae_Meta exec);
    cond_LastTransitionTime := now |} |}.

Definition setState (exec : ActionExecution) (state : ActionExecutionState)
    (result errMsg : string) : M ActionExecution :=
  let* now := call Now in
  (if is_terminal state
   then observeActionExecution (ae_ActionName (ae_Spec exec)) (state_string state)
   else Ret tt) ;;;
  let exec := ae_set_Status (state_status exec state result errMsg now) exec in
  effect (StatusUpdate KExec exec) ;;; Ret exec.

Definition dispatchToAgent (server : GameServer) (exec : ActionExecution) (timeout : Z)
  : M (string + gerr) :=
  let* svc := call (Get KSvc (om_Namespace (gs_Meta server)) (om_Name (gs_Meta server))) in
  match svc with
  | inr e => Ret (inr (wrapf "failed to get service" e))
  | inl svc =>
      let addr := om_Name (svc_Meta svc) +:+ "." +:+ om_Namespace (svc_Meta svc)
                    +:+ ".svc.cluster.local:" +:+ itoa AgentGRPCPort in
      let* e := call (GrpcDial addr) in
      match e with
      | Some e => Ret (inr (wrapf "failed to connect to agent" e))
      | None =>
          let* resp := call (AgentExecuteAction addr timeout (ae_ActionName (ae_Spec exec))
                               (ae_Params (ae_Spec exec)) (ae_name exec)) in
          match resp with
          | inr e => Ret (inr (wrapf "agent execution failed" e))
          | inl resp =>
              match ear_State resp with
              | ACTION_STATE_FAILED =>
                  Ret (inr (errorf ("agent reported failure: " +:+ ear_Error resp)))
              | ACTION_STATE_REJECTED =>
                  Ret (inr (errorf ("agent rejected action: " +:+ ear_Error resp)))
              | ACTION_STATE_OTHER => Ret (inl (ear_Result resp))
              end
          end
      end
  end.

(** ** Reconcile *)

(** Run an execution that passed all the checks. *)
Definition run_action (exec : ActionExecution) (server : GameServer) (decl : ActionDecl)
  : M unit :=
  let timeout := action_timeout decl in
  let* exec := setState exec ActionExecutionRunning "" "" in
  let* r := dispatchToAgent server exec timeout in
  match r with
  | inr e => setState exec ActionExecutionFailed "" (ge_msg e) ;;; Ret tt
  | inl result => setState exec ActionExecutionSucceeded result "" ;;; Ret tt
  end.

Definition reject (exec : ActionExecution) (msg : string) : M unit :=
  setState exec ActionExecutionRejected "" msg ;;; Ret tt.

(** The checks once server and profile are known. *)
Definition check_and_run (exec : ActionExecution) (server : GameServer) (profile : GameProfile)
  : M unit :=
  match find_first (λ d, ad_Name d =s ae_ActionName (ae_Spec exec)) (gp_Actions (gp_Spec profile)) with
  | None =>
      reject exec ("action " +:+ fmt_q (ae_ActionName (ae_Spec exec)) +:+ " not found in profile "
                     +:+ fmt_q (om_Name (gp_Meta profile)))
  | Some decl =>
      match validateParams exec decl with
      | Some msg => reject exec msg
      | None =>
          let* '(canRun, reason) := checkConcurrency exec server decl in
          if canRun then run_action exec server decl else reject exec reason
      end
  end.

Definition reconcile_pending (reqNamespace : string) (exec : ActionExecution)
  : M (option gerr) :=
  let target := ae_TargetRef (ae_Spec exec) in
  let ns := if tr_Namespace target =s "" then reqNamespace else tr_Namespace target in
  let* server := call (Get KGameServer ns (tr_Name target)) in
  match server with
  | inr e =>
      if IsNotFound e then reject exec "target GameServer not found" ;;; Ret None
      else Ret (Some e)
  | inl server =>
      let* profile := call (Get KGameProfile "" (gs_Profile (gs_Spec server))) in
      match profile with
      | inr e =>
          if IsNotFound e then reject exec "referenced GameProfile not found" ;;; Ret None
          else Ret (Some e)
      | inl profile => check_and_run exec server profile ;;; Ret None
      end
  end.

Definition ae_Reconcile (namespace name : string) : M (Result * option gerr) :=
  let* exec := call (Get KExec namespace name) in
  match exec with
  | inr e => Ret (no_requeue, unless IsNotFound (Some e))
  | inl exec =>
      if bool_decide (om_DeletionTimestamp (ae_Meta exec) = None)
         && bool_decide (ae_state exec = ActionExecutionNew)
      then
        let* e := call (StatusUpdate KExec (ae_set_State ActionExecutionPending exec)) in
        Ret (no_requeue, e)
      else if negb (bool_decide (ae_state exec = ActionExecutionPending)) then
        Ret (no_requeue, None)
      else
        let* e := reconcile_pending namespace exec in Ret (no_requeue, e)
  end.

(** ** Clean-up ([actionexecution_cleanup.go]) *)

Definition actionExecutionTTLCleanupInterval : Z := 1 * hour.
Definition actionExecutionSuccessTTL : Z := 7 * 24 * hour.
Definition actionExecutionFailedTTL : Z := 30 * 24 * hour.

Definition expired (now : Z) (exec : ActionExecution) : bool :=
  is_terminal (ae_state exec)
  && match aes_EndedAt (ae_Status exec) with
     | None => false
     | Some ended =>
         let ttl := match ae_state exec with
                    | ActionExecutionSucceeded => actionExecutionSuccessTTL
                    | _ => actionExecutionFailedTTL
                    end in
         ttl <? time_sub now ended
     end.

Definition cleanup_one (now : Z) (exec : ActionExecution) : M (option unit) :=
  if expired now exec
  then call (Delete KExec (om_Namespace (ae_Meta exec)) (ae_name exec)) ;;; Ret None
  else Ret None.

Definition cleanup : M (option gerr) :=
  let* l := call (ListObjs KExec None []) in
  match l with
  | inr e => Ret (Some e)
  | inl l =>
      let* now := call Now in
      for_each l (cleanup_one now) ;;; Ret None
  end.

(** The ticker loop: one clean-up per tick until the context is cancelled; the
    errors are logged only. *)
Fixpoint cleanup_Start (ticks : nat) : M unit :=
  match ticks with
  | O => Ret tt
  | S ticks => cleanup ;;; cleanup_Start ticks
  end.

(** ** The state machine of an execution *)

Definition ev_state (v : event op) : option ActionExecutionState :=
  match v with
  | Ev e _ =>
      match write_of e with
      | Some (WStatusUpdate k o) =>
          match k return obj k → option ActionExecutionState with
          | KExec => λ e, Some (ae_state e)
          | _ => λ _, None
          end o
      | _ => None
      end
  end.
(** The states a run writes, in order. *)
Definition written_states (t : list (event op)) : list ActionExecutionState := omap ev_state t.

(** An execution is handed to an agent. *)
Definition is_dispatch (v : event op) : bool :=
  match v with Ev e _ => match e with AgentExecuteAction _ _ _ _ _ => true | _ => false end end.
Definition is_count (v : event op) : bool :=
  match v with Ev e _ => match e with CounterInc _ _ => true | _ => false end end.

(** One legal step of the state machine. *)
Inductive action_step : ActionExecutionState → ActionExecutionState → Prop :=
| step_pending : action_step ActionExecutionNew ActionExecutionPending
| step_reject : action_step ActionExecutionPending ActionExecutionRejected
| step_run : action_step ActionExecutionPending ActionExecutionRunning
| step_succeed : action_step ActionExecutionRunning ActionExecutionSucceeded
| step_fail : action_step ActionExecutionRunning ActionExecutionFailed.

(** [path s l]: the states [l] follow [s] by legal steps. *)
Fixpoint path (s : ActionExecutionState) (l : list ActionExecutionState) : Prop :=
  match l with
  | [] => True
  | s' :: l => action_step s s' ∧ path s' l
  end.

Lemma path_rtc s l : path s l → rtc action_step s (List.last l s).
Proof.
  revert s. induction l as [|x l IH]; intros s; [constructor|]. intros [Hs Hp].
  eapply rtc_l; [exact Hs|]. destruct l as [|y l]; [constructor|]. apply IH in Hp.
  change (List.last (x :: y :: l) s) with (List.last (y :: l) s).
  replace (List.last (y :: l) s) with (List.last (y :: l) x); [done|].
  clear. revert y. induction l as [|z l IHl]; intros y; [done|]. apply (IHl z).
Qed.

(** Nothing leaves a terminal state, and none but a terminal state is final. *)
Lemma terminal_absorbing s s' : is_terminal s = true → rtc action_step s s' → s' = s.
Proof. intros Ht H. destruct H as [|s1 s2 s3 H _]; [done|]. by destruct H. Qed.

Lemma written_states_app t1 t2 : written_states (t1 ++ t2) = written_states t1 ++ written_states t2.
Proof. apply omap_app. Qed.

(** What a run did: the states written, how many executions were dispatched and
    how many terminal states were counted. *)
Definition run_summary (t : list (event op)) : list ActionExecutionState * nat * nat :=
  (written_states t, length (filter (λ v, is_dispatch v = true) t),
   length (filter (λ v, is_count v = true) t)).

Definition sum_app (a b : list ActionExecutionState * nat * nat) :=
  (a.1.1 ++ b.1.1, (a.1.2 + b.1.2)%nat, (a.2 + b.2)%nat).

Lemma run_summary_app t1 t2 : run_summary (t1 ++ t2) = sum_app (run_summary t1) (run_summary t2).
Proof. unfold run_summary, sum_app. simpl. by rewrite written_states_app, !filter_app, !length_app. Qed.

Lemma setState_runs exec s r m t o :
  runs (setState exec s r m) t o →
  ∃ exec', o = Done exec' ∧ run_summary t = ([s], 0%nat, if is_terminal s then 1%nat else 0%nat).
Proof.
  intros (now & t1 & -> & H). cbn [bind] in H. destruct (is_terminal s) eqn:Es; cbn in H.
  - destruct H as ([] & ? & -> & ? & ? & -> & -> & ->). by eexists.
  - destruct H as (? & ? & -> & -> & ->). by eexists.
Qed.

Lemma reject_runs exec m t o :
  runs (reject exec m) t o →
  o = Done tt ∧ run_summary t = ([ActionExecutionRejected], 0%nat, 1%nat).
Proof.
  unfold reject. intros [(c & H & ->)|(a & t1 & t2 & -> & H & [-> ->])]%runs_bind;
    apply setState_runs in H as (e & He & Hs); simplify_eq.
  split; [done|]. by rewrite app_nil_r.
Qed.

(** A dispatch calls the agent at most once and writes nothing. *)
Lemma dispatchToAgent_runs server exec timeout t o :
  runs (dispatchToAgent server exec timeout) t o →
  ∃ r n, o = Done r ∧ run_summary t = ([], n, 0%nat) ∧ (n <= 1)%nat.
Proof.
  intros ([svc|e] & t1 & -> & H); cbn [bind] in H;
    [|destruct H as [-> ->]; eexists _, 0%nat; split_and!; [done..|lia]].
  destruct H as ([e|] & t2 & -> & H); cbn [bind] in H;
    [destruct H as [-> ->]; eexists _, 0%nat; split_and!; [done..|lia]|].
  destruct H as ([resp|e] & t3 & -> & H); cbn [bind] in H;
    [|destruct H as [-> ->]; eexists _, 1%nat; split_and!; [done..|lia]].
  destruct (ear_State resp); destruct H as [-> ->]; eexists _, 1%nat; split_and!; done || lia.
Qed.

Lemma run_action_runs exec server decl t o :
  runs (run_action exec server decl) t o →
  o = Done tt ∧ ∃ s n, s ∈ [ActionExecutionSucceeded; ActionExecutionFailed]
    ∧ (n <= 1)%nat ∧ run_summary t = ([ActionExecutionRunning; s], n, 1%nat).
Proof.
  unfold run_action. cbv zeta.
  intros [(c & H & ->)|(e1 & t1 & t2 & -> & H1 & H)]%runs_bind;
    [by apply setState_runs in H as (? & ? & _)|].
  apply setState_runs in H1 as (? & _ & Hs1).
  apply runs_bind in H as [(c & H & ->)|(r & t3 & t4 & -> & H2 & H)];
    [by apply dispatchToAgent_runs in H as (? & ? & ? & _)|].
  apply dispatchToAgent_runs in H2 as (? & n & _ & Hs2 & Hn).
  rewrite !run_summary_app, Hs1, Hs2.
  destruct r as [res|e]; apply runs_bind in H as [(c & H & ->)|(u & t5 & t6 & -> & H & [-> ->])];
    apply setState_runs in H as (? & ? & Hs3); simplify_eq; rewrite app_nil_r, Hs3;
    (split; [done|]); eexists _, n; unfold sum_app; simpl; rewrite ?Nat.add_0_r;
    (split_and!; [|done|done]); set_solver.
Qed.

(** The outcomes of one reconcile of a pending execution. *)
Definition pending_summary (x : list ActionExecutionState * nat * nat) : Prop :=
  x = ([], 0%nat, 0%nat) ∨ x = ([ActionExecutionRejected], 0%nat, 1%nat)
  ∨ ∃ s n, s ∈ [ActionExecutionSucceeded; ActionExecutionFailed] ∧ (n <= 1)%nat
           ∧ x = ([ActionExecutionRunning; s], n, 1%nat).

Lemma checkConcurrency_runs exec server decl t o :
  runs (checkConcurrency exec server decl) t o →
  run_summary t = ([], 0%nat, 0%nat) ∧ ∃ r, o = Done r.
Proof. intros ([l|e] & t1 & -> & [-> ->]); eauto. Qed.

Lemma check_and_run_runs exec server profile t o :
  runs (check_and_run exec server profile) t o →
  o = Done tt ∧ pending_summary (run_summary t).
Proof.
  unfold check_and_run, pending_summary.
  destruct (find_first _ _) as [decl|]; [|intros [-> ->]%reject_runs; auto].
  destruct (validateParams exec decl); [intros [-> ->]%reject_runs; auto|].
  intros [(c & H & ->)|([can reason] & t1 & t2 & -> & H1 & H)]%runs_bind;
    [by apply checkConcurrency_runs in H as (_ & ? & ?)|].
  apply checkConcurrency_runs in H1 as [Hs _]. rewrite run_summary_app, Hs.
  destruct can.
  - apply run_action_runs in H as (-> & s & n & ? & ? & ->). split; [done|]. right. right.
    by exists s, n.
  - apply reject_runs in H as [-> ->]. auto.
Qed.

Lemma reconcile_pending_runs ns exec t o :
  runs (reconcile_pending ns exec) t o → (∃ e, o = Done e) ∧ pending_summary (run_summary t).
Proof.
  assert (pending_summary (run_summary [])) as Hnil by by left.
  intros ([server|e] & t1 & -> & H); cbn [bind] in H.
  2:{ destruct (IsNotFound e); [|destruct H as [-> ->]; eauto].
      apply runs_bind in H as [(c & [? ?]%reject_runs & ->)|(u & t5 & t6 & -> & H & [-> ->])]; [done|].
      apply reject_runs in H as [_ Hs]. rewrite app_nil_r. split; [eauto|].
      change (pending_summary (run_summary t5)). rewrite Hs. right. by left. }
  destruct H as ([profile|e] & t2 & -> & H); cbn [bind] in H.
  2:{ destruct (IsNotFound e); [|destruct H as [-> ->]; eauto].
      apply runs_bind in H as [(c & [? ?]%reject_runs & ->)|(u & t5 & t6 & -> & H & [-> ->])]; [done|].
      apply reject_runs in H as [_ Hs]. rewrite app_nil_r. split; [eauto|].
      change (pending_summary (run_summary t5)). rewrite Hs. right. by left. }
  apply runs_bind in H as [(c & [? ?]%check_and_run_runs & ->)|(u & t5 & t6 & -> & H & [-> ->])]; [done|].
  apply check_and_run_runs in H as [_ Hs]. rewrite app_nil_r. by split; [eauto|].
Qed.

(** ** Properties *)

Ltac close_summary :=
  split_and!; try done; try lia; try (by constructor); try (by repeat (split; [constructor|])); try (by intros [?|?]); eauto.

(** C13: an execution moves only along its state machine (new, pending, then rejected,
    or running and then succeeded or failed): every run of a reconcile writes a
    path of legal steps from the state it read, hands the action to an agent at
    most once and only after recording it as running, counts exactly one
    metric per terminal state reached, and does nothing at all for an
    execution that is running or finished. *)
Theorem action_state_machine ns name exec t o :
  runs (ae_Reconcile ns name) (Ev (Get KExec ns name) (inl exec) :: t) o →
  let '(states, dispatched, counted) := run_summary t in
  path (ae_state exec) states
  ∧ (dispatched <= 1)%nat
  ∧ (dispatched = 1%nat → head states = Some ActionExecutionRunning)
  ∧ counted = length (filter (λ s, is_terminal s = true) states)
  ∧ (is_terminal (ae_state exec) = true ∨ ae_state exec = ActionExecutionRunning → t = [])
  ∧ ∃ q e, o = Done (q, e).
Proof.
  intros H%(runs_Get KExec). cbn [bind] in H.
  destruct (_ && _) eqn:Enew.
  { apply andb_true_iff in Enew as [_ Hn%bool_decide_eq_true].
    destruct H as (e & t1 & -> & [-> ->]). cbn. rewrite Hn. close_summary. }
  case_bool_decide as Hp; cbn [negb] in H.
  2:{ destruct H as [-> ->]. cbn. close_summary. }
  apply runs_bind in H as [(c & [[? ?] _]%reconcile_pending_runs & ->)|(e & t1 & t2 & -> & H & [-> ->])];
    [done|].
  apply reconcile_pending_runs in H as [_ Hs]. rewrite app_nil_r, Hp.
  destruct Hs as [->|[->|(s & n & Hm & Hn & ->)]]; [close_summary..|].
  rewrite !elem_of_cons, elem_of_nil in Hm. destruct Hm as [->|[->|[]]]; close_summary.
Qed.

(** an execution passes validation exactly when it gives a value to every
    parameter its action declares as required. *)
Theorem validateParams_correct exec decl :
  validateParams exec decl = None ↔
  ∀ name p, (name, p) ∈ ad_Params decl → aps_Required p = true →
            is_Some (gm_lookup (ae_Params (ae_Spec exec)) name).
Proof.
  unfold validateParams. generalize (ae_Params (ae_Spec exec)). intros params.
  induction (ad_Params decl) as [|[n q] l IH]; cbn [validate_params]; [set_solver|].
  destruct (aps_Required q) eqn:Eq; [destruct (gm_lookup params n) eqn:El|].
  - rewrite IH. split; intros H n' p'; [rewrite elem_of_cons; intros [[= -> ->]|?]|]; eauto.
    intros; apply (H n' p'); [by right|done].
  - split; [done|]. intros H. destruct (H n q) as [v ?]; [by left|done|congruence].
  - rewrite IH. split; intros H n' p'; [rewrite elem_of_cons; intros [[= -> ->]|?]|].
    + congruence.
    + eauto.
    + intros; apply (H n' p'); [by right|done].
Qed.

(** The executions that compete with [exec] for the agent of [server]. *)
Definition competes (exec : ActionExecution) (server : GameServer) (other : ActionExecution) : Prop :=
  ae_name other ≠ ae_name exec ∧ ae_state other = ActionExecutionRunning
  ∧ tr_Name (ae_TargetRef (ae_Spec other)) = om_Name (gs_Meta server).

#[global] Instance competes_dec exec server other : Decision (competes exec server other).
Proof. solve_decision. Defined.

(** A competing execution that the mode of the new action excludes: any one
    for an exclusive action, one of the same action for a serialized one. *)
Definition blocks (decl : ActionDecl) (exec : ActionExecution) (server : GameServer)
    (other : ActionExecution) : Prop :=
  competes exec server other
  ∧ match ad_Concurrency decl with
    | ActionConcurrencyExclusive => True
    | ActionConcurrencySerialize =>
        ae_ActionName (ae_Spec other) = ae_ActionName (ae_Spec exec)
    | _ => False
    end.

#[global] Instance blocks_dec decl exec server other : Decision (blocks decl exec server other).
Proof. unfold blocks. destruct (ad_Concurrency decl); solve_decision. Defined.

(** The verdict names the first execution that blocks the new one. *)
Lemma concurrency_verdict_spec exec server decl others :
  (concurrency_verdict exec server decl others = (true, "")
     ∧ Forall (λ o, ¬ blocks decl exec server o) others)
  ∨ ∃ pre other post what, others = pre ++ other :: post
      ∧ Forall (λ o, ¬ blocks decl exec server o) pre ∧ blocks decl exec server other
      ∧ concurrency_verdict exec server decl others
        = (false, what +:+ " action blocked by running execution " +:+ fmt_q (ae_name other)).
Proof.
  assert (∀ o l, ¬ blocks decl exec server o →
            concurrency_verdict exec server decl (o :: l) = concurrency_verdict exec server decl l)
    as Hskip.
  { intros o l Hn. cbn [concurrency_verdict]. unfold blocks, competes in Hn.
    destruct (String.eqb_spec (ae_name o) (ae_name exec)) as [?|?]; [done|].
    case_bool_decide; cbn [negb]; [|done].
    destruct (String.eqb_spec (tr_Name (ae_TargetRef (ae_Spec o))) (om_Name (gs_Meta server)));
      cbn [negb]; [|done].
    destruct (ad_Concurrency decl); try done; [|naive_solver].
    destruct (String.eqb_spec (ae_ActionName (ae_Spec o)) (ae_ActionName (ae_Spec exec)));
      naive_solver. }
  assert (∀ o l, blocks decl exec server o → ∃ what, concurrency_verdict exec server decl (o :: l)
            = (false, what +:+ " action blocked by running execution " +:+ fmt_q (ae_name o)))
    as Hstop.
  { intros o l [(Hne & Hr & Ht) Hm]. cbn [concurrency_verdict].
    rewrite (proj2 (String.eqb_neq _ _) Hne), bool_decide_true, Ht, eqs_refl by done. cbn [negb].
    destruct (ad_Concurrency decl); try done; [|by exists "exclusive"].
    rewrite Hm, eqs_refl. by exists "serialized". }
  induction others as [|o l IH]; [by left|].
  destruct (decide (blocks decl exec server o)) as [Hb|Hb].
  - right. destruct (Hstop o l Hb) as [what ->]. by exists [], o, l, what.
  - rewrite Hskip by done. destruct IH as [[-> ?]|(pre & other & post & what & -> & ? & ? & ->)].
    + left. split; [done|]. by constructor.
    + right. exists (o :: pre), other, post, what. split_and!; [done|by constructor|done..].
Qed.

(** C14: which executions are run, of those that name a declared action with
    valid parameters.  The executions of the server's namespace are listed; if
    that fails the new one is rejected with the error.  It is rejected, naming
    the first running execution of the server that its own mode excludes (any
    one when it is exclusive, one of the same action when it is serialized), if
    there is one, and is run otherwise.  Only the mode of the new action
    counts: one of mode allow is run while an exclusive execution is still
    running, although docs/architecture/controller-flow.md says that no other
    action runs then. *)
Theorem concurrency_correct exec server profile decl t o :
  find_first (λ d, ad_Name d =s ae_ActionName (ae_Spec exec)) (gp_Actions (gp_Spec profile))
    = Some decl →
  validateParams exec decl = None →
  runs (check_and_run exec server profile) t o →
  ∃ listed t', t = Ev (ListObjs KExec (Some (om_Namespace (gs_Meta server))) []) listed :: t'
    ∧ match listed with
      | inr e => runs (reject exec ("failed to list action executions: " +:+ ge_msg e)) t' o
      | inl others =>
          (Forall (λ x, ¬ blocks decl exec server x) others
           ∧ runs (run_action exec server decl) t' o)
          ∨ ∃ pre other post what, others = pre ++ other :: post
              ∧ Forall (λ x, ¬ blocks decl exec server x) pre ∧ blocks decl exec server other
              ∧ runs (reject exec (what +:+ " action blocked by running execution "
                                     +:+ fmt_q (ae_name other))) t' o
      end.
Proof.
  intros Hf Hv. unfold check_and_run. rewrite Hf, Hv. unfold checkConcurrency.
  cbn [bind call]. intros (listed & t' & -> & H). exists listed, t'. split; [done|].
  destruct listed as [others|e]; cbn [bind] in H; [|done].
  destruct (concurrency_verdict_spec exec server decl others)
    as [[E Hall]|(pre & other & post & what & -> & Hpre & Hb & E)]; rewrite E in H.
  - by left.
  - right. by exists pre, other, post, what.
Qed.

(** an exclusive action is not protected while it runs: an action whose own mode is
    "allow" (or unset) is admitted whatever is running on the server, an
    exclusive execution included. *)
Theorem exclusive_not_protected exec server decl others :
  ad_Concurrency decl = ActionConcurrencyAllow ∨ (∃ s, ad_Concurrency decl = ActionConcurrencyOther s) →
  concurrency_verdict exec server decl others = (true, "").
Proof.
  intros Hm. induction others as [|o l IH]; cbn [concurrency_verdict]; [done|].
  repeat (case_match; try done); destruct Hm as [?|[? ?]]; congruence.
Qed.

(** the clean-up deletes exactly the executions whose time has come: finished,
    with a recorded end more than 7 days ago if they succeeded and 30 days
    otherwise. *)
Theorem cleanup_exact now l t :
  runs (for_each l (cleanup_one now)) t (Done None) →
  writes t = (λ e, WDelete KExec (om_Namespace (ae_Meta e)) (ae_name e))
               <$> filter (λ e, expired now e = true) l
  ∧ ∀ e, expired now e = true ↔
      ∃ ended, is_terminal (ae_state e) = true ∧ aes_EndedAt (ae_Status e) = Some ended
        ∧ (if bool_decide (ae_state e = ActionExecutionSucceeded) then 7 * 24 * hour
           else 30 * 24 * hour) < time_sub now ended.
Proof.
  intros H. split.
  - apply (for_each_writes _ _ (λ e, if expired now e
      then [WDelete KExec (om_Namespace (ae_Meta e)) (ae_name e)] else [])) in H.
    + rewrite H. clear. induction l as [|e l IH]; [done|].
      rewrite bind_cons, filter_cons, IH. by destruct (expired now e).
    + intros e u _. unfold cleanup_one. destruct (expired now e); [|by intros [-> _]].
      by intros (x & ? & -> & [-> _]).
  - intros e. unfold expired. destruct (aes_EndedAt (ae_Status e)) as [ended|].
    2:{ rewrite andb_false_r. naive_solver. }
    rewrite andb_true_iff, Z.ltb_lt. split.
    + intros [? ?]. exists ended. split_and!; [done..|]. by destruct (ae_state e).
    + intros (? & ? & [= <-] & ?). split; [done|]. by destruct (ae_state e).
Qed.

(** ** Witnesses *)

Definition ex_exec (name : string) (state : ActionExecutionState) (ended : option Z)
  : ActionExecution := {|
  ae_Meta := new_meta name "tenant-a" None;
  ae_Spec := {|
    ae_TargetRef := {| tr_APIVersion := ""; tr_Kind := "GameServer"; tr_Name := "smp";
                       tr_Namespace := "" |};
    ae_ActionName := "broadcast"; ae_Params := Some {["message" := "hi"]}; ae_Caller := "admin" |};
  ae_Status := {| aes_State := state; aes_StartedAt := None; aes_EndedAt := ended;
                  aes_AgentResponse := ""; aes_Error := ""; aes_Conditions := [] |} |}.
Definition ex_decl (mode : ActionConcurrency) : ActionDecl := {|
  ad_Name := "broadcast"; ad_Description := "";
  ad_Params := [("message", {| aps_Type := "string"; aps_Required := true; aps_Description := "";
                               aps_Default := "" |})];
  ad_Returns := ""; ad_Concurrency := mode; ad_Timeout := "30s" |}.
Definition ex_action_profile : GameProfile :=
  let sp := gp_Spec ex_profile in {|
  gp_Meta := gp_Meta ex_profile; gp_Conditions := [];
  gp_Spec := {|
    gp_DisplayName := ""; gp_Category := ""; gp_Icon := ""; gp_Description := "";
    gp_Image := gp_Image sp; gp_ImagePullPolicy := ""; gp_Ports := gp_Ports sp;
    gp_Environment := []; gp_Resources := gp_Resources sp; gp_Storage := gp_Storage sp;
    gp_Agent := gp_Agent sp; gp_Actions := [ex_decl ActionConcurrencyExclusive];
    gp_Capabilities := None; gp_Observability := None |} |}.
Definition ex_pending := ex_exec "run-1" ActionExecutionPending None.
Definition ex_action_env : ∀ X, op X → X :=
  answer (with_obj KExec ex_pending (with_obj KGameServer ex_server
           (with_obj KGameProfile ex_action_profile
             (with_obj KSvc (buildHeadlessService ex_server ∅) no_objects)))) no_lists 1000.

Lemma action_state_machine_witness :
  let t := tail (run_trace ex_action_env (ae_Reconcile "tenant-a" "run-1")) in
  written_states t = [ActionExecutionRunning; ActionExecutionSucceeded]
  ∧ path ActionExecutionPending (written_states t).
Proof.
  intros t. split; [reflexivity|].
  exact (proj1 (action_state_machine "tenant-a" "run-1" ex_pending t _
    (run_runs_cons ex_action_env (ae_Reconcile "tenant-a" "run-1") _ eq_refl))).
Defined.

(** An execution of the same exclusive action is running. *)
Definition ex_busy_env : ∀ X, op X → X :=
  answer no_objects (with_list KExec [ex_pending; ex_exec "run-0" ActionExecutionRunning None]
                       no_lists) 1000.

Lemma concurrency_correct_witness :
  let p := check_and_run ex_pending ex_server ex_action_profile in
  written_states (run_trace ex_busy_env p) = [ActionExecutionRejected]
  ∧ ∃ other, ae_name other = "run-0" ∧ competes ex_pending ex_server other.
Proof.
  intros p. split; [reflexivity|].
  destruct (concurrency_correct ex_pending ex_server ex_action_profile
      (ex_decl ActionConcurrencyExclusive) _ _ eq_refl eq_refl (run_runs ex_busy_env p))
    as (listed & t' & [= El <-] & H).
  exists (ex_exec "run-0" ActionExecutionRunning None). split; [reflexivity|].
  split_and!; [discriminate|reflexivity..].
Defined.

Lemma exclusive_not_protected_witness :
  concurrency_verdict ex_pending ex_server (ex_decl ActionConcurrencyAllow)
    [ex_exec "run-0" ActionExecutionRunning None] = (true, "").
Proof. apply exclusive_not_protected. left. reflexivity. Defined.

Lemma cleanup_exact_witness :
  let old := ex_exec "old" ActionExecutionSucceeded (Some 0) in
  let l := [old; ex_exec "failed" ActionExecutionFailed (Some 0); ex_pending] in
  let p := for_each l (cleanup_one (8 * 24 * hour)) in
  writes (run_trace ex_action_env p) = [WDelete KExec "tenant-a" "old"].
Proof.
  intros old l p.
  rewrite (proj1 (cleanup_exact (8 * 24 * hour) l _ (run_runs ex_action_env p))).
  reflexivity.
Defined.
