(* ===== verification/SnapshotCtl.v ===== *)
(** * SnapshotCtl: the GameSnapshot controller
    ([internal/controllers/gamesnapshot_controller.go])

    The cron library is the parameter [CronParser]: a schedule is the function
    that gives the activation after an instant (the zero time when there is
    none). *)

From S2P Require Import Prelude GoStrings GoTime Prog Api Kube Builder GameServerObjects GameServerCtl.

Definition gameSnapshotFinalizer := "minato.io/gamesnapshot-finalizer".
Definition saveTimeout : Z := 2 * minute.
Definition snapshotTimeout : Z := 10 * minute.

(** The zero [time.Time]: January 1, year 1. *)
Definition zero_time : Z := -62135596800 * second.

Class CronParser := ParseCron : string → (Z → Z) + gerr.

Definition sn_ns (s : GameSnapshot) : string := om_Namespace (sn_Meta s).
Definition sn_name (s : GameSnapshot) : string := om_Name (sn_Meta s).
Definition sn_set_Meta (m : ObjectMeta) (s : GameSnapshot) : GameSnapshot :=
  {| sn_Meta := m; sn_Spec := sn_Spec s; sn_Status := sn_Status s |}.
Definition sn_set_Status (st : GameSnapshotStatus) (s : GameSnapshot) : GameSnapshot :=
  {| sn_Meta := sn_Meta s; sn_Spec := sn_Spec s; sn_Status := st |}.
Definition sn_set_Snapshots (l : list SnapshotEntry) (s : GameSnapshot) : GameSnapshot :=
  sn_set_Status {| sns_Snapshots := l; sns_LastSnapshotAt := sns_LastSnapshotAt (sn_Status s);
                   sns_Conditions := sns_Conditions (sn_Status s) |} s.
Definition sn_entries (s : GameSnapshot) : list SnapshotEntry := sns_Snapshots (sn_Status s).

(** ** Conditions *)

Definition snap_setCondition (snap : GameSnapshot) (condType : string) (status : ConditionStatus)
    (reason message : string) : M GameSnapshot :=
  let* now := call Now in
  let st := sn_Status snap in
  let snap := sn_set_Status {|
    sns_Snapshots := sns_Snapshots st; sns_LastSnapshotAt := sns_LastSnapshotAt st;
    sns_Conditions := setCondition (sns_Conditions st) {|
      cond_Type := condType; cond_Status := status; cond_Reason := reason;
      cond_Message := message; cond_ObservedGeneration := om_Generation (sn_Meta snap);
      cond_LastTransitionTime := now |} |} snap in
  effect (StatusUpdate KSnap snap) ;;; Ret snap.

(** ** When to take a snapshot *)

(** The decision at instant [now] of a snapshot with a parsed schedule. *)
Definition due (next : Z → Z) (last : option Z) (now : Z) : bool * Z :=
  match last with
  | None =>
      let wait := time_sub (next now) now in
      if wait <? minute then (true, 0) else (false, wait)
  | Some last =>
      if next last <=? now then (true, 0) else (false, time_sub (next last) now)
  end.

Definition shouldTakeSnapshot `{!CronParser} (snap : GameSnapshot) : M (bool * Z * option gerr) :=
  let last := sns_LastSnapshotAt (sn_Status snap) in
  if sn_Schedule (sn_Spec snap) =s "" then
    Ret (match last with None => (true, 0, None) | Some _ => (false, 0, None) end)
  else
    match ParseCron (sn_Schedule (sn_Spec snap)) with
    | inr e =>
        Ret (false, 0,
             Some (wrapf ("invalid cron schedule " +:+ fmt_q (sn_Schedule (sn_Spec snap))) e))
    | inl next =>
        let* now := call Now in
        let '(b, w) := due next last now in Ret (b, w, None)
    end.

Definition isSnapshotInProgress (snap : GameSnapshot) : M bool :=
  match last (sn_entries snap) with
  | None => Ret false
  | Some latest =>
      let* now := call Now in
      if time_sub now (se_CreatedAt latest) <? snapshotTimeout then
        Ret (negb (existsb (λ c, (cond_Type c =s "SnapshotReady")
                                 && bool_decide (cond_Status c = ConditionTrue))
                     (sns_Conditions (sn_Status snap))))
      else Ret false
  end.

(** ** Taking a snapshot *)

Definition callAgentSave (server : GameServer) : M (option gerr) :=
  let addr := agentAddress server in
  let* e := call (GrpcDial addr) in
  match e with
  | Some e => Ret (Some (wrapf "failed to connect to agent" e))
  | None =>
      let* r := call (AgentExecuteAction addr saveTimeout "save" (Some ∅) "") in
      match r with
      | inl _ => Ret None
      | inr _ =>
          let* e := call (AgentPrepareShutdown addr saveTimeout 60 "snapshot") in
          Ret (wrap_err "agent save/shutdown call failed" e)
      end
  end.

Definition volume_snapshot (snap : GameSnapshot) (server : GameServer) (pvcName vsName : string)
  : VolumeSnapshot := {|
  vs_Meta := new_meta vsName (sn_ns snap) (Some {[
    "minato.io/gameserver" := gs_name server;
    "minato.io/snapshot" := sn_name snap;
    "minato.io/managed-by" := "gamesnapshot-controller"]});
  vs_SourcePVC := pvcName; vs_readyToUse := NMissing; vs_restoreSize := NMissing;
  vs_error_slice := NMissing; vs_error_message := NMissing |}.

Definition record_entry (snap : GameSnapshot) (vsName : string) (created now : Z) : GameSnapshot :=
  sn_set_Status {|
    sns_Snapshots := sn_entries snap ++ [{| se_Name := vsName; se_CreatedAt := created;
                                            se_VolumeSnapshotRef := vsName; se_SizeBytes := 0 |}];
    sns_LastSnapshotAt := Some now;
    sns_Conditions := sns_Conditions (sn_Status snap) |} snap.

Definition createVolumeSnapshot (snap : GameSnapshot) (server : GameServer)
  : M (GameSnapshot * option gerr) :=
  let* pvc := call (Get KPvc (gs_ns server) (gs_name server)) in
  match pvc with
  | inr e => Ret (snap, Some (wrapf "failed to get PVC" e))
  | inl pvc =>
      let* now := call Now in
      let vsName := sn_name snap +:+ "-" +:+ itoa (now / second) in
      let* vs := SetControllerReference ("GameSnapshot", sn_name snap) KVolumeSnapshot
                   (volume_snapshot snap server (om_Name (pvc_Meta pvc)) vsName) in
      match vs with
      | inr e => Ret (snap, Some (wrapf "failed to set controller reference on VolumeSnapshot" e))
      | inl vs =>
          let* e := call (Create KVolumeSnapshot vs) in
          match e with
          | Some e =>
              Ret (snap, Some (if IsNotFound e then wrapf "VolumeSnapshot CRD not installed" e
                               else wrapf "failed to create VolumeSnapshot" e))
          | None =>
              let* created := call Now in
              let* now := call Now in
              let snap := record_entry snap vsName created now in
              let* e := call (StatusUpdate KSnap snap) in Ret (snap, e)
          end
      end
  end.

(** The latest entry with the size of a ready snapshot. *)
Definition sized_snapshot (snap : GameSnapshot) (latest : SnapshotEntry) (vs : VolumeSnapshot)
  : GameSnapshot :=
  match vs_restoreSize vs with
  | NFound size =>
      sn_set_Snapshots (set_last {| se_Name := se_Name latest; se_CreatedAt := se_CreatedAt latest;
                                    se_VolumeSnapshotRef := se_VolumeSnapshotRef latest;
                                    se_SizeBytes := size |} (sn_entries snap)) snap
  | _ => snap
  end.

Definition snapshot_complete (snap : GameSnapshot) (latest : SnapshotEntry) (vs : VolumeSnapshot)
  : M GameSnapshot :=
  snap_setCondition (sized_snapshot snap latest vs) "SnapshotReady" ConditionTrue
    "SnapshotComplete" ("VolumeSnapshot " +:+ se_VolumeSnapshotRef latest +:+ " is ready").

Definition waitForSnapshotReady (snap : GameSnapshot) : M (GameSnapshot * option gerr) :=
  match last (sn_entries snap) with
  | None => Ret (snap, None)
  | Some latest =>
      let* vs := call (Get KVolumeSnapshot (sn_ns snap) (se_VolumeSnapshotRef latest)) in
      match vs with
      | inr e => Ret (snap, Some (wrapf "failed to get VolumeSnapshot status" e))
      | inl vs =>
          match vs_readyToUse vs with
          | NBadType => Ret (snap, Some (errorf "failed to read VolumeSnapshot status"))
          | NFound true =>
              let* snap := snapshot_complete snap latest vs in Ret (snap, None)
          | _ =>
              match vs_error_slice vs with
              | NFound (_ :: _) =>
                  let* snap := snap_setCondition snap "SnapshotReady" ConditionFalse "SnapshotFailed"
                    ("VolumeSnapshot " +:+ se_VolumeSnapshotRef latest +:+ " failed") in
                  Ret (snap, Some (errorf "VolumeSnapshot failed"))
              | _ => Ret (snap, Some (errorf "snapshot still pending"))
              end
          end
      end
  end.

Definition executeSnapshot (snap : GameSnapshot) (server : GameServer)
  : M (GameSnapshot * option gerr) :=
  let* snap := snap_setCondition snap "SnapshotReady" ConditionFalse "Saving"
                 "requesting game save via agent" in
  callAgentSave server ;;;
  let* snap := snap_setCondition snap "SnapshotReady" ConditionFalse "Snapshotting"
                 "creating VolumeSnapshot" in
  let* '(snap, e) := createVolumeSnapshot snap server in
  match e with
  | Some e => Ret (snap, Some (wrapf "failed to create VolumeSnapshot" e))
  | None => waitForSnapshotReady snap
  end.

Definition monitorSnapshot (snap : GameSnapshot) : M (Result * option gerr) :=
  match last (sn_entries snap) with
  | None => Ret (no_requeue, None)
  | Some latest =>
      let ref := se_VolumeSnapshotRef latest in
      let* now := call Now in
      if snapshotTimeout <? time_sub now (se_CreatedAt latest) then
        snap_setCondition snap "SnapshotReady" ConditionFalse "SnapshotTimeout"
          ("VolumeSnapshot " +:+ ref +:+ " timed out after 10m0s") ;;;
        Ret (no_requeue, None)
      else
        let* vs := call (Get KVolumeSnapshot (sn_ns snap) ref) in
        match vs with
        | inr e => if IsNotFound e then Ret (10 * second, None) else Ret (no_requeue, Some e)
        | inl vs =>
            match vs_readyToUse vs with
            | NBadType => Ret (no_requeue, Some (errorf "failed to read VolumeSnapshot status"))
            | NFound true => snapshot_complete snap latest vs ;;; Ret (no_requeue, None)
            | _ =>
                match vs_error_message vs with
                | NFound errMsg =>
                    if errMsg <>s "" then
                      snap_setCondition snap "SnapshotReady" ConditionFalse "SnapshotFailed" errMsg ;;;
                      Ret (no_requeue, Some (errorf ("VolumeSnapshot failed: " +:+ errMsg)))
                    else Ret (15 * second, None)
                | _ => Ret (15 * second, None)
                end
            end
        end
  end.

(** ** Retention *)

Definition too_old (cutoff : Z) (entry : SnapshotEntry) : bool :=
  negb (cutoff =? zero_time) && (se_CreatedAt entry <? cutoff).

(** What to keep and what to delete, in order. *)
Definition retention (count cutoff : Z) (entries : list SnapshotEntry)
  : list SnapshotEntry * list SnapshotEntry :=
  let toKeep := filter (λ e, too_old cutoff e = false) entries in
  let toDelete := filter (λ e, too_old cutoff e = true) entries in
  let n := Z.of_nat (length toKeep) in
  if (0 <? count) && (count <? n) then
    let k := Z.to_nat (n - count) in (drop k toKeep, toDelete ++ take k toKeep)
  else (toKeep, toDelete).

Definition delete_entry (ns : string) (entry : SnapshotEntry) : M (option unit) :=
  call (Delete KVolumeSnapshot ns (se_VolumeSnapshotRef entry)) ;;; Ret None.

Definition enforceRetention (snap : GameSnapshot) : M (GameSnapshot * option gerr) :=
  let ret := sn_Retention (sn_Spec snap) in
  if (ret_Count ret <=? 0) && (ret_Duration ret =s "") then Ret (snap, None)
  else
    let* cutoff :=
      (if ret_Duration ret <>s "" then
         match ParseDuration (ret_Duration ret) with
         | Some d => let* now := call Now in Ret (now + wrap64 (- d))
         | None => Ret zero_time
         end
       else Ret zero_time) in
    let '(toKeep, toDelete) := retention (ret_Count ret) cutoff (sn_entries snap) in
    for_each toDelete (delete_entry (sn_ns snap)) ;;;
    let snap := sn_set_Snapshots toKeep snap in
    let* e := call (StatusUpdate KSnap snap) in Ret (snap, e).

(** ** Reconcile *)

Section Snapshot.
Context `{Hfin : !FinalizerOps, Hcron : !CronParser}.

Definition snapshot_due (snap : GameSnapshot) (server : GameServer) : M (Result * option gerr) :=
  let* busy := isSnapshotInProgress snap in
  if busy then monitorSnapshot snap
  else
    let* '(snap, e) := executeSnapshot snap server in
    match e with
    | Some e =>
        snap_setCondition snap "Ready" ConditionFalse "SnapshotFailed" (ge_msg e) ;;;
        Ret (no_requeue, None)
    | None =>
        let* '(snap, _) := enforceRetention snap in
        if sn_Schedule (sn_Spec snap) <>s "" then
          let* '(_, nextRequeue, _) := shouldTakeSnapshot snap in Ret (nextRequeue, None)
        else Ret (no_requeue, None)
    end.

Definition snapshot_live (snap : GameSnapshot) : M (Result * option gerr) :=
  let* server := call (Get KGameServer (sn_ns snap) (sn_GameServerRef (sn_Spec snap))) in
  match server with
  | inr e =>
      if IsNotFound e then
        snap_setCondition snap "Ready" ConditionFalse "GameServerNotFound"
          ("referenced GameServer " +:+ sn_GameServerRef (sn_Spec snap) +:+ " not found") ;;;
        Ret (no_requeue, None)
      else Ret (no_requeue, Some e)
  | inl server =>
      let* '(shouldSnapshot, requeueAfter, e) := shouldTakeSnapshot snap in
      match e with
      | Some e =>
          snap_setCondition snap "Ready" ConditionFalse "InvalidSchedule" (ge_msg e) ;;;
          Ret (no_requeue, None)
      | None =>
          if negb shouldSnapshot then Ret (requeueAfter, None) else snapshot_due snap server
      end
  end.

Definition snap_Reconcile (namespace name : string) : M (Result * option gerr) :=
  let* snap := call (Get KSnap namespace name) in
  match snap with
  | inr e => Ret (no_requeue, unless IsNotFound (Some e))
  | inl snap =>
      let has := ContainsFinalizer gameSnapshotFinalizer (sn_Meta snap) in
      match om_DeletionTimestamp (sn_Meta snap) with
      | None =>
          if negb has then
            let* e := call (Update KSnap
              (sn_set_Meta (AddFinalizer gameSnapshotFinalizer (sn_Meta snap)) snap)) in
            Ret (no_requeue, e)
          else snapshot_live snap
      | Some _ =>
          if has then
            let* e := call (Update KSnap
              (sn_set_Meta (RemoveFinalizer gameSnapshotFinalizer (sn_Meta snap)) snap)) in
            Ret (no_requeue, e)
          else Ret (no_requeue, None)
      end
  end.
End Snapshot.

(** ** Lemmas *)

Lemma snap_setCondition_runs snap ty st reason msg t o :
  runs (snap_setCondition snap ty st reason msg) t o →
  ∃ snap', o = Done snap' ∧ writes t = [WStatusUpdate KSnap snap']
    ∧ sn_entries snap' = sn_entries snap ∧ sn_Meta snap' = sn_Meta snap
    ∧ sn_Spec snap' = sn_Spec snap
    ∧ sns_LastSnapshotAt (sn_Status snap') = sns_LastSnapshotAt (sn_Status snap).
Proof. intros (now & ? & -> & x & ? & -> & -> & ->). by eexists. Qed.

Lemma retention_split count cutoff entries keep del :
  retention count cutoff entries = (keep, del) →
  ∃ dropped,
    filter (λ e, too_old cutoff e = false) entries = dropped ++ keep
    ∧ del = filter (λ e, too_old cutoff e = true) entries ++ dropped
    ∧ (0 < count → Z.of_nat (length keep) <= count)
    ∧ (dropped ≠ [] → 0 < count ∧ Z.of_nat (length keep) = count).
Proof.
  unfold retention. cbv zeta.
  set (fresh := filter (λ e, too_old cutoff e = false) entries).
  set (old := filter (λ e, too_old cutoff e = true) entries).
  destruct (Z.ltb_spec 0 count) as [Hc|Hc]; cbn [andb];
    [destruct (Z.ltb_spec count (Z.of_nat (length fresh))) as [Hn|Hn]|]; intros [= <- <-].
  - eexists. rewrite take_drop. split_and!; [done|done|..]; rewrite length_drop; lia.
  - exists []. rewrite app_nil_r. split_and!; [done|done|lia|done].
  - exists []. rewrite app_nil_r. split_and!; [done|done|lia|done].
Qed.

Lemma too_old_partition cutoff entries :
  filter (λ e, too_old cutoff e = true) entries ++ filter (λ e, too_old cutoff e = false) entries
  ≡ₚ entries.
Proof.
  induction entries as [|e l IH]; [done|]. rewrite !filter_cons.
  destruct (too_old cutoff e); simpl; [by constructor|].
  by rewrite <-Permutation_middle, IH.
Qed.

Lemma delete_entry_runs ns e t :
  runs (delete_entry ns e) t (Done None) →
  writes t = [WDelete KVolumeSnapshot ns (se_VolumeSnapshotRef e)].
Proof. by intros (x & ? & -> & [-> _]). Qed.

Lemma delete_entry_None ns e : ret_sat (λ r, r = None) (delete_entry ns e).
Proof. by intros ?. Qed.

(** A schedule that can never fire (its next activation is the zero time) makes
    every reconcile after the first snapshot take another one. *)
Lemma unsatisfiable_schedule_always_due next last now :
  next last = zero_time → 0 <= now → (due next (Some last) now).1 = true.
Proof.
  intros Hn Hnow. unfold due. rewrite Hn.
  destruct (Z.leb_spec zero_time now); [done|]. unfold zero_time, second in *. lia.
Qed.

(** ** Properties *)

(** a one-shot snapshot is due until it has been taken once; a scheduled one is
    due exactly when the activation after the last snapshot has come (or, the
    first time, is less than a minute away), and otherwise asks to be visited
    again after a positive delay that does not overshoot the activation; a
    schedule that does not parse is an error, and is never due. *)
Theorem shouldTakeSnapshot_correct `{Hcron : !CronParser} snap t b w e :
  runs (shouldTakeSnapshot snap) t (Done (b, w, e)) →
  let last := sns_LastSnapshotAt (sn_Status snap) in
  if sn_Schedule (sn_Spec snap) =s "" then
    e = None ∧ w = 0 ∧ (b = true ↔ last = None)
  else
    match ParseCron (sn_Schedule (sn_Spec snap)) with
    | inr _ => b = false ∧ e ≠ None
    | inl next =>
        e = None ∧ ∃ now, t = [Ev Now now]
        ∧ (b = true ↔ match last with
                      | None => time_sub (next now) now < minute
                      | Some l => next l <= now
                      end)
        ∧ (b = false → 0 < w ∧ now + w <= next (default now last))
    end.
Proof.
  intros H last. unfold shouldTakeSnapshot in H. cbv zeta in H. fold last in H.
  destruct (sn_Schedule (sn_Spec snap) =s "").
  - destruct H as [_ H]. destruct last; simplify_eq; done.
  - destruct (ParseCron _) as [next|err]; [|destruct H as [_ H]; by simplify_eq].
    destruct H as (now & t1 & -> & H). cbn [bind] in H.
    destruct (due next last now) as [b' w'] eqn:Ed. destruct H as [-> [= -> -> ->]].
    split; [done|]. exists now. split; [done|]. unfold due, time_sub in *. destruct last as [l|].
    + destruct (Z.leb_spec (next l) now); simplify_eq; simpl; (split; [split; [done|lia]|lia || done]).
    + cbv zeta in Ed. destruct (Z.ltb_spec (Z.max (-9223372036854775808)
        (Z.min 9223372036854775807 (next now - now))) minute); simplify_eq; simpl;
        (split; [split; [done|lia]|]); [done|]. unfold minute, second in *. lia.
Qed.

(** retention keeps exactly the newest entries it is allowed to: the kept
    entries are the tail of those young enough, at most the configured count; a
    deleted entry is too old, or precedes [count] kept ones; together they are
    the entries there were.  In the cluster exactly the volume snapshots of the
    deleted entries are removed, before the status is reduced to the kept ones. *)
Theorem enforceRetention_correct snap t snap' e :
  runs (enforceRetention snap) t (Done (snap', e)) →
  let count := ret_Count (sn_Retention (sn_Spec snap)) in
  0 < count ∨ ret_Duration (sn_Retention (sn_Spec snap)) ≠ "" →
  ∃ cutoff deleted dropped,
    writes t = ((λ e, WDelete KVolumeSnapshot (sn_ns snap) (se_VolumeSnapshotRef e)) <$> deleted)
               ++ [WStatusUpdate KSnap snap']
    ∧ filter (λ e, too_old cutoff e = false) (sn_entries snap) = dropped ++ sn_entries snap'
    ∧ deleted = filter (λ e, too_old cutoff e = true) (sn_entries snap) ++ dropped
    ∧ (dropped ≠ [] → 0 < count ∧ Z.of_nat (length (sn_entries snap')) = count)
    ∧ (0 < count → Z.of_nat (length (sn_entries snap')) <= count)
    ∧ deleted ++ sn_entries snap' ≡ₚ sn_entries snap.
Proof.
  intros H count Hcfg. unfold enforceRetention in H. cbv zeta in H. fold count in H.
  destruct ((count <=? 0) && _) eqn:E.
  { apply andb_true_iff in E as [?%Z.leb_le ?%String.eqb_eq]. destruct Hcfg; [lia|done]. }
  clear E Hcfg. run_step H.
  assert (writes t0 = []) as Hnow.
  { destruct (ret_Duration _ <>s ""); [|by destruct Hrun as [-> _]].
    destruct (ParseDuration _); [|by destruct Hrun as [-> _]]. by destruct Hrun as (? & ? & -> & [-> _]). }
  clear Hrun. destruct (retention count a (sn_entries snap)) as [keep del] eqn:Er.
  run_step H. destruct H as (x & t4 & -> & [-> [= -> ->]]).
  assert (a0 = None) as ->.
  { eapply (ret_sat_runs (λ r, r = None)), Hrun. apply ret_sat_for_each. intros y _.
    apply delete_entry_None. }
  apply (for_each_writes _ _ (λ e, [WDelete KVolumeSnapshot (sn_ns snap) (se_VolumeSnapshotRef e)]))
    in Hrun; [|intros y u _; apply delete_entry_runs].
  destruct (retention_split _ _ _ _ _ Er) as (dropped & Hf & Hd & Hc & Hdr).
  exists a, del, dropped. rewrite !writes_app, Hnow, Hrun, bind_singleton.
  change (sn_entries (sn_set_Snapshots keep snap)) with keep.
  split_and!; [done|done|done|done|done|].
  rewrite Hd, <-app_assoc, <-Hf. apply too_old_partition.
Qed.

(** the status records exactly what was created: after a successful creation it
    gains one entry, naming the VolumeSnapshot that was created for the server's
    volume in the snapshot's namespace, and the time it was taken; after a
    failure it is unchanged. *)
Theorem createVolumeSnapshot_correct snap server t snap' e :
  runs (createVolumeSnapshot snap server) t (Done (snap', e)) →
  (snap' = snap ∧ e ≠ None ∧ ∀ s, WStatusUpdate KSnap s ∉ writes t)
  ∨ ∃ vs entry now,
      writes t = [WCreate KVolumeSnapshot vs; WStatusUpdate KSnap snap']
      ∧ om_Namespace (vs_Meta vs) = sn_ns snap
      ∧ om_Name (vs_Meta vs) = se_VolumeSnapshotRef entry
      ∧ om_Controller (vs_Meta vs) = Some ("GameSnapshot", sn_name snap)
      ∧ sn_entries snap' = sn_entries snap ++ [entry]
      ∧ sns_LastSnapshotAt (sn_Status snap') = Some now
      ∧ ∃ pvc, Ev (Get KPvc (gs_ns server) (gs_name server)) (inl pvc) ∈ t
               ∧ vs_SourcePVC vs = om_Name (pvc_Meta pvc).
Proof.
  intros ([pvc|err] & t1 & -> & H); cbn [bind] in H.
  2:{ destruct H as [-> [= -> ->]]. left. split_and!; [done..|]. intros s Hs. by apply elem_of_nil in Hs. }
  destruct H as (now & t2 & -> & H). cbn [bind] in H. cbv zeta in H.
  destruct H as ([err|] & t3 & -> & H); cbn [bind] in H.
  { destruct H as [-> [= -> ->]]. left. split_and!; [done..|]. intros s Hs. by apply elem_of_nil in Hs. }
  destruct H as ([err|] & t4 & -> & H); cbn [bind] in H.
  { destruct H as [-> [= -> ->]]. left. split_and!; [done..|].
    intros s Hs. cbn in Hs. by apply list_elem_of_singleton in Hs. }
  destruct H as (created & t5 & -> & now' & t6 & -> & r & t7 & -> & -> & [= -> ->]).
  right. set (n := sn_name snap +:+ "-" +:+ itoa (now / second)).
  eexists _, {| se_Name := n; se_CreatedAt := created; se_VolumeSnapshotRef := n;
                se_SizeBytes := 0 |}, _. split_and!; [reflexivity|done|reflexivity|done|reflexivity|reflexivity|].
  exists pvc. split; [apply list_elem_of_here|done].
Qed.

(** ** Witnesses *)

Definition ex_snap (schedule : string) (ret : SnapshotRetention) (entries : list SnapshotEntry)
  : GameSnapshot := {|
  sn_Meta := meta_set_Finalizers [gameSnapshotFinalizer] (new_meta "daily" "tenant-a" None);
  sn_Spec := {| sn_GameServerRef := "smp"; sn_Schedule := schedule; sn_Retention := ret |};
  sn_Status := {| sns_Snapshots := entries; sns_LastSnapshotAt := Some 0; sns_Conditions := [] |} |}.
Definition ex_entry (n : string) (at_ : Z) : SnapshotEntry :=
  {| se_Name := n; se_CreatedAt := at_; se_VolumeSnapshotRef := n; se_SizeBytes := 0 |}.
(** A cron library that knows "0 * * * *" (every hour). *)
Definition ex_cron : CronParser := λ s,
  if s =s "0 * * * *" then inl (λ t, (t / hour + 1) * hour) else inr (errorf "bad schedule").

Lemma shouldTakeSnapshot_correct_witness :
  let snap := ex_snap "0 * * * *" {| ret_Count := 0; ret_Duration := "" |} [] in
  let p := @shouldTakeSnapshot ex_cron snap in
  run_outcome ex_later p = Done (false, hour - 1000 * second, None)
  ∧ 0 < hour - 1000 * second.
Proof.
  intros snap p. split; [reflexivity|].
  destruct (@shouldTakeSnapshot_correct ex_cron snap _ _ _ _ (run_runs ex_later p))
    as (_ & now & _ & _ & H). exact (proj1 (H eq_refl)).
Defined.

Lemma enforceRetention_correct_witness :
  let snap := ex_snap "" {| ret_Count := 1; ret_Duration := "10m" |}
                [ex_entry "a" 0; ex_entry "b" (800 * second); ex_entry "c" (900 * second)] in
  let p := enforceRetention snap in
  writes (run_trace ex_later p) =
    [WDelete KVolumeSnapshot "tenant-a" "a"; WDelete KVolumeSnapshot "tenant-a" "b";
     WStatusUpdate KSnap (sn_set_Snapshots [ex_entry "c" (900 * second)] snap)]
  ∧ ∃ deleted, deleted ++ [ex_entry "c" (900 * second)] ≡ₚ sn_entries snap.
Proof.
  intros snap p. split; [reflexivity|].
  destruct (enforceRetention_correct snap _ _ _ (run_runs ex_later p)) as (cutoff & deleted & dropped & H).
  - left. reflexivity.
  - exists deleted. exact (proj2 (proj2 (proj2 (proj2 (proj2 H))))).
Defined.

Lemma createVolumeSnapshot_correct_witness :
  let snap := ex_snap "" {| ret_Count := 0; ret_Duration := "" |} [] in
  let p := createVolumeSnapshot snap ex_server in
  let env := answer (with_obj KPvc (@buildPVC (λ _, None) ex_server ex_profile) no_objects)
               no_lists (1000 * second) in
  ∃ snap' vs entry, run_outcome env p = Done (snap', None)
    ∧ writes (run_trace env p) = [WCreate KVolumeSnapshot vs; WStatusUpdate KSnap snap']
    ∧ om_Name (vs_Meta vs) = se_VolumeSnapshotRef entry ∧ sn_entries snap' = [entry].
Proof.
  intros snap p env.
  destruct (createVolumeSnapshot_correct snap ex_server _ _ _ (run_runs env p))
    as [(_ & H & _)|(vs & entry & now & Hw & _ & Hn & _ & He & _)]; [by destruct H|].
  eexists _, vs, entry. split; [reflexivity|]. split; [exact Hw|]. split; [exact Hn|exact He].
Defined.
