(* ===== verification/Webhook.v ===== *)
(** * Webhook: the admission webhooks ([internal/webhook])

    The validators of GameProfile and GameServer objects.  Admission warnings
    are never produced; a validator returns the error that refuses the object,
    if any. *)

From Stdlib Require Import Ascii String.
From S2P Require Import Prelude GoStrings Prog Api Kube Builder.

(** ** [gameprofile_webhook.go] *)

Definition is_lower_alnum (c : ascii) : bool :=
  let n := byte_of c in
  (Nat.leb 97 n && Nat.leb n 122) || (Nat.leb 48 n && Nat.leb n 57).

(** [^[a-z0-9]([-a-z0-9]*[a-z0-9])?$]: non-empty, of lower-case letters,
    digits and dashes, with no dash at either end. *)
Definition first_char (s : string) : option ascii := String.get 0 s.
Definition last_char (s : string) : option ascii := String.get (String.length s - 1) s.
Definition tierNamePattern (s : string) : bool :=
  match first_char s, last_char s with
  | Some a, Some b =>
      is_lower_alnum a && is_lower_alnum b
      && str_forall (λ c, is_lower_alnum c || Ascii.eqb c "-") s
  | _, _ => false
  end.

(** The loop over the tiers, in the order the map is visited. *)
Fixpoint bad_tier_name (names : list string) : option string :=
  match names with
  | [] => None
  | name :: names =>
      if Nat.ltb 32 (String.length name) || negb (tierNamePattern name) then Some name
      else bad_tier_name names
  end.

Definition validateResourceTiers (order : gmap string ResourceRequirements → list string)
    (profile : GameProfile) : option gerr :=
  let resources := gp_Resources (gp_Spec profile) in
  if bool_decide (size (rs_Tiers resources) = 0%nat) then
    if rs_Default resources <>s "" then
      Some (errorf ("spec.resources.default " +:+ fmt_q (rs_Default resources) +:+
                    " has no matching tier: spec.resources.tiers is empty"))
    else None
  else
    match bad_tier_name (order (rs_Tiers resources)) with
    | Some name =>
        Some (errorf ("spec.resources.tiers[" +:+ fmt_q name +:+
          "]: tier names must be lowercase alphanumeric or dashes, max 32 characters"))
    | None =>
        if rs_Default resources =s "" then
          Some (errorf "spec.resources.default is required when spec.resources.tiers is set")
        else
          match rs_Tiers resources !! rs_Default resources with
          | Some _ => None
          | None => Some (errorf ("spec.resources.default " +:+ fmt_q (rs_Default resources) +:+
                                  " must name an existing tier"))
          end
    end.

Section Validate.
Context `{Hqty : !QuantityParser}.

Definition not_quantity (field s : string) : gerr :=
  errorf ("spec.storage." +:+ field +:+ " " +:+ fmt_q s +:+ " is not a valid quantity").

Definition validateStorageSizes (profile : GameProfile) : option gerr :=
  let s := gp_Storage (gp_Spec profile) in
  match ParseQuantity (st_SizeDefault s) with
  | None => Some (not_quantity "sizeDefault" (st_SizeDefault s))
  | Some def =>
      let check_min :=
        if st_SizeMin s <>s "" then
          match ParseQuantity (st_SizeMin s) with
          | None => Some (not_quantity "sizeMin" (st_SizeMin s))
          | Some min =>
              if def <? min
              then Some (errorf ("spec.storage.sizeDefault " +:+ fmt_q (st_SizeDefault s) +:+
                                 " is below sizeMin " +:+ fmt_q (st_SizeMin s)))
              else None
          end
        else None in
      match check_min with
      | Some e => Some e
      | None =>
          if st_SizeMax s <>s "" then
            match ParseQuantity (st_SizeMax s) with
            | None => Some (not_quantity "sizeMax" (st_SizeMax s))
            | Some max =>
                if max <? def
                then Some (errorf ("spec.storage.sizeDefault " +:+ fmt_q (st_SizeDefault s) +:+
                                   " exceeds sizeMax " +:+ fmt_q (st_SizeMax s)))
                else if st_SizeMin s <>s "" then
                  (* parsed above: the error is ignored here *)
                  let min := default 0 (ParseQuantity (st_SizeMin s)) in
                  if max <? min
                  then Some (errorf ("spec.storage.sizeMin " +:+ fmt_q (st_SizeMin s) +:+
                                     " exceeds sizeMax " +:+ fmt_q (st_SizeMax s)))
                  else None
                else None
            end
          else None
      end
  end.

(** The loop over the ports, [i] being the index. *)
Fixpoint validate_ports (i : Z) (ports : list PortSpec) : option gerr :=
  match ports with
  | [] => None
  | port :: ports =>
      if port_Name port =s "" then
        Some (errorf ("spec.ports[" +:+ itoa i +:+ "].name is required"))
      else if (port_ContainerPort port <=? 0) || (65535 <? port_ContainerPort port) then
        Some (errorf ("spec.ports[" +:+ itoa i +:+
                      "].containerPort must be between 1 and 65535"))
      else validate_ports (i + 1) ports
  end.

Definition first_error (es : list (option gerr)) : option gerr :=
  foldr (λ e rest, match e with Some e => Some e | None => rest end) None es.

Definition required (s field : string) : option gerr :=
  if s =s "" then Some (errorf (field +:+ " is required")) else None.

Definition validateGameProfile (order : gmap string ResourceRequirements → list string)
    (profile : GameProfile) : option gerr :=
  let spec := gp_Spec profile in
  first_error [
    required (gp_Image spec) "spec.image";
    required (gp_DisplayName spec) "spec.displayName";
    required (st_MountPath (gp_Storage spec)) "spec.storage.mountPath";
    required (st_SizeDefault (gp_Storage spec)) "spec.storage.sizeDefault";
    required (agent_Image (gp_Agent spec)) "spec.agent.image";
    validate_ports 0 (gp_Ports spec);
    validateResourceTiers order profile;
    validateStorageSizes profile].

Definition profile_ValidateCreate := validateGameProfile.
Definition profile_ValidateUpdate order (oldProfile newProfile : GameProfile) : option gerr :=
  validateGameProfile order newProfile.
Definition profile_ValidateDelete (profile : GameProfile) : option gerr := None.
End Validate.

(** ** [gameserver_webhook.go] *)

Definition validateGameServer (server : GameServer) : M (option gerr) :=
  if gs_Profile (gs_Spec server) =s "" then Ret (Some (errorf "spec.profile is required"))
  else
    let* profile := call (Get KGameProfile "" (gs_Profile (gs_Spec server))) in
    match profile with
    | inr e =>
        Ret (Some (wrapf ("spec.profile " +:+ fmt_q (gs_Profile (gs_Spec server)) +:+
                          " not found") e))
    | inl _ =>
        match gst_SnapshotRef (gs_Storage (gs_Spec server)) with
        | Some ref =>
            if sr_Name ref =s ""
            then Ret (Some (errorf "spec.storage.snapshotRef.name is required when snapshotRef is set"))
            else Ret None
        | None => Ret None
        end
    end.

Definition server_ValidateCreate := validateGameServer.
Definition server_ValidateUpdate (oldServer newServer : GameServer) : M (option gerr) :=
  validateGameServer newServer.
Definition server_ValidateDelete (server : GameServer) : M (option gerr) := Ret None.

(** ** Lemmas *)

Lemma first_error_None es : first_error es = None ↔ Forall (λ e, e = None) es.
Proof.
  induction es as [|[e|] es IH]; simpl; rewrite ?Forall_cons; [done|naive_solver|].
  rewrite IH. naive_solver.
Qed.

Lemma required_None s f : required s f = None ↔ s ≠ "".
Proof. unfold required. by destruct (String.eqb_spec s ""). Qed.

Lemma validate_ports_None i ports :
  validate_ports i ports = None ↔
  Forall (λ p, port_Name p ≠ "" ∧ 1 <= port_ContainerPort p <= 65535) ports.
Proof.
  revert i. induction ports as [|p l IH]; intros i; cbn [validate_ports]; [done|].
  rewrite Forall_cons, <-(IH (i + 1)).
  destruct (String.eqb_spec (port_Name p) ""); [naive_solver|].
  destruct (_ || _) eqn:E.
  - apply orb_true_iff in E as [?%Z.leb_le|?%Z.ltb_lt]; (split; [done|lia]).
  - apply orb_false_iff in E as [?%Z.leb_gt ?%Z.ltb_ge]. intuition lia.
Qed.

Lemma bad_tier_name_None l :
  bad_tier_name l = None ↔
  Forall (λ n, tierNamePattern n = true ∧ (String.length n <= 32)%nat) l.
Proof.
  induction l as [|n l IH]; cbn [bad_tier_name]; [done|]. rewrite Forall_cons, <-IH.
  destruct (Nat.ltb_spec 32 (String.length n)), (tierNamePattern n); cbn; intuition (done || lia).
Qed.

Lemma validateStorageSizes_None `{Hqty : !QuantityParser} profile :
  let s := gp_Storage (gp_Spec profile) in
  validateStorageSizes profile = None →
  ∃ def, ParseQuantity (st_SizeDefault s) = Some def
    ∧ (st_SizeMin s ≠ "" → ∃ min, ParseQuantity (st_SizeMin s) = Some min ∧ min <= def)
    ∧ (st_SizeMax s ≠ "" → ∃ max, ParseQuantity (st_SizeMax s) = Some max ∧ def <= max).
Proof.
  intros s. unfold validateStorageSizes. fold s. intros H.
  destruct (ParseQuantity (st_SizeDefault s)) as [def|]; [|done]. exists def. split; [done|].
  cbv zeta in H.
  destruct (String.eqb_spec (st_SizeMin s) "") as [|Hmin]; cbn [negb] in H.
  - split; [done|]. destruct (String.eqb_spec (st_SizeMax s) "") as [|Hmax]; cbn [negb] in H; [done|].
    destruct (ParseQuantity (st_SizeMax s)) as [max|]; [|done]. intros _. exists max. split; [done|].
    destruct (Z.ltb_spec max def); [done|lia].
  - destruct (ParseQuantity (st_SizeMin s)) as [min|]; [|done].
    destruct (Z.ltb_spec def min); [done|]. split; [intros _; by exists min|].
    destruct (String.eqb_spec (st_SizeMax s) "") as [|Hmax]; cbn [negb] in H; [done|].
    destruct (ParseQuantity (st_SizeMax s)) as [max|]; [|done]. intros _. exists max. split; [done|].
    destruct (Z.ltb_spec max def); [done|lia].
Qed.

(** A lower-case letter or a digit. *)
Definition letter_or_digit (c : ascii) : Prop :=
  (97 <= byte_of c <= 122)%nat ∨ (48 <= byte_of c <= 57)%nat.
(** A name of a tier: 1 to 32 lower-case letters, digits and dashes, with no dash
    at either end. *)
Definition tier_name (n : string) : Prop :=
  (1 <= String.length n <= 32)%nat
  ∧ (∀ i c, String.get i n = Some c → letter_or_digit c ∨ c = "-"%char)
  ∧ (∀ c, String.get 0 n = Some c ∨ String.get (String.length n - 1) n = Some c → letter_or_digit c).

Lemma is_lower_alnum_spec c : is_lower_alnum c = true ↔ letter_or_digit c.
Proof.
  unfold is_lower_alnum, letter_or_digit. rewrite orb_true_iff, !andb_true_iff, !Nat.leb_le. lia.
Qed.

Lemma str_forall_get f s i c : str_forall f s = true → String.get i s = Some c → f c = true.
Proof.
  revert i. induction s as [|x s IH]; intros i; cbn [str_forall String.get]; [done|].
  rewrite andb_true_iff. intros [Hx Hs]. destruct i; [by intros [= <-]|by apply IH].
Qed.

Lemma tierNamePattern_spec n : tierNamePattern n = true → (String.length n <= 32)%nat → tier_name n.
Proof.
  unfold tierNamePattern, first_char, last_char. intros H Hlen.
  destruct (String.get 0 n) as [a|] eqn:Ha; [|done].
  destruct (String.get (String.length n - 1) n) as [b|] eqn:Hb; [|done].
  apply andb_true_iff in H as [[Hfa Hfb]%andb_true_iff Hall]. split; [by destruct n; cbn in *; [|lia]|]. split.
  - intros i c Hc. pose proof (str_forall_get _ _ _ _ Hall Hc) as H. cbn beta in H.
    apply orb_true_iff in H as [?%is_lower_alnum_spec|?%Ascii.eqb_eq]; auto.
  - intros c [Hc|Hc]; apply is_lower_alnum_spec; congruence.
Qed.

Lemma validateResourceTiers_None order profile tier :
  (∀ m n, n ∈ order m ↔ is_Some (m !! n)) →
  validateResourceTiers order profile = None →
  let r := gp_Resources (gp_Spec profile) in
  (rs_Tiers r ≠ ∅ → is_Some (rs_Tiers r !! rs_Default r) ∧ rs_Default r ≠ "")
  ∧ (∀ n, is_Some (rs_Tiers r !! n) → tier_name n)
  ∧ (rs_Tiers r = ∅ → ForTier r tier = rs_ResourceRequirements r).
Proof.
  intros Horder H r. unfold validateResourceTiers in H. fold r in H.
  case_bool_decide as Hs.
  - apply map_size_empty_iff in Hs. rewrite Hs. split_and!; [done| |].
    + intros n [x Hx]. by rewrite lookup_empty in Hx.
    + intros _. rewrite ForTier_spec, Hs. by rewrite lookup_empty.
  - destruct (bad_tier_name (order (rs_Tiers r))) eqn:Eb; [done|].
    apply bad_tier_name_None in Eb. rewrite Forall_forall in Eb.
    destruct (String.eqb_spec (rs_Default r) ""); [done|].
    destruct (rs_Tiers r !! rs_Default r) eqn:Ed; [|done]. split_and!.
    + intros _. by split; [eexists|].
    + intros m [Hp Hl]%Horder%Eb. by apply tierNamePattern_spec.
    + intros He. rewrite He in Hs. by rewrite map_size_empty in Hs.
Qed.

(** ** Properties *)

(** C38: what the profile webhook admits, the operator can run: for an admitted
    profile the pod of every server can be built, whatever the server asks
    for, with valid container ports; the world volume's default size parses
    and lies within the declared bounds; every tier has a valid name, and the default
    tier exists when there are tiers (Go's map order does not matter). *)
Theorem admitted_profile_buildable `{Hqty : !QuantityParser} order profile :
  (∀ m n, n ∈ order m ↔ is_Some (m !! n)) →
  validateGameProfile order profile = None →
  (∀ server secrets, ∃ pod,
     BuildGameServerPodSpecWithPullSecrets profile server secrets = inl pod
     ∧ ∃ game, head (ps_Containers pod) = Some game
         ∧ Forall (λ p, 1 <= cp_ContainerPort p <= 65535 ∧ cp_Name p ≠ "") (ct_Ports game))
  ∧ (let s := gp_Storage (gp_Spec profile) in
     ∃ def, ParseQuantity (st_SizeDefault s) = Some def
       ∧ (st_SizeMin s ≠ "" → ∃ min, ParseQuantity (st_SizeMin s) = Some min ∧ min <= def)
       ∧ (st_SizeMax s ≠ "" → ∃ max, ParseQuantity (st_SizeMax s) = Some max ∧ def <= max))
  ∧ (let r := gp_Resources (gp_Spec profile) in
     (rs_Tiers r ≠ ∅ → is_Some (rs_Tiers r !! rs_Default r))
     ∧ ∀ n, is_Some (rs_Tiers r !! n) → tier_name n).
Proof.
  intros Horder H. unfold validateGameProfile in H. rewrite first_error_None in H.
  rewrite !Forall_cons in H. destruct H as (Himg & _ & Hmp & _ & Hag & Hports & Htiers & Hst & _).
  rewrite required_None in Himg, Hmp, Hag. apply validate_ports_None in Hports. split_and!.
  - intros server secrets.
    destruct (BuildGameServerPodSpecWithPullSecrets profile server secrets) as [pod|e] eqn:E.
    + exists pod. split; [done|]. apply BuildGameServerPodSpec_containers in E. rewrite E.
      eexists. split; [done|]. cbn. apply Forall_fmap. eapply Forall_impl; [done|].
      intros p [? ?]. by cbn.
    + unfold BuildGameServerPodSpecWithPullSecrets in E.
      apply eqs_false in Himg, Hmp, Hag. by rewrite Himg, Hmp, Hag in E.
  - by apply validateStorageSizes_None.
  - destruct (validateResourceTiers_None order profile "" Horder Htiers) as (Hdef & Hname & _).
    split; [|exact Hname]. intros Hr. by apply Hdef.
Qed.

Definition ex_order (m : gmap string ResourceRequirements) : list string := elements (dom m).
Definition ex_tiered : GameProfile :=
  let sp := gp_Spec ex_profile in {|
  gp_Meta := gp_Meta ex_profile; gp_Conditions := [];
  gp_Spec := {|
    gp_DisplayName := "Paper"; gp_Category := ""; gp_Icon := ""; gp_Description := "";
    gp_Image := gp_Image sp; gp_ImagePullPolicy := ""; gp_Ports := gp_Ports sp;
    gp_Environment := []; gp_Storage := gp_Storage sp;
    gp_Resources := {| rs_ResourceRequirements := no_resources;
                       rs_Tiers := {["small" := no_resources; "large-2" := no_resources]};
                       rs_Default := "small" |};
    gp_Agent := gp_Agent sp; gp_Actions := []; gp_Capabilities := None;
    gp_Observability := None |} |}.

Lemma admitted_profile_buildable_witness :
  (∃ pod, BuildGameServerPodSpecWithPullSecrets ex_tiered ex_server [] = inl pod)
  ∧ tier_name "large-2".
Proof.
  destruct (@admitted_profile_buildable (λ s, if s =s "10Gi" then Some 10 else None)
    ex_order ex_tiered) as (H & _ & _ & Hn).
  - intros m n. unfold ex_order. rewrite elem_of_elements. apply elem_of_dom.
  - reflexivity.
  - split; [destruct (H ex_server []) as (pod & Hpod & _); by exists pod|].
    apply Hn. by eexists.
Defined.
