(* ===== verification/Auth.v ===== *)
(** * Auth: authentication of the control plane ([internal/controlplane/auth])

    Requests, responses and middleware; the provider interface and its four
    implementations; the chain; namespace patterns; API keys kept in secrets.

    [Bcrypt] is the bcrypt library; [JSON] and [RFC3339] are the encodings of
    an API key entry and of an instant, with their round trips as laws. *)

From Stdlib Require Import Ascii String.
From S2P Require Import Prelude GoStrings Prog Api Kube.

Definition ErrUnauthorized : gerr := errorf "unauthorized".

(** ** [namespace.go] *)

Definition MatchNamespacePattern (pattern ns : string) : bool :=
  if pattern =s "*" then true
  else if HasSuffix pattern "*" then HasPrefix ns (TrimSuffix pattern "*")
  else pattern =s ns.

Definition MatchAnyNamespace (patterns : list string) (ns : string) : bool :=
  existsb (λ p, MatchNamespacePattern p ns) patterns.

Definition ParseNamespaces (s : string) : list string :=
  filter (λ part, part ≠ "") (TrimSpace <$> Split "," s).

(** ** Users, requests and handlers ([auth.go]) *)

Record User := {
  us_ID : string;
  us_Username : string;
  us_Email : string;
  us_Role : string;
  us_Source : string;
  us_Namespaces : list string;
}.
#[export] Instance User_eq_dec : EqDecision User.
Proof. solve_decision. Defined.

Definition IsAnonymous (u : option User) : bool :=
  match u with None => true | Some u => us_ID u =s "" end.
Definition ClusterWide (u : option User) : bool :=
  match u with None => true | Some u => bool_decide (us_Namespaces u = []) end.
Definition AllowsNamespace (u : option User) (ns : string) : bool :=
  if ClusterWide u then true
  else match u with Some u => MatchAnyNamespace (us_Namespaces u) ns | None => true end.

Record Request := {
  rq_Method : string;
  rq_Path : string;
  (** [Header.Get]: "" when the header is missing *)
  rq_Header : string → string;
  (** what [BasicAuth] decodes from the Authorization header *)
  rq_BasicAuth : option (string * string);
  (** the route parameters *)
  rq_Param : string → string;
  rq_Query : string → string;
  rq_Body : string;
  rq_RemoteAddr : string;
  (** the user the middleware put in the request's context *)
  rq_User : option User;
}.

Definition WithUser (u : User) (r : Request) : Request := {|
  rq_Method := rq_Method r; rq_Path := rq_Path r; rq_Header := rq_Header r;
  rq_BasicAuth := rq_BasicAuth r; rq_Param := rq_Param r; rq_Query := rq_Query r;
  rq_Body := rq_Body r; rq_RemoteAddr := rq_RemoteAddr r; rq_User := Some u |}.
Definition GetUser (r : Request) : option User := rq_User r.

Record Response := {
  rsp_Status : Z;
  rsp_Header : list (string * string);
  rsp_Body : string;
}.
Definition http_Error (msg : string) (status : Z) : Response :=
  {| rsp_Status := status; rsp_Header := []; rsp_Body := msg |}.

Definition Handler := Request → M Response.
Definition Middleware_t := Handler → Handler.

(** ** Providers *)

Record Provider := {
  pv_Name : string;
  pv_Authenticate : Request → M (User + gerr);
}.

Definition Chain := list Provider.

Fixpoint chain_Authenticate (c : Chain) (r : Request) : M (User + gerr) :=
  match c with
  | [] => Ret (inr ErrUnauthorized)
  | p :: c =>
      let* res := pv_Authenticate p r in
      match res with
      | inl user => Ret (inl user)
      | inr _ => chain_Authenticate c r
      end
  end.

Definition public_path (path : string) : bool :=
  (path =s "/healthz") || (path =s "/readyz") || (path =s "/auth/config").

Definition Middleware (chain : Chain) : Middleware_t := λ next r,
  if public_path (rq_Path r) then next r
  else
    let* res := chain_Authenticate chain r in
    match res with
    | inr _ =>
        Ret {| rsp_Status := 401; rsp_Header := [("WWW-Authenticate", "Bearer, Basic")];
               rsp_Body := "Unauthorized" |}
    | inl user => next (WithUser user r)
    end.

Definition ExtractBearer (r : Request) : string :=
  let header := rq_Header r "Authorization" in
  match CutPrefix header "Bearer " with
  | Some rest => TrimSpace rest
  | None => ""
  end.

(** *** [none.go] *)
Definition anonymous : User := {|
  us_ID := "anonymous"; us_Username := "anonymous"; us_Email := ""; us_Role := "admin";
  us_Source := "none"; us_Namespaces := [] |}.
Definition NewNoneProvider : Provider :=
  {| pv_Name := "none"; pv_Authenticate := λ _, Ret (inl anonymous) |}.

(** *** [basic.go] *)
Class Bcrypt := CompareHashAndPassword : string → string → bool.

Record BasicConfig := {
  bc_Enabled : bool; bc_User : string; bc_Password : string; bc_Role : string }.

Definition CheckPassword `{!Bcrypt} (password hash : string) : bool :=
  CompareHashAndPassword hash password.
Definition HashPassword (password : string) : M (string + gerr) := call (BcryptGenerate password).

Definition basic_Authenticate `{!Bcrypt} (user password role : string) (r : Request)
  : M (User + gerr) :=
  Ret (match rq_BasicAuth r with
       | None => inr ErrUnauthorized
       | Some (u, pass) =>
           if u <>s user then inr ErrUnauthorized
           else if negb (CheckPassword pass password) then inr ErrUnauthorized
           else inl {| us_ID := u; us_Username := u; us_Email := ""; us_Role := role;
                       us_Source := "basic"; us_Namespaces := [] |}
       end).

Definition bcrypt_hash (s : string) : bool :=
  HasPrefix s "$2a$" || HasPrefix s "$2b$" || HasPrefix s "$2y$".

Definition NewBasicProvider `{!Bcrypt} (cfg : BasicConfig) : M (Provider + gerr) :=
  if (bc_User cfg =s "") || (bc_Password cfg =s "") then
    Ret (inr (errorf "basic auth: user and password required"))
  else
    let* password :=
      if negb (bcrypt_hash (bc_Password cfg)) then HashPassword (bc_Password cfg)
      else Ret (inl (bc_Password cfg)) in
    match password with
    | inr e => Ret (inr e)
    | inl password =>
        Ret (inl {| pv_Name := "basic";
                    pv_Authenticate := basic_Authenticate (bc_User cfg) password (bc_Role cfg) |})
    end.

(** *** [oidc.go] *)
Record OIDCConfig := {
  oi_Enabled : bool; oi_IssuerURL : string; oi_ClientID : string; oi_RoleClaim : string }.

(** The role: the configured claim if it is a string or a list starting with
    one, else viewer. *)
Definition oidc_role (roleClaim : string) (t : IDToken) : string :=
  if roleClaim =s "" then "viewer"
  else match idt_all t with
       | None => "viewer"
       | Some all =>
           match all roleClaim with
           | Some (ClaimString role) => role
           | Some (ClaimList (Some role :: _)) => role
           | _ => "viewer"
           end
       end.

Definition oidc_username (c : oidcClaims) : string :=
  if oc_PreferredUsername c <>s "" then oc_PreferredUsername c
  else if oc_Name c <>s "" then oc_Name c else oc_Sub c.

Definition oidc_Authenticate (issuer clientID roleClaim : string) (r : Request)
  : M (User + gerr) :=
  let raw := ExtractBearer r in
  if raw =s "" then Ret (inr ErrUnauthorized)
  else
    let* token := call (OidcVerify issuer clientID raw) in
    match token with
    | inr _ => Ret (inr ErrUnauthorized)
    | inl token =>
        match idt_claims token with
        | None => Ret (inr ErrUnauthorized)
        | Some claims =>
            Ret (inl {| us_ID := oc_Sub claims; us_Username := oidc_username claims;
                        us_Email := oc_Email claims; us_Role := oidc_role roleClaim token;
                        us_Source := "oidc"; us_Namespaces := [] |})
        end
    end.

Definition NewOIDCProvider (cfg : OIDCConfig) : M (Provider + gerr) :=
  if (oi_IssuerURL cfg =s "") || (oi_ClientID cfg =s "") then
    Ret (inr (errorf "oidc auth: issuer URL and client ID required"))
  else
    let issuer := TrimSuffix (oi_IssuerURL cfg) "/" in
    let* e := call (OidcDiscover issuer) in
    match e with
    | Some e =>
        Ret (inr (wrapf ("oidc auth: discovery failed for issuer " +:+ fmt_q issuer) e))
    | None =>
        Ret (inl {| pv_Name := "oidc";
                    pv_Authenticate := oidc_Authenticate issuer (oi_ClientID cfg) (oi_RoleClaim cfg) |})
    end.

(** ** API keys ([storage.go], [apikey.go]) *)

Definition apiKeySecretPrefix := "minato-apikey-".
Definition apiKeySecretLabel := "minato.io/apikey".
Definition apiKeyLength : Z := 32.

Record APIKeyEntry := {
  ak_Name : string;
  ak_KeyID : string;
  ak_UserID : string;
  ak_Username : string;
  ak_Role : string;
  ak_CreatedAt : Z;
  ak_Namespaces : list string;
  ak_ExpiresAt : option Z;
}.
Definition zero_entry : APIKeyEntry := {|
  ak_Name := ""; ak_KeyID := ""; ak_UserID := ""; ak_Username := ""; ak_Role := "";
  ak_CreatedAt := -62135596800 * second; ak_Namespaces := []; ak_ExpiresAt := None |}.
Definition ak_set_Name (n : string) (e : APIKeyEntry) : APIKeyEntry := {|
  ak_Name := n; ak_KeyID := ak_KeyID e; ak_UserID := ak_UserID e; ak_Username := ak_Username e;
  ak_Role := ak_Role e; ak_CreatedAt := ak_CreatedAt e; ak_Namespaces := ak_Namespaces e;
  ak_ExpiresAt := ak_ExpiresAt e |}.
Definition ak_set_KeyID (n : string) (e : APIKeyEntry) : APIKeyEntry := {|
  ak_Name := ak_Name e; ak_KeyID := n; ak_UserID := ak_UserID e; ak_Username := ak_Username e;
  ak_Role := ak_Role e; ak_CreatedAt := ak_CreatedAt e; ak_Namespaces := ak_Namespaces e;
  ak_ExpiresAt := ak_ExpiresAt e |}.
Definition ak_set_Namespaces (l : list string) (e : APIKeyEntry) : APIKeyEntry := {|
  ak_Name := ak_Name e; ak_KeyID := ak_KeyID e; ak_UserID := ak_UserID e;
  ak_Username := ak_Username e; ak_Role := ak_Role e; ak_CreatedAt := ak_CreatedAt e;
  ak_Namespaces := l; ak_ExpiresAt := ak_ExpiresAt e |}.
Definition ak_set_ExpiresAt (t : option Z) (e : APIKeyEntry) : APIKeyEntry := {|
  ak_Name := ak_Name e; ak_KeyID := ak_KeyID e; ak_UserID := ak_UserID e;
  ak_Username := ak_Username e; ak_Role := ak_Role e; ak_CreatedAt := ak_CreatedAt e;
  ak_Namespaces := ak_Namespaces e; ak_ExpiresAt := t |}.

(** [encoding/json] on an entry: [Unmarshal] into a zero entry gives back what
    [Marshal] encoded. *)
Class EntryJSON := {
  json_Marshal : APIKeyEntry → string;
  json_Unmarshal : string → APIKeyEntry;
  json_round_trip : ∀ e, json_Unmarshal (json_Marshal e) = e;
}.
(** [time.RFC3339] has whole seconds. *)
Class RFC3339 := {
  Format : Z → string;
  Parse : string → option Z;
  Format_nonempty : ∀ t, Format t ≠ "";
  Parse_Format : ∀ t, Parse (Format t) = Some (t / second * second);
}.

Definition Expired (e : APIKeyEntry) : M bool :=
  match ak_ExpiresAt e with
  | None => Ret false
  | Some t => let* now := call Now in Ret (t <? now)
  end.

(** [hex.EncodeToString]. *)
Fixpoint hex_encode (s : string) : string :=
  match s with
  | "" => ""
  | String c s =>
      let n := N_of_ascii c in String (hex_digit (n / 16)) (String (hex_digit (n mod 16)) (hex_encode s))
  end.

Definition generateRandomKey : M (string + gerr) :=
  let* r := call (RandBytes apiKeyLength) in
  match r with
  | inr e => Ret (inr e)
  | inl bytes => Ret (inl ("minato_" +:+ hex_encode bytes))
  end.

Section Storage.
Context `{Hjson : !EntryJSON, Htime : !RFC3339}.
Variable namespace : string.

(** The string data of the secret, which the API server stores as its data. *)
Definition toSecret (entry : APIKeyEntry) : Secret :=
  let data : gmap string string :=
    {["key" := ak_KeyID entry; "metadata" := json_Marshal entry]} in
  let data := if bool_decide (ak_Namespaces entry = []) then data
              else <["namespaces" := Join "," (ak_Namespaces entry)]> data in
  let data := match ak_ExpiresAt entry with
              | Some t => <["expiresAt" := Format t]> data
              | None => data
              end in
  {| sec_Meta := new_meta (apiKeySecretPrefix +:+ ak_Name entry) namespace
       (Some {[apiKeySecretLabel := "true"; "minato.io/created-by" := ak_Username entry]});
     sec_Type := ""; sec_Data := data |}.

Definition fromSecret (secret : Secret) : APIKeyEntry :=
  let data k := sec_Data secret !! k in
  let entry := match data "metadata" with Some d => json_Unmarshal d | None => zero_entry end in
  let entry := match data "key" with
               | Some k => if ak_KeyID entry =s "" then ak_set_KeyID k entry else entry
               | None => entry
               end in
  let entry := if ak_Name entry =s ""
               then ak_set_Name (TrimPrefix (om_Name (sec_Meta secret)) apiKeySecretPrefix) entry
               else entry in
  let v := default "" (data "namespaces") in
  let entry := if v <>s "" then ak_set_Namespaces (ParseNamespaces v) entry else entry in
  let v := default "" (data "expiresAt") in
  if v <>s "" then
    match Parse v with Some t => ak_set_ExpiresAt (Some t) entry | None => entry end
  else entry.

Definition list_key_secrets : M (list Secret + gerr) :=
  call (ListObjs KSecret (Some namespace) [(apiKeySecretLabel, "true")]).

Definition GenerateKey (name userID username role : string) (namespaces : list string)
    (expiresAt : option Z) : M ((APIKeyEntry * string) + gerr) :=
  let* k := generateRandomKey in
  match k with
  | inr e => Ret (inr (wrapf "generate key" e))
  | inl keyValue =>
      let* now := call Now in
      let entry := {| ak_Name := name; ak_KeyID := keyValue; ak_UserID := userID;
                      ak_Username := username; ak_Role := role; ak_CreatedAt := now;
                      ak_Namespaces := namespaces; ak_ExpiresAt := expiresAt |} in
      let* e := call (Create KSecret (toSecret entry)) in
      match e with
      | Some e => Ret (inr (wrapf "store key" e))
      | None => Ret (inl (entry, keyValue))
      end
  end.

(** The first secret whose key is [keyValue] decides. *)
Definition GetKey (keyValue : string) : M (APIKeyEntry + gerr) :=
  let* secrets := list_key_secrets in
  match secrets with
  | inr e => Ret (inr (wrapf "list keys" e))
  | inl secrets =>
      match find_first (λ s, default "" (sec_Data s !! "key") =s keyValue) secrets with
      | None => Ret (inr ErrUnauthorized)
      | Some secret =>
          let entry := fromSecret secret in
          let* expired := Expired entry in
          Ret (if expired then inr ErrUnauthorized else inl entry)
      end
  end.

Definition ListKeys : M (list APIKeyEntry + gerr) :=
  let* secrets := list_key_secrets in
  match secrets with
  | inr e => Ret (inr (wrapf "list keys" e))
  | inl secrets => Ret (inl ((λ s, ak_set_KeyID "" (fromSecret s)) <$> secrets))
  end.

Definition DeleteKey (name : string) : M (option gerr) :=
  let* e := call (Delete KSecret namespace (apiKeySecretPrefix +:+ name)) in
  Ret (match e with
       | Some e => Some (if IsNotFound e then errorf ("key not found: " +:+ name)
                         else wrapf "delete key" e)
       | None => None
       end).

Definition apikey_Authenticate (r : Request) : M (User + gerr) :=
  let keyValue := rq_Header r "X-API-Key" in
  let keyValue := if keyValue =s "" then ExtractBearer r else keyValue in
  if keyValue =s "" then Ret (inr ErrUnauthorized)
  else
    let* entry := GetKey keyValue in
    Ret (match entry with
         | inr _ => inr ErrUnauthorized
         | inl entry => inl {| us_ID := ak_UserID entry; us_Username := ak_Username entry;
                               us_Email := ""; us_Role := ak_Role entry; us_Source := "apikey";
                               us_Namespaces := ak_Namespaces entry |}
         end).

Definition NewAPIKeyProvider : Provider :=
  {| pv_Name := "apikey"; pv_Authenticate := apikey_Authenticate |}.
End Storage.

(** ** Configuration ([auth.go]) *)

Record Config := {
  cfg_Mode : string;
  cfg_Basic : BasicConfig;
  cfg_OIDC : OIDCConfig;
  cfg_APIKey_Enabled : bool;
}.

Definition getEnv (env : string → string) (key fallback : string) : string :=
  if env key <>s "" then env key else fallback.
Definition getEnvBool (env : string → string) (key : string) (fallback : bool) : bool :=
  if env key <>s "" then (ToLower (env key) =s "true") || (env key =s "1") else fallback.

Definition LoadConfig (env : string → string) : Config := {|
  cfg_Mode := getEnv env "AUTH_MODE" "none";
  cfg_Basic := {|
    bc_Enabled := getEnvBool env "AUTH_BASIC_ENABLED" false;
    bc_User := getEnv env "AUTH_BASIC_USER" "";
    bc_Password := getEnv env "AUTH_BASIC_PASSWORD" "";
    bc_Role := getEnv env "AUTH_BASIC_ROLE" "admin" |};
  cfg_OIDC := {|
    oi_Enabled := getEnvBool env "AUTH_OIDC_ENABLED" false;
    oi_IssuerURL := getEnv env "AUTH_OIDC_ISSUER_URL" "";
    oi_ClientID := getEnv env "AUTH_OIDC_CLIENT_ID" "";
    oi_RoleClaim := getEnv env "AUTH_OIDC_ROLE_CLAIM" "groups" |};
  cfg_APIKey_Enabled := getEnvBool env "AUTH_APIKEY_ENABLED" false |}.

Section BuildChain.
Context `{Hbcrypt : !Bcrypt, Hjson : !EntryJSON, Htime : !RFC3339}.

(** The provider a mode adds, if any; [keyStorage] is the namespace of the key
    storage when there is one. *)
Definition mode_provider (cfg : Config) (keyStorage : option string) (mode : string)
  : M (option Provider + gerr) :=
  if mode =s "none" then Ret (inl (Some NewNoneProvider))
  else if mode =s "basic" then
    if bc_Enabled (cfg_Basic cfg) then
      let* p := NewBasicProvider (cfg_Basic cfg) in
      Ret (match p with inl p => inl (Some p) | inr e => inr (wrapf "basic auth" e) end)
    else Ret (inl None)
  else if mode =s "oidc" then
    if oi_Enabled (cfg_OIDC cfg) then
      let* p := NewOIDCProvider (cfg_OIDC cfg) in
      Ret (match p with inl p => inl (Some p) | inr e => inr (wrapf "oidc auth" e) end)
    else Ret (inl None)
  else if mode =s "apikey" then
    Ret (inl (if cfg_APIKey_Enabled cfg
              then NewAPIKeyProvider <$> keyStorage else None))
  else Ret (inl None).

Fixpoint build_modes (cfg : Config) (keyStorage : option string) (modes : list string)
    (chain : Chain) : M (Chain + gerr) :=
  match modes with
  | [] => Ret (inl chain)
  | mode :: modes =>
      let* p := mode_provider cfg keyStorage (TrimSpace (ToLower mode)) in
      match p with
      | inr e => Ret (inr e)
      | inl (Some p) => build_modes cfg keyStorage modes (chain ++ [p])
      | inl None => build_modes cfg keyStorage modes chain
      end
  end.

Definition BuildChainWithStorage (cfg : Config) (keyStorage : option string)
  : M (Chain + gerr) :=
  let* chain := build_modes cfg keyStorage (Split "," (cfg_Mode cfg)) [] in
  match chain with
  | inr e => Ret (inr e)
  | inl [] => Ret (inl [NewNoneProvider])
  | inl chain => Ret (inl chain)
  end.

Definition BuildChain (cfg : Config) : M (Chain + gerr) := BuildChainWithStorage cfg None.
End BuildChain.

(** ** Lemmas *)

(** A namespace pattern as an operator writes it in a list: not blank, without
    a comma, without spaces around it. *)
Definition clean_namespace (s : string) : Prop :=
  s ≠ "" ∧ no_char "," s = true ∧ TrimSpace s = s.

Lemma ParseNamespaces_Join l :
  Forall clean_namespace l → ParseNamespaces (Join "," l) = l.
Proof.
  intros H. destruct l as [|a l]; [done|]. unfold ParseNamespaces.
  rewrite (Split_Join ","%char (a :: l)); [|done|].
  2:{ eapply (Forall_impl clean_namespace); [exact H|]. by intros ? (? & ? & ?). }
  induction H as [|x l' (Hne & _ & Ht) H IH]; [done|].
  rewrite fmap_cons, filter_cons, Ht, decide_True by done. by rewrite IH.
Qed.

Lemma ParseNamespaces_clean s p : p ∈ ParseNamespaces s → p ≠ "".
Proof. unfold ParseNamespaces. by intros [? _]%list_elem_of_filter. Qed.

Lemma Join_nonempty sep l : Forall (λ s, s ≠ "") l → l ≠ [] → Join sep l ≠ "".
Proof.
  intros H Hl. destruct l as [|a [|b l]]; [done|..]; apply Forall_cons in H as [Ha _]; [done|].
  cbn [Join]. by destruct a.
Qed.

Lemma chain_Authenticate_runs c r t u :
  runs (chain_Authenticate c r) t (Done (inl u)) →
  ∃ i p tp, c !! i = Some p ∧ runs (pv_Authenticate p r) tp (Done (inl u))
    ∧ ∀ j q, (j < i)%nat → c !! j = Some q →
        ∃ tq e, runs (pv_Authenticate q r) tq (Done (inr e)).
Proof.
  revert t. induction c as [|p c IH]; intros t; cbn [chain_Authenticate]; [by intros [_ ?]|].
  intros H. run_step H. destruct a as [v|e].
  - destruct H as [-> [= ->]]. exists 0%nat, p, t0. split_and!; [done..|lia].
  - apply IH in H as (i & q & tp & Hi & Hq & Hj). exists (S i), q, tp. split_and!; [done..|].
    intros [|j] q' Hlt; [intros [= <-]; eauto|]. intros Hq'. apply (Hj j q'); [lia|done].
Qed.

Lemma chain_Authenticate_fails c r t e :
  runs (chain_Authenticate c r) t (Done (inr e)) →
  ∀ q, q ∈ c → ∃ tq e', runs (pv_Authenticate q r) tq (Done (inr e')).
Proof.
  revert t. induction c as [|p c IH]; intros t; cbn [chain_Authenticate]; [set_solver|].
  intros H. run_step H. destruct a as [v|e0]; [by destruct H|].
  intros q. rewrite elem_of_cons. intros [->|Hq]; [eauto|by eapply IH].
Qed.

(** ** Properties *)

(** a namespace pattern matches a name exactly when it is "*", or the name
    itself, or a prefix of the name followed by "*"; a user may access a
    namespace exactly when they are unrestricted or one of their patterns
    matches it. *)
Theorem namespace_access_correct u ns :
  (∀ p, MatchNamespacePattern p ns = true ↔
     p = "*" ∨ p = ns ∨ ∃ q rest, p = q +:+ "*" ∧ ns = q +:+ rest)
  ∧ (AllowsNamespace (Some u) ns = true ↔
     us_Namespaces u = [] ∨ ∃ p, p ∈ us_Namespaces u ∧ MatchNamespacePattern p ns = true).
Proof.
  split.
  - intros p. unfold MatchNamespacePattern.
    destruct (String.eqb_spec p "*") as [->|Hp]; [tauto|].
    destruct (HasSuffix p "*") eqn:Es.
    + apply HasSuffix_spec in Es as [q ->]. rewrite TrimSuffix_app, HasPrefix_spec. split.
      * intros [rest ->]. right. right. eauto.
      * intros [?|[<-|(q' & rest & Hq & ->)]]; [done|by exists "*"|].
        apply (f_equal (λ s, TrimSuffix s "*")) in Hq. rewrite !TrimSuffix_app in Hq.
        subst. eauto.
    + rewrite String.eqb_eq. split; [tauto|].
      intros [?|[?|(q & rest & -> & _)]]; [done..|].
      assert (HasSuffix (q +:+ "*") "*" = true) by (apply HasSuffix_spec; eauto). congruence.
  - unfold AllowsNamespace, ClusterWide. case_bool_decide as Hn; [tauto|].
    unfold MatchAnyNamespace. rewrite existsb_elem_of. naive_solver.
Qed.

Section KeyProps.
Context `{Hjson : !EntryJSON, Htime : !RFC3339}.

(** The fields of the secret an entry is stored in. *)
Lemma toSecret_data ns e k :
  sec_Data (toSecret ns e) !! k =
    if k =s "key" then Some (ak_KeyID e)
    else if k =s "metadata" then Some (json_Marshal e)
    else if k =s "namespaces" then
      if bool_decide (ak_Namespaces e = []) then None else Some (Join "," (ak_Namespaces e))
    else if k =s "expiresAt" then Format <$> ak_ExpiresAt e
    else None.
Proof.
  unfold toSecret. cbn [sec_Data].
  destruct (ak_ExpiresAt e); case_bool_decide; case_eqs; subst; try done; by simplify_map_eq.
Qed.

Lemma fromSecret_toSecret ns e :
  fromSecret (toSecret ns e) =
    ak_set_ExpiresAt ((λ t, t / second * second) <$> ak_ExpiresAt e)
      (if Join "," (ak_Namespaces e) =s "" then e
       else ak_set_Namespaces (ParseNamespaces (Join "," (ak_Namespaces e))) e).
Proof.
  unfold fromSecret. cbv zeta. rewrite !toSecret_data. cbn [String.eqb Ascii.eqb Bool.eqb].
  rewrite json_round_trip.
  assert ((if ak_KeyID e =s "" then ak_set_KeyID (ak_KeyID e) e else e) = e) as ->
    by (destruct e; by case_match).
  replace (om_Name (sec_Meta (toSecret ns e))) with (apiKeySecretPrefix +:+ ak_Name e) by done.
  rewrite TrimPrefix_app.
  assert ((if ak_Name e =s "" then ak_set_Name (ak_Name e) e else e) = e) as ->
    by (destruct e; by case_match).
  assert (default "" (if bool_decide (ak_Namespaces e = []) then None
                      else Some (Join "," (ak_Namespaces e))) = Join "," (ak_Namespaces e)) as ->
    by (case_bool_decide as H; [by rewrite H|done]).
  destruct (ak_ExpiresAt e) as [t|] eqn:Et; simpl.
  - destruct (String.eqb_spec (Format t) "") as [E|_]; [by apply Format_nonempty in E|].
    rewrite Parse_Format. simpl. by destruct (Join _ _ =s "").
  - destruct e; simpl in *; subst. by destruct (Join _ _ =s "").
Qed.

(** an API key survives its storage: the entry read back from the secret it
    was stored in is the entry that was stored (the expiry in whole seconds),
    provided its namespace patterns are well formed. *)
Theorem api_key_round_trip ns e :
  Forall clean_namespace (ak_Namespaces e) →
  fromSecret (toSecret ns e) =
    ak_set_ExpiresAt ((λ t, t / second * second) <$> ak_ExpiresAt e) e.
Proof.
  intros H. rewrite fromSecret_toSecret, ParseNamespaces_Join by done.
  by destruct e, (Join _ _ =s "").
Qed.

(** A key restricted to namespaces that are all blank is stored as such and
    read back without any restriction. *)
Lemma blank_namespaces_widen ns e :
  ak_Namespaces e = [" "] → ak_Namespaces (fromSecret (toSecret ns e)) = [].
Proof. intros H. rewrite fromSecret_toSecret, H. reflexivity. Qed.

(** C30: an API key authenticates a request exactly when the request carries one
    (the X-API-Key header, or else a bearer token), the secrets can be listed,
    and the first of them that holds exactly that value is not past its expiry;
    the user is that of that secret's entry, with its role and its namespaces
    and no more.  Nothing is ever written and no run panics. *)
Theorem api_key_authentication ns r t o :
  runs (apikey_Authenticate ns r) t o →
  let key := if rq_Header r "X-API-Key" =s "" then ExtractBearer r
             else rq_Header r "X-API-Key" in
  let holds k (secret : Secret) := default "" (sec_Data secret !! "key") = k in
  writes t = []
  ∧ ((key = "" ∧ t = [] ∧ o = Done (inr ErrUnauthorized))
     ∨ key ≠ "" ∧ ∃ listed t',
         t = Ev (ListObjs KSecret (Some ns) [(apiKeySecretLabel, "true")]) listed :: t'
         ∧ match listed with
           | inr _ => o = Done (inr ErrUnauthorized)
           | inl secrets =>
               (Forall (λ s, ¬ holds key s) secrets ∧ o = Done (inr ErrUnauthorized))
               ∨ ∃ pre secret rest,
                   secrets = pre ++ secret :: rest
                   ∧ Forall (λ s, ¬ holds key s) pre
                   ∧ sec_Data secret !! "key" = Some key
                   ∧ ((o = Done (inl {|
                           us_ID := ak_UserID (fromSecret secret);
                           us_Username := ak_Username (fromSecret secret); us_Email := "";
                           us_Role := ak_Role (fromSecret secret); us_Source := "apikey";
                           us_Namespaces := ak_Namespaces (fromSecret secret) |})
                       ∧ (ak_ExpiresAt (fromSecret secret) = None
                          ∨ ∃ expiry now, ak_ExpiresAt (fromSecret secret) = Some expiry
                              ∧ Ev Now now ∈ t ∧ now <= expiry))
                      ∨ o = Done (inr ErrUnauthorized)
                        ∧ ∃ expiry now, ak_ExpiresAt (fromSecret secret) = Some expiry
                            ∧ Ev Now now ∈ t ∧ expiry < now)
           end).
Proof.
  unfold apikey_Authenticate. cbv zeta.
  set (key := if rq_Header r "X-API-Key" =s "" then _ else _).
  destruct (String.eqb_spec key "") as [Hkey|Hkey]; [intros [-> ->]; auto|].
  unfold GetKey, list_key_secrets. cbn [bind call]. intros (listed & t' & -> & H).
  destruct listed as [secrets|e]; cbn [bind] in H.
  2:{ destruct H as [-> ->]. split; [done|]. right. split; [done|]. by exists (inr e), []. }
  match type of H with context [find_first ?f ?l] => destruct (find_first f l) as [secret|] eqn:Ef end.
  2:{ destruct H as [-> ->]. split; [done|]. right. split; [done|].
      exists (inl secrets), []. split; [done|]. left. split; [|done].
      rewrite find_first_None in Ef. apply Forall_forall. intros s Hs He%eqs_true.
      apply Ef in Hs. cbn in Hs. congruence. }
  apply find_first_split in Ef as (pre & rest & -> & Hpre & Hk%eqs_true).
  assert (sec_Data secret !! "key" = Some key) as Hdata.
  { destruct (sec_Data secret !! "key"); simpl in Hk; congruence. }
  assert (Forall (λ s : Secret, ¬ default "" (sec_Data s !! "key") = key) pre) as Hpre'.
  { eapply Forall_impl; [exact Hpre|]. intros s Hs ?%eqs_true. cbn in *. congruence. }
  unfold Expired in H. cbv zeta in H.
  destruct (ak_ExpiresAt (fromSecret secret)) as [expiry|] eqn:Ee; cbn [bind call] in H.
  - destruct H as (now & t2 & -> & H). cbn [bind] in H.
    destruct (Z.ltb_spec expiry now); destruct H as [-> ->]; (split; [done|]); right;
      (split; [done|]); eexists (inl _), _; (split; [done|]); right;
      exists pre, secret, rest; (split_and!; [done..|]); [right|left]; (split; [done|]);
      [|right]; exists expiry, now; (split_and!; [done|set_solver|lia]).
  - destruct H as [-> ->]. split; [done|]. right. split; [done|]. eexists (inl _), _.
    split; [done|]. right. exists pre, secret, rest. split_and!; [done..|]. left. auto.
Qed.
End KeyProps.

(** the middleware lets a request through only if its path is public, in which
    case no user is attached, or a provider accepts it, in which case the user
    attached is the one of the first provider, in the order of the chain,
    that does; otherwise the answer is 401 and the handler is not run. *)
Theorem Middleware_correct chain next r t rsp :
  runs (Middleware chain next r) t (Done rsp) →
  (public_path (rq_Path r) = true ∧ runs (next r) t (Done rsp))
  ∨ (∃ i p u t1 t2 tp, t = t1 ++ t2 ∧ chain !! i = Some p
      ∧ runs (pv_Authenticate p r) tp (Done (inl u))
      ∧ (∀ j q, (j < i)%nat → chain !! j = Some q →
           ∃ tq e, runs (pv_Authenticate q r) tq (Done (inr e)))
      ∧ runs (next (WithUser u r)) t2 (Done rsp))
  ∨ (rsp_Status rsp = 401
      ∧ ∀ q, q ∈ chain → ∃ tq e, runs (pv_Authenticate q r) tq (Done (inr e))).
Proof.
  unfold Middleware. destruct (public_path (rq_Path r)); [by left|]. intros H. right.
  run_step H. destruct a as [u|e].
  - left. apply chain_Authenticate_runs in Hrun as (i & p & tp & Hi & Hp & Hj).
    exists i, p, u, t0, t1, tp. by split_and!.
  - right. destruct H as [_ [= ->]]. split; [done|].
    by eapply chain_Authenticate_fails.
Qed.

Section ChainProps.
Context `{Hbcrypt : !Bcrypt, Hjson : !EntryJSON, Htime : !RFC3339}.

(** The modes that add nothing with this configuration. *)
Definition mode_inert (cfg : Config) (keyStorage : option string) (mode : string) : bool :=
  let mode := TrimSpace (ToLower mode) in
  if mode =s "none" then false
  else if mode =s "basic" then negb (bc_Enabled (cfg_Basic cfg))
  else if mode =s "oidc" then negb (oi_Enabled (cfg_OIDC cfg))
  else if mode =s "apikey" then
    negb (cfg_APIKey_Enabled cfg) || bool_decide (keyStorage = None)
  else true.

Lemma mode_inert_runs cfg ks mode t x :
  mode_inert cfg ks mode = true →
  runs (mode_provider cfg ks (TrimSpace (ToLower mode))) t (Done x) → x = inl None.
Proof.
  unfold mode_inert, mode_provider. cbv zeta.
  destruct (TrimSpace (ToLower mode) =s "none"); [done|].
  destruct (TrimSpace (ToLower mode) =s "basic").
  { intros ->%negb_true_iff. by intros [_ [= ->]]. }
  destruct (TrimSpace (ToLower mode) =s "oidc").
  { intros ->%negb_true_iff. by intros [_ [= ->]]. }
  destruct (TrimSpace (ToLower mode) =s "apikey"); [|by intros _ [_ [= ->]]].
  intros [->%negb_true_iff| ->%bool_decide_eq_true]%orb_true_iff; [by intros [_ [= ->]]|].
  destruct (cfg_APIKey_Enabled cfg); by intros [_ [= ->]].
Qed.

Lemma build_modes_inert cfg ks modes chain t c :
  Forall (λ m, mode_inert cfg ks m = true) modes →
  runs (build_modes cfg ks modes chain) t (Done (inl c)) → c = chain.
Proof.
  intros H. revert t. induction H as [|m l Hm H IH]; intros t; cbn [build_modes].
  - by intros [_ [= ->]].
  - intros Hr. run_step Hr. apply mode_inert_runs in Hrun as ->; [|done]. by eapply IH.
Qed.

(** the chain is never empty, and it fails open: when no mode of the
    configuration yields a provider (each is unknown, disabled or, for API
    keys, without a store), every request, whatever credentials it
    carries, is authenticated as the anonymous administrator. *)
Theorem BuildChain_fails_open cfg ks t c :
  runs (BuildChainWithStorage cfg ks) t (Done (inl c)) →
  c ≠ []
  ∧ (Forall (λ m, mode_inert cfg ks m = true) (Split "," (cfg_Mode cfg)) →
     ∀ r, runs (chain_Authenticate c r) [] (Done (inl anonymous))
          ∧ us_Role anonymous = "admin" ∧ ClusterWide (Some anonymous) = true).
Proof.
  unfold BuildChainWithStorage. intros H. run_step H.
  destruct a as [l|e]; [|by destruct H]. split.
  - destruct l; by destruct H as [_ [= ->]].
  - intros Hin r. apply build_modes_inert in Hrun as ->; [|done].
    destruct H as [_ [= ->]]. done.
Qed.

(** *** Authentication only reads *)

Definition silent (p : Provider) : Prop := ∀ r, no_writes (pv_Authenticate p r).

Lemma basic_silent cfg :
  ret_sat (λ x, match x with inl p => silent p | inr _ => True end) (NewBasicProvider cfg).
Proof.
  unfold NewBasicProvider, HashPassword. ret_calls; try done; intros r; exact I.
Qed.

Lemma oidc_silent cfg :
  ret_sat (λ x, match x with inl p => silent p | inr _ => True end) (NewOIDCProvider cfg).
Proof.
  unfold NewOIDCProvider. ret_calls; try done. intros r. cbn [pv_Authenticate].
  unfold oidc_Authenticate. writes_safe.
Qed.

Lemma apikey_silent ns : silent (NewAPIKeyProvider ns).
Proof.
  intros r. cbn [pv_Authenticate NewAPIKeyProvider].
  unfold apikey_Authenticate, GetKey, list_key_secrets, Expired. writes_safe.
Qed.

Lemma mode_provider_silent cfg ks mode :
  ret_sat (λ x, match x with inl (Some p) => silent p | _ => True end) (mode_provider cfg ks mode).
Proof.
  unfold mode_provider. destruct (mode =s "none"); [intros r; exact I|].
  destruct (mode =s "basic").
  { destruct (bc_Enabled _); [|exact I].
    eapply ret_sat_bind; [apply basic_silent|]. by intros [p|e] Hp. }
  destruct (mode =s "oidc").
  { destruct (oi_Enabled _); [|exact I].
    eapply ret_sat_bind; [apply oidc_silent|]. by intros [p|e] Hp. }
  destruct (mode =s "apikey"); [|exact I]. cbn [ret_sat].
  destruct (cfg_APIKey_Enabled cfg), ks; try exact I. apply apikey_silent.
Qed.

Lemma build_modes_silent cfg ks modes chain :
  Forall silent chain →
  ret_sat (λ x, match x with inl c => Forall silent c | inr _ => True end)
    (build_modes cfg ks modes chain).
Proof.
  revert chain. induction modes as [|mode modes IH]; intros chain H; cbn [build_modes]; [done|].
  eapply ret_sat_bind; [apply mode_provider_silent|].
  intros [[p|]|e] Hp; [|by apply IH|done]. apply IH. apply Forall_app. by split; [|constructor].
Qed.

Lemma chain_silent c r : Forall silent c → no_writes (chain_Authenticate c r).
Proof.
  intros H. induction H as [|p c Hp H IH]; cbn [chain_Authenticate]; [exact I|].
  apply always_bind; [apply Hp|]. by intros [u|e].
Qed.

(** The providers of a built chain never write to the API server. *)
Lemma built_chain_no_writes cfg ks t c r :
  runs (BuildChainWithStorage cfg ks) t (Done (inl c)) → no_writes (chain_Authenticate c r).
Proof.
  unfold BuildChainWithStorage. intros H. run_step H. apply chain_silent.
  eapply ret_sat_runs in Hrun; [|by apply build_modes_silent]. cbn in Hrun.
  destruct a as [[|p l]|e]; [| |by destruct H].
  - destruct H as [_ [= ->]]. repeat constructor.
  - by destruct H as [_ [= ->]].
Qed.
End ChainProps.

(** ** Witnesses

    Concrete encodings with the laws the development assumes. *)

Fixpoint pos_string (p : positive) : string :=
  match p with xH => "" | xO p => String "0" (pos_string p) | xI p => String "1" (pos_string p) end.
Fixpoint string_pos (s : string) : positive :=
  match s with
  | "" => xH
  | String c s => if Ascii.eqb c "0" then xO (string_pos s) else xI (string_pos s)
  end.
Lemma string_pos_string p : string_pos (pos_string p) = p.
Proof. induction p as [p IH|p IH|]; simpl; by rewrite ?IH. Qed.

#[export] Instance APIKeyEntry_eq_dec : EqDecision APIKeyEntry.
Proof. solve_decision. Defined.
#[export] Instance APIKeyEntry_countable : Countable APIKeyEntry.
Proof.
  refine (inj_countable'
    (λ e, (ak_Name e, ak_KeyID e, ak_UserID e, ak_Username e, ak_Role e, ak_CreatedAt e,
           ak_Namespaces e, ak_ExpiresAt e))
    (λ '(n, k, u, un, ro, c, ns, ex), {|
      ak_Name := n; ak_KeyID := k; ak_UserID := u; ak_Username := un; ak_Role := ro;
      ak_CreatedAt := c; ak_Namespaces := ns; ak_ExpiresAt := ex |}) _).
  by intros [].
Defined.

Program Definition ex_EntryJSON : EntryJSON := {|
  json_Marshal e := pos_string (encode e);
  json_Unmarshal s := default zero_entry (decode (string_pos s));
|}.
Next Obligation.
  intros e. change (default zero_entry (decode (string_pos (pos_string (encode e)))) = e).
  by rewrite string_pos_string, decode_encode.
Qed.
Program Definition ex_RFC3339 : RFC3339 := {|
  Format t := String "T" (pos_string (encode (t / second)));
  Parse s := match s with
             | String _ s => (λ z, z * second) <$> decode (string_pos s)
             | "" => None
             end;
|}.
Next Obligation. done. Qed.
Next Obligation.
  intros t. change ((λ z, z * second) <$> decode (string_pos (pos_string (encode (t / second))))
                    = Some (t / second * second)).
  by rewrite string_pos_string, decode_encode.
Qed.

Definition ex_key : APIKeyEntry := {|
  ak_Name := "ci"; ak_KeyID := "minato_abc"; ak_UserID := "u1"; ak_Username := "ci-bot";
  ak_Role := "operator"; ak_CreatedAt := 0; ak_Namespaces := ["tenant-a"; "team-*"];
  ak_ExpiresAt := Some (2000 * second) |}.

Lemma api_key_round_trip_witness :
  @fromSecret ex_EntryJSON ex_RFC3339 (@toSecret ex_EntryJSON ex_RFC3339 "minato-system" ex_key)
  = ak_set_ExpiresAt (Some (2000 * second)) ex_key.
Proof.
  rewrite (@api_key_round_trip ex_EntryJSON ex_RFC3339 "minato-system" ex_key); [reflexivity|].
  repeat constructor; discriminate.
Defined.

Definition ex_request (method path key : string) (u : option User) : Request := {|
  rq_Method := method; rq_Path := path;
  rq_Header := λ h, if h =s "X-API-Key" then key else "";
  rq_BasicAuth := None; rq_Param := λ _, ""; rq_Query := λ _, ""; rq_Body := "";
  rq_RemoteAddr := "10.0.0.9"; rq_User := u |}.
(** A key secret edited by hand: no metadata, two namespace patterns. *)
Definition ex_key_secret : Secret := {|
  sec_Meta := new_meta "minato-apikey-ci" "minato-system" (Some {[apiKeySecretLabel := "true"]});
  sec_Type := ""; sec_Data := {["key" := "minato_abc"; "namespaces" := "tenant-a, team-*"]} |}.
Definition ex_key_env : ∀ X, op X → X :=
  answer no_objects
    (with_list KSecret [ex_key_secret] no_lists) (1000 * second).

Lemma api_key_authentication_witness :
  let r := ex_request "GET" "/api/v1/gameservers" "minato_abc" None in
  let p := @apikey_Authenticate ex_EntryJSON ex_RFC3339 "minato-system" r in
  ∃ u, run_outcome ex_key_env p = Done (inl u) ∧ us_Namespaces u = ["tenant-a"; "team-*"]
       ∧ ∃ secret, sec_Data secret !! "key" = Some "minato_abc".
Proof.
  intros r p. eexists. split; [reflexivity|]. split; [reflexivity|].
  destruct (@api_key_authentication ex_EntryJSON ex_RFC3339 "minato-system" r _ _
    (run_runs ex_key_env p)) as (_ & [(H & _)|(_ & listed & t' & E & H)]); [discriminate H|].
  destruct listed as [secrets|e]; [|discriminate H].
  destruct H as [[_ H]|(pre & secret & rest & _ & _ & H & _)]; [discriminate H|].
  exists secret. exact H.
Defined.

Definition ex_ok : Handler := λ _, Ret {| rsp_Status := 200; rsp_Header := []; rsp_Body := "ok" |}.

Definition ex_later_auth : ∀ X, op X → X := answer no_objects no_lists 0.

Lemma Middleware_correct_witness :
  let p := Middleware [] ex_ok (ex_request "GET" "/api/v1/gameservers" "" None) in
  ∃ rsp, run_outcome ex_later_auth p = Done rsp ∧ rsp_Status rsp = 401.
Proof.
  intros p. eexists. split; [reflexivity|].
  destruct (Middleware_correct [] ex_ok (ex_request "GET" "/api/v1/gameservers" "" None) _ _
    (run_runs ex_later_auth p)) as [[H _]|[(i & q & u & t1 & t2 & tp & _ & H & _)|[H _]]].
  - discriminate H.
  - discriminate H.
  - exact H.
Defined.

Lemma BuildChain_fails_open_witness :
  let cfg := LoadConfig (λ k, if k =s "AUTH_MODE" then "basic, apikey" else "") in
  let p := @BuildChainWithStorage (λ _ _, false) ex_EntryJSON ex_RFC3339 cfg (Some "minato-system") in
  ∃ c, run_outcome ex_later_auth p = Done (inl c)
       ∧ ∀ r, runs (chain_Authenticate c r) [] (Done (inl anonymous)).
Proof.
  intros cfg p. eexists. split; [reflexivity|]. intros r.
  destruct (@BuildChain_fails_open (λ _ _, false) ex_EntryJSON ex_RFC3339 cfg (Some "minato-system")
    _ _ (run_runs ex_later_auth p)) as [_ H].
  exact (proj1 (H ltac:(repeat constructor) r)).
Defined.
