(* ===== verification/Rbac.v ===== *)
(** * Rbac: roles, route rules and the namespace guard
    ([internal/controlplane/rbac])

    [HasPermission] follows [Extends] without a bound: its model takes fuel, and
    [None] stands for a recursion that has not ended. *)

From Stdlib Require Import Ascii String.
From S2P Require Import Prelude GoStrings Prog Api Kube Auth.

(** Closes a decidable closed proposition by evaluating it. *)
Ltac decided := refine (bool_decide_unpack _ _); vm_compute; exact I.

(** ** [rbac.go] *)

Record Permission := {
  pm_Resource : string; pm_Verbs : list string; pm_Namespaces : list string }.
Record Role := {
  ro_Name : string; ro_Permissions : list Permission; ro_Extends : string }.

Definition perm (resource : string) (verbs : list string) : Permission :=
  {| pm_Resource := resource; pm_Verbs := verbs; pm_Namespaces := [] |}.

Definition ViewerRole : Role := {|
  ro_Name := "viewer"; ro_Extends := "";
  ro_Permissions := [
    perm "gameservers" ["get"; "list"]; perm "gameserverfleets" ["get"; "list"];
    perm "profiles" ["get"; "list"]; perm "snapshots" ["get"; "list"];
    perm "actions" ["get"; "list"]; perm "executions" ["get"; "list"]] |}.
Definition OperatorRole : Role := {|
  ro_Name := "operator"; ro_Extends := "viewer";
  ro_Permissions := [perm "actions" ["execute"]; perm "snapshots" ["create"]] |}.
Definition AdminRole : Role := {|
  ro_Name := "admin"; ro_Extends := "operator";
  ro_Permissions := [
    perm "gameservers" ["create"; "delete"]; perm "gameserverfleets" ["create"; "delete"];
    perm "apikeys" ["create"; "delete"; "list"]] |}.

Definition roleMap : gmap string Role :=
  {["viewer" := ViewerRole; "operator" := OperatorRole; "admin" := AdminRole]}.

Definition RegisterRole (role : Role) (roles : gmap string Role) : gmap string Role :=
  <[ro_Name role := role]> roles.
Definition GetRole (roles : gmap string Role) (name : string) : option Role := roles !! name.

Definition direct_permission (role : Role) (resource verb : string) : bool :=
  existsb (λ p, ((pm_Resource p =s resource) || (pm_Resource p =s "*"))
                && existsb (λ v, (v =s verb) || (v =s "*")) (pm_Verbs p))
    (ro_Permissions role).

Fixpoint HasPermission (fuel : nat) (roles : gmap string Role) (roleName resource verb : string)
  : option bool :=
  match fuel with
  | O => None
  | S fuel =>
      match GetRole roles roleName with
      | None => Some false
      | Some role =>
          if ro_Extends role <>s "" then
            match HasPermission fuel roles (ro_Extends role) resource verb with
            | None => None
            | Some true => Some true
            | Some false => Some (direct_permission role resource verb)
            end
          else Some (direct_permission role resource verb)
      end
  end.

Definition RequireRole (roles : list string) : Middleware_t := λ next r,
  match GetUser r with
  | None => Ret (http_Error "Unauthorized" 401)
  | Some user =>
      if existsb (String.eqb (us_Role user)) roles then next r
      else Ret (http_Error "Forbidden" 403)
  end.

(** [containsAt]: the loop over the positions [i <= len(s)-len(substr)]. *)
Definition containsAt (s substr : string) : bool :=
  existsb (λ i, str_take (String.length substr) (str_drop i s) =s substr)
    (seq 0 (S (String.length s) - String.length substr)).
Definition contains (s substr : string) : bool :=
  Nat.leb (String.length substr) (String.length s)
  && ((s =s substr) || (Nat.ltb 0 (String.length s) && containsAt s substr)).

Definition ResourceFromPath (path : string) : string :=
  if contains path "/gameservers/" && contains path "/actions" then "actions"
  else if contains path "/gameservers/" && contains path "/snapshots" then "snapshots"
  else if contains path "/gameservers/" && contains path "/console" then "console"
  else if contains path "/gameservers" then "gameservers"
  else if contains path "/gameserverfleets" then "gameserverfleets"
  else if contains path "/profiles" then "profiles"
  else if contains path "/apikeys" then "apikeys"
  else "".

Definition VerbFromMethod (method : string) : string :=
  if method =s "GET" then "get"
  else if method =s "POST" then "create"
  else if (method =s "PUT") || (method =s "PATCH") then "update"
  else if method =s "DELETE" then "delete"
  else "".

(** ** [routeguard.go] *)

Record RouteRule := {
  rr_Method : string; rr_Pattern : string; rr_Roles : list string; rr_ClusterWide : bool }.

Definition rule (method pattern : string) (roles : list string) : RouteRule :=
  {| rr_Method := method; rr_Pattern := pattern; rr_Roles := roles; rr_ClusterWide := false |}.

Definition DefaultRules : list RouteRule := [
  rule "POST" "/api/v1/gameservers/{namespace}" ["admin"];
  rule "DELETE" "/api/v1/gameservers/{namespace}/{name}" ["admin"];
  rule "PATCH" "/api/v1/gameservers/{namespace}/{name}" ["operator"; "admin"];
  rule "GET" "/api/v1/gameservers/{namespace}/{name}/console" ["operator"; "admin"];
  rule "GET" "/api/v1/gameservers/{namespace}/{name}/sftp" ["operator"; "admin"];
  rule "POST" "/api/v1/gameservers/{namespace}/{name}/actions/{action}" ["operator"; "admin"];
  rule "POST" "/api/v1/gameservers/{namespace}/{name}/snapshots" ["operator"; "admin"];
  rule "POST" "/api/v1/gameserverfleets/{namespace}" ["admin"];
  rule "PATCH" "/api/v1/gameserverfleets/{namespace}/{name}" ["operator"; "admin"];
  rule "DELETE" "/api/v1/gameserverfleets/{namespace}/{name}" ["admin"];
  {| rr_Method := "*"; rr_Pattern := "/api/v1/apikeys"; rr_Roles := ["admin"];
     rr_ClusterWide := true |};
  {| rr_Method := "*"; rr_Pattern := "/api/v1/apikeys/{keyId}"; rr_Roles := ["admin"];
     rr_ClusterWide := true |}].

Definition path_segments (path : string) : list string := Split "/" (TrimChar "/" path).

Definition is_template (seg : string) : bool := HasPrefix seg "{" && HasSuffix seg "}".

Fixpoint match_segments (pSegs sSegs : list string) : bool :=
  match pSegs, sSegs with
  | [], [] => true
  | p :: pSegs, s :: sSegs =>
      if is_template p then (if s =s "" then false else match_segments pSegs sSegs)
      else if p <>s s then false else match_segments pSegs sSegs
  | _, _ => false
  end.

Definition MatchPath (pattern path : string) : bool :=
  let pSegs := path_segments pattern in
  let sSegs := path_segments path in
  if negb (Nat.eqb (length pSegs) (length sSegs)) then false else match_segments pSegs sSegs.

Definition rule_applies (r : Request) (rule : RouteRule) : bool :=
  ((rr_Method rule =s "*") || (rr_Method rule =s rq_Method r))
  && MatchPath (rr_Pattern rule) (rq_Path r).

Definition RouteGuard (rules : list RouteRule) : Middleware_t := λ next r,
  match find_first (rule_applies r) rules with
  | None => next r
  | Some rule =>
      match GetUser r with
      | None => Ret (http_Error "Unauthorized" 401)
      | Some user =>
          if negb (existsb (String.eqb (us_Role user)) (rr_Roles rule))
          then Ret (http_Error "Forbidden" 403)
          else if rr_ClusterWide rule && negb (ClusterWide (Some user))
          then Ret (http_Error "Forbidden" 403)
          else next r
      end
  end.

Definition NamespaceFromPath (path : string) : string :=
  match path_segments path with
  | api :: _ :: kind :: ns :: _ =>
      if (api =s "api") && ((kind =s "gameservers") || (kind =s "gameserverfleets"))
      then ns else ""
  | _ => ""
  end.

Definition NamespaceGuard : Middleware_t := λ next r,
  let ns := NamespaceFromPath (rq_Path r) in
  if ns =s "" then next r
  else
    match GetUser r with
    | None => next r
    | Some user =>
        if negb (AllowsNamespace (Some user) ns) then Ret (http_Error "Forbidden" 403)
        else next r
    end.

(** ** Lemmas *)

Lemma match_segments_spec ps ss :
  match_segments ps ss = true ↔
  Forall2 (λ p s, if is_template p then s ≠ "" else p = s) ps ss.
Proof.
  revert ss. induction ps as [|p ps IH]; intros [|s ss]; cbn [match_segments].
  - done.
  - split; [done|]. intros H; inversion H.
  - split; [done|]. intros H; inversion H.
  - destruct (is_template p) eqn:Ep.
    + destruct (String.eqb_spec s "") as [->|Hs].
      * split; [done|]. intros H. inversion H; subst. rewrite Ep in *. done.
      * rewrite IH. split; intros H; [constructor; [by rewrite Ep|done]|by inversion H].
    + destruct (String.eqb_spec p s) as [->|Hs]; cbn [negb].
      * rewrite IH. split; intros H; [constructor; [by rewrite Ep|done]|by inversion H].
      * split; [done|]. intros H. inversion H; subst. rewrite Ep in *. done.
Qed.

Lemma trim_right_last P a c : P c = false → trim_right P (a +:+ String c "") = a +:+ String c "".
Proof.
  intros Hc. induction a as [|d a IH]; simpl; [by rewrite Hc|].
  rewrite IH. by destruct a.
Qed.

(** A segment of a request path: neither empty nor with a slash in it. *)
Definition segment (s : string) : Prop := s ≠ "" ∧ no_char "/" s = true.
#[export] Instance segment_dec s : Decision (segment s).
Proof. unfold segment. apply _. Defined.
Definition path_of (segs : list string) : string := "/" +:+ Join "/" segs.

Lemma no_char_last d c s a :
  no_char c s = true → s = a +:+ String d "" → Ascii.eqb c d = false.
Proof.
  intros H ->. revert H. unfold no_char. induction a as [|x a IH]; simpl.
  - rewrite andb_true_r, negb_true_iff. by rewrite Ascii.eqb_sym.
  - rewrite andb_true_iff. intros [_ H]. by apply IH.
Qed.

Lemma string_last s : s ≠ "" → ∃ a d, s = a +:+ String d "".
Proof.
  induction s as [|c s IH]; [done|]. intros _. destruct s as [|d s].
  - by exists "", c.
  - destruct IH as (a & x & ->); [done|]. by exists (String c a), x.
Qed.

Lemma Join_last l :
  l ≠ [] → Forall segment l →
  ∃ a d, Join "/" l = a +:+ String d "" ∧ Ascii.eqb "/" d = false.
Proof.
  intros Hne Hl. induction Hl as [|s l [Hs Hc] Hl IH]; [done|].
  destruct l as [|s' l].
  - destruct (string_last s Hs) as (a & d & ->). exists a, d.
    split; [done|]. by eapply no_char_last.
  - destruct IH as (a & d & He & Hd); [done|].
    exists (s +:+ "/" +:+ a), d. split; [|done].
    change (Join "/" (s :: s' :: l)) with (s +:+ "/" +:+ Join "/" (s' :: l)).
    rewrite He. by rewrite !str_app_assoc.
Qed.

Lemma path_segments_path_of segs :
  segs ≠ [] → Forall segment segs → path_segments (path_of segs) = segs.
Proof.
  intros Hne Hs. unfold path_segments, path_of, TrimChar, trim.
  destruct (Join_last segs Hne Hs) as (a & d & He & Hd).
  assert (trim_left (Ascii.eqb "/") ("/" +:+ Join "/" segs) = Join "/" segs) as ->.
  { cbn. destruct segs as [|s segs]; [done|]. inversion Hs as [|? ? [Hse Hsc] _]; subst.
    destruct s as [|c s]; [done|]. unfold no_char in Hsc; cbn [str_forall] in Hsc.
    apply andb_true_iff in Hsc as [Hc%negb_true_iff _]. rewrite Ascii.eqb_sym in Hc.
    destruct segs; cbn [Join append trim_left]; by rewrite Hc. }
  rewrite He, trim_right_last by done. rewrite <-He.
  apply Split_Join; [done|]. eapply Forall_impl; [done|]. by intros ? [].
Qed.

(** A template matches a path exactly when both have the same number of
    segments, and each literal segment of the template is that of the path. *)
Lemma MatchPath_path_of pats segs :
  pats ≠ [] → segs ≠ [] → Forall segment pats → Forall segment segs →
  MatchPath (path_of pats) (path_of segs) = match_segments pats segs.
Proof.
  intros ? ? ? Hs. unfold MatchPath. rewrite !path_segments_path_of by done.
  destruct (Nat.eqb_spec (length pats) (length segs)) as [|Hl]; [done|]. cbn [negb].
  destruct (match_segments pats segs) eqn:Hm; [|done].
  apply match_segments_spec, Forall2_length in Hm. done.
Qed.

(** [MatchPath] on clean paths (slash-separated, non-empty segments): the
    template [pats] matches the path [segs] iff they have as many segments and
    every segment of the template that is not a parameter in braces equals the
    path's segment; a parameter matches any segment. *)
Theorem MatchPath_correct pats segs :
  pats ≠ [] → segs ≠ [] → Forall segment pats → Forall segment segs →
  MatchPath (path_of pats) (path_of segs) = true ↔
  Forall2 (λ p s, is_template p = true ∨ p = s) pats segs.
Proof.
  intros Hp Hs Hps Hss. rewrite MatchPath_path_of, match_segments_spec by done.
  split; intros H.
  - eapply Forall2_impl; [exact H|]. intros p s. cbn. destruct (is_template p); auto.
  - clear Hp Hs Hps. induction H as [|p s ps ss Hp H IH]; [constructor|].
    inversion_clear Hss as [|? ? [Hse _] Hss']. constructor; [|by apply IH].
    destruct (is_template p); [done|]. by destruct Hp.
Qed.

(** ** The access policy *)

(** What [DefaultRules] says, read off the path's segments: the roles allowed,
    and whether the caller must be cluster-wide; [None] where any
    authenticated caller may pass. *)
Definition policy (method : string) (segs : list string) : option (list string * bool) :=
  let fleetkind k := k =s "gameserverfleets" in
  let serverkind k := k =s "gameservers" in
  match segs with
  | api :: v1 :: kind :: rest =>
      if negb ((api =s "api") && (v1 =s "v1")) then None
      else
        match rest with
        | [] => if kind =s "apikeys" then Some (["admin"], true) else None
        | [ns] =>
            if kind =s "apikeys" then Some (["admin"], true)
            else if (serverkind kind || fleetkind kind) && (method =s "POST")
            then Some (["admin"], false) else None
        | [ns; name] =>
            if negb (serverkind kind || fleetkind kind) then None
            else if method =s "DELETE" then Some (["admin"], false)
            else if method =s "PATCH" then Some (["operator"; "admin"], false)
            else None
        | [ns; name; sub] =>
            if negb (serverkind kind) then None
            else if (method =s "GET") && ((sub =s "console") || (sub =s "sftp"))
                    || (method =s "POST") && (sub =s "snapshots")
            then Some (["operator"; "admin"], false) else None
        | [ns; name; sub; action] =>
            if serverkind kind && (sub =s "actions") && (method =s "POST")
            then Some (["operator"; "admin"], false) else None
        | _ => None
        end
  | _ => None
  end.

Definition enforce (required : option (list string * bool)) : Middleware_t := λ next r,
  match required with
  | None => next r
  | Some (roles, cluster) =>
      match rq_User r with
      | None => Ret (http_Error "Unauthorized" 401)
      | Some u =>
          if bool_decide (us_Role u ∈ roles) && (negb cluster || bool_decide (us_Namespaces u = []))
          then next r else Ret (http_Error "Forbidden" 403)
      end
  end.

Definition rule_policy (rule : RouteRule) : list string * bool := (rr_Roles rule, rr_ClusterWide rule).

Lemma existsb_eqb_in x l : existsb (String.eqb x) l = bool_decide (x ∈ l).
Proof.
  destruct (bool_decide_reflect (x ∈ l)) as [H|H].
  - apply existsb_exists. exists x. split; [by apply list_elem_of_In|apply String.eqb_refl].
  - apply not_true_iff_false. intros (y & Hy & ->%String.eqb_eq)%existsb_exists.
    by apply H, list_elem_of_In.
Qed.

Lemma RouteGuard_enforce rules next r :
  RouteGuard rules next r = enforce (rule_policy <$> find_first (rule_applies r) rules) next r.
Proof.
  unfold RouteGuard. destruct (find_first _ rules) as [rule|]; [|done]. cbn.
  unfold GetUser. destruct (rq_User r) as [u|]; [|done].
  rewrite existsb_eqb_in. unfold ClusterWide.
  destruct (bool_decide (us_Role u ∈ _)), (rr_ClusterWide rule);
    by try destruct (bool_decide (us_Namespaces u = [])).
Qed.

Lemma rule_applies_segs r rl pats segs :
  rr_Pattern rl = path_of pats → pats ≠ [] → Forall segment pats →
  rq_Path r = path_of segs → segs ≠ [] → Forall segment segs →
  rule_applies r rl
  = ((rr_Method rl =s "*") || (rr_Method rl =s rq_Method r)) && match_segments pats segs.
Proof.
  intros Hp Hne Hps Hr Hse Hss. unfold rule_applies. rewrite Hp, Hr.
  by rewrite MatchPath_path_of.
Qed.

Lemma find_first_ext {A} (f g : A → bool) l :
  (∀ x, x ∈ l → f x = g x) → find_first f l = find_first g l.
Proof.
  intros H. induction l as [|x l IH]; [done|]. cbn [find_first].
  rewrite (H x) by apply list_elem_of_here.
  rewrite IH; [done|]. intros y Hy. apply H. by apply list_elem_of_further.
Qed.

Lemma DefaultRules_policy r segs :
  segs ≠ [] → Forall segment segs → rq_Path r = path_of segs →
  rule_policy <$> find_first (rule_applies r) DefaultRules = policy (rq_Method r) segs.
Proof.
  intros Hne Hs Hr.
  assert (∀ rl, rl ∈ DefaultRules →
    rule_applies r rl = ((rr_Method rl =s "*") || (rr_Method rl =s rq_Method r))
                        && match_segments (path_segments (rr_Pattern rl)) segs) as Ha.
  { intros rl Hrl. apply (rule_applies_segs r rl (path_segments (rr_Pattern rl)) segs); try done.
    all: revert rl Hrl; apply Forall_forall; decided. }
  rewrite (find_first_ext _ _ _ Ha). clear Ha. unfold DefaultRules, rule.
  cbn [find_first rr_Method rr_Pattern].
  repeat match goal with |- context [path_segments ?p] =>
    let x := eval vm_compute in (path_segments p) in change (path_segments p) with x end.
  generalize (rq_Method r) as m. intros m. clear Hr Hne.
  do 8 try (destruct segs as [|? segs]); cbn [match_segments].
  all: repeat match goal with |- context [is_template ?p] =>
    let x := eval vm_compute in (is_template p) in change (is_template p) with x end.
  all: repeat match goal with H : Forall segment (_ :: _) |- _ => inversion_clear H as [|? ? [] ?] end.
  all: cbn [policy negb].
  all: repeat match goal with
    | H : ?s ≠ "" |- context [String.eqb ?s ""] => rewrite (proj2 (String.eqb_neq s "") H)
    end.
  all: repeat match goal with
    | |- context [String.eqb ?x ?p] => is_var x; rewrite (String.eqb_sym x p)
    end.
  all: try reflexivity.
  all: repeat match goal with |- context [String.eqb ?p ?x] =>
         is_var x; let E := fresh in destruct (String.eqb p x) eqn:E;
         try apply String.eqb_eq in E; try subst x; cbn [andb orb negb]; try reflexivity end.
Qed.

(** C31: under [DefaultRules] the route guard enforces exactly [policy]: on
    every clean path, each method needs the roles (and the cluster-wide scope)
    the policy names for it; a request without a user gets 401, one whose role
    or scope does not fit gets 403, neither reaching the handler, and every
    other request is passed on unchanged. *)
Theorem RouteGuard_policy next r segs :
  segs ≠ [] → Forall segment segs → rq_Path r = path_of segs →
  RouteGuard DefaultRules next r = enforce (policy (rq_Method r) segs) next r.
Proof. intros. by rewrite RouteGuard_enforce, (DefaultRules_policy r segs). Qed.

(** ** The namespace guard *)

Lemma NamespaceFromPath_path_of segs :
  segs ≠ [] → Forall segment segs →
  NamespaceFromPath (path_of segs) =
  match segs with
  | api :: _ :: kind :: ns :: _ =>
      if (api =s "api") && ((kind =s "gameservers") || (kind =s "gameserverfleets"))
      then ns else ""
  | _ => ""
  end.
Proof. intros. unfold NamespaceFromPath. by rewrite path_segments_path_of. Qed.

(** Whether the guard lets the request's user into the namespace its path names. *)
Definition ns_permitted (r : Request) (ns : string) : Prop :=
  AllowsNamespace (GetUser r) ns = true.

(** A request for a namespace outside the caller's allowed set is answered
    with 403 without running the handler. *)
Lemma NamespaceGuard_path_of next r api v kind ns rest :
  Forall segment (api :: v :: kind :: ns :: rest) →
  rq_Path r = path_of (api :: v :: kind :: ns :: rest) →
  NamespaceGuard next r =
  if (api =s "api") && ((kind =s "gameservers") || (kind =s "gameserverfleets"))
     && negb (AllowsNamespace (GetUser r) ns)
  then Ret (http_Error "Forbidden" 403) else next r.
Proof.
  intros Hs Hr. unfold NamespaceGuard. rewrite Hr, NamespaceFromPath_path_of by done.
  destruct (_ && (_ || _)); [|done].
  rewrite !Forall_cons in Hs. destruct Hs as (_ & _ & _ & [Hn _] & _).
  rewrite (proj2 (String.eqb_neq _ _) Hn). cbn [andb].
  destruct (GetUser r) as [u|]; [done|]. done.
Qed.

(** ** Roles *)

(** [role] is the role called [name] or one it extends. *)
Inductive inherits (roles : gmap string Role) : string → Role → Prop :=
  | inherits_self name role : roles !! name = Some role → inherits roles name role
  | inherits_from name role ancestor :
      roles !! name = Some role → ro_Extends role ≠ "" →
      inherits roles (ro_Extends role) ancestor → inherits roles name ancestor.

(** Some permission of the role names the resource (or "*") and the verb (or "*"). *)
Definition grants (role : Role) (resource verb : string) : Prop :=
  ∃ p, p ∈ ro_Permissions role ∧ (pm_Resource p = resource ∨ pm_Resource p = "*")
       ∧ ∃ v, v ∈ pm_Verbs p ∧ (v = verb ∨ v = "*").

Lemma direct_permission_spec role resource verb :
  direct_permission role resource verb = true ↔ grants role resource verb.
Proof.
  assert (∀ v, (v =s verb) || (v =s "*") = true ↔ v = verb ∨ v = "*") as Hv.
  { intros v. by rewrite orb_true_iff, !String.eqb_eq. }
  unfold direct_permission, grants. rewrite existsb_elem_of.
  setoid_rewrite andb_true_iff. setoid_rewrite orb_true_iff.
  setoid_rewrite String.eqb_eq. setoid_rewrite existsb_elem_of. setoid_rewrite Hv.
  naive_solver.
Qed.

(** A rank that every inheritance step lowers: there is no cycle. *)
Definition acyclic (roles : gmap string Role) (rank : string → nat) : Prop :=
  ∀ name role, roles !! name = Some role → ro_Extends role ≠ "" →
  is_Some (roles !! ro_Extends role) → (rank (ro_Extends role) < rank name)%nat.

Lemma HasPermission_returns roles rank resource verb name fuel :
  acyclic roles rank → (S (rank name) < fuel)%nat →
  HasPermission fuel roles name resource verb ≠ None.
Proof.
  intros Ha. revert name. induction fuel as [|fuel IH]; intros name Hf; [lia|].
  cbn [HasPermission]. unfold GetRole. destruct (roles !! name) as [role|] eqn:E; [|done].
  destruct (String.eqb_spec (ro_Extends role) "") as [_|Hx]; cbn [negb]; [done|].
  enough (HasPermission fuel roles (ro_Extends role) resource verb ≠ None) as H.
  { by destruct (HasPermission fuel _ _ _ _) as [[]|]. }
  destruct (roles !! ro_Extends role) as [parent|] eqn:Ep.
  - apply IH. specialize (Ha name role E Hx (mk_is_Some _ _ Ep)). lia.
  - destruct fuel as [|fuel]; [lia|]. cbn [HasPermission]. unfold GetRole. by rewrite Ep.
Qed.

Lemma HasPermission_spec fuel roles name resource verb b :
  HasPermission fuel roles name resource verb = Some b →
  b = true ↔ ∃ role, inherits roles name role ∧ grants role resource verb.
Proof.
  revert name b. induction fuel as [|fuel IH]; intros name b; [done|].
  cbn [HasPermission]. unfold GetRole. destruct (roles !! name) as [role|] eqn:E.
  2:{ intros [= <-]. split; [done|]. intros (role & Hi & _). inversion Hi; simplify_eq. }
  assert (∀ a, inherits roles name a ↔
    a = role ∨ (ro_Extends role ≠ "" ∧ inherits roles (ro_Extends role) a)) as Hinh.
  { intros a. split.
    - intros Hi. inversion Hi; simplify_eq; auto.
    - intros [->|[??]]; [by apply inherits_self|by eapply inherits_from]. }
  setoid_rewrite Hinh.
  destruct (String.eqb_spec (ro_Extends role) "") as [Hx|Hx]; cbn [negb].
  - intros [= <-]. rewrite direct_permission_spec. naive_solver.
  - destruct (HasPermission fuel roles (ro_Extends role) resource verb) as [[]|] eqn:Er;
      intros ?; simplify_eq; apply IH in Er.
    + naive_solver.
    + rewrite direct_permission_spec. naive_solver.
Qed.

(** A role that extends itself is never decided: the recursion does not end. *)
Lemma HasPermission_cyclic fuel roles name role resource verb :
  roles !! name = Some role → ro_Extends role = name → name ≠ "" →
  HasPermission fuel roles name resource verb = None.
Proof.
  intros E Hx Hn. induction fuel as [|fuel IH]; [done|].
  cbn [HasPermission]. unfold GetRole. rewrite E, Hx.
  rewrite (proj2 (String.eqb_neq _ _) Hn). cbn [negb]. by rewrite IH.
Qed.

(** [HasPermission] decides inheritance: on a role table without
    inheritance cycles it returns, and says yes exactly when the role or one it
    extends, directly or through others, has a permission naming the resource
    and the verb (or "*"); a role that extends itself makes it recurse without
    end. *)
Theorem HasPermission_correct roles rank resource verb :
  acyclic roles rank →
  (∀ name, ∃ b, HasPermission (rank name + 2) roles name resource verb = Some b
     ∧ (b = true ↔ ∃ role, inherits roles name role ∧ grants role resource verb))
  ∧ (∀ name role, ro_Name role = name → ro_Extends role = name → name ≠ "" →
     ∀ fuel, HasPermission fuel (RegisterRole role roles) name resource verb = None).
Proof.
  intros Ha. split.
  - intros name.
    pose proof (HasPermission_returns roles rank resource verb name (rank name + 2) Ha ltac:(lia)) as H.
    destruct (HasPermission _ _ _ _ _) as [b|] eqn:E; [|done].
    exists b. split; [done|]. by eapply HasPermission_spec.
  - intros name role Hn Hx Hne fuel. apply (HasPermission_cyclic _ _ _ role); [|done..].
    unfold RegisterRole. rewrite Hn. by rewrite lookup_insert_eq.
Qed.

(** ** [contains]: the scan finds a substring wherever it is *)

Lemma containsAt_spec s sub :
  containsAt s sub = true ↔ ∃ a b, s = a +:+ sub +:+ b.
Proof.
  unfold containsAt. rewrite existsb_elem_of. split.
  - intros (i & Hi & He%String.eqb_eq). exists (str_take i s), (str_drop (String.length sub) (str_drop i s)).
    rewrite <-He at 1. by rewrite str_take_drop, str_take_drop.
  - intros (a & b & ->). exists (String.length a). split.
    + apply elem_of_seq. rewrite !str_length_app. lia.
    + rewrite str_drop_app, str_take_app. apply String.eqb_refl.
Qed.

Lemma contains_Contains s sub : contains s sub = Contains s sub.
Proof.
  apply eq_true_iff_eq. rewrite Contains_spec. unfold contains.
  rewrite andb_true_iff, orb_true_iff, andb_true_iff, containsAt_spec,
    String.eqb_eq, Nat.leb_le, Nat.ltb_lt.
  split; [intros [_ [->|[_ ?]]]; [exists "", ""; by rewrite str_app_nil_r|done]|].
  intros (a & b & ->). rewrite !str_length_app. split; [lia|].
  destruct (decide (a +:+ sub +:+ b = sub)) as [|Hne]; [by left|right].
  split; [|by exists a, b]. destruct a, sub, b; simpl; try lia; done.
Qed.

(** ** Witnesses *)



Lemma MatchPath_correct_witness :
  MatchPath "/api/v1/gameservers/{namespace}" "/api/v1/gameservers/default" = true
  ∧ MatchPath "/api/v1/gameservers/{namespace}" "/api/v1/gameservers/default/gs1" = false.
Proof.
  split.
  - apply (proj2 (MatchPath_correct ["api"; "v1"; "gameservers"; "{namespace}"]
      ["api"; "v1"; "gameservers"; "default"] ltac:(discriminate) ltac:(discriminate)
      ltac:(decided) ltac:(decided))).
    repeat apply Forall2_cons_2; try (right; reflexivity); [left; reflexivity|apply Forall2_nil_2].
  - destruct (MatchPath _ _) eqn:E; [|reflexivity].
    apply (proj1 (MatchPath_correct ["api"; "v1"; "gameservers"; "{namespace}"]
      ["api"; "v1"; "gameservers"; "default"; "gs1"] ltac:(discriminate) ltac:(discriminate)
      ltac:(decided) ltac:(decided))) in E.
    apply Forall2_length in E. discriminate E.
Defined.

Definition ex_viewer : User := {|
  us_ID := "v"; us_Username := "v"; us_Email := ""; us_Role := "viewer"; us_Source := "apikey";
  us_Namespaces := [] |}.

Lemma RouteGuard_policy_witness :
  RouteGuard DefaultRules ex_ok
    (ex_request "DELETE" "/api/v1/gameservers/default/gs1" "" (Some ex_viewer))
  = Ret (http_Error "Forbidden" 403).
Proof.
  exact (RouteGuard_policy ex_ok
    (ex_request "DELETE" "/api/v1/gameservers/default/gs1" "" (Some ex_viewer))
    ["api"; "v1"; "gameservers"; "default"; "gs1"] ltac:(discriminate)
    ltac:(decided) eq_refl).
Defined.

(** The ranks of the three built-in roles. *)
Definition builtin_rank (name : string) : nat :=
  if name =s "admin" then 2 else if name =s "operator" then 1 else 0.

Lemma builtin_acyclic : acyclic roleMap builtin_rank.
Proof.
  intros name role Hr. unfold roleMap in Hr.
  repeat (apply lookup_insert_Some in Hr as [[<- <-]|[_ Hr]]; [intros Hx _; first [by destruct Hx | vm_compute; lia]|]).
  apply lookup_singleton_Some in Hr as [<- <-]. intros Hx _; first [by destruct Hx | vm_compute; lia].
Qed.

Lemma HasPermission_correct_witness :
  ∃ b, HasPermission 4 roleMap "admin" "gameservers" "get" = Some b ∧ b = true.
Proof.
  destruct (proj1 (HasPermission_correct roleMap builtin_rank "gameservers" "get"
    builtin_acyclic) "admin") as (b & Hb & _).
  exists b. split; [exact Hb|]. vm_compute in Hb. congruence.
Defined.
