(* ===== verification/Operator.v ===== *)
(** * Operator: the operator's process ([cmd/operator/main.go])

    The flags, the options of the manager, what [main] registers with it and in
    which order, the readiness checks, and the [SetupWithManager] of each
    controller and webhook.  Building and starting the manager, the
    environment and the file system are calls ([mop], [sysop]); the result of
    [operator_main] is the exit status of the process.  The flags the logging library adds are
    the class [ZapFlags]. *)

From Stdlib Require Import Ascii String.
From S2P Require Import Prelude GoStrings Prog Api Kube Builder GameServerCtl.
#[local] Open Scope Z_scope.

(** ** Command line flags ([package flag]) *)

(** What the flags of [main] are stored in. *)
Record Flags := {
  metricsAddr : string;
  probeAddr : string;
  enableLeaderElection : bool;
  secureMetrics : bool;
  webhookCertPath : string;
  webhookCertName : string;
  webhookCertKey : string;
  metricsCertPath : string;
  metricsCertName : string;
  metricsCertKey : string;
  enableHTTP2 : bool;
  disableWebhooks : bool;
}.

Definition default_flags : Flags := {|
  metricsAddr := "0"; probeAddr := ":8081"; enableLeaderElection := true; secureMetrics := true;
  webhookCertPath := ""; webhookCertName := "tls.crt"; webhookCertKey := "tls.key";
  metricsCertPath := ""; metricsCertName := "tls.crt"; metricsCertKey := "tls.key";
  enableHTTP2 := false; disableWebhooks := false |}.

(** [strconv.ParseBool] *)
Definition ParseBool (s : string) : option bool :=
  if existsb (String.eqb s) ["1"; "t"; "T"; "TRUE"; "true"; "True"] then Some true
  else if existsb (String.eqb s) ["0"; "f"; "F"; "FALSE"; "false"; "False"] then Some false
  else None.

(** How a flag takes its value. *)
Inductive flag_var :=
| BoolVar (set : bool → Flags → Flags)
| StringVar (set : string → Flags → Flags)
(** a flag of the logging library: whether it is a boolean, and the values it takes *)
| ZapVar (is_bool : bool) (accepts : string → bool).

Definition set_metricsAddr v f := {|
  metricsAddr := v; probeAddr := probeAddr f; enableLeaderElection := enableLeaderElection f;
  secureMetrics := secureMetrics f; webhookCertPath := webhookCertPath f;
  webhookCertName := webhookCertName f; webhookCertKey := webhookCertKey f;
  metricsCertPath := metricsCertPath f; metricsCertName := metricsCertName f;
  metricsCertKey := metricsCertKey f; enableHTTP2 := enableHTTP2 f; disableWebhooks := disableWebhooks f |}.
Definition set_probeAddr v f := {|
  metricsAddr := metricsAddr f; probeAddr := v; enableLeaderElection := enableLeaderElection f;
  secureMetrics := secureMetrics f; webhookCertPath := webhookCertPath f;
  webhookCertName := webhookCertName f; webhookCertKey := webhookCertKey f;
  metricsCertPath := metricsCertPath f; metricsCertName := metricsCertName f;
  metricsCertKey := metricsCertKey f; enableHTTP2 := enableHTTP2 f; disableWebhooks := disableWebhooks f |}.
Definition set_webhookCert (path name key : string) f := {|
  metricsAddr := metricsAddr f; probeAddr := probeAddr f; enableLeaderElection := enableLeaderElection f;
  secureMetrics := secureMetrics f; webhookCertPath := path; webhookCertName := name;
  webhookCertKey := key; metricsCertPath := metricsCertPath f; metricsCertName := metricsCertName f;
  metricsCertKey := metricsCertKey f; enableHTTP2 := enableHTTP2 f; disableWebhooks := disableWebhooks f |}.
Definition set_metricsCert (path name key : string) f := {|
  metricsAddr := metricsAddr f; probeAddr := probeAddr f; enableLeaderElection := enableLeaderElection f;
  secureMetrics := secureMetrics f; webhookCertPath := webhookCertPath f;
  webhookCertName := webhookCertName f; webhookCertKey := webhookCertKey f;
  metricsCertPath := path; metricsCertName := name; metricsCertKey := key;
  enableHTTP2 := enableHTTP2 f; disableWebhooks := disableWebhooks f |}.
Definition set_switches (leader secure http2 nohooks : bool) f := {|
  metricsAddr := metricsAddr f; probeAddr := probeAddr f; enableLeaderElection := leader;
  secureMetrics := secure; webhookCertPath := webhookCertPath f;
  webhookCertName := webhookCertName f; webhookCertKey := webhookCertKey f;
  metricsCertPath := metricsCertPath f; metricsCertName := metricsCertName f;
  metricsCertKey := metricsCertKey f; enableHTTP2 := http2; disableWebhooks := nohooks |}.

Class ZapFlags := zap_flag : string → option (bool * (string → bool)).

Section Flags.
Context `{Hzap : !ZapFlags}.

(** [flag.CommandLine.Lookup] *)
Definition lookup_flag (name : string) : option flag_var :=
  if name =s "metrics-bind-address" then Some (StringVar set_metricsAddr)
  else if name =s "health-probe-bind-address" then Some (StringVar set_probeAddr)
  else if name =s "leader-elect" then
    Some (BoolVar (λ b f, set_switches b (secureMetrics f) (enableHTTP2 f) (disableWebhooks f) f))
  else if name =s "metrics-secure" then
    Some (BoolVar (λ b f, set_switches (enableLeaderElection f) b (enableHTTP2 f) (disableWebhooks f) f))
  else if name =s "webhook-cert-path" then
    Some (StringVar (λ v f, set_webhookCert v (webhookCertName f) (webhookCertKey f) f))
  else if name =s "webhook-cert-name" then
    Some (StringVar (λ v f, set_webhookCert (webhookCertPath f) v (webhookCertKey f) f))
  else if name =s "webhook-cert-key" then
    Some (StringVar (λ v f, set_webhookCert (webhookCertPath f) (webhookCertName f) v f))
  else if name =s "metrics-cert-path" then
    Some (StringVar (λ v f, set_metricsCert v (metricsCertName f) (metricsCertKey f) f))
  else if name =s "metrics-cert-name" then
    Some (StringVar (λ v f, set_metricsCert (metricsCertPath f) v (metricsCertKey f) f))
  else if name =s "metrics-cert-key" then
    Some (StringVar (λ v f, set_metricsCert (metricsCertPath f) (metricsCertName f) v f))
  else if name =s "enable-http2" then
    Some (BoolVar (λ b f, set_switches (enableLeaderElection f) (secureMetrics f) b (disableWebhooks f) f))
  else if name =s "disable-webhooks" then
    Some (BoolVar (λ b f, set_switches (enableLeaderElection f) (secureMetrics f) (enableHTTP2 f) b f))
  else match zap_flag name with Some (b, accepts) => Some (ZapVar b accepts) | None => None end.

(** Why parsing did not succeed: the process ends with status 0 after the
    usage was asked for, 2 otherwise. *)
Inductive parse_end := HelpAsked | BadFlag.

Definition is_bool_flag (v : flag_var) : bool :=
  match v with BoolVar _ => true | ZapVar b _ => b | StringVar _ => false end.

Definition set_flag (v : flag_var) (value : string) (f : Flags) : Flags + parse_end :=
  match v with
  | BoolVar set => match ParseBool value with Some b => inl (set b f) | None => inr BadFlag end
  | StringVar set => inl (set value f)
  | ZapVar _ accepts => if accepts value then inl f else inr BadFlag
  end.

(** An argument as a flag: its name and, after ["="], its value; [None] ends
    the flags. *)
Definition split_flag (s : string) : option ((string * option string) + parse_end) :=
  if ((String.length s <? 2)%nat || negb (HasPrefix s "-"))%bool then None
  else if s =s "--" then None
  else
    let name := if HasPrefix s "--" then str_drop 2 s else str_drop 1 s in
    if HasPrefix name "-" || HasPrefix name "=" then Some (inr BadFlag)
    else match Cut name "=" with
         | Some (n, v) => Some (inl (n, Some v))
         | None => Some (inl (name, None))
         end.

(** [flag.Parse] *)
Fixpoint parse_flags (args : list string) (f : Flags) : Flags + parse_end :=
  match args with
  | [] => inl f
  | s :: args =>
      match split_flag s with
      | None => inl f
      | Some (inr e) => inr e
      | Some (inl (name, value)) =>
          match lookup_flag name with
          | None => inr (if (name =s "help") || (name =s "h") then HelpAsked else BadFlag)
          | Some v =>
              let set value := set_flag v value f in
              match value, is_bool_flag v with
              | Some value, _ =>
                  match set value with inl f => parse_flags args f | inr e => inr e end
              | None, true =>
                  match set "true" with inl f => parse_flags args f | inr e => inr e end
              | None, false =>
                  match args with
                  | [] => inr BadFlag
                  | value :: args =>
                      match set value with inl f => parse_flags args f | inr e => inr e end
                  end
              end
          end
      end
  end.

End Flags.

(** ** Readiness checks *)

(** A check may look at the file system. *)
Inductive sysop : Type → Type :=
| Stat (path : string) : sysop (option gerr).
Abbreviation Checker := (prog sysop (option gerr)).

(** [healthz.Ping] *)
Definition Ping : Checker := Ret None.

Fixpoint combineReadinessChecks (checkers : list Checker) : Checker :=
  match checkers with
  | [] => Ret None
  | checker :: checkers =>
      let* e := checker in
      match e with Some err => Ret (Some err) | None => combineReadinessChecks checkers end
  end.

(** [path.Clean], the segments kept in reverse *)
Fixpoint clean_segments (rooted : bool) (segs kept : list string) : list string :=
  match segs with
  | [] => rev kept
  | s :: segs =>
      if (s =s "") || (s =s ".") then clean_segments rooted segs kept
      else if s =s ".." then
        match kept with
        | top :: kept' =>
            if top =s ".." then clean_segments rooted segs (".." :: kept)
            else clean_segments rooted segs kept'
        | [] => clean_segments rooted segs (if rooted then [] else [".."])
        end
      else clean_segments rooted segs (s :: kept)
  end.
Definition Clean (p : string) : string :=
  if p =s "" then "."
  else if HasPrefix p "/" then "/" +:+ Join "/" (clean_segments true (Split "/" p) [])
  else match clean_segments false (Split "/" p) [] with [] => "." | segs => Join "/" segs end.

(** [filepath.Join] of two elements: empty ones are dropped in front. *)
Definition filepath_Join (dir name : string) : string :=
  if dir =s "" then (if name =s "" then "" else Clean name) else Clean (dir +:+ "/" +:+ name).

Definition webhookCertReadinessChecker (certDir certName : string) : Checker :=
  let certPath := filepath_Join certDir certName in
  let* e := call (Stat certPath) in
  Ret (match e with
       | Some err => Some (wrapf ("webhook certificate not ready at " +:+ certPath) err)
       | None => None
       end).

(** ** The manager *)

Record CertFiles := { cert_Dir : string; cert_Name : string; cert_Key : string }.

(** [metricsserver.Options]: [ms_HTTP1] is whether its TLS options hold
    [disableHTTP2], [ms_Filtered] whether it authenticates and authorizes. *)
Record MetricsOptions := {
  ms_BindAddress : string;
  ms_SecureServing : bool;
  ms_HTTP1 : bool;
  ms_Filtered : bool;
  ms_Cert : option CertFiles;
}.
(** [webhook.Options] *)
Record WebhookOptions := { wh_HTTP1 : bool; wh_Cert : option CertFiles }.

Record ManagerOptions := {
  mgr_Metrics : MetricsOptions;
  mgr_WebhookServer : option WebhookOptions;
  mgr_HealthProbeBindAddress : string;
  mgr_LeaderElection : bool;
  mgr_LeaderElectionID : string;
}.

Definition webhook_options (f : Flags) : option WebhookOptions :=
  if disableWebhooks f then None
  else Some {|
    wh_HTTP1 := negb (enableHTTP2 f);
    wh_Cert := if (0 <? String.length (webhookCertPath f))%nat
               then Some {| cert_Dir := webhookCertPath f; cert_Name := webhookCertName f;
                            cert_Key := webhookCertKey f |}
               else None |}.

Definition metrics_options (f : Flags) : MetricsOptions := {|
  ms_BindAddress := metricsAddr f;
  ms_SecureServing := secureMetrics f;
  ms_HTTP1 := negb (enableHTTP2 f);
  ms_Filtered := secureMetrics f;
  ms_Cert := if (0 <? String.length (metricsCertPath f))%nat
             then Some {| cert_Dir := metricsCertPath f; cert_Name := metricsCertName f;
                          cert_Key := metricsCertKey f |}
             else None |}.

Definition manager_options (f : Flags) : ManagerOptions := {|
  mgr_Metrics := metrics_options f;
  mgr_WebhookServer := webhook_options f;
  mgr_HealthProbeBindAddress := probeAddr f;
  mgr_LeaderElection := enableLeaderElection f;
  mgr_LeaderElectionID := "c0f56da2.minato.io" |}.

(** The reconcilers of the program. *)
Inductive Reconciler :=
| RGameServer (r : GameServerReconciler)
| RActionExecution
(** with its event recorder *)
| RGameServerFleet (recorder : bool)
| RGameSnapshot.

Inductive Validator := VGameServer | VGameProfile.

(** A registration with the manager.  [For] is the kind whose changes are
    reconciled, [Owns] the kinds whose changes reconcile their owner. *)
Inductive Registration :=
| RegController (For : kind) (Owns : list kind) (r : Reconciler)
| RegCleanup
| RegWebhook (For : kind) (v : Validator)
| RegHealthz (name : string) (check : Checker)
| RegReadyz (name : string) (check : Checker).

Inductive mop : Type → Type :=
| AddToScheme (group : string) : mop (option gerr)
| Getenv (key : string) : mop string
(** [ctrl.GetConfigOrDie], [ctrl.NewManager], [mgr.Start] *)
| GetConfig : mop (option gerr)
| NewManager (o : ManagerOptions) : mop (option gerr)
| Register_ (r : Registration) : mop (option gerr)
| StartManager : mop (option gerr).
Abbreviation Main := (prog mop).

(** *** [SetupWithManager] *)

Definition GameServer_SetupWithManager (r : GameServerReconciler) : Main (option gerr) :=
  call (Register_ (RegController KGameServer [KSts; KPvc; KSvc] (RGameServer r))).
Definition ActionExecution_SetupWithManager : Main (option gerr) :=
  call (Register_ (RegController KExec [] RActionExecution)).
Definition Cleanup_SetupWithManager : Main (option gerr) := call (Register_ RegCleanup).
Definition GameServerFleet_SetupWithManager (recorder : bool) : Main (option gerr) :=
  call (Register_ (RegController KFleet [KGameServer] (RGameServerFleet recorder))).
Definition GameSnapshot_SetupWithManager : Main (option gerr) :=
  call (Register_ (RegController KSnap [] RGameSnapshot)).
Definition GameServer_SetupWebhookWithManager : Main (option gerr) :=
  call (Register_ (RegWebhook KGameServer VGameServer)).
Definition GameProfile_SetupWebhookWithManager : Main (option gerr) :=
  call (Register_ (RegWebhook KGameProfile VGameProfile)).

(** *** [main] *)

(** [if err != nil { ...; os.Exit(1) }] *)
Definition or_exit (m : Main (option gerr)) (k : Main Z) : Main Z :=
  let* e := m in match e with Some _ => Ret 1 | None => k end.
Notation "m |;; k" := (or_exit m k) (at level 100, right associativity).

(** [utilruntime.Must] *)
Definition Must (m : Main (option gerr)) : Main unit :=
  let* e := m in match e with Some err => Panic (ge_msg err) | None => Ret tt end.
Definition operator_init : Main unit :=
  Must (call (AddToScheme "client-go")) ;;;
  Must (call (AddToScheme "operator.minato.io/v1")) ;;;
  Must (call (AddToScheme "monitoring.coreos.com/v1")).

Definition pullSecrets (v : string) : list string :=
  if v <>s "" then filter (λ name, name ≠ "") (TrimSpace <$> Split "," v) else [].

Definition default_cert_dir : string := "/tmp/k8s-webhook-server/serving-certs".
Definition readinessChecks (f : Flags) : list Checker :=
  Ping :: (if disableWebhooks f then []
           else let certDir := if webhookCertPath f =s "" then default_cert_dir else webhookCertPath f in
                [webhookCertReadinessChecker certDir (webhookCertName f)]).

Definition register_webhooks (f : Flags) (k : Main Z) : Main Z :=
  if disableWebhooks f then k
  else
    GameServer_SetupWebhookWithManager |;;
    GameProfile_SetupWebhookWithManager |;; k.

Definition operator_run (f : Flags) : Main Z :=
  call GetConfig |;;
  call (NewManager (manager_options f)) |;;
  let* v := call (Getenv "IMAGE_PULL_SECRETS") in
  let* ns := call (Getenv "POD_NAMESPACE") in
  let* zone := call (Getenv "EXTERNAL_DNS_ZONE") in
  (GameServer_SetupWithManager {|
     gsr_OperatorNamespace := ns; gsr_ImagePullSecrets := pullSecrets v;
     gsr_ExternalDNSZone := zone; gsr_Recorder := true |} |;;
   ActionExecution_SetupWithManager |;;
   Cleanup_SetupWithManager |;;
   GameServerFleet_SetupWithManager true |;;
   GameSnapshot_SetupWithManager |;;
   register_webhooks f (
   call (Register_ (RegHealthz "healthz" Ping)) |;;
   call (Register_ (RegReadyz "readyz" (combineReadinessChecks (readinessChecks f)))) |;;
   call StartManager |;; Ret 0)).

Section Main.
Context `{Hzap : !ZapFlags}.

Definition operator_main (args : list string) : Main Z :=
  operator_init ;;;
  match parse_flags args default_flags with
  | inr HelpAsked => Ret 0
  | inr BadFlag => Ret 2
  | inl f => operator_run f
  end.

End Main.

(** ** Lemmas *)

Lemma runs_or_exit (m : Main (option gerr)) k t code :
  runs (or_exit m k) t (Done code) →
  (∃ e, runs m t (Done (Some e)) ∧ code = 1) ∨
  (∃ t1 t2, t = t1 ++ t2 ∧ runs m t1 (Done None) ∧ runs k t2 (Done code)).
Proof.
  intros (e & t1 & t2 & -> & Hm & Hk)%runs_bind_Done. destruct e as [err|].
  - destruct Hk as [-> [= ->]]. left. exists err. by rewrite app_nil_r.
  - right. by exists t1, t2.
Qed.

(** A call that answers an error. *)
Definition failed (ev : event mop) : Prop :=
  match ev with
  | @Ev _ X e x =>
      match e in mop X return X → Prop with
      | Getenv _ => λ _, False
      | _ => λ x, x ≠ None
      end x
  end.
(** The registrations the manager took. *)
Definition registered (t : list (event mop)) : list Registration :=
  omap (λ ev, match ev with
              | @Ev _ X e x => match e in mop X return X → option Registration with
                               | Register_ r => λ x, match x with None => Some r | _ => None end
                               | _ => λ _, None
                               end x
              end) t.
Definition started (t : list (event mop)) : Prop := ∃ x, Ev StartManager x ∈ t.

Lemma registered_app t1 t2 : registered (t1 ++ t2) = registered t1 ++ registered t2.
Proof. apply omap_app. Qed.

(** One step of [main]: the call is answered and, unless it fails, [main] goes on. *)
Lemma runs_call_exit (e : mop (option gerr)) k t code :
  runs (or_exit (call e) k) t (Done code) →
  (∃ err, t = [Ev e (Some err)] ∧ code = 1) ∨
  (∃ t', t = Ev e None :: t' ∧ runs k t' (Done code)).
Proof.
  intros [(err & (x & t' & -> & [-> [= <-]]) & ->)|(t1 & t2 & -> & (x & t' & -> & [-> [= <-]]) & Hk)]%runs_or_exit.
  - left. by exists err.
  - right. by exists t2.
Qed.

(** What a run of [k], the rest of [main], does: register [rs] and start, or
    stop at the first call that fails. *)
Definition completes (rs : list Registration) (k : Main Z) : Prop :=
  ∀ t code, runs k t (Done code) →
  (started t → registered t = rs) ∧
  (code = 0 ∨ code = 1) ∧
  (code = 0 → last t = Some (Ev StartManager None)) ∧
  (∀ ev, ev ∈ t → failed ev → last t = Some ev ∧ code = 1).

Lemma completes_start : completes [] (call StartManager |;; Ret 0).
Proof.
  intros t code [(err & -> & ->)|(t' & -> & [-> [= ->]])]%runs_call_exit.
  - split_and!; [done|auto|done|]. intros ev ->%list_elem_of_singleton. done.
  - split_and!; [done|auto|done|]. intros ev ->%list_elem_of_singleton. done.
Qed.

Lemma completes_call e k rs rs' :
  (∀ x t, registered (Ev e x :: t) = (match x with None => rs' | _ => [] end) ++ registered t) →
  (∀ x, ¬ started [Ev e x]) → (∀ x, failed (Ev e x) ↔ x ≠ None) →
  completes rs k → completes (rs' ++ rs) (call e |;; k).
Proof.
  intros Hreg Hst Hfail Hk t code [(err & -> & ->)|(t' & -> & Hr)]%runs_call_exit.
  - split_and!; [by intros ?%Hst|auto|done|]. intros ev ->%list_elem_of_singleton. done.
  - destruct (Hk t' code Hr) as (H1 & H2 & H3 & H4). split_and!.
    + intros [x [Hx|Hx]%elem_of_cons].
      * destruct (Hst None). exists x. rewrite Hx. left.
      * rewrite Hreg, H1; [done|by exists x].
    + done.
    + intros Hc. by rewrite last_cons, (H3 Hc).
    + intros ev [->|Hin]%elem_of_cons Hev; [by apply Hfail in Hev|].
      destruct (H4 ev Hin Hev) as [Hl ->]. split; [|done]. by rewrite last_cons, Hl.
Qed.

Lemma completes_register r k rs : completes rs k → completes (r :: rs) (call (Register_ r) |;; k).
Proof.
  apply (completes_call _ _ rs [r]).
  - by intros [] t.
  - intros x [y Hy%list_elem_of_singleton]. done.
  - by intros [].
Qed.

Lemma completes_silent e k rs :
  (∀ x t, registered (Ev e x :: t) = registered t) → (∀ x, ¬ started [Ev e x]) →
  (∀ x, failed (Ev e x) ↔ x ≠ None) → completes rs k → completes rs (call e |;; k).
Proof.
  intros Hreg Hst Hfail. apply (completes_call _ _ rs []); [|done..].
  intros [] t; by rewrite Hreg.
Qed.

(** What the operator is to register, in order. *)
Definition registrations (f : Flags) (r : GameServerReconciler) : list Registration :=
  [RegController KGameServer [KSts; KPvc; KSvc] (RGameServer r);
   RegController KExec [] RActionExecution; RegCleanup;
   RegController KFleet [KGameServer] (RGameServerFleet true);
   RegController KSnap [] RGameSnapshot]
  ++ (if disableWebhooks f then [] else [RegWebhook KGameServer VGameServer; RegWebhook KGameProfile VGameProfile])
  ++ [RegHealthz "healthz" Ping; RegReadyz "readyz" (combineReadinessChecks (readinessChecks f))].

Definition environment_reconciler (v ns zone : string) : GameServerReconciler := {|
  gsr_OperatorNamespace := ns; gsr_ImagePullSecrets := pullSecrets v;
  gsr_ExternalDNSZone := zone; gsr_Recorder := true |}.

Lemma setup_completes f r :
  completes (registrations f r)
    (GameServer_SetupWithManager r |;; ActionExecution_SetupWithManager |;;
     Cleanup_SetupWithManager |;; GameServerFleet_SetupWithManager true |;;
     GameSnapshot_SetupWithManager |;;
     register_webhooks f (
     call (Register_ (RegHealthz "healthz" Ping)) |;;
     call (Register_ (RegReadyz "readyz" (combineReadinessChecks (readinessChecks f)))) |;;
     call StartManager |;; Ret 0)).
Proof.
  unfold registrations, register_webhooks. cbn [app].
  repeat apply completes_register.
  destruct (disableWebhooks f); cbn [app]; repeat apply completes_register; apply completes_start.
Qed.

(** Silent calls that succeeded, in front of a run. *)
Definition quiet (t : list (event mop)) : Prop :=
  registered t = [] ∧ ¬ started t ∧ ∀ ev, ev ∈ t → ¬ failed ev.

Lemma quiet_app t1 t2 : quiet t1 → quiet t2 → quiet (t1 ++ t2).
Proof.
  intros (R1 & S1 & F1) (R2 & S2 & F2). split_and!.
  - by rewrite registered_app, R1, R2.
  - intros [x [Hx|Hx]%elem_of_app]; [apply S1|apply S2]; by exists x.
  - intros ev [Hx|Hx]%elem_of_app; auto.
Qed.

Lemma quiet_init t : runs operator_init t (Done tt) → quiet t.
Proof.
  assert (∀ g t, runs (Must (call (AddToScheme g))) t (Done tt) → quiet t) as H.
  { intros g t' (x & t1 & t2 & -> & (y & t3 & -> & [-> [= ->]]) & Hr)%runs_bind_Done.
    destruct y as [err|]; [by destruct Hr as [_ ?]|]. destruct Hr as [-> _]. split_and!; [done| |].
    - intros [z Hz%list_elem_of_singleton]. done.
    - intros ev ->%list_elem_of_singleton Hf. by apply Hf. }
  intros ([] & t1 & t2 & -> & H1 & ([] & t3 & t4 & -> & H2 & H3)%runs_bind_Done)%runs_bind_Done.
  repeat apply quiet_app; eauto.
Qed.

Lemma completes_after rs k t1 t2 code : quiet t1 → completes rs k → runs k t2 (Done code) →
  (started (t1 ++ t2) → registered (t1 ++ t2) = rs) ∧
  (code = 0 ∨ code = 1) ∧
  (code = 0 → last (t1 ++ t2) = Some (Ev StartManager None)) ∧
  (∀ ev, ev ∈ t1 ++ t2 → failed ev → last (t1 ++ t2) = Some ev ∧ code = 1).
Proof.
  intros (R1 & S1 & F1) Hk Hr. destruct (Hk t2 code Hr) as (H1 & H2 & H3 & H4). split_and!.
  - intros [x [Hx|Hx]%elem_of_app]; [destruct S1; by exists x|].
    rewrite registered_app, R1. apply H1. by exists x.
  - done.
  - intros Hc. by rewrite last_app, (H3 Hc).
  - intros ev [Hx|Hx]%elem_of_app Hf; [by destruct (F1 ev Hx)|].
    destruct (H4 ev Hx Hf) as [Hl ->]. by rewrite last_app, Hl.
Qed.

Lemma quiet_nil : quiet [].
Proof. split_and!; [done|by intros [x Hx%elem_of_nil]|by intros ev Hev%elem_of_nil]. Qed.

Lemma not_started ev : match ev with @Ev _ _ StartManager _ => False | _ => True end → ¬ started [ev].
Proof. intros H [x Hx%list_elem_of_singleton]. by subst ev. Qed.

Lemma quiet_cons ev t : registered [ev] = [] → ¬ started [ev] → ¬ failed ev → quiet t → quiet (ev :: t).
Proof.
  intros Hr Hs Hf. apply (quiet_app [ev]). split_and!; [done..|].
  by intros ev' ->%list_elem_of_singleton.
Qed.
Ltac quiet_calls :=
  repeat (apply quiet_cons;
          [reflexivity|by apply not_started|by (intros Hf; apply Hf) || by intros []|]);
  exact quiet_nil.

(** [operator_run] fails early, or gets as far as the set-up. *)
Lemma operator_run_runs f t code : runs (operator_run f) t (Done code) →
  (∃ t1 ev, t = t1 ++ [ev] ∧ quiet t1 ∧ failed ev ∧ registered [ev] = [] ∧ ¬ started [ev] ∧ code = 1) ∨
  (∃ v ns zone t2 k,
     let t1 := [Ev GetConfig None; Ev (NewManager (manager_options f)) None;
                Ev (Getenv "IMAGE_PULL_SECRETS") v; Ev (Getenv "POD_NAMESPACE") ns;
                Ev (Getenv "EXTERNAL_DNS_ZONE") zone] in
     t = t1 ++ t2 ∧ completes (registrations f (environment_reconciler v ns zone)) k ∧
     runs k t2 (Done code)).
Proof.
  intros [(err & -> & ->)|(t1 & -> & [(err & -> & ->)|(t2 & -> & H)]%runs_call_exit)]%runs_call_exit.
  - left. exists [], (Ev GetConfig (Some err)).
    split_and!; [done|exact quiet_nil|done|done|by apply not_started|done].
  - left. exists [Ev GetConfig None], (Ev (NewManager (manager_options f)) (Some err)).
    split_and!; [done|quiet_calls|done|done|by apply not_started|done].
  - destruct H as (v & t3 & -> & ns & t4 & -> & zone & t5 & -> & H). right.
    exists v, ns, zone, t5. eexists. split_and!; [done|apply setup_completes|exact H].
Qed.

Section Theorems.
Context `{Hzap : !ZapFlags}.

(** The runs of the process, in terms of the parsed flags. *)
Lemma operator_main_runs args t code :
  runs (operator_main args) t (Done code) →
  match parse_flags args default_flags with
  | inr e => ¬ started t ∧ registered t = [] ∧ code = match e with HelpAsked => 0 | BadFlag => 2 end
  | inl f =>
      (code = 0 ∨ code = 1) ∧
      (code = 0 → last t = Some (Ev StartManager None)) ∧
      (∀ ev, ev ∈ t → failed ev → last t = Some ev ∧ code = 1) ∧
      (started t →
       Ev (NewManager (manager_options f)) None ∈ t ∧
       ∃ v ns zone, Ev (Getenv "IMAGE_PULL_SECRETS") v ∈ t ∧ Ev (Getenv "POD_NAMESPACE") ns ∈ t ∧
         Ev (Getenv "EXTERNAL_DNS_ZONE") zone ∈ t ∧
         registered t = registrations f (environment_reconciler v ns zone))
  end.
Proof.
  intros ([] & t0 & t' & -> & Hi%quiet_init & Hm)%runs_bind_Done.
  destruct (parse_flags args default_flags) as [f|e].
  - apply operator_run_runs in Hm as [(t1 & ev & -> & Hq & Hf & Hr & Hs & ->)|(v & ns & zone & t2 & k & Hm)].
    + rewrite app_assoc. pose proof (quiet_app _ _ Hi Hq) as (R & S & F). split_and!; [auto|done| |].
      * intros ev' [He| ->%list_elem_of_singleton]%elem_of_app Hf'; [by destruct (F ev' He)|].
        by rewrite last_snoc.
      * intros [x [Hx|Hx]%elem_of_app]; [destruct S|destruct Hs]; by exists x.
    + destruct Hm as (-> & Hk & Hr). set (t1 := [_; _; _; _; _]). rewrite app_assoc.
      assert (Hq : quiet (t0 ++ t1)) by (apply quiet_app; [exact Hi|quiet_calls]).
      destruct (completes_after _ _ (t0 ++ t1) t2 code Hq Hk Hr) as (H1 & H2 & H3 & H4).
      split_and!; [exact H2|exact H3|exact H4|]. intros Hst. split; [set_solver|].
      exists v, ns, zone. split_and!; [set_solver..|by apply H1].
  - destruct Hi as (R & S & F). destruct e; destruct Hm as [-> [= ->]];
      rewrite app_nil_r; split_and!; done.
Qed.

(** *** Flags change what they name *)

(** [s] is the flag [n] *)
Definition names_flag (n s : string) : bool :=
  match split_flag s with Some (inl (n', _)) => n' =s n | _ => false end.

(** A projection of the flags that only the flag [n] changes. *)
Definition changed_by {A} (proj : Flags → A) (n : string) : Prop :=
  ∀ name v value f f', lookup_flag name = Some v → name ≠ n →
  set_flag v value f = inl f' → proj f' = proj f.

Lemma parse_flags_keeps {A} (proj : Flags → A) n args f f' :
  changed_by proj n → (∀ s, s ∈ args → names_flag n s = false) →
  parse_flags args f = inl f' → proj f' = proj f.
Proof.
  intros Hch. revert f. induction args as [args IH] using (induction_ltof1 _ length).
  unfold ltof in IH. destruct args as [|s args]; intros f Hn; cbn [parse_flags]; [by intros [= ->]|].
  destruct (split_flag s) as [[[name value]|e]|] eqn:Es; [|done|by intros [= ->]].
  destruct (lookup_flag name) as [v|] eqn:Ev; [|done].
  assert (name ≠ n) as Hne.
  { intros ->. specialize (Hn s ltac:(left)). unfold names_flag in Hn. rewrite Es in Hn.
    by rewrite String.eqb_refl in Hn. }
  assert (∀ args' value' f1, length args' < length (s :: args) → (∀ s, s ∈ args' → s ∈ args) →
            set_flag v value' f = inl f1 → parse_flags args' f1 = inl f' → proj f' = proj f)%nat as Hset.
  { intros args' value' f1 Hl Hsub Hs Hp. rewrite (IH args' Hl f1) by (first [exact Hp|set_solver]).
    by eapply Hch. }
  destruct value as [value|]; [|destruct (is_bool_flag v)].
  - destruct (set_flag v value f) as [f1|] eqn:Hs; [|done]. by apply (Hset args value); [cbn; lia|..].
  - destruct (set_flag v "true" f) as [f1|] eqn:Hs; [|done]. by apply (Hset args "true"); [cbn; lia|..].
  - destruct args as [|value args]; [done|].
    destruct (set_flag v value f) as [f1|] eqn:Hs; [|done].
    apply (Hset args value); [cbn; lia|set_solver|done].
Qed.

(** Every flag, by its name. *)
Lemma lookup_flag_keeps {A} (proj : Flags → A) n :
  (∀ v f, n ≠ "metrics-bind-address" → proj (set_metricsAddr v f) = proj f) →
  (∀ v f, n ≠ "health-probe-bind-address" → proj (set_probeAddr v f) = proj f) →
  (∀ b f, n ≠ "leader-elect" → proj (set_switches b (secureMetrics f) (enableHTTP2 f) (disableWebhooks f) f) = proj f) →
  (∀ b f, n ≠ "metrics-secure" → proj (set_switches (enableLeaderElection f) b (enableHTTP2 f) (disableWebhooks f) f) = proj f) →
  (∀ b f, n ≠ "enable-http2" → proj (set_switches (enableLeaderElection f) (secureMetrics f) b (disableWebhooks f) f) = proj f) →
  (∀ b f, n ≠ "disable-webhooks" → proj (set_switches (enableLeaderElection f) (secureMetrics f) (enableHTTP2 f) b f) = proj f) →
  (∀ p c k f, proj (set_webhookCert p c k f) = proj f) →
  (∀ p c k f, proj (set_metricsCert p c k f) = proj f) →
  changed_by proj n.
Proof.
  intros H1 H2 H3 H4 H5 H6 H7 H8 name v value f f' Hl Hne. unfold lookup_flag in Hl.
  repeat match type of Hl with
  | (if ?x =s ?y then _ else _) = _ =>
      destruct (String.eqb_spec x y); [subst; injection Hl as <-; cbn [set_flag]|]
  end.
  all: try (intros [= <-]; by auto).
  all: try (destruct (ParseBool value); [|done]; intros [= <-]; by auto).
  destruct (zap_flag name) as [[b accepts]|]; [|done]. injection Hl as <-. cbn [set_flag].
  destruct (accepts value); [|done]. by intros [= <-].
Qed.

(** *the operator is secure unless told otherwise.*  Whatever the other
    arguments: without an argument for [metrics-secure] the metrics are served
    over TLS to authorized callers only; without one for [enable-http2] both
    servers refuse HTTP/2; without one for [disable-webhooks] the admission
    webhooks are served and readiness waits for their certificate; and without
    one for [leader-elect] only one replica is active. *)
Theorem secure_by_default args f :
  parse_flags args default_flags = inl f →
  let absent n := ∀ s, s ∈ args → names_flag n s = false in
  (absent "metrics-secure" →
     ms_SecureServing (mgr_Metrics (manager_options f)) = true
     ∧ ms_Filtered (mgr_Metrics (manager_options f)) = true) ∧
  (absent "enable-http2" →
     ms_HTTP1 (mgr_Metrics (manager_options f)) = true
     ∧ ∀ w, mgr_WebhookServer (manager_options f) = Some w → wh_HTTP1 w = true) ∧
  (absent "disable-webhooks" →
     is_Some (mgr_WebhookServer (manager_options f))
     ∧ (∀ r, RegWebhook KGameServer VGameServer ∈ registrations f r
             ∧ RegWebhook KGameProfile VGameProfile ∈ registrations f r)
     ∧ length (readinessChecks f) = 2%nat) ∧
  (absent "leader-elect" → mgr_LeaderElection (manager_options f) = true).
Proof.
  intros Hp absent.
  assert (∀ (proj : Flags → bool) n, changed_by proj n → absent n → proj f = proj default_flags) as Hkeep.
  { intros proj n Hch Hab. by apply (parse_flags_keeps proj n args). }
  split_and!; intros Hab.
  - pose proof (Hkeep secureMetrics "metrics-secure" ltac:(by apply lookup_flag_keeps) Hab) as He.
    by split.
  - pose proof (Hkeep enableHTTP2 "enable-http2" ltac:(by apply lookup_flag_keeps) Hab) as He. cbn in He.
    cbn. unfold webhook_options. rewrite He. split; [done|]. intros w. destruct (disableWebhooks f); [done|].
    by intros [= <-].
  - pose proof (Hkeep disableWebhooks "disable-webhooks" ltac:(by apply lookup_flag_keeps) Hab) as He. cbn in He.
    cbn. unfold webhook_options, readinessChecks, registrations. rewrite He. split_and!; [done| |done].
    intros r. split; [apply (list_elem_of_lookup_2 _ 5)|apply (list_elem_of_lookup_2 _ 6)]; reflexivity.
  - exact (Hkeep enableLeaderElection "leader-elect" ltac:(by apply lookup_flag_keeps) Hab).
Qed.

(** *** Readiness *)

(** The operator is ready, with webhooks, exactly when their certificate can be
    read; the answer then names the file. *)
Lemma readiness_runs f t o :
  runs (combineReadinessChecks (readinessChecks f)) t o →
  if disableWebhooks f then t = [] ∧ o = Done None
  else ∃ x r, o = Done r ∧ t = [Ev (Stat (filepath_Join (if webhookCertPath f =s "" then default_cert_dir else webhookCertPath f)
                                         (webhookCertName f))) x]
              ∧ (r = None ↔ x = None).
Proof.
  unfold readinessChecks. destruct (disableWebhooks f); cbn [combineReadinessChecks Ping bind].
  - by intros [-> ->].
  - unfold webhookCertReadinessChecker. cbn [bind call]. intros (x & t' & -> & Hr). exists x.
    destruct x as [err|]; destruct Hr as [-> ->]; by eexists.
Qed.

(** *** The command line, read by the names of its flags *)

(** A switch may stand without a value; the logging library has its own. *)
Definition is_switch (n : string) : bool :=
  if decide (n ∈ ["leader-elect"; "metrics-secure"; "enable-http2"; "disable-webhooks"]) then true
  else if decide (n ∈ ["metrics-bind-address"; "health-probe-bind-address"; "webhook-cert-path";
                       "webhook-cert-name"; "webhook-cert-key"; "metrics-cert-path";
                       "metrics-cert-name"; "metrics-cert-key"]) then false
  else match zap_flag n with Some (b, _) => b | None => false end.

(** The flags given, with their values, up to the first argument that is none. *)
Fixpoint settings (args : list string) : list (string * string) :=
  match args with
  | [] => []
  | s :: args =>
      match split_flag s with
      | Some (inl (n, Some v)) => (n, v) :: settings args
      | Some (inl (n, None)) =>
          if is_switch n then (n, "true") :: settings args
          else match args with v :: args => (n, v) :: settings args | [] => [] end
      | _ => []
      end
  end.

(** The last of several settings of a flag counts. *)
Fixpoint last_setting (n : string) (l : list (string * string)) : option string :=
  match l with
  | [] => None
  | (n', v) :: l =>
      match last_setting n l with
      | Some v => Some v
      | None => if n' =s n then Some v else None
      end
  end.
Definition asked (args : list string) (n default_value : string) : string :=
  default default_value (last_setting n (settings args)).
Definition asked_switch (args : list string) (n : string) (default_value : bool) : bool :=
  match last_setting n (settings args) with
  | Some v => default default_value (ParseBool v)
  | None => default_value
  end.

Lemma is_switch_lookup n v : lookup_flag n = Some v → is_bool_flag v = is_switch n.
Proof.
  unfold lookup_flag. intros Hl.
  repeat match type of Hl with
  | (if ?x =s ?y then _ else _) = _ =>
      destruct (String.eqb_spec x y) as [->|?]; [injection Hl as <-; reflexivity|]
  end.
  destruct (zap_flag n) as [[b accepts]|] eqn:Ez; [|done]. injection Hl as <-.
  unfold is_switch. rewrite Ez, !decide_False by (rewrite !elem_of_cons, elem_of_nil; tauto). done.
Qed.

(** [proj] holds what [parse] makes of the value of the flag [n]. *)
Definition holds_setting {A} (proj : Flags → A) (n : string) (parse : string → option A) : Prop :=
  ∀ name v value f f', lookup_flag name = Some v → set_flag v value f = inl f' →
  if name =s n then parse value = Some (proj f') else proj f' = proj f.

Lemma parse_flags_setting {A} (proj : Flags → A) n parse args f f' :
  holds_setting proj n parse → parse_flags args f = inl f' →
  match last_setting n (settings args) with
  | Some value => parse value = Some (proj f')
  | None => proj f' = proj f
  end.
Proof.
  intros Hh. revert f. induction args as [args IH] using (induction_ltof1 _ length).
  unfold ltof in IH. destruct args as [|s args]; intros f; cbn [parse_flags settings]; [by intros [= ->]|].
  destruct (split_flag s) as [[[name value]|e]|] eqn:Es; [|done|by intros [= ->]].
  destruct (lookup_flag name) as [v|] eqn:Ev; [|done].
  assert (∀ args' value' f1, length args' < length (s :: args) →
            set_flag v value' f = inl f1 → parse_flags args' f1 = inl f' →
            match last_setting n ((name, value') :: settings args') with
            | Some value => parse value = Some (proj f')
            | None => proj f' = proj f
            end)%nat as Hset.
  { intros args' value' f1 Hl Hs Hp. specialize (IH args' Hl f1 Hp). cbn [last_setting].
    pose proof (Hh _ _ _ _ _ Ev Hs) as Hn.
    destruct (last_setting n (settings args')); [done|].
    destruct (name =s n); by rewrite IH. }
  rewrite (is_switch_lookup _ _ Ev).
  destruct value as [value|]; [|destruct (is_switch name)].
  - destruct (set_flag v value f) as [f1|] eqn:Hs; [|done]. by apply (Hset args value); [cbn; lia|..].
  - destruct (set_flag v "true" f) as [f1|] eqn:Hs; [|done]. by apply (Hset args "true"); [cbn; lia|..].
  - destruct args as [|value args]; [done|].
    destruct (set_flag v value f) as [f1|] eqn:Hs; [|done].
    by apply (Hset args value); [cbn; lia|..].
Qed.

(** Proves [holds_setting] by going through the flags. *)
Ltac each_flag :=
  let name := fresh "name" in let v := fresh "v" in let value := fresh "value" in
  let f := fresh "f" in let f' := fresh "f'" in let Hl := fresh "Hl" in
  intros name v value f f' Hl; unfold lookup_flag in Hl;
  repeat match type of Hl with
  | (if ?x =s ?y then _ else _) = _ =>
      destruct (String.eqb_spec x y) as [->|?]; [injection Hl as <-; cbn [set_flag]|]
  end;
  try (intros [= <-]; reflexivity);
  try (destruct (ParseBool value) eqn:?; [|done]; intros [= <-]; (reflexivity || done));
  destruct (zap_flag name) as [[? accepts]|]; [|done]; injection Hl as <-; cbn [set_flag];
  destruct (accepts value); [|done]; by intros [= <-].

(** What each field of the flags holds after parsing. *)
Lemma parsed_value (proj : Flags → string) n args f :
  holds_setting proj n Some → parse_flags args default_flags = inl f →
  proj f = asked args n (proj default_flags).
Proof.
  intros Hh Hp. pose proof (parse_flags_setting _ _ _ _ _ _ Hh Hp) as H. unfold asked.
  destruct (last_setting n (settings args)); [by injection H|done].
Qed.
Lemma parsed_switch (proj : Flags → bool) n args f :
  holds_setting proj n ParseBool → parse_flags args default_flags = inl f →
  proj f = asked_switch args n (proj default_flags).
Proof.
  intros Hh Hp. pose proof (parse_flags_setting _ _ _ _ _ _ Hh Hp) as H. unfold asked_switch.
  destruct (last_setting n (settings args)); [by rewrite H|done].
Qed.

(** The options of the manager, by the names of the flags. *)
Definition asked_cert (args : list string) (server : string) : option CertFiles :=
  let dir := asked args (server +:+ "-cert-path") "" in
  if dir =s "" then None
  else Some {| cert_Dir := dir; cert_Name := asked args (server +:+ "-cert-name") "tls.crt";
               cert_Key := asked args (server +:+ "-cert-key") "tls.key" |}.
Definition asked_options (args : list string) : ManagerOptions :=
  let http1 := negb (asked_switch args "enable-http2" false) in
  let secure := asked_switch args "metrics-secure" true in {|
  mgr_Metrics := {|
    ms_BindAddress := asked args "metrics-bind-address" "0";
    ms_SecureServing := secure; ms_HTTP1 := http1; ms_Filtered := secure;
    ms_Cert := asked_cert args "metrics" |};
  mgr_WebhookServer :=
    if asked_switch args "disable-webhooks" false then None
    else Some {| wh_HTTP1 := http1; wh_Cert := asked_cert args "webhook" |};
  mgr_HealthProbeBindAddress := asked args "health-probe-bind-address" ":8081";
  mgr_LeaderElection := asked_switch args "leader-elect" true;
  mgr_LeaderElectionID := "c0f56da2.minato.io" |}.

Lemma length_pos_nonempty s : (0 <? String.length s)%nat = negb (s =s "").
Proof. by destruct s. Qed.

Lemma parsed_flags args f : parse_flags args default_flags = inl f →
  f = {| metricsAddr := asked args "metrics-bind-address" "0";
         probeAddr := asked args "health-probe-bind-address" ":8081";
         enableLeaderElection := asked_switch args "leader-elect" true;
         secureMetrics := asked_switch args "metrics-secure" true;
         webhookCertPath := asked args "webhook-cert-path" "";
         webhookCertName := asked args "webhook-cert-name" "tls.crt";
         webhookCertKey := asked args "webhook-cert-key" "tls.key";
         metricsCertPath := asked args "metrics-cert-path" "";
         metricsCertName := asked args "metrics-cert-name" "tls.crt";
         metricsCertKey := asked args "metrics-cert-key" "tls.key";
         enableHTTP2 := asked_switch args "enable-http2" false;
         disableWebhooks := asked_switch args "disable-webhooks" false |}.
Proof.
  intros Hp.
  assert (∀ p n d, p default_flags = d → holds_setting p n Some → asked args n d = p f) as Hv
    by (intros p n d <- H; symmetry; by apply parsed_value).
  assert (∀ p n d, p default_flags = d → holds_setting p n ParseBool → asked_switch args n d = p f)
    as Hs by (intros p n d <- H; symmetry; by apply parsed_switch).
  rewrite (Hv metricsAddr "metrics-bind-address" "0" eq_refl),
    (Hv probeAddr "health-probe-bind-address" ":8081" eq_refl),
    (Hs enableLeaderElection "leader-elect" true eq_refl),
    (Hs secureMetrics "metrics-secure" true eq_refl),
    (Hv webhookCertPath "webhook-cert-path" "" eq_refl),
    (Hv webhookCertName "webhook-cert-name" "tls.crt" eq_refl),
    (Hv webhookCertKey "webhook-cert-key" "tls.key" eq_refl),
    (Hv metricsCertPath "metrics-cert-path" "" eq_refl),
    (Hv metricsCertName "metrics-cert-name" "tls.crt" eq_refl),
    (Hv metricsCertKey "metrics-cert-key" "tls.key" eq_refl),
    (Hs enableHTTP2 "enable-http2" false eq_refl),
    (Hs disableWebhooks "disable-webhooks" false eq_refl) by each_flag.
  by destruct f.
Qed.

Lemma manager_options_asked args f :
  parse_flags args default_flags = inl f → manager_options f = asked_options args.
Proof.
  intros ->%parsed_flags. unfold manager_options, metrics_options, webhook_options, asked_options, asked_cert.
  cbn [metricsAddr probeAddr enableLeaderElection secureMetrics webhookCertPath webhookCertName
       webhookCertKey metricsCertPath metricsCertName metricsCertKey enableHTTP2 disableWebhooks].
  rewrite !length_pos_nonempty. cbn [append].
  by destruct (asked args "metrics-cert-path" "" =s ""), (asked args "webhook-cert-path" "" =s "").
Qed.

(** C3: *the operator starts complete or not at all.*  Whatever the manager
    answers: the process ends with status 0 or 1 (2 or 0 before anything, when
    the flags do not parse); a call that fails is the last one, and the status
    is then 1.  If the manager is started at all, it was built with the options
    the command line asks for ([asked_options], which reads the arguments by
    the names of the flags: the last setting of a flag counts, and metrics are
    served over TLS to authorized callers and leader election is on unless
    switched off), and it has by then taken, in order, the five controllers
    with the kinds they watch, the server controller with the pull secrets,
    namespace and zone of the environment, both webhooks unless they are
    disabled, and both health checks.  The one for readiness always passes if
    the webhooks are disabled, and otherwise exactly when the webhooks'
    certificate can be read, from the directory asked for or else the manager's
    default one. *)
Theorem operator_starts_complete args t code :
  runs (operator_main args) t (Done code) →
  match parse_flags args default_flags with
  | inr e => ¬ started t ∧ registered t = [] ∧ code = match e with HelpAsked => 0 | BadFlag => 2 end
  | inl _ =>
      (code = 0 ∨ code = 1) ∧
      (code = 0 → last t = Some (Ev StartManager None)) ∧
      (∀ ev, ev ∈ t → failed ev → last t = Some ev ∧ code = 1) ∧
      (started t →
       Ev (NewManager (asked_options args)) None ∈ t ∧
       ∃ v ns zone ready,
         Ev (Getenv "IMAGE_PULL_SECRETS") v ∈ t ∧ Ev (Getenv "POD_NAMESPACE") ns ∈ t ∧
         Ev (Getenv "EXTERNAL_DNS_ZONE") zone ∈ t ∧
         registered t =
           [RegController KGameServer [KSts; KPvc; KSvc] (RGameServer {|
              gsr_OperatorNamespace := ns;
              gsr_ImagePullSecrets := filter (λ name, name ≠ "") (TrimSpace <$> Split "," v);
              gsr_ExternalDNSZone := zone; gsr_Recorder := true |});
            RegController KExec [] RActionExecution; RegCleanup;
            RegController KFleet [KGameServer] (RGameServerFleet true);
            RegController KSnap [] RGameSnapshot]
           ++ (if asked_switch args "disable-webhooks" false then []
               else [RegWebhook KGameServer VGameServer; RegWebhook KGameProfile VGameProfile])
           ++ [RegHealthz "healthz" (Ret None); RegReadyz "readyz" ready] ∧
         ∀ t' o, runs ready t' o →
           if asked_switch args "disable-webhooks" false then t' = [] ∧ o = Done None
           else
             let dir := asked args "webhook-cert-path" "" in
             ∃ x r, o = Done r
               ∧ t' = [Ev (Stat (filepath_Join
                         (if dir =s "" then "/tmp/k8s-webhook-server/serving-certs" else dir)
                         (asked args "webhook-cert-name" "tls.crt"))) x]
               ∧ (r = None ↔ x = None))
  end.
Proof.
  intros H%operator_main_runs. destruct (parse_flags args default_flags) as [f|e] eqn:Hp; [|done].
  destruct H as (H1 & H2 & H3 & H4). split_and!; [done..|]. intros Hst.
  destruct (H4 Hst) as (Ho & v & ns & zone & Hv & Hns & Hz & Hr). clear H1 H2 H3 H4 Hst.
  rewrite (manager_options_asked _ _ Hp) in Ho. split; [done|].
  apply parsed_flags in Hp. exists v, ns, zone, (combineReadinessChecks (readinessChecks f)).
  split_and!; [done..| |].
  - rewrite Hr. unfold registrations, environment_reconciler. f_equal; [|by rewrite Hp].
    unfold pullSecrets. by destruct (String.eqb_spec v "") as [->|].
  - intros t' o Hrun%readiness_runs. by rewrite Hp in Hrun.
Qed.

(** *** Pull secrets *)

Lemma pullSecrets_spec v name :
  name ∈ pullSecrets v ↔ name ≠ "" ∧ ∃ part, part ∈ Split "," v ∧ name = TrimSpace part.
Proof.
  unfold pullSecrets. destruct (String.eqb_spec v "") as [->|Hv]; cbn [negb].
  - cbn. split; [by intros ?%elem_of_nil|].
    intros [Hne (part & ->%list_elem_of_singleton & ->)]. done.
  - rewrite list_elem_of_filter, list_elem_of_fmap. naive_solver.
Qed.

(** *** Two settings that are not what they seem *)

(** A name for the certificate without a directory: the webhook server is not
    told, and reads its own default, while readiness waits for that name. *)
Lemma certificate_name_alone_never_ready :
  match parse_flags ["--webhook-cert-name=server.crt"] default_flags with
  | inl f =>
      mgr_WebhookServer (manager_options f) = Some {| wh_HTTP1 := true; wh_Cert := None |}
      ∧ ∀ t o, runs (combineReadinessChecks (readinessChecks f)) t (Done o) →
          ∃ x, t = [Ev (Stat "/tmp/k8s-webhook-server/serving-certs/server.crt") x]
               ∧ (o = None ↔ x = None)
  | inr _ => False
  end.
Proof.
  split; [reflexivity|]. intros t o H.
  apply (readiness_runs (set_webhookCert "" "server.crt" "tls.key" default_flags)) in H
    as (x & r & [= ->] & -> & H).
  by exists x.
Qed.

(** The chart passes [--leader-elect] when leader election is to be on, and
    nothing when it is to be off; the flag is on by default, so it stays on. *)
Lemma leader_election_always_on port mport f :
  parse_flags ["--health-probe-bind-address=:" +:+ port; "--metrics-bind-address=:" +:+ mport]
    default_flags = inl f →
  mgr_LeaderElection (manager_options f) = true.
Proof.
  intros Hp. cbn in Hp. by injection Hp as <-.
Qed.

End Theorems.

(** ** Witnesses *)

(** A manager that takes everything, in an environment with two pull secrets. *)
#[local] Instance no_zap_flags : ZapFlags := λ _, None.
Definition willing_manager (X : Type) (e : mop X) (s : unit) : X * unit :=
  match e in mop X return X * unit with
  | Getenv key => (if key =s "IMAGE_PULL_SECRETS" then "registry, ,backup " else "minato-system", s)
  | _ => (None, s)
  end.
Definition ex_args : list string := ["--leader-elect"; "-health-probe-bind-address"; ":9000"].

Lemma operator_starts_complete_witness :
  let t := (exec willing_manager (operator_main ex_args) tt).1.1 in
  runs (operator_main ex_args) t (Done 0) ∧ started t ∧
  mgr_HealthProbeBindAddress (asked_options ex_args) = ":9000" ∧
  Ev (NewManager (asked_options ex_args)) None ∈ t ∧ length (registered t) = 9%nat.
Proof.
  cbv zeta. pose proof (exec_result_runs willing_manager (operator_main ex_args) tt) as Hr.
  assert (Hs : started (exec willing_manager (operator_main ex_args) tt).1.1).
  { exists None. apply (list_elem_of_lookup_2 _ 17). reflexivity. }
  split; [exact Hr|]. split; [exact Hs|]. split; [reflexivity|].
  destruct (operator_starts_complete ex_args _ 0 Hr) as (_ & _ & _ & H).
  destruct (H Hs) as (Ho & v & ns & zone & ready & _ & _ & _ & Hreg & _).
  split; [exact Ho|]. rewrite Hreg. reflexivity.
Defined.

Example ex_pull_secrets : pullSecrets "registry, ,backup " = ["registry"; "backup"].
Proof. reflexivity. Qed.

Lemma secure_by_default_witness :
  parse_flags ex_args default_flags = inl (set_probeAddr ":9000" default_flags)
  ∧ ms_Filtered (mgr_Metrics (manager_options (set_probeAddr ":9000" default_flags))) = true.
Proof.
  assert (H : parse_flags ex_args default_flags = inl (set_probeAddr ":9000" default_flags)) by reflexivity.
  split; [exact H|].
  destruct (secure_by_default ex_args _ H) as [Hm _]. apply Hm.
  intros s Hs. repeat (apply elem_of_cons in Hs as [->|Hs]; [reflexivity|]). by apply elem_of_nil in Hs.
Defined.
