(* ===== verification/Tenant.v ===== *)
(** * Tenant: hardening of tenant namespaces at creation
    ([internal/controlplane/tenant/tenant.go])

    The environment is the function [env] ([os.LookupEnv]); quantities are
    parsed by the parameter [ParseQuantity]. *)

From Stdlib Require Import Ascii String.
From S2P Require Import Prelude GoStrings Prog Api Kube.

Definition LabelTenant := "minato.io/tenant".
Definition LabelManagedBy := "app.kubernetes.io/managed-by".
Definition ManagedByValue := "minato-controlplane".
Definition QuotaName := "minato-tenant-quota".
Definition NetworkPolicyName := "minato-tenant-default".
Definition AgentPort : Z := 9876.
Definition defaultMaxServers : Z := 10.
Definition defaultCPU := "8".
Definition defaultMemory := "32Gi".
Definition defaultStorage := "200Gi".
Definition defaultGamePorts := "25565".
Definition defaultControlPlaneNamespace := "minato".
Definition gameServerCountQuotaResource := "count/gameservers.operator.minato.io".

Record TenantConfig := {
  tc_MaxServers : Z;
  tc_CPU : string;
  tc_Memory : string;
  tc_Storage : string;
  tc_GamePorts : list Z;
  tc_ControlPlaneNamespace : string;
}.

(** ** Reading the environment *)

(** The error text of [strconv.Atoi]. *)
Definition atoi_error (s : string) : string :=
  let body :=
    match s with
    | String c r => if Ascii.eqb c "-" || Ascii.eqb c "+" then r else s
    | EmptyString => s
    end in
  "strconv.Atoi: parsing " +:+ fmt_q s +:+
  match digits_nonempty body with
  | Some _ => ": value out of range"
  | None => ": invalid syntax"
  end.

Definition envInt (env : string → option string) (key : string) (fallback : Z) : Z + gerr :=
  match env key with
  | None => inl fallback
  | Some v =>
      let v := TrimSpace v in
      if v =s "" then inl 0
      else
        match Atoi v with
        | None => inr (errorf (key +:+ ": invalid integer " +:+ fmt_q v +:+ ": " +:+ atoi_error v))
        | Some n => inl n
        end
  end.

(** The loop over the comma-separated parts of the port list. *)
Fixpoint parse_ports (key : string) (parts : list string) : list Z + gerr :=
  match parts with
  | [] => inl []
  | part :: parts =>
      let part := TrimSpace part in
      if part =s "" then parse_ports key parts
      else
        match Atoi part with
        | None => inr (errorf (key +:+ ": invalid port " +:+ fmt_q part +:+ ": " +:+ atoi_error part))
        | Some n =>
            if (n <? 1) || (65535 <? n)
            then inr (errorf (key +:+ ": port " +:+ itoa n +:+ " out of range (1-65535)"))
            else
              match parse_ports key parts with
              | inl ports => inl (n :: ports)
              | inr e => inr e
              end
        end
  end.

Definition envPorts (env : string → option string) (key fallback : string) : list Z + gerr :=
  let v := TrimSpace (default fallback (env key)) in
  if v =s "" then inl [] else parse_ports key (Split "," v).

Section Tenant.
Context `{Hqty : !QuantityParser}.

Definition envQuantity (env : string → option string) (key fallback : string) : string + gerr :=
  let v := TrimSpace (default fallback (env key)) in
  if (v =s "") || (v =s "0") then inl ""
  else
    match ParseQuantity v with
    | None => inr (errorf (key +:+ ": invalid quantity " +:+ fmt_q v))
    | Some _ => inl v
    end.

Definition LoadConfig (env : string → option string) : TenantConfig + gerr :=
  let cpns := default "" (env "TENANT_CONTROLPLANE_NAMESPACE") in
  let cpns := if cpns =s "" then defaultControlPlaneNamespace else cpns in
  match envInt env "TENANT_QUOTA_MAX_SERVERS" defaultMaxServers with
  | inr e => inr e
  | inl maxServers =>
      if maxServers <? 0
      then inr (errorf ("TENANT_QUOTA_MAX_SERVERS must be >= 0, got " +:+ itoa maxServers))
      else
        match envQuantity env "TENANT_QUOTA_CPU" defaultCPU with
        | inr e => inr e
        | inl cpu =>
            match envQuantity env "TENANT_QUOTA_MEMORY" defaultMemory with
            | inr e => inr e
            | inl memory =>
                match envQuantity env "TENANT_QUOTA_STORAGE" defaultStorage with
                | inr e => inr e
                | inl storage =>
                    match envPorts env "TENANT_GAME_PORTS" defaultGamePorts with
                    | inr e => inr e
                    | inl ports => inl {|
                        tc_MaxServers := maxServers; tc_CPU := cpu; tc_Memory := memory;
                        tc_Storage := storage; tc_GamePorts := ports;
                        tc_ControlPlaneNamespace := cpns |}
                    end
                end
            end
        end
  end.

Definition withDefaults (c : TenantConfig) : TenantConfig :=
  if (tc_CPU c =s "") && (tc_Memory c =s "") && (tc_Storage c =s "") && (tc_MaxServers c =? 0)
     && bool_decide (tc_GamePorts c = []) && (tc_ControlPlaneNamespace c =s "")
  then {|
    tc_MaxServers := defaultMaxServers; tc_CPU := defaultCPU; tc_Memory := defaultMemory;
    tc_Storage := defaultStorage; tc_GamePorts := [25565];
    tc_ControlPlaneNamespace := defaultControlPlaneNamespace |}
  else if tc_ControlPlaneNamespace c =s "" then {|
    tc_MaxServers := tc_MaxServers c; tc_CPU := tc_CPU c; tc_Memory := tc_Memory c;
    tc_Storage := tc_Storage c; tc_GamePorts := tc_GamePorts c;
    tc_ControlPlaneNamespace := defaultControlPlaneNamespace |}
  else c.

(** ** The objects of a tenant *)

(** [resource.MustParse] panics on what does not parse. *)
Definition MustParse (s : string) : M Quantity :=
  match ParseQuantity s with
  | Some q => Ret q
  | None => Panic ("cannot parse '" +:+ s +:+ "'")
  end.

Definition BuildNamespace (name : string) : Namespace_ := {|
  nsp_Meta := new_meta name "" (Some {[
    LabelTenant := name;
    LabelManagedBy := ManagedByValue;
    "pod-security.kubernetes.io/enforce" := "restricted";
    "pod-security.kubernetes.io/audit" := "restricted";
    "pod-security.kubernetes.io/warn" := "restricted"]}) |}.

Definition tenant_labels (namespace : string) : gomap string :=
  Some {[LabelTenant := namespace; LabelManagedBy := ManagedByValue]}.

(** Adds the parsed constraint under [key], unless it is disabled. *)
Definition hard_quantity (key s : string) (hard : gmap string Quantity)
  : M (gmap string Quantity) :=
  if s <>s "" then let* q := MustParse s in Ret (<[key := q]> hard) else Ret hard.

Definition BuildResourceQuota (namespace : string) (cfg : TenantConfig)
  : M (option ResourceQuota) :=
  let hard : gmap string Quantity :=
    if 0 <? tc_MaxServers cfg
    then {[gameServerCountQuotaResource := tc_MaxServers cfg * nano]} else ∅ in
  let* hard := hard_quantity "requests.cpu" (tc_CPU cfg) hard in
  let* hard := hard_quantity "requests.memory" (tc_Memory cfg) hard in
  let* hard := hard_quantity "requests.storage" (tc_Storage cfg) hard in
  if bool_decide (hard = ∅) then Ret None
  else Ret (Some {|
    rq_Meta := new_meta QuotaName namespace (tenant_labels namespace); rq_Hard := hard |}).

Definition npp (protocol : string) (port : Z) : NetworkPolicyPort :=
  {| npp_Protocol := protocol; npp_Port := port |}.

Definition BuildNetworkPolicy (namespace : string) (cfg : TenantConfig) : NetworkPolicy :=
  let gamePortRules := tc_GamePorts cfg ≫= λ p, [npp "TCP" p; npp "UDP" p] in
  let game := match gamePortRules with
              | [] => []
              | _ => [{| npr_Peers := []; npr_Ports := gamePortRules |}]
              end in
  {| np_Meta := new_meta NetworkPolicyName namespace (tenant_labels namespace);
     np_PodSelector := ∅;
     np_PolicyTypes := ["Ingress"; "Egress"];
     np_Ingress := [
       {| npr_Peers := [namespace]; npr_Ports := [] |};
       {| npr_Peers := [tc_ControlPlaneNamespace cfg]; npr_Ports := [npp "TCP" AgentPort] |}]
       ++ game;
     np_Egress := [
       {| npr_Peers := []; npr_Ports := [npp "UDP" 53; npp "TCP" 53] |};
       {| npr_Peers := []; npr_Ports := [npp "TCP" AgentPort] |}]
       ++ game |}.

Definition EnsureNamespace (namespace : string) (cfg : TenantConfig) : M (option gerr) :=
  let cfg := withDefaults cfg in
  let* found := call (Get KNamespace "" namespace) in
  match found with
  | inl _ => Ret None
  | inr err =>
      if negb (IsNotFound err) then Ret (Some err)
      else
        let* e := call (Create KNamespace (BuildNamespace namespace)) in
        match unless IsAlreadyExists e with
        | Some e => Ret (Some (wrapf "create tenant namespace" e))
        | None =>
            let* quota := BuildResourceQuota namespace cfg in
            let* e := match quota with
                      | Some quota =>
                          let* e := call (Create KQuota quota) in Ret (unless IsAlreadyExists e)
                      | None => Ret None
                      end in
            match e with
            | Some e => Ret (Some (wrapf "create tenant resource quota" e))
            | None =>
                let* e := call (Create KNetpol (BuildNetworkPolicy namespace cfg)) in
                match unless IsAlreadyExists e with
                | Some e => Ret (Some (wrapf "create tenant network policy" e))
                | None => Ret None
                end
            end
        end
  end.

End Tenant.

(** ** What a loaded configuration guarantees *)

Section Theorems.
Context `{Hqty : !QuantityParser}.

(** A quantity setting: disabled, or one that parses. *)
Definition quantity_ok (s : string) : Prop := s = "" ∨ is_Some (ParseQuantity s).

Record config_ok (cfg : TenantConfig) : Prop := {
  ok_MaxServers : 0 <= tc_MaxServers cfg;
  ok_CPU : quantity_ok (tc_CPU cfg);
  ok_Memory : quantity_ok (tc_Memory cfg);
  ok_Storage : quantity_ok (tc_Storage cfg);
  ok_GamePorts : Forall (λ p, 1 <= p <= 65535) (tc_GamePorts cfg);
  ok_ControlPlane : tc_ControlPlaneNamespace cfg ≠ "";
}.

Lemma envQuantity_ok env key fallback s :
  envQuantity env key fallback = inl s → quantity_ok s.
Proof.
  unfold envQuantity, quantity_ok. destruct (_ || _); [intros [= <-]; by left|].
  destruct (ParseQuantity _) eqn:E; [|done]. intros [= <-]. right. by rewrite E.
Qed.

Lemma parse_ports_ok key parts ports :
  parse_ports key parts = inl ports → Forall (λ p, 1 <= p <= 65535) ports.
Proof.
  revert ports. induction parts as [|part parts IH]; intros ports; cbn [parse_ports].
  - intros [= <-]. constructor.
  - destruct (_ =s ""); [apply IH|]. destruct (Atoi _) as [n|]; [|done].
    destruct (Z.ltb_spec n 1), (Z.ltb_spec 65535 n); cbn [orb]; try done.
    destruct (parse_ports key parts) as [l|]; [|done]. intros [= <-].
    constructor; [lia|]. by apply IH.
Qed.

Lemma envPorts_ok env key fallback ports :
  envPorts env key fallback = inl ports → Forall (λ p, 1 <= p <= 65535) ports.
Proof.
  unfold envPorts. destruct (_ =s ""); [intros [= <-]; constructor|]. apply parse_ports_ok.
Qed.

Lemma LoadConfig_ok env cfg : LoadConfig env = inl cfg → config_ok cfg.
Proof.
  unfold LoadConfig. destruct (envInt _ _ _) as [n|]; [|done].
  destruct (Z.ltb_spec n 0); [done|].
  destruct (envQuantity env "TENANT_QUOTA_CPU" _) as [cpu|] eqn:Ec; [|done].
  destruct (envQuantity env "TENANT_QUOTA_MEMORY" _) as [mem|] eqn:Em; [|done].
  destruct (envQuantity env "TENANT_QUOTA_STORAGE" _) as [sto|] eqn:Es; [|done].
  destruct (envPorts _ _ _) as [ports|] eqn:Ep; [|done].
  apply envQuantity_ok in Ec, Em, Es. apply envPorts_ok in Ep.
  intros [= <-]. split; cbn; try done.
  destruct (String.eqb_spec (default "" (env "TENANT_CONTROLPLANE_NAMESPACE")) ""); done.
Qed.

Lemma withDefaults_id cfg : tc_ControlPlaneNamespace cfg ≠ "" → withDefaults cfg = cfg.
Proof.
  intros H. unfold withDefaults. rewrite (proj2 (String.eqb_neq _ _) H).
  by rewrite andb_false_r.
Qed.

(** ** The quota *)

Definition quota_constraint (key s : string) : gmap string Quantity :=
  match ParseQuantity s with
  | Some q => if s =s "" then ∅ else {[key := q]}
  | None => ∅
  end.

(** The constraints of the quota: the server count and the three quantities,
    each when it is enabled. *)
Definition quota_hard (cfg : TenantConfig) : gmap string Quantity :=
  quota_constraint "requests.storage" (tc_Storage cfg)
  ∪ (quota_constraint "requests.memory" (tc_Memory cfg)
     ∪ (quota_constraint "requests.cpu" (tc_CPU cfg)
        ∪ if 0 <? tc_MaxServers cfg
          then {[gameServerCountQuotaResource := tc_MaxServers cfg * nano]} else ∅)).

Definition tenant_quota (ns : string) (cfg : TenantConfig) : option ResourceQuota :=
  if bool_decide (quota_hard cfg = ∅) then None
  else Some {| rq_Meta := new_meta QuotaName ns (tenant_labels ns); rq_Hard := quota_hard cfg |}.

Lemma hard_quantity_ok key s hard :
  quantity_ok s → hard_quantity key s hard = Ret (quota_constraint key s ∪ hard).
Proof.
  intros H. unfold hard_quantity, quota_constraint.
  destruct (String.eqb_spec s "") as [->|Hs]; cbn [negb].
  - destruct (ParseQuantity ""); by rewrite (left_id_L ∅ (∪)).
  - destruct H as [?|[q Hq]]; [done|]. unfold MustParse. rewrite Hq. cbn.
    by rewrite <-insert_union_singleton_l.
Qed.

Lemma BuildResourceQuota_ok ns cfg :
  config_ok cfg → BuildResourceQuota ns cfg = Ret (tenant_quota ns cfg).
Proof.
  intros [? Hc Hm Hs _ _]. unfold BuildResourceQuota.
  rewrite (hard_quantity_ok _ _ _ Hc). cbn [bind].
  rewrite (hard_quantity_ok _ _ _ Hm). cbn [bind].
  rewrite (hard_quantity_ok _ _ _ Hs). cbn [bind].
  unfold tenant_quota. by destruct (bool_decide _).
Qed.

(** ** Provisioning *)

(** Everything a new namespace gets, in the order it is created. *)
Definition hardening (ns : string) (cfg : TenantConfig) : list write :=
  [WCreate KNamespace (BuildNamespace ns)]
  ++ (WCreate KQuota <$> option_list (tenant_quota ns cfg))
  ++ [WCreate KNetpol (BuildNetworkPolicy ns cfg)].

Lemma prefix_app_cut {A} (l1 l2 : list A) : l1 `prefix_of` l1 ++ l2.
Proof. by exists l2. Qed.

(** C32: provisioning, with a configuration the startup accepted. The namespace
    is looked up first; when it exists, or the lookup fails otherwise, nothing
    is written. Otherwise the namespace, the quota (if any constraint is
    enabled) and the network policy are created in this order; the call
    succeeds only after all of them, stops at the first creation that fails
    with anything but "already exists", and never panics on a quantity. *)
Theorem EnsureNamespace_correct env cfg ns t o :
  LoadConfig env = inl cfg → runs (EnsureNamespace ns cfg) t o →
  ∃ found t' r, t = Ev (Get KNamespace "" ns) found :: t' ∧ o = Done r ∧
  match found with
  | inl _ => r = None ∧ t' = []
  | inr e =>
      if IsNotFound e
      then writes t' `prefix_of` hardening ns cfg ∧ (r = None → writes t' = hardening ns cfg)
           ∧ (is_Some r → writes t' ≠ [])
      else r = Some e ∧ t' = []
  end.
Proof.
  intros Hcfg%LoadConfig_ok H. unfold EnsureNamespace in H.
  rewrite withDefaults_id in H by apply Hcfg.
  destruct H as (found & t' & -> & H). exists found, t'. cbn [call bind] in H.
  destruct found as [x|e]; [destruct H as [-> ->]; by exists None|].
  destruct (IsNotFound e); cbn [negb] in H; [|destruct H as [-> ->]; by exists (Some e)].
  destruct H as (e1 & t1 & -> & H). unfold hardening. cbn [writes omap list_omap ev_write write_of].
  cbn [call bind] in H. destruct (unless _ e1) as [e1'|].
  { destruct H as [-> ->]. eexists; split; [done|]; split; [done|].
    split; [apply (prefix_app_cut [_])|]. done. }
  rewrite (BuildResourceQuota_ok ns cfg Hcfg) in H. cbn [call bind] in H.
  destruct (tenant_quota ns cfg) as [q|]; cbn [option_list fmap list_fmap].
  1: destruct H as (e2 & t2 & -> & H); cbn [call bind] in H;
     destruct (unless _ e2) as [e2'|];
     [destruct H as [-> ->]; eexists; split; [done|]; split; [done|];
      split; [apply (prefix_app_cut [_; _])|]; done|].
  all: cbn [call bind] in H; destruct H as (e3 & t3 & -> & H); cbn [call bind] in H;
       destruct (unless _ e3) as [e3'|]; destruct H as [-> ->];
       eexists; (split; [done|]; split; [done|]; split; [done|done]).
Qed.

(** The create calls of a provisioning that stops at the quota are not
    repeated: the next request for the namespace finds it and succeeds, and
    the namespace never gets a quota or a network policy. *)
Lemma interrupted_provisioning cfg ns e q found :
  config_ok cfg → tenant_quota ns cfg = Some q → IsAlreadyExists e = false →
  ∃ t, runs (let* e1 := EnsureNamespace ns cfg in
             let* e2 := EnsureNamespace ns cfg in Ret (e1, e2)) t
            (Done (Some (wrapf "create tenant resource quota" e), None))
  ∧ (Ev (Create KQuota q) (Some e)) ∈ t
  ∧ (Ev (Get KNamespace "" ns) (inl found)) ∈ t
  ∧ ∀ p, WCreate KNetpol p ∉ writes t.
Proof.
  intros Hcfg Hq He.
  set (nf := {| ge_reason := RNotFound; ge_msg := "" |}).
  exists [Ev (Get KNamespace "" ns) (inr nf); Ev (Create KNamespace (BuildNamespace ns)) None;
          Ev (Create KQuota q) (Some e); Ev (Get KNamespace "" ns) (inl found)].
  split.
  - unfold EnsureNamespace. rewrite withDefaults_id by apply Hcfg.
    do 2 eexists; split; [reflexivity|]. cbn [bind IsNotFound].
    do 2 eexists; split; [reflexivity|]. cbn [unless bind].
    rewrite (BuildResourceQuota_ok ns cfg Hcfg), Hq. cbn [bind].
    do 2 eexists; split; [reflexivity|]. cbn [unless bind]. rewrite He. cbn [bind].
    do 2 eexists; split; [reflexivity|]. done.
  - split; [do 2 right; left|]. split; [do 3 right; left|].
    intros p. cbn. rewrite !elem_of_cons, elem_of_nil. intros [?|[?|[]]]; discriminate.
Qed.

(** ** The network policy *)

(** A rule admits a peer namespace, protocol and port: no peers means any
    peer, no ports means any port. *)
Definition rule_admits (r : NetworkPolicyRule) (peer protocol : string) (port : Z) : Prop :=
  (npr_Peers r = [] ∨ peer ∈ npr_Peers r)
  ∧ (npr_Ports r = [] ∨ npp protocol port ∈ npr_Ports r).

(** What a policy of both types admits: some rule of the direction does. *)
Definition admits (rules : list NetworkPolicyRule) (peer protocol : string) (port : Z) : Prop :=
  ∃ r, r ∈ rules ∧ rule_admits r peer protocol port.

Lemma admits_cons r rules peer protocol port :
  admits (r :: rules) peer protocol port ↔
  rule_admits r peer protocol port ∨ admits rules peer protocol port.
Proof. unfold admits. setoid_rewrite elem_of_cons. naive_solver. Qed.
Lemma admits_nil peer protocol port : ¬ admits [] peer protocol port.
Proof. intros (r & H & _). by apply elem_of_nil in H. Qed.

Definition game_traffic (cfg : TenantConfig) (protocol : string) (port : Z) : Prop :=
  port ∈ tc_GamePorts cfg ∧ (protocol = "TCP" ∨ protocol = "UDP").

Lemma game_traffic_ports cfg protocol port :
  npp protocol port ∈ (tc_GamePorts cfg ≫= λ p, [npp "TCP" p; npp "UDP" p])
  ↔ game_traffic cfg protocol port.
Proof.
  unfold game_traffic. rewrite list_elem_of_bind. setoid_rewrite elem_of_cons.
  setoid_rewrite list_elem_of_singleton. unfold npp. split.
  - intros (p & [H|H] & Hp); simplify_eq; auto.
  - intros [Hp [->| ->]]; eexists; eauto.
Qed.

Lemma admits_game cfg rules peer protocol port :
  let ports := tc_GamePorts cfg ≫= λ p, [npp "TCP" p; npp "UDP" p] in
  rules = match ports with
          | [] => []
          | _ => [{| npr_Peers := []; npr_Ports := ports |}]
          end →
  admits rules peer protocol port ↔ game_traffic cfg protocol port.
Proof.
  intros ports ->. rewrite <-game_traffic_ports. fold ports. destruct ports as [|p ports].
  - split; [by intros ?%admits_nil|by intros ?%elem_of_nil].
  - rewrite admits_cons. unfold rule_admits; cbn. split.
    + intros [[_ [?|?]]|?%admits_nil]; done.
    + intros ?. left. auto.
Qed.

(** the policy isolates a tenant. It selects every pod of the namespace and
    denies by default in both directions; a pod of another namespace reaches a
    tenant's pods only on the game ports (TCP or UDP), and, from the control
    plane's namespace, on the agent's TCP port; a tenant's pods reach outside
    only DNS, the agent port and the game ports. *)
Theorem network_policy_isolates ns cfg peer protocol port :
  let np := BuildNetworkPolicy ns cfg in
  np_PodSelector np = ∅ ∧ np_PolicyTypes np = ["Ingress"; "Egress"]
  ∧ om_Namespace (np_Meta np) = ns
  ∧ (admits (np_Ingress np) peer protocol port ↔
     peer = ns
     ∨ (peer = tc_ControlPlaneNamespace cfg ∧ protocol = "TCP" ∧ port = AgentPort)
     ∨ game_traffic cfg protocol port)
  ∧ (admits (np_Egress np) peer protocol port ↔
     (port = 53 ∧ (protocol = "UDP" ∨ protocol = "TCP"))
     ∨ (protocol = "TCP" ∧ port = AgentPort)
     ∨ game_traffic cfg protocol port).
Proof.
  intros np. split; [done|]. split; [done|]. split; [done|]. unfold np, BuildNetworkPolicy.
  cbn [np_Ingress np_Egress app]. rewrite !admits_cons.
  rewrite !(admits_game cfg _ peer protocol port eq_refl).
  unfold rule_admits; cbn [npr_Peers npr_Ports].
  rewrite !elem_of_cons, !elem_of_nil. unfold npp. clear np.
  split; (split; [intros H|intros H]); destruct_or?; destruct_and?; simplify_eq; try naive_solver.
Qed.

End Theorems.

(** ** Witnesses *)

Definition ex_parse : QuantityParser := λ s,
  if s =s "8" then Some (8 * nano)
  else if s =s "32Gi" then Some (32 * 1073741824 * nano)
  else if s =s "200Gi" then Some (200 * 1073741824 * nano) else None.
Definition ex_tenant_config : TenantConfig := {|
  tc_MaxServers := 10; tc_CPU := "8"; tc_Memory := "32Gi"; tc_Storage := "200Gi";
  tc_GamePorts := [25565]; tc_ControlPlaneNamespace := "minato" |}.

(** An unset environment gives the documented defaults. *)
Example ex_tenant_defaults : @LoadConfig ex_parse (λ _, None) = inl ex_tenant_config.
Proof. reflexivity. Qed.
Example ex_tenant_disabled :
  @LoadConfig ex_parse (λ k, if k =s "TENANT_CONTROLPLANE_NAMESPACE" then None
                             else if k =s "TENANT_GAME_PORTS" then Some "" else Some "0")
  = inl {| tc_MaxServers := 0; tc_CPU := ""; tc_Memory := ""; tc_Storage := "";
           tc_GamePorts := []; tc_ControlPlaneNamespace := "minato" |}.
Proof. reflexivity. Qed.
Example ex_tenant_bad_port :
  @LoadConfig ex_parse (λ k, if k =s "TENANT_GAME_PORTS" then Some "25565, 70000" else None)
  = inr (errorf "TENANT_GAME_PORTS: port 70000 out of range (1-65535)").
Proof. reflexivity. Qed.

Definition ex_tenant_env : ∀ X, op X → X := answer no_objects no_lists 0.

Lemma EnsureNamespace_correct_witness :
  let p := @EnsureNamespace ex_parse "tenant-a" ex_tenant_config in
  run_outcome ex_tenant_env p = Done None
  ∧ writes (run_trace ex_tenant_env p) = @hardening ex_parse "tenant-a" ex_tenant_config.
Proof.
  intros p. split; [vm_compute; reflexivity|].
  destruct (@EnsureNamespace_correct ex_parse (λ _, None) ex_tenant_config "tenant-a" _ _ eq_refl
    (run_runs ex_tenant_env p)) as (found & t' & r & Ht & Hr & H).
  assert (r = None) as -> by (vm_compute in Hr; congruence).
  assert (found = no_objects KNamespace "" "tenant-a") as ->.
  { change (run_trace ex_tenant_env p)
      with (Ev (Get KNamespace "" "tenant-a") (no_objects KNamespace "" "tenant-a")
            :: tail (run_trace ex_tenant_env p)) in Ht.
    by apply Ev_Get_inj in Ht as [-> _]. }
  rewrite Ht. cbn [writes omap list_omap ev_write write_of].
  destruct H as (_ & H & _). exact (H eq_refl).
Defined.
