(* ===== verification/AuditLog.v ===== *)
(** * AuditLog: the audit log ([internal/controlplane/audit])

    An event goes to the log with [AuditWrite]; its JSON encoding is left to
    the log. *)

From Stdlib Require Import Ascii String.
From S2P Require Import Prelude GoStrings Prog Api Kube Auth.

Definition audit_user (u : option User) : string :=
  match u with Some u => us_Username u | None => "anonymous" end.
Definition audit_role (u : option User) : string :=
  match u with Some u => us_Role u | None => "" end.

Definition LogAction (action resource : string) (user : option User) : M unit :=
  let* now := call Now in
  effect (AuditWrite {|
    evt_Timestamp := now; evt_Level := "audit"; evt_User := audit_user user;
    evt_Role := audit_role user; evt_Action := action; evt_Resource := resource;
    evt_Method := ""; evt_Path := ""; evt_ClientIP := ""; evt_UserAgent := "";
    evt_Result := "success" |}).

(** The event the middleware logs about request [r], answered with [status]. *)
Definition request_event (now : Z) (r : Request) (status : Z) : Event := {|
  evt_Timestamp := now; evt_Level := "audit"; evt_User := audit_user (GetUser r);
  evt_Role := audit_role (GetUser r); evt_Action := ""; evt_Resource := "";
  evt_Method := rq_Method r; evt_Path := rq_Path r; evt_ClientIP := rq_RemoteAddr r;
  evt_UserAgent := rq_Header r "User-Agent";
  evt_Result := if 400 <=? status then "failure" else "success" |}.

(** The writer the middleware hands on ([responseWriter]): [sent] is the status
    on the wire, the first one written; [statusCode] the one that is logged.
    [hijacker] is whether the writer below is an [http.Hijacker]. *)
Record responseWriter := { statusCode : Z; sent : option Z; hijacker : bool }.
Definition wrap (hijackable : bool) : responseWriter :=
  {| statusCode := 200; sent := None; hijacker := hijackable |}.
Definition WriteHeader (code : Z) (rw : responseWriter) : responseWriter :=
  {| statusCode := code; sent := Some (default code (sent rw)); hijacker := hijacker rw |}.
Definition Hijack (rw : responseWriter) : option gerr :=
  if hijacker rw then None else Some (errorf "hijack not supported").

(** A handler that writes its status at most once is logged with the status
    sent; one that writes none is logged, and answered, as a success. *)
Lemma one_status_logged h codes :
  (length codes <= 1)%nat →
  let rw := foldl (λ rw c, WriteHeader c rw) (wrap h) codes in
  statusCode rw = default 200 (sent rw) ∧ Hijack rw = Hijack (wrap h).
Proof. destruct codes as [|c [|c' codes]]; cbn; [done|done|lia]. Qed.

Definition Middleware : Middleware_t := λ next r,
  if (rq_Path r =s "/healthz") || (rq_Path r =s "/readyz") then next r
  else
    let* start := call Now in
    let* rsp := next r in
    let* stop := call Now in
    let* now := call Now in
    let* _ := call (AuditWrite (request_event now r (rsp_Status rsp))) in
    Ret rsp.

(** The events a run logged. *)
Definition ev_audit (v : event op) : option Event :=
  match v with Ev e _ => match e with AuditWrite a => Some a | _ => None end end.
Definition audited (t : list (event op)) : list Event := omap ev_audit t.

Lemma audited_app t1 t2 : audited (t1 ++ t2) = audited t1 ++ audited t2.
Proof. apply omap_app. Qed.

(** every request but the health checks is logged once by the middleware,
    after whatever its handler logged, with its method, path and client, as a
    failure exactly when it was answered with a status of 400 or more; the
    answer itself is not changed. *)
Theorem Middleware_logs next r t rsp :
  rq_Path r ≠ "/healthz" → rq_Path r ≠ "/readyz" →
  runs (Middleware next r) t (Done rsp) →
  ∃ tn now, runs (next r) tn (Done rsp)
    ∧ audited t = audited tn ++ [request_event now r (rsp_Status rsp)]
    ∧ writes t = writes tn
    ∧ (evt_Result (request_event now r (rsp_Status rsp)) = "failure" ↔ 400 <= rsp_Status rsp).
Proof.
  intros Hh%String.eqb_neq Hr%String.eqb_neq H. unfold Middleware in H. rewrite Hh, Hr in H.
  destruct H as (start & t1 & -> & H). cbn [bind call] in H. run_step H.
  destruct H as (stop & t2 & -> & H). destruct H as (now & t3 & -> & H).
  destruct H as ([] & t4 & -> & H). destruct H as [-> [= ->]].
  exists t, now. split; [done|]. split; [|split].
  - cbn [audited omap list_omap ev_audit]. by rewrite omap_app.
  - unfold writes. cbn [omap list_omap ev_write write_of]. rewrite omap_app. cbn. by rewrite app_nil_r.
  - cbn. destruct (Z.leb_spec 400 (rsp_Status a)); split; (done || lia).
Qed.

Lemma Middleware_logs_witness :
  let p := Middleware ex_ok (ex_request "GET" "/api/v1/gameservers" "" None) in
  ∃ rsp e, run_outcome ex_later_auth p = Done rsp ∧ audited (run_trace ex_later_auth p) = [e]
           ∧ evt_User e = "anonymous" ∧ evt_Path e = "/api/v1/gameservers".
Proof.
  intros p.
  destruct (Middleware_logs ex_ok (ex_request "GET" "/api/v1/gameservers" "" None)
    (run_trace ex_later_auth p) {| rsp_Status := 200; rsp_Header := []; rsp_Body := "ok" |}
    ltac:(discriminate) ltac:(discriminate) (run_runs ex_later_auth p))
    as (tn & now & Hn & Ha & _).
  destruct Hn as [-> _]. eexists. eexists. split; [reflexivity|].
  rewrite Ha. split; [reflexivity|]. split; reflexivity.
Defined.
