(* ===== verification/ControlPlane.v ===== *)
(** * ControlPlane: the HTTP API of the control plane
    ([cmd/controlplane/main.go], [console.go], and the routes of
    [internal/controlplane/oapi/gen.go])

    A handler answers with a status and the value it would encode; [render]
    turns the answer into an HTTP response with the encoder [Encode].  [Decode]
    holds the JSON decoders of the request bodies. The router [chi] and the
    parameter binding of the generated wrapper are the class [Router]. *)

From Stdlib Require Import Ascii String.
From S2P Require Import Prelude GoStrings Prog Api Kube Builder Auth Rbac Tenant AuditLog.

(** ** Answers and bodies *)

Record SFTPInfo := { si_Host : string; si_Port : Z; si_Username : string; si_Password : string }.
Record AuthConfigInfo := {
  ac_authModes : list string; ac_basicEnabled : bool; ac_oidcIssuer : option string }.

Inductive Payload :=
| PText (s : string)
| PNothing
| PError (msg : string)
| PAuthConfig (c : AuthConfigInfo)
| PGameServers (l : list GameServer)
| PGameServer (s : GameServer)
| PSFTP (i : SFTPInfo)
| PActions (l : list ActionDecl)
| PExecName (name : string)
| PExec (e : ActionExecution)
| PSnapshots (l : list GameSnapshot)
| PSnapshot (s : GameSnapshot)
| PFleets (l : list GameServerFleet)
| PFleet (f : GameServerFleet)
| PProfiles (l : list GameProfile)
| PProfile (p : GameProfile)
| PKeys (l : list APIKeyEntry)
| PNewKey (e : APIKeyEntry) (key : string).

Record Reply := { rep_Status : Z; rep_Payload : Payload }.

Definition respond (status : Z) (p : Payload) : M Reply :=
  Ret {| rep_Status := status; rep_Payload := p |}.
Definition respondJSON : Z → Payload → M Reply := respond.
Definition writeError (status : Z) (err : gerr) : M Reply := respondJSON status (PError (ge_msg err)).

Record LifecyclePatch := { lp_AutoStart : option bool; lp_IdleTimeoutSeconds : option Z }.
Record CreateKeyRequest := {
  kr_Name : string; kr_Role : string; kr_Namespaces : list string; kr_ExpiresAt : option Z }.

(** [json.Decoder] on each body; the two patches with [DisallowUnknownFields]. *)
Class Decode := {
  decode_GameServer : string → GameServer + gerr;
  decode_Fleet : string → GameServerFleet + gerr;
  decode_params : string → gomap string + gerr;
  decode_LifecyclePatch : string → LifecyclePatch + gerr;
  decode_FleetPatch : string → option Z + gerr;
  decode_KeyRequest : string → CreateKeyRequest + gerr;
}.
Class Encode := encode : Payload → string.

(** ** Handlers *)

Definition gs_set_Namespace (ns : string) (s : GameServer) : GameServer :=
  obj_map_meta (meta_set_Namespace ns) KGameServer s.
Definition fleet_set_Namespace (ns : string) (f : GameServerFleet) : GameServerFleet :=
  obj_map_meta (meta_set_Namespace ns) KFleet f.

Definition gs_set_Lifecycle (lc : LifecycleSpec) (s : GameServer) : GameServer :=
  let sp := gs_Spec s in
  {| gs_Meta := gs_Meta s; gs_Status := gs_Status s;
     gs_Spec := {| gs_Profile := gs_Profile sp; gs_Tier := gs_Tier sp; gs_Env := gs_Env sp;
                   gs_Storage := gs_Storage sp; gs_Lifecycle := lc;
                   gs_PriorityClassName := gs_PriorityClassName sp;
                   gs_TopologySpreadConstraints := gs_TopologySpreadConstraints sp;
                   gs_LoadBalancerIP := gs_LoadBalancerIP sp |} |}.
Definition fleet_set_Replicas (n : Z) (f : GameServerFleet) : GameServerFleet :=
  let sp := fl_Spec f in
  {| fl_Meta := fl_Meta f; fl_Status := fl_Status f;
     fl_Spec := {| fl_Profile := fl_Profile sp; fl_Replicas := n; fl_Template := fl_Template sp;
                   fl_UpdateStrategy := fl_UpdateStrategy sp;
                   fl_PriorityClassName := fl_PriorityClassName sp;
                   fl_TopologySpreadConstraints := fl_TopologySpreadConstraints sp |} |}.

(** The patched lifecycle. *)
Definition patch_lifecycle (p : LifecyclePatch) (lc : LifecycleSpec) : LifecycleSpec := {|
  lc_AutoStart := match lp_AutoStart p with Some b => Some b | None => lc_AutoStart lc end;
  lc_IdleTimeoutSeconds := default (lc_IdleTimeoutSeconds lc) (lp_IdleTimeoutSeconds p) |}.

(** The second a time is in: [Time.Unix]. *)
Definition unix (now : Z) : Z := now / second.

Section Handlers.
Context `{Hdec : !Decode, Hqty : !QuantityParser, Hjson : !EntryJSON, Htime : !RFC3339}.
Variables (authCfg : Config) (keyStorage : string) (tenantCfg : TenantConfig).

Definition p_namespace (r : Request) : string := rq_Param r "namespace".
Definition p_name (r : Request) : string := rq_Param r "name".

Definition GetHealthz (r : Request) : M Reply := respond 200 (PText "ok").
Definition GetReadyz (r : Request) : M Reply := respond 200 (PText "ok").

Definition auth_modes : list string :=
  let modes := filter (λ m, m ≠ "") ((λ m, TrimSpace (ToLower m)) <$> Split "," (cfg_Mode authCfg)) in
  if bool_decide (modes = []) || bool_decide (modes = ["none"]) then
    ["none"]
    ++ (if bc_Enabled (cfg_Basic authCfg) then ["basic"] else [])
    ++ (if oi_Enabled (cfg_OIDC authCfg) then ["oidc"] else [])
    ++ (if cfg_APIKey_Enabled authCfg then ["apikey"] else [])
  else modes.

Definition GetAuthConfig (r : Request) : M Reply :=
  respondJSON 200 (PAuthConfig {|
    ac_authModes := auth_modes;
    ac_basicEnabled := bc_Enabled (cfg_Basic authCfg);
    ac_oidcIssuer := if oi_Enabled (cfg_OIDC authCfg) && (oi_IssuerURL (cfg_OIDC authCfg) <>s "")
                     then Some (oi_IssuerURL (cfg_OIDC authCfg)) else None |}).

(** [user == nil || user.AllowsNamespace(ns)]. *)
Definition visible (r : Request) (ns : string) : bool := AllowsNamespace (GetUser r) ns.

Definition ListGameServers (r : Request) : M Reply :=
  let* l := call (ListObjs KGameServer None []) in
  match l with
  | inr err => writeError 500 err
  | inl items => respondJSON 200 (PGameServers (filter (λ gs, visible r (om_Namespace (gs_Meta gs))) items))
  end.

Definition GetGameServer (r : Request) : M Reply :=
  let* server := call (Get KGameServer (p_namespace r) (p_name r)) in
  match server with
  | inr err => writeError 404 err
  | inl server => respondJSON 200 (PGameServer server)
  end.

Definition CreateGameServer (r : Request) : M Reply :=
  match decode_GameServer (rq_Body r) with
  | inr err => writeError 400 err
  | inl server =>
      let* e := EnsureNamespace (p_namespace r) tenantCfg in
      match e with
      | Some err => writeError 500 err
      | None =>
          let server := gs_set_Namespace (p_namespace r) server in
          let* e := call (Create KGameServer server) in
          match e with
          | Some err => writeError 500 err
          | None => respondJSON 201 (PGameServer server)
          end
      end
  end.

Definition DeleteGameServer (r : Request) : M Reply :=
  let* e := call (Delete KGameServer (p_namespace r) (p_name r)) in
  match e with
  | Some err => writeError 500 err
  | None => respond 204 PNothing
  end.

Definition UpdateGameServerLifecycle (r : Request) : M Reply :=
  match decode_LifecyclePatch (rq_Body r) with
  | inr err =>
      writeError 400 (wrapf "invalid patch: only spec.lifecycle.autoStart and spec.lifecycle.idleTimeoutSeconds may be set" err)
  | inl patch =>
      if match lp_IdleTimeoutSeconds patch with Some n => n <? 0 | None => false end
      then writeError 400 (errorf "spec.lifecycle.idleTimeoutSeconds must be >= 0")
      else
        match lp_AutoStart patch, lp_IdleTimeoutSeconds patch with
        | None, None =>
            writeError 400 (errorf "patch must set at least one of spec.lifecycle.autoStart or spec.lifecycle.idleTimeoutSeconds")
        | _, _ =>
            let* server := call (Get KGameServer (p_namespace r) (p_name r)) in
            match server with
            | inr err => writeError 404 err
            | inl server =>
                let server := gs_set_Lifecycle (patch_lifecycle patch (gs_Lifecycle (gs_Spec server))) server in
                let* e := call (Update KGameServer server) in
                match e with
                | Some err => writeError 500 err
                | None =>
                    let* _ := LogAction "gameserver.lifecycle-updated" (om_Name (gs_Meta server)) (GetUser r) in
                    respondJSON 200 (PGameServer server)
                end
            end
        end
  end.

Definition GetSFTPInfo (r : Request) : M Reply :=
  let ns := p_namespace r in
  let serverName := p_name r in
  let where_ := ns +:+ "/" +:+ serverName in
  let* server := call (Get KGameServer ns serverName) in
  match server with
  | inr err => writeError 404 err
  | inl server =>
      let* profile := call (Get KGameProfile "" (gs_Profile (gs_Spec server))) in
      match profile with
      | inr err => writeError 404 err
      | inl profile =>
          if negb (SFTPEnabled profile)
          then writeError 404 (errorf ("sftp is not enabled for game server " +:+ where_))
          else
            match find_first (λ e, ep_Name e =s SFTPPortName) (gss_Endpoints (gs_Status server)) with
            | None => writeError 404 (errorf ("sftp endpoint for game server " +:+ where_ +:+
                                              " is not published yet"))
            | Some endpoint =>
                let* secret := call (Get KSecret ns (SFTPSecretName serverName)) in
                match secret with
                | inr _ => writeError 404 (errorf ("sftp credentials for game server " +:+ where_ +:+
                                                   " are not provisioned yet"))
                | inl secret =>
                    let username := default "" (sec_Data secret !! SFTPUsernameKey) in
                    let password := default "" (sec_Data secret !! SFTPPasswordKey) in
                    if (username =s "") || (password =s "")
                    then writeError 404 (errorf ("sftp credentials for game server " +:+ where_ +:+
                                                 " are incomplete"))
                    else
                      let* _ := LogAction "gameserver.sftp-info-read" serverName (GetUser r) in
                      respondJSON 200 (PSFTP {| si_Host := ep_Address endpoint;
                                                si_Port := ep_Port endpoint;
                                                si_Username := username; si_Password := password |})
                end
            end
      end
  end.

Definition ListActions (r : Request) : M Reply :=
  let* server := call (Get KGameServer (p_namespace r) (p_name r)) in
  match server with
  | inr err => writeError 404 err
  | inl server =>
      let* profile := call (Get KGameProfile "" (gs_Profile (gs_Spec server))) in
      match profile with
      | inr err => writeError 404 err
      | inl profile => respondJSON 200 (PActions (gp_Actions (gp_Spec profile)))
      end
  end.

(** The caller recorded on an execution: the authenticated user, or the
    [X-User] header when authentication is off. *)
Definition action_caller (r : Request) : string :=
  let header := rq_Header r "X-User" in
  let caller := if header =s "" then "anonymous" else header in
  match GetUser r with
  | Some user => if us_Source user <>s "none" then us_Username user else caller
  | None => caller
  end.

Definition ExecuteAction (r : Request) : M Reply :=
  let ns := p_namespace r in
  let serverName := p_name r in
  let action := rq_Param r "action" in
  let params := match decode_params (rq_Body r) with inl p => p | inr _ => Some ∅ end in
  let* now := call Now in
  let exec := {|
    ae_Meta := new_meta (serverName +:+ "-" +:+ action +:+ "-" +:+ itoa (unix now)) ns None;
    ae_Spec := {|
      ae_TargetRef := {| tr_APIVersion := "operator.minato.io/v1"; tr_Kind := "GameServer";
                         tr_Name := serverName; tr_Namespace := ns |};
      ae_ActionName := action; ae_Params := params; ae_Caller := action_caller r |};
    ae_Status := {| aes_State := ActionExecutionNew; aes_StartedAt := None; aes_EndedAt := None;
                    aes_AgentResponse := ""; aes_Error := ""; aes_Conditions := [] |} |} in
  let* e := call (Create KExec exec) in
  match e with
  | Some err => writeError 500 err
  | None => respondJSON 201 (PExecName (om_Name (ae_Meta exec)))
  end.

Definition GetActionExecution (r : Request) : M Reply :=
  let* exec := call (Get KExec (p_namespace r) (rq_Param r "executionId")) in
  match exec with
  | inr err => writeError 404 err
  | inl exec => respondJSON 200 (PExec exec)
  end.

Definition ListSnapshots (r : Request) : M Reply :=
  let ns := p_namespace r in
  let serverName := p_name r in
  let* l := call (ListByField KSnap ns "spec.gameServerRef" serverName) in
  match l with
  | inl items => respondJSON 200 (PSnapshots items)
  | inr _ =>
      let* l := call (ListObjs KSnap (Some ns) []) in
      match l with
      | inr err => writeError 500 err
      | inl items =>
          respondJSON 200 (PSnapshots (filter (λ s, sn_GameServerRef (sn_Spec s) = serverName) items))
      end
  end.

Definition CreateSnapshot (r : Request) : M Reply :=
  let ns := p_namespace r in
  let serverName := p_name r in
  let* now := call Now in
  let snap := {|
    sn_Meta := new_meta (serverName +:+ "-snap-" +:+ itoa (unix now)) ns None;
    sn_Spec := {| sn_GameServerRef := serverName; sn_Schedule := "";
                  sn_Retention := {| ret_Count := 0; ret_Duration := "" |} |};
    sn_Status := {| sns_Snapshots := []; sns_LastSnapshotAt := None; sns_Conditions := [] |} |} in
  let* e := call (Create KSnap snap) in
  match e with
  | Some err => writeError 500 err
  | None => respondJSON 201 (PSnapshot snap)
  end.

Definition ListGameServerFleets (r : Request) : M Reply :=
  let* l := call (ListObjs KFleet None []) in
  match l with
  | inr err => writeError 500 err
  | inl items => respondJSON 200 (PFleets (filter (λ f, visible r (om_Namespace (fl_Meta f))) items))
  end.

Definition GetGameServerFleet (r : Request) : M Reply :=
  let* fleet := call (Get KFleet (p_namespace r) (p_name r)) in
  match fleet with
  | inr err => writeError 404 err
  | inl fleet => respondJSON 200 (PFleet fleet)
  end.

Definition CreateGameServerFleet (r : Request) : M Reply :=
  match decode_Fleet (rq_Body r) with
  | inr err => writeError 400 err
  | inl fleet =>
      if fl_Profile (fl_Spec fleet) =s "" then writeError 400 (errorf "spec.profile is required")
      else if fl_Replicas (fl_Spec fleet) <? 0
      then writeError 400 (errorf "spec.replicas must be >= 0")
      else
        let* profile := call (Get KGameProfile "" (fl_Profile (fl_Spec fleet))) in
        match profile with
        | inr err =>
            writeError 400 (wrapf ("profile " +:+ fmt_q (fl_Profile (fl_Spec fleet)) +:+ " not found") err)
        | inl _ =>
            let* e := EnsureNamespace (p_namespace r) tenantCfg in
            match e with
            | Some err => writeError 500 err
            | None =>
                let fleet := fleet_set_Namespace (p_namespace r) fleet in
                let* e := call (Create KFleet fleet) in
                match e with
                | Some err => writeError 500 err
                | None =>
                    let* _ := LogAction "gameserverfleet.created" (om_Name (fl_Meta fleet)) (GetUser r) in
                    respondJSON 201 (PFleet fleet)
                end
            end
        end
  end.

Definition UpdateGameServerFleet (r : Request) : M Reply :=
  match decode_FleetPatch (rq_Body r) with
  | inr err => writeError 400 (wrapf "invalid patch: only spec.replicas may be set" err)
  | inl None => writeError 400 (errorf "patch must set spec.replicas")
  | inl (Some replicas) =>
      if replicas <? 0 then writeError 400 (errorf "spec.replicas must be >= 0")
      else
        let* fleet := call (Get KFleet (p_namespace r) (p_name r)) in
        match fleet with
        | inr err => writeError 404 err
        | inl fleet =>
            let fleet := fleet_set_Replicas replicas fleet in
            let* e := call (Update KFleet fleet) in
            match e with
            | Some err => writeError 500 err
            | None =>
                let* _ := LogAction "gameserverfleet.scaled" (om_Name (fl_Meta fleet)) (GetUser r) in
                respondJSON 200 (PFleet fleet)
            end
        end
  end.

Definition DeleteGameServerFleet (r : Request) : M Reply :=
  let* e := call (Delete KFleet (p_namespace r) (p_name r)) in
  match e with
  | Some err => writeError 500 err
  | None =>
      let* _ := LogAction "gameserverfleet.deleted" (p_name r) (GetUser r) in
      respond 204 PNothing
  end.

Definition ListProfiles (r : Request) : M Reply :=
  let* l := call (ListObjs KGameProfile None []) in
  match l with
  | inr err => writeError 500 err
  | inl items => respondJSON 200 (PProfiles items)
  end.

Definition GetProfile (r : Request) : M Reply :=
  let* profile := call (Get KGameProfile "" (p_name r)) in
  match profile with
  | inr err => writeError 404 err
  | inl profile => respondJSON 200 (PProfile profile)
  end.

Definition ListAPIKeys (r : Request) : M Reply :=
  let* keys := ListKeys keyStorage in
  match keys with
  | inr err => writeError 500 err
  | inl keys => respondJSON 200 (PKeys keys)
  end.

(** [expiresAt] must be after the current time; the clock is read only when it
    is set. *)
Definition expiry_accepted (expiresAt : option Z) : M bool :=
  match expiresAt with
  | None => Ret true
  | Some t => let* now := call Now in Ret (now <? t)
  end.

Definition CreateAPIKey (r : Request) : M Reply :=
  match GetUser r with
  | None => writeError 401 (errorf "unauthorized")
  | Some user =>
      match decode_KeyRequest (rq_Body r) with
      | inr err => writeError 400 err
      | inl req =>
          if kr_Name req =s "" then writeError 400 (errorf "name is required")
          else
            let* future := expiry_accepted (kr_ExpiresAt req) in
            if negb future then writeError 400 (errorf "expiresAt must be in the future")
            else
              let role := if kr_Role req =s "" then us_Role user else kr_Role req in
              let* res := GenerateKey keyStorage (kr_Name req) (us_ID user) (us_Username user) role
                            (kr_Namespaces req) (kr_ExpiresAt req) in
              match res with
              | inr err => writeError 500 err
              | inl (entry, keyValue) =>
                  let* _ := LogAction "apikey.created" (ak_Name entry) (Some user) in
                  respondJSON 201 (PNewKey entry keyValue)
              end
      end
  end.

Definition DeleteAPIKey (r : Request) : M Reply :=
  let keyId := rq_Param r "keyId" in
  let* e := DeleteKey keyStorage keyId in
  match e with
  | Some err => writeError 404 err
  | None =>
      let* _ := LogAction "apikey.deleted" keyId (GetUser r) in
      respond 204 PNothing
  end.

(** *** The console ([console.go]) *)

Definition defaultAgentGRPCPort : Z := 9876.

(** The check of the upgrader on the [Origin] header. *)
Definition allowedOrigins : list string := [].
Definition CheckOrigin (r : Request) : bool :=
  let origin := rq_Header r "Origin" in
  if (length allowedOrigins =? 0)%nat then true else bool_decide (origin ∈ allowedOrigins).
(** Nothing configures the list, so a page of any origin may open a console. *)
Lemma every_origin_accepted r : CheckOrigin r = true.
Proof. reflexivity. Qed.

Definition proxyConsole (server : GameServer) : M (option gerr) :=
  let* svc := call (Get KSvc (om_Namespace (gs_Meta server)) (om_Name (gs_Meta server))) in
  match svc with
  | inr err => Ret (Some (wrapf "failed to get service" err))
  | inl svc =>
      let addr := om_Name (svc_Meta svc) +:+ "." +:+ om_Namespace (svc_Meta svc) +:+
                  ".svc.cluster.local:" +:+ itoa defaultAgentGRPCPort in
      let* e := call (GrpcDial addr) in
      match e with
      | Some err => Ret (Some (wrapf "failed to connect to agent" err))
      | None =>
          let* e := call (AgentConsole addr) in
          match e with
          | Some err => Ret (Some (wrapf "failed to start console stream" err))
          | None => let* err := call (ConsolePump addr) in Ret (Some err)
          end
      end
  end.

(** A console that was upgraded answers nothing more over HTTP; the audit
    log sees the default status.  The upgrader answers a request that is no
    handshake itself: its status is the one on the wire, and the text of the
    handler's own [http.Error] only follows in the body.  If it fails after
    taking over the connection nothing is sent, and the 500 is only logged. *)
Definition GetConsole (r : Request) : M Reply :=
  let* server := call (Get KGameServer (p_namespace r) (p_name r)) in
  match server with
  | inr err => writeError 404 err
  | inl server =>
      let* e := call WsUpgrade in
      match e with
      | Some (Some (status, text), err) => respond status (PText (text +:+ ge_msg err))
      | Some (None, err) => respond 500 PNothing
      | None =>
          let* e := proxyConsole server in
          let* _ := match e with
                    | Some err => effect (WsWriteJSON "error" (ge_msg err))
                    | None => Ret tt
                    end in
          respond 200 PNothing
      end
  end.

(** ** The generated server ([oapi/gen.go])

    A method of [ServerInterfaceWrapper]: the path parameters it binds, in
    that order, and the operation it then calls. *)
Record Operation := { op_Params : list string; op_Handler : Request → M Reply }.

Definition siw_ListAPIKeys : Operation := {| op_Params := []; op_Handler := ListAPIKeys |}.
Definition siw_CreateAPIKey : Operation := {| op_Params := []; op_Handler := CreateAPIKey |}.
Definition siw_DeleteAPIKey : Operation := {| op_Params := ["keyId"]; op_Handler := DeleteAPIKey |}.
Definition siw_ListGameServerFleets : Operation := {| op_Params := []; op_Handler := ListGameServerFleets |}.
Definition siw_CreateGameServerFleet : Operation := {| op_Params := ["namespace"]; op_Handler := CreateGameServerFleet |}.
Definition siw_DeleteGameServerFleet : Operation := {| op_Params := ["namespace"; "name"]; op_Handler := DeleteGameServerFleet |}.
Definition siw_GetGameServerFleet : Operation := {| op_Params := ["namespace"; "name"]; op_Handler := GetGameServerFleet |}.
Definition siw_UpdateGameServerFleet : Operation := {| op_Params := ["namespace"; "name"]; op_Handler := UpdateGameServerFleet |}.
Definition siw_ListGameServers : Operation := {| op_Params := []; op_Handler := ListGameServers |}.
Definition siw_CreateGameServer : Operation := {| op_Params := ["namespace"]; op_Handler := CreateGameServer |}.
Definition siw_DeleteGameServer : Operation := {| op_Params := ["namespace"; "name"]; op_Handler := DeleteGameServer |}.
Definition siw_GetGameServer : Operation := {| op_Params := ["namespace"; "name"]; op_Handler := GetGameServer |}.
Definition siw_UpdateGameServerLifecycle : Operation := {| op_Params := ["namespace"; "name"]; op_Handler := UpdateGameServerLifecycle |}.
Definition siw_ListActions : Operation := {| op_Params := ["namespace"; "name"]; op_Handler := ListActions |}.
Definition siw_ExecuteAction : Operation := {| op_Params := ["namespace"; "name"; "action"]; op_Handler := ExecuteAction |}.
Definition siw_GetConsole : Operation := {| op_Params := ["namespace"; "name"]; op_Handler := GetConsole |}.
Definition siw_GetActionExecution : Operation := {| op_Params := ["namespace"; "name"; "executionId"]; op_Handler := GetActionExecution |}.
Definition siw_GetSFTPInfo : Operation := {| op_Params := ["namespace"; "name"]; op_Handler := GetSFTPInfo |}.
Definition siw_ListSnapshots : Operation := {| op_Params := ["namespace"; "name"]; op_Handler := ListSnapshots |}.
Definition siw_CreateSnapshot : Operation := {| op_Params := ["namespace"; "name"]; op_Handler := CreateSnapshot |}.
Definition siw_ListProfiles : Operation := {| op_Params := []; op_Handler := ListProfiles |}.
Definition siw_GetProfile : Operation := {| op_Params := ["name"]; op_Handler := GetProfile |}.
Definition siw_GetAuthConfig : Operation := {| op_Params := []; op_Handler := GetAuthConfig |}.
Definition siw_GetHealthz : Operation := {| op_Params := []; op_Handler := GetHealthz |}.
Definition siw_GetReadyz : Operation := {| op_Params := []; op_Handler := GetReadyz |}.

(** *** Routes ([HandlerWithOptions]): method, template and operation *)
Record Route := {
  rt_Method : string;
  rt_Pattern : string;
  rt_Params : list string;
  rt_Handler : Request → M Reply;
}.
Definition route (m p : string) (op : Operation) : Route :=
  {| rt_Method := m; rt_Pattern := p; rt_Params := op_Params op; rt_Handler := op_Handler op |}.

Definition routes : list Route := [
  route "GET" "/api/v1/apikeys" siw_ListAPIKeys;
  route "POST" "/api/v1/apikeys" siw_CreateAPIKey;
  route "DELETE" "/api/v1/apikeys/{keyId}" siw_DeleteAPIKey;
  route "GET" "/api/v1/gameserverfleets" siw_ListGameServerFleets;
  route "POST" "/api/v1/gameserverfleets/{namespace}" siw_CreateGameServerFleet;
  route "DELETE" "/api/v1/gameserverfleets/{namespace}/{name}" siw_DeleteGameServerFleet;
  route "GET" "/api/v1/gameserverfleets/{namespace}/{name}" siw_GetGameServerFleet;
  route "PATCH" "/api/v1/gameserverfleets/{namespace}/{name}" siw_UpdateGameServerFleet;
  route "GET" "/api/v1/gameservers" siw_ListGameServers;
  route "POST" "/api/v1/gameservers/{namespace}" siw_CreateGameServer;
  route "DELETE" "/api/v1/gameservers/{namespace}/{name}" siw_DeleteGameServer;
  route "GET" "/api/v1/gameservers/{namespace}/{name}" siw_GetGameServer;
  route "PATCH" "/api/v1/gameservers/{namespace}/{name}" siw_UpdateGameServerLifecycle;
  route "GET" "/api/v1/gameservers/{namespace}/{name}/actions" siw_ListActions;
  route "POST" "/api/v1/gameservers/{namespace}/{name}/actions/{action}" siw_ExecuteAction;
  route "GET" "/api/v1/gameservers/{namespace}/{name}/console" siw_GetConsole;
  route "GET" "/api/v1/gameservers/{namespace}/{name}/executions/{executionId}" siw_GetActionExecution;
  route "GET" "/api/v1/gameservers/{namespace}/{name}/sftp" siw_GetSFTPInfo;
  route "GET" "/api/v1/gameservers/{namespace}/{name}/snapshots" siw_ListSnapshots;
  route "POST" "/api/v1/gameservers/{namespace}/{name}/snapshots" siw_CreateSnapshot;
  route "GET" "/api/v1/profiles" siw_ListProfiles;
  route "GET" "/api/v1/profiles/{name}" siw_GetProfile;
  route "GET" "/auth/config" siw_GetAuthConfig;
  route "GET" "/healthz" siw_GetHealthz;
  route "GET" "/readyz" siw_GetReadyz].

End Handlers.

(** The operation behind a route. *)
Ltac operation :=
  cbn [bind rt_Handler route op_Handler
    siw_ListAPIKeys siw_CreateAPIKey siw_DeleteAPIKey siw_ListGameServerFleets
    siw_CreateGameServerFleet siw_DeleteGameServerFleet siw_GetGameServerFleet
    siw_UpdateGameServerFleet siw_ListGameServers siw_CreateGameServer siw_DeleteGameServer
    siw_GetGameServer siw_UpdateGameServerLifecycle siw_ListActions siw_ExecuteAction
    siw_GetConsole siw_GetActionExecution siw_GetSFTPInfo siw_ListSnapshots
    siw_CreateSnapshot siw_ListProfiles siw_GetProfile siw_GetAuthConfig siw_GetHealthz
    siw_GetReadyz].

Definition set_Param (params : string → string) (r : Request) : Request := {|
  rq_Method := rq_Method r; rq_Path := rq_Path r; rq_Header := rq_Header r;
  rq_BasicAuth := rq_BasicAuth r; rq_Param := params; rq_Query := rq_Query r;
  rq_Body := rq_Body r; rq_RemoteAddr := rq_RemoteAddr r; rq_User := rq_User r |}.

(** ** The router

    A segment of a URL without escapes. *)
Definition plain (s : string) : Prop := segment s ∧ no_char "%" s = true.
#[export] Instance plain_dec s : Decision (plain s).
Proof. unfold plain. apply _. Defined.

(** The name of a template parameter: ["{name}"] without the braces. *)
Definition param_name (p : string) : string := str_take (String.length p - 2) (str_drop 1 p).

(** The template's parameters take the values of the path's segments. *)
Definition binds (params : string → string) (pats segs : list string) : Prop :=
  Forall2 (λ p s, if is_template p then params (param_name p) = s else p = s) pats segs.

(** [chi] picks a route by method and template and gives the values of its
    parameters, or answers itself (404, 405); the wrapper binds one parameter ([BindStyledParameter]), or
    refuses it. On a path without escapes and empty segments the route picked is one the
    path matches, and binding a parameter changes nothing. *)
Class Router := {
  chi_route : list (string * string) → Request → (nat * (string → string)) + Response;
  BindParam : string → option string;
  chi_route_matches : ∀ table r segs i params,
    segs ≠ [] → Forall segment segs → rq_Path r = path_of segs →
    chi_route table r = inl (i, params) →
    ∃ pattern, table !! i = Some (rq_Method r, pattern)
               ∧ binds params (path_segments pattern) segs;
  BindParam_plain : ∀ s, plain s → BindParam s = Some s;
}.

Section Server.
Context `{Hdec : !Decode, Henc : !Encode, Hqty : !QuantityParser, Hjson : !EntryJSON,
          Htime : !RFC3339, Hrouter : !Router}.
Variables (authCfg : Config) (keyStorage : string) (tenantCfg : TenantConfig).

Definition json_header : list (string * string) := [("Content-Type", "application/json")].

Definition render (rep : Reply) : Response :=
  match rep_Payload rep with
  | PText s => {| rsp_Status := rep_Status rep; rsp_Header := []; rsp_Body := s |}
  | PNothing => {| rsp_Status := rep_Status rep; rsp_Header := []; rsp_Body := "" |}
  | p => {| rsp_Status := rep_Status rep; rsp_Header := json_header; rsp_Body := encode p |}
  end.

(** The generated wrapper of an operation: every path parameter must bind. *)
Definition wrapper (params : list string) (h : Request → M Reply) : Handler := λ r,
  match find_first (λ k, bool_decide (BindParam (rq_Param r k) = None)) params with
  | Some k => Ret (http_Error ("Invalid format for parameter " +:+ k) 400)
  | None =>
      let* rep := h (set_Param (λ k, default "" (BindParam (rq_Param r k))) r) in
      Ret (render rep)
  end.

(** [oapi.HandlerFromMux]. *)
Definition mux : Handler := λ r,
  let table := routes authCfg keyStorage tenantCfg in
  match chi_route ((λ rt, (rt_Method rt, rt_Pattern rt)) <$> table) r with
  | inr rsp => Ret rsp
  | inl (i, params) =>
      match table !! i with
      | None => Ret (http_Error "404 page not found" 404)
      | Some rt => wrapper (rt_Params rt) (rt_Handler rt) (set_Param params r)
      end
  end.

Definition security_headers : list (string * string) := [
  ("X-Content-Type-Options", "nosniff"); ("X-Frame-Options", "DENY");
  ("X-XSS-Protection", "1; mode=block"); ("Referrer-Policy", "strict-origin-when-cross-origin");
  ("Content-Security-Policy", "default-src 'self'")].

Definition securityHeadersMiddleware : Middleware_t := λ next r,
  let* rsp := next r in
  Ret {| rsp_Status := rsp_Status rsp; rsp_Header := security_headers ++ rsp_Header rsp;
         rsp_Body := rsp_Body rsp |}.

(** The middleware in the order [main] registers it, around the routes. The
    logger, the recoverer, the timeout and the size limit of [chi] are left
    out. *)
Definition guarded (authChain : Chain) : Handler :=
  Auth.Middleware authChain (RouteGuard DefaultRules (NamespaceGuard mux)).
Definition server (authChain : Chain) : Handler :=
  securityHeadersMiddleware (AuditLog.Middleware (guarded authChain)).

End Server.

(** ** Who may do what *)

Section Access.
Variable u : User.

Definition is_admin : Prop := us_Role u = "admin".
Definition is_operator : Prop := us_Role u ∈ ["operator"; "admin"].
Definition in_scope (ns : string) : Prop := AllowsNamespace (Some u) ns = true.
Definition cluster_admin : Prop := is_admin ∧ us_Namespaces u = [].

(** The calls a request of user [u] may lead to. Reads stay in the user's
    namespaces, but for the cluster's profiles and the lists, which are
    filtered; secrets and consoles need the operator role. Creating servers,
    fleets and namespaces and deleting servers and fleets needs the admin role;
    updates, executions and snapshots the operator role; each in the user's
    namespaces. Keys need an admin that no namespace restricts. *)
Definition may (X : Type) (e : op X) : Prop :=
  match e with
  | Get k ns n =>
      match k with
      | KGameProfile => True
      | KNamespace => is_admin ∧ in_scope n
      | KSecret | KSvc => is_operator ∧ in_scope ns
      | _ => in_scope ns
      end
  | ListObjs k None _ =>
      match k with KGameServer | KFleet | KGameProfile => True | _ => False end
  | ListObjs KSecret (Some _) _ => cluster_admin
  | ListObjs KSnap (Some ns) _ => in_scope ns
  | ListByField KSnap ns _ _ => in_scope ns
  | Create k o =>
      match k with
      | KNamespace => is_admin ∧ in_scope (om_Name (obj_meta k o))
      | KGameServer | KFleet | KQuota | KNetpol =>
          is_admin ∧ in_scope (om_Namespace (obj_meta k o))
      | KExec | KSnap => is_operator ∧ in_scope (om_Namespace (obj_meta k o))
      | KSecret => cluster_admin
      | _ => False
      end
  | Update k o =>
      match k with
      | KGameServer | KFleet => is_operator ∧ in_scope (om_Namespace (obj_meta k o))
      | _ => False
      end
  | Delete k ns _ =>
      match k with
      | KGameServer | KFleet => is_admin ∧ in_scope ns
      | KSecret => cluster_admin
      | _ => False
      end
  | GrpcDial _ | AgentConsole _ | ConsolePump _ | WsUpgrade | WsWriteJSON _ _ => is_operator
  | Now | RandBytes _ | AuditWrite _ => True
  | _ => False
  end.
End Access.

(** *** The handlers *)

Section HandlersMay.
Context `{Hdec : !Decode, Hqty : !QuantityParser, Hjson : !EntryJSON, Htime : !RFC3339}.
Variables (authCfg : Config) (keyStorage : string) (tenantCfg : TenantConfig) (u : User).

Abbreviation allowed p := (always_given faithful (may u) p).

Lemma LogAction_may action resource user : allowed (LogAction action resource user).
Proof. unfold LogAction, effect. given_calls; done. Qed.

(** The quota, when there is one, is for the namespace itself. *)
Lemma BuildResourceQuota_namespace ns cfg :
  ret_sat (λ q, match q with Some q => om_Namespace (rq_Meta q) = ns | None => True end)
    (BuildResourceQuota ns cfg).
Proof.
  unfold BuildResourceQuota. cbv zeta.
  do 3 (apply (ret_sat_bind (λ _, True)); [apply ret_sat_True|intros ? _]).
  by destruct (bool_decide _).
Qed.

Lemma EnsureNamespace_may ns cfg :
  is_admin u → in_scope u ns → allowed (EnsureNamespace ns cfg).
Proof.
  intros Ha Hs. unfold EnsureNamespace. cbv zeta.
  apply always_given_call; [done|intros [?|err] _; [exact I|]].
  destruct (negb (IsNotFound err)); [exact I|].
  apply always_given_call; [done|intros e _]. destruct (unless IsAlreadyExists e); [exact I|].
  eapply always_given_bind_ret; [|apply BuildResourceQuota_namespace|].
  { unfold BuildResourceQuota, hard_quantity, MustParse. given_calls. }
  intros q Hq. given_calls; cbn; try done. by rewrite Hq.
Qed.

Hint Resolve LogAction_may EnsureNamespace_may : minato.

Ltac may_calls :=
  cbv zeta; repeat first [given_step | solve [auto with minato]]; cbn; try done.

(** The object a read gave back is in the namespace that was asked for. *)
Ltac use_answer :=
  match goal with
  | H : faithful _ _ _ |- _ => let E := fresh in pose proof (proj1 H) as E; cbn in E; by rewrite E
  end.

Variable r : Request.
Hypothesis Hscope : in_scope u (p_namespace r).

Lemma reads_may :
  allowed (GetGameServer r) ∧ allowed (ListActions r) ∧ allowed (GetActionExecution r)
  ∧ allowed (ListSnapshots r) ∧ allowed (GetGameServerFleet r).
Proof.
  unfold GetGameServer, ListActions, GetActionExecution, ListSnapshots, GetGameServerFleet,
    writeError, respondJSON, respond. split_and!; may_calls.
Qed.

Lemma operator_may :
  is_operator u →
  allowed (UpdateGameServerLifecycle r) ∧ allowed (UpdateGameServerFleet r)
  ∧ allowed (ExecuteAction r) ∧ allowed (CreateSnapshot r) ∧ allowed (GetSFTPInfo r).
Proof.
  intros Ho.
  unfold UpdateGameServerLifecycle, UpdateGameServerFleet, ExecuteAction, CreateSnapshot,
    GetSFTPInfo, writeError, respondJSON, respond.
  split_and!; may_calls.
  all: use_answer.
Qed.

Lemma GetConsole_may : is_operator u → allowed (GetConsole r).
Proof.
  intros Ho. unfold GetConsole, proxyConsole, effect, writeError, respondJSON, respond.
  may_calls. all: use_answer.
Qed.

Lemma admin_may :
  is_admin u →
  allowed (CreateGameServer tenantCfg r) ∧ allowed (DeleteGameServer r)
  ∧ allowed (CreateGameServerFleet tenantCfg r) ∧ allowed (DeleteGameServerFleet r).
Proof.
  intros Ha.
  unfold CreateGameServer, DeleteGameServer, CreateGameServerFleet, DeleteGameServerFleet,
    writeError, respondJSON, respond.
  split_and!; may_calls.
Qed.
End HandlersMay.

Section UnscopedMay.
Context `{Hdec : !Decode, Hqty : !QuantityParser, Hjson : !EntryJSON, Htime : !RFC3339}.
Variables (authCfg : Config) (keyStorage : string) (tenantCfg : TenantConfig) (u : User).
Abbreviation allowed p := (always_given faithful (may u) p).
Hint Resolve LogAction_may : minato.
Ltac may_calls :=
  cbv zeta; repeat first [given_step | solve [auto with minato]]; cbn; try done.

Lemma lists_may r :
  allowed (ListGameServers r) ∧ allowed (ListGameServerFleets r) ∧ allowed (ListProfiles r)
  ∧ allowed (GetProfile r).
Proof.
  unfold ListGameServers, ListGameServerFleets, ListProfiles, GetProfile,
    writeError, respondJSON, respond. split_and!; may_calls.
Qed.

Lemma keys_may r :
  cluster_admin u →
  allowed (ListAPIKeys keyStorage r) ∧ allowed (CreateAPIKey keyStorage r)
  ∧ allowed (DeleteAPIKey keyStorage r).
Proof.
  intros Hc. unfold ListAPIKeys, CreateAPIKey, DeleteAPIKey, ListKeys, list_key_secrets, DeleteKey,
    GenerateKey, generateRandomKey, expiry_accepted, writeError, respondJSON, respond.
  split_and!; may_calls.
Qed.
End UnscopedMay.

(** *** The routes behind the guards *)

Section Routed.
Context `{Hdec : !Decode, Henc : !Encode, Hqty : !QuantityParser, Hjson : !EntryJSON,
          Htime : !RFC3339, Hrouter : !Router}.
Variables (authCfg : Config) (keyStorage : string) (tenantCfg : TenantConfig) (u : User).
Abbreviation allowed p := (always_given faithful (may u) p).

Lemma wrapper_may params h r :
  (∀ r', rq_User r' = rq_User r → (∀ k, plain (rq_Param r k) → rq_Param r' k = rq_Param r k) →
         allowed (h r')) →
  allowed (wrapper params h r).
Proof.
  intros H. unfold wrapper. destruct (find_first _ params); [exact I|].
  apply always_given_bind; [|intros rep; exact I]. apply H; [done|].
  intros k Hk. cbn. by rewrite BindParam_plain.
Qed.

(** What the guards have checked when the request of [u] for the route reaches
    its operation. *)
Definition admitted (r : Request) (segs : list string) : Prop :=
  (∀ required cluster, policy (rq_Method r) segs = Some (required, cluster) →
     us_Role u ∈ required ∧ (cluster = true → us_Namespaces u = []))
  ∧ (∀ api v kind ns rest, segs = api :: v :: kind :: ns :: rest → api = "api" →
       kind = "gameservers" ∨ kind = "gameserverfleets" → in_scope u ns).

(** The namespace guard alone: the second half of [admitted]. *)
Lemma NamespaceGuard_may r segs next :
  segs ≠ [] → Forall segment segs → rq_Path r = path_of segs → rq_User r = Some u →
  ((∀ api v kind ns rest, segs = api :: v :: kind :: ns :: rest → api = "api" →
      kind = "gameservers" ∨ kind = "gameserverfleets" → in_scope u ns) → allowed (next r)) →
  allowed (NamespaceGuard next r).
Proof.
  intros Hne Hs Hp Hu H.
  destruct segs as [|api [|v [|kind [|ns rest]]]]; try done.
  1-3: unfold NamespaceGuard; rewrite Hp, NamespaceFromPath_path_of by done;
       apply H; intros; simplify_eq.
  rewrite (NamespaceGuard_path_of _ _ api v kind ns rest) by done.
  unfold GetUser. rewrite Hu.
  destruct (_ && negb _) eqn:E; [exact I|]. apply H. intros ????? [= <- <- <- <- <-] -> Hk.
  unfold in_scope. apply not_false_is_true. intros Hf. rewrite Hf in E.
  destruct Hk as [-> | ->]; discriminate E.
Qed.

Lemma guards_may r segs :
  segs ≠ [] → Forall segment segs → rq_Path r = path_of segs → rq_User r = Some u →
  (admitted r segs → allowed (mux authCfg keyStorage tenantCfg r)) →
  allowed (RouteGuard DefaultRules (NamespaceGuard (mux authCfg keyStorage tenantCfg)) r).
Proof.
  intros Hne Hs Hp Hu H. rewrite RouteGuard_enforce, (DefaultRules_policy r segs) by done.
  unfold enforce. destruct (policy (rq_Method r) segs) as [[required cluster]|] eqn:E.
  - rewrite Hu. destruct (bool_decide_reflect (us_Role u ∈ required)) as [Hr|]; [|exact I].
    destruct (negb cluster || _) eqn:Ec; [|exact I]. cbn [andb].
    eapply NamespaceGuard_may; [done..|]. intros Hn. apply H. split; [|done].
    rewrite E. intros ?? [= <- <-]. split; [done|]. intros ->.
    by apply bool_decide_eq_true in Ec.
  - eapply NamespaceGuard_may; [done..|]. intros Hn. apply H. split; [|done]. by rewrite E.
Qed.

(** Every route's operation, once admitted, stays within what the user may do. *)
Lemma mux_may r segs :
  segs ≠ [] → Forall plain segs → rq_Path r = path_of segs → rq_User r = Some u →
  admitted r segs → allowed (mux authCfg keyStorage tenantCfg r).
Proof.
  intros Hne Hs Hp Hu [Hpol Hns].
  assert (Forall segment segs) as Hseg by (eapply Forall_impl; [exact Hs|by intros ? []]).
  unfold mux. destruct (chi_route _ r) as [[i params]|rsp] eqn:E; [|exact I].
  destruct (chi_route_matches _ _ segs i params Hne Hseg Hp E) as (pattern & Hi & Hb).
  rewrite list_lookup_fmap in Hi.
  destruct (routes _ _ _ !! i) as [rt|] eqn:Ert; [|done].
  injection Hi as Hm Hpat. rewrite <-Hm in Hpol.
  apply wrapper_may. cbn [rq_User set_Param rq_Param]. intros r' Hr' Hpar.
  apply list_elem_of_lookup_2 in Ert. unfold routes in Ert.
  repeat (apply elem_of_cons in Ert as [->|Ert]).
  26: by apply elem_of_nil in Ert.
  all: cbn [rt_Method rt_Pattern rt_Handler route] in *.
  all: rewrite <-Hpat in Hb; unfold binds in Hb.
  all: match type of Hb with Forall2 _ (path_segments ?p) _ =>
         let x := eval vm_compute in (path_segments p) in
         change (path_segments p) with x in Hb end.
  all: repeat match goal with
    | H : Forall2 _ (_ :: _) _ |- _ => inversion H; clear H; simplify_eq
    | H : Forall2 _ [] _ |- _ => inversion H; clear H; simplify_eq
    end.
  all: repeat match goal with
    | H : context [is_template ?p] |- _ =>
        let x := eval vm_compute in (is_template p) in change (is_template p) with x in H;
        cbn iota in H
    | H : context [param_name ?p] |- _ =>
        let x := eval vm_compute in (param_name p) in change (param_name p) with x in H
    end; subst.
  all: repeat match goal with H : Forall plain (_ :: _) |- _ => inversion_clear H end.
  all: try (specialize (Hns _ _ _ _ _ eq_refl eq_refl ltac:(auto));
            rewrite <-(Hpar "namespace") in Hns by done; fold (p_namespace r') in Hns).
  all: try (specialize (Hpol _ _ eq_refl) as [Hrole Hcl]).
  all: try exact I.
  all: try (pose proof (Hcl eq_refl) as Hc; apply list_elem_of_singleton in Hrole;
            apply (keys_may keyStorage u r' (conj Hrole Hc))).
  all: try (apply list_elem_of_singleton in Hrole; apply (admin_may tenantCfg u r' Hns Hrole)).
  all: try (apply (operator_may u r' Hns Hrole)).
  all: try (apply (GetConsole_may u r' Hns Hrole)).
  all: try (apply (reads_may u r' Hns)).
  all: try (apply (lists_may u r')).
Qed.

(** *** Public paths *)

Lemma path_of_eq segs segs' :
  segs ≠ [] → Forall segment segs → segs' ≠ [] → Forall segment segs' →
  path_of segs = path_of segs' → segs = segs'.
Proof.
  intros H1 H2 H3 H4 H. apply (f_equal path_segments) in H.
  by rewrite !path_segments_path_of in H.
Qed.

Lemma public_path_segs segs :
  segs ≠ [] → Forall segment segs → public_path (path_of segs) = true →
  segs = ["healthz"] ∨ segs = ["readyz"] ∨ segs = ["auth"; "config"].
Proof.
  intros Hne Hs. unfold public_path. rewrite !orb_true_iff, !String.eqb_eq.
  intros [[H|H]|H]; [left|right; left|right; right]; (eapply path_of_eq; [done..| |exact H]); decided.
Qed.

(** The public operations make no calls. *)
Lemma public_may (Q : ∀ X, op X → Prop) r segs :
  segs ≠ [] → Forall segment segs → rq_Path r = path_of segs →
  public_path (rq_Path r) = true →
  always_given faithful Q
    (RouteGuard DefaultRules (NamespaceGuard (mux authCfg keyStorage tenantCfg)) r).
Proof.
  intros Hne Hs Hp Hpub. rewrite RouteGuard_enforce, (DefaultRules_policy r segs) by done.
  rewrite Hp in Hpub. apply public_path_segs in Hpub; [|done..].
  assert (policy (rq_Method r) segs = None ∧ NamespaceFromPath (rq_Path r) = "") as [-> Hn].
  { rewrite Hp, NamespaceFromPath_path_of by done. by destruct Hpub as [->|[-> | ->]]. }
  unfold enforce, NamespaceGuard. rewrite Hn. cbn [fmap option_fmap option_map String.eqb].
  unfold mux. destruct (chi_route _ r) as [[i params]|rsp] eqn:E; [|exact I].
  destruct (chi_route_matches _ _ segs i params Hne Hs Hp E) as (pattern & Hi & Hb).
  rewrite list_lookup_fmap in Hi.
  destruct (routes _ _ _ !! i) as [rt|] eqn:Ert; [|done]. injection Hi as Hm Hpat.
  apply list_elem_of_lookup_2 in Ert. unfold routes in Ert.
  apply Forall2_length in Hb. rewrite <-Hpat in Hb.
  repeat (apply elem_of_cons in Ert as [->|Ert]).
  26: by apply elem_of_nil in Ert.
  all: try exact I.
  all: exfalso; vm_compute in Hb; destruct Hpub as [->|[-> | ->]]; discriminate Hb.
Qed.
End Routed.

(** ** End to end *)

(** The calls of the audit middleware. *)
Definition audit_call (X : Type) (e : op X) : Prop :=
  match e with Now | AuditWrite _ => True | _ => False end.

Lemma AuditLog_Middleware_runs next r t o :
  runs (AuditLog.Middleware next r) t o →
  ∃ pre tn post, t = pre ++ tn ++ post ∧ runs (next r) tn o
                 ∧ Forall (ev_sat audit_call) (pre ++ post).
Proof.
  unfold AuditLog.Middleware. destruct (_ || _).
  { intros H. exists [], t, []. rewrite app_nil_r. done. }
  intros (start & t1 & -> & H). cbn [bind call] in H.
  apply runs_bind in H as [(m & H & ->)|(rsp & tn & post & -> & Hn & H)].
  { exists [Ev Now start], t1, []. rewrite app_nil_r. split; [done|]. split; [done|].
    repeat constructor. }
  destruct H as (stop & t2 & -> & H). destruct H as (now & t3 & -> & H).
  destruct H as ([] & t4 & -> & H). destruct H as [-> ->].
  eexists [Ev Now start], tn, [Ev Now stop; Ev Now now; Ev (AuditWrite _) tt].
  split; [done|]. split; [done|]. repeat constructor.
Qed.

Definition outcome_option {A} (o : outcome A) : option A :=
  match o with Done a => Some a | Crash _ => None end.

Lemma securityHeaders_runs next r t o :
  runs (securityHeadersMiddleware next r) t o →
  ∃ o', runs (next r) t o' ∧ (rsp_Status <$> outcome_option o) = (rsp_Status <$> outcome_option o').
Proof.
  unfold securityHeadersMiddleware.
  intros [(m & H & ->)|(rsp & t1 & t2 & -> & H & [-> ->])]%runs_bind.
  - by exists (Crash m).
  - exists (Done rsp). by rewrite app_nil_r.
Qed.

Section EndToEnd.
Context `{Hdec : !Decode, Henc : !Encode, Hqty : !QuantityParser, Hjson : !EntryJSON,
          Htime : !RFC3339, Hrouter : !Router, Hbcrypt : !Bcrypt}.
Variables (authCfg : Config) (keyStorage : string) (tenantCfg : TenantConfig).

Lemma guarded_runs chain r segs t o :
  segs ≠ [] → Forall plain segs → rq_Path r = path_of segs →
  runs (guarded authCfg keyStorage tenantCfg chain r) t o → Forall (ev_given faithful) t →
  (public_path (rq_Path r) = true ∧ t = [])
  ∨ ∃ ta th res, t = ta ++ th ∧ runs (chain_Authenticate chain r) ta res
      ∧ match res with
        | Done (inl u) => Forall (ev_sat (may u)) th
        | Done (inr _) => th = [] ∧ ∃ rsp, o = Done rsp ∧ rsp_Status rsp = 401
        | Crash _ => th = []
        end.
Proof.
  intros Hne Hs Hp H Hg.
  assert (Forall segment segs) as Hseg by (eapply Forall_impl; [exact Hs|by intros ? []]).
  unfold guarded, Auth.Middleware in H. destruct (public_path (rq_Path r)) eqn:Epub.
  { left. split; [done|].
    pose proof (public_may authCfg keyStorage tenantCfg (λ _ _, False) r segs Hne Hseg Hp Epub) as Ha.
    eapply always_given_runs in Ha; [|exact H|exact Hg].
    destruct t as [|[] t]; [done|]. by inversion Ha. }
  right. apply runs_bind in H as [(m & H & ->)|(res & ta & th & -> & Ha & H)].
  { exists t, [], (Crash m). by rewrite app_nil_r. }
  exists ta, th, (Done res). split; [done|]. split; [done|].
  destruct res as [u|e]; [|destruct H as [-> ->]; split; [done|]; by eexists].
  apply Forall_app in Hg as [_ Hg]. eapply always_given_runs; [|exact H|exact Hg].
  eapply guards_may; [done..|]. intros Hadm. eapply mux_may; done.
Qed.

Lemma access_run chain r segs t o :
  segs ≠ [] → Forall plain segs → rq_Path r = path_of segs →
  runs (server authCfg keyStorage tenantCfg chain r) t o → Forall (ev_given faithful) t →
  ∃ pre ta th post, t = pre ++ (ta ++ th) ++ post
  ∧ Forall (ev_sat audit_call) (pre ++ post)
  ∧ ((public_path (rq_Path r) = true ∧ ta = [] ∧ th = [])
     ∨ ∃ res, runs (chain_Authenticate chain r) ta res
       ∧ match res with
         | Done (inl u) => Forall (ev_sat (may u)) th
         | Done (inr _) => th = [] ∧ ∃ rsp, o = Done rsp ∧ rsp_Status rsp = 401
         | Crash _ => th = []
         end).
Proof.
  intros Hne Hs Hp H Hg. unfold server in H.
  apply securityHeaders_runs in H as (o' & H & Ho).
  apply AuditLog_Middleware_runs in H as (pre & tn & post & -> & H & Ha).
  apply Forall_app in Hg as [_ [Hg _]%Forall_app].
  eapply guarded_runs in H as [[Hpub ->]|(ta & th & res & -> & Hc & Hres)]; [| |done..].
  - exists pre, [], [], post. split; [done|]. split; [done|]. by left.
  - exists pre, ta, th, post. split; [done|]. split; [done|]. right. exists res.
    split; [done|]. destruct res as [[u|e]|m]; [done| |done].
    destruct Hres as [-> (rsp & -> & Hr)]. split; [done|].
    destruct o as [rsp'|m]; cbn in Ho; [|done]. injection Ho as Ho. eexists; split; [done|].
    by rewrite Ho.
Qed.

(** C1: access control, end to end. Take any request for a path without
    escapes or empty segments, served by the whole stack of middleware and routes
    under any answers of the API server (reads give the object asked for),
    and whether or not the run ends in a crash. Apart from the clock
    and the audit log, the run consists of the authentication of the request
    followed by the calls of its operation. If authentication fails, there are
    no further calls and the answer is 401; if it yields a user, every
    later call is one [may] grants this user: reads in the user's namespaces,
    writes with the role required and in the user's namespaces, secrets and
    consoles with the operator role, keys for unrestricted admins. The public paths
    make no calls. *)
Theorem access_control chain r segs t o :
  segs ≠ [] → Forall plain segs → rq_Path r = path_of segs →
  runs (server authCfg keyStorage tenantCfg chain r) t o → Forall (ev_given faithful) t →
  ∃ pre ta th post, t = pre ++ (ta ++ th) ++ post
  ∧ Forall (ev_sat audit_call) (pre ++ post)
  ∧ ((public_path (rq_Path r) = true ∧ ta = [] ∧ th = [])
     ∨ ∃ res, runs (chain_Authenticate chain r) ta res
       ∧ match res with
         | Done (inl u) => Forall (ev_sat (may u)) th
         | Done (inr _) => th = [] ∧ ∃ rsp, o = Done rsp ∧ rsp_Status rsp = 401
         | Crash _ => th = []
         end).
Proof. apply access_run. Qed.

(** The write is one [may] grants. *)
Definition granted (u : User) (w : write) : Prop :=
  match w with
  | WCreate k o => may u _ (Create k o)
  | WUpdate k o => may u _ (Update k o)
  | WStatusUpdate k o => may u _ (StatusUpdate k o)
  | WApply k o => may u _ (Apply k o)
  | WCreateOrUpdate k o => may u _ (CreateOrUpdate k o)
  | WDelete k ns n => may u _ (Delete k ns n)
  end.

Lemma audit_writes t : Forall (ev_sat audit_call) t → writes t = [].
Proof.
  induction 1 as [|[X e x] t He Ht IH]; [done|]. unfold writes in *. cbn [omap list_omap ev_write].
  destruct e; cbn in He |- *; done.
Qed.

Lemma may_writes u t : Forall (ev_sat (may u)) t → Forall (granted u) (writes t).
Proof.
  induction 1 as [|[X e x] t He Ht IH]; [constructor|]. unfold writes in *.
  cbn [omap list_omap ev_write]. destruct e; cbn [write_of]; (constructor; [exact He|done]) || done.
Qed.

(** No write without an authenticated user it is granted to. With the
    chain [BuildChainWithStorage] built from any configuration, a run that writes to
    the API server is the authentication of the request, which writes nothing
    and ends with a user, followed by the operation, whose writes are all the
    writes of the run and are granted to that user. *)
Lemma request_writes_authorized cfg ks t0 chain r segs t o w :
  runs (BuildChainWithStorage cfg ks) t0 (Done (inl chain)) →
  segs ≠ [] → Forall plain segs → rq_Path r = path_of segs →
  runs (server authCfg keyStorage tenantCfg chain r) t o → Forall (ev_given faithful) t →
  w ∈ writes t →
  ∃ pre ta th post u, t = pre ++ ta ++ th ++ post
    ∧ Forall (ev_sat audit_call) (pre ++ post)
    ∧ runs (chain_Authenticate chain r) ta (Done (inl u)) ∧ writes ta = []
    ∧ writes t = writes th ∧ Forall (granted u) (writes th).
Proof.
  intros Hb Hne Hs Hp H Hg Hw.
  destruct (access_run chain r segs t o Hne Hs Hp H Hg) as (pre & ta & th & post & -> & Ha & Hr).
  pose proof Ha as [Hpre%audit_writes Hpost%audit_writes]%Forall_app.
  rewrite !writes_app, Hpre, Hpost, app_nil_r in Hw. cbn [app] in Hw.
  destruct Hr as [(_ & -> & ->)|(res & Hc & Hres)]; [by apply elem_of_nil in Hw|].
  assert (Forall (λ _, False) (writes ta)) as Hta.
  { eapply always_w_runs; [|exact Hc]. by eapply built_chain_no_writes. }
  assert (writes ta = []) as Hta0 by by destruct Hta. rewrite Hta0 in Hw. cbn [app] in Hw.
  destruct res as [[u|e]|m].
  - exists pre, ta, th, post, u. rewrite !writes_app, Hpre, Hpost, Hta0, app_nil_r, <-app_assoc.
    split_and!; [done..|]. by apply may_writes.
  - destruct Hres as [-> _]. by apply elem_of_nil in Hw.
  - subst th. by apply elem_of_nil in Hw.
Qed.

(** ** The audit log *)

(** C33: every answered request but the health checks leaves, as its last
    audit event, the event of the middleware: method, path, and whether the
    status was 400 or more. The middleware runs before the authentication, so
    the event names no user: whoever the request was authenticated as, it says
    "anonymous" with no role. *)
Theorem server_audit chain r t rsp :
  rq_Path r ≠ "/healthz" → rq_Path r ≠ "/readyz" → rq_User r = None →
  runs (server authCfg keyStorage tenantCfg chain r) t (Done rsp) →
  ∃ e, last (audited t) = Some e
  ∧ evt_Method e = rq_Method r ∧ evt_Path e = rq_Path r
  ∧ (evt_Result e = "failure" ↔ 400 <= rsp_Status rsp)
  ∧ evt_User e = "anonymous" ∧ evt_Role e = "".
Proof.
  intros Hh%String.eqb_neq Hr%String.eqb_neq Hu H. unfold server, securityHeadersMiddleware in H.
  run_step H. destruct H as [-> [= ->]]. unfold AuditLog.Middleware in Hrun. rewrite Hh, Hr in Hrun.
  destruct Hrun as (start & t1 & -> & H). cbn [bind call] in H. run_step H.
  destruct H as (stop & t3 & -> & H). destruct H as (now & t4 & -> & H).
  destruct H as ([] & t5 & -> & H). destruct H as [-> [= ->]].
  exists (request_event now r (rsp_Status a0)). rewrite app_nil_r.
  cbn [audited omap list_omap ev_audit]. rewrite omap_app. cbn. rewrite last_snoc.
  unfold GetUser. rewrite Hu. cbn.
  destruct (Z.leb_spec 400 (rsp_Status a0)); split_and!; try done; split; (done || lia).
Qed.
End EndToEnd.

(** ** The write endpoints *)

Section Endpoints.
Context `{Hdec : !Decode, Hqty : !QuantityParser}.

(** What a list endpoint for objects of kind [k] shows: the objects the caller
    may see, in the order the API server gave them. *)
Definition shows {A} (k : kind) (ns : obj k → string) (payload : list (obj k) → A) (r : Request)
    (t : list (event op)) (status : Z) (reply : A) (err : gerr → A) : Prop :=
  (∃ items, t = [Ev (ListObjs k None []) (inl items)] ∧ status = 200
     ∧ ∃ shown, reply = payload shown ∧ shown `sublist_of` items
       ∧ ∀ s, s ∈ shown ↔ s ∈ items ∧ AllowsNamespace (GetUser r) (ns s) = true)
  ∨ (∃ e, t = [Ev (ListObjs k None []) (inr e)] ∧ status = 500 ∧ reply = err e).

Lemma visible_filter {A} (ns : A → string) r items :
  filter (λ s, visible r (ns s)) items `sublist_of` items
  ∧ ∀ s, s ∈ filter (λ s, visible r (ns s)) items
         ↔ s ∈ items ∧ AllowsNamespace (GetUser r) (ns s) = true.
Proof.
  split; [apply sublist_filter|]. intros s. rewrite list_elem_of_filter.
  unfold visible. rewrite Is_true_true. naive_solver.
Qed.

(** the list endpoints show a caller exactly the servers, and the fleets,
    in the caller's namespaces, in the order the API server gave them; when the API
    server fails, its error is reported with status 500. *)
Theorem lists_filtered r t rep :
  (runs (ListGameServers r) t (Done rep) →
   shows KGameServer (λ s, om_Namespace (gs_Meta s)) PGameServers r t
     (rep_Status rep) (rep_Payload rep) (λ e, PError (ge_msg e)))
  ∧ (runs (ListGameServerFleets r) t (Done rep) →
     shows KFleet (λ f, om_Namespace (fl_Meta f)) PFleets r t
       (rep_Status rep) (rep_Payload rep) (λ e, PError (ge_msg e))).
Proof.
  unfold ListGameServers, ListGameServerFleets, shows.
  split; intros (items & t' & -> & H); cbn [bind call] in H;
    (destruct items as [items|e]; destruct H as [-> [= ->]]; [left|right; by eexists]);
    exists items; (split; [done|]); (split; [done|]); eexists; (split; [done|]);
    apply visible_filter.
Qed.

(** *** Patches *)

(** A lifecycle patch the endpoint accepts. *)
Definition valid_lifecycle_patch (p : LifecyclePatch) : Prop :=
  (∀ n, lp_IdleTimeoutSeconds p = Some n → 0 <= n)
  ∧ (is_Some (lp_AutoStart p) ∨ is_Some (lp_IdleTimeoutSeconds p)).
Definition valid_fleet_patch (p : option Z) : Prop := ∃ n, p = Some n ∧ 0 <= n.

(** The patch endpoint for objects of kind [k]: an invalid body is
    refused with 400 and no call; a valid one reads the object and writes it back once,
    changed by [apply]. *)
Definition patches (k : kind) {P} (decoded : P + gerr) (valid : P → Prop)
    (apply : P → obj k → obj k) (r : Request) (t : list (event op)) (status : Z) : Prop :=
  (∃ p o t', decoded = inl p ∧ valid p
     ∧ t = Ev (Get k (p_namespace r) (p_name r)) (inl o) :: t'
     ∧ writes t' = [WUpdate k (apply p o)] ∧ (status = 200 ∨ status = 500))
  ∨ (∃ p e, decoded = inl p ∧ valid p
       ∧ t = [Ev (Get k (p_namespace r) (p_name r)) (inr e)] ∧ status = 404)
  ∨ ((∀ p, decoded = inl p → ¬ valid p) ∧ t = [] ∧ status = 400).

Lemma LogAction_writes action resource user t :
  runs (LogAction action resource user) t (Done tt) → writes t = [].
Proof.
  intros (now & t1 & -> & H). cbn [bind call effect] in H. destruct H as ([] & t2 & -> & [-> _]). done.
Qed.

Lemma lifecycle_patch_run r t rep :
  runs (UpdateGameServerLifecycle r) t (Done rep) →
  patches KGameServer (decode_LifecyclePatch (rq_Body r)) valid_lifecycle_patch
    (λ p s, gs_set_Lifecycle (patch_lifecycle p (gs_Lifecycle (gs_Spec s))) s) r t (rep_Status rep).
Proof.
  unfold UpdateGameServerLifecycle, patches. intros H.
  destruct (decode_LifecyclePatch (rq_Body r)) as [p|e].
  2:{ right; right. destruct H as [-> [= ->]]. done. }
  destruct (match lp_IdleTimeoutSeconds p with Some n => n <? 0 | None => false end) eqn:En.
  { right; right. destruct H as [-> [= ->]]. split; [|done]. intros ? [= <-] [Hv _].
    destruct (lp_IdleTimeoutSeconds p) as [n|]; [|done]. specialize (Hv n eq_refl).
    apply Z.ltb_lt in En. lia. }
  assert (∀ n, lp_IdleTimeoutSeconds p = Some n → 0 <= n) as Hn.
  { intros n E. rewrite E in En. by apply Z.ltb_ge in En. }
  assert (valid_lifecycle_patch p ∨ lp_AutoStart p = None ∧ lp_IdleTimeoutSeconds p = None) as Hv.
  { unfold valid_lifecycle_patch. destruct (lp_AutoStart p), (lp_IdleTimeoutSeconds p); eauto. }
  destruct Hv as [Hv|[E1 E2]].
  - assert (runs (let* server := call (Get KGameServer (p_namespace r) (p_name r)) in
       match server with
       | inr err => writeError 404 err
       | inl server =>
           let server := gs_set_Lifecycle (patch_lifecycle p (gs_Lifecycle (gs_Spec server))) server in
           let* e := call (Update KGameServer server) in
           match e with
           | Some err => writeError 500 err
           | None =>
               let* _ := LogAction "gameserver.lifecycle-updated" (om_Name (gs_Meta server)) (GetUser r) in
               respondJSON 200 (PGameServer server)
           end
       end) t (Done rep)) as H'.
    { destruct Hv as [_ [[? E]|[? E]]]; rewrite E in H; [|destruct (lp_AutoStart p)]; exact H. }
    clear H. destruct H' as (s & t' & -> & H). cbn [bind call] in H.
    destruct s as [s|e]; [|destruct H as [-> [= ->]]; right; left; by exists p, e].
    left. exists p, s, t'. split; [done|]. split; [done|]. split; [done|].
    destruct H as ([e|] & t2 & -> & H); cbn [bind call] in H.
    { destruct H as [-> [= ->]]. auto. }
    run_step H. destruct H as [-> [= ->]], a. apply LogAction_writes in Hrun.
    rewrite app_nil_r. unfold writes in *. cbn [omap list_omap ev_write write_of].
    rewrite Hrun. auto.
  - rewrite E1, E2 in H. right; right. destruct H as [-> [= ->]]. split; [|done].
    intros ? [= <-] [_ [[? E]|[? E]]]; congruence.
Qed.

Lemma fleet_patch_run r t rep :
  runs (UpdateGameServerFleet r) t (Done rep) →
  patches KFleet (decode_FleetPatch (rq_Body r)) valid_fleet_patch
    (λ p f, fleet_set_Replicas (default 0 p) f) r t (rep_Status rep).
Proof.
  unfold UpdateGameServerFleet, patches, valid_fleet_patch. intros H.
  destruct (decode_FleetPatch (rq_Body r)) as [[n|]|e].
  3: right; right; destruct H as [-> [= ->]]; done.
  2: right; right; destruct H as [-> [= ->]]; naive_solver.
  destruct (Z.ltb_spec n 0) as [Hn|Hn].
  { right; right. destruct H as [-> [= ->]]. split; [|done].
    intros ? [= <-] (m & [= ->] & ?). lia. }
  destruct H as (f & t' & -> & H). cbn [bind call] in H.
  destruct f as [f|e]; [|destruct H as [-> [= ->]]; right; left; exists (Some n), e; naive_solver].
  left. exists (Some n), f, t'. split; [done|]. split; [naive_solver|]. split; [done|].
  destruct H as ([e|] & t2 & -> & H); cbn [bind call] in H.
  { destruct H as [-> [= ->]]. auto. }
  run_step H. destruct H as [-> [= ->]], a. apply LogAction_writes in Hrun.
  rewrite app_nil_r. unfold writes in *. cbn [omap list_omap ev_write write_of].
  rewrite Hrun. auto.
Qed.

(** the patch endpoints. A lifecycle patch must set [autoStart] or a
    non-negative [idleTimeoutSeconds], a fleet patch must set a non-negative replica
    count; anything else is refused with 400 before any call. A valid patch
    reads the object and writes it back once with exactly these fields
    changed: metadata, status and every other field of the specification keep the
    values read, and a field the lifecycle patch leaves out keeps its value. *)
Theorem patch_endpoints_correct r t rep :
  (runs (UpdateGameServerLifecycle r) t (Done rep) →
   patches KGameServer (decode_LifecyclePatch (rq_Body r)) valid_lifecycle_patch
     (λ p s, gs_set_Lifecycle (patch_lifecycle p (gs_Lifecycle (gs_Spec s))) s) r t (rep_Status rep))
  ∧ (runs (UpdateGameServerFleet r) t (Done rep) →
     patches KFleet (decode_FleetPatch (rq_Body r)) valid_fleet_patch
       (λ p f, fleet_set_Replicas (default 0 p) f) r t (rep_Status rep)).
Proof. split; [apply lifecycle_patch_run|apply fleet_patch_run]. Qed.

End Endpoints.

(** *** Every fleet the API writes has a replica count the operator can handle *)

Definition fleet_ok (w : write) : Prop :=
  match w with
  | WCreate k o | WUpdate k o =>
      match k as k return obj k → Prop with
      | KFleet => λ f, 0 <= fl_Replicas (fl_Spec f)
      | _ => λ _, True
      end o
  | _ => True
  end.

Section FleetWrites.
Context `{Hdec : !Decode, Henc : !Encode, Hqty : !QuantityParser, Hjson : !EntryJSON,
          Htime : !RFC3339, Hrouter : !Router}.
Variables (authCfg : Config) (keyStorage : string) (tenantCfg : TenantConfig).

Lemma LogAction_fleet_ok action resource user : always (w_sat fleet_ok) (LogAction action resource user).
Proof. unfold LogAction. writes_safe. Qed.
Lemma EnsureNamespace_fleet_ok ns cfg : always (w_sat fleet_ok) (EnsureNamespace ns cfg).
Proof. unfold EnsureNamespace, BuildResourceQuota, hard_quantity, MustParse. writes_safe. Qed.
Hint Resolve LogAction_fleet_ok EnsureNamespace_fleet_ok : minato.

Lemma fleet_handlers_ok r :
  always (w_sat fleet_ok) (CreateGameServerFleet tenantCfg r)
  ∧ always (w_sat fleet_ok) (UpdateGameServerFleet r).
Proof.
  unfold CreateGameServerFleet, UpdateGameServerFleet, writeError, respondJSON, respond.
  split; writes_safe; by apply Z.ltb_ge.
Qed.

Lemma routes_fleet_ok rt r :
  rt ∈ routes authCfg keyStorage tenantCfg → always (w_sat fleet_ok) (rt_Handler rt r).
Proof.
  intros H. unfold routes in H.
  repeat (apply elem_of_cons in H as [->|H];
          [operation|]).
  26: by apply elem_of_nil in H.
  all: try apply fleet_handlers_ok.
  all: unfold ListAPIKeys, CreateAPIKey, DeleteAPIKey, ListGameServerFleets, DeleteGameServerFleet,
    GetGameServerFleet, ListGameServers, CreateGameServer, DeleteGameServer, GetGameServer,
    UpdateGameServerLifecycle, ListActions, ExecuteAction, GetConsole, proxyConsole,
    GetActionExecution, GetSFTPInfo, ListSnapshots, CreateSnapshot, ListProfiles, GetProfile,
    GetAuthConfig, GetHealthz, GetReadyz, ListKeys, list_key_secrets, DeleteKey, GenerateKey,
    generateRandomKey, expiry_accepted, writeError, respondJSON, respond; writes_safe.
Qed.

(** the API never writes a fleet with a negative replica count, on any
    route and under any answers: creations and patches are refused before the
    write. (The fleet controller crashes on a negative count.) *)
Theorem fleet_writes_nonnegative r t o :
  runs (mux authCfg keyStorage tenantCfg r) t o → Forall fleet_ok (writes t).
Proof.
  apply always_w_runs. unfold always_w, mux.
  destruct (chi_route _ r) as [[i params]|rsp]; [|exact I].
  destruct (routes _ _ _ !! i) as [rt|] eqn:E; [|exact I].
  unfold wrapper. destruct (find_first _ _); [exact I|].
  apply always_bind; [|intros rep; exact I].
  apply routes_fleet_ok. by eapply list_elem_of_lookup_2.
Qed.
End FleetWrites.

(** ** Witnesses *)

(** A router: the first route of the method whose template binds. *)
Definition ex_params (pats segs : list string) (k : string) : string :=
  match find_first (λ ps, is_template ps.1 && (param_name ps.1 =s k)) (zip pats segs) with
  | Some (_, s) => s
  | None => ""
  end.
#[export] Instance binds_dec params pats segs : Decision (binds params pats segs).
Proof.
  unfold binds. refine (@Forall2_dec _ _ _ _ pats segs). intros p s.
  destruct (is_template p); apply _.
Defined.
Definition ex_matches (r : Request) (route : string * string) : bool :=
  let pats := path_segments route.2 in
  let segs := path_segments (rq_Path r) in
  (route.1 =s rq_Method r) && bool_decide (binds (ex_params pats segs) pats segs).
Fixpoint ex_find (i : nat) (table : list (string * string)) (r : Request)
  : option (nat * (string → string)) :=
  match table with
  | [] => None
  | rt :: table =>
      if ex_matches r rt
      then Some (i, ex_params (path_segments rt.2) (path_segments (rq_Path r)))
      else ex_find (S i) table r
  end.

Lemma ex_find_spec i table r j params :
  ex_find i table r = Some (j, params) →
  ∃ n pattern, j = (i + n)%nat ∧ table !! n = Some (rq_Method r, pattern)
               ∧ binds params (path_segments pattern) (path_segments (rq_Path r)).
Proof.
  revert i. induction table as [|[m p] table IH]; intros i; cbn [ex_find]; [done|].
  destruct (ex_matches r (m, p)) eqn:E.
  - intros [= <- <-]. unfold ex_matches in E. cbn [fst snd] in E. apply andb_true_iff in E as [->%String.eqb_eq Hb].
    apply bool_decide_eq_true in Hb. exists 0%nat, p. rewrite Nat.add_0_r. done.
  - intros (n & pattern & -> & H)%IH. exists (S n), pattern.
    rewrite Nat.add_succ_r. done.
Qed.

Program Definition ex_Router : Router := {|
  chi_route table r :=
    match ex_find 0 table r with
    | Some m => inl m
    | None => inr (http_Error "404 page not found" 404)
    end;
  BindParam s := if s =s "" then None else Some s;
|}.
Next Obligation.
  intros table r segs i params Hne Hs Hp. cbn.
  destruct (ex_find 0 table r) as [m|] eqn:E; [|done]. intros [= ->].
  apply ex_find_spec in E as (n & pattern & -> & Hi & Hb). exists pattern.
  rewrite Hp, path_segments_path_of in Hb by done. done.
Qed.
Next Obligation.
  intros s [[Hs _] _]. cbn. by rewrite (proj2 (String.eqb_neq _ _) Hs).
Qed.

Definition ex_fleet (replicas : Z) : GameServerFleet := {|
  fl_Meta := new_meta "lobby" "tenant-a" None;
  fl_Spec := {| fl_Profile := "minecraft"; fl_Replicas := replicas;
    fl_Template := {| tpl_Metadata := {| tm_Labels := None; tm_Annotations := None |};
                      tpl_Spec := {| fgs_Env := None |} |};
    fl_UpdateStrategy := {| us_Type := ""; us_RollingUpdate := None |};
    fl_PriorityClassName := ""; fl_TopologySpreadConstraints := [] |};
  fl_Status := {| fls_Replicas := 0; fls_ReadyReplicas := 0; fls_UpdatedReplicas := 0;
                  fls_Conditions := [] |} |}.

(** The bodies: "3" and "-1" patch the replicas of a fleet. *)
Definition ex_Decode : Decode := {|
  decode_GameServer _ := inr (errorf "unexpected body");
  decode_Fleet _ := inl (ex_fleet 2);
  decode_params _ := inr (errorf "EOF");
  decode_LifecyclePatch s :=
    if s =s "stop" then inl {| lp_AutoStart := Some false; lp_IdleTimeoutSeconds := None |}
    else inr (errorf "unknown field");
  decode_FleetPatch s := inl (Atoi s);
  decode_KeyRequest _ := inr (errorf "unexpected body") |}.
Definition ex_Encode : Encode := λ _, "{}".
Definition ex_Parser : QuantityParser := λ _, None.

Definition ex_operator : User := {|
  us_ID := "o"; us_Username := "olga"; us_Email := ""; us_Role := "operator"; us_Source := "apikey";
  us_Namespaces := ["tenant-*"] |}.
Definition ex_provider (u : User) : Provider :=
  {| pv_Name := "test"; pv_Authenticate := λ _, Ret (inl u) |}.

Definition ex_patch (path body : string) : Request := {|
  rq_Method := "PATCH"; rq_Path := path; rq_Header := λ _, ""; rq_BasicAuth := None;
  rq_Param := λ k, if k =s "namespace" then "tenant-a" else if k =s "name" then "lobby" else "";
  rq_Query := λ _, ""; rq_Body := body; rq_RemoteAddr := "10.0.0.9"; rq_User := None |}.

Definition ex_cp_env : ∀ X, op X → X := answer (with_obj KFleet (ex_fleet 2) no_objects) no_lists 0.
Definition ex_stack (u : User) : Handler :=
  @server ex_Decode ex_Encode ex_Parser ex_EntryJSON ex_RFC3339 ex_Router
    (Auth.LoadConfig (λ _, "")) "minato-system" ex_tenant_config [ex_provider u].

(** An operator of [tenant-*] scales a fleet of [tenant-a]: 200. In another
    namespace: 403; a viewer: 403. *)
Example ex_scale :
  rsp_Status <$> outcome_option (run_outcome ex_cp_env
    (ex_stack ex_operator (ex_patch "/api/v1/gameserverfleets/tenant-a/lobby" "3"))) = Some 200.
Proof. vm_compute. reflexivity. Qed.
Example ex_scale_elsewhere :
  rsp_Status <$> outcome_option (run_outcome ex_cp_env
    (ex_stack ex_operator (ex_patch "/api/v1/gameserverfleets/prod/lobby" "3"))) = Some 403.
Proof. vm_compute. reflexivity. Qed.
Example ex_scale_viewer :
  rsp_Status <$> outcome_option (run_outcome ex_cp_env
    (ex_stack ex_viewer (ex_patch "/api/v1/gameserverfleets/tenant-a/lobby" "3"))) = Some 403.
Proof. vm_compute. reflexivity. Qed.

Definition ex_scale_request : Request := ex_patch "/api/v1/gameserverfleets/tenant-a/lobby" "3".
Definition ex_scale_run : M Response := ex_stack ex_operator ex_scale_request.

Lemma ex_scale_faithful : Forall (ev_given faithful) (run_trace ex_cp_env ex_scale_run).
Proof. vm_compute. repeat (constructor; [try exact I; try (split; reflexivity)|]). constructor. Qed.

Lemma access_control_witness :
  ∃ pre ta th post, run_trace ex_cp_env ex_scale_run = pre ++ (ta ++ th) ++ post
  ∧ (∃ w, writes (run_trace ex_cp_env ex_scale_run) = [w] ∧ write_ns w = "tenant-a")
  ∧ ((public_path "/api/v1/gameserverfleets/tenant-a/lobby" = true ∧ ta = [] ∧ th = [])
     ∨ ∃ res, runs (chain_Authenticate [ex_provider ex_operator] ex_scale_request) ta res
       ∧ match res with
         | Done (inl u) => Forall (ev_sat (may u)) th
         | Done (inr _) => th = [] ∧ ∃ rsp, run_outcome ex_cp_env ex_scale_run = Done rsp
                                      ∧ rsp_Status rsp = 401
         | Crash _ => th = []
         end).
Proof.
  destruct (@access_control ex_Decode ex_Encode ex_Parser ex_EntryJSON ex_RFC3339 ex_Router
    (Auth.LoadConfig (λ _, "")) "minato-system" ex_tenant_config [ex_provider ex_operator]
    ex_scale_request ["api"; "v1"; "gameserverfleets"; "tenant-a"; "lobby"] _ _
    ltac:(discriminate) ltac:(decided) eq_refl (run_runs ex_cp_env ex_scale_run) ex_scale_faithful)
    as (pre & ta & th & post & Ht & _ & H).
  exists pre, ta, th, post. split; [exact Ht|]. split; [|exact H].
  eexists. split; [vm_compute; reflexivity|reflexivity].
Defined.

(** The chain of a configuration with no authentication ([AUTH_MODE=none]):
    the fleet is scaled in the name of the anonymous administrator. *)
Definition ex_none_config : Config := Auth.LoadConfig (λ k, if String.eqb k "AUTH_MODE" then "none" else "").
Definition ex_none_run : M Response :=
  @server ex_Decode ex_Encode ex_Parser ex_EntryJSON ex_RFC3339 ex_Router
    ex_none_config "minato-system" ex_tenant_config [NewNoneProvider] ex_scale_request.

Lemma ex_none_faithful : Forall (ev_given faithful) (run_trace ex_cp_env ex_none_run).
Proof. vm_compute. repeat (constructor; [try exact I; try (split; reflexivity)|]). constructor. Qed.

Lemma server_audit_witness :
  ∃ e, last (audited (run_trace ex_cp_env ex_scale_run)) = Some e
       ∧ evt_User e = "anonymous" ∧ evt_Path e = "/api/v1/gameserverfleets/tenant-a/lobby".
Proof.
  destruct (run_outcome ex_cp_env ex_scale_run) as [rsp|m] eqn:E; [|vm_compute in E; discriminate E].
  assert (runs ex_scale_run (run_trace ex_cp_env ex_scale_run) (Done rsp)) as H.
  { rewrite <-E. apply run_runs. }
  destruct (@server_audit ex_Decode ex_Encode ex_Parser ex_EntryJSON ex_RFC3339 ex_Router
    (Auth.LoadConfig (λ _, "")) "minato-system" ex_tenant_config [ex_provider ex_operator]
    ex_scale_request _ rsp ltac:(discriminate) ltac:(discriminate) eq_refl H)
    as (e & He & _ & Hp & _ & Hu & _).
  exists e. split; [exact He|]. split; [exact Hu|exact Hp].
Defined.

(** A caller of [tenant-*] among servers of two tenants and of production. *)
Definition ex_cp_server (ns name : string) : GameServer := {|
  gs_Meta := new_meta name ns None;
  gs_Spec := {| gs_Profile := "minecraft"; gs_Tier := ""; gs_Env := None;
    gs_Storage := {| gst_Size := ""; gst_StorageClass := ""; gst_SnapshotRef := None |};
    gs_Lifecycle := {| lc_IdleTimeoutSeconds := 0; lc_AutoStart := None |};
    gs_PriorityClassName := ""; gs_TopologySpreadConstraints := []; gs_LoadBalancerIP := "" |};
  gs_Status := {| gss_State := ""; gss_AgentVersion := ""; gss_Players := 0;
    gss_PlayerCapacity := 0; gss_LastActivity := None; gss_Endpoints := [];
    gss_Conditions := [] |} |}.
Definition ex_list_request : Request :=
  ex_request "GET" "/api/v1/gameservers" "" (Some ex_operator).
Definition ex_list_env : ∀ X, op X → X :=
  answer no_objects (with_list KGameServer [ex_cp_server "tenant-a" "gs1"; ex_cp_server "prod" "gs2";
                                            ex_cp_server "tenant-b" "gs3"] no_lists) 0.

Lemma lists_filtered_witness :
  let p := ListGameServers ex_list_request in
  ∃ rep, run_outcome ex_list_env p = Done rep
  ∧ shows KGameServer (λ s, om_Namespace (gs_Meta s)) PGameServers ex_list_request
      (run_trace ex_list_env p) (rep_Status rep) (rep_Payload rep) (λ e, PError (ge_msg e))
  ∧ rep_Payload rep = PGameServers [ex_cp_server "tenant-a" "gs1"; ex_cp_server "tenant-b" "gs3"].
Proof.
  intros p. eexists. split; [reflexivity|]. split; [|vm_compute; reflexivity].
  apply (proj1 (lists_filtered ex_list_request (run_trace ex_list_env p) _)).
  exact (run_runs ex_list_env p).
Defined.

Lemma patch_endpoints_correct_witness :
  let p := @UpdateGameServerFleet ex_Decode ex_scale_request in
  ∃ rep, run_outcome ex_cp_env p = Done rep
  ∧ patches KFleet (@decode_FleetPatch ex_Decode "3") valid_fleet_patch
      (λ p f, fleet_set_Replicas (default 0 p) f) ex_scale_request
      (run_trace ex_cp_env p) (rep_Status rep)
  ∧ writes (run_trace ex_cp_env p) = [WUpdate KFleet (ex_fleet 3)].
Proof.
  intros p. eexists. split; [reflexivity|]. split; [|vm_compute; reflexivity].
  apply (proj2 (@patch_endpoints_correct ex_Decode ex_scale_request (run_trace ex_cp_env p) _)).
  exact (run_runs ex_cp_env p).
Defined.

Lemma fleet_writes_nonnegative_witness :
  let p := @mux ex_Decode ex_Encode ex_Parser ex_EntryJSON ex_RFC3339 ex_Router
    (Auth.LoadConfig (λ _, "")) "minato-system" ex_tenant_config ex_scale_request in
  Forall fleet_ok (writes (run_trace ex_cp_env p)) ∧ length (writes (run_trace ex_cp_env p)) = 1%nat.
Proof.
  intros p. split; [|vm_compute; reflexivity].
  exact (@fleet_writes_nonnegative ex_Decode ex_Encode ex_Parser ex_EntryJSON ex_RFC3339 ex_Router
    (Auth.LoadConfig (λ _, "")) "minato-system" ex_tenant_config ex_scale_request _ _
    (run_runs ex_cp_env p)).
Defined.
