(* ===== verification/Startup.v ===== *)
(** * Startup: the control plane's process ([main] of [cmd/controlplane/main.go])

    From the environment to the handler that is served: the authentication
    chain, the storage of the keys, the tenants' quotas, the port, and the end of
    the process.  Building the client of the API server, listening and shutting down are calls
    ([cpop]); listening ends with an error, or when a signal asks for it.  The
    theorem puts the process together with the server (ControlPlane). *)

From Stdlib Require Import Ascii String.
From S2P Require Import Prelude GoStrings Prog Api Kube Auth Rbac Tenant AuditLog ControlPlane.
#[local] Open Scope Z_scope.

(** ** Calls *)

Inductive cpop : Type → Type :=
(** a call the components make *)
| Base {X : Type} (e : op X) : cpop X
| GetConfig : cpop (option gerr)
| AddToScheme (group : string) : cpop (option gerr)
| NewClient : cpop (option gerr)
(** [srv.ListenAndServe] in a goroutine while [main] waits for SIGINT or
    SIGTERM: the error of the one, or [None] when the signal comes *)
| ServeUntilSignal (addr : string) (h : Handler) : cpop (option gerr)
(** [srv.Shutdown], with a limit in nanoseconds *)
| Shutdown (timeout : Z) : cpop (option gerr).
Abbreviation P := (prog cpop).

Fixpoint lift {A} (p : M A) : P A :=
  match p with
  | Ret a => Ret a
  | Call e k => Call (Base e) (λ x, lift (k x))
  | Panic m => Panic m
  end.

Definition lift_event (v : event op) : event cpop := match v with @Ev _ X e x => Ev (Base e) x end.

Lemma runs_lift {A} (p : M A) t o : runs (lift p) t o → ∃ t0, t = lift_event <$> t0 ∧ runs p t0 o.
Proof.
  revert t. induction p as [a|X e k IH|m]; intros t; cbn [lift runs].
  - intros [-> ->]. by exists [].
  - intros (x & t' & -> & (t0 & -> & H)%IH). exists (Ev e x :: t0). split; [done|by exists x, t0].
  - intros [-> ->]. by exists [].
Qed.

(** ** The process *)

Definition controlPlaneTimeout : Z := 10 * second.

Section Main.
Context `{Hdec : !Decode, Henc : !Encode, Hqty : !QuantityParser, Hjson : !EntryJSON,
          Htime : !RFC3339, Hrouter : !Router, Hbcrypt : !Bcrypt}.
(** the environment of the process *)
Variable env : string → option string.
Definition Getenv (key : string) : string := default "" (env key).

(** [utilruntime.Must] *)
Definition Must (m : P (option gerr)) : P unit :=
  let* e := m in match e with Some err => Panic (ge_msg err) | None => Ret tt end.

Definition port : string := let port := Getenv "PORT" in if port =s "" then "8080" else port.

(** [log.Fatalf] ends the process with status 1. *)
Definition controlplane_main : P Z :=
  let* e := call GetConfig in
  match e with Some _ => Ret 1 | None =>
  Must (call (AddToScheme "client-go")) ;;;
  Must (call (AddToScheme "operator.minato.io/v1")) ;;;
  let* e := call NewClient in
  match e with Some _ => Ret 1 | None =>
  let authCfg := Auth.LoadConfig Getenv in
  let keyStorage := Getenv "POD_NAMESPACE" in
  let* authChain := lift (BuildChainWithStorage authCfg (Some keyStorage)) in
  match authChain with inr _ => Ret 1 | inl authChain =>
  match Tenant.LoadConfig env with inr _ => Ret 1 | inl tenantCfg =>
  let* e := call (ServeUntilSignal (":" +:+ port) (server authCfg keyStorage tenantCfg authChain)) in
  match e with
  | Some _ => Ret 1
  | None => let* _ := call (Shutdown controlPlaneTimeout) in Ret 0
  end end end end end.

(** The handlers a run listens with, with their addresses. *)
Definition served (tr : list (event cpop)) : list (string * Handler) :=
  omap (λ v, match v with @Ev _ _ e _ => match e with ServeUntilSignal a h => Some (a, h) | _ => None end end) tr.

Lemma served_app t1 t2 : served (t1 ++ t2) = served t1 ++ served t2.
Proof. apply omap_app. Qed.
Lemma served_lift t : served (lift_event <$> t) = [].
Proof. induction t as [|[X e x] t IH]; [done|exact IH]. Qed.
Lemma served_Must g t o : runs (Must (call (AddToScheme g))) t o → served t = [].
Proof.
  intros [(m & (x & t' & -> & [-> ?]) & ->)|(x & t1 & t2 & -> & (y & t' & -> & [-> [= ->]]) & Hr)]%runs_bind;
    [done|]. destruct y; by destruct Hr as [-> _].
Qed.

(** The run of a process that ends: it served at most once, and what; the chain
    was built by this run. *)
Lemma controlplane_main_runs tr code :
  runs controlplane_main tr (Done code) →
  (served tr = [] ∧ code = 1) ∨
  ∃ chain tenantCfg tr1 t0 tr2,
    tr = tr1 ++ (lift_event <$> t0) ++ tr2
    ∧ runs (BuildChainWithStorage (Auth.LoadConfig Getenv) (Some (Getenv "POD_NAMESPACE"))) t0 (Done (inl chain))
    ∧ Tenant.LoadConfig env = inl tenantCfg
    ∧ served tr = [(":" +:+ port, server (Auth.LoadConfig Getenv) (Getenv "POD_NAMESPACE") tenantCfg chain)]
    ∧ (code = 0 ∨ code = 1).
Proof.
  unfold controlplane_main. intros (e & t1 & -> & H). cbn [bind call] in H.
  destruct e as [err|]; [left; by destruct H as [-> [= ->]]|].
  apply runs_bind_Done in H as ([] & t2 & t3 & -> & H2%served_Must & H).
  apply runs_bind_Done in H as ([] & t4 & t5 & -> & H4%served_Must & H).
  destruct H as (e & t6 & -> & H). cbn [bind call] in H.
  assert (∀ t, served (Ev GetConfig None :: t2 ++ t4 ++ Ev NewClient e :: t) = served t) as Hs.
  { intros t. change (served (t2 ++ t4 ++ [Ev NewClient e] ++ t) = served t).
    by rewrite !served_app, H2, H4. }
  destruct e as [err|]; [left; destruct H as [-> [= ->]]; by rewrite Hs|].
  apply runs_bind_Done in H as (c & t7 & t8 & -> & (t0 & -> & Hb)%runs_lift & H).
  rewrite Hs, served_app, served_lift. cbn [app].
  destruct c as [chain|err]; [|left; by destruct H as [-> [= ->]]].
  destruct (Tenant.LoadConfig env) as [tcfg|err] eqn:Et; [|left; by destruct H as [-> [= ->]]].
  right. exists chain, tcfg, (Ev GetConfig None :: t2 ++ t4 ++ [Ev NewClient None]), t0, t8.
  split.
  { cbn [app]. by rewrite <-!app_assoc. }
  destruct H as (e & t9 & -> & H). cbn [bind call] in H.
  destruct e as [err|]; [destruct H as [-> [= ->]]; split_and!; auto|].
  destruct H as (e & t10 & -> & H). destruct H as [-> [= ->]]. split_and!; auto.
Qed.

(** C2: *no write without an authenticated user it is granted to, whatever the
    environment.*  A control plane started in any environment serves, if it
    serves at all, one handler: the server with the tenant configuration of that
    environment and the authentication chain this very run of the process built
    from it.  When a request on that handler writes to the API server at all,
    its run, apart from the clock and the audit log, is the run of this chain on
    the request, which writes nothing and ends with a user, followed by the
    operation; and every write of the whole run is one of the operation's that
    [granted] grants to this user. *)
Theorem process_writes_authorized tr code addr h r segs t o w :
  runs controlplane_main tr (Done code) → (addr, h) ∈ served tr →
  segs ≠ [] → Forall plain segs → rq_Path r = path_of segs →
  runs (h r) t o → Forall (ev_given faithful) t → w ∈ writes t →
  served tr = [(addr, h)] ∧
  ∃ chain tenantCfg tr1 t0 tr2,
    tr = tr1 ++ (lift_event <$> t0) ++ tr2
    ∧ runs (BuildChainWithStorage (Auth.LoadConfig Getenv) (Some (Getenv "POD_NAMESPACE"))) t0 (Done (inl chain))
    ∧ Tenant.LoadConfig env = inl tenantCfg
    ∧ h = server (Auth.LoadConfig Getenv) (Getenv "POD_NAMESPACE") tenantCfg chain
    ∧ ∃ pre ta th post u,
        t = pre ++ ta ++ th ++ post ∧ Forall (ev_sat audit_call) (pre ++ post)
        ∧ runs (chain_Authenticate chain r) ta (Done (inl u)) ∧ writes ta = []
        ∧ writes t = writes th ∧ Forall (granted u) (writes th).
Proof.
  intros Hm Hh Hne Hp Hpath Hr Hf Hw.
  apply controlplane_main_runs in Hm
    as [[Hs _]|(chain & tcfg & tr1 & t0 & tr2 & Htr & Hb & Ht & Hs & _)];
    rewrite Hs in Hh; [by apply elem_of_nil in Hh|].
  apply list_elem_of_singleton in Hh. injection Hh as -> ->. split; [exact Hs|].
  exists chain, tcfg, tr1, t0, tr2. split_and!; [done..|].
  by eapply request_writes_authorized.
Qed.
End Main.

(** ** Witness *)

(** A control plane without authentication, whose operator scales a fleet. *)
Definition ex_environment (k : string) : option string :=
  if k =s "AUTH_MODE" then Some "none" else if k =s "POD_NAMESPACE" then Some "minato-system" else None.
Definition ex_answers (X : Type) (e : cpop X) (s : unit) : X * unit :=
  match e in cpop X return X * unit with
  | Base e => (ex_cp_env _ e, s)
  | _ => (None, s)
  end.

#[local] Existing Instances ex_Decode ex_Encode Tenant.ex_parse ex_EntryJSON ex_RFC3339 ex_Router.
#[local] Instance no_bcrypt : Bcrypt := λ _ _, false.

Definition ex_process : P Z := controlplane_main ex_environment.
Definition ex_handler : Handler :=
  server ex_none_config "minato-system" ex_tenant_config [NewNoneProvider].

Lemma process_writes_authorized_witness :
  let t := (exec ex_answers ex_process tt).1.1 in
  runs ex_process t (Done 0) ∧ served t = [(":8080", ex_handler)] ∧
  ∃ u w, w ∈ writes (run_trace ex_cp_env (ex_handler ex_scale_request))
         ∧ write_ns w = "tenant-a" ∧ granted u w.
Proof.
  cbv zeta.
  assert (Hr : runs ex_process (exec ex_answers ex_process tt).1.1 (Done 0))
    by exact (exec_result_runs ex_answers ex_process tt).
  assert (Hs : served (exec ex_answers ex_process tt).1.1 = [(":8080", ex_handler)]) by reflexivity.
  split; [exact Hr|]. split; [exact Hs|].
  assert (Hw : WUpdate KFleet (ex_fleet 3) ∈ writes (run_trace ex_cp_env (ex_handler ex_scale_request))).
  { replace (writes _) with [WUpdate KFleet (ex_fleet 3)] by (vm_compute; reflexivity).
    apply list_elem_of_here. }
  destruct (@process_writes_authorized ex_Decode ex_Encode Tenant.ex_parse ex_EntryJSON ex_RFC3339 ex_Router
    no_bcrypt ex_environment _ 0 ":8080" ex_handler ex_scale_request
    ["api"; "v1"; "gameserverfleets"; "tenant-a"; "lobby"] _ _ _ Hr
    ltac:(rewrite Hs; apply list_elem_of_here) ltac:(discriminate) ltac:(decided) eq_refl
    (run_runs ex_cp_env (ex_handler ex_scale_request))
    ltac:(vm_compute; repeat (constructor; [try exact I; try (split; reflexivity)|]); constructor) Hw)
    as (_ & _ & _ & _ & _ & _ & _ & _ & _ & _ & pre & ta & th & post & u & _ & _ & _ & _ & E & Hg).
  exists u, (WUpdate KFleet (ex_fleet 3)). split; [exact Hw|]. split; [reflexivity|].
  rewrite E in Hw. exact (proj1 (Forall_forall _ _) Hg _ Hw).
Defined.
