(* ===== verification/Rcon.v ===== *)
(** * Rcon: the RCON clients of the agent SDK ([sdk/agent/rcon])

    The packet codec and the two clients, as programs over the calls on a TCP
    connection; the connection a theorem runs them on is a stream of bytes from
    the peer, [conn].  A packet is a 32-bit little-endian length, a request id, a type, a
    body closed by a NUL, and a final NUL. *)

From Stdlib Require Import Ascii String.
From S2P Require Import Prelude GoStrings Prog Api Kube.

(** ** Calls on a connection *)

Inductive netop : Type → Type :=
| NetDial (addr : string) : netop (option gerr)
| NetWrite (buf : string) : netop (option gerr)
(* [io.ReadFull] on a buffer of [n] bytes *)
| NetRead (n : Z) : netop (string + gerr)
| NetClose : netop (option gerr).

Abbreviation N_ := (prog netop).

(** ** [encoding/binary], little endian *)

Definition byte_at (v : Z) (shift : Z) : ascii :=
  ascii_of_N (Z.to_N (Z.land (Z.shiftr v shift) 255)).
Definition PutUint32 (v : Z) : string :=
  String (byte_at v 0) (String (byte_at v 8) (String (byte_at v 16) (String (byte_at v 24) ""))).

(** The first four bytes; [None] is Go's index panic on a shorter slice. *)
Definition Uint32 (s : string) : option Z :=
  match s with
  | String a (String b (String c (String d _))) =>
      let v x := Z.of_N (N_of_ascii x) in
      Some (Z.lor (v a) (Z.lor (Z.shiftl (v b) 8) (Z.lor (Z.shiftl (v c) 16) (Z.shiftl (v d) 24))))
  | _ => None
  end.

(** [uint32] of an [int32]. *)
Definition to_uint32 (z : Z) : Z := z mod 4294967296.

(** ** Packets ([minecraft.go]) *)

Definition NUL : ascii := "000"%char.
Definition nul : string := String NUL "".

(** The bytes of a packet. *)
Definition packet (id ptype : Z) (body : string) : string :=
  PutUint32 (to_uint32 (wrap32 (Z.of_nat (String.length body) + 10)))
  +:+ PutUint32 (to_uint32 id) +:+ PutUint32 (to_uint32 ptype) +:+ body +:+ nul +:+ nul.

(** A body of 2 GiB makes the [int32] length wrap around, and the buffer too
    short for what is stored in it: Go panics. *)
Definition write_packet (id ptype : Z) (body : string) : N_ (option gerr) :=
  let length := wrap32 (Z.of_nat (String.length body) + 10) in
  if wrap32 (4 + length) <? Z.of_nat (String.length body) + 14
  then Panic "index out of range"
  else call (NetWrite (packet id ptype body)).

(** The bytes before the first NUL; "" when there is none. *)
Fixpoint before_nul (s : string) : option string :=
  match s with
  | "" => None
  | String c s => if Ascii.eqb c NUL then Some "" else String c <$> before_nul s
  end.

Definition readRawPacket : N_ ((Z * Z * string) + gerr) :=
  let* r := call (NetRead 4) in
  match r with
  | inr e => Ret (inr (wrapf "read length" e))
  | inl header =>
      match Uint32 header with
      | None => Panic "index out of range"
      | Some n =>
          let length := wrap32 n in
          if (length <? 10) || (4096 <? length)
          then Ret (inr (errorf ("invalid packet length: " +:+ itoa length)))
          else
            let* r := call (NetRead length) in
            match r with
            | inr e => Ret (inr (wrapf "read packet body" e))
            | inl data =>
                match Uint32 data, Uint32 (str_drop 4 data) with
                | Some id, Some ptype =>
                    Ret (inl (wrap32 id, wrap32 ptype, default "" (before_nul (str_drop 8 data))))
                | _, _ => Panic "index out of range"
                end
            end
      end
  end.

(** ** Clients *)

Record Client := {
  cl_Command : string → N_ (string + gerr);
  cl_Close : N_ (option gerr);
}.

(** [auth]: what a login answer must be. *)
Definition check_login (r : (Z * Z * string) + gerr) : option gerr :=
  match r with
  | inr e => Some e
  | inl (id, ptype, body) =>
      if (id =? -1) || negb (ptype =? 2)
      then Some (errorf ("auth failed: id=" +:+ itoa id +:+ " type=" +:+ itoa ptype +:+
                         " body=" +:+ fmt_q body))
      else None
  end.

Definition auth (send : N_ (option gerr)) : N_ (option gerr) :=
  let* e := send in
  match e with
  | Some e => Ret (Some e)
  | None => let* r := readRawPacket in Ret (check_login r)
  end.

Definition Command (send : string → N_ (option gerr)) (cmd : string) : N_ (string + gerr) :=
  let* e := send cmd in
  match e with
  | Some e => Ret (inr (wrapf "send command" e))
  | None =>
      let* r := readRawPacket in
      Ret (match r with
           | inl (_, _, body) => inl body
           | inr e => inr (wrapf "read response" e)
           end)
  end.

(** The constructor of both clients: dial, log in, close when refused. *)
Definition new_client (game : string) (addr : string) (login : N_ (option gerr)) (c : Client)
  : N_ (Client + gerr) :=
  let* e := call (NetDial addr) in
  match e with
  | Some e => Ret (inr (wrapf ("dial " +:+ game +:+ " rcon") e))
  | None =>
      let* e := login in
      match e with
      | Some e => let* _ := cl_Close c in Ret (inr (wrapf (game +:+ " rcon auth") e))
      | None => Ret (inl c)
      end
  end.

(** Minecraft: the request id is always 1, the packet type is the argument. *)
Definition minecraft_sendPacket (ptype : Z) (body : string) : N_ (option gerr) :=
  write_packet 1 ptype body.
Definition minecraftRCON : Client := {|
  cl_Command := Command (minecraft_sendPacket 2); cl_Close := call NetClose |}.
Definition NewMinecraftRCONClient (addr password : string) : N_ (Client + gerr) :=
  new_client "minecraft" addr (auth (minecraft_sendPacket 3 password)) minecraftRCON.

(** Source: the argument is the request id, the type is always 2
    ([source.go]). *)
Definition source_sendPacket (id : Z) (body : string) : N_ (option gerr) := write_packet id 2 body.
Definition sourceRCON : Client := {|
  cl_Command := Command (source_sendPacket 2); cl_Close := call NetClose |}.
Definition NewSourceRCONClient (addr password : string) : N_ (Client + gerr) :=
  new_client "source" addr (auth (source_sendPacket 3 password)) sourceRCON.

(** Palworld's dialer uses the Source client ([client.go]). *)
Definition PalworldDialer_Dial : string → string → N_ (Client + gerr) := NewSourceRCONClient.

(** ** Palworld's answers ([palworld.go]) *)

Definition newline_char : ascii := "010"%char.
(** The lines that describe a player. *)
Definition player_lines (output : string) : list string :=
  filter (λ line, line ≠ "" ∧ Contains line "name" = false)
    (TrimSpace <$> Split newline_char output).

Definition parsePalworldPlayerCount (output : string) : Z * Z :=
  (Z.of_nat (length (player_lines output)), 0).
Definition parsePalworldPlayerList (output : string) : list string :=
  filter (λ p, p ≠ "") ((λ line, hd "" (Split "," line)) <$> player_lines output).

(** One line of the answer to "Info". *)
Definition info_line (counts : Z * Z) (line : string) : Z * Z :=
  let number after := Atoi (TrimSpace after) in
  let line := TrimSpace line in
  let '(online, capacity) := counts in
  let online := match CutPrefix line "Online Players:" with
                | Some after => default online (number after)
                | None => online
                end in
  let capacity := match CutPrefix line "Max Players:" with
                  | Some after => default capacity (number after)
                  | None => capacity
                  end in
  (online, capacity).
Definition parsePalworldPlayerCountFromInfo (output : string) : Z * Z :=
  foldl info_line (0, 0) (Split newline_char output).

Fixpoint formatPalworldBroadcast (message : string) : string :=
  match message with
  | "" => ""
  | String c s => String (if Ascii.eqb c " " then "_" else c)%char (formatPalworldBroadcast s)
  end.

(** ** A connection *)

Record conn := {
  (** the bytes the peer has sent or will send *)
  c_in : string;
  (** what was written, packet by packet *)
  c_out : list string;
  c_closed : bool;
}.

(** A peer that accepts the connection and every write, and closes its side
    after [c_in]. *)
Definition net (X : Type) (e : netop X) (c : conn) : X * conn :=
  match e in netop X return X * conn with
  | NetDial _ => (None, c)
  | NetWrite buf => (None, {| c_in := c_in c; c_out := c_out c ++ [buf]; c_closed := c_closed c |})
  | NetRead n =>
      if n <=? Z.of_nat (String.length (c_in c))
      then (inl (str_take (Z.to_nat n) (c_in c)),
            {| c_in := str_drop (Z.to_nat n) (c_in c); c_out := c_out c; c_closed := c_closed c |})
      else (inr (errorf "unexpected EOF"), {| c_in := ""; c_out := c_out c; c_closed := c_closed c |})
  | NetClose => (None, {| c_in := c_in c; c_out := c_out c; c_closed := true |})
  end.

(** What a program returns and leaves, run on a connection. *)
Definition on_conn {A} (p : N_ A) (c : conn) : outcome A * conn :=
  let '(_, o, c) := exec net p c in (o, c).

(** ** Integers *)

Lemma byte_at_Z v shift : Z.of_N (N_of_ascii (byte_at v shift)) = Z.land (Z.shiftr v shift) (Z.ones 8).
Proof.
  unfold byte_at. change 255 with (Z.ones 8). rewrite Z.land_ones by lia.
  pose proof (Z.mod_pos_bound (Z.shiftr v shift) (2 ^ 8) ltac:(lia)) as H.
  rewrite N_ascii_embedding by lia. by rewrite Z2N.id by lia.
Qed.

Lemma Uint32_PutUint32 v s : 0 <= v < 4294967296 → Uint32 (PutUint32 v +:+ s) = Some v.
Proof.
  intros Hv. cbn [PutUint32 append Uint32]. f_equal. rewrite !byte_at_Z.
  rewrite Z.shiftr_0_r. apply Z.bits_inj'. intros n Hn.
  assert (32 <= n → Z.testbit v n = false) as Hhigh.
  { intros H. rewrite <-(Z.mod_small v (2 ^ 32)) by lia. apply Z.mod_pow2_bits_high. lia. }
  rewrite !Z.lor_spec, !Z.shiftl_spec, !Z.land_spec by lia.
  assert (∀ k, 0 <= k → Z.testbit (Z.shiftr v k) (n - k) = (k <=? n) && Z.testbit v n) as Hs.
  { intros k Hk. destruct (Z.leb_spec k n).
    - rewrite Z.shiftr_spec by lia. by replace (n - k + k) with n by lia.
    - rewrite Z.testbit_neg_r by lia. done. }
  rewrite !Hs by lia.
  assert (∀ k, 0 <= k → Z.testbit (Z.ones 8) (n - k) = (k <=? n) && (n <? k + 8)) as Ho.
  { intros k Hk. destruct (Z.leb_spec k n); [|by rewrite Z.testbit_neg_r by lia].
    rewrite Z.testbit_ones_nonneg by lia.
    destruct (Z.ltb_spec (n - k) 8), (Z.ltb_spec n (k + 8)); (done || lia). }
  rewrite !Ho by lia. rewrite Z.testbit_ones_nonneg by lia.
  destruct (Z.testbit v n) eqn:Eb; [|by rewrite !andb_false_r].
  assert (n < 32) by (apply Z.nle_gt; intros H; apply Hhigh in H; congruence).
  destruct (Z.leb_spec 8 n), (Z.leb_spec 16 n), (Z.leb_spec 24 n), (Z.ltb_spec n 8),
    (Z.ltb_spec n (8 + 8)), (Z.ltb_spec n (16 + 8)), (Z.ltb_spec n (24 + 8)); lia || done.
Qed.

Lemma to_uint32_range z : 0 <= to_uint32 z < 4294967296.
Proof. apply Z.mod_pos_bound. lia. Qed.
Lemma wrap32_to_uint32 z : is_int32 z → wrap32 (to_uint32 z) = z.
Proof.
  unfold is_int32, wrap32, to_uint32. intros H.
  rewrite Zplus_mod_idemp_l. rewrite Z.mod_small by lia. lia.
Qed.

(** ** Running on a connection *)

Lemma on_conn_ret {A} (a : A) c : on_conn (Ret a) c = (Done a, c).
Proof. done. Qed.

Lemma on_conn_bind {A B} (p : N_ A) (f : A → N_ B) c :
  on_conn (bind p f) c =
  match on_conn p c with
  | (Done a, c') => on_conn (f a) c'
  | (Crash m, c') => (Crash m, c')
  end.
Proof.
  unfold on_conn. revert c. induction p as [a|X e k IH|m]; intros c; cbn [bind exec]; [done| |done].
  destruct (net X e c) as [x c']. specialize (IH x c').
  destruct (exec net (bind (k x) f) c') as [[t1 o1] c1]. rewrite IH.
  destruct (exec net (k x) c') as [[t2 o2] c2]. by destruct o2.
Qed.

Lemma on_conn_call {X B} (e : netop X) (f : X → N_ B) c :
  on_conn (bind (call e) f) c = let '(x, c') := net X e c in on_conn (f x) c'.
Proof. rewrite on_conn_bind. unfold on_conn, call. cbn [exec]. by destruct (net X e c). Qed.

Definition c_set_in (s : string) (c : conn) : conn :=
  {| c_in := s; c_out := c_out c; c_closed := c_closed c |}.
Definition c_write (buf : string) (c : conn) : conn :=
  {| c_in := c_in c; c_out := c_out c ++ [buf]; c_closed := c_closed c |}.

(** Reading what is there. *)
Lemma net_read a b c :
  c_in c = a +:+ b →
  net _ (NetRead (Z.of_nat (String.length a))) c = (inl a, c_set_in b c).
Proof.
  intros H. cbn [net]. rewrite H, str_length_app.
  rewrite (proj2 (Z.leb_le _ _)) by lia. rewrite Nat2Z.id, str_take_app, str_drop_app. done.
Qed.

Lemma before_nul_app body rest : no_char NUL body = true → before_nul (body +:+ nul +:+ rest) = Some body.
Proof.
  unfold no_char. induction body as [|c body IH]; cbn [append before_nul str_forall].
  - done.
  - rewrite andb_true_iff, negb_true_iff. intros [Hc Hb].
    rewrite Hc. change (body +:+ nul +:+ rest) with (body +:+ (nul +:+ rest)). by rewrite IH.
Qed.

(** A body a reader accepts: at most 4086 bytes, none of them NUL. *)
Definition fits (body : string) : Prop :=
  Z.of_nat (String.length body) + 10 <= 4096 ∧ no_char NUL body = true.

(** The part of a packet after the length. *)
Definition payload (id ptype : Z) (body : string) : string :=
  PutUint32 (to_uint32 id) +:+ PutUint32 (to_uint32 ptype) +:+ body +:+ nul +:+ nul.

Lemma packet_split id ptype body :
  packet id ptype body
  = PutUint32 (to_uint32 (wrap32 (Z.of_nat (String.length body) + 10))) +:+ payload id ptype body.
Proof. done. Qed.
Lemma length_payload id ptype body :
  String.length (payload id ptype body) = (String.length body + 10)%nat.
Proof. unfold payload. rewrite !str_length_app. cbn. lia. Qed.

Lemma drop_word v s : str_drop 4 (PutUint32 v +:+ s) = s.
Proof. done. Qed.
Lemma drop_two_words v w s : str_drop 8 (PutUint32 v +:+ PutUint32 w +:+ s) = s.
Proof. done. Qed.

Lemma read_packet id ptype body rest c :
  is_int32 id → is_int32 ptype → fits body → c_in c = packet id ptype body +:+ rest →
  on_conn readRawPacket c = (Done (inl (id, ptype, body)), c_set_in rest c).
Proof.
  intros Hid Hty [Hlen Hnul] Hin. unfold readRawPacket. rewrite on_conn_call.
  rewrite packet_split, <-str_app_assoc in Hin.
  change 4 with (Z.of_nat (String.length
    (PutUint32 (to_uint32 (wrap32 (Z.of_nat (String.length body) + 10)))))).
  rewrite (net_read _ _ _ Hin). rewrite <-(str_app_nil_r (PutUint32 _)).
  rewrite Uint32_PutUint32 by apply to_uint32_range.
  assert (is_int32 (Z.of_nat (String.length body) + 10)) as Hl by (unfold is_int32; lia).
  rewrite (wrap32_to_uint32 (wrap32 _)) by (rewrite wrap32_id; done). rewrite wrap32_id by done.
  rewrite (proj2 (Z.ltb_ge _ _)) by lia. rewrite (proj2 (Z.ltb_ge _ _)) by lia. cbn [orb].
  rewrite on_conn_call.
  replace (Z.of_nat (String.length body) + 10) with (Z.of_nat (String.length (payload id ptype body)))
    by (rewrite length_payload; lia).
  rewrite (net_read (payload id ptype body) rest) by done.
  unfold payload. rewrite Uint32_PutUint32 by apply to_uint32_range.
  rewrite drop_word, Uint32_PutUint32 by apply to_uint32_range.
  rewrite drop_two_words, before_nul_app by done. rewrite !wrap32_to_uint32 by done. done.
Qed.

(** *** Reading never crashes on a stream, and stays within one packet. *)
Lemma Uint32_long s : (4 <= String.length s)%nat → is_Some (Uint32 s).
Proof. destruct s as [|? [|? [|? [|? s]]]]; cbn; intros; try lia. by eexists. Qed.

Lemma before_nul_no_nul s b : before_nul s = Some b → no_char NUL b = true.
Proof.
  revert b. induction s as [|c s IH]; intros b; cbn [before_nul]; [done|].
  destruct (Ascii.eqb c NUL) eqn:E; [by intros [= <-]|].
  destruct (before_nul s) as [b'|]; [|done]. intros [= <-].
  unfold no_char; cbn [str_forall]. rewrite E. by apply IH.
Qed.

Lemma write_small id ptype body c :
  Z.of_nat (String.length body) + 14 < 2147483648 →
  on_conn (write_packet id ptype body) c = (Done None, c_write (packet id ptype body) c).
Proof.
  intros H. unfold write_packet. rewrite !wrap32_id.
  - rewrite (proj2 (Z.ltb_ge _ _)) by lia. done.
  - unfold is_int32. lia.
  - rewrite wrap32_id; unfold is_int32; lia.
Qed.

(** ** The codec *)

(** C39: what one side writes the other side reads: writing a packet (32-bit
    id and type, a body of at most 4086 bytes without NUL) sends one buffer,
    and any connection on which these bytes come next delivers exactly the id, the type and
    the body, leaving the bytes behind them. *)
Theorem packet_round_trip id ptype body c :
  is_int32 id → is_int32 ptype → fits body →
  ∃ p, on_conn (write_packet id ptype body) c = (Done None, c_write p c)
  ∧ ∀ d rest, c_in d = p +:+ rest →
      on_conn readRawPacket d = (Done (inl (id, ptype, body)), c_set_in rest d).
Proof.
  intros Hid Hty Hfit. exists (packet id ptype body). split.
  - apply write_small. destruct Hfit. lia.
  - intros d rest Hin. by apply read_packet.
Qed.

(** What the four bytes of a header announce. *)
Definition little_endian (a b c d : ascii) : Z :=
  Z.of_N (N_of_ascii a) + 256 * Z.of_N (N_of_ascii b) + 65536 * Z.of_N (N_of_ascii c)
  + 16777216 * Z.of_N (N_of_ascii d).

Lemma N_of_ascii_range c : 0 <= Z.of_N (N_of_ascii c) < 256.
Proof. pose proof (N_ascii_bounded c). lia. Qed.

(** Shifted by their places, bytes do not overlap. *)
Lemma lor_shifted a b n : 0 <= n → 0 <= a < 2 ^ n → Z.lor a (Z.shiftl b n) = a + b * 2 ^ n.
Proof.
  intros Hn Ha. rewrite <-Z.shiftl_mul_pow2 by done.
  assert (Z.land a (Z.shiftl b n) = 0) as Hl.
  { apply Z.bits_inj'. intros m Hm. rewrite Z.land_spec, Z.bits_0.
    destruct (Z.ltb_spec m n).
    - rewrite (Z.shiftl_spec_low b) by done. apply andb_false_r.
    - rewrite <-(Z.mod_small a (2 ^ n)) by done. by rewrite Z.mod_pow2_bits_high by lia. }
  rewrite Z.add_nocarry_lxor by done. symmetry. by apply Z.lxor_lor.
Qed.

Lemma Uint32_bytes a b c d s : Uint32 (String a (String b (String c (String d s)))) = Some (little_endian a b c d).
Proof.
  pose proof (N_of_ascii_range a). pose proof (N_of_ascii_range b).
  pose proof (N_of_ascii_range c). pose proof (N_of_ascii_range d).
  cbn [Uint32]. f_equal. unfold little_endian.
  set (x := Z.of_N (N_of_ascii a)) in *. set (y := Z.of_N (N_of_ascii b)) in *.
  set (z := Z.of_N (N_of_ascii c)) in *. set (w := Z.of_N (N_of_ascii d)) in *.
  replace (Z.shiftl w 24) with (Z.shiftl (Z.shiftl w 8) 16) by (by rewrite Z.shiftl_shiftl).
  rewrite <-Z.shiftl_lor. rewrite (lor_shifted z w 8) by lia.
  replace (Z.shiftl (z + w * 2 ^ 8) 16) with (Z.shiftl (Z.shiftl (z + w * 2 ^ 8) 8) 8) by (by rewrite Z.shiftl_shiftl).
  rewrite <-Z.shiftl_lor. rewrite (lor_shifted y _ 8), (lor_shifted x _ 8) by lia. lia.
Qed.

(** A packet read off a stream: its header announces how many bytes follow, and
    these are the id, the type, and a body up to its first NUL (no body when
    there is none). *)
Definition packet_read (input rest : string) (id ptype : Z) (body : string) : Prop :=
  ∃ a b c d e f g h i j k l data,
    input = String a (String b (String c (String d (String e (String f (String g (String h
              (String i (String j (String k (String l (data +:+ rest))))))))))))
    ∧ little_endian a b c d = 8 + Z.of_nat (String.length data) ∧ 10 <= little_endian a b c d <= 4096
    ∧ id = wrap32 (little_endian e f g h) ∧ ptype = wrap32 (little_endian i j k l)
    ∧ no_char NUL body = true
    ∧ ((∃ tail, data = body +:+ nul +:+ tail) ∨ (body = "" ∧ no_char NUL data = true)).

(** A stream no packet can be read off: too short for a header, a header that
    announces too little or too much, or fewer bytes than announced. *)
Definition no_packet (input : string) : Prop :=
  (String.length input < 4)%nat
  ∨ ∃ a b c d s, input = String a (String b (String c (String d s)))
    ∧ let n := wrap32 (little_endian a b c d) in
      n < 10 ∨ 4096 < n ∨ Z.of_nat (String.length s) < n.

Lemma before_nul_spec s :
  let body := default "" (before_nul s) in
  no_char NUL body = true
  ∧ ((∃ tail, s = body +:+ nul +:+ tail) ∨ (body = "" ∧ no_char NUL s = true)).
Proof.
  induction s as [|c s IH]; cbn [before_nul]; [by auto|].
  destruct (Ascii.eqb c NUL) eqn:E.
  - apply Ascii.eqb_eq in E as ->. split; [done|]. left. by exists s.
  - destruct (before_nul s) as [b|] eqn:Eb; cbn in *.
    + destruct IH as [Hb Ht]. unfold no_char in *. cbn [str_forall]. rewrite E. split; [done|].
      destruct Ht as [(tail & ->)|[-> Hs]]; [left; by exists tail|].
      exfalso. clear -Eb Hs. revert Eb Hs. induction s as [|x s IHs]; cbn; [done|].
      destruct (Ascii.eqb x NUL); [done|]. destruct (before_nul s); [|done]. done.
    + destruct IH as [_ Ht]. split; [done|]. right. split; [done|].
      unfold no_char in *. cbn [str_forall]. rewrite E. destruct Ht as [(tail & ->)|[_ Hs]]; [|done].
      discriminate Eb.
Qed.

Lemma read_total c :
  ∃ r c', on_conn readRawPacket c = (Done r, c') ∧ c_out c' = c_out c ∧
  match r with
  | inl (id, ptype, body) => packet_read (c_in c) (c_in c') id ptype body
  | inr _ => no_packet (c_in c)
  end.
Proof.
  unfold readRawPacket. rewrite on_conn_call. cbn [net]. unfold no_packet.
  destruct (Z.leb_spec 4 (Z.of_nat (String.length (c_in c)))) as [H4|H4].
  2:{ eexists _, _. split; [reflexivity|]. split; [done|]. left. lia. }
  destruct (c_in c) as [|x0 [|x1 [|x2 [|x3 s]]]] eqn:Hin; cbn in H4; try lia. clear H4.
  change (str_take (Z.to_nat 4) _) with (String x0 (String x1 (String x2 (String x3 "")))).
  rewrite Uint32_bytes. set (n := little_endian x0 x1 x2 x3).
  assert (0 <= n < 4294967296) as Hrange.
  { unfold n, little_endian. pose proof (N_of_ascii_range x0). pose proof (N_of_ascii_range x1).
    pose proof (N_of_ascii_range x2). pose proof (N_of_ascii_range x3). lia. }
  change (str_drop (Z.to_nat 4) _) with s.
  destruct (Z.ltb_spec (wrap32 n) 10) as [|Hlo], (Z.ltb_spec 4096 (wrap32 n)) as [|Hhi]; cbn [orb];
    try (eexists _, _; split; [reflexivity|]; split; [done|]; right; exists x0, x1, x2, x3, s; by auto).
  assert (wrap32 n = n) as Hn.
  { unfold wrap32 in *. destruct (Z.ltb_spec n 2147483648); [rewrite Z.mod_small by lia; lia|].
    exfalso. replace (n + 2147483648) with ((n - 2147483648) + 1 * 4294967296) in Hlo by lia.
    rewrite Z.mod_add, Z.mod_small in Hlo by lia. lia. }
  rewrite on_conn_call. cbn [net c_in].
  destruct (Z.leb_spec (wrap32 n) (Z.of_nat (String.length s))) as [Hs|Hs].
  2:{ eexists _, _. split; [reflexivity|]. split; [done|]. right. exists x0, x1, x2, x3, s. by auto. }
  rewrite Hn in *. set (data := str_take (Z.to_nat n) s). set (rest := str_drop (Z.to_nat n) s).
  assert (String.length data = Z.to_nat n) as Hd by (apply str_length_take; lia).
  assert (data +:+ rest = s) as Hsplit by apply str_take_drop.
  clearbody data rest. subst s.
  destruct data as [|a0 [|a1 [|a2 [|a3 [|a4 [|a5 [|a6 [|a7 data]]]]]]]]; cbn in Hd; try lia.
  rewrite Uint32_bytes. cbn [str_drop]. rewrite Uint32_bytes.
  eexists _, _. split; [reflexivity|]. split; [done|]. cbn [c_in].
  destruct (before_nul_spec data) as [Hb Ht].
  exists x0, x1, x2, x3, a0, a1, a2, a3, a4, a5, a6, a7, data.
  split_and!; try done; fold n; lia.
Qed.

(** C40: reading a packet from any stream of bytes, however malformed, never
    crashes and writes nothing. It succeeds exactly on a packet: the header
    announces, in little endian, between 10 and 4096 bytes, exactly those are
    taken off the stream, and they are the id, the type and the body up to its
    first NUL. It fails only on a stream too short for a header, on a header
    that announces something else, or when fewer bytes follow than announced. *)
Theorem readRawPacket_total c :
  ∃ r c', on_conn readRawPacket c = (Done r, c') ∧ c_out c' = c_out c ∧
  match r with
  | inl (id, ptype, body) => packet_read (c_in c) (c_in c') id ptype body
  | inr _ => no_packet (c_in c)
  end.
Proof. apply read_total. Qed.

(** ** Logging in *)

Definition c_close (c : conn) : conn :=
  {| c_in := c_in c; c_out := c_out c; c_closed := true |}.

(** a Minecraft session. The login sends one packet of type 3 with the
    password; it succeeds exactly when the peer answers with a packet of type 2 whose id is
    not -1, otherwise the connection is closed and an error returned. On
    an open session a command sends one packet of type 2 and returns the body
    of the next packet. *)
Theorem minecraft_session addr password id ptype greeting rest c :
  Z.of_nat (String.length password) + 14 < 2147483648 →
  is_int32 id → is_int32 ptype → fits greeting → c_in c = packet id ptype greeting +:+ rest →
  let opened := c_set_in rest (c_write (packet 1 3 password) c) in
  (if bool_decide (id ≠ -1 ∧ ptype = 2)
   then on_conn (NewMinecraftRCONClient addr password) c = (Done (inl minecraftRCON), opened)
   else ∃ e, on_conn (NewMinecraftRCONClient addr password) c = (Done (inr e), c_close opened))
  ∧ (∀ cmd i k answer rest' d,
       Z.of_nat (String.length cmd) + 14 < 2147483648 → is_int32 i → is_int32 k → fits answer →
       c_in d = packet i k answer +:+ rest' →
       on_conn (cl_Command minecraftRCON cmd) d
       = (Done (inl answer), c_set_in rest' (c_write (packet 1 2 cmd) d))).
Proof.
  intros Hpw Hid Hty Hg Hin opened. split.
  - assert (on_conn (auth (minecraft_sendPacket 3 password)) c
      = (Done (check_login (inl (id, ptype, greeting))), opened)) as Hauth.
    { unfold auth, minecraft_sendPacket. rewrite on_conn_bind, write_small by done.
      rewrite on_conn_bind, (read_packet id ptype greeting rest) by done. done. }
    assert (∀ x, on_conn (NewMinecraftRCONClient addr password) c = x ↔
      on_conn (match check_login (inl (id, ptype, greeting)) with
               | Some e => let* _ := call NetClose in Ret (inr (wrapf "minecraft rcon auth" e))
               | None => Ret (inl minecraftRCON)
               end) opened = x) as Hx.
    { intros x. unfold NewMinecraftRCONClient, new_client. rewrite on_conn_call. cbn [net].
      rewrite on_conn_bind, Hauth. done. }
    unfold check_login in Hx.
    destruct (Z.eqb_spec id (-1)) as [Hi|Hi], (Z.eqb_spec ptype 2) as [Hp|Hp]; cbn [orb negb] in Hx.
    1,2,4: rewrite bool_decide_false by naive_solver; eexists; apply Hx; reflexivity.
    rewrite bool_decide_true by done. by apply Hx.
  - intros cmd i k answer rest' d Hcmd Hi Hk Ha Hd. cbn [cl_Command minecraftRCON].
    unfold Command, minecraft_sendPacket. rewrite on_conn_bind, write_small by done.
    rewrite on_conn_bind, (read_packet i k answer rest') by done. done.
Qed.

(** The Source client sends its password in a packet of type 2, a command with
    id 3, not in the login packet of type 3 the protocol asks for. *)
Lemma source_login_is_command addr password c :
  Z.of_nat (String.length password) + 14 < 2147483648 →
  ∃ o c', on_conn (NewSourceRCONClient addr password) c = (o, c')
          ∧ c_out c' = c_out c ++ [packet 3 2 password].
Proof.
  intros H. unfold NewSourceRCONClient, new_client. rewrite on_conn_call. cbn [net].
  unfold auth, source_sendPacket. rewrite on_conn_bind, on_conn_bind, write_small by done.
  rewrite on_conn_bind.
  destruct (read_total (c_write (packet 3 2 password) c)) as (r & c' & -> & Hout & _).
  rewrite on_conn_ret. destruct (check_login r).
  - eexists _, _. split; [reflexivity|]. cbn. by rewrite Hout.
  - eexists _, _. split; [reflexivity|]. by rewrite Hout.
Qed.

(** A peer's answer of more than 4086 bytes is refused: its length exceeds
    4096. (Minecraft servers send bodies of up to 4096 bytes.) *)
Lemma large_answer_refused id ptype body rest c :
  4086 < Z.of_nat (String.length body) < 2147483638 →
  c_in c = packet id ptype body +:+ rest →
  ∃ e c', on_conn readRawPacket c = (Done (inr e), c').
Proof.
  intros Hlen Hin. unfold readRawPacket. rewrite on_conn_call.
  rewrite packet_split, <-str_app_assoc in Hin.
  change 4 with (Z.of_nat (String.length
    (PutUint32 (to_uint32 (wrap32 (Z.of_nat (String.length body) + 10)))))).
  rewrite (net_read _ _ _ Hin). rewrite <-(str_app_nil_r (PutUint32 _)).
  rewrite Uint32_PutUint32 by apply to_uint32_range.
  rewrite (wrap32_to_uint32 (wrap32 _)) by apply wrap32_range.
  rewrite wrap32_id by (unfold is_int32; lia).
  rewrite (proj2 (Z.ltb_lt 4096 _)) by lia. rewrite orb_true_r. eexists _, _. done.
Qed.

(** ** Examples and witnesses *)

(** A player whose line contains "name" is not counted. *)
Example ex_palworld :
  let nl := newline in
  parsePalworldPlayerCount ("name,playeruid,steamid" +:+ nl +:+ "ann,1,2" +:+ nl +:+ "rename,3,4") = (1, 0)
  ∧ parsePalworldPlayerCountFromInfo ("Online Players: 4" +:+ nl +:+ "Max Players: 32") = (4, 32).
Proof. split; vm_compute; reflexivity. Qed.

Definition ex_conn (s : string) : conn := {| c_in := s; c_out := []; c_closed := false |}.

Lemma fits_small body :
  (String.length body <= 100)%nat → no_char NUL body = true → fits body.
Proof. intros H1 H2. split; [lia|done]. Qed.

Lemma packet_round_trip_witness :
  fits "list"
  ∧ on_conn readRawPacket (ex_conn (packet 1 2 "list" +:+ "more"))
    = (Done (inl (1, 2, "list")), ex_conn "more").
Proof.
  assert (fits "list") as H by (apply fits_small; [cbn; lia|reflexivity]). split; [exact H|].
  destruct (packet_round_trip 1 2 "list" (ex_conn "") ltac:(split; lia) ltac:(split; lia) H)
    as (p & Hp & Hr).
  assert (p = packet 1 2 "list") as ->.
  { apply (f_equal (λ x, c_out x.2)) in Hp. vm_compute in Hp. injection Hp as <-. reflexivity. }
  exact (Hr (ex_conn (packet 1 2 "list" +:+ "more")) "more" eq_refl).
Defined.

(** A header that announces 12 bytes, followed by 11: no packet; by 12: one. *)
Lemma readRawPacket_total_witness :
  no_packet (PutUint32 12 +:+ PutUint32 1 +:+ PutUint32 2 +:+ "ab" +:+ nul)
  ∧ packet_read (PutUint32 12 +:+ PutUint32 1 +:+ PutUint32 2 +:+ "ab" +:+ nul +:+ nul +:+ "z") "z" 1 2 "ab".
Proof.
  split.
  - destruct (readRawPacket_total (ex_conn (PutUint32 12 +:+ PutUint32 1 +:+ PutUint32 2 +:+ "ab" +:+ nul)))
      as (r & c' & Hr & _ & H). vm_compute in Hr. injection Hr as <- <-. exact H.
  - destruct (readRawPacket_total (ex_conn (PutUint32 12 +:+ PutUint32 1 +:+ PutUint32 2 +:+ "ab" +:+ nul +:+ nul +:+ "z")))
      as (r & c' & Hr & _ & H). vm_compute in Hr. injection Hr as <- <-. exact H.
Defined.

Lemma minecraft_session_witness :
  on_conn (NewMinecraftRCONClient "mc:25575" "s3cret") (ex_conn (packet 1 2 "" +:+ "x"))
  = (Done (inl minecraftRCON),
     {| c_in := "x"; c_out := [packet 1 3 "s3cret"]; c_closed := false |})
  ∧ ∃ e, on_conn (NewMinecraftRCONClient "mc:25575" "wrong") (ex_conn (packet (-1) 2 "" +:+ ""))
         = (Done (inr e), {| c_in := ""; c_out := [packet 1 3 "wrong"]; c_closed := true |}).
Proof.
  assert (fits "") as H by (apply fits_small; [cbn; lia|reflexivity]). split.
  - exact (proj1 (minecraft_session "mc:25575" "s3cret" 1 2 "" "x" (ex_conn (packet 1 2 "" +:+ "x"))
      ltac:(cbn; lia) ltac:(split; lia) ltac:(split; lia) H eq_refl)).
  - exact (proj1 (minecraft_session "mc:25575" "wrong" (-1) 2 "" "" (ex_conn (packet (-1) 2 "" +:+ ""))
      ltac:(cbn; lia) ltac:(split; lia) ltac:(split; lia) H eq_refl)).
Defined.
