(* ===== verification/Scan.v ===== *)
(** * Scan: [fmt.Sscanf] and the reading of printed numbers

    [Sscanf] for the formats the code has: literals, blanks and [%d].  It gives the
    numbers scanned before it stopped, which the caller's variables keep, and
    whether the whole format matched. *)

From Stdlib Require Import Ascii String.
From S2P Require Import Prelude GoStrings.

(** ** The scanner *)

Definition newline_rune : ascii := "010"%char.
Definition is_digit (c : ascii) : bool := bool_decide (is_Some (digit_val c)).

(** [SkipSpace]: blanks before a verb; a newline there is an error. *)
Fixpoint SkipSpace (s : string) : option string :=
  match s with
  | "" => Some ""
  | String c r =>
      if Ascii.eqb c newline_rune then None
      else if is_space c then SkipSpace r else Some s
  end.

Fixpoint span_digits (s : string) : string * string :=
  match s with
  | "" => ("", "")
  | String c r =>
      if is_digit c then let '(d, r) := span_digits r in (String c d, r) else ("", s)
  end.

(** The sign [accept] takes, when there is one. *)
Definition span_sign (s : string) : string * string :=
  match s with
  | String c r => if Ascii.eqb c "+" || Ascii.eqb c "-" then (String c "", r) else ("", s)
  | "" => ("", "")
  end.

(** [scanInt] with the verb [%d] for an [int]: the value and the input behind it. *)
Definition scanInt (s : string) : option (Z * string) :=
  match SkipSpace s with
  | None => None
  | Some s =>
      let '(sign, s) := span_sign s in
      let '(digits, s) := span_digits s in
      if digits =s "" then None else (λ v, (v, s)) <$> Atoi (sign +:+ digits)
  end.

(** The rest of a run of blanks. *)
Fixpoint skip_blanks (s : string) : string :=
  match s with
  | String c r => if is_space c && negb (Ascii.eqb c newline_rune) then skip_blanks r else s
  | "" => ""
  end.

(** A run of blanks in the format takes at least one blank, or the end. *)
Definition scan_blank (s : string) : option string :=
  match s with
  | "" => Some ""
  | String c r =>
      if negb (is_space c) || Ascii.eqb c newline_rune then None else Some (skip_blanks r)
  end.

Fixpoint Sscanf (format input : string) : list Z * bool :=
  match format with
  | "" => ([], true)
  | String "%" (String "d" format) =>
      match scanInt input with
      | Some (v, input) => let '(vs, ok) := Sscanf format input in (v :: vs, ok)
      | None => ([], false)
      end
  | String " " format =>
      if HasPrefix format " " then Sscanf format input
      else match scan_blank input with
           | Some input => Sscanf format input
           | None => ([], false)
           end
  | String c format =>
      match input with
      | String d input => if Ascii.eqb c d then Sscanf format input else ([], false)
      | "" => ([], false)
      end
  end.

(** ** Printed numbers *)

Lemma digit_of_N x : (x < 10)%N → digit_val (pretty_N_char x) = Some (Z.of_N x).
Proof.
  intros H. assert (x = 0 ∨ x = 1 ∨ x = 2 ∨ x = 3 ∨ x = 4 ∨ x = 5 ∨ x = 6 ∨ x = 7 ∨ x = 8 ∨ x = 9)%N
    as Hx by lia.
  repeat destruct Hx as [->|Hx]; try reflexivity. by subst.
Qed.

Lemma digits_val_go x s : digits_val 0 (pretty_N_go x s) = digits_val (Z.of_N x) s.
Proof.
  revert s. induction (N.lt_wf_0 x) as [x _ IH]. intros s.
  destruct (decide (x = 0)%N) as [->|Hx]; [by rewrite pretty_N_go_0|].
  rewrite pretty_N_go_step by lia. rewrite IH by (apply N.div_lt; lia).
  cbn [digits_val]. rewrite digit_of_N by (apply N.mod_lt; lia). f_equal.
  pose proof (N.div_mod x 10 ltac:(lia)). lia.
Qed.

Lemma pretty_N_go_digits x s : ∃ d, pretty_N_go x s = d +:+ s ∧ str_forall is_digit d = true
  ∧ (x ≠ 0%N → d ≠ "").
Proof.
  revert s. induction (N.lt_wf_0 x) as [x _ IH]. intros s.
  destruct (decide (x = 0)%N) as [->|Hx]; [by exists ""; rewrite pretty_N_go_0|].
  rewrite pretty_N_go_step by lia.
  destruct (IH (x `div` 10)%N ltac:(apply N.div_lt; lia) (String (pretty_N_char (x `mod` 10)) s))
    as (d & -> & Hd & _).
  exists (d +:+ String (pretty_N_char (x `mod` 10)) ""). rewrite <-str_app_assoc.
  split; [done|]. rewrite str_forall_app, Hd. cbn [str_forall]. unfold is_digit.
  rewrite digit_of_N by (apply N.mod_lt; lia). rewrite bool_decide_true by eauto.
  split; [done|]. by destruct d.
Qed.

(** The digits of a natural number. *)
Lemma pretty_digits (x : N) :
  str_forall is_digit (pretty x) = true ∧ pretty x ≠ "" ∧ digits_val 0 (pretty x) = Some (Z.of_N x).
Proof.
  unfold pretty, pretty_N. case_decide as H; [by subst|].
  destruct (pretty_N_go_digits x "") as (d & Hd & Hall & Hne). rewrite str_app_nil_r in Hd.
  split_and!; [by rewrite Hd|rewrite Hd; auto|]. by rewrite digits_val_go.
Qed.

Lemma itoa_sign n :
  itoa n = (if n <? 0 then "-" else "") +:+ pretty (Z.abs_N n).
Proof. by destruct n. Qed.

Lemma pretty_cons (x : N) : ∃ c d, pretty x = String c d ∧ is_digit c = true.
Proof.
  destruct (pretty_digits x) as (Hall & Hne & _). destruct (pretty x) as [|c d]; [done|].
  cbn [str_forall] in Hall. apply andb_true_iff in Hall as [? _]. eauto.
Qed.

Lemma digit_plain c : is_digit c = true →
  is_space c = false ∧ Ascii.eqb c newline_rune = false
  ∧ Ascii.eqb c "+" = false ∧ Ascii.eqb c "-" = false.
Proof. destruct c as [[] [] [] [] [] [] [] []]; vm_compute; intros; repeat split; congruence. Qed.

Lemma Atoi_signed (n : Z) (x : N) sign : is_int64 n →
  (sign = "" ∧ n = Z.of_N x) ∨ (sign = "-" ∧ n = - Z.of_N x) →
  Atoi (sign +:+ pretty x) = Some n.
Proof.
  unfold is_int64. intros Hn Hs. destruct (pretty_digits x) as (_ & Hne & Hval).
  destruct (pretty_cons x) as (c & d & E & (_ & _ & Hp & Hm)%digit_plain).
  assert (Atoi (sign +:+ pretty x)
    = if (-9223372036854775808 <=? n) && (n <=? 9223372036854775807) then Some n else None) as ->.
  { destruct Hs as [[-> ->]|[-> ->]].
    - change ("" +:+ pretty x) with (pretty x). unfold Atoi. rewrite <-Hval at 1. rewrite E.
      rewrite Hp, Hm, <-E, Hval. done.
    - unfold Atoi. cbn [append Ascii.eqb]. unfold digits_nonempty.
      rewrite (proj2 (eqs_false _ _)) by done. by rewrite Hval. }
  by rewrite (proj2 (Z.leb_le _ _)), (proj2 (Z.leb_le _ _)) by lia.
Qed.

(** [strconv.Atoi] reads what [%d] prints. *)
Lemma Atoi_itoa n : is_int64 n → Atoi (itoa n) = Some n.
Proof.
  intros Hn. rewrite itoa_sign. apply Atoi_signed; [done|].
  destruct (Z.ltb_spec n 0); [right|left]; split; lia || done.
Qed.

(** A string that does not start with a digit. *)
Definition no_digit_first (s : string) : Prop :=
  match s with String c _ => is_digit c = false | "" => True end.

Lemma span_digits_app d s :
  str_forall is_digit d = true → no_digit_first s → span_digits (d +:+ s) = (d, s).
Proof.
  intros Hd Hs. induction d as [|c d IH]; cbn [append span_digits].
  - destruct s as [|c s]; [done|]. cbn in Hs |- *. by rewrite Hs.
  - cbn [str_forall] in Hd. apply andb_true_iff in Hd as [-> Hd]. by rewrite (IH Hd).
Qed.

Lemma SkipSpace_plain c s :
  is_space c = false → Ascii.eqb c newline_rune = false → SkipSpace (String c s) = Some (String c s).
Proof. intros H1 H2. cbn [SkipSpace]. by rewrite H1, H2. Qed.

(** The first character of a printed number. *)
Lemma itoa_cons n : ∃ c d, itoa n = String c d ∧ is_space c = false ∧ Ascii.eqb c newline_rune = false.
Proof.
  rewrite itoa_sign. destruct (pretty_cons (Z.abs_N n)) as (c & d & E & (? & ? & _)%digit_plain).
  destruct (n <? 0); [by eexists _, _|]. rewrite E. by eexists _, _.
Qed.

Lemma scanInt_itoa n s : is_int64 n → no_digit_first s → scanInt (itoa n +:+ s) = Some (n, s).
Proof.
  intros Hn Hs. unfold scanInt.
  assert (SkipSpace (itoa n +:+ s) = Some (itoa n +:+ s)) as ->.
  { destruct (itoa_cons n) as (c & d & -> & ? & ?). by apply SkipSpace_plain. }
  rewrite itoa_sign. destruct (pretty_digits (Z.abs_N n)) as (Hall & Hne & _).
  assert (span_sign (((if n <? 0 then "-" else "") +:+ pretty (Z.abs_N n)) +:+ s)
    = (if n <? 0 then "-" else "", pretty (Z.abs_N n) +:+ s)) as ->.
  { destruct (n <? 0); [done|]. cbn [append].
    destruct (pretty_cons (Z.abs_N n)) as (c & d & -> & (_ & _ & Hp & Hm)%digit_plain).
    cbn [append span_sign]. by rewrite Hp, Hm. }
  rewrite span_digits_app by done. rewrite (proj2 (eqs_false _ _)) by done.
  rewrite (Atoi_signed n); [done|done|].
  destruct (Z.ltb_spec n 0); [right|left]; split; lia || done.
Qed.

(** [%d] on a printed number, and with a blank before it. *)
Lemma Sscanf_verb n format s vs ok :
  is_int64 n → no_digit_first s → Sscanf format s = (vs, ok) →
  Sscanf ("%d" +:+ format) (itoa n +:+ s) = (n :: vs, ok).
Proof. intros Hn Hs H. cbn [append Sscanf]. rewrite scanInt_itoa by done. by rewrite H. Qed.

Lemma Sscanf_number n format s vs ok :
  is_int64 n → no_digit_first s → Sscanf format s = (vs, ok) →
  Sscanf (" %d" +:+ format) (" " +:+ itoa n +:+ s) = (n :: vs, ok).
Proof.
  intros Hn Hs H. change (" %d" +:+ format) with (String " " ("%d" +:+ format)).
  assert (scan_blank (" " +:+ itoa n +:+ s) = Some (itoa n +:+ s)) as Hb.
  { destruct (itoa_cons n) as (c & d & -> & Hc & Hl). cbn. by rewrite Hc. }
  cbn [append Sscanf HasPrefix String.prefix]. cbn [append] in Hb. cbn -[Sscanf scan_blank].
  rewrite Hb. by apply Sscanf_verb.
Qed.
