(* ===== verification/Players.v ===== *)
(** * Players: player counts and the game clients of the agent SDK ([sdk/agent/rcon])

    What Minecraft's "list" and Source's "status" answer, read as numbers of
    players, and the wrappers around a [Client], mocks included. *)

From Stdlib Require Import Ascii String.
From S2P Require Import Prelude GoStrings Prog Api Kube Rcon Scan.

(** ** Minecraft ([minecraft.go]) *)

(** The fallback: the numbers behind the words "are" and "max". *)
Fixpoint count_words (counts : Z * Z) (parts : list string) : Z * Z :=
  match parts with
  | p :: ((next :: _) as rest) =>
      let '(o, c) := counts in
      count_words (if p =s "are" then default o (Atoi next) else o,
                   if p =s "max" then default c (Atoi next) else c) rest
  | _ => counts
  end.

(** A variable [Sscanf] did not reach keeps its zero. *)
Definition scanned (vs : list Z) : Z * Z := (default 0 (vs !! 0%nat), default 0 (vs !! 1%nat)).

Definition list_format : string := "There are %d of a max %d players online".
Definition parseMinecraftPlayerCount (output : string) : Z * Z :=
  let '(vs, ok) := Sscanf list_format output in
  if ok : bool then scanned vs else count_words (scanned vs) (Fields output).

(** ** Source ([source.go]) *)

Definition status_format : string := "players : %d (%d max)".
(** The numbers of a "players" line. *)
Definition players_line (line : string) : option (Z * Z) :=
  if HasPrefix line "players"
  then let '(vs, ok) := Sscanf status_format line in if ok : bool then Some (scanned vs) else None
  else None.
Definition user_line (line : string) : bool := HasPrefix line "#" && negb (Contains line "userid").

Fixpoint count_lines (online : Z) (lines : list string) : Z * Z :=
  match lines with
  | [] => (online, 0)
  | line :: lines =>
      let line := TrimSpace line in
      match players_line line with
      | Some counts => counts
      | None => count_lines (if user_line line then online + 1 else online) lines
      end
  end.
Definition parseSourcePlayerCount (output : string) : Z * Z :=
  count_lines 0 (Split newline_char output).

(** The third field of every player's line. *)
Definition parseSourcePlayerList (output : string) : list string :=
  omap (λ line, let line := TrimSpace line in
                if user_line line then Fields line !! 2%nat else None)
       (Split newline_char output).

(** ** The game clients and dialers *)

(** [MinecraftClient], [SourceClient] and [PalworldClient] delegate. *)
Definition delegate (c : Client) : Client := {| cl_Command := cl_Command c; cl_Close := cl_Close c |}.
Definition NewMinecraftClient : Client → Client := delegate.
Definition NewSourceClient : Client → Client := delegate.
Definition NewPalworldClient : Client → Client := delegate.

Definition MinecraftDialer_Dial : string → string → N_ (Client + gerr) := NewMinecraftRCONClient.
Definition SourceDialer_Dial : string → string → N_ (Client + gerr) := NewSourceRCONClient.
Definition DialerFunc_Dial (d : string → string → N_ (Client + gerr)) (addr password : string)
  : N_ (Client + gerr) := d addr password.

(** ** Mocks ([mock.go]) *)

Record MockClient := { mk_Commands : list string; mk_Response : string; mk_Err : option gerr }.
Definition mock_Command (m : MockClient) (command : string) : MockClient * (string + gerr) :=
  ({| mk_Commands := mk_Commands m ++ [command]; mk_Response := mk_Response m; mk_Err := mk_Err m |},
   match mk_Err m with Some e => inr e | None => inl (mk_Response m) end).
Definition mock_Close (m : MockClient) : MockClient * option gerr := (m, None).

Record MockDialer := { md_Client : Client; md_Err : option gerr }.
Definition mock_Dial (d : MockDialer) (addr password : string) : Client + gerr :=
  match md_Err d with Some e => inr e | None => inl (md_Client d) end.

(** ** What the parsers read *)

Lemma minecraft_standard n m rest : is_int64 n → is_int64 m →
  parseMinecraftPlayerCount
    ("There are " +:+ itoa n +:+ " of a max " +:+ itoa m +:+ " players online" +:+ rest) = (n, m).
Proof.
  intros Hn Hm. unfold parseMinecraftPlayerCount.
  assert (Sscanf " players online" (" players online" +:+ rest) = ([], true)) as H by done.
  apply (Sscanf_number m) in H; [|done..].
  assert (Sscanf (" of a max" +:+ " %d" +:+ " players online")
    (" of a max" +:+ " " +:+ itoa m +:+ " players online" +:+ rest) = ([m], true)) as H' by exact H.
  apply (Sscanf_number n) in H'; [|done..].
  assert (Sscanf list_format ("There are" +:+ " " +:+ itoa n +:+ " of a max" +:+ " " +:+ itoa m
    +:+ " players online" +:+ rest) = ([n; m], true)) as H'' by exact H'.
  change ("There are " +:+ ?s) with ("There are" +:+ " " +:+ s).
  change (" of a max " +:+ ?s) with (" of a max" +:+ " " +:+ s). by rewrite H''.
Qed.

Lemma source_header n m rest : is_int64 n → is_int64 m →
  players_line ("players : " +:+ itoa n +:+ " (" +:+ itoa m +:+ " max)" +:+ rest) = Some (n, m).
Proof.
  intros Hn Hm. unfold players_line. change (HasPrefix _ "players") with true. cbn iota.
  assert (Sscanf " max)" (" max)" +:+ rest) = ([], true)) as H by done.
  apply (Sscanf_verb m) in H; [|done..].
  assert (Sscanf (" (" +:+ "%d" +:+ " max)") (" (" +:+ itoa m +:+ " max)" +:+ rest) = ([m], true))
    as H' by exact H.
  apply (Sscanf_number n) in H'; [|done..].
  assert (Sscanf status_format ("players :" +:+ " " +:+ itoa n +:+ " (" +:+ itoa m +:+ " max)" +:+ rest)
    = ([n; m], true)) as H'' by exact H'.
  change ("players : " +:+ ?s) with ("players :" +:+ " " +:+ s). by rewrite H''.
Qed.

(** A status answer: the first "players" line that scans, or the number of
    players' lines. *)
Lemma source_count output :
  parseSourcePlayerCount output =
  let lines := TrimSpace <$> Split newline_char output in
  default (Z.of_nat (length (filter (λ l, user_line l = true) lines)), 0) (head (omap players_line lines)).
Proof.
  unfold parseSourcePlayerCount. cbn zeta.
  assert (∀ k lines, count_lines k lines
    = default (k + Z.of_nat (length (filter (λ l, user_line l = true) (TrimSpace <$> lines))), 0)
        (head (omap players_line (TrimSpace <$> lines)))) as H; [|apply (H 0)].
  intros k lines. revert k. induction lines as [|l lines IH]; intros k.
  { cbn. f_equal. lia. }
  cbn [count_lines fmap list_fmap omap list_omap]. rewrite filter_cons.
  destruct (players_line (TrimSpace l)) as [c|]; [done|]. rewrite IH.
  destruct (user_line (TrimSpace l)); case_decide; try done. cbn [length].
  destruct (head _); [done|]. cbn [default]. f_equal. lia.
Qed.

(** A player is listed only if its line is counted. *)
Lemma source_list_length output :
  (length (parseSourcePlayerList output)
   <= length (filter (λ l, user_line l = true) (TrimSpace <$> Split newline_char output)))%nat.
Proof.
  unfold parseSourcePlayerList. induction (Split newline_char output) as [|l lines IH]; [done|].
  cbn [omap list_omap fmap list_fmap]. rewrite filter_cons. cbn zeta.
  destruct (user_line (TrimSpace l)); case_decide; try done.
  destruct (Fields _ !! 2%nat); cbn [length]; unfold omap in IH |- *; lia.
Qed.

(** ** Fields of a sentence *)

Lemma Fields_word w s :
  w ≠ "" → str_forall (λ c, negb (is_space c)) w = true → Fields (w +:+ " " +:+ s) = w :: Fields s.
Proof.
  intros Hne Hw. unfold Fields.
  assert (∀ cur, cur +:+ w ≠ "" → fields_go cur (w +:+ " " +:+ s) = (cur +:+ w) :: fields_go "" s) as H;
    [|by apply (H "")].
  clear Hne. induction w as [|c w IH]; intros cur Hc.
  - rewrite str_app_nil_r in *. cbn. by rewrite (proj2 (eqs_false _ _)).
  - cbn [str_forall] in Hw. apply andb_true_iff in Hw as [Hs Hw]. apply negb_true_iff in Hs.
    cbn [append fields_go]. rewrite Hs.
    assert ((cur +:+ String c "") +:+ w = cur +:+ String c w) as Ha
      by (rewrite <-str_app_assoc; done).
    rewrite <-Ha. apply (IH Hw). by rewrite Ha.
Qed.

Lemma digits_no_space d : str_forall is_digit d = true → str_forall (λ c, negb (is_space c)) d = true.
Proof.
  induction d as [|c d IH]; [done|]. cbn [str_forall]. rewrite !andb_true_iff.
  intros [(-> & _)%digit_plain ?%IH]. done.
Qed.

Lemma itoa_word n : itoa n ≠ "" ∧ str_forall (λ c, negb (is_space c)) (itoa n) = true.
Proof.
  split; [by destruct (itoa_cons n) as (c & d & -> & _)|].
  rewrite itoa_sign, str_forall_app. destruct (pretty_digits (Z.abs_N n)) as (H & _).
  rewrite (digits_no_space _ H). by destruct (n <? 0).
Qed.

Lemma count_words_plain o c parts :
  Forall (λ w, w ≠ "are" ∧ w ≠ "max") parts → count_words (o, c) parts = (o, c).
Proof.
  intros H. induction H as [|w parts [Ha Hm] Hf IH]; [done|]. cbn [count_words].
  destruct parts; [done|]. by rewrite !(proj2 (eqs_false _ _)).
Qed.

Ltac next_word w s := etrans; [by apply (Fields_word w s)|]; cbn [app]; f_equal.

(** "of a max of": the scan stops behind the first number, which stays, and no
    number follows the word "max", so the capacity is 0. *)
Lemma minecraft_max_of n m rest : is_int64 n →
  Forall (λ w, w ≠ "are" ∧ w ≠ "max") (itoa m :: Fields rest) →
  parseMinecraftPlayerCount
    ("There are " +:+ itoa n +:+ " of a max of " +:+ itoa m +:+ " " +:+ rest) = (n, 0).
Proof.
  intros Hn Hf. unfold parseMinecraftPlayerCount. set (tail := " of a max of " +:+ itoa m +:+ " " +:+ rest).
  assert (Sscanf (" of a max %d players online") tail = ([], false)) as H by done.
  apply (Sscanf_number n) in H; [|done..].
  assert (Sscanf list_format ("There are " +:+ itoa n +:+ tail) = ([n], false)) as -> by exact H.
  assert (Fields ("There are " +:+ itoa n +:+ tail) =
    ["There"; "are"; itoa n; "of"; "a"; "max"; "of"; itoa m] ++ Fields rest) as ->.
  { destruct (itoa_word n), (itoa_word m).
    next_word "There" ("are " +:+ itoa n +:+ tail). next_word "are" (itoa n +:+ tail).
    next_word (itoa n) ("of a max of " +:+ itoa m +:+ " " +:+ rest).
    next_word "of" ("a max of " +:+ itoa m +:+ " " +:+ rest).
    next_word "a" ("max of " +:+ itoa m +:+ " " +:+ rest).
    next_word "max" ("of " +:+ itoa m +:+ " " +:+ rest).
    next_word "of" (itoa m +:+ " " +:+ rest). by apply Fields_word. }
  assert (∀ w, Atoi w = None → (itoa n =s w) = false) as Hw.
  { intros w E. apply eqs_false. intros <-. by rewrite Atoi_itoa in E. }
  trans (count_words (n, 0) (itoa m :: Fields rest)); [|by apply count_words_plain].
  change (scanned [n]) with (n, 0). cbn [app]. unfold count_words at 1. fold count_words.
  rewrite (Atoi_itoa n), !Hw by done. done.
Qed.

(** ** Examples *)

Example ex_minecraft :
  parseMinecraftPlayerCount "There are 5 of a max 20 players online: player1, player2" = (5, 20)
  ∧ parseMinecraftPlayerCount "some random output" = (0, 0)
  ∧ parseMinecraftPlayerCount "There are 3 players, max 10" = (3, 10).
Proof. vm_compute. done. Qed.

(** A player whose line contains "userid" is neither counted nor listed. *)
Example ex_source :
  let nl := newline in
  parseSourcePlayerCount ("hostname: Test Server" +:+ nl +:+ "players : 5 (20 max)" +:+ nl +:+ "# userid name")
    = (5, 20)
  ∧ parseSourcePlayerCount ("# 1 player1" +:+ nl +:+ "# 2 userid9") = (1, 0)
  ∧ parseSourcePlayerList ("# userid name" +:+ nl +:+ "# 1 player1" +:+ nl +:+ "# 2 userid9") = ["player1"].
Proof. vm_compute. done. Qed.
