(* ===== verification/Console.v ===== *)
(** * Console: the copying goroutines of a console session ([console.go])

    Once the stream to the agent is open, [proxyConsole] starts two goroutines
    and waits for the first error. One copies the caller's WebSocket frames to
    the agent, one the agent's messages to the caller; each stops at its first
    error, which it puts on a channel of two. [proxyConsole] returns the first
    error and so closes the stream; [serveConsole] then writes it to the caller
    and closes the WebSocket. [ControlPlane.proxyConsole] has all of it as one
    call, [ConsolePump]; here it is a step relation, in which the goroutines,
    the caller and the agent interleave in every way. *)

From stdpp Require Import relations.
From S2P Require Import Prelude GoStrings Prog Api Kube.
#[local] Open Scope Z_scope.

(** ** Messages *)

(** [ConsoleMessage]: one frame of the WebSocket protocol. *)
Record ConsoleMessage := {
  cm_Type : string;
  cm_TS : Z;
  cm_Line : string;
  cm_ID : string;
  cm_Data : string;
}.

(** The payload of a [ConsoleClientMessage] and of a [ConsoleServerMessage]; the
    latter may be missing, when the agent sends a kind this version does not
    know. *)
Inductive ClientPayload :=
| Command (RconCommand : string)
| Ping (Message : string).

Inductive ServerPayload :=
| PLog (Line : string)
| PResponse (Response : string)
| PStatus (State : string)
| PError (Message : string).

(** What the first goroutine sends for a frame; other types are skipped. *)
Definition to_agent (msg : ConsoleMessage) : option ClientPayload :=
  if cm_Type msg =s "rcon" then Some (Command (cm_Data msg))
  else if cm_Type msg =s "ping" then Some (Ping (cm_Data msg))
  else None.

(** What the second writes for a message of the agent; [now] is the time at
    which a log line is stamped. *)
Definition to_client (now : Z) (p : option ServerPayload) : ConsoleMessage :=
  let msg ty ts line data :=
    {| cm_Type := ty; cm_TS := ts; cm_Line := line; cm_ID := ""; cm_Data := data |} in
  match p with
  | Some (PLog l) => msg "log" now l ""
  | Some (PResponse r) => msg "rcon-response" 0 "" r
  | Some (PStatus s) => msg "status" 0 "" s
  | Some (PError e) => msg "error" 0 "" e
  | None => msg "" 0 "" ""
  end.

(** ** The goroutines

    Each has a program counter, the messages that wait for it, those it took and
    those it passed on. A step with a label [Some e] puts [e] on the channel.
    [stream] and [conn] say whether the two connections are still open:
    nothing arrives or leaves by a closed one, but what had arrived before may
    still be read. Any read or write may fail at any time. *)

(** *** Client to agent *)
Inductive pc_a :=
| AReading
| ASending (c : ClientPayload)
| AFailed (e : gerr)
| AExited.

Record GoA := {
  a_pc : pc_a;
  a_waiting : list ConsoleMessage;
  a_read : list ConsoleMessage;
  a_sent : list ClientPayload;
}.

Definition a_next (m : ConsoleMessage) : pc_a :=
  match to_agent m with Some c => ASending c | None => AReading end.

Inductive step_a (stream conn : bool) : GoA → option gerr → GoA → Prop :=
| A_arrive m pc w r s :
    conn = true →
    step_a stream conn {| a_pc := pc; a_waiting := w; a_read := r; a_sent := s |} None
      {| a_pc := pc; a_waiting := w ++ [m]; a_read := r; a_sent := s |}
| A_read m w r s :
    step_a stream conn {| a_pc := AReading; a_waiting := m :: w; a_read := r; a_sent := s |} None
      {| a_pc := a_next m; a_waiting := w; a_read := r ++ [m]; a_sent := s |}
| A_read_error e w r s :
    step_a stream conn {| a_pc := AReading; a_waiting := w; a_read := r; a_sent := s |} None
      {| a_pc := AFailed e; a_waiting := w; a_read := r; a_sent := s |}
| A_send c w r s :
    stream = true →
    step_a stream conn {| a_pc := ASending c; a_waiting := w; a_read := r; a_sent := s |} None
      {| a_pc := AReading; a_waiting := w; a_read := r; a_sent := s ++ [c] |}
| A_send_error c e w r s :
    step_a stream conn {| a_pc := ASending c; a_waiting := w; a_read := r; a_sent := s |} None
      {| a_pc := AFailed e; a_waiting := w; a_read := r; a_sent := s |}
| A_put e w r s :
    step_a stream conn {| a_pc := AFailed e; a_waiting := w; a_read := r; a_sent := s |} (Some e)
      {| a_pc := AExited; a_waiting := w; a_read := r; a_sent := s |}.

(** *** Agent to client; [BWriting] is the whole duration of a [WriteJSON] *)
Inductive pc_b :=
| BReceiving
| BWriting (m : ConsoleMessage)
| BFailed (e : gerr)
| BExited.

Record GoB := {
  b_pc : pc_b;
  b_waiting : list (option ServerPayload);
  b_received : list (Z * option ServerPayload);
  b_written : list ConsoleMessage;
}.

Inductive step_b (stream conn : bool) : GoB → option gerr → GoB → Prop :=
| B_arrive p pc w r s :
    stream = true →
    step_b stream conn {| b_pc := pc; b_waiting := w; b_received := r; b_written := s |} None
      {| b_pc := pc; b_waiting := w ++ [p]; b_received := r; b_written := s |}
| B_receive p now w r s :
    step_b stream conn {| b_pc := BReceiving; b_waiting := p :: w; b_received := r; b_written := s |} None
      {| b_pc := BWriting (to_client now p); b_waiting := w; b_received := r ++ [(now, p)];
         b_written := s |}
| B_receive_error e w r s :
    step_b stream conn {| b_pc := BReceiving; b_waiting := w; b_received := r; b_written := s |} None
      {| b_pc := BFailed e; b_waiting := w; b_received := r; b_written := s |}
| B_write m w r s :
    conn = true →
    step_b stream conn {| b_pc := BWriting m; b_waiting := w; b_received := r; b_written := s |} None
      {| b_pc := BReceiving; b_waiting := w; b_received := r; b_written := s ++ [m] |}
| B_write_error m e w r s :
    step_b stream conn {| b_pc := BWriting m; b_waiting := w; b_received := r; b_written := s |} None
      {| b_pc := BFailed e; b_waiting := w; b_received := r; b_written := s |}
| B_put e w r s :
    step_b stream conn {| b_pc := BFailed e; b_waiting := w; b_received := r; b_written := s |} (Some e)
      {| b_pc := BExited; b_waiting := w; b_received := r; b_written := s |}.

(** *** The handler: [return <-errCh] with its deferred [grpcConn.Close], then
    [conn.WriteJSON] of the error and the deferred [conn.Close] *)
Inductive pc_main :=
| MWaiting
| MReturning (e : gerr)
| MReport (e : gerr)
| MReporting (e : gerr)
| MClosing (e : gerr)
| MExited (e : gerr).

(** The error the handler took from the channel. *)
Definition main_error (m : pc_main) : list gerr :=
  match m with
  | MWaiting => []
  | MReturning e | MReport e | MReporting e | MClosing e | MExited e => [e]
  end.

Record Session := {
  se_A : GoA;
  se_B : GoB;
  se_main : pc_main;
  se_errCh : list gerr;
  (* every error put on the channel, in order *)
  se_puts : list gerr;
  se_stream : bool;
  se_conn : bool;
}.

(** [make(chan error, 2)] *)
Definition errCh_cap : nat := 2.

(** A put on a channel that is full blocks. *)
Definition put (ch : list gerr) (o : option gerr) (ch' : list gerr) : Prop :=
  match o with
  | Some e => (length ch < errCh_cap)%nat ∧ ch' = ch ++ [e]
  | None => ch' = ch
  end.
Definition log_put (l : list gerr) (o : option gerr) : list gerr := l ++ option_list o.

(** The handler's steps change its counter, the channel and the connections. *)
Inductive step_main : pc_main * list gerr * bool * bool → pc_main * list gerr * bool * bool → Prop :=
| M_receive e ch st cn : step_main (MWaiting, e :: ch, st, cn) (MReturning e, ch, st, cn)
| M_close_stream e ch st cn : step_main (MReturning e, ch, st, cn) (MReport e, ch, false, cn)
| M_begin_report e ch st cn : step_main (MReport e, ch, st, cn) (MReporting e, ch, st, cn)
| M_end_report e ch st cn : step_main (MReporting e, ch, st, cn) (MClosing e, ch, st, cn)
| M_close_conn e ch st cn : step_main (MClosing e, ch, st, cn) (MExited e, ch, st, false).

Inductive step : Session → Session → Prop :=
| step_A a o a' b m ch ch' ps st cn :
    step_a st cn a o a' → put ch o ch' →
    step {| se_A := a; se_B := b; se_main := m; se_errCh := ch; se_puts := ps;
            se_stream := st; se_conn := cn |}
         {| se_A := a'; se_B := b; se_main := m; se_errCh := ch'; se_puts := log_put ps o;
            se_stream := st; se_conn := cn |}
| step_B a b o b' m ch ch' ps st cn :
    step_b st cn b o b' → put ch o ch' →
    step {| se_A := a; se_B := b; se_main := m; se_errCh := ch; se_puts := ps;
            se_stream := st; se_conn := cn |}
         {| se_A := a; se_B := b'; se_main := m; se_errCh := ch'; se_puts := log_put ps o;
            se_stream := st; se_conn := cn |}
| step_Main a b m m' ch ch' ps st st' cn cn' :
    step_main (m, ch, st, cn) (m', ch', st', cn') →
    step {| se_A := a; se_B := b; se_main := m; se_errCh := ch; se_puts := ps;
            se_stream := st; se_conn := cn |}
         {| se_A := a; se_B := b; se_main := m'; se_errCh := ch'; se_puts := ps;
            se_stream := st'; se_conn := cn' |}.

Definition start : Session := {|
  se_A := {| a_pc := AReading; a_waiting := []; a_read := []; a_sent := [] |};
  se_B := {| b_pc := BReceiving; b_waiting := []; b_received := []; b_written := [] |};
  se_main := MWaiting; se_errCh := []; se_puts := []; se_stream := true; se_conn := true;
|}.

Definition reachable (s : Session) : Prop := rtc step start s.

(** ** Invariants *)

#[local] Arguments omap : simpl never.

(** What a goroutine took and has not passed on: the message it is sending,
    or the one whose sending failed. *)
Definition a_pending (pc : pc_a) (lost : list ClientPayload) : Prop :=
  match pc with
  | AReading => lost = []
  | ASending c => lost = [c]
  | AFailed _ | AExited => (length lost <= 1)%nat
  end.
Definition b_pending (pc : pc_b) (lost : list ConsoleMessage) : Prop :=
  match pc with
  | BReceiving => lost = []
  | BWriting m => lost = [m]
  | BFailed _ | BExited => (length lost <= 1)%nat
  end.

Definition relays_a (a : GoA) : Prop :=
  ∃ lost, omap to_agent (a_read a) = a_sent a ++ lost ∧ a_pending (a_pc a) lost.
Definition relays_b (b : GoB) : Prop :=
  ∃ lost, map (uncurry to_client) (b_received b) = b_written b ++ lost ∧ b_pending (b_pc b) lost.

Lemma relays_step_a st cn a o a' : step_a st cn a o a' → relays_a a → relays_a a'.
Proof.
  intros H (lost & Hr & Hp). destruct H; cbn in *; subst;
    try (exists []; cbn; rewrite ?app_nil_r in *; split; [done|lia]);
    try (by eexists; split; [exact Hr|]; cbn; try lia).
  - exists (option_list (to_agent m)). cbn. rewrite omap_app, app_nil_r in *. split.
    + apply f_equal2; [exact Hr|]. unfold omap. cbn. by destruct (to_agent m).
    + unfold a_next. by destruct (to_agent m).
  - exists []. by rewrite app_nil_r.
Qed.

Lemma relays_step_b st cn b o b' : step_b st cn b o b' → relays_b b → relays_b b'.
Proof.
  intros H (lost & Hr & Hp). destruct H; cbn in *; subst;
    try (exists []; cbn; rewrite ?app_nil_r in *; split; [done|lia]);
    try (by eexists; split; [exact Hr|]; cbn; try lia).
  - exists [to_client now p]. cbn. by rewrite map_app, Hr, app_nil_r.
  - exists []. by rewrite app_nil_r.
Qed.

Definition exited_a (pc : pc_a) : nat := match pc with AExited => 1 | _ => 0 end.
Definition exited_b (pc : pc_b) : nat := match pc with BExited => 1 | _ => 0 end.

#[local] Arguments exited_a !_.
#[local] Arguments exited_b !_.

(** A put is the last step of its goroutine. *)
Lemma exited_step_a st cn a o a' :
  step_a st cn a o a' →
  exited_a (a_pc a') = (exited_a (a_pc a) + length (option_list o))%nat.
Proof. destruct 1; cbn; try done. unfold a_next. by destruct (to_agent m). Qed.
Lemma exited_step_b st cn b o b' :
  step_b st cn b o b' →
  exited_b (b_pc b') = (exited_b (b_pc b) + length (option_list o))%nat.
Proof. by destruct 1. Qed.

Lemma put_spec ch o ch' : put ch o ch' → ch' = ch ++ option_list o.
Proof. destruct o; cbn; [by intros [_ ->]|]. by rewrite app_nil_r. Qed.

Definition exited (m : pc_main) : bool := match m with MExited _ => true | _ => false end.
Definition returned (m : pc_main) : bool :=
  match m with MWaiting | MReturning _ => false | _ => true end.

Record inv (s : Session) : Prop := {
  inv_a : relays_a (se_A s);
  inv_b : relays_b (se_B s);
  inv_exits : length (se_puts s) = (exited_a (a_pc (se_A s)) + exited_b (b_pc (se_B s)))%nat;
  inv_ch : se_puts s = main_error (se_main s) ++ se_errCh s;
  inv_stream : se_stream s = negb (returned (se_main s));
  inv_conn : se_conn s = negb (exited (se_main s));
}.

Lemma inv_step s s' : step s s' → inv s → inv s'.
Proof.
  intros H [Ha Hb He Hc Hs Hn]. destruct H as [a o a' b m ch ch' ps st cn Hst Hp
    |a b o b' m ch ch' ps st cn Hst Hp|a b m m' ch ch' ps st st' cn cn' Hst]; cbn in *.
  - apply put_spec in Hp as ->. split; cbn; [by eapply relays_step_a|done| |..|done|done].
    + apply exited_step_a in Hst. unfold log_put. rewrite length_app. lia.
    + unfold log_put. by rewrite Hc, app_assoc.
  - apply put_spec in Hp as ->. split; cbn; [done|by eapply relays_step_b| |..|done|done].
    + apply exited_step_b in Hst. unfold log_put. rewrite length_app. lia.
    + unfold log_put. by rewrite Hc, app_assoc.
  - by inversion Hst; subst; split.
Qed.

Lemma inv_start : inv start.
Proof. split; try done; by exists []. Qed.

Lemma reachable_inv s : reachable s → inv s.
Proof.
  unfold reachable. revert s. apply (rtc_ind_r (λ s, inv s)); [exact inv_start|].
  intros s s' _ Hstep. by apply inv_step.
Qed.
#[export] Hint Resolve reachable_inv : minato.

(** The channel has room for whoever has failed. *)
Lemma inv_room s :
  inv s → (exited_a (a_pc (se_A s)) + exited_b (b_pc (se_B s)) < 2)%nat →
  (length (se_errCh s) < errCh_cap)%nat.
Proof.
  intros [_ _ He Hc _ _]. apply (f_equal length) in Hc. rewrite length_app in Hc.
  unfold errCh_cap. lia.
Qed.

(** ** Termination of the goroutines *)

(** Once nothing arrives any more, every step brings a goroutine closer to its
    end. *)
Definition fuel_a (a : GoA) : nat :=
  2 * length (a_waiting a)
  + match a_pc a with ASending _ => 3 | AReading => 2 | AFailed _ => 1 | AExited => 0 end.
Definition fuel_b (b : GoB) : nat :=
  2 * length (b_waiting b)
  + match b_pc b with BWriting _ => 3 | BReceiving => 2 | BFailed _ => 1 | BExited => 0 end.
Definition fuel (s : Session) : nat := (fuel_a (se_A s) + fuel_b (se_B s))%nat.

#[local] Arguments fuel_a : simpl never.
#[local] Arguments fuel_b : simpl never.

Lemma fuel_step_a a o a' : step_a false false a o a' → (fuel_a a' < fuel_a a)%nat.
Proof.
  destruct 1; unfold fuel_a, a_next; cbn; try done; try lia. destruct (to_agent m); lia.
Qed.
Lemma fuel_step_b b o b' : step_b false false b o b' → (fuel_b b' < fuel_b b)%nat.
Proof. destruct 1; unfold fuel_b; cbn; try done; lia. Qed.

Lemma exited_step s s' e :
  inv s → se_main s = MExited e → step s s' → se_main s' = MExited e ∧ (fuel s' < fuel s)%nat.
Proof.
  intros [_ _ _ _ Hs Hn] He H. destruct H as [? ? ? ? ? ? ? ? ? ? Hst _
    |? ? ? ? ? ? ? ? ? ? Hst _|? ? ? ? ? ? ? ? ? ? ? Hst]; cbn in *; subst; cbn in *.
  - apply fuel_step_a in Hst. unfold fuel; cbn; split; [done|lia].
  - apply fuel_step_b in Hst. unfold fuel; cbn; split; [done|lia].
  - inversion Hst.
Qed.

Lemma exited_nsteps n s s' e :
  inv s → se_main s = MExited e → nsteps step n s s' →
  inv s' ∧ se_main s' = MExited e ∧ (n + fuel s' <= fuel s)%nat.
Proof.
  intros Hi He H. revert Hi He. induction H as [s|n s s1 s' Hs _ IH]; intros Hi He.
  - split; [done|]. split; [done|lia].
  - destruct (exited_step _ _ _ Hi He Hs) as [He1 Hf].
    destruct (IH (inv_step _ _ Hs Hi) He1) as (? & ? & ?). split; [done|]. split; [done|lia].
Qed.

(** A goroutine that has not exited can go on, whatever the connections. *)
Lemma a_progress st cn a : a_pc a ≠ AExited → ∃ o a', step_a st cn a o a'.
Proof.
  destruct a as [[| | |] w r s]; intros H; [| | |done]; do 2 eexists;
    [apply (A_read_error _ _ (errorf ""))|apply (A_send_error _ _ _ (errorf ""))|apply A_put].
Qed.
Lemma b_progress st cn b : b_pc b ≠ BExited → ∃ o b', step_b st cn b o b'.
Proof.
  destruct b as [[| | |] w r s]; intros H; [| | |done]; do 2 eexists;
    [apply (B_receive_error _ _ (errorf ""))|apply (B_write_error _ _ _ (errorf ""))|apply B_put].
Qed.

Lemma exited_room ch o : (length ch < errCh_cap)%nat → ∃ ch', put ch o ch'.
Proof. destruct o; cbn; eauto. Qed.

Lemma exited_a_lt a : a_pc a ≠ AExited → exited_a (a_pc a) = 0%nat.
Proof. by destruct (a_pc a). Qed.
Lemma exited_b_lt b : b_pc b ≠ BExited → exited_b (b_pc b) = 0%nat.
Proof. by destruct (b_pc b). Qed.
Lemma exited_a_le pc : (exited_a pc <= 1)%nat.
Proof. destruct pc; cbn; lia. Qed.
Lemma exited_b_le pc : (exited_b pc <= 1)%nat.
Proof. destruct pc; cbn; lia. Qed.

(** No deadlock: a session that cannot go on is over. *)
Lemma inv_progress s :
  inv s → (∀ s', ¬ step s s') →
  a_pc (se_A s) = AExited ∧ b_pc (se_B s) = BExited ∧ exited (se_main s) = true.
Proof.
  intros Hi Hstuck. pose proof (inv_room s Hi) as Hroom. destruct s as [a b m ch ps st cn]; cbn in *.
  assert (a_pc a = AExited) as Ha.
  { destruct (decide (exited_a (a_pc a) = 1%nat)) as [E|E]; [by destruct (a_pc a)|].
    assert (a_pc a ≠ AExited) as Hne by (intros E'; by rewrite E' in E).
    destruct (a_progress st cn a Hne) as (o & a' & H).
    pose proof (exited_a_lt a Hne). pose proof (exited_b_le (b_pc b)).
    destruct (exited_room ch o (Hroom ltac:(lia))) as [ch' Hp].
    exfalso. eapply Hstuck. by eapply step_A. }
  assert (b_pc b = BExited) as Hb.
  { destruct (decide (exited_b (b_pc b) = 1%nat)) as [E|E]; [by destruct (b_pc b)|].
    assert (b_pc b ≠ BExited) as Hne by (intros E'; by rewrite E' in E).
    destruct (b_progress st cn b Hne) as (o & b' & H).
    pose proof (exited_b_lt b Hne). pose proof (exited_a_le (a_pc a)).
    destruct (exited_room ch o (Hroom ltac:(lia))) as [ch' Hp].
    exfalso. eapply Hstuck. by eapply step_B. }
  split; [done|]. split; [done|].
  destruct Hi as [_ _ He Hc _ _]; cbn in *. rewrite Ha, Hb in He. subst ps.
  destruct m as [| | | | |e]; [|exfalso; eapply Hstuck; apply step_Main; constructor..|done].
  destruct ch as [|e ch]; [done|]. exfalso. eapply Hstuck. apply step_Main. constructor.
Qed.

(** ** Properties *)

(** both directions are relayed in order, and nothing is invented, doubled
    or skipped. Whatever the interleaving, the agent has been sent the
    translations of the frames read so far, and the caller those of the
    messages received, but for at most one message each: the one in flight, or the
    one whose sending failed, after which that direction is over. *)
Theorem console_relay s :
  reachable s →
  (∃ lost, omap to_agent (a_read (se_A s)) = a_sent (se_A s) ++ lost ∧ a_pending (a_pc (se_A s)) lost)
  ∧ (∃ lost, map (uncurry to_client) (b_received (se_B s)) = b_written (se_B s) ++ lost
             ∧ b_pending (b_pc (se_B s)) lost).
Proof. intros [Ha Hb _ _ _ _]%reachable_inv. by split. Qed.

(** C35: no goroutine outlives the session for long. The error channel never
    blocks a goroutine (it has room for both), the handler returns the first
    error put, and after it has returned, whatever the scheduling, at most [fuel] more
    steps are possible, until both goroutines have exited. Before that, a
    session that is not over can always go on. *)
Theorem console_no_leak s :
  reachable s →
  (∀ e, a_pc (se_A s) = AFailed e ∨ b_pc (se_B s) = BFailed e → (length (se_errCh s) < errCh_cap)%nat)
  ∧ se_puts s = main_error (se_main s) ++ se_errCh s
  ∧ ((∀ s', ¬ step s s') →
     a_pc (se_A s) = AExited ∧ b_pc (se_B s) = BExited ∧ exited (se_main s) = true)
  ∧ (∀ e n s', se_main s = MExited e → nsteps step n s s' → (n <= fuel s)%nat).
Proof.
  intros Hi%reachable_inv. split; [|split; [|split]].
  - intros e H. apply inv_room; [done|]. pose proof (exited_a_le (a_pc (se_A s))).
    pose proof (exited_b_le (b_pc (se_B s))). destruct H as [H|H]; rewrite H in *; cbn in *; lia.
  - apply Hi.
  - by apply inv_progress.
  - intros e n s' He Hn. destruct (exited_nsteps _ _ _ _ Hi He Hn) as (_ & _ & ?). lia.
Qed.

(** ** Refinement

    What a session promises: two independent one-way relays. A relay holds the
    messages it has yet to pass on; while it is open it passes on the
    first, translated by [tr] (or drops it, when it has no translation), and once
    closed it passes on nothing more. [rl_in] is all it ever got. *)
Section Relay.
Context {X Y : Type} (tr : X → option Y → Prop).

Record Relay := { rl_in : list X; rl_todo : list X; rl_out : list Y; rl_open : bool }.

Inductive relay_step : Relay → Relay → Prop :=
| R_arrive x i l out op :
    relay_step {| rl_in := i; rl_todo := l; rl_out := out; rl_open := op |}
               {| rl_in := i ++ [x]; rl_todo := l ++ [x]; rl_out := out; rl_open := op |}
| R_pass x y i l out :
    tr x y →
    relay_step {| rl_in := i; rl_todo := x :: l; rl_out := out; rl_open := true |}
               {| rl_in := i; rl_todo := l; rl_out := out ++ option_list y; rl_open := true |}
| R_close i l out :
    relay_step {| rl_in := i; rl_todo := l; rl_out := out; rl_open := true |}
               {| rl_in := i; rl_todo := l; rl_out := out; rl_open := false |}.

Definition relay_start : Relay :=
  {| rl_in := []; rl_todo := []; rl_out := []; rl_open := true |}.
(** A relay that got [i] may have passed on [out]. *)
Definition relays_to (i : list X) (out : list Y) : Prop :=
  ∃ r, rtc relay_step relay_start r ∧ rl_in r = i ∧ rl_out r = out.
End Relay.
Arguments Relay : clear implicits.

Definition tr_a (m : ConsoleMessage) (c : option ClientPayload) : Prop := c = to_agent m.
Definition tr_b (p : option ServerPayload) (m : option ConsoleMessage) : Prop :=
  ∃ now, m = Some (to_client now p).

(** A goroutine and its relay. The message in flight is still to be passed on; a
    goroutine that has failed is a closed relay. *)
Definition sim_a (a : GoA) (r : Relay ConsoleMessage ClientPayload) : Prop :=
  rl_out r = a_sent a ∧ rl_in r = a_read a ++ a_waiting a
  ∧ match a_pc a with
    | AReading => rl_todo r = a_waiting a ∧ rl_open r = true
    | ASending c => ∃ m, to_agent m = Some c ∧ rl_todo r = m :: a_waiting a ∧ rl_open r = true
    | AFailed _ | AExited => rl_open r = false
    end.
Definition sim_b (b : GoB) (r : Relay (option ServerPayload) ConsoleMessage) : Prop :=
  rl_out r = b_written b ∧ rl_in r = (b_received b).*2 ++ b_waiting b
  ∧ match b_pc b with
    | BReceiving => rl_todo r = b_waiting b ∧ rl_open r = true
    | BWriting m => ∃ now p, m = to_client now p ∧ rl_todo r = p :: b_waiting b ∧ rl_open r = true
    | BFailed _ | BExited => rl_open r = false
    end.

(** A step of a goroutine is a step of its relay, or none. *)
Ltac relay_by c := eexists; split; [eapply rtc_once; eapply c|].
Ltac relay_stays := eexists; split; [apply rtc_refl|].

Ltac sim_ok :=
  split; [cbn; by rewrite ?app_nil_r|split; [cbn; by rewrite ?fmap_app, <-?app_assoc|cbn]].

Lemma sim_step_a st cn a o a' r :
  step_a st cn a o a' → sim_a a r → ∃ r', rtc (relay_step tr_a) r r' ∧ sim_a a' r'.
Proof.
  intros H (Hout & Hin & Hr). destruct r as [i todo out op], H; cbn in *; subst.
  - relay_by (R_arrive tr_a m). sim_ok. destruct pc; try done; [by destruct Hr as [-> ->]|].
    destruct Hr as (m' & ? & -> & ->). by exists m'.
  - destruct Hr as [-> ->]. unfold a_next. destruct (to_agent m) as [c|] eqn:Hm.
    + relay_stays. sim_ok. by exists m.
    + relay_by (R_pass tr_a m None); [by unfold tr_a|]. by sim_ok.
  - destruct Hr as [-> ->]. relay_by (R_close tr_a). by sim_ok.
  - destruct Hr as (m & Hm & -> & ->). relay_by (R_pass tr_a m (Some c)); [by unfold tr_a|]. by sim_ok.
  - destruct Hr as (m & Hm & -> & ->). relay_by (R_close tr_a). by sim_ok.
  - relay_stays. by sim_ok.
Qed.

Lemma sim_step_b st cn b o b' r :
  step_b st cn b o b' → sim_b b r → ∃ r', rtc (relay_step tr_b) r r' ∧ sim_b b' r'.
Proof.
  intros H (Hout & Hin & Hr). destruct r as [i todo out op], H; cbn in *; subst.
  - relay_by (R_arrive tr_b p). sim_ok. destruct pc; try done; [by destruct Hr as [-> ->]|].
    destruct Hr as (now & p' & ? & -> & ->). by exists now, p'.
  - destruct Hr as [-> ->]. relay_stays. sim_ok. by exists now, p.
  - destruct Hr as [-> ->]. relay_by (R_close tr_b). by sim_ok.
  - destruct Hr as (now & p & -> & -> & ->).
    relay_by (R_pass tr_b p (Some (to_client now p))); [by exists now|]. by sim_ok.
  - destruct Hr as (now & p & -> & -> & ->). relay_by (R_close tr_b). by sim_ok.
  - relay_stays. by sim_ok.
Qed.

Definition simulated (s : Session) : Prop :=
  (∃ r, rtc (relay_step tr_a) relay_start r ∧ sim_a (se_A s) r)
  ∧ ∃ r, rtc (relay_step tr_b) relay_start r ∧ sim_b (se_B s) r.

Lemma simulated_step s s' : step s s' → simulated s → simulated s'.
Proof.
  intros H [(ra & Ha & Sa) (rb & Hb & Sb)]. destruct H as [? ? ? ? ? ? ? ? ? ? Hst _
    |? ? ? ? ? ? ? ? ? ? Hst _|]; [| |by split; eauto].
  - destruct (sim_step_a _ _ _ _ _ _ Hst Sa) as (r & ? & ?). split; [|eauto].
    exists r. split; [by etrans|done].
  - destruct (sim_step_b _ _ _ _ _ _ Hst Sb) as (r & ? & ?). split; [eauto|].
    exists r. split; [by etrans|done].
Qed.

Lemma reachable_simulated s : reachable s → simulated s.
Proof.
  unfold reachable. revert s. apply (rtc_ind_r (λ s, simulated s)).
  - by split; (eexists; split; [apply rtc_refl|]); repeat split.
  - intros s s' _ Hstep. by apply simulated_step.
Qed.

(** a console session implements its specification: whatever the
    interleaving of its two goroutines, its handler, the caller and the agent, the
    messages sent to the agent and those written to the caller are ones two
    independent one-way relays that got the same messages can have passed on. So neither direction waits
    for, reorders or affects the other, and a direction that failed stays silent. *)
Theorem console_refines_relays s :
  reachable s →
  relays_to tr_a (a_read (se_A s) ++ a_waiting (se_A s)) (a_sent (se_A s))
  ∧ relays_to tr_b ((b_received (se_B s)).*2 ++ b_waiting (se_B s)) (b_written (se_B s)).
Proof.
  intros [(ra & ? & ? & ? & _) (rb & ? & ? & ? & _)]%reachable_simulated. by split; eexists.
Qed.

(** ** Runs

    The caller sends a command, the agent a log line; while the line is being
    written to the caller, reading the caller's next frame fails. *)

Definition ex_command : ConsoleMessage :=
  {| cm_Type := "rcon"; cm_TS := 0; cm_Line := ""; cm_ID := ""; cm_Data := "list" |}.
Definition ex_log : option ServerPayload := Some (PLog "[INFO]: joined").
Definition ex_bad_frame : gerr := errorf "invalid character".
Definition ex_broken : gerr := errorf "use of closed connection".

(** The session after those steps, with the handler at [m], the second
    goroutine at [pc] and the errors [ch] still on the channel. *)
Definition ex_session (m : pc_main) (pc : pc_b) (ch ps : list gerr) (st cn : bool) : Session := {|
  se_A := {| a_pc := AExited; a_waiting := []; a_read := [ex_command]; a_sent := [Command "list"] |};
  se_B := {| b_pc := pc; b_waiting := []; b_received := [(1000, ex_log)]; b_written := [] |};
  se_main := m; se_errCh := ch; se_puts := ps; se_stream := st; se_conn := cn;
|}.

Ltac put_ok := first [reflexivity|split; [unfold errCh_cap; simpl; lia|reflexivity]].
Ltac by_A c := eapply rtc_l; [eapply step_A; [eapply c; reflexivity|put_ok]|]; cbn.
Ltac by_B c := eapply rtc_l; [eapply step_B; [eapply c; reflexivity|put_ok]|]; cbn.
Ltac by_main := eapply rtc_l; [apply step_Main; constructor|]; cbn.

Lemma ex_waiting :
  reachable (ex_session MWaiting (BWriting (to_client 1000 ex_log)) [ex_bad_frame] [ex_bad_frame] true true).
Proof.
  unfold reachable, start.
  by_A (A_arrive true true ex_command). by_A (A_read true true ex_command). by_A A_send.
  by_B (B_arrive true true ex_log). by_B (B_receive true true ex_log 1000).
  by_A (A_read_error true true ex_bad_frame). by_A A_put. apply rtc_refl.
Qed.

Lemma ex_reporting :
  reachable (ex_session (MReporting ex_bad_frame) (BWriting (to_client 1000 ex_log)) [] [ex_bad_frame] false true).
Proof.
  unfold reachable. etrans; [exact ex_waiting|]. unfold ex_session.
  by_main. by_main. by_main. apply rtc_refl.
Qed.

Lemma ex_exited :
  reachable (ex_session (MExited ex_bad_frame) (BWriting (to_client 1000 ex_log)) [] [ex_bad_frame] false false).
Proof.
  unfold reachable. etrans; [exact ex_reporting|]. unfold ex_session.
  by_main. by_main. apply rtc_refl.
Qed.

(** two goroutines may write to the WebSocket at once. The handler reports
    the error of the first goroutine while the second may be in the
    middle of its own [WriteJSON], which gorilla/websocket does not support (it
    panics when it notices). It needs only a caller that disconnects or sends a
    malformed frame while output reaches it; and it can only come from the first
    goroutine, whose error is then the only one put. *)
Theorem console_writers :
  (∃ s e m, reachable s ∧ se_main s = MReporting e ∧ b_pc (se_B s) = BWriting m)
  ∧ ∀ s e m, reachable s → se_main s = MReporting e → b_pc (se_B s) = BWriting m →
      a_pc (se_A s) = AExited ∧ se_puts s = [e].
Proof.
  split; [by do 3 eexists; split; [exact ex_reporting|]|].
  intros s e m [_ _ He Hc _ _]%reachable_inv Hm Hb. rewrite Hm in Hc. rewrite Hb in He. cbn in *.
  rewrite Hc in *. cbn in He. pose proof (exited_a_le (a_pc (se_A s))).
  destruct (se_errCh s); cbn in He; [|lia]. split; [|done].
  by destruct (a_pc (se_A s)).
Qed.

(** ** Witnesses *)

Lemma console_relay_witness :
  ∃ lost, map (uncurry to_client) [(1000, ex_log)] = [] ++ lost
          ∧ b_pending (BWriting (to_client 1000 ex_log)) lost.
Proof. exact (proj2 (console_relay _ ex_reporting)). Defined.

Lemma console_no_leak_witness :
  ∃ s', nsteps step 2
    (ex_session (MExited ex_bad_frame) (BWriting (to_client 1000 ex_log)) [] [ex_bad_frame] false false) s'
  ∧ (2 <= 3)%nat ∧ b_pc (se_B s') = BExited.
Proof.
  assert (∃ s', nsteps step 2 (ex_session (MExited ex_bad_frame) (BWriting (to_client 1000 ex_log))
                                 [] [ex_bad_frame] false false) s' ∧ b_pc (se_B s') = BExited)
    as (s' & Hn & Hb).
  { eexists. split.
    - unfold ex_session.
      eapply nsteps_l; [eapply step_B; [apply (B_write_error _ _ _ ex_broken)|reflexivity]|]. cbn.
      eapply nsteps_l; [eapply step_B; [apply B_put|put_ok]|]. apply nsteps_O.
    - reflexivity. }
  exists s'. split; [exact Hn|]. split; [|exact Hb].
  exact (proj2 (proj2 (proj2 (console_no_leak _ ex_exited))) _ _ _ eq_refl Hn).
Defined.

Lemma console_refines_relays_witness : relays_to tr_a [ex_command] [Command "list"] ∧ relays_to tr_b [ex_log] [].
Proof. exact (console_refines_relays _ ex_reporting). Defined.
