(* ===== verification/Agent.v ===== *)
(** * Agent: the agent SDK ([sdk/agent]), but for its RCON clients

    Action catalogs ([actions/catalog.go], [actions/env.go]), the interpreter of
    their steps ([actions/steps.go]), [lifecycle.RunSteps] and the gRPC
    server's options, dispatch and recovery from panics ([server/server.go]; its
    stubs, start and shutdown are [AgentRpc] and [AgentServer]). The agent's
    runtime, [text/template] and the JSON and YAML decoders are
    parameters. *)

From Stdlib Require Import Ascii String.
From stdpp Require Import fin_maps.
From S2P Require Import Prelude GoStrings GoTime Prog Api Kube.
#[local] Open Scope Z_scope.

(** ** Catalogs *)

Record ParseConfig := {
  pc_Type : string;
  pc_Regex : string;
  pc_Fields : list string;
  pc_Map : gomap string;
}.

Record Step := {
  st_Name : string;
  st_Type : string;
  st_Inputs : gomap string;
  st_Parse : option ParseConfig;
}.

Record ParamSchema := {
  sch_Type : string;
  sch_Required : bool;
  sch_Description : string;
  sch_Default : string;
}.

Record ActionDefinition := {
  def_Name : string;
  def_Description : string;
  def_Params : gomap ParamSchema;
  def_Steps : list Step;
}.

Record Catalog := { cat_Actions : list ActionDefinition }.
Definition empty_catalog : Catalog := {| cat_Actions := [] |}.

Definition FindAction (c : Catalog) (name : string) : option ActionDefinition :=
  find_first (λ a, def_Name a =s name) (cat_Actions c).

(** What a decoder leaves in the catalog, and its error; [io.EOF] is told
    apart. *)
Inductive decode_error := EOF | DecodeError (e : gerr).
Class CatalogDecode := {
  json_decode : string → Catalog * option decode_error;
  yaml_decode : string → Catalog * option decode_error;
}.

Section Load.
Context `{!CatalogDecode}.

Definition decoded (r : Catalog * option decode_error) : Catalog + gerr :=
  match r with
  | (_, Some (DecodeError e)) => inr e
  | (c, _) => inl c
  end.
Definition decodeJSON (content : string) : Catalog + gerr := decoded (json_decode content).
Definition decodeYAML (content : string) : Catalog + gerr := decoded (yaml_decode content).

Definition LoadCatalogFromBytes (content : string) : Catalog + gerr :=
  match TrimSpace content with
  | "" => inr (errorf "empty content")
  | String c _ =>
      if Ascii.eqb c "{" || Ascii.eqb c "[" then decodeJSON content else decodeYAML content
  end.

(** [ReadFile] is the file system. *)
Definition LoadCatalogFromFile (ReadFile : string → string + gerr) (path : string) : Catalog + gerr :=
  if path =s "" then inr (errorf "path is required")
  else match ReadFile path with
       | inr e => inr e
       | inl content => LoadCatalogFromBytes content
       end.
End Load.

(** *** Catalogs from the environment *)

Definition ACTION_PREFIX : string := "minato_ACTION_".

(** The loop over the environment that collects a step's inputs. *)
Definition inputs_body (inputKeyPrefix : string) (inputs : gmap string string) (env : string)
  : gmap string string :=
  match Cut env "=" with
  | None => inputs
  | Some (k, v) =>
      if HasPrefix k inputKeyPrefix
      then <[ToLower (TrimPrefix k inputKeyPrefix) := v]> inputs
      else inputs
  end.
Definition inputKeyPrefix (actionName stepName : string) : string :=
  ACTION_PREFIX +:+ ToUpper actionName +:+ "_INPUT_" +:+ ToUpper stepName +:+ "_".
Definition step_inputs (environ : list string) (actionName stepName : string) : gmap string string :=
  foldl (inputs_body (inputKeyPrefix actionName stepName)) ∅ environ.

(** The action, step and type an entry of the environment declares. *)
Definition step_entry (entry : string) : option (string * string * string) :=
  match Cut entry "=" with
  | None => None
  | Some (key, value) =>
      if negb (HasPrefix key ACTION_PREFIX) || Contains key "_INPUT_" then None
      else match Cut (TrimPrefix key ACTION_PREFIX) "_STEP_" with
           | None => None
           | Some (a, s) =>
               let actionName := ToLower a in
               let stepName := ToLower s in
               if (actionName =s "") || (stepName =s "") then None
               else Some (actionName, stepName, value)
           end
  end.

Definition add_step (s : Step) (a : ActionDefinition) : ActionDefinition :=
  {| def_Name := def_Name a; def_Description := def_Description a;
     def_Params := def_Params a; def_Steps := def_Steps a ++ [s] |}.
Definition new_action (name : string) : ActionDefinition :=
  {| def_Name := name; def_Description := ""; def_Params := None; def_Steps := [] |}.

Definition env_body (environ : list string) (actionsMap : gmap string ActionDefinition)
  (entry : string) : gmap string ActionDefinition :=
  match step_entry entry with
  | None => actionsMap
  | Some (actionName, stepName, stepType) =>
      let action := default (new_action actionName) (actionsMap !! actionName) in
      let inputs := step_inputs environ actionName stepName in
      <[actionName := add_step {| st_Name := stepName; st_Type := ToLower stepType;
                                  st_Inputs := Some inputs; st_Parse := None |} action]> actionsMap
  end.

(** [order] is the order in which Go visits a map. *)
Definition CatalogFromEnv (order : gmap string ActionDefinition → list (string * ActionDefinition))
  (environ : list string) : Catalog :=
  {| cat_Actions := (order (foldl (env_body environ) ∅ environ)).*2 |}.

(** ** Steps *)

(** [Runtime]: what an agent offers to its actions. *)
Inductive rtop : Type → Type :=
| RtRCON (command : string) : rtop (string * option gerr)
| RtExec (command : string) (args : list string) : rtop (string * option gerr)
| RtHTTP (method url body : string) : rtop (string * option gerr)
| RtSignal (target signal : string) : rtop (option gerr)
| RtSleep (duration : Z) : rtop (option gerr).

(** [text/template] with [missingkey=zero], parsed and executed; [None] when
    either fails. And the error [time.ParseDuration] gives. *)
Class Template := {
  template_run : string → gmap string string → option string;
  duration_error : string → gerr;
}.

Section Steps.
Context `{Htmpl : !Template}.

Definition renderTemplate (input : string) (vars : gmap string string) : string :=
  if input =s "" then "" else default input (template_run input vars).

Definition splitArgs (input : string) : list string :=
  if TrimSpace input =s "" then [] else Fields input.

Definition executeStep (step : Step) (vars : gmap string string)
  : prog rtop (string * option gerr) :=
  let input k := renderTemplate (gm_get (st_Inputs step) k) vars in
  let ty := ToLower (st_Type step) in
  if ty =s "rcon" then call (RtRCON (input "command"))
  else if ty =s "exec" then call (RtExec (input "command") (splitArgs (input "args")))
  else if ty =s "sleep" then
    match ParseDuration (input "duration") with
    | None => Ret ("", Some (duration_error (input "duration")))
    | Some d => let* e := call (RtSleep d) in Ret ("", e)
    end
  else if ty =s "http" then call (RtHTTP (input "method") (input "url") (input "body"))
  else if ty =s "signal" then
    let* e := call (RtSignal (input "target") (input "signal")) in Ret ("", e)
  else Ret ("", Some (errorf ("unsupported step type " +:+ st_Type step))).

(** The variables, in the order the declared parameters are visited. *)
Fixpoint bind_params (schemas : list (string * ParamSchema)) (params : gomap string)
  (vars : gmap string string) : gmap string string + gerr :=
  match schemas with
  | [] => inl vars
  | (key, schema) :: schemas =>
      match gm_lookup params key with
      | Some value => bind_params schemas params (<[key := value]> vars)
      | None =>
          if sch_Required schema then inr (errorf ("missing required param " +:+ key))
          else if sch_Default schema <>s ""
          then bind_params schemas params (<[key := sch_Default schema]> vars)
          else bind_params schemas params vars
      end
  end.

Definition set_output (step : Step) (value : string) (outputs : gmap string string)
  : gmap string string :=
  if (st_Name step <>s "") && (value <>s "") then <[st_Name step := value]> outputs else outputs.

Fixpoint run_steps (steps : list Step) (vars outputs : gmap string string)
  : prog rtop (gmap string string + gerr) :=
  match steps with
  | [] => Ret (inl outputs)
  | step :: steps =>
      let* '(value, err) := executeStep step vars in
      match err with
      | Some e => Ret (inr e)
      | None => run_steps steps vars (set_output step value outputs)
      end
  end.

Definition ErrNoRuntime : gerr := errorf "runtime is nil".

(** [order] visits the declared parameters; [runtime] says whether there is one. *)
Definition Execute (order : gmap string ParamSchema → list (string * ParamSchema))
  (action : ActionDefinition) (params : gomap string) (runtime : bool)
  : prog rtop (gmap string string + gerr) :=
  if negb runtime then Ret (inr ErrNoRuntime)
  else match bind_params (order (gm_make (def_Params action))) params ∅ with
       | inr e => Ret (inr e)
       | inl vars => run_steps (def_Steps action) vars ∅
       end.
End Steps.

(** ** Lifecycle ([lifecycle/steps.go]) *)

Fixpoint RunSteps {E} (steps : list (prog E (option gerr))) : prog E (option gerr) :=
  match steps with
  | [] => Ret None
  | step :: steps =>
      let* err := step in
      match err with Some e => Ret (Some e) | None => RunSteps steps end
  end.

(** ** The gRPC server ([server/server.go]) *)

Record Options := { op_GRPCAddr : string; op_MetricsAddr : string; op_ShutdownGrace : Z }.

(** The defaults [Serve] fills in. *)
Definition serve_options (o : Options) : Options := {|
  op_GRPCAddr := if op_GRPCAddr o =s "" then ":9876" else op_GRPCAddr o;
  op_MetricsAddr := if op_MetricsAddr o =s "" then ":9090" else op_MetricsAddr o;
  op_ShutdownGrace := if op_ShutdownGrace o =? 0 then 5 * second else op_ShutdownGrace o;
|}.

Section Server.
Context {E : Type → Type} {Msg : Type}.

(** [Agent]: five unary methods and the console stream. *)
Inductive Unary := MInfo | MHealthCheck | MPrepareShutdown | MGetPlayers | MExecuteAction.

Record Agent := {
  ag_Info : Msg → prog E (option Msg * option gerr);
  ag_HealthCheck : Msg → prog E (option Msg * option gerr);
  ag_PrepareShutdown : Msg → prog E (option Msg * option gerr);
  ag_GetPlayers : Msg → prog E (option Msg * option gerr);
  ag_ExecuteAction : Msg → prog E (option Msg * option gerr);
  ag_Console : prog E (option gerr);
}.

(** [handler]: every method is the agent's. *)
Definition handle (agent : Agent) (m : Unary) : Msg → prog E (option Msg * option gerr) :=
  match m with
  | MInfo => ag_Info agent
  | MHealthCheck => ag_HealthCheck agent
  | MPrepareShutdown => ag_PrepareShutdown agent
  | MGetPlayers => ag_GetPlayers agent
  | MExecuteAction => ag_ExecuteAction agent
  end.

(** [defer func() { if r := recover() ... }()]: a panic becomes a result. *)
Fixpoint recover {A} (h : string → A) (p : prog E A) : prog E A :=
  match p with
  | Ret a => Ret a
  | Call e k => Call e (λ x, recover h (k x))
  | Panic m => Ret (h m)
  end.

Definition internal (msg : string) : gerr := errorf ("rpc error: code = Internal desc = " +:+ msg).
Definition recoverInterceptor (handler : Msg → prog E (option Msg * option gerr)) (req : Msg)
  : prog E (option Msg * option gerr) :=
  recover (λ r, (None, Some (internal ("panic: " +:+ r)))) (handler req).

(** What the server runs for a call: the interceptor is a unary one, so a
    stream is handled without it. *)
Definition serve_unary (agent : Agent) (m : Unary) (req : Msg) :=
  recoverInterceptor (handle agent m) req.
Definition serve_console (agent : Agent) : prog E (option gerr) := ag_Console agent.
End Server.
Arguments Agent : clear implicits.

(** ** Lemmas *)

Lemma recover_runs {E A} (h : string → A) (p : prog E A) t o :
  runs (recover h p) t o ↔
  ∃ o', runs p t o' ∧ o = match o' with Done a => Done a | Crash m => Done (h m) end.
Proof.
  revert t. induction p as [a|X e k IH|m]; intros t; simpl.
  - split; [intros [-> ->]; by exists (Done a)|]. by intros (? & [-> ->] & ->).
  - split.
    + intros (x & t' & -> & (o' & ? & ->)%IH). exists o'. split; [by exists x, t'|done].
    + intros (o' & (x & t' & -> & ?) & ->). exists x, t'. split; [done|]. apply IH. eauto.
  - split; [intros [-> ->]; by exists (Crash m)|]. by intros (? & [-> ->] & ->).
Qed.

(** *** The plan of an action

    A call to the runtime with its arguments, as data, and what it answered. *)
Inductive rtcall :=
| CRCON (command : string)
| CExec (command : string) (args : list string)
| CHTTP (method url body : string)
| CSignal (target signal : string)
| CSleep (duration : Z).

Definition call_of {X} (e : rtop X) : rtcall :=
  match e with
  | RtRCON c => CRCON c
  | RtExec c a => CExec c a
  | RtHTTP m u b => CHTTP m u b
  | RtSignal t s => CSignal t s
  | RtSleep d => CSleep d
  end.
Definition answer_of {X} (e : rtop X) : X → string * option gerr :=
  match e in rtop X return X → string * option gerr with
  | RtRCON _ | RtExec _ _ | RtHTTP _ _ _ => λ x, x
  | RtSignal _ _ | RtSleep _ => λ x, ("", x)
  end.
Definition seen (v : event rtop) : rtcall * (string * option gerr) :=
  match v with Ev e x => (call_of e, answer_of e x) end.

Section Plan.
Context `{Htmpl : !Template}.

(** The one call a step makes, with its inputs rendered, or why it makes none. *)
Definition plan (vars : gmap string string) (step : Step) : rtcall + gerr :=
  let input k := renderTemplate (gm_get (st_Inputs step) k) vars in
  if ToLower (st_Type step) =s "rcon" then inl (CRCON (input "command"))
  else if ToLower (st_Type step) =s "exec"
  then inl (CExec (input "command") (splitArgs (input "args")))
  else if ToLower (st_Type step) =s "sleep" then
    match ParseDuration (input "duration") with
    | Some d => inl (CSleep d)
    | None => inr (duration_error (input "duration"))
    end
  else if ToLower (st_Type step) =s "http"
  then inl (CHTTP (input "method") (input "url") (input "body"))
  else if ToLower (st_Type step) =s "signal" then inl (CSignal (input "target") (input "signal"))
  else inr (errorf ("unsupported step type " +:+ st_Type step)).

Lemma executeStep_runs step vars t o :
  runs (executeStep step vars) t o ↔
  match plan vars step with
  | inl c => ∃ v a, t = [v] ∧ seen v = (c, a) ∧ o = Done a
  | inr e => t = [] ∧ o = Done ("", Some e)
  end.
Proof.
  unfold executeStep, plan.
  repeat case_match; simplify_eq/=; try done;
    (split; [intros (x & t' & -> & -> & ->); by do 2 eexists|]);
    intros ([X e x] & a & -> & Hs & ->); cbn in Hs;
    destruct e; simplify_eq/=; eauto.
Qed.
End Plan.

Section Execute.
Context `{Htmpl : !Template}.

(** *** Variables *)

(** A declared parameter has the caller's value, or its default. *)
Definition param_value (params : gomap string) (key : string) (schema : ParamSchema) : option string :=
  match gm_lookup params key with
  | Some v => Some v
  | None => if sch_Default schema =s "" then None else Some (sch_Default schema)
  end.
Definition action_vars (params : gomap string) (schemas : gmap string ParamSchema)
  : gmap string string := map_imap (param_value params) schemas.

Definition missing (params : gomap string) (schemas : gmap string ParamSchema) (key : string) : Prop :=
  ∃ schema, schemas !! key = Some schema ∧ sch_Required schema = true ∧ gm_lookup params key = None.

Lemma bind_params_step key schema schemas params vars :
  bind_params ((key, schema) :: schemas) params vars =
  if bool_decide (gm_lookup params key = None) && sch_Required schema
  then inr (errorf ("missing required param " +:+ key))
  else bind_params schemas params
         (match param_value params key schema with Some v => <[key := v]> vars | None => vars end).
Proof.
  cbn [bind_params]. unfold param_value. destruct (gm_lookup params key) eqn:E; [done|].
  rewrite bool_decide_true by done. cbn. destruct (sch_Required schema); [done|].
  by destruct (sch_Default schema =s "").
Qed.

Lemma bind_params_spec params (l : list (string * ParamSchema)) : ∀ vars,
  NoDup l.*1 →
  match bind_params l params vars with
  | inl vars' =>
      (∀ key, ¬ missing params (list_to_map l) key)
      ∧ ∀ key, vars' !! key = match (list_to_map l : gmap _ _) !! key ≫= param_value params key with
                              | Some v => Some v
                              | None => vars !! key
                              end
  | inr e => ∃ key, missing params (list_to_map l) key
                    ∧ e = errorf ("missing required param " +:+ key)
  end.
Proof.
  induction l as [|[key schema] l IH]; intros vars Hnd.
  { cbn. split; [|done]. intros key (s & Hs & _). by rewrite lookup_empty in Hs. }
  rewrite fmap_cons in Hnd. apply NoDup_cons in Hnd as [Hk Hnd]. cbn in Hk.
  apply not_elem_of_list_to_map_1 in Hk. rewrite bind_params_step, list_to_map_cons.
  destruct (_ && _) eqn:E.
  { apply andb_true_iff in E as [E%bool_decide_eq_true Hr]. exists key. split; [|done].
    exists schema. by rewrite lookup_insert_eq. }
  set (vars1 := match param_value params key schema with Some v => _ | None => _ end).
  specialize (IH vars1 Hnd). destruct (bind_params l params vars1) as [vars'|e].
  - destruct IH as [Hm Hv]. split.
    + intros k (s & Hs & Hr & Hp). destruct (decide (k = key)) as [->|Hne].
      * rewrite lookup_insert_eq in Hs. simplify_eq. by rewrite bool_decide_true, Hr in E.
      * rewrite lookup_insert_ne in Hs by done. apply (Hm k). by exists s.
    + intros k. rewrite Hv. subst vars1. destruct (decide (k = key)) as [->|Hne].
      * rewrite Hk, lookup_insert_eq. cbn. destruct (param_value params key schema); [|done].
        by rewrite lookup_insert_eq.
      * rewrite (lookup_insert_ne _ key k schema) by done.
        destruct (param_value params key schema); [|done]. by rewrite lookup_insert_ne.
  - destruct IH as (k & (s & Hs & Hr & Hp) & ->). exists k. split; [|done]. exists s.
    destruct (decide (k = key)) as [->|Hne]; [by rewrite Hk in Hs|].
    by rewrite lookup_insert_ne.
Qed.

(** *** Steps *)

Definition answered_ok (v : event rtop) : Prop := (seen v).2.2 = None.

(** The output [name] of steps with these results: the last that is not empty. *)
Definition outputs (steps : list Step) (values : list string) (name : string) : option string :=
  last (omap (λ '(s, v), if (st_Name s =s name) && (v <>s "") then Some v else None)
             (zip steps values)).

Lemma set_output_lookup step value outs name :
  name ≠ "" →
  set_output step value outs !! name =
  if (st_Name step =s name) && (value <>s "") then Some value else outs !! name.
Proof.
  intros Hn. unfold set_output. destruct (String.eqb_spec (st_Name step) name) as [->|Hne].
  - apply eqs_false in Hn. rewrite Hn. cbn. destruct (negb _); [by rewrite lookup_insert_eq|done].
  - cbn. destruct (_ && _); [by rewrite lookup_insert_ne|done].
Qed.

Lemma run_steps_runs steps vars : ∀ outs t o,
  runs (run_steps steps vars outs) t o →
  map (λ v, inl (seen v).1) t = take (length t) (map (plan vars) steps)
  ∧ match o with
    | Done (inl outs') =>
        length t = length steps ∧ Forall answered_ok t
        ∧ ∀ name, name ≠ "" →
            outs' !! name = match outputs steps (map (λ v, (seen v).2.1) t) name with
                            | Some v => Some v
                            | None => outs !! name
                            end
    | Done (inr e) =>
        (Forall answered_ok t ∧ map (plan vars) steps !! length t = Some (inr e))
        ∨ ∃ t0 v, t = t0 ++ [v] ∧ Forall answered_ok t0 ∧ (seen v).2.2 = Some e
    | Crash _ => False
    end.
Proof.
  induction steps as [|step steps IH]; intros outs t o; cbn [run_steps].
  { intros [-> ->]. split; [done|]. split; [done|]. split; [done|]. done. }
  intros [(m & H & ->)|([value err] & t1 & t2 & -> & H1 & H2)]%runs_bind.
  { apply executeStep_runs in H. destruct (plan vars step).
    - by destruct H as (? & ? & _ & _ & ?).
    - by destruct H. }
  apply executeStep_runs in H1. cbn [map]. destruct (plan vars step) as [c|e] eqn:Hp.
  2:{ destruct H1 as [-> [= -> ->]]. destruct H2 as [-> ->]. split; [done|].
      left. split; [constructor|]. done. }
  destruct H1 as (v & a & -> & Hs & [= <-]). destruct err as [e|].
  { destruct H2 as [-> ->]. cbn. rewrite Hs. split; [done|]. right. exists [], v.
    split; [done|]. split; [constructor|]. by rewrite Hs. }
  apply IH in H2 as [Hc Ho]. cbn [app]. split; [cbn; by rewrite Hs, Hc|].
  assert (answered_ok v) as Hok by (unfold answered_ok; by rewrite Hs).
  destruct o as [[outs'|e]|m]; [| |done].
  - destruct Ho as (Hl & Hf & Hv). split; [cbn; lia|]. split; [by constructor|].
    intros name Hn. rewrite (Hv name Hn), (set_output_lookup _ _ _ _ Hn).
    unfold outputs. cbn [map zip zip_with]. rewrite Hs. cbn [fst snd omap list_omap].
    destruct (_ && _); [|done]. rewrite last_cons. by destruct (last _).
  - destruct Ho as [[Hf Hl]|(t0 & w & -> & Hf & He)].
    + left. split; [by constructor|done].
    + right. exists (v :: t0), w. split; [done|]. split; [by constructor|done].
Qed.
End Execute.

(** *** The environment *)

(** The steps the environment declares for an action, in its order. *)
Definition declared_step (environ : list string) (name entry : string) : option Step :=
  match step_entry entry with
  | Some (a, s, ty) =>
      if a =s name
      then Some {| st_Name := s; st_Type := ToLower ty;
                   st_Inputs := Some (step_inputs environ a s); st_Parse := None |}
      else None
  | None => None
  end.

(** The value an entry gives to the input [k] of a step. *)
Definition declared_input (actionName stepName k entry : string) : option string :=
  match Cut entry "=" with
  | Some (key, v) =>
      if HasPrefix key (inputKeyPrefix actionName stepName)
         && (ToLower (TrimPrefix key (inputKeyPrefix actionName stepName)) =s k)
      then Some v else None
  | None => None
  end.

Definition with_steps (name : string) (steps : list Step) : option ActionDefinition :=
  match steps with
  | [] => None
  | _ => Some {| def_Name := name; def_Description := ""; def_Params := None; def_Steps := steps |}
  end.
Definition declared_action (environ : list string) (name : string) : option ActionDefinition :=
  with_steps name (omap (declared_step environ name) environ).

Lemma env_body_step environ name entry m pre :
  m !! name = with_steps name pre →
  env_body environ m entry !! name
  = with_steps name (pre ++ option_list (declared_step environ name entry)).
Proof.
  intros Hm. unfold env_body, declared_step.
  destruct (step_entry entry) as [[[a s] ty]|]; [|by rewrite app_nil_r].
  destruct (String.eqb_spec a name) as [->|Hne].
  - rewrite lookup_insert_eq, Hm. by destruct pre.
  - by rewrite lookup_insert_ne, app_nil_r.
Qed.

Lemma omap_option_list {A B} (f : A → option B) x l :
  omap f (x :: l) = option_list (f x) ++ omap f l.
Proof. cbn. by destruct (f x). Qed.

Lemma env_body_lookup environ name l : ∀ m pre,
  m !! name = with_steps name pre →
  foldl (env_body environ) m l !! name = with_steps name (pre ++ omap (declared_step environ name) l).
Proof.
  induction l as [|entry l IH]; intros m pre Hm; [cbn; by rewrite app_nil_r|].
  rewrite omap_option_list, app_assoc. by apply IH, env_body_step.
Qed.

Lemma find_action_perm (m : gmap string ActionDefinition) l name :
  l ≡ₚ map_to_list m → (∀ k a, m !! k = Some a → def_Name a = k) →
  find_first (λ a, def_Name a =s name) l.*2 = m !! name.
Proof.
  intros Hl Hm. destruct (find_first _ _) as [a|] eqn:E.
  - apply find_first_Some in E as [Ha Hn%eqs_true].
    apply list_elem_of_fmap in Ha as ([k a'] & -> & Ha). rewrite Hl in Ha.
    apply elem_of_map_to_list in Ha. cbn in *. apply Hm in Ha as Hk. congruence.
  - destruct (m !! name) as [a|] eqn:Ha; [|done]. exfalso.
    rewrite find_first_None in E. specialize (E a). rewrite (Hm _ _ Ha), eqs_refl in E.
    enough (true = false) by done. apply E. apply list_elem_of_fmap.
    exists (name, a). split; [done|]. rewrite Hl. by apply elem_of_map_to_list.
Qed.

Lemma step_inputs_body a s k l : ∀ m,
  foldl (inputs_body (inputKeyPrefix a s)) m l !! k =
  match last (omap (declared_input a s k) l) with Some v => Some v | None => m !! k end.
Proof.
  induction l as [|e l IH]; intros m; [done|]. cbn [foldl omap list_omap]. rewrite IH.
  assert (inputs_body (inputKeyPrefix a s) m e !! k =
          match declared_input a s k e with Some v => Some v | None => m !! k end) as ->.
  { unfold inputs_body, declared_input. destruct (Cut e "=") as [[key v]|]; [|done].
    destruct (HasPrefix _ _); [|done]. cbn [andb].
    destruct (String.eqb_spec (ToLower (TrimPrefix key (inputKeyPrefix a s))) k) as [->|Hne].
    - by rewrite lookup_insert_eq.
    - by rewrite lookup_insert_ne. }
  destruct (declared_input a s k e) as [v|]; [|done]. rewrite last_cons. by destruct (last _).
Qed.

(** ** Properties *)

Section Properties.
Context `{Htmpl : !Template}.

(** C16: what executing an action does. If a required parameter is missing it
    calls nothing and says which. Otherwise the variables are the declared
    parameters' given or default values, and nothing else; the runtime gets the
    calls of the steps' [plan], in order, until a step fails to plan or
    its call fails, whose error is then the result; if none does, all steps
    were called, and the outputs are the last non-empty results of the named steps. *)
Theorem Execute_correct order action params t o :
  let schemas := gm_make (def_Params action) in
  let vars := action_vars params schemas in
  order schemas ≡ₚ map_to_list schemas →
  runs (Execute order action params true) t o →
  (∃ key, missing params schemas key
          ∧ t = [] ∧ o = Done (inr (errorf ("missing required param " +:+ key))))
  ∨ ((∀ key, ¬ missing params schemas key)
     ∧ map (λ v, inl (seen v).1) t = take (length t) (map (plan vars) (def_Steps action))
     ∧ match o with
       | Done (inl outs) =>
           length t = length (def_Steps action) ∧ Forall answered_ok t
           ∧ ∀ name, name ≠ "" →
               outs !! name = outputs (def_Steps action) (map (λ v, (seen v).2.1) t) name
       | Done (inr e) =>
           (Forall answered_ok t ∧ map (plan vars) (def_Steps action) !! length t = Some (inr e))
           ∨ ∃ t0 v, t = t0 ++ [v] ∧ Forall answered_ok t0 ∧ (seen v).2.2 = Some e
       | Crash _ => False
       end).
Proof.
  intros schemas vars Ho H. unfold Execute in H. cbn [negb] in H. fold schemas in H.
  assert (NoDup (order schemas).*1) as Hnd by (rewrite Ho; apply NoDup_fst_map_to_list).
  assert ((list_to_map (order schemas) : gmap _ _) = schemas) as Hl.
  { rewrite <-(list_to_map_to_list schemas) at 2. by apply list_to_map_proper. }
  pose proof (bind_params_spec params (order schemas) ∅ Hnd) as Hb. rewrite Hl in Hb.
  destruct (bind_params _ _ _) as [vars'|e].
  - right. destruct Hb as [Hm Hv]. split; [done|].
    assert (vars' = vars) as ->.
    { apply map_eq. intros k. rewrite Hv. subst vars. unfold action_vars.
      rewrite map_lookup_imap, lookup_empty. by destruct (_ ≫= _). }
    apply run_steps_runs in H as [Hc Hr]. split; [done|].
    destruct o as [[outs|e]|m]; [|done|done]. destruct Hr as (? & ? & Hr).
    split; [done|]. split; [done|]. intros name Hn. rewrite (Hr name Hn), lookup_empty.
    by destruct (outputs _ _ _).
  - left. destruct H as [-> ->]. destruct Hb as (key & Hm & ->). by exists key.
Qed.

(** the catalog of the environment, as a set of declarations. Whatever the
    order in which Go visits its map, looking up an action finds exactly the
    steps the environment declares for its name, in the order of the environment, and an
    input of a step is the last one the environment gives. *)
Theorem CatalogFromEnv_correct order environ name :
  (∀ m, order m ≡ₚ map_to_list m) →
  FindAction (CatalogFromEnv order environ) name = declared_action environ name
  ∧ ∀ actionName stepName k,
      step_inputs environ actionName stepName !! k
      = last (omap (declared_input actionName stepName k) environ).
Proof.
  intros Ho. split.
  - pose proof (λ k, env_body_lookup environ k environ ∅ [] (lookup_empty k)) as H.
    unfold FindAction, CatalogFromEnv. cbn [cat_Actions].
    rewrite (find_action_perm _ _ _ (Ho _)); [apply H|].
    intros k a. rewrite H. cbn. unfold with_steps. destruct (omap _ _); [done|]. by intros [= <-].
  - intros a s k. unfold step_inputs. rewrite step_inputs_body, lookup_empty. by destruct (last _).
Qed.
End Properties.

(** an agent's panic does not kill its server when the call is unary: the
    caller gets an Internal error, and other results pass unchanged. The
    console is a stream, which the interceptor does not cover: there a panic of the
    agent is a panic of the server. *)
Theorem recoverInterceptor_correct {E Msg} (agent : Agent E Msg) m req t o :
  (runs (serve_unary agent m req) t o ↔
   ∃ o', runs (handle agent m req) t o'
         ∧ o = match o' with
               | Done r => Done r
               | Crash p => Done (None, Some (internal ("panic: " +:+ p)))
               end)
  ∧ ∀ p, runs (serve_console agent) t (Crash p) ↔ runs (ag_Console agent) t (Crash p).
Proof. split; [apply recover_runs|done]. Qed.

(** ** Witnesses *)

(** A template engine that substitutes nothing. *)
#[local] Instance ex_Template : Template := {
  template_run := λ input _, Some input;
  duration_error := λ s, errorf ("time: invalid duration " +:+ fmt_q s);
}.
Definition ex_order {A} (m : gmap string A) : list (string * A) := map_to_list m.

Definition ex_schema (required : bool) (def : string) : ParamSchema :=
  {| sch_Type := "string"; sch_Required := required; sch_Description := ""; sch_Default := def |}.
Definition ex_step (name ty : string) (inputs : list (string * string)) : Step :=
  {| st_Name := name; st_Type := ty; st_Inputs := Some (list_to_map inputs); st_Parse := None |}.

(** Save the world, wait, copy it; the copy fails. *)
Definition ex_backup : ActionDefinition := {|
  def_Name := "backup"; def_Description := "";
  def_Params := Some {["world" := ex_schema true ""; "delay" := ex_schema false "5s"]};
  def_Steps := [ex_step "save" "RCON" [("command", "save-all")];
                ex_step "" "sleep" [("duration", "5s")];
                ex_step "copy" "exec" [("command", "tar"); ("args", "-czf  world.tgz world")]];
|}.
Definition ex_params : gomap string := Some {["world" := "main"; "other" := "x"]}.

Definition ex_runtime (X : Type) (e : rtop X) (s : unit) : X * unit :=
  (match e in rtop X return X with
   | RtRCON _ => ("Saved", None)
   | RtExec _ _ => ("", Some (errorf "exit status 1"))
   | RtHTTP _ _ _ => ("", None)
   | RtSignal _ _ => None
   | RtSleep _ => None
   end, s).
Definition ex_execute : list (event rtop) * outcome (gmap string string + gerr) * unit :=
  exec ex_runtime (Execute ex_order ex_backup ex_params true) tt.

Lemma Execute_correct_witness :
  map (λ v, (seen v).1) ex_execute.1.1
  = [CRCON "save-all"; CSleep (5 * second); CExec "tar" ["-czf"; "world.tgz"; "world"]]
  ∧ ex_execute.1.2 = Done (inr (errorf "exit status 1"))
  ∧ map (λ v, inl (seen v).1) ex_execute.1.1
    = take 3 (map (plan (action_vars ex_params (gm_make (def_Params ex_backup)))) (def_Steps ex_backup)).
Proof.
  split; [vm_compute; reflexivity|]. split; [vm_compute; reflexivity|].
  destruct (Execute_correct ex_order ex_backup ex_params ex_execute.1.1 ex_execute.1.2
    (reflexivity _) (exec_result_runs ex_runtime _ tt))
    as [(key & _ & H & _)|(_ & H & _)].
  - vm_compute in H. discriminate H.
  - exact H.
Defined.

Definition ex_environ : list string := [
  "PATH=/bin"; "minato_ACTION_SAVE_STEP_1=rcon"; "minato_ACTION_SAVE_INPUT_1_COMMAND=save-all";
  "minato_ACTION_SAVE_STEP_1_COPY=EXEC"; "minato_ACTION_SAVE_INPUT_1_COPY_COMMAND=tar";
  "minato_ACTION_BACKUP_STEP_1=sleep"].

(** The inputs of a step named [1_copy] are also inputs of the step [1], under
    the name [copy_command]: the key of an input does not say where the name of the step
    ends. *)
Lemma CatalogFromEnv_correct_witness :
  FindAction (CatalogFromEnv ex_order ex_environ) "save"
  = with_steps "save"
      [ex_step "1" "rcon" [("command", "save-all"); ("copy_command", "tar")];
       ex_step "1_copy" "exec" [("command", "tar")]]
  ∧ step_inputs ex_environ "save" "1" !! "copy_command" = Some "tar".
Proof.
  destruct (CatalogFromEnv_correct ex_order ex_environ "save" (λ m, reflexivity _)) as [H Hi].
  split.
  - rewrite H. vm_compute. reflexivity.
  - rewrite Hi. vm_compute. reflexivity.
Defined.
