(* ===== verification/AgentMessages.v ===== *)
(** * AgentMessages: the messages of the agent's RPC ([api/agent/v1/.../agent.pb.go])

    A message is a record of its exported fields; a Go pointer to one is an
    [option], a getter reads the field of a pointer that may be nil, and
    [new_M] is the message of [new(M)]. An enumeration is open: any 32-bit
    number is one, and seven have names. A oneof is a sum, missing when unset.
    Two fields have types of the protobuf library, which are parameters. *)

From stdpp Require Import gmap.
From S2P Require Import Prelude GoStrings Api.
#[local] Open Scope Z_scope.

(** [timestamppb.Timestamp] and [anypb.Any]. *)
Class WellKnown := { Timestamp : Type; Any : Type }.

(** ** The state of an action *)

Definition ActionState := Z.
Definition ACTION_STATE_UNSPECIFIED : ActionState := 0.
Definition ACTION_STATE_PENDING : ActionState := 1.
Definition ACTION_STATE_RUNNING : ActionState := 2.
Definition ACTION_STATE_SUCCEEDED : ActionState := 3.
Definition ACTION_STATE_FAILED : ActionState := 4.
Definition ACTION_STATE_TIMED_OUT : ActionState := 5.
Definition ACTION_STATE_REJECTED : ActionState := 6.
Definition ActionState_name : gmap Z string := list_to_map [
  (0, "ACTION_STATE_UNSPECIFIED");
   (1, "ACTION_STATE_PENDING");
   (2, "ACTION_STATE_RUNNING");
   (3, "ACTION_STATE_SUCCEEDED");
   (4, "ACTION_STATE_FAILED");
   (5, "ACTION_STATE_TIMED_OUT");
   (6, "ACTION_STATE_REJECTED")].
Definition ActionState_value : gmap string Z := list_to_map [
  ("ACTION_STATE_UNSPECIFIED", 0);
   ("ACTION_STATE_PENDING", 1);
   ("ACTION_STATE_RUNNING", 2);
   ("ACTION_STATE_SUCCEEDED", 3);
   ("ACTION_STATE_FAILED", 4);
   ("ACTION_STATE_TIMED_OUT", 5);
   ("ACTION_STATE_REJECTED", 6)].

(** ** Messages and getters

    [canonical]: a message that is what its encoding decodes to. The encoding
    has no nil among the elements of a list or the values of a map, no
    difference between a nil map and an empty one, and no nil in a oneof; its
    integers have 32 bits. *)

Definition fits32 (n : Z) : bool := (- 2 ^ 31 <=? n) && (n <? 2 ^ 31).
Definition some_and {A} (P : A → bool) (x : option A) : bool :=
  match x with Some a => P a | None => false end.
Definition map_canonical {A} (P : A → bool) (m : gomap A) : bool :=
  match m with
  | Some m => negb (size m =? 0)%nat && forallb (λ kv, P kv.2) (map_to_list m)
  | None => true
  end.

Record InfoRequest := { }.
Definition new_InfoRequest : InfoRequest := Build_InfoRequest.

Record ParamSchema := {
  ParamSchema_Type : string;
  ParamSchema_Required : bool;
  ParamSchema_Description : string;
  ParamSchema_Default : string;
}.
Definition new_ParamSchema : ParamSchema := {|
  ParamSchema_Type := "";
  ParamSchema_Required := false;
  ParamSchema_Description := "";
  ParamSchema_Default := "";
|}.
Definition ParamSchema_GetType (x : option ParamSchema) : string :=
  match x with Some x => ParamSchema_Type x | None => "" end.
Definition ParamSchema_GetRequired (x : option ParamSchema) : bool :=
  match x with Some x => ParamSchema_Required x | None => false end.
Definition ParamSchema_GetDescription (x : option ParamSchema) : string :=
  match x with Some x => ParamSchema_Description x | None => "" end.
Definition ParamSchema_GetDefault (x : option ParamSchema) : string :=
  match x with Some x => ParamSchema_Default x | None => "" end.

Record ActionSchema := {
  ActionSchema_Name : string;
  ActionSchema_Description : string;
  ActionSchema_Params : gomap (option ParamSchema);
}.
Definition new_ActionSchema : ActionSchema := {|
  ActionSchema_Name := "";
  ActionSchema_Description := "";
  ActionSchema_Params := None;
|}.
Definition ActionSchema_GetName (x : option ActionSchema) : string :=
  match x with Some x => ActionSchema_Name x | None => "" end.
Definition ActionSchema_GetDescription (x : option ActionSchema) : string :=
  match x with Some x => ActionSchema_Description x | None => "" end.
Definition ActionSchema_GetParams (x : option ActionSchema) : gomap (option ParamSchema) :=
  match x with Some x => ActionSchema_Params x | None => None end.
Definition ActionSchema_canonical (x : ActionSchema) : bool :=
  map_canonical (some_and (λ _, true)) (ActionSchema_Params x).

Record MetricDescriptor := {
  MetricDescriptor_Name : string;
  MetricDescriptor_Description : string;
  MetricDescriptor_Unit : string;
}.
Definition new_MetricDescriptor : MetricDescriptor := {|
  MetricDescriptor_Name := "";
  MetricDescriptor_Description := "";
  MetricDescriptor_Unit := "";
|}.
Definition MetricDescriptor_GetName (x : option MetricDescriptor) : string :=
  match x with Some x => MetricDescriptor_Name x | None => "" end.
Definition MetricDescriptor_GetDescription (x : option MetricDescriptor) : string :=
  match x with Some x => MetricDescriptor_Description x | None => "" end.
Definition MetricDescriptor_GetUnit (x : option MetricDescriptor) : string :=
  match x with Some x => MetricDescriptor_Unit x | None => "" end.

Record InfoResponse := {
  InfoResponse_Name : string;
  InfoResponse_Version : string;
  InfoResponse_Actions : list (option ActionSchema);
  InfoResponse_Metrics : list (option MetricDescriptor);
}.
Definition new_InfoResponse : InfoResponse := {|
  InfoResponse_Name := "";
  InfoResponse_Version := "";
  InfoResponse_Actions := [];
  InfoResponse_Metrics := [];
|}.
Definition InfoResponse_GetName (x : option InfoResponse) : string :=
  match x with Some x => InfoResponse_Name x | None => "" end.
Definition InfoResponse_GetVersion (x : option InfoResponse) : string :=
  match x with Some x => InfoResponse_Version x | None => "" end.
Definition InfoResponse_GetActions (x : option InfoResponse) : list (option ActionSchema) :=
  match x with Some x => InfoResponse_Actions x | None => [] end.
Definition InfoResponse_GetMetrics (x : option InfoResponse) : list (option MetricDescriptor) :=
  match x with Some x => InfoResponse_Metrics x | None => [] end.
Definition InfoResponse_canonical (x : InfoResponse) : bool :=
  forallb (some_and ActionSchema_canonical) (InfoResponse_Actions x)
  && forallb (some_and (λ _, true)) (InfoResponse_Metrics x).

Record HealthRequest := { }.
Definition new_HealthRequest : HealthRequest := Build_HealthRequest.

Record HealthResponse := {
  HealthResponse_Ready : bool;
  HealthResponse_Message : string;
  HealthResponse_Details : gomap string;
}.
Definition new_HealthResponse : HealthResponse := {|
  HealthResponse_Ready := false;
  HealthResponse_Message := "";
  HealthResponse_Details := None;
|}.
Definition HealthResponse_GetReady (x : option HealthResponse) : bool :=
  match x with Some x => HealthResponse_Ready x | None => false end.
Definition HealthResponse_GetMessage (x : option HealthResponse) : string :=
  match x with Some x => HealthResponse_Message x | None => "" end.
Definition HealthResponse_GetDetails (x : option HealthResponse) : gomap string :=
  match x with Some x => HealthResponse_Details x | None => None end.
Definition HealthResponse_canonical (x : HealthResponse) : bool :=
  map_canonical (λ _, true) (HealthResponse_Details x).

Record ShutdownRequest := {
  ShutdownRequest_TimeoutSeconds : Z;
  ShutdownRequest_DrainReason : string;
}.
Definition new_ShutdownRequest : ShutdownRequest := {|
  ShutdownRequest_TimeoutSeconds := 0;
  ShutdownRequest_DrainReason := "";
|}.
Definition ShutdownRequest_GetTimeoutSeconds (x : option ShutdownRequest) : Z :=
  match x with Some x => ShutdownRequest_TimeoutSeconds x | None => 0 end.
Definition ShutdownRequest_GetDrainReason (x : option ShutdownRequest) : string :=
  match x with Some x => ShutdownRequest_DrainReason x | None => "" end.
Definition ShutdownRequest_canonical (x : ShutdownRequest) : bool :=
  fits32 (ShutdownRequest_TimeoutSeconds x).

Record ShutdownResponse := {
  ShutdownResponse_Success : bool;
  ShutdownResponse_Error : string;
}.
Definition new_ShutdownResponse : ShutdownResponse := {|
  ShutdownResponse_Success := false;
  ShutdownResponse_Error := "";
|}.
Definition ShutdownResponse_GetSuccess (x : option ShutdownResponse) : bool :=
  match x with Some x => ShutdownResponse_Success x | None => false end.
Definition ShutdownResponse_GetError (x : option ShutdownResponse) : string :=
  match x with Some x => ShutdownResponse_Error x | None => "" end.

Record PlayersRequest := { }.
Definition new_PlayersRequest : PlayersRequest := Build_PlayersRequest.

Record Player `{!WellKnown} := {
  Player_Name : string;
  Player_Id : string;
  Player_JoinedAt : option Timestamp;
}.
Arguments Player {_}.
Definition new_Player `{!WellKnown} : Player := {|
  Player_Name := "";
  Player_Id := "";
  Player_JoinedAt := None;
|}.
Definition Player_GetName `{!WellKnown} (x : option Player) : string :=
  match x with Some x => Player_Name x | None => "" end.
Definition Player_GetId `{!WellKnown} (x : option Player) : string :=
  match x with Some x => Player_Id x | None => "" end.
Definition Player_GetJoinedAt `{!WellKnown} (x : option Player) : option Timestamp :=
  match x with Some x => Player_JoinedAt x | None => None end.

Record PlayersResponse `{!WellKnown} := {
  PlayersResponse_Online : Z;
  PlayersResponse_Capacity : Z;
  PlayersResponse_Players : list (option Player);
}.
Arguments PlayersResponse {_}.
Definition new_PlayersResponse `{!WellKnown} : PlayersResponse := {|
  PlayersResponse_Online := 0;
  PlayersResponse_Capacity := 0;
  PlayersResponse_Players := [];
|}.
Definition PlayersResponse_GetOnline `{!WellKnown} (x : option PlayersResponse) : Z :=
  match x with Some x => PlayersResponse_Online x | None => 0 end.
Definition PlayersResponse_GetCapacity `{!WellKnown} (x : option PlayersResponse) : Z :=
  match x with Some x => PlayersResponse_Capacity x | None => 0 end.
Definition PlayersResponse_GetPlayers `{!WellKnown} (x : option PlayersResponse) : list (option Player) :=
  match x with Some x => PlayersResponse_Players x | None => [] end.
Definition PlayersResponse_canonical `{!WellKnown} (x : PlayersResponse) : bool :=
  fits32 (PlayersResponse_Online x)
  && fits32 (PlayersResponse_Capacity x)
  && forallb (some_and (λ _, true)) (PlayersResponse_Players x).

Record ExecuteActionRequest := {
  ExecuteActionRequest_ActionName : string;
  ExecuteActionRequest_Params : gomap string;
  ExecuteActionRequest_ExecutionId : string;
}.
Definition new_ExecuteActionRequest : ExecuteActionRequest := {|
  ExecuteActionRequest_ActionName := "";
  ExecuteActionRequest_Params := None;
  ExecuteActionRequest_ExecutionId := "";
|}.
Definition ExecuteActionRequest_GetActionName (x : option ExecuteActionRequest) : string :=
  match x with Some x => ExecuteActionRequest_ActionName x | None => "" end.
Definition ExecuteActionRequest_GetParams (x : option ExecuteActionRequest) : gomap string :=
  match x with Some x => ExecuteActionRequest_Params x | None => None end.
Definition ExecuteActionRequest_GetExecutionId (x : option ExecuteActionRequest) : string :=
  match x with Some x => ExecuteActionRequest_ExecutionId x | None => "" end.
Definition ExecuteActionRequest_canonical (x : ExecuteActionRequest) : bool :=
  map_canonical (λ _, true) (ExecuteActionRequest_Params x).

Record ExecuteActionResponse `{!WellKnown} := {
  ExecuteActionResponse_State : ActionState;
  ExecuteActionResponse_Result : option Any;
  ExecuteActionResponse_Error : string;
}.
Arguments ExecuteActionResponse {_}.
Definition new_ExecuteActionResponse `{!WellKnown} : ExecuteActionResponse := {|
  ExecuteActionResponse_State := ACTION_STATE_UNSPECIFIED;
  ExecuteActionResponse_Result := None;
  ExecuteActionResponse_Error := "";
|}.
Definition ExecuteActionResponse_GetState `{!WellKnown} (x : option ExecuteActionResponse) : ActionState :=
  match x with Some x => ExecuteActionResponse_State x | None => ACTION_STATE_UNSPECIFIED end.
Definition ExecuteActionResponse_GetResult `{!WellKnown} (x : option ExecuteActionResponse) : option Any :=
  match x with Some x => ExecuteActionResponse_Result x | None => None end.
Definition ExecuteActionResponse_GetError `{!WellKnown} (x : option ExecuteActionResponse) : string :=
  match x with Some x => ExecuteActionResponse_Error x | None => "" end.
Definition ExecuteActionResponse_canonical `{!WellKnown} (x : ExecuteActionResponse) : bool :=
  fits32 (ExecuteActionResponse_State x).

Record ConsoleCommand := {
  ConsoleCommand_RconCommand : string;
}.
Definition new_ConsoleCommand : ConsoleCommand := {|
  ConsoleCommand_RconCommand := "";
|}.
Definition ConsoleCommand_GetRconCommand (x : option ConsoleCommand) : string :=
  match x with Some x => ConsoleCommand_RconCommand x | None => "" end.

Record ConsolePing := {
  ConsolePing_Message : string;
}.
Definition new_ConsolePing : ConsolePing := {|
  ConsolePing_Message := "";
|}.
Definition ConsolePing_GetMessage (x : option ConsolePing) : string :=
  match x with Some x => ConsolePing_Message x | None => "" end.

Inductive isConsoleClientMessage_Payload :=
| ConsoleClientMessage_Command (Command : option ConsoleCommand)
| ConsoleClientMessage_Ping (Ping : option ConsolePing).
Record ConsoleClientMessage := {
  ConsoleClientMessage_Payload : option isConsoleClientMessage_Payload;
}.
Definition new_ConsoleClientMessage : ConsoleClientMessage := {|
  ConsoleClientMessage_Payload := None;
|}.
Definition ConsoleClientMessage_GetPayload (x : option ConsoleClientMessage) : option isConsoleClientMessage_Payload :=
  match x with Some x => ConsoleClientMessage_Payload x | None => None end.
Definition ConsoleClientMessage_GetCommand (x : option ConsoleClientMessage) : option ConsoleCommand :=
  match x with
  | Some x => match ConsoleClientMessage_Payload x with Some (ConsoleClientMessage_Command y) => y | _ => None end
  | None => None
  end.
Definition ConsoleClientMessage_GetPing (x : option ConsoleClientMessage) : option ConsolePing :=
  match x with
  | Some x => match ConsoleClientMessage_Payload x with Some (ConsoleClientMessage_Ping y) => y | _ => None end
  | None => None
  end.
Definition ConsoleClientMessage_canonical (x : ConsoleClientMessage) : bool :=
  match ConsoleClientMessage_Payload x with
  | Some (ConsoleClientMessage_Command y) => some_and (λ _, true) y
  | Some (ConsoleClientMessage_Ping y) => some_and (λ _, true) y
  | None => true
  end.

Record ConsoleStatus := {
  ConsoleStatus_State : string;
}.
Definition new_ConsoleStatus : ConsoleStatus := {|
  ConsoleStatus_State := "";
|}.
Definition ConsoleStatus_GetState (x : option ConsoleStatus) : string :=
  match x with Some x => ConsoleStatus_State x | None => "" end.

Record ConsoleLog := {
  ConsoleLog_Line : string;
}.
Definition new_ConsoleLog : ConsoleLog := {|
  ConsoleLog_Line := "";
|}.
Definition ConsoleLog_GetLine (x : option ConsoleLog) : string :=
  match x with Some x => ConsoleLog_Line x | None => "" end.

Record ConsoleResponse := {
  ConsoleResponse_Response : string;
}.
Definition new_ConsoleResponse : ConsoleResponse := {|
  ConsoleResponse_Response := "";
|}.
Definition ConsoleResponse_GetResponse (x : option ConsoleResponse) : string :=
  match x with Some x => ConsoleResponse_Response x | None => "" end.

Record ConsoleError := {
  ConsoleError_Message : string;
}.
Definition new_ConsoleError : ConsoleError := {|
  ConsoleError_Message := "";
|}.
Definition ConsoleError_GetMessage (x : option ConsoleError) : string :=
  match x with Some x => ConsoleError_Message x | None => "" end.

Inductive isConsoleServerMessage_Payload :=
| ConsoleServerMessage_Log (Log : option ConsoleLog)
| ConsoleServerMessage_Response (Response : option ConsoleResponse)
| ConsoleServerMessage_Status (Status : option ConsoleStatus)
| ConsoleServerMessage_Error (Error : option ConsoleError).
Record ConsoleServerMessage := {
  ConsoleServerMessage_Payload : option isConsoleServerMessage_Payload;
}.
Definition new_ConsoleServerMessage : ConsoleServerMessage := {|
  ConsoleServerMessage_Payload := None;
|}.
Definition ConsoleServerMessage_GetPayload (x : option ConsoleServerMessage) : option isConsoleServerMessage_Payload :=
  match x with Some x => ConsoleServerMessage_Payload x | None => None end.
Definition ConsoleServerMessage_GetLog (x : option ConsoleServerMessage) : option ConsoleLog :=
  match x with
  | Some x => match ConsoleServerMessage_Payload x with Some (ConsoleServerMessage_Log y) => y | _ => None end
  | None => None
  end.
Definition ConsoleServerMessage_GetResponse (x : option ConsoleServerMessage) : option ConsoleResponse :=
  match x with
  | Some x => match ConsoleServerMessage_Payload x with Some (ConsoleServerMessage_Response y) => y | _ => None end
  | None => None
  end.
Definition ConsoleServerMessage_GetStatus (x : option ConsoleServerMessage) : option ConsoleStatus :=
  match x with
  | Some x => match ConsoleServerMessage_Payload x with Some (ConsoleServerMessage_Status y) => y | _ => None end
  | None => None
  end.
Definition ConsoleServerMessage_GetError (x : option ConsoleServerMessage) : option ConsoleError :=
  match x with
  | Some x => match ConsoleServerMessage_Payload x with Some (ConsoleServerMessage_Error y) => y | _ => None end
  | None => None
  end.
Definition ConsoleServerMessage_canonical (x : ConsoleServerMessage) : bool :=
  match ConsoleServerMessage_Payload x with
  | Some (ConsoleServerMessage_Log y) => some_and (λ _, true) y
  | Some (ConsoleServerMessage_Response y) => some_and (λ _, true) y
  | Some (ConsoleServerMessage_Status y) => some_and (λ _, true) y
  | Some (ConsoleServerMessage_Error y) => some_and (λ _, true) y
  | None => true
  end.

(** The two tables of the enumeration are each other's inverse. *)
Lemma ActionState_tables n s : ActionState_name !! n = Some s ↔ ActionState_value !! s = Some n.
Proof.
  unfold ActionState_name, ActionState_value.
  rewrite <-!elem_of_list_to_map by (apply (bool_decide_unpack _); vm_compute; exact I).
  cbn. set_solver.
Qed.
