(* ===== verification/AgentRpc.v ===== *)
(** * AgentRpc: the agent's RPC service, from the caller to the agent

    The generated stubs ([agent_grpc.pb.go]): the client's methods, the handlers
    of the server and the service's description, with the [handler] and the
    interceptor [server.go] registers them with. The RPC library ([grpc]) and
    the encoding of messages ([proto]) are parameters: a codec, of which canonical
    messages and nil round-trip, and a connection, of which [served_by] says
    that a call is lost or answered by the handler registered under its name.

    [rpc_reaches_agent]: composed, a call of a client's method is at most one
    call of the agent's method of the same name, with the message sent, and the
    caller gets its answer, its error or its panic as an error.

    [conformance_sound] is about the conformance test ([test/conformance]),
    which calls three methods. *)

From stdpp Require Import gmap.
From S2P Require Import Prelude GoStrings Prog Api Kube Console Agent AgentMessages.
#[local] Open Scope Z_scope.

(** ** The messages of the console ([console.go])

    [Console] has the payloads of a console's messages as what they carry; these
    are the messages. *)
Definition client_message (c : ClientPayload) : ConsoleClientMessage := {|
  ConsoleClientMessage_Payload := Some
    match c with
    | Command data => ConsoleClientMessage_Command (Some {| ConsoleCommand_RconCommand := data |})
    | Ping data => ConsoleClientMessage_Ping (Some {| ConsolePing_Message := data |})
    end;
|}.

(** The payload read from a message; [None] is a nil dereference. *)
Definition server_payload (m : ConsoleServerMessage) : option (option ServerPayload) :=
  match ConsoleServerMessage_Payload m with
  | None => Some None
  | Some (ConsoleServerMessage_Log x) => (λ x, Some (PLog (ConsoleLog_Line x))) <$> x
  | Some (ConsoleServerMessage_Response x) => (λ x, Some (PResponse (ConsoleResponse_Response x))) <$> x
  | Some (ConsoleServerMessage_Status x) => (λ x, Some (PStatus (ConsoleStatus_State x))) <$> x
  | Some (ConsoleServerMessage_Error x) => (λ x, Some (PError (ConsoleError_Message x))) <$> x
  end.

(** What is sent is canonical and read back by the agent's getters; no message
    that came over the wire makes the reader panic. *)
Lemma console_messages c m :
  ConsoleClientMessage_canonical (client_message c) = true
  ∧ match c with
    | Command data =>
        ConsoleCommand_GetRconCommand (ConsoleClientMessage_GetCommand (Some (client_message c))) = data
        ∧ ConsoleClientMessage_GetPing (Some (client_message c)) = None
    | Ping data =>
        ConsolePing_GetMessage (ConsoleClientMessage_GetPing (Some (client_message c))) = data
        ∧ ConsoleClientMessage_GetCommand (Some (client_message c)) = None
    end
  ∧ (ConsoleServerMessage_canonical m = true → is_Some (server_payload m)).
Proof.
  split; [by destruct c|]. split; [by destruct c|].
  unfold ConsoleServerMessage_canonical, server_payload.
  by destruct (ConsoleServerMessage_Payload m) as [[[]|[]|[]|[]]|]; cbn; eauto.
Qed.

(** ** Any message *)

Section Rpc.
Context `{!WellKnown}.

(** A Go [any] that holds a pointer to a message of the service. *)
Inductive any :=
| AnInfoRequest (x : option InfoRequest)
| AnInfoResponse (x : option InfoResponse)
| AHealthRequest (x : option HealthRequest)
| AHealthResponse (x : option HealthResponse)
| AShutdownRequest (x : option ShutdownRequest)
| AShutdownResponse (x : option ShutdownResponse)
| APlayersRequest (x : option PlayersRequest)
| APlayersResponse (x : option PlayersResponse)
| AnExecuteActionRequest (x : option ExecuteActionRequest)
| AnExecuteActionResponse (x : option ExecuteActionResponse).

(** A message type: its pointers as [any], the type assertion [v.( *A)],
    [new(A)] and the messages its encoding preserves. *)
Class ProtoMessage (A : Type) := {
  to_any : option A → any;
  of_any : any → option (option A);
  new : A;
  canonical : A → bool;
  of_to_any x : of_any (to_any x) = Some x;
}.

#[global] Instance InfoRequest_proto : ProtoMessage InfoRequest := {|
  to_any := AnInfoRequest;
  of_any v := match v with AnInfoRequest x => Some x | _ => None end;
  new := new_InfoRequest; canonical _ := true; of_to_any _ := eq_refl |}.
#[global] Instance InfoResponse_proto : ProtoMessage InfoResponse := {|
  to_any := AnInfoResponse;
  of_any v := match v with AnInfoResponse x => Some x | _ => None end;
  new := new_InfoResponse; canonical := InfoResponse_canonical; of_to_any _ := eq_refl |}.
#[global] Instance HealthRequest_proto : ProtoMessage HealthRequest := {|
  to_any := AHealthRequest;
  of_any v := match v with AHealthRequest x => Some x | _ => None end;
  new := new_HealthRequest; canonical _ := true; of_to_any _ := eq_refl |}.
#[global] Instance HealthResponse_proto : ProtoMessage HealthResponse := {|
  to_any := AHealthResponse;
  of_any v := match v with AHealthResponse x => Some x | _ => None end;
  new := new_HealthResponse; canonical := HealthResponse_canonical; of_to_any _ := eq_refl |}.
#[global] Instance ShutdownRequest_proto : ProtoMessage ShutdownRequest := {|
  to_any := AShutdownRequest;
  of_any v := match v with AShutdownRequest x => Some x | _ => None end;
  new := new_ShutdownRequest; canonical := ShutdownRequest_canonical; of_to_any _ := eq_refl |}.
#[global] Instance ShutdownResponse_proto : ProtoMessage ShutdownResponse := {|
  to_any := AShutdownResponse;
  of_any v := match v with AShutdownResponse x => Some x | _ => None end;
  new := new_ShutdownResponse; canonical _ := true; of_to_any _ := eq_refl |}.
#[global] Instance PlayersRequest_proto : ProtoMessage PlayersRequest := {|
  to_any := APlayersRequest;
  of_any v := match v with APlayersRequest x => Some x | _ => None end;
  new := new_PlayersRequest; canonical _ := true; of_to_any _ := eq_refl |}.
#[global] Instance PlayersResponse_proto : ProtoMessage PlayersResponse := {|
  to_any := APlayersResponse;
  of_any v := match v with APlayersResponse x => Some x | _ => None end;
  new := new_PlayersResponse; canonical := PlayersResponse_canonical; of_to_any _ := eq_refl |}.
#[global] Instance ExecuteActionRequest_proto : ProtoMessage ExecuteActionRequest := {|
  to_any := AnExecuteActionRequest;
  of_any v := match v with AnExecuteActionRequest x => Some x | _ => None end;
  new := new_ExecuteActionRequest; canonical := ExecuteActionRequest_canonical;
  of_to_any _ := eq_refl |}.
#[global] Instance ExecuteActionResponse_proto : ProtoMessage ExecuteActionResponse := {|
  to_any := AnExecuteActionResponse;
  of_any v := match v with AnExecuteActionResponse x => Some x | _ => None end;
  new := new_ExecuteActionResponse; canonical := ExecuteActionResponse_canonical;
  of_to_any _ := eq_refl |}.

(** ** The RPC library

    [lib_error]: a status the library makes itself (connection lost, deadline,
    a message that cannot be encoded, decoded or is too large). [status_of]: the
    error a caller gets for the error of a handler; a status is passed on as
    it is. A nil pointer is encoded as the empty message. *)
Class Grpc := {
  wire : Type;
  marshal : option any → wire + gerr;
  unmarshal : ∀ {A} `{!ProtoMessage A}, wire → A + gerr;
  lib_error : gerr → Prop;
  status_of : gerr → gerr;
  marshal_error v e : marshal v = inr e → lib_error e;
  unmarshal_error A `{!ProtoMessage A} w e : @unmarshal A _ w = inr e → lib_error e;
  codec_nil A `{!ProtoMessage A} w :
    marshal (Some (to_any (A:=A) None)) = inl w → unmarshal w = inl (new (A:=A));
  codec_canonical A `{!ProtoMessage A} (x : A) w :
    canonical x = true → marshal (Some (to_any (Some x))) = inl w → unmarshal w = inl x;
  status_lib e : lib_error e → status_of e = e;
  status_internal m : status_of (internal m) = internal m;
}.
Context `{!Grpc} {E : Type → Type} {Stream : Type}.

(** ** The server's side *)

Definition method (A B : Type) := option A → prog E (option B * option gerr).

(** [AgentServer], and the [Agent] of [server.go], which has the same methods. *)
Record AgentServer := {
  srv_Info : method InfoRequest InfoResponse;
  srv_HealthCheck : method HealthRequest HealthResponse;
  srv_PrepareShutdown : method ShutdownRequest ShutdownResponse;
  srv_GetPlayers : method PlayersRequest PlayersResponse;
  srv_ExecuteAction : method ExecuteActionRequest ExecuteActionResponse;
  srv_Console : prog E (option gerr);
}.

Definition unimplemented (name : string) : gerr :=
  errorf ("rpc error: code = Unimplemented desc = method " +:+ name +:+ " not implemented").
Definition UnimplementedAgentServer : AgentServer := {|
  srv_Info _ := Ret (None, Some (unimplemented "Info"));
  srv_HealthCheck _ := Ret (None, Some (unimplemented "HealthCheck"));
  srv_PrepareShutdown _ := Ret (None, Some (unimplemented "PrepareShutdown"));
  srv_GetPlayers _ := Ret (None, Some (unimplemented "GetPlayers"));
  srv_ExecuteAction _ := Ret (None, Some (unimplemented "ExecuteAction"));
  srv_Console := Ret (Some (unimplemented "Console"));
|}.

(** [handler] of [server.go]: it embeds [UnimplementedAgentServer] and has every
    method of its own, which is the agent's. *)
Definition handler (agent : AgentServer) : AgentServer := {|
  srv_Info req := srv_Info agent req;
  srv_HealthCheck req := srv_HealthCheck agent req;
  srv_PrepareShutdown req := srv_PrepareShutdown agent req;
  srv_GetPlayers req := srv_GetPlayers agent req;
  srv_ExecuteAction req := srv_ExecuteAction agent req;
  srv_Console := srv_Console agent;
|}.

Definition reply := prog E (option any * option gerr).
(** [grpc.UnaryServerInterceptor], with the method's full name for the info. *)
Definition Interceptor := string → (any → reply) → any → reply.
(** [dec func(any) error] fills the message it is given. *)
Definition Dec := ∀ A, ProtoMessage A → A + gerr.

(** The handlers of the five methods are one text, up to the method. *)
Definition unary_handler {A B} `{!ProtoMessage A, !ProtoMessage B}
  (full : string) (run : AgentServer → method A B)
  (srv : AgentServer) (dec : Dec) (interceptor : option Interceptor) : reply :=
  let answer (req : option A) : reply :=
    let* r := run srv req in Ret (Some (to_any r.1), r.2) in
  match dec A _ with
  | inr err => Ret (None, Some err)
  | inl req =>
      match interceptor with
      | None => answer (Some req)
      | Some interceptor =>
          interceptor full
            (λ v, match of_any v with
                  | Some req => answer req
                  | None => Panic "interface conversion: unexpected message type"
                  end) (to_any (Some req))
      end
  end.

Definition Agent_Info_FullMethodName : string := "/minato.agent.v1.Agent/Info".
Definition Agent_HealthCheck_FullMethodName : string := "/minato.agent.v1.Agent/HealthCheck".
Definition Agent_PrepareShutdown_FullMethodName : string := "/minato.agent.v1.Agent/PrepareShutdown".
Definition Agent_GetPlayers_FullMethodName : string := "/minato.agent.v1.Agent/GetPlayers".
Definition Agent_ExecuteAction_FullMethodName : string := "/minato.agent.v1.Agent/ExecuteAction".
Definition Agent_Console_FullMethodName : string := "/minato.agent.v1.Agent/Console".

Definition _Agent_Info_Handler := unary_handler Agent_Info_FullMethodName srv_Info.
Definition _Agent_HealthCheck_Handler := unary_handler Agent_HealthCheck_FullMethodName srv_HealthCheck.
Definition _Agent_PrepareShutdown_Handler :=
  unary_handler Agent_PrepareShutdown_FullMethodName srv_PrepareShutdown.
Definition _Agent_GetPlayers_Handler := unary_handler Agent_GetPlayers_FullMethodName srv_GetPlayers.
Definition _Agent_ExecuteAction_Handler :=
  unary_handler Agent_ExecuteAction_FullMethodName srv_ExecuteAction.
Definition _Agent_Console_Handler (srv : AgentServer) : prog E (option gerr) := srv_Console srv.

(** ** The service *)

Record MethodDesc := {
  MethodName : string;
  Handler : AgentServer → Dec → option Interceptor → reply;
}.
Record StreamDesc := {
  StreamName : string;
  StreamHandler : AgentServer → prog E (option gerr);
  ServerStreams : bool;
  ClientStreams : bool;
}.
Record ServiceDesc := {
  ServiceName : string;
  Methods : list MethodDesc;
  Streams : list StreamDesc;
}.

Definition Agent_ServiceDesc : ServiceDesc := {|
  ServiceName := "minato.agent.v1.Agent";
  Methods := [
    {| MethodName := "Info"; Handler := _Agent_Info_Handler |};
    {| MethodName := "HealthCheck"; Handler := _Agent_HealthCheck_Handler |};
    {| MethodName := "PrepareShutdown"; Handler := _Agent_PrepareShutdown_Handler |};
    {| MethodName := "GetPlayers"; Handler := _Agent_GetPlayers_Handler |};
    {| MethodName := "ExecuteAction"; Handler := _Agent_ExecuteAction_Handler |}];
  Streams := [
    {| StreamName := "Console"; StreamHandler := _Agent_Console_Handler;
       ServerStreams := true; ClientStreams := true |}];
|}.

(** A registered server: [grpc.NewServer(grpc.UnaryInterceptor(...))] and
    [RegisterAgentServer]. *)
Record GrpcServer := {
  gs_desc : ServiceDesc;
  gs_srv : AgentServer;
  gs_interceptor : option Interceptor;
}.
Definition RegisterAgentServer (interceptor : option Interceptor) (srv : AgentServer) : GrpcServer :=
  {| gs_desc := Agent_ServiceDesc; gs_srv := srv; gs_interceptor := interceptor |}.

(** The server [Serve] makes for an agent. *)
Definition agent_server (agent : AgentServer) : GrpcServer :=
  RegisterAgentServer (Some (λ _, recoverInterceptor)) (handler agent).

(** What the library documents for a server: a request goes to the method
    registered under its full name, whose message is sent back, or its error. *)
Definition full_name (sd : ServiceDesc) (name : string) : string :=
  "/" +:+ ServiceName sd +:+ "/" +:+ name.
Definition find_method (sd : ServiceDesc) (full : string) : option MethodDesc :=
  find_first (λ md, full_name sd (MethodName md) =s full) (Methods sd).
Definition serve_rpc (s : GrpcServer) (md : MethodDesc) (w : wire) : prog E (wire + gerr) :=
  let* r := Handler md (gs_srv s) (λ A _, unmarshal w) (gs_interceptor s) in
  match r with
  | (_, Some e) => Ret (inr (status_of e))
  | (v, None) => Ret (marshal v)
  end.

(** ** The client's side *)

(** [grpc.ClientConnInterface]. *)
Record ClientConn := {
  Invoke : string → option any → ∀ B, ProtoMessage B → prog E (B + gerr);
  NewStream : StreamDesc → string → prog E (Stream + gerr);
}.

(** The five unary methods of [agentClient] are one text, up to the method. *)
Definition unary_stub {A B} `{!ProtoMessage A, !ProtoMessage B} (full : string) (c : ClientConn)
  : method A B := λ req,
  let* r := Invoke c full (Some (to_any req)) B _ in
  match r with
  | inr err => Ret (None, Some err)
  | inl out => Ret (Some out, None)
  end.

Definition agentClient_Info : ClientConn → method InfoRequest InfoResponse :=
  unary_stub Agent_Info_FullMethodName.
Definition agentClient_HealthCheck : ClientConn → method HealthRequest HealthResponse :=
  unary_stub Agent_HealthCheck_FullMethodName.
Definition agentClient_PrepareShutdown : ClientConn → method ShutdownRequest ShutdownResponse :=
  unary_stub Agent_PrepareShutdown_FullMethodName.
Definition agentClient_GetPlayers : ClientConn → method PlayersRequest PlayersResponse :=
  unary_stub Agent_GetPlayers_FullMethodName.
Definition agentClient_ExecuteAction : ClientConn → method ExecuteActionRequest ExecuteActionResponse :=
  unary_stub Agent_ExecuteAction_FullMethodName.
Definition agentClient_Console (c : ClientConn) : prog E (option Stream * option gerr) :=
  match Streams Agent_ServiceDesc with
  | [] => Panic "index out of range [0] with length 0"
  | desc :: _ =>
      let* r := NewStream c desc Agent_Console_FullMethodName in
      match r with
      | inr err => Ret (None, Some err)
      | inl stream => Ret (Some stream, None)
      end
  end.

(** A connection to a server: a call is answered by the method registered, or
    ends with an error of the library, before or after the method ran. *)
Definition served_by (c : ClientConn) (s : GrpcServer) : Prop :=
  ∀ full md v B (P : ProtoMessage B) t o,
    find_method (gs_desc s) full = Some md →
    runs (Invoke c full v B P) t o →
    (∃ e, o = Done (inr e) ∧ lib_error e ∧
       (t = [] ∨ ∃ w o', marshal v = inl w ∧ runs (serve_rpc s md w) t o'))
    ∨ ∃ w r, marshal v = inl w ∧ runs (serve_rpc s md w) t (Done r)
        ∧ o = Done (match r with inl w => unmarshal w | inr e => inr e end).

(** ** The conformance test ([test/conformance/main.go])

    What it prints and its exit status; [conn] is [grpc.NewClient]. *)
Definition conformance (conn : ClientConn + gerr) : prog E (string * Z) :=
  match conn with
  | inr err => Ret ("connect error: " +:+ ge_msg err, 1)
  | inl c =>
      let* r := agentClient_Info c (Some new_InfoRequest) in
      match r.2 with
      | Some err => Ret ("Info failed: " +:+ ge_msg err, 1)
      | None =>
      let* r := agentClient_HealthCheck c (Some new_HealthRequest) in
      match r.2 with
      | Some err => Ret ("HealthCheck failed: " +:+ ge_msg err, 1)
      | None =>
      let* r := agentClient_GetPlayers c (Some new_PlayersRequest) in
      match r.2 with
      | Some err => Ret ("GetPlayers failed: " +:+ ge_msg err, 1)
      | None => Ret ("conformance ok", 0)
      end end end
  end.

(** ** From the caller to the agent *)

(** What arrives for a message sent: the message itself when its encoding
    preserves it, a new one for nil. *)
Definition arrives {A} `{!ProtoMessage A} (sent : option A) (got : A) : Prop :=
  match sent with
  | Some a => canonical a = true → got = a
  | None => got = new
  end.

(** What the caller sees of the outcome of the agent's method. *)
Definition seen {B} `{!ProtoMessage B} (o : outcome (option B * option gerr))
  (r : option B * option gerr) : Prop :=
  match o with
  | Crash p => r = (None, Some (internal ("panic: " +:+ p)))
  | Done (_, Some e) => r = (None, Some (status_of e))
  | Done (y, None) => ∃ y', r = (Some y', None) ∧ arrives y y'
  end.

(** A stub reaches a method: every call ends, and is at most one call of the
    method with the message sent, answered by what the method returned or by an
    error of the library. *)
Definition reaches {A B} `{!ProtoMessage A, !ProtoMessage B} (stub run : method A B) : Prop :=
  ∀ x t o, runs (stub x) t o → ∃ r, o = Done r ∧
    ((∃ e, r = (None, Some e) ∧ lib_error e ∧
        (t = [] ∨ ∃ x' o', arrives x x' ∧ runs (run (Some x')) t o'))
     ∨ ∃ x' o', arrives x x' ∧ runs (run (Some x')) t o' ∧ seen o' r).

Lemma unmarshal_arrives {A} `{!ProtoMessage A} (x : option A) w y :
  marshal (Some (to_any x)) = inl w → unmarshal w = inl y → arrives x y.
Proof.
  destruct x as [a|]; cbn; intros Hm Hu.
  - intros Hc. rewrite (codec_canonical _ _ _ Hc Hm) in Hu. by injection Hu.
  - rewrite (codec_nil _ _ Hm) in Hu. by injection Hu.
Qed.

(** What the server of an agent sends back for a request. *)
Definition sent_back {B} `{!ProtoMessage B} (o : outcome (option B * option gerr))
  (r : wire + gerr) : Prop :=
  match o with
  | Crash p => r = inr (internal ("panic: " +:+ p))
  | Done (_, Some e) => r = inr (status_of e)
  | Done (y, None) => r = marshal (Some (to_any y))
  end.

Lemma serve_unary_handler {A B} `{!ProtoMessage A, !ProtoMessage B} name full
    (run : AgentServer → method A B) agent w t o :
  runs (serve_rpc (agent_server agent)
          {| MethodName := name; Handler := unary_handler full run |} w) t o →
  match unmarshal (A:=A) w with
  | inr e => t = [] ∧ o = Done (inr e) ∧ lib_error e
  | inl x => ∃ o' r, runs (run (handler agent) (Some x)) t o' ∧ o = Done r ∧ sent_back o' r
  end.
Proof.
  unfold serve_rpc, unary_handler. cbn.
  destruct (unmarshal w) as [x|e] eqn:Hu; cbn.
  - rewrite of_to_any. unfold recoverInterceptor.
    rewrite runs_bind. setoid_rewrite recover_runs. setoid_rewrite runs_bind.
    intros [(m & (o' & _ & Ho) & _)|(r & t1 & t2 & -> & (o' & Hr & Ho) & Hk)].
    { by destruct o'. }
    destruct Hr as [(p & Hr & ->)|(y & s1 & s2 & -> & Hr & [-> ->])].
    + injection Ho as ->. cbn in Hk. destruct Hk as [-> ->]. rewrite app_nil_r.
      eexists (Crash p), _. split; [done|]. split; [done|]. cbn. f_equal. apply (status_internal ("panic: " +:+ p)).
    + injection Ho as ->. rewrite app_nil_r. destruct y as [y [e|]]; cbn in Hk;
        destruct Hk as [-> ->]; rewrite app_nil_r; by eexists (Done _), _.
  - intros [-> ->]. split; [done|]. pose proof (unmarshal_error _ _ _ Hu).
    by rewrite status_lib.
Qed.

Lemma stub_reaches {A B} `{!ProtoMessage A, !ProtoMessage B} name full
    (run : AgentServer → method A B) agent c :
  find_method Agent_ServiceDesc full
    = Some {| MethodName := name; Handler := unary_handler full run |} →
  served_by c (agent_server agent) →
  reaches (unary_stub full c) (run (handler agent)).
Proof.
  intros Hf Hs x t o. unfold unary_stub. rewrite runs_bind.
  intros [(p & Hr & ->)|(r & t1 & t2 & -> & Hr & Hk)];
    apply (Hs _ _ _ _ _ _ _ Hf) in Hr as
      [(e & [=] & He & Ht)|(w & r' & Hm & Hw & [=])]; subst.
  - destruct Hk as [-> ->]. rewrite app_nil_r. eexists. split; [done|]. left.
    exists e. split_and!; [done..|]. destruct Ht as [->|(w & o' & Hm & Hw)]; [by left|].
    apply serve_unary_handler in Hw. destruct (unmarshal w) as [y|?] eqn:Hu.
    + right. destruct Hw as (o1 & _ & ? & _). exists y, o1. eauto using unmarshal_arrives.
    + left. apply Hw.
  - apply serve_unary_handler in Hw. destruct (unmarshal (A:=A) w) as [y|?] eqn:Hu.
    + destruct Hw as (o' & r & Hr & [= ->] & Hb).
      assert (arrives x y) by eauto using unmarshal_arrives.
      destruct o' as [[z [e|]]|p]; cbn in Hb; subst r; cbn in Hk.
      * destruct Hk as [-> ->]. rewrite app_nil_r. eexists. split; [done|]. right.
        by exists y, (Done (z, Some e)).
      * destruct (marshal (Some (to_any z))) as [w'|e] eqn:Hm'; [destruct (unmarshal w') as [z'|e] eqn:Hz|];
          destruct Hk as [-> ->]; rewrite app_nil_r; eexists; (split; [done|]).
        -- right. exists y, (Done (z, None)). cbn. eauto 10 using unmarshal_arrives.
        -- left. exists e. split_and!; [done|by eapply unmarshal_error|]. right. by exists y, (Done (z, None)).
        -- left. exists e. split_and!; [done|by eapply marshal_error|]. right. by exists y, (Done (z, None)).
      * destruct Hk as [-> ->]. rewrite app_nil_r. eexists. split; [done|]. right.
        by exists y, (Crash p).
    + destruct Hw as (-> & [= ->] & He). destruct Hk as [-> ->].
      eexists. split; [done|]. left. eauto.
Qed.
End Rpc.
Arguments AgentServer {_} _.
Arguments ClientConn {_} _ _.

(** A stub reaches its method: both are found under the method's name. *)
Ltac by_stub name full run := exact (stub_reaches name full run _ _ eq_refl ltac:(eassumption)).

(** C17: every unary method of the generated client, on a connection to the server
    of an agent, is at most one call of the agent's method of the same name with
    the message sent; the caller gets what the method returned, its error, its
    panic as an Internal error, or an error of the library. *)
Theorem rpc_reaches_agent `{!WellKnown, !Grpc} {E Stream} (agent : AgentServer E)
    (c : ClientConn E Stream) :
  served_by c (agent_server agent) →
  reaches (agentClient_Info c) (srv_Info agent)
  ∧ reaches (agentClient_HealthCheck c) (srv_HealthCheck agent)
  ∧ reaches (agentClient_PrepareShutdown c) (srv_PrepareShutdown agent)
  ∧ reaches (agentClient_GetPlayers c) (srv_GetPlayers agent)
  ∧ reaches (agentClient_ExecuteAction c) (srv_ExecuteAction agent).
Proof.
  intros Hs. split_and!.
  - by_stub "Info" Agent_Info_FullMethodName (srv_Info (E:=E)).
  - by_stub "HealthCheck" Agent_HealthCheck_FullMethodName (srv_HealthCheck (E:=E)).
  - by_stub "PrepareShutdown" Agent_PrepareShutdown_FullMethodName (srv_PrepareShutdown (E:=E)).
  - by_stub "GetPlayers" Agent_GetPlayers_FullMethodName (srv_GetPlayers (E:=E)).
  - by_stub "ExecuteAction" Agent_ExecuteAction_FullMethodName (srv_ExecuteAction (E:=E)).
Qed.

(** The console's stub opens the stream whose handler is the agent's console,
    which no interceptor covers. *)
Lemma console_stub `{!WellKnown, !Grpc} {E Stream} (agent : AgentServer E) (c : ClientConn E Stream) :
  ∃ desc : StreamDesc (E:=E), In desc (Streams Agent_ServiceDesc)
    ∧ full_name (E:=E) Agent_ServiceDesc (StreamName desc) = Agent_Console_FullMethodName
    ∧ StreamHandler desc (handler agent) = srv_Console agent
    ∧ agentClient_Console c =
        (let* r := NewStream c desc Agent_Console_FullMethodName in
         match r with inr err => Ret (None, Some err) | inl stream => Ret (Some stream, None) end).
Proof. eexists. split_and!; [by left|reflexivity..]. Qed.

(** A call that was answered is a run of the method that returned no error. *)
Lemma reaches_answered `{!WellKnown, !Grpc} {E A B} `{!ProtoMessage A, !ProtoMessage B}
    (stub run : method (E:=E) A B) x t y :
  reaches stub run → canonical x = true → runs (stub (Some x)) t (Done (y, None)) →
  ∃ z, runs (run (Some x)) t (Done (z, None)).
Proof.
  intros Hr Hc (r & [= <-] & [(e & [=] & _)|(x' & o' & Hx & Hrun & Hseen)])%Hr.
  rewrite (Hx Hc) in Hrun. destruct o' as [[z [e|]]|p]; [done|by eexists|done].
Qed.

(** The conformance test passes an agent only after its three methods each ran
    once, in order, and returned no error. *)
Lemma conformance_sound `{!WellKnown, !Grpc} {E Stream} (agent : AgentServer E)
    (c : ClientConn E Stream) t line :
  served_by c (agent_server agent) →
  runs (conformance (inl c)) t (Done (line, 0)) →
  ∃ t1 t2 t3 r1 r2 r3, t = t1 ++ t2 ++ t3
    ∧ runs (srv_Info agent (Some new)) t1 (Done (r1, None))
    ∧ runs (srv_HealthCheck agent (Some new)) t2 (Done (r2, None))
    ∧ runs (srv_GetPlayers agent (Some new)) t3 (Done (r3, None)).
Proof.
  intros Hs. unfold conformance.
  intros ([y1 [e|]] & t1 & s & -> & H1 & Hk)%runs_bind_Done; [by destruct Hk|].
  apply runs_bind_Done in Hk as ([y2 [e|]] & t2 & s' & -> & H2 & Hk); [by destruct Hk|].
  apply runs_bind_Done in Hk as ([y3 [e|]] & t3 & s & -> & H3 & Hk); [by destruct Hk|].
  destruct Hk as [-> _]. rewrite app_nil_r.
  apply (reaches_answered _ (srv_Info agent) _ _ _) in H1 as [z1 ?]; [|by_stub "Info" Agent_Info_FullMethodName (srv_Info (E:=E))|done].
  apply (reaches_answered _ (srv_HealthCheck agent) _ _ _) in H2 as [z2 ?];
    [|by_stub "HealthCheck" Agent_HealthCheck_FullMethodName (srv_HealthCheck (E:=E))|done].
  apply (reaches_answered _ (srv_GetPlayers agent) _ _ _) in H3 as [z3 ?];
    [|by_stub "GetPlayers" Agent_GetPlayers_FullMethodName (srv_GetPlayers (E:=E))|done].
  by exists t1, t2, t3, z1, z2, z3.
Qed.

(** ** Witnesses *)

(** An agent that logs its calls, over a connection that encodes a message as
    itself and loses the calls of a crashed server. *)
Inductive ex_call : Type → Type := ExLog (line : string) : ex_call unit.
#[local] Instance ex_WellKnown : WellKnown := {| Timestamp := Z; Any := string |}.
Definition ex_lost : gerr := errorf "rpc error: code = Unavailable desc = connection lost".

Definition ex_unmarshal {A} `{!ProtoMessage A} (v : option any) : A + gerr :=
  match v with
  | Some v =>
      match of_any v with
      | Some (Some x) => inl x
      | Some None => inl new
      | None => inr ex_lost
      end
  | None => inl new
  end.
#[local] Instance ex_Grpc : Grpc.
Proof.
  refine {|
    wire := option any; marshal := inl; unmarshal := @ex_unmarshal;
    lib_error e := e = ex_lost;
    status_of e :=
      if String.prefix "rpc error: " (ge_msg e) then e
      else errorf ("rpc error: code = Unknown desc = " +:+ ge_msg e);
  |}.
  - done.
  - unfold ex_unmarshal. intros A P [v|] e; [|done].
    destruct (of_any v) as [[x|]|]; [done..|]. by intros [= <-].
  - intros A P w [= <-]. cbn. by rewrite of_to_any.
  - intros A P x w _ [= <-]. cbn. by rewrite of_to_any.
  - by intros e ->.
  - done.
Defined.

Definition ex_agent : AgentServer ex_call := {|
  srv_Info _ := let* _ := call (ExLog "info") in
    Ret (Some {| InfoResponse_Name := "demo"; InfoResponse_Version := "1";
                 InfoResponse_Actions := []; InfoResponse_Metrics := [] |}, None);
  srv_HealthCheck _ := Ret (None, None);
  srv_PrepareShutdown req := let* _ := call (ExLog (ShutdownRequest_GetDrainReason req)) in
    Ret (None, Some (errorf "busy"));
  srv_GetPlayers _ := let* _ := call (ExLog "players") in Panic "index out of range";
  srv_ExecuteAction := srv_ExecuteAction UnimplementedAgentServer;
  srv_Console := Ret None;
|}.

Definition ex_conn (s : GrpcServer (E:=ex_call)) : ClientConn ex_call unit := {|
  Invoke full v B _ :=
    match find_method (gs_desc s) full with
    | None => Ret (inr (unimplemented full))
    | Some md =>
        recover (λ _, inr ex_lost)
          (let* r := serve_rpc s md v in
           Ret match r with inl w => unmarshal w | inr e => inr e end)
    end;
  NewStream _ _ := Ret (inl tt);
|}.

Lemma ex_conn_served s : served_by (ex_conn s) s.
Proof.
  intros full md v B P t o Hf. cbn. rewrite Hf, recover_runs.
  intros (o' & [(p & Hr & ->)|(r & t1 & t2 & -> & Hr & [-> ->])]%runs_bind & ->).
  - left. exists ex_lost. split_and!; [done..|]. right. by eexists v, _.
  - right. rewrite app_nil_r. by exists v, r.
Qed.

Definition ex_log (X : Type) (e : ex_call X) (s : unit) : X * unit :=
  match e with ExLog _ => (tt, s) end.
Definition ex_rpc {A} (p : prog ex_call A) := (exec ex_log p tt).1.

Lemma rpc_reaches_agent_witness :
  served_by (ex_conn (agent_server ex_agent)) (agent_server ex_agent)
  ∧ reaches (agentClient_GetPlayers (ex_conn (agent_server ex_agent))) (srv_GetPlayers ex_agent)
  ∧ ex_rpc (agentClient_GetPlayers (ex_conn (agent_server ex_agent)) (Some new))
    = ([Ev (ExLog "players") tt], Done (None, Some (internal "panic: index out of range")))
  ∧ ex_rpc (agentClient_HealthCheck (ex_conn (agent_server ex_agent)) None)
    = ([], Done (Some new, None))
  ∧ (ex_rpc (agentClient_PrepareShutdown (ex_conn (agent_server ex_agent))
       (Some {| ShutdownRequest_TimeoutSeconds := 30; ShutdownRequest_DrainReason := "drain" |})))
    = ([Ev (ExLog "drain") tt],
       Done (None, Some (errorf "rpc error: code = Unknown desc = busy"))).
Proof.
  split; [apply ex_conn_served|].
  split; [apply (rpc_reaches_agent ex_agent _ (ex_conn_served _))|].
  repeat split; vm_compute; reflexivity.
Defined.

Lemma conformance_sound_witness :
  ex_rpc (conformance (inl (ex_conn (agent_server ex_agent))))
  = ([Ev (ExLog "info") tt; Ev (ExLog "players") tt],
     Done ("GetPlayers failed: rpc error: code = Internal desc = panic: index out of range", 1)).
Proof. vm_compute. reflexivity. Qed.
