(* ===== verification/AgentServer.v ===== *)
(** * AgentServer: starting an agent's server and shutting it down ([sdk/agent/server])

    [Serve] fills in the defaults, listens and starts the RPC server (see
    [AgentRpc]) and the one of the metrics. [Shutdown] is a step relation: its
    own goroutine, the one that waits for [GracefulStop], and around them the calls
    and requests in progress, which begin and end when they like, and the
    context, which may be done at any time. The servers behave as documented:
    [GracefulStop] refuses new calls and returns when no handler is running;
    [Stop] refuses new calls, cancels those in progress and returns, while their
    handlers may still be running (grpc's [WaitForHandlers] is not set), until
    each takes note of its cancelled context, if it does; and
    [http.Server.Shutdown] refuses new requests and returns when none is left or
    the context is done. *)

From stdpp Require Import relations.
From S2P Require Import Prelude GoStrings Prog Api Kube GoTime Console Agent AgentMessages AgentRpc.
#[local] Open Scope Z_scope.

(** ** [Serve] *)

Section Serve.
Context `{!WellKnown, !Grpc} {E : Type → Type}.

Record Server := { grpcServer : GrpcServer (E:=E); listener : string; metricsSrv : string }.

(** [net.Listen], and the two goroutines, whose errors are ignored. *)
Inductive sop : Type → Type :=
| Listen (addr : string) : sop (option gerr)
| GoListenAndServe (addr : string) : sop unit
| GoServe (s : GrpcServer (E:=E)) (addr : string) : sop unit.

Definition Serve (agent : AgentServer E) (opts : Options) : prog sop (option Server * option gerr) :=
  let opts := serve_options opts in
  let* err := call (Listen (op_GRPCAddr opts)) in
  match err with
  | Some err => Ret (None, Some err)
  | None =>
      let server := {| grpcServer := agent_server agent; listener := op_GRPCAddr opts;
                       metricsSrv := op_MetricsAddr opts |} in
      let* _ := call (GoListenAndServe (metricsSrv server)) in
      let* _ := call (GoServe (grpcServer server) (listener server)) in
      Ret (Some server, None)
  end.

(** The handler of the metrics server on a cleaned path: status and body. *)
Definition metrics_mux (path : string) : Z * string :=
  if path =s "/healthz" then (200, "ok")
  else if path =s "/metrics" then (200, "")
  else (404, "404 page not found" +:+ newline).

(** ** [Shutdown] *)

(** A nil server is refused; what follows is the shutdown of any other, which
    returns nil. *)
Definition Shutdown_error (s : option Server) : option gerr :=
  match s with None => Some (errorf "server is nil") | Some _ => None end.
End Serve.

Inductive pc_shutdown :=
| MStart      (* before the go statement *)
| MSelect     (* in the select *)
| MStop       (* the context is done: before Stop *)
| MMetrics    (* before metricsSrv.Shutdown *)
| MWaits      (* in metricsSrv.Shutdown *)
| MReturned.

Inductive pc_helper :=
| HIdle       (* not started *)
| HStarts     (* before GracefulStop *)
| HWaits      (* in GracefulStop *)
| HCloses     (* before close(stopped) *)
| HExited.

Record state := {
  sd_main : pc_shutdown;
  sd_helper : pc_helper;
  sd_done : bool;        (* ctx.Done() is closed *)
  sd_accepts : bool;     (* the RPC server takes new calls *)
  sd_calls : nat;        (* calls and streams in progress *)
  sd_cut : nat;          (* calls Stop has cancelled *)
  sd_left : nat;         (* the handlers of these that are still running *)
  sd_listens : bool;     (* the metrics server takes new requests *)
  sd_requests : nat;     (* its requests in progress *)
}.

(** A step of the program: of [Shutdown] or of its goroutine. *)
Inductive pstep : state → state → Prop :=
| P_go d a c k q l r :
    pstep (Build_state MStart HIdle d a c k q l r) (Build_state MSelect HStarts d a c k q l r)
| P_done h a c k q l r :
    pstep (Build_state MSelect h true a c k q l r) (Build_state MStop h true a c k q l r)
| P_stopped d a c k q l r :
    pstep (Build_state MSelect HExited d a c k q l r) (Build_state MMetrics HExited d a c k q l r)
| P_Stop h d a c k q l r :
    pstep (Build_state MStop h d a c k q l r) (Build_state MMetrics h d false 0 (k + c) (q + c) l r)
| P_metrics h d a c k q l r :
    pstep (Build_state MMetrics h d a c k q l r) (Build_state MWaits h d a c k q false r)
| P_return h d a c k q l r :
    r = 0%nat ∨ d = true →
    pstep (Build_state MWaits h d a c k q l r) (Build_state MReturned h d a c k q l r)
| P_GracefulStop m d a c k q l r :
    pstep (Build_state m HStarts d a c k q l r) (Build_state m HWaits d false c k q l r)
| P_drained m d a k l r :
    pstep (Build_state m HWaits d a 0 k 0 l r) (Build_state m HCloses d a 0 k 0 l r)
| P_close m d a c k q l r :
    pstep (Build_state m HCloses d a c k q l r) (Build_state m HExited d a c k q l r).

(** A step of the rest. *)
Inductive estep : state → state → Prop :=
| E_call m h d c k q l r :
    estep (Build_state m h d true c k q l r) (Build_state m h d true (S c) k q l r)
| E_call_ends m h d a c k q l r :
    estep (Build_state m h d a (S c) k q l r) (Build_state m h d a c k q l r)
| E_handler_ends m h d a c k q l r :
    estep (Build_state m h d a c k (S q) l r) (Build_state m h d a c k q l r)
| E_done m h a c k q l r :
    estep (Build_state m h false a c k q l r) (Build_state m h true a c k q l r)
| E_request m h d a c k q r :
    estep (Build_state m h d a c k q true r) (Build_state m h d a c k q true (S r))
| E_request_ends m h d a c k q l r :
    estep (Build_state m h d a c k q l (S r)) (Build_state m h d a c k q l r).

Definition step (s s' : state) : Prop := pstep s s' ∨ estep s s'.

(** When [Shutdown] is called, the server may be serving anything. *)
Definition initial (s : state) : Prop :=
  sd_main s = MStart ∧ sd_helper s = HIdle ∧ sd_cut s = 0%nat ∧ sd_left s = 0%nat.
Definition reachable (s : state) : Prop := ∃ s0, initial s0 ∧ rtc step s0 s.

(** *** The invariant *)

Definition helper_waits (h : pc_helper) : bool :=
  match h with HIdle | HStarts => false | _ => true end.
Definition helper_drained (h : pc_helper) : bool :=
  match h with HCloses | HExited => true | _ => false end.
Definition main_stopped (m : pc_shutdown) : bool :=
  match m with MMetrics | MWaits | MReturned => true | _ => false end.

Record inv (s : state) : Prop := {
  inv_idle : sd_helper s = HIdle ↔ sd_main s = MStart;
  inv_refuses : helper_waits (sd_helper s) = true → sd_accepts s = false;
  inv_drained : helper_drained (sd_helper s) = true → sd_calls s = 0%nat;
  inv_left : sd_left s ≠ 0%nat → main_stopped (sd_main s) = true;
  inv_left_cut : (sd_left s <= sd_cut s)%nat;
  inv_stopped : main_stopped (sd_main s) = true → sd_accepts s = false ∧ sd_calls s = 0%nat;
  inv_cut : sd_main s = MStop ∨ sd_cut s ≠ 0%nat → sd_done s = true;
  inv_metrics : sd_main s = MWaits ∨ sd_main s = MReturned → sd_listens s = false;
  inv_returned : sd_main s = MReturned → sd_requests s = 0%nat ∨ sd_done s = true;
}.

Lemma inv_initial s : initial s → inv s.
Proof.
  destruct s as [m h d a c k q l r]. intros (Hm & Hh & Hk & Hq). cbn in *. subst.
  by constructor; cbn; [|intuition (try congruence; try lia)..].
Qed.

Lemma shutdown_inv_step s s' : inv s → step s s' → inv s'.
Proof.
  intros [] [Hs|Hs]; destruct Hs; cbn in *; constructor; cbn in *; intuition (try congruence; try lia).
  all: destruct h; cbn in *; intuition congruence.
Qed.

Lemma shutdown_inv s : reachable s → inv s.
Proof.
  intros (s0 & Hi & Hr). revert s Hr. apply (rtc_ind_r (λ s, inv s)); [by apply inv_initial|].
  intros s1 s2 _ Hstep Hinv. by apply (shutdown_inv_step s1).
Qed.

(** *** Its steps are bounded *)

Definition main_fuel (m : pc_shutdown) : nat :=
  match m with MStart => 5 | MSelect => 4 | MStop => 3 | MMetrics => 2 | MWaits => 1 | MReturned => 0 end.
Definition helper_fuel (h : pc_helper) : nat :=
  match h with HIdle => 4 | HStarts => 3 | HWaits => 2 | HCloses => 1 | HExited => 0 end.
Definition fuel (s : state) : nat := main_fuel (sd_main s) + helper_fuel (sd_helper s).

(** A run with [n] steps of the program among those of the rest. *)
Inductive run : nat → state → state → Prop :=
| run_nil s : run 0 s s
| run_program n s s1 s' : pstep s s1 → run n s1 s' → run (S n) s s'
| run_rest n s s1 s' : estep s s1 → run n s1 s' → run n s s'.

Lemma run_fuel n s s' : run n s s' → (n + fuel s' <= fuel s)%nat.
Proof.
  induction 1 as [s|n s s1 s' Hs _ IH|n s s1 s' Hs _ IH]; [done|..];
    destruct Hs; unfold fuel in *; cbn in *; lia.
Qed.

(** What a program that cannot take a step waits for. *)
Lemma blocked s :
  inv s → (∀ s', ¬ pstep s s') →
  (sd_main s = MReturned ∧ (sd_helper s = HExited ∨ (sd_helper s = HWaits ∧ sd_left s ≠ 0%nat)))
  ∨ (sd_done s = false ∧ (sd_calls s ≠ 0%nat ∨ (sd_main s = MWaits ∧ sd_requests s ≠ 0%nat))).
Proof.
  destruct s as [m h d a c k q l r]. intros Hi Hb. pose proof Hi as []. cbn in *.
  destruct m; try (edestruct Hb; econstructor; fail).
  - assert (h = HIdle) as -> by intuition. edestruct Hb. constructor.
  - destruct d; [edestruct Hb; apply P_done|]. right. split; [done|]. left. intros ->.
    destruct q; [|by discriminate inv_left0].
    destruct h; try (edestruct Hb; econstructor; fail). intuition congruence.
  - destruct inv_stopped0 as [-> ->]; [done|]. destruct d, r; try (edestruct Hb; apply P_return; auto; fail).
    right. auto.
  - left. split; [done|]. destruct inv_stopped0 as [-> ->]; [done|].
    destruct h; try (edestruct Hb; econstructor; fail); [intuition congruence| |by left].
    right. split; [done|]. intros ->. edestruct Hb. constructor.
Qed.

(** C37: *shutdown.*  It returns only when both servers refuse everything and no
    call is in progress but those it has cancelled; calls were cancelled, and
    handlers of them or requests left, only if the context was done. Whatever
    happens around it, it takes at most [fuel] steps. When it can take none, it
    has returned and its goroutine is gone too, or waits for the handlers of
    cancelled calls that are still running; or else the context is not done and
    it waits for a call or a request in progress. *)
Theorem shutdown_ends s :
  reachable s →
  (sd_main s = MReturned →
     sd_accepts s = false ∧ sd_calls s = 0%nat ∧ sd_listens s = false
     ∧ (sd_left s <= sd_cut s)%nat
     ∧ (sd_done s = false → sd_cut s = 0%nat ∧ sd_left s = 0%nat ∧ sd_requests s = 0%nat))
  ∧ (∀ n s', run n s s' → (n <= fuel s)%nat)
  ∧ ((∀ s', ¬ pstep s s') →
     (sd_main s = MReturned ∧ (sd_helper s = HExited ∨ (sd_helper s = HWaits ∧ sd_left s ≠ 0%nat)))
     ∨ (sd_done s = false
        ∧ (sd_calls s ≠ 0%nat ∨ (sd_main s = MWaits ∧ sd_requests s ≠ 0%nat)))).
Proof.
  intros Hi%shutdown_inv. split_and!.
  - destruct Hi. intros Hm. destruct inv_stopped0 as [Ha Hc]; [by rewrite Hm|].
    split_and!; [done..|auto|done|]. intros Hd.
    assert (sd_cut s = 0%nat) as Hk.
    { destruct (sd_cut s); [done|]. rewrite inv_cut0 in Hd; [done|auto]. }
    split_and!; [done|lia|destruct inv_returned0; congruence].
  - intros n s' H%run_fuel. lia.
  - by apply blocked.
Qed.

(** The grace period of the options has no effect: the server is the same
    whatever it is, and while a call (an open console, say) is in progress and the
    context has no deadline, [Shutdown] by its own steps never returns. *)
Lemma grace_has_no_effect `{!WellKnown, !Grpc} {E} (agent : AgentServer E) opts grace s s' :
  Serve agent {| op_GRPCAddr := op_GRPCAddr opts; op_MetricsAddr := op_MetricsAddr opts;
                 op_ShutdownGrace := grace |} = Serve agent opts
  ∧ (reachable s → sd_done s = false → sd_calls s ≠ 0%nat → rtc pstep s s' →
     sd_main s' ≠ MReturned).
Proof.
  split; [done|]. intros Hi%shutdown_inv Hd Hc Hr.
  cut (inv s' ∧ sd_done s' = false ∧ sd_calls s' ≠ 0%nat).
  { intros ([] & _ & Hc') Hm. rewrite Hm in *. by destruct inv_stopped0. }
  revert s' Hr. apply (rtc_ind_r (λ s, inv s ∧ sd_done s = false ∧ sd_calls s ≠ 0%nat)); [done|].
  intros s1 s2 _ Hs (Hi1 & Hd1 & Hc1). split; [apply (shutdown_inv_step s1); [done|by left]|].
  destruct Hi1, Hs; cbn in *; try done. by rewrite inv_cut0 in Hd1; [|left].
Qed.

(** ** Witnesses *)

(** A server with an open console, shut down with a deadline that passes; the
    console's handler is still running when [Shutdown] returns. *)
Definition ex_serving : state := Build_state MStart HIdle false true 1 0 0 true 0.
Definition ex_cut : state := Build_state MReturned HWaits true false 0 1 1 false 0.

Lemma ex_run : run 6 ex_serving ex_cut.
Proof.
  eapply run_program; [apply P_go|]. eapply run_program; [apply P_GracefulStop|].
  eapply run_rest; [apply E_done|]. eapply run_program; [apply P_done|].
  eapply run_program; [apply P_Stop|]. eapply run_program; [apply P_metrics|].
  eapply run_program; [apply P_return; by left|]. apply run_nil.
Qed.

Lemma run_steps_rtc n s s' : run n s s' → rtc step s s'.
Proof. induction 1; [done|..]; (eapply rtc_l; [|done]); [by left|by right]. Qed.

Lemma shutdown_ends_witness :
  reachable ex_cut ∧ sd_main ex_cut = MReturned ∧ fuel ex_serving = 9%nat
  ∧ (sd_accepts ex_cut = false ∧ sd_calls ex_cut = 0%nat ∧ sd_listens ex_cut = false)
  ∧ ∃ s s', estep ex_cut s ∧ pstep s s' ∧ sd_helper s' = HCloses.
Proof.
  assert (H : reachable ex_cut).
  { exists ex_serving. split; [by repeat split|]. eapply run_steps_rtc, ex_run. }
  split; [exact H|]. split; [reflexivity|]. split; [reflexivity|].
  split.
  - destruct (proj1 (shutdown_ends ex_cut H) eq_refl) as (Ha & Hc & Hl & _). by split_and!.
  - eexists _, _. split; [apply E_handler_ends|]. split; [apply P_drained|reflexivity].
Defined.
