(* ===== verification/Registrar.v ===== *)
(** * Registrar: keeping a cluster registered with the cloud ([cmd/registrar])

    The configuration, the payloads, the two calls to the cloud, the loop of
    [run] and the cluster fingerprint. [run] never ends by itself: [run n] is its first [n] turns,
    and the theorems hold for every [n]. *)

From Stdlib Require Import Ascii String.
From S2P Require Import Prelude GoStrings GoTime Prog Api Kube.
#[local] Open Scope Z_scope.

(** ** Configuration *)

Record config := {
  CloudURL : string;
  RegisterToken : string;
  Name : string;
  Region : string;
  ControlPlaneURL : string;
  ControlPlaneKey : string;
  CapacityMax : Z;
  DedicatedTenantID : string;
  ClusterFingerprint : string;
  HeartbeatInterval : Z;
  RequestTimeout : Z;
}.

Section Env.
Context (Getenv : string → string).

Definition envStr (key def : string) : string :=
  if Getenv key <>s "" then Getenv key else def.

Definition positive_or (def : Z) (v : option Z) : Z :=
  match v with Some v => if 0 <? v then v else def | None => def end.
Definition envInt (key : string) (def : Z) : Z := positive_or def (Atoi (Getenv key)).
Definition envDuration (key : string) (def : Z) : Z := positive_or def (ParseDuration (Getenv key)).

Definition loadConfig : config + gerr :=
  let c := {|
    CloudURL := Getenv "CLOUD_URL";
    RegisterToken := Getenv "REGISTER_TOKEN";
    Name := Getenv "CLUSTER_NAME";
    Region := Getenv "CLUSTER_REGION";
    ControlPlaneURL := envStr "CONTROLPLANE_URL" "http://minato-controlplane:8080";
    ControlPlaneKey := Getenv "CONTROLPLANE_API_KEY";
    CapacityMax := envInt "CAPACITY_MAX" 100;
    DedicatedTenantID := Getenv "DEDICATED_TENANT_ID";
    ClusterFingerprint := Getenv "CLUSTER_FINGERPRINT";
    HeartbeatInterval := envDuration "HEARTBEAT_INTERVAL" (30 * second);
    RequestTimeout := envDuration "REQUEST_TIMEOUT" (10 * second);
  |} in
  if (CloudURL c =s "") || (RegisterToken c =s "") || (Name c =s "") || (ControlPlaneKey c =s "")
  then inr (errorf "CLOUD_URL, REGISTER_TOKEN, CLUSTER_NAME and CONTROLPLANE_API_KEY are required")
  else inl c.
End Env.

(** ** Payloads *)

Record registerPayload := {
  rp_Name : string;
  rp_Region : string;
  rp_ControlPlaneURL : string;
  rp_APIKey : string;
  rp_CapacityMax : Z;
  rp_DedicatedTenantID : string;
  rp_ClusterFingerprint : string;
}.
Record heartbeatPayload := {
  hp_CapacityMax : Z;
  hp_ClusterFingerprint : string;
}.

Definition buildRegisterPayload (cfg : config) (fingerprint : string) : registerPayload := {|
  rp_Name := Name cfg;
  rp_Region := Region cfg;
  rp_ControlPlaneURL := ControlPlaneURL cfg;
  rp_APIKey := ControlPlaneKey cfg;
  rp_CapacityMax := CapacityMax cfg;
  rp_DedicatedTenantID := DedicatedTenantID cfg;
  rp_ClusterFingerprint := fingerprint;
|}.
Definition buildHeartbeatPayload (cfg : config) (fingerprint : string) : heartbeatPayload := {|
  hp_CapacityMax := CapacityMax cfg;
  hp_ClusterFingerprint := fingerprint;
|}.

(** ** Calls to the outside *)

Inductive payload := PRegister (p : registerPayload) | PHeartbeat (p : heartbeatPayload).

Inductive regop : Type → Type :=
(* building and sending a POST with a bearer token: the status and at most 4096
   bytes of the answer *)
| HttpPost (url token : string) (body : payload) : regop ((Z * string) + gerr)
(* [select] on the context and a timer or the ticker: was the context done? *)
| WaitBackoff (d : Z) : regop bool
| WaitTick : regop bool
(* the fingerprint: files, and the kube-system namespace (status, and the UID
   decoded from the answer) *)
| ReadFile (path : string) : regop (string + gerr)
| GetKubeSystem (url token : string) (ca : option string) : regop ((Z * (string + gerr)) + gerr).

Abbreviation R := (prog regop).

Section Registrar.
Context (cfg : config) (fingerprint : string).

Definition call_cloud (path : string) (body : payload) : R ((Z * string) + gerr) :=
  call (HttpPost (CloudURL cfg +:+ path) (RegisterToken cfg) body).

Definition register : R (option gerr) :=
  let* r := call_cloud "/api/v1/clusters/register" (PRegister (buildRegisterPayload cfg fingerprint)) in
  Ret (match r with
       | inr e => Some e
       | inl (status, body) =>
           if negb (status =? 200)
           then Some (errorf ("register: status " +:+ itoa status +:+ ": " +:+ body)) else None
       end).

Definition heartbeat : R (bool * option gerr) :=
  let* r := call_cloud ("/api/v1/clusters/" +:+ Name cfg +:+ "/heartbeat")
              (PHeartbeat (buildHeartbeatPayload cfg fingerprint)) in
  Ret (match r with
       | inr e => (false, Some e)
       | inl (status, body) =>
           if status =? 404 then (false, None)
           else if negb (status =? 204)
           then (false, Some (errorf ("heartbeat: status " +:+ itoa status +:+ ": " +:+ body)))
           else (true, None)
       end).

(** Where [run] is at the top of one of its two loops, or after it returned. *)
Inductive phase := Registering (backoff : Z) | Beating | Stopped.

(** [time.NewTicker] panics on an interval that is not positive. *)
Definition new_ticker : R phase :=
  if HeartbeatInterval cfg <=? 0 then Panic "non-positive interval for NewTicker" else Ret Beating.

Definition next_backoff (backoff : Z) : Z :=
  if backoff <? 30 * second then wrap64 (backoff * 2) else backoff.

Definition register_turn (backoff : Z) : R phase :=
  let* err := register in
  match err with
  | None => new_ticker
  | Some _ =>
      let* done := call (WaitBackoff backoff) in
      if done : bool then Ret Stopped else Ret (Registering (next_backoff backoff))
  end.

Definition beat_turn : R phase :=
  let* done := call WaitTick in
  if done : bool then Ret Stopped
  else
    let* '(ok, err) := heartbeat in
    match err with
    | Some _ => Ret Beating
    | None => if ok : bool then Ret Beating else let* _ := register in Ret Beating
    end.

Definition turn (p : phase) : R phase :=
  match p with
  | Registering backoff => register_turn backoff
  | Beating => beat_turn
  | Stopped => Ret Stopped
  end.
Fixpoint run_from (n : nat) (p : phase) : R phase :=
  match n with
  | O => Ret p
  | S n => let* p := turn p in run_from n p
  end.
Definition run (n : nat) : R phase := run_from n (Registering second).
End Registrar.

(** ** The fingerprint ([fingerprint.go]) *)

(** [net.JoinHostPort] brackets a host with a colon. *)
Definition JoinHostPort (host port : string) : string :=
  if Contains host ":" then "[" +:+ host +:+ "]:" +:+ port else host +:+ ":" +:+ port.

Definition inClusterBaseURL (Getenv : string → string) : string :=
  let host := if Getenv "KUBERNETES_SERVICE_HOST" =s "" then "kubernetes.default.svc"
              else Getenv "KUBERNETES_SERVICE_HOST" in
  let port := if Getenv "KUBERNETES_SERVICE_PORT" =s "" then "443"
              else Getenv "KUBERNETES_SERVICE_PORT" in
  "https://" +:+ JoinHostPort host port.

Definition kubeSystemUID (baseURL token : string) (ca : option string) : R (string + gerr) :=
  let* r := call (GetKubeSystem (baseURL +:+ "/api/v1/namespaces/kube-system") token ca) in
  Ret (match r with
       | inr e => inr e
       | inl (status, body) =>
           if negb (status =? 200)
           then inr (errorf ("get kube-system namespace: status " +:+ itoa status))
           else match body with
                | inr e => inr e
                | inl uid => if uid =s "" then inr (errorf "kube-system namespace has no uid") else inl uid
                end
       end).

Definition resolveClusterFingerprint (Getenv : string → string) (override tokenPath caPath : string)
  : R string :=
  if override <>s "" then Ret override
  else
    let* token := call (ReadFile tokenPath) in
    match token with
    | inr _ => Ret ""
    | inl token =>
        let* ca := call (ReadFile caPath) in
        let* uid := kubeSystemUID (inClusterBaseURL Getenv) token
                      (match ca with inl ca => Some ca | inr _ => None end) in
        match uid with
        | inr _ => Ret ""
        | inl uid => Ret uid
        end
    end.

Definition defaultTokenPath : string := "/var/run/secrets/kubernetes.io/serviceaccount/token".
Definition defaultCAPath : string := "/var/run/secrets/kubernetes.io/serviceaccount/ca.crt".

(** [main], up to the wiring of signals: the first [n] turns. *)
Definition main (Getenv : string → string) (n : nat) : R (phase + gerr) :=
  match loadConfig Getenv with
  | inr e => Ret (inr e)
  | inl cfg =>
      let* fingerprint := resolveClusterFingerprint Getenv (ClusterFingerprint cfg)
                            defaultTokenPath defaultCAPath in
      let* p := run cfg fingerprint n in Ret (inl p)
  end.

(** ** Lemmas *)

Lemma positive_or_pos def v : 0 < def → 0 < positive_or def v.
Proof. unfold positive_or. intros H. destruct v as [v|]; [|done]. destruct (Z.ltb_spec 0 v); lia. Qed.

(** A configuration that loads is complete, and its numbers are positive. *)
Lemma loadConfig_valid Getenv cfg :
  loadConfig Getenv = inl cfg →
  CloudURL cfg ≠ "" ∧ RegisterToken cfg ≠ "" ∧ Name cfg ≠ "" ∧ ControlPlaneKey cfg ≠ ""
  ∧ ControlPlaneURL cfg ≠ "" ∧ 0 < CapacityMax cfg ∧ 0 < HeartbeatInterval cfg ∧ 0 < RequestTimeout cfg.
Proof.
  unfold loadConfig. cbv zeta. destruct (_ || _) eqn:E; [done|]. intros [= <-]. cbn in *.
  repeat (apply orb_false_iff in E as [E ?]). rewrite !eqs_false in *.
  repeat (split; [done|]). split; [|by repeat split; apply positive_or_pos].
  unfold envStr. destruct (String.eqb_spec (Getenv "CONTROLPLANE_URL") ""); done.
Qed.

(** *** The backoff *)

(** 1, 2, 4, 8, 16 and from then on 32 seconds. *)
Definition backoff (i : nat) : Z := 2 ^ Z.of_nat (Nat.min i 5) * second.

Lemma next_backoff_step i : next_backoff (backoff i) = backoff (S i).
Proof.
  unfold backoff. do 5 (destruct i as [|i]; [reflexivity|]).
  replace (Nat.min (S (S (S (S (S i))))) 5) with 5%nat by lia.
  by replace (Nat.min (S (S (S (S (S (S i)))))) 5) with 5%nat by lia.
Qed.

(** *** The protocol *)

Section Protocol.
Context (cfg : config) (fingerprint : string).

Definition register_event (r : (Z * string) + gerr) : event regop :=
  Ev (HttpPost (CloudURL cfg +:+ "/api/v1/clusters/register") (RegisterToken cfg)
        (PRegister (buildRegisterPayload cfg fingerprint))) r.
Definition heartbeat_event (r : (Z * string) + gerr) : event regop :=
  Ev (HttpPost (CloudURL cfg +:+ ("/api/v1/clusters/" +:+ Name cfg +:+ "/heartbeat")) (RegisterToken cfg)
        (PHeartbeat (buildHeartbeatPayload cfg fingerprint))) r.

Definition has_status (status : Z) (r : (Z * string) + gerr) : bool :=
  match r with inl (s, _) => s =? status | inr _ => false end.
Definition refused (r : (Z * string) + gerr) : Prop := has_status 200 r = false.

(** The failed registrations, each with its wait, from the [k]-th on. *)
Fixpoint attempts (k : nat) (rs : list ((Z * string) + gerr)) : list (event regop) :=
  match rs with
  | [] => []
  | r :: rs => register_event r :: Ev (WaitBackoff (backoff k)) false :: attempts (S k) rs
  end.

(** A heartbeat, at a tick; when the cloud has forgotten the cluster, one
    registration follows. *)
Inductive round : list (event regop) → Prop :=
| round_beat r :
    has_status 404 r = false → round [Ev WaitTick false; heartbeat_event r]
| round_again r r' :
    has_status 404 r = true → round [Ev WaitTick false; heartbeat_event r; register_event r'].

(** How a registered registrar goes on: rounds, then perhaps the end. *)
Definition beats (t : list (event regop)) (o : outcome phase) : Prop :=
  ∃ l, Forall round l
       ∧ ((t = concat l ∧ o = Done Beating) ∨ (t = concat l ++ [Ev WaitTick true] ∧ o = Done Stopped)).

Lemma register_runs t o :
  runs (register cfg fingerprint) t o →
  ∃ r e, t = [register_event r] ∧ o = Done e ∧ (e = None ↔ ¬ refused r).
Proof.
  intros (r & t' & -> & -> & ->). eexists r, _. split; [done|]. split; [done|]. unfold refused.
  destruct r as [[s b]|e]; cbn; [|done]. by destruct (s =? 200).
Qed.

Lemma stopped_runs n t o : runs (run_from cfg fingerprint n Stopped) t o → t = [] ∧ o = Done Stopped.
Proof. induction n as [|n IH]; [done|]. exact IH. Qed.

Lemma beat_turn_runs t o :
  runs (beat_turn cfg fingerprint) t o →
  (round t ∧ o = Done Beating) ∨ (t = [Ev WaitTick true] ∧ o = Done Stopped).
Proof.
  intros (done_ & t' & -> & H). cbn [bind call] in H. destruct done_; [right; by destruct H as [-> ->]|].
  left. destruct H as (r & t2 & -> & H). cbn [bind call] in H. cbv beta iota in H.
  destruct r as [[s b]|e].
  - destruct (s =? 404) eqn:E4.
    + run_step H; [by apply register_runs in Hrun as (? & ? & _ & ? & _)|].
      destruct H as [-> ->]. rewrite app_nil_r.
      apply register_runs in Hrun as (r' & _ & -> & _ & _). split; [|done].
      by apply (round_again (inl (s, b))).
    + assert (t2 = [] ∧ o = Done Beating) as [-> ->] by (destruct (s =? 204); exact H).
      split; [|done]. by apply (round_beat (inl (s, b))).
  - destruct H as [-> ->]. split; [|done]. by apply (round_beat (inr e)).
Qed.

Lemma beats_runs n : ∀ t o, runs (run_from cfg fingerprint n Beating) t o → beats t o.
Proof.
  induction n as [|n IH]; intros t o H.
  { destruct H as [-> ->]. exists []. split; [constructor|by left]. }
  cbn [run_from turn] in H. run_step H.
  { by apply beat_turn_runs in Hrun as [[_ ?]|[_ ?]]. }
  apply beat_turn_runs in Hrun as [[Hr [= ->]]|[-> [= ->]]].
  - apply IH in H as (l & Hl & H). exists (t0 :: l). split; [by constructor|]. cbn [concat].
    destruct H as [[-> ->]|[-> ->]]; [by left|right]. by rewrite app_assoc.
  - apply stopped_runs in H as [-> ->]. exists []. split; [constructor|by right].
Qed.

(** The whole life of a registrar whose interval is positive, from its [k]-th
    attempt on. *)
Lemma registering_runs n : 0 < HeartbeatInterval cfg → ∀ k t o,
  runs (run_from cfg fingerprint n (Registering (backoff k))) t o →
  ∃ rs, Forall refused rs
  ∧ ((t = attempts k rs ∧ o = Done (Registering (backoff (k + length rs))))
     ∨ (∃ r, refused r ∧ t = attempts k rs ++ [register_event r; Ev (WaitBackoff (backoff (k + length rs))) true]
             ∧ o = Done Stopped)
     ∨ ∃ r t', ¬ refused r ∧ t = attempts k rs ++ register_event r :: t' ∧ beats t' o).
Proof.
  intros Hi. induction n as [|n IH]; intros k t o H.
  { destruct H as [-> ->]. exists []. split; [constructor|]. left. by rewrite Nat.add_0_r. }
  cbn [run_from turn] in H. unfold register_turn in H. run_step H.
  { run_step Hrun; [by apply register_runs in Hrun0 as (? & ? & _ & ? & _)|].
    destruct a as [e|]; [by destruct Hrun as ([] & ? & _ & _ & ?)|].
    unfold new_ticker in Hrun. destruct (Z.leb_spec (HeartbeatInterval cfg) 0); [lia|by destruct Hrun]. }
  run_step Hrun. apply register_runs in Hrun0 as (r & e & -> & [= ->] & He). destruct e as [e|].
  - assert (refused r) as Hr by (destruct (decide (refused r)); [done|]; by apply He in n0).
    destruct Hrun as (stop & t' & -> & Hs). destruct stop.
    + destruct Hs as [-> [= ->]]. apply stopped_runs in H as [-> ->].
      exists []. split; [constructor|]. right. left. exists r. by rewrite Nat.add_0_r.
    + destruct Hs as [-> [= ->]]. rewrite next_backoff_step in H. apply IH in H as (rs & Hf & H).
      exists (r :: rs). split; [by constructor|]. cbn [attempts length app].
      replace (k + S (length rs))%nat with (S k + length rs)%nat by lia.
      destruct H as [[-> ->]|[(r' & ? & -> & ->)|(r' & t' & ? & -> & ?)]]; eauto 10.
  - unfold new_ticker in Hrun. destruct (Z.leb_spec (HeartbeatInterval cfg) 0); [lia|].
    destruct Hrun as [-> [= ->]]. apply beats_runs in H. exists []. split; [constructor|].
    right. right. match goal with H : beats ?x _ |- _ => exists r, x end. split; [by apply He|]. by rewrite app_nil_r.
Qed.
End Protocol.

(** ** Properties *)

(** C15: the registrar's protocol, for any number of turns. With any
    configuration that loads it never panics; it first registers until the cloud accepts, waiting
    1, 2, 4, 8, 16 and then always 32 seconds between attempts; only then does it
    send heartbeats, one per tick, and it registers again exactly when a heartbeat
    was answered 404, once per such heartbeat. It ends only when its
    context is done, and then calls nothing more. *)
Theorem registrar_protocol Getenv cfg fingerprint n t o :
  loadConfig Getenv = inl cfg →
  runs (run cfg fingerprint n) t o →
  ∃ rs, Forall refused rs
  ∧ ((t = attempts cfg fingerprint 0 rs ∧ o = Done (Registering (backoff (length rs))))
     ∨ (∃ r, refused r
             ∧ t = attempts cfg fingerprint 0 rs
                   ++ [register_event cfg fingerprint r; Ev (WaitBackoff (backoff (length rs))) true]
             ∧ o = Done Stopped)
     ∨ ∃ r t', ¬ refused r ∧ t = attempts cfg fingerprint 0 rs ++ register_event cfg fingerprint r :: t'
               ∧ beats cfg fingerprint t' o).
Proof.
  intros Hc H. apply loadConfig_valid in Hc as (_ & _ & _ & _ & _ & _ & Hi & _).
  exact (registering_runs cfg fingerprint n Hi 0 t o H).
Qed.

(** The fingerprint is best effort: the override needs no call, and otherwise every failure
    gives "", never an error or a panic. *)
Lemma resolveClusterFingerprint_correct Getenv override tokenPath caPath t o :
  runs (resolveClusterFingerprint Getenv override tokenPath caPath) t o →
  (override ≠ "" ∧ t = [] ∧ o = Done override)
  ∨ (override = "" ∧ ∃ uid, o = Done uid
     ∧ (uid ≠ "" → ∃ token ca t0, t = Ev (ReadFile tokenPath) (inl token)
          :: t0 ++ [Ev (GetKubeSystem (inClusterBaseURL Getenv +:+ "/api/v1/namespaces/kube-system") token ca)
                       (inl (200, inl uid))])).
Proof.
  unfold resolveClusterFingerprint. destruct (String.eqb_spec override "") as [->|Hne]; cbn [negb].
  2:{ intros [-> ->]. by left. }
  intros ([token|e] & t' & -> & H); cbn [bind call] in H; right; split; try done.
  2:{ destruct H as [_ ->]. by exists "". }
  destruct H as (ca & t2 & -> & r & t3 & -> & H). cbn in H.
  destruct r as [[s [uid|e]]|e]; cbn in H; [|by destruct (s =? 200); destruct H as [_ ->]; exists ""
    |by destruct H as [_ ->]; exists ""].
  destruct (Z.eqb_spec s 200) as [->|]; cbn in H; [|by destruct H as [_ ->]; exists ""].
  destruct (String.eqb_spec uid "") as [->|Hu]; destruct H as [-> ->]; [by exists ""|].
  exists uid. split; [done|]. intros _. eexists token, _, [Ev (ReadFile caPath) ca]. done.
Qed.

(** ** Witnesses *)

Definition ex_env (key : string) : string :=
  if key =s "CLOUD_URL" then "https://cloud" else if key =s "REGISTER_TOKEN" then "secret"
  else if key =s "CLUSTER_NAME" then "eu-1" else if key =s "CONTROLPLANE_API_KEY" then "key"
  else if key =s "HEARTBEAT_INTERVAL" then "-5s" else "".
Definition ex_config : config := match loadConfig ex_env with inl c => c | inr _ => ltac:(exact
  {| CloudURL := ""; RegisterToken := ""; Name := ""; Region := ""; ControlPlaneURL := "";
     ControlPlaneKey := ""; CapacityMax := 0; DedicatedTenantID := ""; ClusterFingerprint := "";
     HeartbeatInterval := 0; RequestTimeout := 0 |}) end.

(** The cloud is away for the first attempt, accepts the second, and has
    forgotten the cluster at the first heartbeat; the third tick never comes. *)
Definition ex_cloud (X : Type) (e : regop X) (s : Z * Z) : X * (Z * Z) :=
  let '(posts, ticks) := s in
  match e in regop X return X * (Z * Z) with
  | HttpPost _ _ _ =>
      ((if posts =? 0 then inr (errorf "connection refused")
        else if posts =? 2 then inl (404, "unknown cluster") else inl (200, "")), (posts + 1, ticks))
  | WaitBackoff _ => (false, s)
  | WaitTick => (1 <? ticks, (posts, ticks + 1))
  | ReadFile _ => (inr (errorf "no such file"), s)
  | GetKubeSystem _ _ _ => (inr (errorf "no route"), s)
  end.
Definition ex_run : list (event regop) * outcome phase * (Z * Z) :=
  exec ex_cloud (run ex_config "" 6) (0, 0).

(** The answer of a post, and whether an event is a wait. *)
Definition posted (v : event regop) : option ((Z * string) + gerr) :=
  match v with
  | Ev e x => (match e in regop X return X → option ((Z * string) + gerr) with
               | HttpPost _ _ _ => λ x, Some x
               | _ => λ _, None
               end) x
  end.

Lemma ex_run_posted :
  map posted ex_run.1.1
  = [Some (inr (errorf "connection refused")); None; Some (inl (200, ""));
     None; Some (inl (404, "unknown cluster")); Some (inl (200, ""));
     None; Some (inl (200, "")); None].
Proof. vm_compute. reflexivity. Qed.

Lemma registrar_protocol_witness :
  HeartbeatInterval ex_config = 30 * second
  ∧ ∃ rs r t', rs = [inr (errorf "connection refused")] ∧ r = inl (200, "")
      ∧ ex_run.1.1 = attempts ex_config "" 0 rs ++ register_event ex_config "" r :: t'
      ∧ beats ex_config "" t' (Done Stopped).
Proof.
  split; [vm_compute; reflexivity|].
  assert (loadConfig ex_env = inl ex_config) as Hc by (vm_compute; reflexivity).
  assert (ex_run.1.2 = Done Stopped) as Ho by (vm_compute; reflexivity).
  pose proof (registrar_protocol ex_env ex_config "" 6 _ _ Hc
    (exec_result_runs ex_cloud (run ex_config "" 6) (0, 0))) as H.
  fold ex_run in H. rewrite Ho in H. pose proof ex_run_posted as Hp.
  destruct H as (rs & Hf & [[_ ?]|[(r & Hr & Ht & _)|(r & t' & Hr & Ht & Hb)]]); [discriminate| |];
    rewrite Ht in Hp; destruct rs as [|r1 [|r2 rs]]; cbn in Hp; try discriminate Hp.
  - exfalso. simplify_eq; apply Forall_cons in Hf as [_ [Hf _]%Forall_cons]; discriminate Hf.
  - exfalso. simplify_eq; apply Hr; reflexivity.
  - simplify_eq. exists [inr (errorf "connection refused")], (inl (200, "")), t'. by repeat split.
  - exfalso. simplify_eq; apply Forall_cons in Hf as [_ [Hf _]%Forall_cons]; discriminate Hf.
Defined.
