(* ===== verification/Json.v ===== *)
(** * Json: JSON documents and the part of [encoding/json] the program uses

    A document is a tree; [encoding/json]'s [Unmarshal] into a Go value is a function from
    the tree and the value's old content ([dec]): [null] leaves most values as they
    are, an object sets the fields it names, in its order, ignoring case, and
    skips names the struct does not have (or refuses them, after
    [DisallowUnknownFields]). Only whole numbers are documents here: the API has no
    others. *)

From Stdlib Require Import Ascii String.
From coqutil Require Import Datatypes.RecordSetters.
From stdpp Require Import gmap.
From S2P Require Import Prelude GoStrings Kube.
#[local] Open Scope Z_scope.

#[warnings="-register-all,-automation"]
Inductive json :=
| JNull
| JBool (b : bool)
| JNum (z : Z)
| JStr (s : string)
| JArr (l : list json)
| JObj (l : list (string * json)).

(** ** Text

    The text of a document. Printing escapes, and replaces bytes that are not
    UTF-8: parsing gives back a document whose strings are. *)

Definition utf8_tail (s : string) : option string :=
  match s with
  | String c s => if (128 <=? byte_of c)%nat && (byte_of c <? 192)%nat then Some s else None
  | "" => None
  end.

(** One character at a time; [n] bounds the length. The few overlong and
    surrogate forms are excluded by the bounds on the second byte. *)
Fixpoint utf8_from (n : nat) (s : string) : bool :=
  match n, s with
  | _, "" => true
  | O, _ => false
  | S n, String c s =>
      let b := byte_of c in
      let second lo hi :=
        match s with
        | String d _ => (lo <=? byte_of d)%nat && (byte_of d <=? hi)%nat
        | "" => false
        end in
      let tail1 := utf8_tail s in
      let tail2 := tail1 ≫= utf8_tail in
      let tail3 := tail2 ≫= utf8_tail in
      let continue (o : option string) := match o with Some s => utf8_from n s | None => false end in
      if (b <? 128)%nat then utf8_from n s
      else if (b <? 194)%nat then false
      else if (b <? 224)%nat then continue tail1
      else if (b =? 224)%nat then second 160%nat 191%nat && continue tail2
      else if (b =? 237)%nat then second 128%nat 159%nat && continue tail2
      else if (b <? 240)%nat then continue tail2
      else if (b =? 240)%nat then second 144%nat 191%nat && continue tail3
      else if (b <? 244)%nat then continue tail3
      else if (b =? 244)%nat then second 128%nat 143%nat && continue tail3
      else false
  end.
Definition utf8 (s : string) : bool := utf8_from (String.length s) s.

(** Strings are UTF-8 and numbers fit 64 bits. *)
Fixpoint json_ok (j : json) : bool :=
  match j with
  | JNull | JBool _ => true
  | JNum z => (-9223372036854775808 <=? z) && (z <=? 9223372036854775807)
  | JStr s => utf8 s
  | JArr l => forallb json_ok l
  | JObj l => forallb (λ kv, utf8 kv.1 && json_ok kv.2) l
  end.

Fixpoint json_map (f : string → string) (j : json) : json :=
  match j with
  | JStr s => JStr (f s)
  | JArr l => JArr (map (json_map f) l)
  | JObj l => JObj (map (λ kv, (f kv.1, json_map f kv.2)) l)
  | j => j
  end.
(** Only the numbers matter. *)
Definition numbers_ok (j : json) : bool := json_ok (json_map (λ _, "") j).

Lemma json_map_id f : (∀ s, utf8 s = true → f s = s) → ∀ j, json_ok j = true → json_map f j = j.
Proof.
  intros Hf. fix IH 1. intros [|b|z|s|l|l]; cbn [json_map json_ok]; try done.
  - intros Hs. by rewrite Hf.
  - intros Hl. f_equal. induction l as [|j l IHl]; [done|]. cbn in Hl |- *.
    apply andb_true_iff in Hl as [Hj Hl]. by rewrite IH, IHl.
  - intros Hl. f_equal. induction l as [|[k j] l IHl]; [done|]. cbn [forallb fst snd] in Hl. cbn [map fst snd].
    apply andb_true_iff in Hl as [[Hk Hj]%andb_true_iff Hl]. by rewrite Hf, IH, IHl.
Qed.
Lemma json_ok_numbers : ∀ j, json_ok j = true → numbers_ok j = true.
Proof.
  unfold numbers_ok. fix IH 1. intros [|b|z|s|l|l]; cbn [json_map json_ok]; try done.
  - intros Hl. induction l as [|j l IHl]; [done|]. cbn in Hl |- *.
    apply andb_true_iff in Hl as [Hj Hl]. by rewrite IH, IHl.
  - intros Hl. induction l as [|[k j] l IHl]; [done|]. cbn [forallb fst snd] in Hl. cbn [map forallb fst snd].
    apply andb_true_iff in Hl as [[_ Hj]%andb_true_iff Hl]. by rewrite IH, IHl.
Qed.

(** [json.Marshal] and the first value of a text, with the errors of a text that is
    none ([parse]) and of a document that does not fit its target ([type_error]).
    [Encoder.Encode] ends its text with a newline; bytes that are not UTF-8 are
    replaced ([coerce]). *)
Class JsonText := {
  print : json → string;
  parse : string → json + gerr;
  type_error : string → gerr;
  coerce : string → string;
  coerce_utf8 : ∀ s, utf8 s = true → coerce s = s;
  parse_print_coerced : ∀ j, numbers_ok j = true →
    parse (print j) = inl (json_map coerce j) ∧ parse (print j +:+ newline) = inl (json_map coerce j);
}.

Lemma parse_print `{!JsonText} j :
  json_ok j = true → parse (print j) = inl j ∧ parse (print j +:+ newline) = inl j.
Proof.
  intros Hok. rewrite <-(json_map_id coerce coerce_utf8 j Hok) at 2 4.
  apply parse_print_coerced. by apply json_ok_numbers.
Qed.

(** ** Decoders *)

Definition dec (A : Type) : Type := json → A → option A.

Definition d_string : dec string := λ j old,
  match j with JStr s => Some s | JNull => Some old | _ => None end.
Definition d_bool : dec bool := λ j old,
  match j with JBool b => Some b | JNull => Some old | _ => None end.
Definition d_range (lo hi : Z) : dec Z := λ j old,
  match j with
  | JNum z => if (lo <=? z) && (z <=? hi) then Some z else None
  | JNull => Some old
  | _ => None
  end.
Definition d_int32 : dec Z := d_range (-2147483648) 2147483647.
Definition d_int : dec Z := d_range (-9223372036854775808) 9223372036854775807.

(** [interface{}] *)
Definition d_any : dec json := λ j _, Some j.

Section Containers.
Context {A : Type} (zero : A) (d : dec A).

Definition d_ptr : dec (option A) := λ j old,
  match j with JNull => Some None | _ => Some <$> d j (default zero old) end.

Definition d_slice : dec (list A) := λ j _,
  match j with
  | JNull => Some []
  | JArr l => mapM (λ j, d j zero) l
  | _ => None
  end.

Fixpoint d_entries (l : list (string * json)) (m : gmap string A) : option (gmap string A) :=
  match l with
  | [] => Some m
  | (k, v) :: l =>
      match d v zero with Some a => d_entries l (<[k := a]> m) | None => None end
  end.
Definition d_map : dec (gomap A) := λ j old,
  match j with
  | JNull => Some None
  | JObj l => Some <$> d_entries l (gm_make old)
  | _ => None
  end.
End Containers.

(** *** Structs *)

(** A field: its name and how a value is stored in it. *)
Record field (T : Type) := Field { f_name : string; f_set : json → T → option T }.
Arguments Field {_} _ _.
Arguments f_name {_} _.
Arguments f_set {_} _ _ _.

(** Storing in a field; [Setter]s are derived from getters. *)
Definition put {T A} (get : T → A) {set : Setter get} (a : A) (t : T) : T := set (λ _, a) t.

(** The usual field: decode into the old content, and store. *)
Definition fld {T A} (name : string) (d : dec A) (get : T → A) {set : Setter get} : field T :=
  Field name (λ v t, (λ a, put get a t) <$> d v (get t)).

Definition EqualFold (a b : string) : bool := ToLower a =s ToLower b.

Section Struct.
Context {T : Type} (strict : bool) (fields : list (field T)).

Definition d_member (t : T) (kv : string * json) : option T :=
  match find_first (λ f, EqualFold (f_name f) kv.1) fields with
  | Some f => f_set f kv.2 t
  | None => if strict then None else Some t
  end.
Fixpoint d_members (l : list (string * json)) (t : T) : option T :=
  match l with
  | [] => Some t
  | kv :: l => match d_member t kv with Some t => d_members l t | None => None end
  end.
Definition d_struct : dec T := λ j t,
  match j with
  | JNull => Some t
  | JObj l => d_members l t
  | _ => None
  end.

Lemma d_members_app l l' t :
  d_members (l ++ l') t = match d_members l t with Some t => d_members l' t | None => None end.
Proof.
  revert t. induction l as [|kv l IH]; intros t; [done|]. cbn. destruct (d_member t kv); [apply IH|done].
Qed.
End Struct.

Definition lenient {T} (fields : list (field T)) : dec T := d_struct false fields.
Definition disallow_unknown {T} (fields : list (field T)) : dec T := d_struct true fields.

(** [json.Unmarshal], and [Decoder.Decode], of a text. *)
Definition unmarshal `{!JsonText} {A} (zero : A) (d : dec A) (text : string) : A + gerr :=
  match parse text with
  | inr e => inr e
  | inl j => match d j zero with Some a => inl a | None => inr (type_error text) end
  end.

Lemma unmarshal_print `{!JsonText} {A} (zero : A) (d : dec A) j :
  json_ok j = true →
  unmarshal zero d (print j) = match d j zero with Some a => inl a | None => inr (type_error (print j)) end
  ∧ unmarshal zero d (print j +:+ newline)
    = match d j zero with Some a => inl a | None => inr (type_error (print j +:+ newline)) end.
Proof. intros Hu. unfold unmarshal. by destruct (parse_print j Hu) as [-> ->]. Qed.

(** ** Encoders *)

Abbreviation members := (list (string * json)).

(** [omitempty], by the type of the field. *)
Definition m_str (k v : string) : members := if v =s "" then [] else [(k, JStr v)].
Definition m_int (k : string) (v : Z) : members := if v =? 0 then [] else [(k, JNum v)].
Definition m_bool (k : string) (v : bool) : members := if v then [(k, JBool v)] else [].
Definition m_ptr {A} (k : string) (enc : A → json) (v : option A) : members :=
  match v with Some a => [(k, enc a)] | None => [] end.
Definition m_list {A} (k : string) (enc : A → json) (v : list A) : members :=
  match v with [] => [] | _ => [(k, JArr (enc <$> v))] end.
(** A map is written with its keys sorted; an empty one is omitted. *)
Definition map_members {A} (enc : A → json) (m : gmap string A) : members :=
  omap (λ k, (λ a, (k, enc a)) <$> m !! k) (sort_strings (elements (dom m))).
Definition e_map {A} (enc : A → json) (m : gmap string A) : json := JObj (map_members enc m).
Definition m_map {A} (k : string) (enc : A → json) (m : gomap A) : members :=
  match m with
  | Some m => if bool_decide (m = ∅) then [] else [(k, e_map enc m)]
  | None => []
  end.
(** A pointer to a map, with [omitempty]: omitted only when nil. *)
Definition m_ptr_map {A} (k : string) (enc : A → json) (m : option (gomap A)) : members :=
  match m with
  | Some (Some m) => [(k, e_map enc m)]
  | Some None => [(k, JNull)]
  | None => []
  end.

(** ** What is read back

    [f a] is what [d] reads from [enc a]. *)

Section Maps.
Context {A B : Type} (zero : B) (enc : A → json) (d : dec B) (f : A → B).

Lemma d_entries_spec (m : gmap string A) ks :
  (∀ k a, k ∈ ks → m !! k = Some a → d (enc a) zero = Some (f a)) → ∀ acc,
  ∃ m', d_entries zero d (omap (λ k, (λ a, (k, enc a)) <$> m !! k) ks) acc = Some m'
        ∧ ∀ k, m' !! k = if bool_decide (k ∈ ks ∧ is_Some (m !! k)) then f <$> m !! k else acc !! k.
Proof.
  induction ks as [|k ks IH]; intros Hd acc.
  { exists acc. split; [done|]. intros k. by rewrite bool_decide_false by (intros [?%not_elem_of_nil _]; done). }
  assert (∀ k a, k ∈ ks → m !! k = Some a → d (enc a) zero = Some (f a)) as Hd'
    by (intros; eapply Hd; [by right|done]).
  cbn [omap list_omap]. destruct (m !! k) as [a|] eqn:Hk; cbn [fmap option_fmap option_map].
  - cbn [d_entries]. rewrite (Hd k a) by (done || left). destruct (IH Hd' (<[k:=f a]> acc)) as (m' & Hm & Hl).
    exists m'. split; [done|]. intros k'. rewrite Hl. destruct (decide (k' = k)) as [->|Hne].
    + rewrite Hk, lookup_insert_eq. rewrite (bool_decide_true (k ∈ k :: ks ∧ _)) by (split; [left|eauto]).
      by case_bool_decide.
    + rewrite lookup_insert_ne by done.
      rewrite (bool_decide_ext (k' ∈ ks ∧ is_Some (m !! k')) (k' ∈ k :: ks ∧ is_Some (m !! k'))); [done|].
      rewrite elem_of_cons. naive_solver.
  - destruct (IH Hd' acc) as (m' & Hm & Hl). exists m'. split; [done|]. intros k'. rewrite Hl.
    rewrite (bool_decide_ext (k' ∈ ks ∧ is_Some (m !! k')) (k' ∈ k :: ks ∧ is_Some (m !! k'))); [done|].
    rewrite elem_of_cons. split; [naive_solver|]. intros [[->|?] Hs]; [|done]. by rewrite Hk in Hs; destruct Hs.
Qed.

Lemma elem_of_keys (m : gmap string A) k :
  k ∈ sort_strings (elements (dom m)) ↔ is_Some (m !! k).
Proof. by rewrite sort_strings_perm, elem_of_elements, elem_of_dom. Qed.

Lemma map_members_elem (m : gmap string A) k a :
  m !! k = Some a → (k, enc a) ∈ map_members enc m.
Proof.
  intros Hk. apply list_elem_of_omap. exists k. split; [apply elem_of_keys; eauto|]. by rewrite Hk.
Qed.

Lemma d_map_e_map (m : gmap string A) :
  (∀ k a, m !! k = Some a → d (enc a) zero = Some (f a)) →
  d_map zero d (e_map enc m) None = Some (Some (f <$> m)).
Proof.
  intros Hd. unfold d_map, e_map, map_members. change (gm_make None) with (∅ : gmap string B).
  destruct (d_entries_spec m (sort_strings (elements (dom m))) ltac:(eauto) ∅) as (m' & -> & Hl).
  cbn. do 2 f_equal. apply map_eq. intros k. rewrite Hl, lookup_empty, lookup_fmap.
  case_bool_decide as Hk; [done|]. destruct (m !! k) as [a|] eqn:E; [|done]. exfalso. apply Hk.
  split; [|eauto]. apply elem_of_keys. eauto.
Qed.

Lemma json_ok_e_map (m : gmap string A) k a :
  json_ok (e_map enc m) = true → m !! k = Some a → json_ok (enc a) = true.
Proof.
  intros Hok Hk%map_members_elem. cbn [e_map json_ok] in Hok. rewrite forallb_forall in Hok.
  apply list_elem_of_In in Hk. apply Hok in Hk. by apply andb_true_iff in Hk as [_ ?].
Qed.
End Maps.

(** A list is decoded element by element. *)
Lemma d_slice_enc {A B} (zero : B) (enc : A → json) (d : dec B) (view : A → B) (l : list A) :
  (∀ a, a ∈ l → d (enc a) zero = Some (view a)) →
  d_slice zero d (JArr (enc <$> l)) [] = Some (view <$> l).
Proof.
  cbn. induction l as [|a l IH]; intros Hd; [done|]. cbn. rewrite (Hd a) by left. cbn.
  rewrite IH; [done|]. intros b Hb. apply Hd. by right.
Qed.
