(* ===== verification/GenTypes.v ===== *)
(** * GenTypes: the models of the generated client
    ([sdk/controlplane/gen/client.go])

    The Go structs the client decodes answers into and encodes bodies from, with
    their JSON decoders and, for those it sends, encoders. Every member is
    optional (a pointer) where the Go field is; one that the SDK does not read
    is here all the same, because a value that does not fit it makes the whole
    answer undecodable. *)

From Stdlib Require Import Ascii String.
From coqutil Require Import Datatypes.RecordSetters.
From stdpp Require Import gmap.
From S2P Require Import Prelude GoStrings Kube Auth Json.
#[local] Open Scope Z_scope.

(** ** Shorthands *)

Definition d_pstring : dec (option string) := d_ptr "" d_string.
Definition d_pint : dec (option Z) := d_ptr 0 d_int.
Definition d_pbool : dec (option bool) := d_ptr false d_bool.
(** [*map[string]string] and [*[]map[string]interface{}] *)
Definition d_pmap : dec (option (gomap string)) := d_ptr None (d_map "" d_string).
Definition d_pobjects : dec (option (list (gomap json))) :=
  d_ptr [] (d_slice None (d_map JNull d_any)).

(** [time.Time]: the text of RFC 3339. *)
Definition d_time `{!RFC3339} : dec Z := λ j old,
  match j with JStr s => Parse s | JNull => Some old | _ => None end.
Definition d_ptime `{!RFC3339} : dec (option Z) := d_ptr 0 d_time.

(** How [time.Time] is written. *)
Class RFC3339Nano := FormatNano : Z → string.

Definition m_pstring (k : string) (v : option string) : members := m_ptr k JStr v.
Definition m_pint (k : string) (v : option Z) : members := m_ptr k JNum v.
Definition m_pbool (k : string) (v : option bool) : members := m_ptr k JBool v.
Definition m_objects (k : string) (v : option (list (gomap json))) : members :=
  m_ptr k (λ l, JArr ((λ o, match o with Some m => e_map id m | None => JNull end) <$> l)) v.

(** ** Metadata *)

Record gen_ObjectMeta := {
  xm_CreationTimestamp : option Z;
  xm_Labels : option (gomap string);
  xm_Name : option string;
  xm_Namespace : option string;
}.
Definition zero_ObjectMeta : gen_ObjectMeta :=
  {| xm_CreationTimestamp := None; xm_Labels := None; xm_Name := None; xm_Namespace := None |}.
Definition dec_ObjectMeta `{!RFC3339} : dec gen_ObjectMeta := lenient [
  fld "creationTimestamp" d_ptime xm_CreationTimestamp;
  fld "labels" d_pmap xm_Labels;
  fld "name" d_pstring xm_Name;
  fld "namespace" d_pstring xm_Namespace].
Definition enc_ObjectMeta `{!RFC3339Nano} (m : gen_ObjectMeta) : json := JObj (
  m_ptr "creationTimestamp" (λ t, JStr (FormatNano t)) (xm_CreationTimestamp m)
  ++ m_ptr_map "labels" JStr (xm_Labels m)
  ++ m_pstring "name" (xm_Name m)
  ++ m_pstring "namespace" (xm_Namespace m)).

(** ** Game servers *)

Record gen_SnapshotRef := { xr_Name : option string; xr_Namespace : option string }.
Definition zero_SnapshotRef : gen_SnapshotRef := {| xr_Name := None; xr_Namespace := None |}.
Definition dec_SnapshotRef : dec gen_SnapshotRef := lenient [
  fld "name" d_pstring xr_Name; fld "namespace" d_pstring xr_Namespace].
Definition enc_SnapshotRef (r : gen_SnapshotRef) : json :=
  JObj (m_pstring "name" (xr_Name r) ++ m_pstring "namespace" (xr_Namespace r)).

Record gen_StorageSpec := {
  xt_Size : option string;
  xt_SnapshotRef : option gen_SnapshotRef;
  xt_StorageClass : option string;
}.
Definition zero_StorageSpec : gen_StorageSpec :=
  {| xt_Size := None; xt_SnapshotRef := None; xt_StorageClass := None |}.
Definition dec_StorageSpec : dec gen_StorageSpec := lenient [
  fld "size" d_pstring xt_Size;
  fld "snapshotRef" (d_ptr zero_SnapshotRef dec_SnapshotRef) xt_SnapshotRef;
  fld "storageClass" d_pstring xt_StorageClass].
Definition enc_StorageSpec (s : gen_StorageSpec) : json := JObj (
  m_pstring "size" (xt_Size s)
  ++ m_ptr "snapshotRef" enc_SnapshotRef (xt_SnapshotRef s)
  ++ m_pstring "storageClass" (xt_StorageClass s)).

Record gen_Lifecycle := { xl_AutoStart : option bool; xl_IdleTimeoutSeconds : option Z }.
Definition zero_Lifecycle : gen_Lifecycle := {| xl_AutoStart := None; xl_IdleTimeoutSeconds := None |}.
Definition dec_Lifecycle : dec gen_Lifecycle := lenient [
  fld "autoStart" d_pbool xl_AutoStart; fld "idleTimeoutSeconds" d_pint xl_IdleTimeoutSeconds].
Definition enc_Lifecycle (l : gen_Lifecycle) : json := JObj (
  m_pbool "autoStart" (xl_AutoStart l) ++ m_pint "idleTimeoutSeconds" (xl_IdleTimeoutSeconds l)).

Record gen_GameServerSpec := {
  xs_Env : option (gomap string);
  xs_Lifecycle : option gen_Lifecycle;
  xs_LoadBalancerIP : option string;
  xs_PriorityClassName : option string;
  xs_Profile : option string;
  xs_Storage : option gen_StorageSpec;
  xs_Tier : option string;
}.
Definition zero_GameServerSpec : gen_GameServerSpec := {|
  xs_Env := None; xs_Lifecycle := None; xs_LoadBalancerIP := None; xs_PriorityClassName := None;
  xs_Profile := None; xs_Storage := None; xs_Tier := None |}.
Definition dec_GameServerSpec : dec gen_GameServerSpec := lenient [
  fld "env" d_pmap xs_Env;
  fld "lifecycle" (d_ptr zero_Lifecycle dec_Lifecycle) xs_Lifecycle;
  fld "loadBalancerIP" d_pstring xs_LoadBalancerIP;
  fld "priorityClassName" d_pstring xs_PriorityClassName;
  fld "profile" d_pstring xs_Profile;
  fld "storage" (d_ptr zero_StorageSpec dec_StorageSpec) xs_Storage;
  fld "tier" d_pstring xs_Tier].
Definition enc_GameServerSpec (s : gen_GameServerSpec) : json := JObj (
  m_ptr_map "env" JStr (xs_Env s)
  ++ m_ptr "lifecycle" enc_Lifecycle (xs_Lifecycle s)
  ++ m_pstring "loadBalancerIP" (xs_LoadBalancerIP s)
  ++ m_pstring "priorityClassName" (xs_PriorityClassName s)
  ++ m_pstring "profile" (xs_Profile s)
  ++ m_ptr "storage" enc_StorageSpec (xs_Storage s)
  ++ m_pstring "tier" (xs_Tier s)).

Record gen_Endpoint := { xe_Address : option string; xe_Name : option string; xe_Port : option Z }.
Definition zero_Endpoint : gen_Endpoint := {| xe_Address := None; xe_Name := None; xe_Port := None |}.
Definition dec_Endpoint : dec gen_Endpoint := lenient [
  fld "address" d_pstring xe_Address; fld "name" d_pstring xe_Name; fld "port" d_pint xe_Port].
Definition enc_Endpoint (e : gen_Endpoint) : json := JObj (
  m_pstring "address" (xe_Address e) ++ m_pstring "name" (xe_Name e) ++ m_pint "port" (xe_Port e)).

Record gen_GameServerStatus := {
  xu_AgentVersion : option string;
  xu_Conditions : option (list (gomap json));
  xu_Endpoints : option (list gen_Endpoint);
  xu_PlayerCapacity : option Z;
  xu_Players : option Z;
  xu_State : option string;
}.
Definition zero_GameServerStatus : gen_GameServerStatus := {|
  xu_AgentVersion := None; xu_Conditions := None; xu_Endpoints := None;
  xu_PlayerCapacity := None; xu_Players := None; xu_State := None |}.
Definition dec_GameServerStatus : dec gen_GameServerStatus := lenient [
  fld "agentVersion" d_pstring xu_AgentVersion;
  fld "conditions" d_pobjects xu_Conditions;
  fld "endpoints" (d_ptr [] (d_slice zero_Endpoint dec_Endpoint)) xu_Endpoints;
  fld "playerCapacity" d_pint xu_PlayerCapacity;
  fld "players" d_pint xu_Players;
  fld "state" d_pstring xu_State].
Definition enc_GameServerStatus (s : gen_GameServerStatus) : json := JObj (
  m_pstring "agentVersion" (xu_AgentVersion s)
  ++ m_objects "conditions" (xu_Conditions s)
  ++ m_ptr "endpoints" (λ l, JArr (enc_Endpoint <$> l)) (xu_Endpoints s)
  ++ m_pint "playerCapacity" (xu_PlayerCapacity s)
  ++ m_pint "players" (xu_Players s)
  ++ m_pstring "state" (xu_State s)).

Record gen_GameServer := {
  xg_ApiVersion : option string;
  xg_Kind : option string;
  xg_Metadata : option gen_ObjectMeta;
  xg_Spec : option gen_GameServerSpec;
  xg_Status : option gen_GameServerStatus;
}.
Definition zero_GameServer : gen_GameServer := {|
  xg_ApiVersion := None; xg_Kind := None; xg_Metadata := None; xg_Spec := None; xg_Status := None |}.
Definition dec_GameServer `{!RFC3339} : dec gen_GameServer := lenient [
  fld "apiVersion" d_pstring xg_ApiVersion;
  fld "kind" d_pstring xg_Kind;
  fld "metadata" (d_ptr zero_ObjectMeta dec_ObjectMeta) xg_Metadata;
  fld "spec" (d_ptr zero_GameServerSpec dec_GameServerSpec) xg_Spec;
  fld "status" (d_ptr zero_GameServerStatus dec_GameServerStatus) xg_Status].
Definition enc_GameServer `{!RFC3339Nano} (g : gen_GameServer) : json := JObj (
  m_pstring "apiVersion" (xg_ApiVersion g)
  ++ m_pstring "kind" (xg_Kind g)
  ++ m_ptr "metadata" enc_ObjectMeta (xg_Metadata g)
  ++ m_ptr "spec" enc_GameServerSpec (xg_Spec g)
  ++ m_ptr "status" enc_GameServerStatus (xg_Status g)).

(** The two patches. *)
Record gen_GameServerLifecyclePatch := { xlp_Lifecycle : option (option gen_Lifecycle) }.
Definition enc_GameServerLifecyclePatch (p : gen_GameServerLifecyclePatch) : json :=
  JObj (m_ptr "spec" (λ l, JObj (m_ptr "lifecycle" enc_Lifecycle l)) (xlp_Lifecycle p)).
Record gen_GameServerFleetPatch := { xfp_Replicas : option (option Z) }.
Definition enc_GameServerFleetPatch (p : gen_GameServerFleetPatch) : json :=
  JObj (m_ptr "spec" (λ r, JObj (m_pint "replicas" r)) (xfp_Replicas p)).

(** ** Fleets *)

Record gen_RollingUpdate := { xro_MaxUnavailable : option Z }.
Definition zero_RollingUpdate : gen_RollingUpdate := {| xro_MaxUnavailable := None |}.
Definition dec_RollingUpdate : dec gen_RollingUpdate := lenient [
  fld "maxUnavailable" d_pint xro_MaxUnavailable].
Definition enc_RollingUpdate (r : gen_RollingUpdate) : json :=
  JObj (m_pint "maxUnavailable" (xro_MaxUnavailable r)).

Record gen_UpdateStrategy := {
  xy_RollingUpdate : option gen_RollingUpdate;
  xy_Type : option string;
}.
Definition zero_UpdateStrategy : gen_UpdateStrategy := {| xy_RollingUpdate := None; xy_Type := None |}.
Definition dec_UpdateStrategy : dec gen_UpdateStrategy := lenient [
  fld "rollingUpdate" (d_ptr zero_RollingUpdate dec_RollingUpdate) xy_RollingUpdate;
  fld "type" d_pstring xy_Type].
Definition enc_UpdateStrategy (u : gen_UpdateStrategy) : json := JObj (
  m_ptr "rollingUpdate" enc_RollingUpdate (xy_RollingUpdate u) ++ m_pstring "type" (xy_Type u)).

Record gen_Template := { xte_Spec : option gen_GameServerSpec }.
Definition zero_Template : gen_Template := {| xte_Spec := None |}.
Definition dec_Template : dec gen_Template := lenient [
  fld "spec" (d_ptr zero_GameServerSpec dec_GameServerSpec) xte_Spec].
Definition enc_Template (t : gen_Template) : json :=
  JObj (m_ptr "spec" enc_GameServerSpec (xte_Spec t)).

Record gen_FleetSpec := {
  xfs_PriorityClassName : option string;
  xfs_Profile : option string;
  xfs_Replicas : option Z;
  xfs_Template : option gen_Template;
  xfs_TopologySpreadConstraints : option (list (gomap json));
  xfs_UpdateStrategy : option gen_UpdateStrategy;
}.
Definition zero_FleetSpec : gen_FleetSpec := {|
  xfs_PriorityClassName := None; xfs_Profile := None; xfs_Replicas := None; xfs_Template := None;
  xfs_TopologySpreadConstraints := None; xfs_UpdateStrategy := None |}.
Definition dec_FleetSpec : dec gen_FleetSpec := lenient [
  fld "priorityClassName" d_pstring xfs_PriorityClassName;
  fld "profile" d_pstring xfs_Profile;
  fld "replicas" d_pint xfs_Replicas;
  fld "template" (d_ptr zero_Template dec_Template) xfs_Template;
  fld "topologySpreadConstraints" d_pobjects xfs_TopologySpreadConstraints;
  fld "updateStrategy" (d_ptr zero_UpdateStrategy dec_UpdateStrategy) xfs_UpdateStrategy].
Definition enc_FleetSpec (s : gen_FleetSpec) : json := JObj (
  m_pstring "priorityClassName" (xfs_PriorityClassName s)
  ++ m_pstring "profile" (xfs_Profile s)
  ++ m_pint "replicas" (xfs_Replicas s)
  ++ m_ptr "template" enc_Template (xfs_Template s)
  ++ m_objects "topologySpreadConstraints" (xfs_TopologySpreadConstraints s)
  ++ m_ptr "updateStrategy" enc_UpdateStrategy (xfs_UpdateStrategy s)).

Record gen_FleetStatus := {
  xft_AvailableReplicas : option Z;
  xft_Conditions : option (list (gomap json));
  xft_ReadyReplicas : option Z;
  xft_Replicas : option Z;
  xft_UpdatedReplicas : option Z;
}.
Definition zero_FleetStatus : gen_FleetStatus := {|
  xft_AvailableReplicas := None; xft_Conditions := None; xft_ReadyReplicas := None;
  xft_Replicas := None; xft_UpdatedReplicas := None |}.
Definition dec_FleetStatus : dec gen_FleetStatus := lenient [
  fld "availableReplicas" d_pint xft_AvailableReplicas;
  fld "conditions" d_pobjects xft_Conditions;
  fld "readyReplicas" d_pint xft_ReadyReplicas;
  fld "replicas" d_pint xft_Replicas;
  fld "updatedReplicas" d_pint xft_UpdatedReplicas].
Definition enc_FleetStatus (s : gen_FleetStatus) : json := JObj (
  m_pint "availableReplicas" (xft_AvailableReplicas s)
  ++ m_objects "conditions" (xft_Conditions s)
  ++ m_pint "readyReplicas" (xft_ReadyReplicas s)
  ++ m_pint "replicas" (xft_Replicas s)
  ++ m_pint "updatedReplicas" (xft_UpdatedReplicas s)).

Record gen_GameServerFleet := {
  xf_ApiVersion : option string;
  xf_Kind : option string;
  xf_Metadata : option gen_ObjectMeta;
  xf_Spec : option gen_FleetSpec;
  xf_Status : option gen_FleetStatus;
}.
Definition zero_GameServerFleet : gen_GameServerFleet := {|
  xf_ApiVersion := None; xf_Kind := None; xf_Metadata := None; xf_Spec := None; xf_Status := None |}.
Definition dec_GameServerFleet `{!RFC3339} : dec gen_GameServerFleet := lenient [
  fld "apiVersion" d_pstring xf_ApiVersion;
  fld "kind" d_pstring xf_Kind;
  fld "metadata" (d_ptr zero_ObjectMeta dec_ObjectMeta) xf_Metadata;
  fld "spec" (d_ptr zero_FleetSpec dec_FleetSpec) xf_Spec;
  fld "status" (d_ptr zero_FleetStatus dec_FleetStatus) xf_Status].
Definition enc_GameServerFleet `{!RFC3339Nano} (f : gen_GameServerFleet) : json := JObj (
  m_pstring "apiVersion" (xf_ApiVersion f)
  ++ m_pstring "kind" (xf_Kind f)
  ++ m_ptr "metadata" enc_ObjectMeta (xf_Metadata f)
  ++ m_ptr "spec" enc_FleetSpec (xf_Spec f)
  ++ m_ptr "status" enc_FleetStatus (xf_Status f)).

(** ** Actions and executions *)

Record gen_ActionParam := {
  xp_Default : option string; xp_Required : option bool; xp_Type : option string }.
Definition zero_ActionParam : gen_ActionParam :=
  {| xp_Default := None; xp_Required := None; xp_Type := None |}.
Definition dec_ActionParam : dec gen_ActionParam := lenient [
  fld "default" d_pstring xp_Default; fld "required" d_pbool xp_Required;
  fld "type" d_pstring xp_Type].

Record gen_Action := {
  xa_Concurrency : option string;
  xa_Description : option string;
  xa_Name : option string;
  xa_Params : option (gomap gen_ActionParam);
  xa_Timeout : option string;
}.
Definition zero_Action : gen_Action := {|
  xa_Concurrency := None; xa_Description := None; xa_Name := None; xa_Params := None;
  xa_Timeout := None |}.
Definition dec_Action : dec gen_Action := lenient [
  fld "concurrency" d_pstring xa_Concurrency;
  fld "description" d_pstring xa_Description;
  fld "name" d_pstring xa_Name;
  fld "params" (d_ptr None (d_map zero_ActionParam dec_ActionParam)) xa_Params;
  fld "timeout" d_pstring xa_Timeout].

Record gen_TargetRef := {
  xtr_ApiVersion : option string; xtr_Kind : option string;
  xtr_Name : option string; xtr_Namespace : option string }.
Definition zero_TargetRef : gen_TargetRef :=
  {| xtr_ApiVersion := None; xtr_Kind := None; xtr_Name := None; xtr_Namespace := None |}.
Definition dec_TargetRef : dec gen_TargetRef := lenient [
  fld "apiVersion" d_pstring xtr_ApiVersion; fld "kind" d_pstring xtr_Kind;
  fld "name" d_pstring xtr_Name; fld "namespace" d_pstring xtr_Namespace].

Record gen_ExecSpec := {
  xes_ActionName : option string;
  xes_Caller : option string;
  xes_Params : option (gomap string);
  xes_TargetRef : option gen_TargetRef;
}.
Definition zero_ExecSpec : gen_ExecSpec :=
  {| xes_ActionName := None; xes_Caller := None; xes_Params := None; xes_TargetRef := None |}.
Definition dec_ExecSpec : dec gen_ExecSpec := lenient [
  fld "actionName" d_pstring xes_ActionName;
  fld "caller" d_pstring xes_Caller;
  fld "params" d_pmap xes_Params;
  fld "targetRef" (d_ptr zero_TargetRef dec_TargetRef) xes_TargetRef].

Record gen_ExecStatus := {
  xet_CompletedAt : option Z;
  xet_Error : option string;
  xet_Result : option string;
  xet_StartedAt : option Z;
  xet_State : option string;
}.
Definition zero_ExecStatus : gen_ExecStatus := {|
  xet_CompletedAt := None; xet_Error := None; xet_Result := None; xet_StartedAt := None;
  xet_State := None |}.
Definition dec_ExecStatus `{!RFC3339} : dec gen_ExecStatus := lenient [
  fld "completedAt" d_ptime xet_CompletedAt;
  fld "error" d_pstring xet_Error;
  fld "result" d_pstring xet_Result;
  fld "startedAt" d_ptime xet_StartedAt;
  fld "state" d_pstring xet_State].

Record gen_ActionExecution := {
  xx_ApiVersion : option string;
  xx_Kind : option string;
  xx_Metadata : option gen_ObjectMeta;
  xx_Spec : option gen_ExecSpec;
  xx_Status : option gen_ExecStatus;
}.
Definition zero_ActionExecution : gen_ActionExecution := {|
  xx_ApiVersion := None; xx_Kind := None; xx_Metadata := None; xx_Spec := None; xx_Status := None |}.
Definition dec_ActionExecution `{!RFC3339} : dec gen_ActionExecution := lenient [
  fld "apiVersion" d_pstring xx_ApiVersion;
  fld "kind" d_pstring xx_Kind;
  fld "metadata" (d_ptr zero_ObjectMeta dec_ObjectMeta) xx_Metadata;
  fld "spec" (d_ptr zero_ExecSpec dec_ExecSpec) xx_Spec;
  fld "status" (d_ptr zero_ExecStatus dec_ExecStatus) xx_Status].

Record gen_ActionExecutionRef := { xer_Name : string }.
Definition zero_ActionExecutionRef : gen_ActionExecutionRef := {| xer_Name := "" |}.
Definition dec_ActionExecutionRef : dec gen_ActionExecutionRef := lenient [fld "name" d_string xer_Name].

(** ** Snapshots *)

Record gen_Retention := { xre_Count : option Z; xre_Duration : option string }.
Definition zero_Retention : gen_Retention := {| xre_Count := None; xre_Duration := None |}.
Definition dec_Retention : dec gen_Retention := lenient [
  fld "count" d_pint xre_Count; fld "duration" d_pstring xre_Duration].

Record gen_SnapSpec := {
  xns_GameServerRef : option string;
  xns_Retention : option gen_Retention;
  xns_Schedule : option string;
}.
Definition zero_SnapSpec : gen_SnapSpec :=
  {| xns_GameServerRef := None; xns_Retention := None; xns_Schedule := None |}.
Definition dec_SnapSpec : dec gen_SnapSpec := lenient [
  fld "gameServerRef" d_pstring xns_GameServerRef;
  fld "retention" (d_ptr zero_Retention dec_Retention) xns_Retention;
  fld "schedule" d_pstring xns_Schedule].

Record gen_SnapStatus := {
  xnt_ReadyAt : option Z; xnt_Size : option string; xnt_State : option string }.
Definition zero_SnapStatus : gen_SnapStatus :=
  {| xnt_ReadyAt := None; xnt_Size := None; xnt_State := None |}.
Definition dec_SnapStatus `{!RFC3339} : dec gen_SnapStatus := lenient [
  fld "readyAt" d_ptime xnt_ReadyAt; fld "size" d_pstring xnt_Size; fld "state" d_pstring xnt_State].

Record gen_GameSnapshot := {
  xn_ApiVersion : option string;
  xn_Kind : option string;
  xn_Metadata : option gen_ObjectMeta;
  xn_Spec : option gen_SnapSpec;
  xn_Status : option gen_SnapStatus;
}.
Definition zero_GameSnapshot : gen_GameSnapshot := {|
  xn_ApiVersion := None; xn_Kind := None; xn_Metadata := None; xn_Spec := None; xn_Status := None |}.
Definition dec_GameSnapshot `{!RFC3339} : dec gen_GameSnapshot := lenient [
  fld "apiVersion" d_pstring xn_ApiVersion;
  fld "kind" d_pstring xn_Kind;
  fld "metadata" (d_ptr zero_ObjectMeta dec_ObjectMeta) xn_Metadata;
  fld "spec" (d_ptr zero_SnapSpec dec_SnapSpec) xn_Spec;
  fld "status" (d_ptr zero_SnapStatus dec_SnapStatus) xn_Status].

(** ** Profiles *)

Record gen_Port := {
  xpo_ContainerPort : option Z; xpo_Exposed : option bool;
  xpo_Name : option string; xpo_Protocol : option string }.
Definition zero_Port : gen_Port :=
  {| xpo_ContainerPort := None; xpo_Exposed := None; xpo_Name := None; xpo_Protocol := None |}.
Definition dec_Port : dec gen_Port := lenient [
  fld "containerPort" d_pint xpo_ContainerPort; fld "exposed" d_pbool xpo_Exposed;
  fld "name" d_pstring xpo_Name; fld "protocol" d_pstring xpo_Protocol].

Record gen_EnvVar := {
  xv_Default : option string; xv_Description : option string;
  xv_Key : option string; xv_Required : option bool }.
Definition zero_EnvVar : gen_EnvVar :=
  {| xv_Default := None; xv_Description := None; xv_Key := None; xv_Required := None |}.
Definition dec_EnvVar : dec gen_EnvVar := lenient [
  fld "default" d_pstring xv_Default; fld "description" d_pstring xv_Description;
  fld "key" d_pstring xv_Key; fld "required" d_pbool xv_Required].

Record gen_CpuMemory := { xcm_Cpu : option string; xcm_Memory : option string }.
Definition zero_CpuMemory : gen_CpuMemory := {| xcm_Cpu := None; xcm_Memory := None |}.
Definition dec_CpuMemory : dec gen_CpuMemory := lenient [
  fld "cpu" d_pstring xcm_Cpu; fld "memory" d_pstring xcm_Memory].

Record gen_ResourceRequirements := {
  xrr_Limits : option gen_CpuMemory; xrr_Requests : option gen_CpuMemory }.
Definition zero_ResourceRequirements : gen_ResourceRequirements :=
  {| xrr_Limits := None; xrr_Requests := None |}.
Definition dec_ResourceRequirements : dec gen_ResourceRequirements := lenient [
  fld "limits" (d_ptr zero_CpuMemory dec_CpuMemory) xrr_Limits;
  fld "requests" (d_ptr zero_CpuMemory dec_CpuMemory) xrr_Requests].

Record gen_Resources := {
  xrs_Default : option string;
  xrs_Limits : option gen_CpuMemory;
  xrs_Requests : option gen_CpuMemory;
  xrs_Tiers : option (gomap gen_ResourceRequirements);
}.
Definition zero_Resources : gen_Resources :=
  {| xrs_Default := None; xrs_Limits := None; xrs_Requests := None; xrs_Tiers := None |}.
Definition dec_Resources : dec gen_Resources := lenient [
  fld "default" d_pstring xrs_Default;
  fld "limits" (d_ptr zero_CpuMemory dec_CpuMemory) xrs_Limits;
  fld "requests" (d_ptr zero_CpuMemory dec_CpuMemory) xrs_Requests;
  fld "tiers" (d_ptr None (d_map zero_ResourceRequirements dec_ResourceRequirements)) xrs_Tiers].

Record gen_AgentSpec := { xag_Image : option string; xag_Version : option string }.
Definition zero_AgentSpec : gen_AgentSpec := {| xag_Image := None; xag_Version := None |}.
Definition dec_AgentSpec : dec gen_AgentSpec := lenient [
  fld "image" d_pstring xag_Image; fld "version" d_pstring xag_Version].

Record gen_Capabilities := {
  xca_Backup : option bool; xca_Files : option bool;
  xca_RestoreFromSnapshot : option bool; xca_Sftp : option bool }.
Definition zero_Capabilities : gen_Capabilities :=
  {| xca_Backup := None; xca_Files := None; xca_RestoreFromSnapshot := None; xca_Sftp := None |}.
Definition dec_Capabilities : dec gen_Capabilities := lenient [
  fld "backup" d_pbool xca_Backup; fld "files" d_pbool xca_Files;
  fld "restoreFromSnapshot" d_pbool xca_RestoreFromSnapshot; fld "sftp" d_pbool xca_Sftp].

Record gen_AgentMetrics := { xam_Path : option string; xam_Port : option Z }.
Definition zero_AgentMetrics : gen_AgentMetrics := {| xam_Path := None; xam_Port := None |}.
Definition dec_AgentMetrics : dec gen_AgentMetrics := lenient [
  fld "path" d_pstring xam_Path; fld "port" d_pint xam_Port].
Record gen_ServiceMonitor := { xsm_Enabled : option bool; xsm_Interval : option string }.
Definition zero_ServiceMonitor : gen_ServiceMonitor := {| xsm_Enabled := None; xsm_Interval := None |}.
Definition dec_ServiceMonitor : dec gen_ServiceMonitor := lenient [
  fld "enabled" d_pbool xsm_Enabled; fld "interval" d_pstring xsm_Interval].
Record gen_Observability := {
  xob_AgentMetrics : option gen_AgentMetrics; xob_ServiceMonitor : option gen_ServiceMonitor }.
Definition zero_Observability : gen_Observability :=
  {| xob_AgentMetrics := None; xob_ServiceMonitor := None |}.
Definition dec_Observability : dec gen_Observability := lenient [
  fld "agentMetrics" (d_ptr zero_AgentMetrics dec_AgentMetrics) xob_AgentMetrics;
  fld "serviceMonitor" (d_ptr zero_ServiceMonitor dec_ServiceMonitor) xob_ServiceMonitor].

Record gen_ProfileStorage := { xps_MountPath : string; xps_SizeDefault : option string }.
Definition zero_ProfileStorage : gen_ProfileStorage := {| xps_MountPath := ""; xps_SizeDefault := None |}.
Definition dec_ProfileStorage : dec gen_ProfileStorage := lenient [
  fld "mountPath" d_string xps_MountPath; fld "sizeDefault" d_pstring xps_SizeDefault].

Record gen_GameProfileSpec := {
  xq_Actions : option (list gen_Action);
  xq_Agent : option gen_AgentSpec;
  xq_Capabilities : option gen_Capabilities;
  xq_Category : option string;
  xq_Description : option string;
  xq_DisplayName : option string;
  xq_Environment : option (list gen_EnvVar);
  xq_Icon : option string;
  xq_Image : option string;
  xq_Observability : option gen_Observability;
  xq_Ports : option (list gen_Port);
  xq_Resources : option gen_Resources;
  xq_Storage : option gen_ProfileStorage;
}.
Definition zero_GameProfileSpec : gen_GameProfileSpec := {|
  xq_Actions := None; xq_Agent := None; xq_Capabilities := None; xq_Category := None;
  xq_Description := None; xq_DisplayName := None; xq_Environment := None; xq_Icon := None;
  xq_Image := None; xq_Observability := None; xq_Ports := None; xq_Resources := None;
  xq_Storage := None |}.
Definition dec_GameProfileSpec : dec gen_GameProfileSpec := lenient [
  fld "actions" (d_ptr [] (d_slice zero_Action dec_Action)) xq_Actions;
  fld "agent" (d_ptr zero_AgentSpec dec_AgentSpec) xq_Agent;
  fld "capabilities" (d_ptr zero_Capabilities dec_Capabilities) xq_Capabilities;
  fld "category" d_pstring xq_Category;
  fld "description" d_pstring xq_Description;
  fld "displayName" d_pstring xq_DisplayName;
  fld "environment" (d_ptr [] (d_slice zero_EnvVar dec_EnvVar)) xq_Environment;
  fld "icon" d_pstring xq_Icon;
  fld "image" d_pstring xq_Image;
  fld "observability" (d_ptr zero_Observability dec_Observability) xq_Observability;
  fld "ports" (d_ptr [] (d_slice zero_Port dec_Port)) xq_Ports;
  fld "resources" (d_ptr zero_Resources dec_Resources) xq_Resources;
  fld "storage" (d_ptr zero_ProfileStorage dec_ProfileStorage) xq_Storage].

Record gen_GameProfile := {
  xgp_ApiVersion : option string;
  xgp_Kind : option string;
  xgp_Metadata : option gen_ObjectMeta;
  xgp_Spec : option gen_GameProfileSpec;
}.
Definition zero_GameProfile : gen_GameProfile :=
  {| xgp_ApiVersion := None; xgp_Kind := None; xgp_Metadata := None; xgp_Spec := None |}.
Definition dec_GameProfile `{!RFC3339} : dec gen_GameProfile := lenient [
  fld "apiVersion" d_pstring xgp_ApiVersion;
  fld "kind" d_pstring xgp_Kind;
  fld "metadata" (d_ptr zero_ObjectMeta dec_ObjectMeta) xgp_Metadata;
  fld "spec" (d_ptr zero_GameProfileSpec dec_GameProfileSpec) xgp_Spec].

(** ** SFTP *)

Record gen_SFTPInfo := { xsf_Host : string; xsf_Password : string; xsf_Port : Z; xsf_Username : string }.
Definition zero_SFTPInfo : gen_SFTPInfo :=
  {| xsf_Host := ""; xsf_Password := ""; xsf_Port := 0; xsf_Username := "" |}.
Definition dec_SFTPInfo : dec gen_SFTPInfo := lenient [
  fld "host" d_string xsf_Host; fld "password" d_string xsf_Password;
  fld "port" d_int xsf_Port; fld "username" d_string xsf_Username].

(** ** API keys and the authentication the server offers *)

(** [*[]string] *)
Definition d_pstrings : dec (option (list string)) := d_ptr [] (d_slice "" d_string).
Definition m_pstrings (k : string) (v : option (list string)) : members :=
  m_ptr k (λ l, JArr (JStr <$> l)) v.

Record gen_APIKey := {
  xk_CreatedAt : option Z;
  xk_CreatedBy : option string;
  xk_ExpiresAt : option Z;
  xk_Name : option string;
  xk_Namespaces : option (list string);
  xk_Role : option string;
}.
Definition zero_APIKey : gen_APIKey := {|
  xk_CreatedAt := None; xk_CreatedBy := None; xk_ExpiresAt := None; xk_Name := None;
  xk_Namespaces := None; xk_Role := None |}.
Definition dec_APIKey `{!RFC3339} : dec gen_APIKey := lenient [
  fld "createdAt" d_ptime xk_CreatedAt; fld "createdBy" d_pstring xk_CreatedBy;
  fld "expiresAt" d_ptime xk_ExpiresAt; fld "name" d_pstring xk_Name;
  fld "namespaces" d_pstrings xk_Namespaces; fld "role" d_pstring xk_Role].

Record gen_APIKeyCreated := {
  xkc_CreatedAt : option Z;
  xkc_ExpiresAt : option Z;
  xkc_Key : string;
  xkc_Name : string;
  xkc_Namespaces : option (list string);
  xkc_Role : string;
  xkc_Warning : option string;
}.
Definition zero_APIKeyCreated : gen_APIKeyCreated := {|
  xkc_CreatedAt := None; xkc_ExpiresAt := None; xkc_Key := ""; xkc_Name := "";
  xkc_Namespaces := None; xkc_Role := ""; xkc_Warning := None |}.
Definition dec_APIKeyCreated `{!RFC3339} : dec gen_APIKeyCreated := lenient [
  fld "createdAt" d_ptime xkc_CreatedAt; fld "expiresAt" d_ptime xkc_ExpiresAt;
  fld "key" d_string xkc_Key; fld "name" d_string xkc_Name;
  fld "namespaces" d_pstrings xkc_Namespaces; fld "role" d_string xkc_Role;
  fld "warning" d_pstring xkc_Warning].

Record gen_CreateAPIKeyRequest := {
  xkr_ExpiresAt : option Z;
  xkr_Name : string;
  xkr_Namespaces : option (list string);
  xkr_Role : option string;
}.
Definition enc_CreateAPIKeyRequest `{!RFC3339Nano} (r : gen_CreateAPIKeyRequest) : json := JObj (
  m_ptr "expiresAt" (λ t, JStr (FormatNano t)) (xkr_ExpiresAt r)
  ++ [("name", JStr (xkr_Name r))]
  ++ m_pstrings "namespaces" (xkr_Namespaces r)
  ++ m_pstring "role" (xkr_Role r)).

Record gen_AuthConfig := {
  xac_AuthModes : list string;
  xac_BasicEnabled : bool;
  xac_OidcIssuer : option string;
}.
Definition zero_AuthConfig : gen_AuthConfig :=
  {| xac_AuthModes := []; xac_BasicEnabled := false; xac_OidcIssuer := None |}.
Definition dec_AuthConfig : dec gen_AuthConfig := lenient [
  fld "authModes" (d_slice "" d_string) xac_AuthModes; fld "basicEnabled" d_bool xac_BasicEnabled;
  fld "oidcIssuer" d_pstring xac_OidcIssuer].

(** ** Errors *)

(** [Error], and its aliases [BadRequest], [Forbidden], [NotFound] and
    [Unauthorized]. *)
Record gen_Error := { xerr_Error : string }.
Definition zero_Error : gen_Error := {| xerr_Error := "" |}.
Definition dec_Error : dec gen_Error := lenient [fld "error" d_string xerr_Error].
