(* ===== verification/GenClient.v ===== *)
(** * GenClient: the generated HTTP client ([sdk/controlplane/gen/client.go])

    A request is built from a method, a path template and a body, given the
    client's headers, and sent; the answer is decoded by its status. The operations are all
    those of the API. Escaping a path parameter and resolving the path against the
    server's URL are the class [Url]. *)

From Stdlib Require Import Ascii String.
From stdpp Require Import gmap.
From S2P Require Import Prelude GoStrings Prog Kube Auth Json GenTypes.
#[local] Open Scope Z_scope.

(** ** HTTP *)

Record HttpReq := {
  hq_Method : string;
  hq_URL : string;
  hq_Header : gmap string string;
  hq_Body : string;
}.
Record HttpResp := {
  hs_Status : Z;
  hs_ContentType : string;
  (* reading the body may fail *)
  hs_Body : string + gerr;
}.

(** [http.Client.Do]. *)
Inductive httpop : Type → Type :=
| HttpDo (q : HttpReq) : httpop (HttpResp + gerr).
Abbreviation Http := (prog httpop).

(** A name of Kubernetes: letters, digits, dots and dashes, the first a letter or a digit. *)
Definition lower_alnum (c : ascii) : bool :=
  let n := byte_of c in ((97 <=? n)%nat && (n <=? 122)%nat) || ((48 <=? n)%nat && (n <=? 57)%nat).
Definition k8s_char (c : ascii) : bool := lower_alnum c || Ascii.eqb c "-" || Ascii.eqb c ".".
Definition k8s_name (s : string) : bool :=
  match s with String c _ => lower_alnum c && str_forall k8s_char s | "" => false end.

(** [runtime.StyleParamWithLocation("simple", ...)], and parsing the server's URL,
    resolving a relative path against it and [http.NewRequest] on the result. A
    name needs no escape, and a path below an origin goes to that path. *)
Class Url := {
  style_param : string → string → string + gerr;
  resolve_url : string → string → string + gerr;
  valid_origin : string → bool;
  style_param_name : ∀ n v, k8s_name v = true → style_param n v = inl v;
  resolve_origin : ∀ origin path segs,
    valid_origin origin = true → Forall (λ s, k8s_name s = true) segs →
    path = foldr (λ s acc, "/" +:+ s +:+ acc) "" segs →
    resolve_url (origin +:+ "/") ("." +:+ path) = inl (origin +:+ path);
}.

(** ** Requests *)

Inductive template := Lit (s : string) | Param (name value : string).

Section Client.
Context `{Htext : !JsonText, Htime : !RFC3339, Hnano : !RFC3339Nano, Hurl : !Url}.

Fixpoint operation_path (segs : list template) : string + gerr :=
  match segs with
  | [] => inl ""
  | Lit s :: segs =>
      match operation_path segs with inl p => inl ("/" +:+ s +:+ p) | inr e => inr e end
  | Param n v :: segs =>
      match style_param n v with
      | inr e => inr e
      | inl v => match operation_path segs with inl p => inl ("/" +:+ v +:+ p) | inr e => inr e end
      end
  end.

Definition new_request (method server : string) (segs : list template) (body : option json)
  : HttpReq + gerr :=
  match operation_path segs with
  | inr e => inr e
  | inl path =>
      match resolve_url server ("." +:+ path) with
      | inr e => inr e
      | inl url => inl {|
          hq_Method := method; hq_URL := url;
          hq_Header := match body with Some _ => {["Content-Type" := "application/json"]} | None => ∅ end;
          hq_Body := match body with Some j => print j | None => "" end |}
      end
  end.

(** The request with any body: [req.Header.Add("Content-Type", contentType)]. *)
Definition new_request_with_body (method server : string) (segs : list template)
    (contentType body : string) : HttpReq + gerr :=
  match operation_path segs with
  | inr e => inr e
  | inl path =>
      match resolve_url server ("." +:+ path) with
      | inr e => inr e
      | inl url => inl {| hq_Method := method; hq_URL := url;
                          hq_Header := {["Content-Type" := contentType]}; hq_Body := body |}
      end
  end.

(** The JSON of [bytes.NewReader(buf)], announced as such. *)
Lemma new_request_json m server segs j :
  new_request m server segs (Some j) = new_request_with_body m server segs "application/json" (print j).
Proof.
  unfold new_request, new_request_with_body. destruct (operation_path segs); [|done].
  by destruct (resolve_url _ _).
Qed.

(** A [nil] map is written as null. *)
Definition enc_params (m : gomap string) : json :=
  match m with Some m => e_map JStr m | None => JNull end.

Record Client := {
  c_Server : string;
  c_RequestEditors : list (HttpReq → HttpReq);
}.
(** [NewClient]: the server's URL always ends in a slash. *)
Definition gen_NewClient (server : string) (editors : list (HttpReq → HttpReq)) : Client := {|
  c_Server := if HasSuffix server "/" then server else server +:+ "/";
  c_RequestEditors := editors |}.

Definition applyEditors (c : Client) (q : HttpReq) : HttpReq :=
  foldl (λ q edit, edit q) q (c_RequestEditors c).

Definition do_request (c : Client) (q : HttpReq + gerr) : Http (HttpResp + gerr) :=
  match q with
  | inr e => Ret (inr e)
  | inl q => call (HttpDo (applyEditors c q))
  end.

(** ** Answers *)

(** The body, the status, and the JSON of the expected success or of an error,
    when the answer says it is JSON. *)
Record Parsed (A : Type) := {
  pr_StatusCode : Z;
  pr_Body : string;
  pr_JSON : option A;
  pr_Error : option gen_Error;
}.
Arguments pr_StatusCode {_} _.
Arguments pr_Body {_} _.
Arguments pr_JSON {_} _.
Arguments pr_Error {_} _.

Definition decode_as {A} (zero : A) (d : dec A) (body : string) : A + gerr := unmarshal zero d body.

Definition parse_response {A} (success : option (Z * (string → A + gerr))) (errors : list Z)
  (rsp : HttpResp) : Parsed A + gerr :=
  match hs_Body rsp with
  | inr e => inr e
  | inl body =>
      let parsed j err := {| pr_StatusCode := hs_Status rsp; pr_Body := body;
                             pr_JSON := j; pr_Error := err |} in
      let is_json := Contains (hs_ContentType rsp) "json" in
      let is_success := match success with Some (code, _) => hs_Status rsp =? code | None => false end in
      if is_json && is_success then
        match success with
        | Some (_, decode) =>
            match decode body with inr e => inr e | inl a => inl (parsed (Some a) None) end
        | None => inl (parsed None None)
        end
      else if is_json && existsb (Z.eqb (hs_Status rsp)) errors then
        match unmarshal zero_Error dec_Error body with
        | inr e => inr e
        | inl e => inl (parsed None (Some e))
        end
      else inl (parsed None None)
  end.

Definition with_response {A} (send : Http (HttpResp + gerr)) (parse : HttpResp → Parsed A + gerr)
  : Http (Parsed A + gerr) :=
  let* rsp := send in
  Ret (match rsp with inr e => inr e | inl rsp => parse rsp end).

(** *** Requests: method, template and body of each operation *)

Definition NewListGameServerFleetsRequest (server : string) : HttpReq + gerr :=
  new_request "GET" server
    [Lit "api"; Lit "v1"; Lit "gameserverfleets"] None.

Definition NewCreateGameServerFleetRequest (server namespace : string) (body : gen_GameServerFleet) : HttpReq + gerr :=
  new_request "POST" server
    [Lit "api"; Lit "v1"; Lit "gameserverfleets"; Param "namespace" namespace]
    (Some (enc_GameServerFleet body)).

Definition NewDeleteGameServerFleetRequest (server namespace name : string) : HttpReq + gerr :=
  new_request "DELETE" server
    [Lit "api"; Lit "v1"; Lit "gameserverfleets"; Param "namespace" namespace; Param "name" name] None.

Definition NewGetGameServerFleetRequest (server namespace name : string) : HttpReq + gerr :=
  new_request "GET" server
    [Lit "api"; Lit "v1"; Lit "gameserverfleets"; Param "namespace" namespace; Param "name" name] None.

Definition NewUpdateGameServerFleetRequest (server namespace name : string) (body : gen_GameServerFleetPatch) : HttpReq + gerr :=
  new_request "PATCH" server
    [Lit "api"; Lit "v1"; Lit "gameserverfleets"; Param "namespace" namespace; Param "name" name]
    (Some (enc_GameServerFleetPatch body)).

Definition NewListGameServersRequest (server : string) : HttpReq + gerr :=
  new_request "GET" server
    [Lit "api"; Lit "v1"; Lit "gameservers"] None.

Definition NewCreateGameServerRequest (server namespace : string) (body : gen_GameServer) : HttpReq + gerr :=
  new_request "POST" server
    [Lit "api"; Lit "v1"; Lit "gameservers"; Param "namespace" namespace]
    (Some (enc_GameServer body)).

Definition NewDeleteGameServerRequest (server namespace name : string) : HttpReq + gerr :=
  new_request "DELETE" server
    [Lit "api"; Lit "v1"; Lit "gameservers"; Param "namespace" namespace; Param "name" name] None.

Definition NewGetGameServerRequest (server namespace name : string) : HttpReq + gerr :=
  new_request "GET" server
    [Lit "api"; Lit "v1"; Lit "gameservers"; Param "namespace" namespace; Param "name" name] None.

Definition NewUpdateGameServerLifecycleRequest (server namespace name : string) (body : gen_GameServerLifecyclePatch) : HttpReq + gerr :=
  new_request "PATCH" server
    [Lit "api"; Lit "v1"; Lit "gameservers"; Param "namespace" namespace; Param "name" name]
    (Some (enc_GameServerLifecyclePatch body)).

Definition NewListActionsRequest (server namespace name : string) : HttpReq + gerr :=
  new_request "GET" server
    [Lit "api"; Lit "v1"; Lit "gameservers"; Param "namespace" namespace; Param "name" name; Lit "actions"] None.

Definition NewExecuteActionRequest (server namespace name action : string) (body : gomap string) : HttpReq + gerr :=
  new_request "POST" server
    [Lit "api"; Lit "v1"; Lit "gameservers"; Param "namespace" namespace; Param "name" name; Lit "actions"; Param "action" action]
    (Some (enc_params body)).

Definition NewGetActionExecutionRequest (server namespace name executionId : string) : HttpReq + gerr :=
  new_request "GET" server
    [Lit "api"; Lit "v1"; Lit "gameservers"; Param "namespace" namespace; Param "name" name; Lit "executions"; Param "executionId" executionId] None.

Definition NewGetSFTPInfoRequest (server namespace name : string) : HttpReq + gerr :=
  new_request "GET" server
    [Lit "api"; Lit "v1"; Lit "gameservers"; Param "namespace" namespace; Param "name" name; Lit "sftp"] None.

Definition NewListSnapshotsRequest (server namespace name : string) : HttpReq + gerr :=
  new_request "GET" server
    [Lit "api"; Lit "v1"; Lit "gameservers"; Param "namespace" namespace; Param "name" name; Lit "snapshots"] None.

Definition NewCreateSnapshotRequest (server namespace name : string) : HttpReq + gerr :=
  new_request "POST" server
    [Lit "api"; Lit "v1"; Lit "gameservers"; Param "namespace" namespace; Param "name" name; Lit "snapshots"] None.

Definition NewListProfilesRequest (server : string) : HttpReq + gerr :=
  new_request "GET" server
    [Lit "api"; Lit "v1"; Lit "profiles"] None.

Definition NewGetProfileRequest (server name : string) : HttpReq + gerr :=
  new_request "GET" server
    [Lit "api"; Lit "v1"; Lit "profiles"; Param "name" name] None.

Definition NewListAPIKeysRequest (server : string) : HttpReq + gerr :=
  new_request "GET" server
    [Lit "api"; Lit "v1"; Lit "apikeys"] None.

Definition NewCreateAPIKeyRequest (server : string) (body : gen_CreateAPIKeyRequest) : HttpReq + gerr :=
  new_request "POST" server
    [Lit "api"; Lit "v1"; Lit "apikeys"]
    (Some (enc_CreateAPIKeyRequest body)).

Definition NewDeleteAPIKeyRequest (server keyId : string) : HttpReq + gerr :=
  new_request "DELETE" server
    [Lit "api"; Lit "v1"; Lit "apikeys"; Param "keyId" keyId] None.

Definition NewGetConsoleRequest (server namespace name : string) : HttpReq + gerr :=
  new_request "GET" server
    [Lit "api"; Lit "v1"; Lit "gameservers"; Param "namespace" namespace; Param "name" name; Lit "console"] None.

Definition NewGetAuthConfigRequest (server : string) : HttpReq + gerr :=
  new_request "GET" server
    [Lit "auth"; Lit "config"] None.

Definition NewGetHealthzRequest (server : string) : HttpReq + gerr :=
  new_request "GET" server
    [Lit "healthz"] None.

Definition NewGetReadyzRequest (server : string) : HttpReq + gerr :=
  new_request "GET" server
    [Lit "readyz"] None.

(** *** Answers: the success and the errors each operation decodes *)

Definition ParseListGameServerFleetsResponse : HttpResp → Parsed (list gen_GameServerFleet) + gerr :=
  parse_response (Some (200, decode_as [] (d_slice zero_GameServerFleet dec_GameServerFleet))) [401].

Definition ParseCreateGameServerFleetResponse : HttpResp → Parsed gen_GameServerFleet + gerr :=
  parse_response (Some (201, decode_as zero_GameServerFleet dec_GameServerFleet)) [400; 401; 403].

Definition ParseDeleteGameServerFleetResponse : HttpResp → Parsed unit + gerr := parse_response None [401; 403; 404].

Definition ParseGetGameServerFleetResponse : HttpResp → Parsed gen_GameServerFleet + gerr :=
  parse_response (Some (200, decode_as zero_GameServerFleet dec_GameServerFleet)) [404].

Definition ParseUpdateGameServerFleetResponse : HttpResp → Parsed gen_GameServerFleet + gerr :=
  parse_response (Some (200, decode_as zero_GameServerFleet dec_GameServerFleet)) [400; 401; 403; 404].

Definition ParseListGameServersResponse : HttpResp → Parsed (list gen_GameServer) + gerr :=
  parse_response (Some (200, decode_as [] (d_slice zero_GameServer dec_GameServer))) [401].

Definition ParseCreateGameServerResponse : HttpResp → Parsed gen_GameServer + gerr :=
  parse_response (Some (201, decode_as zero_GameServer dec_GameServer)) [400; 401; 403].

Definition ParseDeleteGameServerResponse : HttpResp → Parsed unit + gerr := parse_response None [401; 403; 404].

Definition ParseGetGameServerResponse : HttpResp → Parsed gen_GameServer + gerr :=
  parse_response (Some (200, decode_as zero_GameServer dec_GameServer)) [404].

Definition ParseUpdateGameServerLifecycleResponse : HttpResp → Parsed gen_GameServer + gerr :=
  parse_response (Some (200, decode_as zero_GameServer dec_GameServer)) [400; 401; 403; 404].

Definition ParseListActionsResponse : HttpResp → Parsed (list gen_Action) + gerr :=
  parse_response (Some (200, decode_as [] (d_slice zero_Action dec_Action))) [404].

Definition ParseExecuteActionResponse : HttpResp → Parsed gen_ActionExecutionRef + gerr :=
  parse_response (Some (201, decode_as zero_ActionExecutionRef dec_ActionExecutionRef)) [401; 403].

Definition ParseGetActionExecutionResponse : HttpResp → Parsed gen_ActionExecution + gerr :=
  parse_response (Some (200, decode_as zero_ActionExecution dec_ActionExecution)) [404].

Definition ParseGetSFTPInfoResponse : HttpResp → Parsed gen_SFTPInfo + gerr :=
  parse_response (Some (200, decode_as zero_SFTPInfo dec_SFTPInfo)) [401; 403; 404].

Definition ParseListSnapshotsResponse : HttpResp → Parsed (list gen_GameSnapshot) + gerr :=
  parse_response (Some (200, decode_as [] (d_slice zero_GameSnapshot dec_GameSnapshot))) [].

Definition ParseCreateSnapshotResponse : HttpResp → Parsed gen_GameSnapshot + gerr :=
  parse_response (Some (201, decode_as zero_GameSnapshot dec_GameSnapshot)) [401; 403].

Definition ParseListProfilesResponse : HttpResp → Parsed (list gen_GameProfile) + gerr :=
  parse_response (Some (200, decode_as [] (d_slice zero_GameProfile dec_GameProfile))) [401].

Definition ParseGetProfileResponse : HttpResp → Parsed gen_GameProfile + gerr :=
  parse_response (Some (200, decode_as zero_GameProfile dec_GameProfile)) [404].

Definition ParseListAPIKeysResponse : HttpResp → Parsed (list gen_APIKey) + gerr :=
  parse_response (Some (200, decode_as [] (d_slice zero_APIKey dec_APIKey))) [401; 403].

Definition ParseCreateAPIKeyResponse : HttpResp → Parsed gen_APIKeyCreated + gerr :=
  parse_response (Some (201, decode_as zero_APIKeyCreated dec_APIKeyCreated)) [400; 401; 403].

Definition ParseDeleteAPIKeyResponse : HttpResp → Parsed unit + gerr := parse_response None [401; 403; 404].

Definition ParseGetConsoleResponse : HttpResp → Parsed unit + gerr := parse_response None [400; 401; 403; 404].

Definition ParseGetAuthConfigResponse : HttpResp → Parsed gen_AuthConfig + gerr :=
  parse_response (Some (200, decode_as zero_AuthConfig dec_AuthConfig)) [].

Definition ParseGetHealthzResponse : HttpResp → Parsed unit + gerr := parse_response None [].

Definition ParseGetReadyzResponse : HttpResp → Parsed unit + gerr := parse_response None [].

(** *** Operations: the client's method sends, the one with a response parses *)

Definition client_ListGameServerFleets (c : Client) : Http (HttpResp + gerr) :=
  do_request c (NewListGameServerFleetsRequest (c_Server c)).
Definition ListGameServerFleetsWithResponse (c : Client) : Http (Parsed (list gen_GameServerFleet) + gerr) :=
  with_response (client_ListGameServerFleets c) ParseListGameServerFleetsResponse.

Definition client_CreateGameServerFleet (c : Client) (namespace : string) (body : gen_GameServerFleet) : Http (HttpResp + gerr) :=
  do_request c (NewCreateGameServerFleetRequest (c_Server c) namespace body).
Definition CreateGameServerFleetWithResponse (c : Client) (namespace : string) (body : gen_GameServerFleet) : Http (Parsed gen_GameServerFleet + gerr) :=
  with_response (client_CreateGameServerFleet c namespace body) ParseCreateGameServerFleetResponse.

Definition client_DeleteGameServerFleet (c : Client) (namespace name : string) : Http (HttpResp + gerr) :=
  do_request c (NewDeleteGameServerFleetRequest (c_Server c) namespace name).
Definition DeleteGameServerFleetWithResponse (c : Client) (namespace name : string) : Http (Parsed unit + gerr) :=
  with_response (client_DeleteGameServerFleet c namespace name) ParseDeleteGameServerFleetResponse.

Definition client_GetGameServerFleet (c : Client) (namespace name : string) : Http (HttpResp + gerr) :=
  do_request c (NewGetGameServerFleetRequest (c_Server c) namespace name).
Definition GetGameServerFleetWithResponse (c : Client) (namespace name : string) : Http (Parsed gen_GameServerFleet + gerr) :=
  with_response (client_GetGameServerFleet c namespace name) ParseGetGameServerFleetResponse.

Definition client_UpdateGameServerFleet (c : Client) (namespace name : string) (body : gen_GameServerFleetPatch) : Http (HttpResp + gerr) :=
  do_request c (NewUpdateGameServerFleetRequest (c_Server c) namespace name body).
Definition UpdateGameServerFleetWithResponse (c : Client) (namespace name : string) (body : gen_GameServerFleetPatch) : Http (Parsed gen_GameServerFleet + gerr) :=
  with_response (client_UpdateGameServerFleet c namespace name body) ParseUpdateGameServerFleetResponse.

Definition client_ListGameServers (c : Client) : Http (HttpResp + gerr) :=
  do_request c (NewListGameServersRequest (c_Server c)).
Definition ListGameServersWithResponse (c : Client) : Http (Parsed (list gen_GameServer) + gerr) :=
  with_response (client_ListGameServers c) ParseListGameServersResponse.

Definition client_CreateGameServer (c : Client) (namespace : string) (body : gen_GameServer) : Http (HttpResp + gerr) :=
  do_request c (NewCreateGameServerRequest (c_Server c) namespace body).
Definition CreateGameServerWithResponse (c : Client) (namespace : string) (body : gen_GameServer) : Http (Parsed gen_GameServer + gerr) :=
  with_response (client_CreateGameServer c namespace body) ParseCreateGameServerResponse.

Definition client_DeleteGameServer (c : Client) (namespace name : string) : Http (HttpResp + gerr) :=
  do_request c (NewDeleteGameServerRequest (c_Server c) namespace name).
Definition DeleteGameServerWithResponse (c : Client) (namespace name : string) : Http (Parsed unit + gerr) :=
  with_response (client_DeleteGameServer c namespace name) ParseDeleteGameServerResponse.

Definition client_GetGameServer (c : Client) (namespace name : string) : Http (HttpResp + gerr) :=
  do_request c (NewGetGameServerRequest (c_Server c) namespace name).
Definition GetGameServerWithResponse (c : Client) (namespace name : string) : Http (Parsed gen_GameServer + gerr) :=
  with_response (client_GetGameServer c namespace name) ParseGetGameServerResponse.

Definition client_UpdateGameServerLifecycle (c : Client) (namespace name : string) (body : gen_GameServerLifecyclePatch) : Http (HttpResp + gerr) :=
  do_request c (NewUpdateGameServerLifecycleRequest (c_Server c) namespace name body).
Definition UpdateGameServerLifecycleWithResponse (c : Client) (namespace name : string) (body : gen_GameServerLifecyclePatch) : Http (Parsed gen_GameServer + gerr) :=
  with_response (client_UpdateGameServerLifecycle c namespace name body) ParseUpdateGameServerLifecycleResponse.

Definition client_ListActions (c : Client) (namespace name : string) : Http (HttpResp + gerr) :=
  do_request c (NewListActionsRequest (c_Server c) namespace name).
Definition ListActionsWithResponse (c : Client) (namespace name : string) : Http (Parsed (list gen_Action) + gerr) :=
  with_response (client_ListActions c namespace name) ParseListActionsResponse.

Definition client_ExecuteAction (c : Client) (namespace name action : string) (body : gomap string) : Http (HttpResp + gerr) :=
  do_request c (NewExecuteActionRequest (c_Server c) namespace name action body).
Definition ExecuteActionWithResponse (c : Client) (namespace name action : string) (body : gomap string) : Http (Parsed gen_ActionExecutionRef + gerr) :=
  with_response (client_ExecuteAction c namespace name action body) ParseExecuteActionResponse.

Definition client_GetActionExecution (c : Client) (namespace name executionId : string) : Http (HttpResp + gerr) :=
  do_request c (NewGetActionExecutionRequest (c_Server c) namespace name executionId).
Definition GetActionExecutionWithResponse (c : Client) (namespace name executionId : string) : Http (Parsed gen_ActionExecution + gerr) :=
  with_response (client_GetActionExecution c namespace name executionId) ParseGetActionExecutionResponse.

Definition client_GetSFTPInfo (c : Client) (namespace name : string) : Http (HttpResp + gerr) :=
  do_request c (NewGetSFTPInfoRequest (c_Server c) namespace name).
Definition GetSFTPInfoWithResponse (c : Client) (namespace name : string) : Http (Parsed gen_SFTPInfo + gerr) :=
  with_response (client_GetSFTPInfo c namespace name) ParseGetSFTPInfoResponse.

Definition client_ListSnapshots (c : Client) (namespace name : string) : Http (HttpResp + gerr) :=
  do_request c (NewListSnapshotsRequest (c_Server c) namespace name).
Definition ListSnapshotsWithResponse (c : Client) (namespace name : string) : Http (Parsed (list gen_GameSnapshot) + gerr) :=
  with_response (client_ListSnapshots c namespace name) ParseListSnapshotsResponse.

Definition client_CreateSnapshot (c : Client) (namespace name : string) : Http (HttpResp + gerr) :=
  do_request c (NewCreateSnapshotRequest (c_Server c) namespace name).
Definition CreateSnapshotWithResponse (c : Client) (namespace name : string) : Http (Parsed gen_GameSnapshot + gerr) :=
  with_response (client_CreateSnapshot c namespace name) ParseCreateSnapshotResponse.

Definition client_ListProfiles (c : Client) : Http (HttpResp + gerr) :=
  do_request c (NewListProfilesRequest (c_Server c)).
Definition ListProfilesWithResponse (c : Client) : Http (Parsed (list gen_GameProfile) + gerr) :=
  with_response (client_ListProfiles c) ParseListProfilesResponse.

Definition client_GetProfile (c : Client) (name : string) : Http (HttpResp + gerr) :=
  do_request c (NewGetProfileRequest (c_Server c) name).
Definition GetProfileWithResponse (c : Client) (name : string) : Http (Parsed gen_GameProfile + gerr) :=
  with_response (client_GetProfile c name) ParseGetProfileResponse.

Definition client_ListAPIKeys (c : Client) : Http (HttpResp + gerr) :=
  do_request c (NewListAPIKeysRequest (c_Server c)).
Definition ListAPIKeysWithResponse (c : Client) : Http (Parsed (list gen_APIKey) + gerr) :=
  with_response (client_ListAPIKeys c) ParseListAPIKeysResponse.

Definition client_CreateAPIKey (c : Client) (body : gen_CreateAPIKeyRequest) : Http (HttpResp + gerr) :=
  do_request c (NewCreateAPIKeyRequest (c_Server c) body).
Definition CreateAPIKeyWithResponse (c : Client) (body : gen_CreateAPIKeyRequest) : Http (Parsed gen_APIKeyCreated + gerr) :=
  with_response (client_CreateAPIKey c body) ParseCreateAPIKeyResponse.

Definition client_DeleteAPIKey (c : Client) (keyId : string) : Http (HttpResp + gerr) :=
  do_request c (NewDeleteAPIKeyRequest (c_Server c) keyId).
Definition DeleteAPIKeyWithResponse (c : Client) (keyId : string) : Http (Parsed unit + gerr) :=
  with_response (client_DeleteAPIKey c keyId) ParseDeleteAPIKeyResponse.

Definition client_GetConsole (c : Client) (namespace name : string) : Http (HttpResp + gerr) :=
  do_request c (NewGetConsoleRequest (c_Server c) namespace name).
Definition GetConsoleWithResponse (c : Client) (namespace name : string) : Http (Parsed unit + gerr) :=
  with_response (client_GetConsole c namespace name) ParseGetConsoleResponse.

Definition client_GetAuthConfig (c : Client) : Http (HttpResp + gerr) :=
  do_request c (NewGetAuthConfigRequest (c_Server c)).
Definition GetAuthConfigWithResponse (c : Client) : Http (Parsed gen_AuthConfig + gerr) :=
  with_response (client_GetAuthConfig c) ParseGetAuthConfigResponse.

Definition client_GetHealthz (c : Client) : Http (HttpResp + gerr) :=
  do_request c (NewGetHealthzRequest (c_Server c)).
Definition GetHealthzWithResponse (c : Client) : Http (Parsed unit + gerr) :=
  with_response (client_GetHealthz c) ParseGetHealthzResponse.

Definition client_GetReadyz (c : Client) : Http (HttpResp + gerr) :=
  do_request c (NewGetReadyzRequest (c_Server c)).
Definition GetReadyzWithResponse (c : Client) : Http (Parsed unit + gerr) :=
  with_response (client_GetReadyz c) ParseGetReadyzResponse.

End Client.
Arguments pr_StatusCode {_} _.
Arguments pr_Body {_} _.
Arguments pr_JSON {_} _.
Arguments pr_Error {_} _.
