(* ===== verification/SdkClient.v ===== *)
(** * SdkClient: the Go SDK of the control plane ([sdk/controlplane/client.go])

    The SDK's value types, the conversions from and to the generated models,
    and its methods. A response that is a success but carries no JSON makes the
    methods that dereference it panic. *)

From Stdlib Require Import Ascii String.
From stdpp Require Import gmap.
From S2P Require Import Prelude GoStrings Prog Kube Auth Json GenTypes GenClient.
#[local] Open Scope Z_scope.

(** ** Value types *)

Record sdk_ObjectMeta := {
  so_Name : string; so_Namespace : string; so_Labels : gomap string }.
Definition sdk_zero_ObjectMeta : sdk_ObjectMeta :=
  {| so_Name := ""; so_Namespace := ""; so_Labels := None |}.

Record sdk_SnapshotRef := { sdr_Name : string; sdr_Namespace : string }.

(** The nested structs [Storage] and [Lifecycle] are flattened. *)
Record sdk_GameServerSpec := {
  ss_Profile : string;
  ss_Env : gomap string;
  ss_Storage_Size : string;
  ss_Storage_StorageClass : string;
  ss_Storage_SnapshotRef : option sdk_SnapshotRef;
  ss_Lifecycle_IdleTimeoutSeconds : Z;
  ss_Lifecycle_AutoStart : bool;
  ss_LoadBalancerIP : string;
}.
Definition sdk_zero_GameServerSpec : sdk_GameServerSpec := {|
  ss_Profile := ""; ss_Env := None; ss_Storage_Size := ""; ss_Storage_StorageClass := "";
  ss_Storage_SnapshotRef := None; ss_Lifecycle_IdleTimeoutSeconds := 0;
  ss_Lifecycle_AutoStart := false; ss_LoadBalancerIP := "" |}.

Record sdk_Endpoint := { sde_Name : string; sde_Address : string; sde_Port : Z }.

Record sdk_GameServerStatus := {
  su_State : string;
  su_AgentVersion : string;
  su_Players : Z;
  su_PlayerCapacity : Z;
  su_Endpoints : list sdk_Endpoint;
}.
Definition sdk_zero_GameServerStatus : sdk_GameServerStatus := {|
  su_State := ""; su_AgentVersion := ""; su_Players := 0; su_PlayerCapacity := 0; su_Endpoints := [] |}.

Record sdk_GameServer := {
  sg_APIVersion : string;
  sg_Kind : string;
  sg_Metadata : sdk_ObjectMeta;
  sg_Spec : sdk_GameServerSpec;
  sg_Status : sdk_GameServerStatus;
}.

Record sdk_SFTPInfo := { sf_Host : string; sf_Port : Z; sf_Username : string; sf_Password : string }.

Record sdk_ActionParam := { sap_Type : string; sap_Required : bool; sap_Default : string }.
Record sdk_Action := {
  sa_Name : string;
  sa_Description : string;
  sa_Concurrency : string;
  sa_Timeout : string;
  sa_Params : gomap sdk_ActionParam;
}.

Record sdk_GameProfile := {
  spr_Metadata : sdk_ObjectMeta;
  spr_DisplayName : string;
  spr_Image : string;
  spr_Actions : list sdk_Action;
}.

Record sdk_GameServerFleet := {
  sl_Metadata : sdk_ObjectMeta;
  sl_Profile : string;
  sl_Replicas : Z;
  sl_Status_Replicas : Z;
  sl_Status_ReadyReplicas : Z;
  sl_Status_UpdatedReplicas : Z;
  sl_Status_AvailableReplicas : Z;
}.

Record sdk_ActionExecution := {
  sx_Metadata : sdk_ObjectMeta;
  sx_ActionName : string;
  sx_Caller : string;
  sx_Params : gomap string;
  sx_State : string;
  sx_Result : string;
  sx_Error : string;
  sx_StartedAt : option Z;
  sx_CompletedAt : option Z;
}.

Record sdk_GameSnapshot := {
  sq_Metadata : sdk_ObjectMeta;
  sq_GameServerRef : string;
  sq_Schedule : string;
  sq_State : string;
  sq_ReadyAt : option Z;
  sq_Size : string;
}.

(** An error of the SDK: [*APIError], or another. *)
Inductive sdk_error := APIError (Status : Z) (Message : string) | OtherError (e : gerr).

(** ** Conversions *)

Definition deref (s : option string) : string := default "" s.
Definition ptrOrNil (s : string) : option string := if s =s "" then None else Some s.
Definition mapOrNil (m : gomap string) : option (gomap string) :=
  match m with None => None | Some _ => Some m end.

Definition toGenGameServer (gs : sdk_GameServer) : gen_GameServer :=
  let md := sg_Metadata gs in
  let sp := sg_Spec gs in
  {| xg_ApiVersion := ptrOrNil (sg_APIVersion gs);
     xg_Kind := ptrOrNil (sg_Kind gs);
     xg_Metadata := Some {|
       xm_CreationTimestamp := None;
       xm_Labels := mapOrNil (so_Labels md);
       xm_Name := Some (so_Name md);
       xm_Namespace := ptrOrNil (so_Namespace md) |};
     xg_Spec := Some {|
       xs_Env := mapOrNil (ss_Env sp);
       xs_Lifecycle :=
         if ss_Lifecycle_AutoStart sp || negb (ss_Lifecycle_IdleTimeoutSeconds sp =? 0)
         then Some {| xl_AutoStart := Some (ss_Lifecycle_AutoStart sp);
                      xl_IdleTimeoutSeconds := Some (ss_Lifecycle_IdleTimeoutSeconds sp) |}
         else None;
       xs_LoadBalancerIP := ptrOrNil (ss_LoadBalancerIP sp);
       xs_PriorityClassName := None;
       xs_Profile := Some (ss_Profile sp);
       xs_Storage :=
         if (ss_Storage_Size sp <>s "") || (ss_Storage_StorageClass sp <>s "")
            || bool_decide (is_Some (ss_Storage_SnapshotRef sp))
         then Some {|
           xt_Size := ptrOrNil (ss_Storage_Size sp);
           xt_SnapshotRef :=
             (λ r, {| xr_Name := Some (sdr_Name r); xr_Namespace := ptrOrNil (sdr_Namespace r) |})
             <$> ss_Storage_SnapshotRef sp;
           xt_StorageClass := ptrOrNil (ss_Storage_StorageClass sp) |}
         else None;
       xs_Tier := None |};
     xg_Status := None |}.

Definition fromGenMetadata (m : option gen_ObjectMeta) : sdk_ObjectMeta :=
  match m with
  | None => sdk_zero_ObjectMeta
  | Some m => {| so_Name := deref (xm_Name m); so_Namespace := deref (xm_Namespace m);
                 so_Labels := default None (xm_Labels m) |}
  end.

(** [int32] of an optional [int]. *)
Definition from_int (n : option Z) : Z := match n with Some n => wrap32 n | None => 0 end.

Definition fromGenEndpoint (e : gen_Endpoint) : sdk_Endpoint := {|
  sde_Name := deref (xe_Name e); sde_Address := deref (xe_Address e); sde_Port := from_int (xe_Port e) |}.

Definition fromGenSpec (s : option gen_GameServerSpec) : sdk_GameServerSpec :=
  match s with
  | None => sdk_zero_GameServerSpec
  | Some s => {|
      ss_Profile := deref (xs_Profile s);
      ss_Env := default None (xs_Env s);
      ss_Storage_Size := deref (xs_Storage s ≫= xt_Size);
      ss_Storage_StorageClass := deref (xs_Storage s ≫= xt_StorageClass);
      ss_Storage_SnapshotRef :=
        (λ r, {| sdr_Name := deref (xr_Name r); sdr_Namespace := deref (xr_Namespace r) |})
        <$> (xs_Storage s ≫= xt_SnapshotRef);
      ss_Lifecycle_IdleTimeoutSeconds := from_int (xs_Lifecycle s ≫= xl_IdleTimeoutSeconds);
      ss_Lifecycle_AutoStart := default false (xs_Lifecycle s ≫= xl_AutoStart);
      ss_LoadBalancerIP := deref (xs_LoadBalancerIP s) |}
  end.

Definition fromGenStatus (s : option gen_GameServerStatus) : sdk_GameServerStatus :=
  match s with
  | None => sdk_zero_GameServerStatus
  | Some s => {|
      su_State := deref (xu_State s);
      su_AgentVersion := deref (xu_AgentVersion s);
      su_Players := from_int (xu_Players s);
      su_PlayerCapacity := from_int (xu_PlayerCapacity s);
      su_Endpoints := fromGenEndpoint <$> default [] (xu_Endpoints s) |}
  end.

Definition fromGenGameServer (in_ : option gen_GameServer) : sdk_GameServer :=
  match in_ with
  | None => {| sg_APIVersion := ""; sg_Kind := ""; sg_Metadata := sdk_zero_ObjectMeta;
               sg_Spec := sdk_zero_GameServerSpec; sg_Status := sdk_zero_GameServerStatus |}
  | Some g => {|
      sg_APIVersion := deref (xg_ApiVersion g);
      sg_Kind := deref (xg_Kind g);
      sg_Metadata := fromGenMetadata (xg_Metadata g);
      sg_Spec := fromGenSpec (xg_Spec g);
      sg_Status := fromGenStatus (xg_Status g) |}
  end.

Definition fromGenAction (in_ : gen_Action) : sdk_Action := {|
  sa_Name := deref (xa_Name in_);
  sa_Description := deref (xa_Description in_);
  sa_Concurrency := deref (xa_Concurrency in_);
  sa_Timeout := deref (xa_Timeout in_);
  sa_Params :=
    (λ m, (λ p, {| sap_Type := deref (xp_Type p); sap_Required := default false (xp_Required p);
                   sap_Default := deref (xp_Default p) |}) <$> gm_make m) <$> xa_Params in_ |}.

Definition fromGenProfile (in_ : gen_GameProfile) : sdk_GameProfile := {|
  spr_Metadata := fromGenMetadata (xgp_Metadata in_);
  spr_DisplayName := deref (xgp_Spec in_ ≫= xq_DisplayName);
  spr_Image := deref (xgp_Spec in_ ≫= xq_Image);
  spr_Actions := fromGenAction <$> default [] (xgp_Spec in_ ≫= xq_Actions) |}.

Definition fromGenSnapshot (in_ : gen_GameSnapshot) : sdk_GameSnapshot := {|
  sq_Metadata := fromGenMetadata (xn_Metadata in_);
  sq_GameServerRef := deref (xn_Spec in_ ≫= xns_GameServerRef);
  sq_Schedule := deref (xn_Spec in_ ≫= xns_Schedule);
  sq_State := deref (xn_Status in_ ≫= xnt_State);
  sq_ReadyAt := xn_Status in_ ≫= xnt_ReadyAt;
  sq_Size := deref (xn_Status in_ ≫= xnt_Size) |}.

Definition fromGenFleet (in_ : gen_GameServerFleet) : sdk_GameServerFleet := {|
  sl_Metadata := fromGenMetadata (xf_Metadata in_);
  sl_Profile := deref (xf_Spec in_ ≫= xfs_Profile);
  sl_Replicas := from_int (xf_Spec in_ ≫= xfs_Replicas);
  sl_Status_Replicas := from_int (xf_Status in_ ≫= xft_Replicas);
  sl_Status_ReadyReplicas := from_int (xf_Status in_ ≫= xft_ReadyReplicas);
  sl_Status_UpdatedReplicas := from_int (xf_Status in_ ≫= xft_UpdatedReplicas);
  sl_Status_AvailableReplicas := from_int (xf_Status in_ ≫= xft_AvailableReplicas) |}.

(** The conversion inside [GetActionExecution]. *)
Definition fromGenExecution (in_ : gen_ActionExecution) : sdk_ActionExecution := {|
  sx_Metadata := fromGenMetadata (xx_Metadata in_);
  sx_ActionName := deref (xx_Spec in_ ≫= xes_ActionName);
  sx_Caller := deref (xx_Spec in_ ≫= xes_Caller);
  sx_Params := default None (xx_Spec in_ ≫= xes_Params);
  sx_State := deref (xx_Status in_ ≫= xet_State);
  sx_Result := deref (xx_Status in_ ≫= xet_Result);
  sx_Error := deref (xx_Status in_ ≫= xet_Error);
  sx_StartedAt := xx_Status in_ ≫= xet_StartedAt;
  sx_CompletedAt := xx_Status in_ ≫= xet_CompletedAt |}.

(** ** Methods *)

Section Methods.
Context `{Htext : !JsonText, Htime : !RFC3339, Hnano : !RFC3339Nano, Hurl : !Url}.

(** The message of the error envelope, or the whole body. *)
Definition apiError (status : Z) (body : string) : sdk_error :=
  APIError status
    (match unmarshal zero_Error dec_Error body with
     | inl env => if xerr_Error env <>s "" then xerr_Error env else body
     | inr _ => body
     end).

Definition accept_and_key (apiKey : string) (q : HttpReq) : HttpReq :=
  let h := <["Accept" := "application/json"]> (hq_Header q) in
  {| hq_Method := hq_Method q; hq_URL := hq_URL q; hq_Body := hq_Body q;
     hq_Header := if apiKey <>s "" then <["Authorization" := "Bearer " +:+ apiKey]> h else h |}.

(** [url.ParseRequestURI] on the base URL is [valid]. *)
Definition NewClient (valid : string → option gerr) (baseURL apiKey : string) : Client + gerr :=
  match valid baseURL with
  | Some e => inr (wrapf ("controlplane: invalid base URL " +:+ fmt_q baseURL) e)
  | None => inl (gen_NewClient (TrimSuffix baseURL "/") [accept_and_key apiKey])
  end.

Definition nil_dereference : string := "invalid memory address or nil pointer dereference".

(** What every method does with its answer: an error, an answer with another
    status than [code], or the conversion [out]. *)
Definition answer_with {A B} (code : Z) (out : Parsed A → Http (B + sdk_error))
  (resp : Parsed A + gerr) : Http (B + sdk_error) :=
  match resp with
  | inr e => Ret (inr (OtherError e))
  | inl resp =>
      if negb (pr_StatusCode resp =? code) then Ret (inr (apiError (pr_StatusCode resp) (pr_Body resp)))
      else out resp
  end.
(** [*resp.JSON200] *)
Definition dereferenced {A B} (f : A → B) (resp : Parsed A) : Http (B + sdk_error) :=
  match pr_JSON resp with Some a => Ret (inl (f a)) | None => Panic nil_dereference end.
(** [fromGen(resp.JSON200)], which takes a pointer *)
Definition converted {A B} (f : option A → B) (resp : Parsed A) : Http (B + sdk_error) :=
  Ret (inl (f (pr_JSON resp))).
Definition no_content (resp : Parsed unit) : Http (unit + sdk_error) := Ret (inl tt).

Variable c : Client.

Definition ListGameServers : Http (list sdk_GameServer + sdk_error) :=
  let* resp := ListGameServersWithResponse c in
  answer_with 200 (dereferenced (fmap (λ g, fromGenGameServer (Some g)))) resp.

Definition GetGameServer (namespace name : string) : Http (sdk_GameServer + sdk_error) :=
  let* resp := GetGameServerWithResponse c namespace name in
  answer_with 200 (converted fromGenGameServer) resp.

(** The caller's object, with its version and kind set, is also the result. *)
Definition set_type (gs : sdk_GameServer) : sdk_GameServer := {|
  sg_APIVersion := "operator.minato.io/v1"; sg_Kind := "GameServer";
  sg_Metadata := sg_Metadata gs; sg_Spec := sg_Spec gs; sg_Status := sg_Status gs |}.
Definition CreateGameServer (namespace : string) (gs : sdk_GameServer)
  : Http (sdk_GameServer * (sdk_GameServer + sdk_error)) :=
  let gs := set_type gs in
  let* resp := CreateGameServerWithResponse c namespace (toGenGameServer gs) in
  let* out := answer_with 201 (converted fromGenGameServer) resp in
  Ret (gs, out).

Definition DeleteGameServer (namespace name : string) : Http (unit + sdk_error) :=
  let* resp := DeleteGameServerWithResponse c namespace name in
  answer_with 204 no_content resp.

Definition fromGenSFTPInfo (i : gen_SFTPInfo) : sdk_SFTPInfo := {|
  sf_Host := xsf_Host i; sf_Port := wrap32 (xsf_Port i);
  sf_Username := xsf_Username i; sf_Password := xsf_Password i |}.
Definition GetSFTPInfo (namespace name : string) : Http (sdk_SFTPInfo + sdk_error) :=
  let* resp := GetSFTPInfoWithResponse c namespace name in
  answer_with 200 (dereferenced fromGenSFTPInfo) resp.

Definition lifecycle_patch (autoStart : option bool) (idleTimeout : option Z)
  : gen_GameServerLifecyclePatch :=
  {| xlp_Lifecycle := Some (Some {| xl_AutoStart := autoStart; xl_IdleTimeoutSeconds := idleTimeout |}) |}.
Definition UpdateGameServerLifecycle (namespace name : string) (autoStart : option bool)
  (idleTimeout : option Z) : Http (sdk_GameServer + sdk_error) :=
  let* resp := UpdateGameServerLifecycleWithResponse c namespace name
                 (lifecycle_patch autoStart idleTimeout) in
  answer_with 200 (converted fromGenGameServer) resp.

Definition ListActions (namespace name : string) : Http (list sdk_Action + sdk_error) :=
  let* resp := ListActionsWithResponse c namespace name in
  answer_with 200 (dereferenced (fmap fromGenAction)) resp.

Definition ExecuteAction (namespace name action : string) (params : gomap string)
  : Http (string + sdk_error) :=
  let* resp := ExecuteActionWithResponse c namespace name action params in
  answer_with 201 (dereferenced xer_Name) resp.

(** [in := resp.JSON200], then [in.Metadata]. *)
Definition GetActionExecution (namespace name executionID : string)
  : Http (sdk_ActionExecution + sdk_error) :=
  let* resp := GetActionExecutionWithResponse c namespace name executionID in
  answer_with 200 (dereferenced fromGenExecution) resp.

Definition ListSnapshots (namespace name : string) : Http (list sdk_GameSnapshot + sdk_error) :=
  let* resp := ListSnapshotsWithResponse c namespace name in
  answer_with 200 (dereferenced (fmap fromGenSnapshot)) resp.

Definition CreateSnapshot (namespace name : string) : Http (sdk_GameSnapshot + sdk_error) :=
  let* resp := CreateSnapshotWithResponse c namespace name in
  answer_with 201 (dereferenced fromGenSnapshot) resp.

Definition ListProfiles : Http (list sdk_GameProfile + sdk_error) :=
  let* resp := ListProfilesWithResponse c in
  answer_with 200 (dereferenced (fmap fromGenProfile)) resp.

Definition GetProfile (name : string) : Http (sdk_GameProfile + sdk_error) :=
  let* resp := GetProfileWithResponse c name in
  answer_with 200 (dereferenced fromGenProfile) resp.

Definition ListGameServerFleets : Http (list sdk_GameServerFleet + sdk_error) :=
  let* resp := ListGameServerFleetsWithResponse c in
  answer_with 200 (dereferenced (fmap fromGenFleet)) resp.

Definition GetGameServerFleet (namespace name : string) : Http (sdk_GameServerFleet + sdk_error) :=
  let* resp := GetGameServerFleetWithResponse c namespace name in
  answer_with 200 (dereferenced fromGenFleet) resp.

(** The body is built as a JSON document and read back into the model. *)
Definition fleet_document (fleet : sdk_GameServerFleet) : json := JObj [
  ("apiVersion", JStr "operator.minato.io/v1");
  ("kind", JStr "GameServerFleet");
  ("metadata", JObj [("name", JStr (so_Name (sl_Metadata fleet)))]);
  ("spec", JObj [("profile", JStr (sl_Profile fleet)); ("replicas", JNum (sl_Replicas fleet))])].
Definition CreateGameServerFleet (namespace : string) (fleet : sdk_GameServerFleet)
  : Http (sdk_GameServerFleet + sdk_error) :=
  match unmarshal zero_GameServerFleet dec_GameServerFleet (print (fleet_document fleet)) with
  | inr e => Ret (inr (OtherError e))
  | inl body =>
      let* resp := CreateGameServerFleetWithResponse c namespace body in
      answer_with 201 (dereferenced fromGenFleet) resp
  end.

Definition ScaleGameServerFleet (namespace name : string) (replicas : Z)
  : Http (sdk_GameServerFleet + sdk_error) :=
  let* resp := UpdateGameServerFleetWithResponse c namespace name
                 {| xfp_Replicas := Some (Some replicas) |} in
  answer_with 200 (dereferenced fromGenFleet) resp.

Definition DeleteGameServerFleet (namespace name : string) : Http (unit + sdk_error) :=
  let* resp := DeleteGameServerFleetWithResponse c namespace name in
  answer_with 204 no_content resp.
End Methods.

(** ** Answers without JSON

    A success that is not announced as JSON (an error page of a proxy, say)
    leaves the decoded pointer nil. *)
Lemma success_without_json_panics `{!JsonText} {A B} (decode : string → A + gerr) errs rsp body (f : A → B) :
  hs_Status rsp = 200 → hs_Body rsp = inl body → Contains (hs_ContentType rsp) "json" = false →
  answer_with 200 (dereferenced f) (parse_response (Some (200, decode)) errs rsp) = Panic nil_dereference.
Proof.
  intros Hs Hb Hc. unfold parse_response. rewrite Hb, Hc, Hs. cbn [andb].
  reflexivity.
Qed.
