(* ===== verification/ApiJson.v ===== *)
(** * ApiJson: the JSON of the operator's resources in the control plane's answers
    and bodies (the [json] tags of [api/operator/v1], and [respondJSON],
    [writeError] and the decoders of [cmd/controlplane/main.go])

    The parts Kubernetes defines (metadata, conditions, spread constraints,
    quantities) are the class [KubeJSON]. [reads] relates the members
    a Go value is written as to the value another struct reads from them. *)

From Stdlib Require Import Ascii String.
From coqutil Require Import Datatypes.RecordSetters.
From stdpp Require Import gmap.
From S2P Require Import Prelude GoStrings Prog Api Kube Auth ControlPlane Json GenTypes.
#[local] Open Scope Z_scope.

(** ** Reading what was written *)

Definition members_ok (l : members) : bool := forallb (λ kv, utf8 kv.1 && json_ok kv.2) l.

Lemma members_ok_app l l' : members_ok (l ++ l') = members_ok l && members_ok l'.
Proof. apply forallb_app. Qed.

(** Decoding the members [l] into [t] gives [t']. *)
Definition reads {T} (strict : bool) (fs : list (field T)) (l : members) (t t' : T) : Prop :=
  members_ok l = true → d_members strict fs l t = Some t'.

Lemma reads_struct {T} (strict : bool) (fs : list (field T)) l t t' :
  reads strict fs l t t' → json_ok (JObj l) = true → d_struct strict fs (JObj l) t = Some t'.
Proof. intros H Hok. by apply H. Qed.

(** The field a key is stored in. *)
Abbreviation stored fs k n d get :=
  (find_first (λ f, EqualFold (f_name f) k) fs = Some (fld n d get)) (only parsing).

Section Reads.
Context {T : Type} {strict : bool} {fs : list (field T)}.
Abbreviation reads := (reads strict fs).

Lemma reads_nil t : reads [] t t.
Proof. by intros _. Qed.

Lemma reads_app l l' t t1 t2 : reads l t t1 → reads l' t1 t2 → reads (l ++ l') t t2.
Proof.
  intros H H' Hok. rewrite members_ok_app in Hok. apply andb_true_iff in Hok as [Hl Hl'].
  by rewrite d_members_app, H, H'.
Qed.

Lemma reads_one {A} k j t n (d : dec A) (get : T → A) {set_ : Setter get} a :
  stored fs k n d get → (json_ok j = true → d j (get t) = Some a) →
  reads [(k, j)] t (put get (a) t).
Proof.
  intros Hf Hd Hok. cbn in Hok. rewrite andb_true_r in Hok. apply andb_true_iff in Hok as [_ Hj].
  cbn. unfold d_member. cbn [fst snd]. rewrite Hf. cbn. rewrite Hd by done. done.
Qed.

(** A member that may be left out: its default is what is stored before. *)
Lemma reads_opt {A B} k (enc : B → json) (o : option B) t n (d : dec A) (get : T → A)
  {set_ : Setter get} (f : B → A) (zero : A) :
  stored fs k n d get → put get (zero) t = t →
  (∀ b, o = Some b → json_ok (enc b) = true → d (enc b) (get t) = Some (f b)) →
  reads (m_ptr k enc o) t (put get (match o with Some b => f b | None => zero end) t).
Proof.
  intros Hf Hz Hd. destruct o as [b|]; cbn; [|rewrite Hz; apply reads_nil].
  eapply (reads_one (A:=A)); [exact Hf|auto].
Qed.

(** A key that no field has: skipped. *)
Lemma reads_skip l t :
  strict = false → Forall (λ kv, find_first (λ f, EqualFold (f_name f) kv.1) fs = None) l →
  reads l t t.
Proof.
  intros -> Hl _. induction Hl as [|kv l Hk _ IH]; [done|]. cbn. unfold d_member. by rewrite Hk.
Qed.
End Reads.

(** The members of a key are under that key. *)
Section Keys.
Context {A : Type} (P : string * json → Prop) (k : string).
Hypothesis Hk : ∀ j, P (k, j).
Lemma m_str_key v : Forall P (m_str k v).
Proof. unfold m_str. destruct (v =s ""); auto. Qed.
Lemma m_int_key v : Forall P (m_int k v).
Proof. unfold m_int. destruct (v =? 0); auto. Qed.
Lemma m_bool_key v : Forall P (m_bool k v).
Proof. unfold m_bool. destruct v; auto. Qed.
Lemma m_ptr_key (enc : A → json) v : Forall P (m_ptr k enc v).
Proof. destruct v; cbn; auto. Qed.
Lemma m_list_key (enc : A → json) v : Forall P (m_list k enc v).
Proof. destruct v; cbn; auto. Qed.
Lemma m_map_key (enc : A → json) v : Forall P (m_map k enc v).
Proof. destruct v as [m|]; cbn; [destruct (bool_decide _)|]; auto. Qed.
Lemma one_key j : Forall P [(k, j)].
Proof. auto. Qed.
End Keys.

(** ** The pieces Kubernetes defines *)

(** What the client's models hold for an omitted string, number or map. *)
Definition opt_str (s : string) : option string := if s =s "" then None else Some s.
Definition opt_int (z : Z) : option Z := if z =? 0 then None else Some z.
Definition opt_bool (b : bool) : option bool := if b then Some true else None.
Definition opt_list {A} (l : list A) : option (list A) := match l with [] => None | _ => Some l end.
Definition opt_map {A} (m : gomap A) : option (gomap A) :=
  match m with Some m => if bool_decide (m = ∅) then None else Some (Some m) | None => None end.

Section Shapes.
Context {T : Type} {strict : bool} {fs : list (field T)}.
Abbreviation reads := (reads strict fs).

(** *** Into the client's models *)

Lemma reads_pstring k v t n (get : T → option string) {set_ : Setter get} :
  stored fs k n d_pstring get → put get (None) t = t →
  reads (m_str k v) t (put get (opt_str v) t).
Proof.
  intros Hf Hz. unfold m_str, opt_str. destruct (v =s ""); [rewrite Hz; apply reads_nil|].
  by apply (reads_one (A:=option string) _ _ _ n d_pstring).
Qed.
Lemma reads_pint k v t n (get : T → option Z) {set_ : Setter get} :
  stored fs k n d_pint get → put get (None) t = t →
  reads (m_int k v) t (put get (opt_int v) t).
Proof.
  intros Hf Hz. unfold m_int, opt_int. destruct (v =? 0); [rewrite Hz; apply reads_nil|].
  apply (reads_one (A:=option Z) _ _ _ n d_pint); [done|]. cbn. by intros ->.
Qed.
Lemma reads_pbool k v t n (get : T → option bool) {set_ : Setter get} :
  stored fs k n d_pbool get → put get (None) t = t →
  reads (m_bool k v) t (put get (opt_bool v) t).
Proof.
  intros Hf Hz. unfold m_bool, opt_bool. destruct v; [|rewrite Hz; apply reads_nil].
  by apply (reads_one (A:=option bool) _ _ _ n d_pbool).
Qed.
Lemma reads_pbool_ptr k v t n (get : T → option bool) {set_ : Setter get} :
  stored fs k n d_pbool get → put get (None) t = t →
  reads (m_ptr k JBool v) t (put get (v) t).
Proof.
  intros Hf Hz. destruct v; cbn; [|rewrite Hz; apply reads_nil].
  by apply (reads_one (A:=option bool) _ _ _ n d_pbool).
Qed.
Lemma reads_pmap k v t n (get : T → option (gomap string)) {set_ : Setter get} :
  stored fs k n d_pmap get → get t = None → put get (None) t = t →
  reads (m_map k JStr v) t (put get (opt_map v) t).
Proof.
  intros Hf Hg Hz. destruct v as [m|]; cbn; [|rewrite Hz; apply reads_nil].
  destruct (bool_decide _); [rewrite Hz; apply reads_nil|].
  apply (reads_one (A:=option (gomap string)) _ _ _ n d_pmap); [done|]. intros _.
  rewrite Hg. cbn [d_pmap d_ptr default]. unfold d_pmap, d_ptr.
  rewrite (d_map_e_map "" JStr d_string id) by done. cbn. by rewrite map_fmap_id.
Qed.
(** A struct behind a pointer, always written or omitted when nil. *)
Lemma reads_pstruct {A} k j t n (zero a : A) (d : dec A) (get : T → option A) {set_ : Setter get} :
  stored fs k n (d_ptr zero d) get → get t = None →
  (json_ok j = true → d j zero = Some a) → j ≠ JNull →
  reads [(k, j)] t (put get (Some a) t).
Proof.
  intros Hf Hg Hd Hn. apply (reads_one (A:=option A) _ _ _ n (d_ptr zero d)); [done|].
  intros Hok. rewrite Hg. unfold d_ptr. cbn. rewrite Hd by done. by destruct j.
Qed.
Lemma reads_pptr {A B} k (enc : B → json) o t n (zero : A) (d : dec A) (get : T → option A)
  {set_ : Setter get} (f : B → A) :
  stored fs k n (d_ptr zero d) get → get t = None → put get (None) t = t →
  (∀ b, json_ok (enc b) = true → d (enc b) zero = Some (f b)) → (∀ b, enc b ≠ JNull) →
  reads (m_ptr k enc o) t (put get (f <$> o) t).
Proof.
  intros Hf Hg Hz Hd Hn. destruct o as [b|]; cbn; [|rewrite Hz; apply reads_nil].
  by eapply reads_pstruct; eauto.
Qed.
Lemma reads_plist {A B} k (enc : B → json) l t n (zero : A) (d : dec A)
  (get : T → option (list A)) {set_ : Setter get} (f : B → A) :
  stored fs k n (d_ptr [] (d_slice zero d)) get → get t = None → put get (None) t = t →
  (∀ b, json_ok (enc b) = true → d (enc b) zero = Some (f b)) →
  reads (m_list k enc l) t (put get (opt_list (f <$> l)) t).
Proof.
  intros Hf Hg Hz Hd. destruct l as [|b l]; [cbn; rewrite Hz; apply reads_nil|].
  change (opt_list (f <$> b :: l)) with (Some (f <$> b :: l)). unfold m_list.
  eapply reads_pstruct; [done..| |done]. intros Hok. apply d_slice_enc.
  intros a Ha. apply Hd. cbn [json_ok] in Hok. rewrite forallb_forall in Hok. apply Hok.
  apply in_map_iff. exists a. split; [done|]. by apply list_elem_of_In.
Qed.
End Shapes.

(** What [metav1] and [corev1] write and read. Other members than the name, the
    namespace and the labels may be written for metadata, whose zero value is
    omitted; of what the client writes, exactly those are read.
    [type_kind] and [type_version] are the object's [TypeMeta], where it has one;
    an empty slice in an object read back from the API server may be nil. *)
Class KubeJSON `{!RFC3339, !RFC3339Nano} := {
  enc_meta : ObjectMeta → option json;
  dec_meta : dec ObjectMeta;
  zero_meta : ObjectMeta;
  enc_condition : Condition → json;
  dec_condition : dec Condition;
  zero_condition : Condition;
  enc_constraint : TopologySpreadConstraint → json;
  dec_constraint : dec TopologySpreadConstraint;
  zero_constraint : TopologySpreadConstraint;
  quantity_string : Quantity → string;
  type_kind : kind → ObjectMeta → string;
  type_version : kind → ObjectMeta → string;
  nil_slice : bool;
  enc_meta_read : ∀ m,
    match enc_meta m with
    | None => om_Name m = "" ∧ om_Namespace m = "" ∧ opt_map (om_Labels m) = None
    | Some j => j ≠ JNull ∧ (json_ok j = true → ∃ created, dec_ObjectMeta j zero_ObjectMeta = Some {|
        xm_CreationTimestamp := created; xm_Labels := opt_map (om_Labels m);
        xm_Name := opt_str (om_Name m); xm_Namespace := opt_str (om_Namespace m) |})
    end;
  dec_meta_read : ∀ labels name ns,
    let m := {| xm_CreationTimestamp := None; xm_Labels := labels; xm_Name := Some name;
                xm_Namespace := ns |} in
    json_ok (enc_ObjectMeta m) = true →
    dec_meta (enc_ObjectMeta m) zero_meta = Some (new_meta name (default "" ns) (default None labels));
  enc_condition_object : ∀ c, ∃ l, enc_condition c = JObj l;
  enc_constraint_object : ∀ c, ∃ l, enc_constraint c = JObj l;
}.

Section Encoders.
Context `{Htext : !JsonText, Htime : !RFC3339, Hnano : !RFC3339Nano, Hkube : !KubeJSON}.

(** ** What the control plane writes *)

(** [metav1.Time]: null when zero. *)
Definition zero_time : Z := -62135596800 * second.
Definition enc_time (t : Z) : json := if t =? zero_time then JNull else JStr (Format t).

Definition m_meta (m : ObjectMeta) : members :=
  match enc_meta m with Some j => [("metadata", j)] | None => [] end.
Definition m_kind (k : kind) (m : ObjectMeta) : members :=
  m_str "kind" (type_kind k m) ++ m_str "apiVersion" (type_version k m).
(** A slice without [omitempty]. *)
Definition enc_items {A} (enc : A → json) (l : list A) : json :=
  match l with [] => if nil_slice then JNull else JArr [] | _ => JArr (enc <$> l) end.

(** *** Game servers *)

Definition enc_api_SnapshotRef (r : SnapshotRef) : json :=
  JObj ([("name", JStr (sr_Name r))] ++ m_str "namespace" (sr_Namespace r)).
Definition enc_api_Storage (s : GameServerStorage) : json := JObj (
  m_str "size" (gst_Size s) ++ m_str "storageClass" (gst_StorageClass s)
  ++ m_ptr "snapshotRef" enc_api_SnapshotRef (gst_SnapshotRef s)).
Definition enc_api_Lifecycle (l : LifecycleSpec) : json := JObj (
  m_int "idleTimeoutSeconds" (lc_IdleTimeoutSeconds l) ++ m_ptr "autoStart" JBool (lc_AutoStart l)).
Definition enc_api_GameServerSpec (s : GameServerSpec) : json := JObj (
  [("profile", JStr (gs_Profile s))]
  ++ m_str "tier" (gs_Tier s)
  ++ m_map "env" JStr (gs_Env s)
  ++ [("storage", enc_api_Storage (gs_Storage s))]
  ++ [("lifecycle", enc_api_Lifecycle (gs_Lifecycle s))]
  ++ m_str "priorityClassName" (gs_PriorityClassName s)
  ++ m_list "topologySpreadConstraints" enc_constraint (gs_TopologySpreadConstraints s)
  ++ m_str "loadBalancerIP" (gs_LoadBalancerIP s)).
Definition enc_api_Endpoint (e : Endpoint) : json := JObj (
  [("name", JStr (ep_Name e))] ++ [("address", JStr (ep_Address e))] ++ [("port", JNum (ep_Port e))]).
Definition gs_status_members (s : GameServerStatus) : members :=
  m_str "state" (gss_State s)
  ++ m_str "agentVersion" (gss_AgentVersion s)
  ++ m_int "players" (gss_Players s)
  ++ m_int "playerCapacity" (gss_PlayerCapacity s)
  ++ m_ptr "lastActivity" enc_time (gss_LastActivity s)
  ++ m_list "endpoints" enc_api_Endpoint (gss_Endpoints s)
  ++ m_list "conditions" enc_condition (gss_Conditions s).
(** A status with [omitzero]: left out when every field is zero. *)
Definition m_status (ms : members) : members :=
  match ms with [] => [] | _ => [("status", JObj ms)] end.
Definition enc_api_GameServer (s : GameServer) : json := JObj (
  m_kind KGameServer (gs_Meta s)
  ++ m_meta (gs_Meta s)
  ++ [("spec", enc_api_GameServerSpec (gs_Spec s))]
  ++ m_status (gs_status_members (gs_Status s))).

(** *** Fleets *)

Definition enc_api_RollingUpdate (r : RollingUpdateSpec) : json := JObj (
  m_ptr "maxUnavailable" JNum (ru_MaxUnavailable r) ++ m_ptr "maxSurge" JNum (ru_MaxSurge r)
  ++ m_int "drainTimeoutSeconds" (ru_DrainTimeoutSeconds r)).
Definition enc_api_UpdateStrategy (u : FleetUpdateStrategy) : json := JObj (
  m_str "type" (us_Type u) ++ m_ptr "rollingUpdate" enc_api_RollingUpdate (us_RollingUpdate u)).
Definition enc_api_Template (t : GameServerTemplateSpec) : json := JObj (
  [("metadata", JObj (m_map "labels" JStr (tm_Labels (tpl_Metadata t))
                      ++ m_map "annotations" JStr (tm_Annotations (tpl_Metadata t))))]
  ++ [("spec", JObj (m_map "env" JStr (fgs_Env (tpl_Spec t))))]).
Definition enc_api_FleetSpec (s : GameServerFleetSpec) : json := JObj (
  [("profile", JStr (fl_Profile s))]
  ++ [("replicas", JNum (fl_Replicas s))]
  ++ [("template", enc_api_Template (fl_Template s))]
  ++ [("updateStrategy", enc_api_UpdateStrategy (fl_UpdateStrategy s))]
  ++ m_str "priorityClassName" (fl_PriorityClassName s)
  ++ m_list "topologySpreadConstraints" enc_constraint (fl_TopologySpreadConstraints s)).
Definition fleet_status_members (s : GameServerFleetStatus) : members :=
  m_int "replicas" (fls_Replicas s)
  ++ m_int "readyReplicas" (fls_ReadyReplicas s)
  ++ m_int "updatedReplicas" (fls_UpdatedReplicas s)
  ++ m_list "conditions" enc_condition (fls_Conditions s).
Definition enc_api_Fleet (f : GameServerFleet) : json := JObj (
  m_kind KFleet (fl_Meta f)
  ++ m_meta (fl_Meta f)
  ++ [("spec", enc_api_FleetSpec (fl_Spec f))]
  ++ m_status (fleet_status_members (fl_Status f))).

(** *** Actions and executions *)

Definition enc_api_ActionParam (p : ActionParamSchema) : json := JObj (
  m_str "type" (aps_Type p) ++ m_bool "required" (aps_Required p)
  ++ m_str "description" (aps_Description p) ++ m_str "default" (aps_Default p)).
Definition concurrency_string (c : ActionConcurrency) : string :=
  match c with
  | ActionConcurrencyAllow => "allow"
  | ActionConcurrencySerialize => "serialize"
  | ActionConcurrencyExclusive => "exclusive"
  | ActionConcurrencyOther s => s
  end.
Definition params_map (l : list (string * ActionParamSchema)) : gmap string ActionParamSchema :=
  list_to_map l.
Definition enc_api_ActionDecl (a : ActionDecl) : json := JObj (
  [("name", JStr (ad_Name a))]
  ++ m_str "description" (ad_Description a)
  ++ m_map "params" enc_api_ActionParam (Some (params_map (ad_Params a)))
  ++ m_str "returns" (ad_Returns a)
  ++ m_str "concurrency" (concurrency_string (ad_Concurrency a))
  ++ m_str "timeout" (ad_Timeout a)).

Definition enc_api_TargetRef (t : TargetRef) : json := JObj (
  [("apiVersion", JStr (tr_APIVersion t))] ++ [("kind", JStr (tr_Kind t))]
  ++ [("name", JStr (tr_Name t))] ++ m_str "namespace" (tr_Namespace t)).
Definition enc_api_ExecSpec (s : ActionExecutionSpec) : json := JObj (
  [("targetRef", enc_api_TargetRef (ae_TargetRef s))]
  ++ [("actionName", JStr (ae_ActionName s))]
  ++ m_map "params" JStr (ae_Params s)
  ++ m_str "caller" (ae_Caller s)).
Definition exec_status_members (s : ActionExecutionStatus) : members :=
  m_str "state" (state_string (aes_State s))
  ++ m_ptr "startedAt" enc_time (aes_StartedAt s)
  ++ m_ptr "endedAt" enc_time (aes_EndedAt s)
  ++ m_str "agentResponse" (aes_AgentResponse s)
  ++ m_str "error" (aes_Error s)
  ++ m_list "conditions" enc_condition (aes_Conditions s).
Definition enc_api_Exec (e : ActionExecution) : json := JObj (
  m_kind KExec (ae_Meta e)
  ++ m_meta (ae_Meta e)
  ++ [("spec", enc_api_ExecSpec (ae_Spec e))]
  ++ m_status (exec_status_members (ae_Status e))).

(** *** Snapshots *)

Definition enc_api_Retention (r : SnapshotRetention) : json :=
  JObj (m_int "count" (ret_Count r) ++ m_str "duration" (ret_Duration r)).
Definition enc_api_SnapSpec (s : GameSnapshotSpec) : json := JObj (
  [("gameServerRef", JStr (sn_GameServerRef s))]
  ++ m_str "schedule" (sn_Schedule s)
  ++ [("retention", enc_api_Retention (sn_Retention s))]).
Definition enc_api_SnapshotEntry (e : SnapshotEntry) : json := JObj (
  [("name", JStr (se_Name e))] ++ [("createdAt", enc_time (se_CreatedAt e))]
  ++ [("volumeSnapshotRef", JStr (se_VolumeSnapshotRef e))] ++ m_int "sizeBytes" (se_SizeBytes e)).
Definition snap_status_members (s : GameSnapshotStatus) : members :=
  m_list "snapshots" enc_api_SnapshotEntry (sns_Snapshots s)
  ++ m_ptr "lastSnapshotAt" enc_time (sns_LastSnapshotAt s)
  ++ m_list "conditions" enc_condition (sns_Conditions s).
Definition enc_api_Snapshot (s : GameSnapshot) : json := JObj (
  m_kind KSnap (sn_Meta s)
  ++ m_meta (sn_Meta s)
  ++ [("spec", enc_api_SnapSpec (sn_Spec s))]
  ++ m_status (snap_status_members (sn_Status s))).

(** *** Profiles *)

Definition resource_members (r : ResourceRequirements) : members :=
  let quantity q := JStr (quantity_string q) in
  m_map "limits" quantity (Some (rr_Limits r)) ++ m_map "requests" quantity (Some (rr_Requests r)).
Definition enc_api_Resources (s : ResourcesSpec) : json := JObj (
  resource_members (rs_ResourceRequirements s)
  ++ m_map "tiers" (λ r, JObj (resource_members r)) (Some (rs_Tiers s))
  ++ m_str "default" (rs_Default s)).
Definition enc_api_Port (p : PortSpec) : json := JObj (
  [("name", JStr (port_Name p))] ++ [("containerPort", JNum (port_ContainerPort p))]
  ++ m_str "protocol" (port_Protocol p) ++ m_ptr "exposed" JBool (port_Exposed p)).
Definition enc_api_Environment (e : EnvironmentSpec) : json := JObj (
  [("key", JStr (env_Key e))] ++ m_str "default" (env_Default e)
  ++ m_bool "required" (env_Required e) ++ m_str "description" (env_Description e)).
Definition enc_api_ProfileStorage (s : StorageSpec) : json := JObj (
  [("mountPath", JStr (st_MountPath s))] ++ [("sizeDefault", JStr (st_SizeDefault s))]
  ++ m_str "sizeMin" (st_SizeMin s) ++ m_str "sizeMax" (st_SizeMax s)).
Definition enc_api_Agent (a : AgentSpec) : json :=
  JObj ([("image", JStr (agent_Image a))] ++ [("version", JStr (agent_Version a))]).
Definition enc_api_Capabilities (c : CapabilitiesSpec) : json := JObj (
  m_bool "files" (cap_Files c) ++ m_bool "sftp" (cap_SFTP c) ++ m_bool "backup" (cap_Backup c)
  ++ m_bool "restoreFromSnapshot" (cap_RestoreFromSnapshot c)).
Definition enc_api_AgentMetrics (a : AgentMetricsSpec) : json :=
  JObj (m_int "port" (am_Port a) ++ m_str "path" (am_Path a)).
Definition enc_api_ServiceMonitor (s : ServiceMonitorSpec) : json :=
  JObj (m_bool "enabled" (sms_Enabled s) ++ m_str "interval" (sms_Interval s)).
Definition enc_api_Observability (o : ObservabilitySpec) : json := JObj (
  m_ptr "agentMetrics" enc_api_AgentMetrics (obs_AgentMetrics o)
  ++ m_ptr "serviceMonitor" enc_api_ServiceMonitor (obs_ServiceMonitor o)).
Definition enc_api_GameProfileSpec (s : GameProfileSpec) : json := JObj (
  [("displayName", JStr (gp_DisplayName s))]
  ++ m_str "category" (gp_Category s)
  ++ m_str "icon" (gp_Icon s)
  ++ m_str "description" (gp_Description s)
  ++ [("image", JStr (gp_Image s))]
  ++ m_str "imagePullPolicy" (gp_ImagePullPolicy s)
  ++ m_list "ports" enc_api_Port (gp_Ports s)
  ++ m_list "environment" enc_api_Environment (gp_Environment s)
  ++ [("resources", enc_api_Resources (gp_Resources s))]
  ++ [("storage", enc_api_ProfileStorage (gp_Storage s))]
  ++ [("agent", enc_api_Agent (gp_Agent s))]
  ++ m_list "actions" enc_api_ActionDecl (gp_Actions s)
  ++ m_ptr "capabilities" enc_api_Capabilities (gp_Capabilities s)
  ++ m_ptr "observability" enc_api_Observability (gp_Observability s)).
Definition enc_api_Profile (p : GameProfile) : json := JObj (
  m_kind KGameProfile (gp_Meta p)
  ++ m_meta (gp_Meta p)
  ++ [("spec", enc_api_GameProfileSpec (gp_Spec p))]
  ++ m_status (m_list "conditions" enc_condition (gp_Conditions p))).

(** *** Answers *)

Definition enc_SFTPInfo (i : SFTPInfo) : json := JObj [
  ("host", JStr (si_Host i)); ("password", JStr (si_Password i)); ("port", JNum (si_Port i));
  ("username", JStr (si_Username i))].
Definition enc_expiry (t : option Z) : json :=
  match t with Some t => JStr (FormatNano t) | None => JNull end.
Definition enc_APIKeyEntry (e : APIKeyEntry) : json := JObj (
  [("name", JStr (ak_Name e)); ("keyId", JStr (ak_KeyID e)); ("userId", JStr (ak_UserID e));
   ("username", JStr (ak_Username e)); ("role", JStr (ak_Role e));
   ("createdAt", JStr (FormatNano (ak_CreatedAt e)))]
  ++ m_list "namespaces" JStr (ak_Namespaces e)
  ++ m_ptr "expiresAt" (λ t, JStr (FormatNano t)) (ak_ExpiresAt e)).
Definition enc_error (msg : string) : json := JObj [("error", JStr msg)].

(** [data any] of [respondJSON]: a [map[string]any] is written with sorted keys. *)
Definition enc_Payload (p : Payload) : json :=
  match p with
  | PText s => JStr s
  | PNothing => JNull
  | PError msg => enc_error msg
  | PAuthConfig c => JObj (
      [("authModes", JArr (JStr <$> ac_authModes c)); ("basicEnabled", JBool (ac_basicEnabled c))]
      ++ m_ptr "oidcIssuer" JStr (ac_oidcIssuer c))
  | PGameServers l => JArr (enc_api_GameServer <$> l)
  | PGameServer s => enc_api_GameServer s
  | PSFTP i => enc_SFTPInfo i
  | PActions l => enc_items enc_api_ActionDecl l
  | PExecName name => JObj [("name", JStr name)]
  | PExec e => enc_api_Exec e
  | PSnapshots l => enc_items enc_api_Snapshot l
  | PSnapshot s => enc_api_Snapshot s
  | PFleets l => JArr (enc_api_Fleet <$> l)
  | PFleet f => enc_api_Fleet f
  | PProfiles l => enc_items enc_api_Profile l
  | PProfile p => enc_api_Profile p
  | PKeys l => enc_items enc_APIKeyEntry l
  | PNewKey e key => JObj [
      ("createdAt", JStr (FormatNano (ak_CreatedAt e)));
      ("expiresAt", enc_expiry (ak_ExpiresAt e));
      ("key", JStr key); ("name", JStr (ak_Name e)); ("namespaces", enc_items JStr (ak_Namespaces e));
      ("role", JStr (ak_Role e));
      ("warning", JStr "This key will never be shown again. Store it securely.")]
  end.
(** [json.NewEncoder(w).Encode(data)] *)
#[export] Instance api_Encode : Encode := λ p, print (enc_Payload p) +:+ newline.

(** ** What the control plane reads *)

(** A member that is decoded but not kept. *)
Definition ignored {T A} (name : string) (zero : A) (d : dec A) : field T :=
  Field name (λ v t, (λ _, t) <$> d v zero).

(** *** Game servers *)

Definition zero_api_SnapshotRef : SnapshotRef := {| sr_Name := ""; sr_Namespace := "" |}.
Definition dec_api_SnapshotRef : dec SnapshotRef := lenient [
  fld "name" d_string sr_Name; fld "namespace" d_string sr_Namespace].
Definition zero_api_Storage : GameServerStorage :=
  {| gst_Size := ""; gst_StorageClass := ""; gst_SnapshotRef := None |}.
Definition dec_api_Storage : dec GameServerStorage := lenient [
  fld "size" d_string gst_Size; fld "storageClass" d_string gst_StorageClass;
  fld "snapshotRef" (d_ptr zero_api_SnapshotRef dec_api_SnapshotRef) gst_SnapshotRef].
Definition zero_api_Lifecycle : LifecycleSpec :=
  {| lc_IdleTimeoutSeconds := 0; lc_AutoStart := None |}.
Definition dec_api_Lifecycle : dec LifecycleSpec := lenient [
  fld "idleTimeoutSeconds" d_int32 lc_IdleTimeoutSeconds; fld "autoStart" d_pbool lc_AutoStart].
Definition d_gomap : dec (gomap string) := d_map "" d_string.
Definition zero_api_GameServerSpec : GameServerSpec := {|
  gs_Profile := ""; gs_Tier := ""; gs_Env := None; gs_Storage := zero_api_Storage;
  gs_Lifecycle := zero_api_Lifecycle; gs_PriorityClassName := "";
  gs_TopologySpreadConstraints := []; gs_LoadBalancerIP := "" |}.
Definition dec_api_GameServerSpec : dec GameServerSpec := lenient [
  fld "profile" d_string gs_Profile;
  fld "tier" d_string gs_Tier;
  fld "env" d_gomap gs_Env;
  fld "storage" dec_api_Storage gs_Storage;
  fld "lifecycle" dec_api_Lifecycle gs_Lifecycle;
  fld "priorityClassName" d_string gs_PriorityClassName;
  fld "topologySpreadConstraints" (d_slice zero_constraint dec_constraint) gs_TopologySpreadConstraints;
  fld "loadBalancerIP" d_string gs_LoadBalancerIP].
Definition zero_api_Endpoint : Endpoint := {| ep_Name := ""; ep_Address := ""; ep_Port := 0 |}.
Definition dec_api_Endpoint : dec Endpoint := lenient [
  fld "name" d_string ep_Name; fld "address" d_string ep_Address; fld "port" d_int32 ep_Port].
Definition zero_api_GameServerStatus : GameServerStatus := {|
  gss_State := ""; gss_AgentVersion := ""; gss_Players := 0; gss_PlayerCapacity := 0;
  gss_LastActivity := None; gss_Endpoints := []; gss_Conditions := [] |}.
Definition dec_api_GameServerStatus : dec GameServerStatus := lenient [
  fld "state" d_string gss_State;
  fld "agentVersion" d_string gss_AgentVersion;
  fld "players" d_int32 gss_Players;
  fld "playerCapacity" d_int32 gss_PlayerCapacity;
  fld "lastActivity" d_ptime gss_LastActivity;
  fld "endpoints" (d_slice zero_api_Endpoint dec_api_Endpoint) gss_Endpoints;
  fld "conditions" (d_slice zero_condition dec_condition) gss_Conditions].
Definition zero_api_GameServer : GameServer := {|
  gs_Meta := zero_meta; gs_Spec := zero_api_GameServerSpec; gs_Status := zero_api_GameServerStatus |}.
Definition dec_api_GameServer : dec GameServer := lenient [
  ignored "kind" "" d_string; ignored "apiVersion" "" d_string;
  fld "metadata" dec_meta gs_Meta;
  fld "spec" dec_api_GameServerSpec gs_Spec;
  fld "status" dec_api_GameServerStatus gs_Status].

(** *** Fleets *)

Definition d_pint32 : dec (option Z) := d_ptr 0 d_int32.
Definition zero_api_RollingUpdate : RollingUpdateSpec :=
  {| ru_MaxUnavailable := None; ru_MaxSurge := None; ru_DrainTimeoutSeconds := 0 |}.
Definition dec_api_RollingUpdate : dec RollingUpdateSpec := lenient [
  fld "maxUnavailable" d_pint32 ru_MaxUnavailable; fld "maxSurge" d_pint32 ru_MaxSurge;
  fld "drainTimeoutSeconds" d_int32 ru_DrainTimeoutSeconds].
Definition zero_api_UpdateStrategy : FleetUpdateStrategy :=
  {| us_Type := ""; us_RollingUpdate := None |}.
Definition dec_api_UpdateStrategy : dec FleetUpdateStrategy := lenient [
  fld "type" d_string us_Type;
  fld "rollingUpdate" (d_ptr zero_api_RollingUpdate dec_api_RollingUpdate) us_RollingUpdate].
Definition zero_api_Template : GameServerTemplateSpec := {|
  tpl_Metadata := {| tm_Labels := None; tm_Annotations := None |}; tpl_Spec := {| fgs_Env := None |} |}.
Definition dec_api_Template : dec GameServerTemplateSpec := lenient [
  fld "metadata" (lenient [fld "labels" d_gomap tm_Labels; fld "annotations" d_gomap tm_Annotations])
    tpl_Metadata;
  fld "spec" (lenient [fld "env" d_gomap fgs_Env]) tpl_Spec].
Definition zero_api_FleetSpec : GameServerFleetSpec := {|
  fl_Profile := ""; fl_Replicas := 0; fl_Template := zero_api_Template;
  fl_UpdateStrategy := zero_api_UpdateStrategy; fl_PriorityClassName := "";
  fl_TopologySpreadConstraints := [] |}.
Definition dec_api_FleetSpec : dec GameServerFleetSpec := lenient [
  fld "profile" d_string fl_Profile;
  fld "replicas" d_int32 fl_Replicas;
  fld "template" dec_api_Template fl_Template;
  fld "updateStrategy" dec_api_UpdateStrategy fl_UpdateStrategy;
  fld "priorityClassName" d_string fl_PriorityClassName;
  fld "topologySpreadConstraints" (d_slice zero_constraint dec_constraint) fl_TopologySpreadConstraints].
Definition zero_api_FleetStatus : GameServerFleetStatus := {|
  fls_Replicas := 0; fls_ReadyReplicas := 0; fls_UpdatedReplicas := 0; fls_Conditions := [] |}.
Definition dec_api_FleetStatus : dec GameServerFleetStatus := lenient [
  fld "replicas" d_int32 fls_Replicas; fld "readyReplicas" d_int32 fls_ReadyReplicas;
  fld "updatedReplicas" d_int32 fls_UpdatedReplicas;
  fld "conditions" (d_slice zero_condition dec_condition) fls_Conditions].
Definition zero_api_Fleet : GameServerFleet := {|
  fl_Meta := zero_meta; fl_Spec := zero_api_FleetSpec; fl_Status := zero_api_FleetStatus |}.
Definition dec_api_Fleet : dec GameServerFleet := lenient [
  ignored "kind" "" d_string; ignored "apiVersion" "" d_string;
  fld "metadata" dec_meta fl_Meta;
  fld "spec" dec_api_FleetSpec fl_Spec;
  fld "status" dec_api_FleetStatus fl_Status].

(** *** The patches and the key request

    The nested anonymous structs are flattened: a member of [spec] or
    [lifecycle] stores in the patch itself. *)

Definition nested_in {T} (name : string) (fields : list (field T)) : field T :=
  Field name (disallow_unknown fields).
Definition zero_LifecyclePatch : LifecyclePatch :=
  {| lp_AutoStart := None; lp_IdleTimeoutSeconds := None |}.
Definition dec_LifecyclePatch : dec LifecyclePatch := disallow_unknown [
  nested_in "spec" [nested_in "lifecycle" [
    fld "autoStart" d_pbool lp_AutoStart; fld "idleTimeoutSeconds" d_pint32 lp_IdleTimeoutSeconds]]].
Definition dec_FleetPatch : dec (option Z) := disallow_unknown [
  nested_in "spec" [Field "replicas" d_pint32]].
Definition zero_CreateKeyRequest : CreateKeyRequest :=
  {| kr_Name := ""; kr_Role := ""; kr_Namespaces := []; kr_ExpiresAt := None |}.
Definition dec_CreateKeyRequest : dec CreateKeyRequest := lenient [
  fld "name" d_string kr_Name; fld "role" d_string kr_Role;
  fld "namespaces" (d_slice "" d_string) kr_Namespaces; fld "expiresAt" d_ptime kr_ExpiresAt].

#[export] Instance api_Decode : Decode := {|
  decode_GameServer := unmarshal zero_api_GameServer dec_api_GameServer;
  decode_Fleet := unmarshal zero_api_Fleet dec_api_Fleet;
  decode_params := unmarshal None d_gomap;
  decode_LifecyclePatch := unmarshal zero_LifecyclePatch dec_LifecyclePatch;
  decode_FleetPatch := unmarshal None dec_FleetPatch;
  decode_KeyRequest := unmarshal zero_CreateKeyRequest dec_CreateKeyRequest |}.
End Encoders.
