(* ===== verification/ApiViews.v ===== *)
(** * ApiViews: what the SDK shows of the operator's resources

    The control plane writes a resource with the tags of [api/operator/v1]
    (ApiJson), the generated client reads it with those of its models (GenTypes), and
    the SDK converts the model (SdkClient). For each resource, the composition
    is the view [view_*], whatever the members the models do not know. *)

From Stdlib Require Import Ascii String.
From coqutil Require Import Datatypes.RecordSetters.
From stdpp Require Import gmap.
From S2P Require Import Prelude GoStrings Prog Api Kube Auth ControlPlane Json GenTypes GenClient SdkClient ApiJson.
#[local] Open Scope Z_scope.

Create HintDb reads.

Section Parts.
Context `{Htime : !RFC3339, Hnano : !RFC3339Nano, Hkube : !KubeJSON}.

(** ** Metadata, statuses, conditions and times *)

Definition gen_of_Meta (m : ObjectMeta) : option gen_ObjectMeta :=
  match enc_meta m with
  | Some j => Some (default zero_ObjectMeta (dec_ObjectMeta j zero_ObjectMeta))
  | None => None
  end.
Definition view_Meta (m : ObjectMeta) : sdk_ObjectMeta := {|
  so_Name := om_Name m; so_Namespace := om_Namespace m; so_Labels := default None (opt_map (om_Labels m)) |}.

Lemma reads_meta {T strict} {fs : list (field T)} m t n (get : T → option gen_ObjectMeta)
  {set_ : Setter get} :
  stored fs "metadata" n (d_ptr zero_ObjectMeta dec_ObjectMeta) get → get t = None →
  put get None t = t →
  reads strict fs (m_meta m) t (put get (gen_of_Meta m) t).
Proof.
  intros Hf Hg Hz. unfold m_meta, gen_of_Meta. pose proof (enc_meta_read m) as Hm.
  destruct (enc_meta m) as [j|]; [|rewrite Hz; apply reads_nil].
  destruct Hm as [Hn Hm]. eapply reads_pstruct; [exact Hf|done| |done].
  intros Hok. by destruct (Hm Hok) as (created & ->).
Qed.

Lemma deref_opt_str s : deref (opt_str s) = s.
Proof. unfold opt_str. destruct (String.eqb_spec s ""); by subst. Qed.
Lemma from_int_opt z : from_int (opt_int z) = wrap32 z.
Proof. unfold opt_int. destruct (Z.eqb_spec z 0); by subst. Qed.
Lemma default_opt_list {A} (l : list A) : default [] (opt_list l) = l.
Proof. by destruct l. Qed.

Lemma fromGenMetadata_view m :
  json_ok (JObj (m_meta m)) = true → fromGenMetadata (gen_of_Meta m) = view_Meta m.
Proof.
  unfold gen_of_Meta, m_meta, view_Meta. pose proof (enc_meta_read m) as Hm.
  destruct (enc_meta m) as [j|].
  - cbn [json_ok forallb fst snd]. rewrite andb_true_r, andb_true_iff. intros [_ Hok].
    destruct Hm as [_ (created & ->)]; [done|].
    unfold fromGenMetadata. cbn [default from_option id xm_Name xm_Namespace xm_Labels].
    by rewrite !deref_opt_str.
  - intros _. destruct Hm as (-> & -> & ->). done.
Qed.

(** The status, left out when it is zero. *)
Lemma reads_status {T A strict} {fs : list (field T)} ms t n (zero a : A) (d : dec A)
  (get : T → option A) {set_ : Setter get} :
  stored fs "status" n (d_ptr zero d) get → get t = None → put get None t = t →
  (json_ok (JObj ms) = true → d (JObj ms) zero = Some a) →
  reads strict fs (m_status ms) t (put get (match ms with [] => None | _ => Some a end) t).
Proof.
  intros Hf Hg Hz Hd. destruct ms as [|kv ms]; [cbn; rewrite Hz; apply reads_nil|].
  eapply reads_pstruct; done.
Qed.

Lemma zero_status {A B} ms (fs : list (field A)) (zero a : A) (from : option A → B) :
  (json_ok (JObj ms) = true → d_struct false fs (JObj ms) zero = Some a) →
  from None = from (Some zero) →
  from (match ms with [] => None | _ => Some a end) = from (Some a).
Proof. destruct ms; [|done]. intros H ->. specialize (H eq_refl). cbn in H. by injection H as ->. Qed.

Lemma zero_status_field {A X} ms (fs : list (field A)) (zero a : A) (get : A → option X) :
  (json_ok (JObj ms) = true → d_struct false fs (JObj ms) zero = Some a) → get zero = None →
  (match ms with [] => None | _ => Some a end) ≫= get = get a.
Proof. destruct ms; [|done]. intros H Hg. specialize (H eq_refl). cbn in H. by injection H as <-. Qed.

Lemma d_entries_any l : ∀ m, is_Some (d_entries JNull d_any l m).
Proof. induction l as [|[k v] l IH]; intros m; cbn; eauto. Qed.
(** [map[string]interface{}]: an object is kept as it is. *)
Definition object_of (j : json) : gomap json := default None (d_map JNull d_any j None).
Lemma object_reads j : (∃ l, j = JObj l) → d_map JNull d_any j None = Some (object_of j).
Proof.
  intros [l ->]. unfold object_of. cbn [d_map].
  destruct (d_entries_any l (gm_make None)) as [m Hm]. by rewrite Hm.
Qed.
Definition condition_object (c : Condition) : gomap json := object_of (enc_condition c).
Lemma condition_reads c : json_ok (enc_condition c) = true →
  d_map JNull d_any (enc_condition c) None = Some (condition_object c).
Proof. intros _. apply object_reads, enc_condition_object. Qed.
Definition constraint_object (c : TopologySpreadConstraint) : gomap json := object_of (enc_constraint c).
Lemma constraint_reads c : json_ok (enc_constraint c) = true →
  d_map JNull d_any (enc_constraint c) None = Some (constraint_object c).
Proof. intros _. apply object_reads, enc_constraint_object. Qed.

Definition view_time (t : option Z) : option Z :=
  t ≫= λ t, if t =? zero_time then None else Some (t / second * second).
Lemma reads_ptime {T strict} {fs : list (field T)} k v t n (get : T → option Z) {set_ : Setter get} :
  stored fs k n d_ptime get → put get None t = t →
  reads strict fs (m_ptr k enc_time v) t (put get (view_time v) t).
Proof.
  intros Hf Hz. destruct v as [v|]; cbn; [|rewrite Hz; apply reads_nil].
  apply (reads_one (A:=option Z) _ _ _ n d_ptime); [done|]. intros _. unfold enc_time.
  destruct (v =? zero_time); [done|]. cbn. by rewrite Parse_Format.
Qed.

Lemma json_ok_app l l' :
  json_ok (JObj (l ++ l')) = true ↔ json_ok (JObj l) = true ∧ json_ok (JObj l') = true.
Proof. cbn [json_ok]. by rewrite forallb_app, andb_true_iff. Qed.
End Parts.

Lemma int_reads z : json_ok (JNum z) = true → d_int (JNum z) 0 = Some z.
Proof. cbn. by intros ->. Qed.

#[export] Hint Resolve condition_reads constraint_reads int_reads : reads.

(** ** Following the members of an object *)

(** One member: kept in a field, or skipped. *)
Ltac reads_value := first [intros; reflexivity | solve [eauto with reads]].
Ltac reads_kept :=
  first
    [ eapply reads_pstring; reflexivity
    | eapply reads_pint; reflexivity
    | eapply reads_pbool; reflexivity
    | eapply reads_pbool_ptr; reflexivity
    | eapply reads_pmap; reflexivity
    | eapply reads_ptime; reflexivity
    | eapply reads_pptr; [reflexivity..|reads_value|done]
    | eapply reads_plist; [reflexivity..|reads_value]
    | eapply reads_pstruct; [reflexivity..|reads_value|done]
    | eapply reads_one; [reflexivity|reads_value] ].
Ltac reads_skipped :=
  apply reads_skip; [reflexivity|];
  first [apply m_str_key | apply m_int_key | apply m_bool_key | apply m_ptr_key | apply m_list_key
        | apply m_map_key | apply one_key]; intros ?; reflexivity.
Ltac reads_step :=
  lazymatch goal with
  | |- reads _ _ (_ ++ _) _ _ => eapply reads_app
  | |- reads _ _ (m_kind _ _) _ _ => unfold m_kind
  | |- reads _ _ (m_meta _) _ _ => eapply reads_meta; reflexivity
  | |- reads _ _ (m_status _) _ _ => eapply reads_status; [reflexivity..|reads_value]
  | |- reads _ _ [] _ _ => apply reads_nil
  | |- reads _ _ _ _ _ => first [reads_kept | reads_skipped]
  end.
(** An object: its value is what its members leave behind. *)
Ltac reads_object :=
  intros Hok; etransitivity; [eapply reads_struct; [|exact Hok]; repeat reads_step|reflexivity].

Section Views.
Context `{Htext : !JsonText, Htime : !RFC3339, Hnano : !RFC3339Nano, Hkube : !KubeJSON}.

(** ** Game servers *)

Definition gen_of_SnapshotRef (r : SnapshotRef) : gen_SnapshotRef :=
  {| xr_Name := Some (sr_Name r); xr_Namespace := opt_str (sr_Namespace r) |}.
Lemma SnapshotRef_reads r : json_ok (enc_api_SnapshotRef r) = true →
  dec_SnapshotRef (enc_api_SnapshotRef r) zero_SnapshotRef = Some (gen_of_SnapshotRef r).
Proof. unfold enc_api_SnapshotRef. reads_object. Qed.
#[local] Hint Resolve SnapshotRef_reads : reads.

Definition gen_of_Storage (s : GameServerStorage) : gen_StorageSpec := {|
  xt_Size := opt_str (gst_Size s);
  xt_SnapshotRef := gen_of_SnapshotRef <$> gst_SnapshotRef s;
  xt_StorageClass := opt_str (gst_StorageClass s) |}.
Lemma Storage_reads s : json_ok (enc_api_Storage s) = true →
  dec_StorageSpec (enc_api_Storage s) zero_StorageSpec = Some (gen_of_Storage s).
Proof. unfold enc_api_Storage. reads_object. Qed.
Definition gen_of_Lifecycle (l : LifecycleSpec) : gen_Lifecycle :=
  {| xl_AutoStart := lc_AutoStart l; xl_IdleTimeoutSeconds := opt_int (lc_IdleTimeoutSeconds l) |}.
Lemma Lifecycle_reads l : json_ok (enc_api_Lifecycle l) = true →
  dec_Lifecycle (enc_api_Lifecycle l) zero_Lifecycle = Some (gen_of_Lifecycle l).
Proof. unfold enc_api_Lifecycle. reads_object. Qed.
#[local] Hint Resolve Storage_reads Lifecycle_reads : reads.

Definition gen_of_GameServerSpec (s : GameServerSpec) : gen_GameServerSpec := {|
  xs_Env := opt_map (gs_Env s);
  xs_Lifecycle := Some (gen_of_Lifecycle (gs_Lifecycle s));
  xs_LoadBalancerIP := opt_str (gs_LoadBalancerIP s);
  xs_PriorityClassName := opt_str (gs_PriorityClassName s);
  xs_Profile := Some (gs_Profile s);
  xs_Storage := Some (gen_of_Storage (gs_Storage s));
  xs_Tier := opt_str (gs_Tier s) |}.
Lemma GameServerSpec_reads s : json_ok (enc_api_GameServerSpec s) = true →
  dec_GameServerSpec (enc_api_GameServerSpec s) zero_GameServerSpec = Some (gen_of_GameServerSpec s).
Proof. unfold enc_api_GameServerSpec. reads_object. Qed.
#[local] Hint Resolve GameServerSpec_reads : reads.

Definition view_SnapshotRef (r : SnapshotRef) : sdk_SnapshotRef :=
  {| sdr_Name := sr_Name r; sdr_Namespace := sr_Namespace r |}.
Definition view_GameServerSpec (s : GameServerSpec) : sdk_GameServerSpec := {|
  ss_Profile := gs_Profile s;
  ss_Env := default None (opt_map (gs_Env s));
  ss_Storage_Size := gst_Size (gs_Storage s);
  ss_Storage_StorageClass := gst_StorageClass (gs_Storage s);
  ss_Storage_SnapshotRef := view_SnapshotRef <$> gst_SnapshotRef (gs_Storage s);
  ss_Lifecycle_IdleTimeoutSeconds := wrap32 (lc_IdleTimeoutSeconds (gs_Lifecycle s));
  ss_Lifecycle_AutoStart := default false (lc_AutoStart (gs_Lifecycle s));
  ss_LoadBalancerIP := gs_LoadBalancerIP s |}.
Lemma fromGenSpec_view s : fromGenSpec (Some (gen_of_GameServerSpec s)) = view_GameServerSpec s.
Proof.
  unfold fromGenSpec, view_GameServerSpec, gen_of_GameServerSpec, gen_of_Storage, gen_of_Lifecycle.
  cbn. rewrite !deref_opt_str, from_int_opt. f_equal.
  destruct (gst_SnapshotRef _) as [r|]; [|done]. cbn. by rewrite deref_opt_str.
Qed.

Definition gen_of_Endpoint (e : Endpoint) : gen_Endpoint := {|
  xe_Address := Some (ep_Address e); xe_Name := Some (ep_Name e); xe_Port := Some (ep_Port e) |}.
Lemma Endpoint_reads e : json_ok (enc_api_Endpoint e) = true →
  dec_Endpoint (enc_api_Endpoint e) zero_Endpoint = Some (gen_of_Endpoint e).
Proof. unfold enc_api_Endpoint. reads_object. Qed.
#[local] Hint Resolve Endpoint_reads : reads.

Definition gen_of_GameServerStatus (s : GameServerStatus) : gen_GameServerStatus := {|
  xu_AgentVersion := opt_str (gss_AgentVersion s);
  xu_Conditions := opt_list (condition_object <$> gss_Conditions s);
  xu_Endpoints := opt_list (gen_of_Endpoint <$> gss_Endpoints s);
  xu_PlayerCapacity := opt_int (gss_PlayerCapacity s);
  xu_Players := opt_int (gss_Players s);
  xu_State := opt_str (gss_State s) |}.
Lemma GameServerStatus_reads s : json_ok (JObj (gs_status_members s)) = true →
  dec_GameServerStatus (JObj (gs_status_members s)) zero_GameServerStatus
  = Some (gen_of_GameServerStatus s).
Proof. unfold gs_status_members. reads_object. Qed.
#[local] Hint Resolve GameServerStatus_reads : reads.

Definition view_Endpoint (e : Endpoint) : sdk_Endpoint :=
  {| sde_Name := ep_Name e; sde_Address := ep_Address e; sde_Port := wrap32 (ep_Port e) |}.
Definition view_GameServerStatus (s : GameServerStatus) : sdk_GameServerStatus := {|
  su_State := gss_State s;
  su_AgentVersion := gss_AgentVersion s;
  su_Players := wrap32 (gss_Players s);
  su_PlayerCapacity := wrap32 (gss_PlayerCapacity s);
  su_Endpoints := view_Endpoint <$> gss_Endpoints s |}.
Lemma fromGenStatus_view s :
  fromGenStatus (Some (gen_of_GameServerStatus s)) = view_GameServerStatus s.
Proof.
  unfold fromGenStatus, view_GameServerStatus, gen_of_GameServerStatus. cbn.
  by rewrite !deref_opt_str, !from_int_opt, default_opt_list, <-list_fmap_compose.
Qed.

Definition gen_of_GameServer (s : GameServer) : gen_GameServer := {|
  xg_ApiVersion := opt_str (type_version KGameServer (gs_Meta s));
  xg_Kind := opt_str (type_kind KGameServer (gs_Meta s));
  xg_Metadata := gen_of_Meta (gs_Meta s);
  xg_Spec := Some (gen_of_GameServerSpec (gs_Spec s));
  xg_Status := match gs_status_members (gs_Status s) with
               | [] => None | _ => Some (gen_of_GameServerStatus (gs_Status s)) end |}.
Lemma GameServer_reads s : json_ok (enc_api_GameServer s) = true →
  dec_GameServer (enc_api_GameServer s) zero_GameServer = Some (gen_of_GameServer s).
Proof. unfold enc_api_GameServer. reads_object. Qed.

Definition view_GameServer (s : GameServer) : sdk_GameServer := {|
  sg_APIVersion := type_version KGameServer (gs_Meta s);
  sg_Kind := type_kind KGameServer (gs_Meta s);
  sg_Metadata := view_Meta (gs_Meta s);
  sg_Spec := view_GameServerSpec (gs_Spec s);
  sg_Status := view_GameServerStatus (gs_Status s) |}.
Lemma fromGenGameServer_view s : json_ok (enc_api_GameServer s) = true →
  fromGenGameServer (Some (gen_of_GameServer s)) = view_GameServer s.
Proof.
  unfold enc_api_GameServer. rewrite !json_ok_app. intros (_ & Hm & _).
  unfold fromGenGameServer, gen_of_GameServer, view_GameServer. cbn -[fromGenSpec fromGenStatus].
  rewrite !deref_opt_str, fromGenMetadata_view, fromGenSpec_view by done.
  rewrite (zero_status _ _ _ _ fromGenStatus (GameServerStatus_reads (gs_Status s)) eq_refl).
  by rewrite fromGenStatus_view.
Qed.

(** ** Fleets *)

(** The keys the models do not have ([maxSurge], [drainTimeoutSeconds], the template's metadata)
    are skipped; the template's environment is read as a server's spec. *)
Definition gen_of_RollingUpdate (r : RollingUpdateSpec) : gen_RollingUpdate :=
  {| xro_MaxUnavailable := ru_MaxUnavailable r |}.
Lemma RollingUpdate_reads r : json_ok (enc_api_RollingUpdate r) = true →
  dec_RollingUpdate (enc_api_RollingUpdate r) zero_RollingUpdate = Some (gen_of_RollingUpdate r).
Proof.
  unfold enc_api_RollingUpdate. intros Hok. etransitivity.
  - eapply reads_struct; [|exact Hok]. eapply reads_app; [|repeat reads_step].
    eapply (reads_pptr _ JNum _ _ _ 0 d_int _ id); [reflexivity..|apply int_reads|done].
  - by destruct r as [[]].
Qed.
#[local] Hint Resolve RollingUpdate_reads : reads.
Definition gen_of_UpdateStrategy (u : FleetUpdateStrategy) : gen_UpdateStrategy := {|
  xy_RollingUpdate := gen_of_RollingUpdate <$> us_RollingUpdate u; xy_Type := opt_str (us_Type u) |}.
Lemma UpdateStrategy_reads u : json_ok (enc_api_UpdateStrategy u) = true →
  dec_UpdateStrategy (enc_api_UpdateStrategy u) zero_UpdateStrategy = Some (gen_of_UpdateStrategy u).
Proof. unfold enc_api_UpdateStrategy. reads_object. Qed.
Definition gen_of_Template (t : GameServerTemplateSpec) : gen_Template := {|
  xte_Spec := Some {|
    xs_Env := opt_map (fgs_Env (tpl_Spec t)); xs_Lifecycle := None; xs_LoadBalancerIP := None;
    xs_PriorityClassName := None; xs_Profile := None; xs_Storage := None; xs_Tier := None |} |}.
Lemma template_spec_reads t : json_ok (JObj (m_map "env" JStr (fgs_Env t))) = true →
  dec_GameServerSpec (JObj (m_map "env" JStr (fgs_Env t))) zero_GameServerSpec
  = Some {| xs_Env := opt_map (fgs_Env t); xs_Lifecycle := None; xs_LoadBalancerIP := None;
            xs_PriorityClassName := None; xs_Profile := None; xs_Storage := None; xs_Tier := None |}.
Proof. reads_object. Qed.
#[local] Hint Resolve template_spec_reads UpdateStrategy_reads : reads.
Lemma Template_reads t : json_ok (enc_api_Template t) = true →
  dec_Template (enc_api_Template t) zero_Template = Some (gen_of_Template t).
Proof. unfold enc_api_Template. reads_object. Qed.
#[local] Hint Resolve Template_reads : reads.

Definition gen_of_FleetSpec (s : GameServerFleetSpec) : gen_FleetSpec := {|
  xfs_PriorityClassName := opt_str (fl_PriorityClassName s);
  xfs_Profile := Some (fl_Profile s);
  xfs_Replicas := Some (fl_Replicas s);
  xfs_Template := Some (gen_of_Template (fl_Template s));
  xfs_TopologySpreadConstraints := opt_list (constraint_object <$> fl_TopologySpreadConstraints s);
  xfs_UpdateStrategy := Some (gen_of_UpdateStrategy (fl_UpdateStrategy s)) |}.
Lemma FleetSpec_reads s : json_ok (enc_api_FleetSpec s) = true →
  dec_FleetSpec (enc_api_FleetSpec s) zero_FleetSpec = Some (gen_of_FleetSpec s).
Proof. unfold enc_api_FleetSpec. reads_object. Qed.
#[local] Hint Resolve FleetSpec_reads : reads.
Definition gen_of_FleetStatus (s : GameServerFleetStatus) : gen_FleetStatus := {|
  xft_AvailableReplicas := None;
  xft_Conditions := opt_list (condition_object <$> fls_Conditions s);
  xft_ReadyReplicas := opt_int (fls_ReadyReplicas s);
  xft_Replicas := opt_int (fls_Replicas s);
  xft_UpdatedReplicas := opt_int (fls_UpdatedReplicas s) |}.
Lemma FleetStatus_reads s : json_ok (JObj (fleet_status_members s)) = true →
  dec_FleetStatus (JObj (fleet_status_members s)) zero_FleetStatus = Some (gen_of_FleetStatus s).
Proof. unfold fleet_status_members. reads_object. Qed.
#[local] Hint Resolve FleetStatus_reads : reads.
Definition gen_of_Fleet (f : GameServerFleet) : gen_GameServerFleet := {|
  xf_ApiVersion := opt_str (type_version KFleet (fl_Meta f));
  xf_Kind := opt_str (type_kind KFleet (fl_Meta f));
  xf_Metadata := gen_of_Meta (fl_Meta f);
  xf_Spec := Some (gen_of_FleetSpec (fl_Spec f));
  xf_Status := match fleet_status_members (fl_Status f) with
               | [] => None | _ => Some (gen_of_FleetStatus (fl_Status f)) end |}.
Lemma Fleet_reads f : json_ok (enc_api_Fleet f) = true →
  dec_GameServerFleet (enc_api_Fleet f) zero_GameServerFleet = Some (gen_of_Fleet f).
Proof. unfold enc_api_Fleet. reads_object. Qed.

(** No answer has the available replicas: the operator does not count them. *)
Definition view_Fleet (f : GameServerFleet) : sdk_GameServerFleet := {|
  sl_Metadata := view_Meta (fl_Meta f);
  sl_Profile := fl_Profile (fl_Spec f);
  sl_Replicas := wrap32 (fl_Replicas (fl_Spec f));
  sl_Status_Replicas := wrap32 (fls_Replicas (fl_Status f));
  sl_Status_ReadyReplicas := wrap32 (fls_ReadyReplicas (fl_Status f));
  sl_Status_UpdatedReplicas := wrap32 (fls_UpdatedReplicas (fl_Status f));
  sl_Status_AvailableReplicas := 0 |}.
Lemma fromGenFleet_view f : json_ok (enc_api_Fleet f) = true →
  fromGenFleet (gen_of_Fleet f) = view_Fleet f.
Proof.
  unfold enc_api_Fleet. rewrite !json_ok_app. intros (_ & Hm & _).
  unfold fromGenFleet, view_Fleet. cbn [xf_Metadata xf_Spec xf_Status gen_of_Fleet].
  rewrite fromGenMetadata_view by done.
  rewrite !(zero_status_field _ _ _ _ _ (FleetStatus_reads (fl_Status f))) by done.
  cbn. by rewrite !from_int_opt.
Qed.

(** ** Actions *)

Definition gen_of_ActionParam (p : ActionParamSchema) : gen_ActionParam := {|
  xp_Default := opt_str (aps_Default p); xp_Required := opt_bool (aps_Required p);
  xp_Type := opt_str (aps_Type p) |}.
Lemma ActionParam_reads p : json_ok (enc_api_ActionParam p) = true →
  dec_ActionParam (enc_api_ActionParam p) zero_ActionParam = Some (gen_of_ActionParam p).
Proof. unfold enc_api_ActionParam. reads_object. Qed.
#[local] Hint Resolve ActionParam_reads : reads.

Definition unless_empty {A B} (m : gmap string A) (b : B) : option B :=
  if bool_decide (m = ∅) then None else Some b.
Lemma reads_pmap_with {T A B strict} {fs : list (field T)} k (enc : A → json) (m : gmap string A) t n
  (zero : B) (d : dec B) (get : T → option (gomap B)) {set_ : Setter get} (f : A → B) :
  stored fs k n (d_ptr None (d_map zero d)) get → get t = None → put get None t = t →
  (∀ a, json_ok (enc a) = true → d (enc a) zero = Some (f a)) →
  reads strict fs (m_map k enc (Some m)) t
    (put get (unless_empty m (Some (f <$> m))) t).
Proof.
  intros Hf Hg Hz Hd. unfold unless_empty. cbn [m_map]. case_bool_decide; [rewrite Hz; apply reads_nil|].
  eapply reads_pstruct; [done..| |done]. intros Hok. apply d_map_e_map.
  intros k' a Ha. apply Hd. by eapply json_ok_e_map.
Qed.

Definition gen_of_ActionDecl (a : ActionDecl) : gen_Action := {|
  xa_Concurrency := opt_str (concurrency_string (ad_Concurrency a));
  xa_Description := opt_str (ad_Description a);
  xa_Name := Some (ad_Name a);
  xa_Params := unless_empty (params_map (ad_Params a))
                 (Some (gen_of_ActionParam <$> params_map (ad_Params a)));
  xa_Timeout := opt_str (ad_Timeout a) |}.
Lemma ActionDecl_reads a : json_ok (enc_api_ActionDecl a) = true →
  dec_Action (enc_api_ActionDecl a) zero_Action = Some (gen_of_ActionDecl a).
Proof.
  unfold enc_api_ActionDecl. intros Hok. etransitivity.
  - eapply reads_struct; [|exact Hok]. do 2 (eapply reads_app; [reads_step|]).
    eapply reads_app; [eapply reads_pmap_with; [reflexivity..|reads_value]|]. repeat reads_step.
  - reflexivity.
Qed.
#[local] Hint Resolve ActionDecl_reads : reads.

Definition view_ActionParam (p : ActionParamSchema) : sdk_ActionParam := {|
  sap_Type := aps_Type p; sap_Required := aps_Required p; sap_Default := aps_Default p |}.
Definition view_ActionDecl (a : ActionDecl) : sdk_Action := {|
  sa_Name := ad_Name a; sa_Description := ad_Description a;
  sa_Concurrency := concurrency_string (ad_Concurrency a); sa_Timeout := ad_Timeout a;
  sa_Params := unless_empty (params_map (ad_Params a))
                 (view_ActionParam <$> params_map (ad_Params a)) |}.
Lemma fromGenAction_view a : fromGenAction (gen_of_ActionDecl a) = view_ActionDecl a.
Proof.
  unfold fromGenAction, view_ActionDecl. cbn -[params_map]. rewrite !deref_opt_str. f_equal.
  unfold unless_empty. case_bool_decide; [done|]. cbn. f_equal. rewrite <-map_fmap_compose. apply map_fmap_ext.
  intros k p _. unfold view_ActionParam. cbn. rewrite !deref_opt_str. by destruct (aps_Required p).
Qed.

(** ** Executions *)

Definition gen_of_TargetRef (t : TargetRef) : gen_TargetRef := {|
  xtr_ApiVersion := Some (tr_APIVersion t); xtr_Kind := Some (tr_Kind t);
  xtr_Name := Some (tr_Name t); xtr_Namespace := opt_str (tr_Namespace t) |}.
Lemma TargetRef_reads t : json_ok (enc_api_TargetRef t) = true →
  dec_TargetRef (enc_api_TargetRef t) zero_TargetRef = Some (gen_of_TargetRef t).
Proof. unfold enc_api_TargetRef. reads_object. Qed.
#[local] Hint Resolve TargetRef_reads : reads.
Definition gen_of_ExecSpec (s : ActionExecutionSpec) : gen_ExecSpec := {|
  xes_ActionName := Some (ae_ActionName s); xes_Caller := opt_str (ae_Caller s);
  xes_Params := opt_map (ae_Params s); xes_TargetRef := Some (gen_of_TargetRef (ae_TargetRef s)) |}.
Lemma ExecSpec_reads s : json_ok (enc_api_ExecSpec s) = true →
  dec_ExecSpec (enc_api_ExecSpec s) zero_ExecSpec = Some (gen_of_ExecSpec s).
Proof. unfold enc_api_ExecSpec. reads_object. Qed.
(** [endedAt] and [agentResponse] are keys the model does not have; it has
    [completedAt] and [result], which the operator does not write. *)
Definition gen_of_ExecStatus (s : ActionExecutionStatus) : gen_ExecStatus := {|
  xet_CompletedAt := None; xet_Error := opt_str (aes_Error s); xet_Result := None;
  xet_StartedAt := view_time (aes_StartedAt s); xet_State := opt_str (state_string (aes_State s)) |}.
Lemma ExecStatus_reads s : json_ok (JObj (exec_status_members s)) = true →
  dec_ExecStatus (JObj (exec_status_members s)) zero_ExecStatus = Some (gen_of_ExecStatus s).
Proof. unfold exec_status_members. reads_object. Qed.
#[local] Hint Resolve ExecSpec_reads ExecStatus_reads : reads.
Definition gen_of_Exec (e : ActionExecution) : gen_ActionExecution := {|
  xx_ApiVersion := opt_str (type_version KExec (ae_Meta e));
  xx_Kind := opt_str (type_kind KExec (ae_Meta e));
  xx_Metadata := gen_of_Meta (ae_Meta e);
  xx_Spec := Some (gen_of_ExecSpec (ae_Spec e));
  xx_Status := match exec_status_members (ae_Status e) with
               | [] => None | _ => Some (gen_of_ExecStatus (ae_Status e)) end |}.
Lemma Exec_reads e : json_ok (enc_api_Exec e) = true →
  dec_ActionExecution (enc_api_Exec e) zero_ActionExecution = Some (gen_of_Exec e).
Proof. unfold enc_api_Exec. reads_object. Qed.

Definition view_Exec (e : ActionExecution) : sdk_ActionExecution := {|
  sx_Metadata := view_Meta (ae_Meta e);
  sx_ActionName := ae_ActionName (ae_Spec e);
  sx_Caller := ae_Caller (ae_Spec e);
  sx_Params := default None (opt_map (ae_Params (ae_Spec e)));
  sx_State := state_string (aes_State (ae_Status e));
  sx_Result := "";
  sx_Error := aes_Error (ae_Status e);
  sx_StartedAt := view_time (aes_StartedAt (ae_Status e));
  sx_CompletedAt := None |}.
Lemma fromGenExecution_view e : json_ok (enc_api_Exec e) = true →
  fromGenExecution (gen_of_Exec e) = view_Exec e.
Proof.
  unfold enc_api_Exec. rewrite !json_ok_app. intros (_ & Hm & _).
  unfold fromGenExecution, view_Exec. cbn [xx_Metadata xx_Spec xx_Status gen_of_Exec].
  rewrite fromGenMetadata_view by done.
  rewrite !(zero_status_field _ _ _ _ _ (ExecStatus_reads (ae_Status e))) by done.
  cbn -[state_string view_time]. by rewrite !deref_opt_str.
Qed.

(** ** Snapshots *)

Definition gen_of_Retention (r : SnapshotRetention) : gen_Retention :=
  {| xre_Count := opt_int (ret_Count r); xre_Duration := opt_str (ret_Duration r) |}.
Lemma Retention_reads r : json_ok (enc_api_Retention r) = true →
  dec_Retention (enc_api_Retention r) zero_Retention = Some (gen_of_Retention r).
Proof. unfold enc_api_Retention. reads_object. Qed.
#[local] Hint Resolve Retention_reads : reads.
Definition gen_of_SnapSpec (s : GameSnapshotSpec) : gen_SnapSpec := {|
  xns_GameServerRef := Some (sn_GameServerRef s);
  xns_Retention := Some (gen_of_Retention (sn_Retention s));
  xns_Schedule := opt_str (sn_Schedule s) |}.
Lemma SnapSpec_reads s : json_ok (enc_api_SnapSpec s) = true →
  dec_SnapSpec (enc_api_SnapSpec s) zero_SnapSpec = Some (gen_of_SnapSpec s).
Proof. unfold enc_api_SnapSpec. reads_object. Qed.
(** None of the status's keys is one of the model. *)
Lemma SnapStatus_reads s : json_ok (JObj (snap_status_members s)) = true →
  dec_SnapStatus (JObj (snap_status_members s)) zero_SnapStatus = Some zero_SnapStatus.
Proof. unfold snap_status_members. reads_object. Qed.
#[local] Hint Resolve SnapSpec_reads SnapStatus_reads : reads.
Definition gen_of_Snapshot (s : GameSnapshot) : gen_GameSnapshot := {|
  xn_ApiVersion := opt_str (type_version KSnap (sn_Meta s));
  xn_Kind := opt_str (type_kind KSnap (sn_Meta s));
  xn_Metadata := gen_of_Meta (sn_Meta s);
  xn_Spec := Some (gen_of_SnapSpec (sn_Spec s));
  xn_Status := match snap_status_members (sn_Status s) with [] => None | _ => Some zero_SnapStatus end |}.
Lemma Snapshot_reads s : json_ok (enc_api_Snapshot s) = true →
  dec_GameSnapshot (enc_api_Snapshot s) zero_GameSnapshot = Some (gen_of_Snapshot s).
Proof. unfold enc_api_Snapshot. reads_object. Qed.

Definition view_Snapshot (s : GameSnapshot) : sdk_GameSnapshot := {|
  sq_Metadata := view_Meta (sn_Meta s);
  sq_GameServerRef := sn_GameServerRef (sn_Spec s);
  sq_Schedule := sn_Schedule (sn_Spec s);
  sq_State := ""; sq_ReadyAt := None; sq_Size := "" |}.
Lemma fromGenSnapshot_view s : json_ok (enc_api_Snapshot s) = true →
  fromGenSnapshot (gen_of_Snapshot s) = view_Snapshot s.
Proof.
  unfold enc_api_Snapshot. rewrite !json_ok_app. intros (_ & Hm & _).
  unfold fromGenSnapshot, view_Snapshot. cbn [xn_Metadata xn_Spec xn_Status gen_of_Snapshot].
  rewrite fromGenMetadata_view by done.
  rewrite !(zero_status_field _ _ _ _ _ (SnapStatus_reads (sn_Status s))) by done.
  cbn. by rewrite !deref_opt_str.
Qed.

(** ** Profiles *)

(** Quantities are strings: any of them can be read, those of other resources
    than CPU and memory are skipped. *)
Definition quantities (m : gmap string Quantity) : json := e_map (λ q, JStr (quantity_string q)) m.
Definition gen_of_quantities (m : gmap string Quantity) : gen_CpuMemory :=
  default zero_CpuMemory (dec_CpuMemory (quantities m) zero_CpuMemory).
Lemma cpu_members_read l : Forall (λ kv, ∃ s, kv.2 = JStr s) l → ∀ t,
  is_Some (d_members false [fld "cpu" d_pstring xcm_Cpu; fld "memory" d_pstring xcm_Memory] l t).
Proof.
  induction 1 as [|[k v] l [s Hs] _ IH]; intros t; cbn [d_members]; [eauto|].
  cbn in Hs. subst v. unfold d_member. cbn [find_first f_name fst snd].
  destruct (EqualFold _ k); [apply IH|]. destruct (EqualFold _ k); apply IH.
Qed.
Lemma quantities_reads m : json_ok (quantities m) = true →
  dec_CpuMemory (quantities m) zero_CpuMemory = Some (gen_of_quantities m).
Proof.
  intros _. unfold gen_of_quantities, quantities, e_map, dec_CpuMemory, lenient, d_struct.
  edestruct cpu_members_read as [g ->]; [|done]. apply Forall_forall. intros kv Hkv.
  unfold map_members in Hkv. apply list_elem_of_omap in Hkv as (k & _ & Hk).
  destruct (m !! k); [|done]. injection Hk as <-. by eexists.
Qed.
Lemma reads_map_object {T A B strict} {fs : list (field T)} k (enc : B → json) (m : gmap string B) t n
  (zero a : A) (d : dec A) (get : T → option A) {set_ : Setter get} :
  stored fs k n (d_ptr zero d) get → get t = None → put get None t = t →
  (json_ok (e_map enc m) = true → d (e_map enc m) zero = Some a) →
  reads strict fs (m_map k enc (Some m)) t
    (put get (unless_empty m a) t).
Proof.
  intros Hf Hg Hz Hd. unfold unless_empty. cbn [m_map]. case_bool_decide; [rewrite Hz; apply reads_nil|].
  by eapply reads_pstruct.
Qed.
Definition gen_of_limits (m : gmap string Quantity) : option gen_CpuMemory :=
  unless_empty m (gen_of_quantities m).

Ltac reads_limits :=
  eapply reads_map_object; [reflexivity..|apply quantities_reads].
Ltac reads_with tac := intros Hok; etransitivity; [eapply reads_struct; [|exact Hok]; tac|reflexivity].

Definition gen_of_ResourceRequirements (r : ResourceRequirements) : gen_ResourceRequirements := {|
  xrr_Limits := gen_of_limits (rr_Limits r); xrr_Requests := gen_of_limits (rr_Requests r) |}.
Lemma ResourceRequirements_reads r : json_ok (JObj (resource_members r)) = true →
  dec_ResourceRequirements (JObj (resource_members r)) zero_ResourceRequirements
  = Some (gen_of_ResourceRequirements r).
Proof. unfold resource_members. reads_with ltac:(eapply reads_app; reads_limits). Qed.
Definition gen_of_Resources (s : ResourcesSpec) : gen_Resources := {|
  xrs_Default := opt_str (rs_Default s);
  xrs_Limits := gen_of_limits (rr_Limits (rs_ResourceRequirements s));
  xrs_Requests := gen_of_limits (rr_Requests (rs_ResourceRequirements s));
  xrs_Tiers := unless_empty (rs_Tiers s) (Some (gen_of_ResourceRequirements <$> rs_Tiers s)) |}.
Lemma Resources_reads s : json_ok (enc_api_Resources s) = true →
  dec_Resources (enc_api_Resources s) zero_Resources = Some (gen_of_Resources s).
Proof.
  unfold enc_api_Resources, resource_members at 1.
  reads_with ltac:(eapply reads_app; [eapply reads_app; reads_limits|eapply reads_app;
    [eapply reads_pmap_with; [reflexivity..|apply ResourceRequirements_reads]|reads_step]]).
Qed.
Definition gen_of_Port (p : PortSpec) : gen_Port := {|
  xpo_ContainerPort := Some (port_ContainerPort p); xpo_Exposed := port_Exposed p;
  xpo_Name := Some (port_Name p); xpo_Protocol := opt_str (port_Protocol p) |}.
Lemma Port_reads p : json_ok (enc_api_Port p) = true →
  dec_Port (enc_api_Port p) zero_Port = Some (gen_of_Port p).
Proof. unfold enc_api_Port. reads_object. Qed.
Definition gen_of_Environment (e : EnvironmentSpec) : gen_EnvVar := {|
  xv_Default := opt_str (env_Default e); xv_Description := opt_str (env_Description e);
  xv_Key := Some (env_Key e); xv_Required := opt_bool (env_Required e) |}.
Lemma Environment_reads e : json_ok (enc_api_Environment e) = true →
  dec_EnvVar (enc_api_Environment e) zero_EnvVar = Some (gen_of_Environment e).
Proof. unfold enc_api_Environment. reads_object. Qed.
Definition gen_of_ProfileStorage (s : StorageSpec) : gen_ProfileStorage :=
  {| xps_MountPath := st_MountPath s; xps_SizeDefault := Some (st_SizeDefault s) |}.
Lemma ProfileStorage_reads s : json_ok (enc_api_ProfileStorage s) = true →
  dec_ProfileStorage (enc_api_ProfileStorage s) zero_ProfileStorage = Some (gen_of_ProfileStorage s).
Proof. unfold enc_api_ProfileStorage. reads_object. Qed.
Definition gen_of_Agent (a : AgentSpec) : gen_AgentSpec :=
  {| xag_Image := Some (agent_Image a); xag_Version := Some (agent_Version a) |}.
Lemma Agent_reads a : json_ok (enc_api_Agent a) = true →
  dec_AgentSpec (enc_api_Agent a) zero_AgentSpec = Some (gen_of_Agent a).
Proof. unfold enc_api_Agent. reads_object. Qed.
Definition gen_of_Capabilities (c : CapabilitiesSpec) : gen_Capabilities := {|
  xca_Backup := opt_bool (cap_Backup c); xca_Files := opt_bool (cap_Files c);
  xca_RestoreFromSnapshot := opt_bool (cap_RestoreFromSnapshot c); xca_Sftp := opt_bool (cap_SFTP c) |}.
Lemma Capabilities_reads c : json_ok (enc_api_Capabilities c) = true →
  dec_Capabilities (enc_api_Capabilities c) zero_Capabilities = Some (gen_of_Capabilities c).
Proof. unfold enc_api_Capabilities. reads_object. Qed.
Definition gen_of_AgentMetrics (a : AgentMetricsSpec) : gen_AgentMetrics :=
  {| xam_Path := opt_str (am_Path a); xam_Port := opt_int (am_Port a) |}.
Lemma AgentMetrics_reads a : json_ok (enc_api_AgentMetrics a) = true →
  dec_AgentMetrics (enc_api_AgentMetrics a) zero_AgentMetrics = Some (gen_of_AgentMetrics a).
Proof. unfold enc_api_AgentMetrics. reads_object. Qed.
Definition gen_of_ServiceMonitor (s : ServiceMonitorSpec) : gen_ServiceMonitor :=
  {| xsm_Enabled := opt_bool (sms_Enabled s); xsm_Interval := opt_str (sms_Interval s) |}.
Lemma ServiceMonitor_reads s : json_ok (enc_api_ServiceMonitor s) = true →
  dec_ServiceMonitor (enc_api_ServiceMonitor s) zero_ServiceMonitor = Some (gen_of_ServiceMonitor s).
Proof. unfold enc_api_ServiceMonitor. reads_object. Qed.
#[local] Hint Resolve AgentMetrics_reads ServiceMonitor_reads : reads.
Definition gen_of_Observability (o : ObservabilitySpec) : gen_Observability := {|
  xob_AgentMetrics := gen_of_AgentMetrics <$> obs_AgentMetrics o;
  xob_ServiceMonitor := gen_of_ServiceMonitor <$> obs_ServiceMonitor o |}.
Lemma Observability_reads o : json_ok (enc_api_Observability o) = true →
  dec_Observability (enc_api_Observability o) zero_Observability = Some (gen_of_Observability o).
Proof. unfold enc_api_Observability. reads_object. Qed.
#[local] Hint Resolve Resources_reads Port_reads Environment_reads ProfileStorage_reads Agent_reads
  Capabilities_reads Observability_reads : reads.

Definition gen_of_GameProfileSpec (s : GameProfileSpec) : gen_GameProfileSpec := {|
  xq_Actions := opt_list (gen_of_ActionDecl <$> gp_Actions s);
  xq_Agent := Some (gen_of_Agent (gp_Agent s));
  xq_Capabilities := gen_of_Capabilities <$> gp_Capabilities s;
  xq_Category := opt_str (gp_Category s);
  xq_Description := opt_str (gp_Description s);
  xq_DisplayName := Some (gp_DisplayName s);
  xq_Environment := opt_list (gen_of_Environment <$> gp_Environment s);
  xq_Icon := opt_str (gp_Icon s);
  xq_Image := Some (gp_Image s);
  xq_Observability := gen_of_Observability <$> gp_Observability s;
  xq_Ports := opt_list (gen_of_Port <$> gp_Ports s);
  xq_Resources := Some (gen_of_Resources (gp_Resources s));
  xq_Storage := Some (gen_of_ProfileStorage (gp_Storage s)) |}.
Lemma GameProfileSpec_reads s : json_ok (enc_api_GameProfileSpec s) = true →
  dec_GameProfileSpec (enc_api_GameProfileSpec s) zero_GameProfileSpec = Some (gen_of_GameProfileSpec s).
Proof. unfold enc_api_GameProfileSpec. reads_object. Qed.
#[local] Hint Resolve GameProfileSpec_reads : reads.
Definition gen_of_Profile (p : GameProfile) : gen_GameProfile := {|
  xgp_ApiVersion := opt_str (type_version KGameProfile (gp_Meta p));
  xgp_Kind := opt_str (type_kind KGameProfile (gp_Meta p));
  xgp_Metadata := gen_of_Meta (gp_Meta p);
  xgp_Spec := Some (gen_of_GameProfileSpec (gp_Spec p)) |}.
Lemma m_status_key P ms : (∀ j, P ("status", j)) → Forall P (m_status ms).
Proof. intros HP. destruct ms; cbn; auto. Qed.
Lemma Profile_reads p : json_ok (enc_api_Profile p) = true →
  dec_GameProfile (enc_api_Profile p) zero_GameProfile = Some (gen_of_Profile p).
Proof.
  unfold enc_api_Profile. intros Hok. etransitivity.
  - eapply reads_struct; [|exact Hok]. do 3 (eapply reads_app; [repeat reads_step|]).
    apply reads_skip; [done|]. by apply m_status_key.
  - reflexivity.
Qed.

Definition view_Profile (p : GameProfile) : sdk_GameProfile := {|
  spr_Metadata := view_Meta (gp_Meta p);
  spr_DisplayName := gp_DisplayName (gp_Spec p);
  spr_Image := gp_Image (gp_Spec p);
  spr_Actions := view_ActionDecl <$> gp_Actions (gp_Spec p) |}.
Lemma fromGenProfile_view p : json_ok (enc_api_Profile p) = true →
  fromGenProfile (gen_of_Profile p) = view_Profile p.
Proof.
  unfold enc_api_Profile. rewrite !json_ok_app. intros (_ & Hm & _).
  unfold fromGenProfile, view_Profile. cbn [xgp_Metadata xgp_Spec gen_of_Profile].
  rewrite fromGenMetadata_view by done. f_equal. cbn [mbind option_bind xq_Actions gen_of_GameProfileSpec].
  rewrite default_opt_list, <-list_fmap_compose. apply list_fmap_ext. intros _ a _.
  apply fromGenAction_view.
Qed.

(** ** What is never shown *)

(** The result and the end of an execution are written under keys the client does not
    read, and it reads keys the operator does not write; the same goes for the state
    of a snapshot. *)
Lemma execution_result_never_shown e :
  json_ok (enc_api_Exec e) = true →
  ∃ g, dec_ActionExecution (enc_api_Exec e) zero_ActionExecution = Some g
       ∧ sx_Result (fromGenExecution g) = "" ∧ sx_CompletedAt (fromGenExecution g) = None.
Proof. intros Hok. exists (gen_of_Exec e). rewrite Exec_reads, fromGenExecution_view by done. done. Qed.
Lemma snapshot_state_never_shown s :
  json_ok (enc_api_Snapshot s) = true →
  ∃ g, dec_GameSnapshot (enc_api_Snapshot s) zero_GameSnapshot = Some g
       ∧ sq_State (fromGenSnapshot g) = "" ∧ sq_ReadyAt (fromGenSnapshot g) = None
       ∧ sq_Size (fromGenSnapshot g) = "".
Proof. intros Hok. exists (gen_of_Snapshot s). rewrite Snapshot_reads, fromGenSnapshot_view by done. done. Qed.
Lemma fleet_available_never_shown f :
  json_ok (enc_api_Fleet f) = true →
  ∃ g, dec_GameServerFleet (enc_api_Fleet f) zero_GameServerFleet = Some g
       ∧ sl_Status_AvailableReplicas (fromGenFleet g) = 0.
Proof. intros Hok. exists (gen_of_Fleet f). rewrite Fleet_reads, fromGenFleet_view by done. done. Qed.
End Views.
