(* ===== verification/ApiBodies.v ===== *)
(** * ApiBodies: what the control plane reads of the SDK's requests

    A body is an SDK value converted to the generated model, written with the
    model's tags, and read with those of [api/operator/v1]: for each request
    of the SDK that has one, the value the handler works on. *)

From Stdlib Require Import Ascii String.
From coqutil Require Import Datatypes.RecordSetters.
From stdpp Require Import gmap.
From S2P Require Import Prelude GoStrings Prog Api Kube Auth ControlPlane Json GenTypes GenClient SdkClient ApiJson ApiViews.
#[local] Open Scope Z_scope.

Section Shapes.
Context {T : Type} {strict : bool} {fs : list (field T)}.
Abbreviation reads := (reads strict fs).

(** Optional members of the model into fields that are not pointers. *)
Lemma reads_string k v t n (get : T → string) {set_ : Setter get} :
  stored fs k n d_string get → put get "" t = t →
  reads (m_pstring k v) t (put get (default "" v) t).
Proof.
  intros Hf Hz. destruct v as [v|]; cbn; [|rewrite Hz; apply reads_nil].
  by apply (reads_one (A:=string) _ _ _ n d_string).
Qed.
Lemma d_int32_in z old : is_int32 z → d_int32 (JNum z) old = Some z.
Proof.
  intros [H1 H2]. unfold d_int32, d_range.
  by rewrite (proj2 (Z.leb_le _ _) H1), (proj2 (Z.leb_le _ _) H2).
Qed.
Lemma reads_int32 k v t n (get : T → Z) {set_ : Setter get} :
  stored fs k n d_int32 get → put get 0 t = t → (∀ z, v = Some z → is_int32 z) →
  reads (m_pint k v) t (put get (default 0 v) t).
Proof.
  intros Hf Hz Hr. destruct v as [v|]; cbn; [|rewrite Hz; apply reads_nil].
  apply (reads_one (A:=Z) _ _ _ n d_int32); [done|]. intros _. by apply d_int32_in, Hr.
Qed.
Lemma reads_gomap k v t n (get : T → gomap string) {set_ : Setter get} :
  stored fs k n d_gomap get → get t = None → put get None t = t →
  reads (m_ptr_map k JStr v) t (put get (default None v) t).
Proof.
  intros Hf Hg Hz. destruct v as [[m|]|]; cbn; [|..|rewrite Hz; apply reads_nil].
  - apply (reads_one (A:=gomap string) _ _ _ n d_gomap); [done|]. intros _. rewrite Hg.
    unfold d_gomap. rewrite (d_map_e_map _ JStr _ id) by done. by rewrite map_fmap_id.
  - by apply (reads_one (A:=gomap string) _ _ _ n d_gomap).
Qed.
Lemma reads_in_struct {A B} k (enc : B → json) o t n (zero : A) (d : dec A) (get : T → A)
  {set_ : Setter get} (f : B → A) :
  stored fs k n d get → get t = zero → put get zero t = t →
  (∀ b, o = Some b → json_ok (enc b) = true → d (enc b) zero = Some (f b)) →
  reads (m_ptr k enc o) t (put get (match o with Some b => f b | None => zero end) t).
Proof.
  intros Hf Hg Hz Hd. apply (reads_opt _ _ _ _ n d); [done|done|]. rewrite Hg. apply Hd.
Qed.
(** A member that is read and not kept. *)
Lemma reads_ignored k v t n :
  find_first (λ f, EqualFold (f_name f) k) fs = Some (ignored n "" d_string) →
  reads (m_pstring k v) t t.
Proof.
  intros Hf _. destruct v as [v|]; [|done]. cbn. unfold d_member. cbn [fst snd]. by rewrite Hf.
Qed.
End Shapes.

Section Bodies.
Context `{Htext : !JsonText, Htime : !RFC3339, Hnano : !RFC3339Nano, Hkube : !KubeJSON}.

(** ** Creating a server *)

(** The object the handler reads from the SDK's server. Its status is not
    sent, and neither is an [AutoStart] of [false] without an idle
    timeout. *)
Definition sent_Meta (m : sdk_ObjectMeta) : ObjectMeta :=
  new_meta (so_Name m) (so_Namespace m) (so_Labels m).
Definition sent_Storage (s : sdk_GameServerSpec) : GameServerStorage := {|
  gst_Size := ss_Storage_Size s; gst_StorageClass := ss_Storage_StorageClass s;
  gst_SnapshotRef := (λ r, {| sr_Name := sdr_Name r; sr_Namespace := sdr_Namespace r |})
                     <$> ss_Storage_SnapshotRef s |}.
Definition sent_Lifecycle (s : sdk_GameServerSpec) : LifecycleSpec := {|
  lc_IdleTimeoutSeconds := ss_Lifecycle_IdleTimeoutSeconds s;
  lc_AutoStart :=
    if ss_Lifecycle_AutoStart s || negb (ss_Lifecycle_IdleTimeoutSeconds s =? 0)
    then Some (ss_Lifecycle_AutoStart s) else None |}.
Definition sent_GameServerSpec (s : sdk_GameServerSpec) : GameServerSpec := {|
  gs_Profile := ss_Profile s; gs_Tier := ""; gs_Env := ss_Env s; gs_Storage := sent_Storage s;
  gs_Lifecycle := sent_Lifecycle s; gs_PriorityClassName := "";
  gs_TopologySpreadConstraints := []; gs_LoadBalancerIP := ss_LoadBalancerIP s |}.
Definition sent_GameServer (gs : sdk_GameServer) : GameServer := {|
  gs_Meta := sent_Meta (sg_Metadata gs); gs_Spec := sent_GameServerSpec (sg_Spec gs);
  gs_Status := zero_api_GameServerStatus |}.

Lemma default_ptrOrNil s : default "" (ptrOrNil s) = s.
Proof. unfold ptrOrNil. destruct (String.eqb_spec s ""); by subst. Qed.
Lemma default_mapOrNil m : default None (mapOrNil m) = m.
Proof. by destruct m. Qed.

Lemma SnapshotRef_body r :
  dec_api_SnapshotRef (enc_SnapshotRef r) zero_api_SnapshotRef
  = Some {| sr_Name := default "" (xr_Name r); sr_Namespace := default "" (xr_Namespace r) |}.
Proof. by destruct r as [[n|] [ns|]]. Qed.
Definition lifecycle_of (l : gen_Lifecycle) : LifecycleSpec := {|
  lc_IdleTimeoutSeconds := default 0 (xl_IdleTimeoutSeconds l); lc_AutoStart := xl_AutoStart l |}.
Lemma Lifecycle_body l : (∀ z, xl_IdleTimeoutSeconds l = Some z → is_int32 z) →
  json_ok (enc_Lifecycle l) = true →
  dec_api_Lifecycle (enc_Lifecycle l) zero_api_Lifecycle = Some (lifecycle_of l).
Proof.
  intros Hr Hok. etransitivity.
  - eapply reads_struct; [|exact Hok]. eapply reads_app; [eapply reads_pbool_ptr; reflexivity|].
    eapply reads_int32; [reflexivity..|done].
  - reflexivity.
Qed.
Definition storage_of (s : gen_StorageSpec) : GameServerStorage := {|
  gst_Size := default "" (xt_Size s); gst_StorageClass := default "" (xt_StorageClass s);
  gst_SnapshotRef := (λ r, {| sr_Name := default "" (xr_Name r);
                              sr_Namespace := default "" (xr_Namespace r) |}) <$> xt_SnapshotRef s |}.
Lemma Storage_body s : json_ok (enc_StorageSpec s) = true →
  dec_api_Storage (enc_StorageSpec s) zero_api_Storage = Some (storage_of s).
Proof.
  intros Hok. etransitivity.
  - eapply reads_struct; [|exact Hok]. eapply reads_app; [eapply reads_string; reflexivity|].
    eapply reads_app; [eapply reads_pptr; [reflexivity..|intros; apply SnapshotRef_body|done]|].
    eapply reads_string; reflexivity.
  - reflexivity.
Qed.


(** The two optional structs of the converted spec. *)
Definition spec_Lifecycle (s : sdk_GameServerSpec) : option gen_Lifecycle :=
  if ss_Lifecycle_AutoStart s || negb (ss_Lifecycle_IdleTimeoutSeconds s =? 0)
  then Some {| xl_AutoStart := Some (ss_Lifecycle_AutoStart s);
               xl_IdleTimeoutSeconds := Some (ss_Lifecycle_IdleTimeoutSeconds s) |}
  else None.
Lemma spec_Lifecycle_sent s :
  match spec_Lifecycle s with Some l => lifecycle_of l | None => zero_api_Lifecycle end = sent_Lifecycle s.
Proof.
  unfold spec_Lifecycle, sent_Lifecycle. destruct (_ || _) eqn:E; [done|].
  apply orb_false_iff in E as [_ E%negb_false_iff]. apply Z.eqb_eq in E. by rewrite E.
Qed.
Lemma spec_Storage_sent s :
  match xs_Storage s with Some l => storage_of l | None => zero_api_Storage end
  = {| gst_Size := default "" (xs_Storage s ≫= xt_Size);
       gst_StorageClass := default "" (xs_Storage s ≫= xt_StorageClass);
       gst_SnapshotRef := (λ r, {| sr_Name := default "" (xr_Name r);
                                   sr_Namespace := default "" (xr_Namespace r) |})
                          <$> (xs_Storage s ≫= xt_SnapshotRef) |}.
Proof. by destruct (xs_Storage s). Qed.

(** Any spec of the model. *)
Definition spec_of (sp : gen_GameServerSpec) : GameServerSpec := {|
  gs_Profile := default "" (xs_Profile sp); gs_Tier := default "" (xs_Tier sp);
  gs_Env := default None (xs_Env sp);
  gs_Storage := match xs_Storage sp with Some s => storage_of s | None => zero_api_Storage end;
  gs_Lifecycle := match xs_Lifecycle sp with Some l => lifecycle_of l | None => zero_api_Lifecycle end;
  gs_PriorityClassName := default "" (xs_PriorityClassName sp);
  gs_TopologySpreadConstraints := [];
  gs_LoadBalancerIP := default "" (xs_LoadBalancerIP sp) |}.
Lemma GameServerSpec_body sp :
  (∀ l z, xs_Lifecycle sp = Some l → xl_IdleTimeoutSeconds l = Some z → is_int32 z) →
  json_ok (enc_GameServerSpec sp) = true →
  dec_api_GameServerSpec (enc_GameServerSpec sp) zero_api_GameServerSpec = Some (spec_of sp).
Proof.
  intros Hr Hok. etransitivity.
  - eapply reads_struct; [|exact Hok].
    eapply reads_app; [eapply reads_gomap; reflexivity|].
    eapply reads_app.
    { eapply (reads_in_struct (A:=LifecycleSpec) _ _ _ _ _ zero_api_Lifecycle dec_api_Lifecycle _ lifecycle_of);
        [reflexivity..|]. intros l Hl. apply Lifecycle_body. eauto. }
    do 3 (eapply reads_app; [eapply reads_string; reflexivity|]).
    eapply reads_app.
    { eapply (reads_in_struct (A:=GameServerStorage) _ _ _ _ _ zero_api_Storage dec_api_Storage _ storage_of);
        [reflexivity..|]. intros st _. apply Storage_body. }
    eapply reads_string; reflexivity.
  - reflexivity.
Qed.

Lemma spec_of_sent gs sp :
  xg_Spec (toGenGameServer gs) = Some sp → spec_of sp = sent_GameServerSpec (sg_Spec gs).
Proof.
  intros [= <-]. unfold spec_of, sent_GameServerSpec, sent_Storage. rewrite spec_Storage_sent.
  fold (spec_Lifecycle (sg_Spec gs)). cbn [xs_Profile xs_Tier xs_Env xs_Storage xs_Lifecycle
    xs_PriorityClassName xs_LoadBalancerIP default from_option id].
  rewrite spec_Lifecycle_sent, default_mapOrNil, default_ptrOrNil. f_equal.
  destruct (sg_Spec gs) as [pr env sz sc [r|] idle auto lb]; cbn -[String.eqb].
  - rewrite orb_true_r. cbn. by rewrite !default_ptrOrNil.
  - rewrite orb_false_r. destruct (String.eqb_spec sz ""), (String.eqb_spec sc ""); subst; cbn;
      by rewrite ?default_ptrOrNil.
Qed.

Lemma GameServer_body gs :
  is_int32 (ss_Lifecycle_IdleTimeoutSeconds (sg_Spec gs)) →
  json_ok (enc_GameServer (toGenGameServer gs)) = true →
  dec_api_GameServer (enc_GameServer (toGenGameServer gs)) zero_api_GameServer
  = Some (sent_GameServer gs).
Proof.
  intros Hr Hok. etransitivity.
  - eapply reads_struct; [|exact Hok].
    do 2 (eapply reads_app; [eapply reads_ignored; reflexivity|]).
    eapply reads_app.
    { eapply (reads_in_struct (A:=ObjectMeta) _ _ _ _ _ zero_meta dec_meta _ (λ _, sent_Meta (sg_Metadata gs)));
        [reflexivity..|]. intros m [= <-] Hm. rewrite dec_meta_read by done.
      unfold sent_Meta. by rewrite default_ptrOrNil, default_mapOrNil. }
    eapply reads_app; [|eapply reads_nil].
    eapply (reads_in_struct (A:=GameServerSpec) _ _ _ _ _ zero_api_GameServerSpec dec_api_GameServerSpec _
              (λ _, sent_GameServerSpec (sg_Spec gs))); [reflexivity..|].
    intros sp Hsp. rewrite <-(spec_of_sent _ _ Hsp). apply GameServerSpec_body.
    injection Hsp as <-. intros l z. cbn. destruct (_ || _); [|done]. by intros [= <-] [= <-].
  - reflexivity.
Qed.

(** ** Patches and parameters *)

Lemma d_members_cons {T} strict (fs : list (field T)) k j l t f :
  find_first (λ f, EqualFold (f_name f) k) fs = Some f →
  d_members strict fs ((k, j) :: l) t
  = match f_set f j t with Some t => d_members strict fs l t | None => None end.
Proof. intros Hf. cbn. unfold d_member. cbn [fst snd]. by rewrite Hf. Qed.
Lemma d_pint32_in z old : is_int32 z → d_pint32 (JNum z) old = Some (Some z).
Proof. intros Hr. unfold d_pint32, d_ptr. by rewrite d_int32_in. Qed.

Lemma lifecycle_patch_body a i :
  (∀ z, i = Some z → is_int32 z) →
  dec_LifecyclePatch (enc_GameServerLifecyclePatch (lifecycle_patch a i)) zero_LifecyclePatch
  = Some {| lp_AutoStart := a; lp_IdleTimeoutSeconds := i |}.
Proof.
  intros Hr. unfold dec_LifecyclePatch, disallow_unknown, enc_GameServerLifecyclePatch, enc_Lifecycle.
  cbn [d_struct lifecycle_patch xlp_Lifecycle m_ptr xl_AutoStart xl_IdleTimeoutSeconds].
  do 2 (erewrite d_members_cons by reflexivity; cbn [f_set nested_in disallow_unknown d_struct]).
  destruct i as [i|]; [specialize (Hr i eq_refl)|]; destruct a as [a|]; try reflexivity;
    cbn [m_pbool m_pint m_ptr app]; repeat erewrite d_members_cons by reflexivity;
    cbn [f_set fld]; unfold d_pbool, d_ptr; cbn [d_bool fmap option_fmap option_map];
    erewrite ?d_members_cons by reflexivity; cbn [f_set fld]; by rewrite d_pint32_in.
Qed.

Lemma fleet_patch_body n :
  is_int32 n →
  dec_FleetPatch (enc_GameServerFleetPatch {| xfp_Replicas := Some (Some n) |}) None = Some (Some n).
Proof.
  intros Hr. unfold dec_FleetPatch, disallow_unknown, enc_GameServerFleetPatch.
  cbn [d_struct xfp_Replicas m_ptr].
  erewrite d_members_cons by reflexivity. cbn [f_set nested_in disallow_unknown d_struct m_pint m_ptr].
  erewrite d_members_cons by reflexivity. cbn [f_set]. by rewrite d_pint32_in.
Qed.

Lemma params_body m : d_gomap (enc_params m) None = Some m.
Proof.
  destruct m as [m|]; [|done]. unfold d_gomap, enc_params.
  rewrite (d_map_e_map _ JStr _ id) by done. by rewrite map_fmap_id.
Qed.

(** ** Creating a fleet *)

Definition sent_Fleet (f : sdk_GameServerFleet) : GameServerFleet := {|
  fl_Meta := new_meta (so_Name (sl_Metadata f)) "" None;
  fl_Spec := {| fl_Profile := sl_Profile f; fl_Replicas := sl_Replicas f;
                fl_Template := zero_api_Template; fl_UpdateStrategy := zero_api_UpdateStrategy;
                fl_PriorityClassName := ""; fl_TopologySpreadConstraints := [] |};
  fl_Status := zero_api_FleetStatus |}.

(** The model the SDK's document is read into. *)
Definition gen_sent_Fleet (f : sdk_GameServerFleet) : gen_GameServerFleet := {|
  xf_ApiVersion := Some "operator.minato.io/v1"; xf_Kind := Some "GameServerFleet";
  xf_Metadata := Some {| xm_CreationTimestamp := None; xm_Labels := None;
                         xm_Name := Some (so_Name (sl_Metadata f)); xm_Namespace := None |};
  xf_Spec := Some {| xfs_PriorityClassName := None; xfs_Profile := Some (sl_Profile f);
                     xfs_Replicas := Some (sl_Replicas f); xfs_Template := None;
                     xfs_TopologySpreadConstraints := None; xfs_UpdateStrategy := None |};
  xf_Status := None |}.
Lemma fleet_spec_read p r :
  json_ok (JObj ([("profile", JStr p)] ++ [("replicas", JNum r)])) = true →
  dec_FleetSpec (JObj ([("profile", JStr p)] ++ [("replicas", JNum r)])) zero_FleetSpec
  = Some {| xfs_PriorityClassName := None; xfs_Profile := Some p; xfs_Replicas := Some r;
            xfs_Template := None; xfs_TopologySpreadConstraints := None; xfs_UpdateStrategy := None |}.
Proof. reads_object. Qed.
#[local] Hint Resolve fleet_spec_read : reads.
Lemma fleet_document_read f : json_ok (fleet_document f) = true →
  dec_GameServerFleet (fleet_document f) zero_GameServerFleet = Some (gen_sent_Fleet f).
Proof.
  unfold fleet_document.
  change (JObj _) with (JObj ([("apiVersion", JStr "operator.minato.io/v1")]
    ++ [("kind", JStr "GameServerFleet")]
    ++ [("metadata", JObj [("name", JStr (so_Name (sl_Metadata f)))])]
    ++ [("spec", JObj ([("profile", JStr (sl_Profile f))] ++ [("replicas", JNum (sl_Replicas f))]))])).
  reads_object.
Qed.

Lemma Fleet_body f : is_int32 (sl_Replicas f) →
  json_ok (enc_GameServerFleet (gen_sent_Fleet f)) = true →
  dec_api_Fleet (enc_GameServerFleet (gen_sent_Fleet f)) zero_api_Fleet = Some (sent_Fleet f).
Proof.
  intros Hr Hok. etransitivity.
  - eapply reads_struct; [|exact Hok].
    do 2 (eapply reads_app; [eapply reads_ignored; reflexivity|]).
    eapply reads_app.
    { eapply (reads_in_struct (A:=ObjectMeta) _ _ _ _ _ zero_meta dec_meta _
                (λ _, new_meta (so_Name (sl_Metadata f)) "" None)); [reflexivity..|].
      intros m [= <-] Hm. by apply dec_meta_read. }
    eapply reads_app; [|eapply reads_nil].
    eapply (reads_in_struct (A:=GameServerFleetSpec) _ _ _ _ _ zero_api_FleetSpec dec_api_FleetSpec _
              (λ _, fl_Spec (sent_Fleet f))); [reflexivity..|].
    intros sp [= <-] Hsp. etransitivity.
    + eapply reads_struct; [|exact Hsp]. do 2 (eapply reads_app; [eapply reads_string; reflexivity|]).
      eapply reads_app; [eapply reads_int32; [reflexivity..|by intros z [= <-]]|].
      repeat (eapply reads_app; [eapply reads_nil|]). eapply reads_nil.
    + reflexivity.
  - reflexivity.
Qed.
End Bodies.
