(* ===== verification/ApiExamples.v ===== *)
(** * ApiExamples: concrete codecs with the laws the clients' theorems assume

    A printer and a parser of documents that invert each other, metadata with
    its name, namespace and labels, and URLs without escapes. The witnesses of
    ClientServer run on them. *)

From Stdlib Require Import Ascii String.
From coqutil Require Import Datatypes.RecordSetters.
From stdpp Require Import gmap countable.
From S2P Require Import Prelude GoStrings Prog Api Kube Auth ControlPlane Json GenTypes GenClient SdkClient ApiJson ApiViews ApiBodies.
#[local] Open Scope Z_scope.

(** ** Documents as trees *)

Abbreviation tree := (gen_tree (string + Z + bool)).
Fixpoint to_tree (j : json) : tree :=
  match j with
  | JNull => GenNode 0 []
  | JBool b => GenLeaf (inr b)
  | JNum z => GenLeaf (inl (inr z))
  | JStr s => GenLeaf (inl (inl s))
  | JArr l => GenNode 1 (map to_tree l)
  | JObj l => GenNode 2 (map (λ kv, GenNode 3 [GenLeaf (inl (inl kv.1)); to_tree kv.2]) l)
  end.
Definition key_of (t : tree) : string := match t with GenLeaf (inl (inl s)) => s | _ => "" end.
Fixpoint of_tree (t : tree) : json :=
  match t with
  | GenLeaf (inr b) => JBool b
  | GenLeaf (inl (inr z)) => JNum z
  | GenLeaf (inl (inl s)) => JStr s
  | GenNode 1 l => JArr (map of_tree l)
  | GenNode 2 l => JObj (map (λ t, match t with
                                   | GenNode _ [k; v] => (key_of k, of_tree v)
                                   | _ => ("", JNull)
                                   end) l)
  | GenNode _ _ => JNull
  end.
Lemma of_to_tree : ∀ j, of_tree (to_tree j) = j.
Proof.
  fix IH 1. intros [|b|z|s|l|l]; cbn; try done; f_equal.
  - induction l as [|j l IHl]; [done|]. cbn. by rewrite IH, IHl.
  - induction l as [|[k j] l IHl]; [done|]. cbn. by rewrite IH, IHl.
Qed.
Lemma json_map_same : ∀ j, json_map (λ s, s) j = j.
Proof.
  fix IH 1. intros [|b|z|s|l|l]; cbn; try done; f_equal.
  - induction l as [|j l IHl]; [done|]. cbn. by rewrite IH, IHl.
  - induction l as [|[k j] l IHl]; [done|]. cbn. by rewrite IH, IHl.
Qed.

Definition ex_parse (s : string) : json + gerr :=
  match countable.decode (string_pos (TrimSuffix s newline)) with
  | Some t => inl (of_tree t)
  | None => inr (errorf "unexpected end of JSON input")
  end.
Definition ex_print (j : json) : string := pos_string (countable.encode (to_tree j)).

Lemma pos_string_chars p : str_forall (λ c, Ascii.eqb c "0" || Ascii.eqb c "1") (pos_string p) = true.
Proof. by induction p. Qed.
Lemma TrimSuffix_digits p : TrimSuffix (pos_string p) newline = pos_string p.
Proof.
  unfold TrimSuffix. destruct (HasSuffix _ _) eqn:E; [|done]. exfalso.
  apply HasSuffix_spec in E as [r E]. pose proof (pos_string_chars p) as H.
  rewrite E, str_forall_app in H. by apply andb_true_iff in H as [_ ?].
Qed.
Program Definition ex_JsonText : JsonText := {|
  print := ex_print; parse := ex_parse;
  type_error _ := errorf "json: cannot unmarshal"; coerce s := s |}.
Next Obligation. done. Qed.
Next Obligation.
  intros j _. rewrite json_map_same. unfold ex_parse, ex_print.
  rewrite TrimSuffix_digits, TrimSuffix_app, string_pos_string, decode_encode, of_to_tree. done.
Qed.

(** ** Metadata *)

Definition ex_enc_meta (m : ObjectMeta) : json := JObj (
  m_str "name" (om_Name m) ++ m_str "namespace" (om_Namespace m) ++ m_map "labels" JStr (om_Labels m)).
Definition ex_zero_meta : ObjectMeta := new_meta "" "" None.
Definition ex_dec_meta : dec ObjectMeta := lenient [
  fld "name" d_string om_Name; fld "namespace" d_string om_Namespace; fld "labels" d_gomap om_Labels].

#[export] Instance ex_FormatNano : RFC3339Nano := @Format ex_RFC3339.
#[local] Existing Instance ex_RFC3339.
Program Definition ex_KubeJSON : KubeJSON := {|
  enc_meta m := Some (ex_enc_meta m); dec_meta := ex_dec_meta; zero_meta := ex_zero_meta;
  enc_condition c := JObj [("type", JStr (cond_Type c))];
  dec_condition _ _ := None;
  zero_condition := {| cond_Type := ""; cond_Status := ConditionUnknown; cond_Reason := "";
    cond_Message := ""; cond_ObservedGeneration := 0; cond_LastTransitionTime := 0 |};
  enc_constraint c := JObj [("topologyKey", JStr (tsc_TopologyKey c))];
  dec_constraint _ _ := None;
  zero_constraint := {| tsc_MaxSkew := 0; tsc_TopologyKey := ""; tsc_WhenUnsatisfiable := "" |};
  quantity_string q := itoa q; type_kind _ _ := ""; type_version _ _ := ""; nil_slice := false |}.
Next Obligation.
  intros m. cbn. split; [done|]. intros Hok. exists None. unfold ex_enc_meta. revert Hok. reads_object.
Qed.
Next Obligation.
  intros labels name ns. cbv zeta. intros Hok. etransitivity.
  - eapply reads_struct; [|exact Hok]. eapply reads_app; [eapply reads_nil|].
    eapply reads_app; [eapply reads_gomap; reflexivity|].
    eapply reads_app; eapply reads_string; reflexivity.
  - by destruct labels, ns.
Qed.
Next Obligation. intros c. by eexists. Qed.
Next Obligation. intros c. by eexists. Qed.

(** ** URLs *)

Definition ex_origin : string := "http://minato".
Program Definition ex_Url : Url := {|
  style_param _ v := inl v;
  resolve_url server path := inl (TrimSuffix server "/" +:+ str_drop 1 path);
  valid_origin o := o =s ex_origin |}.
Next Obligation. done. Qed.
Next Obligation.
  intros origin path segs _ _ _. cbn. by rewrite TrimSuffix_app.
Qed.
