(* ===== verification/ClientServer.v ===== *)
(** * ClientServer: the SDK against the control plane

    [serve] runs a method of the SDK (SdkClient) with its HTTP requests answered by the
    control plane's routes (ControlPlane), both ends with their JSON (ApiJson). The
    network that carries a request is the class [Transport]; it does not fail here. Each
    method then behaves as a short program on the API server: two programs are
    [same_runs] when they make the same calls and have the same outcomes, as long as
    the objects the API server answers with can be written in JSON. *)

From Stdlib Require Import Ascii String.
From stdpp Require Import gmap.
From S2P Require Import Prelude GoStrings Prog Api Kube Builder Auth Rbac Tenant AuditLog ControlPlane Json GenTypes GenClient SdkClient ApiJson ApiViews ApiBodies ApiExamples.
#[local] Open Scope Z_scope.

(** ** Programs with the same runs *)

Section SameRuns.
Context {E : Type → Type} (G : ∀ X, E X → X → Prop).

Definition answered (v : event E) : Prop := match v with @Ev _ X e x => G X e x end.

Definition same_runs {A} (p q : prog E A) : Prop :=
  ∀ t o, Forall answered t → runs p t o ↔ runs q t o.

#[export] Instance same_runs_equiv A : Equivalence (@same_runs A).
Proof.
  split.
  - by intros p t o.
  - intros p q H t o Ht. by rewrite (H t o Ht).
  - intros p q r H H' t o Ht. by rewrite (H t o Ht), (H' t o Ht).
Qed.

Lemma same_call {A X} (e : E X) (k k' : X → prog E A) :
  (∀ x, G X e x → same_runs (k x) (k' x)) → same_runs (Call e k) (Call e k').
Proof.
  intros H t o Ht. cbn. split; intros (x & t' & -> & Hr); exists x, t'; split; try done.
  all: inversion_clear Ht; by apply (H x).
Qed.

Lemma same_bind_call {A X} (e : E X) (k k' : X → prog E A) :
  (∀ x, G X e x → same_runs (k x) (k' x)) → same_runs (bind (call e) k) (bind (call e) k').
Proof. apply same_call. Qed.

#[export] Instance bind_proper A B :
  Proper (same_runs ==> pointwise_relation A same_runs ==> same_runs) (@bind E A B).
Proof.
  assert (∀ (p q : prog E A) (f g : A → prog E B) t o, same_runs p q →
    pointwise_relation A same_runs f g → Forall answered t → runs (bind p f) t o → runs (bind q g) t o) as H.
  - intros p q f g t o Hp Hf Ht [(m & Hr & ->)|(a & t1 & t2 & -> & H1 & H2)]%runs_bind; apply runs_bind.
    + left. exists m. split; [|done]. by apply Hp.
    + apply Forall_app in Ht as [Ht1 Ht2]. right. exists a, t1, t2. split; [done|].
      split; [by apply Hp|by apply Hf].
  - intros p q Hp f g Hf t o Ht. split; intros Hr; [by eapply (H p q f g)|].
    eapply (H q p g f); [by symmetry|intros a; by symmetry|done..].
Qed.

Lemma bind_assoc_same {A B C} (p : prog E A) (f : A → prog E B) (g : B → prog E C) :
  same_runs (bind (bind p f) g) (bind p (λ a, bind (f a) g)).
Proof.
  induction p as [a|X e k IH|m]; cbn [bind]; [done| |done]. apply same_call. intros x _. apply IH.
Qed.
Lemma bind_ret_same {A} (p : prog E A) : same_runs (bind p Ret) p.
Proof. induction p as [a|X e k IH|m]; cbn [bind]; [done| |done]. apply same_call. intros x _. apply IH. Qed.
End SameRuns.

(** ** The network *)

(** A request as the handlers see it: the method, the body, the headers the client set
    and, below an origin, the path are those the client sent. *)
Class Transport `{!Url} := {
  deliver : HttpReq → Request;
  deliver_method : ∀ q, rq_Method (deliver q) = hq_Method q;
  deliver_body : ∀ q, rq_Body (deliver q) = hq_Body q;
  deliver_path : ∀ q origin segs,
    valid_origin origin = true → segs ≠ [] → Forall (λ s, k8s_name s = true) segs →
    hq_URL q = origin +:+ path_of segs → rq_Path (deliver q) = path_of segs;
  deliver_header : ∀ q k v, hq_Header q !! k = Some v → rq_Header (deliver q) k = v;
}.
(** The router finds a route that a path without escapes matches. *)
Class RouterTotal `{!Router} := chi_route_total : ∀ table r segs pattern params,
  segs ≠ [] → Forall plain segs → rq_Path r = path_of segs →
  (rq_Method r, pattern) ∈ table → binds params (path_segments pattern) segs →
  ∃ i ps, chi_route table r = inl (i, ps).

Definition response_header (rsp : Response) (k : string) : string :=
  match find_first (λ kv, kv.1 =s k) (rsp_Header rsp) with Some (_, v) => v | None => "" end.
Definition received (rsp : Response) : HttpResp := {|
  hs_Status := rsp_Status rsp; hs_ContentType := response_header rsp "Content-Type";
  hs_Body := inl (rsp_Body rsp) |}.

Section Serve.
Variable handle : HttpReq → M Response.
(** A client's program with its requests answered by [handle]. *)
Fixpoint serve {A} (p : Http A) : M A :=
  match p with
  | Ret a => Ret a
  | Panic m => Panic m
  | @Call _ _ X e k =>
      match e in httpop X return (X → M A) → M A with
      | HttpDo q => λ f, bind (handle q) (λ rsp, f (inl (received rsp)))
      end (λ x, serve (k x))
  end.

Lemma serve_bind {A B} G (p : Http A) (f : A → Http B) :
  same_runs G (serve (bind p f)) (bind (serve p) (λ a, serve (f a))).
Proof.
  induction p as [a|X e k IH|m]; cbn [bind serve]; [done| |done].
  destruct e as [q]. rewrite bind_assoc_same. apply bind_proper; [done|]. intros rsp. apply IH.
Qed.
End Serve.

(** ** Names and paths *)

Lemma k8s_char_not c : k8s_char c = true → Ascii.eqb c "/" = false ∧ Ascii.eqb c "%" = false.
Proof.
  intros H. split; apply not_true_iff_false; intros ->%Ascii.eqb_eq; vm_compute in H; done.
Qed.
Lemma k8s_name_plain s : k8s_name s = true → plain s.
Proof.
  destruct s as [|c s]; [done|]. cbn [k8s_name]. intros [_ H]%andb_true_iff.
  assert (∀ d, (∀ c, k8s_char c = true → Ascii.eqb c d = false) → no_char d (String c s) = true) as Hd.
  { intros d Hd. unfold no_char. induction (String c s) as [|e r IH]; [done|]. cbn in H |- *.
    apply andb_true_iff in H as [He Hr]. rewrite (Hd e He). by apply IH. }
  split; [split; [done|]|]; apply Hd; intros e He; by apply k8s_char_not in He as [].
Qed.

Lemma path_of_foldr segs :
  segs ≠ [] → foldr (λ s acc, "/" +:+ s +:+ acc) "" segs = path_of segs.
Proof.
  induction segs as [|s segs IH]; [done|]. intros _. unfold path_of. cbn [foldr].
  destruct segs as [|s' segs]; [cbn; by rewrite str_app_nil_r|].
  rewrite IH by done. cbn. done.
Qed.

(** ** From a request of the client to its handler *)

Definition seg_value (t : template) : string := match t with Lit s => s | Param _ v => v end.
Definition seg_ok (t : template) : Prop := k8s_name (seg_value t) = true.

Fixpoint fits (pats segs : list string) : bool :=
  match pats, segs with
  | [], [] => true
  | p :: pats, s :: segs => (is_template p || (p =s s)) && fits pats segs
  | _, _ => false
  end.
(** The value a path has for a parameter of a template. *)
Fixpoint param_value (pats segs : list string) (k : string) : option string :=
  match pats, segs with
  | p :: pats, s :: segs =>
      if is_template p && (param_name p =s k) then Some s else param_value pats segs k
  | _, _ => None
  end.
(** The routes of a method that match a path, by position. *)
Definition takes (table : list (string * string)) (method : string) (segs : list string) (i : nat) : bool :=
  match table !! i with
  | Some (m, p) => (m =s method) && fits (path_segments p) segs
  | None => false
  end.
Definition matching (table : list (string * string)) (method : string) (segs : list string) : list nat :=
  filter (λ i, takes table method segs i = true) (seq 0 (length table)).

Lemma binds_fits ps pats segs : binds ps pats segs → fits pats segs = true.
Proof.
  induction 1 as [|p s pats segs Hp H IH]; [done|]. cbn [fits]. rewrite IH, andb_true_r.
  destruct (is_template p); [done|]. subst p. apply String.eqb_refl.
Qed.
Lemma binds_param_value ps pats segs k s :
  binds ps pats segs → param_value pats segs k = Some s → ps k = s ∧ s ∈ segs.
Proof.
  induction 1 as [|p v pats segs Hp H IH]; [done|]. cbn [param_value].
  destruct (is_template p); cbn.
  - destruct (String.eqb_spec (param_name p) k) as [<-|]; [intros [= <-]; split; [done|left]|].
    intros Hs. destruct (IH Hs). split; [done|by right].
  - intros Hs. destruct (IH Hs). split; [done|by right].
Qed.

(** The method of the client behind an operation, and its request. *)
Ltac sending :=
  cbv beta delta [
    client_ListGameServerFleets client_CreateGameServerFleet client_DeleteGameServerFleet
    client_GetGameServerFleet client_UpdateGameServerFleet client_ListGameServers
    client_CreateGameServer client_DeleteGameServer client_GetGameServer
    client_UpdateGameServerLifecycle client_ListActions client_ExecuteAction
    client_GetActionExecution client_GetSFTPInfo client_ListSnapshots client_CreateSnapshot
    client_ListProfiles client_GetProfile client_ListAPIKeys client_CreateAPIKey
    client_DeleteAPIKey client_GetConsole client_GetAuthConfig client_GetHealthz
    client_GetReadyz NewListGameServerFleetsRequest NewCreateGameServerFleetRequest
    NewDeleteGameServerFleetRequest NewGetGameServerFleetRequest
    NewUpdateGameServerFleetRequest NewListGameServersRequest NewCreateGameServerRequest
    NewDeleteGameServerRequest NewGetGameServerRequest NewUpdateGameServerLifecycleRequest
    NewListActionsRequest NewExecuteActionRequest NewGetActionExecutionRequest
    NewGetSFTPInfoRequest NewListSnapshotsRequest NewCreateSnapshotRequest
    NewListProfilesRequest NewGetProfileRequest NewListAPIKeysRequest NewCreateAPIKeyRequest
    NewDeleteAPIKeyRequest NewGetConsoleRequest NewGetAuthConfigRequest NewGetHealthzRequest
    NewGetReadyzRequest].

Section Routing.
Context `{Htext : !JsonText, Htime : !RFC3339, Hnano : !RFC3339Nano, Hkube : !KubeJSON, Hurl : !Url,
          Hnet : !Transport, Hqty : !QuantityParser, Hentry : !EntryJSON, Hrouter : !Router,
          Htotal : !RouterTotal}.
Variables (authCfg : Config) (keyStorage : string) (tenantCfg : TenantConfig).
(** The user the middleware has put in the request. *)
Variable user : option User.

Abbreviation table := (routes authCfg keyStorage tenantCfg).
Definition route_table : list (string * string) := (λ rt, (rt_Method rt, rt_Pattern rt)) <$> table.

Definition set_User (r : Request) : Request := {|
  rq_Method := rq_Method r; rq_Path := rq_Path r; rq_Header := rq_Header r;
  rq_BasicAuth := rq_BasicAuth r; rq_Param := rq_Param r; rq_Query := rq_Query r;
  rq_Body := rq_Body r; rq_RemoteAddr := rq_RemoteAddr r; rq_User := user |}.
(** The control plane behind its guards. *)
Definition control_plane (q : HttpReq) : M Response :=
  mux authCfg keyStorage tenantCfg (set_User (deliver q)).

Lemma elem_of_matching t m segs i :
  i ∈ matching t m segs ↔ ∃ p, t !! i = Some (m, p) ∧ fits (path_segments p) segs = true.
Proof.
  unfold matching, takes. rewrite list_elem_of_filter, elem_of_seq. split.
  - intros [H _]. destruct (t !! i) as [[m' p]|]; [|done].
    apply andb_true_iff in H as [->%String.eqb_eq H]. eauto.
  - intros (p & Hi & H). rewrite Hi, String.eqb_refl. cbn. split; [done|].
    apply lookup_lt_Some in Hi. lia.
Qed.

(** The only route a path matches is the one taken, and its parameters are the path's. *)
Lemma mux_routed r vals i rt ps :
  vals ≠ [] → Forall plain vals → rq_Path r = path_of vals →
  matching route_table (rq_Method r) vals = [i] → table !! i = Some rt →
  rt_Method rt = rq_Method r → binds ps (path_segments (rt_Pattern rt)) vals →
  Forall (λ k, is_Some (param_value (path_segments (rt_Pattern rt)) vals k)) (rt_Params rt) →
  ∃ r', rq_Body r' = rq_Body r ∧ rq_User r' = rq_User r
        ∧ (∀ k, k ∈ rt_Params rt → rq_Param r' k = ps k)
        ∧ mux authCfg keyStorage tenantCfg r = bind (rt_Handler rt r') (λ rep, Ret (render rep)).
Proof.
  intros Hne Hp Hpath Hone Hi Hm Hb Hpar.
  assert (Forall segment vals) as Hseg by (eapply Forall_impl; [exact Hp|by intros ? []]).
  unfold mux. fold route_table.
  destruct (chi_route_total route_table r vals (rt_Pattern rt) ps) as (j & ps' & Hchi); [done..| |done|].
  { apply list_elem_of_lookup. exists i. unfold route_table. by rewrite list_lookup_fmap, Hi, <-Hm. }
  rewrite Hchi. destruct (chi_route_matches _ _ vals j ps' Hne Hseg Hpath Hchi) as (p & Hj & Hb').
  assert (j = i) as ->.
  { assert (j ∈ matching route_table (rq_Method r) vals) as Hin
      by (apply elem_of_matching; exists p; split; [done|by eapply binds_fits]).
    rewrite Hone in Hin. by apply list_elem_of_singleton in Hin. }
  unfold route_table in Hj. rewrite list_lookup_fmap, Hi in Hj. injection Hj as _ Hpat.
  rewrite <-Hpat in Hb'. rewrite Hi.
  set (r' := set_Param (λ k, default "" (BindParam (rq_Param (set_Param ps' r) k))) (set_Param ps' r)).
  assert (∀ k, k ∈ rt_Params rt → BindParam (ps' k) = Some (ps k)) as Hbind.
  { intros k Hk. rewrite Forall_forall in Hpar, Hp. destruct (Hpar k Hk) as [s Hs].
    destruct (binds_param_value _ _ _ _ _ Hb' Hs) as [-> Hin].
    destruct (binds_param_value _ _ _ _ _ Hb Hs) as [-> _]. by apply BindParam_plain, Hp. }
  exists r'. split_and!; try done.
  - intros k Hk. cbn. by rewrite Hbind.
  - unfold wrapper. destruct (find_first _ (rt_Params rt)) as [k|] eqn:E; [|done].
    apply find_first_Some in E as [Hk HE]. apply bool_decide_eq_true in HE. cbn in HE.
    by rewrite Hbind in HE.
Qed.

(** ** A client of the control plane *)

Context (origin apiKey : string).
Hypothesis Horigin : valid_origin origin = true.
Hypothesis Hslash : HasSuffix origin "/" = false.
Definition sdk_client : Client := gen_NewClient origin [accept_and_key apiKey].

Lemma operation_path_ok segs :
  Forall seg_ok segs → operation_path segs = inl (foldr (λ s acc, "/" +:+ s +:+ acc) "" (seg_value <$> segs)).
Proof.
  induction 1 as [|[s|n v] segs Hs _ IH]; [done|..]; cbn [operation_path fmap list_fmap foldr seg_value].
  - by rewrite IH.
  - unfold seg_ok, seg_value in Hs. by rewrite style_param_name, IH.
Qed.

Lemma new_request_ok method segs body :
  segs ≠ [] → Forall seg_ok segs →
  ∃ q, new_request method (c_Server sdk_client) segs body = inl q
       ∧ hq_Method q = method ∧ hq_URL q = origin +:+ path_of (seg_value <$> segs)
       ∧ hq_Body q = match body with Some j => print j | None => "" end.
Proof.
  intros Hne Hs. unfold new_request, sdk_client, gen_NewClient. cbn [c_Server]. rewrite Hslash.
  rewrite operation_path_ok by done.
  rewrite (resolve_origin origin _ (seg_value <$> segs)); [|done|by apply Forall_fmap|done].
  eexists. split; [done|]. split_and!; try done. cbn [hq_URL]. rewrite path_of_foldr; [done|].
  by destruct segs.
Qed.

(** The handler that a request of the client reaches. *)
Lemma request_routed method segs body i rt :
  let vals := seg_value <$> segs in
  let pats := path_segments (rt_Pattern rt) in
  table !! i = Some rt → rt_Method rt = method →
  segs ≠ [] → Forall seg_ok segs → matching route_table method vals = [i] →
  binds (λ k, default "" (param_value pats vals k)) pats vals →
  Forall (λ k, is_Some (param_value pats vals k)) (rt_Params rt) →
  ∃ q r', new_request method (c_Server sdk_client) segs body = inl q
    ∧ rq_Body r' = match body with Some j => print j | None => "" end ∧ rq_User r' = user
    ∧ map (rq_Param r') (rt_Params rt) = omap (param_value pats vals) (rt_Params rt)
    ∧ control_plane (applyEditors sdk_client q) = bind (rt_Handler rt r') (λ rep, Ret (render rep)).
Proof.
  intros vals pats Hi Hm Hne Hs Hone Hb Hpar.
  destruct (new_request_ok method segs body Hne Hs) as (q & Hq & Hqm & Hqu & Hqb).
  set (q' := accept_and_key apiKey q).
  assert (Forall plain vals) as Hplain.
  { apply Forall_fmap. eapply Forall_impl; [exact Hs|]. intros t Ht. by apply k8s_name_plain. }
  assert (vals ≠ []) as Hvne by (by destruct segs).
  assert (rq_Method (set_User (deliver q')) = method) as Hmeth by (cbn; by rewrite deliver_method).
  assert (rq_Path (set_User (deliver q')) = path_of vals) as Hpath.
  { cbn. apply (deliver_path q' origin); [exact Horigin|exact Hvne|by apply Forall_fmap|exact Hqu]. }
  pose proof (mux_routed (set_User (deliver q')) vals i rt
                (λ k, default "" (param_value pats vals k)) Hvne Hplain Hpath) as H.
  rewrite Hmeth in H. destruct (H Hone Hi Hm Hb Hpar) as (r' & Hb' & Hu & Hp' & Hmux).
  exists q, r'. split_and!.
  - done.
  - rewrite Hb'. cbn. by rewrite deliver_body, <-Hqb.
  - by rewrite Hu.
  - clear -Hp' Hpar. induction Hpar as [|k ks [s Hk] _ IH]; [done|]. cbn [map omap list_omap].
    rewrite Hp' by left. rewrite Hk. cbn. f_equal. apply IH. intros k' Hk'. apply Hp'. by right.
  - change (applyEditors sdk_client q) with q'. unfold control_plane at 1. by rewrite Hmux.
Qed.

(** The operation that a method of the client reaches. *)
Lemma request_served G method segs body i rt :
  let vals := seg_value <$> segs in
  let pats := path_segments (rt_Pattern rt) in
  table !! i = Some rt → rt_Method rt = method →
  segs ≠ [] → Forall seg_ok segs → matching route_table method vals = [i] →
  binds (λ k, default "" (param_value pats vals k)) pats vals →
  Forall (λ k, is_Some (param_value pats vals k)) (rt_Params rt) →
  ∃ r', rq_Body r' = match body with Some j => print j | None => "" end ∧ rq_User r' = user
        ∧ map (rq_Param r') (rt_Params rt) = omap (param_value pats vals) (rt_Params rt)
        ∧ ∀ A (parse : HttpResp → Parsed A + gerr),
            same_runs G
              (serve control_plane
                 (with_response (do_request sdk_client (new_request method (c_Server sdk_client) segs body)) parse))
              (bind (rt_Handler rt r') (λ rep, Ret (parse (received (render rep))))).
Proof.
  intros vals pats Hi Hm Hne Hs Hone Hb Hpar.
  destruct (request_routed method segs body i rt Hi Hm Hne Hs Hone Hb Hpar)
    as (q & r' & Hq & Hb' & Hu & Hp' & Hmux).
  exists r'. split_and!; [done..|].
  intros A parse. rewrite Hq. unfold with_response. cbn [do_request].
  rewrite serve_bind. cbn [serve call]. rewrite Hmux, !bind_assoc_same.
  apply bind_proper; [reflexivity|]. intros rep. reflexivity.
Qed.

(** ** What the client makes of an answer *)

(** The message of an error answer; bytes of it that are not UTF-8 are replaced. *)
Definition seen_error (code : Z) (msg : string) : sdk_error :=
  APIError code (if coerce msg <>s "" then coerce msg else print (enc_error msg) +:+ newline).

Lemma seen_error_utf8 code msg :
  utf8 msg = true → msg ≠ "" → seen_error code msg = APIError code msg.
Proof.
  intros Hu Hn. unfold seen_error. rewrite coerce_utf8 by done.
  by rewrite (proj2 (String.eqb_neq _ _) Hn).
Qed.

Lemma error_body_read msg :
  unmarshal zero_Error dec_Error (print (enc_error msg) +:+ newline) = inl {| xerr_Error := coerce msg |}.
Proof.
  unfold unmarshal. destruct (parse_print_coerced (enc_error msg) eq_refl) as [_ ->].
  cbn [json_map enc_error map fst snd]. rewrite (coerce_utf8 "error") by reflexivity. reflexivity.
Qed.

Lemma received_error {A B} code code' msg (decode : string → A + gerr) errs (out : Parsed A → Http (B + sdk_error)) success :
  code' ≠ code → success = Some (code, decode) ∨ success = None →
  answer_with code out (parse_response success errs
    (received (render {| rep_Status := code'; rep_Payload := PError msg |})))
  = Ret (inr (seen_error code' msg)).
Proof.
  intros Hne Hs. unfold parse_response. cbn [received hs_Body render rep_Payload rep_Status rsp_Body
    rsp_Header rsp_Status hs_ContentType hs_Status].
  change (Contains (response_header _ _) "json") with true. cbn [andb].
  change (encode (PError msg)) with (print (enc_error msg) +:+ newline).
  assert ((match success with Some (c, _) => code' =? c | None => false end) = false) as ->.
  { destruct Hs as [-> | ->]; [|done]. by apply Z.eqb_neq. }
  rewrite error_body_read.
  assert (∀ e, answer_with code out (inl {| pr_StatusCode := code'; pr_Body := print (enc_error msg) +:+ newline;
            pr_JSON := None; pr_Error := e |}) = Ret (inr (seen_error code' msg))) as H.
  { intros e. unfold answer_with. cbn [pr_StatusCode pr_Body]. rewrite (proj2 (Z.eqb_neq _ _) Hne). cbn [negb].
    unfold apiError. rewrite error_body_read. done. }
  destruct (existsb _ errs); apply H.
Qed.

(** Every payload with JSON is announced as such. *)
Definition has_json (p : Payload) : Prop :=
  match p with PText _ | PNothing => False | _ => True end.

Lemma received_ok {A} code p (zero : A) (d : dec A) g errs :
  has_json p → json_ok (enc_Payload p) = true → d (enc_Payload p) zero = Some g →
  parse_response (Some (code, decode_as zero d)) errs
    (received (render {| rep_Status := code; rep_Payload := p |}))
  = inl {| pr_StatusCode := code; pr_Body := print (enc_Payload p) +:+ newline;
           pr_JSON := Some g; pr_Error := None |}.
Proof.
  intros Hp Hok Hd.
  assert (render {| rep_Status := code; rep_Payload := p |}
          = {| rsp_Status := code; rsp_Header := json_header; rsp_Body := encode p |}) as -> by by destruct p.
  unfold parse_response. cbn [received hs_Body rsp_Body rsp_Header rsp_Status hs_ContentType hs_Status].
  change (Contains (response_header _ _) "json") with true. rewrite Z.eqb_refl. cbn [andb].
  unfold decode_as, unmarshal. change (encode p) with (print (enc_Payload p) +:+ newline).
  destruct (parse_print _ Hok) as [_ ->]. by rewrite Hd.
Qed.

(** The end of a method: what is decoded is shown, a failure is an error. *)
Lemma got {A B} code p (zero : A) (d : dec A) g errs (f : A → B) b :
  has_json p → json_ok (enc_Payload p) = true → d (enc_Payload p) zero = Some g → f g = b →
  serve control_plane (answer_with code (dereferenced f)
    (parse_response (Some (code, decode_as zero d)) errs
       (received (render {| rep_Status := code; rep_Payload := p |})))) = Ret (inl b).
Proof.
  intros Hp Hok Hd <-. rewrite (received_ok _ _ _ _ g) by done.
  unfold answer_with. cbn. by rewrite Z.eqb_refl.
Qed.
Lemma got_converted {A B} code p (zero : A) (d : dec A) g errs (f : option A → B) b :
  has_json p → json_ok (enc_Payload p) = true → d (enc_Payload p) zero = Some g → f (Some g) = b →
  serve control_plane (answer_with code (converted f)
    (parse_response (Some (code, decode_as zero d)) errs
       (received (render {| rep_Status := code; rep_Payload := p |})))) = Ret (inl b).
Proof.
  intros Hp Hok Hd <-. rewrite (received_ok _ _ _ _ g) by done.
  unfold answer_with. cbn. by rewrite Z.eqb_refl.
Qed.
Lemma failed {A B} code code' msg (decode : string → A + gerr) errs (out : Parsed A → Http (B + sdk_error)) :
  code' ≠ code →
  serve control_plane (answer_with code out (parse_response (Some (code, decode)) errs
    (received (render {| rep_Status := code'; rep_Payload := PError msg |}))))
  = Ret (inr (seen_error code' msg)).
Proof. intros H. by rewrite (received_error _ _ _ decode) by auto. Qed.
Lemma failed_empty {B} code code' msg errs (out : Parsed unit → Http (B + sdk_error)) :
  code' ≠ code →
  serve control_plane (answer_with code out (parse_response None errs
    (received (render {| rep_Status := code'; rep_Payload := PError msg |}))))
  = Ret (inr (seen_error code' msg)).
Proof. intros H. by rewrite (received_error code _ _ (λ _, inr (errorf ""))) by auto. Qed.

(** A list of documents. *)
Lemma list_read {A B C} (enc : A → json) (d : dec B) (zero : B) (g : A → B) (f : B → C) (v : A → C) (items : list A) :
  (∀ a, json_ok (enc a) = true → d (enc a) zero = Some (g a)) →
  (∀ a, json_ok (enc a) = true → f (g a) = v a) → Forall (λ a, json_ok (enc a) = true) items →
  json_ok (JArr (enc <$> items)) = true ∧ d_slice zero d (JArr (enc <$> items)) [] = Some (g <$> items)
  ∧ f <$> (g <$> items) = v <$> items.
Proof.
  intros Hd Hv Hall. rewrite Forall_forall in Hall. split_and!.
  - cbn [json_ok]. apply forallb_forall. intros j Hj%list_elem_of_In.
    apply list_elem_of_fmap in Hj as (a & -> & Ha). auto.
  - apply d_slice_enc. auto.
  - rewrite <-list_fmap_compose. apply list_fmap_ext. intros i a Ha%list_elem_of_lookup_2. cbn. auto.
Qed.
Lemma items_read {A B} (enc : A → json) (d : dec B) (zero : B) (items : list A) l :
  json_ok (JArr (enc <$> items)) = true → d_slice zero d (JArr (enc <$> items)) [] = Some l →
  json_ok (enc_items enc items) = true ∧ d_slice zero d (enc_items enc items) [] = Some l.
Proof. unfold enc_items. destruct items; [|done]. destruct nil_slice; [|done]. by cbn. Qed.

Lemma received_nothing errs :
  answer_with 204 no_content (parse_response None errs
    (received (render {| rep_Status := 204; rep_Payload := PNothing |}))) = Ret (inl tt).
Proof. done. Qed.

(** The objects the API server and the control plane exchange have JSON documents. *)
Definition doc_ok (k : kind) : obj k → Prop :=
  match k return obj k → Prop with
  | KGameServer => λ s, json_ok (enc_api_GameServer s) = true
  | KGameProfile => λ p, json_ok (enc_api_Profile p) = true
  | KFleet => λ f, json_ok (enc_api_Fleet f) = true
  | KExec => λ e, json_ok (enc_api_Exec e) = true ∧ utf8 (om_Name (ae_Meta e)) = true
  | KSnap => λ s, json_ok (enc_api_Snapshot s) = true
  | _ => λ _, True
  end.
Definition exchanged (X : Type) (e : op X) : X → Prop :=
  match e in op X return X → Prop with
  | Get k _ _ => λ x, match x with inl o => doc_ok k o | inr _ => True end
  | ListObjs k _ _ | ListByField k _ _ _ => λ x, match x with inl l => Forall (doc_ok k) l | inr _ => True end
  | Create k o | Update k o => λ _, doc_ok k o
  | _ => λ _, True
  end.

#[local] Notation "p ≈ q" := (same_runs exchanged p q) (at level 70, no associativity).

(** Go to the handler of the route at a position. *)
Ltac reach i r Hbody Huser :=
  sending;
  rewrite serve_bind;
  lazymatch goal with
  | |- same_runs ?G (bind (serve _ (with_response (do_request _ (new_request ?m _ ?segs ?b)) _)) _) _ =>
      let Hp := fresh in let Hs := fresh in
      let found := eval hnf in (table !! i) in
      let rt := lazymatch found with Some ?rt => rt end in
      destruct (request_served G m segs b i rt) as (r & Hbody & Huser & Hp & Hs);
      [reflexivity|reflexivity|done
      |repeat constructor; (assumption || reflexivity)
      |vm_compute; reflexivity
      |vm_compute; repeat constructor
      |vm_compute; repeat constructor; eexists; reflexivity
      |rewrite Hs; clear Hs; rewrite bind_assoc_same; operation;
       vm_compute in Hp; try (injection Hp; clear Hp; intros);
       repeat match goal with
         | H : (match r with _ => _ end) ?k = ?v |- _ => change (rq_Param r k = v) in H
         end]
  end.
(** The handler, with the parameters of the request. *)
Ltac in_handler :=
  unfold p_namespace, p_name, writeError, respondJSON, respond;
  repeat match goal with H : rq_Param _ _ = _ |- _ => rewrite H; clear H end;
  rewrite bind_assoc_same.

(** The answer of one call, shown by [view]; a failure is status [code]. *)
Definition shown {A B} (code : Z) (view : A → B) (x : A + gerr) : B + sdk_error :=
  match x with inl a => inl (view a) | inr e => inr (seen_error code (ge_msg e)) end.
Definition done_or {B} (code : Z) (b : B) (e : option gerr) : B + sdk_error :=
  match e with None => inl b | Some e => inr (seen_error code (ge_msg e)) end.
(** The objects of a list that the user may see. *)
Definition visible_of {A} (ns : A → string) (l : list A) : list A :=
  filter (λ a, AllowsNamespace user (ns a)) l.

Ltac show_one reads_ view_ Hx :=
  first [erewrite got | erewrite got_converted];
  [reflexivity|exact I|exact Hx|by apply reads_|by apply view_].

(** ** Reading *)

Section Reading.
Variables (ns name : string).
Hypothesis Hns : k8s_name ns = true.
Hypothesis Hname : k8s_name name = true.

Lemma GetGameServer_served :
  serve control_plane (SdkClient.GetGameServer sdk_client ns name)
  ≈ bind (call (Get KGameServer ns name)) (λ x, Ret (shown 404 view_GameServer x)).
Proof.
  unfold SdkClient.GetGameServer, GetGameServerWithResponse, NewGetGameServerRequest.
  reach 11%nat r Hb Hu. unfold ControlPlane.GetGameServer. in_handler.
  apply same_bind_call. intros [s|e] Hx; cbn [bind shown].
  - unfold ParseGetGameServerResponse. show_one GameServer_reads fromGenGameServer_view Hx.
  - unfold ParseGetGameServerResponse. by rewrite failed.
Qed.

Lemma GetGameServerFleet_served :
  serve control_plane (SdkClient.GetGameServerFleet sdk_client ns name)
  ≈ bind (call (Get KFleet ns name)) (λ x, Ret (shown 404 view_Fleet x)).
Proof.
  unfold SdkClient.GetGameServerFleet, GetGameServerFleetWithResponse, NewGetGameServerFleetRequest.
  reach 6%nat r Hb Hu. unfold ControlPlane.GetGameServerFleet. in_handler.
  apply same_bind_call. intros [s|e] Hx; cbn [bind shown].
  - unfold ParseGetGameServerFleetResponse. show_one Fleet_reads fromGenFleet_view Hx.
  - unfold ParseGetGameServerFleetResponse. by rewrite failed.
Qed.

Lemma GetProfile_served :
  serve control_plane (SdkClient.GetProfile sdk_client name)
  ≈ bind (call (Get KGameProfile "" name)) (λ x, Ret (shown 404 view_Profile x)).
Proof.
  unfold SdkClient.GetProfile, GetProfileWithResponse, NewGetProfileRequest.
  reach 21%nat r Hb Hu. unfold ControlPlane.GetProfile. in_handler.
  apply same_bind_call. intros [s|e] Hx; cbn [bind shown].
  - unfold ParseGetProfileResponse. show_one Profile_reads fromGenProfile_view Hx.
  - unfold ParseGetProfileResponse. by rewrite failed.
Qed.

Lemma GetActionExecution_served (id : string) :
  k8s_name id = true →
  serve control_plane (SdkClient.GetActionExecution sdk_client ns name id)
  ≈ bind (call (Get KExec ns id)) (λ x, Ret (shown 404 view_Exec x)).
Proof.
  intros Hid.
  unfold SdkClient.GetActionExecution, GetActionExecutionWithResponse, NewGetActionExecutionRequest.
  reach 16%nat r Hb Hu. unfold ControlPlane.GetActionExecution. in_handler.
  apply same_bind_call. intros [s|e] Hx; cbn [bind shown].
  - destruct Hx as [Hx _].
    unfold ParseGetActionExecutionResponse. show_one Exec_reads fromGenExecution_view Hx.
  - unfold ParseGetActionExecutionResponse. by rewrite failed.
Qed.

(** What a user is shown of the SFTP access of a server, and the calls for it. The
    data of its secret are bytes; the answer shows them as text. *)
Definition text_secret (k : kind) : obj k → Prop :=
  match k return obj k → Prop with
  | KSecret => λ s, ∀ key v, sec_Data s !! key = Some v → utf8 v = true
  | k => doc_ok k
  end.
Definition text_exchanged (X : Type) (e : op X) : X → Prop :=
  match e in op X return X → Prop with
  | Get k _ _ => λ x, match x with inl o => text_secret k o | inr _ => True end
  | e => exchanged _ e
  end.
Definition no_sftp (msg : string) : M (sdk_SFTPInfo + sdk_error) := Ret (inr (seen_error 404 msg)).
Definition where_ : string := ns +:+ "/" +:+ name.
Definition sftp_access : M (sdk_SFTPInfo + sdk_error) :=
  bind (call (Get KGameServer ns name)) (λ x, match x with
  | inr e => Ret (inr (seen_error 404 (ge_msg e)))
  | inl server =>
      bind (call (Get KGameProfile "" (gs_Profile (gs_Spec server)))) (λ x, match x with
      | inr e => Ret (inr (seen_error 404 (ge_msg e)))
      | inl profile =>
          if negb (SFTPEnabled profile) then no_sftp ("sftp is not enabled for game server " +:+ where_) else
          match find_first (λ e, ep_Name e =s SFTPPortName) (gss_Endpoints (gs_Status server)) with
          | None => no_sftp ("sftp endpoint for game server " +:+ where_ +:+ " is not published yet")
          | Some endpoint =>
              bind (call (Get KSecret ns (SFTPSecretName name))) (λ x, match x with
              | inr _ => no_sftp ("sftp credentials for game server " +:+ where_ +:+
                                " are not provisioned yet")
              | inl secret =>
                  let username := default "" (sec_Data secret !! SFTPUsernameKey) in
                  let password := default "" (sec_Data secret !! SFTPPasswordKey) in
                  if (username =s "") || (password =s "")
                  then no_sftp ("sftp credentials for game server " +:+ where_ +:+ " are incomplete")
                  else bind (LogAction "gameserver.sftp-info-read" name user) (λ _,
                    Ret (inl {| sf_Host := ep_Address endpoint; sf_Port := wrap32 (ep_Port endpoint);
                                sf_Username := username; sf_Password := password |}))
              end)
          end
      end)
  end).

Lemma server_endpoints_ok s :
  json_ok (enc_api_GameServer s) = true →
  Forall (λ e, json_ok (enc_api_Endpoint e) = true) (gss_Endpoints (gs_Status s)).
Proof.
  unfold enc_api_GameServer. rewrite !json_ok_app. intros (_ & _ & _ & Hs).
  assert (json_ok (JObj (gs_status_members (gs_Status s))) = true) as H.
  { unfold m_status in Hs. destruct (gs_status_members _); [done|].
    cbn [json_ok forallb fst snd] in Hs. rewrite andb_true_r in Hs. by apply andb_true_iff in Hs as [_ Hs]. }
  unfold gs_status_members in H. rewrite !json_ok_app in H. destruct H as (_ & _ & _ & _ & _ & Ha & _).
  destruct (gss_Endpoints (gs_Status s)) as [|a l]; [constructor|].
  cbn [m_list json_ok forallb fst snd] in Ha. rewrite andb_true_r in Ha. apply andb_true_iff in Ha as [_ Ha].
  rewrite forallb_forall in Ha. apply Forall_forall. intros b Hb. apply Ha, list_elem_of_In.
  by apply list_elem_of_fmap_2.
Qed.

Lemma SFTPInfo_members i :
  enc_SFTPInfo i = JObj ([("host", JStr (si_Host i))] ++ [("password", JStr (si_Password i))]
    ++ [("port", JNum (si_Port i))] ++ [("username", JStr (si_Username i))]).
Proof. done. Qed.
Lemma json_ok_member k v : utf8 k = true → json_ok (JObj [(k, v)]) = json_ok v.
Proof. cbn [json_ok forallb fst snd]. intros ->. cbn [andb]. by rewrite andb_true_r. Qed.
Lemma SFTPInfo_reads i : json_ok (enc_SFTPInfo i) = true →
  dec_SFTPInfo (enc_SFTPInfo i) zero_SFTPInfo
  = Some {| xsf_Host := si_Host i; xsf_Password := si_Password i; xsf_Port := si_Port i;
            xsf_Username := si_Username i |}.
Proof.
  rewrite SFTPInfo_members. reads_object.
Qed.

Lemma GetSFTPInfo_served :
  same_runs text_exchanged (serve control_plane (SdkClient.GetSFTPInfo sdk_client ns name)) sftp_access.
Proof.
  unfold SdkClient.GetSFTPInfo, GetSFTPInfoWithResponse, NewGetSFTPInfoRequest, sftp_access.
  reach 17%nat r Hb Hu. unfold ControlPlane.GetSFTPInfo, GetUser, ParseGetSFTPInfoResponse. rewrite Hu.
  in_handler. apply same_bind_call. intros [s|e] Hs; cbv beta iota; [|cbn [bind]; by rewrite failed].
  apply server_endpoints_ok in Hs. rewrite Forall_forall in Hs.
  rewrite bind_assoc_same. apply same_bind_call. intros [p|e] _; cbv beta iota; [|cbn [bind]; by rewrite failed].
  destruct (SFTPEnabled p); cbn [negb]; [|cbn [bind]; by rewrite failed].
  destruct (find_first _ _) as [ep|] eqn:Hep; [|cbn [bind]; by rewrite failed].
  apply find_first_Some in Hep as [Hep%Hs _].
  rewrite bind_assoc_same. apply same_bind_call. intros [secret|e] Hd; cbv beta iota zeta;
    [|cbn [bind]; by rewrite failed].
  assert (Hu8 : ∀ key, utf8 (default "" (sec_Data secret !! key)) = true).
  { intros key. destruct (sec_Data secret !! key) as [v|] eqn:Hk; [by apply (Hd key)|done]. }
  pose proof (Hu8 SFTPUsernameKey) as H1. pose proof (Hu8 SFTPPasswordKey) as H2. revert H1 H2.
  generalize (default "" (sec_Data secret !! SFTPUsernameKey)) (default "" (sec_Data secret !! SFTPPasswordKey)).
  intros u w H1 H2. destruct ((u =s "") || (w =s "")); [cbn [bind]; by rewrite failed|].
  rewrite bind_assoc_same. apply bind_proper; [done|]. intros _. cbn [bind].
  set (i := {| si_Host := _ |}).
  assert (Hi : json_ok (enc_SFTPInfo i) = true).
  { rewrite SFTPInfo_members, !json_ok_app. unfold enc_api_Endpoint in Hep. rewrite !json_ok_app in Hep.
    destruct Hep as (_ & Ha & Hp). split_and!; by rewrite json_ok_member in * by reflexivity. }
  by rewrite (got _ (PSFTP i) _ _ _ _ _ _ I Hi (SFTPInfo_reads i Hi) eq_refl).
Qed.
End Reading.

(** *** Lists *)

Lemma profile_actions_ok p :
  json_ok (enc_api_Profile p) = true →
  Forall (λ a, json_ok (enc_api_ActionDecl a) = true) (gp_Actions (gp_Spec p)).
Proof.
  unfold enc_api_Profile. rewrite !json_ok_app. intros (_ & _ & Hs & _).
  cbn [json_ok forallb fst snd] in Hs. rewrite andb_true_r in Hs. apply andb_true_iff in Hs as [_ Hs].
  unfold enc_api_GameProfileSpec in Hs. rewrite !json_ok_app in Hs.
  destruct Hs as (_ & _ & _ & _ & _ & _ & _ & _ & _ & _ & _ & Ha & _).
  destruct (gp_Actions (gp_Spec p)) as [|a l]; [constructor|].
  cbn [m_list json_ok forallb fst snd] in Ha. rewrite andb_true_r in Ha. apply andb_true_iff in Ha as [_ Ha].
  rewrite forallb_forall in Ha. apply Forall_forall. intros b Hb. apply Ha, list_elem_of_In.
  by apply list_elem_of_fmap_2.
Qed.

Lemma visible_ok {A} (P : A → Prop) ns l : Forall P l → Forall P (visible_of ns l).
Proof.
  rewrite !Forall_forall. intros H a [_ Ha]%list_elem_of_filter. auto.
Qed.

Lemma ListGameServers_served :
  serve control_plane (SdkClient.ListGameServers sdk_client)
  ≈ bind (call (ListObjs KGameServer None [])) (λ x,
      Ret (shown 500 (λ l, view_GameServer <$> visible_of (λ s, om_Namespace (gs_Meta s)) l) x)).
Proof.
  unfold SdkClient.ListGameServers, ListGameServersWithResponse, NewListGameServersRequest.
  reach 8%nat r Hb Hu. unfold ControlPlane.ListGameServers, visible, GetUser. rewrite Hu. in_handler.
  apply same_bind_call. intros [l|e] Hx; cbn [bind shown].
  - apply (visible_ok _ (λ s, om_Namespace (gs_Meta s))) in Hx. fold (visible_of (λ s, om_Namespace (gs_Meta s)) l).
    destruct (list_read enc_api_GameServer _ _ gen_of_GameServer (λ g, fromGenGameServer (Some g)) view_GameServer
                _ GameServer_reads fromGenGameServer_view Hx) as (Hok & Hd & Hv).
    unfold ParseListGameServersResponse. erewrite (got _ (PGameServers _)); [reflexivity|exact I|exact Hok|exact Hd|exact Hv].
  - unfold ParseListGameServersResponse. by rewrite failed.
Qed.

Lemma ListGameServerFleets_served :
  serve control_plane (SdkClient.ListGameServerFleets sdk_client)
  ≈ bind (call (ListObjs KFleet None [])) (λ x,
      Ret (shown 500 (λ l, view_Fleet <$> visible_of (λ f, om_Namespace (fl_Meta f)) l) x)).
Proof.
  unfold SdkClient.ListGameServerFleets, ListGameServerFleetsWithResponse, NewListGameServerFleetsRequest.
  reach 3%nat r Hb Hu. unfold ControlPlane.ListGameServerFleets, visible, GetUser. rewrite Hu. in_handler.
  apply same_bind_call. intros [l|e] Hx; cbn [bind shown].
  - apply (visible_ok _ (λ f, om_Namespace (fl_Meta f))) in Hx. fold (visible_of (λ f, om_Namespace (fl_Meta f)) l).
    destruct (list_read enc_api_Fleet _ _ gen_of_Fleet fromGenFleet view_Fleet
                _ Fleet_reads fromGenFleet_view Hx) as (Hok & Hd & Hv).
    unfold ParseListGameServerFleetsResponse. erewrite (got _ (PFleets _)); [reflexivity|exact I|exact Hok|exact Hd|exact Hv].
  - unfold ParseListGameServerFleetsResponse. by rewrite failed.
Qed.

Lemma ListProfiles_served :
  serve control_plane (SdkClient.ListProfiles sdk_client)
  ≈ bind (call (ListObjs KGameProfile None [])) (λ x, Ret (shown 500 (λ l : list GameProfile, view_Profile <$> l) x)).
Proof.
  unfold SdkClient.ListProfiles, ListProfilesWithResponse, NewListProfilesRequest.
  reach 20%nat r Hb Hu. unfold ControlPlane.ListProfiles. in_handler.
  apply same_bind_call. intros [l|e] Hx; cbn [bind shown].
  - destruct (list_read enc_api_Profile _ _ gen_of_Profile fromGenProfile view_Profile
                _ Profile_reads fromGenProfile_view Hx) as (Hok & Hd & Hv).
    destruct (items_read _ _ _ _ _ Hok Hd) as [Hok' Hd'].
    unfold ParseListProfilesResponse. erewrite (got _ (PProfiles _)); [reflexivity|exact I|exact Hok'|exact Hd'|exact Hv].
  - unfold ParseListProfilesResponse. by rewrite failed.
Qed.

(** The actions of a server are those of its profile. *)
Lemma ListActions_served ns name :
  k8s_name ns = true → k8s_name name = true →
  serve control_plane (SdkClient.ListActions sdk_client ns name)
  ≈ bind (call (Get KGameServer ns name)) (λ x,
      match x with
      | inr e => Ret (inr (seen_error 404 (ge_msg e)))
      | inl s => bind (call (Get KGameProfile "" (gs_Profile (gs_Spec s)))) (λ x,
          Ret (shown 404 (λ p, view_ActionDecl <$> gp_Actions (gp_Spec p)) x))
      end).
Proof.
  intros Hns Hname. unfold SdkClient.ListActions, ListActionsWithResponse, NewListActionsRequest.
  reach 13%nat r Hb Hu. unfold ControlPlane.ListActions. in_handler.
  apply same_bind_call. intros [s|e] _; cbv beta iota; unfold ParseListActionsResponse;
    [|cbn [bind]; by rewrite failed]. rewrite bind_assoc_same.
  apply same_bind_call. intros [p|e] Hx; cbn [bind shown]; [|by rewrite failed].
  assert (Forall (λ a, json_ok (enc_api_ActionDecl a) = true) (gp_Actions (gp_Spec p))) as Ha.
  { by apply profile_actions_ok. }
  destruct (list_read enc_api_ActionDecl _ _ gen_of_ActionDecl fromGenAction view_ActionDecl
              _ ActionDecl_reads ltac:(intros; apply fromGenAction_view) Ha) as (Hok & Hd & Hv).
  destruct (items_read _ _ _ _ _ Hok Hd) as [Hok' Hd'].
  erewrite (got _ (PActions _)); [reflexivity|exact I|exact Hok'|exact Hd'|exact Hv].
Qed.

Definition view_Snapshots (l : list GameSnapshot) : list sdk_GameSnapshot := view_Snapshot <$> l.
Definition snapshots_of (name : string) (l : list GameSnapshot) : list GameSnapshot :=
  filter (λ s, sn_GameServerRef (sn_Spec s) = name) l.
(** Snapshots of the server; the index of the API server, or a filter of all of the
    namespace's. *)
Lemma ListSnapshots_served ns name :
  k8s_name ns = true → k8s_name name = true →
  serve control_plane (SdkClient.ListSnapshots sdk_client ns name)
  ≈ bind (call (ListByField KSnap ns "spec.gameServerRef" name)) (λ x,
      match x with
      | inl l => Ret (inl (view_Snapshots l))
      | inr _ => bind (call (ListObjs KSnap (Some ns) [])) (λ x,
          Ret (shown 500 (λ l, view_Snapshots (snapshots_of name l)) x))
      end).
Proof.
  intros Hns Hname. unfold SdkClient.ListSnapshots, ListSnapshotsWithResponse, NewListSnapshotsRequest.
  reach 18%nat r Hb Hu. unfold ControlPlane.ListSnapshots. in_handler.
  assert (∀ l, Forall (doc_ok KSnap) l →
    serve control_plane (answer_with 200 (dereferenced (fmap fromGenSnapshot)) (ParseListSnapshotsResponse
      (received (render {| rep_Status := 200; rep_Payload := PSnapshots l |})))) = Ret (inl (view_Snapshot <$> l))) as Hl.
  { intros l Hx. destruct (list_read enc_api_Snapshot _ _ gen_of_Snapshot fromGenSnapshot view_Snapshot
                _ Snapshot_reads fromGenSnapshot_view Hx) as (Hok & Hd & Hv).
    destruct (items_read _ _ _ _ _ Hok Hd) as [Hok' Hd'].
    unfold ParseListSnapshotsResponse. erewrite (got _ (PSnapshots _)); [reflexivity|exact I|exact Hok'|exact Hd'|exact Hv]. }
  apply same_bind_call. intros [l|e] Hx; cbv beta iota; [cbn [bind]; by rewrite Hl|].
  rewrite bind_assoc_same. apply same_bind_call. intros [l|e'] Hx'; cbn [bind shown].
  - fold (snapshots_of name l). rewrite Hl; [reflexivity|]. cbn in Hx'.
    rewrite Forall_forall in Hx'. apply Forall_forall. intros s [_ Hs]%list_elem_of_filter. by apply Hx'.
  - unfold ParseListSnapshotsResponse. by rewrite failed.
Qed.

(** ** Writing *)

(** The body of a request, read by the handler. *)
Lemma body_read {A} (zero : A) (d : dec A) j a :
  json_ok j = true → d j zero = Some a → unmarshal zero d (print j) = inl a.
Proof. intros Hok Hd. unfold unmarshal. destruct (parse_print _ Hok) as [-> _]. by rewrite Hd. Qed.

Section Writing.
Variables (ns name : string).
Hypothesis Hns : k8s_name ns = true.
Hypothesis Hname : k8s_name name = true.

(** The object created is the SDK's, in the namespace of the path. *)
Definition created_GameServer (gs : sdk_GameServer) : GameServer :=
  gs_set_Namespace ns (sent_GameServer (set_type gs)).
Lemma CreateGameServer_served gs :
  is_int32 (ss_Lifecycle_IdleTimeoutSeconds (sg_Spec gs)) →
  json_ok (enc_GameServer (toGenGameServer (set_type gs))) = true →
  serve control_plane (SdkClient.CreateGameServer sdk_client ns gs)
  ≈ bind (EnsureNamespace ns tenantCfg) (λ e,
      match e with
      | Some err => Ret (set_type gs, inr (seen_error 500 (ge_msg err)))
      | None =>
          bind (call (Create KGameServer (created_GameServer gs))) (λ e,
            Ret (set_type gs, done_or 500 (view_GameServer (created_GameServer gs)) e))
      end).
Proof.
  intros Hr Hok. unfold SdkClient.CreateGameServer, CreateGameServerWithResponse, NewCreateGameServerRequest.
  reach 9%nat r Hb Hu. unfold ControlPlane.CreateGameServer. cbn [decode_GameServer api_Decode].
  rewrite Hb, (body_read _ _ _ (sent_GameServer (set_type gs))) by (done || by apply GameServer_body).
  in_handler. apply bind_proper; [done|]. intros [err|]; cbv beta iota zeta.
  { cbn [bind]. rewrite serve_bind. unfold ParseCreateGameServerResponse. by rewrite failed. }
  rewrite bind_assoc_same. apply same_bind_call. intros [err|] Hx; cbn [bind done_or].
  - rewrite serve_bind. unfold ParseCreateGameServerResponse. by rewrite failed.
  - rewrite serve_bind. unfold ParseCreateGameServerResponse.
    erewrite got_converted; [|exact I|exact Hx|by apply GameServer_reads|by apply fromGenGameServer_view].
    reflexivity.
Qed.

Lemma DeleteGameServer_served :
  serve control_plane (SdkClient.DeleteGameServer sdk_client ns name)
  ≈ bind (call (Delete KGameServer ns name)) (λ e, Ret (done_or 500 tt e)).
Proof.
  unfold SdkClient.DeleteGameServer, DeleteGameServerWithResponse, NewDeleteGameServerRequest.
  reach 10%nat r Hb Hu. unfold ControlPlane.DeleteGameServer. in_handler.
  apply same_bind_call. intros [e|] Hx; cbn [bind done_or]; unfold ParseDeleteGameServerResponse.
  - by rewrite failed_empty.
  - by rewrite received_nothing.
Qed.

Lemma DeleteGameServerFleet_served :
  serve control_plane (SdkClient.DeleteGameServerFleet sdk_client ns name)
  ≈ bind (call (Delete KFleet ns name)) (λ e,
      match e with
      | Some err => Ret (inr (seen_error 500 (ge_msg err)))
      | None => bind (LogAction "gameserverfleet.deleted" name user) (λ _, Ret (inl tt))
      end).
Proof.
  unfold SdkClient.DeleteGameServerFleet, DeleteGameServerFleetWithResponse, NewDeleteGameServerFleetRequest.
  reach 5%nat r Hb Hu. unfold ControlPlane.DeleteGameServerFleet, GetUser. rewrite Hu. in_handler.
  apply same_bind_call. intros [e|] Hx; cbv beta iota; unfold ParseDeleteGameServerFleetResponse.
  - cbn [bind]. by rewrite failed_empty.
  - rewrite bind_assoc_same. apply bind_proper; [done|]. intros _. cbn [bind]. by rewrite received_nothing.
Qed.

Lemma lifecycle_patch_ok a i :
  (∀ z, i = Some z → is_int32 z) →
  json_ok (enc_GameServerLifecyclePatch (lifecycle_patch a i)) = true.
Proof.
  intros Hr. destruct i as [z|]; [|by destruct a].
  specialize (Hr z eq_refl) as [H1 H2].
  assert (json_ok (JNum z) = true) as Hz by (cbn; apply andb_true_iff; split; apply Z.leb_le; lia).
  destruct a; cbn [enc_GameServerLifecyclePatch lifecycle_patch xlp_Lifecycle m_ptr enc_Lifecycle m_pbool m_pint
    xl_AutoStart xl_IdleTimeoutSeconds app json_ok forallb fst snd]; cbn [json_ok] in Hz; by rewrite Hz.
Qed.
(** A change to a server's lifecycle: what the handler refuses, it refuses before any call. *)
Definition patched (a : option bool) (i : option Z) (s : GameServer) : GameServer :=
  gs_set_Lifecycle (patch_lifecycle {| lp_AutoStart := a; lp_IdleTimeoutSeconds := i |}
                      (gs_Lifecycle (gs_Spec s))) s.
Lemma UpdateGameServerLifecycle_served a i :
  (∀ z, i = Some z → 0 <= z <= 2147483647) → (a ≠ None ∨ i ≠ None) →
  serve control_plane (SdkClient.UpdateGameServerLifecycle sdk_client ns name a i)
  ≈ bind (call (Get KGameServer ns name)) (λ x,
      match x with
      | inr e => Ret (inr (seen_error 404 (ge_msg e)))
      | inl s =>
          bind (call (Update KGameServer (patched a i s))) (λ e,
            match e with
            | Some err => Ret (inr (seen_error 500 (ge_msg err)))
            | None => bind (LogAction "gameserver.lifecycle-updated" (om_Name (gs_Meta s)) user) (λ _,
                Ret (inl (view_GameServer (patched a i s))))
            end)
      end).
Proof.
  intros Hi Hset.
  assert (∀ z, i = Some z → is_int32 z) as Hr by (intros z Hz; specialize (Hi z Hz); unfold is_int32; lia).
  assert (json_ok (enc_GameServerLifecyclePatch (lifecycle_patch a i)) = true) as Hok.
  { apply lifecycle_patch_ok. done. }
  unfold SdkClient.UpdateGameServerLifecycle, UpdateGameServerLifecycleWithResponse, NewUpdateGameServerLifecycleRequest.
  reach 12%nat r Hb Hu. unfold ControlPlane.UpdateGameServerLifecycle, GetUser.
  cbn [decode_LifecyclePatch api_Decode].
  rewrite Hb, Hu, (body_read _ _ _ _ Hok (lifecycle_patch_body a i Hr)).
  cbn [lp_AutoStart lp_IdleTimeoutSeconds].
  assert (match i with Some n => n <? 0 | None => false end = false) as ->.
  { destruct i as [z|]; [|done]. specialize (Hi z eq_refl). apply Z.ltb_ge. lia. }
  assert (∀ X (k1 k2 : X), match a, i with None, None => k1 | _, _ => k2 end = k2) as Hm.
  { intros X k1 k2. destruct a; [done|]. destruct i; [done|]. by destruct Hset. }
  rewrite Hm. in_handler.
  apply same_bind_call. intros [s|e] Hx; cbv beta iota zeta; unfold ParseUpdateGameServerLifecycleResponse;
    [|cbn [bind]; by rewrite failed].
  rewrite bind_assoc_same. apply same_bind_call. intros [e|] Hx'; cbv beta iota; [cbn [bind]; by rewrite failed|].
  rewrite bind_assoc_same. apply bind_proper; [done|]. intros _. cbn [bind].
  erewrite got_converted; [reflexivity|exact I|exact Hx'|by apply GameServer_reads|].
  by apply fromGenGameServer_view.
Qed.

(** An action is started by the user the request is authenticated as. *)
Definition started_exec (action : string) (params : gomap string) (caller : string) (now : Z)
  : ActionExecution := {|
  ae_Meta := new_meta (name +:+ "-" +:+ action +:+ "-" +:+ itoa (unix now)) ns None;
  ae_Spec := {|
    ae_TargetRef := {| tr_APIVersion := "operator.minato.io/v1"; tr_Kind := "GameServer";
                       tr_Name := name; tr_Namespace := ns |};
    ae_ActionName := action; ae_Params := params; ae_Caller := caller |};
  ae_Status := {| aes_State := ActionExecutionNew; aes_StartedAt := None; aes_EndedAt := None;
                  aes_AgentResponse := ""; aes_Error := ""; aes_Conditions := [] |} |}.
Lemma ExecuteAction_served u action params :
  user = Some u → us_Source u ≠ "none" → k8s_name action = true → json_ok (enc_params params) = true →
  serve control_plane (SdkClient.ExecuteAction sdk_client ns name action params)
  ≈ bind (call Now) (λ now,
      bind (call (Create KExec (started_exec action params (us_Username u) now))) (λ e,
        Ret (done_or 500 (om_Name (ae_Meta (started_exec action params (us_Username u) now))) e))).
Proof.
  intros Huser Hsrc Haction Hok.
  unfold SdkClient.ExecuteAction, ExecuteActionWithResponse, NewExecuteActionRequest.
  reach 14%nat r Hb Hu. unfold ControlPlane.ExecuteAction, action_caller, GetUser.
  cbn [decode_params api_Decode].
  rewrite Hb, Hu, Huser, (body_read _ _ _ _ Hok (params_body params)).
  rewrite (proj2 (String.eqb_neq _ _) Hsrc). cbn [negb].
  in_handler. apply same_bind_call. intros now _. cbv beta iota zeta.
  fold (started_exec action params (us_Username u) now).
  rewrite bind_assoc_same. apply same_bind_call. unfold ParseExecuteActionResponse.
  intros [e|] [_ Hn]; cbn [bind done_or]; [by rewrite failed|].
  erewrite (got _ (PExecName _) _ _ {| xer_Name := _ |}); [|exact I| |reflexivity|reflexivity]; [reflexivity|].
  cbn [enc_Payload json_ok forallb fst snd]. rewrite Hn. reflexivity.
Qed.

Definition new_snapshot (now : Z) : GameSnapshot := {|
  sn_Meta := new_meta (name +:+ "-snap-" +:+ itoa (unix now)) ns None;
  sn_Spec := {| sn_GameServerRef := name; sn_Schedule := "";
                sn_Retention := {| ret_Count := 0; ret_Duration := "" |} |};
  sn_Status := {| sns_Snapshots := []; sns_LastSnapshotAt := None; sns_Conditions := [] |} |}.
Lemma CreateSnapshot_served :
  serve control_plane (SdkClient.CreateSnapshot sdk_client ns name)
  ≈ bind (call Now) (λ now,
      bind (call (Create KSnap (new_snapshot now))) (λ e,
        Ret (done_or 500 (view_Snapshot (new_snapshot now)) e))).
Proof.
  unfold SdkClient.CreateSnapshot, CreateSnapshotWithResponse, NewCreateSnapshotRequest.
  reach 19%nat r Hb Hu. unfold ControlPlane.CreateSnapshot.
  in_handler. apply same_bind_call. intros now _. cbv beta iota zeta. fold (new_snapshot now).
  rewrite bind_assoc_same. apply same_bind_call. unfold ParseCreateSnapshotResponse.
  intros [e|] Hx; cbn [bind done_or]; [by rewrite failed|].
  show_one Snapshot_reads fromGenSnapshot_view Hx.
Qed.

(** *** Fleets *)

Definition created_Fleet (f : sdk_GameServerFleet) : GameServerFleet :=
  fleet_set_Namespace ns (sent_Fleet f).
Lemma CreateGameServerFleet_served f :
  sl_Profile f ≠ "" → 0 <= sl_Replicas f <= 2147483647 →
  json_ok (fleet_document f) = true → json_ok (enc_GameServerFleet (gen_sent_Fleet f)) = true →
  serve control_plane (SdkClient.CreateGameServerFleet sdk_client ns f)
  ≈ bind (call (Get KGameProfile "" (sl_Profile f))) (λ x,
      match x with
      | inr err => Ret (inr (seen_error 400
          (ge_msg (wrapf ("profile " +:+ fmt_q (sl_Profile f) +:+ " not found") err))))
      | inl _ => bind (EnsureNamespace ns tenantCfg) (λ e,
          match e with
          | Some err => Ret (inr (seen_error 500 (ge_msg err)))
          | None => bind (call (Create KFleet (created_Fleet f))) (λ e,
              match e with
              | Some err => Ret (inr (seen_error 500 (ge_msg err)))
              | None => bind (LogAction "gameserverfleet.created" (so_Name (sl_Metadata f)) user) (λ _,
                  Ret (inl (view_Fleet (created_Fleet f))))
              end)
          end)
      end).
Proof.
  intros Hp Hr Hdoc Hok. assert (is_int32 (sl_Replicas f)) as Hr32 by (unfold is_int32; lia).
  unfold SdkClient.CreateGameServerFleet.
  rewrite (body_read _ _ _ _ Hdoc (fleet_document_read f Hdoc)).
  unfold CreateGameServerFleetWithResponse, NewCreateGameServerFleetRequest.
  reach 4%nat r Hb Hu. unfold ControlPlane.CreateGameServerFleet, GetUser. cbn [decode_Fleet api_Decode].
  rewrite Hb, Hu, (body_read _ _ _ _ Hok (Fleet_body f Hr32 Hok)).
  cbn [fl_Spec sent_Fleet fl_Profile fl_Replicas].
  rewrite (proj2 (String.eqb_neq _ _) Hp). assert ((sl_Replicas f <? 0) = false) as -> by (apply Z.ltb_ge; lia).
  unfold ParseCreateGameServerFleetResponse.
  in_handler. apply same_bind_call. intros [p|e] _; cbv beta iota; [|cbn [bind]; by rewrite failed].
  rewrite bind_assoc_same. apply bind_proper; [done|]. intros [e|]; cbv beta iota zeta; [cbn [bind]; by rewrite failed|].
  rewrite bind_assoc_same. fold (created_Fleet f). apply same_bind_call.
  intros [e|] Hx; cbv beta iota; [cbn [bind]; by rewrite failed|].
  rewrite bind_assoc_same. apply bind_proper; [done|]. intros _. cbn [bind].
  show_one Fleet_reads fromGenFleet_view Hx.
Qed.

Lemma ScaleGameServerFleet_served n :
  0 <= n <= 2147483647 →
  serve control_plane (SdkClient.ScaleGameServerFleet sdk_client ns name n)
  ≈ bind (call (Get KFleet ns name)) (λ x,
      match x with
      | inr e => Ret (inr (seen_error 404 (ge_msg e)))
      | inl f =>
          bind (call (Update KFleet (fleet_set_Replicas n f))) (λ e,
            match e with
            | Some err => Ret (inr (seen_error 500 (ge_msg err)))
            | None => bind (LogAction "gameserverfleet.scaled" (om_Name (fl_Meta f)) user) (λ _,
                Ret (inl (view_Fleet (fleet_set_Replicas n f))))
            end)
      end).
Proof.
  intros Hn. assert (is_int32 n) as Hr by (unfold is_int32; lia).
  assert (json_ok (enc_GameServerFleetPatch {| xfp_Replicas := Some (Some n) |}) = true) as Hok.
  { cbn [enc_GameServerFleetPatch xfp_Replicas m_ptr m_pint json_ok forallb fst snd].
    rewrite (proj2 (Z.leb_le _ _)) by lia. by rewrite (proj2 (Z.leb_le _ _)) by lia. }
  unfold SdkClient.ScaleGameServerFleet, UpdateGameServerFleetWithResponse, NewUpdateGameServerFleetRequest.
  reach 7%nat r Hb Hu. unfold ControlPlane.UpdateGameServerFleet, GetUser. cbn [decode_FleetPatch api_Decode].
  rewrite Hb, Hu, (body_read _ _ _ _ Hok (fleet_patch_body n Hr)).
  assert ((n <? 0) = false) as -> by (apply Z.ltb_ge; lia).
  unfold ParseUpdateGameServerFleetResponse.
  in_handler. apply same_bind_call. intros [f|e] _; cbv beta iota zeta; [|cbn [bind]; by rewrite failed].
  rewrite bind_assoc_same. apply same_bind_call. intros [e|] Hx; cbv beta iota; [cbn [bind]; by rewrite failed|].
  rewrite bind_assoc_same. apply bind_proper; [done|]. intros _. cbn [bind].
  show_one Fleet_reads fromGenFleet_view Hx.
Qed.
End Writing.

(** ** The two groups *)

(** C18: reading through the SDK. Whatever the API server answers, a getter of the SDK against
    the control plane is one read of the object, and shows the object's view, or
    the API server's message with status 404; a list is one list call, of which it
    shows the objects of the namespaces the user may see; the actions of a server are
    those of the profile it names; the snapshots are those of the server; its SFTP
    access is its published endpoint with the credentials of its secret
    ([sftp_access]), for a secret of UTF-8. *)
Theorem sdk_reads ns name id :
  k8s_name ns = true → k8s_name name = true → k8s_name id = true →
  serve control_plane (SdkClient.GetGameServer sdk_client ns name)
    ≈ bind (call (Get KGameServer ns name)) (λ x, Ret (shown 404 view_GameServer x))
  ∧ serve control_plane (SdkClient.GetGameServerFleet sdk_client ns name)
    ≈ bind (call (Get KFleet ns name)) (λ x, Ret (shown 404 view_Fleet x))
  ∧ serve control_plane (SdkClient.GetProfile sdk_client name)
    ≈ bind (call (Get KGameProfile "" name)) (λ x, Ret (shown 404 view_Profile x))
  ∧ serve control_plane (SdkClient.GetActionExecution sdk_client ns name id)
    ≈ bind (call (Get KExec ns id)) (λ x, Ret (shown 404 view_Exec x))
  ∧ serve control_plane (SdkClient.ListGameServers sdk_client)
    ≈ bind (call (ListObjs KGameServer None [])) (λ x,
        Ret (shown 500 (λ l, view_GameServer <$> visible_of (λ s, om_Namespace (gs_Meta s)) l) x))
  ∧ serve control_plane (SdkClient.ListGameServerFleets sdk_client)
    ≈ bind (call (ListObjs KFleet None [])) (λ x,
        Ret (shown 500 (λ l, view_Fleet <$> visible_of (λ f, om_Namespace (fl_Meta f)) l) x))
  ∧ serve control_plane (SdkClient.ListProfiles sdk_client)
    ≈ bind (call (ListObjs KGameProfile None [])) (λ x,
        Ret (shown 500 (λ l : list GameProfile, view_Profile <$> l) x))
  ∧ serve control_plane (SdkClient.ListActions sdk_client ns name)
    ≈ bind (call (Get KGameServer ns name)) (λ x,
        match x with
        | inr e => Ret (inr (seen_error 404 (ge_msg e)))
        | inl s => bind (call (Get KGameProfile "" (gs_Profile (gs_Spec s)))) (λ x,
            Ret (shown 404 (λ p, view_ActionDecl <$> gp_Actions (gp_Spec p)) x))
        end)
  ∧ serve control_plane (SdkClient.ListSnapshots sdk_client ns name)
    ≈ bind (call (ListByField KSnap ns "spec.gameServerRef" name)) (λ x,
        match x with
        | inl l => Ret (inl (view_Snapshots l))
        | inr _ => bind (call (ListObjs KSnap (Some ns) [])) (λ x,
            Ret (shown 500 (λ l, view_Snapshots (snapshots_of name l)) x))
        end)
  ∧ same_runs text_exchanged (serve control_plane (SdkClient.GetSFTPInfo sdk_client ns name))
      (sftp_access ns name).
Proof.
  intros Hns Hname Hid. split_and!.
  - by apply GetGameServer_served.
  - by apply GetGameServerFleet_served.
  - by apply GetProfile_served.
  - by apply GetActionExecution_served.
  - apply ListGameServers_served.
  - apply ListGameServerFleets_served.
  - apply ListProfiles_served.
  - by apply ListActions_served.
  - by apply ListSnapshots_served.
  - by apply GetSFTPInfo_served.
Qed.

(** C19: writing through the SDK. Creating, deleting, patching and scaling through the SDK make
    the calls the control plane's operation makes, on the object that was meant: the SDK's
    own server or fleet in the namespace of the path, the stored object with its
    lifecycle or replicas changed, an execution started by the authenticated user; and
    give back the view of the object written, or the API server's message. *)
Theorem sdk_writes ns name :
  k8s_name ns = true → k8s_name name = true →
  (∀ gs, is_int32 (ss_Lifecycle_IdleTimeoutSeconds (sg_Spec gs)) →
     json_ok (enc_GameServer (toGenGameServer (set_type gs))) = true →
     serve control_plane (SdkClient.CreateGameServer sdk_client ns gs)
       ≈ bind (EnsureNamespace ns tenantCfg) (λ e,
           match e with
           | Some err => Ret (set_type gs, inr (seen_error 500 (ge_msg err)))
           | None => bind (call (Create KGameServer (created_GameServer ns gs))) (λ e,
               Ret (set_type gs, done_or 500 (view_GameServer (created_GameServer ns gs)) e))
           end))
  ∧ serve control_plane (SdkClient.DeleteGameServer sdk_client ns name)
      ≈ bind (call (Delete KGameServer ns name)) (λ e, Ret (done_or 500 tt e))
  ∧ (∀ a i, (∀ z, i = Some z → 0 <= z <= 2147483647) → (a ≠ None ∨ i ≠ None) →
      serve control_plane (SdkClient.UpdateGameServerLifecycle sdk_client ns name a i)
      ≈ bind (call (Get KGameServer ns name)) (λ x,
          match x with
          | inr e => Ret (inr (seen_error 404 (ge_msg e)))
          | inl s => bind (call (Update KGameServer (patched a i s))) (λ e,
              match e with
              | Some err => Ret (inr (seen_error 500 (ge_msg err)))
              | None => bind (LogAction "gameserver.lifecycle-updated" (om_Name (gs_Meta s)) user) (λ _,
                  Ret (inl (view_GameServer (patched a i s))))
              end)
          end))
  ∧ (∀ n, 0 <= n <= 2147483647 →
      serve control_plane (SdkClient.ScaleGameServerFleet sdk_client ns name n)
      ≈ bind (call (Get KFleet ns name)) (λ x,
          match x with
          | inr e => Ret (inr (seen_error 404 (ge_msg e)))
          | inl f => bind (call (Update KFleet (fleet_set_Replicas n f))) (λ e,
              match e with
              | Some err => Ret (inr (seen_error 500 (ge_msg err)))
              | None => bind (LogAction "gameserverfleet.scaled" (om_Name (fl_Meta f)) user) (λ _,
                  Ret (inl (view_Fleet (fleet_set_Replicas n f))))
              end)
          end))
  ∧ (∀ u action params, user = Some u → us_Source u ≠ "none" → k8s_name action = true →
      json_ok (enc_params params) = true →
      serve control_plane (SdkClient.ExecuteAction sdk_client ns name action params)
      ≈ bind (call Now) (λ now,
          let exec := started_exec ns name action params (us_Username u) now in
          bind (call (Create KExec exec)) (λ e, Ret (done_or 500 (om_Name (ae_Meta exec)) e))))
  ∧ serve control_plane (SdkClient.CreateSnapshot sdk_client ns name)
      ≈ bind (call Now) (λ now,
          bind (call (Create KSnap (new_snapshot ns name now))) (λ e,
            Ret (done_or 500 (view_Snapshot (new_snapshot ns name now)) e)))
  ∧ (∀ f, sl_Profile f ≠ "" → 0 <= sl_Replicas f <= 2147483647 →
      json_ok (fleet_document f) = true → json_ok (enc_GameServerFleet (gen_sent_Fleet f)) = true →
      serve control_plane (SdkClient.CreateGameServerFleet sdk_client ns f)
      ≈ bind (call (Get KGameProfile "" (sl_Profile f))) (λ x,
          match x with
          | inr err => Ret (inr (seen_error 400
              (ge_msg (wrapf ("profile " +:+ fmt_q (sl_Profile f) +:+ " not found") err))))
          | inl _ => bind (EnsureNamespace ns tenantCfg) (λ e,
              match e with
              | Some err => Ret (inr (seen_error 500 (ge_msg err)))
              | None => bind (call (Create KFleet (created_Fleet ns f))) (λ e,
                  match e with
                  | Some err => Ret (inr (seen_error 500 (ge_msg err)))
                  | None => bind (LogAction "gameserverfleet.created" (so_Name (sl_Metadata f)) user) (λ _,
                      Ret (inl (view_Fleet (created_Fleet ns f))))
                  end)
              end)
          end))
  ∧ serve control_plane (SdkClient.DeleteGameServerFleet sdk_client ns name)
      ≈ bind (call (Delete KFleet ns name)) (λ e,
          match e with
          | Some err => Ret (inr (seen_error 500 (ge_msg err)))
          | None => bind (LogAction "gameserverfleet.deleted" name user) (λ _, Ret (inl tt))
          end).
Proof.
  intros Hns Hname. split_and!.
  - intros. by apply CreateGameServer_served.
  - by apply DeleteGameServer_served.
  - intros. by apply UpdateGameServerLifecycle_served.
  - intros. by apply ScaleGameServerFleet_served.
  - intros. by apply ExecuteAction_served.
  - by apply CreateSnapshot_served.
  - intros. by apply CreateGameServerFleet_served.
  - by apply DeleteGameServerFleet_served.
Qed.
End Routing.

(** ** Witnesses *)

Lemma ex_params_binds ps pats segs :
  binds ps pats segs → ∀ k s, param_value pats segs k = Some s → ex_params pats segs k = ps k.
Proof.
  intros Hb k s Hs. destruct (binds_param_value _ _ _ _ _ Hb Hs) as [-> _]. revert Hs. clear Hb.
  unfold ex_params. revert segs. induction pats as [|p pats IH]; intros [|v segs]; cbn; try done.
  destruct (is_template p && _); [by intros [= ->]|apply IH].
Qed.
Lemma binds_ex_params ps pats segs : binds ps pats segs → binds (ex_params pats segs) pats segs.
Proof.
  intros Hb. assert (∀ p, p ∈ pats → is_template p = true → is_Some (param_value pats segs (param_name p))) as Hall.
  { induction Hb as [|p s pats segs Hp Hb IH]; [intros ? []%not_elem_of_nil|]. intros q Hq Ht. cbn.
    destruct (is_template p && _) eqn:E; [eauto|]. apply elem_of_cons in Hq as [->|Hq]; [|by apply IH].
    by rewrite Ht, String.eqb_refl in E. }
  pose proof (ex_params_binds _ _ _ Hb) as He. unfold binds in *.
  generalize dependent (ex_params pats segs). intros q He.
  assert (∀ p, p ∈ pats → is_template p = true → q (param_name p) = ps (param_name p)) as Hq.
  { intros p Hp Ht. destruct (Hall p Hp Ht) as [s Hs]. by eapply He. }
  clear He Hall. induction Hb as [|p s pats segs Hp Hb IH]; constructor.
  - destruct (is_template p) eqn:Ht; [|done]. rewrite <-Hp. apply Hq; [left|done].
  - apply IH. intros p' Hp'. apply Hq. by right.
Qed.
#[export] Instance ex_RouterTotal : @RouterTotal ex_Router.
Proof.
  intros table r segs pattern params Hne Hs Hpath Hin Hb.
  assert (Forall segment segs) as Hseg by (eapply Forall_impl; [exact Hs|by intros ? []]).
  cbn. assert (∀ i, is_Some (ex_find i table r)) as H; [|destruct (H 0%nat) as [[i ps] ->]; eauto].
  induction table as [|rt table IH]; [by apply not_elem_of_nil in Hin|]. intros i. cbn [ex_find].
  destruct (ex_matches r rt) eqn:E; [eauto|]. apply elem_of_cons in Hin as [<-|Hin]; [|by apply IH].
  unfold ex_matches in E. cbn [fst snd] in E. rewrite String.eqb_refl, Hpath, path_segments_path_of in E by done.
  rewrite (bool_decide_true _ (binds_ex_params _ _ _ Hb)) in E. done.
Qed.

#[export] Program Instance ex_Transport : @Transport ex_Url := {|
  deliver q := {|
    rq_Method := hq_Method q; rq_Path := str_drop (String.length ex_origin) (hq_URL q);
    rq_Header := λ k, default "" (hq_Header q !! k); rq_BasicAuth := None; rq_Param := λ _, "";
    rq_Query := λ _, ""; rq_Body := hq_Body q; rq_RemoteAddr := ""; rq_User := None |} |}.
Next Obligation. done. Qed.
Next Obligation. done. Qed.
Next Obligation.
  intros q origin segs Ho _ _ Hq. apply String.eqb_eq in Ho as ->. cbn [rq_Path]. rewrite Hq.
  apply str_drop_app.
Qed.
Next Obligation. intros q k v H. cbn. by rewrite H. Qed.

#[local] Existing Instances ex_JsonText ex_RFC3339 ex_KubeJSON ex_Url ex_Parser ex_EntryJSON ex_Router.
Definition ex_cp : HttpReq → M Response :=
  control_plane (Auth.LoadConfig (λ _, "")) "minato-system" ex_tenant_config (Some ex_operator).
Definition ex_client : Client := sdk_client ex_origin "minato_key".

(** A server that the SDK asks for and finds. *)
Definition ex_shown_server : GameServer := ex_cp_server "tenant-a" "lobby".
Lemma sdk_reads_witness :
  runs (serve ex_cp (SdkClient.GetGameServer ex_client "tenant-a" "lobby"))
    [Ev (Get KGameServer "tenant-a" "lobby") (inl ex_shown_server)] (Done (inl (view_GameServer ex_shown_server)))
  ∧ runs (serve ex_cp (SdkClient.GetGameServer ex_client "tenant-a" "lobby"))
    [Ev (Get KGameServer "tenant-a" "lobby") (inr (errorf "not found"))] (Done (inr (APIError 404 "not found"))).
Proof.
  pose proof (proj1 (sdk_reads (Auth.LoadConfig (λ _, "")) "minato-system" ex_tenant_config (Some ex_operator)
    ex_origin "minato_key" eq_refl eq_refl "tenant-a" "lobby" "run-1" eq_refl eq_refl eq_refl)) as H.
  split; apply H.
  - repeat constructor.
  - eexists _, []. split; [reflexivity|]. split; reflexivity.
  - repeat constructor.
  - eexists _, []. split; [reflexivity|]. split; reflexivity.
Defined.

Definition ex_new_server : sdk_GameServer := {|
  sg_APIVersion := ""; sg_Kind := "";
  sg_Metadata := {| so_Name := "lobby"; so_Namespace := ""; so_Labels := Some {["team" := "blue"]} |};
  sg_Spec := {| ss_Profile := "minecraft"; ss_Env := Some {["DIFFICULTY" := "hard"]};
    ss_Storage_Size := "10Gi"; ss_Storage_StorageClass := "";
    ss_Storage_SnapshotRef := Some {| sdr_Name := "snap-1"; sdr_Namespace := "" |};
    ss_Lifecycle_IdleTimeoutSeconds := 600; ss_Lifecycle_AutoStart := true; ss_LoadBalancerIP := "" |};
  sg_Status := sdk_zero_GameServerStatus |}.
Definition ex_namespace : Namespace_ := {| nsp_Meta := new_meta "tenant-a" "" None |}.
Definition ex_created : GameServer := created_GameServer "tenant-a" ex_new_server.

Lemma sdk_writes_witness :
  runs (serve ex_cp (SdkClient.CreateGameServer ex_client "tenant-a" ex_new_server))
    [Ev (Get KNamespace "" "tenant-a") (inl ex_namespace); Ev (Create KGameServer ex_created) None]
    (Done (set_type ex_new_server, inl (view_GameServer ex_created)))
  ∧ runs (serve ex_cp (SdkClient.DeleteGameServer ex_client "tenant-a" "lobby"))
    [Ev (Delete KGameServer "tenant-a" "lobby") (Some (errorf "gone"))] (Done (inr (APIError 500 "gone"))).
Proof.
  destruct (sdk_writes (Hurl := ex_Url) (Auth.LoadConfig (λ _, "")) "minato-system" ex_tenant_config (Some ex_operator)
    ex_origin "minato_key" eq_refl eq_refl "tenant-a" "lobby" eq_refl eq_refl) as (Hc & Hd & _).
  split.
  - apply (Hc ex_new_server); [done|by vm_compute|repeat constructor; by vm_compute|].
    eexists _, _. split; [reflexivity|]. eexists _, []. split; [reflexivity|]. split; reflexivity.
  - apply Hd; [repeat constructor|]. eexists _, []. split; [reflexivity|]. split; reflexivity.
Defined.

(** ** What a created server looks like *)

Section Created.
Context `{Htext : !JsonText, Htime : !RFC3339, Hnano : !RFC3339Nano, Hkube : !KubeJSON}.

Definition spec_shown (s : sdk_GameServerSpec) : sdk_GameServerSpec := {|
  ss_Profile := ss_Profile s; ss_Env := default None (opt_map (ss_Env s));
  ss_Storage_Size := ss_Storage_Size s; ss_Storage_StorageClass := ss_Storage_StorageClass s;
  ss_Storage_SnapshotRef := ss_Storage_SnapshotRef s;
  ss_Lifecycle_IdleTimeoutSeconds := ss_Lifecycle_IdleTimeoutSeconds s;
  ss_Lifecycle_AutoStart := ss_Lifecycle_AutoStart s; ss_LoadBalancerIP := ss_LoadBalancerIP s |}.

Lemma created_view ns gs :
  is_int32 (ss_Lifecycle_IdleTimeoutSeconds (sg_Spec gs)) →
  let s := created_GameServer ns gs in
  sg_Spec (view_GameServer s) = spec_shown (sg_Spec gs)
  ∧ sg_Metadata (view_GameServer s)
    = {| so_Name := so_Name (sg_Metadata gs); so_Namespace := ns;
         so_Labels := default None (opt_map (so_Labels (sg_Metadata gs))) |}
  ∧ sg_Status (view_GameServer s) = sdk_zero_GameServerStatus
  ∧ (AutoStartEnabled (gs_Lifecycle (gs_Spec s)) = true
     ↔ ss_Lifecycle_AutoStart (sg_Spec gs) = true ∨ ss_Lifecycle_IdleTimeoutSeconds (sg_Spec gs) = 0).
Proof.
  intros Hr. destruct gs as [v k m [pr env sz sc sr idle auto lb] st].
  cbn [sg_Spec ss_Lifecycle_IdleTimeoutSeconds ss_Lifecycle_AutoStart] in *. split_and!.
  - cbv [view_GameServer sg_Spec created_GameServer gs_set_Namespace obj_map_meta gs_Spec sent_GameServer
      set_type view_GameServerSpec spec_shown sent_GameServerSpec gs_Env gs_Storage gs_Lifecycle gs_Profile
      gs_LoadBalancerIP sent_Storage sent_Lifecycle gst_Size gst_StorageClass gst_SnapshotRef
      lc_IdleTimeoutSeconds lc_AutoStart ss_Profile ss_Env ss_Storage_Size ss_Storage_StorageClass
      ss_Storage_SnapshotRef ss_Lifecycle_IdleTimeoutSeconds ss_Lifecycle_AutoStart ss_LoadBalancerIP].
    rewrite wrap32_id by done. f_equal.
    + by destruct sr as [[]|].
    + destruct auto, (idle =? 0); reflexivity.
  - reflexivity.
  - reflexivity.
  - cbn. destruct auto; [by split; auto|]. unfold AutoStartEnabled, sent_Lifecycle. cbn.
    destruct (Z.eqb_spec idle 0); cbn; split; auto; intros [|]; done.
Qed.

(** C22: a server goes from the SDK to the control plane and back unchanged. The body of a create
    request is read by the control plane; the object it gives, in the namespace of the path,
    written as an answer and read by the client, is shown with the name, the labels and
    every field of the spec the caller asked for (an empty map as nil), and no status.
    But a server asked for stopped, without an idle timeout, arrives with the default,
    which starts it, while the SDK goes on showing it as not to be started. *)
Theorem created_server_round_trip ns gs :
  let body := enc_GameServer (toGenGameServer (set_type gs)) in
  is_int32 (ss_Lifecycle_IdleTimeoutSeconds (sg_Spec gs)) →
  json_ok body = true →
  ∃ s, dec_api_GameServer body zero_api_GameServer = Some s
  ∧ (AutoStartEnabled (gs_Lifecycle (gs_Spec s)) = true
     ↔ ss_Lifecycle_AutoStart (sg_Spec gs) = true ∨ ss_Lifecycle_IdleTimeoutSeconds (sg_Spec gs) = 0)
  ∧ let answer := enc_api_GameServer (gs_set_Namespace ns s) in
    (json_ok answer = true →
     ∃ g, dec_GameServer answer zero_GameServer = Some g
     ∧ sg_Spec (fromGenGameServer (Some g)) = spec_shown (sg_Spec gs)
     ∧ sg_Metadata (fromGenGameServer (Some g))
       = {| so_Name := so_Name (sg_Metadata gs); so_Namespace := ns;
            so_Labels := default None (opt_map (so_Labels (sg_Metadata gs))) |}
     ∧ sg_Status (fromGenGameServer (Some g)) = sdk_zero_GameServerStatus).
Proof.
  intros body Hr Hok. destruct (created_view ns gs Hr) as (Hs & Hm & Ht & Ha).
  exists (sent_GameServer (set_type gs)). split; [by apply GameServer_body|]. split; [exact Ha|].
  intros answer Hans. exists (gen_of_GameServer (created_GameServer ns gs)).
  split; [by apply GameServer_reads|]. by rewrite fromGenGameServer_view.
Qed.

Definition asked_stopped : sdk_GameServer := {|
  sg_APIVersion := ""; sg_Kind := "";
  sg_Metadata := {| so_Name := "lobby"; so_Namespace := ""; so_Labels := None |};
  sg_Spec := {| ss_Profile := "minecraft"; ss_Env := None; ss_Storage_Size := "";
    ss_Storage_StorageClass := ""; ss_Storage_SnapshotRef := None;
    ss_Lifecycle_IdleTimeoutSeconds := 0; ss_Lifecycle_AutoStart := false; ss_LoadBalancerIP := "" |};
  sg_Status := sdk_zero_GameServerStatus |}.
(** A server asked for stopped that starts. *)
Lemma stopped_server_starts ns :
  let s := created_GameServer ns asked_stopped in
  ss_Lifecycle_AutoStart (sg_Spec (view_GameServer s)) = false
  ∧ AutoStartEnabled (gs_Lifecycle (gs_Spec s)) = true.
Proof. done. Qed.
End Created.

Lemma created_server_round_trip_witness :
  let body := enc_GameServer (toGenGameServer (set_type ex_new_server)) in
  is_int32 600 ∧ json_ok body = true
  ∧ ∃ s, dec_api_GameServer body zero_api_GameServer = Some s
         ∧ (AutoStartEnabled (gs_Lifecycle (gs_Spec s)) = true ↔ true = true ∨ 600 = 0).
Proof.
  cbv zeta. assert (is_int32 600) as H by (unfold is_int32; lia).
  assert (json_ok (enc_GameServer (toGenGameServer (set_type ex_new_server))) = true) as Hok by by vm_compute.
  split; [exact H|]. split; [exact Hok|].
  destruct (created_server_round_trip "tenant-a" ex_new_server H Hok) as (s & Hd & Ha & _).
  exists s. split; [exact Hd|exact Ha].
Defined.
