(* ===== verification/EndToEnd.v ===== *)
(** * EndToEnd: the SDK through the whole control plane

    A method of the SDK sends one request, which passes the security headers, the audit log,
    the authentication and the guards before it reaches its handler. What
    [ClientServer] shows of the handlers then holds for the user who was
    authenticated. *)

From Stdlib Require Import Ascii String.
From stdpp Require Import gmap.
From S2P Require Import Prelude GoStrings Prog Api Kube Auth Rbac Tenant AuditLog ControlPlane Json GenTypes GenClient SdkClient ApiJson ApiViews ApiBodies ApiExamples ClientServer.
#[local] Open Scope Z_scope.

(** ** The guards *)

(** What the guards let through. *)
Definition admitted (u : User) (r : Request) : bool :=
  match find_first (rule_applies r) DefaultRules with
  | None => true
  | Some rule => existsb (String.eqb (us_Role u)) (rr_Roles rule)
                 && (negb (rr_ClusterWide rule) || ClusterWide (Some u))
  end
  && ((NamespaceFromPath (rq_Path r) =s "") || AllowsNamespace (Some u) (NamespaceFromPath (rq_Path r))).

Lemma guards_admit u r next :
  RouteGuard DefaultRules (NamespaceGuard next) (WithUser u r)
  = if admitted u r then next (WithUser u r) else Ret (http_Error "Forbidden" 403).
Proof.
  unfold RouteGuard, NamespaceGuard, admitted, GetUser.
  change (rule_applies (WithUser u r)) with (rule_applies r). cbn [WithUser rq_User rq_Path].
  destruct (find_first (rule_applies r) DefaultRules) as [rule|]; cbn [andb].
  - destruct (existsb _ _); cbn [negb andb]; [|done].
    destruct (rr_ClusterWide rule), (ClusterWide (Some u)); cbn [negb andb orb]; try done.
    all: destruct (_ =s ""), (AllowsNamespace _ _); done.
  - destruct (_ =s ""), (AllowsNamespace _ _); done.
Qed.

(** The answer of a request as the client gets it does not depend on the headers the
    server adds. *)
Lemma received_secured rsp :
  received {| rsp_Status := rsp_Status rsp; rsp_Header := security_headers ++ rsp_Header rsp;
              rsp_Body := rsp_Body rsp |} = received rsp.
Proof. done. Qed.

(** What a method makes of an answer calls nothing. *)
Lemma dereferenced_pure {A B} (f : A → B) x : (∃ b, dereferenced f x = Ret b) ∨ ∃ m, dereferenced f x = Panic m.
Proof. unfold dereferenced. destruct (pr_JSON x); [left|right]; by eexists. Qed.
Lemma converted_pure {A B} (f : option A → B) x : (∃ b, converted f x = Ret b) ∨ ∃ m, converted f x = Panic m.
Proof. left. by eexists. Qed.
Lemma no_content_pure x : (∃ b, no_content x = Ret b) ∨ ∃ m, no_content x = Panic m.
Proof. left. by eexists. Qed.

Ltac is_method :=
  do 6 eexists; split; [reflexivity|split; [lia|]];
  first [apply dereferenced_pure|apply converted_pure|apply no_content_pure].

Section EndToEnd.
Context `{Htext : !JsonText, Htime : !RFC3339, Hnano : !RFC3339Nano, Hkube : !KubeJSON, Hurl : !Url,
          Hnet : !Transport, Hqty : !QuantityParser, Hentry : !EntryJSON, Hrouter : !Router,
          Htotal : !RouterTotal}.
Variables (authCfg : Config) (keyStorage : string) (tenantCfg : TenantConfig) (authChain : Chain).
Context (origin apiKey : string).
Hypothesis Horigin : valid_origin origin = true.
Hypothesis Hslash : HasSuffix origin "/" = false.

Abbreviation client := (sdk_client origin apiKey).

(** The whole control plane, in front of the network. *)
Definition full_server (q : HttpReq) : M Response := server authCfg keyStorage tenantCfg authChain (deliver q).

(** What the methods of the SDK have in common: one request below [/api/v1], whose answer is a success
    with one status and otherwise the error of that status. *)
Definition sdk_method {B} (p : Http (B + sdk_error)) (method : string) (segs : list template) : Prop :=
  ∃ body A (success : option (Z * (string → A + gerr))) errs code out,
    p = bind (with_response (do_request client (new_request method (c_Server client)
               (Lit "api" :: Lit "v1" :: segs) body)) (parse_response success errs)) (answer_with code out)
    ∧ code < 300 ∧ ∀ x, (∃ b, out x = Ret b) ∨ ∃ m, out x = Panic m.

Lemma pure_answer {A B} (h : HttpReq → M Response) code (out : Parsed A → Http (B + sdk_error)) x :
  (∀ x, (∃ b, out x = Ret b) ∨ ∃ m, out x = Panic m) →
  (∃ b, serve h (answer_with code out x) = Ret b ∧ answer_with code out x = Ret b)
  ∨ ∃ m, serve h (answer_with code out x) = Panic m ∧ answer_with code out x = Panic m.
Proof.
  intros Hp. unfold answer_with. destruct x as [x|e]; [|left; by eexists].
  destruct (negb _); [left; by eexists|].
  destruct (Hp x) as [[b ->]|[m ->]]; [left|right]; by eexists.
Qed.

(** A refusal of the middleware. *)
Lemma refused {A B} status body code (out : Parsed A → Http (B + sdk_error)) success errs :
  code < 300 → 300 < status →
  ∃ msg, ∀ h, serve h (answer_with code out (parse_response success errs
    {| hs_Status := status; hs_ContentType := ""; hs_Body := inl body |})) = Ret (inr (APIError status msg)).
Proof.
  intros Hc Hs. unfold parse_response. cbn [hs_Body hs_Status hs_ContentType].
  change (Contains "" "json") with false. cbn [andb answer_with pr_StatusCode pr_Body].
  rewrite (proj2 (Z.eqb_neq status code)) by lia. cbn [negb]. by eexists.
Qed.

Lemma api_path_private vals :
  let p := path_of ("api" :: vals) in
  public_path p = false ∧ (p =s "/healthz") || (p =s "/readyz") = false.
Proof. by destruct vals. Qed.

(** The middleware around an operation, call by call. *)
Lemma server_runs r t rsp vals :
  rq_Path r = path_of ("api" :: vals) →
  runs (server authCfg keyStorage tenantCfg authChain r) t (Done rsp) →
  ∃ start stop now ta th res rsp0,
    t = Ev Now start :: ta ++ th
          ++ [Ev Now stop; Ev Now now; Ev (AuditWrite (request_event now r (rsp_Status rsp))) tt]
    ∧ received rsp = received rsp0
    ∧ runs (chain_Authenticate authChain r) ta (Done res)
    ∧ match res with
      | inr _ => th = [] ∧ rsp_Status rsp0 = 401 ∧ response_header rsp0 "Content-Type" = ""
      | inl u =>
          if admitted u r then runs (mux authCfg keyStorage tenantCfg (WithUser u r)) th (Done rsp0)
          else th = [] ∧ rsp_Status rsp0 = 403 ∧ response_header rsp0 "Content-Type" = ""
      end.
Proof.
  intros Hpath H. destruct (api_path_private vals) as [Hpub Haud]. rewrite <-Hpath in Hpub, Haud.
  unfold server, securityHeadersMiddleware in H. run_step H. destruct H as [-> [= ->]]. cbn [rsp_Status].
  unfold AuditLog.Middleware in Hrun. rewrite Haud in Hrun. destruct Hrun as (start & t1 & -> & H).
  cbn [bind] in H. run_step H. destruct H as (stop & t2 & -> & now & t3 & -> & [] & t4 & -> & -> & [= ->]).
  rename Hrun into H. unfold guarded, Auth.Middleware in H. rewrite Hpub in H. run_step H.
  eexists start, stop, now, _, _, a, a0. split; [by rewrite app_nil_r, (assoc_L (++))|].
  split; [done|]. split; [exact Hrun|]. destruct a as [u|e].
  - rewrite guards_admit in H. destruct (admitted u r); [done|]. by destruct H as [-> [= ->]].
  - by destruct H as [-> [= ->]].
Qed.

Lemma through_server {B} (p : Http (B + sdk_error)) method segs t x :
  sdk_method p method segs → Forall seg_ok segs →
  runs (serve full_server p) t (Done x) →
  ∃ r start stop now ta th res status,
    t = Ev Now start :: ta ++ th
          ++ [Ev Now stop; Ev Now now; Ev (AuditWrite (request_event now r status)) tt]
    ∧ rq_Method r = method ∧ rq_Path r = path_of ("api" :: "v1" :: (seg_value <$> segs))
    ∧ (apiKey ≠ "" → rq_Header r "Authorization" = "Bearer " +:+ apiKey)
    ∧ runs (chain_Authenticate authChain r) ta (Done res)
    ∧ match res with
      | inr _ => th = [] ∧ status = 401 ∧ ∃ msg, x = inr (APIError 401 msg)
      | inl u =>
          if admitted u r
          then runs (serve (control_plane authCfg keyStorage tenantCfg (Some u)) p) th (Done x)
          else th = [] ∧ status = 403 ∧ ∃ msg, x = inr (APIError 403 msg)
      end.
Proof.
  intros (body & A & success & errs & code & out & -> & Hcode & Hpure) Hsegs H.
  destruct (new_request_ok origin apiKey Horigin Hslash method (Lit "api" :: Lit "v1" :: segs) body)
    as (q & Hq & Hqm & Hqu & Hqb); [done|by repeat constructor|].
  rewrite Hq in H |- *. unfold with_response in H |- *. cbn [do_request call bind serve] in H |- *.
  set (q' := applyEditors client q) in *. set (r := deliver q').
  assert (rq_Path r = path_of ("api" :: "v1" :: (seg_value <$> segs))) as Hpath.
  { apply (deliver_path q' origin); [exact Horigin|done| |exact Hqu].
    repeat (constructor; [done|]). by apply Forall_fmap. }
  run_step H. unfold full_server in Hrun. fold r in Hrun.
  destruct (server_runs r _ _ _ Hpath Hrun) as (start & stop & now & ta & th & res & rsp0 & -> & Hrcv & Ha & Hres).
  rewrite Hrcv in H.
  destruct (pure_answer full_server code out (parse_response success errs (received rsp0)) Hpure)
    as [(b & Hs & Hb)|(m & Hs & _)]; rewrite Hs in H; [|by destruct H].
  destruct H as [-> [= <-]]. exists r, start, stop, now, ta, th, res, (rsp_Status a).
  split; [by rewrite app_nil_r|]. split; [by unfold r; rewrite deliver_method|]. split; [done|]. split.
  { intros Hk%String.eqb_neq. apply deliver_header. cbn. rewrite Hk. cbn [negb]. apply lookup_insert_eq. }
  split; [exact Ha|].
  assert (∀ st, 300 < st → rsp_Status rsp0 = st → response_header rsp0 "Content-Type" = "" →
    rsp_Status a = st ∧ ∃ msg, x = inr (APIError st msg)) as Hrefused.
  { intros st Hst Hs0 Hty. split; [by apply (f_equal hs_Status) in Hrcv; rewrite <-Hs0|].
    destruct (refused st (rsp_Body rsp0) code out success errs Hcode Hst) as [msg Hm]. exists msg.
    unfold received in Hs. rewrite Hs0, Hty, Hm in Hs. by injection Hs. }
  destruct res as [u|e]; [|destruct Hres as (-> & ? & ?); split; [done|by apply Hrefused]].
  destruct (admitted u r); [|destruct Hres as (-> & ? & ?); split; [done|by apply Hrefused]].
  apply runs_bind. right. exists rsp0, th, []. rewrite app_nil_r. split; [done|]. split; [exact Hres|].
  set (h := control_plane _ _ _ (Some u)).
  destruct (pure_answer h code out (parse_response success errs (received rsp0)) Hpure)
    as [(b & -> & Hb')|(m & _ & Hm)]; [|by rewrite Hm in Hb].
  split; [done|]. congruence.
Qed.

(** C20: the SDK end to end. A method of the SDK against the whole control plane is, in this order,
    the audit log's first look at the clock, the authentication of one request with the method, the
    path and the key of the client, the operation, and one entry of the audit log. Whoever is not authenticated
    gets 401 and whoever the guards do not admit 403, with no call of the operation; and
    for an admitted user the operation and the result are those of the control plane behind
    its guards, run for that user. *)
Theorem sdk_through_server {B} (p : Http (B + sdk_error)) method segs t x :
  sdk_method p method segs → Forall seg_ok segs →
  runs (serve full_server p) t (Done x) →
  ∃ r start stop now ta th res status,
    t = Ev Now start :: ta ++ th
          ++ [Ev Now stop; Ev Now now; Ev (AuditWrite (request_event now r status)) tt]
    ∧ rq_Method r = method ∧ rq_Path r = path_of ("api" :: "v1" :: (seg_value <$> segs))
    ∧ (apiKey ≠ "" → rq_Header r "Authorization" = "Bearer " +:+ apiKey)
    ∧ runs (chain_Authenticate authChain r) ta (Done res)
    ∧ match res with
      | inr _ => th = [] ∧ status = 401 ∧ ∃ msg, x = inr (APIError 401 msg)
      | inl u =>
          if admitted u r
          then runs (serve (control_plane authCfg keyStorage tenantCfg (Some u)) p) th (Done x)
          else th = [] ∧ status = 403 ∧ ∃ msg, x = inr (APIError 403 msg)
      end.
Proof. apply through_server. Qed.

(** *** The methods *)

Lemma sdk_methods ns name action execution : let p k v := Param k v in
  sdk_method (SdkClient.ListGameServers client) "GET" [Lit "gameservers"]
  ∧ sdk_method (SdkClient.GetGameServer client ns name) "GET"
      [Lit "gameservers"; p "namespace" ns; p "name" name]
  ∧ sdk_method (SdkClient.DeleteGameServer client ns name) "DELETE"
      [Lit "gameservers"; p "namespace" ns; p "name" name]
  ∧ sdk_method (SdkClient.GetSFTPInfo client ns name) "GET"
      [Lit "gameservers"; p "namespace" ns; p "name" name; Lit "sftp"]
  ∧ (∀ a i, sdk_method (SdkClient.UpdateGameServerLifecycle client ns name a i) "PATCH"
      [Lit "gameservers"; p "namespace" ns; p "name" name])
  ∧ sdk_method (SdkClient.ListActions client ns name) "GET"
      [Lit "gameservers"; p "namespace" ns; p "name" name; Lit "actions"]
  ∧ (∀ params, sdk_method (SdkClient.ExecuteAction client ns name action params) "POST"
      [Lit "gameservers"; p "namespace" ns; p "name" name; Lit "actions"; p "action" action])
  ∧ sdk_method (SdkClient.GetActionExecution client ns name execution) "GET"
      [Lit "gameservers"; p "namespace" ns; p "name" name; Lit "executions"; p "executionId" execution]
  ∧ sdk_method (SdkClient.ListSnapshots client ns name) "GET"
      [Lit "gameservers"; p "namespace" ns; p "name" name; Lit "snapshots"]
  ∧ sdk_method (SdkClient.CreateSnapshot client ns name) "POST"
      [Lit "gameservers"; p "namespace" ns; p "name" name; Lit "snapshots"]
  ∧ sdk_method (SdkClient.ListProfiles client) "GET" [Lit "profiles"]
  ∧ sdk_method (SdkClient.GetProfile client name) "GET" [Lit "profiles"; p "name" name]
  ∧ sdk_method (SdkClient.ListGameServerFleets client) "GET" [Lit "gameserverfleets"]
  ∧ sdk_method (SdkClient.GetGameServerFleet client ns name) "GET"
      [Lit "gameserverfleets"; p "namespace" ns; p "name" name]
  ∧ (∀ n, sdk_method (SdkClient.ScaleGameServerFleet client ns name n) "PATCH"
      [Lit "gameserverfleets"; p "namespace" ns; p "name" name])
  ∧ sdk_method (SdkClient.DeleteGameServerFleet client ns name) "DELETE"
      [Lit "gameserverfleets"; p "namespace" ns; p "name" name].
Proof. intros p. split_and!; intros; is_method. Qed.

(** Reading a server end to end: one read of it, and its view. *)
Lemma get_server_end_to_end ns name t x :
  k8s_name ns = true → k8s_name name = true → Forall (answered exchanged) t →
  runs (serve full_server (SdkClient.GetGameServer client ns name)) t (Done x) →
  (∃ y, Ev (Get KGameServer ns name) y ∈ t ∧ x = shown 404 view_GameServer y)
  ∨ ∃ status msg, status ∈ [401; 403] ∧ x = inr (APIError status msg).
Proof.
  intros Hns Hname Ht H.
  eapply (through_server _ "GET" [Lit "gameservers"; Param "namespace" ns; Param "name" name]) in H
    as (r & start & stop & now & ta & th & res & status & -> & _ & _ & _ & _ & Hres);
    [|is_method|by repeat constructor].
  destruct res as [u|e]; [|right; destruct Hres as (_ & _ & msg & ->); exists 401, msg; split; [set_solver|done]].
  destruct (admitted u r); [|right; destruct Hres as (_ & _ & msg & ->); exists 403, msg; split; [set_solver|done]].
  left. assert (Forall (answered exchanged) th) as Hth.
  { rewrite Forall_cons, !Forall_app in Ht. tauto. }
  apply (GetGameServer_served authCfg keyStorage tenantCfg (Some u) origin apiKey Horigin Hslash ns name Hns Hname)
    in Hres; [|exact Hth].
  destruct Hres as (y & t' & -> & -> & [= ->]). exists y. split; [set_solver|done].
Qed.
End EndToEnd.

(** ** A server read end to end *)

#[local] Existing Instances ex_JsonText ex_RFC3339 ex_KubeJSON ex_Url ex_Parser ex_EntryJSON ex_Router.
Abbreviation ex_config := (Auth.LoadConfig (λ _, "")).
Definition ex_method : Http (sdk_GameServer + sdk_error) := SdkClient.GetGameServer ex_client "tenant-a" "lobby".
Definition ex_full : HttpReq → M Response :=
  full_server ex_config "minato-system" ex_tenant_config [ex_provider ex_operator].
Definition ex_api : ∀ X, op X → X := answer (with_obj KGameServer ex_shown_server no_objects) no_lists 0.

Lemma sdk_through_server_witness :
  run_outcome ex_api (serve ex_full ex_method) = Done (inl (view_GameServer ex_shown_server))
  ∧ ∃ th, runs (serve ex_cp ex_method) th (Done (inl (view_GameServer ex_shown_server))).
Proof.
  assert (run_outcome ex_api (serve ex_full ex_method) = Done (inl (view_GameServer ex_shown_server))) as Ho
    by (vm_compute; reflexivity).
  split; [exact Ho|].
  pose proof (run_runs ex_api (serve ex_full ex_method)) as Hr. rewrite Ho in Hr.
  assert (sdk_method ex_origin "minato_key" ex_method "GET"
    [Lit "gameservers"; Param "namespace" "tenant-a"; Param "name" "lobby"]) as Hm by is_method.
  destruct (sdk_through_server (Hurl := ex_Url) ex_config "minato-system" ex_tenant_config [ex_provider ex_operator]
    ex_origin "minato_key" eq_refl eq_refl ex_method _ _ _ _ Hm ltac:(by repeat constructor) Hr)
    as (r & start & stop & now & ta & th & res & status & _ & Hmeth & Hpath & _ & Ha & Hres).
  destruct Ha as [-> [= ->]].
  assert (admitted ex_operator r = true) as Hadm.
  { unfold admitted, rule_applies. rewrite Hmeth, Hpath. vm_compute. reflexivity. }
  rewrite Hadm in Hres. exists th. exact Hres.
Defined.
