(* ===== verification/Operations.v ===== *)
(** * Operations: the generated client and the generated server agree

    The client ([sdk/controlplane/gen/client.go], GenClient) and the server
    ([internal/controlplane/oapi/gen.go], ControlPlane) are generated apart
    from the same API.  Here every operation of the one is run against the
    other: the request a method of the client sends, through the network and
    the router, is the one the server's method of the same name handles, with
    the same parameters and the same body.  The methods that take an arbitrary
    body ([...WithBody]) are those with a JSON body once it is encoded. *)

From Stdlib Require Import Ascii String.
From stdpp Require Import gmap.
From S2P Require Import Prelude GoStrings Prog Api Kube Auth Rbac Tenant AuditLog ControlPlane Json GenTypes GenClient SdkClient ApiJson ApiViews ApiBodies ApiExamples ClientServer.
#[local] Open Scope Z_scope.

(** ** Requests with any body *)

Section WithBody.
Context `{Htext : !JsonText, Htime : !RFC3339, Hnano : !RFC3339Nano, Hurl : !Url}.

Definition NewCreateAPIKeyRequestWithBody (server contentType body : string) : HttpReq + gerr :=
  new_request_with_body "POST" server [Lit "api"; Lit "v1"; Lit "apikeys"] contentType body.
Definition NewCreateGameServerFleetRequestWithBody (server namespace contentType body : string) : HttpReq + gerr :=
  new_request_with_body "POST" server
    [Lit "api"; Lit "v1"; Lit "gameserverfleets"; Param "namespace" namespace] contentType body.
Definition NewUpdateGameServerFleetRequestWithBody (server namespace name contentType body : string) : HttpReq + gerr :=
  new_request_with_body "PATCH" server
    [Lit "api"; Lit "v1"; Lit "gameserverfleets"; Param "namespace" namespace; Param "name" name]
    contentType body.
Definition NewCreateGameServerRequestWithBody (server namespace contentType body : string) : HttpReq + gerr :=
  new_request_with_body "POST" server
    [Lit "api"; Lit "v1"; Lit "gameservers"; Param "namespace" namespace] contentType body.
Definition NewUpdateGameServerLifecycleRequestWithBody (server namespace name contentType body : string) : HttpReq + gerr :=
  new_request_with_body "PATCH" server
    [Lit "api"; Lit "v1"; Lit "gameservers"; Param "namespace" namespace; Param "name" name]
    contentType body.
Definition NewExecuteActionRequestWithBody (server namespace name action contentType body : string) : HttpReq + gerr :=
  new_request_with_body "POST" server
    [Lit "api"; Lit "v1"; Lit "gameservers"; Param "namespace" namespace; Param "name" name;
     Lit "actions"; Param "action" action] contentType body.

Definition client_CreateAPIKeyWithBody (c : Client) (contentType body : string) : Http (HttpResp + gerr) :=
  do_request c (NewCreateAPIKeyRequestWithBody (c_Server c) contentType body).
Definition client_CreateGameServerFleetWithBody (c : Client) (namespace contentType body : string) : Http (HttpResp + gerr) :=
  do_request c (NewCreateGameServerFleetRequestWithBody (c_Server c) namespace contentType body).
Definition client_UpdateGameServerFleetWithBody (c : Client) (namespace name contentType body : string) : Http (HttpResp + gerr) :=
  do_request c (NewUpdateGameServerFleetRequestWithBody (c_Server c) namespace name contentType body).
Definition client_CreateGameServerWithBody (c : Client) (namespace contentType body : string) : Http (HttpResp + gerr) :=
  do_request c (NewCreateGameServerRequestWithBody (c_Server c) namespace contentType body).
Definition client_UpdateGameServerLifecycleWithBody (c : Client) (namespace name contentType body : string) : Http (HttpResp + gerr) :=
  do_request c (NewUpdateGameServerLifecycleRequestWithBody (c_Server c) namespace name contentType body).
Definition client_ExecuteActionWithBody (c : Client) (namespace name action contentType body : string) : Http (HttpResp + gerr) :=
  do_request c (NewExecuteActionRequestWithBody (c_Server c) namespace name action contentType body).

Definition CreateAPIKeyWithBodyWithResponse (c : Client) (contentType body : string) :=
  with_response (client_CreateAPIKeyWithBody c contentType body) ParseCreateAPIKeyResponse.
Definition CreateGameServerFleetWithBodyWithResponse (c : Client) (namespace contentType body : string) :=
  with_response (client_CreateGameServerFleetWithBody c namespace contentType body) ParseCreateGameServerFleetResponse.
Definition UpdateGameServerFleetWithBodyWithResponse (c : Client) (namespace name contentType body : string) :=
  with_response (client_UpdateGameServerFleetWithBody c namespace name contentType body) ParseUpdateGameServerFleetResponse.
Definition CreateGameServerWithBodyWithResponse (c : Client) (namespace contentType body : string) :=
  with_response (client_CreateGameServerWithBody c namespace contentType body) ParseCreateGameServerResponse.
Definition UpdateGameServerLifecycleWithBodyWithResponse (c : Client) (namespace name contentType body : string) :=
  with_response (client_UpdateGameServerLifecycleWithBody c namespace name contentType body) ParseUpdateGameServerLifecycleResponse.
Definition ExecuteActionWithBodyWithResponse (c : Client) (namespace name action contentType body : string) :=
  with_response (client_ExecuteActionWithBody c namespace name action contentType body) ParseExecuteActionResponse.

Lemma json_bodies c ns name action kb fb fp gb gp ps :
  CreateAPIKeyWithResponse c kb
    = CreateAPIKeyWithBodyWithResponse c "application/json" (print (enc_CreateAPIKeyRequest kb))
  ∧ CreateGameServerFleetWithResponse c ns fb
    = CreateGameServerFleetWithBodyWithResponse c ns "application/json" (print (enc_GameServerFleet fb))
  ∧ UpdateGameServerFleetWithResponse c ns name fp
    = UpdateGameServerFleetWithBodyWithResponse c ns name "application/json" (print (enc_GameServerFleetPatch fp))
  ∧ CreateGameServerWithResponse c ns gb
    = CreateGameServerWithBodyWithResponse c ns "application/json" (print (enc_GameServer gb))
  ∧ UpdateGameServerLifecycleWithResponse c ns name gp
    = UpdateGameServerLifecycleWithBodyWithResponse c ns name "application/json" (print (enc_GameServerLifecyclePatch gp))
  ∧ ExecuteActionWithResponse c ns name action ps
    = ExecuteActionWithBodyWithResponse c ns name action "application/json" (print (enc_params ps)).
Proof.
  assert (∀ A (parse : HttpResp → Parsed A + gerr) m segs j,
    with_response (do_request c (new_request m (c_Server c) segs (Some j))) parse
    = with_response (do_request c (new_request_with_body m (c_Server c) segs "application/json" (print j))) parse)
    as H by (intros; by rewrite new_request_json).
  split_and!; apply H.
Qed.
End WithBody.

(** ** Every operation *)

(** The arguments the operations take between them. *)
Record Arguments_ := {
  a_namespace : string;
  a_name : string;
  a_action : string;
  a_executionId : string;
  a_keyId : string;
  a_fleet : gen_GameServerFleet;
  a_fleet_patch : gen_GameServerFleetPatch;
  a_server : gen_GameServer;
  a_lifecycle : gen_GameServerLifecyclePatch;
  a_params : gomap string;
  a_key : gen_CreateAPIKeyRequest;
}.

(** The argument a path parameter stands for. *)
Definition argument (a : Arguments_) (k : string) : string :=
  if k =s "namespace" then a_namespace a
  else if k =s "name" then a_name a
  else if k =s "action" then a_action a
  else if k =s "executionId" then a_executionId a
  else if k =s "keyId" then a_keyId a
  else "".

Definition names_ok (a : Arguments_) : Prop :=
  k8s_name (a_namespace a) = true ∧ k8s_name (a_name a) = true ∧ k8s_name (a_action a) = true
  ∧ k8s_name (a_executionId a) = true ∧ k8s_name (a_keyId a) = true.

Section Agreement.
Context `{Htext : !JsonText, Htime : !RFC3339, Hnano : !RFC3339Nano, Hkube : !KubeJSON, Hurl : !Url,
          Hnet : !Transport, Hqty : !QuantityParser, Hentry : !EntryJSON, Hrouter : !Router,
          Htotal : !RouterTotal}.
Variables (authCfg : Config) (keyStorage : string) (tenantCfg : TenantConfig) (user : option User).
Context (origin apiKey : string).
Hypothesis Horigin : valid_origin origin = true.
Hypothesis Hslash : HasSuffix origin "/" = false.

(** The request of each method of the client, the body it means, and the
    method of the server with the same name. *)
Definition operations (server : string) (a : Arguments_)
    : list ((HttpReq + gerr) * option json * Operation) :=
  let ns := a_namespace a in let name := a_name a in [
  (NewListAPIKeysRequest server, None, siw_ListAPIKeys keyStorage);
  (NewCreateAPIKeyRequest server (a_key a), Some (enc_CreateAPIKeyRequest (a_key a)), siw_CreateAPIKey keyStorage);
  (NewDeleteAPIKeyRequest server (a_keyId a), None, siw_DeleteAPIKey keyStorage);
  (NewListGameServerFleetsRequest server, None, siw_ListGameServerFleets);
  (NewCreateGameServerFleetRequest server ns (a_fleet a), Some (enc_GameServerFleet (a_fleet a)), siw_CreateGameServerFleet tenantCfg);
  (NewDeleteGameServerFleetRequest server ns name, None, siw_DeleteGameServerFleet);
  (NewGetGameServerFleetRequest server ns name, None, siw_GetGameServerFleet);
  (NewUpdateGameServerFleetRequest server ns name (a_fleet_patch a), Some (enc_GameServerFleetPatch (a_fleet_patch a)), siw_UpdateGameServerFleet);
  (NewListGameServersRequest server, None, siw_ListGameServers);
  (NewCreateGameServerRequest server ns (a_server a), Some (enc_GameServer (a_server a)), siw_CreateGameServer tenantCfg);
  (NewDeleteGameServerRequest server ns name, None, siw_DeleteGameServer);
  (NewGetGameServerRequest server ns name, None, siw_GetGameServer);
  (NewUpdateGameServerLifecycleRequest server ns name (a_lifecycle a), Some (enc_GameServerLifecyclePatch (a_lifecycle a)), siw_UpdateGameServerLifecycle);
  (NewListActionsRequest server ns name, None, siw_ListActions);
  (NewExecuteActionRequest server ns name (a_action a) (a_params a), Some (enc_params (a_params a)), siw_ExecuteAction);
  (NewGetConsoleRequest server ns name, None, siw_GetConsole);
  (NewGetActionExecutionRequest server ns name (a_executionId a), None, siw_GetActionExecution);
  (NewGetSFTPInfoRequest server ns name, None, siw_GetSFTPInfo);
  (NewListSnapshotsRequest server ns name, None, siw_ListSnapshots);
  (NewCreateSnapshotRequest server ns name, None, siw_CreateSnapshot);
  (NewListProfilesRequest server, None, siw_ListProfiles);
  (NewGetProfileRequest server name, None, siw_GetProfile);
  (NewGetAuthConfigRequest server, None, siw_GetAuthConfig authCfg);
  (NewGetHealthzRequest server, None, siw_GetHealthz);
  (NewGetReadyzRequest server, None, siw_GetReadyz)].

(** The server handles the request [req] by the operation [op], with the
    parameters of [a] and the body [j]. *)
Definition handled (a : Arguments_) (e : (HttpReq + gerr) * option json * Operation) : Prop :=
  let '(req, j, op) := e in
  ∃ q r, req = inl q
    ∧ control_plane authCfg keyStorage tenantCfg user (applyEditors (sdk_client origin apiKey) q)
      = bind (op_Handler op r) (λ rep, Ret (render rep))
    ∧ rq_User r = user
    ∧ map (rq_Param r) (op_Params op) = map (argument a) (op_Params op)
    ∧ rq_Body r = match j with Some j => print j | None => "" end.


(** The operation at a position of the table: its request reaches the route there. *)
Ltac operation_at i :=
  unfold handled; sending;
  lazymatch goal with
  | |- ∃ q r, new_request ?m _ ?segs ?b = inl q ∧ _ =>
      let found := eval hnf in (routes authCfg keyStorage tenantCfg !! i) in
      let rt := lazymatch found with Some ?rt => rt end in
      destruct (request_routed authCfg keyStorage tenantCfg user origin apiKey Horigin Hslash
                  m segs b i rt) as (q & r & Hq & Hb & Hu & Hp & Hrun);
      [reflexivity|reflexivity|done
      |repeat constructor; (assumption || reflexivity)
      |vm_compute; reflexivity
      |vm_compute; repeat constructor
      |vm_compute; repeat constructor; eexists; reflexivity
      |exists q, r; split_and!;
       [exact Hq|exact Hrun|exact Hu|etrans; [exact Hp|reflexivity]|exact Hb]]
  end.
Ltac operations_from i :=
  lazymatch goal with
  | |- Forall _ [] => constructor
  | |- Forall _ (_ :: _) =>
      apply Forall_cons_2; [operation_at i|let j := eval cbv in (S i) in operations_from j]
  end.

(** C21: *the generated client and the generated server agree.*  For every
    operation of the API: the request the client's method sends reaches, through
    the router, the method of the same name, which is given the client's
    arguments as its path parameters, each under its name, and the client's
    body, encoded; and the operations of the client are exactly those the server routes. *)
Theorem client_server_agree a :
  names_ok a →
  Forall (handled a) (operations (c_Server (sdk_client origin apiKey)) a)
  ∧ (λ e, (op_Params e.2, op_Handler e.2)) <$> operations (c_Server (sdk_client origin apiKey)) a
    = (λ rt, (rt_Params rt, rt_Handler rt)) <$> routes authCfg keyStorage tenantCfg.
Proof.
  intros (Hns & Hname & Hact & Hid & Hkey). split; [|reflexivity].
  unfold operations. cbv zeta. operations_from 0%nat.
Qed.
End Agreement.

(** A request for a key's deletion, through a concrete network. *)
#[local] Existing Instances ex_JsonText ex_RFC3339 ex_KubeJSON ex_Url ex_Parser ex_EntryJSON ex_Router.
Definition ex_arguments : Arguments_ := {|
  a_namespace := "tenant-a"; a_name := "lobby"; a_action := "save"; a_executionId := "run-1";
  a_keyId := "key-1"; a_fleet := zero_GameServerFleet;
  a_fleet_patch := {| xfp_Replicas := Some (Some 2) |}; a_server := zero_GameServer;
  a_lifecycle := {| xlp_Lifecycle := None |};
  a_params := None;
  a_key := {| xkr_ExpiresAt := None; xkr_Name := "ci"; xkr_Namespaces := None; xkr_Role := None |} |}.

Lemma client_server_agree_witness :
  let server := c_Server ex_client in
  names_ok ex_arguments
  ∧ ∃ q r, NewDeleteAPIKeyRequest server "key-1" = inl q
      ∧ ex_cp (applyEditors ex_client q)
        = bind (DeleteAPIKey "minato-system" r) (λ rep, Ret (render rep))
      ∧ rq_User r = Some ex_operator ∧ rq_Param r "keyId" = "key-1" ∧ rq_Body r = "".
Proof.
  cbv zeta. assert (names_ok ex_arguments) as H by (repeat split).
  split; [exact H|].
  destruct (client_server_agree (Hurl := ex_Url) (Auth.LoadConfig (λ _, "")) "minato-system" ex_tenant_config
    (Some ex_operator) ex_origin "minato_key" eq_refl eq_refl ex_arguments H) as [Hall _].
  do 2 (apply Forall_cons in Hall as [_ Hall]). apply Forall_cons in Hall as [Hd _].
  destruct Hd as (q & r & Hq & Hrun & Hu & Hp & Hb). exists q, r.
  split; [exact Hq|]. split; [exact Hrun|]. split; [exact Hu|]. split; [by injection Hp|exact Hb].
Defined.

(** ** The keys a client lists

    A listed key shows its name, role, times and namespaces, and not the id
    that deleting it takes: keys that agree on the first are the same to the
    client. *)
Lemma listed_keys_without_id `{!RFC3339, !RFC3339Nano} e e' :
  ak_Name e = ak_Name e' → ak_Role e = ak_Role e' → ak_CreatedAt e = ak_CreatedAt e' →
  ak_Namespaces e = ak_Namespaces e' → ak_ExpiresAt e = ak_ExpiresAt e' →
  dec_APIKey (enc_APIKeyEntry e) zero_APIKey = dec_APIKey (enc_APIKeyEntry e') zero_APIKey.
Proof.
  destruct e as [n i u un r c nss x], e' as [n' i' u' un' r' c' nss' x'].
  cbn [ak_Name ak_Role ak_CreatedAt ak_Namespaces ak_ExpiresAt]. intros <- <- <- <- <-.
  reflexivity.
Qed.
