(* ===== verification/CloudTypes.v ===== *)
(** * CloudTypes: the models of the cloud's API
    ([internal/cloudapi/gen/client.gen.go])

    The Go structs of the operations the cloud client uses, with their JSON
    decoders and, for the two it sends, encoders. The error envelope is
    [GenTypes.gen_Error], which both APIs have. *)

From Stdlib Require Import Ascii String.
From coqutil Require Import Datatypes.RecordSetters.
From stdpp Require Import gmap.
From S2P Require Import Prelude GoStrings Kube Auth Json GenTypes.
#[local] Open Scope Z_scope.

(** [time.Time{}]. *)
Definition zero_instant : Z := -62135596800 * second.

(** A role is a string. *)
Record cloud_Tenant := {
  ct_CreatedAt : option Z;
  ct_Id : string;
  ct_Name : string;
  ct_Role : option string;
  ct_Slug : string;
}.
Definition cloud_zero_Tenant : cloud_Tenant := {|
  ct_CreatedAt := None; ct_Id := ""; ct_Name := ""; ct_Role := None; ct_Slug := "" |}.
Definition cloud_dec_Tenant `{!RFC3339} : dec cloud_Tenant := lenient [
  fld "created_at" d_ptime ct_CreatedAt;
  fld "id" d_string ct_Id;
  fld "name" d_string ct_Name;
  fld "role" d_pstring ct_Role;
  fld "slug" d_string ct_Slug].

Record cloud_Server := {
  cs_ClusterId : string;
  cs_CreatedAt : option Z;
  cs_Id : string;
  cs_Name : string;
  cs_Namespace : string;
  cs_Profile : string;
  cs_Status : string;
  cs_StorageSize : option string;
  cs_Suspended : option bool;
  cs_TenantId : string;
  cs_Tier : option string;
}.
Definition cloud_zero_Server : cloud_Server := {|
  cs_ClusterId := ""; cs_CreatedAt := None; cs_Id := ""; cs_Name := ""; cs_Namespace := "";
  cs_Profile := ""; cs_Status := ""; cs_StorageSize := None; cs_Suspended := None; cs_TenantId :=
  ""; cs_Tier := None |}.
Definition cloud_dec_Server `{!RFC3339} : dec cloud_Server := lenient [
  fld "cluster_id" d_string cs_ClusterId;
  fld "created_at" d_ptime cs_CreatedAt;
  fld "id" d_string cs_Id;
  fld "name" d_string cs_Name;
  fld "namespace" d_string cs_Namespace;
  fld "profile" d_string cs_Profile;
  fld "status" d_string cs_Status;
  fld "storage_size" d_pstring cs_StorageSize;
  fld "suspended" d_pbool cs_Suspended;
  fld "tenant_id" d_string cs_TenantId;
  fld "tier" d_pstring cs_Tier].

(** [LiveGameServer]: its three anonymous structs first. *)
Record cloud_LiveMetadata := {
  clm_Labels : option (gomap string);
  clm_Name : option string;
  clm_Namespace : option string;
}.
Definition cloud_zero_LiveMetadata : cloud_LiveMetadata := {|
  clm_Labels := None; clm_Name := None; clm_Namespace := None |}.
Definition cloud_dec_LiveMetadata : dec cloud_LiveMetadata := lenient [
  fld "labels" d_pmap clm_Labels;
  fld "name" d_pstring clm_Name;
  fld "namespace" d_pstring clm_Namespace].

Record cloud_LiveEndpoint := {
  cle_Address : option string;
  cle_Name : option string;
  cle_Port : option Z;
}.
Definition cloud_zero_LiveEndpoint : cloud_LiveEndpoint := {|
  cle_Address := None; cle_Name := None; cle_Port := None |}.
Definition cloud_dec_LiveEndpoint : dec cloud_LiveEndpoint := lenient [
  fld "address" d_pstring cle_Address;
  fld "name" d_pstring cle_Name;
  fld "port" d_pint cle_Port].

Record cloud_LiveStatus := {
  cls_Endpoints : option (list cloud_LiveEndpoint);
  cls_PlayerCapacity : option Z;
  cls_Players : option Z;
  cls_State : option string;
}.
Definition cloud_zero_LiveStatus : cloud_LiveStatus := {|
  cls_Endpoints := None; cls_PlayerCapacity := None; cls_Players := None; cls_State := None |}.
Definition cloud_dec_LiveStatus : dec cloud_LiveStatus := lenient [
  fld "endpoints" (d_ptr [] (d_slice cloud_zero_LiveEndpoint cloud_dec_LiveEndpoint)) cls_Endpoints;
  fld "playerCapacity" d_pint cls_PlayerCapacity;
  fld "players" d_pint cls_Players;
  fld "state" d_pstring cls_State].

Record cloud_LiveGameServer := {
  clg_Metadata : option cloud_LiveMetadata;
  clg_Spec : option (gomap json);
  clg_Status : option cloud_LiveStatus;
}.
Definition cloud_zero_LiveGameServer : cloud_LiveGameServer := {|
  clg_Metadata := None; clg_Spec := None; clg_Status := None |}.
Definition cloud_dec_LiveGameServer : dec cloud_LiveGameServer := lenient [
  fld "metadata" (d_ptr cloud_zero_LiveMetadata cloud_dec_LiveMetadata) clg_Metadata;
  fld "spec" (d_ptr None (d_map JNull d_any)) clg_Spec;
  fld "status" (d_ptr cloud_zero_LiveStatus cloud_dec_LiveStatus) clg_Status].

Record cloud_ServerWithLive := { cw_Live : option cloud_LiveGameServer; cw_Server : cloud_Server }.
Definition cloud_zero_ServerWithLive : cloud_ServerWithLive := {|
  cw_Live := None; cw_Server := cloud_zero_Server |}.
Definition cloud_dec_ServerWithLive `{!RFC3339} : dec cloud_ServerWithLive := lenient [
  fld "live" (d_ptr cloud_zero_LiveGameServer cloud_dec_LiveGameServer) cw_Live;
  fld "server" cloud_dec_Server cw_Server].

Record cloud_CreateServerRequest := {
  cr_Env : option (gomap string);
  cr_LoadBalancerIp : option string;
  cr_Name : string;
  cr_Profile : string;
  cr_Region : option string;
  cr_Snapshot : option string;
  cr_StorageSize : option string;
  cr_Tier : option string;
}.
Definition cloud_zero_CreateServerRequest : cloud_CreateServerRequest := {|
  cr_Env := None; cr_LoadBalancerIp := None; cr_Name := ""; cr_Profile := ""; cr_Region := None;
  cr_Snapshot := None; cr_StorageSize := None; cr_Tier := None |}.
Definition cloud_dec_CreateServerRequest : dec cloud_CreateServerRequest := lenient [
  fld "env" d_pmap cr_Env;
  fld "loadBalancerIp" d_pstring cr_LoadBalancerIp;
  fld "name" d_string cr_Name;
  fld "profile" d_string cr_Profile;
  fld "region" d_pstring cr_Region;
  fld "snapshot" d_pstring cr_Snapshot;
  fld "storageSize" d_pstring cr_StorageSize;
  fld "tier" d_pstring cr_Tier].
Definition cloud_enc_CreateServerRequest (r : cloud_CreateServerRequest) : json := JObj (
  m_ptr_map "env" JStr (cr_Env r)
  ++ m_pstring "loadBalancerIp" (cr_LoadBalancerIp r)
  ++ [("name", JStr (cr_Name r))]
  ++ [("profile", JStr (cr_Profile r))]
  ++ m_pstring "region" (cr_Region r)
  ++ m_pstring "snapshot" (cr_Snapshot r)
  ++ m_pstring "storageSize" (cr_StorageSize r)
  ++ m_pstring "tier" (cr_Tier r)).

(** [GameSnapshot]. *)
Record cloud_SnapMetadata := { csm_Name : option string; csm_Namespace : option string }.
Definition cloud_zero_SnapMetadata : cloud_SnapMetadata := {| csm_Name := None; csm_Namespace := None |}.
Definition cloud_dec_SnapMetadata : dec cloud_SnapMetadata := lenient [
  fld "name" d_pstring csm_Name;
  fld "namespace" d_pstring csm_Namespace].

Record cloud_SnapSpec := { csp_GameServerRef : option string; csp_Schedule : option string }.
Definition cloud_zero_SnapSpec : cloud_SnapSpec := {| csp_GameServerRef := None; csp_Schedule := None |}.
Definition cloud_dec_SnapSpec : dec cloud_SnapSpec := lenient [
  fld "gameServerRef" d_pstring csp_GameServerRef;
  fld "schedule" d_pstring csp_Schedule].

Record cloud_SnapStatus := {
  cst_ReadyAt : option Z;
  cst_Size : option string;
  cst_State : option string;
}.
Definition cloud_zero_SnapStatus : cloud_SnapStatus := {|
  cst_ReadyAt := None; cst_Size := None; cst_State := None |}.
Definition cloud_dec_SnapStatus `{!RFC3339} : dec cloud_SnapStatus := lenient [
  fld "readyAt" d_ptime cst_ReadyAt;
  fld "size" d_pstring cst_Size;
  fld "state" d_pstring cst_State].

Record cloud_GameSnapshot := {
  cg_Metadata : option cloud_SnapMetadata;
  cg_Spec : option cloud_SnapSpec;
  cg_Status : option cloud_SnapStatus;
}.
Definition cloud_zero_GameSnapshot : cloud_GameSnapshot := {|
  cg_Metadata := None; cg_Spec := None; cg_Status := None |}.
Definition cloud_dec_GameSnapshot `{!RFC3339} : dec cloud_GameSnapshot := lenient [
  fld "metadata" (d_ptr cloud_zero_SnapMetadata cloud_dec_SnapMetadata) cg_Metadata;
  fld "spec" (d_ptr cloud_zero_SnapSpec cloud_dec_SnapSpec) cg_Spec;
  fld "status" (d_ptr cloud_zero_SnapStatus cloud_dec_SnapStatus) cg_Status].

Record cloud_ActionParam := {
  cap_Default : option string;
  cap_Required : option bool;
  cap_Type : option string;
}.
Definition cloud_zero_ActionParam : cloud_ActionParam := {|
  cap_Default := None; cap_Required := None; cap_Type := None |}.
Definition cloud_dec_ActionParam : dec cloud_ActionParam := lenient [
  fld "default" d_pstring cap_Default;
  fld "required" d_pbool cap_Required;
  fld "type" d_pstring cap_Type].

Record cloud_Action := {
  cac_Concurrency : option string;
  cac_Description : option string;
  cac_Name : option string;
  cac_Params : option (gomap cloud_ActionParam);
  cac_Timeout : option string;
}.
Definition cloud_zero_Action : cloud_Action := {|
  cac_Concurrency := None; cac_Description := None; cac_Name := None; cac_Params := None;
  cac_Timeout := None |}.
Definition cloud_dec_Action : dec cloud_Action := lenient [
  fld "concurrency" d_pstring cac_Concurrency;
  fld "description" d_pstring cac_Description;
  fld "name" d_pstring cac_Name;
  fld "params" (d_ptr None (d_map cloud_zero_ActionParam cloud_dec_ActionParam)) cac_Params;
  fld "timeout" d_pstring cac_Timeout].

Record cloud_ActionExecutionRef := { cxr_Name : string }.
Definition cloud_zero_ActionExecutionRef : cloud_ActionExecutionRef := {| cxr_Name := "" |}.
Definition cloud_dec_ActionExecutionRef : dec cloud_ActionExecutionRef := lenient [
  fld "name" d_string cxr_Name].

Record cloud_ProfileEnvironment := {
  cpe_Default : option string;
  cpe_Description : option string;
  cpe_Key : string;
  cpe_Required : option bool;
}.
Definition cloud_zero_ProfileEnvironment : cloud_ProfileEnvironment := {|
  cpe_Default := None; cpe_Description := None; cpe_Key := ""; cpe_Required := None |}.
Definition cloud_dec_ProfileEnvironment : dec cloud_ProfileEnvironment := lenient [
  fld "default" d_pstring cpe_Default;
  fld "description" d_pstring cpe_Description;
  fld "key" d_string cpe_Key;
  fld "required" d_pbool cpe_Required].

Record cloud_ProfileTier := {
  cpt_Limits : option (gomap string);
  cpt_Name : string;
  cpt_Requests : option (gomap string);
}.
Definition cloud_zero_ProfileTier : cloud_ProfileTier := {|
  cpt_Limits := None; cpt_Name := ""; cpt_Requests := None |}.
Definition cloud_dec_ProfileTier : dec cloud_ProfileTier := lenient [
  fld "limits" d_pmap cpt_Limits;
  fld "name" d_string cpt_Name;
  fld "requests" d_pmap cpt_Requests].

Record cloud_CatalogEntry := {
  cce_Capabilities : list string;
  cce_Category : option string;
  cce_DefaultTier : option string;
  cce_Description : option string;
  cce_DisplayName : string;
  cce_Environment : option (list cloud_ProfileEnvironment);
  cce_Icon : option string;
  cce_Name : string;
  cce_Regions : list string;
  cce_StorageDefault : option string;
  cce_StorageMax : option string;
  cce_StorageMin : option string;
  cce_Tiers : list cloud_ProfileTier;
}.
Definition cloud_zero_CatalogEntry : cloud_CatalogEntry := {|
  cce_Capabilities := []; cce_Category := None; cce_DefaultTier := None; cce_Description := None;
  cce_DisplayName := ""; cce_Environment := None; cce_Icon := None; cce_Name := ""; cce_Regions :=
  []; cce_StorageDefault := None; cce_StorageMax := None; cce_StorageMin := None; cce_Tiers := [] |}.
Definition cloud_dec_CatalogEntry : dec cloud_CatalogEntry := lenient [
  fld "capabilities" (d_slice "" d_string) cce_Capabilities;
  fld "category" d_pstring cce_Category;
  fld "defaultTier" d_pstring cce_DefaultTier;
  fld "description" d_pstring cce_Description;
  fld "displayName" d_string cce_DisplayName;
  fld "environment" (d_ptr [] (d_slice cloud_zero_ProfileEnvironment cloud_dec_ProfileEnvironment)) cce_Environment;
  fld "icon" d_pstring cce_Icon;
  fld "name" d_string cce_Name;
  fld "regions" (d_slice "" d_string) cce_Regions;
  fld "storageDefault" d_pstring cce_StorageDefault;
  fld "storageMax" d_pstring cce_StorageMax;
  fld "storageMin" d_pstring cce_StorageMin;
  fld "tiers" (d_slice cloud_zero_ProfileTier cloud_dec_ProfileTier) cce_Tiers].

Record cloud_Plan := {
  cpl_DisplayName : string;
  cpl_Id : string;
  cpl_Isolation : string;
  cpl_MaxServers : Z;
  cpl_MaxStorageGb : Z;
  cpl_MonthlyPriceCents : option Z;
  cpl_StripePriceId : option string;
}.
Definition cloud_zero_Plan : cloud_Plan := {|
  cpl_DisplayName := ""; cpl_Id := ""; cpl_Isolation := ""; cpl_MaxServers := 0; cpl_MaxStorageGb :=
  0; cpl_MonthlyPriceCents := None; cpl_StripePriceId := None |}.
Definition cloud_dec_Plan : dec cloud_Plan := lenient [
  fld "display_name" d_string cpl_DisplayName;
  fld "id" d_string cpl_Id;
  fld "isolation" d_string cpl_Isolation;
  fld "max_servers" d_int cpl_MaxServers;
  fld "max_storage_gb" d_int cpl_MaxStorageGb;
  fld "monthly_price_cents" d_pint cpl_MonthlyPriceCents;
  fld "stripe_price_id" d_pstring cpl_StripePriceId].

Record cloud_Subscription := {
  csb_CurrentPeriodEnd : option Z;
  csb_GraceUntil : option Z;
  csb_PlanId : string;
  csb_Status : string;
  csb_StripeCustomerId : option string;
  csb_StripeSubscriptionId : option string;
  csb_TenantId : string;
}.
Definition cloud_zero_Subscription : cloud_Subscription := {|
  csb_CurrentPeriodEnd := None; csb_GraceUntil := None; csb_PlanId := ""; csb_Status := "";
  csb_StripeCustomerId := None; csb_StripeSubscriptionId := None; csb_TenantId := "" |}.
Definition cloud_dec_Subscription `{!RFC3339} : dec cloud_Subscription := lenient [
  fld "current_period_end" d_ptime csb_CurrentPeriodEnd;
  fld "grace_until" d_ptime csb_GraceUntil;
  fld "plan_id" d_string csb_PlanId;
  fld "status" d_string csb_Status;
  fld "stripe_customer_id" d_pstring csb_StripeCustomerId;
  fld "stripe_subscription_id" d_pstring csb_StripeSubscriptionId;
  fld "tenant_id" d_string csb_TenantId].

Record cloud_APIKey := {
  cky_CreatedAt : Z;
  cky_CreatedBy : string;
  cky_ExpiresAt : option Z;
  cky_Id : string;
  cky_LastUsedAt : option Z;
  cky_Name : string;
  cky_Prefix : string;
  cky_Scopes : list string;
  cky_TenantId : string;
}.
Definition cloud_zero_APIKey : cloud_APIKey := {|
  cky_CreatedAt := zero_instant; cky_CreatedBy := ""; cky_ExpiresAt := None; cky_Id := "";
  cky_LastUsedAt := None; cky_Name := ""; cky_Prefix := ""; cky_Scopes := []; cky_TenantId := "" |}.
Definition cloud_dec_APIKey `{!RFC3339} : dec cloud_APIKey := lenient [
  fld "created_at" d_time cky_CreatedAt;
  fld "created_by" d_string cky_CreatedBy;
  fld "expires_at" d_ptime cky_ExpiresAt;
  fld "id" d_string cky_Id;
  fld "last_used_at" d_ptime cky_LastUsedAt;
  fld "name" d_string cky_Name;
  fld "prefix" d_string cky_Prefix;
  fld "scopes" (d_slice "" d_string) cky_Scopes;
  fld "tenant_id" d_string cky_TenantId].

Record cloud_CreateAPIKeyRequest := {
  cqk_ExpiresInDays : option Z;
  cqk_Name : string;
  cqk_Scopes : option (list string);
}.
Definition cloud_zero_CreateAPIKeyRequest : cloud_CreateAPIKeyRequest := {|
  cqk_ExpiresInDays := None; cqk_Name := ""; cqk_Scopes := None |}.
Definition cloud_dec_CreateAPIKeyRequest : dec cloud_CreateAPIKeyRequest := lenient [
  fld "expiresInDays" d_pint cqk_ExpiresInDays;
  fld "name" d_string cqk_Name;
  fld "scopes" (d_ptr [] (d_slice "" d_string)) cqk_Scopes].
Definition cloud_enc_CreateAPIKeyRequest (r : cloud_CreateAPIKeyRequest) : json := JObj (
  m_pint "expiresInDays" (cqk_ExpiresInDays r)
  ++ [("name", JStr (cqk_Name r))]
  ++ m_ptr "scopes" (λ l, JArr (JStr <$> l)) (cqk_Scopes r)).

Record cloud_APIKeyCreated := {
  ckc_CreatedAt : Z;
  ckc_CreatedBy : string;
  ckc_ExpiresAt : option Z;
  ckc_Id : string;
  ckc_Key : string;
  ckc_LastUsedAt : option Z;
  ckc_Name : string;
  ckc_Prefix : string;
  ckc_Scopes : list string;
  ckc_TenantId : string;
}.
Definition cloud_zero_APIKeyCreated : cloud_APIKeyCreated := {|
  ckc_CreatedAt := zero_instant; ckc_CreatedBy := ""; ckc_ExpiresAt := None; ckc_Id := ""; ckc_Key
  := ""; ckc_LastUsedAt := None; ckc_Name := ""; ckc_Prefix := ""; ckc_Scopes := []; ckc_TenantId :=
  "" |}.
Definition cloud_dec_APIKeyCreated `{!RFC3339} : dec cloud_APIKeyCreated := lenient [
  fld "created_at" d_time ckc_CreatedAt;
  fld "created_by" d_string ckc_CreatedBy;
  fld "expires_at" d_ptime ckc_ExpiresAt;
  fld "id" d_string ckc_Id;
  fld "key" d_string ckc_Key;
  fld "last_used_at" d_ptime ckc_LastUsedAt;
  fld "name" d_string ckc_Name;
  fld "prefix" d_string ckc_Prefix;
  fld "scopes" (d_slice "" d_string) ckc_Scopes;
  fld "tenant_id" d_string ckc_TenantId].
