(* ===== verification/CloudClient.v ===== *)
(** * CloudClient: the client of minato-cloud ([internal/cloudapi])

    The operations of the generated client that the cloud client uses, in terms of
    the machinery of [GenClient], which the generator emits for both APIs (the
    rest are in [CloudOps]); then [client.go]: the wrapper with its error mapping
    and tenant resolution. *)

From Stdlib Require Import Ascii String.
From stdpp Require Import gmap.
From S2P Require Import Prelude GoStrings Prog Kube Auth Json GenTypes GenClient SdkClient CloudTypes.
#[local] Open Scope Z_scope.

(** ** The generated operations *)

Section Generated.
Context `{Htext : !JsonText, Htime : !RFC3339, Hurl : !Url}.

(** *** Requests *)

Definition cloud_NewListMyTenantsRequest (server : string) : HttpReq + gerr :=
  new_request "GET" server
    [Lit "api"; Lit "v1"; Lit "me"; Lit "tenants"]
    None.

Definition cloud_NewListServersRequest (server tenantID : string) : HttpReq + gerr :=
  new_request "GET" server
    [Lit "api"; Lit "v1"; Lit "tenants"; Param "tenantID" tenantID; Lit "servers"]
    None.

Definition cloud_NewCreateServerRequest (server tenantID : string) (body : cloud_CreateServerRequest) : HttpReq + gerr :=
  new_request "POST" server
    [Lit "api"; Lit "v1"; Lit "tenants"; Param "tenantID" tenantID; Lit "servers"]
    (Some (cloud_enc_CreateServerRequest body)).

Definition cloud_NewDeleteServerRequest (server tenantID serverID : string) : HttpReq + gerr :=
  new_request "DELETE" server
    [Lit "api"; Lit "v1"; Lit "tenants"; Param "tenantID" tenantID; Lit "servers"; Param "serverID" serverID]
    None.

Definition cloud_NewGetServerRequest (server tenantID serverID : string) : HttpReq + gerr :=
  new_request "GET" server
    [Lit "api"; Lit "v1"; Lit "tenants"; Param "tenantID" tenantID; Lit "servers"; Param "serverID" serverID]
    None.

Definition cloud_NewListSnapshotsRequest (server tenantID serverID : string) : HttpReq + gerr :=
  new_request "GET" server
    [Lit "api"; Lit "v1"; Lit "tenants"; Param "tenantID" tenantID; Lit "servers"; Param "serverID" serverID; Lit "snapshots"]
    None.

Definition cloud_NewCreateSnapshotRequest (server tenantID serverID : string) : HttpReq + gerr :=
  new_request "POST" server
    [Lit "api"; Lit "v1"; Lit "tenants"; Param "tenantID" tenantID; Lit "servers"; Param "serverID" serverID; Lit "snapshots"]
    None.

Definition cloud_NewListActionsRequest (server tenantID serverID : string) : HttpReq + gerr :=
  new_request "GET" server
    [Lit "api"; Lit "v1"; Lit "tenants"; Param "tenantID" tenantID; Lit "servers"; Param "serverID" serverID; Lit "actions"]
    None.

Definition cloud_NewExecuteActionRequest (server tenantID serverID action : string) (body : gomap string) : HttpReq + gerr :=
  new_request "POST" server
    [Lit "api"; Lit "v1"; Lit "tenants"; Param "tenantID" tenantID; Lit "servers"; Param "serverID" serverID; Lit "actions"; Param "action" action]
    (Some (enc_params body)).

Definition cloud_NewGetCatalogRequest (server tenantID : string) : HttpReq + gerr :=
  new_request "GET" server
    [Lit "api"; Lit "v1"; Lit "tenants"; Param "tenantID" tenantID; Lit "catalog"]
    None.

Definition cloud_NewListPlansRequest (server : string) : HttpReq + gerr :=
  new_request "GET" server
    [Lit "api"; Lit "v1"; Lit "plans"]
    None.

Definition cloud_NewGetSubscriptionRequest (server tenantID : string) : HttpReq + gerr :=
  new_request "GET" server
    [Lit "api"; Lit "v1"; Lit "tenants"; Param "tenantID" tenantID; Lit "subscription"]
    None.

Definition cloud_NewListAPIKeysRequest (server tenantID : string) : HttpReq + gerr :=
  new_request "GET" server
    [Lit "api"; Lit "v1"; Lit "tenants"; Param "tenantID" tenantID; Lit "apikeys"]
    None.

Definition cloud_NewCreateAPIKeyRequest (server tenantID : string) (body : cloud_CreateAPIKeyRequest) : HttpReq + gerr :=
  new_request "POST" server
    [Lit "api"; Lit "v1"; Lit "tenants"; Param "tenantID" tenantID; Lit "apikeys"]
    (Some (cloud_enc_CreateAPIKeyRequest body)).

Definition cloud_NewDeleteAPIKeyRequest (server tenantID keyID : string) : HttpReq + gerr :=
  new_request "DELETE" server
    [Lit "api"; Lit "v1"; Lit "tenants"; Param "tenantID" tenantID; Lit "apikeys"; Param "keyID" keyID]
    None.

(** *** Answers *)

Definition cloud_ParseListMyTenantsResponse : HttpResp → Parsed (list cloud_Tenant) + gerr :=
  parse_response (Some (200, decode_as [] (d_slice cloud_zero_Tenant cloud_dec_Tenant))) [].

Definition cloud_ParseListServersResponse : HttpResp → Parsed (list cloud_Server) + gerr :=
  parse_response (Some (200, decode_as [] (d_slice cloud_zero_Server cloud_dec_Server))) [].

Definition cloud_ParseCreateServerResponse : HttpResp → Parsed cloud_Server + gerr :=
  parse_response (Some (201, decode_as cloud_zero_Server cloud_dec_Server)) [400; 402; 403; 503].

Definition cloud_ParseDeleteServerResponse : HttpResp → Parsed unit + gerr := parse_response None [404].

Definition cloud_ParseGetServerResponse : HttpResp → Parsed cloud_ServerWithLive + gerr :=
  parse_response (Some (200, decode_as cloud_zero_ServerWithLive cloud_dec_ServerWithLive)) [404].

Definition cloud_ParseListSnapshotsResponse : HttpResp → Parsed (list cloud_GameSnapshot) + gerr :=
  parse_response (Some (200, decode_as [] (d_slice cloud_zero_GameSnapshot cloud_dec_GameSnapshot))) [].

Definition cloud_ParseCreateSnapshotResponse : HttpResp → Parsed cloud_GameSnapshot + gerr :=
  parse_response (Some (201, decode_as cloud_zero_GameSnapshot cloud_dec_GameSnapshot)) [].

Definition cloud_ParseListActionsResponse : HttpResp → Parsed (list cloud_Action) + gerr :=
  parse_response (Some (200, decode_as [] (d_slice cloud_zero_Action cloud_dec_Action))) [].

Definition cloud_ParseExecuteActionResponse : HttpResp → Parsed cloud_ActionExecutionRef + gerr :=
  parse_response (Some (202, decode_as cloud_zero_ActionExecutionRef cloud_dec_ActionExecutionRef)) [].

Definition cloud_ParseGetCatalogResponse : HttpResp → Parsed (list cloud_CatalogEntry) + gerr :=
  parse_response (Some (200, decode_as [] (d_slice cloud_zero_CatalogEntry cloud_dec_CatalogEntry))) [].

Definition cloud_ParseListPlansResponse : HttpResp → Parsed (list cloud_Plan) + gerr :=
  parse_response (Some (200, decode_as [] (d_slice cloud_zero_Plan cloud_dec_Plan))) [].

Definition cloud_ParseGetSubscriptionResponse : HttpResp → Parsed cloud_Subscription + gerr :=
  parse_response (Some (200, decode_as cloud_zero_Subscription cloud_dec_Subscription)) [404].

Definition cloud_ParseListAPIKeysResponse : HttpResp → Parsed (list cloud_APIKey) + gerr :=
  parse_response (Some (200, decode_as [] (d_slice cloud_zero_APIKey cloud_dec_APIKey))) [403].

Definition cloud_ParseCreateAPIKeyResponse : HttpResp → Parsed cloud_APIKeyCreated + gerr :=
  parse_response (Some (201, decode_as cloud_zero_APIKeyCreated cloud_dec_APIKeyCreated)) [400; 403].

Definition cloud_ParseDeleteAPIKeyResponse : HttpResp → Parsed unit + gerr := parse_response None [403; 404].

(** *** Operations *)

Definition cloud_ListMyTenantsWithResponse (c : Client) : Http (Parsed (list cloud_Tenant) + gerr) :=
  with_response (do_request c (cloud_NewListMyTenantsRequest (c_Server c))) cloud_ParseListMyTenantsResponse.

Definition cloud_ListServersWithResponse (c : Client) (tenantID : string) : Http (Parsed (list cloud_Server) + gerr) :=
  with_response (do_request c (cloud_NewListServersRequest (c_Server c) tenantID)) cloud_ParseListServersResponse.

Definition cloud_CreateServerWithResponse (c : Client) (tenantID : string) (body : cloud_CreateServerRequest) : Http (Parsed cloud_Server + gerr) :=
  with_response (do_request c (cloud_NewCreateServerRequest (c_Server c) tenantID body)) cloud_ParseCreateServerResponse.

Definition cloud_DeleteServerWithResponse (c : Client) (tenantID serverID : string) : Http (Parsed unit + gerr) :=
  with_response (do_request c (cloud_NewDeleteServerRequest (c_Server c) tenantID serverID)) cloud_ParseDeleteServerResponse.

Definition cloud_GetServerWithResponse (c : Client) (tenantID serverID : string) : Http (Parsed cloud_ServerWithLive + gerr) :=
  with_response (do_request c (cloud_NewGetServerRequest (c_Server c) tenantID serverID)) cloud_ParseGetServerResponse.

Definition cloud_ListSnapshotsWithResponse (c : Client) (tenantID serverID : string) : Http (Parsed (list cloud_GameSnapshot) + gerr) :=
  with_response (do_request c (cloud_NewListSnapshotsRequest (c_Server c) tenantID serverID)) cloud_ParseListSnapshotsResponse.

Definition cloud_CreateSnapshotWithResponse (c : Client) (tenantID serverID : string) : Http (Parsed cloud_GameSnapshot + gerr) :=
  with_response (do_request c (cloud_NewCreateSnapshotRequest (c_Server c) tenantID serverID)) cloud_ParseCreateSnapshotResponse.

Definition cloud_ListActionsWithResponse (c : Client) (tenantID serverID : string) : Http (Parsed (list cloud_Action) + gerr) :=
  with_response (do_request c (cloud_NewListActionsRequest (c_Server c) tenantID serverID)) cloud_ParseListActionsResponse.

Definition cloud_ExecuteActionWithResponse (c : Client) (tenantID serverID action : string) (body : gomap string) : Http (Parsed cloud_ActionExecutionRef + gerr) :=
  with_response (do_request c (cloud_NewExecuteActionRequest (c_Server c) tenantID serverID action body)) cloud_ParseExecuteActionResponse.

Definition cloud_GetCatalogWithResponse (c : Client) (tenantID : string) : Http (Parsed (list cloud_CatalogEntry) + gerr) :=
  with_response (do_request c (cloud_NewGetCatalogRequest (c_Server c) tenantID)) cloud_ParseGetCatalogResponse.

Definition cloud_ListPlansWithResponse (c : Client) : Http (Parsed (list cloud_Plan) + gerr) :=
  with_response (do_request c (cloud_NewListPlansRequest (c_Server c))) cloud_ParseListPlansResponse.

Definition cloud_GetSubscriptionWithResponse (c : Client) (tenantID : string) : Http (Parsed cloud_Subscription + gerr) :=
  with_response (do_request c (cloud_NewGetSubscriptionRequest (c_Server c) tenantID)) cloud_ParseGetSubscriptionResponse.

Definition cloud_ListAPIKeysWithResponse (c : Client) (tenantID : string) : Http (Parsed (list cloud_APIKey) + gerr) :=
  with_response (do_request c (cloud_NewListAPIKeysRequest (c_Server c) tenantID)) cloud_ParseListAPIKeysResponse.

Definition cloud_CreateAPIKeyWithResponse (c : Client) (tenantID : string) (body : cloud_CreateAPIKeyRequest) : Http (Parsed cloud_APIKeyCreated + gerr) :=
  with_response (do_request c (cloud_NewCreateAPIKeyRequest (c_Server c) tenantID body)) cloud_ParseCreateAPIKeyResponse.

Definition cloud_DeleteAPIKeyWithResponse (c : Client) (tenantID keyID : string) : Http (Parsed unit + gerr) :=
  with_response (do_request c (cloud_NewDeleteAPIKeyRequest (c_Server c) tenantID keyID)) cloud_ParseDeleteAPIKeyResponse.

End Generated.

(** ** The client ([client.go]) *)

Section CloudClient.
Context `{Htext : !JsonText, Htime : !RFC3339, Hurl : !Url}.

(** The message of the error envelope, or the whole body. *)
Definition cloud_apiError (status : Z) (body : string) : sdk_error :=
  APIError status
    (match unmarshal zero_Error dec_Error body with
     | inl env => if xerr_Error env <>s "" then xerr_Error env else body
     | inr _ => body
     end).

Definition accept_and_token (token : string) (q : HttpReq) : HttpReq :=
  let h := <["Accept" := "application/json"]> (hq_Header q) in
  {| hq_Method := hq_Method q; hq_URL := hq_URL q; hq_Body := hq_Body q;
     hq_Header := if token <>s "" then <["Authorization" := "Bearer " +:+ token]> h else h |}.

(** [url.ParseRequestURI] on the base URL is [valid]. *)
Definition cloud_NewClient (valid : string → option gerr) (baseURL token : string) : Client + gerr :=
  match valid baseURL with
  | Some e => inr (wrapf ("cloudapi: invalid base URL " +:+ fmt_q baseURL) e)
  | None => inl (gen_NewClient (TrimSuffix baseURL "/") [accept_and_token token])
  end.

(** What every method does with its answer: the error of the call, an answer with
    another status than [code], or what [out] makes of it. *)
Definition expecting {A B} (code : Z) (out : option A → B) (resp : Parsed A + gerr) : B + sdk_error :=
  match resp with
  | inr e => inr (OtherError e)
  | inl resp =>
      if negb (pr_StatusCode resp =? code)
      then inr (cloud_apiError (pr_StatusCode resp) (pr_Body resp))
      else inl (out (pr_JSON resp))
  end.
(** A list is empty when the answer is not JSON; a single object is the
    pointer, nil then. *)
Definition or_empty {A} (l : option (list A)) : list A := default [] l.

Variable c : Client.

Definition cloud_ListMyTenants : Http (list cloud_Tenant + sdk_error) :=
  let* resp := cloud_ListMyTenantsWithResponse c in Ret (expecting 200 or_empty resp).

(** [strings.EqualFold] on the name. *)
Definition tenant_matches (ref : string) (t : cloud_Tenant) : bool :=
  (ct_Id t =s ref) || (ct_Slug t =s ref) || EqualFold (ct_Name t) ref.

Definition choose_tenant (ref : string) (tenants : list cloud_Tenant) : cloud_Tenant + gerr :=
  if ref =s "" then
    match tenants with
    | [] => inr (errorf "cloudapi: you are not a member of any tenant")
    | [t] => inl t
    | _ =>
        let names := (λ t, ct_Slug t +:+ " (" +:+ ct_Id t +:+ ")") <$> tenants in
        inr (errorf ("cloudapi: multiple tenants — pass --tenant with one of: " +:+ Join ", " names))
    end
  else
    match find_first (tenant_matches ref) tenants with
    | Some t => inl t
    | None => inr (errorf ("cloudapi: no tenant matching " +:+ fmt_q ref +:+ " (id, slug or name)"))
    end.
Definition ResolveTenant (ref : string) : Http (cloud_Tenant + sdk_error) :=
  let* tenants := cloud_ListMyTenants in
  Ret (match tenants with
       | inr e => inr e
       | inl tenants =>
           match choose_tenant ref tenants with inl t => inl t | inr e => inr (OtherError e) end
       end).

Definition cloud_ListServers (tenantID : string) : Http (list cloud_Server + sdk_error) :=
  let* resp := cloud_ListServersWithResponse c tenantID in
  Ret (expecting 200 or_empty resp).

Definition cloud_GetServer (tenantID serverID : string) : Http (option cloud_ServerWithLive + sdk_error) :=
  let* resp := cloud_GetServerWithResponse c tenantID serverID in
  Ret (expecting 200 id resp).

Definition cloud_CreateServer (tenantID : string) (req : cloud_CreateServerRequest) : Http (option cloud_Server + sdk_error) :=
  let* resp := cloud_CreateServerWithResponse c tenantID req in
  Ret (expecting 201 id resp).

Definition cloud_DeleteServer (tenantID serverID : string) : Http (unit + sdk_error) :=
  let* resp := cloud_DeleteServerWithResponse c tenantID serverID in
  Ret (expecting 204 (λ _, tt) resp).

Definition cloud_ListSnapshots (tenantID serverID : string) : Http (list cloud_GameSnapshot + sdk_error) :=
  let* resp := cloud_ListSnapshotsWithResponse c tenantID serverID in
  Ret (expecting 200 or_empty resp).

Definition cloud_CreateSnapshot (tenantID serverID : string) : Http (option cloud_GameSnapshot + sdk_error) :=
  let* resp := cloud_CreateSnapshotWithResponse c tenantID serverID in
  Ret (expecting 201 id resp).

Definition cloud_ListActions (tenantID serverID : string) : Http (list cloud_Action + sdk_error) :=
  let* resp := cloud_ListActionsWithResponse c tenantID serverID in
  Ret (expecting 200 or_empty resp).

Definition cloud_ExecuteAction (tenantID serverID action : string) (params : gomap string) : Http (option cloud_ActionExecutionRef + sdk_error) :=
  let* resp := cloud_ExecuteActionWithResponse c tenantID serverID action params in
  Ret (expecting 202 id resp).

Definition cloud_GetCatalog (tenantID : string) : Http (list cloud_CatalogEntry + sdk_error) :=
  let* resp := cloud_GetCatalogWithResponse c tenantID in
  Ret (expecting 200 or_empty resp).

Definition cloud_ListPlans : Http (list cloud_Plan + sdk_error) :=
  let* resp := cloud_ListPlansWithResponse c in
  Ret (expecting 200 or_empty resp).

Definition cloud_GetSubscription (tenantID : string) : Http (option cloud_Subscription + sdk_error) :=
  let* resp := cloud_GetSubscriptionWithResponse c tenantID in
  Ret (expecting 200 id resp).

Definition cloud_ListAPIKeys (tenantID : string) : Http (list cloud_APIKey + sdk_error) :=
  let* resp := cloud_ListAPIKeysWithResponse c tenantID in
  Ret (expecting 200 or_empty resp).

Definition cloud_CreateAPIKey (tenantID : string) (req : cloud_CreateAPIKeyRequest) : Http (option cloud_APIKeyCreated + sdk_error) :=
  let* resp := cloud_CreateAPIKeyWithResponse c tenantID req in
  Ret (expecting 201 id resp).

Definition cloud_DeleteAPIKey (tenantID keyID : string) : Http (unit + sdk_error) :=
  let* resp := cloud_DeleteAPIKeyWithResponse c tenantID keyID in
  Ret (expecting 204 (λ _, tt) resp).
End CloudClient.
