(* ===== verification/CloudOps.v ===== *)
(** * CloudOps: the rest of the cloud's generated client
    ([internal/cloudapi/gen/client.gen.go])

    The models and operations of the generated client that its wrapper in
    [client.go] (CloudClient) does not use, and, of all its operations, the
    methods that send ([Client]) and those that take any body
    ([...WithBody]). *)

From Stdlib Require Import Ascii String.
From coqutil Require Import Datatypes.RecordSetters.
From stdpp Require Import gmap.
From S2P Require Import Prelude GoStrings Prog Kube Auth Json GenTypes GenClient SdkClient CloudTypes CloudClient.
#[local] Open Scope Z_scope.

(** ** Models *)

Record cloud_AcceptInviteRequest := { cai_Token : string }.
Definition cloud_zero_AcceptInviteRequest : cloud_AcceptInviteRequest := {| cai_Token := "" |}.
Definition cloud_dec_AcceptInviteRequest : dec cloud_AcceptInviteRequest := lenient [
  fld "token" d_string cai_Token].
Definition cloud_enc_AcceptInviteRequest (r : cloud_AcceptInviteRequest) : json := JObj (
  [("token", JStr (cai_Token r))]).

(** [ActionExecution]: its three anonymous structs first. *)
Record cloud_ExecMetadata := { cem_Name : option string; cem_Namespace : option string }.
Definition cloud_zero_ExecMetadata : cloud_ExecMetadata := {| cem_Name := None; cem_Namespace := None |}.
Definition cloud_dec_ExecMetadata : dec cloud_ExecMetadata := lenient [
  fld "name" d_pstring cem_Name;
  fld "namespace" d_pstring cem_Namespace].

Record cloud_ExecSpec := {
  cep_ActionName : option string;
  cep_Caller : option string;
  cep_Params : option (gomap string);
}.
Definition cloud_zero_ExecSpec : cloud_ExecSpec := {|
  cep_ActionName := None; cep_Caller := None; cep_Params := None |}.
Definition cloud_dec_ExecSpec : dec cloud_ExecSpec := lenient [
  fld "actionName" d_pstring cep_ActionName;
  fld "caller" d_pstring cep_Caller;
  fld "params" d_pmap cep_Params].

Record cloud_ExecStatus := {
  ces_CompletedAt : option Z;
  ces_Error : option string;
  ces_Result : option string;
  ces_StartedAt : option Z;
  ces_State : option string;
}.
Definition cloud_zero_ExecStatus : cloud_ExecStatus := {|
  ces_CompletedAt := None; ces_Error := None; ces_Result := None; ces_StartedAt := None; ces_State
  := None |}.
Definition cloud_dec_ExecStatus `{!RFC3339} : dec cloud_ExecStatus := lenient [
  fld "completedAt" d_ptime ces_CompletedAt;
  fld "error" d_pstring ces_Error;
  fld "result" d_pstring ces_Result;
  fld "startedAt" d_ptime ces_StartedAt;
  fld "state" d_pstring ces_State].

Record cloud_ActionExecution := {
  cae_Metadata : option cloud_ExecMetadata;
  cae_Spec : option cloud_ExecSpec;
  cae_Status : option cloud_ExecStatus;
}.
Definition cloud_zero_ActionExecution : cloud_ActionExecution := {|
  cae_Metadata := None; cae_Spec := None; cae_Status := None |}.
Definition cloud_dec_ActionExecution `{!RFC3339} : dec cloud_ActionExecution := lenient [
  fld "metadata" (d_ptr cloud_zero_ExecMetadata cloud_dec_ExecMetadata) cae_Metadata;
  fld "spec" (d_ptr cloud_zero_ExecSpec cloud_dec_ExecSpec) cae_Spec;
  fld "status" (d_ptr cloud_zero_ExecStatus cloud_dec_ExecStatus) cae_Status].

Record cloud_AddMemberRequest := {
  cam_Email : option string;
  cam_Role : string;
  cam_UserSub : string;
}.
Definition cloud_zero_AddMemberRequest : cloud_AddMemberRequest := {|
  cam_Email := None; cam_Role := ""; cam_UserSub := "" |}.
Definition cloud_dec_AddMemberRequest : dec cloud_AddMemberRequest := lenient [
  fld "email" d_pstring cam_Email;
  fld "role" d_string cam_Role;
  fld "userSub" d_string cam_UserSub].
Definition cloud_enc_AddMemberRequest (r : cloud_AddMemberRequest) : json := JObj (
  m_pstring "email" (cam_Email r)
  ++ [("role", JStr (cam_Role r))]
  ++ [("userSub", JStr (cam_UserSub r))]).

Record cloud_AuditEvent := {
  cev_Action : string;
  cev_CreatedAt : option Z;
  cev_Id : Z;
  cev_Payload : option string;
  cev_Target : option string;
  cev_TenantId : string;
  cev_UserSub : option string;
}.
Definition cloud_zero_AuditEvent : cloud_AuditEvent := {|
  cev_Action := ""; cev_CreatedAt := None; cev_Id := 0; cev_Payload := None; cev_Target := None;
  cev_TenantId := ""; cev_UserSub := None |}.
Definition cloud_dec_AuditEvent `{!RFC3339} : dec cloud_AuditEvent := lenient [
  fld "action" d_string cev_Action;
  fld "created_at" d_ptime cev_CreatedAt;
  fld "id" d_int cev_Id;
  fld "payload" d_pstring cev_Payload;
  fld "target" d_pstring cev_Target;
  fld "tenant_id" d_string cev_TenantId;
  fld "user_sub" d_pstring cev_UserSub].

Record cloud_CheckoutRequest := { cco_PlanId : string }.
Definition cloud_zero_CheckoutRequest : cloud_CheckoutRequest := {| cco_PlanId := "" |}.
Definition cloud_dec_CheckoutRequest : dec cloud_CheckoutRequest := lenient [
  fld "planId" d_string cco_PlanId].
Definition cloud_enc_CheckoutRequest (r : cloud_CheckoutRequest) : json := JObj (
  [("planId", JStr (cco_PlanId r))]).

Record cloud_Cluster := {
  ccl_CapacityMax : option Z;
  ccl_ControlplaneUrl : string;
  ccl_DedicatedTenantId : option string;
  ccl_Healthy : option bool;
  ccl_Id : string;
  ccl_LastHeartbeat : option Z;
  ccl_Name : string;
  ccl_Region : option string;
}.
Definition cloud_zero_Cluster : cloud_Cluster := {|
  ccl_CapacityMax := None; ccl_ControlplaneUrl := ""; ccl_DedicatedTenantId := None; ccl_Healthy :=
  None; ccl_Id := ""; ccl_LastHeartbeat := None; ccl_Name := ""; ccl_Region := None |}.
Definition cloud_dec_Cluster `{!RFC3339} : dec cloud_Cluster := lenient [
  fld "capacityMax" d_pint ccl_CapacityMax;
  fld "controlplaneUrl" d_string ccl_ControlplaneUrl;
  fld "dedicatedTenantId" d_pstring ccl_DedicatedTenantId;
  fld "healthy" d_pbool ccl_Healthy;
  fld "id" d_string ccl_Id;
  fld "lastHeartbeat" d_ptime ccl_LastHeartbeat;
  fld "name" d_string ccl_Name;
  fld "region" d_pstring ccl_Region].

Record cloud_CreateClusterRequest := {
  ccr_ApiKey : string;
  ccr_CapacityMax : option Z;
  ccr_ClusterFingerprint : option string;
  ccr_ControlplaneUrl : string;
  ccr_DedicatedTenantId : option string;
  ccr_Name : string;
  ccr_Region : option string;
}.
Definition cloud_zero_CreateClusterRequest : cloud_CreateClusterRequest := {|
  ccr_ApiKey := ""; ccr_CapacityMax := None; ccr_ClusterFingerprint := None; ccr_ControlplaneUrl :=
  ""; ccr_DedicatedTenantId := None; ccr_Name := ""; ccr_Region := None |}.
Definition cloud_dec_CreateClusterRequest : dec cloud_CreateClusterRequest := lenient [
  fld "apiKey" d_string ccr_ApiKey;
  fld "capacityMax" d_pint ccr_CapacityMax;
  fld "clusterFingerprint" d_pstring ccr_ClusterFingerprint;
  fld "controlplaneUrl" d_string ccr_ControlplaneUrl;
  fld "dedicatedTenantId" d_pstring ccr_DedicatedTenantId;
  fld "name" d_string ccr_Name;
  fld "region" d_pstring ccr_Region].
Definition cloud_enc_CreateClusterRequest (r : cloud_CreateClusterRequest) : json := JObj (
  [("apiKey", JStr (ccr_ApiKey r))]
  ++ m_pint "capacityMax" (ccr_CapacityMax r)
  ++ m_pstring "clusterFingerprint" (ccr_ClusterFingerprint r)
  ++ [("controlplaneUrl", JStr (ccr_ControlplaneUrl r))]
  ++ m_pstring "dedicatedTenantId" (ccr_DedicatedTenantId r)
  ++ [("name", JStr (ccr_Name r))]
  ++ m_pstring "region" (ccr_Region r)).

Record cloud_CreateInviteRequest := { cci_Email : string; cci_Role : string }.
Definition cloud_zero_CreateInviteRequest : cloud_CreateInviteRequest := {|
  cci_Email := ""; cci_Role := "" |}.
Definition cloud_dec_CreateInviteRequest : dec cloud_CreateInviteRequest := lenient [
  fld "email" d_string cci_Email;
  fld "role" d_string cci_Role].
Definition cloud_enc_CreateInviteRequest (r : cloud_CreateInviteRequest) : json := JObj (
  [("email", JStr (cci_Email r))]
  ++ [("role", JStr (cci_Role r))]).

Record cloud_CreateTenantRequest := { cct_Name : string; cct_Slug : string }.
Definition cloud_zero_CreateTenantRequest : cloud_CreateTenantRequest := {|
  cct_Name := ""; cct_Slug := "" |}.
Definition cloud_dec_CreateTenantRequest : dec cloud_CreateTenantRequest := lenient [
  fld "name" d_string cct_Name;
  fld "slug" d_string cct_Slug].
Definition cloud_enc_CreateTenantRequest (r : cloud_CreateTenantRequest) : json := JObj (
  [("name", JStr (cct_Name r))]
  ++ [("slug", JStr (cct_Slug r))]).

(** [GameProfile]. *)
Record cloud_ProfileMetadata := { cpm_Name : option string }.
Definition cloud_zero_ProfileMetadata : cloud_ProfileMetadata := {| cpm_Name := None |}.
Definition cloud_dec_ProfileMetadata : dec cloud_ProfileMetadata := lenient [
  fld "name" d_pstring cpm_Name].

Record cloud_ProfileSpec := {
  cps_Actions : option (list cloud_Action);
  cps_DisplayName : option string;
  cps_Image : option string;
}.
Definition cloud_zero_ProfileSpec : cloud_ProfileSpec := {|
  cps_Actions := None; cps_DisplayName := None; cps_Image := None |}.
Definition cloud_dec_ProfileSpec : dec cloud_ProfileSpec := lenient [
  fld "actions" (d_ptr [] (d_slice cloud_zero_Action cloud_dec_Action)) cps_Actions;
  fld "displayName" d_pstring cps_DisplayName;
  fld "image" d_pstring cps_Image].

Record cloud_GameProfile := {
  cgp_Metadata : option cloud_ProfileMetadata;
  cgp_Spec : option cloud_ProfileSpec;
}.
Definition cloud_zero_GameProfile : cloud_GameProfile := {| cgp_Metadata := None; cgp_Spec := None |}.
Definition cloud_dec_GameProfile : dec cloud_GameProfile := lenient [
  fld "metadata" (d_ptr cloud_zero_ProfileMetadata cloud_dec_ProfileMetadata) cgp_Metadata;
  fld "spec" (d_ptr cloud_zero_ProfileSpec cloud_dec_ProfileSpec) cgp_Spec].

Record cloud_HeartbeatRequest := {
  chr_CapacityMax : option Z;
  chr_ClusterFingerprint : option string;
}.
Definition cloud_zero_HeartbeatRequest : cloud_HeartbeatRequest := {|
  chr_CapacityMax := None; chr_ClusterFingerprint := None |}.
Definition cloud_dec_HeartbeatRequest : dec cloud_HeartbeatRequest := lenient [
  fld "capacityMax" d_pint chr_CapacityMax;
  fld "clusterFingerprint" d_pstring chr_ClusterFingerprint].
Definition cloud_enc_HeartbeatRequest (r : cloud_HeartbeatRequest) : json := JObj (
  m_pint "capacityMax" (chr_CapacityMax r)
  ++ m_pstring "clusterFingerprint" (chr_ClusterFingerprint r)).

Record cloud_Invite := {
  civ_AcceptedAt : option Z;
  civ_CreatedAt : option Z;
  civ_DevToken : option string;
  civ_Email : string;
  civ_ExpiresAt : Z;
  civ_Id : string;
  civ_InvitedBy : string;
  civ_Role : string;
  civ_TenantId : string;
}.
Definition cloud_zero_Invite : cloud_Invite := {|
  civ_AcceptedAt := None; civ_CreatedAt := None; civ_DevToken := None; civ_Email := "";
  civ_ExpiresAt := zero_instant; civ_Id := ""; civ_InvitedBy := ""; civ_Role := ""; civ_TenantId :=
  "" |}.
Definition cloud_dec_Invite `{!RFC3339} : dec cloud_Invite := lenient [
  fld "accepted_at" d_ptime civ_AcceptedAt;
  fld "created_at" d_ptime civ_CreatedAt;
  fld "devToken" d_pstring civ_DevToken;
  fld "email" d_string civ_Email;
  fld "expires_at" d_time civ_ExpiresAt;
  fld "id" d_string civ_Id;
  fld "invited_by" d_string civ_InvitedBy;
  fld "role" d_string civ_Role;
  fld "tenant_id" d_string civ_TenantId].

Record cloud_Invoice := {
  cin_AmountDueCents : option Z;
  cin_CreatedAt : option Z;
  cin_Currency : option string;
  cin_Id : string;
  cin_Number : option string;
  cin_PdfUrl : option string;
  cin_PeriodEnd : option Z;
  cin_PeriodStart : option Z;
  cin_Status : option string;
  cin_TenantId : string;
}.
Definition cloud_zero_Invoice : cloud_Invoice := {|
  cin_AmountDueCents := None; cin_CreatedAt := None; cin_Currency := None; cin_Id := ""; cin_Number
  := None; cin_PdfUrl := None; cin_PeriodEnd := None; cin_PeriodStart := None; cin_Status := None;
  cin_TenantId := "" |}.
Definition cloud_dec_Invoice `{!RFC3339} : dec cloud_Invoice := lenient [
  fld "amount_due_cents" d_pint cin_AmountDueCents;
  fld "created_at" d_ptime cin_CreatedAt;
  fld "currency" d_pstring cin_Currency;
  fld "id" d_string cin_Id;
  fld "number" d_pstring cin_Number;
  fld "pdf_url" d_pstring cin_PdfUrl;
  fld "period_end" d_ptime cin_PeriodEnd;
  fld "period_start" d_ptime cin_PeriodStart;
  fld "status" d_pstring cin_Status;
  fld "tenant_id" d_string cin_TenantId].

Record cloud_Membership := {
  cmb_CreatedAt : option Z;
  cmb_Email : option string;
  cmb_Role : string;
  cmb_TenantId : string;
  cmb_UserSub : string;
}.
Definition cloud_zero_Membership : cloud_Membership := {|
  cmb_CreatedAt := None; cmb_Email := None; cmb_Role := ""; cmb_TenantId := ""; cmb_UserSub := "" |}.
Definition cloud_dec_Membership `{!RFC3339} : dec cloud_Membership := lenient [
  fld "created_at" d_ptime cmb_CreatedAt;
  fld "email" d_pstring cmb_Email;
  fld "role" d_string cmb_Role;
  fld "tenant_id" d_string cmb_TenantId;
  fld "user_sub" d_string cmb_UserSub].

Record cloud_RedirectURL := { cru_Url : string }.
Definition cloud_zero_RedirectURL : cloud_RedirectURL := {| cru_Url := "" |}.
Definition cloud_dec_RedirectURL : dec cloud_RedirectURL := lenient [
  fld "url" d_string cru_Url].

Record cloud_UpdatePlanPricesRequest := {
  cup_StripeMeteredPriceId : option string;
  cup_StripePriceId : option string;
}.
Definition cloud_zero_UpdatePlanPricesRequest : cloud_UpdatePlanPricesRequest := {|
  cup_StripeMeteredPriceId := None; cup_StripePriceId := None |}.
Definition cloud_dec_UpdatePlanPricesRequest : dec cloud_UpdatePlanPricesRequest := lenient [
  fld "stripeMeteredPriceId" d_pstring cup_StripeMeteredPriceId;
  fld "stripePriceId" d_pstring cup_StripePriceId].
Definition cloud_enc_UpdatePlanPricesRequest (r : cloud_UpdatePlanPricesRequest) : json := JObj (
  m_pstring "stripeMeteredPriceId" (cup_StripeMeteredPriceId r)
  ++ m_pstring "stripePriceId" (cup_StripePriceId r)).

Record cloud_UpdateTenantRequest := { cut_Name : string }.
Definition cloud_zero_UpdateTenantRequest : cloud_UpdateTenantRequest := {| cut_Name := "" |}.
Definition cloud_dec_UpdateTenantRequest : dec cloud_UpdateTenantRequest := lenient [
  fld "name" d_string cut_Name].
Definition cloud_enc_UpdateTenantRequest (r : cloud_UpdateTenantRequest) : json := JObj (
  [("name", JStr (cut_Name r))]).

(** The query parameters of [DeleteTenant]. *)
Record cloud_DeleteTenantParams := { cdp_Force : option bool }.

(** ** Operations *)

Section Generated.
Context `{Htext : !JsonText, Htime : !RFC3339, Hurl : !Url}.

(** [queryURL.RawQuery = queryValues.Encode()] for the values a client has;
    the URL had none. *)
Definition with_query (query : list (string * string)) (q : HttpReq + gerr) : HttpReq + gerr :=
  match q, query with
  | inl q, _ :: _ =>
      inl {| hq_Method := hq_Method q;
             hq_URL := hq_URL q +:+ "?" +:+ Join "&" ((λ kv, kv.1 +:+ "=" +:+ kv.2) <$> query);
             hq_Header := hq_Header q; hq_Body := hq_Body q |}
  | _, _ => q
  end.
Definition force_query (p : cloud_DeleteTenantParams) : list (string * string) :=
  match cdp_Force p with
  | Some b => [("force", if b then "true" else "false")]
  | None => []
  end.

(** *** Requests *)

Definition cloud_NewAdminListClustersRequest (server : string) : HttpReq + gerr :=
  new_request "GET" server
    [Lit "api"; Lit "v1"; Lit "admin"; Lit "clusters"]
    None.

Definition cloud_NewAdminCreateClusterRequest (server : string) (body : cloud_CreateClusterRequest) : HttpReq + gerr :=
  new_request "POST" server
    [Lit "api"; Lit "v1"; Lit "admin"; Lit "clusters"]
    (Some (cloud_enc_CreateClusterRequest body)).

Definition cloud_NewAdminDeleteClusterRequest (server clusterID : string) : HttpReq + gerr :=
  new_request "DELETE" server
    [Lit "api"; Lit "v1"; Lit "admin"; Lit "clusters"; Param "clusterID" clusterID]
    None.

Definition cloud_NewAdminUpdatePlanPricesRequest (server planID : string) (body : cloud_UpdatePlanPricesRequest) : HttpReq + gerr :=
  new_request "PUT" server
    [Lit "api"; Lit "v1"; Lit "admin"; Lit "plans"; Param "planID" planID]
    (Some (cloud_enc_UpdatePlanPricesRequest body)).

Definition cloud_NewStripeWebhookRequest (server : string) : HttpReq + gerr :=
  new_request "POST" server
    [Lit "api"; Lit "v1"; Lit "billing"; Lit "webhook"]
    None.

Definition cloud_NewRegisterClusterRequest (server : string) (body : cloud_CreateClusterRequest) : HttpReq + gerr :=
  new_request "POST" server
    [Lit "api"; Lit "v1"; Lit "clusters"; Lit "register"]
    (Some (cloud_enc_CreateClusterRequest body)).

Definition cloud_NewClusterHeartbeatRequest (server name : string) (body : cloud_HeartbeatRequest) : HttpReq + gerr :=
  new_request "POST" server
    [Lit "api"; Lit "v1"; Lit "clusters"; Param "name" name; Lit "heartbeat"]
    (Some (cloud_enc_HeartbeatRequest body)).

Definition cloud_NewAcceptInviteRequest (server : string) (body : cloud_AcceptInviteRequest) : HttpReq + gerr :=
  new_request "POST" server
    [Lit "api"; Lit "v1"; Lit "invites"; Lit "accept"]
    (Some (cloud_enc_AcceptInviteRequest body)).

Definition cloud_NewListRegionsRequest (server : string) : HttpReq + gerr :=
  new_request "GET" server
    [Lit "api"; Lit "v1"; Lit "regions"]
    None.

Definition cloud_NewCreateTenantRequest (server : string) (body : cloud_CreateTenantRequest) : HttpReq + gerr :=
  new_request "POST" server
    [Lit "api"; Lit "v1"; Lit "tenants"]
    (Some (cloud_enc_CreateTenantRequest body)).

Definition cloud_NewDeleteTenantRequest (server tenantID : string) (params : option cloud_DeleteTenantParams)
  : HttpReq + gerr :=
  with_query (match params with Some p => force_query p | None => [] end)
    (new_request "DELETE" server
      [Lit "api"; Lit "v1"; Lit "tenants"; Param "tenantID" tenantID] None).

Definition cloud_NewGetTenantRequest (server tenantID : string) : HttpReq + gerr :=
  new_request "GET" server
    [Lit "api"; Lit "v1"; Lit "tenants"; Param "tenantID" tenantID]
    None.

Definition cloud_NewUpdateTenantRequest (server tenantID : string) (body : cloud_UpdateTenantRequest) : HttpReq + gerr :=
  new_request "PATCH" server
    [Lit "api"; Lit "v1"; Lit "tenants"; Param "tenantID" tenantID]
    (Some (cloud_enc_UpdateTenantRequest body)).

Definition cloud_NewListAuditRequest (server tenantID : string) : HttpReq + gerr :=
  new_request "GET" server
    [Lit "api"; Lit "v1"; Lit "tenants"; Param "tenantID" tenantID; Lit "audit"]
    None.

Definition cloud_NewCreateCheckoutRequest (server tenantID : string) (body : cloud_CheckoutRequest) : HttpReq + gerr :=
  new_request "POST" server
    [Lit "api"; Lit "v1"; Lit "tenants"; Param "tenantID" tenantID; Lit "billing"; Lit "checkout"]
    (Some (cloud_enc_CheckoutRequest body)).

Definition cloud_NewListInvoicesRequest (server tenantID : string) : HttpReq + gerr :=
  new_request "GET" server
    [Lit "api"; Lit "v1"; Lit "tenants"; Param "tenantID" tenantID; Lit "billing"; Lit "invoices"]
    None.

Definition cloud_NewCreatePortalRequest (server tenantID : string) : HttpReq + gerr :=
  new_request "POST" server
    [Lit "api"; Lit "v1"; Lit "tenants"; Param "tenantID" tenantID; Lit "billing"; Lit "portal"]
    None.

Definition cloud_NewListInvitesRequest (server tenantID : string) : HttpReq + gerr :=
  new_request "GET" server
    [Lit "api"; Lit "v1"; Lit "tenants"; Param "tenantID" tenantID; Lit "invites"]
    None.

Definition cloud_NewCreateInviteRequest (server tenantID : string) (body : cloud_CreateInviteRequest) : HttpReq + gerr :=
  new_request "POST" server
    [Lit "api"; Lit "v1"; Lit "tenants"; Param "tenantID" tenantID; Lit "invites"]
    (Some (cloud_enc_CreateInviteRequest body)).

Definition cloud_NewRevokeInviteRequest (server tenantID inviteID : string) : HttpReq + gerr :=
  new_request "DELETE" server
    [Lit "api"; Lit "v1"; Lit "tenants"; Param "tenantID" tenantID; Lit "invites"; Param "inviteID" inviteID]
    None.

Definition cloud_NewListMembersRequest (server tenantID : string) : HttpReq + gerr :=
  new_request "GET" server
    [Lit "api"; Lit "v1"; Lit "tenants"; Param "tenantID" tenantID; Lit "members"]
    None.

Definition cloud_NewAddMemberRequest (server tenantID : string) (body : cloud_AddMemberRequest) : HttpReq + gerr :=
  new_request "POST" server
    [Lit "api"; Lit "v1"; Lit "tenants"; Param "tenantID" tenantID; Lit "members"]
    (Some (cloud_enc_AddMemberRequest body)).

Definition cloud_NewRemoveMemberRequest (server tenantID userSub : string) : HttpReq + gerr :=
  new_request "DELETE" server
    [Lit "api"; Lit "v1"; Lit "tenants"; Param "tenantID" tenantID; Lit "members"; Param "userSub" userSub]
    None.

Definition cloud_NewListProfilesRequest (server tenantID : string) : HttpReq + gerr :=
  new_request "GET" server
    [Lit "api"; Lit "v1"; Lit "tenants"; Param "tenantID" tenantID; Lit "profiles"]
    None.

Definition cloud_NewGetProfileRequest (server tenantID name : string) : HttpReq + gerr :=
  new_request "GET" server
    [Lit "api"; Lit "v1"; Lit "tenants"; Param "tenantID" tenantID; Lit "profiles"; Param "name" name]
    None.

Definition cloud_NewGetConsoleRequest (server tenantID serverID : string) : HttpReq + gerr :=
  new_request "GET" server
    [Lit "api"; Lit "v1"; Lit "tenants"; Param "tenantID" tenantID; Lit "servers"; Param "serverID" serverID; Lit "console"]
    None.

Definition cloud_NewGetActionExecutionRequest (server tenantID serverID executionID : string) : HttpReq + gerr :=
  new_request "GET" server
    [Lit "api"; Lit "v1"; Lit "tenants"; Param "tenantID" tenantID; Lit "servers"; Param "serverID" serverID; Lit "executions"; Param "executionID" executionID]
    None.

Definition cloud_NewGetHealthzRequest (server : string) : HttpReq + gerr :=
  new_request "GET" server
    [Lit "healthz"]
    None.

Definition cloud_NewGetReadyzRequest (server : string) : HttpReq + gerr :=
  new_request "GET" server
    [Lit "readyz"]
    None.

(** *** Answers *)

Definition cloud_ParseAdminListClustersResponse : HttpResp → Parsed (list cloud_Cluster) + gerr :=
  parse_response (Some (200, decode_as [] (d_slice cloud_zero_Cluster cloud_dec_Cluster))) [].

Definition cloud_ParseAdminCreateClusterResponse : HttpResp → Parsed cloud_Cluster + gerr :=
  parse_response (Some (201, decode_as cloud_zero_Cluster cloud_dec_Cluster)) [].

Definition cloud_ParseAdminDeleteClusterResponse : HttpResp → Parsed unit + gerr := parse_response None [].

Definition cloud_ParseAdminUpdatePlanPricesResponse : HttpResp → Parsed cloud_Plan + gerr :=
  parse_response (Some (200, decode_as cloud_zero_Plan cloud_dec_Plan)) [404].

Definition cloud_ParseStripeWebhookResponse : HttpResp → Parsed unit + gerr := parse_response None [400].

Definition cloud_ParseRegisterClusterResponse : HttpResp → Parsed cloud_Cluster + gerr :=
  parse_response (Some (200, decode_as cloud_zero_Cluster cloud_dec_Cluster)) [400].

Definition cloud_ParseClusterHeartbeatResponse : HttpResp → Parsed unit + gerr := parse_response None [404].

Definition cloud_ParseAcceptInviteResponse : HttpResp → Parsed cloud_Membership + gerr :=
  parse_response (Some (200, decode_as cloud_zero_Membership cloud_dec_Membership)) [400; 404; 409; 410].

Definition cloud_ParseListRegionsResponse : HttpResp → Parsed (list string) + gerr :=
  parse_response (Some (200, decode_as [] (d_slice "" d_string))) [].

Definition cloud_ParseCreateTenantResponse : HttpResp → Parsed cloud_Tenant + gerr :=
  parse_response (Some (201, decode_as cloud_zero_Tenant cloud_dec_Tenant)) [400].

Definition cloud_ParseDeleteTenantResponse : HttpResp → Parsed unit + gerr := parse_response None [403; 404; 409].

Definition cloud_ParseGetTenantResponse : HttpResp → Parsed cloud_Tenant + gerr :=
  parse_response (Some (200, decode_as cloud_zero_Tenant cloud_dec_Tenant)) [403; 404].

Definition cloud_ParseUpdateTenantResponse : HttpResp → Parsed cloud_Tenant + gerr :=
  parse_response (Some (200, decode_as cloud_zero_Tenant cloud_dec_Tenant)) [400; 403; 404].

Definition cloud_ParseListAuditResponse : HttpResp → Parsed (list cloud_AuditEvent) + gerr :=
  parse_response (Some (200, decode_as [] (d_slice cloud_zero_AuditEvent cloud_dec_AuditEvent))) [].

Definition cloud_ParseCreateCheckoutResponse : HttpResp → Parsed cloud_RedirectURL + gerr :=
  parse_response (Some (200, decode_as cloud_zero_RedirectURL cloud_dec_RedirectURL)) [].

Definition cloud_ParseListInvoicesResponse : HttpResp → Parsed (list cloud_Invoice) + gerr :=
  parse_response (Some (200, decode_as [] (d_slice cloud_zero_Invoice cloud_dec_Invoice))) [].

Definition cloud_ParseCreatePortalResponse : HttpResp → Parsed cloud_RedirectURL + gerr :=
  parse_response (Some (200, decode_as cloud_zero_RedirectURL cloud_dec_RedirectURL)) [].

Definition cloud_ParseListInvitesResponse : HttpResp → Parsed (list cloud_Invite) + gerr :=
  parse_response (Some (200, decode_as [] (d_slice cloud_zero_Invite cloud_dec_Invite))) [403].

Definition cloud_ParseCreateInviteResponse : HttpResp → Parsed cloud_Invite + gerr :=
  parse_response (Some (201, decode_as cloud_zero_Invite cloud_dec_Invite)) [400; 403].

Definition cloud_ParseRevokeInviteResponse : HttpResp → Parsed unit + gerr := parse_response None [403; 404].

Definition cloud_ParseListMembersResponse : HttpResp → Parsed (list cloud_Membership) + gerr :=
  parse_response (Some (200, decode_as [] (d_slice cloud_zero_Membership cloud_dec_Membership))) [].

Definition cloud_ParseAddMemberResponse : HttpResp → Parsed cloud_Membership + gerr :=
  parse_response (Some (201, decode_as cloud_zero_Membership cloud_dec_Membership)) [403].

Definition cloud_ParseRemoveMemberResponse : HttpResp → Parsed unit + gerr := parse_response None [403; 404].

Definition cloud_ParseListProfilesResponse : HttpResp → Parsed (list cloud_GameProfile) + gerr :=
  parse_response (Some (200, decode_as [] (d_slice cloud_zero_GameProfile cloud_dec_GameProfile))) [].

Definition cloud_ParseGetProfileResponse : HttpResp → Parsed cloud_CatalogEntry + gerr :=
  parse_response (Some (200, decode_as cloud_zero_CatalogEntry cloud_dec_CatalogEntry)) [404; 502].

Definition cloud_ParseGetConsoleResponse : HttpResp → Parsed unit + gerr := parse_response None [401].

Definition cloud_ParseGetActionExecutionResponse : HttpResp → Parsed cloud_ActionExecution + gerr :=
  parse_response (Some (200, decode_as cloud_zero_ActionExecution cloud_dec_ActionExecution)) [404].

Definition cloud_ParseGetHealthzResponse : HttpResp → Parsed unit + gerr := parse_response None [].

Definition cloud_ParseGetReadyzResponse : HttpResp → Parsed unit + gerr := parse_response None [].

(** *** The client's methods, and the requests with any body *)

Definition cloud_client_AdminListClusters (c : Client) : Http (HttpResp + gerr) :=
  do_request c (cloud_NewAdminListClustersRequest (c_Server c)).
Definition cloud_AdminListClustersWithResponse (c : Client) : Http (Parsed (list cloud_Cluster) + gerr) :=
  with_response (cloud_client_AdminListClusters c) cloud_ParseAdminListClustersResponse.

Definition cloud_client_AdminCreateCluster (c : Client) (body : cloud_CreateClusterRequest) : Http (HttpResp + gerr) :=
  do_request c (cloud_NewAdminCreateClusterRequest (c_Server c) body).
Definition cloud_AdminCreateClusterWithResponse (c : Client) (body : cloud_CreateClusterRequest) : Http (Parsed cloud_Cluster + gerr) :=
  with_response (cloud_client_AdminCreateCluster c body) cloud_ParseAdminCreateClusterResponse.
Definition cloud_NewAdminCreateClusterRequestWithBody (server contentType body : string) : HttpReq + gerr :=
  new_request_with_body "POST" server
    [Lit "api"; Lit "v1"; Lit "admin"; Lit "clusters"]
    contentType body.
Definition cloud_client_AdminCreateClusterWithBody (c : Client) (contentType body : string) : Http (HttpResp + gerr) :=
  do_request c (cloud_NewAdminCreateClusterRequestWithBody (c_Server c) contentType body).
Definition cloud_AdminCreateClusterWithBodyWithResponse (c : Client) (contentType body : string) :=
  with_response (cloud_client_AdminCreateClusterWithBody c contentType body) cloud_ParseAdminCreateClusterResponse.

Definition cloud_client_AdminDeleteCluster (c : Client) (clusterID : string) : Http (HttpResp + gerr) :=
  do_request c (cloud_NewAdminDeleteClusterRequest (c_Server c) clusterID).
Definition cloud_AdminDeleteClusterWithResponse (c : Client) (clusterID : string) : Http (Parsed unit + gerr) :=
  with_response (cloud_client_AdminDeleteCluster c clusterID) cloud_ParseAdminDeleteClusterResponse.

Definition cloud_client_AdminUpdatePlanPrices (c : Client) (planID : string) (body : cloud_UpdatePlanPricesRequest) : Http (HttpResp + gerr) :=
  do_request c (cloud_NewAdminUpdatePlanPricesRequest (c_Server c) planID body).
Definition cloud_AdminUpdatePlanPricesWithResponse (c : Client) (planID : string) (body : cloud_UpdatePlanPricesRequest) : Http (Parsed cloud_Plan + gerr) :=
  with_response (cloud_client_AdminUpdatePlanPrices c planID body) cloud_ParseAdminUpdatePlanPricesResponse.
Definition cloud_NewAdminUpdatePlanPricesRequestWithBody (server planID contentType body : string) : HttpReq + gerr :=
  new_request_with_body "PUT" server
    [Lit "api"; Lit "v1"; Lit "admin"; Lit "plans"; Param "planID" planID]
    contentType body.
Definition cloud_client_AdminUpdatePlanPricesWithBody (c : Client) (planID contentType body : string) : Http (HttpResp + gerr) :=
  do_request c (cloud_NewAdminUpdatePlanPricesRequestWithBody (c_Server c) planID contentType body).
Definition cloud_AdminUpdatePlanPricesWithBodyWithResponse (c : Client) (planID contentType body : string) :=
  with_response (cloud_client_AdminUpdatePlanPricesWithBody c planID contentType body) cloud_ParseAdminUpdatePlanPricesResponse.

Definition cloud_client_StripeWebhook (c : Client) : Http (HttpResp + gerr) :=
  do_request c (cloud_NewStripeWebhookRequest (c_Server c)).
Definition cloud_StripeWebhookWithResponse (c : Client) : Http (Parsed unit + gerr) :=
  with_response (cloud_client_StripeWebhook c) cloud_ParseStripeWebhookResponse.

Definition cloud_client_RegisterCluster (c : Client) (body : cloud_CreateClusterRequest) : Http (HttpResp + gerr) :=
  do_request c (cloud_NewRegisterClusterRequest (c_Server c) body).
Definition cloud_RegisterClusterWithResponse (c : Client) (body : cloud_CreateClusterRequest) : Http (Parsed cloud_Cluster + gerr) :=
  with_response (cloud_client_RegisterCluster c body) cloud_ParseRegisterClusterResponse.
Definition cloud_NewRegisterClusterRequestWithBody (server contentType body : string) : HttpReq + gerr :=
  new_request_with_body "POST" server
    [Lit "api"; Lit "v1"; Lit "clusters"; Lit "register"]
    contentType body.
Definition cloud_client_RegisterClusterWithBody (c : Client) (contentType body : string) : Http (HttpResp + gerr) :=
  do_request c (cloud_NewRegisterClusterRequestWithBody (c_Server c) contentType body).
Definition cloud_RegisterClusterWithBodyWithResponse (c : Client) (contentType body : string) :=
  with_response (cloud_client_RegisterClusterWithBody c contentType body) cloud_ParseRegisterClusterResponse.

Definition cloud_client_ClusterHeartbeat (c : Client) (name : string) (body : cloud_HeartbeatRequest) : Http (HttpResp + gerr) :=
  do_request c (cloud_NewClusterHeartbeatRequest (c_Server c) name body).
Definition cloud_ClusterHeartbeatWithResponse (c : Client) (name : string) (body : cloud_HeartbeatRequest) : Http (Parsed unit + gerr) :=
  with_response (cloud_client_ClusterHeartbeat c name body) cloud_ParseClusterHeartbeatResponse.
Definition cloud_NewClusterHeartbeatRequestWithBody (server name contentType body : string) : HttpReq + gerr :=
  new_request_with_body "POST" server
    [Lit "api"; Lit "v1"; Lit "clusters"; Param "name" name; Lit "heartbeat"]
    contentType body.
Definition cloud_client_ClusterHeartbeatWithBody (c : Client) (name contentType body : string) : Http (HttpResp + gerr) :=
  do_request c (cloud_NewClusterHeartbeatRequestWithBody (c_Server c) name contentType body).
Definition cloud_ClusterHeartbeatWithBodyWithResponse (c : Client) (name contentType body : string) :=
  with_response (cloud_client_ClusterHeartbeatWithBody c name contentType body) cloud_ParseClusterHeartbeatResponse.

Definition cloud_client_AcceptInvite (c : Client) (body : cloud_AcceptInviteRequest) : Http (HttpResp + gerr) :=
  do_request c (cloud_NewAcceptInviteRequest (c_Server c) body).
Definition cloud_AcceptInviteWithResponse (c : Client) (body : cloud_AcceptInviteRequest) : Http (Parsed cloud_Membership + gerr) :=
  with_response (cloud_client_AcceptInvite c body) cloud_ParseAcceptInviteResponse.
Definition cloud_NewAcceptInviteRequestWithBody (server contentType body : string) : HttpReq + gerr :=
  new_request_with_body "POST" server
    [Lit "api"; Lit "v1"; Lit "invites"; Lit "accept"]
    contentType body.
Definition cloud_client_AcceptInviteWithBody (c : Client) (contentType body : string) : Http (HttpResp + gerr) :=
  do_request c (cloud_NewAcceptInviteRequestWithBody (c_Server c) contentType body).
Definition cloud_AcceptInviteWithBodyWithResponse (c : Client) (contentType body : string) :=
  with_response (cloud_client_AcceptInviteWithBody c contentType body) cloud_ParseAcceptInviteResponse.

Definition cloud_client_ListMyTenants (c : Client) : Http (HttpResp + gerr) :=
  do_request c (cloud_NewListMyTenantsRequest (c_Server c)).

Definition cloud_client_ListPlans (c : Client) : Http (HttpResp + gerr) :=
  do_request c (cloud_NewListPlansRequest (c_Server c)).

Definition cloud_client_ListRegions (c : Client) : Http (HttpResp + gerr) :=
  do_request c (cloud_NewListRegionsRequest (c_Server c)).
Definition cloud_ListRegionsWithResponse (c : Client) : Http (Parsed (list string) + gerr) :=
  with_response (cloud_client_ListRegions c) cloud_ParseListRegionsResponse.

Definition cloud_client_CreateTenant (c : Client) (body : cloud_CreateTenantRequest) : Http (HttpResp + gerr) :=
  do_request c (cloud_NewCreateTenantRequest (c_Server c) body).
Definition cloud_CreateTenantWithResponse (c : Client) (body : cloud_CreateTenantRequest) : Http (Parsed cloud_Tenant + gerr) :=
  with_response (cloud_client_CreateTenant c body) cloud_ParseCreateTenantResponse.
Definition cloud_NewCreateTenantRequestWithBody (server contentType body : string) : HttpReq + gerr :=
  new_request_with_body "POST" server
    [Lit "api"; Lit "v1"; Lit "tenants"]
    contentType body.
Definition cloud_client_CreateTenantWithBody (c : Client) (contentType body : string) : Http (HttpResp + gerr) :=
  do_request c (cloud_NewCreateTenantRequestWithBody (c_Server c) contentType body).
Definition cloud_CreateTenantWithBodyWithResponse (c : Client) (contentType body : string) :=
  with_response (cloud_client_CreateTenantWithBody c contentType body) cloud_ParseCreateTenantResponse.

Definition cloud_client_DeleteTenant (c : Client) (tenantID : string) (params : option cloud_DeleteTenantParams) : Http (HttpResp + gerr) :=
  do_request c (cloud_NewDeleteTenantRequest (c_Server c) tenantID params).
Definition cloud_DeleteTenantWithResponse (c : Client) (tenantID : string) (params : option cloud_DeleteTenantParams) : Http (Parsed unit + gerr) :=
  with_response (cloud_client_DeleteTenant c tenantID params) cloud_ParseDeleteTenantResponse.

Definition cloud_client_GetTenant (c : Client) (tenantID : string) : Http (HttpResp + gerr) :=
  do_request c (cloud_NewGetTenantRequest (c_Server c) tenantID).
Definition cloud_GetTenantWithResponse (c : Client) (tenantID : string) : Http (Parsed cloud_Tenant + gerr) :=
  with_response (cloud_client_GetTenant c tenantID) cloud_ParseGetTenantResponse.

Definition cloud_client_UpdateTenant (c : Client) (tenantID : string) (body : cloud_UpdateTenantRequest) : Http (HttpResp + gerr) :=
  do_request c (cloud_NewUpdateTenantRequest (c_Server c) tenantID body).
Definition cloud_UpdateTenantWithResponse (c : Client) (tenantID : string) (body : cloud_UpdateTenantRequest) : Http (Parsed cloud_Tenant + gerr) :=
  with_response (cloud_client_UpdateTenant c tenantID body) cloud_ParseUpdateTenantResponse.
Definition cloud_NewUpdateTenantRequestWithBody (server tenantID contentType body : string) : HttpReq + gerr :=
  new_request_with_body "PATCH" server
    [Lit "api"; Lit "v1"; Lit "tenants"; Param "tenantID" tenantID]
    contentType body.
Definition cloud_client_UpdateTenantWithBody (c : Client) (tenantID contentType body : string) : Http (HttpResp + gerr) :=
  do_request c (cloud_NewUpdateTenantRequestWithBody (c_Server c) tenantID contentType body).
Definition cloud_UpdateTenantWithBodyWithResponse (c : Client) (tenantID contentType body : string) :=
  with_response (cloud_client_UpdateTenantWithBody c tenantID contentType body) cloud_ParseUpdateTenantResponse.

Definition cloud_client_ListAPIKeys (c : Client) (tenantID : string) : Http (HttpResp + gerr) :=
  do_request c (cloud_NewListAPIKeysRequest (c_Server c) tenantID).

Definition cloud_client_CreateAPIKey (c : Client) (tenantID : string) (body : cloud_CreateAPIKeyRequest) : Http (HttpResp + gerr) :=
  do_request c (cloud_NewCreateAPIKeyRequest (c_Server c) tenantID body).
Definition cloud_NewCreateAPIKeyRequestWithBody (server tenantID contentType body : string) : HttpReq + gerr :=
  new_request_with_body "POST" server
    [Lit "api"; Lit "v1"; Lit "tenants"; Param "tenantID" tenantID; Lit "apikeys"]
    contentType body.
Definition cloud_client_CreateAPIKeyWithBody (c : Client) (tenantID contentType body : string) : Http (HttpResp + gerr) :=
  do_request c (cloud_NewCreateAPIKeyRequestWithBody (c_Server c) tenantID contentType body).
Definition cloud_CreateAPIKeyWithBodyWithResponse (c : Client) (tenantID contentType body : string) :=
  with_response (cloud_client_CreateAPIKeyWithBody c tenantID contentType body) cloud_ParseCreateAPIKeyResponse.

Definition cloud_client_DeleteAPIKey (c : Client) (tenantID keyID : string) : Http (HttpResp + gerr) :=
  do_request c (cloud_NewDeleteAPIKeyRequest (c_Server c) tenantID keyID).

Definition cloud_client_ListAudit (c : Client) (tenantID : string) : Http (HttpResp + gerr) :=
  do_request c (cloud_NewListAuditRequest (c_Server c) tenantID).
Definition cloud_ListAuditWithResponse (c : Client) (tenantID : string) : Http (Parsed (list cloud_AuditEvent) + gerr) :=
  with_response (cloud_client_ListAudit c tenantID) cloud_ParseListAuditResponse.

Definition cloud_client_CreateCheckout (c : Client) (tenantID : string) (body : cloud_CheckoutRequest) : Http (HttpResp + gerr) :=
  do_request c (cloud_NewCreateCheckoutRequest (c_Server c) tenantID body).
Definition cloud_CreateCheckoutWithResponse (c : Client) (tenantID : string) (body : cloud_CheckoutRequest) : Http (Parsed cloud_RedirectURL + gerr) :=
  with_response (cloud_client_CreateCheckout c tenantID body) cloud_ParseCreateCheckoutResponse.
Definition cloud_NewCreateCheckoutRequestWithBody (server tenantID contentType body : string) : HttpReq + gerr :=
  new_request_with_body "POST" server
    [Lit "api"; Lit "v1"; Lit "tenants"; Param "tenantID" tenantID; Lit "billing"; Lit "checkout"]
    contentType body.
Definition cloud_client_CreateCheckoutWithBody (c : Client) (tenantID contentType body : string) : Http (HttpResp + gerr) :=
  do_request c (cloud_NewCreateCheckoutRequestWithBody (c_Server c) tenantID contentType body).
Definition cloud_CreateCheckoutWithBodyWithResponse (c : Client) (tenantID contentType body : string) :=
  with_response (cloud_client_CreateCheckoutWithBody c tenantID contentType body) cloud_ParseCreateCheckoutResponse.

Definition cloud_client_ListInvoices (c : Client) (tenantID : string) : Http (HttpResp + gerr) :=
  do_request c (cloud_NewListInvoicesRequest (c_Server c) tenantID).
Definition cloud_ListInvoicesWithResponse (c : Client) (tenantID : string) : Http (Parsed (list cloud_Invoice) + gerr) :=
  with_response (cloud_client_ListInvoices c tenantID) cloud_ParseListInvoicesResponse.

Definition cloud_client_CreatePortal (c : Client) (tenantID : string) : Http (HttpResp + gerr) :=
  do_request c (cloud_NewCreatePortalRequest (c_Server c) tenantID).
Definition cloud_CreatePortalWithResponse (c : Client) (tenantID : string) : Http (Parsed cloud_RedirectURL + gerr) :=
  with_response (cloud_client_CreatePortal c tenantID) cloud_ParseCreatePortalResponse.

Definition cloud_client_GetCatalog (c : Client) (tenantID : string) : Http (HttpResp + gerr) :=
  do_request c (cloud_NewGetCatalogRequest (c_Server c) tenantID).

Definition cloud_client_ListInvites (c : Client) (tenantID : string) : Http (HttpResp + gerr) :=
  do_request c (cloud_NewListInvitesRequest (c_Server c) tenantID).
Definition cloud_ListInvitesWithResponse (c : Client) (tenantID : string) : Http (Parsed (list cloud_Invite) + gerr) :=
  with_response (cloud_client_ListInvites c tenantID) cloud_ParseListInvitesResponse.

Definition cloud_client_CreateInvite (c : Client) (tenantID : string) (body : cloud_CreateInviteRequest) : Http (HttpResp + gerr) :=
  do_request c (cloud_NewCreateInviteRequest (c_Server c) tenantID body).
Definition cloud_CreateInviteWithResponse (c : Client) (tenantID : string) (body : cloud_CreateInviteRequest) : Http (Parsed cloud_Invite + gerr) :=
  with_response (cloud_client_CreateInvite c tenantID body) cloud_ParseCreateInviteResponse.
Definition cloud_NewCreateInviteRequestWithBody (server tenantID contentType body : string) : HttpReq + gerr :=
  new_request_with_body "POST" server
    [Lit "api"; Lit "v1"; Lit "tenants"; Param "tenantID" tenantID; Lit "invites"]
    contentType body.
Definition cloud_client_CreateInviteWithBody (c : Client) (tenantID contentType body : string) : Http (HttpResp + gerr) :=
  do_request c (cloud_NewCreateInviteRequestWithBody (c_Server c) tenantID contentType body).
Definition cloud_CreateInviteWithBodyWithResponse (c : Client) (tenantID contentType body : string) :=
  with_response (cloud_client_CreateInviteWithBody c tenantID contentType body) cloud_ParseCreateInviteResponse.

Definition cloud_client_RevokeInvite (c : Client) (tenantID inviteID : string) : Http (HttpResp + gerr) :=
  do_request c (cloud_NewRevokeInviteRequest (c_Server c) tenantID inviteID).
Definition cloud_RevokeInviteWithResponse (c : Client) (tenantID inviteID : string) : Http (Parsed unit + gerr) :=
  with_response (cloud_client_RevokeInvite c tenantID inviteID) cloud_ParseRevokeInviteResponse.

Definition cloud_client_ListMembers (c : Client) (tenantID : string) : Http (HttpResp + gerr) :=
  do_request c (cloud_NewListMembersRequest (c_Server c) tenantID).
Definition cloud_ListMembersWithResponse (c : Client) (tenantID : string) : Http (Parsed (list cloud_Membership) + gerr) :=
  with_response (cloud_client_ListMembers c tenantID) cloud_ParseListMembersResponse.

Definition cloud_client_AddMember (c : Client) (tenantID : string) (body : cloud_AddMemberRequest) : Http (HttpResp + gerr) :=
  do_request c (cloud_NewAddMemberRequest (c_Server c) tenantID body).
Definition cloud_AddMemberWithResponse (c : Client) (tenantID : string) (body : cloud_AddMemberRequest) : Http (Parsed cloud_Membership + gerr) :=
  with_response (cloud_client_AddMember c tenantID body) cloud_ParseAddMemberResponse.
Definition cloud_NewAddMemberRequestWithBody (server tenantID contentType body : string) : HttpReq + gerr :=
  new_request_with_body "POST" server
    [Lit "api"; Lit "v1"; Lit "tenants"; Param "tenantID" tenantID; Lit "members"]
    contentType body.
Definition cloud_client_AddMemberWithBody (c : Client) (tenantID contentType body : string) : Http (HttpResp + gerr) :=
  do_request c (cloud_NewAddMemberRequestWithBody (c_Server c) tenantID contentType body).
Definition cloud_AddMemberWithBodyWithResponse (c : Client) (tenantID contentType body : string) :=
  with_response (cloud_client_AddMemberWithBody c tenantID contentType body) cloud_ParseAddMemberResponse.

Definition cloud_client_RemoveMember (c : Client) (tenantID userSub : string) : Http (HttpResp + gerr) :=
  do_request c (cloud_NewRemoveMemberRequest (c_Server c) tenantID userSub).
Definition cloud_RemoveMemberWithResponse (c : Client) (tenantID userSub : string) : Http (Parsed unit + gerr) :=
  with_response (cloud_client_RemoveMember c tenantID userSub) cloud_ParseRemoveMemberResponse.

Definition cloud_client_ListProfiles (c : Client) (tenantID : string) : Http (HttpResp + gerr) :=
  do_request c (cloud_NewListProfilesRequest (c_Server c) tenantID).
Definition cloud_ListProfilesWithResponse (c : Client) (tenantID : string) : Http (Parsed (list cloud_GameProfile) + gerr) :=
  with_response (cloud_client_ListProfiles c tenantID) cloud_ParseListProfilesResponse.

Definition cloud_client_GetProfile (c : Client) (tenantID name : string) : Http (HttpResp + gerr) :=
  do_request c (cloud_NewGetProfileRequest (c_Server c) tenantID name).
Definition cloud_GetProfileWithResponse (c : Client) (tenantID name : string) : Http (Parsed cloud_CatalogEntry + gerr) :=
  with_response (cloud_client_GetProfile c tenantID name) cloud_ParseGetProfileResponse.

Definition cloud_client_ListServers (c : Client) (tenantID : string) : Http (HttpResp + gerr) :=
  do_request c (cloud_NewListServersRequest (c_Server c) tenantID).

Definition cloud_client_CreateServer (c : Client) (tenantID : string) (body : cloud_CreateServerRequest) : Http (HttpResp + gerr) :=
  do_request c (cloud_NewCreateServerRequest (c_Server c) tenantID body).
Definition cloud_NewCreateServerRequestWithBody (server tenantID contentType body : string) : HttpReq + gerr :=
  new_request_with_body "POST" server
    [Lit "api"; Lit "v1"; Lit "tenants"; Param "tenantID" tenantID; Lit "servers"]
    contentType body.
Definition cloud_client_CreateServerWithBody (c : Client) (tenantID contentType body : string) : Http (HttpResp + gerr) :=
  do_request c (cloud_NewCreateServerRequestWithBody (c_Server c) tenantID contentType body).
Definition cloud_CreateServerWithBodyWithResponse (c : Client) (tenantID contentType body : string) :=
  with_response (cloud_client_CreateServerWithBody c tenantID contentType body) cloud_ParseCreateServerResponse.

Definition cloud_client_DeleteServer (c : Client) (tenantID serverID : string) : Http (HttpResp + gerr) :=
  do_request c (cloud_NewDeleteServerRequest (c_Server c) tenantID serverID).

Definition cloud_client_GetServer (c : Client) (tenantID serverID : string) : Http (HttpResp + gerr) :=
  do_request c (cloud_NewGetServerRequest (c_Server c) tenantID serverID).

Definition cloud_client_ListActions (c : Client) (tenantID serverID : string) : Http (HttpResp + gerr) :=
  do_request c (cloud_NewListActionsRequest (c_Server c) tenantID serverID).

Definition cloud_client_ExecuteAction (c : Client) (tenantID serverID action : string) (body : gomap string) : Http (HttpResp + gerr) :=
  do_request c (cloud_NewExecuteActionRequest (c_Server c) tenantID serverID action body).
Definition cloud_NewExecuteActionRequestWithBody (server tenantID serverID action contentType body : string) : HttpReq + gerr :=
  new_request_with_body "POST" server
    [Lit "api"; Lit "v1"; Lit "tenants"; Param "tenantID" tenantID; Lit "servers"; Param "serverID" serverID; Lit "actions"; Param "action" action]
    contentType body.
Definition cloud_client_ExecuteActionWithBody (c : Client) (tenantID serverID action contentType body : string) : Http (HttpResp + gerr) :=
  do_request c (cloud_NewExecuteActionRequestWithBody (c_Server c) tenantID serverID action contentType body).
Definition cloud_ExecuteActionWithBodyWithResponse (c : Client) (tenantID serverID action contentType body : string) :=
  with_response (cloud_client_ExecuteActionWithBody c tenantID serverID action contentType body) cloud_ParseExecuteActionResponse.

Definition cloud_client_GetConsole (c : Client) (tenantID serverID : string) : Http (HttpResp + gerr) :=
  do_request c (cloud_NewGetConsoleRequest (c_Server c) tenantID serverID).
Definition cloud_GetConsoleWithResponse (c : Client) (tenantID serverID : string) : Http (Parsed unit + gerr) :=
  with_response (cloud_client_GetConsole c tenantID serverID) cloud_ParseGetConsoleResponse.

Definition cloud_client_GetActionExecution (c : Client) (tenantID serverID executionID : string) : Http (HttpResp + gerr) :=
  do_request c (cloud_NewGetActionExecutionRequest (c_Server c) tenantID serverID executionID).
Definition cloud_GetActionExecutionWithResponse (c : Client) (tenantID serverID executionID : string) : Http (Parsed cloud_ActionExecution + gerr) :=
  with_response (cloud_client_GetActionExecution c tenantID serverID executionID) cloud_ParseGetActionExecutionResponse.

Definition cloud_client_ListSnapshots (c : Client) (tenantID serverID : string) : Http (HttpResp + gerr) :=
  do_request c (cloud_NewListSnapshotsRequest (c_Server c) tenantID serverID).

Definition cloud_client_CreateSnapshot (c : Client) (tenantID serverID : string) : Http (HttpResp + gerr) :=
  do_request c (cloud_NewCreateSnapshotRequest (c_Server c) tenantID serverID).

Definition cloud_client_GetSubscription (c : Client) (tenantID : string) : Http (HttpResp + gerr) :=
  do_request c (cloud_NewGetSubscriptionRequest (c_Server c) tenantID).

Definition cloud_client_GetHealthz (c : Client) : Http (HttpResp + gerr) :=
  do_request c (cloud_NewGetHealthzRequest (c_Server c)).
Definition cloud_GetHealthzWithResponse (c : Client) : Http (Parsed unit + gerr) :=
  with_response (cloud_client_GetHealthz c) cloud_ParseGetHealthzResponse.

Definition cloud_client_GetReadyz (c : Client) : Http (HttpResp + gerr) :=
  do_request c (cloud_NewGetReadyzRequest (c_Server c)).
Definition cloud_GetReadyzWithResponse (c : Client) : Http (Parsed unit + gerr) :=
  with_response (cloud_client_GetReadyz c) cloud_ParseGetReadyzResponse.

(** A JSON body is the body of the method that takes any, announced as JSON. *)
Lemma cloud_json_bodies c planID name tenantID serverID action :
  (∀ b, cloud_client_AdminCreateCluster c b
     = cloud_client_AdminCreateClusterWithBody c "application/json" (print (cloud_enc_CreateClusterRequest b)))
  ∧ (∀ b, cloud_client_AdminUpdatePlanPrices c planID b
     = cloud_client_AdminUpdatePlanPricesWithBody c planID "application/json" (print (cloud_enc_UpdatePlanPricesRequest b)))
  ∧ (∀ b, cloud_client_RegisterCluster c b
     = cloud_client_RegisterClusterWithBody c "application/json" (print (cloud_enc_CreateClusterRequest b)))
  ∧ (∀ b, cloud_client_ClusterHeartbeat c name b
     = cloud_client_ClusterHeartbeatWithBody c name "application/json" (print (cloud_enc_HeartbeatRequest b)))
  ∧ (∀ b, cloud_client_AcceptInvite c b
     = cloud_client_AcceptInviteWithBody c "application/json" (print (cloud_enc_AcceptInviteRequest b)))
  ∧ (∀ b, cloud_client_CreateTenant c b
     = cloud_client_CreateTenantWithBody c "application/json" (print (cloud_enc_CreateTenantRequest b)))
  ∧ (∀ b, cloud_client_UpdateTenant c tenantID b
     = cloud_client_UpdateTenantWithBody c tenantID "application/json" (print (cloud_enc_UpdateTenantRequest b)))
  ∧ (∀ b, cloud_client_CreateAPIKey c tenantID b
     = cloud_client_CreateAPIKeyWithBody c tenantID "application/json" (print (cloud_enc_CreateAPIKeyRequest b)))
  ∧ (∀ b, cloud_client_CreateCheckout c tenantID b
     = cloud_client_CreateCheckoutWithBody c tenantID "application/json" (print (cloud_enc_CheckoutRequest b)))
  ∧ (∀ b, cloud_client_CreateInvite c tenantID b
     = cloud_client_CreateInviteWithBody c tenantID "application/json" (print (cloud_enc_CreateInviteRequest b)))
  ∧ (∀ b, cloud_client_AddMember c tenantID b
     = cloud_client_AddMemberWithBody c tenantID "application/json" (print (cloud_enc_AddMemberRequest b)))
  ∧ (∀ b, cloud_client_CreateServer c tenantID b
     = cloud_client_CreateServerWithBody c tenantID "application/json" (print (cloud_enc_CreateServerRequest b)))
  ∧ (∀ b, cloud_client_ExecuteAction c tenantID serverID action b
     = cloud_client_ExecuteActionWithBody c tenantID serverID action "application/json" (print (enc_params b))).
Proof.
  assert (∀ m segs j, do_request c (new_request m (c_Server c) segs (Some j))
                      = do_request c (new_request_with_body m (c_Server c) segs "application/json" (print j)))
    as H by (intros; by rewrite new_request_json).
  split_and!; intros b; apply H.
Qed.

End Generated.
