(* ===== verification/CloudSpec.v ===== *)
(** * CloudSpec: the cloud's generated client follows the API document

    The operations of [api/minato-cloud.openapi.yaml] ([cloud_api]) and those of
    the client generated from it (CloudClient, CloudOps), one against the
    other: the request each operation sends, which of the document's
    operations a request is, and what the client makes of an answer.  The cloud
    itself is another program; the document is what it promises. *)

From Stdlib Require Import Ascii String.
From stdpp Require Import gmap.
From S2P Require Import Prelude GoStrings Prog Kube Auth Rbac ControlPlane Json GenTypes GenClient SdkClient ApiExamples ClientServer CloudTypes CloudClient CloudOps.
#[local] Open Scope Z_scope.

(** ** The API document *)

(** An operation: its method, path template and query parameters; whether it
    has a JSON body; and its answers by status: the successful one with JSON, those
    without a body, and those with the error envelope. *)
Record api_operation := {
  ap_Id : string;
  ap_Method : string;
  ap_Path : string;
  ap_Query : list string;
  ap_Body : bool;
  ap_Success : option Z;
  ap_Empty : list Z;
  ap_Errors : list Z;
}.
Definition api (id method path : string) (query : list string) (body : bool) (success : option Z)
    (empty errors : list Z) : api_operation := {|
  ap_Id := id; ap_Method := method; ap_Path := path; ap_Query := query; ap_Body := body;
  ap_Success := success; ap_Empty := empty; ap_Errors := errors |}.

Definition cloud_api : list api_operation := [
  api "getHealthz" "GET" "/healthz" [] false None [200] [];
  api "getReadyz" "GET" "/readyz" [] false None [200] [];
  api "stripeWebhook" "POST" "/api/v1/billing/webhook" [] false None [200] [400];
  api "listPlans" "GET" "/api/v1/plans" [] false (Some 200) [] [];
  api "listMyTenants" "GET" "/api/v1/me/tenants" [] false (Some 200) [] [];
  api "createTenant" "POST" "/api/v1/tenants" [] true (Some 201) [] [400];
  api "getTenant" "GET" "/api/v1/tenants/{tenantID}" [] false (Some 200) [] [403; 404];
  api "updateTenant" "PATCH" "/api/v1/tenants/{tenantID}" [] true (Some 200) [] [400; 403; 404];
  api "deleteTenant" "DELETE" "/api/v1/tenants/{tenantID}" ["force"] false None [204] [403; 404; 409];
  api "acceptInvite" "POST" "/api/v1/invites/accept" [] true (Some 200) [] [400; 404; 409; 410];
  api "listInvites" "GET" "/api/v1/tenants/{tenantID}/invites" [] false (Some 200) [] [403];
  api "createInvite" "POST" "/api/v1/tenants/{tenantID}/invites" [] true (Some 201) [] [400; 403];
  api "revokeInvite" "DELETE" "/api/v1/tenants/{tenantID}/invites/{inviteID}" [] false None [204] [403; 404];
  api "listMembers" "GET" "/api/v1/tenants/{tenantID}/members" [] false (Some 200) [] [];
  api "addMember" "POST" "/api/v1/tenants/{tenantID}/members" [] true (Some 201) [] [403];
  api "removeMember" "DELETE" "/api/v1/tenants/{tenantID}/members/{userSub}" [] false None [204] [403; 404];
  api "getSubscription" "GET" "/api/v1/tenants/{tenantID}/subscription" [] false (Some 200) [] [404];
  api "createCheckout" "POST" "/api/v1/tenants/{tenantID}/billing/checkout" [] true (Some 200) [] [];
  api "createPortal" "POST" "/api/v1/tenants/{tenantID}/billing/portal" [] false (Some 200) [] [];
  api "listInvoices" "GET" "/api/v1/tenants/{tenantID}/billing/invoices" [] false (Some 200) [] [];
  api "listServers" "GET" "/api/v1/tenants/{tenantID}/servers" [] false (Some 200) [] [];
  api "createServer" "POST" "/api/v1/tenants/{tenantID}/servers" [] true (Some 201) [] [400; 402; 403; 503];
  api "getServer" "GET" "/api/v1/tenants/{tenantID}/servers/{serverID}" [] false (Some 200) [] [404];
  api "deleteServer" "DELETE" "/api/v1/tenants/{tenantID}/servers/{serverID}" [] false None [204] [404];
  api "listActions" "GET" "/api/v1/tenants/{tenantID}/servers/{serverID}/actions" [] false (Some 200) [] [];
  api "executeAction" "POST" "/api/v1/tenants/{tenantID}/servers/{serverID}/actions/{action}" [] true (Some 202) [] [];
  api "getActionExecution" "GET" "/api/v1/tenants/{tenantID}/servers/{serverID}/executions/{executionID}" [] false (Some 200) [] [404];
  api "listSnapshots" "GET" "/api/v1/tenants/{tenantID}/servers/{serverID}/snapshots" [] false (Some 200) [] [];
  api "createSnapshot" "POST" "/api/v1/tenants/{tenantID}/servers/{serverID}/snapshots" [] false (Some 201) [] [];
  api "getConsole" "GET" "/api/v1/tenants/{tenantID}/servers/{serverID}/console" [] false None [101] [401];
  api "listRegions" "GET" "/api/v1/regions" [] false (Some 200) [] [];
  api "listProfiles" "GET" "/api/v1/tenants/{tenantID}/profiles" [] false (Some 200) [] [];
  api "getProfile" "GET" "/api/v1/tenants/{tenantID}/profiles/{name}" [] false (Some 200) [] [404; 502];
  api "getCatalog" "GET" "/api/v1/tenants/{tenantID}/catalog" [] false (Some 200) [] [];
  api "listAudit" "GET" "/api/v1/tenants/{tenantID}/audit" [] false (Some 200) [] [];
  api "listAPIKeys" "GET" "/api/v1/tenants/{tenantID}/apikeys" [] false (Some 200) [] [403];
  api "createAPIKey" "POST" "/api/v1/tenants/{tenantID}/apikeys" [] true (Some 201) [] [400; 403];
  api "deleteAPIKey" "DELETE" "/api/v1/tenants/{tenantID}/apikeys/{keyID}" [] false None [204] [403; 404];
  api "adminListClusters" "GET" "/api/v1/admin/clusters" [] false (Some 200) [] [];
  api "adminCreateCluster" "POST" "/api/v1/admin/clusters" [] true (Some 201) [] [];
  api "adminDeleteCluster" "DELETE" "/api/v1/admin/clusters/{clusterID}" [] false None [204] [];
  api "adminUpdatePlanPrices" "PUT" "/api/v1/admin/plans/{planID}" [] true (Some 200) [] [404];
  api "registerCluster" "POST" "/api/v1/clusters/register" [] true (Some 200) [] [400];
  api "clusterHeartbeat" "POST" "/api/v1/clusters/{name}/heartbeat" [] true None [204] [404]].

(** *** The bodies of the requests

    The schemas of the document: an object with these properties, each with its
    type and whether it is required, or an object of strings.  Enumerations,
    patterns and bounds of the values are left out. *)
Inductive json_type := TString | TInteger | TStrings | TStringMap.
Definition is_string (j : json) : bool := match j with JStr _ => true | _ => false end.
Definition has_type (t : json_type) (j : json) : bool :=
  match t, j with
  | TString, JStr _ => true
  | TInteger, JNum _ => true
  | TStrings, JArr l => forallb is_string l
  | TStringMap, JObj l => forallb (λ kv, is_string kv.2) l
  | _, _ => false
  end.

Record property := { prop_Name : string; prop_Required : bool; prop_Type : json_type }.
Definition required (n : string) (t : json_type) : property :=
  {| prop_Name := n; prop_Required := true; prop_Type := t |}.
Definition optional (n : string) (t : json_type) : property :=
  {| prop_Name := n; prop_Required := false; prop_Type := t |}.
Inductive body_schema := Object (props : list property) | Typed (t : json_type).

Definition cluster_schema : body_schema := Object [
  required "name" TString; optional "region" TString; required "controlplaneUrl" TString;
  required "apiKey" TString; optional "capacityMax" TInteger; optional "dedicatedTenantId" TString;
  optional "clusterFingerprint" TString].
Definition cloud_bodies : list (string * body_schema) := [
  ("createTenant", Object [required "name" TString; required "slug" TString]);
  ("updateTenant", Object [required "name" TString]);
  ("acceptInvite", Object [required "token" TString]);
  ("createInvite", Object [required "email" TString; required "role" TString]);
  ("addMember", Object [required "userSub" TString; optional "email" TString; required "role" TString]);
  ("createCheckout", Object [required "planId" TString]);
  ("createServer", Object [
     required "name" TString; required "profile" TString; optional "tier" TString;
     optional "region" TString; optional "storageSize" TString; optional "snapshot" TString;
     optional "loadBalancerIp" TString; optional "env" TStringMap]);
  ("executeAction", Typed TStringMap);
  ("createAPIKey", Object [
     required "name" TString; optional "scopes" TStrings; optional "expiresInDays" TInteger]);
  ("adminCreateCluster", cluster_schema);
  ("adminUpdatePlanPrices", Object [optional "stripePriceId" TString; optional "stripeMeteredPriceId" TString]);
  ("registerCluster", cluster_schema);
  ("clusterHeartbeat", Object [optional "capacityMax" TInteger; optional "clusterFingerprint" TString])].
Definition ap_Schema (o : api_operation) : option body_schema :=
  snd <$> find_first (λ b, b.1 =s ap_Id o) cloud_bodies.

Definition schema_named (id : string) : body_schema :=
  default (Typed TString) (snd <$> find_first (λ b, b.1 =s id) cloud_bodies).

(** Every member is a property with a value of its type, none is there twice,
    and the required ones are there. *)
Definition members_conform (props : list property) (ms : list (string * json)) : bool :=
  forallb (λ kv, existsb (λ p, (prop_Name p =s kv.1) && has_type (prop_Type p) kv.2) props) ms
  && bool_decide (NoDup ms.*1)
  && forallb (λ p, negb (prop_Required p) || existsb (λ kv, kv.1 =s prop_Name p) ms) props.
Definition conforms (schema : body_schema) (j : json) : bool :=
  match schema, j with
  | Object props, JObj ms => members_conform props ms
  | Object _, _ => false
  | Typed t, _ => has_type t j
  end.

Lemma bodies_documented :
  Forall (λ o, ap_Body o = bool_decide (is_Some (ap_Schema o))) cloud_api.
Proof. vm_compute. repeat constructor. Qed.

Lemma strings_typed (l : list string) : forallb is_string (JStr <$> l) = true.
Proof. by induction l. Qed.
Lemma string_map_typed (m : gmap string string) :
  forallb (λ kv, is_string kv.2) (map_members JStr m) = true.
Proof.
  apply forallb_forall. intros [k v] Hin%list_elem_of_In. unfold map_members in Hin.
  apply list_elem_of_omap in Hin as (k' & _ & H). by destruct (m !! k'); simplify_eq/=.
Qed.

Definition ap_segments (o : api_operation) : list string := path_segments (ap_Path o).
Definition ap_Params (o : api_operation) : list string :=
  param_name <$> filter (λ p, is_template p = true) (ap_segments o).

(** The operation a server that follows the document takes a request for, with the
    values of its path parameters. *)
Definition is_request (o : api_operation) (params : string → string) (method : string) (segs : list string) : Prop :=
  ap_Method o = method ∧ binds params (ap_segments o) segs.

(** ** The document is unambiguous *)

(** Two templates no path fits both of: they differ in length or in a literal. *)
Fixpoint apart (pats pats' : list string) : bool :=
  match pats, pats' with
  | [], [] => false
  | p :: pats, p' :: pats' =>
      (negb (is_template p) && negb (is_template p') && negb (p =s p')) || apart pats pats'
  | _, _ => true
  end.

Lemma apart_spec params params' pats pats' segs :
  apart pats pats' = true → binds params pats segs → binds params' pats' segs → False.
Proof.
  intros Ha H. revert pats' Ha. induction H as [|p s pats segs Hp _ IH]; intros pats' Ha H';
    inversion H' as [|p' s' pats'' segs'' Hp' H'']; subst; cbn in Ha; [done|].
  apply orb_true_iff in Ha as [Ha|Ha]; [|by eapply IH].
  apply andb_true_iff in Ha as [[E E']%andb_true_iff Hne].
  apply negb_true_iff in E, E', Hne. rewrite E in Hp. rewrite E' in Hp'.
  apply String.eqb_neq in Hne. congruence.
Qed.

Definition unambiguous (i j : nat) (o o' : api_operation) : bool :=
  (i =? j)%nat || negb (ap_Method o =s ap_Method o') || apart (ap_segments o) (ap_segments o').
Lemma cloud_api_unambiguous :
  forallb (λ io, forallb (λ jo, unambiguous io.1 jo.1 io.2 jo.2) (imap pair cloud_api)) (imap pair cloud_api) = true.
Proof. vm_compute. reflexivity. Qed.

Lemma binds_agree params params' pats segs k :
  binds params pats segs → binds params' pats segs →
  k ∈ param_name <$> filter (λ p, is_template p = true) pats → params k = params' k.
Proof.
  induction 1 as [|p s pats segs Hp _ IH]; intros H' Hk; [by apply elem_of_nil in Hk|].
  inversion H' as [|? ? ? ? Hp' H'']; subst. destruct (is_template p) eqn:E.
  - rewrite filter_cons_True in Hk by done. rewrite fmap_cons in Hk.
    apply elem_of_cons in Hk as [->|Hk]; [congruence|by apply IH].
  - rewrite filter_cons_False in Hk by congruence. by apply IH.
Qed.

(** A request is a request for one operation, with one value for each parameter. *)
Lemma is_request_unique o o' params params' method segs :
  o ∈ cloud_api → o' ∈ cloud_api → is_request o params method segs → is_request o' params' method segs →
  o' = o ∧ ∀ k, k ∈ ap_Params o → params' k = params k.
Proof.
  intros [i Hi]%list_elem_of_lookup [j Hj]%list_elem_of_lookup [Hm Hb] [Hm' Hb'].
  pose proof cloud_api_unambiguous as Hu. rewrite forallb_forall in Hu.
  specialize (Hu (i, o)). rewrite forallb_forall in Hu.
  assert (∀ i o, cloud_api !! i = Some o → In (i, o) (imap pair cloud_api)) as Hin.
  { intros i0 o0 H0. apply list_elem_of_In, list_elem_of_lookup. exists i0. by rewrite list_lookup_imap, H0. }
  specialize (Hu (Hin i o Hi) (j, o') (Hin j o' Hj)). unfold unambiguous in Hu. cbn [fst snd] in Hu.
  rewrite Hm, Hm', String.eqb_refl, orb_false_r in Hu.
  apply orb_true_iff in Hu as [->%Nat.eqb_eq|Ha]; [|by destruct (apart_spec _ _ _ _ _ Ha Hb Hb')].
  assert (o' = o) as -> by congruence. split; [done|]. intros k Hk. by eapply binds_agree.
Qed.

(** ** The operations of the client *)

(** The arguments the operations take between them. *)
Record cloud_args := {
  g_tenantID : string; g_serverID : string; g_action : string; g_executionID : string; g_keyID : string;
  g_inviteID : string; g_userSub : string; g_name : string; g_clusterID : string; g_planID : string;
  g_force : option cloud_DeleteTenantParams;
  g_cluster : cloud_CreateClusterRequest;
  g_prices : cloud_UpdatePlanPricesRequest;
  g_heartbeat : cloud_HeartbeatRequest;
  g_accept : cloud_AcceptInviteRequest;
  g_tenant : cloud_CreateTenantRequest;
  g_rename : cloud_UpdateTenantRequest;
  g_key : cloud_CreateAPIKeyRequest;
  g_checkout : cloud_CheckoutRequest;
  g_invite : cloud_CreateInviteRequest;
  g_member : cloud_AddMemberRequest;
  g_server : cloud_CreateServerRequest;
  g_params : gomap string;
}.
(** The argument a path parameter stands for. *)
Definition cloud_argument (a : cloud_args) (k : string) : string :=
  if k =s "tenantID" then g_tenantID a else if k =s "serverID" then g_serverID a
  else if k =s "action" then g_action a else if k =s "executionID" then g_executionID a
  else if k =s "keyID" then g_keyID a else if k =s "inviteID" then g_inviteID a
  else if k =s "userSub" then g_userSub a else if k =s "name" then g_name a
  else if k =s "clusterID" then g_clusterID a else if k =s "planID" then g_planID a else "".
Definition cloud_args_ok (a : cloud_args) : Prop :=
  Forall (λ k, k8s_name (cloud_argument a k) = true)
    ["tenantID"; "serverID"; "action"; "executionID"; "keyID"; "inviteID"; "userSub"; "name"; "clusterID"; "planID"].

(** The query parameter of that name among the arguments, if it is given. *)
Definition query_argument (a : cloud_args) (k : string) : option string :=
  if k =s "force" then
    match g_force a with
    | Some {| cdp_Force := Some b |} => Some (if b then "true" else "false")
    | _ => None
    end
  else None.
Definition documented_query (a : cloud_args) (o : api_operation) : list (string * string) :=
  omap (λ k, (k,.) <$> query_argument a k) (ap_Query o).

(** The maps that are part of a body are there: Go writes a nil map as null. *)
Definition maps_given (a : cloud_args) : Prop :=
  is_Some (g_params a) ∧ cr_Env (g_server a) ≠ Some None.

Inductive answer_parser : Type :=
| Parser (A : Type) (p : HttpResp → Parsed A + gerr).
Arguments Parser {A} p.

Section Spec.
Context `{Htext : !JsonText, Htime : !RFC3339, Hurl : !Url}.

(** The request of each operation, the body it means, and the parser of its
    answer, in the order of the document. *)
Definition cloud_operations (server : string) (a : cloud_args)
    : list ((HttpReq + gerr) * option json * answer_parser) := [
  (cloud_NewGetHealthzRequest server, None, Parser cloud_ParseGetHealthzResponse);
  (cloud_NewGetReadyzRequest server, None, Parser cloud_ParseGetReadyzResponse);
  (cloud_NewStripeWebhookRequest server, None, Parser cloud_ParseStripeWebhookResponse);
  (cloud_NewListPlansRequest server, None, Parser cloud_ParseListPlansResponse);
  (cloud_NewListMyTenantsRequest server, None, Parser cloud_ParseListMyTenantsResponse);
  (cloud_NewCreateTenantRequest server (g_tenant a), Some (cloud_enc_CreateTenantRequest (g_tenant a)), Parser cloud_ParseCreateTenantResponse);
  (cloud_NewGetTenantRequest server (g_tenantID a), None, Parser cloud_ParseGetTenantResponse);
  (cloud_NewUpdateTenantRequest server (g_tenantID a) (g_rename a), Some (cloud_enc_UpdateTenantRequest (g_rename a)), Parser cloud_ParseUpdateTenantResponse);
  (cloud_NewDeleteTenantRequest server (g_tenantID a) (g_force a), None, Parser cloud_ParseDeleteTenantResponse);
  (cloud_NewAcceptInviteRequest server (g_accept a), Some (cloud_enc_AcceptInviteRequest (g_accept a)), Parser cloud_ParseAcceptInviteResponse);
  (cloud_NewListInvitesRequest server (g_tenantID a), None, Parser cloud_ParseListInvitesResponse);
  (cloud_NewCreateInviteRequest server (g_tenantID a) (g_invite a), Some (cloud_enc_CreateInviteRequest (g_invite a)), Parser cloud_ParseCreateInviteResponse);
  (cloud_NewRevokeInviteRequest server (g_tenantID a) (g_inviteID a), None, Parser cloud_ParseRevokeInviteResponse);
  (cloud_NewListMembersRequest server (g_tenantID a), None, Parser cloud_ParseListMembersResponse);
  (cloud_NewAddMemberRequest server (g_tenantID a) (g_member a), Some (cloud_enc_AddMemberRequest (g_member a)), Parser cloud_ParseAddMemberResponse);
  (cloud_NewRemoveMemberRequest server (g_tenantID a) (g_userSub a), None, Parser cloud_ParseRemoveMemberResponse);
  (cloud_NewGetSubscriptionRequest server (g_tenantID a), None, Parser cloud_ParseGetSubscriptionResponse);
  (cloud_NewCreateCheckoutRequest server (g_tenantID a) (g_checkout a), Some (cloud_enc_CheckoutRequest (g_checkout a)), Parser cloud_ParseCreateCheckoutResponse);
  (cloud_NewCreatePortalRequest server (g_tenantID a), None, Parser cloud_ParseCreatePortalResponse);
  (cloud_NewListInvoicesRequest server (g_tenantID a), None, Parser cloud_ParseListInvoicesResponse);
  (cloud_NewListServersRequest server (g_tenantID a), None, Parser cloud_ParseListServersResponse);
  (cloud_NewCreateServerRequest server (g_tenantID a) (g_server a), Some (cloud_enc_CreateServerRequest (g_server a)), Parser cloud_ParseCreateServerResponse);
  (cloud_NewGetServerRequest server (g_tenantID a) (g_serverID a), None, Parser cloud_ParseGetServerResponse);
  (cloud_NewDeleteServerRequest server (g_tenantID a) (g_serverID a), None, Parser cloud_ParseDeleteServerResponse);
  (cloud_NewListActionsRequest server (g_tenantID a) (g_serverID a), None, Parser cloud_ParseListActionsResponse);
  (cloud_NewExecuteActionRequest server (g_tenantID a) (g_serverID a) (g_action a) (g_params a), Some (enc_params (g_params a)), Parser cloud_ParseExecuteActionResponse);
  (cloud_NewGetActionExecutionRequest server (g_tenantID a) (g_serverID a) (g_executionID a), None, Parser cloud_ParseGetActionExecutionResponse);
  (cloud_NewListSnapshotsRequest server (g_tenantID a) (g_serverID a), None, Parser cloud_ParseListSnapshotsResponse);
  (cloud_NewCreateSnapshotRequest server (g_tenantID a) (g_serverID a), None, Parser cloud_ParseCreateSnapshotResponse);
  (cloud_NewGetConsoleRequest server (g_tenantID a) (g_serverID a), None, Parser cloud_ParseGetConsoleResponse);
  (cloud_NewListRegionsRequest server, None, Parser cloud_ParseListRegionsResponse);
  (cloud_NewListProfilesRequest server (g_tenantID a), None, Parser cloud_ParseListProfilesResponse);
  (cloud_NewGetProfileRequest server (g_tenantID a) (g_name a), None, Parser cloud_ParseGetProfileResponse);
  (cloud_NewGetCatalogRequest server (g_tenantID a), None, Parser cloud_ParseGetCatalogResponse);
  (cloud_NewListAuditRequest server (g_tenantID a), None, Parser cloud_ParseListAuditResponse);
  (cloud_NewListAPIKeysRequest server (g_tenantID a), None, Parser cloud_ParseListAPIKeysResponse);
  (cloud_NewCreateAPIKeyRequest server (g_tenantID a) (g_key a), Some (cloud_enc_CreateAPIKeyRequest (g_key a)), Parser cloud_ParseCreateAPIKeyResponse);
  (cloud_NewDeleteAPIKeyRequest server (g_tenantID a) (g_keyID a), None, Parser cloud_ParseDeleteAPIKeyResponse);
  (cloud_NewAdminListClustersRequest server, None, Parser cloud_ParseAdminListClustersResponse);
  (cloud_NewAdminCreateClusterRequest server (g_cluster a), Some (cloud_enc_CreateClusterRequest (g_cluster a)), Parser cloud_ParseAdminCreateClusterResponse);
  (cloud_NewAdminDeleteClusterRequest server (g_clusterID a), None, Parser cloud_ParseAdminDeleteClusterResponse);
  (cloud_NewAdminUpdatePlanPricesRequest server (g_planID a) (g_prices a), Some (cloud_enc_UpdatePlanPricesRequest (g_prices a)), Parser cloud_ParseAdminUpdatePlanPricesResponse);
  (cloud_NewRegisterClusterRequest server (g_cluster a), Some (cloud_enc_CreateClusterRequest (g_cluster a)), Parser cloud_ParseRegisterClusterResponse);
  (cloud_NewClusterHeartbeatRequest server (g_name a) (g_heartbeat a), Some (cloud_enc_HeartbeatRequest (g_heartbeat a)), Parser cloud_ParseClusterHeartbeatResponse)].

(** ** Answers *)

(** A parser that decodes just the documented answers: the value for the
    successful status and the error for an error status, when the answer is JSON; it
    fails only when the body of such an answer does not decode; any other answer gives its
    status and body alone. *)
Definition decodes {A} (parse : HttpResp → Parsed A + gerr) (success : option Z) (errors : list Z) : Prop :=
  ∀ rsp body, hs_Body rsp = inl body →
    let json := Contains (hs_ContentType rsp) "json" = true in
    match parse rsp with
    | inl p => pr_StatusCode p = hs_Status rsp ∧ pr_Body p = body
               ∧ (is_Some (pr_JSON p) ↔ json ∧ success = Some (hs_Status rsp))
               ∧ (is_Some (pr_Error p) ↔ json ∧ hs_Status rsp ∈ errors)
    | inr _ => json ∧ (success = Some (hs_Status rsp) ∨ hs_Status rsp ∈ errors)
    end.

Lemma parse_response_decodes {A} (success : option (Z * (string → A + gerr))) errors :
  (∀ code decode, success = Some (code, decode) → existsb (Z.eqb code) errors = false) →
  decodes (parse_response success errors) (fst <$> success) errors.
Proof.
  intros Hne rsp body Hb. cbv zeta. unfold parse_response. rewrite Hb.
  assert (∀ c, c ∈ errors ↔ existsb (Z.eqb c) errors = true) as Hin.
  { intros c. rewrite existsb_exists. split.
    - intros Hc. exists c. by rewrite list_elem_of_In, Z.eqb_refl in *.
    - intros (x & Hx & ->%Z.eqb_eq). by apply list_elem_of_In. }
  assert (¬ is_Some (None : option A) ∧ ¬ is_Some (None : option gen_Error)) as [HA HE].
  { split; by intros [? [=]]. }
  destruct (Contains (hs_ContentType rsp) "json"); cbn [andb].
  - destruct success as [[code decode]|]; cbn [fmap option_fmap option_map fst].
    + specialize (Hne code decode eq_refl). destruct (hs_Status rsp =? code) eqn:E.
      * apply Z.eqb_eq in E as ->. destruct (decode body); cbn; rewrite Hin, ?Hne; naive_solver.
      * apply Z.eqb_neq in E. destruct (existsb (Z.eqb (hs_Status rsp)) errors) eqn:Ee.
        -- destruct (unmarshal _ _ body); cbn; rewrite Hin, Ee; naive_solver.
        -- cbn. rewrite Hin, Ee. naive_solver.
    + destruct (existsb (Z.eqb (hs_Status rsp)) errors) eqn:Ee.
      * destruct (unmarshal _ _ body); cbn; rewrite Hin, Ee; naive_solver.
      * cbn. rewrite Hin, Ee. naive_solver.
  - cbn. naive_solver.
Qed.

(** ** The client follows the document *)

Variables (origin : string) (editors : list (HttpReq → HttpReq)).
Hypothesis Horigin : valid_origin origin = true.
Hypothesis Hslash : HasSuffix origin "/" = false.
Definition cloud_server : string := c_Server (gen_NewClient origin editors).

(** The request goes to a path of the operation [o], with the arguments [a] as
    its parameters, is a request for no other, has exactly the query parameters
    of the document that are given, has a body just when the document says so,
    which conforms to the document's schema, and the parser decodes the
    documented statuses and content type. *)
Definition follows (a : cloud_args) (o : api_operation) (e : (HttpReq + gerr) * option json * answer_parser) : Prop :=
  let '(req, body, Parser parse) := e in
  ∃ q segs,
    let query := documented_query a o in
    req = inl q ∧ hq_Method q = ap_Method o
    ∧ hq_URL q = origin +:+ path_of segs +:+ (if decide (query = []) then "" else "?" +:+ Join "&" ((λ kv, kv.1 +:+ "=" +:+ kv.2) <$> query))
    ∧ segs ≠ [] ∧ Forall plain segs
    ∧ is_request o (cloud_argument a) (hq_Method q) segs
    ∧ (∀ o' params, o' ∈ cloud_api → is_request o' params (hq_Method q) segs →
         o' = o ∧ ∀ k, k ∈ ap_Params o → params k = cloud_argument a k)
    ∧ match body, ap_Schema o with
      | Some j, Some schema => hq_Body q = print j ∧ (maps_given a → conforms schema j = true)
      | None, None => hq_Body q = ""
      | _, _ => False
      end
    ∧ decodes parse (ap_Success o) (ap_Errors o).

(** A template of the client as one of the document. *)
Definition documented (t : template) : string :=
  match t with Lit s => s | Param n _ => "{" +:+ n +:+ "}" end.
Definition argument_of (a : cloud_args) (t : template) : Prop :=
  match t with
  | Lit s => is_template s = false
  | Param n v => is_template ("{" +:+ n +:+ "}") = true ∧ param_name ("{" +:+ n +:+ "}") = n ∧ v = cloud_argument a n
  end.

Lemma documented_binds a segs :
  Forall (argument_of a) segs → binds (cloud_argument a) (documented <$> segs) (seg_value <$> segs).
Proof.
  induction 1 as [|[s|n v] segs Ht _ IH]; [constructor|..]; constructor; try exact IH;
    unfold argument_of in Ht; unfold documented, seg_value.
  - by rewrite Ht.
  - destruct Ht as (Ht & Hn & ->). by rewrite Ht, Hn.
Qed.

(** An action run without parameters has a nil map of them, and so a body that
    is not the object the document asks for. *)
Lemma nil_params_do_not_conform : conforms (schema_named "executeAction") (enc_params None) = false.
Proof. reflexivity. Qed.

(** What [follows] asks of the body. *)
Definition body_follows (a : cloud_args) (o : api_operation) (body : option json) : Prop :=
  match body, ap_Schema o with
  | Some j, Some schema => maps_given a → conforms schema j = true
  | None, None => True
  | _, _ => False
  end.

Lemma operation_follows {A} a i o method segs body query (success : option (Z * (string → A + gerr))) errors :
  cloud_api !! i = Some o → ap_Method o = method → segs ≠ [] → Forall seg_ok segs →
  ap_segments o = documented <$> segs → Forall (argument_of a) segs →
  documented_query a o = query → body_follows a o body →
  ap_Success o = fst <$> success → ap_Errors o = errors →
  (∀ code decode, success = Some (code, decode) → existsb (Z.eqb code) errors = false) →
  follows a o (with_query query (new_request method cloud_server segs body), body,
               Parser (parse_response success errors)).
Proof.
  intros Hi Hm Hne Hok Hseg Harg Hquery Hbody Hsucc Herr Hd.
  assert (o ∈ cloud_api) as Ho by (by eapply list_elem_of_lookup_2).
  assert (is_request o (cloud_argument a) method (seg_value <$> segs)) as Hreq.
  { split; [done|]. rewrite Hseg. by apply documented_binds. }
  unfold new_request, cloud_server, gen_NewClient. cbn [c_Server]. rewrite Hslash, operation_path_ok by done.
  rewrite (resolve_origin origin _ (seg_value <$> segs)); [|done|by apply Forall_fmap|done].
  assert (Forall plain (seg_value <$> segs)) as Hplain.
  { apply Forall_fmap. eapply Forall_impl; [exact Hok|]. intros t Ht. by apply k8s_name_plain. }
  assert (seg_value <$> segs ≠ []) as Hvne by (by destruct segs).
  rewrite path_of_foldr by done.
  unfold follows. rewrite Hquery. destruct query as [|kv query]; cbn [with_query];
    (eexists _, (seg_value <$> segs); split_and!; [reflexivity|done| |done|done|done| | |]);
    try (intros o' params Ho' Hr'; by eapply is_request_unique);
    try (rewrite Hsucc, Herr; by apply parse_response_decodes); cbn [hq_URL hq_Body].
  - rewrite decide_True by done. by rewrite str_app_nil_r.
  - unfold body_follows in Hbody. by destruct body, (ap_Schema o).
  - rewrite decide_False by done. exact (eq_sym (str_app_assoc _ _ _)).
  - unfold body_follows in Hbody. by destruct body, (ap_Schema o).
Qed.

Lemma plain_operation_follows {A} a i o method segs body (success : option (Z * (string → A + gerr))) errors :
  cloud_api !! i = Some o → ap_Method o = method → segs ≠ [] → Forall seg_ok segs →
  ap_segments o = documented <$> segs → Forall (argument_of a) segs → documented_query a o = [] →
  body_follows a o body → ap_Success o = fst <$> success → ap_Errors o = errors →
  (∀ code decode, success = Some (code, decode) → existsb (Z.eqb code) errors = false) →
  follows a o (new_request method cloud_server segs body, body, Parser (parse_response success errors)).
Proof.
  intros Hi Hm Hne Hok Hseg Harg Hquery Hbody Hsucc Herr Hd.
  pose proof (operation_follows a i o method segs body [] success errors Hi Hm Hne Hok Hseg Harg
    Hquery Hbody Hsucc Herr Hd) as H.
  by destruct (new_request method cloud_server segs body).
Qed.

(** *** The bodies conform *)

Lemma schema_of a o j schema :
  ap_Schema o = Some schema → (maps_given a → conforms schema j = true) → body_follows a o (Some j).
Proof. intros Hs Hj. unfold body_follows. by rewrite Hs. Qed.

Lemma server_conforms a : maps_given a →
  conforms (schema_named "createServer") (cloud_enc_CreateServerRequest (g_server a)) = true.
Proof.
  intros [_ Hn]. destruct (g_server a) as [e l n p re sn st ti]. cbn [cr_Env] in Hn.
  unfold cloud_enc_CreateServerRequest. cbn [cr_Env cr_LoadBalancerIp cr_Region cr_Snapshot cr_StorageSize cr_Tier].
  destruct e as [[m|]|]; [|done|by destruct l, re, sn, st, ti].
  pose proof (string_map_typed m) as Hm. lazy -[forallb map_members is_string] in Hm.
  destruct l, re, sn, st, ti; unfold e_map; lazy -[forallb map_members is_string];
    cbn [forallb]; rewrite Hm; reflexivity.
Qed.

Lemma key_conforms r : conforms (schema_named "createAPIKey") (cloud_enc_CreateAPIKeyRequest r) = true.
Proof.
  destruct r as [e n [l|]]; [|by destruct e]. pose proof (strings_typed l) as Hl.
  destruct e; lazy -[forallb is_string fmap list_fmap]; cbn [forallb]; rewrite Hl; reflexivity.
Qed.

Lemma params_conform a : maps_given a →
  conforms (schema_named "executeAction") (enc_params (g_params a)) = true.
Proof. intros [[m ->] _]. apply string_map_typed. Qed.

Ltac body_ok :=
  first
    [ exact I
    | eapply schema_of; [reflexivity|];
      first
        [ exact (server_conforms _)
        | exact (λ _, key_conforms _)
        | exact (params_conform _)
        | intros _;
          match goal with |- conforms _ (?enc ?r) = true => destruct r as [] end;
          repeat match goal with v : option _ |- _ => destruct v end; reflexivity ] ].

Lemma force_documented a o : ap_Query o = ["force"] →
  documented_query a o = match g_force a with Some p => force_query p | None => [] end.
Proof.
  intros E. unfold documented_query, query_argument, force_query. rewrite E. cbn.
  by destruct (g_force a) as [[[[]|]]|].
Qed.

(** The operation at a position of the tables. *)
Ltac follows_at a i :=
  first [eapply (operation_follows _ i)|eapply (plain_operation_follows _ i)];
  [reflexivity|reflexivity|done|repeat constructor; (assumption || reflexivity)|reflexivity
  |repeat constructor|first [reflexivity|by apply force_documented]|body_ok|reflexivity|reflexivity|by intros ? ? [= <- <-]].
Ltac follow_from a i :=
  lazymatch goal with
  | |- Forall2 _ [] [] => constructor
  | |- Forall2 _ (_ :: _) (_ :: _) =>
      apply Forall2_cons_2; [follows_at a i|let j := eval cbv in (S i) in follow_from a j]
  end.

(** C23: *the generated client is the one the document describes.*  For every
    operation of the API document, with arguments that are names: the client's
    request for it goes to a path of that operation with exactly those
    parameters, which is a request for no other operation and no other
    arguments; it has exactly the query parameters of the document that are
    given, with their values; it has a JSON body just when the document says so,
    with the document's properties, each of its type, and the required ones
    among them (except that a nil map is written as null); and the answers that
    are decoded are just those of the documented statuses that are announced
    as JSON.  What the values of the answers are decoded to is not compared
    with the document. *)
Theorem cloud_client_follows_api a :
  cloud_args_ok a →
  Forall2 (follows a) cloud_api (cloud_operations cloud_server a).
Proof.
  intros Hok. unfold cloud_args_ok in Hok.
  repeat match goal with H : Forall _ (_ :: _) |- _ => apply Forall_cons in H as [? H] end. clear Hok.
  unfold cloud_operations, cloud_api. follow_from a 0%nat.
Qed.
End Spec.

(** ** Witness *)

#[local] Existing Instances ex_JsonText ex_RFC3339 ex_Url.
Definition ex_cloud_args : cloud_args := {|
  g_tenantID := "t-1"; g_serverID := "srv-1"; g_action := "save"; g_executionID := "run-1"; g_keyID := "k-1";
  g_inviteID := "i-1"; g_userSub := "u-1"; g_name := "eu-1"; g_clusterID := "c-1"; g_planID := "basic";
  g_force := Some {| cdp_Force := Some true |};
  g_cluster := cloud_zero_CreateClusterRequest; g_prices := cloud_zero_UpdatePlanPricesRequest;
  g_heartbeat := cloud_zero_HeartbeatRequest; g_accept := cloud_zero_AcceptInviteRequest;
  g_tenant := cloud_zero_CreateTenantRequest; g_rename := cloud_zero_UpdateTenantRequest;
  g_key := cloud_zero_CreateAPIKeyRequest; g_checkout := cloud_zero_CheckoutRequest;
  g_invite := cloud_zero_CreateInviteRequest; g_member := cloud_zero_AddMemberRequest;
  g_server := cloud_zero_CreateServerRequest; g_params := None |}.

(** A tenant is deleted by force: the request is for [deleteTenant] of this
    tenant and nothing else. *)
Lemma cloud_client_follows_api_witness :
  cloud_args_ok ex_cloud_args
  ∧ ∃ q, cloud_NewDeleteTenantRequest "http://minato/" "t-1" (g_force ex_cloud_args) = inl q
    ∧ hq_URL q = "http://minato/api/v1/tenants/t-1?force=true"
    ∧ ∃ segs, is_request (default (api "" "" "" [] false None [] []) (cloud_api !! 8%nat))
                (cloud_argument ex_cloud_args) (hq_Method q) segs.
Proof.
  assert (cloud_args_ok ex_cloud_args) as H by (unfold cloud_args_ok; repeat constructor).
  split; [exact H|]. eexists. split; [reflexivity|]. split; [reflexivity|].
  pose proof (cloud_client_follows_api "http://minato" [] eq_refl eq_refl ex_cloud_args H) as Hall.
  apply (Forall2_lookup_lr _ _ _ 8) with
    (x := default (api "" "" "" [] false None [] []) (cloud_api !! 8%nat))
    (y := (cloud_NewDeleteTenantRequest "http://minato/" "t-1" (g_force ex_cloud_args), None,
           Parser cloud_ParseDeleteTenantResponse)) in Hall; [|reflexivity..].
  destruct Hall as (q & segs & [= <-] & _ & _ & _ & _ & Hr & _). exists segs. exact Hr.
Defined.
