(* ===== verification/RegistrarApi.v ===== *)
(** * RegistrarApi: the registrar speaks the cloud's API

    The registrar ([cmd/registrar]) writes its requests by hand, with structs
    and paths of its own. Here they are the operations [registerCluster] and
    [clusterHeartbeat] of the cloud's API document (CloudSpec), and the JSON of
    its payloads reads as the document's types with the values of the
    configuration. *)

From Stdlib Require Import Ascii String.
From stdpp Require Import gmap.
From S2P Require Import Registrar Prelude GoStrings Prog Kube Rbac ControlPlane Json GenTypes GenClient ClientServer CloudTypes CloudClient CloudOps CloudSpec.
#[local] Open Scope Z_scope.

(** [json.Marshal] of the payloads. *)
Definition enc_payload (p : payload) : json :=
  match p with
  | PRegister p => JObj (
      [("name", JStr (rp_Name p)); ("region", JStr (rp_Region p));
       ("controlplaneUrl", JStr (rp_ControlPlaneURL p)); ("apiKey", JStr (rp_APIKey p));
       ("capacityMax", JNum (rp_CapacityMax p)); ("dedicatedTenantId", JStr (rp_DedicatedTenantID p))]
      ++ m_str "clusterFingerprint" (rp_ClusterFingerprint p))
  | PHeartbeat p => JObj (
      [("capacityMax", JNum (hp_CapacityMax p))] ++ m_str "clusterFingerprint" (hp_ClusterFingerprint p))
  end.

Definition given (s : string) : option string := if s =s "" then None else Some s.

Section Registrar.
Variables (cfg : config) (fingerprint : string).
Hypothesis Hname : k8s_name (Registrar.Name cfg) = true.
Hypothesis Hcapacity : -9223372036854775808 <= CapacityMax cfg <= 9223372036854775807.

(** What the cloud reads in a registration and in a heartbeat. *)
Definition registration : cloud_CreateClusterRequest := {|
  ccr_ApiKey := ControlPlaneKey cfg; ccr_CapacityMax := Some (CapacityMax cfg);
  ccr_ClusterFingerprint := given fingerprint; ccr_ControlplaneUrl := ControlPlaneURL cfg;
  ccr_DedicatedTenantId := Some (DedicatedTenantID cfg); ccr_Name := Registrar.Name cfg;
  ccr_Region := Some (Region cfg) |}.
Definition beat : cloud_HeartbeatRequest := {|
  chr_CapacityMax := Some (CapacityMax cfg); chr_ClusterFingerprint := given fingerprint |}.

(** An [int] of Go fits the document's integer. *)
Lemma capacity_low : (-9223372036854775808 <=? CapacityMax cfg) = true.
Proof. apply Z.leb_le; lia. Qed.
Lemma capacity_high : (CapacityMax cfg <=? 9223372036854775807) = true.
Proof. apply Z.leb_le; lia. Qed.

Ltac payload_reads :=
  unfold registration, beat; destruct fingerprint as [|c s]; lazy -[Z.leb CapacityMax]; by rewrite capacity_low, capacity_high.

Lemma register_payload_reads :
  cloud_dec_CreateClusterRequest (enc_payload (PRegister (buildRegisterPayload cfg fingerprint)))
    cloud_zero_CreateClusterRequest = Some registration.
Proof. payload_reads. Qed.
Lemma heartbeat_payload_reads :
  cloud_dec_HeartbeatRequest (enc_payload (PHeartbeat (buildHeartbeatPayload cfg fingerprint)))
    cloud_zero_HeartbeatRequest = Some beat.
Proof. payload_reads. Qed.

(** A call is one of the two operations, with the cluster's name and the token,
    and its body is what the document says. *)
Definition api_call (X : Type) (e : regop X) : Prop :=
  match e with
  | HttpPost url token body =>
      ∃ op segs,
        op ∈ cloud_api ∧ ap_Body op = true ∧ url = CloudURL cfg +:+ path_of segs
        ∧ is_request op (λ _, Registrar.Name cfg) "POST" segs ∧ token = RegisterToken cfg
        ∧ ((ap_Id op = "registerCluster" ∧ ap_Success op = Some 200
            ∧ cloud_dec_CreateClusterRequest (enc_payload body) cloud_zero_CreateClusterRequest = Some registration)
           ∨ (ap_Id op = "clusterHeartbeat" ∧ ap_Empty op = [204] ∧ 404 ∈ ap_Errors op
              ∧ cloud_dec_HeartbeatRequest (enc_payload body) cloud_zero_HeartbeatRequest = Some beat))
  | _ => True
  end.

Definition of_registration : api_operation := default (api "" "" "" [] false None [] []) (cloud_api !! 42%nat).
Definition of_heartbeat : api_operation := default (api "" "" "" [] false None [] []) (cloud_api !! 43%nat).

Lemma register_api : always api_call (Registrar.register cfg fingerprint).
Proof.
  split; [|intros; exact I]. exists of_registration, ["api"; "v1"; "clusters"; "register"].
  split_and!; [by apply (list_elem_of_lookup_2 _ 42)|reflexivity|reflexivity| |reflexivity|].
  - split; [reflexivity|]. repeat constructor.
  - left. split_and!; [reflexivity..|exact register_payload_reads].
Qed.

Lemma heartbeat_api : always api_call (Registrar.heartbeat cfg fingerprint).
Proof.
  split; [|intros; exact I]. exists of_heartbeat, ["api"; "v1"; "clusters"; Registrar.Name cfg; "heartbeat"].
  split_and!; [by apply (list_elem_of_lookup_2 _ 43)|reflexivity|reflexivity| |reflexivity|].
  - split; [reflexivity|].
    assert (ap_segments of_heartbeat = ["api"; "v1"; "clusters"; "{name}"; "heartbeat"]) as E
      by (vm_compute; reflexivity).
    unfold binds. rewrite E. repeat (constructor; [reflexivity|]). constructor.
  - right. split_and!; [reflexivity..|apply list_elem_of_here|exact heartbeat_payload_reads].
Qed.
#[local] Hint Resolve register_api heartbeat_api : minato.

Lemma turn_api p : always api_call (turn cfg fingerprint p).
Proof.
  destruct p; cbn [turn]; unfold register_turn, beat_turn, new_ticker; safe_calls; exact I.
Qed.

Lemma run_api n p : always api_call (run_from cfg fingerprint n p).
Proof.
  revert p. induction n as [|n IH]; intros p; [exact I|]. apply always_bind; [apply turn_api|exact IH].
Qed.
End Registrar.

(** C24: *the registrar speaks the cloud's API.*  Started in an environment whose
    cluster name is a name, the registrar calls, whatever it is answered, only
    the two operations of the API document for clusters, each by its method and
    path with the cluster's name and the token; and its payload, as JSON, reads
    as the type the document gives the body, with exactly the values of the
    configuration. *)
Theorem registrar_follows_api Getenv cfg n fingerprint t o :
  loadConfig Getenv = inl cfg → k8s_name (Registrar.Name cfg) = true →
  runs (run cfg fingerprint n) t o → Forall (ev_sat (api_call cfg fingerprint)) t.
Proof.
  intros Hload Hname. apply always_runs, run_api.
  unfold loadConfig in Hload. cbv zeta in Hload. destruct (_ || _); [done|]. injection Hload as <-. cbn.
  unfold envInt. destruct (Atoi _) as [v|] eqn:Ev; [|cbn; lia].
  unfold positive_or. destruct (0 <? v); [|lia]. by eapply Atoi_range.
Qed.

(** ** Witness *)

(** The run of [Registrar]: a refused registration, one that is accepted, a heartbeat
    the cloud does not know, a second registration and a heartbeat. *)
Lemma registrar_follows_api_witness :
  Forall (ev_sat (api_call ex_config "")) ex_run.1.1
  ∧ length (filter (λ v, is_Some (posted v)) ex_run.1.1) = 5%nat.
Proof.
  split; [|vm_compute; reflexivity].
  apply (registrar_follows_api ex_env ex_config 6 "" ex_run.1.1 ex_run.1.2);
    [vm_compute; reflexivity|vm_compute; reflexivity|].
  exact (exec_result_runs ex_cloud (run ex_config "" 6) (0, 0)).
Defined.
