(* ===== verification/Ctl.v ===== *)
(** * Ctl: the command line tool ([cmd/minato-ctl])

    The stored configuration and where a credential comes from
    ([cloud_config.go]); the commands on a minato-cloud deployment ([cloud*.go]) and on a
    control plane ([main.go]; its console is [CtlConsole]), each the body of its [RunE]. Flags and arguments arrive
    parsed, as cobra hands them over: a command that demands [n] arguments has
    [n]. What a command prints is a line, a table or a value shown as JSON; what it
    returns is the error it ends with. *)

From Stdlib Require Import Ascii String.
From coqutil Require Import Datatypes.RecordSetters.
From stdpp Require Import gmap.
From S2P Require Import Prelude GoStrings Prog Kube Auth Json GenTypes GenClient SdkClient CloudTypes CloudClient.
#[local] Open Scope Z_scope.

(** ** The outside *)

(** [os.ReadFile] on the configuration. *)
Inductive file_read := FileText (data : string) | FileMissing | FileError (e : gerr).

(** The values [printJSON] is called on. *)
Inductive printed :=
| P_GameServers (l : list sdk_GameServer) | P_GameServer (s : sdk_GameServer)
| P_Fleets (l : list sdk_GameServerFleet) | P_Fleet (f : sdk_GameServerFleet)
| P_Profiles (l : list sdk_GameProfile) | P_Profile (p : sdk_GameProfile)
| P_Snapshots (l : list sdk_GameSnapshot) | P_Snapshot (s : sdk_GameSnapshot)
| P_ExecutionRef (name : string)
| P_CloudServers (l : list cloud_Server) | P_CloudServer (s : option cloud_Server)
| P_CloudLive (s : option cloud_ServerWithLive)
| P_CloudSnapshots (l : list cloud_GameSnapshot) | P_CloudSnapshot (s : option cloud_GameSnapshot)
| P_CloudActions (l : list cloud_Action) | P_CloudExecutionRef (r : option cloud_ActionExecutionRef)
| P_Catalog (l : list cloud_CatalogEntry) | P_Plans (l : list cloud_Plan)
| P_Subscription (s : option cloud_Subscription)
| P_APIKeys (l : list cloud_APIKey) | P_APIKeyCreated (k : option cloud_APIKeyCreated)
| P_Whoami (url mode : string) (tenants : list cloud_Tenant).

Inductive output :=
| OutLine (s : string)
| OutTable (header : list string) (rows : list (list string))
| OutJSON (v : printed).

Inductive cliop : Type → Type :=
| CHttp (q : HttpReq) : cliop (HttpResp + gerr)
| CReadConfig : cliop file_read
| CMkdirConfig : cliop (option gerr)
| CWriteConfig (data : string) : cliop (option gerr)
(* the input up to a newline or its end *)
| CReadLine : cliop (string + gerr)
| COut (o : output) : cliop unit.
Abbreviation Cli := (prog cliop).

Fixpoint lift {A} (p : Http A) : Cli A :=
  match p with
  | Ret a => Ret a
  | Panic m => Panic m
  | @Call _ _ X e k =>
      match e in httpop X return (X → Cli A) → Cli A with
      | HttpDo q => Call (CHttp q)
      end (λ x, lift (k x))
  end.

(** [json.MarshalIndent], which parses back like [json.Marshal]. *)
Class IndentJSON `{!JsonText} := {
  print_indent : json → string;
  parse_indent : ∀ j, json_ok j = true → parse (print_indent j) = inl j;
}.
(** [Format("2006-01-02")]. *)
Class DateFormat := FormatDate : Z → string.

(** ** Configuration ([cloud_config.go]) *)

Definition defaultCloudURL : string := "http://localhost:8080".

(** The one member, [cloud], of [cloudConfig]. *)
Record cloudConfig := { cfg_URL : string; cfg_APIKey : string; cfg_SessionToken : string }.
Definition zero_cloudConfig : cloudConfig := {| cfg_URL := ""; cfg_APIKey := ""; cfg_SessionToken := "" |}.
Definition enc_cloudConfig (c : cloudConfig) : json := JObj [("cloud", JObj (
  m_str "url" (cfg_URL c) ++ m_str "api_key" (cfg_APIKey c) ++ m_str "session_token" (cfg_SessionToken c)))].
Definition dec_cloudConfig : dec cloudConfig := lenient [
  Field "cloud" (lenient [
    fld "url" d_string cfg_URL; fld "api_key" d_string cfg_APIKey;
    fld "session_token" d_string cfg_SessionToken])].

(** The flags of the tool, and its environment. *)
Record flags := {
  opt_server : string;
  opt_namespace : string;
  opt_api_key : string;
  opt_url : string;
  opt_tenant : string;
  opt_json : bool;
}.

Section Ctl.
Context `{Htext : !JsonText, Htime : !RFC3339, Hnano : !RFC3339Nano, Hurl : !Url}.
Context `{Hindent : !IndentJSON, Hdate : !DateFormat}.
(** [os.Getenv]; [url.ParseRequestURI]; the path of the configuration. *)
Variable Getenv : string → string.
Variable valid : string → option gerr.
Variable cloudConfigPath : string.
Variable opts : flags.

Definition parse_config (r : file_read) : cloudConfig + gerr :=
  match r with
  | FileMissing => inl zero_cloudConfig
  | FileError e => inr (wrapf ("read config " +:+ cloudConfigPath) e)
  | FileText data =>
      match unmarshal zero_cloudConfig dec_cloudConfig data with
      | inl cfg => inl cfg
      | inr e => inr (wrapf ("parse config " +:+ cloudConfigPath) e)
      end
  end.
Definition loadCloudConfig : Cli (cloudConfig + gerr) :=
  let* r := call CReadConfig in Ret (parse_config r).

Definition saveCloudConfig (cfg : cloudConfig) : Cli (option gerr) :=
  let* e := call CMkdirConfig in
  match e with
  | Some e => Ret (Some e)
  | None => call (CWriteConfig (print_indent (enc_cloudConfig cfg)))
  end.

Definition resolveCloudURL (cfg : cloudConfig) : string :=
  if opt_url opts <>s "" then opt_url opts
  else if Getenv "MINATO_CLOUD_URL" <>s "" then Getenv "MINATO_CLOUD_URL"
  else if cfg_URL cfg <>s "" then cfg_URL cfg
  else defaultCloudURL.

(** The credential and how it was obtained. *)
Definition resolveCloudToken (cfg : cloudConfig) : string * string :=
  if Getenv "MINATO_CLOUD_API_KEY" <>s "" then (Getenv "MINATO_CLOUD_API_KEY", "api-key (env)")
  else if cfg_APIKey cfg <>s "" then (cfg_APIKey cfg, "api-key")
  else if cfg_SessionToken cfg <>s "" then (cfg_SessionToken cfg, "session")
  else ("", "none").

(** ** Clients, errors and output ([cloud.go]) *)

(** The text of an error: [cli_error] is what a command returns. *)
Abbreviation cli_error := string.
Definition cloud_message (e : sdk_error) : cli_error :=
  match e with
  | APIError status msg => "cloudapi: status " +:+ itoa status +:+ ": " +:+ msg
  | OtherError e => ge_msg e
  end.
Definition cloudErr (e : sdk_error) : cli_error :=
  match e with
  | APIError 401 msg => "not authenticated (" +:+ msg +:+ ") — run `minato-ctl cloud login`"
  | APIError 402 msg =>
      "payment required (" +:+ msg +:+ ") — subscribe to a plan first (see `minato-ctl cloud plans`)"
  | APIError 403 msg => "forbidden (" +:+ msg +:+ ") — check your tenant role, quota or API key scopes"
  | APIError 404 msg => "not found: " +:+ msg
  | e => cloud_message e
  end.

Definition newCloudClient : Cli (Client + cli_error) :=
  let* cfg := loadCloudConfig in
  Ret (match cfg with
       | inr e => inr (ge_msg e)
       | inl cfg =>
           match cloud_NewClient valid (resolveCloudURL cfg) (resolveCloudToken cfg).1 with
           | inl c => inl c
           | inr e => inr (ge_msg e)
           end
       end).

Definition newCloudClientForTenant : Cli (Client * string + cli_error) :=
  let* c := newCloudClient in
  match c with
  | inr e => Ret (inr e)
  | inl c =>
      let* t := lift (ResolveTenant c (opt_tenant opts)) in
      Ret (match t with inr e => inr (cloudErr e) | inl t => inl (c, ct_Id t) end)
  end.

(** A command: the error it ends with. *)
Abbreviation command := (Cli (option cli_error)).
Definition out (o : output) : command := let* _ := call (COut o) in Ret None.
Definition printJSON (v : printed) : command := out (OutJSON v).

Definition derefStr (s : option string) : string := default "" s.
Definition derefTime (t : option Z) : string := match t with Some t => Format t | None => "" end.
Definition derefBool (b : option bool) : bool := default false b.
Definition FormatBool (b : bool) : string := if b then "true" else "false".

(** The beginning of the tenant commands: a client, the tenant, one call. *)
Definition for_tenant {A} (op : Client → string → Http (A + sdk_error)) (show : A → command) : command :=
  let* r := newCloudClientForTenant in
  match r with
  | inr e => Ret (Some e)
  | inl (c, tenantID) =>
      let* a := lift (op c tenantID) in
      match a with inr e => Ret (Some (cloudErr e)) | inl a => show a end
  end.
(** The end of most: JSON when asked for, else something readable. *)
Definition json_or (v : printed) (readable : command) : command :=
  if opt_json opts then printJSON v else readable.
(** A field of what a pointer points to. *)
Definition with_pointer {A} (p : option A) (f : A → command) : command :=
  match p with Some a => f a | None => Panic nil_dereference end.

(** ** Credentials: [login], [logout], [whoami] *)

Definition acquireSessionToken : Cli (string + cli_error) :=
  let* _ := call (COut (OutLine "Paste a Keycloak ID token (from the cloud dashboard): ")) in
  let* r := call CReadLine in
  Ret (match r with
       | inr e => inr (ge_msg e)
       | inl line => if TrimSpace line =s "" then inr "no token provided" else inl (TrimSpace line)
       end).

(** The credential of a login, stored in the configuration. *)
Definition login_credential (api_key_flag : string) (cfg : cloudConfig) : Cli (cloudConfig + cli_error) :=
  if api_key_flag <>s "" then
    Ret (if HasPrefix api_key_flag "mk_"
         then inl {| cfg_URL := cfg_URL cfg; cfg_APIKey := api_key_flag; cfg_SessionToken := "" |}
         else inr ("tenant API keys start with " +:+ fmt_q "mk_" +:+ " — got " +:+ fmt_q api_key_flag))
  else
    let* tok := acquireSessionToken in
    Ret (match tok with
         | inr e => inr e
         | inl tok => inl {| cfg_URL := cfg_URL cfg; cfg_APIKey := ""; cfg_SessionToken := tok |}
         end).

Definition tenant_table (tenants : list cloud_Tenant) : output :=
  OutTable ["TENANT ID"; "SLUG"; "NAME"] ((λ t, [ct_Id t; ct_Slug t; ct_Name t]) <$> tenants).

(** [whoami] and [login] ask for the tenants with a client of their own. *)
Definition list_tenants (url token : string) : Cli (list cloud_Tenant + cli_error) :=
  match cloud_NewClient valid url token with
  | inr e => Ret (inr (ge_msg e))
  | inl c =>
      let* r := lift (cloud_ListMyTenants c) in
      Ret (match r with inr e => inr (cloudErr e) | inl l => inl l end)
  end.

(** The end of a login: verify the credential, then store it. *)
Definition login_with (url : string) (cfg : cloudConfig) : command :=
  let '(token, mode) := resolveCloudToken cfg in
  let* tenants := list_tenants url token in
  match tenants with
  | inr e => Ret (Some e)
  | inl tenants =>
      let* e := saveCloudConfig cfg in
      match e with
      | Some e => Ret (Some (ge_msg e))
      | None =>
          let* _ := call (COut (OutLine ("Logged in to " +:+ url +:+ " (" +:+ mode
            +:+ "). Credentials stored in " +:+ cloudConfigPath))) in
          out (tenant_table tenants)
      end
  end.

Definition cloudLoginCmd (api_key_flag : string) : command :=
  let* cfg := loadCloudConfig in
  match cfg with
  | inr e => Ret (Some (ge_msg e))
  | inl cfg =>
      let url := resolveCloudURL cfg in
      let* cfg := login_credential api_key_flag
        {| cfg_URL := url; cfg_APIKey := cfg_APIKey cfg; cfg_SessionToken := cfg_SessionToken cfg |} in
      match cfg with
      | inr e => Ret (Some e)
      | inl cfg => login_with url cfg
      end
  end.

Definition cloudLogoutCmd : command :=
  let* cfg := loadCloudConfig in
  match cfg with
  | inr e => Ret (Some (ge_msg e))
  | inl cfg =>
      let* e := saveCloudConfig {| cfg_URL := cfg_URL cfg; cfg_APIKey := ""; cfg_SessionToken := "" |} in
      match e with
      | Some e => Ret (Some (ge_msg e))
      | None => out (OutLine "Logged out; stored credentials removed.")
      end
  end.

Definition cloudWhoamiCmd : command :=
  let* cfg := loadCloudConfig in
  match cfg with
  | inr e => Ret (Some (ge_msg e))
  | inl cfg =>
      let url := resolveCloudURL cfg in
      let '(token, mode) := resolveCloudToken cfg in
      let* tenants := list_tenants url token in
      match tenants with
      | inr e => Ret (Some e)
      | inl tenants =>
          json_or (P_Whoami url mode tenants)
            (let* _ := call (COut (OutLine ("URL:  " +:+ url +:+ newline +:+ "Auth: " +:+ mode))) in
             out (tenant_table tenants))
      end
  end.

(** ** Servers ([cloud_servers.go]) *)

Definition cloudServersListCmd : command :=
  for_tenant cloud_ListServers (λ servers,
    json_or (P_CloudServers servers)
      (out (OutTable ["ID"; "NAME"; "PROFILE"; "TIER"; "STATUS"; "SUSPENDED"]
        ((λ s, [cs_Id s; cs_Name s; cs_Profile s; derefStr (cs_Tier s); cs_Status s;
                FormatBool (derefBool (cs_Suspended s))]) <$> servers)))).

Definition cloudServersGetCmd (id : string) : command :=
  for_tenant (λ c tenant, cloud_GetServer c tenant id) (λ s, printJSON (P_CloudLive s)).

(** An empty flag is no value. *)
Definition flag_value (s : string) : option string := if s =s "" then None else Some s.

Record create_flags := {
  cf_name : string; cf_profile : string; cf_tier : string; cf_region : string; cf_storage : string;
  cf_env : gomap string;
}.
Definition create_request (f : create_flags) : cloud_CreateServerRequest := {|
  cr_Env := if decide (gm_make (cf_env f) = ∅) then None else Some (cf_env f);
  cr_LoadBalancerIp := None; cr_Name := cf_name f; cr_Profile := cf_profile f;
  cr_Region := flag_value (cf_region f); cr_Snapshot := None;
  cr_StorageSize := flag_value (cf_storage f); cr_Tier := flag_value (cf_tier f) |}.

Definition cloudServerCreateCmd (f : create_flags) : command :=
  for_tenant (λ c tenant, cloud_CreateServer c tenant (create_request f)) (λ server,
    json_or (P_CloudServer server)
      (with_pointer server (λ s,
        out (OutLine ("Server " +:+ cs_Name s +:+ " (" +:+ cs_Id s +:+ ") created: profile=" +:+ cs_Profile s
                      +:+ " status=" +:+ cs_Status s))))).

Definition cloudServersDeleteCmd (id : string) : command :=
  for_tenant (λ c tenant, cloud_DeleteServer c tenant id) (λ _,
    out (OutLine ("Server " +:+ id +:+ " deleted."))).

(** ** Snapshots ([cloud_snapshots.go]) *)

Definition cloudSnapshotsListCmd (id : string) : command :=
  for_tenant (λ c tenant, cloud_ListSnapshots c tenant id) (λ snapshots,
    json_or (P_CloudSnapshots snapshots)
      (out (OutTable ["NAME"; "STATE"; "SIZE"; "READY AT"]
        ((λ s, [derefStr (cg_Metadata s ≫= csm_Name); derefStr (cg_Status s ≫= cst_State);
                derefStr (cg_Status s ≫= cst_Size); derefTime (cg_Status s ≫= cst_ReadyAt)])
         <$> snapshots)))).

Definition cloudSnapshotsCreateCmd (id : string) : command :=
  for_tenant (λ c tenant, cloud_CreateSnapshot c tenant id) (λ snapshot,
    json_or (P_CloudSnapshot snapshot)
      (with_pointer snapshot (λ s,
        out (OutLine ("Snapshot " +:+ derefStr (cg_Metadata s ≫= csm_Name) +:+ " created."))))).

(** ** Actions ([cloud_actions.go]) *)

Definition param_names (a : cloud_Action) : list string :=
  match cac_Params a with
  | Some m => sort_strings ((map_to_list (gm_make m)).*1)
  | None => []
  end.
Definition cloudActionsListCmd (id : string) : command :=
  for_tenant (λ c tenant, cloud_ListActions c tenant id) (λ actions,
    json_or (P_CloudActions actions)
      (out (OutTable ["NAME"; "DESCRIPTION"; "PARAMS"]
        ((λ a, [derefStr (cac_Name a); derefStr (cac_Description a); Join "," (param_names a)])
         <$> actions)))).

Definition cloudActionsRunCmd (id action : string) (params : gomap string) : command :=
  for_tenant (λ c tenant, cloud_ExecuteAction c tenant id action params) (λ ref,
    json_or (P_CloudExecutionRef ref)
      (with_pointer ref (λ r,
        out (OutLine ("Action " +:+ fmt_q action +:+ " started on server " +:+ id
                      +:+ " (execution " +:+ cxr_Name r +:+ ")."))))).

(** ** Catalog, plans and subscription ([cloud_billing.go]) *)

Definition cloudCatalogCmd : command :=
  for_tenant cloud_GetCatalog (λ entries,
    json_or (P_Catalog entries)
      (out (OutTable ["NAME"; "DISPLAY NAME"; "CATEGORY"; "TIERS"; "REGIONS"]
        ((λ e, [cce_Name e; cce_DisplayName e; derefStr (cce_Category e);
                Join "," (cpt_Name <$> cce_Tiers e); Join "," (cce_Regions e)]) <$> entries)))).

(** ["%.2f"] of a number of cents over 100, exact below 2^50 cents. *)
Definition two_digits (n : Z) : string := (if n <? 10 then "0" else "") +:+ itoa n.
Definition price (cents : Z) : string :=
  (if cents <? 0 then "-" else "") +:+ itoa (Z.abs cents / 100) +:+ "." +:+ two_digits (Z.abs cents mod 100).
Definition cloudPlansCmd : command :=
  let* c := newCloudClient in
  match c with
  | inr e => Ret (Some e)
  | inl c =>
      let* plans := lift (cloud_ListPlans c) in
      match plans with
      | inr e => Ret (Some (cloudErr e))
      | inl plans =>
          json_or (P_Plans plans)
            (out (OutTable ["ID"; "NAME"; "MAX SERVERS"; "MAX STORAGE (GB)"; "ISOLATION"; "PRICE/MONTH"]
              ((λ p, [cpl_Id p; cpl_DisplayName p; itoa (cpl_MaxServers p); itoa (cpl_MaxStorageGb p);
                      cpl_Isolation p; default "" (price <$> cpl_MonthlyPriceCents p)]) <$> plans)))
      end
  end.

Definition cloudSubscriptionCmd : command :=
  for_tenant cloud_GetSubscription (λ sub,
    json_or (P_Subscription sub)
      (with_pointer sub (λ s,
        out (OutTable ["TENANT"; "PLAN"; "STATUS"; "PERIOD END"; "GRACE UNTIL"]
          [[csb_TenantId s; csb_PlanId s; csb_Status s; derefTime (csb_CurrentPeriodEnd s);
            derefTime (csb_GraceUntil s)]])))).

(** ** API keys ([cloud_apikeys.go]) *)

Definition cloudAPIKeysListCmd : command :=
  for_tenant cloud_ListAPIKeys (λ keys,
    json_or (P_APIKeys keys)
      (out (OutTable ["ID"; "NAME"; "PREFIX"; "SCOPES"; "EXPIRES"; "CREATED"]
        ((λ k, [cky_Id k; cky_Name k; cky_Prefix k; Join "," (cky_Scopes k); derefTime (cky_ExpiresAt k);
                FormatDate (cky_CreatedAt k)]) <$> keys)))).

Definition cloudAPIKeyCreateCmd (name : string) (scopes : list string) : command :=
  for_tenant (λ c tenant, cloud_CreateAPIKey c tenant
      {| cqk_ExpiresInDays := None; cqk_Name := name;
         cqk_Scopes := if decide (scopes = []) then None else Some scopes |}) (λ key,
    json_or (P_APIKeyCreated key)
      (with_pointer key (λ k,
        out (OutLine ("API key " +:+ fmt_q (ckc_Name k)
          +:+ " created. Store this key now — it is shown only once:" +:+ newline +:+ ckc_Key k))))).

Definition cloudAPIKeysDeleteCmd (id : string) : command :=
  for_tenant (λ c tenant, cloud_DeleteAPIKey c tenant id) (λ _,
    out (OutLine ("API key " +:+ id +:+ " deleted."))).

(** ** The control plane ([main.go]) *)

Definition sdk_message (e : sdk_error) : cli_error :=
  match e with
  | APIError status msg => "controlplane: status " +:+ itoa status +:+ ": " +:+ msg
  | OtherError e => ge_msg e
  end.

(** One call of the SDK, shown as JSON. *)
Definition on_control_plane {A} (op : Client → Http (A + sdk_error)) (show : A → printed) : command :=
  match NewClient valid (opt_server opts) (opt_api_key opts) with
  | inr e => Ret (Some (ge_msg e))
  | inl c =>
      let* r := lift (op c) in
      match r with inr e => Ret (Some (sdk_message e)) | inl a => printJSON (show a) end
  end.

Definition serverListCmd : command := on_control_plane SdkClient.ListGameServers P_GameServers.
Definition serverGetCmd (name : string) : command :=
  on_control_plane (λ c, SdkClient.GetGameServer c (opt_namespace opts) name) P_GameServer.
Definition fleetListCmd : command := on_control_plane SdkClient.ListGameServerFleets P_Fleets.
Definition fleetGetCmd (name : string) : command :=
  on_control_plane (λ c, SdkClient.GetGameServerFleet c (opt_namespace opts) name) P_Fleet.
Definition profileListCmd : command := on_control_plane SdkClient.ListProfiles P_Profiles.
Definition profileGetCmd (name : string) : command :=
  on_control_plane (λ c, SdkClient.GetProfile c name) P_Profile.
Definition snapshotListCmd (server : string) : command :=
  on_control_plane (λ c, SdkClient.ListSnapshots c (opt_namespace opts) server) P_Snapshots.
Definition snapshotCreateCmd (server : string) : command :=
  on_control_plane (λ c, SdkClient.CreateSnapshot c (opt_namespace opts) server) P_Snapshot.

(** [key=value] arguments; one without "=" is ignored. *)
Definition action_params (args : list string) : gmap string string :=
  foldl (λ m arg, match Cut arg "=" with Some (k, v) => <[k := v]> m | None => m end) ∅ args.
Definition serverActionCmd (name action : string) (args : list string) : command :=
  on_control_plane (λ c, SdkClient.ExecuteAction c (opt_namespace opts) name action (Some (action_params args)))
    P_ExecutionRef.
End Ctl.
