(* ===== verification/CtlSpec.v ===== *)
(** * CtlSpec: what the command line tool guarantees

    A login stores a credential only after the cloud accepted one; a command on a tenant
    asks for the caller's tenants, then sends at most one request, below the tenant that
    was named; and the stored configuration reads back as it was written. *)

From Stdlib Require Import Ascii String.
From stdpp Require Import gmap.
From S2P Require Import Prelude GoStrings Prog Kube Auth Json GenTypes GenClient SdkClient ApiExamples CloudTypes CloudClient Ctl.
#[local] Open Scope Z_scope.

(** ** One call *)

Section OneCall.
Context `{Htext : !JsonText, Hurl : !Url}.

(** Every operation of the cloud client: build, send, parse, conclude. *)
Definition one_call {A B} (c : Client) (req : HttpReq + gerr) (parse : HttpResp → Parsed A + gerr)
  (f : Parsed A + gerr → B) : Http B :=
  bind (with_response (do_request c req) parse) (λ r, Ret (f r)).

Lemma lift_one_call {A B} c req (parse : HttpResp → Parsed A + gerr) (f : Parsed A + gerr → B) :
  lift (one_call c req parse f) =
  match req with
  | inr e => Ret (f (inr e))
  | inl q => Call (CHttp (applyEditors c q)) (λ rsp,
      Ret (f (match rsp with inr e => inr e | inl rsp => parse rsp end)))
  end.
Proof. by destruct req. Qed.

(** A call below a tenant. *)
Definition tenant_op {A} (op : Client → string → Http (A + sdk_error)) : Prop :=
  ∃ method segs body B (parse : HttpResp → Parsed B + gerr) code f, ∀ c id,
    op c id = one_call c (new_request method (c_Server c)
      (Lit "api" :: Lit "v1" :: Lit "tenants" :: Param "tenantID" id :: segs) body) parse (expecting code f).
End OneCall.

Section CtlSpec.
Context `{Htext : !JsonText, Htime : !RFC3339, Hnano : !RFC3339Nano, Hurl : !Url}.
Context `{Hindent : !IndentJSON, Hdate : !DateFormat}.
Variable Getenv : string → string.
Variable valid : string → option gerr.
Variable cloudConfigPath : string.
Variable opts : flags.

(** ** Requests of the tool *)

(** The first of several settings that is given. *)
Definition first_given (settings : list string) (otherwise : string) : string :=
  default otherwise (head (filter (λ s, s ≠ "") settings)).

(** Where the cloud is, and the credential to use there: flags come before the
    environment, and both before what is stored, a key before a token. *)
Definition cloud_url (cfg : cloudConfig) : string :=
  first_given [opt_url opts; Getenv "MINATO_CLOUD_URL"; cfg_URL cfg] "http://localhost:8080".
Definition cloud_token (cfg : cloudConfig) : string :=
  first_given [Getenv "MINATO_CLOUD_API_KEY"; cfg_APIKey cfg; cfg_SessionToken cfg] "".

(** A request of this method, path and body, below the URL, with the credential. *)
Definition cloud_request (cfg : cloudConfig) (method : string) (segs : list template)
  (body : option json) (q : HttpReq) : Prop :=
  ∃ q0, new_request method (c_Server (gen_NewClient (TrimSuffix (cloud_url cfg) "/") [])) segs body = inl q0
        ∧ hq_Method q = hq_Method q0 ∧ hq_URL q = hq_URL q0 ∧ hq_Body q = hq_Body q0
        ∧ hq_Header q !! "Authorization"
          = if cloud_token cfg =s "" then None else Some ("Bearer " +:+ cloud_token cfg).

Lemma resolveCloudURL_spec cfg : resolveCloudURL Getenv opts cfg = cloud_url cfg.
Proof.
  unfold resolveCloudURL, cloud_url, first_given.
  destruct (String.eqb_spec (opt_url opts) ""), (String.eqb_spec (Getenv "MINATO_CLOUD_URL") ""),
    (String.eqb_spec (cfg_URL cfg) ""); cbn [negb];
    repeat first [rewrite filter_cons_True by done|rewrite filter_cons_False by tauto]; done.
Qed.
Lemma resolveCloudToken_spec cfg : (resolveCloudToken Getenv cfg).1 = cloud_token cfg.
Proof.
  unfold resolveCloudToken, cloud_token, first_given.
  destruct (String.eqb_spec (Getenv "MINATO_CLOUD_API_KEY") ""), (String.eqb_spec (cfg_APIKey cfg) ""),
    (String.eqb_spec (cfg_SessionToken cfg) ""); cbn [negb];
    repeat first [rewrite filter_cons_True by done|rewrite filter_cons_False by tauto]; done.
Qed.
Definition me_tenants : list template := [Lit "api"; Lit "v1"; Lit "me"; Lit "tenants"].

(** What the answer to a request for the caller's tenants says. *)
Definition tenants_answer (rsp : HttpResp) : list cloud_Tenant + sdk_error :=
  expecting 200 or_empty (cloud_ParseListMyTenantsResponse rsp).

Lemma tenants_answer_ok rsp l : tenants_answer rsp = inl l → hs_Status rsp = 200.
Proof.
  unfold tenants_answer, cloud_ParseListMyTenantsResponse, parse_response.
  destruct (hs_Body rsp); [|done]. destruct (Z.eqb_spec (hs_Status rsp) 200) as [?|Hn]; [done|].
  rewrite andb_false_r. cbn [existsb]. rewrite andb_false_r. cbn [expecting pr_StatusCode].
  by rewrite (proj2 (Z.eqb_neq _ _)).
Qed.

Definition client_of (url token : string) : Client :=
  gen_NewClient (TrimSuffix url "/") [accept_and_token token].

Lemma ListMyTenants_one_call c :
  cloud_ListMyTenants c
  = one_call c (cloud_NewListMyTenantsRequest (c_Server c)) cloud_ParseListMyTenantsResponse
      (expecting 200 or_empty).
Proof. done. Qed.

(** Neither a request nor a change of the stored configuration. *)
Definition quiet (X : Type) (e : cliop X) : Prop :=
  match e with CHttp _ | CWriteConfig _ => False | _ => True end.
Definition quiet_event (v : event cliop) : Prop := ev_sat quiet v.

Lemma quiet_http t q r : Forall quiet_event t → Ev (CHttp q) r ∉ t.
Proof. intros H Hin. rewrite Forall_forall in H. by apply H in Hin. Qed.
Lemma quiet_write t data r : Forall quiet_event t → Ev (CWriteConfig data) r ∉ t.
Proof. intros H Hin. rewrite Forall_forall in H. by apply H in Hin. Qed.

Lemma loadCloudConfig_runs t o :
  runs (loadCloudConfig cloudConfigPath) t o → ∃ rd, t = [Ev CReadConfig rd]
    ∧ o = Done (parse_config cloudConfigPath rd).
Proof. intros (rd & t' & -> & -> & ->). by exists rd. Qed.

Definition client_for (cfg : cloudConfig) : Client :=
  client_of (resolveCloudURL Getenv opts cfg) (resolveCloudToken Getenv cfg).1.

Lemma newCloudClient_runs t o :
  runs (newCloudClient Getenv valid cloudConfigPath opts) t o → ∃ rd x, t = [Ev CReadConfig rd] ∧ o = Done x
    ∧ ∀ c, x = inl c → ∃ cfg, parse_config cloudConfigPath rd = inl cfg ∧ c = client_for cfg.
Proof.
  unfold newCloudClient. intros H. apply runs_bind in H as [(m & H & ->)|(a & t1 & t2 & -> & H & Hr)].
  { by apply loadCloudConfig_runs in H as (rd & _ & [=]). }
  apply loadCloudConfig_runs in H as (rd & -> & [= ->]). destruct Hr as [-> ->].
  eexists rd, _. split; [done|]. split; [done|]. intros c.
  destruct (parse_config cloudConfigPath rd) as [cfg|e]; [|done]. unfold cloud_NewClient.
  destruct (valid _); [done|]. intros [= <-]. by exists cfg.
Qed.

(** A request of a configuration's client. *)
Lemma request_of_client cfg method segs body q0 :
  new_request method (c_Server (client_for cfg)) segs body = inl q0 →
  cloud_request cfg method segs body (applyEditors (client_for cfg) q0).
Proof.
  unfold client_for, client_of. cbn [gen_NewClient c_Server]. rewrite resolveCloudURL_spec.
  intros H. exists q0. split; [exact H|].
  unfold applyEditors, gen_NewClient, c_RequestEditors. cbn [foldl accept_and_token hq_Method hq_URL hq_Body hq_Header].
  rewrite resolveCloudToken_spec. split_and!; [done..|].
  assert (hq_Header q0 !! "Authorization" = None) as Hn.
  { revert H. unfold new_request. destruct (operation_path segs) as [p|]; [|done].
    destruct (resolve_url _ _); [|done]. intros [= <-]. by destruct body. }
  destruct (cloud_token cfg =s ""); cbn [negb].
  - by rewrite lookup_insert_ne.
  - by rewrite lookup_insert_eq.
Qed.

(** The tenant a reference names: by its id, its slug, or its name whatever the
    case; the first of these, or the only tenant when there is no reference. *)
Definition named_by (ref : string) (t : cloud_Tenant) : Prop :=
  ct_Id t = ref ∨ ct_Slug t = ref ∨ EqualFold (ct_Name t) ref = true.
Definition the_tenant (ref : string) (l : list cloud_Tenant) (t : cloud_Tenant) : Prop :=
  (ref = "" ∧ l = [t])
  ∨ (ref ≠ "" ∧ ∃ pre post, l = pre ++ t :: post ∧ named_by ref t ∧ Forall (λ x, ¬ named_by ref x) pre).

Lemma tenant_matches_spec ref t : tenant_matches ref t = true ↔ named_by ref t.
Proof. unfold tenant_matches, named_by. rewrite !orb_true_iff, !String.eqb_eq. tauto. Qed.

Lemma choose_tenant_spec ref l t : choose_tenant ref l = inl t ↔ the_tenant ref l t.
Proof.
  unfold choose_tenant, the_tenant. destruct (String.eqb_spec ref "") as [->|Hne].
  - destruct l as [|x [|y l]]; naive_solver.
  - transitivity (find_first (tenant_matches ref) l = Some t); [by destruct (find_first _ _); naive_solver|].
    rewrite find_first_split. setoid_rewrite tenant_matches_spec.
    assert (∀ pre, Forall (λ x, tenant_matches ref x = false) pre ↔ Forall (λ x, ¬ named_by ref x) pre) as Hf.
    { intros pre. apply Forall_iff. intros x. by rewrite <-tenant_matches_spec, not_true_iff_false. }
    setoid_rewrite Hf. naive_solver.
Qed.

Lemma ResolveTenant_runs cfg ref t o :
  runs (lift (ResolveTenant (client_for cfg) ref)) t o →
  (t = [] ∧ ∃ e, o = Done (inr e))
  ∨ ∃ q ans x, cloud_request cfg "GET" me_tenants None q ∧ t = [Ev (CHttp q) ans] ∧ o = Done x
    ∧ ∀ tn, x = inl tn → ∃ rsp tenants,
        ans = inl rsp ∧ tenants_answer rsp = inl tenants ∧ the_tenant ref tenants tn.
Proof.
  unfold ResolveTenant, cloud_ListMyTenants, cloud_ListMyTenantsWithResponse, cloud_NewListMyTenantsRequest.
  destruct (new_request _ _ _ _) as [q|e] eqn:Eq; [|intros [-> ->]; left; eauto].
  intros (ans & t' & -> & -> & ->). right. eexists _, ans, _.
  split; [by apply request_of_client|]. split; [done|]. split; [done|]. intros tn Ht.
  destruct ans as [rsp|e]; [|done]. exists rsp.
  fold (tenants_answer rsp) in Ht. destruct (tenants_answer rsp) as [tenants|e]; [|done].
  exists tenants. split; [done|]. split; [done|].
  apply choose_tenant_spec. destruct (choose_tenant ref tenants); simplify_eq. done.
Qed.

(** What a command on a tenant does, call by call. *)
Lemma for_tenant_runs {A} op (show : A → Cli (option string)) t o :
  tenant_op op → (∀ a, always quiet (show a)) →
  runs (for_tenant Getenv valid cloudConfigPath opts op show) t o →
  ∃ rd t', t = Ev CReadConfig rd :: t' ∧
  (t' = [] ∨ ∃ cfg q1 ans t'', parse_config cloudConfigPath rd = inl cfg
   ∧ cloud_request cfg "GET" me_tenants None q1 ∧ t' = Ev (CHttp q1) ans :: t''
   ∧ (t'' = [] ∨ ∃ rsp tenants tn method segs body q2 ans2 outs,
      ans = inl rsp ∧ tenants_answer rsp = inl tenants ∧ the_tenant (opt_tenant opts) tenants tn
      ∧ cloud_request cfg method
          (Lit "api" :: Lit "v1" :: Lit "tenants" :: Param "tenantID" (ct_Id tn) :: segs) body q2
      ∧ t'' = Ev (CHttp q2) ans2 :: outs ∧ Forall quiet_event outs)).
Proof.
  intros (method & segs & body & B & parse & code & f & Hop) Hshow H.
  apply runs_bind in H as [(m & H & ->)|(r & t1 & t2 & -> & H & Hr)];
    apply runs_bind in H as [(m' & H & ?)|(x & t0 & t1' & -> & H & Hx)]; simplify_eq;
    apply newCloudClient_runs in H as (rd & y & -> & [=] & Hy); subst y.
  - exists rd, t1'. split; [done|]. destruct x as [c|e]; [|by destruct Hx].
    destruct (Hy c eq_refl) as (cfg & Hcfg & ->).
    apply runs_bind in Hx as [(m' & H & ?)|(x & t2 & t3 & -> & H & Hx)]; [|by destruct Hx].
    apply ResolveTenant_runs in H as [[-> (e & ?)]|(q & ans & z & ? & -> & ? & _)]; done.
  - eexists rd, _. split; [done|]. destruct x as [c|e].
    2:{ left. destruct Hx as [-> [= ->]]. by destruct Hr as [-> _]. }
    destruct (Hy c eq_refl) as (cfg & Hcfg & ->).
    apply runs_bind in Hx as [(m' & H & ?)|(x & t3 & t4 & -> & H & Hx)]; [done|].
    destruct Hx as [-> [= ->]].
    apply ResolveTenant_runs in H as [[-> (e & [= ->])]|(q1 & ans & z & Hq1 & -> & [= <-] & Hz)].
    { left. by destruct Hr as [-> _]. }
    right. exists cfg, q1, ans, t2. split; [done|]. split; [done|]. split; [done|].
    destruct x as [tn|e]; [|left; by destruct Hr as [-> _]].
    destruct (Hz tn eq_refl) as (rsp & tenants & -> & Htn & Hc).
    rewrite Hop, lift_one_call in Hr.
    destruct (new_request _ _ _ _) as [q0|e] eqn:Eq.
    2:{ left. by destruct Hr as [-> _]. }
    destruct Hr as (ans2 & outs & -> & Hr). right.
    eexists rsp, tenants, tn, method, segs, body, _, ans2, outs.
    split_and!; try done; [by apply request_of_client|].
    destruct (expecting _ _ _); [|by destruct Hr as [-> _]].
    eapply always_runs; [apply Hshow|done].
Qed.

(** *** The commands on a tenant *)

Abbreviation on f := (f Getenv valid cloudConfigPath opts).
Definition tenant_commands (id action name : string) (params : gomap string) (create : create_flags)
  (scopes : list string) : list (Cli (option string)) := [
  on cloudServersListCmd; on cloudServersGetCmd id; on cloudServerCreateCmd create;
  on cloudServersDeleteCmd id; on cloudSnapshotsListCmd id; on cloudSnapshotsCreateCmd id;
  on cloudActionsListCmd id; on cloudActionsRunCmd id action params; on cloudCatalogCmd;
  on cloudSubscriptionCmd; on cloudAPIKeysListCmd; on cloudAPIKeyCreateCmd name scopes;
  on cloudAPIKeysDeleteCmd id].

Lemma out_quiet v : always quiet (out v).
Proof. done. Qed.
Lemma json_or_quiet v p : always quiet p → always quiet (json_or opts v p).
Proof. intros H. unfold json_or. by destruct (opt_json opts). Qed.
Lemma with_pointer_quiet {A} (p : option A) f : (∀ a, always quiet (f a)) → always quiet (with_pointer p f).
Proof. by destruct p; cbn. Qed.

Lemma tenant_commands_runs id action name params create scopes cmd t o :
  cmd ∈ tenant_commands id action name params create scopes → runs cmd t o →
  ∃ A (op : Client → string → Http (A + sdk_error)) show,
    tenant_op op ∧ (∀ a, always quiet (show a)) ∧ runs (for_tenant Getenv valid cloudConfigPath opts op show) t o.
Proof.
  intros Hin Hr. unfold tenant_commands in Hin.
  repeat (apply elem_of_cons in Hin as [->|Hin];
    [eexists _, _, _; split_and!; [|..|exact Hr];
      [do 7 eexists; intros c tn; reflexivity
      |intros a; repeat first [apply json_or_quiet|apply with_pointer_quiet; intros ?|apply out_quiet]]|]).
  by apply elem_of_nil in Hin.
Qed.

(** The request of an event. *)
Definition http_of (v : event cliop) : option (HttpReq * (HttpResp + gerr)) :=
  match v with
  | @Ev _ X e x => match e in cliop X return X → option (HttpReq * (HttpResp + gerr)) with
                   | CHttp q => λ x, Some (q, x)
                   | _ => λ _, None
                   end x
  end.

(** Requests are at the places of a trace where events have one. *)
Lemma cons_request v t pre q r post :
  v :: t = pre ++ Ev (CHttp q) r :: post →
  (pre = [] ∧ http_of v = Some (q, r) ∧ t = post) ∨ ∃ pre', pre = v :: pre' ∧ t = pre' ++ Ev (CHttp q) r :: post.
Proof. destruct pre as [|w pre]; cbn [app]; intros [= -> ->]; [left|right]; eauto. Qed.
Lemma quiet_request t pre q r post : Forall quiet_event t → t = pre ++ Ev (CHttp q) r :: post → False.
Proof. intros H ->. eapply (quiet_http _ q r H). apply elem_of_app. right. left. Qed.

Lemma write_not_read rd data r t : Ev (CWriteConfig data) r ∈ Ev CReadConfig rd :: t → Ev (CWriteConfig data) r ∈ t.
Proof.
  intros [H|?]%elem_of_cons; [|done].
  by apply (f_equal (λ v : event cliop, match v with Ev CReadConfig _ => true | _ => false end)) in H.
Qed.
Lemma write_not_http q a data r t : Ev (CWriteConfig data) r ∈ Ev (CHttp q) a :: t → Ev (CWriteConfig data) r ∈ t.
Proof. intros [H|?]%elem_of_cons; [|done]. by apply (f_equal http_of) in H. Qed.

(** A trace stays with the tenant. It changes nothing stored. With the configuration
    it read, it sends one request for the caller's tenants, and at most one more,
    below the path of [the_tenant] that [--tenant] names among those the cloud
    answered; both carry the credential of the configuration or of the
    environment. *)
Definition tenant_scoped (t : list (event cliop)) : Prop :=
  (∀ data r, Ev (CWriteConfig data) r ∉ t)
  ∧ ∀ pre q r post, t = pre ++ Ev (CHttp q) r :: post →
    ∃ rd cfg, parse_config cloudConfigPath rd = inl cfg
    ∧ ((pre = [Ev CReadConfig rd] ∧ cloud_request cfg "GET" me_tenants None q)
       ∨ ∃ q1 rsp tenants tn method segs body,
           pre = [Ev CReadConfig rd; Ev (CHttp q1) (inl rsp)] ∧ tenants_answer rsp = inl tenants
           ∧ the_tenant (opt_tenant opts) tenants tn
           ∧ cloud_request cfg method
               (Lit "api" :: Lit "v1" :: Lit "tenants" :: Param "tenantID" (ct_Id tn) :: segs) body q).

(** A command on a tenant stays with it. *)
Lemma tenant_commands_scoped id action name params create scopes cmd t o :
  cmd ∈ tenant_commands id action name params create scopes → runs cmd t o → tenant_scoped t.
Proof.
  intros Hin (A & op & show & Hop & Hshow & Hr)%(tenant_commands_runs _ _ _ _ _ _ _ _ _ Hin).
  apply for_tenant_runs in Hr as (rd & t' & -> & Ht); [|done..].
  destruct Ht as [->|(cfg & q1 & ans & t'' & Hcfg & Hq1 & -> & Ht)].
  { split; [by intros data r H%write_not_read%elem_of_nil|].
    intros pre q r post [(_ & [=] & _)|(pre' & _ & H)]%cons_request. by destruct pre'. }
  split.
  - intros data r H%write_not_read%write_not_http.
    destruct Ht as [->|(rsp & tenants & tn & m & segs & body & q2 & a2 & outs & _ & _ & _ & _ & -> & Ho)].
    + by apply elem_of_nil in H.
    + apply write_not_http in H. by eapply quiet_write.
  - intros pre q r post [(_ & [=] & _)|(pre' & -> & H)]%cons_request. exists rd, cfg. split; [done|].
    apply cons_request in H as [(-> & [= <- <-] & _)|(pre2 & -> & H)]; [by left|right].
    destruct Ht as [->|(rsp & tenants & tn & m & segs & body & q2 & a2 & outs & -> & Htn & Hc & Hq2 & -> & Ho)].
    { by destruct pre2. }
    apply cons_request in H as [(-> & [= <- <-] & _)|(pre3 & _ & H)]; [by eauto 12|].
    exfalso. by eapply quiet_request.
Qed.

(** ** The stored configuration *)

Lemma dec_enc_cloudConfig cfg : dec_cloudConfig (enc_cloudConfig cfg) zero_cloudConfig = Some cfg.
Proof.
  destruct cfg as [u k s]. unfold enc_cloudConfig, m_str. cbn [cfg_URL cfg_APIKey cfg_SessionToken].
  destruct (String.eqb_spec u "") as [->|], (String.eqb_spec k "") as [->|], (String.eqb_spec s "") as [->|];
    reflexivity.
Qed.

(** What is stored is read back. *)
Lemma config_round_trip cfg : json_ok (enc_cloudConfig cfg) = true →
  parse_config cloudConfigPath (FileText (print_indent (enc_cloudConfig cfg))) = inl cfg.
Proof.
  intros Hok. unfold parse_config, unmarshal. rewrite parse_indent by done. by rewrite dec_enc_cloudConfig.
Qed.

Lemma saveCloudConfig_runs cfg t o : runs (saveCloudConfig cfg) t o →
  (∃ e, t = [Ev CMkdirConfig (Some e)] ∧ o = Done (Some e))
  ∨ ∃ r, t = [Ev CMkdirConfig None; Ev (CWriteConfig (print_indent (enc_cloudConfig cfg))) r] ∧ o = Done r.
Proof.
  intros (e & t' & -> & H). destruct e as [e|].
  - destruct H as [-> ->]. eauto.
  - destruct H as (r & t2 & -> & -> & ->). eauto.
Qed.

Lemma resolveCloudURL_stored cfg k s :
  let url := resolveCloudURL Getenv opts cfg in
  resolveCloudURL Getenv opts {| cfg_URL := url; cfg_APIKey := k; cfg_SessionToken := s |} = url.
Proof.
  unfold resolveCloudURL. cbn [cfg_URL].
  destruct (String.eqb_spec (opt_url opts) ""), (String.eqb_spec (Getenv "MINATO_CLOUD_URL") ""); cbn [negb];
    try done.
  destruct (String.eqb_spec (cfg_URL cfg) ""); cbn [negb]; [done|]. by rewrite (proj2 (String.eqb_neq _ _)).
Qed.

(** ** Answers without JSON *)

(** A 201 that is not announced as JSON leaves the pointer nil, and the readable output
    of [servers create] dereferences it. *)
Lemma create_without_json_panics rsp body (readable : cloud_Server → Cli (option string)) :
  hs_Status rsp = 201 → hs_Body rsp = inl body → Contains (hs_ContentType rsp) "json" = false →
  expecting 201 id (cloud_ParseCreateServerResponse rsp) = inl None
  ∧ with_pointer None readable = Panic nil_dereference.
Proof.
  intros Hs Hb Hc. split; [|done].
  unfold cloud_ParseCreateServerResponse, parse_response. rewrite Hb, Hc. cbn [andb expecting pr_StatusCode pr_JSON].
  by rewrite Hs.
Qed.

(** ** Logging in *)

(** The credential a login with this flag and this input is to store. *)
Definition given_credential (flag : string) (t : list (event cliop)) (cfg : cloudConfig) : Prop :=
  (flag ≠ "" ∧ HasPrefix flag "mk_" = true ∧ cfg_APIKey cfg = flag ∧ cfg_SessionToken cfg = "")
  ∨ (flag = "" ∧ cfg_APIKey cfg = "" ∧ cfg_SessionToken cfg ≠ ""
     ∧ ∃ line, Ev CReadLine (inl line) ∈ t ∧ cfg_SessionToken cfg = TrimSpace line).
Definition credential (cfg : cloudConfig) : string :=
  if cfg_APIKey cfg =s "" then cfg_SessionToken cfg else cfg_APIKey cfg.

Lemma login_credential_runs flag cfg t o : runs (login_credential flag cfg) t o →
  Forall quiet_event t ∧ ∃ x, o = Done x
  ∧ ∀ cfg', x = inl cfg' → cfg_URL cfg' = cfg_URL cfg ∧ given_credential flag t cfg'.
Proof.
  unfold login_credential. destruct (String.eqb_spec flag "") as [Hf|Hf]; cbn [negb].
  - intros (x1 & t1 & -> & x2 & t2 & -> & -> & ->). split; [by repeat constructor|]. eexists. split; [done|].
    intros cfg'. destruct x2 as [line|e]; [|done]. destruct (String.eqb_spec (TrimSpace line) "") as [|Hne]; [done|].
    intros [= <-]. split; [done|]. right. split_and!; [done..|]. exists line. split; [set_solver|done].
  - intros [-> ->]. split; [done|]. eexists. split; [done|]. intros cfg'.
    destruct (HasPrefix flag "mk_") eqn:Hp; [|done]. intros [= <-]. split; [done|]. by left.
Qed.

Lemma list_tenants_runs cfg t o :
  runs (list_tenants valid (resolveCloudURL Getenv opts cfg) (resolveCloudToken Getenv cfg).1) t o →
  (t = [] ∧ ∃ e, o = Done (inr e))
  ∨ ∃ q ans x, cloud_request cfg "GET" me_tenants None q ∧ t = [Ev (CHttp q) ans] ∧ o = Done x
    ∧ ∀ l, x = inl l → ∃ rsp, ans = inl rsp ∧ tenants_answer rsp = inl l.
Proof.
  unfold list_tenants, cloud_NewClient. destruct (valid _); [intros [-> ->]; left; eauto|].
  change (gen_NewClient _ _) with (client_for cfg). rewrite ListMyTenants_one_call, lift_one_call.
  unfold cloud_NewListMyTenantsRequest. destruct (new_request _ _ _ _) as [q|e] eqn:Eq.
  2:{ intros [-> ->]. left. eauto. }
  intros (ans & t' & -> & -> & ->). right. eexists _, ans, _. split; [by apply request_of_client|].
  split; [done|]. split; [done|]. intros l. destruct ans as [rsp|e]; [|done].
  fold (tenants_answer rsp). destruct (tenants_answer rsp) as [l'|] eqn:E; [|done].
  intros [= <-]. by exists rsp.
Qed.

Definition no_write (v : event cliop) : Prop :=
  match v with @Ev _ X e _ => match e with CWriteConfig _ => False | _ => True end end.
Lemma quiet_no_write v : quiet_event v → no_write v.
Proof. by destruct v as [X [] x]. Qed.

Lemma login_with_runs cfg t o :
  runs (login_with Getenv valid cloudConfigPath (resolveCloudURL Getenv opts cfg) cfg) t o →
  (Forall no_write t ∧ ∃ e, o = Done (Some e))
  ∨ ∃ q rsp tenants r outs,
      t = [Ev (CHttp q) (inl rsp); Ev CMkdirConfig None;
           Ev (CWriteConfig (print_indent (enc_cloudConfig cfg))) r] ++ outs
      ∧ Forall quiet_event outs ∧ (o = Done None ↔ r = None)
      ∧ cloud_request cfg "GET" me_tenants None q ∧ tenants_answer rsp = inl tenants.
Proof.
  unfold login_with. rewrite (surjective_pairing (resolveCloudToken _ _)). intros H.
  apply runs_bind in H as [(m & H & ->)|(x & t1 & t2 & -> & H & Hr)];
    apply list_tenants_runs in H as [(-> & e & [=])|(q & ans & y & Hq & -> & [=] & Hy)]; subst.
  { left. destruct Hr as [-> ->]. split; [constructor|eauto]. }
  destruct y as [l|e].
  2:{ left. destruct Hr as [-> ->]. split; [by repeat constructor|eauto]. }
  destruct (Hy l eq_refl) as (rsp & -> & Hl).
  apply runs_bind in Hr as [(m & H & ->)|(e & t2' & t3 & -> & H & Hr)];
    apply saveCloudConfig_runs in H as [(e' & -> & [=])|(r & -> & [=])]; subst.
  { left. destruct Hr as [-> ->]. split; [by repeat constructor|eauto]. }
  right. destruct r as [e|].
  - destruct Hr as [-> ->]. by exists q, rsp, l, (Some e), [].
  - destruct Hr as ([] & t4 & -> & [] & t5 & -> & -> & ->). eexists q, rsp, l, None, _.
    split; [done|]. split; [by repeat constructor|]. done.
Qed.

(** The one change of the stored configuration in a trace. *)
Lemma unique_write pre1 data1 r1 outs pre data r post :
  Forall no_write pre1 → Forall quiet_event outs →
  pre1 ++ Ev (CWriteConfig data1) r1 :: outs = pre ++ Ev (CWriteConfig data) r :: post →
  pre = pre1 ∧ data = data1.
Proof.
  intros Hp Ho. revert pre. induction Hp as [|v pre1 Hv Hp IH]; intros [|w pre]; cbn [app].
  - intros [= -> _]. done.
  - intros [= _ H]. exfalso. eapply (quiet_write outs data r Ho). rewrite H. apply elem_of_app. right. left.
  - intros [= H _]. subst v. done.
  - intros [= -> H%IH]. destruct H as [-> ->]. done.
Qed.

Lemma login_runs flag t o : runs (cloudLoginCmd Getenv valid cloudConfigPath opts flag) t o →
  (Forall no_write t ∧ ∃ e, o = Done (Some e))
  ∨ ∃ pre cfg q rsp tenants r outs,
      t = pre ++ Ev (CWriteConfig (print_indent (enc_cloudConfig cfg))) r :: outs
      ∧ Forall no_write pre ∧ Forall quiet_event outs ∧ (o = Done None ↔ r = None)
      ∧ given_credential flag pre cfg ∧ cloud_request cfg "GET" me_tenants None q
      ∧ Ev (CHttp q) (inl rsp) ∈ pre ∧ tenants_answer rsp = inl tenants
      ∧ ∃ rd cfg0, Ev CReadConfig rd ∈ pre ∧ parse_config cloudConfigPath rd = inl cfg0
          ∧ cfg_URL cfg = cloud_url cfg0 ∧ cfg_URL cfg = cloud_url cfg.
Proof.
  unfold cloudLoginCmd. intros H.
  apply runs_bind in H as [(m & H & ->)|(a & t1 & t2 & -> & H & Hr)];
    apply loadCloudConfig_runs in H as (rd & -> & [=]); subst a.
  destruct (parse_config cloudConfigPath rd) as [cfg0|e] eqn:Hrd; cbn [app].
  2:{ left. destruct Hr as [-> ->]. split; [by repeat constructor|eauto]. }
  apply runs_bind in Hr as [(m & H & ->)|(a & t3 & t4 & -> & H & Hr)];
    apply login_credential_runs in H as (Hquiet & x & [=] & Hx); subst x.
  assert (Forall no_write (Ev CReadConfig rd :: t3)) as Hpre.
  { constructor; [done|]. eapply Forall_impl; [exact Hquiet|exact quiet_no_write]. }
  destruct a as [cfg|e].
  2:{ left. destruct Hr as [-> ->]. rewrite app_nil_r. eauto. }
  destruct (Hx cfg eq_refl) as [Hu Hg]. cbn [cfg_URL] in Hu.
  assert (resolveCloudURL Getenv opts cfg0 = resolveCloudURL Getenv opts cfg) as E.
  { destruct cfg as [u k s]. cbn [cfg_URL] in Hu. subst u. symmetry. apply resolveCloudURL_stored. }
  rewrite E in Hr, Hu.
  apply login_with_runs in Hr as [[Ht (e & ->)]|(q & rsp & l & r & outs & -> & Ho & Hr & Hq & Hl)].
  { left. split; [|eauto]. change (Forall no_write ((Ev CReadConfig rd :: t3) ++ t4)). by apply Forall_app. }
  right. exists (Ev CReadConfig rd :: t3 ++ [Ev (CHttp q) (inl rsp); Ev CMkdirConfig None]), cfg, q, rsp, l, r, outs.
  split_and!; try done.
  - cbn [app]. by rewrite <-app_assoc.
  - change (Forall no_write ((Ev CReadConfig rd :: t3) ++ [Ev (CHttp q) (inl rsp); Ev CMkdirConfig None])).
    apply Forall_app. split; [done|]. by repeat constructor.
  - destruct Hg as [?|(? & ? & ? & line & ? & ?)]; [by left|]. right. split_and!; try done. exists line.
    split; [|done]. set_solver.
  - set_solver.
  - exists rd, cfg0. rewrite <-!resolveCloudURL_spec, E. split_and!; [set_solver|done..].
Qed.

(** What a login sends as its credential: with a key in the environment that
    key, whatever it then stores. *)
Lemma given_credential_token flag t cfg : given_credential flag t cfg →
  cloud_token cfg = (if Getenv "MINATO_CLOUD_API_KEY" =s "" then credential cfg
                     else Getenv "MINATO_CLOUD_API_KEY")
  ∧ cloud_token cfg ≠ "".
Proof.
  intros Hg. rewrite <-resolveCloudToken_spec. unfold resolveCloudToken, credential.
  assert (credential cfg ≠ "") as Hne.
  { unfold credential. destruct Hg as [(? & _ & -> & _)|(_ & -> & ? & _)]; [|done].
    by destruct (String.eqb_spec flag ""). }
  unfold credential in Hne.
  destruct (String.eqb_spec (Getenv "MINATO_CLOUD_API_KEY") ""); cbn [negb]; [|done].
  destruct (String.eqb_spec (cfg_APIKey cfg) ""), (String.eqb_spec (cfg_SessionToken cfg) ""); cbn; done.
Qed.

(** C26: a login stores only what the cloud was asked about. Whatever the stored configuration becomes,
    it was preceded by a request for the caller's tenants, at the URL that is stored (the
    one of the flag, of the environment, or stored before), answered 200 with a list. The
    configuration has exactly the credential that was given, the key of the flag or the
    token of the input, and the request carried it, if the environment has no
    MINATO_CLOUD_API_KEY; if it has one, the request carried that one, and the
    credential stored was not verified. The configuration reads back as it was written.
    And a login that reports success has stored it. *)
Theorem login_verified flag t o :
  runs (cloudLoginCmd Getenv valid cloudConfigPath opts flag) t o →
  (∀ pre data r post, t = pre ++ Ev (CWriteConfig data) r :: post →
     ∃ cfg q rsp tenants,
       data = print_indent (enc_cloudConfig cfg) ∧ given_credential flag pre cfg
       ∧ Ev (CHttp q) (inl rsp) ∈ pre ∧ cloud_request cfg "GET" me_tenants None q
       ∧ hs_Status rsp = 200 ∧ tenants_answer rsp = inl tenants
       ∧ hq_Header q !! "Authorization" = Some ("Bearer " +:+
           (if Getenv "MINATO_CLOUD_API_KEY" =s "" then credential cfg
            else Getenv "MINATO_CLOUD_API_KEY"))
       ∧ (∃ rd cfg0, Ev CReadConfig rd ∈ pre ∧ parse_config cloudConfigPath rd = inl cfg0
            ∧ cfg_URL cfg = cloud_url cfg0 ∧ cfg_URL cfg = cloud_url cfg)
       ∧ (json_ok (enc_cloudConfig cfg) = true → parse_config cloudConfigPath (FileText data) = inl cfg))
  ∧ (o = Done None → ∃ data, Ev (CWriteConfig data) None ∈ t).
Proof.
  intros [[Ht (e & ->)]|(pre1 & cfg & q & rsp & l & r & outs & -> & Hp & Ho & Hr & Hg & Hq & Hin & Hl & Hu)]%login_runs.
  - split; [|done]. intros pre data r post ->. apply Forall_app in Ht as [_ Ht]. by inversion Ht.
  - split; [|intros ->%Hr; eexists; apply elem_of_app; right; left].
    intros pre data r' post Hd. apply unique_write in Hd as [-> ->]; [|done..].
    exists cfg, q, rsp, l.
    split_and!; try done; [by eapply tenants_answer_ok| |by apply config_round_trip].
    destruct Hq as (q0 & _ & _ & _ & _ & ->). destruct (given_credential_token _ _ _ Hg) as [E Hne].
    by rewrite <-E, (proj2 (String.eqb_neq _ _) Hne).
Qed.

(** With a key in the environment, that key is what a login verifies, whatever it
    then stores. *)
Lemma login_verifies_environment cfg method segs body q :
  Getenv "MINATO_CLOUD_API_KEY" ≠ "" → cloud_request cfg method segs body q →
  hq_Header q !! "Authorization" = Some ("Bearer " +:+ Getenv "MINATO_CLOUD_API_KEY").
Proof.
  intros Henv (q0 & _ & _ & _ & _ & ->).
  assert (cloud_token cfg = Getenv "MINATO_CLOUD_API_KEY") as ->
    by (unfold cloud_token, first_given; by rewrite filter_cons_True by done).
  by rewrite (proj2 (String.eqb_neq _ _) Henv).
Qed.
End CtlSpec.

(** ** Witnesses *)

#[local] Existing Instances ex_JsonText ex_RFC3339 ex_Url.
#[local] Instance ex_IndentJSON : IndentJSON := {|
  print_indent := print; parse_indent := λ j H, proj1 (parse_print j H) |}.
#[local] Instance ex_DateFormat : DateFormat := λ _, "2026-01-02".

Definition ex_env : string → string := λ _, "".
Definition ex_flags : flags := {|
  opt_server := ""; opt_namespace := ""; opt_api_key := ""; opt_url := ex_origin;
  opt_tenant := "Acme"; opt_json := false |}.
Definition ex_path : string := "/home/op/.config/minato/config.json".

(** A cloud with two tenants, whose every other answer is a server. *)
Definition ex_tenants : json := JArr [
  JObj [("id", JStr "t-1"); ("name", JStr "Other"); ("slug", JStr "other")];
  JObj [("id", JStr "t-2"); ("name", JStr "ACME"); ("slug", JStr "acme-eu")]].
Definition ex_live : json := JObj [("server", JObj [("id", JStr "srv-1"); ("name", JStr "lobby")])].
Definition ex_cloud (X : Type) (e : cliop X) (s : unit) : X * unit :=
  (match e in cliop X return X with
   | CHttp q => inl {| hs_Status := 200; hs_ContentType := "application/json";
                       hs_Body := inl (print (if HasSuffix (hq_URL q) "/me/tenants" then ex_tenants else ex_live)) |}
   | CReadConfig => FileMissing
   | CMkdirConfig | CWriteConfig _ => None
   | CReadLine => inl ""
   | COut _ => tt
   end, s).

Definition ex_login : Cli (option string) := cloudLoginCmd ex_env (λ _, None) ex_path ex_flags "mk_abc_def".
Lemma login_verified_witness :
  (exec ex_cloud ex_login tt).1.2 = Done None
  ∧ ∃ data, Ev (CWriteConfig data) None ∈ (exec ex_cloud ex_login tt).1.1.
Proof.
  assert ((exec ex_cloud ex_login tt).1.2 = Done None) as Hd by (vm_compute; reflexivity).
  split; [exact Hd|].
  exact (proj2 (login_verified ex_env (λ _, None) ex_path ex_flags "mk_abc_def" _ _
    (exec_result_runs ex_cloud ex_login tt)) Hd).
Defined.
