(* ===== verification/CtlConsole.v ===== *)
(** * CtlConsole: [minato-ctl console] ([runConsole] of [cmd/minato-ctl/main.go])

    Dialing the console, then the two threads of the session: the main one reads
    the user's lines with [fmt.Scanln] and sends each as a command; a goroutine
    prints what the server sends until reading fails, and the main thread waits
    for it before it returns.  Last, the session put together with the one of the
    control plane ([Console]): what the user types is what the agent gets, and
    what the agent says is what the user sees. *)

From Stdlib Require Import Ascii String.
From stdpp Require Import gmap relations.
From S2P Require Import Prelude GoStrings Prog Kube Scan Console GenClient Ctl.
#[local] Open Scope Z_scope.

(** ** [fmt.Scanln] into one string *)

(** [token] with [notSpace] *)
Fixpoint scan_word (s : string) : string * string :=
  match s with
  | "" => ("", "")
  | String c r => if is_space c then ("", s) else let '(w, r) := scan_word r in (String c w, r)
  end.

(** On a line without its newline: the word, unless the line is blank or
    something follows the word.  The error is not looked at. *)
Definition Scanln (line : string) : option string :=
  match SkipSpace line with
  | None | Some "" => None
  | Some s => let '(w, r) := scan_word s in if str_forall is_space r then Some w else None
  end.

Definition no_newline (s : string) : bool := str_forall (λ c, negb (Ascii.eqb c newline_rune)) s.

Lemma fields_go_word cur s :
  cur ≠ "" → fields_go cur s = (cur +:+ (scan_word s).1) :: Fields (scan_word s).2.
Proof.
  revert cur. induction s as [|c s IH]; intros cur Hc; cbn [fields_go scan_word].
  - rewrite (proj2 (String.eqb_neq _ _) Hc). cbn. by rewrite str_app_nil_r.
  - destruct (is_space c) eqn:E; cbn [fst snd].
    + rewrite (proj2 (String.eqb_neq _ _) Hc), str_app_nil_r. unfold Fields. cbn [fields_go].
      by rewrite E.
    + rewrite IH by (by destruct cur). destruct (scan_word s) as [w r]. cbn [fst snd].
      by rewrite <- str_app_assoc.
Qed.

Lemma Fields_nil s : Fields s = [] ↔ str_forall is_space s = true.
Proof.
  unfold Fields. induction s as [|c s IH]; cbn [fields_go str_forall]; [done|].
  destruct (is_space c); cbn; [exact IH|]. rewrite fields_go_word by done. by split.
Qed.

(** It takes exactly the lines of one word. *)
Lemma Scanln_Fields line w : no_newline line = true → Scanln line = Some w ↔ Fields line = [w].
Proof.
  unfold Scanln, Fields. induction line as [|c s IH]; cbn; [done|].
  destruct (Ascii.eqb c newline_rune); cbn; [done|]. intros Hn. destruct (is_space c) eqn:E; [by apply IH|].
  cbn [scan_word]. rewrite E, fields_go_word by done. destruct (scan_word s) as [w0 r]. cbn [fst snd].
  destruct (str_forall is_space r) eqn:Er.
  - apply Fields_nil in Er as ->. cbn. split; by intros [= <-].
  - split; [done|]. intros [= _ H%Fields_nil]. congruence.
Qed.

(** ** Dialing *)

(** [url.Parse]: the scheme and the host. *)
Class UrlParse := url_parse : string → (string * string) + gerr.
(** [Format("15:04:05")] of [time.Unix], in the time zone of the user. *)
Class ClockFormat := FormatClock : Z → string.

Section Dial.
Context `{Hparse : !UrlParse}.

(** The address and the header [runConsole] dials. *)
Definition console_request (f : flags) (serverName : string)
  : (string * gmap string string) + gerr :=
  match url_parse (opt_server f) with
  | inr e => inr e
  | inl (scheme, host) =>
      let wsScheme := if scheme =s "https" then "wss" else "ws" in
      let wsURL := wsScheme +:+ "://" +:+ host +:+ "/api/v1/gameservers/" +:+ opt_namespace f
                   +:+ "/" +:+ serverName +:+ "/console" in
      inl (wsURL, if opt_api_key f <>s ""
                  then {["Authorization" := "Bearer " +:+ opt_api_key f]} else ∅)
  end.

(** For names of Kubernetes, the path is the one of the generated client. *)
Lemma console_path `{!Url} f serverName scheme host :
  url_parse (opt_server f) = inl (scheme, host) →
  k8s_name (opt_namespace f) = true → k8s_name serverName = true →
  ∃ path header,
    operation_path [Lit "api"; Lit "v1"; Lit "gameservers"; Param "namespace" (opt_namespace f);
                    Param "name" serverName; Lit "console"] = inl path
    ∧ console_request f serverName
      = inl ((if scheme =s "https" then "wss" else "ws") +:+ "://" +:+ host +:+ path, header).
Proof.
  intros Hu Hn Hs. cbn [operation_path]. rewrite !style_param_name by done.
  eexists _, _. split; [done|]. unfold console_request. rewrite Hu.
  reflexivity.
Qed.
End Dial.

(** ** The two threads *)

(** What a thread writes to the terminal. *)
Inductive shown := Stdout (s : string) | Stderr (s : string).

Definition rcon (input : string) : ConsoleMessage :=
  {| cm_Type := "rcon"; cm_TS := 0; cm_Line := ""; cm_ID := ""; cm_Data := input |}.

Section Session.
Context `{Hclock : !ClockFormat}.

(** The goroutine's [switch] on a message. *)
Definition show (msg : ConsoleMessage) : list shown :=
  if cm_Type msg =s "log" then
    [Stdout ("[" +:+ FormatClock (cm_TS msg) +:+ "] " +:+ cm_Line msg +:+ newline)]
  else if cm_Type msg =s "rcon-response" then [Stdout ("> " +:+ cm_Data msg +:+ newline)]
  else if cm_Type msg =s "error" then [Stderr ("Error: " +:+ cm_Data msg +:+ newline)]
  else if cm_Type msg =s "status" then [Stdout ("[Status: " +:+ cm_Data msg +:+ "]" +:+ newline)]
  else [].

(** The steps: of the user, of the network, and of the program. *)
Inductive label :=
| Typed (line : string)
| InputEnds
| Arrives (frame : ConsoleMessage + gerr)
| Breaks
| Sends (m : ConsoleMessage)
| Runs.
Definition of_program (l : label) : bool := match l with Sends _ | Runs => true | _ => false end.

(** *** The main thread: prompt, line, command; then [<-done] *)
Inductive pc_input :=
| IPrompt
| IScanning
| ISending (m : ConsoleMessage)
| IWaiting
| IReturned.

Record Input := {
  in_pc : pc_input;
  (* typed and not yet read; whether more can come *)
  in_lines : list string;
  in_open : bool;
  in_taken : list string;
  in_sent : list ConsoleMessage;
  in_out : list shown;
}.

Inductive step_input (done : bool) : Input → label → Input → Prop :=
| I_type l pc ls tk s o :
    no_newline l = true →
    step_input done {| in_pc := pc; in_lines := ls; in_open := true; in_taken := tk; in_sent := s; in_out := o |}
      (Typed l)
      {| in_pc := pc; in_lines := ls ++ [l]; in_open := true; in_taken := tk; in_sent := s; in_out := o |}
| I_end pc ls tk s o :
    step_input done {| in_pc := pc; in_lines := ls; in_open := true; in_taken := tk; in_sent := s; in_out := o |}
      InputEnds
      {| in_pc := pc; in_lines := ls; in_open := false; in_taken := tk; in_sent := s; in_out := o |}
| I_prompt ls op tk s o :
    step_input done {| in_pc := IPrompt; in_lines := ls; in_open := op; in_taken := tk; in_sent := s; in_out := o |}
      Runs
      {| in_pc := IScanning; in_lines := ls; in_open := op; in_taken := tk; in_sent := s;
         in_out := o ++ [Stdout "> "] |}
| I_line l w ls op tk s o :
    Scanln l = Some w →
    step_input done {| in_pc := IScanning; in_lines := l :: ls; in_open := op; in_taken := tk; in_sent := s;
                       in_out := o |}
      Runs
      {| in_pc := ISending (rcon w); in_lines := ls; in_open := op; in_taken := tk ++ [l]; in_sent := s;
         in_out := o |}
| I_bad_line l ls op tk s o :
    Scanln l = None →
    step_input done {| in_pc := IScanning; in_lines := l :: ls; in_open := op; in_taken := tk; in_sent := s;
                       in_out := o |}
      Runs
      {| in_pc := IWaiting; in_lines := ls; in_open := op; in_taken := tk ++ [l]; in_sent := s; in_out := o |}
| I_no_line tk s o :
    step_input done {| in_pc := IScanning; in_lines := []; in_open := false; in_taken := tk; in_sent := s;
                       in_out := o |}
      Runs
      {| in_pc := IWaiting; in_lines := []; in_open := false; in_taken := tk; in_sent := s; in_out := o |}
| I_send m ls op tk s o :
    step_input done {| in_pc := ISending m; in_lines := ls; in_open := op; in_taken := tk; in_sent := s;
                       in_out := o |}
      (Sends m)
      {| in_pc := IPrompt; in_lines := ls; in_open := op; in_taken := tk; in_sent := s ++ [m]; in_out := o |}
| I_send_error m e ls op tk s o :
    step_input done {| in_pc := ISending m; in_lines := ls; in_open := op; in_taken := tk; in_sent := s;
                       in_out := o |}
      Runs
      {| in_pc := IWaiting; in_lines := ls; in_open := op; in_taken := tk; in_sent := s;
         in_out := o ++ [Stderr ("Send error: " +:+ ge_msg e +:+ newline)] |}
| I_done ls op tk s o :
    done = true →
    step_input done {| in_pc := IWaiting; in_lines := ls; in_open := op; in_taken := tk; in_sent := s;
                       in_out := o |}
      Runs
      {| in_pc := IReturned; in_lines := ls; in_open := op; in_taken := tk; in_sent := s; in_out := o |}.

(** *** The goroutine: [ReadJSON] fails on a frame that is not a message, and,
    once the connection is broken, when no frame is left *)
Inductive pc_reader := RReading | RClosing | RExited.

Record Reader := {
  rd_pc : pc_reader;
  rd_frames : list (ConsoleMessage + gerr);
  rd_conn : bool;
  rd_read : list ConsoleMessage;
  rd_out : list shown;
}.

Definition connection_closed (e : gerr) : shown :=
  Stderr (newline +:+ "Connection closed: " +:+ ge_msg e +:+ newline).

Inductive step_reader : Reader → label → Reader → Prop :=
| R_arrives f pc fs r o :
    step_reader {| rd_pc := pc; rd_frames := fs; rd_conn := true; rd_read := r; rd_out := o |}
      (Arrives f)
      {| rd_pc := pc; rd_frames := fs ++ [f]; rd_conn := true; rd_read := r; rd_out := o |}
| R_breaks pc fs r o :
    step_reader {| rd_pc := pc; rd_frames := fs; rd_conn := true; rd_read := r; rd_out := o |}
      Breaks
      {| rd_pc := pc; rd_frames := fs; rd_conn := false; rd_read := r; rd_out := o |}
| R_message m fs cn r o :
    step_reader {| rd_pc := RReading; rd_frames := inl m :: fs; rd_conn := cn; rd_read := r; rd_out := o |}
      Runs
      {| rd_pc := RReading; rd_frames := fs; rd_conn := cn; rd_read := r ++ [m]; rd_out := o ++ show m |}
| R_malformed e fs cn r o :
    step_reader {| rd_pc := RReading; rd_frames := inr e :: fs; rd_conn := cn; rd_read := r; rd_out := o |}
      Runs
      {| rd_pc := RClosing; rd_frames := fs; rd_conn := cn; rd_read := r; rd_out := o ++ [connection_closed e] |}
| R_closed e r o :
    step_reader {| rd_pc := RReading; rd_frames := []; rd_conn := false; rd_read := r; rd_out := o |}
      Runs
      {| rd_pc := RClosing; rd_frames := []; rd_conn := false; rd_read := r; rd_out := o ++ [connection_closed e] |}
| R_exit fs cn r o :
    step_reader {| rd_pc := RClosing; rd_frames := fs; rd_conn := cn; rd_read := r; rd_out := o |}
      Runs
      {| rd_pc := RExited; rd_frames := fs; rd_conn := cn; rd_read := r; rd_out := o |}.

(** *** Together: [done] is closed when the goroutine has exited *)
Record Terminal := { tm_input : Input; tm_reader : Reader }.
Definition done (t : Terminal) : bool := match rd_pc (tm_reader t) with RExited => true | _ => false end.

Inductive tstep : Terminal → label → Terminal → Prop :=
| T_input t l i :
    step_input (done t) (tm_input t) l i → tstep t l {| tm_input := i; tm_reader := tm_reader t |}
| T_reader t l r :
    step_reader (tm_reader t) l r → tstep t l {| tm_input := tm_input t; tm_reader := r |}.

(** A session once the connection is dialed. *)
Definition connected (serverName : string) : Terminal := {|
  tm_input := {| in_pc := IPrompt; in_lines := []; in_open := true; in_taken := []; in_sent := [];
    in_out := [Stdout ("Connected to " +:+ serverName +:+ " console. Type commands, Ctrl+C to exit."
                       +:+ newline)] |};
  tm_reader := {| rd_pc := RReading; rd_frames := []; rd_conn := true; rd_read := []; rd_out := [] |} |}.

Definition any_step (t t' : Terminal) : Prop := ∃ l, tstep t l t'.
Definition program_step (t t' : Terminal) : Prop := ∃ l, of_program l = true ∧ tstep t l t'.

(** *** The whole command *)

Inductive dialop : Type → Type :=
| Dial (url : string) (header : gmap string string) : dialop (option gerr).

(** [runConsole] up to the session it runs, or the error it returns. *)
Definition runConsole `{Hparse : !UrlParse} (f : flags) (serverName : string) : prog dialop (Terminal + gerr) :=
  match console_request f serverName with
  | inr e => Ret (inr e)
  | inl (url, header) =>
      let* e := call (Dial url header) in
      Ret (match e with
           | Some err => inr (wrapf "failed to connect" err)
           | None => inl (connected serverName)
           end)
  end.

(** ** What a session sends and shows *)

Section Fixed.
Variable serverName : string.
Definition running (t : Terminal) : Prop := rtc any_step (connected serverName) t.

(** A command that was scanned and not sent: the one being sent, or the one
    whose sending failed. *)
Definition in_pending (pc : pc_input) (lost : list ConsoleMessage) : Prop :=
  match pc with
  | IPrompt | IScanning => lost = []
  | ISending m => lost = [m]
  | IWaiting | IReturned => (length lost <= 1)%nat
  end.
Definition over (pc : pc_input) : bool := match pc with IWaiting | IReturned => true | _ => false end.

(** Every line taken is a word, but for the last one if [b]. *)
Definition words_but_last (b : bool) (taken : list string) : Prop :=
  ∀ ls l, taken = ls ++ [l] → Forall (λ l, is_Some (Scanln l)) ls ∧ (Scanln l = None → b = true).

Lemma words_but_last_mono (b b' : bool) tk :
  (b = true → b' = true) → words_but_last b tk → words_but_last b' tk.
Proof. intros Hb H ls l E. destruct (H ls l E). auto. Qed.

Lemma words_but_last_snoc (b : bool) tk l :
  (Scanln l = None → b = true) → words_but_last false tk → words_but_last b (tk ++ [l]).
Proof.
  intros Hl H ls l' [-> [= ->]]%app_inj_2; [|done]. split; [|exact Hl].
  destruct ls as [|x tk _] using rev_ind; [constructor|]. destruct (H tk x eq_refl) as [Hf Hx].
  apply Forall_app. split; [exact Hf|]. constructor; [|constructor].
  destruct (Scanln x); [by eexists|]. by specialize (Hx eq_refl).
Qed.

Record sends_lines (i : Input) : Prop := {
  sl_sent : ∃ lost, rcon <$> omap Scanln (in_taken i) = in_sent i ++ lost ∧ in_pending (in_pc i) lost;
  sl_words : words_but_last (over (in_pc i)) (in_taken i);
}.

#[local] Arguments omap : simpl never.

Lemma scanned_snoc tk l : rcon <$> omap Scanln (tk ++ [l]) = (rcon <$> omap Scanln tk) ++ option_list (rcon <$> Scanln l).
Proof. rewrite omap_app, fmap_app. f_equal. unfold omap. cbn. by destruct (Scanln l). Qed.

Lemma sends_lines_step d i l i' : step_input d i l i' → sends_lines i → sends_lines i'.
Proof.
  intros H [(lost & Hs & Hp) Hw].
  destruct H; cbn [in_pc in_taken in_sent in_pending over] in *; subst;
    split; cbn [in_pc in_taken in_sent in_pending over];
    try (exact Hw); try (by apply (words_but_last_mono false));
    try (apply words_but_last_snoc; [congruence|exact Hw]); try by eexists.
  - eexists. rewrite scanned_snoc, Hs, app_nil_r. split; [reflexivity|]. by match goal with E : Scanln _ = _ |- _ => rewrite E end.
  - exists []. rewrite scanned_snoc, Hs, app_nil_r. split; [|cbn; lia].
    match goal with E : Scanln _ = _ |- _ => rewrite E end. by rewrite app_nil_r.
  - exists []. split; [done|cbn; lia].
  - exists []. by rewrite app_nil_r.
Qed.

(** What the goroutine printed: each message it read, in order, and at the end
    why it stopped. *)
Definition prints_frames (r : Reader) : Prop :=
  match rd_pc r with
  | RReading => rd_out r = mjoin (show <$> rd_read r)
  | _ => ∃ e, rd_out r = mjoin (show <$> rd_read r) ++ [connection_closed e]
  end.

Lemma prints_frames_step r l r' : step_reader r l r' → prints_frames r → prints_frames r'.
Proof.
  unfold prints_frames. destruct 1; cbn; try done.
  - intros ->. rewrite fmap_app, join_app. cbn. by rewrite app_nil_r.
  - intros ->. by eexists.
  - intros ->. by eexists.
Qed.

(** Why the main thread reads no more lines: the last line it took was not one
    word, or the input had ended and was read to its end, or sending failed. *)
Definition input_stopped (i : Input) : Prop :=
  (∃ ls l, in_taken i = ls ++ [l] ∧ Scanln l = None)
  ∨ (in_open i = false ∧ in_lines i = [])
  ∨ ∃ e, Stderr ("Send error: " +:+ ge_msg e +:+ newline) ∈ in_out i.

Lemma input_stopped_step d i l i' :
  step_input d i l i' → (over (in_pc i) = true → input_stopped i) →
  over (in_pc i') = true → input_stopped i'.
Proof.
  unfold input_stopped. destruct 1; cbn; try done.
  - intros Hi Ho. destruct (Hi Ho) as [?|[[? _]|?]]; [auto|done|auto].
  - intros Hi Ho. destruct (Hi Ho) as [?|[[? _]|?]]; [auto|done|auto].
  - intros _ _. left. eauto.
  - auto.
  - intros _ _. right. right. eexists. apply elem_of_app. right. apply list_elem_of_here.
Qed.

(** The goroutine stops only when it read a frame that is no message, or the
    connection is broken. *)
Record tinv (t : Terminal) : Prop := {
  ti_input : sends_lines (tm_input t);
  ti_reader : prints_frames (tm_reader t);
  ti_returned : in_pc (tm_input t) = IReturned → done t = true;
  ti_stopped : over (in_pc (tm_input t)) = true → input_stopped (tm_input t);
}.

Lemma step_input_returned d i l i' :
  step_input d i l i' → in_pc i' = IReturned → d = true ∨ in_pc i = IReturned.
Proof. destruct 1; cbn; auto; discriminate. Qed.

Lemma step_reader_exited r l r' : step_reader r l r' → rd_pc r = RExited → rd_pc r' = RExited.
Proof. by destruct 1. Qed.

Lemma tinv_step t t' : any_step t t' → tinv t → tinv t'.
Proof.
  intros [l Hst] [Hi Hr He Hs]. destruct Hst as [t l i H|t l r H]; split; cbn; try done.
  - by eapply sends_lines_step.
  - intros Hp. by destruct (step_input_returned _ _ _ _ H Hp); auto.
  - by eapply input_stopped_step.
  - by eapply prints_frames_step.
  - intros Hp%He. unfold done in *. cbn. destruct (rd_pc (tm_reader t)) eqn:Ep; [done..|].
    by rewrite (step_reader_exited _ _ _ H Ep).
Qed.

Lemma running_tinv t : running t → tinv t.
Proof.
  unfold running. revert t. apply (rtc_ind_r (λ t, tinv t)).
  - split; [split; [by exists []|]|done..]. intros ls l E. by destruct ls.
  - intros t t' _ Hst. by apply tinv_step.
Qed.

(** ** How a session ends *)

Definition fuel_input (i : Input) : nat :=
  3 * length (in_lines i)
  + match in_pc i with IPrompt => 3 | IScanning => 2 | ISending _ => 4 | IWaiting => 1 | IReturned => 0 end.
Definition fuel_reader (r : Reader) : nat :=
  length (rd_frames r) + match rd_pc r with RReading => 2 | RClosing => 1 | RExited => 0 end.
Definition session_fuel (t : Terminal) : nat := fuel_input (tm_input t) + fuel_reader (tm_reader t).

Lemma program_step_fuel t t' : program_step t t' → (session_fuel t' < session_fuel t)%nat.
Proof.
  intros (l & Hl & Hst). unfold session_fuel.
  destruct Hst as [t l i H|t l r H]; destruct H; try discriminate Hl;
    unfold fuel_input, fuel_reader; cbn; lia.
Qed.

Lemma program_steps_fuel n t t' : nsteps program_step n t t' → (n + session_fuel t' <= session_fuel t)%nat.
Proof.
  induction 1 as [t|n t u t' Hst _ IH]; [done|]. apply program_step_fuel in Hst. lia.
Qed.

(** Where a thread can wait. *)
Definition waits_for_user (t : Terminal) : Prop :=
  in_pc (tm_input t) = IScanning ∧ in_lines (tm_input t) = [] ∧ in_open (tm_input t) = true.
Definition waits_for_server (t : Terminal) : Prop :=
  in_pc (tm_input t) = IWaiting ∧ rd_pc (tm_reader t) = RReading
  ∧ rd_frames (tm_reader t) = [] ∧ rd_conn (tm_reader t) = true.

(** A thread that can go on. *)
Ltac goes_on H :=
  exfalso; eapply H; eexists;
  (split; [|first [apply T_input; cbn; econstructor; done|apply T_reader; cbn; econstructor; done]]); done.

Lemma blocked_spec t :
  (∀ t', ¬ program_step t t') →
  waits_for_user t ∨ waits_for_server t ∨ in_pc (tm_input t) = IReturned.
Proof.
  destruct t as [[pc ls op tk s o] [rpc fs cn r ro]]. intros Hno.
  unfold waits_for_user, waits_for_server. cbn.
  destruct pc as [| |m| |]; [goes_on Hno| |goes_on Hno| |by auto].
  - left. destruct ls as [|l ls].
    + destruct op; [done|goes_on Hno].
    + destruct (Scanln l) eqn:E; goes_on Hno.
  - right. left. destruct rpc.
    + destruct fs as [|[m|e] fs]; [|goes_on Hno|goes_on Hno]. destruct cn; [done|].
      exfalso. eapply Hno. eexists. split; [|apply T_reader; cbn; apply (R_closed (errorf "EOF"))]. done.
    + goes_on Hno.
    + goes_on Hno.
Qed.

(** C36: *how the session ends.*  [runConsole] returns only after reading from
    the connection has failed, with the reason shown, and after it stopped
    reading lines: the last line it took was not one word, or the input had
    ended and was read to its end, or sending a command failed, which was shown.
    Whatever the scheduling, the program can take at most [session_fuel] steps
    before it needs the user, the server or the network again; when it can take
    none, it waits for a line, or has stopped reading lines and waits for a
    server that is connected and silent, or has returned.  So once the input has
    ended and the connection is broken it always returns. *)
Theorem console_session_ends t :
  running t →
  (in_pc (tm_input t) = IReturned →
     rd_pc (tm_reader t) = RExited
     ∧ (∃ e, last (rd_out (tm_reader t)) = Some (connection_closed e))
     ∧ input_stopped (tm_input t))
  ∧ (∀ n t', nsteps program_step n t t' → (n <= session_fuel t)%nat)
  ∧ ((∀ t', ¬ program_step t t') →
     waits_for_user t
     ∨ (waits_for_server t ∧ input_stopped (tm_input t))
     ∨ in_pc (tm_input t) = IReturned)
  ∧ (in_open (tm_input t) = false → rd_conn (tm_reader t) = false →
     (∀ t', ¬ program_step t t') → in_pc (tm_input t) = IReturned).
Proof.
  intros [_ Hpr Hret Hst]%running_tinv. split_and!.
  - intros Hp. specialize (Hret Hp). rewrite Hp in Hst. split_and!; [| |auto].
    + unfold done in Hret. by destruct (rd_pc (tm_reader t)).
    + unfold done in Hret. unfold prints_frames in Hpr.
      destruct (rd_pc (tm_reader t)); [done..|].
      destruct Hpr as [e ->]. exists e. by rewrite last_snoc.
  - intros n t' H%program_steps_fuel. lia.
  - intros [H|[H|H]]%blocked_spec; [by left| |by auto]. right. left. split; [done|].
    apply Hst. by rewrite (proj1 H).
  - intros Ho Hc [(_ & _ & H)|[(_ & _ & _ & H)|H]]%blocked_spec; congruence.
Qed.

(** A line of two words, or a blank one, ends the input without a word: nothing
    more is sent, whatever else is typed, and the session only waits for the
    server to end it. *)
Lemma two_words_end_session t l ls t' :
  in_pc (tm_input t) = IScanning → in_lines (tm_input t) = l :: ls →
  no_newline l = true → length (Fields l) ≠ 1%nat →
  rtc any_step t t' → in_sent (tm_input t') = in_sent (tm_input t).
Proof.
  intros Hp Hl Hn Hf.
  assert (Hs : Scanln l = None).
  { destruct (Scanln l) as [w|] eqn:E; [|done]. apply (Scanln_Fields _ _ Hn) in E. by rewrite E in Hf. }
  set (P u := in_sent (tm_input u) = in_sent (tm_input t)
              ∧ ((in_pc (tm_input u) = IScanning ∧ ∃ ls, in_lines (tm_input u) = l :: ls)
                 ∨ over (in_pc (tm_input u)) = true)).
  intros H. cut (P t'); [by intros [? _]|]. revert t' H. apply (rtc_ind_r P).
  - split; [done|]. left. eauto.
  - intros u u' _ [lb Hst] [Hsent Hpc]. destruct Hst as [u lb i Hi|u lb r Hr]; [|by split].
    unfold P in *. cbn.
    destruct Hi; cbn in *; (split; [first [done|naive_solver]|]); naive_solver.
Qed.
End Fixed.

(** ** From the keyboard to the agent and back

    The session of the user with the session of the control plane: what the
    one sends is on its way to the other until it arrives, in order.  Either
    connection may break at any time. [serveConsole] may write the error of
    its session as one more frame, marked [true] here. *)

Definition report (e : gerr) : ConsoleMessage :=
  {| cm_Type := "error"; cm_TS := 0; cm_Line := ""; cm_ID := ""; cm_Data := ge_msg e |}.

(** The frames of the caller that reached the control plane. *)
Definition arrived (s : Console.Session) : list ConsoleMessage := a_read (se_A s) ++ a_waiting (se_A s).

Record System := {
  sy_terminal : Terminal;
  sy_up : list ConsoleMessage;
  sy_session : Console.Session;
  sy_down : list (bool * ConsoleMessage);
  (* delivered downwards, in order *)
  sy_seen : list (bool * ConsoleMessage);
}.

(** What a step of the control plane's session writes to the caller. *)
Definition writes_frames (s s' : Console.Session) (fs : list (bool * ConsoleMessage)) : Prop :=
  match se_main s, se_main s' with
  | MReporting e, MClosing _ => b_written (se_B s') = b_written (se_B s) ∧ (fs = [] ∨ fs = [(true, report e)])
  | _, _ => ∃ ms, b_written (se_B s') = b_written (se_B s) ++ ms ∧ fs = pair false <$> ms
  end.

Inductive system_step : System → System → Prop :=
| Y_user t l t' up s dn sn :
    tstep t l t' → match l with Sends _ | Arrives _ => False | _ => True end →
    system_step {| sy_terminal := t; sy_up := up; sy_session := s; sy_down := dn; sy_seen := sn |}
                {| sy_terminal := t'; sy_up := up; sy_session := s; sy_down := dn; sy_seen := sn |}
| Y_send t m t' up s dn sn :
    tstep t (Sends m) t' →
    system_step {| sy_terminal := t; sy_up := up; sy_session := s; sy_down := dn; sy_seen := sn |}
                {| sy_terminal := t'; sy_up := up ++ [m]; sy_session := s; sy_down := dn; sy_seen := sn |}
| Y_deliver_up t m up s s' dn sn :
    Console.step s s' → arrived s' = arrived s ++ [m] → b_written (se_B s') = b_written (se_B s) →
    system_step {| sy_terminal := t; sy_up := m :: up; sy_session := s; sy_down := dn; sy_seen := sn |}
                {| sy_terminal := t; sy_up := up; sy_session := s'; sy_down := dn; sy_seen := sn |}
| Y_serve t up s s' fs dn sn :
    Console.step s s' → arrived s' = arrived s → writes_frames s s' fs →
    system_step {| sy_terminal := t; sy_up := up; sy_session := s; sy_down := dn; sy_seen := sn |}
                {| sy_terminal := t; sy_up := up; sy_session := s'; sy_down := dn ++ fs; sy_seen := sn |}
| Y_deliver_down t t' up s b m dn sn :
    tstep t (Arrives (inl m)) t' →
    system_step {| sy_terminal := t; sy_up := up; sy_session := s; sy_down := (b, m) :: dn; sy_seen := sn |}
                {| sy_terminal := t'; sy_up := up; sy_session := s; sy_down := dn; sy_seen := sn ++ [(b, m)] |}.

Definition system_start (serverName : string) : System := {|
  sy_terminal := connected serverName; sy_up := []; sy_session := Console.start; sy_down := []; sy_seen := [] |}.

(** The frames of a terminal, read or not. *)
Definition framed (r : Reader) : list (ConsoleMessage + gerr) := (inl <$> rd_read r) ++ rd_frames r.

(** The malformed frame it stopped at is dropped, so equality holds while it reads. *)
Definition frames_from (r : Reader) (ms : list ConsoleMessage) : Prop :=
  framed r = inl <$> ms.

Lemma frames_step t l t' :
  tstep t l t' →
  in_sent (tm_input t') = in_sent (tm_input t) ++ match l with Sends m => [m] | _ => [] end
  ∧ ∀ ms, frames_from (tm_reader t) ms →
      match l with
      | Arrives (inl m) => frames_from (tm_reader t') (ms ++ [m])
      | Arrives (inr _) => True
      | _ => frames_from (tm_reader t') ms
      end.
Proof.
  destruct 1 as [t l i H|t l r H]; unfold frames_from, framed.
  - split; [destruct H; cbn; by rewrite ?app_nil_r|]. intros ms Hm. by destruct H.
  - split; [destruct H; cbn; by rewrite app_nil_r|]. intros ms Hm.
    destruct H as [[m|e] pc fs r o|pc fs r o|m fs cn r o|e fs cn r o|e r o|fs cn r o]; cbn in *; try done.
    + by rewrite fmap_app, app_assoc, Hm.
    + by rewrite fmap_app, <- app_assoc.
    + exfalso. assert (inr e ∈ (inl <$> ms : list (ConsoleMessage + gerr))) as Hin.
      { rewrite <- Hm. apply elem_of_app. right. apply list_elem_of_here. }
      by apply list_elem_of_fmap in Hin as (? & ? & _).
Qed.

Definition own (fs : list (bool * ConsoleMessage)) : list ConsoleMessage :=
  snd <$> filter (λ f, f.1 = false) fs.
Definition reports (fs : list (bool * ConsoleMessage)) : nat := length (filter (λ f, f.1 = true) fs).
#[local] Arguments own : simpl never.
#[local] Arguments reports : simpl never.
Definition reported (m : pc_main) : nat := match m with MClosing _ | MExited _ => 1 | _ => 0 end.

Record sinv (serverName : string) (y : System) : Prop := {
  si_running : running serverName (sy_terminal y);
  si_reachable : Console.reachable (sy_session y);
  si_up : in_sent (tm_input (sy_terminal y)) = arrived (sy_session y) ++ sy_up y;
  si_seen : frames_from (tm_reader (sy_terminal y)) (snd <$> sy_seen y);
  si_down : own (sy_seen y ++ sy_down y) = b_written (se_B (sy_session y));
  si_reports : (reports (sy_seen y ++ sy_down y) <= reported (se_main (sy_session y)))%nat;
}.

Lemma running_step serverName t l t' : tstep t l t' → running serverName t → running serverName t'.
Proof. intros H Hr. eapply rtc_r; [exact Hr|]. by exists l. Qed.

Lemma reachable_step s s' : Console.step s s' → Console.reachable s → Console.reachable s'.
Proof. intros H Hr. by eapply rtc_r. Qed.

Lemma own_app a b : own (a ++ b) = own a ++ own b.
Proof. unfold own. by rewrite filter_app, fmap_app. Qed.
Lemma reports_app a b : reports (a ++ b) = (reports a + reports b)%nat.
Proof. unfold reports. by rewrite filter_app, length_app. Qed.
Lemma own_pairs ms : own (pair false <$> ms) = ms.
Proof. unfold own. induction ms as [|m ms IH]; [done|]. rewrite fmap_cons, filter_cons_True by done. cbn. by f_equal. Qed.
Lemma reports_pairs ms : reports (pair false <$> ms) = 0%nat.
Proof. unfold reports. induction ms as [|m ms IH]; [done|]. by rewrite fmap_cons, filter_cons_False. Qed.

(** Only the step that ends the report leaves one behind. *)
Lemma reported_step s s' :
  Console.step s s' →
  (reported (se_main s) <= reported (se_main s'))%nat
  ∧ (∀ e e', se_main s = MReporting e → se_main s' = MClosing e' → b_written (se_B s') = b_written (se_B s)
             ∧ reported (se_main s) = 0%nat ∧ reported (se_main s') = 1%nat).
Proof.
  destruct 1 as [| |a b m m' ch ch' ps st st' cn cn' H]; cbn; [split; [done|intros; congruence]..|].
  inversion H; subst; cbn; (split; [lia|]); intros; try congruence; done.
Qed.

Lemma writes_frames_spec s s' fs :
  Console.step s s' → writes_frames s s' fs →
  b_written (se_B s') = b_written (se_B s) ++ own fs
  ∧ (reported (se_main s) + reports fs <= reported (se_main s'))%nat.
Proof.
  intros Hst Hw. apply reported_step in Hst as [Hle Hrep]. unfold writes_frames in Hw.
  destruct (se_main s) as [|e|e|e|e|e] eqn:Es;
    try (destruct Hw as (ms & -> & ->); rewrite own_pairs, reports_pairs; split; [done|lia]).
  destruct (se_main s') as [|e'|e'|e'|e'|e'] eqn:Es';
    try (destruct Hw as (ms & -> & ->); rewrite own_pairs, reports_pairs; split; [done|lia]).
  destruct Hw as [-> [-> | ->]]; (split; [by rewrite app_nil_r|by apply Nat.leb_le]).
Qed.

Lemma sinv_step serverName y y' : system_step y y' → sinv serverName y → sinv serverName y'.
Proof.
  intros H [Hrun Hre Hup Hseen Hdown Hrep].
  destruct H as [t l t' up s dn sn Ht Hl|t m t' up s dn sn Ht|t m up s s' dn sn Hs Ha Hb
    |t up s s' fs dn sn Hs Ha Hw|t t' up s b m dn sn Ht]; cbn in *;
    try (pose proof (frames_step _ _ _ Ht) as [Hsent Hfr]; pose proof (running_step _ _ _ _ Ht Hrun)).
  - apply Hfr in Hseen. destruct l as [l| |f| |m|]; try done;
      split; cbn; try done; by rewrite Hsent, app_nil_r.
  - apply Hfr in Hseen. split; cbn; try done. by rewrite Hsent, Hup, app_assoc.
  - pose proof (reported_step _ _ Hs) as [Hle _].
    split; cbn; try done; [by eapply reachable_step|by rewrite Ha, <- app_assoc|by rewrite Hb|lia].
  - destruct (writes_frames_spec _ _ _ Hs Hw) as [Hb Hr].
    split; cbn; try done; [by eapply reachable_step|by rewrite Ha| |];
      rewrite app_assoc; [by rewrite own_app, Hdown, Hb|rewrite reports_app; lia].
  - apply Hfr in Hseen. split; cbn; try done; rewrite <- ?app_assoc; try done.
    + by rewrite Hsent, app_nil_r.
    + unfold frames_from in *. by rewrite fmap_app.
Qed.

Definition in_system (serverName : string) (y : System) : Prop := rtc system_step (system_start serverName) y.

Lemma in_system_sinv serverName y : in_system serverName y → sinv serverName y.
Proof.
  unfold in_system. revert y. apply (rtc_ind_r (λ y, sinv serverName y)).
  - split; cbn; try done; apply rtc_refl.
  - intros y y' _ Hst. by apply sinv_step.
Qed.

Lemma rcon_commands (ws : list string) : omap to_agent (rcon <$> ws) = Command <$> ws.
Proof. induction ws as [|w ws IH]; [done|]. cbn. by f_equal. Qed.

Lemma prefix_fmap_inl (r : list ConsoleMessage) (fs : list (ConsoleMessage + gerr)) (sn : list (bool * ConsoleMessage)) :
  (inl <$> r) ++ fs = inl <$> (snd <$> sn) → ∃ sn1 sn2, sn = sn1 ++ sn2 ∧ r = snd <$> sn1.
Proof.
  revert sn. induction r as [|m r IH]; intros sn H; [by exists [], sn|].
  destruct sn as [|[b m'] sn]; [done|]. cbn in H. injection H as <- H.
  destruct (IH sn H) as (sn1 & sn2 & -> & ->). by exists ((b, m) :: sn1), sn2.
Qed.

End Session.

(** ** Witnesses *)

#[local] Instance ex_clock : ClockFormat := λ _, "12:00:00".

(** A line of two words: nothing is sent, and the program waits for a server
    that has no reason to say anything. *)
Definition ex_two_words : Terminal := {|
  tm_input := {| in_pc := IWaiting; in_lines := []; in_open := true; in_taken := ["say hello"]; in_sent := [];
    in_out := in_out (tm_input (connected "lobby")) ++ [Stdout "> "] |};
  tm_reader := tm_reader (connected "lobby") |}.

Lemma ex_two_words_running : running "lobby" ex_two_words.
Proof.
  eapply rtc_l; [eexists; apply T_input; apply I_prompt|].
  eapply rtc_l; [eexists; apply T_input; apply (I_type _ "say hello"); reflexivity|].
  eapply rtc_l; [eexists; apply T_input; apply I_bad_line; reflexivity|]. apply rtc_refl.
Qed.

Lemma console_session_ends_witness :
  running "lobby" ex_two_words ∧ waits_for_server ex_two_words
  ∧ Scanln "say hello" = None
  ∧ in_sent (tm_input ex_two_words) = []
  ∧ ∀ n t, nsteps program_step n ex_two_words t → (n <= 3)%nat.
Proof.
  split; [exact ex_two_words_running|]. split; [done|]. split; [done|]. split; [done|].
  exact (proj1 (proj2 (console_session_ends "lobby" ex_two_words ex_two_words_running))).
Defined.

(** The user types [list], and the agent answers. *)
Lemma ex_conversation :
  ∃ y, in_system "lobby" y
  ∧ in_taken (tm_input (sy_terminal y)) = ["list"]
  ∧ a_sent (se_A (sy_session y)) = [Command "list"]
  ∧ rd_out (tm_reader (sy_terminal y)) = [Stdout ("> 0 players" +:+ newline)].
Proof.
  eexists. split.
  - unfold in_system, system_start, connected, Console.start.
    eapply rtc_l; [eapply Y_user; [eapply T_input, I_prompt|exact I]|].
    eapply rtc_l; [eapply Y_user; [eapply T_input, (I_type _ "list"); reflexivity|exact I]|].
    eapply rtc_l; [eapply Y_user; [eapply T_input, I_line; reflexivity|exact I]|].
    eapply rtc_l; [eapply Y_send, T_input, I_send|].
    eapply rtc_l; [eapply Y_deliver_up; [eapply step_A; [by apply A_arrive|reflexivity]|reflexivity..]|].
    eapply rtc_l; [eapply Y_serve; [eapply step_A; [apply A_read|reflexivity]|reflexivity|by exists []]|].
    eapply rtc_l; [eapply Y_serve; [eapply step_A; [by apply A_send|reflexivity]|reflexivity|by exists []]|].
    eapply rtc_l; [eapply Y_serve; [eapply step_B; [by apply (B_arrive _ _ (Some (PResponse "0 players")))|reflexivity]|reflexivity|by exists []]|].
    eapply rtc_l; [eapply Y_serve; [eapply step_B; [by apply (B_receive _ _ _ 0)|reflexivity]|reflexivity|by exists []]|].
    eapply rtc_l; [eapply Y_serve; [eapply step_B; [by apply B_write|reflexivity]|reflexivity|by eexists [_]]|].
    eapply rtc_l; [eapply Y_deliver_down, T_reader, R_arrives|].
    eapply rtc_l; [eapply Y_user; [eapply T_reader, R_message|exact I]|].
    apply rtc_refl.
  - by split_and!.
Qed.

