(* ===== verification/CtlMain.v ===== *)
(** * CtlMain: the command line tool's process ([main] of [cmd/minato-ctl])

    The tree of commands with their names, the arguments each demands, its flags
    and its body, which is a command of [Ctl] (or the console, [CtlConsole]) on
    the arguments and flags given; and [main], which runs the one selected and
    ends with its error. How the line of arguments selects a command and sets its flags is
    cobra's: the class [Cobra], of which the model uses what it documents, that
    the command it runs is one of the tree and accepts its arguments. *)

From Stdlib Require Import Ascii String.
From stdpp Require Import gmap.
From S2P Require Import Prelude GoStrings Prog Kube Auth Json GenTypes GenClient SdkClient ApiExamples CloudTypes CloudClient Ctl CtlSpec CtlConsole.
#[local] Open Scope Z_scope.

(** ** Commands *)

Abbreviation cli_error := string (only parsing).

(** [cobra.PositionalArgs]; a command without one accepts any arguments. *)
Inductive PositionalArgs := ArbitraryArgs | ExactArgs (n : nat) | MinimumNArgs (n : nat).
Definition accepts (p : PositionalArgs) (args : list string) : bool :=
  match p with
  | ArbitraryArgs => true
  | ExactArgs n => (length args =? n)%nat
  | MinimumNArgs n => (n <=? length args)%nat
  end.

(** A flag's value: [StringVar], [BoolVar], [StringToStringVar], [StringSliceVar]. *)
Inductive fvalue :=
| FString (s : string)
| FBool (b : bool)
| FMap (m : gomap string)
| FSlice (l : list string).
Record flag_def := {
  fd_Name : string;
  fd_Shorthand : string;
  fd_Default : fvalue;
  fd_Required : bool;
}.
Definition StringVarP (name shorthand default : string) : flag_def :=
  {| fd_Name := name; fd_Shorthand := shorthand; fd_Default := FString default; fd_Required := false |}.
Definition StringVar (name : string) : flag_def := StringVarP name "" "".
Definition flag_var (name : string) (v : fvalue) : flag_def :=
  {| fd_Name := name; fd_Shorthand := ""; fd_Default := v; fd_Required := false |}.
Definition MarkFlagRequired (f : flag_def) : flag_def :=
  {| fd_Name := fd_Name f; fd_Shorthand := fd_Shorthand f; fd_Default := fd_Default f; fd_Required := true |}.

(** The flags that were given; reading one that was not is reading its default. *)
Definition given := gmap string fvalue.
Definition get_string (fl : given) (name default : string) : string :=
  match fl !! name with Some (FString s) => s | _ => default end.
Definition get_bool (fl : given) (name : string) : bool :=
  match fl !! name with Some (FBool b) => b | _ => false end.
Definition get_map (fl : given) (name : string) : gomap string :=
  match fl !! name with Some (FMap m) => m | _ => None end.
Definition get_slice (fl : given) (name : string) : list string :=
  match fl !! name with Some (FSlice l) => l | _ => [] end.

(** The calls of the process: those of a command, the console's, and what [main]
    itself writes. *)
Inductive mainop : Type → Type :=
| OfCli {X : Type} (e : cliop X) : mainop X
| OfDial {X : Type} (e : dialop X) : mainop X
| Session (t : Terminal) : mainop unit
| Stderrln (line : string) : mainop unit.
Abbreviation Main := (prog mainop).

Fixpoint of_cli {A} (p : Cli A) : Main A :=
  match p with
  | Ret a => Ret a
  | Call e k => Call (OfCli e) (λ x, of_cli (k x))
  | Panic m => Panic m
  end.
Fixpoint of_dial {A} (p : prog dialop A) : Main A :=
  match p with
  | Ret a => Ret a
  | Call e k => Call (OfDial e) (λ x, of_dial (k x))
  | Panic m => Panic m
  end.

(** [RunE] of the flags and the arguments; [None] is an index out of range. *)
Definition body : Type := given → list string → option (Main (option cli_error)).
(** [cobra.Command]; the name is the first word of [Use]. *)
Inductive Command := Cmd {
  Use : string;
  Args : PositionalArgs;
  PersistentFlags : list flag_def;
  Flags : list flag_def;
  RunE : option body;
  Commands : list Command;
}.
Definition Name (c : Command) : string := default "" (head (Fields (Use c))).
Definition group (use : string) (flags : list flag_def) (commands : list Command) : Command :=
  Cmd use ArbitraryArgs flags [] None commands.
Definition leaf (use : string) (args : PositionalArgs) (flags : list flag_def) (run : body) : Command :=
  Cmd use args [] flags (Some run) [].

Fixpoint find_command (c : Command) (path : list string) : option Command :=
  match path with
  | [] => Some c
  | name :: path =>
      match find_first (λ sub, Name sub =s name) (Commands c) with
      | Some sub => find_command sub path
      | None => None
      end
  end.

(** What cobra makes of a line: it prints help, fails (and prints why), or runs the
    command at [path] on arguments and flags. *)
Inductive selection :=
| Help
| Invalid (e : cli_error)
| Selected (path : list string) (args : list string) (fl : given).
Class Cobra := {
  Execute : Command → list string → selection;
  Execute_selects root argv path args fl : Execute root argv = Selected path args fl →
    ∃ c, find_command root path = Some c ∧ is_Some (RunE c) ∧ accepts (Args c) args = true
         ∧ ∀ f, f ∈ Flags c → fd_Required f = true → is_Some (fl !! fd_Name f);
}.

(** ** The tree *)

Section Main.
Context `{Htext : !JsonText, Htime : !RFC3339, Hnano : !RFC3339Nano, Hurl : !Url}.
Context `{Hindent : !IndentJSON, Hdate : !DateFormat, Hparse : !UrlParse, Hcobra : !Cobra}.
Variable Getenv : string → string.
Variable valid : string → option gerr.
Variable cloudConfigPath : string.

(** The variables the global flags are stored in. *)
Definition flags_of (fl : given) : flags := {|
  opt_server := get_string fl "server" "http://localhost:8080";
  opt_namespace := get_string fl "namespace" "minato";
  opt_api_key := get_string fl "api-key" (Getenv "MINATO_API_KEY");
  opt_url := get_string fl "url" "";
  opt_tenant := get_string fl "tenant" "";
  opt_json := get_bool fl "json";
|}.

Abbreviation sdk f := (f valid).
Abbreviation cloud f := (f Getenv valid cloudConfigPath).

(** Bodies without arguments, and with the first one or two. *)
Definition run0 (cmd : flags → Cli (option cli_error)) : body := λ fl _, Some (of_cli (cmd (flags_of fl))).
Definition run1 (cmd : flags → string → Cli (option cli_error)) : body := λ fl args,
  (λ a, of_cli (cmd (flags_of fl) a)) <$> (args !! 0%nat).

Definition serverCmd : Command := group "server" [] [
  leaf "list" ArbitraryArgs [] (run0 (sdk serverListCmd));
  leaf "get [name]" (ExactArgs 1) [] (run1 (sdk serverGetCmd));
  leaf "action [name] [action] [key=value...]" (MinimumNArgs 2) [] (λ fl args,
    name ← args !! 0%nat; action ← args !! 1%nat;
    Some (of_cli (serverActionCmd valid (flags_of fl) name action (drop 2 args))))].
Definition fleetCmd : Command := group "fleet" [] [
  leaf "list" ArbitraryArgs [] (run0 (sdk fleetListCmd));
  leaf "get [name]" (ExactArgs 1) [] (run1 (sdk fleetGetCmd))].
Definition profileCmd : Command := group "profile" [] [
  leaf "list" ArbitraryArgs [] (run0 (sdk profileListCmd));
  leaf "get [name]" (ExactArgs 1) [] (run1 (sdk profileGetCmd))].
Definition snapshotCmd : Command := group "snapshot" [] [
  leaf "list [server]" (ExactArgs 1) [] (run1 (sdk snapshotListCmd));
  leaf "create [server]" (ExactArgs 1) [] (run1 (sdk snapshotCreateCmd))].

Definition consoleCmd : Command :=
  leaf "console [server]" (ExactArgs 1) [] (λ fl args,
    name ← args !! 0%nat;
    Some (let* r := of_dial (runConsole (flags_of fl) name) in
          match r with
          | inr err => Ret (Some (ge_msg err))
          | inl session => let* _ := call (Session session) in Ret None
          end)).

Definition cloudServerCreateFlags : list flag_def := [
  MarkFlagRequired (StringVar "name"); MarkFlagRequired (StringVar "profile"); StringVar "tier";
  StringVar "region"; StringVar "storage"; flag_var "env" (FMap None)].
Definition create_flags_of (fl : given) : create_flags := {|
  cf_name := get_string fl "name" ""; cf_profile := get_string fl "profile" "";
  cf_tier := get_string fl "tier" ""; cf_region := get_string fl "region" "";
  cf_storage := get_string fl "storage" ""; cf_env := get_map fl "env";
|}.
Definition cloudServersCmd : Command := group "servers" [] [
  leaf "list" ArbitraryArgs [] (run0 (cloud cloudServersListCmd));
  leaf "get [id]" (ExactArgs 1) [] (run1 (cloud cloudServersGetCmd));
  leaf "create" ArbitraryArgs cloudServerCreateFlags (λ fl,
    run0 (λ opts, cloud cloudServerCreateCmd opts (create_flags_of fl)) fl);
  leaf "delete [id]" (ExactArgs 1) [] (run1 (cloud cloudServersDeleteCmd))].
Definition cloudSnapshotsCmd : Command := group "snapshots" [] [
  leaf "list [server-id]" (ExactArgs 1) [] (run1 (cloud cloudSnapshotsListCmd));
  leaf "create [server-id]" (ExactArgs 1) [] (run1 (cloud cloudSnapshotsCreateCmd))].
Definition cloudActionsCmd : Command := group "actions" [] [
  leaf "list [server-id]" (ExactArgs 1) [] (run1 (cloud cloudActionsListCmd));
  leaf "run [server-id] [action]" (ExactArgs 2) [flag_var "param" (FMap None)] (λ fl args,
    id ← args !! 0%nat; action ← args !! 1%nat;
    Some (of_cli (cloud cloudActionsRunCmd (flags_of fl) id action (get_map fl "param"))))].
Definition cloudAPIKeysCmd : Command := group "apikeys" [] [
  leaf "list" ArbitraryArgs [] (run0 (cloud cloudAPIKeysListCmd));
  leaf "create" ArbitraryArgs [MarkFlagRequired (StringVar "name"); flag_var "scope" (FSlice [])] (λ fl,
    run0 (λ opts, cloud cloudAPIKeyCreateCmd opts (get_string fl "name" "") (get_slice fl "scope")) fl);
  leaf "delete [id]" (ExactArgs 1) [] (run1 (cloud cloudAPIKeysDeleteCmd))].
Definition cloudCmd : Command :=
  group "cloud" [StringVar "url"; StringVar "tenant"; flag_var "json" (FBool false)] [
    leaf "login" ArbitraryArgs [StringVar "api-key"] (λ fl,
      (* its flag hides the one of the root *)
      run0 (λ opts, cloud cloudLoginCmd opts (get_string fl "api-key" "")) (delete "api-key" fl));
    leaf "logout" ArbitraryArgs [] (run0 (λ _, cloudLogoutCmd cloudConfigPath));
    leaf "whoami" ArbitraryArgs [] (run0 (cloud cloudWhoamiCmd));
    cloudServersCmd; cloudSnapshotsCmd; cloudActionsCmd;
    leaf "catalog" ArbitraryArgs [] (run0 (cloud cloudCatalogCmd));
    leaf "plans" ArbitraryArgs [] (run0 (cloud cloudPlansCmd));
    leaf "subscription" ArbitraryArgs [] (run0 (cloud cloudSubscriptionCmd));
    cloudAPIKeysCmd].
Definition rootCmd : Command :=
  group "minato-ctl" [
    StringVarP "server" "s" "http://localhost:8080"; StringVarP "namespace" "n" "minato";
    StringVarP "api-key" "k" (Getenv "MINATO_API_KEY")]
    [serverCmd; fleetCmd; profileCmd; snapshotCmd; consoleCmd; cloudCmd].

(** ** The process: its exit status *)

Definition finish (err : option cli_error) : Main Z :=
  match err with
  | Some err => let* _ := call (Stderrln err) in Ret 1
  | None => Ret 0
  end.
Definition ctl_main (argv : list string) : Main Z :=
  match Execute rootCmd argv with
  | Help => finish None
  | Invalid e => finish (Some e)
  | Selected path args fl =>
      match find_command rootCmd path ≫= RunE with
      | None => finish None
      | Some run =>
          match run fl args with
          | None => Panic "index out of range"
          | Some cmd => let* err := cmd in finish err
          end
      end
  end.

(** ** Calls that change the stored configuration *)

Definition keeps_cli (X : Type) (e : cliop X) : Prop :=
  match e with CWriteConfig _ => False | _ => True end.
Definition keeps (X : Type) (e : mainop X) : Prop :=
  match e with OfCli e => keeps_cli _ e | _ => True end.

Lemma quiet_keeps {A} (p : Cli A) : always quiet p → always keeps_cli p.
Proof. apply always_mono. by intros X []. Qed.
Lemma lift_keeps {A} (p : Http A) : always keeps_cli (lift p).
Proof. induction p as [a|X [] k IH|m]; cbn; auto. Qed.
Lemma of_cli_keeps {A} (p : Cli A) : always keeps_cli p → always keeps (of_cli p).
Proof. induction p as [a|X e k IH|m]; cbn; [done| |done]. intros [? ?]. auto. Qed.
Lemma of_dial_keeps {A} (p : prog dialop A) : always keeps (of_dial p).
Proof. induction p as [a|X e k IH|m]; cbn; auto. Qed.

Lemma loadCloudConfig_keeps : always keeps_cli (loadCloudConfig cloudConfigPath).
Proof. done. Qed.
Lemma newCloudClient_keeps opts : always keeps_cli (newCloudClient Getenv valid cloudConfigPath opts).
Proof. done. Qed.
Lemma list_tenants_keeps url token : always keeps_cli (list_tenants valid url token).
Proof.
  unfold list_tenants. destruct (cloud_NewClient _ _ _); [|done].
  apply always_bind; [apply lift_keeps|by intros]. 
Qed.
Lemma on_control_plane_keeps {A} opts (op : Client → Http (A + sdk_error)) show :
  always keeps_cli (on_control_plane valid opts op show).
Proof.
  unfold on_control_plane. destruct (NewClient _ _ _); [|done].
  apply always_bind; [apply lift_keeps|]. by intros [].
Qed.
Lemma for_tenant_keeps {A} opts (op : Client → string → Http (A + sdk_error)) show :
  (∀ a, always quiet (show a)) → always keeps_cli (for_tenant Getenv valid cloudConfigPath opts op show).
Proof.
  intros Hs. unfold for_tenant, newCloudClientForTenant.
  apply always_bind; [apply always_bind; [apply newCloudClient_keeps|]; intros [c|e]; [|done];
    apply always_bind; [apply lift_keeps|by intros]|].
  intros [[c id]|e]; [|done]. apply always_bind; [apply lift_keeps|].
  intros [a|e]; [apply quiet_keeps, Hs|done].
Qed.
Lemma tenant_command_keeps opts id action name params create scopes cmd :
  cmd ∈ tenant_commands Getenv valid cloudConfigPath opts id action name params create scopes →
  always keeps_cli cmd.
Proof.
  unfold tenant_commands. intros Hin.
  repeat (apply elem_of_cons in Hin as [->|Hin];
    [apply for_tenant_keeps; intros a;
     repeat first [apply json_or_quiet|apply with_pointer_quiet; intros ?|apply out_quiet]|]).
  by apply elem_of_nil in Hin.
Qed.
Lemma whoami_keeps opts : always keeps_cli (cloudWhoamiCmd Getenv valid cloudConfigPath opts).
Proof.
  unfold cloudWhoamiCmd. apply always_bind; [apply loadCloudConfig_keeps|]. intros [cfg|e]; [|done].
  destruct (resolveCloudToken _ _) as [token mode]. apply always_bind; [apply list_tenants_keeps|].
  intros [l|e]; [|done]. unfold json_or. by destruct (opt_json opts).
Qed.
Lemma plans_keep opts : always keeps_cli (cloudPlansCmd Getenv valid cloudConfigPath opts).
Proof.
  unfold cloudPlansCmd. apply always_bind; [apply newCloudClient_keeps|]. intros [c|e]; [|done].
  apply always_bind; [apply lift_keeps|]. intros [l|e]; [|done]. unfold json_or. by destruct (opt_json opts).
Qed.

(** ** Every command of the tree *)

Fixpoint leaves (c : Command) : list (list string * Command) :=
  match RunE c with Some _ => [([], c)] | None => [] end
  ++ flat_map (λ sub, (λ pc, (Name sub :: pc.1, pc.2)) <$> leaves sub) (Commands c).

Lemma find_command_leaves c path d :
  find_command c path = Some d → is_Some (RunE d) → (path, d) ∈ leaves c.
Proof.
  revert c. induction path as [|name path IH]; intros c; cbn [find_command].
  - intros [= ->] [run Hr]. destruct d. cbn in Hr. subst. left.
  - destruct (find_first _ _) as [sub|] eqn:Hf; [|done]. intros Hs Hr.
    apply find_first_Some in Hf as [Hin Hn]. apply eqs_true in Hn.
    destruct c as [u a pf f r cs]. cbn [leaves Commands] in *. apply elem_of_app. right.
    apply list_elem_of_In, in_flat_map. exists sub. split; [by apply list_elem_of_In|].
    apply list_elem_of_In, list_elem_of_fmap. exists (path, d). rewrite Hn. eauto.
Qed.

(** The two commands that change the stored configuration, and those on a tenant. *)
Definition credential_path (path : list string) : bool :=
  match path with
  | [c; sub] => (c =s "cloud") && ((sub =s "login") || (sub =s "logout"))
  | _ => false
  end.
Definition tenant_path (path : list string) : bool :=
  match path with
  | c :: sub :: _ => (c =s "cloud")
      && existsb (λ s, s =s sub) ["servers"; "snapshots"; "actions"; "catalog"; "subscription"; "apikeys"]
  | _ => false
  end.

(** What holds of a command: its body finds the arguments it reads, changes
    nothing stored but for a login or logout, and is one of [tenant_commands]
    where it should be. *)
Definition leaf_ok (pc : list string * Command) : Prop :=
  ∀ run fl args, RunE pc.2 = Some run → accepts (Args pc.2) args = true →
  ∃ cmd, run fl args = Some cmd
    ∧ (credential_path pc.1 = false → always keeps cmd)
    ∧ (tenant_path pc.1 = true → ∃ c id action name params create scopes, cmd = of_cli c
       ∧ c ∈ tenant_commands Getenv valid cloudConfigPath (flags_of fl) id action name params create scopes).

Lemma plain_leaf_ok path c :
  tenant_path path = false →
  (∀ run fl args, RunE c = Some run → accepts (Args c) args = true →
   ∃ cmd, run fl args = Some cmd ∧ (credential_path path = false → always keeps cmd)) →
  leaf_ok (path, c).
Proof.
  intros Hp H run fl args Hr Ha. destruct (H run fl args Hr Ha) as (cmd & ? & ?).
  exists cmd. split_and!; [done..|]. cbn. congruence.
Qed.

Lemma tenant_leaf_ok path c :
  (∀ run fl args, RunE c = Some run → accepts (Args c) args = true →
   ∃ cmd id action name params create scopes, run fl args = Some (of_cli cmd)
     ∧ cmd ∈ tenant_commands Getenv valid cloudConfigPath (flags_of fl) id action name params create scopes) →
  leaf_ok (path, c).
Proof.
  intros H run fl args Hr Ha.
  destruct (H run fl args Hr Ha) as (cmd & id & action & name & params & create & scopes & ? & Hin).
  exists (of_cli cmd). split; [done|]. split; [intros _; by eapply of_cli_keeps, tenant_command_keeps|].
  intros _. by exists cmd, id, action, name, params, create, scopes.
Qed.

Ltac take_args args Ha :=
  cbn [Args leaf accepts] in Ha;
  first [apply Nat.eqb_eq in Ha|apply Nat.leb_le in Ha|clear Ha];
  try (destruct args as [|?a [|?b [|? ?]]]; try discriminate Ha; try (cbn in Ha; lia)).
Ltac plain_leaf tac :=
  apply plain_leaf_ok; [vm_compute; reflexivity|];
  intros run fl args [= <-] Ha; take_args args Ha; (eexists; split; [reflexivity|intros Hpath]); tac.
Ltac sdk_leaf := plain_leaf ltac:(apply of_cli_keeps, on_control_plane_keeps).
Ltac tenant_leaf i :=
  apply tenant_leaf_ok; intros run fl args [= <-] Ha; take_args args Ha; do 7 eexists;
  (split; [cbn [lookup list_lookup mbind option_bind]; reflexivity
          |apply (list_elem_of_lookup_2 _ i); reflexivity]).

Lemma leaves_ok : Forall leaf_ok (leaves rootCmd).
Proof.
  unfold rootCmd, serverCmd, fleetCmd, profileCmd, snapshotCmd, cloudCmd, cloudServersCmd, cloudSnapshotsCmd,
    cloudActionsCmd, cloudAPIKeysCmd, group.
  cbn [leaves flat_map fmap list_fmap app RunE Commands leaf consoleCmd fst snd].
  repeat apply Forall_cons_2; [..|apply Forall_nil_2].
  1-9: sdk_leaf.
  - plain_leaf ltac:(apply always_bind; [apply of_dial_keeps|by intros []]).
  - plain_leaf ltac:(vm_compute in Hpath; discriminate Hpath).
  - plain_leaf ltac:(vm_compute in Hpath; discriminate Hpath).
  - plain_leaf ltac:(apply of_cli_keeps, whoami_keeps).
  - tenant_leaf 0%nat.
  - tenant_leaf 1%nat.
  - tenant_leaf 2%nat.
  - tenant_leaf 3%nat.
  - tenant_leaf 4%nat.
  - tenant_leaf 5%nat.
  - tenant_leaf 6%nat.
  - apply tenant_leaf_ok. intros run fl args [= <-] Ha. take_args args Ha.
    exists (cloudActionsRunCmd Getenv valid cloudConfigPath (flags_of fl) a b (get_map fl "param")),
      a, b, "", (get_map fl "param"), (create_flags_of fl), [].
    split; [reflexivity|apply (list_elem_of_lookup_2 _ 7%nat); reflexivity].
  - tenant_leaf 8%nat.
  - plain_leaf ltac:(apply of_cli_keeps, plans_keep).
  - tenant_leaf 9%nat.
  - tenant_leaf 10%nat.
  - tenant_leaf 11%nat.
  - tenant_leaf 12%nat.
  Unshelve. all: first [exact ""|exact None|exact (create_flags_of ∅)|exact []].
Qed.

(** ** The process *)

Definition of_event (v : event cliop) : event mainop := match v with @Ev _ X e x => Ev (OfCli e) x end.
Definition is_stderr (v : event mainop) : Prop :=
  match v with @Ev _ X e _ => match e with Stderrln _ => True | _ => False end end.

Lemma of_cli_runs {A} (p : Cli A) t o : runs (of_cli p) t o → ∃ t0, t = of_event <$> t0 ∧ runs p t0 o.
Proof.
  revert t. induction p as [a|X e k IH|m]; intros t; cbn [of_cli runs].
  - intros [-> ->]. by exists [].
  - intros (x & t' & -> & (t0 & -> & H)%IH). exists (Ev e x :: t0). split; [done|by exists x, t0].
  - intros [-> ->]. by exists [].
Qed.

(** The end of the process: nothing, or the line of an error, and its status. *)
Definition finished (t : list (event mainop)) (o : outcome Z) : Prop :=
  match o with
  | Crash _ => t = []
  | Done code => (code = 0 ∧ t = []) ∨ (code = 1 ∧ ∃ line, t = [Ev (Stderrln line) tt])
  end.
Lemma finish_runs err t o : runs (finish err) t o → finished t o.
Proof.
  destruct err as [line|]; cbn.
  - intros ([] & t' & -> & -> & ->). right. eauto.
  - intros [-> ->]. by left.
Qed.
Lemma finished_not_write t o data r : finished t o → Ev (OfCli (CWriteConfig data)) r ∉ t.
Proof.
  destruct o as [code|m]; [intros [[_ ->]|(_ & line & ->)]|intros ->]; try apply not_elem_of_nil.
  by intros [H|H%elem_of_nil]%elem_of_cons.
Qed.

(** What the selected command does. *)
Definition selected_ok (path args : list string) (fl : given) (cmd : Main (option cli_error)) : Prop :=
  (∃ run, find_command rootCmd path ≫= RunE = Some run ∧ run fl args = Some cmd)
  ∧ (credential_path path = false → always keeps cmd)
  ∧ (tenant_path path = true → ∃ c id action name params create scopes, cmd = of_cli c
     ∧ c ∈ tenant_commands Getenv valid cloudConfigPath (flags_of fl) id action name params create scopes).

Lemma selected_command argv path args fl :
  Execute rootCmd argv = Selected path args fl →
  ∃ cmd, ctl_main argv = (let* err := cmd in finish err) ∧ selected_ok path args fl cmd.
Proof.
  intros He. destruct (Execute_selects _ _ _ _ _ He) as (c & Hc & [run Hr] & Ha & _).
  pose proof leaves_ok as Hl. rewrite Forall_forall in Hl.
  destruct (Hl _ (find_command_leaves _ _ _ Hc (ex_intro _ run Hr)) run fl args Hr Ha) as (cmd & Hcmd & ? & ?).
  assert (Hrun : find_command rootCmd path ≫= RunE = Some run) by by rewrite Hc.
  exists cmd. split; [|split_and!; [by exists run|done..]].
  unfold ctl_main. by rewrite He, Hrun, Hcmd.
Qed.

(** The runs of the process: those of the command, then its end. *)
Lemma ctl_main_runs argv t o :
  runs (ctl_main argv) t o →
  ∃ t1 t2, t = t1 ++ t2 ∧ finished t2 o ∧
    match Execute rootCmd argv with
    | Selected path args fl => ∃ cmd o1, selected_ok path args fl cmd ∧ runs cmd t1 o1
    | _ => t1 = []
    end.
Proof.
  destruct (Execute rootCmd argv) as [|e|path args fl] eqn:He.
  1,2: unfold ctl_main; rewrite He; intros ?%finish_runs; by exists [], t.
  destruct (selected_command _ _ _ _ He) as (cmd & -> & Hok).
  intros [(m & H & ->)|(err & t1 & t2 & -> & H1 & H2)]%runs_bind.
  - exists t, []. rewrite app_nil_r. split_and!; try done. by exists cmd, (Crash m).
  - exists t1, t2. split_and!; [done|by eapply finish_runs|]. by exists cmd, (Done err).
Qed.

(** C25: *the tool, for any command line.* The command selected finds its arguments; the
    stored configuration is changed by [cloud login] and [cloud logout] only; a command
    on a tenant stays with the one that the value of its flag [--tenant] names; and
    unless it panics the process ends with status 0, or with status 1 after it has
    printed an error. *)
Theorem process_scoped argv t o :
  runs (ctl_main argv) t o →
  (∀ path args fl, Execute rootCmd argv = Selected path args fl →
     ∃ run cmd, find_command rootCmd path ≫= RunE = Some run ∧ run fl args = Some cmd)
  ∧ (∀ data r, Ev (OfCli (CWriteConfig data)) r ∈ t →
     ∃ path args fl, Execute rootCmd argv = Selected path args fl ∧ credential_path path = true)
  ∧ (∀ path args fl, Execute rootCmd argv = Selected path args fl → tenant_path path = true →
     ∃ t0 t2, t = (of_event <$> t0) ++ t2 ∧ finished t2 o
       ∧ tenant_scoped Getenv cloudConfigPath (flags_of fl) t0
       ∧ opt_tenant (flags_of fl) = (match fl !! "tenant" with Some (FString s) => s | _ => "" end)
       ∧ opt_url (flags_of fl) = (match fl !! "url" with Some (FString s) => s | _ => "" end))
  ∧ (∀ code, o = Done code →
     code = 0 ∨ (code = 1 ∧ ∃ pre line, t = pre ++ [Ev (Stderrln line) tt])).
Proof.
  intros (t1 & t2 & -> & H2 & H1)%ctl_main_runs. split_and!.
  - intros path args fl He. rewrite He in H1. destruct H1 as (cmd & _ & ((run & ? & ?) & _) & _).
    by exists run, cmd.
  - intros data r [Hin|Hin]%elem_of_app; [|by eapply finished_not_write in H2].
    destruct (Execute rootCmd argv) as [|e|path args fl]; [by subst; apply elem_of_nil in Hin..|].
    exists path, args, fl. split; [done|]. destruct H1 as (cmd & o1 & (_ & Hk & _) & Hr).
    destruct (credential_path path); [done|]. exfalso.
    pose proof (always_runs _ _ _ _ (Hk eq_refl) Hr) as Hall. rewrite Forall_forall in Hall.
    by apply Hall in Hin.
  - intros path args fl He Hp. rewrite He in H1. destruct H1 as (cmd & o1 & (_ & _ & Ht) & Hr).
    destruct (Ht Hp) as (c & id & action & name & params & create & scopes & -> & Hin).
    apply of_cli_runs in Hr as (t0 & -> & Hr). exists t0, t2. split_and!; [done..| |done|done].
    by eapply tenant_commands_scoped.
  - intros code ->. destruct H2 as [[-> _]|(-> & line & ->)]; [by left|right]. eauto.
Qed.

(** The default of [--api-key], which cobra's usage shows, is the key of the
    environment. *)
Lemma api_key_is_a_default : Getenv "MINATO_API_KEY" ∈ omap (λ f,
  match fd_Default f with FString s => Some s | _ => None end) (PersistentFlags rootCmd).
Proof. right. right. left. Qed.

(** Every command's usage names as many arguments as it demands. *)
Definition named_args (use : string) : nat :=
  length (List.filter (λ w, HasPrefix w "[" && negb (HasSuffix w "...]")) (Fields use)).
Lemma usage_agrees : Forall (λ pc, named_args (Use pc.2) =
  match Args pc.2 with ArbitraryArgs => 0 | ExactArgs n | MinimumNArgs n => n end)%nat (leaves rootCmd).
Proof. repeat apply Forall_cons_2; [reflexivity..|apply Forall_nil_2]. Qed.
End Main.

(** ** Witnesses *)

#[local] Existing Instances ex_JsonText ex_RFC3339 ex_Url.
#[local] Instance ex_IndentJSON : IndentJSON := {|
  print_indent := print; parse_indent := λ j H, proj1 (parse_print j H) |}.
#[local] Instance ex_DateFormat : DateFormat := λ _, "2026-01-02".
#[local] Instance ex_RFC3339Nano : RFC3339Nano := λ _, "2026-01-02T03:04:05Z".
#[local] Instance ex_UrlParse : UrlParse := λ _, inl ("http", "minato").

(** A parser without flags, but for a fixed [--url] and [--tenant]: the longest path of
    commands, then arguments. *)
Definition ex_given : given := {["url" := FString ex_origin; "tenant" := FString "Acme"]}.
Fixpoint ex_split (c : Command) (argv : list string) : list string * list string :=
  match argv with
  | [] => ([], [])
  | name :: rest =>
      match find_first (λ sub, Name sub =s name) (Commands c) with
      | Some sub => let '(p, a) := ex_split sub rest in (name :: p, a)
      | None => ([], argv)
      end
  end.
Definition ex_runnable (c : Command) (args : list string) : bool :=
  match RunE c with
  | Some _ => accepts (Args c) args && forallb (λ f, negb (fd_Required f)) (Flags c)
  | None => false
  end.
Definition ex_Execute (root : Command) (argv : list string) : selection :=
  let '(path, args) := ex_split root argv in
  match find_command root path with
  | Some c => if ex_runnable c args then Selected path args ex_given else Invalid "usage"
  | None => Help
  end.
#[local] Instance ex_Cobra : Cobra.
Proof.
  refine {| Execute := ex_Execute |}. unfold ex_Execute. intros root argv path args fl.
  destruct (ex_split root argv) as [p a]. destruct (find_command root p) as [c|] eqn:Hc; [|done].
  destruct (ex_runnable c a) eqn:Hr; [|done]. intros [= <- <- <-]. exists c. split; [done|].
  unfold ex_runnable in Hr. destruct (RunE c); [|done]. apply andb_true_iff in Hr as [Ha Hf].
  split_and!; [by eexists|done|]. intros f Hin Hq. rewrite forallb_forall in Hf.
  specialize (Hf f (proj1 (list_elem_of_In _ _) Hin)). by rewrite Hq in Hf.
Defined.

Definition ex_main_answer (X : Type) (e : mainop X) (s : unit) : X * unit :=
  match e in mainop X return X * unit with
  | OfCli e => ex_cloud _ e s
  | OfDial e => (match e in dialop X return X with Dial _ _ => None end, s)
  | Session _ => (tt, s)
  | Stderrln _ => (tt, s)
  end.
Definition ex_main (argv : list string) : Main Z := ctl_main ex_env (λ _, None) ex_path argv.
Definition ex_urls (t : list (event mainop)) : list string :=
  omap (λ v : event mainop, match v with
    | @Ev _ X e _ => match e with OfCli (CHttp q) => Some (hq_URL q) | _ => None end end) t.

(** The tenant is found by its name, whatever its case, and the server is read below
    it; a command without its argument is refused. *)
Lemma process_scoped_witness :
  let r := exec ex_main_answer (ex_main ["cloud"; "servers"; "get"; "srv-1"]) tt in
  r.1.2 = Done 0
  ∧ ex_urls r.1.1 = ["http://minato/api/v1/me/tenants"; "http://minato/api/v1/tenants/t-2/servers/srv-1"]
  ∧ (∀ data a, Ev (OfCli (CWriteConfig data)) a ∉ r.1.1)
  ∧ (exec ex_main_answer (ex_main ["cloud"; "servers"; "get"]) tt).1
    = ([Ev (Stderrln "usage") tt], Done 1).
Proof.
  intros r. split; [vm_compute; reflexivity|]. split; [vm_compute; reflexivity|].
  split; [|vm_compute; reflexivity]. intros data a Hin.
  pose proof (process_scoped ex_env (λ _, None) ex_path _ _ _
    (exec_result_runs ex_main_answer (ex_main ["cloud"; "servers"; "get"; "srv-1"]) tt)) as (_ & Hw & _).
  apply Hw in Hin as (path & args & fl & Hs & Hp).
  vm_compute in Hs. injection Hs as <- _ _. discriminate Hp.
Defined.
