(* ===== verification/FakeClient.v ===== *)
(** * FakeClient: a cluster in memory

    The Go tests run the code against a fake client: objects held in memory, which
    reads, writes and deletions act on, and interceptors that let a call fail. This is one for
    the model, as a handler of its calls. Programs run on it compute: the lemmas of [GoApiTests] and
    [GoControllerTests] are such runs. *)

From Stdlib Require Import Ascii String.
From S2P Require Import Prelude GoStrings Prog Api Kube.

(** ** A cluster in memory *)
Record cluster := {
  objects : ∀ k, list (obj k);
  (** are snapshots indexed by the server they name? *)
  indexed : bool;
  (** the audit events written *)
  audited : list Event;
}.
Definition empty_cluster : cluster := {| objects _ := []; indexed := true; audited := [] |}.

Definition set_objects (k0 : kind) (l : list (obj k0)) (c : cluster) : cluster := {|
  objects k := match decide (k0 = k) with
               | left E => eq_rect k0 (λ k, list (obj k)) l k E
               | right _ => objects c k
               end;
  indexed := indexed c; audited := audited c |}.
Definition named (k : kind) (ns name : string) (o : obj k) : bool :=
  (om_Namespace (obj_meta k o) =s ns) && (om_Name (obj_meta k o) =s name).
Definition same (k : kind) (a b : obj k) : bool :=
  named k (om_Namespace (obj_meta k a)) (om_Name (obj_meta k a)) b.
Definition present (k : kind) (o : obj k) (c : cluster) : bool := existsb (same k o) (objects c k).
Definition put (k : kind) (o : obj k) (c : cluster) : cluster :=
  set_objects k (if present k o c
                 then map (λ o', if same k o o' then o else o') (objects c k)
                 else objects c k ++ [o]) c.
(** [WithObjects]. *)
Definition with_objects (k : kind) (l : list (obj k)) (c : cluster) : cluster :=
  fold_left (λ c o, put k o c) l c.

Definition not_found (name : string) : gerr :=
  {| ge_reason := RNotFound; ge_msg := fmt_q name +:+ " not found" |}.
Definition already_exists (name : string) : gerr :=
  {| ge_reason := RAlreadyExists; ge_msg := fmt_q name +:+ " already exists" |}.
Definition get (k : kind) (ns name : string) (c : cluster) : obj k + gerr :=
  match find_first (named k ns name) (objects c k) with
  | Some o => inl o
  | None => inr (not_found name)
  end.
Definition exists_ (k : kind) (ns name : string) (c : cluster) : bool :=
  match get k ns name c with inl _ => true | inr _ => false end.

(** Deletion waits for the finalizers: an object that has some is marked, and goes
    with the update that removes the last. *)
Definition remove (k : kind) (o : obj k) (c : cluster) : cluster :=
  set_objects k (filter (λ o', negb (same k o o')) (objects c k)) c.
Definition finished (m : ObjectMeta) : bool :=
  negb (bool_decide (om_DeletionTimestamp m = None)) && bool_decide (om_Finalizers m = []).
Definition meta_set_Deleted (t : Z) (m : ObjectMeta) : ObjectMeta := {|
  om_Name := om_Name m; om_Namespace := om_Namespace m; om_Labels := om_Labels m;
  om_Annotations := om_Annotations m; om_Generation := om_Generation m;
  om_CreationTimestamp := om_CreationTimestamp m; om_DeletionTimestamp := Some t;
  om_Finalizers := om_Finalizers m; om_Controller := om_Controller m |}.

Definition has_labels (labels : list (string * string)) (m : ObjectMeta) : bool :=
  forallb (λ '(l, v), bool_decide (gm_lookup (om_Labels m) l = Some v)) labels.
Definition field_of (k : kind) : obj k → string :=
  match k with KSnap => λ s, sn_GameServerRef (sn_Spec s) | _ => λ _, "" end.
Definition in_namespace (k : kind) (ns : option string) (o : obj k) : bool :=
  match ns with None => true | Some ns => om_Namespace (obj_meta k o) =s ns end.

(** What is applied does not touch the status the cluster has recorded. *)
Definition keep_status (k : kind) (c : cluster) : obj k → obj k :=
  match k return obj k → obj k with
  | KSts => λ o,
      match find_first (same KSts o) (objects c KSts) with
      | Some old => {|
          sts_Meta := sts_Meta o; sts_Replicas := sts_Replicas o; sts_Selector := sts_Selector o;
          sts_ServiceName := sts_ServiceName o; sts_TemplateLabels := sts_TemplateLabels o;
          sts_TemplateSpec := sts_TemplateSpec o; sts_ReadyReplicas := sts_ReadyReplicas old |}
      | None => o
      end
  | KSvc => λ o,
      match find_first (same KSvc o) (objects c KSvc) with
      | Some old => {|
          svc_Meta := svc_Meta o; svc_Type := svc_Type o; svc_ClusterIP := svc_ClusterIP o;
          svc_Selector := svc_Selector o; svc_Ports := svc_Ports o;
          svc_PublishNotReadyAddresses := svc_PublishNotReadyAddresses o;
          svc_LoadBalancerIP := svc_LoadBalancerIP o; svc_Ingress := svc_Ingress old |}
      | None => o
      end
  | _ => λ o, o
  end.

(** What the cluster answers; calls that are not to the API server succeed, at
    1000 seconds. *)
Definition fake (X : Type) (e : op X) (c : cluster) : X * cluster :=
  match e in op X return X * cluster with
  | Get k ns name => (get k ns name c, c)
  | ListObjs k ns labels =>
      (inl (filter (λ o, in_namespace k ns o && has_labels labels (obj_meta k o)) (objects c k)), c)
  | ListByField k ns _ value =>
      (if indexed c
       then inl (filter (λ o, in_namespace k (Some ns) o && (field_of k o =s value)) (objects c k))
       else inr (errorf "no index with name field:spec.gameServerRef has been registered"), c)
  | Create k o =>
      if present k o c then (Some (already_exists (om_Name (obj_meta k o))), c) else (None, put k o c)
  | Update k o | StatusUpdate k o =>
      if present k o c then (None, if finished (obj_meta k o) then remove k o c else put k o c)
      else (Some (not_found (om_Name (obj_meta k o))), c)
  | Apply k o | CreateOrUpdate k o => (None, put k (keep_status k c o) c)
  | Delete k ns name =>
      match get k ns name c with
      | inl o => (None, if bool_decide (om_Finalizers (obj_meta k o) = []) then remove k o c
                        else put k (obj_map_meta (meta_set_Deleted (1000 * second)) k o) c)
      | inr e => (Some e, c)
      end
  | AuditWrite e => (tt, {| objects := objects c; indexed := indexed c; audited := audited c ++ [e] |})
  | e => (answer no_objects no_lists (1000 * second) _ e, c)
  end.

(** An interceptor answers some of the calls itself. *)
Definition intercept (f : ∀ X, op X → option X) (X : Type) (e : op X) (c : cluster) : X * cluster :=
  match f X e with
  | Some x => (x, c)
  | None => fake X e c
  end.
Definition nothing (X : Type) (e : op X) : option X := None.

(** A client without the scheme of the resources: every call fails. *)
Definition no_kind : gerr := errorf "no kind is registered for the type".
Definition unregistered (X : Type) (e : op X) : option X :=
  match e in op X return option X with
  | Get _ _ _ | ListObjs _ _ _ | ListByField _ _ _ _ => Some (inr no_kind)
  | Create _ _ | Update _ _ | StatusUpdate _ _ | Apply _ _ | CreateOrUpdate _ _
  | Delete _ _ _ => Some (Some no_kind)
  | _ => None
  end.

(** The calls a program makes, what it gives, and the cluster it leaves. *)
Definition run_with {A} (f : ∀ X, op X → option X) (c : cluster) (p : M A)
    : option (list (event op) * A * cluster) :=
  match exec (intercept f) p c with
  | (t, Done a, c) => Some (t, a, c)
  | _ => None
  end.
Definition run_on {A} (c : cluster) (p : M A) : option (A * cluster) :=
  (λ x, (x.1.2, x.2)) <$> run_with nothing c p.
