(* ===== verification/GoTests.v ===== *)
(** * GoTests: the repository's unit tests, run on the model

    Each lemma of this file is a Go test of the repository, with the test's
    inputs and expectations: the table of a table-driven test is a list, the
    statement says what the model gives on each of its rows. They tie the definitions to
    the code from another side than the theorems: where the Go test passes on the code,
    its lemma holds of the model. *)

From Stdlib Require Import Ascii String.
From S2P Require Import Prelude GoStrings Prog Api Kube Builder Webhook Auth Rbac.
From S2P Require Players Agent Registrar.

(** A table-driven test: every row passes. *)
Definition rows {A} (test : A → bool) (table : list A) : bool := forallb test table.

(** ** [sdk/agent/rcon/parsers_test.go] *)
Module RconTests.
Import Players.
Definition name_in_quotes (s : string) : string := quoted s.
Definition counts (o c : Z) : Z * Z := (o, c).

Lemma TestParseMinecraftPlayerCount :
  map parseMinecraftPlayerCount [
    "There are 5 of a max 20 players online: player1, player2";
    "There are 3 of a max 10 players online";
    "There are 0 of a max 20 players online";
    "some random output"]
  = [counts 5 20; counts 3 10; counts 0 20; counts 0 0].
Proof. vm_compute. reflexivity. Qed.

Definition two_players : string :=
  "# 1 " +:+ name_in_quotes "player1" +:+ newline +:+ "# 2 " +:+ name_in_quotes "player2".
Lemma TestParseSourcePlayerCount :
  map parseSourcePlayerCount [
    "hostname: Test Server" +:+ newline +:+ "players : 5 (20 max)" +:+ newline +:+ "# userid name";
    two_players; ""]
  = [counts 5 20; counts 2 0; counts 0 0].
Proof. vm_compute. reflexivity. Qed.
Lemma TestParseSourcePlayerList :
  parseSourcePlayerList ("# userid name" +:+ newline +:+ two_players)
  = [name_in_quotes "player1"; name_in_quotes "player2"].
Proof. vm_compute. reflexivity. Qed.
End RconTests.

(** ** [internal/controlplane/auth/namespace_test.go], [auth_test.go] *)
Module AuthTests.
Lemma TestMatchNamespacePattern :
  rows (λ '(pattern, ns, want), eqb (MatchNamespacePattern pattern ns) want) [
    ("tenant-a", "tenant-a", true); ("tenant-a", "tenant-b", false);
    ("*", "anything", true); ("*", "", true);
    ("tenant-*", "tenant-a", true); ("tenant-*", "tenant-", true);
    ("tenant-*", "tenant", false); ("tenant-*", "other-a", false);
    ("tenant-*", "x-tenant-a", false); ("", "tenant-a", false);
    ("tenant-a*", "tenant-ab", true); ("*a", "tenant-a", false); ("ten*ant", "tenant", false)]
  = true.
Proof. vm_compute. reflexivity. Qed.
Lemma TestMatchAnyNamespace :
  map (uncurry MatchAnyNamespace) [
    (["tenant-a"; "prod-*"], "prod-eu"); (["tenant-a"; "prod-*"], "tenant-a");
    (["tenant-a"; "prod-*"], "staging"); ([], "tenant-a")]
  = [true; true; false; false].
Proof. vm_compute. reflexivity. Qed.
Lemma TestParseNamespaces :
  map ParseNamespaces ["tenant-a, tenant-*"; "a"; ""; " , ,"; "a,,b"]
  = [["tenant-a"; "tenant-*"]; ["a"]; []; []; ["a"; "b"]].
Proof. vm_compute. reflexivity. Qed.

Definition user (id name role : string) (namespaces : list string) : User := {|
  us_ID := id; us_Username := name; us_Email := ""; us_Role := role; us_Source := "";
  us_Namespaces := namespaces |}.
Lemma TestUserAllowsNamespace :
  let clusterWide := Some (user "1" "admin" "" []) in
  let scoped := Some (user "2" "ci" "" ["tenant-a"; "tenant-*"]) in
  (ClusterWide clusterWide = true ∧ AllowsNamespace clusterWide "anything" = true)
  ∧ (ClusterWide scoped = false ∧ map (AllowsNamespace scoped) ["tenant-a"; "tenant-b"; "other"]
       = [true; true; false])
  ∧ ClusterWide None = true ∧ AllowsNamespace None "anything" = true.
Proof. vm_compute. auto. Qed.

(** [http.NewRequest] *)
Definition bare (method path : string) : Request := ex_request method path "" None.
Definition with_header (k v : string) (r : Request) : Request := {|
  rq_Method := rq_Method r; rq_Path := rq_Path r;
  rq_Header := λ h, if h =s k then v else rq_Header r h;
  rq_BasicAuth := rq_BasicAuth r; rq_Param := rq_Param r; rq_Query := rq_Query r;
  rq_Body := rq_Body r; rq_RemoteAddr := rq_RemoteAddr r; rq_User := rq_User r |}.
Definition SetBasicAuth (u p : string) (r : Request) : Request := {|
  rq_Method := rq_Method r; rq_Path := rq_Path r; rq_Header := rq_Header r;
  rq_BasicAuth := Some (u, p); rq_Param := rq_Param r; rq_Query := rq_Query r;
  rq_Body := rq_Body r; rq_RemoteAddr := rq_RemoteAddr r; rq_User := rq_User r |}.

Definition who (u : User) : string * string * string := (us_Username u, us_Role u, us_Source u).
Lemma TestNoneProvider :
  pv_Name NewNoneProvider = "none"
  ∧ pv_Authenticate NewNoneProvider (bare "GET" "/") = Ret (inl anonymous)
  ∧ who anonymous = ("anonymous", "admin", "none").
Proof. vm_compute. auto. Qed.
Lemma TestChain : chain_Authenticate [NewNoneProvider] (bare "GET" "/") = Ret (inl anonymous).
Proof. reflexivity. Qed.
Lemma TestExtractBearer :
  map ExtractBearer [
    with_header "Authorization" "Bearer token123" (bare "GET" "/"); bare "GET" "/";
    with_header "Authorization" "Basic dXNlcjpwYXNz" (bare "GET" "/")]
  = ["token123"; ""; ""].
Proof. vm_compute. reflexivity. Qed.

(** A bcrypt that hashes nothing. *)
#[local] Instance plain_bcrypt : Bcrypt := λ hash password, hash =s ("$2a$" +:+ password).
Definition bcrypt_answers (X : Type) (e : op X) : X :=
  match e in op X return X with
  | BcryptGenerate password => inl ("$2a$" +:+ password)
  | e => answer no_objects no_lists 0 _ e
  end.
(** The provider of a configuration, asked with each request. *)
Definition ask (password : string) (requests : list Request)
    : outcome (string * list (User + gerr) + gerr) :=
  run_outcome bcrypt_answers (
    let* p := NewBasicProvider {|
      bc_Enabled := true; bc_User := "admin"; bc_Password := password; bc_Role := "admin" |} in
    match p with
    | inr e => Ret (inr e)
    | inl p =>
        Ret (inl (pv_Name p,
          omap (λ r, match run_outcome bcrypt_answers (pv_Authenticate p r) with
                     | Done u => Some u | Crash _ => None end) requests))
    end).
Definition admin : User := {|
  us_ID := "admin"; us_Username := "admin"; us_Email := ""; us_Role := "admin";
  us_Source := "basic"; us_Namespaces := [] |}.
Lemma TestBasicProvider :
  ask "secret123" [SetBasicAuth "admin" "secret123" (bare "GET" "/");
                   SetBasicAuth "admin" "wrong" (bare "GET" "/"); bare "GET" "/"]
  = Done (inl ("basic", [inl admin; inr ErrUnauthorized; inr ErrUnauthorized])).
Proof. vm_compute. reflexivity. Qed.
Lemma TestBasicProvider_HashedPassword :
  ask "$2a$secret123" [SetBasicAuth "admin" "secret123" (bare "GET" "/")]
  = Done (inl ("basic", [inl admin])).
Proof. vm_compute. reflexivity. Qed.

Lemma TestGetUser :
  let alice := user "123" "alice" "admin" [] in
  GetUser (WithUser alice (bare "GET" "/")) = Some alice ∧ GetUser (bare "GET" "/") = None.
Proof. vm_compute. auto. Qed.
Lemma TestLoadConfig :
  let cfg := LoadConfig (λ _, "") in
  cfg_Mode cfg = "none" ∧ bc_Enabled (cfg_Basic cfg) = false
  ∧ oi_Enabled (cfg_OIDC cfg) = false ∧ cfg_APIKey_Enabled cfg = false.
Proof. vm_compute. auto. Qed.
End AuthTests.

(** ** [internal/controlplane/rbac/routeguard_test.go], [namespaceguard_test.go] *)
Module RbacTests.
Import AuthTests.
Lemma TestMatchPath :
  rows (λ '(pattern, path, want), eqb (MatchPath pattern path) want) [
    ("/api/v1/gameservers", "/api/v1/gameservers", true);
    ("/api/v1/gameservers/{namespace}", "/api/v1/gameservers/default", true);
    ("/api/v1/gameservers/{namespace}", "/api/v1/gameservers/default/gs1", false);
    ("/api/v1/gameservers/{namespace}/{name}", "/api/v1/gameservers/default/gs1", true);
    ("/api/v1/gameservers/{namespace}/{name}/console", "/api/v1/gameservers/default/gs1/console", true);
    ("/api/v1/gameservers/{namespace}/{name}", "/api/v1/gameservers/default/gs1/console", false);
    ("/api/v1/apikeys/{keyId}", "/api/v1/apikeys/abc", true);
    ("/api/v1/apikeys", "/api/v1/apikeys/abc", false)] = true.
Proof. vm_compute. reflexivity. Qed.

(** The status a guard in front of a handler answers. *)
Definition status (guard : Middleware_t) (method path : string) (u : option User) : option Z :=
  match guard ex_ok (ex_request method path "" u) with
  | Ret rsp => Some (rsp_Status rsp)
  | _ => None
  end.
Definition as_role (role : string) : option User :=
  if role =s "" then None else Some (user "u" "u" role []).

Lemma TestRouteGuard :
  rows (λ '(method, path, role, want),
          bool_decide (status (RouteGuard DefaultRules) method path (as_role role) = Some want)) [
    ("GET", "/api/v1/gameservers", "viewer", 200);
    ("POST", "/api/v1/gameservers/default", "viewer", 403);
    ("POST", "/api/v1/gameservers/default", "operator", 403);
    ("POST", "/api/v1/gameservers/default", "admin", 200);
    ("DELETE", "/api/v1/gameservers/default/gs1", "admin", 200);
    ("DELETE", "/api/v1/gameservers/default/gs1", "viewer", 403);
    ("POST", "/api/v1/gameservers/default/gs1/actions/restart", "operator", 200);
    ("POST", "/api/v1/gameservers/default/gs1/actions/restart", "viewer", 403);
    ("POST", "/api/v1/gameservers/default/gs1/snapshots", "operator", 200);
    ("GET", "/api/v1/gameservers/default/gs1/console", "viewer", 403);
    ("GET", "/api/v1/gameservers/default/gs1/console", "operator", 200);
    ("GET", "/api/v1/gameservers/default/gs1/sftp", "viewer", 403);
    ("GET", "/api/v1/gameservers/default/gs1/sftp", "operator", 200);
    ("GET", "/api/v1/gameservers/default/gs1/sftp", "admin", 200);
    ("GET", "/api/v1/apikeys", "operator", 403);
    ("GET", "/api/v1/apikeys", "admin", 200);
    ("DELETE", "/api/v1/apikeys/abc", "admin", 200);
    ("GET", "/api/v1/apikeys", "", 401);
    ("PATCH", "/api/v1/gameservers/default/gs1", "operator", 200);
    ("PATCH", "/api/v1/gameservers/default/gs1", "admin", 200);
    ("PATCH", "/api/v1/gameservers/default/gs1", "viewer", 403);
    ("POST", "/api/v1/gameserverfleets/default", "admin", 200);
    ("POST", "/api/v1/gameserverfleets/default", "operator", 403);
    ("POST", "/api/v1/gameserverfleets/default", "viewer", 403);
    ("PATCH", "/api/v1/gameserverfleets/default/f1", "operator", 200);
    ("PATCH", "/api/v1/gameserverfleets/default/f1", "viewer", 403);
    ("DELETE", "/api/v1/gameserverfleets/default/f1", "admin", 200);
    ("DELETE", "/api/v1/gameserverfleets/default/f1", "operator", 403);
    ("GET", "/api/v1/gameserverfleets/default/f1", "viewer", 200)] = true.
Proof. vm_compute. reflexivity. Qed.

Lemma TestNamespaceFromPath :
  map NamespaceFromPath [
    "/api/v1/gameservers"; "/api/v1/gameservers/tenant-a"; "/api/v1/gameservers/tenant-a/gs1";
    "/api/v1/gameservers/tenant-a/gs1/console"; "/api/v1/gameserverfleets/tenant-b/fleet1";
    "/api/v1/profiles"; "/api/v1/profiles/minecraft"; "/api/v1/apikeys"; "/api/v1/apikeys/abc";
    "/healthz"]
  = [""; "tenant-a"; "tenant-a"; "tenant-a"; "tenant-b"; ""; ""; ""; ""; ""].
Proof. vm_compute. reflexivity. Qed.

Definition clusterWide := Some (user "1" "admin" "admin" []).
Definition scoped := Some (user "2" "ci" "admin" ["tenant-a"]).
Definition glob := Some (user "3" "ci" "admin" ["tenant-*"]).
Lemma TestNamespaceGuard :
  rows (λ '(path, u, want), bool_decide (status NamespaceGuard "GET" path u = Some want)) [
    ("/api/v1/gameservers/tenant-b/gs1", clusterWide, 200);
    ("/api/v1/gameservers/tenant-a/gs1", scoped, 200);
    ("/api/v1/gameservers/tenant-b/gs1", scoped, 403);
    ("/api/v1/gameservers/tenant-b", scoped, 403);
    ("/api/v1/gameservers/tenant-x/gs1", glob, 200);
    ("/api/v1/gameservers/prod/gs1", glob, 403);
    ("/api/v1/gameservers", scoped, 200);
    ("/api/v1/profiles/minecraft", scoped, 200);
    ("/api/v1/apikeys", scoped, 200);
    ("/api/v1/gameservers/tenant-b/gs1", None, 200)] = true.
Proof. vm_compute. reflexivity. Qed.
Lemma TestRouteGuard_ClusterWideRules :
  rows (λ '(method, path, u, want),
          bool_decide (status (RouteGuard DefaultRules) method path u = Some want)) [
    ("GET", "/api/v1/apikeys", clusterWide, 200);
    ("GET", "/api/v1/apikeys", scoped, 403);
    ("POST", "/api/v1/apikeys", scoped, 403);
    ("DELETE", "/api/v1/apikeys/ci", scoped, 403);
    ("POST", "/api/v1/gameservers/tenant-a", scoped, 200);
    ("POST", "/api/v1/gameservers/tenant-b", clusterWide, 200)] = true.
Proof. vm_compute. reflexivity. Qed.
End RbacTests.

(** ** [internal/controllers/builder/podspec_test.go], [sftp_test.go] *)
Module BuilderTests.
Definition cpu (q : Quantity) : ResourceRequirements :=
  {| rr_Requests := {["cpu" := q]}; rr_Limits := ∅ |}.
Definition resources (flat : ResourceRequirements) (tiers : gmap string ResourceRequirements)
    (def : string) : ResourcesSpec :=
  {| rs_ResourceRequirements := flat; rs_Tiers := tiers; rs_Default := def |}.
Definition no_tiers (flat : ResourceRequirements) : ResourcesSpec := resources flat ∅ "".
Definition storage (def min max : string) : StorageSpec :=
  {| st_MountPath := "/data"; st_SizeDefault := def; st_SizeMin := min; st_SizeMax := max |}.
Definition profile_of (ports : list PortSpec) (env : list EnvironmentSpec) (res : ResourcesSpec)
    (st : StorageSpec) (caps : option CapabilitiesSpec) : GameProfile := {|
  gp_Meta := new_meta "" "" None;
  gp_Spec := {|
    gp_DisplayName := "Test"; gp_Category := ""; gp_Icon := ""; gp_Description := "";
    gp_Image := "example.com/game:latest"; gp_ImagePullPolicy := "";
    gp_Ports := ports; gp_Environment := env; gp_Resources := res; gp_Storage := st;
    gp_Agent := {| agent_Image := "example.com/agent:latest"; agent_Version := "0.1.0" |};
    gp_Actions := []; gp_Capabilities := caps; gp_Observability := None |};
  gp_Conditions := [] |}.
Definition server_of (ns name profile tier : string) (env : gomap string) : GameServer := {|
  gs_Meta := new_meta name ns None;
  gs_Spec := {|
    gs_Profile := profile; gs_Tier := tier; gs_Env := env;
    gs_Storage := {| gst_Size := ""; gst_StorageClass := ""; gst_SnapshotRef := None |};
    gs_Lifecycle := {| lc_IdleTimeoutSeconds := 0; lc_AutoStart := None |};
    gs_PriorityClassName := ""; gs_TopologySpreadConstraints := []; gs_LoadBalancerIP := "" |};
  gs_Status := gs_Status ex_server |}.
Definition container (name : string) (p : PodSpec) : option Container :=
  find_first (λ c, ct_Name c =s name) (ps_Containers p).

Definition game_port : PortSpec :=
  {| port_Name := "game"; port_ContainerPort := 7777; port_Protocol := "UDP"; port_Exposed := None |}.
Definition variable (key def : string) (required : bool) : EnvironmentSpec :=
  {| env_Key := key; env_Default := def; env_Required := required; env_Description := "" |}.

Lemma TestBuildGameServerPodSpec :
  let profile := profile_of [game_port] [variable "EULA" "true" true; variable "OPTIONAL" "value" false]
    (no_tiers {| rr_Requests := {["cpu" := 100 * milli; "memory" := 128 * Mi]}; rr_Limits := ∅ |})
    (storage "1Gi" "" "") None in
  let server := server_of "default" "server-1" "test" ""
    (Some {["OPTIONAL" := "override"; "CUSTOM" := "custom"]}) in
  ∃ pod game agent,
    BuildGameServerPodSpec profile server = inl pod
    ∧ length (ps_Containers pod) = 2%nat
    ∧ container GameContainerName pod = Some game
    ∧ ct_Image game = "example.com/game:latest"
    ∧ map cp_ContainerPort (ct_Ports game) = [7777]
    ∧ rr_Requests (ct_Resources game) !! "cpu" = Some (100 * milli)
    ∧ map (env_lookup (ct_Env game)) ["EULA"; "OPTIONAL"; "CUSTOM"]
      = [Some "true"; Some "override"; Some "custom"]
    ∧ container AgentContainerName pod = Some agent
    ∧ ct_Image agent = "example.com/agent:latest"
    ∧ map (λ p, (cp_Name p, cp_ContainerPort p)) (ct_Ports agent) = [(AgentPortName, AgentGRPCPort)]
    ∧ map (env_lookup (ct_Env agent))
        ["minato_GAMESERVER_NAME"; "minato_GAMESERVER_NAMESPACE"; "minato_GAME_CONTAINER"; "EULA"; "CUSTOM"]
      = [Some "server-1"; Some "default"; Some GameContainerName; Some "true"; Some "custom"].
Proof. do 3 eexists. repeat split. Qed.

Lemma TestResolveGameResources :
  let tiers := {["small" := cpu (250 * milli); "large" := cpu (2 * nano)]} in
  let tiered := resources (cpu (100 * milli)) tiers "small" in
  map (λ '(res, tier),
        rr_Requests (ResolveGameResources (profile_of [] [] res (storage "" "" "") None)
          (server_of "" "" "" tier None)) !! "cpu")
    [(no_tiers (cpu (100 * milli)), ""); (tiered, "large"); (tiered, ""); (tiered, "huge")]
  = [Some (100 * milli); Some (2 * nano); Some (250 * milli); Some (100 * milli)].
Proof. vm_compute. reflexivity. Qed.

Definition plain_profile : GameProfile := profile_of [] [] (no_tiers no_resources) (storage "1Gi" "" "") None.
Definition blank_server : GameServer := server_of "" "" "" "" None.
Lemma TestBuildGameServerPodSpecWithPullSecrets :
  sum_map ps_ImagePullSecrets id
    (BuildGameServerPodSpecWithPullSecrets plain_profile blank_server ["harbor-docker-pull"; "other"])
  = inl ["harbor-docker-pull"; "other"]
  ∧ sum_map ps_ImagePullSecrets id (BuildGameServerPodSpec plain_profile blank_server) = inl [].
Proof. split; reflexivity. Qed.

Definition caps (sftp : bool) : CapabilitiesSpec :=
  {| cap_Files := false; cap_SFTP := sftp; cap_Backup := false; cap_RestoreFromSnapshot := false |}.
Definition sftpProfile (c : option CapabilitiesSpec) : GameProfile :=
  profile_of [{| port_Name := "game"; port_ContainerPort := 7777; port_Protocol := ""; port_Exposed := None |}]
    [] (no_tiers no_resources) (storage "1Gi" "" "") c.
Definition srv : GameServer := server_of "default" "srv" "" "" None.

Lemma TestSFTPSidecarInjectedWhenCapabilityEnabled :
  ∃ pod sftp sc cred,
    BuildGameServerPodSpec (sftpProfile (Some (caps true))) srv = inl pod
    ∧ container SFTPContainerName pod = Some sftp
    ∧ ct_Image sftp = SFTPImage
    ∧ map (λ p, (cp_ContainerPort p, cp_Protocol p)) (ct_Ports sftp) = [(SFTPPort, ProtocolTCP)]
    ∧ find_first (λ m, vm_Name m =s DataVolumeName) (ct_VolumeMounts sftp)
      = Some {| vm_Name := DataVolumeName; vm_MountPath := "/data"; vm_ReadOnly := false |}
    ∧ find_first (λ m, vm_Name m =s sftpCredentialsVolumeName) (ct_VolumeMounts sftp) = Some cred
    ∧ vm_ReadOnly cred = true
    ∧ is_Some (find_first (λ m, vm_Name m =s sftpConfigVolumeName) (ct_VolumeMounts sftp))
    ∧ Contains (Join " " (ct_Command sftp))
        ("--loaddata-from " +:+ sftpCredentialsMountPath +:+ "/" +:+ SFTPUsersKey) = true
    ∧ ct_WorkingDir sftp = sftpConfigMountPath
    ∧ ct_SecurityContext sftp = Some sc
    ∧ sc_RunAsNonRoot sc = true ∧ sc_RunAsUser sc ≠ 0 ∧ sc_AllowPrivilegeEscalation sc = false
    ∧ sc_DropCapabilities sc = ["ALL"] ∧ sc_SeccompProfile sc = "RuntimeDefault"
    ∧ sc_ReadOnlyRootFilesystem sc = true
    ∧ map (λ v, (vol_Name v, vol_Source v)) (ps_Volumes pod)
      = [(sftpCredentialsVolumeName, SecretVolume (SFTPSecretName "srv") [(SFTPUsersKey, SFTPUsersKey)]);
         (sftpConfigVolumeName, EmptyDir)]
    ∧ ps_SecurityContext pod
      = Some {| psc_FSGroup := Some 1000; psc_FSGroupChangePolicy := Some "OnRootMismatch" |}.
Proof. do 4 eexists. repeat split; [by eexists|discriminate]. Qed.

Lemma TestSFTPSidecarAbsentWithoutCapability :
  Forall (λ c, ∃ pod, BuildGameServerPodSpec (sftpProfile c) srv = inl pod
                      ∧ container SFTPContainerName pod = None
                      ∧ length (ps_Containers pod) = 2%nat ∧ ps_SecurityContext pod = None)
    [Some (caps false); None].
Proof. repeat constructor; by eexists. Qed.

Lemma TestSFTPSecretName : SFTPSecretName "mc-1" = "minato-mc-1-sftp".
Proof. reflexivity. Qed.
End BuilderTests.

(** ** [internal/webhook/gameprofile_webhook_test.go] *)
Module WebhookTests.
Import BuilderTests.
(** [resource.ParseQuantity], on a number with a binary suffix. *)
#[local] Instance suffixed : QuantityParser := λ s,
  if HasSuffix s "Gi" then (λ n, n * Gi) <$> Atoi (TrimSuffix s "Gi")
  else if HasSuffix s "Mi" then (λ n, n * Mi) <$> Atoi (TrimSuffix s "Mi") else None.

(** Accepted when the error expected is empty; otherwise refused with it. *)
Definition validated (p : GameProfile) (wantError : string) : bool :=
  match validateGameProfile ex_order p with
  | None => wantError =s ""
  | Some e => (wantError <>s "") && Contains (ge_msg e) wantError
  end.
Definition tiered (tiers : gmap string ResourceRequirements) (def : string) : GameProfile :=
  profile_of [] [] (resources no_resources tiers def) (storage "1Gi" "" "") None.
Definition sized (def min max : string) : GameProfile :=
  profile_of [] [] (no_tiers no_resources) (storage def min max) None.
Definition long_name : string := "a123456789012345678901234567890123".

Lemma TestValidateGameProfileResourceTiers :
  rows (uncurry validated) [
    (plain_profile, "");
    (profile_of [] [] (no_tiers (cpu (100 * milli))) (storage "1Gi" "" "") None, "");
    (tiered {["small" := cpu (250 * milli); "large" := cpu (2 * nano)]} "small", "");
    (tiered {["small" := cpu (250 * milli)]} "", "spec.resources.default is required");
    (tiered {["small" := cpu (250 * milli)]} "medium", "must name an existing tier");
    (tiered ∅ "small", "tiers is empty");
    (tiered {["Small" := cpu (250 * milli)]} "Small", "lowercase alphanumeric or dashes");
    (tiered {[long_name := cpu (250 * milli)]} long_name, "max 32 characters");
    (tiered {["extra-large" := cpu (4 * nano)]} "extra-large", "")] = true.
Proof. vm_compute. reflexivity. Qed.
Lemma TestValidateGameProfileStorageSizes :
  rows (uncurry validated) [
    (sized "1Gi" "" "", "");
    (sized "1Gi" "512Mi" "10Gi", "");
    (sized "lots" "" "", "spec.storage.sizeDefault");
    (sized "1Gi" "abc" "", "spec.storage.sizeMin");
    (sized "1Gi" "" "abc", "spec.storage.sizeMax");
    (sized "1Gi" "5Gi" "", "below sizeMin");
    (sized "1Gi" "" "512Mi", "exceeds sizeMax");
    (sized "5Gi" "10Gi" "1Gi", "sizeMin")] = true.
Proof. vm_compute. reflexivity. Qed.
End WebhookTests.

(** ** [sdk/agent/actions]: [env_test.go], [catalog_test.go], [steps_test.go] *)
Module ActionsTests.
Import Agent.
Definition actions_of (environ : list string) : list ActionDefinition :=
  cat_Actions (CatalogFromEnv ex_order environ).
Definition first_step (a : ActionDefinition) (inputs : list string) : list (string * list string) :=
  map (λ s, (st_Type s, map (gm_get (st_Inputs s)) inputs)) (def_Steps a).
Definition test_environ : list string := [
  "minato_ACTION_SAVE_STEP_1=rcon"; "minato_ACTION_SAVE_INPUT_1_COMMAND=save-all";
  "minato_ACTION_BACKUP_STEP_1=exec"; "minato_ACTION_BACKUP_INPUT_1_COMMAND=tar";
  "minato_ACTION_BACKUP_INPUT_1_ARGS=-czf backup.tar.gz"].
Lemma TestCatalogFromEnv :
  let catalog := CatalogFromEnv ex_order test_environ in
  length (cat_Actions catalog) = 2%nat
  ∧ (λ a, first_step a ["command"]) <$> FindAction catalog "save" = Some [("rcon", ["save-all"])]
  ∧ (λ a, first_step a ["command"; "args"]) <$> FindAction catalog "backup"
    = Some [("exec", ["tar"; "-czf backup.tar.gz"])].
Proof. vm_compute. auto. Qed.
Lemma TestCatalogFromEnvNoMatch : actions_of [] = [].
Proof. vm_compute. reflexivity. Qed.
Lemma TestCatalogFromEnvInvalidEntry : actions_of ["minato_ACTION_NOSEGMENT=value"] = [].
Proof. vm_compute. reflexivity. Qed.

Lemma TestCatalogFindAction :
  let named n := new_action n in
  (def_Name <$> FindAction {| cat_Actions := [named "save"; named "restart"] |} "restart" = Some "restart")
  ∧ FindAction {| cat_Actions := [named "save"] |} "restart" = None
  ∧ FindAction {| cat_Actions := [] |} "save" = None.
Proof. vm_compute. auto. Qed.
Lemma TestLoadCatalog_rejected `{!CatalogDecode} :
  (∃ e, LoadCatalogFromFile (λ _, inr (errorf "open: no such file or directory")) "" = inr e)
  ∧ (∃ e, LoadCatalogFromFile (λ _, inr (errorf "open: no such file or directory"))
            "/nonexistent/path/catalog.json" = inr e)
  ∧ (∃ e, LoadCatalogFromBytes "" = inr e) ∧ ∃ e, LoadCatalogFromBytes ("   " +:+ newline) = inr e.
Proof. repeat split; by eexists. Qed.

(** [text/template], on texts whose actions are all [{{.name}}]: an action that
    is not closed does not parse, a missing key is empty. *)
Fixpoint substitute (fuel : nat) (s : string) (vars : gmap string string) : option string :=
  match fuel with
  | O => None
  | S fuel =>
      match Cut s "{{." with
      | None => Some s
      | Some (before, rest) =>
          match Cut rest "}}" with
          | None => None
          | Some (name, rest) =>
              (λ r, before +:+ default "" (vars !! name) +:+ r) <$> substitute fuel rest vars
          end
      end
  end.
#[local] Instance fields_template : Template := {
  template_run s vars := substitute (S (String.length s)) s vars;
  duration_error s := errorf ("time: invalid duration " +:+ s);
}.
Lemma TestRenderTemplate :
  map (uncurry renderTemplate) [
    ("", {["key" := "value"]}); ("hello {{.name}}", {["name" := "world"]}); ("{{.missing}}", ∅);
    ("hello {{.name}}", ∅); ("hello {{.name", {["name" := "world"]})]
  = [""; "hello world"; ""; "hello "; "hello {{.name"].
Proof. vm_compute. reflexivity. Qed.
Lemma TestSplitArgs : map splitArgs [""; "   "; "a b c"] = [[]; []; ["a"; "b"; "c"]].
Proof. vm_compute. reflexivity. Qed.

(** [fakeRuntime]: every call gives its value and error. *)
Definition fakeRuntime (value : string) (err : option gerr) (X : Type) (e : rtop X) (s : unit) : X * unit :=
  (match e in rtop X return X with
   | RtRCON _ | RtExec _ _ | RtHTTP _ _ _ => (value, err)
   | RtSignal _ _ | RtSleep _ => err
   end, s).
Definition action (params : list (string * ParamSchema)) (steps : list Step) : ActionDefinition := {|
  def_Name := "action"; def_Description := ""; def_Params := Some (list_to_map params);
  def_Steps := steps |}.
(** The calls an action makes, and its outputs or that it fails. *)
Definition executed (a : ActionDefinition) (params : list (string * string)) (value : string)
    (err : option gerr) : list rtcall * option (list (string * string)) :=
  let '(t, o, _) := exec (fakeRuntime value err) (Execute ex_order a (Some (list_to_map params)) true) tt in
  (map (λ v, (seen v).1) t,
   match o with Done (inl outputs) => Some (map_to_list outputs) | _ => None end).
Definition world (required : bool) (def : string) : list (string * ParamSchema) :=
  [("world", ex_schema required def)].
Definition save_world : list Step := [ex_step "" "rcon" [("command", "save {{.world}}")]].
Definition one (name ty : string) (inputs : list (string * string)) : ActionDefinition :=
  action [] [ex_step name ty inputs].

Lemma TestExecuteParams :
  executed (action (world true "") save_world) [("world", "main")] "ok" None
    = ([CRCON "save main"], Some [])
  ∧ executed (action (world true "") save_world) [] "" None = ([], None)
  ∧ executed (action (world false "default-world") save_world) [] "" None
    = ([CRCON "save default-world"], Some [])
  ∧ executed (action (world false "") save_world) [] "" None = ([CRCON "save "], Some []).
Proof. vm_compute. auto. Qed.
Lemma TestExecuteNilRuntime : Execute ex_order (action [] []) None false = Ret (inr ErrNoRuntime).
Proof. reflexivity. Qed.
Lemma TestExecuteAllStepTypes :
  executed (one "" "exec" [("command", "echo"); ("args", "hello world")]) [] "" None
    = ([CExec "echo" ["hello"; "world"]], Some [])
  ∧ executed (one "" "http" [("method", "POST"); ("url", "http://localhost/api"); ("body", "data")])
      [] "response" None = ([CHTTP "POST" "http://localhost/api" "data"], Some [])
  ∧ executed (one "" "signal" [("target", "game"); ("signal", "TERM")]) [] "" None
    = ([CSignal "game" "TERM"], Some [])
  ∧ executed (one "" "sleep" [("duration", "1ms")]) [] "" None = ([CSleep 1000000], Some [])
  ∧ executed (one "" "sleep" [("duration", "invalid")]) [] "" None = ([], None)
  ∧ executed (one "" "unknown" []) [] "" None = ([], None)
  ∧ executed (one "" "RCON" [("command", "list")]) [] "ok" None = ([CRCON "list"], Some [])
  ∧ executed (one "" "rcon" [("command", "fail")]) [] "" (Some (errorf "rcon failed"))
    = ([CRCON "fail"], None)
  ∧ executed (action [] []) [] "" None = ([], Some []).
Proof. vm_compute. auto 20. Qed.
Lemma TestExecuteStepOutputs :
  executed (one "result" "rcon" [("command", "list")]) [] "3 players online" None
    = ([CRCON "list"], Some [("result", "3 players online")])
  ∧ (let '(calls, outs) := executed (action [] [ex_step "step1" "rcon" [("command", "cmd1")];
                                                ex_step "step2" "rcon" [("command", "cmd2")]])
                             [] "result" None in
     calls = [CRCON "cmd1"; CRCON "cmd2"]
     ∧ (λ l, map (λ k, (list_to_map l : gmap string string) !! k) ["step1"; "step2"]) <$> outs
       = Some [Some "result"; Some "result"] ∧ length <$> outs = Some 2%nat)
  ∧ executed (one "empty" "signal" [("target", "game"); ("signal", "TERM")]) [] "" None
    = ([CSignal "game" "TERM"], Some []).
Proof. vm_compute. auto 20. Qed.
Lemma TestExecuteTemplates :
  executed (action [("target", ex_schema true "")]
      [ex_step "" "exec" [("command", "echo"); ("args", "{{.target}}")]]) [("target", "world")] "" None
    = ([CExec "echo" ["world"]], Some [])
  ∧ executed (action [("id", ex_schema true "")]
      [ex_step "" "http" [("method", "GET"); ("url", "http://localhost/{{.id}}"); ("body", "id={{.id}}")]])
      [("id", "123")] "" None = ([CHTTP "GET" "http://localhost/123" "id=123"], Some [])
  ∧ executed (action [("sig", ex_schema true "")]
      [ex_step "" "signal" [("target", "game"); ("signal", "{{.sig}}")]]) [("sig", "HUP")] "" None
    = ([CSignal "game" "HUP"], Some [])
  ∧ executed (action [("dur", ex_schema false "1ms")]
      [ex_step "" "sleep" [("duration", "{{.dur}}")]]) [] "" None = ([CSleep 1000000], Some []).
Proof. vm_compute. auto 20. Qed.

(** ** [sdk/agent/lifecycle/steps_test.go]: how many steps ran, and the error *)
Definition fake_step (err : option gerr) : prog rtop (option gerr) := call (RtSleep 0).
Definition ran (errs : list (option gerr)) : nat * outcome (option gerr) :=
  let '(t, o, _) := exec (λ X (e : rtop X) (s : list (option gerr)),
      match e in rtop X return X * list (option gerr) with
      | RtSleep _ => match s with e :: s => (e, s) | [] => (None, []) end
      | RtRCON _ | RtExec _ _ | RtHTTP _ _ _ => (("", None), s)
      | RtSignal _ _ => (None, s)
      end) (RunSteps (map fake_step errs)) errs in
  (length t, o).
Lemma TestRunSteps :
  let fail := Some (errorf "fail") in
  ran [None; fail; None] = (2%nat, Done fail)
  ∧ ran [None; None; None] = (3%nat, Done None)
  ∧ ran [] = (0%nat, Done None)
  ∧ ran [fail; None] = (1%nat, Done fail)
  ∧ ran [fail; Some (errorf "fail2")] = (1%nat, Done fail).
Proof. vm_compute. auto 20. Qed.
End ActionsTests.

(** ** [cmd/registrar]: [main_test.go], [fingerprint_test.go] *)
Module RegistrarTests.
Import Registrar.
Definition testConfig : config := {|
  CloudURL := "http://cloud:8080"; RegisterToken := "tok"; Name := "eu-1"; Region := "eu";
  ControlPlaneURL := "http://cp:8080"; ControlPlaneKey := "cp-key"; CapacityMax := 50;
  DedicatedTenantID := ""; ClusterFingerprint := ""; HeartbeatInterval := 50 * 1000000;
  RequestTimeout := 2 * second |}.

(** A cloud that counts registrations and beats and answers the beats from a list of
    statuses, then 204; the context ends after some ticks. Files do not exist. *)
Record cloud := { registers : nat; beats_ : nat; statuses : list Z; ticks : nat }.
Definition cloud_answer (X : Type) (e : regop X) (c : cloud) : X * cloud :=
  match e in regop X return X * cloud with
  | HttpPost _ _ (PRegister _) =>
      (inl (200, "{}"),
       {| registers := S (registers c); beats_ := beats_ c; statuses := statuses c; ticks := ticks c |})
  | HttpPost _ _ (PHeartbeat _) =>
      (inl (default 204 (head (statuses c)), ""),
       {| registers := registers c; beats_ := S (beats_ c); statuses := tail (statuses c); ticks := ticks c |})
  | WaitTick =>
      (bool_decide (ticks c = 0%nat),
       {| registers := registers c; beats_ := beats_ c; statuses := statuses c; ticks := pred (ticks c) |})
  | WaitBackoff _ => (false, c)
  | ReadFile _ => (inr (errorf "open: no such file or directory"), c)
  | GetKubeSystem _ _ _ => (inr (errorf "connection refused"), c)
  end.
Definition against {A} (statuses : list Z) (p : R A) : outcome A * cloud :=
  let '(_, o, c) := exec cloud_answer p
    {| registers := 0; beats_ := 0; statuses := statuses; ticks := 5 |} in (o, c).

Lemma TestRegister : (against [] (register testConfig "")).1 = Done None
  ∧ (λ p, (rp_Name p, rp_ControlPlaneURL p, rp_APIKey p)) (buildRegisterPayload testConfig "")
    = ("eu-1", "http://cp:8080", "cp-key").
Proof. vm_compute. auto. Qed.
Lemma TestHeartbeat :
  let '(o, c) := against [] (heartbeat testConfig "") in o = Done (true, None) ∧ beats_ c = 1%nat.
Proof. vm_compute. auto. Qed.
Lemma TestHeartbeatUnknownCluster : (against [404] (heartbeat testConfig "")).1 = Done (false, None).
Proof. vm_compute. reflexivity. Qed.
Lemma TestRunRegistersThenHeartbeats :
  let '(o, c) := against [] (run testConfig "" 10) in
  o = Done Stopped ∧ registers c = 1%nat ∧ beats_ c = 5%nat.
Proof. vm_compute. auto. Qed.
Lemma TestRunReregistersOn404 :
  let '(o, c) := against [404] (run testConfig "" 10) in o = Done Stopped ∧ registers c = 2%nat.
Proof. vm_compute. auto. Qed.

Definition required_env (k : string) : string :=
  if k =s "CLOUD_URL" then "http://cloud:8080" else if k =s "REGISTER_TOKEN" then "tok"
  else if k =s "CLUSTER_NAME" then "eu-1" else if k =s "CONTROLPLANE_API_KEY" then "k" else "".
Lemma TestLoadConfigRequired :
  (∃ e, loadConfig (λ _, "") = inr e)
  ∧ ∃ cfg, loadConfig required_env = inl cfg
           ∧ ControlPlaneURL cfg = "http://minato-controlplane:8080"
           ∧ CapacityMax cfg = 100 ∧ HeartbeatInterval cfg = 30 * second.
Proof. split; eexists; [reflexivity|]. repeat split. Qed.

Lemma TestResolveClusterFingerprint :
  resolveClusterFingerprint (λ _, "") "fp-explicit" "/nonexistent/token" "/nonexistent/ca"
    = Ret "fp-explicit"
  ∧ (against [] (resolveClusterFingerprint (λ _, "") "" "/tmp/missing-token" "/tmp/missing-ca")).1
    = Done "".
Proof. vm_compute. auto. Qed.
(** What [kubeSystemUID] makes of the API server's answer. *)
Definition uid_of (answer : Z * (string + gerr)) : outcome (string + gerr) :=
  (exec (λ X (e : regop X) (s : unit),
     match e in regop X return X * unit with
     | GetKubeSystem _ _ _ => (inl answer, s)
     | HttpPost _ _ _ => (inr (errorf "unexpected"), s)
     | WaitBackoff _ | WaitTick => (true, s)
     | ReadFile _ => (inr (errorf "unexpected"), s)
     end) (kubeSystemUID "https://api" "tok" None) tt).1.2.
Lemma TestKubeSystemUID :
  uid_of (200, inl "9f0c1a2e-1234-5678-9abc-def012345678")
    = Done (inl "9f0c1a2e-1234-5678-9abc-def012345678")
  ∧ (∃ e, uid_of (403, inl "") = Done (inr e)) ∧ ∃ e, uid_of (200, inl "") = Done (inr e).
Proof. repeat split; by eexists. Qed.
Lemma TestInClusterBaseURL :
  inClusterBaseURL (λ _, "") = "https://kubernetes.default.svc:443"
  ∧ inClusterBaseURL (λ k, if k =s "KUBERNETES_SERVICE_HOST" then "10.96.0.1" else "6443")
    = "https://10.96.0.1:6443".
Proof. vm_compute. auto. Qed.
End RegistrarTests.
