(* ===== verification/GoApiTests.v ===== *)
(** * GoApiTests: the tests of the control plane, run on the model

    The Go tests of [cmd/controlplane] and [internal/controlplane], against the cluster of
    [FakeClient]. The requests and answers are JSON, in the concrete text of
    [ApiExamples]. *)

From Stdlib Require Import Ascii String.
From S2P Require Import Prelude GoStrings Prog Api Kube Builder Auth Rbac Tenant AuditLog ControlPlane Json ApiJson ApiExamples FakeClient GoTests.

(** ** Requests *)

#[local] Existing Instances ex_JsonText ex_RFC3339 ex_KubeJSON ex_Parser ex_EntryJSON ex_Router.
#[local] Existing Instance Tenant.ex_parse.

(** [newRouter]: the routes, without authentication; keys in the namespace "minato". *)
Definition newRouter : Handler := mux (Auth.LoadConfig (λ _, "")) "minato" ex_tenant_config.
Definition request (method path : string) (body : string) (u : option User) : Request := {|
  rq_Method := method; rq_Path := path; rq_Header := λ _, ""; rq_BasicAuth := None;
  rq_Param := λ _, ""; rq_Query := λ _, ""; rq_Body := body; rq_RemoteAddr := ""; rq_User := u |}.

(** The status, the body and the cluster a handler leaves. *)
Definition serve_on (h : Handler) (r : Request) (c : cluster) : option (Z * string * cluster) :=
  (λ x, (rsp_Status x.1, rsp_Body x.1, x.2)) <$> run_on c (h r).
Definition status_of (r : Request) (c : cluster) : option Z :=
  (λ x, x.1.1) <$> serve_on newRouter r c.
Definition status_broken (r : Request) : option Z :=
  (λ x, rsp_Status x.1.2) <$> run_with unregistered empty_cluster (newRouter r).
Definition simple (method path : string) : Request := request method path "" None.

(** [json.Marshal] of what a test sends, and the names in the documents it receives. *)
Definition marshal (j : json) : string := print j.
Definition member (k : string) (j : json) : option json :=
  match j with JObj l => snd <$> find_first (λ kv, kv.1 =s k) l | _ => None end.
Definition text (j : json) : option string := match j with JStr s => Some s | _ => None end.
Definition name_of (j : json) : option string := (member "metadata" j ≫= member "name") ≫= text.
Definition unmarshal (s : string) : option json :=
  match parse s with inl j => Some j | inr _ => None end.
Definition name_in (body : string) : option string := unmarshal body ≫= name_of.
Definition names_in (body : string) : option (list (option string)) :=
  match unmarshal body with Some (JArr l) => Some (map name_of l) | _ => None end.

(** ** Objects of the tests *)
Definition gs_in (ns name profile : string) : GameServer := BuilderTests.server_of ns name profile "" None.
Definition gs1 : GameServer := gs_in "default" "gs1" "minecraft".
Definition fleet_in (ns name : string) (replicas : Z) : GameServerFleet := {|
  fl_Meta := new_meta name ns None;
  fl_Spec := fl_Spec (ex_fleet replicas); fl_Status := fl_Status (ex_fleet replicas) |}.
Definition restart : ActionDecl := {|
  ad_Name := "restart"; ad_Description := "Restart the server"; ad_Params := []; ad_Returns := "";
  ad_Concurrency := ActionConcurrencyOther ""; ad_Timeout := "" |}.
Definition minecraft (caps : option CapabilitiesSpec) : GameProfile :=
  let sp := gp_Spec BuilderTests.plain_profile in {|
  gp_Meta := new_meta "minecraft" "" None; gp_Conditions := [];
  gp_Spec := {|
    gp_DisplayName := "Minecraft"; gp_Category := ""; gp_Icon := ""; gp_Description := "";
    gp_Image := "minecraft:latest"; gp_ImagePullPolicy := ""; gp_Ports := []; gp_Environment := [];
    gp_Resources := gp_Resources sp; gp_Storage := gp_Storage sp; gp_Agent := gp_Agent sp;
    gp_Actions := [restart]; gp_Capabilities := caps; gp_Observability := None |} |}.
Definition snap1 : GameSnapshot := {|
  sn_Meta := new_meta "snap1" "default" None;
  sn_Spec := {| sn_GameServerRef := "gs1"; sn_Schedule := "";
                sn_Retention := {| ret_Count := 0; ret_Duration := "" |} |};
  sn_Status := {| sns_Snapshots := []; sns_LastSnapshotAt := None; sns_Conditions := [] |} |}.
Definition exec1 : ActionExecution := {|
  ae_Meta := new_meta "exec1" "default" None;
  ae_Spec := {| ae_TargetRef := {| tr_APIVersion := "operator.minato.io/v1"; tr_Kind := "GameServer";
                                   tr_Name := "gs1"; tr_Namespace := "default" |};
                ae_ActionName := "restart"; ae_Params := None; ae_Caller := "" |};
  ae_Status := {| aes_State := ActionExecutionNew; aes_StartedAt := None; aes_EndedAt := None;
                  aes_AgentResponse := ""; aes_Error := ""; aes_Conditions := [] |} |}.
Definition holding (k : kind) (o : obj k) : cluster := with_objects k [o] empty_cluster.

(** ** [cmd/controlplane/main_test.go] *)
Module MainTests.
Lemma TestHealthz : (λ x, x.1) <$> serve_on newRouter (simple "GET" "/healthz") empty_cluster = Some (200, "ok").
Proof. vm_compute. reflexivity. Qed.
Lemma TestReadyz : status_of (simple "GET" "/readyz") empty_cluster = Some 200.
Proof. vm_compute. reflexivity. Qed.

(** What a request is answered: its status, and the names of the documents in a list. *)
Definition listed (r : Request) (c : cluster) : option (Z * option (list (option string))) :=
  (λ x, (x.1.1, names_in x.1.2)) <$> serve_on newRouter r c.
Definition shown (r : Request) (c : cluster) : option (Z * option string) :=
  (λ x, (x.1.1, name_in x.1.2)) <$> serve_on newRouter r c.
(** [httptest] with an empty cluster and with a client that fails. *)
Definition missing (method path : string) : option Z := status_of (simple method path) empty_cluster.

Lemma TestLists_Success :
  listed (simple "GET" "/api/v1/gameservers") (holding KGameServer gs1) = Some (200, Some [Some "gs1"])
  ∧ listed (simple "GET" "/api/v1/gameserverfleets") (holding KFleet (fleet_in "default" "fleet1" 3))
    = Some (200, Some [Some "fleet1"])
  ∧ listed (simple "GET" "/api/v1/profiles") (holding KGameProfile (minecraft None))
    = Some (200, Some [Some "minecraft"]).
Proof. vm_compute. auto. Qed.
Lemma TestGets_Success :
  shown (simple "GET" "/api/v1/gameservers/default/gs1") (holding KGameServer gs1) = Some (200, Some "gs1")
  ∧ shown (simple "GET" "/api/v1/gameserverfleets/default/fleet1")
      (holding KFleet (fleet_in "default" "fleet1" 3)) = Some (200, Some "fleet1")
  ∧ shown (simple "GET" "/api/v1/profiles/minecraft") (holding KGameProfile (minecraft None))
    = Some (200, Some "minecraft")
  ∧ shown (simple "GET" "/api/v1/gameservers/default/gs1/executions/exec1") (holding KExec exec1)
    = Some (200, Some "exec1").
Proof. vm_compute. auto. Qed.
Lemma TestGets_NotFound :
  rows (λ path, bool_decide (missing "GET" path = Some 404)) [
    "/api/v1/gameservers/default/missing"; "/api/v1/gameservers/default/missing/actions";
    "/api/v1/gameservers/default/gs1/executions/missing"; "/api/v1/gameserverfleets/default/missing";
    "/api/v1/profiles/missing"; "/api/v1/gameservers/default/missing/sftp"] = true.
Proof. vm_compute. reflexivity. Qed.
Lemma TestInternalErrors :
  rows (λ '(method, path, body), bool_decide (status_broken (request method path body None) = Some 500)) [
    ("GET", "/api/v1/gameservers", ""); ("DELETE", "/api/v1/gameservers/default/gs1", "");
    ("POST", "/api/v1/gameservers/default", marshal (enc_api_GameServer (gs_in "" "gs-new" "minecraft")));
    ("POST", "/api/v1/gameservers/default/gs1/actions/restart", marshal (JObj []));
    ("GET", "/api/v1/gameservers/default/gs1/snapshots", "");
    ("POST", "/api/v1/gameservers/default/gs1/snapshots", "");
    ("GET", "/api/v1/gameserverfleets", ""); ("GET", "/api/v1/profiles", "")] = true.
Proof. vm_compute. reflexivity. Qed.

Definition new_server (ns : string) : Request :=
  request "POST" ("/api/v1/gameservers/" +:+ ns) (marshal (enc_api_GameServer (gs_in "" "gs-new" "minecraft"))) None.
(** The status, and what of the cluster afterwards. *)
Definition after {A} (r : Request) (c : cluster) (f : cluster → A) : option (Z * A) :=
  (λ x, (x.1.1, f x.2)) <$> serve_on newRouter r c.
Lemma TestCreateGameServer_Success :
  after (new_server "default") empty_cluster (exists_ KGameServer "default" "gs-new") = Some (201, true).
Proof. vm_compute. reflexivity. Qed.
Lemma TestCreateGameServer_BadRequest :
  status_of (request "POST" "/api/v1/gameservers/default" "not-json" None) empty_cluster = Some 400.
Proof. vm_compute. reflexivity. Qed.
Lemma TestCreateGameServer_HardensNewNamespace :
  after (new_server "tenant-hardened") empty_cluster (λ c,
    (match get KNamespace "" "tenant-hardened" c with
     | inl ns => map (gm_lookup (om_Labels (nsp_Meta ns)))
                   ["minato.io/tenant"; "pod-security.kubernetes.io/enforce"]
     | inr _ => []
     end,
     exists_ KQuota "tenant-hardened" "minato-tenant-quota" c,
     exists_ KNetpol "tenant-hardened" "minato-tenant-default" c))
  = Some (201, ([Some "tenant-hardened"; Some "restricted"], true, true)).
Proof. vm_compute. reflexivity. Qed.
Lemma TestDeleteGameServer_Success :
  after (simple "DELETE" "/api/v1/gameservers/default/gs1") (holding KGameServer gs1)
    (exists_ KGameServer "default" "gs1") = Some (204, false).
Proof. vm_compute. reflexivity. Qed.

(** [listActions] *)
Definition action_names (body : string) : option (list (option string)) :=
  match unmarshal body with
  | Some (JArr l) => Some (map (λ j, member "name" j ≫= text) l)
  | _ => None
  end.
Lemma TestListActions :
  let path := "/api/v1/gameservers/default/gs1/actions" in
  (λ x, (x.1.1, action_names x.1.2))
    <$> serve_on newRouter (simple "GET" path) (put KGameServer gs1 (holding KGameProfile (minecraft None)))
    = Some (200, Some [Some "restart"])
  ∧ status_of (simple "GET" path) (holding KGameServer (gs_in "default" "gs1" "missing-profile")) = Some 404.
Proof. vm_compute. auto. Qed.

(** [executeAction] *)
Definition execute (body : string) : Request :=
  AuthTests.with_header "X-User" "test-user"
    (request "POST" "/api/v1/gameservers/default/gs1/actions/restart" body None).
Lemma TestExecuteAction_Success :
  match serve_on newRouter (execute (marshal (JObj [("reason", JStr "maintenance")]))) (holding KGameServer gs1) with
  | Some (status, body, c) =>
      status = 201 ∧ ∃ name e, (unmarshal body ≫= member "name") ≫= text = Some name
        ∧ get KExec "default" name c = inl e
        ∧ ae_ActionName (ae_Spec e) = "restart" ∧ ae_Caller (ae_Spec e) = "test-user"
        ∧ gm_lookup (ae_Params (ae_Spec e)) "reason" = Some "maintenance"
  | None => False
  end.
Proof. vm_compute. split; [done|]. do 2 eexists. repeat split. Qed.
Lemma TestExecuteAction_EmptyBody : status_of (execute "") (holding KGameServer gs1) = Some 201.
Proof. vm_compute. reflexivity. Qed.

(** [listSnapshots], [createSnapshot] *)
Lemma TestListSnapshots :
  let path := "/api/v1/gameservers/default/gs1/snapshots" in
  let c := put KSnap snap1 (holding KGameServer gs1) in
  listed (simple "GET" path) c = Some (200, Some [Some "snap1"])
  ∧ listed (simple "GET" path) {| objects := objects c; indexed := false; audited := [] |}
    = Some (200, Some [Some "snap1"]).
Proof. vm_compute. auto. Qed.
Lemma TestCreateSnapshot_Success :
  after (simple "POST" "/api/v1/gameservers/default/gs1/snapshots") (holding KGameServer gs1)
    (λ c, map (λ s, sn_GameServerRef (sn_Spec s)) (objects c KSnap)) = Some (201, ["gs1"]).
Proof. vm_compute. reflexivity. Qed.
End MainTests.

(** ** [cmd/controlplane/sftp_test.go] *)
Module SftpTests.
Definition sftp_caps (sftp : bool) : option CapabilitiesSpec := Some (BuilderTests.caps sftp).
Definition endpoint (name : string) (port : Z) : Endpoint :=
  {| ep_Name := name; ep_Address := "gs1.games.example.com"; ep_Port := port |}.
Definition sftp_server (endpoints : list Endpoint) : GameServer := {|
  gs_Meta := gs_Meta gs1; gs_Spec := gs_Spec gs1;
  gs_Status := {| gss_State := ""; gss_AgentVersion := ""; gss_Players := 0; gss_PlayerCapacity := 0;
    gss_LastActivity := None; gss_Endpoints := endpoints; gss_Conditions := [] |} |}.
Definition sftp_secret : Secret := {|
  sec_Meta := new_meta (SFTPSecretName "gs1") "default" None; sec_Type := "";
  sec_Data := {[SFTPUsernameKey := SFTPUsername;
                SFTPPasswordKey := "0123456789abcdef0123456789abcdef"]} |}.
Definition published : list Endpoint := [endpoint "game" 25565; endpoint SFTPPortName SFTPPort].
Definition sftp_cluster (enabled : bool) (endpoints : list Endpoint) (secrets : list Secret) : cluster :=
  with_objects KSecret secrets
    (put KGameServer (sftp_server endpoints) (holding KGameProfile (minecraft (sftp_caps enabled)))).
Definition read : Request := simple "GET" "/api/v1/gameservers/default/gs1/sftp".
Definition access (body : string) : option (list (option json)) :=
  (λ j, map (λ k, member k j) ["host"; "port"; "username"; "password"]) <$> unmarshal body.

Lemma TestGetSFTPInfo_Success :
  (λ x, (x.1.1, access x.1.2)) <$> serve_on newRouter read (sftp_cluster true published [sftp_secret])
  = Some (200, Some [Some (JStr "gs1.games.example.com"); Some (JNum SFTPPort); Some (JStr SFTPUsername);
                     Some (JStr "0123456789abcdef0123456789abcdef")]).
Proof. vm_compute. reflexivity. Qed.
(** No such server, the capability off, no endpoint yet, no secret yet. *)
Lemma TestGetSFTPInfo_NotFound :
  map (status_of read) [empty_cluster; sftp_cluster false published [sftp_secret];
                        sftp_cluster true [] [sftp_secret]; sftp_cluster true published []]
  = repeat (Some 404) 4.
Proof. vm_compute. reflexivity. Qed.
End SftpTests.

(** ** [cmd/controlplane/lifecycle_fleet_write_test.go] *)
Module WriteTests.
Import MainTests.
Definition obj1 (k : string) (j : json) : json := JObj [(k, j)].
Definition lifecycle (fields : list (string * json)) : string :=
  marshal (obj1 "spec" (obj1 "lifecycle" (JObj fields))).
Definition patch (path body : string) : Request := request "PATCH" path body None.
Definition lifecycle_server : GameServer :=
  gs_set_Lifecycle {| lc_IdleTimeoutSeconds := 300; lc_AutoStart := Some true |} gs1.
(** The status, and the lifecycle in the cluster afterwards. *)
Definition patched (body : string) : option (Z * option (option bool * Z)) :=
  after (patch "/api/v1/gameservers/default/gs1" body) (holding KGameServer lifecycle_server) (λ c,
    match get KGameServer "default" "gs1" c with
    | inl s => let lc := gs_Lifecycle (gs_Spec s) in Some (lc_AutoStart lc, lc_IdleTimeoutSeconds lc)
    | inr _ => None
    end).
Definition untouched : option (option bool * Z) := Some (Some true, 300).
Lemma TestUpdateGameServerLifecycle :
  map patched [
    lifecycle [("autoStart", JBool false)];
    lifecycle [("idleTimeoutSeconds", JNum 60)];
    lifecycle [("autoStart", JBool true); ("idleTimeoutSeconds", JNum 0)];
    marshal (obj1 "spec" (obj1 "profile" (JStr "other")));
    marshal (obj1 "status" (obj1 "state" (JStr "Running")));
    marshal (obj1 "metadata" (obj1 "labels" (obj1 "a" (JStr "b"))));
    lifecycle [("restartPolicy", JStr "Always")];
    lifecycle [("idleTimeoutSeconds", JNum (-5))];
    lifecycle [];
    "not-json"]
  = [Some (200, Some (Some false, 300)); Some (200, Some (Some true, 60)); Some (200, Some (Some true, 0))]
    ++ repeat (Some (400, untouched)) 7.
Proof. vm_compute. reflexivity. Qed.
Lemma TestUpdateGameServerLifecycle_NotFound :
  status_of (patch "/api/v1/gameservers/default/missing" (lifecycle [("autoStart", JBool false)])) empty_cluster
  = Some 404.
Proof. vm_compute. reflexivity. Qed.

Definition new_fleet (ns body : string) : Request :=
  request "POST" ("/api/v1/gameserverfleets/" +:+ ns) body None.
Definition fleet_body (profile : string) (replicas : Z) : string :=
  marshal (JObj [("metadata", obj1 "name" (JStr "fleet-new"));
                 ("spec", JObj [("profile", JStr profile); ("replicas", JNum replicas)])]).
Lemma TestCreateGameServerFleet_Success :
  after (new_fleet "tenant-f" (fleet_body "minecraft" 3)) (holding KGameProfile (minecraft None)) (λ c,
    (match get KFleet "tenant-f" "fleet-new" c with inl f => Some (fl_Replicas (fl_Spec f)) | inr _ => None end,
     exists_ KNamespace "" "tenant-f" c))
  = Some (201, (Some 3, true)).
Proof. vm_compute. reflexivity. Qed.
Lemma TestCreateGameServerFleet_Rejected :
  map (λ body, status_of (new_fleet "default" body) empty_cluster)
    [fleet_body "missing" 1; fleet_body "minecraft" (-1)] = [Some 400; Some 400].
Proof. vm_compute. reflexivity. Qed.

Definition scaled (body : string) : option (Z * option Z) :=
  after (patch "/api/v1/gameserverfleets/default/fleet1" body) (holding KFleet (fleet_in "default" "fleet1" 2))
    (λ c, match get KFleet "default" "fleet1" c with inl f => Some (fl_Replicas (fl_Spec f)) | inr _ => None end).
Lemma TestUpdateGameServerFleet :
  map (λ spec, scaled (marshal (obj1 "spec" (JObj spec)))) [
    [("replicas", JNum 5)]; [("replicas", JNum 0)]; [("profile", JStr "other")];
    [("replicas", JNum (-2))]; [];
    [("template", obj1 "spec" (obj1 "env" (obj1 "A" (JStr "B"))))]]
  = [Some (200, Some 5); Some (200, Some 0)] ++ repeat (Some (400, Some 2)) 4.
Proof. vm_compute. reflexivity. Qed.
Lemma TestUpdateGameServerFleet_NotFound :
  status_of (patch "/api/v1/gameserverfleets/default/missing"
    (marshal (obj1 "spec" (obj1 "replicas" (JNum 2))))) empty_cluster = Some 404.
Proof. vm_compute. reflexivity. Qed.
Lemma TestDeleteGameServerFleet_Success :
  after (simple "DELETE" "/api/v1/gameserverfleets/default/fleet1") (holding KFleet (fleet_in "default" "fleet1" 1))
    (exists_ KFleet "default" "fleet1") = Some (204, false).
Proof. vm_compute. reflexivity. Qed.
End WriteTests.

(** ** [cmd/controlplane/namespace_scope_test.go] *)
Module ScopeTests.
Import MainTests AuthTests.
Definition as_user (method path body : string) (u : User) : Request := request method path body (Some u).
Definition two_tenants : cluster :=
  with_objects KGameServer [gs_in "tenant-a" "gs-a" "minecraft"; gs_in "tenant-b" "gs-b" "minecraft"] empty_cluster.
Lemma TestListGameServers_FiltersByNamespaceScope :
  let list_as u := listed (request "GET" "/api/v1/gameservers" "" u) two_tenants in
  let both := Some (200, Some [Some "gs-a"; Some "gs-b"]) in
  list_as (Some (user "1" "ci" "viewer" ["tenant-*"])) = both
  ∧ list_as (Some (user "1" "ci" "viewer" ["tenant-a"])) = Some (200, Some [Some "gs-a"])
  ∧ list_as (Some (user "2" "admin" "admin" [])) = both ∧ list_as None = both.
Proof. vm_compute. auto. Qed.
Lemma TestListGameServerFleets_FiltersByNamespaceScope :
  listed (as_user "GET" "/api/v1/gameserverfleets" "" (user "1" "ci" "viewer" ["tenant-*"]))
    (with_objects KFleet [fleet_in "tenant-a" "f-a" 0; fleet_in "other" "f-b" 0] empty_cluster)
  = Some (200, Some [Some "f-a"]).
Proof. vm_compute. reflexivity. Qed.

(** A flow of requests on one cluster: the statuses. *)
Fixpoint flow (h : Handler) (rs : list Request) (c : cluster) : list (option Z) :=
  match rs with
  | [] => []
  | r :: rs =>
      match serve_on h r c with
      | Some (status, _, c) => Some status :: flow h rs c
      | None => [None]
      end
  end.
Lemma TestNamespaceGuard_CRUDFlow :
  let ci := user "1" "ci" "admin" ["tenant-a"] in
  let body := marshal (enc_api_GameServer (gs_in "" "gs-new" "minecraft")) in
  flow (NamespaceGuard newRouter) [
    as_user "POST" "/api/v1/gameservers/tenant-a" body ci;
    as_user "POST" "/api/v1/gameservers/tenant-b" body ci;
    as_user "GET" "/api/v1/gameservers/tenant-b/gs-new" "" ci;
    as_user "DELETE" "/api/v1/gameservers/tenant-a/gs-new" "" ci] empty_cluster
  = [Some 201; Some 403; Some 403; Some 204].
Proof. vm_compute. reflexivity. Qed.

(** Keys: an hour is 3600 seconds, the clock is at 1000. *)
Definition alice : User := user "1" "alice" "admin" [].
Definition at_ (s : Z) : json := JStr (Format (s * second)).
Definition nonempty (j : option json) : bool :=
  match j with Some (JStr s) => s <>s "" | Some JNull | None => false | Some _ => true end.
Lemma TestCreateAPIKey_WithScopeAndExpiry :
  (λ x, (x.1.1, map (λ k, nonempty (unmarshal x.1.2 ≫= member k)) ["key"; "expiresAt"],
         match get KSecret "minato" "minato-apikey-tenant-ci" x.2 with
         | inl s => (sec_Data s !! "namespaces", default "" (sec_Data s !! "expiresAt") <>s "")
         | inr _ => (None, false)
         end))
    <$> serve_on newRouter (as_user "POST" "/api/v1/apikeys" (marshal (JObj [
          ("name", JStr "tenant-ci"); ("role", JStr "operator"); ("namespaces", JArr [JStr "tenant-*"]);
          ("expiresAt", at_ 4600)])) alice) empty_cluster
  = Some (201, [true; true], (Some "tenant-*", true)).
Proof. vm_compute. reflexivity. Qed.
Lemma TestCreateAPIKey_PastExpiryRejected :
  status_of (as_user "POST" "/api/v1/apikeys"
    (marshal (JObj [("name", JStr "bad"); ("expiresAt", at_ 0)])) alice) empty_cluster = Some 400.
Proof. vm_compute. reflexivity. Qed.
End ScopeTests.

(** ** [internal/controlplane/auth]: [storage_test.go], [oidc_test.go] *)
Module StorageTests.
Import AuthTests.
Definition result {A} (c : cluster) (p : M (A + gerr)) : option (A + gerr) := fst <$> run_on c p.

Definition entry_of (name role : string) (namespaces : list string) (expires : option Z) : APIKeyEntry := {|
  ak_Name := name; ak_KeyID := ""; ak_UserID := "uid"; ak_Username := "alice"; ak_Role := role;
  ak_CreatedAt := 0; ak_Namespaces := namespaces; ak_ExpiresAt := expires |}.
Definition keySecret (e : APIKeyEntry) (keyValue : string) (extra : gmap string string) : Secret := {|
  sec_Meta := new_meta (apiKeySecretPrefix +:+ ak_Name e) "minato" (Some {[apiKeySecretLabel := "true"]});
  sec_Type := ""; sec_Data := extra ∪ {["key" := keyValue; "metadata" := json_Marshal e]} |}.
Definition storing (s : Secret) : cluster := holding KSecret s.

(** The clock is at 1000 seconds. *)
Lemma TestGenerateKey :
  (λ x, (match x.1 with
         | inl (e, keyValue) => Some (keyValue <>s "", ak_Namespaces e, ak_ExpiresAt e)
         | inr _ => None
         end,
         match get KSecret "minato" (apiKeySecretPrefix +:+ "ci") x.2 with
         | inl s => (sec_Data s !! "namespaces", sec_Data s !! "expiresAt")
         | inr _ => (None, None)
         end))
    <$> run_on empty_cluster (GenerateKey "minato" "ci" "uid" "alice" "operator" ["tenant-*"] (Some (4600 * second)))
  = Some (Some (true, ["tenant-*"], Some (4600 * second)), (Some "tenant-*", Some (Format (4600 * second))))
  ∧ (λ x, match get KSecret "minato" (apiKeySecretPrefix +:+ "admin-key") x.2 with
          | inl s => Some (sec_Data s !! "namespaces", sec_Data s !! "expiresAt")
          | inr _ => None
          end)
    <$> run_on empty_cluster (GenerateKey "minato" "admin-key" "uid" "alice" "admin" [] None)
  = Some (Some (None, None)).
Proof. vm_compute. auto. Qed.

Definition got (c : cluster) (keyValue : string) : option ((list string * option Z) + gerr) :=
  (sum_map (λ e, (ak_Namespaces e, ak_ExpiresAt e)) id) <$> result c (GetKey "minato" keyValue).
Lemma TestGetKey :
  got (storing (keySecret (entry_of "ci" "operator" [] None) "minato_scoped"
         {["namespaces" := "tenant-a, tenant-*"]})) "minato_scoped"
    = Some (inl (["tenant-a"; "tenant-*"], None))
  ∧ got (storing (keySecret (entry_of "old" "admin" [] None) "minato_expired"
         {["expiresAt" := Format 0]})) "minato_expired" = Some (inr ErrUnauthorized)
  ∧ got (storing (keySecret (entry_of "fresh" "admin" [] None) "minato_fresh"
         {["expiresAt" := Format (4600 * second)]})) "minato_fresh" = Some (inl ([], Some (4600 * second)))
  ∧ got (storing (keySecret (entry_of "ci" "admin" ["json-ns"] None) "minato_x"
         {["namespaces" := "override-ns"]})) "minato_x" = Some (inl (["override-ns"], None)).
Proof. vm_compute. auto. Qed.
Lemma TestListKeys_ShowsExpiryHidesKeyMaterial :
  sum_map (map (λ e, (ak_KeyID e, ak_ExpiresAt e))) id <$>
    result (storing (keySecret (entry_of "ci" "admin" [] (Some (4600 * second))) "minato_secret_value" ∅))
      (ListKeys "minato")
  = Some (inl [("", Some (4600 * second))]).
Proof. vm_compute. reflexivity. Qed.
Lemma TestAPIKeyProvider :
  let with_key k := with_header "X-API-Key" k (bare "GET" "/") in
  sum_map (λ u, (us_Source u, us_Namespaces u, ClusterWide (Some u))) id <$>
    result (storing (keySecret (entry_of "ci" "admin" ["tenant-a"] None) "minato_scoped" ∅))
      (pv_Authenticate (NewAPIKeyProvider "minato") (with_key "minato_scoped"))
  = Some (inl ("apikey", ["tenant-a"], false))
  ∧ result (storing (keySecret (entry_of "old" "admin" [] None) "minato_expired" {["expiresAt" := Format 0]}))
      (pv_Authenticate (NewAPIKeyProvider "minato") (with_key "minato_expired"))
  = Some (inr ErrUnauthorized).
Proof. vm_compute. auto. Qed.

(** An issuer that knows two tokens; an expired one, another audience, issuer or key
    do not verify. *)
Definition claims_of (preferred : string) : IDToken := {|
  idt_claims := Some {| oc_Sub := "user-123"; oc_Email := "alice@example.com"; oc_Name := "Alice Example";
                        oc_PreferredUsername := preferred |};
  idt_all := Some (λ k, if k =s "groups" then Some (ClaimList [Some "operator"]) else None) |}.
Definition issuer (X : Type) (e : op X) : X :=
  match e in op X return X with
  | OidcDiscover issuer => if issuer =s "https://issuer" then None else Some (errorf "connection refused")
  | OidcVerify issuer clientID raw =>
      if (raw =s "valid") && (clientID =s "minato-controlplane") then inl (claims_of "alice")
      else if (raw =s "no-username") && (clientID =s "minato-controlplane") then inl (claims_of "")
      else inr (errorf "oidc: verification failed")
  | e => answer no_objects no_lists 0 _ e
  end.
Definition signed_in (cfg : OIDCConfig) (r : Request) : outcome (option (User + gerr)) :=
  run_outcome issuer (
    let* p := NewOIDCProvider cfg in
    match p with
    | inl p => let* u := pv_Authenticate p r in Ret (Some u)
    | inr _ => Ret None
    end).
Definition oidc_cfg : OIDCConfig := {|
  oi_Enabled := true; oi_IssuerURL := "https://issuer"; oi_ClientID := "minato-controlplane";
  oi_RoleClaim := "groups" |}.
Definition bearer (token : string) : Request :=
  with_header "Authorization" ("Bearer " +:+ token) (bare "GET" "/").
Definition oidc_user (name : string) : User := {|
  us_ID := "user-123"; us_Username := name; us_Email := "alice@example.com"; us_Role := "operator";
  us_Source := "oidc"; us_Namespaces := [] |}.
Lemma TestOIDCProvider :
  map (signed_in oidc_cfg) [bearer "valid"; bearer "no-username"; bearer "not-a-jwt"; bare "GET" "/"]
  = [Done (Some (inl (oidc_user "alice"))); Done (Some (inl (oidc_user "Alice Example")));
     Done (Some (inr ErrUnauthorized)); Done (Some (inr ErrUnauthorized))].
Proof. vm_compute. reflexivity. Qed.
Definition init_error (url client : string) : option string :=
  match run_outcome issuer (NewOIDCProvider {|
      oi_Enabled := false; oi_IssuerURL := url; oi_ClientID := client; oi_RoleClaim := "" |}) with
  | Done (inr e) => Some (ge_msg e)
  | _ => None
  end.
Lemma TestNewOIDCProvider_ConfigErrors :
  rows (λ '(url, client, want),
          match init_error url client with Some m => Contains m want | None => false end) [
    ("", "", "issuer URL and client ID required");
    ("https://issuer.example.com", "", "issuer URL and client ID required");
    ("http://127.0.0.1:1", "minato", "discovery failed")] = true.
Proof. vm_compute. reflexivity. Qed.
End StorageTests.

(** ** [internal/controlplane/tenant/tenant_test.go] *)
Module TenantTests.
Import StorageTests.
(** [resource.ParseQuantity] on numbers, with a binary suffix or none. *)
#[local] Instance quantities : QuantityParser := λ s,
  if HasSuffix s "Ti" then (λ n, n * 1024 * Gi) <$> Atoi (TrimSuffix s "Ti")
  else if HasSuffix s "Gi" then (λ n, n * Gi) <$> Atoi (TrimSuffix s "Gi")
  else (λ n, n * nano) <$> Atoi s.
Definition config_of (servers : Z) (cpu memory storage : string) (ports : list Z) (cp : string) : TenantConfig := {|
  tc_MaxServers := servers; tc_CPU := cpu; tc_Memory := memory; tc_Storage := storage;
  tc_GamePorts := ports; tc_ControlPlaneNamespace := cp |}.
Definition environment (l : list (string * string)) (k : string) : option string :=
  (list_to_map l : gmap string string) !! k.
Lemma TestLoadTenantConfig :
  map (λ l, Tenant.LoadConfig (environment l)) [
    [];
    [("TENANT_QUOTA_MAX_SERVERS", "25"); ("TENANT_QUOTA_CPU", "16"); ("TENANT_QUOTA_MEMORY", "64Gi");
     ("TENANT_QUOTA_STORAGE", "1Ti"); ("TENANT_GAME_PORTS", "25565, 27015");
     ("TENANT_CONTROLPLANE_NAMESPACE", "minato-system")];
    [("TENANT_QUOTA_MAX_SERVERS", "0"); ("TENANT_QUOTA_CPU", "0"); ("TENANT_QUOTA_MEMORY", "");
     ("TENANT_QUOTA_STORAGE", "")]]
  = [inl (config_of 10 "8" "32Gi" "200Gi" [25565] "minato");
     inl (config_of 25 "16" "64Gi" "1Ti" [25565; 27015] "minato-system");
     inl (config_of 0 "" "" "" [25565] "minato")].
Proof. vm_compute. reflexivity. Qed.
Lemma TestLoadTenantConfig_errors :
  rows (λ '(k, v), match Tenant.LoadConfig (environment [(k, v)]) with
                   | inr e => Contains (ge_msg e) k | inl _ => false end) [
    ("TENANT_QUOTA_MAX_SERVERS", "ten"); ("TENANT_QUOTA_MAX_SERVERS", "-1");
    ("TENANT_QUOTA_CPU", "eight"); ("TENANT_QUOTA_MEMORY", "lots");
    ("TENANT_GAME_PORTS", "abc"); ("TENANT_GAME_PORTS", "70000")] = true.
Proof. vm_compute. reflexivity. Qed.
Lemma TestBuildNamespace :
  map (gm_lookup (om_Labels (nsp_Meta (BuildNamespace "tenant-alpha"))))
    [LabelTenant; LabelManagedBy; "pod-security.kubernetes.io/enforce";
     "pod-security.kubernetes.io/audit"; "pod-security.kubernetes.io/warn"]
  = [Some "tenant-alpha"; Some ManagedByValue; Some "restricted"; Some "restricted"; Some "restricted"].
Proof. vm_compute. reflexivity. Qed.
Definition hard_of (cfg : TenantConfig) : option (option (list (option Quantity))) :=
  (λ x : option ResourceQuota * cluster, (λ q, map (λ k, rq_Hard q !! k)
           [gameServerCountQuotaResource; "requests.cpu"; "requests.memory"; "requests.storage"]) <$> x.1)
  <$> run_on empty_cluster (BuildResourceQuota "tenant-alpha" cfg).
Lemma TestBuildResourceQuota :
  map hard_of [config_of 5 "4" "16Gi" "100Gi" [] ""; config_of 3 "" "" "" [] ""; config_of 0 "" "" "" [] ""]
  = [Some (Some [Some (5 * nano); Some (4 * nano); Some (16 * Gi); Some (100 * Gi)]);
     Some (Some [Some (3 * nano); None; None; None]); Some None].
Proof. vm_compute. reflexivity. Qed.
Lemma TestBuildNetworkPolicy :
  let np := BuildNetworkPolicy "tenant-alpha" (config_of 0 "" "" "" [25565; 27015] "minato") in
  (om_Name (np_Meta np), om_Namespace (np_Meta np)) = (NetworkPolicyName, "tenant-alpha")
  ∧ np_PolicyTypes np = ["Ingress"; "Egress"]
  ∧ map (λ r, (npr_Peers r, map npp_Port (npr_Ports r))) (np_Ingress np)
    = [(["tenant-alpha"], []); (["minato"], [AgentPort]); ([], [25565; 25565; 27015; 27015])]
  ∧ map (λ r, length (npr_Ports r)) (np_Egress np) = [2; 1; 4]%nat
  ∧ (head (np_Egress np) ≫= λ r, npp_Port <$> head (npr_Ports r)) = Some 53
  ∧ (let np := BuildNetworkPolicy "tenant-alpha" (config_of 0 "" "" "" [] "minato") in
     (length (np_Ingress np), length (np_Egress np)) = (2, 2)%nat).
Proof. vm_compute. auto 10. Qed.

Definition new_tenant : TenantConfig := config_of 2 "1" "1Gi" "10Gi" [25565] "minato".
Lemma TestEnsureNamespace_CreatesHardenedNamespace :
  (λ x, (x.1,
         match get KNamespace "" "tenant-new" x.2 with
         | inl ns => map (gm_lookup (om_Labels (nsp_Meta ns))) [LabelTenant; "pod-security.kubernetes.io/enforce"]
         | inr _ => []
         end,
         match get KQuota "tenant-new" QuotaName x.2 with
         | inl q => rq_Hard q !! gameServerCountQuotaResource
         | inr _ => None
         end,
         exists_ KNetpol "tenant-new" NetworkPolicyName x.2))
    <$> run_on empty_cluster (EnsureNamespace "tenant-new" new_tenant)
  = Some (None, [Some "tenant-new"; Some "restricted"], Some (2 * nano), true).
Proof. vm_compute. reflexivity. Qed.
Definition blank_config : TenantConfig := config_of 0 "" "" "" [] "".
Lemma TestEnsureNamespace_ExistingNamespaceNotReconciled :
  let existing : Namespace_ := {| nsp_Meta := new_meta "tenant-existing" "" (Some {["team" := "custom"]}) |} in
  (λ x, (x.1,
         match get KNamespace "" "tenant-existing" x.2 with
         | inl ns => map (gm_lookup (om_Labels (nsp_Meta ns))) ["team"; LabelTenant]
         | inr _ => []
         end, length (objects x.2 KQuota), length (objects x.2 KNetpol)))
    <$> run_on (holding KNamespace existing) (EnsureNamespace "tenant-existing" blank_config)
  = Some (None, [Some "custom"; None], 0%nat, 0%nat).
Proof. vm_compute. reflexivity. Qed.
Lemma TestEnsureNamespace_Idempotent :
  fst <$> run_on empty_cluster (
    let* a := EnsureNamespace "tenant-x" blank_config in
    let* b := EnsureNamespace "tenant-x" blank_config in Ret (a, b)) = Some (None, None).
Proof. vm_compute. reflexivity. Qed.
End TenantTests.

(** ** [internal/controlplane/audit/audit_test.go] *)
Module AuditTests.
Import AuthTests.
Definition logged (action resource : string) (u : option User) : list (string * string * string * string * string) :=
  match run_on empty_cluster (AuditLog.LogAction action resource u) with
  | Some (_, c) => map (λ e, (evt_Action e, evt_Resource e, evt_User e, evt_Role e, evt_Result e)) (audited c)
  | None => []
  end.
Lemma TestLogAction :
  logged "apikey.created" "ci-key" (Some (user "1" "alice" "admin" []))
    = [("apikey.created", "ci-key", "alice", "admin", "success")]
  ∧ map (λ e, e.1.1.2) (logged "apikey.deleted" "old-key" None) = ["anonymous"].
Proof. vm_compute. auto. Qed.
End AuditTests.
