(* ===== verification/GoControllerTests.v ===== *)
(** * GoControllerTests: the tests of the controllers, run on the model

    The Go tests of [internal/controllers], against the cluster of [FakeClient]. Its clock stands at
    1000 seconds; "an hour ago" is then a negative instant. *)

From Stdlib Require Import Ascii String.
From S2P Require Import Prelude GoStrings Prog Api Kube Builder Monitoring GameServerObjects Sftp GameServerCtl FleetCtl ActionCtl SnapshotCtl FakeClient GoTests.

#[local] Existing Instances list_FinalizerOps insertion_SortSlice.
Definition test_now : Z := 1000 * second.
(** What a test sees of a run: the error of the reconciler, and the cluster. *)
Definition reconciled {A} (f : ∀ X, op X → option X) (c : cluster) (p : M (A * option gerr))
    : option (option gerr * cluster) :=
  (λ x, (x.1.2.2, x.2)) <$> run_with f c p.
Definition holding_all (l : list (cluster → cluster)) : cluster := fold_left (λ c f, f c) l empty_cluster.
Definition reads {A B} (f : A → B) (r : A + gerr) : option B :=
  match r with inl a => Some (f a) | inr _ => None end.
Definition failed (e : option gerr) (want : string) : bool :=
  match e with Some e => Contains (ge_msg e) want | None => false end.

(** [newTestProfile], [newTestGameServer]. *)
Definition observed_profile (actions : list ActionDecl) (ports : list PortSpec) (caps : option CapabilitiesSpec)
    (obs : option ObservabilitySpec) : GameProfile := {|
  gp_Meta := new_meta "mc" "" None; gp_Conditions := [];
  gp_Spec := {|
    gp_DisplayName := "mc"; gp_Category := ""; gp_Icon := ""; gp_Description := "";
    gp_Image := "test-image:latest"; gp_ImagePullPolicy := ""; gp_Ports := ports; gp_Environment := [];
    gp_Resources := BuilderTests.no_tiers no_resources; gp_Storage := BuilderTests.storage "1Gi" "" "";
    gp_Agent := {| agent_Image := "test-agent:latest"; agent_Version := "v1.0.0" |};
    gp_Actions := actions; gp_Capabilities := caps; gp_Observability := obs |} |}.
Definition test_profile (actions : list ActionDecl) (ports : list PortSpec) (caps : option CapabilitiesSpec)
    : GameProfile := observed_profile actions ports caps None.
Definition game_25565 : PortSpec :=
  {| port_Name := "game"; port_ContainerPort := 25565; port_Protocol := "TCP"; port_Exposed := None |}.
Definition newTestProfile : GameProfile := test_profile [] [game_25565] None.
Definition newTestGameServer : GameServer :=
  with_lifecycle 0 (Some true) (BuilderTests.server_of "default" "srv" "mc" "" None).

(** ** [gameserverfleet_controller_test.go] *)
Module FleetTests.
Definition plain : FleetUpdateStrategy := {| us_Type := ""; us_RollingUpdate := None |}.
Definition fleet_with (meta : ObjectMeta) (replicas : Z) (tpl : GameServerTemplateSpec)
    (strategy : FleetUpdateStrategy) : GameServerFleet := {|
  fl_Meta := meta;
  fl_Spec := {| fl_Profile := "mc"; fl_Replicas := replicas; fl_Template := tpl; fl_UpdateStrategy := strategy;
                fl_PriorityClassName := ""; fl_TopologySpreadConstraints := [] |};
  fl_Status := {| fls_Replicas := 0; fls_ReadyReplicas := 0; fls_UpdatedReplicas := 0; fls_Conditions := [] |} |}.
Definition blank_template : GameServerTemplateSpec := {|
  tpl_Metadata := {| tm_Labels := None; tm_Annotations := None |}; tpl_Spec := {| fgs_Env := None |} |}.
Definition bare_meta : ObjectMeta := new_meta "fleet" "default" None.
Definition final_meta : ObjectMeta := meta_set_Finalizers [gameServerFleetFinalizer] bare_meta.
Definition fleet_of (meta : ObjectMeta) (replicas : Z) : GameServerFleet := fleet_with meta replicas blank_template plain.
Definition generation (n : Z) (m : ObjectMeta) : ObjectMeta := {|
  om_Name := om_Name m; om_Namespace := om_Namespace m; om_Labels := om_Labels m;
  om_Annotations := om_Annotations m; om_Generation := n; om_CreationTimestamp := om_CreationTimestamp m;
  om_DeletionTimestamp := om_DeletionTimestamp m; om_Finalizers := om_Finalizers m;
  om_Controller := om_Controller m |}.
Definition in_state (state version : string) (players : Z) (m : ObjectMeta) : GameServer := {|
  gs_Meta := m; gs_Spec := gs_Spec newTestGameServer;
  gs_Status := {| gss_State := state; gss_AgentVersion := version; gss_Players := players;
    gss_PlayerCapacity := 0; gss_LastActivity := None; gss_Endpoints := []; gss_Conditions := [] |} |}.
Definition member (name : string) : GameServer :=
  in_state "" "" 0 (new_meta name "default" (Some {[fleetLabel := "fleet"]})).
Definition members (c : cluster) : list string := map gs_name (objects c KGameServer).
Definition with_fleet (f : GameServerFleet) (servers : list GameServer) : cluster :=
  with_objects KGameServer servers (put KFleet f empty_cluster).
Definition reconcile (f : GameServerFleet) (servers : list GameServer) : option (option gerr * cluster) :=
  reconciled nothing (with_fleet f servers) (fleet_Reconcile true "default" "fleet").

Lemma TestGameServerFleetReconciler_BuildGameServer :
  let fleet := fleet_with bare_meta 3 {|
    tpl_Metadata := {| tm_Labels := Some {["env" := "prod"]}; tm_Annotations := Some {["note" := "test"]} |};
    tpl_Spec := {| fgs_Env := Some {["KEY" := "VALUE"]} |} |} plain in
  let server := buildGameServer fleet 0 in
  (gs_name server, gs_ns server, gs_Profile (gs_Spec server)) = ("fleet-0", "default", "mc")
  ∧ gs_Env (gs_Spec server) = Some {["KEY" := "VALUE"]}
  ∧ map (gm_lookup (om_Labels (gs_Meta server)))
      ["app.kubernetes.io/name"; "minato.io/fleet"; "minato.io/profile"; "minato.io/managed-by"; "env"]
    = [Some "minato"; Some "fleet"; Some "mc"; Some "gameserverfleet"; Some "prod"]
  ∧ gm_lookup (om_Annotations (gs_Meta server)) "note" = Some "test"
  ∧ gs_name (buildGameServer fleet 5) = "fleet-5".
Proof. vm_compute. auto 10. Qed.
Lemma TestGameServerFleetReconciler_UpdateStatus :
  let fleet := fleet_of (generation 2 bare_meta) 3 in
  let second state := in_state state "" 0 (new_meta "" "" (Some {["minato.io/fleet-generation" := "2"]})) in
  let st := fleet_status fleet (map second [stateRunning; stateProvisioning; stateRunning]) test_now in
  (fls_Replicas st, fls_ReadyReplicas st, fls_UpdatedReplicas st) = (3, 2, 3)
  ∧ map (λ c, (cond_Type c, cond_Status c)) (fls_Conditions st) = [("Ready", ConditionTrue)].
Proof. vm_compute. auto. Qed.
Lemma TestGameServerFleetReconciler_CleanupFleet :
  (λ x, (x.1, members x.2)) <$>
    run_on (with_fleet (fleet_of bare_meta 0) [member "fleet-0"; member "fleet-1"]) (cleanupFleet (fleet_of bare_meta 0))
  = Some (None, []).
Proof. vm_compute. reflexivity. Qed.
Lemma TestGameServerFleetReconciler_Reconcile_NotFound :
  fst <$> reconciled nothing empty_cluster (fleet_Reconcile true "default" "missing") = Some None.
Proof. vm_compute. reflexivity. Qed.
Lemma TestGameServerFleetReconciler_Reconcile_AddFinalizer :
  (λ x, (x.1, reads (λ f, om_Finalizers (fl_Meta f)) (get KFleet "default" "fleet" x.2)))
    <$> reconcile (fleet_of bare_meta 0) []
  = Some (None, Some [gameServerFleetFinalizer]).
Proof. vm_compute. reflexivity. Qed.
Lemma TestGameServerFleetReconciler_Reconcile_CreateServers :
  (λ x, (x.1, members x.2)) <$> reconcile (fleet_of final_meta 2) [] = Some (None, ["fleet-0"; "fleet-1"]).
Proof. vm_compute. reflexivity. Qed.
(** Of two servers as old as each other the one with the first name goes. *)
Lemma TestGameServerFleetReconciler_Reconcile_DeleteExcessServers :
  (λ x, (x.1, members x.2)) <$> reconcile (fleet_of final_meta 1) [member "fleet-0"; member "fleet-1"]
  = Some (None, ["fleet-1"]).
Proof. vm_compute. reflexivity. Qed.
Lemma TestGameServerFleetReconciler_Reconcile_Deletion :
  (λ x, (x.1, members x.2, exists_ KFleet "default" "fleet" x.2)) <$>
    reconcile (fleet_of (meta_set_Deleted test_now final_meta) 0) [member "fleet-0"]
  = Some (None, [], false).
Proof. vm_compute. reflexivity. Qed.
Definition list_failed (X : Type) (e : op X) : option X :=
  match e in op X return option X with ListObjs _ _ _ => Some (inr (errorf "list failed")) | _ => None end.
Lemma TestGameServerFleetReconciler_ListError :
  (λ x, failed x.1 "list failed") <$>
    reconciled list_failed (with_fleet (fleet_of final_meta 1) []) (fleet_Reconcile true "default" "fleet") = Some true
  ∧ (λ x, failed x.1.2 "list failed") <$>
    run_with list_failed (with_fleet (fleet_of bare_meta 0) []) (cleanupFleet (fleet_of bare_meta 0)) = Some true.
Proof. vm_compute. auto. Qed.
Lemma TestGameServerFleetReconciler_SelectServersToDelete_PlayerAware :
  (λ l, map gs_name l) <$> selectServersToDelete
    [in_state "" "" 5 (new_meta "fleet-0" "" None); in_state "" "" 0 (new_meta "fleet-1" "" None);
     in_state "" "" 2 (new_meta "fleet-2" "" None)] 1 "RollingUpdate"
  = Some ["fleet-1"; "fleet-2"].
Proof. vm_compute. reflexivity. Qed.

(** The requests to shut down an agent gets. *)
Definition shutdowns (t : list (event op)) : list (Z * string) :=
  omap (λ v, match v with
             | Ev e _ => match e with AgentPrepareShutdown _ _ secs reason => Some (secs, reason) | _ => None end
             end) t.
Definition drained (f : ∀ X, op X → option X) (fleet : GameServerFleet) (server : GameServer)
    : option (list (Z * string)) :=
  (λ x, shutdowns x.1.1) <$> run_with f empty_cluster (drainServer true fleet server).
Definition running_server : GameServer := in_state "Running" "v1.0.0" 0 (new_meta "fleet-0" "default" None).
Definition draining (secs : Z) : GameServerFleet :=
  fleet_with bare_meta 1 blank_template {| us_Type := "RollingUpdate"; us_RollingUpdate := Some {|
    ru_MaxUnavailable := None; ru_MaxSurge := None; ru_DrainTimeoutSeconds := secs |} |}.
Definition no_dial (X : Type) (e : op X) : option X :=
  match e in op X return option X with
  | GrpcDial _ => Some (Some (errorf "context deadline exceeded"))
  | _ => None
  end.
Definition hangs (X : Type) (e : op X) : option X :=
  match e in op X return option X with
  | AgentPrepareShutdown _ _ _ _ => Some (Some (errorf "context deadline exceeded"))
  | _ => None
  end.
Lemma TestGameServerFleetReconciler_DrainServer :
  drained nothing (draining 45) running_server = Some [(45, "fleet scale-down")]
  ∧ drained nothing (fleet_of bare_meta 0) running_server = Some [(defaultDrainTimeoutSeconds, "fleet scale-down")]
  ∧ map (λ '(state, version), drained nothing (fleet_of bare_meta 0)
                                (in_state state version 0 (new_meta "fleet-0" "default" None)))
      [("Provisioning", "v1"); ("Running", ""); ("Stopped", "v1")] = [Some []; Some []; Some []]
  ∧ drained hangs (draining 1) running_server = Some [(1, "fleet scale-down")]
  ∧ drained no_dial (draining 1) running_server = Some [].
Proof. vm_compute. auto 10. Qed.
End FleetTests.

(** ** [actionexecution_controller_test.go], [actionexecution_cleanup_test.go] *)
Module ActionTests.
Definition param (required : bool) (def : string) : ActionParamSchema :=
  {| aps_Type := "string"; aps_Required := required; aps_Description := ""; aps_Default := def |}.
Definition action (name : string) (params : list (string * ActionParamSchema)) (mode : ActionConcurrency)
    (timeout : string) : ActionDecl := {|
  ad_Name := name; ad_Description := ""; ad_Params := params; ad_Returns := ""; ad_Concurrency := mode;
  ad_Timeout := timeout |}.
Definition mode_unset : ActionConcurrency := ActionConcurrencyOther "".
Definition execution (name target actionName : string) (params : gomap string) (state : ActionExecutionState)
    (ended : option Z) : ActionExecution := {|
  ae_Meta := new_meta name "default" None;
  ae_Spec := {| ae_TargetRef := {| tr_APIVersion := ""; tr_Kind := ""; tr_Name := target; tr_Namespace := "default" |};
                ae_ActionName := actionName; ae_Params := params; ae_Caller := "" |};
  ae_Status := {| aes_State := state; aes_StartedAt := None; aes_EndedAt := ended; aes_AgentResponse := "";
                  aes_Error := ""; aes_Conditions := [] |} |}.

Lemma TestValidateParams_Expanded :
  let decl := action "test-action" [("required-param", param true ""); ("optional-param", param false "default")]
                mode_unset "" in
  let with_params ps := execution "" "" "" (Some (list_to_map ps)) ActionExecutionNew None in
  let missing := Some ("required param " +:+ fmt_q "required-param" +:+ " missing") in
  map (λ ps, validateParams (with_params ps) decl) [
    [("required-param", "value"); ("optional-param", "opt")]; [("required-param", "value")];
    [("optional-param", "opt")]; []] = [None; None; missing; missing]
  ∧ validateParams (with_params []) (action "no-required" [] mode_unset "") = None.
Proof. vm_compute. auto. Qed.

Definition pending_backup : ActionExecution := execution "exec-1" "srv" "backup" None ActionExecutionPending None.
Definition running_action (name : string) : ActionExecution := execution "exec-2" "srv" name None ActionExecutionRunning None.
Definition concurrency (f : ∀ X, op X → option X) (mode : ActionConcurrency) (others : list ActionExecution)
    : option (bool * string) :=
  (λ x, x.1.2) <$> run_with f (with_objects KExec (pending_backup :: others) (put KGameServer newTestGameServer empty_cluster))
    (checkConcurrency pending_backup newTestGameServer (action "backup" [] mode "")).
Definition blocked (r : option (bool * string)) (want : string) : bool :=
  match r with Some (canRun, reason) => negb canRun && Contains reason want | None => false end.
Definition allowed (r : option (bool * string)) : bool := match r with Some (canRun, _) => canRun | None => false end.
Lemma TestCheckConcurrency :
  blocked (concurrency nothing ActionConcurrencyExclusive [running_action "backup"])
    "exclusive action blocked by running execution" = true
  ∧ blocked (concurrency nothing ActionConcurrencySerialize [running_action "backup"])
    "serialized action blocked by running execution" = true
  ∧ allowed (concurrency nothing ActionConcurrencySerialize [running_action "restore"]) = true
  ∧ allowed (concurrency nothing ActionConcurrencyAllow [running_action "backup"]) = true
  ∧ allowed (concurrency nothing ActionConcurrencyExclusive []) = true
  ∧ blocked (concurrency unregistered ActionConcurrencyExclusive []) "failed to list action executions" = true.
Proof. vm_compute. auto 10. Qed.

Definition status_seen (e : ActionExecution) :=
  let st := ae_Status e in
  (aes_State st, bool_decide (aes_StartedAt st = None), bool_decide (aes_EndedAt st = None),
   aes_AgentResponse st, aes_Error st).
Definition set_states : M (list ActionExecution) :=
  let* first := setState (execution "exec" "" "" None ActionExecutionNew None) ActionExecutionRunning "" "" in
  let* second := setState first ActionExecutionSucceeded "done" "" in
  let* third := setState second ActionExecutionFailed "" "something broke" in
  let* fourth := setState third ActionExecutionTimedOut "" "timed out" in
  let* fifth := setState fourth ActionExecutionRejected "" "rejected" in
  Ret [first; second; third; fourth; fifth].
Lemma TestSetState :
  (λ x, (map status_seen x.1, (λ e, map cond_Type (aes_Conditions (ae_Status e))) <$> head x.1))
    <$> run_on empty_cluster set_states
  = Some ([(ActionExecutionRunning, false, true, "", ""); (ActionExecutionSucceeded, false, false, "done", "");
           (ActionExecutionFailed, false, false, "", "something broke");
           (ActionExecutionTimedOut, false, false, "", "timed out");
           (ActionExecutionRejected, false, false, "", "rejected")],
          Some [state_string ActionExecutionRunning]).
Proof. vm_compute. reflexivity. Qed.

(** One reconciliation of an execution: the error, and the state and error recorded. *)
Definition outcome_of (f : ∀ X, op X → option X) (c : cluster) (name : string)
    : option (option gerr * option (ActionExecutionState * string)) :=
  (λ x, (x.1, reads (λ e, (aes_State (ae_Status e), aes_Error (ae_Status e))) (get KExec "default" name x.2)))
    <$> reconciled f c (ae_Reconcile "default" name).
Definition ended_in (r : option (option gerr * option (ActionExecutionState * string)))
    (state : ActionExecutionState) (want : string) : bool :=
  match r with
  | Some (None, Some (s, e)) => bool_decide (s = state) && Contains e want
  | _ => false
  end.
Definition server_and (actions : list ActionDecl) (execs : list ActionExecution) : cluster :=
  with_objects KExec execs
    (put KGameProfile (test_profile actions [] None) (put KGameServer newTestGameServer empty_cluster)).
Definition pending (target name : string) : ActionExecution :=
  execution "exec" target name (Some ∅) ActionExecutionPending None.

Lemma TestActionExecutionReconciler_Reconcile_NotFound :
  outcome_of nothing empty_cluster "missing" = Some (None, None).
Proof. vm_compute. reflexivity. Qed.
Lemma TestActionExecutionReconciler_Reconcile_InitialState :
  ended_in (outcome_of nothing (with_objects KExec [execution "exec" "srv" "backup" None ActionExecutionNew None]
    empty_cluster) "exec") ActionExecutionPending "" = true.
Proof. vm_compute. reflexivity. Qed.
Lemma TestActionExecutionReconciler_Reconcile_Rejected :
  ended_in (outcome_of nothing (with_objects KExec [pending "missing-srv" "backup"] empty_cluster) "exec")
    ActionExecutionRejected "target GameServer not found" = true
  ∧ ended_in (outcome_of nothing (with_objects KExec [pending "srv" "backup"]
      (put KGameServer newTestGameServer empty_cluster)) "exec")
    ActionExecutionRejected "referenced GameProfile not found" = true
  ∧ ended_in (outcome_of nothing (server_and [] [pending "srv" "nonexistent"]) "exec")
    ActionExecutionRejected "not found in profile" = true
  ∧ ended_in (outcome_of nothing (server_and [action "backup" [("path", param true "")] mode_unset ""]
      [pending "srv" "backup"]) "exec") ActionExecutionRejected "required param" = true
  ∧ ended_in (outcome_of nothing (server_and [action "backup" [] ActionConcurrencyExclusive ""]
      [execution "exec-1" "srv" "backup" None ActionExecutionRunning None; pending "srv" "backup"]) "exec")
    ActionExecutionRejected "exclusive action blocked" = true.
Proof. vm_compute. auto 10. Qed.
Lemma TestActionExecutionReconciler_Reconcile_NonPendingState :
  outcome_of nothing (with_objects KExec [execution "exec" "" "" None ActionExecutionSucceeded None] empty_cluster) "exec"
  = Some (None, Some (ActionExecutionSucceeded, "")).
Proof. vm_compute. reflexivity. Qed.
(** No agent listens: without the service, and behind it. *)
Definition no_agent (X : Type) (e : op X) : option X :=
  let refused := errorf "rpc error: code = Unavailable" in
  match e in op X return option X with
  | AgentExecuteAction _ _ _ _ _ => Some (inr refused)
  | AgentHealthCheck _ _ => Some (inr refused)
  | AgentInfo _ _ => Some (inr refused)
  | AgentGetPlayers _ _ => Some (inr refused)
  | AgentPrepareShutdown _ _ _ _ => Some (Some refused)
  | _ => None
  end.
Lemma TestActionExecutionReconciler_Reconcile_NoAgent :
  ended_in (outcome_of no_agent (server_and [action "backup" [] mode_unset "10s"] [pending "srv" "backup"]) "exec")
    ActionExecutionFailed "failed to get service" = true
  ∧ ended_in (outcome_of no_agent (put KSvc (buildHeadlessService newTestGameServer ∅)
      (server_and [action "backup" [] mode_unset "1s"] [pending "srv" "backup"])) "exec")
    ActionExecutionFailed "agent execution failed" = true.
Proof. vm_compute. auto. Qed.
Definition status_failed (X : Type) (e : op X) : option X :=
  match e in op X return option X with
  | StatusUpdate _ _ => Some (Some (errorf "status update failed"))
  | _ => None
  end.
Lemma TestActionExecutionReconciler_Reconcile_StatusUpdateError :
  (λ x, failed x.1 "status update failed") <$> outcome_of status_failed
    (with_objects KExec [execution "exec" "" "" None ActionExecutionNew None] empty_cluster) "exec" = Some true.
Proof. vm_compute. reflexivity. Qed.

Definition ago (d : Z) : option Z := Some (test_now - d).
Definition day : Z := 24 * hour.
Definition ended (name : string) (state : ActionExecutionState) (at_ : option Z) : ActionExecution :=
  execution name "" "" None state at_.
Lemma TestActionExecutionCleanupTask_Cleanup :
  (λ x, (x.1, map ae_name (objects x.2 KExec))) <$> run_on (with_objects KExec [
    ended "succeeded-expired" ActionExecutionSucceeded (ago (8 * day));
    ended "succeeded-fresh" ActionExecutionSucceeded (ago (1 * day));
    ended "failed-expired" ActionExecutionFailed (ago (31 * day));
    ended "failed-fresh" ActionExecutionFailed (ago (1 * day));
    ended "timedout-expired" ActionExecutionTimedOut (ago (31 * day));
    ended "rejected-expired" ActionExecutionRejected (ago (31 * day));
    ended "pending" ActionExecutionPending None;
    ended "running" ActionExecutionRunning (ago (31 * day));
    ended "no-ended-at" ActionExecutionSucceeded None] empty_cluster) cleanup
  = Some (None, ["succeeded-fresh"; "failed-fresh"; "pending"; "running"; "no-ended-at"]).
Proof. vm_compute. reflexivity. Qed.
Lemma TestActionExecutionCleanupTask_Cleanup_ListError :
  (λ x, bool_decide (x.1.2 = None)) <$> run_with unregistered empty_cluster cleanup = Some false.
Proof. vm_compute. reflexivity. Qed.
End ActionTests.

(** ** [gamesnapshot_controller_test.go] *)
Module SnapshotTests.
(** The schedules of the tests: every minute, every hour. *)
#[local] Instance test_cron : CronParser := λ s,
  if s =s "* * * * *" then inl (λ t, (t / minute + 1) * minute)
  else if s =s "0 * * * *" then inl (λ t, (t / hour + 1) * hour)
  else inr (errorf "expected exactly 5 fields").
Definition snap_meta : ObjectMeta := new_meta "snap" "default" None.
Definition snap_final : ObjectMeta := meta_set_Finalizers [gameSnapshotFinalizer] snap_meta.
Definition snapshot (meta : ObjectMeta) (ref schedule : string) (ret : SnapshotRetention)
    (entries : list SnapshotEntry) (last : option Z) (conds : list Condition) : GameSnapshot := {|
  sn_Meta := meta;
  sn_Spec := {| sn_GameServerRef := ref; sn_Schedule := schedule; sn_Retention := ret |};
  sn_Status := {| sns_Snapshots := entries; sns_LastSnapshotAt := last; sns_Conditions := conds |} |}.
Definition keep (count : Z) (duration : string) : SnapshotRetention :=
  {| ret_Count := count; ret_Duration := duration |}.
Definition entry (name : string) (at_ : Z) : SnapshotEntry :=
  {| se_Name := name; se_CreatedAt := at_; se_VolumeSnapshotRef := ""; se_SizeBytes := 0 |}.
Definition srv_pvc : PVC := {|
  pvc_Meta := new_meta "srv" "default" None; pvc_AccessModes := []; pvc_StorageRequest := 0;
  pvc_StorageClassName := None; pvc_DataSource := None |}.
Definition one_shot (meta : ObjectMeta) (ref : string) : GameSnapshot :=
  snapshot meta ref "" (keep 0 "") [] None [].
Definition with_snap (s : GameSnapshot) : cluster := put KSnap s empty_cluster.
Definition with_server (s : GameSnapshot) : cluster := put KGameServer newTestGameServer (with_snap s).
Definition with_volume (s : GameSnapshot) : cluster := put KPvc srv_pvc (with_server s).
Definition names (s : GameSnapshot) : list string := map se_Name (sn_entries s).
Definition conditions_of (s : GameSnapshot) : list (string * ConditionStatus * string) :=
  map (λ c, (cond_Type c, cond_Status c, cond_Reason c)) (sns_Conditions (sn_Status s)).

Lemma TestGameSnapshotReconciler_CreateSnapshot :
  (λ x, (x.1.2, map (λ n, n <>s "") (names x.1.1), bool_decide (sns_LastSnapshotAt (sn_Status x.1.1) = None)))
    <$> run_on (with_volume (one_shot snap_meta "srv")) (createVolumeSnapshot (one_shot snap_meta "srv") newTestGameServer)
  = Some (None, [true], false)
  ∧ (λ x, failed x.1.2 "failed to get PVC")
    <$> run_on (with_server (one_shot snap_meta "srv")) (createVolumeSnapshot (one_shot snap_meta "srv") newTestGameServer)
  = Some true.
Proof. vm_compute. auto. Qed.
Definition retained (ret : SnapshotRetention) (entries : list SnapshotEntry) : option (option gerr * list string) :=
  let s := snapshot snap_meta "" "" ret entries None [] in
  (λ x, (x.1.2, names x.1.1)) <$> run_on (with_snap s) (enforceRetention s).
Lemma TestGameSnapshotReconciler_EnforceRetention :
  retained (keep 2 "") [entry "snap-1" (test_now - 3 * hour); entry "snap-2" (test_now - 2 * hour);
                        entry "snap-3" (test_now - 1 * hour)] = Some (None, ["snap-2"; "snap-3"])
  ∧ retained (keep 0 "1h") [entry "snap-1" (test_now - 3 * hour); entry "snap-2" (test_now - 30 * minute)]
    = Some (None, ["snap-2"])
  ∧ retained (keep 0 "") [entry "snap-1" zero_time] = Some (None, ["snap-1"]).
Proof. vm_compute. auto. Qed.
Lemma TestGameSnapshotReconciler_SetCondition :
  let s := one_shot snap_meta "" in
  (λ x, conditions_of x.1) <$> run_on (with_snap s) (snap_setCondition s "Ready" ConditionTrue "Test" "all good")
    = Some [("Ready", ConditionTrue, "Test")]
  ∧ (λ x, conditions_of x.1) <$> run_on (with_snap s) (
      let* s := snap_setCondition s "Ready" ConditionTrue "Test" "all good" in
      snap_setCondition s "Ready" ConditionFalse "Test2" "not good")
    = Some [("Ready", ConditionFalse, "Test2")].
Proof. vm_compute. auto. Qed.

(** The delay and error of a reconciliation, and the snapshot's finalizers, entries and
    conditions in the cluster. *)
Record outcome_ := {
  delay : Z; problem : option gerr;
  left_ : option (list string * list string * list (string * ConditionStatus * string)) }.
Definition quiet (l : option (list string * list string * list (string * ConditionStatus * string))) : option outcome_ :=
  Some {| delay := no_requeue; problem := None; left_ := l |}.
Definition entries_left (o : outcome_) : option nat := (λ r, length r.1.2) <$> left_ o.
Definition after_reconcile (f : ∀ X, op X → option X) (c : cluster) : option outcome_ :=
  (λ x, {| delay := x.1.2.1; problem := x.1.2.2;
           left_ := reads (λ s, (om_Finalizers (sn_Meta s), names s, conditions_of s))
                      (get KSnap "default" "snap" x.2) |})
    <$> run_with f c (snap_Reconcile "default" "snap").
Lemma TestGameSnapshotReconciler_Reconcile :
  after_reconcile nothing empty_cluster = quiet None
  ∧ after_reconcile nothing (with_snap (one_shot snap_meta "srv"))
    = quiet (Some ([gameSnapshotFinalizer], [], []))
  ∧ after_reconcile nothing (with_snap (one_shot snap_final "missing-srv"))
    = quiet (Some ([gameSnapshotFinalizer], [], [("Ready", ConditionFalse, "GameServerNotFound")]))
  ∧ after_reconcile nothing (with_snap (one_shot (meta_set_Deleted test_now snap_final) "srv"))
    = quiet None.
Proof. vm_compute. auto. Qed.
Lemma TestGameSnapshotReconciler_Reconcile_ScheduledSnapshot :
  (λ x, (problem x, entries_left x)) <$>
    after_reconcile nothing (with_volume (snapshot snap_final "srv" "* * * * *" (keep 0 "") [] None []))
  = Some (None, Some 1%nat).
Proof. vm_compute. reflexivity. Qed.
Lemma TestGameSnapshotReconciler_Reconcile_ScheduledSkip :
  (λ x, ((0 <? delay x) && (delay x <=? hour), problem x, entries_left x)) <$>
    after_reconcile nothing (with_volume (snapshot snap_final "srv" "0 * * * *" (keep 0 "") [] (Some test_now) []))
  = Some (true, None, Some 0%nat).
Proof. vm_compute. reflexivity. Qed.
Definition get_server_failed (X : Type) (e : op X) : option X :=
  match e in op X return option X with
  | Get KGameServer _ _ => Some (inr (errorf "get server failed"))
  | _ => None
  end.
Lemma TestGameSnapshotReconciler_Reconcile_GetServerError :
  (λ x, failed (problem x) "get server failed") <$>
    after_reconcile get_server_failed (with_snap (one_shot snap_final "srv")) = Some true.
Proof. vm_compute. reflexivity. Qed.
Lemma TestGameSnapshotReconciler_Reconcile_SnapshotError :
  (λ x, (problem x, (λ r, existsb (λ c : string * ConditionStatus * string,
                        (c.2 =s "SnapshotFailed") && bool_decide (c.1.2 = ConditionFalse)) r.2) <$> left_ x))
    <$> after_reconcile nothing (with_server (one_shot snap_final "srv")) = Some (None, Some true).
Proof. vm_compute. reflexivity. Qed.

Definition should (s : GameSnapshot) : option (bool * Z * option gerr) :=
  fst <$> run_on empty_cluster (shouldTakeSnapshot s).
Lemma TestGameSnapshotReconciler_ShouldTakeSnapshot :
  should (one_shot snap_meta "") = Some (true, 0, None)
  ∧ should (snapshot snap_meta "" "" (keep 0 "") [] (Some test_now) []) = Some (false, 0, None)
  ∧ should (snapshot snap_meta "" "* * * * *" (keep 0 "") [] None []) = Some (true, 0, None)
  ∧ (λ x, (x.1.1, 0 <? x.1.2, x.2)) <$> should (snapshot snap_meta "" "* * * * *" (keep 0 "") [] (Some test_now) [])
    = Some (false, true, None)
  ∧ (λ x, (x.1.1, x.1.2, bool_decide (x.2 = None))) <$> should (snapshot snap_meta "" "invalid cron" (keep 0 "") [] None [])
    = Some (false, 0, false).
Proof. vm_compute. auto 10. Qed.
Definition condition (ty : string) (status : ConditionStatus) : Condition := {|
  cond_Type := ty; cond_Status := status; cond_Reason := ""; cond_Message := ""; cond_ObservedGeneration := 0;
  cond_LastTransitionTime := 0 |}.
Lemma TestGameSnapshotReconciler_IsSnapshotInProgress :
  map (λ '(entries, conds), fst <$> run_on empty_cluster
         (isSnapshotInProgress (snapshot snap_meta "" "" (keep 0 "") entries None conds)))
    [([], []); ([entry "snap-1" test_now], []);
     ([entry "snap-1" test_now], [condition "SnapshotReady" ConditionTrue]);
     ([entry "snap-1" (test_now - 20 * minute)], [])]
  = [Some false; Some true; Some false; Some false].
Proof. vm_compute. reflexivity. Qed.

(** [monitorSnapshot]: the delay and error returned; sizes and conditions afterwards. *)
Definition monitored (f : ∀ X, op X → option X) (at_ : Z)
    : option (Z * option string * option (list Z * list (string * ConditionStatus * string))) :=
  let s := snapshot snap_meta "" "" (keep 0 "") [entry "vs-1" at_] None [] in
  (λ x, (x.1.2.1, match x.1.2.2 with Some e => Some (ge_msg e) | None => None end,
         reads (λ s, (map se_SizeBytes (sn_entries s), conditions_of s)) (get KSnap "default" "snap" x.2)))
    <$> run_with f (with_snap s) (monitorSnapshot s).
Definition volume_is (ready : nested bool) (size : nested Z) (msg : nested string) (X : Type) (e : op X) : option X :=
  match e in op X return option X with
  | Get KVolumeSnapshot ns n => Some (inl {|
      vs_Meta := new_meta n ns None; vs_SourcePVC := ""; vs_readyToUse := ready; vs_restoreSize := size;
      vs_error_slice := NMissing; vs_error_message := msg |})
  | _ => None
  end.
Lemma TestGameSnapshotReconciler_MonitorSnapshot :
  monitored nothing test_now = Some (10 * second, None, Some ([0], []))
  ∧ monitored (volume_is (NFound true) (NFound 1073741824) NMissing) test_now
    = Some (0, None, Some ([1073741824], [("SnapshotReady", ConditionTrue, "SnapshotComplete")]))
  ∧ monitored (volume_is NMissing NMissing (NFound "snapshot failed")) test_now
    = Some (0, Some "VolumeSnapshot failed: snapshot failed",
            Some ([0], [("SnapshotReady", ConditionFalse, "SnapshotFailed")]))
  ∧ monitored nothing (test_now - 15 * minute)
    = Some (0, None, Some ([0], [("SnapshotReady", ConditionFalse, "SnapshotTimeout")])).
Proof. vm_compute. auto 10. Qed.
End SnapshotTests.

(** ** [gameserver_controller_test.go], [gameserver_lifecycle_test.go] *)
Module ServerTests.
Import ActionTests.
#[local] Existing Instance WebhookTests.suffixed.
Definition labels : gmap string string := buildGameServerLabels newTestGameServer newTestProfile.
Definition sftp_caps : option CapabilitiesSpec := Some (BuilderTests.caps true).
Definition sts_of (replicas : option Z) (ready : Z) : StatefulSet := {|
  sts_Meta := new_meta "srv" "default" None; sts_Replicas := replicas; sts_Selector := ∅; sts_ServiceName := "";
  sts_TemplateLabels := ∅; sts_TemplateSpec := ex_pod; sts_ReadyReplicas := ready |}.

Lemma TestBuildStatefulSet :
  match BuildGameServerPodSpec newTestProfile newTestGameServer with
  | inl pod =>
      let sts := buildStatefulSet newTestGameServer pod labels in
      (om_Name (sts_Meta sts), om_Namespace (sts_Meta sts), sts_Replicas sts, sts_ServiceName sts)
        = ("srv", "default", Some 1, "srv")
      ∧ om_Labels (sts_Meta sts) = Some labels ∧ sts_Selector sts = labels ∧ sts_TemplateLabels sts = labels
      ∧ length (ps_Containers (sts_TemplateSpec sts)) = 2%nat
      ∧ find_first (λ v, vol_Name v =s DataVolumeName) (ps_Volumes (sts_TemplateSpec sts))
        = Some {| vol_Name := DataVolumeName; vol_Source := PersistentVolumeClaim "srv" |}
  | inr _ => False
  end.
Proof. repeat split; vm_compute; reflexivity. Qed.
Definition described (s : Service) :=
  (om_Name (svc_Meta s), om_Namespace (svc_Meta s), svc_Type s, svc_ClusterIP s,
   map (λ p, (sp_Name p, sp_Port p)) (svc_Ports s)).
Lemma TestBuildServices :
  described (buildHeadlessService newTestGameServer labels)
    = ("srv", "default", "ClusterIP", "None", [("placeholder", 1)])
  ∧ svc_PublishNotReadyAddresses (buildHeadlessService newTestGameServer labels) = true
  ∧ described (buildAgentService newTestGameServer labels)
    = ("srv-agent", "default", "ClusterIP", "", [(AgentPortName, AgentGRPCPort)])
  ∧ map svc_Selector [buildHeadlessService newTestGameServer labels; buildAgentService newTestGameServer labels]
    = [labels; labels].
Proof. repeat split; vm_compute; reflexivity. Qed.
Definition sized (size : string) : GameProfile := WebhookTests.sized size "" "".
Lemma TestBuildPVC :
  let pvc := buildPVC newTestGameServer newTestProfile in
  (om_Name (pvc_Meta pvc), om_Namespace (pvc_Meta pvc), pvc_AccessModes pvc) = ("srv", "default", ["ReadWriteOnce"])
  ∧ pvc_StorageRequest pvc = 1 * Gi ∧ pvc_StorageRequest (buildPVC newTestGameServer (sized "invalid")) = 1 * Gi.
Proof. repeat split; vm_compute; reflexivity. Qed.
Lemma TestBuildGameServerLabels :
  map (λ k, labels !! k) ["app.kubernetes.io/name"; "minato.io/gameserver"; "minato.io/profile"]
  = [Some "minato"; Some "srv"; Some "mc"].
Proof. vm_compute. reflexivity. Qed.
Lemma TestStsReady :
  map (uncurry (λ r n, stsReady (sts_of r n))) [(None, 0); (Some 1, 0); (Some 1, 1); (Some 2, 1)]
  = [false; false; true; false].
Proof. vm_compute. reflexivity. Qed.
Definition cond (ty : string) (st : ConditionStatus) (reason : string) : Condition := {|
  cond_Type := ty; cond_Status := st; cond_Reason := reason; cond_Message := ""; cond_ObservedGeneration := 0;
  cond_LastTransitionTime := 0 |}.
Lemma TestSetCondition :
  let one := setCondition [] (cond "Ready" ConditionTrue "A") in
  let two := setCondition one (cond "Ready" ConditionFalse "B") in
  let three := setCondition two (cond "AgentReachable" ConditionTrue "C") in
  map (map cond_Reason) [one; two; three] = [["A"]; ["B"]; ["B"; "C"]].
Proof. vm_compute. reflexivity. Qed.

Definition port (name : string) (number : Z) (exposed : option bool) : PortSpec :=
  {| port_Name := name; port_ContainerPort := number; port_Protocol := "TCP"; port_Exposed := exposed |}.
Definition game_service (ports : list PortSpec) (caps : option CapabilitiesSpec) (zone : string) : Service :=
  buildGameService newTestGameServer (test_profile [] ports caps) labels zone.
Definition hostname (s : Service) : option string :=
  gm_lookup (om_Annotations (svc_Meta s)) "external-dns.alpha.kubernetes.io/hostname".
Lemma TestBuildGameService :
  described (game_service [game_25565] None "") = ("srv-game", "default", "LoadBalancer", "", [("game", 25565)])
  ∧ hostname (game_service [game_25565] None "") = None
  ∧ map sp_Name (svc_Ports (game_service [game_25565; port "rcon" 25575 (Some false); port "game-dup" 25565 None] None ""))
    = ["game"]
  ∧ hostname (game_service [game_25565] None "games.example.com") = Some "srv.games.example.com".
Proof. repeat split; vm_compute; reflexivity. Qed.
Lemma TestBuildGameServiceSFTPPort :
  map (λ p, (sp_Name p, sp_Port p, sp_Protocol p)) (svc_Ports (game_service [game_25565] sftp_caps "games.example.com"))
    = [("game", 25565, "TCP"); ("sftp", SFTPPort, ProtocolTCP)]
  ∧ hostname (game_service [game_25565] sftp_caps "games.example.com") = Some "srv.games.example.com"
  ∧ map sp_Name (svc_Ports (game_service [game_25565; port "already-2022" SFTPPort None] sftp_caps ""))
    = ["game"; "already-2022"].
Proof. repeat split; vm_compute; reflexivity. Qed.

Definition reconciler (zone : string) (recorder : bool) : GameServerReconciler := {|
  gsr_OperatorNamespace := ""; gsr_ImagePullSecrets := []; gsr_ExternalDNSZone := zone; gsr_Recorder := recorder |}.
Definition plain : GameServerReconciler := reconciler "" false.
Definition final_server (auto : option bool) : GameServer :=
  with_lifecycle 0 auto (gs_set_Meta (meta_set_Finalizers [gameServerFinalizer] (gs_Meta newTestGameServer)) newTestGameServer).
Definition server_meta (name : string) : ObjectMeta := new_meta name "default" None.
Definition child_service (name : string) (ingress : list LoadBalancerIngress) : Service := {|
  svc_Meta := server_meta name; svc_Type := ""; svc_ClusterIP := ""; svc_Selector := ∅; svc_Ports := [];
  svc_PublishNotReadyAddresses := false; svc_LoadBalancerIP := ""; svc_Ingress := ingress |}.
Definition child_pvc : PVC := SnapshotTests.srv_pvc.
Definition with_children (c : cluster) : cluster :=
  put KPvc child_pvc (put KSvc (child_service "srv" []) (put KSts (sts_of None 0) c)).
Definition children_left (c : cluster) : list bool :=
  [exists_ KSts "default" "srv" c; exists_ KSvc "default" "srv" c; exists_ KPvc "default" "srv" c].
Definition with_profile (s : GameServer) : cluster :=
  put KGameServer s (put KGameProfile newTestProfile empty_cluster).

Lemma TestCleanupResources :
  (λ x, (x.1, children_left x.2)) <$> run_on (with_children (put KGameServer newTestGameServer empty_cluster)) (
    let* a := cleanupResources newTestGameServer in
    let* b := cleanupResources newTestGameServer in Ret (a, b))
  = Some ((None, None), [false; false; false]).
Proof. vm_compute. reflexivity. Qed.

(** Reconciliations in a row, on a cluster whose agents answer as [f] says: the error of the
    last, the calls made, and the cluster. *)
Fixpoint reconcile_n (n : nat) (r : GameServerReconciler) (d : Detection) : M (Detection * option gerr) :=
  let* '(d, (_, e)) := Reconcile r d "default" "srv" in
  match n with
  | O => Ret (d, e)
  | S n => reconcile_n n r d
  end.
Record seen := { err : option gerr; calls : list (event op); world : cluster }.
Definition reconcile (n : nat) (r : GameServerReconciler) (f : ∀ X, op X → option X) (c : cluster) : option seen :=
  (λ x, {| err := x.1.2.2; calls := x.1.1; world := x.2 |})
    <$> run_with f c (reconcile_n n r ResetPrometheusDetection).
Definition state_of (s : seen) : option (string * option string) :=
  reads (λ s, (gss_State (gs_Status s), cond_Reason <$> head (gss_Conditions (gs_Status s))))
    (get KGameServer "default" "srv" (world s)).
Definition replicas_of (s : seen) : option (option Z) := reads sts_Replicas (get KSts "default" "srv" (world s)).

Lemma TestGameServerReconciler_Reconcile :
  (λ s, (err s, reads (λ s, om_Finalizers (gs_Meta s)) (get KGameServer "default" "srv" (world s))))
    <$> reconcile 0 plain no_agent (with_profile newTestGameServer) = Some (None, Some [gameServerFinalizer])
  ∧ (λ s, (err s, children_left (world s), fst <$> state_of s))
    <$> reconcile 1 plain no_agent (with_profile newTestGameServer)
    = Some (None, [true; true; true], Some stateProvisioning).
Proof. repeat split; vm_compute; reflexivity. Qed.
Lemma TestGameServerReconciler_Reconcile_ProfileNotFound :
  (λ s, (err s, state_of s)) <$> reconcile 1 plain no_agent (put KGameServer newTestGameServer empty_cluster)
  = Some (None, Some (stateError, Some "ProfileNotFound")).
Proof. vm_compute. reflexivity. Qed.
Definition deleted_server : GameServer :=
  gs_set_Meta (meta_set_Deleted test_now (gs_Meta (final_server (Some true)))) (final_server (Some true)).
Lemma TestGameServerReconciler_Reconcile_Deletion :
  (λ s, (err s, children_left (world s), exists_ KGameServer "default" "srv" (world s)))
    <$> reconcile 0 plain no_agent (with_children (with_profile deleted_server))
  = Some (None, [false; false; false], false).
Proof. vm_compute. reflexivity. Qed.
Lemma TestGameServerReconciler_Reconcile_NotFound :
  err <$> reconcile 0 plain no_agent empty_cluster = Some None.
Proof. vm_compute. reflexivity. Qed.
Lemma TestGameServerReconciler_Reconcile_ReadyStatus :
  (λ s, (err s, state_of s)) <$>
    reconcile 1 plain no_agent (put KSts (sts_of (Some 1) 1) (with_profile (final_server (Some true))))
  = Some (None, Some (stateRunning, Some "StatefulSetReady")).
Proof. vm_compute. reflexivity. Qed.

Definition load_balanced (ingress : list LoadBalancerIngress) : cluster :=
  put KSvc (child_service "srv-game" ingress) (put KGameServer newTestGameServer empty_cluster).
Definition by_ip : LoadBalancerIngress := {| lbi_IP := "10.0.0.50"; lbi_Hostname := "" |}.
Definition by_name : LoadBalancerIngress := {| lbi_IP := ""; lbi_Hostname := "mc-1.games.example.com" |}.
Lemma TestGameServerReconciler_UpdateStatus :
  map (λ ready, (λ x, let st := gs_Status x.1.1 in
         (gss_State st, map (λ c, (cond_Type c, cond_Status c)) (gss_Conditions st), gss_Endpoints st))
       <$> run_on (load_balanced [by_ip]) (updateStatus plain newTestGameServer newTestProfile ready))
    [true; false]
  = let endpoint := {| ep_Name := "game"; ep_Address := "10.0.0.50"; ep_Port := 25565 |} in
    [Some (stateRunning, [("Ready", ConditionTrue); ("AgentReachable", ConditionUnknown)], [endpoint]);
     Some (stateProvisioning, [("Ready", ConditionFalse); ("AgentReachable", ConditionUnknown)], [endpoint])].
Proof. vm_compute. reflexivity. Qed.
Definition resolved (r : GameServerReconciler) (c : cluster) (p : GameProfile) : option (list (string * string * Z)) :=
  (λ x, map (λ e, (ep_Name e, ep_Address e, ep_Port e)) x.1)
    <$> run_on c (resolveEndpoints r newTestGameServer p).
Lemma TestGameServerReconciler_ResolveEndpoints :
  let zone := reconciler "games.example.com" false in
  let dns := "srv.games.example.com" in
  resolved plain (load_balanced []) newTestProfile = Some []
  ∧ resolved plain (load_balanced [by_name]) newTestProfile = Some [("game", "mc-1.games.example.com", 25565)]
  ∧ resolved zone empty_cluster (test_profile [] [game_25565] sftp_caps)
    = Some [("game", dns, 25565); ("sftp", dns, SFTPPort)]
  ∧ resolved zone empty_cluster newTestProfile = Some [("game", dns, 25565)].
Proof. repeat split; vm_compute; reflexivity. Qed.
Lemma TestGameServerReconciler_UpdateAgentStatus :
  map (λ healthy, (λ x, let st := gs_Status x.1.1 in
         (gss_AgentVersion st, map (λ c, (cond_Status c, cond_Reason c)) (gss_Conditions st)))
       <$> run_on (put KGameServer newTestGameServer empty_cluster) (updateAgentStatus newTestGameServer "v1.2.3" healthy))
    [true; false]
  = [Some ("v1.2.3", [(ConditionTrue, "AgentHealthy")]); Some ("v1.2.3", [(ConditionFalse, "AgentUnhealthy")])].
Proof. vm_compute. reflexivity. Qed.
(** No agent answers: nothing is recorded and nothing is due. *)
Definition idle_server : GameServer := with_lifecycle 300 (Some true) newTestGameServer.
Lemma TestGameServerReconciler_CheckIdleTimeout :
  map (λ '(server, replicas), (λ x, (x.1.2.2, gss_LastActivity (gs_Status x.1.2.1)))
         <$> run_with no_agent (put KGameServer server empty_cluster) (checkIdleTimeout server (sts_of (Some replicas) 0)))
    [(newTestGameServer, 0); (idle_server, 1)]
  = [Some ((0, None), None); Some ((0, None), None)].
Proof. vm_compute. reflexivity. Qed.
Lemma TestGameServerReconciler_NoAgent :
  (λ x, x.1.2) <$> run_with no_agent empty_cluster (checkAgentHealth newTestGameServer) = Some ("", false)
  ∧ (λ x, bool_decide (x.1.2 = None)) <$> run_with no_agent empty_cluster (callAgentShutdown newTestGameServer) = Some false
  ∧ (λ x, match x.1.2 with inr _ => true | inl _ => false end)
    <$> run_with no_agent empty_cluster (getPlayerCount newTestGameServer) = Some true.
Proof. repeat split; vm_compute; reflexivity. Qed.
Definition update_failed (X : Type) (e : op X) : option X :=
  match e in op X return option X with
  | Update KGameServer _ => Some (Some (errorf "update failed"))
  | _ => None
  end.
Definition sts_get_failed (X : Type) (e : op X) : option X :=
  match e in op X return option X with
  | Get KSts _ _ => Some (inr (errorf "sts get failed"))
  | _ => None
  end.
Lemma TestGameServerReconciler_Reconcile_Errors :
  (λ s, failed (err s) "update failed") <$>
    reconcile 0 plain update_failed (put KGameServer newTestGameServer empty_cluster) = Some true
  ∧ (λ s, failed (err s) "sts get failed") <$>
    reconcile 0 plain sts_get_failed (with_profile (final_server (Some true))) = Some true.
Proof. repeat split; vm_compute; reflexivity. Qed.

(** *** Stopping and starting *)
Definition running_cluster (auto : option bool) (replicas ready : Z) : cluster :=
  put KSts (sts_of (Some replicas) ready) (with_profile (final_server auto)).
Lemma TestGameServerReconciler_Reconcile_AutoStart :
  (λ s, (err s, length (FleetTests.shutdowns (calls s)), replicas_of s, state_of s))
    <$> reconcile 0 plain nothing (running_cluster (Some false) 1 1)
    = Some (None, 1%nat, Some (Some 0), Some (stateStopped, Some "AutoStartDisabled"))
  ∧ (λ s, (err s, fst <$> state_of s)) <$> reconcile 0 plain FleetTests.no_dial (running_cluster (Some false) 1 1)
    = Some (None, Some stateStopped)
  ∧ (λ s, (err s, replicas_of s, fst <$> state_of s)) <$> reconcile 0 plain no_agent (running_cluster (Some true) 0 0)
    = Some (None, Some (Some 1), Some stateProvisioning)
  ∧ (λ s, (err s, replicas_of s, fst <$> state_of s)) <$> reconcile 0 plain no_agent (running_cluster None 1 0)
    = Some (None, Some (Some 1), Some stateProvisioning).
Proof. repeat split; vm_compute; reflexivity. Qed.
End ServerTests.

(** ** [metrics_test.go], [prometheus_detection_test.go], [servicemonitor_test.go], [sftp_test.go] *)
Module MonitoringTests.
Import ActionTests ServerTests.
#[local] Existing Instance WebhookTests.suffixed.

(** *** A registry in memory: the value of each series, after some calls *)
Definition series : Type := string * list (string * string).
Definition registry := list (series * Z).
Definition has_pair (p : string * string) (l : list (string * string)) : bool := bool_decide (p ∈ l).
Definition value_of (r : registry) (s : series) : Z :=
  match find_first (λ x, bool_decide (x.1 = s)) r with Some (_, v) => v | None => 0 end.
Definition set_series (s : series) (v : Z) (r : registry) : registry :=
  (s, v) :: filter (λ x, x.1 ≠ s) r.
Definition observe (r : registry) (v : event op) : registry :=
  match v with
  | Ev e _ =>
      match e with
      | GaugeSet g labels v => set_series (g, labels) v r
      | GaugeDeletePartial g labels =>
          filter (λ x, (negb ((x.1.1 =s g) && forallb (λ p, has_pair p x.1.2) labels)) = true) r
      | CounterInc c labels => set_series (c, labels) (value_of r (c, labels) + 1) r
      | _ => r
      end
  end.
Definition registered (r : registry) (t : list (event op)) : registry := fold_left observe t r.
Definition recorded {A} (p : M A) : option registry :=
  (λ x, registered [] x.1.1) <$> run_with nothing empty_cluster p.
Definition state_series (st : string) : series :=
  (gameServersGauge, [("namespace", "default"); ("profile", "mc"); ("server", "srv"); ("state", st)]).
Definition server_series (g : string) : series := (g, [("namespace", "default"); ("server", "srv")]).
Definition gauges (r : registry) : list Z :=
  map (value_of r) [state_series stateProvisioning; state_series stateRunning;
                    server_series playersOnlineGauge; server_series playerCapacityGauge].
Definition seen_in (st : string) (players capacity : Z) : GameServer :=
  gs_set_Status {| gss_State := st; gss_Players := players; gss_PlayerCapacity := capacity; gss_AgentVersion := "";
                   gss_LastActivity := None; gss_Endpoints := []; gss_Conditions := [] |} newTestGameServer.
Lemma TestRecordGameServerMetrics :
  gauges <$> recorded (recordGameServerMetrics (seen_in stateRunning 3 20)) = Some [0; 1; 3; 20]
  ∧ gauges <$> recorded (recordGameServerMetrics (seen_in stateProvisioning 0 0) ;;;
                          recordGameServerMetrics (seen_in stateRunning 0 0)) = Some [0; 1; 0; 0]
  ∧ gauges <$> recorded (recordGameServerMetrics (seen_in stateRunning 0 0) ;;;
                          deleteGameServerMetrics "default" "srv") = Some [0; 0; 0; 0].
Proof. repeat split; vm_compute; reflexivity. Qed.
Definition executions (action result : string) (r : registry) : Z :=
  value_of r (actionExecutionsTotal, [("action", action); ("result", result)]).
Lemma TestObserveActionExecution :
  executions "backup" "Succeeded" <$> recorded (observeActionExecution "backup" "Succeeded" ;;;
                                                 observeActionExecution "backup" "Succeeded") = Some 2.
Proof. vm_compute. reflexivity. Qed.
Lemma TestGameServerReconciler_Reconcile_Metrics :
  (λ s, gauges (registered [] (calls s))) <$> reconcile 0 plain no_agent (with_profile (final_server (Some true)))
    = Some [1; 0; 0; 0]
  ∧ (λ s, gauges (registered [(state_series stateRunning, 1); (server_series playersOnlineGauge, 4)] (calls s)))
      <$> reconcile 0 plain no_agent (with_profile deleted_server) = Some [0; 0; 0; 0].
Proof. repeat split; vm_compute; reflexivity. Qed.
(** Its target is missing: rejected, and counted once in two reconciliations. *)
Lemma TestActionExecutionReconciler_Reconcile_TerminalStateIncrementsCounter :
  (λ x, executions "backup" "Rejected" (registered [] x.1.1))
    <$> run_with nothing (put KExec (execution "exec-metrics" "missing-server" "backup" None ActionExecutionPending None)
                            empty_cluster)
          (ae_Reconcile "default" "exec-metrics" ;;; ae_Reconcile "default" "exec-metrics")
  = Some 1.
Proof. vm_compute. reflexivity. Qed.

(** *** Detection *)
Definition prometheusCRD : cluster → cluster :=
  put KCrd {| crd_Meta := new_meta "servicemonitors.monitoring.coreos.com" "" None |}.
Definition detect (c : cluster) (d : Detection) : option (Detection * bool) :=
  fst <$> run_on c (DetectPrometheusOperator d).
Lemma TestDetectPrometheusOperator :
  (λ x, (x.2, IsPrometheusOperatorDetected x.1)) <$> detect (prometheusCRD empty_cluster) ResetPrometheusDetection
    = Some (true, true)
  ∧ (λ x, (x.2, IsPrometheusOperatorDetected x.1)) <$> detect empty_cluster ResetPrometheusDetection = Some (false, false)
  ∧ snd <$> (detect (prometheusCRD empty_cluster) ResetPrometheusDetection ≫= λ x, detect empty_cluster x.1) = Some true
  ∧ IsPrometheusOperatorDetected ResetPrometheusDetection = false.
Proof. repeat split; vm_compute; reflexivity. Qed.

(** *** ServiceMonitors *)
Definition profileWithObservability (path interval : string) : GameProfile :=
  observed_profile [] [game_25565] None (Some {|
    obs_AgentMetrics := Some {| am_Port := 9090; am_Path := path |};
    obs_ServiceMonitor := Some {| sms_Enabled := true; sms_Interval := interval |} |}).
Definition monitored_cluster (p : GameProfile) (c : cluster) : cluster :=
  put KGameServer (final_server (Some true)) (put KGameProfile p c).
Definition monitor (c : cluster) := reads (λ m, (sm_Selector m, sm_Endpoints m, om_Controller (sm_Meta m)))
  (get KServiceMonitor "default" "srv" c).
Definition agent_ports (c : cluster) := reads (λ s, map (λ p, (sp_Name p, sp_Port p)) (svc_Ports s))
  (get KSvc "default" "srv-agent" c).
Definition warnings (t : list (event op)) : list string :=
  omap (λ v, match v with Ev e _ => match e with RecordEvent _ "Warning" reason _ => Some reason | _ => None end end) t.
Definition observed : GameProfile := profileWithObservability "/agent-metrics" "15s".
Lemma TestReconcileServiceMonitor :
  (λ s, (err s, monitor (world s), agent_ports (world s)))
    <$> reconcile 0 plain no_agent (monitored_cluster observed (prometheusCRD empty_cluster))
    = Some (None,
        Some (buildGameServerLabels newTestGameServer observed,
              [{| sme_Port := agentMetricsPortName; sme_Path := "/agent-metrics"; sme_Interval := "15s" |}],
              Some ("GameServer", "srv")),
        Some [(AgentPortName, AgentGRPCPort); (agentMetricsPortName, 9090)])
  ∧ (λ s, (err s, monitor (world s), warnings (calls s)))
      <$> reconcile 0 (reconciler "" true) no_agent (monitored_cluster observed empty_cluster)
    = Some (None, None, ["PrometheusOperatorNotDetected"])
  ∧ (λ s, (err s, monitor (world s), agent_ports (world s)))
      <$> reconcile 0 plain no_agent (monitored_cluster newTestProfile (prometheusCRD empty_cluster))
    = Some (None, None, Some [(AgentPortName, AgentGRPCPort)]).
Proof. repeat split; vm_compute; reflexivity. Qed.
Definition stale_monitor : ServiceMonitor :=
  {| sm_Meta := server_meta "srv"; sm_Selector := ∅; sm_Endpoints := [] |}.
Lemma TestReconcileServiceMonitor_RemovedWhenProfileDisablesIt :
  (λ x, (x.1.2, monitor x.2)) <$> run_on (put KServiceMonitor stale_monitor empty_cluster)
    (reconcileServiceMonitor false ResetPrometheusDetection newTestGameServer newTestProfile labels)
  = Some (None, None).
Proof. vm_compute. reflexivity. Qed.
Lemma TestReconcileServiceMonitor_DefaultPathAndInterval :
  snd <$> buildServiceMonitorSpec (profileWithObservability "" "") {["k" := "v"]}
  = Some [{| sme_Port := agentMetricsPortName; sme_Path := "/metrics"; sme_Interval := "" |}].
Proof. vm_compute. reflexivity. Qed.

(** *** SFTP secrets, with the random numbers the source draws *)
Definition sftpCapableProfile : GameProfile := test_profile [] [game_25565] sftp_caps.
Definition drawing (n : Z) (X : Type) (e : op X) : option X :=
  match e in op X return option X with RandInt _ => Some (inl n) | _ => None end.
Definition sftp_secret (c : cluster) : option Secret := reads id (get KSecret "default" (SFTPSecretName "srv") c).
Definition ensured (n : Z) (c : cluster) : option cluster :=
  match run_with (drawing n) c (ensureSFTPSecret newTestGameServer sftpCapableProfile) with
  | Some (_, None, c) => Some c
  | _ => None
  end.
Definition password (c : cluster) : option string := sftp_secret c ≫= λ s, sec_Data s !! SFTPPasswordKey.
Lemma TestGenerateSFTPPassword :
  (λ x, match x.1.2 with inl p => (String.length p, str_forall in_alphabet p) | inr _ => (0%nat, false) end)
    <$> run_with (drawing 61) empty_cluster generateSFTPPassword = Some (Z.to_nat sftpPasswordLength, true).
Proof. vm_compute. reflexivity. Qed.
Lemma TestEnsureSFTPSecret :
  ((ensured 7 empty_cluster ≫= sftp_secret) ≫= λ s,
     Some (sec_Data s !! SFTPUsernameKey, String.length <$> sec_Data s !! SFTPPasswordKey,
           (λ j, Contains j (st_MountPath (gp_Storage (gp_Spec sftpCapableProfile)))) <$> sec_Data s !! SFTPUsersKey,
           om_Controller (sec_Meta s)))
    = Some (Some SFTPUsername, Some (Z.to_nat sftpPasswordLength), Some true, Some ("GameServer", "srv"))
  ∧ (ensured 7 empty_cluster ≫= ensured 9) ≫= password = ensured 7 empty_cluster ≫= password
  ∧ bool_decide ((ensured 7 empty_cluster ≫= λ c, (run_on c (call (Delete KSecret "default" (SFTPSecretName "srv"))))
                    ≫= λ x, ensured 9 x.2) ≫= password = ensured 7 empty_cluster ≫= password) = false.
Proof. repeat split; vm_compute; reflexivity. Qed.

(** *** Image pull secrets, from [gameserver_controller_test.go] *)
Definition pull_secret (ns : string) (labels : option (gmap string string)) (text : string) : Secret := {|
  sec_Meta := new_meta "harbor-docker-pull" ns labels; sec_Type := "kubernetes.io/dockerconfigjson";
  sec_Data := {[".dockerconfigjson" := text]} |}.
Definition pulled (secrets : list Secret) (ns : string)
    : option (bool * option (option string * option string)) :=
  (λ x, (bool_decide (x.1 = None),
         reads (λ s, (sec_Data s !! ".dockerconfigjson", gm_lookup (om_Labels (sec_Meta s)) "minato.io/replicated-from"))
           (get KSecret ns "harbor-docker-pull" x.2)))
    <$> run_on (with_objects KSecret secrets empty_cluster)
      (ensureImagePullSecrets {| gsr_OperatorNamespace := "minato"; gsr_ImagePullSecrets := ["harbor-docker-pull"];
                                 gsr_ExternalDNSZone := ""; gsr_Recorder := false |} ns).
Definition source : Secret := pull_secret "minato" None "{auths}".
Lemma TestEnsureImagePullSecrets :
  pulled [source] "tenant-1" = Some (true, Some (Some "{auths}", Some "minato"))
  ∧ pulled [source; pull_secret "tenant-1" None "{custom}"] "tenant-1" = Some (true, Some (Some "{custom}", None))
  ∧ pulled [source; pull_secret "tenant-1" (Some {["minato.io/replicated-from" := "minato"]}) "{stale}"] "tenant-1"
    = Some (true, Some (Some "{auths}", Some "minato"))
  ∧ fst <$> pulled [source] "minato" = Some true
  ∧ fst <$> pulled [] "tenant-1" = Some false.
Proof. repeat split; vm_compute; reflexivity. Qed.
End MonitoringTests.
